(* ===== verification/_CoqProject ===== *)
-Q . S2P
Prelude.v
CString.v
FrameAlloc.v
Bitmap.v
Pmm.v
Vmm.v
VmmWf.v
VmmSpec.v
VmmRange.v
VmmProps.v
Heap.v
HeapSlab.v
HeapMap.v
HeapList.v
HeapInv.v
HeapOps.v
HeapApi.v
HeapRefine.v
HeapProps.v
Sched.v
SchedRing.v
SchedInv.v
SchedRun.v
SchedCreate.v
SchedProps.v
Vfs.v
RamfsFile.v
VfsDir.v
VfsPath.v
VfsFd.v
VfsProps.v
Net.v
NetSum.v
NetTx.v
NetIp.v
NetProps.v
Elf.v
ElfMap.v
ElfProps.v
Printf.v
PrintfProps.v
Proc.v
Ports.v
Irq.v
IrqProps.v
Ring.v
Kbd.v
Mouse.v
Syscall.v
SyscallProps.v
Rtc.v
Gdt.v
Ata.v
AtaDisk.v
AtaProps.v
Console.v
ConsoleProps.v
Pci.v
PciProps.v
Gfx.v
GfxProps.v
Acpi.v
AcpiProps.v
Rtl.v
Apic.v
ApicProps.v
Boot.v
StartFrames.v
BootProps.v
Shell.v
ShellLine.v
ShellProps.v
Nvme.v
NvmeProps.v
Ahci.v
AhciProps.v
Hda.v
Locks.v
Entry.v
Start.v
