(* ===== verification/Prelude.v ===== *)
(** * DevOS: a verification development

    DevOS is a kernel for x86_64 in C with some assembly.  This library models it
    as a shallow embedding: a C function is a Rocq function on the explicit state
    of its component, and the theorems are about those functions.

    ** How the program is modelled

    - Machine integers are [Z]; every wrap-around of the source is written out
      ([u8] ... [i64] of this file).  Signed [int] arithmetic that would overflow
      is [None] where it can happen (Gfx).
    - A static array is a function with bounds-checked access ([aget], [aset]).
      Byte memory is [mem], a function from addresses to bytes; structures that
      live in it are read and written field by field, little-endian.  Structures
      that are only reached through pointers (tasks, processes, nodes, files,
      headers of heap blocks) are records in a finite map keyed by their address.
    - A fallible function is in the option monad.  [None] is what the source
      leaves undefined: access outside an array, a NULL or stale pointer, a
      division by zero; or fuel that ran out.  It is undefined in C, not always a
      trap: the kernel's tables map page 0, so there a store through NULL goes
      into that page and the code goes on.  A panic is [Halted] of
      [boot_result] (Vmm).  Error codes are returned as the source returns them.
    - The kernel clears frames and writes page tables at their physical addresses,
      which its own tables map up to 2 MB and those of a process do not.  Where a
      frame lies is part of the model of the start ([kmain_core] is [None] when a
      frame it takes is not mapped) and of [sys_mmap] and [sys_munmap]; the other
      models take physical memory as reachable.
    - A loop is a [Fixpoint].  Where the number of rounds is known (an array, a
      page count, a timeout) it is the recursion argument; otherwise the fuel is
      an argument, and the theorems state how much is enough: the number of bytes
      for strings, the length of the table in Acpi, the longer side plus one for
      lines, the bytes the controller holds for the keyboard.
    - Hardware is a parameter.  Ports, memory-mapped registers and devices that
      access memory themselves are the classes [PortIO], [MmioIO] and [DmaIO]
      (Ports); what a driver relies on is a class of laws ([AtaChannel], [PicPair],
      [Uart], [PciHost], [IoapicChips], [KbPort], [NvmeDisk], [AhciDisk]) with an
      instance that is run in the witnesses.  The CMOS clock is a reader.
    - The kernel runs on one processor.  Interrupt handlers are functions on the
      state and operations compose one after the other: the kernel masks
      interrupts ([irq_save]) where a handler would interfere.  The spin locks,
      which no source file uses yet, are a transition system of their own (Locks).
    - Progress messages on the serial line are left out of the models.

    ** The parts

    Library routines: CString (kernel/lib/string.c), Printf, PrintfProps
    (kernel/lib/printf.c against a formatter without buffers).

    Memory: FrameAlloc is the interface [FrameAllocator] between the frame
    allocator and its clients; Bitmap and Pmm (kernel/mm/pmm.c) implement it.  Vmm
    is kernel/mm/vmm.c and vmm_ext.c; VmmWf has the well-formedness of page tables
    (every table has one owner and one path), VmmSpec, VmmRange, VmmProps what the
    operations do to translations.  Heap is kernel/mm/heap.c; HeapSlab, HeapMap,
    HeapList, HeapInv, HeapOps, HeapApi, HeapRefine, HeapProps lead to the
    refinement of a map from blocks to contents.

    Tasks: Sched is kernel/sched/sched.c and sched_switch.asm; SchedRing the run
    queue as a ring, SchedInv the invariant, SchedRun ticks as a round robin,
    SchedCreate task creation over the heap, SchedProps the properties.  Proc is
    kernel/proc/proc.c.

    Files: Vfs is kernel/fs/vfs.c and ramfs.c; RamfsFile, VfsDir, VfsPath, VfsFd,
    VfsProps show files as byte sequences, directories as lists of entries, the
    mount table and descriptors.

    Programs: Elf, ElfMap, ElfProps are kernel/elf/elf.c.  Syscall and SyscallProps
    are kernel/syscall/syscall.c, syscall_entry.asm and timer.c.  Shell,
    ShellLine and ShellProps are kernel/shell/shell.c: the model, the line editor
    and the words, the commands.

    Network: Net is kernel/drivers/net (netdev, ethernet, arp, ipv4, icmp); NetSum,
    NetTx, NetIp, NetProps follow a packet in and out.  Rtl is the driver
    rtl8139.c.

    Processor and interrupts: Gdt (gdt.c), Irq, IrqProps (idt.c, irq.c), Entry
    (idt_stubs.asm and ring3.asm, over the registers and the stack), Apic,
    ApicProps (apic.c, ioapic.c), Acpi, AcpiProps (kernel/acpi/acpi.c), Locks
    (kernel/include/spinlock.h).

    Devices: Ports; Ring, Kbd, Mouse (keyboard.c, mouse.c), Rtc (rtc.c), Ata,
    AtaDisk, AtaProps (ata.c, block.c), Nvme, NvmeProps (nvme.c), Ahci, AhciProps
    (ahci.c), Hda (hda.c), Console, ConsoleProps (serial.c, vga.c, console.c), Pci,
    PciProps (pci.c), Gfx, GfxProps (framebuffer.c, gfx.c).

    Start-up: Boot and BootProps are kernel/kmain.c up to the point where
    interrupts are enabled, StartFrames has which frames that takes, Start is the
    rest and the whole of [kmain].

    ** What the theorems show

    - Memory: after boot exactly the usable frames are free; allocation is
      exclusive; mapping then translating gives the mapped frame and changes no
      other page or address space; the heap refines an allocator of disjoint
      blocks that keep their contents.
    - Tasks: a tick is a step of round robin, no queued task starves, the run
      queue stays a ring of the ready tasks, a new task starts at its entry; a
      process goes from creation to its parent's wait.
    - Files: writes are read back, directories refine lists of entries; which
      paths resolve.
    - System calls: user buffers are checked, registers survive a call unless
      another call intervenes.
    - Interrupts: through stub, dispatcher and return an interrupt is transparent
      to the program, where the stub and the processor agree on the error code.
    - Shell: every line typed is edited and split as a reference says, and twelve
      of the sixteen commands print what a reference says.  The keys are a list:
      waiting for one is not part of the model.
    - Locks: mutual exclusion and progress under every interleaving.
    - Devices: queues, round trips through three kinds of disk, the screen as the end of an
      unbounded terminal, completeness of the bus scan, lines within half a pixel,
      routing of interrupts, tables read back, termination of polling.
    - Composition: [kmain_core_ready] chains the start-up functions, each theorem
      supplying what the next one assumes, and [kmain_shell_starts] is its end.
    - Faults: some theorems state what the code does where that is not what it
      means to do (a received frame divides by zero, blocking the running task
      unlinks a task that is not queued through its NULL links, memory cannot be
      mapped in a process, pings of some lengths are dropped, only the root mount
      is found, requests for this host's address are not answered, disk transfers
      go to the wrong page or sector).

    ** Not modelled

    - boot/bios, userland/test.asm and boot_entry.asm: code that switches processor
      modes, calls the firmware or is a guest of the kernel; none of it has state
      the other parts refer to, besides the boot information, which is an argument.
    - The instructions that load descriptor tables, segment registers and the
      task register (gdt.c, idt.c): the tables they load are modelled.
    - kernel/include/panic.h, by the convention above; the message of rtc_init; the
      listing of the memory map in kmain.c, which only writes messages; usb.h, which
      only declares. *)
From stdpp Require Import prelude gmap.
From Stdlib Require Import ZArith Lia.

#[global] Open Scope Z_scope.

(** ** Machine integers

    A C integer of width [w] is the [Z] it denotes; a cast or an unsigned
    operation that can leave the range is followed by the wrap written here. *)

Definition u8 (x : Z) : Z := x mod 2 ^ 8.
Definition u16 (x : Z) : Z := x mod 2 ^ 16.
Definition u32 (x : Z) : Z := x mod 2 ^ 32.
Definition u64 (x : Z) : Z := x mod 2 ^ 64.
Definition i8 (x : Z) : Z := (x + 2 ^ 7) mod 2 ^ 8 - 2 ^ 7.
Definition i32 (x : Z) : Z := (x + 2 ^ 31) mod 2 ^ 32 - 2 ^ 31.
Definition i64 (x : Z) : Z := (x + 2 ^ 63) mod 2 ^ 64 - 2 ^ 63.

Definition PAGE_SIZE : Z := 4096.

(** [ALIGN_UP] and [ALIGN_DOWN] of types.h, on 64-bit operands. *)
Definition ALIGN_UP (x a : Z) : Z := Z.land (u64 (x + a - 1)) (u64 (Z.lnot (a - 1))).
Definition ALIGN_DOWN (x a : Z) : Z := Z.land (u64 x) (u64 (Z.lnot (a - 1))).

(** ** Arrays and byte memory

    A C array is a total function of its index together with its length: every
    access goes through [aget] and [aset], which fail outside the bounds. *)

Definition upd {A} (f : Z → A) (i : Z) (v : A) : Z → A :=
  λ j, if Z.eqb j i then v else f j.

Definition aget {A} (n : Z) (f : Z → A) (i : Z) : option A :=
  if (0 <=? i) && (i <? n) then Some (f i) else None.

Definition aset {A} (n : Z) (f : Z → A) (i : Z) (v : A) : option (Z → A) :=
  if (0 <=? i) && (i <? n) then Some (upd f i v) else None.

(** Byte-addressed memory; multi-byte accesses are little-endian. *)
Abbreviation mem := (Z → Z).

Fixpoint load_le (n : nat) (m : mem) (a : Z) : Z :=
  match n with
  | O => 0
  | S n' => m a + 256 * load_le n' m (a + 1)
  end.

Fixpoint store_le (n : nat) (m : mem) (a v : Z) : mem :=
  match n with
  | O => m
  | S n' => store_le n' (upd m a (u8 v)) (a + 1) (v / 256)
  end.

(** The bytes [l] stored from [a] on. *)
Fixpoint store_list (m : mem) (a : Z) (l : list Z) : mem :=
  match l with
  | [] => m
  | x :: l' => store_list (upd m a x) (a + 1) l'
  end.

Definition load64 : mem → Z → Z := load_le 8.
Definition store64 : mem → Z → Z → mem := store_le 8.

(** [__builtin_ctzll]: index of the lowest set bit of a non-zero 64-bit word. *)
Fixpoint ctz_from (fuel : nat) (i x : Z) : Z :=
  match fuel with
  | O => i
  | S f => if Z.testbit x i then i else ctz_from f (i + 1) x
  end.

Definition ctzll (x : Z) : Z := ctz_from 64 0 x.

(** Number of elements of [l] that satisfy [P]. *)
Fixpoint countb {A} (P : A → bool) (l : list A) : Z :=
  match l with
  | [] => 0
  | x :: l' => (if P x then 1 else 0) + countb P l'
  end.

(** The value of the first element of [l] on which [f] is defined. *)
Fixpoint find_some {A B} (f : A → option B) (l : list A) : option B :=
  match l with
  | [] => None
  | x :: l' => match f x with Some y => Some y | None => find_some f l' end
  end.

#[global] Arguments Z.land : simpl never.
#[global] Arguments Z.lor : simpl never.
#[global] Arguments Z.lnot : simpl never.
#[global] Arguments Z.shiftl : simpl never.
#[global] Arguments Z.shiftr : simpl never.
Arguments u8 : simpl never.
Arguments u16 : simpl never.
Arguments u32 : simpl never.
Arguments u64 : simpl never.
Arguments i8 : simpl never.
Arguments i32 : simpl never.
Arguments i64 : simpl never.
Arguments ALIGN_UP : simpl never.
Arguments ALIGN_DOWN : simpl never.
Arguments load64 : simpl never.
Arguments store64 : simpl never.

(** ** Automation *)

Create HintDb devos.

(** Case on every boolean test of the goal and of the hypotheses. *)
Ltac bool_cases :=
  repeat match goal with
  | |- context [Z.eqb ?x ?y] => destruct (Z.eqb_spec x y)
  | |- context [Z.ltb ?x ?y] => destruct (Z.ltb_spec x y)
  | |- context [Z.leb ?x ?y] => destruct (Z.leb_spec x y)
  | H : context [Z.eqb ?x ?y] |- _ => destruct (Z.eqb_spec x y)
  | H : context [Z.ltb ?x ?y] |- _ => destruct (Z.ltb_spec x y)
  | H : context [Z.leb ?x ?y] |- _ => destruct (Z.leb_spec x y)
  end.

(** [Z] goals that mention the wrap functions and the page size. *)
Ltac word_lia :=
  unfold u8, u16, u32, u64, PAGE_SIZE in *; Z.to_euclidean_division_equations; lia.

(** Invert the [option] binds in the hypotheses. *)
Ltac inv_bind :=
  repeat match goal with
  | H : (_ ≫= _) = Some _ |- _ => apply bind_Some in H; destruct H as (? & ? & H)
  | H : Some _ = Some _ |- _ => injection H as H; simplify_eq
  | H : None = Some _ |- _ => discriminate H
  | H : (_, _) = (_, _) |- _ => injection H as H; simplify_eq
  | x : (_ * _)%type |- _ => destruct x; simpl in *
  end.

(** Take apart a computation that succeeded, following its branches. *)
Ltac steps :=
  repeat match goal with
  | H : (_ ≫= _) = Some _ |- _ => apply bind_Some in H; destruct H as (? & ? & H)
  | x : (_ * _)%type |- _ => destruct x
  | H : Some _ = Some _ |- _ => apply (inj Some) in H; subst
  | H : None = Some _ |- _ => discriminate H
  | H : (_, _) = (_, _) |- _ => apply pair_eq in H; destruct H; subst
  | H : (if ?b then _ else _) = Some _ |- _ => destruct b
  | H : match ?x with _ => _ end = Some _ |- _ => destruct x
  end.

(** ** Lemmas on integers *)

Lemma u64_small x : 0 ≤ x < 2 ^ 64 → u64 x = x.
Proof. unfold u64. apply Z.mod_small. Qed.

Lemma u64_range x : 0 ≤ u64 x < 2 ^ 64.
Proof. unfold u64. apply Z.mod_pos_bound. lia. Qed.

Lemma u32_small x : 0 ≤ x < 2 ^ 32 → u32 x = x.
Proof. unfold u32. apply Z.mod_small. Qed.

Lemma u16_small x : 0 ≤ x < 2 ^ 16 → u16 x = x.
Proof. unfold u16. apply Z.mod_small. Qed.

Lemma u8_small x : 0 ≤ x < 2 ^ 8 → u8 x = x.
Proof. unfold u8. apply Z.mod_small. Qed.

Lemma u8_range x : 0 ≤ u8 x < 256.
Proof. unfold u8. apply (Z.mod_pos_bound x (2 ^ 8)). lia. Qed.

#[export] Hint Resolve u64_range u8_range : devos.

Lemma testbit_high x n i : 0 ≤ x < 2 ^ n → 0 ≤ n ≤ i → Z.testbit x i = false.
Proof.
  intros Hx Hi. rewrite <-(Z.mod_small x (2 ^ n)) by done.
  apply Z.mod_pow2_bits_high. lia.
Qed.

(** A 64-bit word cleared of its [k] low bits. *)
Lemma land_lnot_low x k :
  0 ≤ x < 2 ^ 64 → 0 ≤ k ≤ 63 → Z.land x (u64 (Z.lnot (2 ^ k - 1))) = x / 2 ^ k * 2 ^ k.
Proof.
  intros Hx Hk. unfold u64.
  rewrite <-Z.land_ones by lia.
  rewrite <-Z.shiftr_div_pow2, <-Z.shiftl_mul_pow2 by lia.
  replace (2 ^ k - 1) with (Z.ones k) by (rewrite Z.ones_equiv; lia).
  apply Z.bits_inj'. intros i Hi.
  rewrite !Z.land_spec, Z.lnot_spec, Z.testbit_ones_nonneg by lia.
  rewrite Z.testbit_ones_nonneg, Z.shiftl_spec by lia.
  destruct (Z.ltb_spec i k).
  - rewrite (Z.testbit_neg_r _ (i - k)) by lia. simpl. by rewrite andb_false_r.
  - rewrite Z.shiftr_spec by lia. replace (i - k + k) with i by lia. simpl.
    destruct (Z.ltb_spec i 64); simpl; [by rewrite andb_true_r|].
    by rewrite (testbit_high x 64 i).
Qed.

Lemma ALIGN_DOWN_pow2 x k :
  0 ≤ x < 2 ^ 64 → 0 ≤ k ≤ 63 → ALIGN_DOWN x (2 ^ k) = x / 2 ^ k * 2 ^ k.
Proof. intros Hx Hk. unfold ALIGN_DOWN. rewrite u64_small by done. by apply land_lnot_low. Qed.

Lemma ALIGN_UP_pow2 x k :
  0 ≤ k ≤ 63 → 0 ≤ x → x + 2 ^ k ≤ 2 ^ 64 →
  ALIGN_UP x (2 ^ k) = (x + 2 ^ k - 1) / 2 ^ k * 2 ^ k.
Proof.
  intros Hk Hx Hr. pose proof (Z.pow_pos_nonneg 2 k ltac:(lia) ltac:(lia)).
  unfold ALIGN_UP. rewrite u64_small by lia. apply land_lnot_low; lia.
Qed.

Lemma ALIGN_DOWN_page x :
  0 ≤ x < 2 ^ 64 → ALIGN_DOWN x PAGE_SIZE = x / PAGE_SIZE * PAGE_SIZE.
Proof. intros. change PAGE_SIZE with (2 ^ 12). apply ALIGN_DOWN_pow2; lia. Qed.

Lemma ALIGN_UP_page x :
  0 ≤ x → x + PAGE_SIZE ≤ 2 ^ 64 →
  ALIGN_UP x PAGE_SIZE = (x + PAGE_SIZE - 1) / PAGE_SIZE * PAGE_SIZE.
Proof. intros. change PAGE_SIZE with (2 ^ 12) in *. apply ALIGN_UP_pow2; lia. Qed.

Lemma ctz_from_spec fuel i x :
  0 ≤ i →
  (∃ j, i ≤ j < i + Z.of_nat fuel ∧ Z.testbit x j = true) →
  i ≤ ctz_from fuel i x < i + Z.of_nat fuel
  ∧ Z.testbit x (ctz_from fuel i x) = true
  ∧ ∀ j, i ≤ j < ctz_from fuel i x → Z.testbit x j = false.
Proof.
  revert i. induction fuel as [|f IH]; intros i Hi (j & Hj & Hb); [lia|]. simpl.
  destruct (Z.testbit x i) eqn:E.
  - split_and!; [lia|lia|done|lia].
  - assert (j ≠ i) by congruence.
    destruct (IH (i + 1)) as (Hr & Ht & Hl); [lia|exists j; split; [lia|done]|].
    split_and!; [lia|lia|done|].
    intros j' Hj'. destruct (Z.eq_dec j' i) as [->|]; [done|apply Hl; lia].
Qed.

(** On a non-zero 64-bit word [ctzll] finds the lowest set bit. *)
Lemma ctzll_spec x :
  0 < x < 2 ^ 64 →
  0 ≤ ctzll x < 64 ∧ Z.testbit x (ctzll x) = true
  ∧ ∀ j, 0 ≤ j < ctzll x → Z.testbit x j = false.
Proof.
  intros Hx. apply (ctz_from_spec 64 0 x); [lia|].
  exists (Z.log2 x). split; [|apply Z.bit_log2; lia].
  pose proof (Z.log2_nonneg x). pose proof (Z.log2_lt_pow2 x 64). lia.
Qed.

(** ** Lemmas on arrays and memory *)

(** A step that succeeded, without evaluating the next one. *)
Lemma bind_some {X Y} (x : X) (f : X → option Y) : (Some x ≫= f) = f x.
Proof. done. Qed.

Lemma upd_eq {A} (f : Z → A) i v : upd f i v i = v.
Proof. unfold upd. by rewrite Z.eqb_refl. Qed.

Lemma upd_ne {A} (f : Z → A) i j v : j ≠ i → upd f i v j = f j.
Proof. unfold upd. by destruct (Z.eqb_spec j i). Qed.

Lemma aget_Some {A} n (f : Z → A) i : 0 ≤ i < n → aget n f i = Some (f i).
Proof. intros. unfold aget. bool_cases; simpl; done || lia. Qed.

Lemma aset_Some {A} n (f : Z → A) i v : 0 ≤ i < n → aset n f i v = Some (upd f i v).
Proof. intros. unfold aset. bool_cases; simpl; done || lia. Qed.

Lemma aget_None {A} n (f : Z → A) i : ¬ 0 ≤ i < n → aget n f i = None.
Proof. intros. unfold aget. bool_cases; simpl; done || lia. Qed.

Lemma store_le_outside n m a v b :
  ¬ a ≤ b < a + Z.of_nat n → store_le n m a v b = m b.
Proof.
  revert m a v. induction n as [|n IH]; intros m a v Hb; [done|]. simpl.
  rewrite IH by lia. apply upd_ne. lia.
Qed.

Lemma load_le_ext n m1 m2 a :
  (∀ b, a ≤ b < a + Z.of_nat n → m1 b = m2 b) → load_le n m1 a = load_le n m2 a.
Proof.
  revert a. induction n as [|n IH]; intros a H; [done|]. simpl.
  rewrite (H a) by lia. rewrite (IH (a + 1)); [done|]. intros. apply H. lia.
Qed.

Lemma load_store_le_eq n m a v : load_le n (store_le n m a v) a = v mod 2 ^ (8 * Z.of_nat n).
Proof.
  revert m a v. induction n as [|n IH]; intros m a v; simpl.
  - by rewrite Z.mod_1_r.
  - rewrite store_le_outside by lia. rewrite upd_eq, IH.
    unfold u8. rewrite Nat2Z.inj_succ, Z.mul_succ_r, (Z.add_comm (8 * _)).
    rewrite Z.pow_add_r by lia. change (2 ^ 8) with 256.
    rewrite Z.rem_mul_r; [lia|lia|]. apply Z.pow_pos_nonneg; lia.
Qed.

Lemma load_store_le_ne n k m a b v :
  (b + Z.of_nat k ≤ a ∨ a + Z.of_nat n ≤ b) → load_le k (store_le n m a v) b = load_le k m b.
Proof. intros H. apply load_le_ext. intros. apply store_le_outside. lia. Qed.

Lemma store_list_outside m a l b : ¬ a ≤ b < a + Z.of_nat (length l) → store_list m a l b = m b.
Proof.
  revert m a. induction l as [|x l IH]; intros m a Hb; [done|]. cbn [store_list length] in *. rewrite IH by lia. apply upd_ne. lia.
Qed.

Lemma store_list_snoc m a l x : store_list m a (l ++ [x]) = upd (store_list m a l) (a + Z.of_nat (length l)) x.
Proof.
  revert m a. induction l as [|y l IH]; intros m a; cbn [app store_list length]; [by rewrite Z.add_0_r|].
  rewrite IH. f_equal. lia.
Qed.

Lemma store_list_inside m a l i x : l !! i = Some x → store_list m a l (a + Z.of_nat i) = x.
Proof.
  revert m a i. induction l as [|y l IH]; intros m a i Hi; [done|]. destruct i as [|i]; cbn [store_list].
  - injection Hi as ->. rewrite store_list_outside by lia. rewrite Z.add_0_r. apply upd_eq.
  - replace (a + Z.of_nat (S i)) with (a + 1 + Z.of_nat i) by lia. by apply IH.
Qed.

Lemma load_store64_eq m a v : load64 (store64 m a v) a = u64 v.
Proof. apply (load_store_le_eq 8). Qed.

Lemma load_store64_ne m a b v :
  (b + 8 ≤ a ∨ a + 8 ≤ b) → load64 (store64 m a v) b = load64 m b.
Proof. intros. by apply (load_store_le_ne 8 8). Qed.

Lemma load64_ext m1 m2 a :
  (∀ b, a ≤ b < a + 8 → m1 b = m2 b) → load64 m1 a = load64 m2 a.
Proof. intros. by apply (load_le_ext 8). Qed.

Lemma load64_zero m a : (∀ b, a ≤ b < a + 8 → m b = 0) → load64 m a = 0.
Proof. intros H. rewrite (load64_ext _ (λ _, 0)); [reflexivity|done]. Qed.

Lemma store64_outside m a v b : ¬ a ≤ b < a + 8 → store64 m a v b = m b.
Proof. intros. by apply (store_le_outside 8). Qed.

(** ** Lemmas on counting *)

Lemma countb_nonneg {A} (P : A → bool) l : 0 ≤ countb P l.
Proof. induction l as [|x l IH]; simpl; [lia|destruct (P x); lia]. Qed.

Lemma countb_ext {A} (P Q : A → bool) l :
  (∀ x, x ∈ l → P x = Q x) → countb P l = countb Q l.
Proof.
  induction l as [|x l IH]; intros H; simpl; [done|].
  rewrite (H x) by set_solver. rewrite IH; [done|]. intros. apply H. set_solver.
Qed.

Lemma countb_app {A} (P : A → bool) l1 l2 : countb P (l1 ++ l2) = countb P l1 + countb P l2.
Proof. induction l1; simpl; lia. Qed.

Lemma countb_none {A} (P : A → bool) l : (∀ x, x ∈ l → P x = false) → countb P l = 0.
Proof.
  induction l as [|x l IH]; intros H; simpl; [done|].
  rewrite (H x) by set_solver. rewrite IH; [done|]. intros. apply H. set_solver.
Qed.

Lemma countb_pos {A} (P : A → bool) l : 0 < countb P l ↔ ∃ x, x ∈ l ∧ P x = true.
Proof.
  induction l as [|x l IH]; simpl.
  - split; [lia|]. intros (? & H & _). by apply not_elem_of_nil in H.
  - pose proof (countb_nonneg P l). destruct (P x) eqn:E.
    + split; [|lia]. intros _. exists x. split; [set_solver|done].
    + rewrite Z.add_0_l, IH. split; intros (y & Hy & Py); exists y.
      * split; [set_solver|done].
      * apply elem_of_cons in Hy as [->|]; [congruence|done].
Qed.

(** Two predicates that differ at one element only, where the first holds. *)
Lemma countb_drop `{EqDecision A} (P Q : A → bool) l x :
  NoDup l → x ∈ l → P x = true → Q x = false →
  (∀ y, y ∈ l → y ≠ x → P y = Q y) → countb P l = countb Q l + 1.
Proof.
  induction l as [|y l IH]; intros Hnd Hx HP HQ H; [by apply not_elem_of_nil in Hx|].
  apply NoDup_cons in Hnd as [Hy Hnd]. simpl.
  destruct (decide (y = x)) as [->|Hne].
  - rewrite HP, HQ, (countb_ext P Q l); [lia|].
    intros z Hz. apply H; [set_solver|]. intros ->. done.
  - rewrite (H y) by set_solver. rewrite IH; [lia|done|set_solver|done|done|].
    intros z Hz. apply H. set_solver.
Qed.

Lemma find_some_Some {A B} (f : A → option B) l y :
  find_some f l = Some y →
  ∃ l1 x l2, l = l1 ++ x :: l2 ∧ f x = Some y ∧ Forall (λ z, f z = None) l1.
Proof.
  induction l as [|x l IH]; simpl; [done|]. destruct (f x) eqn:E.
  - intros [= ->]. by exists [], x, l.
  - intros (l1 & z & l2 & -> & Hz & Hl)%IH. exists (x :: l1), z, l2. auto.
Qed.

Lemma find_some_None {A B} (f : A → option B) l :
  find_some f l = None ↔ ∀ x, x ∈ l → f x = None.
Proof.
  induction l as [|x l IH]; simpl.
  - split; [|done]. intros _ x Hx. by apply not_elem_of_nil in Hx.
  - destruct (f x) eqn:E.
    + split; [done|]. intros H. rewrite (H x) in E by set_solver. done.
    + rewrite IH. split.
      * intros H z Hz. apply elem_of_cons in Hz as [->|]; auto.
      * intros H z Hz. apply H. set_solver.
Qed.

(** A test of one bit. *)
Lemma land_bit x k : 0 ≤ k → (Z.land x (2 ^ k) =? 0) = negb (Z.testbit x k).
Proof.
  intros Hk. destruct (Z.eqb_spec (Z.land x (2 ^ k)) 0) as [E|E]; symmetry.
  - apply (f_equal (λ z, Z.testbit z k)) in E. rewrite Z.land_spec, Z.pow2_bits_true, Z.bits_0, andb_true_r in E by done. by rewrite E.
  - apply negb_false_iff, not_false_is_true. intros Hb. apply E. apply Z.bits_inj'. intros i Hi. rewrite Z.land_spec, Z.bits_0.
    destruct (decide (i = k)) as [->|]; [by rewrite Hb|]. by rewrite Z.pow2_bits_false, andb_false_r by done.
Qed.

(** Or-ing a number into the zeros below bit [k]. *)
Lemma lor_low x y k : 0 ≤ k → 0 ≤ y < 2 ^ k → Z.lor (x * 2 ^ k) y = x * 2 ^ k + y.
Proof.
  intros Hk Hy. rewrite <-Z.shiftl_mul_pow2 by done.
  assert (Z.land (Z.shiftl x k) y = 0) as E.
  { apply Z.bits_inj'. intros i Hi. rewrite Z.land_spec, Z.bits_0, Z.shiftl_spec by done.
    destruct (decide (i < k)); [by rewrite Z.testbit_neg_r by lia|]. by rewrite (testbit_high y k), andb_false_r by lia. }
  by rewrite <-Z.lxor_lor, Z.add_nocarry_lxor.
Qed.

(** A statement about the numbers below [n], checked by evaluation. *)
Lemma check_range (P : Z → bool) n : forallb P (seqZ 0 n) = true → ∀ v, 0 ≤ v < n → P v = true.
Proof. intros Hp v Hv. rewrite forallb_forall in Hp. apply Hp, list_elem_of_In, elem_of_seqZ. lia. Qed.
