(* ===== verification/CString.v ===== *)
(** Model of kernel/lib/string.c: the block and string routines every other
    component of the kernel calls.  A routine that writes takes and returns the
    byte memory; a [const char *] that is only read is its reader, the function
    from offsets to bytes ([at_ptr m p] for a pointer into memory, [lit l] for
    the string whose bytes are [l] followed by NUL).  Loops that stop at a NUL
    carry fuel and answer [None] when it runs out; the theorems give the fuel
    that is enough. *)
From stdpp Require Import prelude.
From S2P Require Import Prelude.

(** ** Block routines *)

(** [while (n--) *p++ = v;] *)
Fixpoint memset_loop (n : nat) (p v : Z) (m : mem) : mem :=
  match n with
  | O => m
  | S n' => memset_loop n' (p + 1) v (upd m p v)
  end.

Definition memset (dst c n : Z) (m : mem) : mem := memset_loop (Z.to_nat n) dst (u8 c) m.

(** [while (n--) *d++ = *s++;] *)
Fixpoint copy_fwd (n : nat) (d s : Z) (m : mem) : mem :=
  match n with
  | O => m
  | S n' => copy_fwd n' (d + 1) (s + 1) (upd m d (m s))
  end.

Definition memcpy (dst src n : Z) (m : mem) : mem := copy_fwd (Z.to_nat n) dst src m.

(** [d += n; s += n; while (n--) *--d = *--s;] *)
Fixpoint copy_bwd (n : nat) (d s : Z) (m : mem) : mem :=
  match n with
  | O => m
  | S n' => copy_bwd n' d s (upd m (d + Z.of_nat n') (m (s + Z.of_nat n')))
  end.

Definition memmove (dst src n : Z) (m : mem) : mem :=
  if dst <? src then copy_fwd (Z.to_nat n) dst src m
  else copy_bwd (Z.to_nat n) dst src m.

Fixpoint memcmp_loop (n : nat) (p q : Z → Z) (i : Z) : Z :=
  match n with
  | O => 0
  | S n' => if p i =? q i then memcmp_loop n' p q (i + 1) else p i - q i
  end.

Definition memcmp (a b : Z → Z) (n : Z) : Z := memcmp_loop (Z.to_nat n) a b 0.

(** ** String routines *)

Definition at_ptr (m : mem) (p : Z) : Z → Z := λ i, m (p + i).

Definition lit (l : list Z) : Z → Z := λ i, if 0 <=? i then default 0 (l !! Z.to_nat i) else 0.

Fixpoint strlen_loop (fuel : nat) (s : Z → Z) (n : Z) : option Z :=
  match fuel with
  | O => None
  | S f => if s n =? 0 then Some n else strlen_loop f s (n + 1)
  end.

Definition strlen (fuel : nat) (s : Z → Z) : option Z := strlen_loop fuel s 0.

Fixpoint strcmp_loop (fuel : nat) (a b : Z → Z) (i : Z) : option Z :=
  match fuel with
  | O => None
  | S f =>
      if negb (a i =? 0) && (a i =? b i) then strcmp_loop f a b (i + 1)
      else Some (u8 (a i) - u8 (b i))
  end.

Definition strcmp (fuel : nat) (a b : Z → Z) : option Z := strcmp_loop fuel a b 0.

(** [while (n-- && *a && *a == *b) { a++; b++; }]: the offset reached and the
    value of [n] on exit; the test of [n = 0] leaves [n] wrapped to [2^64 - 1]. *)
Fixpoint strncmp_loop (n : nat) (a b : Z → Z) (i : Z) : Z * Z :=
  match n with
  | O => (i, u64 (0 - 1))
  | S n' =>
      if negb (a i =? 0) && (a i =? b i) then strncmp_loop n' a b (i + 1)
      else (i, Z.of_nat n')
  end.

Definition strncmp (a b : Z → Z) (n : Z) : Z :=
  let '(i, n') := strncmp_loop (Z.to_nat n) a b 0 in
  if n' =? 0 then 0 else u8 (a i) - u8 (b i).

(** [while (( *d++ = *src++));] *)
Fixpoint strcpy_loop (fuel : nat) (d s : Z) (m : mem) : option mem :=
  match fuel with
  | O => None
  | S f =>
      let v := m s in
      let m' := upd m d v in
      if v =? 0 then Some m' else strcpy_loop f (d + 1) (s + 1) m'
  end.

Definition strcpy (fuel : nat) (dst src : Z) (m : mem) : option mem :=
  strcpy_loop fuel dst src m.

(** [while (n && ( *d++ = *src++)) n--;]: what is left of [n], the destination
    reached and the memory. *)
Fixpoint strncpy_loop (n : nat) (d s : Z) (m : mem) : nat * Z * mem :=
  match n with
  | O => (O, d, m)
  | S n' =>
      let v := m s in
      let m' := upd m d v in
      if v =? 0 then (n, d + 1, m') else strncpy_loop n' (d + 1) (s + 1) m'
  end.

Definition strncpy (dst src n : Z) (m : mem) : mem :=
  let '(n', d', m') := strncpy_loop (Z.to_nat n) dst src m in
  memset_loop n' d' 0 m'.

Fixpoint strchr_loop (fuel : nat) (s : Z → Z) (c i : Z) : option (option Z) :=
  match fuel with
  | O => None
  | S f =>
      if s i =? 0 then Some (if c =? 0 then Some i else None)
      else if s i =? u8 c then Some (Some i)
      else strchr_loop f s c (i + 1)
  end.

(** The offset of the first occurrence, [None] inside for a NULL result. *)
Definition strchr (fuel : nat) (s : Z → Z) (c : Z) : option (option Z) := strchr_loop fuel s c 0.

(** The bytes of a string before its NUL. *)
Fixpoint str_bytes (fuel : nat) (s : Z → Z) (i : Z) : option (list Z) :=
  match fuel with
  | O => None
  | S n => if s i =? 0 then Some [] else l ← str_bytes n s (i + 1); Some (s i :: l)
  end.

(** [s] holds the string [l]: non-zero bytes, then NUL. *)
Definition cstr (s : Z → Z) (l : list Z) : Prop :=
  (∀ i x, l !! i = Some x → s (Z.of_nat i) = x ∧ 0 < x < 256) ∧ s (Z.of_nat (length l)) = 0.

(** ** Block routines: lemmas *)

Lemma memset_loop_spec n p v m a :
  memset_loop n p v m a = if (p <=? a) && (a <? p + Z.of_nat n) then v else m a.
Proof.
  revert p m. induction n as [|n IH]; intros p m; cbn [memset_loop].
  - bool_cases; simpl; done || lia.
  - rewrite IH. unfold upd. bool_cases; simpl; done || lia.
Qed.

Lemma memset_spec dst c n m a :
  memset dst c n m a = if (dst <=? a) && (a <? dst + n) then u8 c else m a.
Proof. unfold memset. rewrite memset_loop_spec. bool_cases; simpl; done || lia. Qed.

Lemma copy_fwd_spec n d s m a :
  d ≤ s ∨ s + Z.of_nat n ≤ d →
  copy_fwd n d s m a = if (d <=? a) && (a <? d + Z.of_nat n) then m (s + (a - d)) else m a.
Proof.
  revert d s m. induction n as [|n IH]; intros d s m H; cbn [copy_fwd].
  - bool_cases; simpl; done || lia.
  - rewrite IH by lia. unfold upd.
    replace (s + 1 + (a - (d + 1))) with (s + (a - d)) by lia.
    bool_cases; simpl; try done || lia.
    all: subst; f_equal; lia.
Qed.

Lemma copy_bwd_spec n d s m a :
  s ≤ d →
  copy_bwd n d s m a = if (d <=? a) && (a <? d + Z.of_nat n) then m (s + (a - d)) else m a.
Proof.
  revert m. induction n as [|n IH]; intros m H; cbn [copy_bwd].
  - bool_cases; simpl; done || lia.
  - rewrite IH by done. unfold upd.
    bool_cases; simpl; try done || lia.
    all: subst; f_equal; lia.
Qed.

Lemma memcpy_spec dst src n m a :
  0 ≤ n → dst ≤ src ∨ src + n ≤ dst →
  memcpy dst src n m a = if (dst <=? a) && (a <? dst + n) then m (src + (a - dst)) else m a.
Proof. intros. unfold memcpy. rewrite copy_fwd_spec by lia. bool_cases; simpl; done || lia. Qed.

Lemma memset_inside dst c n m a : dst ≤ a < dst + n → memset dst c n m a = u8 c.
Proof. intros. rewrite memset_spec. bool_cases; simpl; done || lia. Qed.

Lemma memset_outside dst c n m a : ¬ dst ≤ a < dst + n → memset dst c n m a = m a.
Proof. intros. rewrite memset_spec. bool_cases; simpl; done || lia. Qed.

(** ** String routines: lemmas *)

Lemma lit_lookup l i x : l !! i = Some x → lit l (Z.of_nat i) = x.
Proof. intros H. unfold lit. bool_cases; [|lia]. by rewrite Nat2Z.id, H. Qed.

Lemma lit_end l i : Z.of_nat (length l) ≤ i → lit l i = 0.
Proof. intros H. unfold lit. bool_cases; [|done]. rewrite lookup_ge_None_2; [done|lia]. Qed.

Lemma cstr_lit l : Forall (λ x, 0 < x < 256) l → cstr (lit l) l.
Proof.
  intros Hl. split; [|apply lit_end; lia]. intros i x Hx. split; [by apply lit_lookup|].
  by eapply (Forall_lookup_1 _ _ _ _ Hl Hx).
Qed.

Lemma cstr_nonzero s l i : cstr s l → 0 ≤ i < Z.of_nat (length l) → 0 < s i < 256.
Proof.
  intros [H _] Hi. destruct (lookup_lt_is_Some_2 l (Z.to_nat i)) as [x Hx]; [lia|].
  destruct (H _ _ Hx) as [<- ?]. by rewrite Z2Nat.id in * by lia.
Qed.

Lemma strlen_loop_spec f s n k :
  0 ≤ n → (∀ i, n ≤ i < k → s i ≠ 0) → s k = 0 → n ≤ k → k - n < Z.of_nat f →
  strlen_loop f s n = Some k.
Proof.
  revert n. induction f as [|f IH]; intros n Hn Hi Hk Hle Hf; [lia|]. simpl.
  destruct (Z.eqb_spec (s n) 0) as [E|E].
  - destruct (Z.eq_dec n k) as [->|]; [done|]. exfalso. apply (Hi n); [lia|done].
  - assert (n ≠ k) by congruence. apply IH; try lia. intros. apply Hi. lia.
Qed.

Lemma strlen_spec s l f : cstr s l → (length l < f)%nat → strlen f s = Some (Z.of_nat (length l)).
Proof.
  intros Hs Hf. apply strlen_loop_spec; [lia| |apply Hs|lia|lia].
  intros i Hi. pose proof (cstr_nonzero s l i Hs). lia.
Qed.

(** [strcmp] stops at the first offset where the strings differ or end. *)
Lemma strcmp_loop_spec f a b i k :
  (∀ j, i ≤ j < k → a j ≠ 0 ∧ a j = b j) → (a k = 0 ∨ a k ≠ b k) → i ≤ k → k - i < Z.of_nat f →
  strcmp_loop f a b i = Some (u8 (a k) - u8 (b k)).
Proof.
  revert i. induction f as [|f IH]; intros i Hj Hk Hle Hf; [lia|]. simpl.
  destruct (Z.eq_dec i k) as [->|].
  - assert (negb (a k =? 0) && (a k =? b k) = false) as -> by (bool_cases; simpl; done || lia).
    done.
  - destruct (Hj i) as [H1 H2]; [lia|].
    assert (negb (a i =? 0) && (a i =? b i) = true) as -> by (bool_cases; simpl; done || lia).
    apply IH; [|done|lia|lia]. intros. apply Hj. lia.
Qed.

Lemma cstr_nil s : cstr s [] ↔ s 0 = 0.
Proof. split; [by intros [_ ?]|]. intros H. split; [|done]. intros i x Hx. done. Qed.

Lemma cstr_cons s x l : cstr s (x :: l) ↔ s 0 = x ∧ 0 < x < 256 ∧ cstr (λ i, s (i + 1)) l.
Proof.
  split.
  - intros [H1 H2]. destruct (H1 0%nat x eq_refl) as [Hx Hr]. split_and!; [done|lia|lia|].
    split.
    + intros i z Hz. destruct (H1 (S i) z Hz) as [<- ?]. split; [f_equal; lia|done].
    + rewrite <-H2. f_equal. simpl. lia.
  - intros (Hx & Hr & H1 & H2). split.
    + intros [|i] z Hz; simpl in Hz; [by simplify_eq|].
      destruct (H1 i z Hz) as [<- ?]. split; [f_equal; lia|done].
    + rewrite <-H2. f_equal. simpl. lia.
Qed.

(** The first offset where two strings differ or end. *)
Lemma cstr_common a b la lb :
  cstr a la → cstr b lb →
  ∃ k, 0 ≤ k ≤ Z.of_nat (length la) ∧ (∀ j, 0 ≤ j < k → a j ≠ 0 ∧ a j = b j)
       ∧ (a k = 0 ∨ a k ≠ b k) ∧ (a k = b k ↔ la = lb).
Proof.
  revert a b lb. induction la as [|x la IH]; intros a b [|y lb].
  - rewrite !cstr_nil. intros Ha Hb. exists 0. split_and!; [done|done|lia|lia|].
    split; [done|lia].
  - rewrite cstr_nil, cstr_cons. intros Ha (Hb & Hy & _).
    exists 0. split_and!; [done|done|lia|lia|]. split; [lia|done].
  - rewrite cstr_cons, cstr_nil. intros (Ha & Hx & _) Hb.
    exists 0. split_and!; [done|simpl; lia|lia|lia|]. split; [lia|done].
  - rewrite !cstr_cons. intros (Ha & Hx & Ha') (Hb & Hy & Hb').
    destruct (Z.eq_dec x y) as [<-|Hne].
    + destruct (IH _ _ lb Ha' Hb') as (k & Hk & Hj & Hs & He).
      exists (k + 1). split_and!; [lia|simpl; lia| |done|rewrite He; naive_solver].
      intros j Hjr. destruct (Z.eq_dec j 0) as [->|]; [lia|].
      specialize (Hj (j - 1)). replace (j - 1 + 1) with j in Hj by lia. apply Hj. lia.
    + exists 0. split_and!; [done|simpl; lia|lia|lia|]. split; [lia|]. intros [= ?]. lia.
Qed.

(** Whatever the loop of [strncmp] reaches. *)
Lemma strncmp_loop_stop n a b i k :
  i ≤ k < i + Z.of_nat n → (∀ j, i ≤ j < k → a j ≠ 0 ∧ a j = b j) → (a k = 0 ∨ a k ≠ b k) →
  strncmp_loop n a b i = (k, i + Z.of_nat n - 1 - k).
Proof.
  revert i. induction n as [|n IH]; intros i Hk Hj Hs; [lia|]. cbn [strncmp_loop].
  destruct (Z.eq_dec i k) as [->|].
  - assert (negb (a k =? 0) && (a k =? b k) = false) as ->.
    { bool_cases; simpl; try done; lia. }
    f_equal. lia.
  - destruct (Hj i) as [H1 H2]; [lia|].
    assert (negb (a i =? 0) && (a i =? b i) = true) as -> by (bool_cases; simpl; done || lia).
    rewrite IH; [f_equal; lia|lia| |done]. intros. apply Hj. lia.
Qed.

Lemma strncmp_loop_all n a b i :
  (∀ j, i ≤ j < i + Z.of_nat n → a j ≠ 0 ∧ a j = b j) →
  strncmp_loop n a b i = (i + Z.of_nat n, 2 ^ 64 - 1).
Proof.
  revert i. induction n as [|n IH]; intros i Hj; cbn [strncmp_loop].
  - f_equal. lia.
  - destruct (Hj i) as [H1 H2]; [lia|].
    assert (negb (a i =? 0) && (a i =? b i) = true) as -> by (bool_cases; simpl; done || lia).
    rewrite IH; [f_equal; lia|]. intros. apply Hj. lia.
Qed.

(** All [n] bytes agree: the answer is the difference of the bytes after them. *)
Lemma strncmp_prefix a b n :
  0 ≤ n → (∀ j, 0 ≤ j < n → a j ≠ 0 ∧ a j = b j) → strncmp a b n = u8 (a n) - u8 (b n).
Proof.
  intros Hn Hj. unfold strncmp. rewrite strncmp_loop_all by (intros; apply Hj; lia).
  replace (0 + Z.of_nat (Z.to_nat n)) with n by lia. done.
Qed.

(** They stop at [k] before the last byte: the difference there; at the last
    byte: zero. *)
Lemma strncmp_stop a b n k :
  0 ≤ k < n → (∀ j, 0 ≤ j < k → a j ≠ 0 ∧ a j = b j) → (a k = 0 ∨ a k ≠ b k) →
  strncmp a b n = if k =? n - 1 then 0 else u8 (a k) - u8 (b k).
Proof.
  intros Hk Hj Hs. unfold strncmp. rewrite (strncmp_loop_stop _ _ _ _ k) by (lia || done).
  bool_cases; done || lia.
Qed.

(** No NUL among the first [n] bytes: [n] bytes are copied and none is left. *)
Lemma strncpy_loop_long n d s m :
  (∀ j, 0 ≤ j < Z.of_nat n → m (s + j) ≠ 0) →
  (s + Z.of_nat n ≤ d ∨ d + Z.of_nat n ≤ s) →
  strncpy_loop n d s m = (O, d + Z.of_nat n, copy_fwd n d s m).
Proof.
  revert d s m. induction n as [|n IH]; intros d s m Hl Hd; cbn [strncpy_loop copy_fwd].
  - f_equal. f_equal. lia.
  - assert (m s ≠ 0) by (replace s with (s + 0) by lia; apply Hl; lia).
    destruct (Z.eqb_spec (m s) 0); [lia|]. rewrite IH; [f_equal; f_equal; lia| |lia].
    intros j Hj. rewrite upd_ne by lia.
    replace (s + 1 + j) with (s + (j + 1)) by lia. apply Hl. lia.
Qed.

(** NUL at offset [k < n]: [k + 1] bytes are copied, and [n - k] are left. *)
Lemma strncpy_loop_short n d s m k :
  0 ≤ k < Z.of_nat n → (∀ j, 0 ≤ j < k → m (s + j) ≠ 0) → m (s + k) = 0 →
  (s + k < d ∨ d + k < s) →
  strncpy_loop n d s m
  = (Z.to_nat (Z.of_nat n - k), d + k + 1, copy_fwd (Z.to_nat (k + 1)) d s m).
Proof.
  revert d s m k. induction n as [|n IH]; intros d s m k Hk Hl H0 Hd; [lia|].
  cbn [strncpy_loop]. destruct (Z.eq_dec k 0) as [->|Hk0].
  - rewrite Z.add_0_r in H0. rewrite H0. simpl. f_equal; [f_equal; lia|].
    by rewrite H0.
  - assert (m s ≠ 0) by (replace s with (s + 0) by lia; apply Hl; lia).
    destruct (Z.eqb_spec (m s) 0); [lia|]. rewrite (IH _ _ _ (k - 1)); [|lia| | |lia].
    + replace (Z.to_nat (k + 1)) with (S (Z.to_nat (k - 1 + 1))) by lia. cbn [copy_fwd].
      f_equal. f_equal; lia.
    + intros j Hj. rewrite upd_ne by lia.
      replace (s + 1 + j) with (s + (j + 1)) by lia. apply Hl. lia.
    + rewrite upd_ne by lia. replace (s + 1 + (k - 1)) with (s + k) by lia. done.
Qed.

(** ** Properties *)

(** [memmove] copies [n] bytes whatever the overlap of the two blocks: every
    destination byte gets the source byte as it was before the call, and no
    other byte of memory changes. *)
Theorem memmove_correct dst src n m a :
  memmove dst src n m a
  = if (dst <=? a) && (a <? dst + n) then m (src + (a - dst)) else m a.
Proof.
  unfold memmove. destruct (Z.ltb_spec dst src).
  - rewrite copy_fwd_spec by lia. bool_cases; simpl; done || lia.
  - rewrite copy_bwd_spec by lia. bool_cases; simpl; done || lia.
Qed.

Lemma strcmp_spec a b la lb fuel :
  cstr a la → cstr b lb → (length la < fuel)%nat →
  ∃ r, strcmp fuel a b = Some r ∧ (r = 0 ↔ la = lb).
Proof.
  intros Ha Hb Hf. destruct (cstr_common a b la lb Ha Hb) as (k & Hk & Hj & Hs & He).
  exists (u8 (a k) - u8 (b k)). split; [apply strcmp_loop_spec; done || lia|].
  rewrite <-He. assert (0 ≤ a k < 256 ∧ 0 ≤ b k < 256) as [Hak Hbk].
  { assert (∀ s l j, cstr s l → 0 ≤ j ≤ Z.of_nat (length l) → 0 ≤ s j < 256) as Hr.
    { intros s l j Hc Hj'. destruct (Z.eq_dec j (Z.of_nat (length l))) as [->|].
      - destruct Hc as [_ ->]. lia.
      - pose proof (cstr_nonzero s l j Hc). lia. }
    split; [by apply (Hr a la)|]. apply (Hr b lb); [done|]. split; [lia|].
    destruct (Z.le_gt_cases k (Z.of_nat (length lb))) as [|Hgt]; [done|].
    destruct (Hj (Z.of_nat (length lb))) as [H1 H2]; [lia|].
    destruct Hb as [_ Hb]. lia. }
  rewrite !u8_small by lia. lia.
Qed.

(** on two NUL-terminated strings [strcmp] terminates, and answers 0 exactly
    when the strings are equal. *)
Theorem strcmp_zero_iff_equal a b la lb fuel :
  cstr a la → cstr b lb → (length la < fuel)%nat →
  ∃ r, strcmp fuel a b = Some r ∧ (r = 0 ↔ la = lb).
Proof. apply strcmp_spec. Qed.

Lemma strcmp_zero_iff_equal_witness :
  ∃ r, strcmp 4 (lit [47; 97]) (lit [47; 98]) = Some r ∧ (r = 0 ↔ [47; 97] = [47; 98]).
Proof.
  apply (strcmp_zero_iff_equal (lit [47; 97]) (lit [47; 98])).
  - apply cstr_lit. repeat constructor; lia.
  - apply cstr_lit. repeat constructor; lia.
  - simpl. lia.
Defined.

(** [strncmp] does not compare [n] bytes.  When all [n] bytes agree it
    answers the difference of the two bytes after them, and when the bytes
    first differ at the last of the [n] it answers 0; only a difference before
    the last byte is reported as it should. *)
Theorem strncmp_off_by_one a b n :
  0 < n →
  (∀ j, 0 ≤ j < n - 1 → a j ≠ 0 ∧ a j = b j) →
  (a (n - 1) ≠ 0 → a (n - 1) = b (n - 1) → strncmp a b n = u8 (a n) - u8 (b n))
  ∧ (a (n - 1) ≠ b (n - 1) → strncmp a b n = 0).
Proof.
  intros Hn Hj. split.
  - intros H0 H1. apply strncmp_prefix; [lia|]. intros j Hr.
    destruct (Z.eq_dec j (n - 1)) as [->|]; [done|apply Hj; lia].
  - intros Hne. rewrite (strncmp_stop a b n (n - 1)); [|lia|done|by right].
    by rewrite Z.eqb_refl.
Qed.

Lemma strncmp_off_by_one_witness :
  strncmp (lit [47; 100]) (lit [47]) 1 = 100 ∧ strncmp (lit [97]) (lit [98]) 1 = 0.
Proof.
  split.
  - apply (proj1 (strncmp_off_by_one (lit [47; 100]) (lit [47]) 1 ltac:(lia) ltac:(lia)));
      vm_compute; congruence.
  - apply (proj2 (strncmp_off_by_one (lit [97]) (lit [98]) 1 ltac:(lia) ltac:(lia)));
      vm_compute; congruence.
Defined.

(** [strncpy] of a string shorter than [n] writes [n + 1] bytes: the string,
    then NULs up to and including offset [n]; every other byte is unchanged. *)
Theorem strncpy_writes_one_more dst src n m k a :
  0 ≤ k < n → (∀ j, 0 ≤ j < k → m (src + j) ≠ 0) → m (src + k) = 0 →
  (src + k < dst ∨ dst + k < src) →
  strncpy dst src n m a
  = if (dst <=? a) && (a <? dst + k) then m (src + (a - dst))
    else if (dst + k <=? a) && (a <=? dst + n) then 0 else m a.
Proof.
  intros Hk Hl H0 Hd. unfold strncpy.
  rewrite (strncpy_loop_short _ _ _ _ k) by (done || lia).
  rewrite memset_loop_spec, copy_fwd_spec by lia.
  destruct (Z.eq_dec a (dst + k)) as [->|]; bool_cases; simpl; try done || lia.
  rewrite <-H0. f_equal. lia.
Qed.

Lemma strncpy_writes_one_more_witness :
  strncpy 100 0 3 (λ a, if a =? 0 then 65 else if a =? 1 then 0 else 7) 103 = 0.
Proof.
  rewrite (strncpy_writes_one_more 100 0 3 _ 1); [done|lia| |done|lia].
  intros j Hj. replace j with 0 by lia. done.
Defined.
