(* ===== verification/FrameAlloc.v ===== *)
(** The interface between the physical memory manager and its clients (paging,
    heap, ELF loader): the two operations they call and the laws they may rely
    on.  A state of the allocator is abstracted to the finite set of its free
    frame numbers.  kernel/mm/pmm.c implements it (file Pmm); the clients are
    proved against the laws alone. *)
From stdpp Require Import prelude gmap.
From S2P Require Import Prelude.

(** Address [a] lies in the 4096-byte frame number [f]. *)
Definition in_frame (f a : Z) : Prop := f * PAGE_SIZE ≤ a < (f + 1) * PAGE_SIZE.

#[export] Instance in_frame_dec f a : Decision (in_frame f a).
Proof. unfold in_frame. apply _. Defined.

(** ** Counting free frames *)

Lemma size_remove (S : gset Z) f :
  f ∈ S → Z.of_nat (size (S ∖ {[f]})) = Z.of_nat (size S) - 1.
Proof.
  intros Hf. assert (1 ≤ size S)%nat.
  { rewrite <-(size_singleton f (C:=gset Z)). apply subseteq_size. set_solver. }
  rewrite size_difference by set_solver. rewrite size_singleton. lia.
Qed.

Lemma size_add (S : gset Z) f : f ∉ S → Z.of_nat (size ({[f]} ∪ S)) = Z.of_nat (size S) + 1.
Proof. intros Hf. rewrite size_union by set_solver. rewrite size_singleton. lia. Qed.

(** ** The interface *)

(** The operations: [fa_alloc] answers a physical address, 0 for out of memory,
    and zeroes the frame through the physical memory it is given; [fa_release]
    gives a frame back.  [None] is an access outside the allocator's tables. *)
Class FrameOps (A : Type) := {
  fa_alloc : A → mem → option (Z * A * mem);
  fa_release : Z → A → option A;
}.

(** What [fa_alloc] promises on the abstract state. *)
Definition alloc_post (S S' : gset Z) (m m' : mem) (r : Z) : Prop :=
  (r = 0 ∧ S = ∅ ∧ S' = ∅ ∧ ∀ a, m' a = m a)
  ∨ (∃ f, f ∈ S ∧ r = f * PAGE_SIZE ∧ S' = S ∖ {[f]}
          ∧ ∀ a, m' a = if decide (in_frame f a) then 0 else m a).

(** What [fa_release] promises. *)
Definition release_post (bound : Z) (S S' : gset Z) (phys : Z) : Prop :=
  S' = if decide (0 < phys / PAGE_SIZE < bound) then {[phys / PAGE_SIZE]} ∪ S else S.

Class FrameAllocator (A : Type) `{FrameOps A} := {
  fa_ok : A → Prop;
  fa_frames : A → gset Z;
  fa_bound : Z;
  fa_bound_range : 0 < fa_bound ≤ 2 ^ 40;
  fa_frame_range : ∀ s f, fa_ok s → f ∈ fa_frames s → 0 < f < fa_bound;
  fa_alloc_ok : ∀ s m, fa_ok s →
    ∃ r s' m', fa_alloc s m = Some (r, s', m') ∧ fa_ok s'
      ∧ alloc_post (fa_frames s) (fa_frames s') m m' r;
  fa_release_ok : ∀ s phys, fa_ok s → 0 ≤ phys < 2 ^ 64 →
    ∃ s', fa_release phys s = Some s' ∧ fa_ok s'
      ∧ release_post fa_bound (fa_frames s) (fa_frames s') phys;
}.

(** ** Clients of the interface

    A client is a sequence of calls; its trace records each call with the
    address it answered or was given. *)
Inductive fa_call := CallAlloc | CallRelease (phys : Z).

Inductive fa_event := EvAlloc (r : Z) | EvRelease (phys : Z).

Section clients.
Context {A : Type} `{FrameAllocator A}.

Fixpoint fa_run (cs : list fa_call) (s : A) (m : mem) : option (list fa_event * A * mem) :=
  match cs with
  | [] => Some ([], s, m)
  | CallAlloc :: cs =>
      '(r, s', m') ← fa_alloc s m;
      '(tr, s'', m'') ← fa_run cs s' m';
      Some (EvAlloc r :: tr, s'', m'')
  | CallRelease phys :: cs =>
      s' ← fa_release phys s;
      '(tr, s'', m'') ← fa_run cs s' m;
      Some (EvRelease phys :: tr, s'', m'')
  end.

Definition call_ok (c : fa_call) : Prop :=
  match c with CallAlloc => True | CallRelease phys => 0 ≤ phys < 2 ^ 64 end.

(** No call faults. *)
Lemma fa_run_total cs s m :
  fa_ok s → Forall call_ok cs → ∃ tr s' m', fa_run cs s m = Some (tr, s', m') ∧ fa_ok s'.
Proof.
  intros Hs Hcs. revert s m Hs. induction Hcs as [|c cs Hc Hcs IH]; intros s m Hs; simpl; [by eauto|].
  destruct c as [|phys]; simpl in Hc.
  - destruct (fa_alloc_ok s m Hs) as (r & s' & m' & -> & Hs' & _). simpl.
    destruct (IH s' m' Hs') as (tr & s'' & m'' & -> & Hs''). simpl. by eauto.
  - destruct (fa_release_ok s phys Hs Hc) as (s' & -> & Hs' & _). simpl.
    destruct (IH s' m Hs') as (tr & s'' & m'' & -> & Hs''). simpl. by eauto.
Qed.

(** A frame that is not free can be handed out only after it was released. *)
Lemma fa_run_held cs s m tr s' m' f tr1 tr2 :
  fa_ok s → Forall call_ok cs → f ∉ fa_frames s → f ≠ 0 →
  fa_run cs s m = Some (tr, s', m') → tr = tr1 ++ EvAlloc (f * PAGE_SIZE) :: tr2 →
  ∃ phys, EvRelease phys ∈ tr1 ∧ phys / PAGE_SIZE = f.
Proof.
  intros Hs Hcs Hf Hf0. revert s m tr tr1 Hs Hf.
  induction Hcs as [|c cs Hc Hcs IH]; intros s m tr tr1 Hs Hf Hrun Htr; simpl in Hrun.
  { simplify_eq. by destruct tr1. }
  destruct c as [|phys]; simpl in Hc.
  - destruct (fa_alloc_ok s m Hs) as (r & s1 & m1 & E & Hs1 & Hpost). rewrite E in Hrun. simpl in Hrun.
    destruct (fa_run cs s1 m1) as [[[tr0 s2] m2]|] eqn:E2; simplify_eq/=.
    destruct tr1 as [|e tr1]; simplify_eq/=.
    + exfalso. destruct Hpost as [(? & _)|(g & Hg & Hr & _)]; unfold PAGE_SIZE in *; [lia|].
      assert (g = f) as -> by lia. done.
    + assert (f ∉ fa_frames s1) as Hf1
        by (destruct Hpost as [(_ & _ & -> & _)|(g & _ & _ & -> & _)]; set_solver).
      destruct (IH s1 m1 _ tr1 Hs1 Hf1 E2 eq_refl) as (phys & ? & ?).
      exists phys. split; [by right|done].
  - destruct (fa_release_ok s phys Hs Hc) as (s1 & E & Hs1 & Hpost). rewrite E in Hrun. simpl in Hrun.
    destruct (fa_run cs s1 m) as [[[tr0 s2] m2]|] eqn:E2; simplify_eq/=.
    destruct tr1 as [|e tr1]; simplify_eq/=.
    destruct (decide (phys / PAGE_SIZE = f)) as [<-|Hne].
    { exists phys. split; [by left|done]. }
    assert (f ∉ fa_frames s1) as Hf1 by (rewrite Hpost; case_decide; set_solver).
    destruct (IH s1 m _ tr1 Hs1 Hf1 E2 eq_refl) as (phys' & ? & ?).
    exists phys'. split; [by right|done].
Qed.

(** The same from any point of a run: between two allocations of one frame
    there is a release of it. *)
Lemma fa_run_exclusive cs s m tr s' m' f tr1 tr2 tr3 :
  fa_ok s → Forall call_ok cs → f ≠ 0 → fa_run cs s m = Some (tr, s', m') →
  tr = tr1 ++ EvAlloc (f * PAGE_SIZE) :: tr2 ++ EvAlloc (f * PAGE_SIZE) :: tr3 →
  ∃ phys, EvRelease phys ∈ tr2 ∧ phys / PAGE_SIZE = f.
Proof.
  intros Hs Hcs Hf0. revert s m tr tr1 Hs.
  induction Hcs as [|c cs Hc Hcs IH]; intros s m tr tr1 Hs Hrun Htr; simpl in Hrun.
  { simplify_eq. by destruct tr1. }
  destruct c as [|phys]; simpl in Hc.
  - destruct (fa_alloc_ok s m Hs) as (r & s1 & m1 & E & Hs1 & Hpost). rewrite E in Hrun. simpl in Hrun.
    destruct (fa_run cs s1 m1) as [[[tr0 s2] m2]|] eqn:E2; simplify_eq/=.
    destruct tr1 as [|e tr1]; simplify_eq/=; [|by eapply (IH s1 m1 _ tr1)].
    eapply (fa_run_held cs s1 m1); [done|done| |done|exact E2|done].
    destruct Hpost as [(? & _)|(g & _ & Hr & -> & _)]; unfold PAGE_SIZE in *; [lia|].
    assert (g = f) as -> by lia. set_solver.
  - destruct (fa_release_ok s phys Hs Hc) as (s1 & E & Hs1 & Hpost). rewrite E in Hrun. simpl in Hrun.
    destruct (fa_run cs s1 m) as [[[tr0 s2] m2]|] eqn:E2; simplify_eq/=.
    destruct tr1 as [|e tr1]; simplify_eq/=. by eapply (IH s1 m _ tr1).
Qed.
End clients.
