(* ===== verification/Bitmap.v ===== *)
(** Bitmaps kept in arrays of 64-bit words, as the frame allocator (kernel/mm/pmm.c)
    and the slab pages (kernel/mm/heap.c) keep them: bit [f mod 64] of word
    [f / 64] is set when item [f] is in use. *)
From stdpp Require Import prelude.
From S2P Require Import Prelude.

Definition is_free (bm : Z → Z) (f : Z) : bool := negb (Z.testbit (bm (f / 64)) (f mod 64)).

Lemma frame_split f g : f / 64 = g / 64 → f mod 64 = g mod 64 → f = g.
Proof. intros. Z.to_euclidean_division_equations. lia. Qed.

Lemma testbit_one k j : 0 ≤ k → Z.testbit (Z.shiftl 1 k) j = (j =? k).
Proof.
  intros Hk. rewrite Z.shiftl_1_l.
  destruct (Z.eqb_spec j k) as [->|]; [by apply Z.pow2_bits_true|].
  by apply Z.pow2_bits_false.
Qed.

Lemma word_set_range w k : 0 ≤ w < 2 ^ 64 → 0 ≤ k < 64 → 0 ≤ Z.lor w (Z.shiftl 1 k) < 2 ^ 64.
Proof.
  intros Hw Hk. assert (0 ≤ Z.shiftl 1 k) by (apply Z.shiftl_nonneg; lia).
  split; [apply Z.lor_nonneg; lia|].
  apply Z.log2_lt_cancel. rewrite Z.log2_lor by lia. rewrite Z.log2_pow2 by lia.
  apply Z.max_lub_lt; [|rewrite Z.log2_shiftl by lia; simpl; lia].
  destruct (Z.eq_dec w 0) as [->|]; [done|]. apply Z.log2_lt_pow2; lia.
Qed.

Lemma word_clear_bit w k j :
  0 ≤ w < 2 ^ 64 → 0 ≤ k < 64 → 0 ≤ j →
  Z.testbit (Z.land w (u64 (Z.lnot (Z.shiftl 1 k)))) j = Z.testbit w j && negb (j =? k).
Proof.
  intros Hw Hk Hj. rewrite Z.land_spec. unfold u64.
  destruct (Z.lt_ge_cases j 64).
  - rewrite Z.mod_pow2_bits_low, Z.lnot_spec, testbit_one by lia. done.
  - by rewrite (testbit_high w 64 j) by lia.
Qed.

Lemma word_and_range w v : 0 ≤ w < 2 ^ 64 → 0 ≤ v → 0 ≤ Z.land w v < 2 ^ 64.
Proof.
  intros Hw Hv. rewrite <-(Z.mod_small w (2 ^ 64)) by done. rewrite <-Z.land_ones by lia.
  rewrite <-Z.land_assoc, (Z.land_comm _ v), Z.land_assoc, Z.land_ones by lia.
  apply Z.mod_pos_bound. lia.
Qed.

Lemma is_free_frame bm i b : 0 ≤ b < 64 → is_free bm (i * 64 + b) = negb (Z.testbit (bm i) b).
Proof.
  intros Hb. unfold is_free.
  replace ((i * 64 + b) / 64) with i by (Z.to_euclidean_division_equations; lia).
  by replace ((i * 64 + b) mod 64) with b by (Z.to_euclidean_division_equations; lia).
Qed.

(** The lowest clear bit of a word that is not full. *)
Lemma free_bit w :
  0 ≤ w < 2 ^ 64 → w ≠ 2 ^ 64 - 1 →
  let b := ctzll (u64 (Z.lnot w)) in 0 ≤ b < 64 ∧ Z.testbit w b = false.
Proof.
  intros Hw Hne. assert (u64 (Z.lnot w) = 2 ^ 64 - 1 - w) as E.
  { unfold u64. rewrite <-(Z.mod_add _ 1) by lia. rewrite Z.mod_small; unfold Z.lnot; lia. }
  destruct (ctzll_spec (u64 (Z.lnot w))) as (Hb & Ht & _); [rewrite E; lia|].
  split; [done|]. revert Ht. unfold u64 at 1. rewrite Z.mod_pow2_bits_low, Z.lnot_spec by lia.
  by destruct (Z.testbit w _).
Qed.

(** ** Updating one bit *)

Lemma mask_test w k : 0 ≤ k → (Z.land w (Z.shiftl 1 k) =? 0) = negb (Z.testbit w k).
Proof.
  intros Hk. rewrite Z.shiftl_1_l. destruct (Z.eqb_spec (Z.land w (2 ^ k)) 0) as [E|E].
  - assert (Z.testbit (Z.land w (2 ^ k)) k = false) as H by (rewrite E; apply Z.bits_0).
    rewrite Z.land_spec, Z.pow2_bits_true in H by lia. rewrite andb_true_r in H. by rewrite H.
  - destruct (Z.testbit w k) eqn:Hb; [done|]. exfalso. apply E. apply Z.bits_inj'. intros j Hj.
    rewrite Z.land_spec, Z.bits_0. destruct (Z.eq_dec j k) as [->|]; [by rewrite Hb|].
    rewrite Z.pow2_bits_false by lia. apply andb_false_r.
Qed.

Lemma set_bit_free bm f g :
  0 ≤ g → is_free (upd bm (f / 64) (Z.lor (bm (f / 64)) (Z.shiftl 1 (f mod 64)))) g
          = if g =? f then false else is_free bm g.
Proof.
  intros Hg. pose proof (Z.mod_pos_bound f 64 eq_refl).
  unfold is_free, upd. destruct (Z.eqb_spec (g / 64) (f / 64)) as [E|E].
  - rewrite Z.lor_spec, testbit_one by lia. rewrite <-E.
    destruct (Z.eqb_spec (g mod 64) (f mod 64)) as [E'|E'].
    + rewrite (frame_split g f E E'), Z.eqb_refl. by rewrite orb_true_r.
    + rewrite orb_false_r. destruct (Z.eqb_spec g f); [congruence|done].
  - destruct (Z.eqb_spec g f); [congruence|done].
Qed.

Lemma clear_bit_free bm f g :
  0 ≤ g → 0 ≤ bm (f / 64) < 2 ^ 64 →
  is_free (upd bm (f / 64) (Z.land (bm (f / 64)) (u64 (Z.lnot (Z.shiftl 1 (f mod 64)))))) g
  = if g =? f then true else is_free bm g.
Proof.
  intros Hg Hw. pose proof (Z.mod_pos_bound f 64 eq_refl). pose proof (Z.mod_pos_bound g 64 eq_refl).
  unfold is_free, upd. destruct (Z.eqb_spec (g / 64) (f / 64)) as [E|E].
  - rewrite word_clear_bit by lia. rewrite <-E.
    destruct (Z.eqb_spec (g mod 64) (f mod 64)) as [E'|E'].
    + rewrite (frame_split g f E E'), Z.eqb_refl. by rewrite andb_false_r.
    + rewrite andb_true_r. destruct (Z.eqb_spec g f); [congruence|done].
  - destruct (Z.eqb_spec g f); [congruence|done].
Qed.

(** The bits below the lowest clear bit are set. *)
Lemma free_bit_lowest w k :
  0 ≤ w < 2 ^ 64 → w ≠ 2 ^ 64 - 1 → 0 ≤ k < ctzll (u64 (Z.lnot w)) → Z.testbit w k = true.
Proof.
  intros Hw Hne Hk. destruct (free_bit w Hw Hne) as [Hb _].
  assert (u64 (Z.lnot w) = 2 ^ 64 - 1 - w) as E.
  { unfold u64. rewrite <-(Z.mod_add _ 1) by lia. rewrite Z.mod_small; unfold Z.lnot; lia. }
  destruct (ctzll_spec (u64 (Z.lnot w))) as (_ & _ & Hlow); [rewrite E; lia|].
  specialize (Hlow k Hk). unfold u64 in Hlow. rewrite Z.mod_pow2_bits_low, Z.lnot_spec in Hlow by lia.
  by destruct (Z.testbit w k).
Qed.
