(* ===== verification/Pmm.v ===== *)
(** Model of kernel/mm/pmm.c, the bitmap allocator of physical frames.  The
    state is the module's four static variables; the 16384-word bitmap is a
    bounds-checked array, so [None] is an access outside it.  Physical memory
    is passed along because [pmm_alloc] zeroes the frame it hands out.  The
    module implements the interface of FrameAlloc. *)
From stdpp Require Import prelude gmap.
From S2P Require Import Prelude CString FrameAlloc Bitmap.

(** ** Data *)

Definition PMM_MAX_FRAMES : Z := 1 * 1024 * 1024.
Definition BITMAP_WORDS : Z := PMM_MAX_FRAMES / 64.
Definition E820_MAX_ENTRIES : Z := 32.
Definition BOOT_INFO_MAGIC : Z := 0xB007B007.

Record e820_entry := {
  e_base : Z;
  e_length : Z;
  e_type : Z;
  e_acpi_attrs : Z;
}.

Record boot_info := {
  bi_magic : Z;
  e820_count : Z;
  e820_map : Z → e820_entry;
  kernel_phys_start : Z;
  kernel_phys_end : Z;
  fb_addr : Z;
  fb_width : Z;
  fb_height : Z;
  fb_pitch : Z;
  fb_bpp : Z;
}.

Record pmm := {
  pmm_bitmap : Z → Z;
  total_frames : Z;
  free_frames : Z;
  search_hint : Z;
}.

(** The BSS values before [pmm_init]. *)
Definition pmm_bss : pmm :=
  {| pmm_bitmap := λ _, 0; total_frames := 0; free_frames := 0; search_hint := 0 |}.

Definition set_bitmap (bm : Z → Z) (p : pmm) : pmm :=
  {| pmm_bitmap := bm; total_frames := total_frames p;
     free_frames := free_frames p; search_hint := search_hint p |}.

(** ** Operations *)

Definition frame_set (frame : Z) (bm : Z → Z) : option (Z → Z) :=
  w ← aget BITMAP_WORDS bm (frame / 64);
  aset BITMAP_WORDS bm (frame / 64) (Z.lor w (Z.shiftl 1 (frame mod 64))).

Definition frame_clear (frame : Z) (bm : Z → Z) : option (Z → Z) :=
  w ← aget BITMAP_WORDS bm (frame / 64);
  aset BITMAP_WORDS bm (frame / 64) (Z.land w (u64 (Z.lnot (Z.shiftl 1 (frame mod 64))))).

Definition frame_used (frame : Z) (bm : Z → Z) : option bool :=
  w ← aget BITMAP_WORDS bm (frame / 64);
  Some (negb (Z.land w (Z.shiftl 1 (frame mod 64)) =? 0)).

(** [for (addr = start; addr < end; addr += PAGE_SIZE)] of one usable region. *)
Fixpoint free_region (fuel : nat) (addr end_ : Z) (p : pmm) : option pmm :=
  match fuel with
  | O => None
  | S f =>
      if addr <? end_ then
        let frame := addr / PAGE_SIZE in
        if PMM_MAX_FRAMES <=? frame then Some p
        else
          bm ← frame_clear frame (pmm_bitmap p);
          free_region f (u64 (addr + PAGE_SIZE)) end_
            {| pmm_bitmap := bm; total_frames := u64 (total_frames p + 1);
               free_frames := u64 (free_frames p + 1); search_hint := search_hint p |}
      else Some p
  end.

Definition region_start (e : e820_entry) : Z := ALIGN_UP (e_base e) PAGE_SIZE.
Definition region_end (e : e820_entry) : Z := ALIGN_DOWN (u64 (e_base e + e_length e)) PAGE_SIZE.

Definition init_region (e : e820_entry) (p : pmm) : option pmm :=
  if negb (e_type e =? 1) then Some p
  else if region_end e <=? region_start e then Some p
  else free_region
         (Z.to_nat (Z.min ((region_end e - region_start e) / PAGE_SIZE) PMM_MAX_FRAMES + 1))
         (region_start e) (region_end e) p.

(** [for (i = 0; i < bi->e820_count; i++)]; the map has 32 entries. *)
Fixpoint init_regions (n : nat) (i : Z) (map : Z → e820_entry) (p : pmm) : option pmm :=
  match n with
  | O => Some p
  | S n' =>
      e ← aget E820_MAX_ENTRIES map i;
      p' ← init_region e p;
      init_regions n' (i + 1) map p'
  end.

(** [if (!frame_used(f)) { frame_set(f); free_frames--; }] *)
Definition reserve_frame (f : Z) (p : pmm) : option pmm :=
  used ← frame_used f (pmm_bitmap p);
  if (used : bool) then Some p
  else
    bm ← frame_set f (pmm_bitmap p);
    Some {| pmm_bitmap := bm; total_frames := total_frames p;
            free_frames := u64 (free_frames p - 1); search_hint := search_hint p |}.

Fixpoint reserve_range (fuel : nat) (a kend : Z) (p : pmm) : option pmm :=
  match fuel with
  | O => None
  | S f =>
      if a <? kend then
        p' ← reserve_frame (a / PAGE_SIZE) p;
        reserve_range f (u64 (a + PAGE_SIZE)) kend p'
      else Some p
  end.

Definition kstart : Z := ALIGN_DOWN 0x100000 PAGE_SIZE.

Definition pmm_init (bi : boot_info) (kernel_end_phys : Z) (p : pmm) : option pmm :=
  p1 ← init_regions (Z.to_nat (e820_count bi)) 0 (e820_map bi)
         (set_bitmap (λ _, 2 ^ 64 - 1) p);
  p2 ← reserve_frame 0 p1;
  let kend := ALIGN_UP kernel_end_phys PAGE_SIZE in
  reserve_range (Z.to_nat (kend / PAGE_SIZE + 1)) kstart kend p2.

(** [for (wi = 0; wi < words; wi++)] of [pmm_alloc]: [k] words are left. *)
Fixpoint pmm_alloc_loop (k : nat) (wi : Z) (p : pmm) (m : mem) : option (Z * pmm * mem) :=
  match k with
  | O => Some (0, p, m)
  | S k' =>
      let actual := u64 (search_hint p + wi) mod BITMAP_WORDS in
      w ← aget BITMAP_WORDS (pmm_bitmap p) actual;
      if w =? 2 ^ 64 - 1 then pmm_alloc_loop k' (wi + 1) p m
      else
        let bit := ctzll (u64 (Z.lnot w)) in
        let frame := actual * 64 + bit in
        if PMM_MAX_FRAMES <=? frame then pmm_alloc_loop k' (wi + 1) p m
        else
          bm ← frame_set frame (pmm_bitmap p);
          let phys := frame * PAGE_SIZE in
          Some (phys,
                {| pmm_bitmap := bm; total_frames := total_frames p;
                   free_frames := u64 (free_frames p - 1); search_hint := actual |},
                memset phys 0 PAGE_SIZE m)
  end.

Definition pmm_alloc (p : pmm) (m : mem) : option (Z * pmm * mem) :=
  pmm_alloc_loop (Z.to_nat BITMAP_WORDS) 0 p m.

Definition pmm_free_page (phys : Z) (p : pmm) : option pmm :=
  let frame := phys / PAGE_SIZE in
  if (frame =? 0) || (PMM_MAX_FRAMES <=? frame) then Some p
  else
    used ← frame_used frame (pmm_bitmap p);
    if negb used then Some p
    else
      bm ← frame_clear frame (pmm_bitmap p);
      Some {| pmm_bitmap := bm; total_frames := total_frames p;
              free_frames := u64 (free_frames p + 1); search_hint := search_hint p |}.

Definition pmm_free_pages (p : pmm) : Z := free_frames p.
Definition pmm_total_pages (p : pmm) : Z := total_frames p.

(** ** Invariant and abstract state *)

(** The frames whose bit is clear. *)
Definition free_set (bm : Z → Z) : gset Z :=
  list_to_set (filter (λ f, is_free bm f = true) (seqZ 0 PMM_MAX_FRAMES)).

Arguments free_set : simpl never.

Definition words_ok (bm : Z → Z) : Prop := ∀ i, 0 ≤ i < BITMAP_WORDS → 0 ≤ bm i < 2 ^ 64.

(** The counter counts the clear bits, frame 0 is never free, and the search
    hint is a word of the bitmap. *)
Record pmm_inv (p : pmm) : Prop := {
  inv_words : words_ok (pmm_bitmap p);
  inv_count : free_frames p = Z.of_nat (size (free_set (pmm_bitmap p)));
  inv_frame0 : is_free (pmm_bitmap p) 0 = false;
  inv_hint : 0 ≤ search_hint p < BITMAP_WORDS;
}.

(** ** The bitmap as a set *)

Lemma elem_free_set bm f : f ∈ free_set bm ↔ 0 ≤ f < PMM_MAX_FRAMES ∧ is_free bm f = true.
Proof.
  unfold free_set. rewrite elem_of_list_to_set, list_elem_of_filter, elem_of_seqZ. naive_solver lia.
Qed.

(** From here on the set is known through its elements only; unfolding it would
    enumerate a million frames. *)
#[global] Opaque free_set.

Lemma frame_index f :
  0 ≤ f < PMM_MAX_FRAMES → 0 ≤ f / 64 < BITMAP_WORDS ∧ 0 ≤ f mod 64 < 64.
Proof.
  unfold BITMAP_WORDS, PMM_MAX_FRAMES. change (1 * 1024 * 1024 / 64) with 16384.
  intros. Z.to_euclidean_division_equations. lia.
Qed.

Lemma frame_used_spec f bm :
  0 ≤ f < PMM_MAX_FRAMES → frame_used f bm = Some (negb (is_free bm f)).
Proof.
  intros Hf. destruct (frame_index f Hf) as [Hi Hk]. unfold frame_used, is_free.
  rewrite aget_Some by done. simpl. by rewrite mask_test by lia.
Qed.

(** The bit of [f] becomes [b], every other bit is kept. *)
Definition bit_update (bm bm' : Z → Z) (f : Z) (b : bool) : Prop :=
  words_ok bm' ∧ ∀ g, 0 ≤ g → is_free bm' g = if g =? f then b else is_free bm g.

Lemma frame_set_spec f bm :
  0 ≤ f < PMM_MAX_FRAMES → words_ok bm →
  ∃ bm', frame_set f bm = Some bm' ∧ bit_update bm bm' f false.
Proof.
  intros Hf Hok. destruct (frame_index f Hf) as [Hi Hk]. unfold frame_set.
  rewrite aget_Some by done. simpl. rewrite aset_Some by done. eexists. split; [done|]. split.
  - intros i Hir. unfold upd. bool_cases; [|by apply Hok]. apply word_set_range; [by apply Hok|lia].
  - intros g Hg. by apply set_bit_free.
Qed.

Lemma frame_clear_spec f bm :
  0 ≤ f < PMM_MAX_FRAMES → words_ok bm →
  ∃ bm', frame_clear f bm = Some bm' ∧ bit_update bm bm' f true.
Proof.
  intros Hf Hok. destruct (frame_index f Hf) as [Hi Hk]. unfold frame_clear.
  rewrite aget_Some by done. simpl. rewrite aset_Some by done. eexists. split; [done|]. split.
  - intros i Hir. unfold upd. bool_cases; [|by apply Hok].
    apply word_and_range; [by apply Hok|]. apply u64_range.
  - intros g Hg. apply clear_bit_free; [done|by apply Hok].
Qed.

Lemma free_set_remove bm bm' f : bit_update bm bm' f false → free_set bm' = free_set bm ∖ {[f]}.
Proof.
  intros [_ H]. apply set_eq. intros g.
  rewrite elem_of_difference, elem_of_singleton, !elem_free_set.
  destruct (decide (0 ≤ g)) as [Hg|]; [|naive_solver lia].
  rewrite (H g Hg). destruct (Z.eqb_spec g f); naive_solver.
Qed.

Lemma free_set_add bm bm' f :
  0 ≤ f < PMM_MAX_FRAMES → bit_update bm bm' f true → free_set bm' = {[f]} ∪ free_set bm.
Proof.
  intros Hf [_ H]. apply set_eq. intros g.
  rewrite elem_of_union, elem_of_singleton, !elem_free_set.
  destruct (decide (0 ≤ g)) as [Hg|]; [|naive_solver lia].
  rewrite (H g Hg). destruct (Z.eqb_spec g f); naive_solver.
Qed.

Lemma free_set_size_bound bm : Z.of_nat (size (free_set bm)) ≤ PMM_MAX_FRAMES.
Proof.
  transitivity (Z.of_nat (size (list_to_set (seqZ 0 PMM_MAX_FRAMES) : gset Z))).
  - apply inj_le, subseteq_size. intros f. rewrite elem_free_set, elem_of_list_to_set, elem_of_seqZ.
    lia.
  - rewrite size_list_to_set by apply NoDup_seqZ. rewrite length_seqZ. unfold PMM_MAX_FRAMES. lia.
Qed.

(** ** [pmm_alloc] and [pmm_free_page] *)

Lemma full_words_no_free bm :
  (∀ i, 0 ≤ i < BITMAP_WORDS → bm i = 2 ^ 64 - 1) → free_set bm = ∅.
Proof.
  intros H. apply elem_of_equiv_empty_L. intros f. rewrite elem_free_set. intros [Hf Hfree].
  destruct (frame_index f Hf) as [Hi Hk]. unfold is_free in Hfree. rewrite (H _ Hi) in Hfree.
  change (2 ^ 64 - 1) with (Z.ones 64) in Hfree. rewrite Z.ones_spec_low in Hfree by lia. done.
Qed.

(** The words visited from the hint are all the words of the bitmap. *)
Lemma visited_all h i :
  0 ≤ h < BITMAP_WORDS → 0 ≤ i < BITMAP_WORDS →
  ∃ j, 0 ≤ j < BITMAP_WORDS ∧ u64 (h + j) mod BITMAP_WORDS = i.
Proof.
  change BITMAP_WORDS with 16384. intros Hh Hi. exists ((i - h) mod 16384).
  split; [apply Z.mod_pos_bound; lia|].
  rewrite u64_small by (Z.to_euclidean_division_equations; lia).
  rewrite Z.add_mod_idemp_r by lia. replace (h + (i - h)) with i by lia. by apply Z.mod_small.
Qed.

Lemma take_frame p f m :
  pmm_inv p → f ∈ free_set (pmm_bitmap p) → ∃ bm',
    frame_set f (pmm_bitmap p) = Some bm'
    ∧ free_set bm' = free_set (pmm_bitmap p) ∖ {[f]}
    ∧ (∀ h, 0 ≤ h < BITMAP_WORDS →
        pmm_inv {| pmm_bitmap := bm'; total_frames := total_frames p;
                   free_frames := u64 (free_frames p - 1); search_hint := h |})
    ∧ ∀ a, memset (f * PAGE_SIZE) 0 PAGE_SIZE m a = if decide (in_frame f a) then 0 else m a.
Proof.
  intros Hp Hf. pose proof Hf as Hf'. apply elem_free_set in Hf' as [Hfr Hff].
  destruct (frame_set_spec f (pmm_bitmap p) Hfr (inv_words _ Hp)) as (bm' & E & Hup).
  exists bm'. pose proof (free_set_remove _ _ _ Hup) as Hs. split_and!; [done|done| |].
  - intros h Hh. pose proof (free_set_size_bound (pmm_bitmap p)).
    pose proof (size_remove _ _ Hf) as Hsz.
    split; simpl; [apply Hup| | |done].
    + rewrite (inv_count _ Hp), Hs, u64_small; [lia|]. unfold PMM_MAX_FRAMES in *. lia.
    + destruct Hup as [_ Hup]. rewrite Hup by lia. rewrite (inv_frame0 _ Hp). by bool_cases.
  - intros a. rewrite memset_spec. unfold in_frame. change (u8 0) with 0.
    case_decide; bool_cases; simpl; done || lia.
Qed.

Lemma pmm_alloc_loop_spec k wi p m :
  pmm_inv p → 0 ≤ wi → wi + Z.of_nat k = BITMAP_WORDS →
  (∀ j, 0 ≤ j < wi → pmm_bitmap p (u64 (search_hint p + j) mod BITMAP_WORDS) = 2 ^ 64 - 1) →
  ∃ r p' m', pmm_alloc_loop k wi p m = Some (r, p', m') ∧ pmm_inv p'
    ∧ alloc_post (free_set (pmm_bitmap p)) (free_set (pmm_bitmap p')) m m' r
    ∧ total_frames p' = total_frames p ∧ (r = 0 → p' = p ∧ m' = m).
Proof.
  intros Hp. revert wi. induction k as [|k IH]; intros wi Hwi Hk Hfull; cbn [pmm_alloc_loop].
  - exists 0, p, m. split_and!; [done|done| |done|done]. left.
    rewrite full_words_no_free; [done|]. intros i Hi.
    destruct (visited_all (search_hint p) i (inv_hint _ Hp) Hi) as (j & Hj & <-). apply Hfull. lia.
  - set (actual := u64 (search_hint p + wi) mod BITMAP_WORDS).
    assert (0 ≤ actual < BITMAP_WORDS) as Ha by (apply Z.mod_pos_bound; done).
    rewrite aget_Some by done. simpl. destruct (Z.eqb_spec (pmm_bitmap p actual) (2 ^ 64 - 1)) as [E|E].
    + apply IH; [lia|lia|]. intros j Hj. destruct (Z.eq_dec j wi) as [->|]; [done|apply Hfull; lia].
    + destruct (free_bit _ (inv_words _ Hp _ Ha) E) as [Hb Hbit].
      set (bit := ctzll (u64 (Z.lnot (pmm_bitmap p actual)))) in *.
      assert (0 ≤ actual * 64 + bit < PMM_MAX_FRAMES) as Hf.
      { unfold BITMAP_WORDS, PMM_MAX_FRAMES in *. change (1 * 1024 * 1024 / 64) with 16384 in *. lia. }
      destruct (Z.leb_spec PMM_MAX_FRAMES (actual * 64 + bit)); [lia|].
      assert (actual * 64 + bit ∈ free_set (pmm_bitmap p)) as Hin.
      { apply elem_free_set. split; [done|]. rewrite is_free_frame by done. by rewrite Hbit. }
      destruct (take_frame p _ m Hp Hin) as (bm' & -> & Hs & Hinv & Hm). simpl.
      do 3 eexists. split; [done|]. split; [by apply Hinv|]. split; [|split; [done|]].
      * right. by exists (actual * 64 + bit).
      * intros Hz. assert (actual * 64 + bit = 0) as H0 by (unfold PAGE_SIZE in Hz; lia).
        rewrite H0 in Hin. apply elem_free_set in Hin as [_ Hin]. by rewrite (inv_frame0 _ Hp) in Hin.
Qed.

Lemma pmm_alloc_ok p m :
  pmm_inv p →
  ∃ r p' m', pmm_alloc p m = Some (r, p', m') ∧ pmm_inv p'
    ∧ alloc_post (free_set (pmm_bitmap p)) (free_set (pmm_bitmap p')) m m' r
    ∧ total_frames p' = total_frames p ∧ (r = 0 → p' = p ∧ m' = m).
Proof. intros Hp. apply pmm_alloc_loop_spec; [done|lia| |lia]. done. Qed.

Lemma pmm_free_page_ok p phys :
  pmm_inv p → 0 ≤ phys < 2 ^ 64 →
  ∃ p', pmm_free_page phys p = Some p' ∧ pmm_inv p'
    ∧ release_post PMM_MAX_FRAMES (free_set (pmm_bitmap p)) (free_set (pmm_bitmap p')) phys
    ∧ (phys / PAGE_SIZE ∈ free_set (pmm_bitmap p) → p' = p)
    ∧ total_frames p' = total_frames p.
Proof.
  intros Hp Hr. unfold pmm_free_page, release_post. set (f := phys / PAGE_SIZE).
  assert (0 ≤ f) by (apply Z.div_pos; [lia|done]).
  destruct (Z.eqb_spec f 0) as [E0|E0]; simpl.
  { exists p. rewrite decide_False by lia. done. }
  destruct (Z.leb_spec PMM_MAX_FRAMES f) as [Hle|Hlt].
  { exists p. rewrite decide_False by lia. done. }
  rewrite decide_True by lia. rewrite frame_used_spec by lia. simpl. rewrite negb_involutive.
  destruct (is_free (pmm_bitmap p) f) eqn:E.
  - exists p. split_and!; [done|done| |done|done].
    symmetry. apply subseteq_union_1_L. apply singleton_subseteq_l, elem_free_set. split; [lia|done].
  - destruct (frame_clear_spec f (pmm_bitmap p)) as (bm' & -> & Hup); [lia|apply Hp|].
    simpl. eexists. split; [done|].
    assert (free_set bm' = {[f]} ∪ free_set (pmm_bitmap p)) as Hs by (apply free_set_add; [lia|done]).
    assert (f ∉ free_set (pmm_bitmap p)) as Hnin by (rewrite elem_free_set; intros [_ ?]; congruence).
    split_and!; [|done|done|done].
    pose proof (size_add _ _ Hnin). pose proof (free_set_size_bound bm') as Hb. rewrite Hs in Hb.
    split; simpl; [apply Hup| | |apply Hp].
    + rewrite Hs, (inv_count _ Hp), u64_small; [lia|]. unfold PMM_MAX_FRAMES in Hb. lia.
    + destruct Hup as [_ Hup]. rewrite Hup by lia. rewrite (inv_frame0 _ Hp). bool_cases; congruence.
Qed.

(** Closed instances are not to be run by [done] or by unification. *)
#[global] Opaque pmm_alloc.

(** ** The interface *)

#[export] Instance pmm_ops : FrameOps pmm := {
  fa_alloc := pmm_alloc;
  fa_release := pmm_free_page;
}.

#[export, refine] Instance pmm_frame_allocator : FrameAllocator pmm := {
  fa_ok := pmm_inv;
  fa_frames p := free_set (pmm_bitmap p);
  fa_bound := PMM_MAX_FRAMES;
}.
Proof.
  - done.
  - intros p f Hp Hf. apply elem_free_set in Hf as [Hf Hfree].
    destruct (Z.eq_dec f 0) as [->|]; [|lia]. by rewrite (inv_frame0 _ Hp) in Hfree.
  - intros p m Hp. destruct (pmm_alloc_ok p m Hp) as (r & p' & m' & ? & ? & ? & _). naive_solver.
  - intros p phys Hp Hr. destruct (pmm_free_page_ok p phys Hp Hr) as (p' & ? & ? & ? & _). naive_solver.
Defined.

(** ** [pmm_init] *)

(** Frame [f] lies wholly in the usable region [e]. *)
Definition region_has (e : e820_entry) (f : Z) : bool :=
  (e_type e =? 1) && (region_start e <=? f * PAGE_SIZE) && (f * PAGE_SIZE <? region_end e).

Definition usable (n : Z) (map : Z → e820_entry) (f : Z) : bool :=
  existsb (λ i, region_has (map i) f) (seqZ 0 n).

(** The pages of two usable entries never overlap. *)
Definition regions_disjoint (n : Z) (map : Z → e820_entry) : Prop :=
  ∀ i j f, 0 ≤ i < j → j < n → region_has (map i) f = true → region_has (map j) f = false.

(** The frames of [0x100000, kernel_end_phys) the kernel image occupies. *)
Definition kernel_frame (kernel_end_phys f : Z) : bool :=
  (kstart <=? f * PAGE_SIZE) && (f * PAGE_SIZE <? ALIGN_UP kernel_end_phys PAGE_SIZE).

(** Both counters count the clear bits. *)
Definition counted (p : pmm) : Prop :=
  free_frames p = Z.of_nat (size (free_set (pmm_bitmap p)))
  ∧ total_frames p = Z.of_nat (size (free_set (pmm_bitmap p))).

Lemma aligned_pages x : ∃ k, Z.land (u64 x) (u64 (Z.lnot (PAGE_SIZE - 1))) = k * PAGE_SIZE ∧ 0 ≤ k < 2 ^ 52.
Proof.
  exists (u64 x / PAGE_SIZE). pose proof (u64_range x). split.
  - change PAGE_SIZE with (2 ^ 12). apply (land_lnot_low (u64 x) 12); lia.
  - unfold PAGE_SIZE. Z.to_euclidean_division_equations. lia.
Qed.

Lemma free_region_spec fuel s e p :
  words_ok (pmm_bitmap p) → 0 ≤ s → e < 2 ^ 52 →
  Z.min (e - s) (PMM_MAX_FRAMES - s) < Z.of_nat fuel → (0 < fuel)%nat →
  ∃ p', free_region fuel (s * PAGE_SIZE) (e * PAGE_SIZE) p = Some p'
    ∧ words_ok (pmm_bitmap p') ∧ search_hint p' = search_hint p
    ∧ (∀ g, 0 ≤ g < PMM_MAX_FRAMES →
        is_free (pmm_bitmap p') g = is_free (pmm_bitmap p) g || ((s <=? g) && (g <? e)))
    ∧ ((∀ g, s ≤ g < e → g < PMM_MAX_FRAMES → is_free (pmm_bitmap p) g = false) →
        counted p → counted p').
Proof.
  intros Hok Hs He Hf Hpos. revert s p Hok Hs Hf Hpos.
  induction fuel as [|fuel IH]; intros s p Hok Hs Hf Hpos; [lia|]. cbn [free_region].
  destruct (Z.ltb_spec (s * PAGE_SIZE) (e * PAGE_SIZE)) as [Hlt|Hge]; unfold PAGE_SIZE in *; last first.
  { exists p. split_and!; try done. intros g Hg.
    replace ((s <=? g) && (g <? e)) with false by (bool_cases; simpl; done || lia). by rewrite orb_false_r. }
  rewrite Z.div_mul by done. destruct (Z.leb_spec PMM_MAX_FRAMES s) as [Hmax|Hmax].
  { exists p. split_and!; try done. intros g Hg.
    replace (s <=? g) with false by (bool_cases; lia). by rewrite orb_false_r. }
  destruct (frame_clear_spec s (pmm_bitmap p)) as (bm' & -> & Hup); [lia|done|]. simpl.
  pose proof (free_set_add _ _ s ltac:(lia) Hup) as Hset. destruct Hup as [Hok' Hup].
  rewrite u64_small by lia. replace (s * 4096 + 4096) with ((s + 1) * 4096) by lia.
  edestruct (IH (s + 1)) as (p' & -> & Hw & Hh & Hfree & Hc); [exact Hok'|lia|simpl; lia|lia|].
  exists p'. simpl in *. split_and!; try done.
  - intros g Hg. rewrite (Hfree g Hg), Hup by lia. bool_cases; simpl;
      rewrite ?orb_true_r, ?orb_false_r; done || lia.
  - intros Hfresh [Hc1 Hc2]. apply Hc; clear Hc.
    { intros g Hg Hg'. rewrite Hup by lia. bool_cases; [lia|]. apply Hfresh; lia. }
    assert (s ∉ free_set (pmm_bitmap p)) as Hn by (rewrite elem_free_set, Hfresh by lia; naive_solver).
    pose proof (size_add _ _ Hn). pose proof (free_set_size_bound bm') as Hb. rewrite Hset in Hb.
    unfold counted. simpl. rewrite Hset, Hc1, Hc2. unfold PMM_MAX_FRAMES in Hb.
    rewrite u64_small by lia. lia.
Qed.

Lemma init_region_spec e p :
  words_ok (pmm_bitmap p) →
  ∃ p', init_region e p = Some p' ∧ words_ok (pmm_bitmap p') ∧ search_hint p' = search_hint p
    ∧ (∀ g, 0 ≤ g < PMM_MAX_FRAMES →
        is_free (pmm_bitmap p') g = is_free (pmm_bitmap p) g || region_has e g)
    ∧ ((∀ g, 0 ≤ g < PMM_MAX_FRAMES → region_has e g = true → is_free (pmm_bitmap p) g = false) →
        counted p → counted p').
Proof.
  intros Hok. unfold init_region, region_has. destruct (Z.eqb_spec (e_type e) 1) as [Et|Et]; simpl; last first.
  { exists p. split_and!; try done. intros. by rewrite orb_false_r. }
  destruct (aligned_pages (e_base e + PAGE_SIZE - 1)) as (s & Es & Hs).
  destruct (aligned_pages (u64 (e_base e + e_length e))) as (t & Et' & Ht).
  assert (region_start e = s * PAGE_SIZE) as -> by exact Es.
  assert (region_end e = t * PAGE_SIZE) as -> by exact Et'.
  assert (∀ g, (s * PAGE_SIZE <=? g * PAGE_SIZE) && (g * PAGE_SIZE <? t * PAGE_SIZE)
               = (s <=? g) && (g <? t)) as Hpg.
  { intros g. unfold PAGE_SIZE. bool_cases; simpl; done || lia. }
  destruct (Z.leb_spec (t * PAGE_SIZE) (s * PAGE_SIZE)) as [Hle|Hlt].
  { exists p. split_and!; try done. intros g Hg. rewrite Hpg.
    replace ((s <=? g) && (g <? t)) with false; [by rewrite orb_false_r|].
    unfold PAGE_SIZE in Hle. bool_cases; simpl; done || lia. }
  rewrite <-Z.mul_sub_distr_r, Z.div_mul by done. unfold PAGE_SIZE in Hlt.
  edestruct (free_region_spec (Z.to_nat (Z.min (t - s) PMM_MAX_FRAMES + 1)) s t p)
    as (p' & E & Hw & Hh & Hfree & Hc); [done|lia|lia|unfold PMM_MAX_FRAMES; lia|unfold PMM_MAX_FRAMES; lia|].
  exists p'. split_and!; try done.
  - intros g Hg. by rewrite Hpg, Hfree.
  - intros Hfresh. apply Hc. intros g Hg Hg'. apply Hfresh; [lia|]. rewrite Hpg. bool_cases; simpl; done || lia.
Qed.

Lemma usable_S n map f : 0 ≤ n → usable (n + 1) map f = usable n map f || region_has (map n) f.
Proof.
  intros Hn. unfold usable. rewrite seqZ_app, existsb_app by lia. f_equal.
  rewrite Z.add_0_l, seqZ_cons, seqZ_nil by lia. simpl. by rewrite orb_false_r.
Qed.

Lemma usable_true n map f : usable n map f = true ↔ ∃ i, 0 ≤ i < n ∧ region_has (map i) f = true.
Proof.
  unfold usable. rewrite existsb_exists. split.
  - intros (i & Hi & ?). apply list_elem_of_In, elem_of_seqZ in Hi. exists i. split; [lia|done].
  - intros (i & Hi & ?). exists i. rewrite <-list_elem_of_In, elem_of_seqZ. split; [lia|done].
Qed.

Lemma init_regions_spec k i map p :
  0 ≤ i → i + Z.of_nat k ≤ E820_MAX_ENTRIES → words_ok (pmm_bitmap p) →
  (∀ g, 0 ≤ g < PMM_MAX_FRAMES → is_free (pmm_bitmap p) g = usable i map g) →
  ∃ p', init_regions k i map p = Some p' ∧ words_ok (pmm_bitmap p') ∧ search_hint p' = search_hint p
    ∧ (∀ g, 0 ≤ g < PMM_MAX_FRAMES → is_free (pmm_bitmap p') g = usable (i + Z.of_nat k) map g)
    ∧ (regions_disjoint (i + Z.of_nat k) map → counted p → counted p').
Proof.
  revert i p. induction k as [|k IH]; intros i p Hi Hk Hok Hfree; cbn [init_regions].
  { exists p. rewrite Z.add_0_r. done. }
  rewrite aget_Some by lia. simpl.
  destruct (init_region_spec (map i) p Hok) as (p1 & -> & Hw & Hh & Hf1 & Hc1). simpl.
  destruct (IH (i + 1) p1) as (p' & -> & Hw' & Hh' & Hf' & Hc'); [lia|lia|done| |].
  { intros g Hg. by rewrite Hf1, Hfree, usable_S by done. }
  replace (i + Z.of_nat (S k)) with (i + 1 + Z.of_nat k) by lia.
  exists p'. split_and!; [done|done|congruence|done|].
  intros Hd Hc. apply Hc'; [done|]. apply Hc1; [|done]. intros g Hg Hin. rewrite Hfree by done.
  destruct (usable i map g) eqn:Hu; [|done]. apply usable_true in Hu as (j & Hj & Hjg).
  rewrite (Hd j i g) in Hin; [done|lia|lia|done].
Qed.

Lemma reserve_frame_spec f p :
  0 ≤ f < PMM_MAX_FRAMES → words_ok (pmm_bitmap p) →
  ∃ p', reserve_frame f p = Some p' ∧ words_ok (pmm_bitmap p')
    ∧ search_hint p' = search_hint p ∧ total_frames p' = total_frames p
    ∧ (∀ g, 0 ≤ g → is_free (pmm_bitmap p') g = is_free (pmm_bitmap p) g && negb (g =? f))
    ∧ (free_frames p = Z.of_nat (size (free_set (pmm_bitmap p))) →
       free_frames p' = Z.of_nat (size (free_set (pmm_bitmap p')))).
Proof.
  intros Hf Hok. unfold reserve_frame. rewrite frame_used_spec by done. simpl.
  destruct (is_free (pmm_bitmap p) f) eqn:E; simpl; last first.
  { exists p. split_and!; try done. intros g Hg. bool_cases; subst; rewrite ?E, ?andb_true_r; done. }
  destruct (frame_set_spec f _ Hf Hok) as (bm' & -> & Hup). simpl. eexists. split; [done|]. simpl.
  pose proof (free_set_remove _ _ _ Hup) as Hs.
  assert (f ∈ free_set (pmm_bitmap p)) as Hin by (by apply elem_free_set).
  pose proof (size_remove _ _ Hin). pose proof (free_set_size_bound (pmm_bitmap p)) as Hb.
  split_and!; [apply Hup|done|done| |].
  - intros g Hg. destruct Hup as [_ ->]; [|done]. by bool_cases; rewrite ?andb_true_r, ?andb_false_r.
  - intros ->. rewrite Hs, u64_small; [lia|]. unfold PMM_MAX_FRAMES in Hb. lia.
Qed.

Lemma reserve_range_spec fuel s e p :
  words_ok (pmm_bitmap p) → 0 ≤ s → e ≤ PMM_MAX_FRAMES → e - s < Z.of_nat fuel → (0 < fuel)%nat →
  ∃ p', reserve_range fuel (s * PAGE_SIZE) (e * PAGE_SIZE) p = Some p' ∧ words_ok (pmm_bitmap p')
    ∧ search_hint p' = search_hint p ∧ total_frames p' = total_frames p
    ∧ (∀ g, 0 ≤ g → is_free (pmm_bitmap p') g
                     = is_free (pmm_bitmap p) g && negb ((s <=? g) && (g <? e)))
    ∧ (free_frames p = Z.of_nat (size (free_set (pmm_bitmap p))) →
       free_frames p' = Z.of_nat (size (free_set (pmm_bitmap p')))).
Proof.
  intros Hok Hs He Hf Hpos. revert s p Hok Hs Hf Hpos.
  induction fuel as [|fuel IH]; intros s p Hok Hs Hf Hpos; [lia|]. cbn [reserve_range].
  destruct (Z.ltb_spec (s * PAGE_SIZE) (e * PAGE_SIZE)) as [Hlt|Hge]; unfold PAGE_SIZE in *; last first.
  { exists p. split_and!; try done. intros g Hg.
    replace ((s <=? g) && (g <? e)) with false by (bool_cases; simpl; done || lia). by rewrite andb_true_r. }
  rewrite Z.div_mul by done.
  destruct (reserve_frame_spec s p) as (p1 & -> & Hw & Hh & Ht & Hf1 & Hc1); [lia|done|]. simpl.
  rewrite u64_small by (unfold PMM_MAX_FRAMES in He; lia).
  replace (s * 4096 + 4096) with ((s + 1) * 4096) by lia.
  destruct (IH (s + 1) p1) as (p' & -> & Hw' & Hh' & Ht' & Hf' & Hc'); [done|lia|lia|lia|].
  exists p'. split_and!; [done|done|congruence|congruence| |by auto].
  intros g Hg. rewrite Hf', Hf1 by done. rewrite <-andb_assoc. f_equal.
  bool_cases; simpl; done || lia.
Qed.

Lemma init_bitmap_full : words_ok (λ _, 2 ^ 64 - 1) ∧ ∀ g, is_free (λ _, 2 ^ 64 - 1) g = false.
Proof.
  split; [intros i _; lia|]. intros g. unfold is_free. change (2 ^ 64 - 1) with (Z.ones 64).
  rewrite Z.ones_spec_low; [done|]. apply Z.mod_pos_bound. lia.
Qed.

Lemma pmm_init_spec bi kend :
  0 ≤ e820_count bi ≤ E820_MAX_ENTRIES → ALIGN_UP kend PAGE_SIZE ≤ PMM_MAX_FRAMES * PAGE_SIZE →
  ∃ p, pmm_init bi kend pmm_bss = Some p ∧ words_ok (pmm_bitmap p) ∧ search_hint p = 0
    ∧ (∀ f, 0 ≤ f < PMM_MAX_FRAMES →
        is_free (pmm_bitmap p) f
        = usable (e820_count bi) (e820_map bi) f && negb (f =? 0) && negb (kernel_frame kend f))
    ∧ (regions_disjoint (e820_count bi) (e820_map bi) →
       free_frames p = Z.of_nat (size (free_set (pmm_bitmap p)))
       ∧ total_frames p = Z.of_nat (size (list_to_set (filter (λ f,
           usable (e820_count bi) (e820_map bi) f = true) (seqZ 0 PMM_MAX_FRAMES)) : gset Z))).
Proof.
  intros Hn Hk. unfold pmm_init. destruct init_bitmap_full as [Hw0 Hf0].
  destruct (init_regions_spec (Z.to_nat (e820_count bi)) 0 (e820_map bi)
              (set_bitmap (λ _, 2 ^ 64 - 1) pmm_bss))
    as (p1 & -> & Hw1 & Hh1 & Hf1 & Hc1); [lia|lia|done|by intros; apply Hf0|]. simpl.
  rewrite Z.add_0_l, Z2Nat.id in Hf1, Hc1 by lia.
  destruct (reserve_frame_spec 0 p1) as (p2 & -> & Hw2 & Hh2 & Ht2 & Hf2 & Hc2); [done|done|]. simpl.
  destruct (aligned_pages (kend + PAGE_SIZE - 1)) as (t & Ht & Htr).
  assert (ALIGN_UP kend PAGE_SIZE = t * PAGE_SIZE) as Ek by exact Ht. rewrite Ek in *.
  rewrite Z.div_mul by done. change kstart with (256 * PAGE_SIZE).
  destruct (reserve_range_spec (Z.to_nat (t + 1)) 256 t p2)
    as (p3 & -> & Hw3 & Hh3 & Ht3 & Hf3 & Hc3); [done|lia|unfold PAGE_SIZE in Hk; lia|lia|lia|].
  exists p3. split_and!; [done|done|by rewrite Hh3, Hh2, Hh1| |].
  - intros f Hf. rewrite Hf3, Hf2, Hf1 by lia. f_equal. f_equal. unfold kernel_frame.
    rewrite Ek. change kstart with (256 * PAGE_SIZE). unfold PAGE_SIZE.
    bool_cases; simpl; done || lia.
  - intros Hd. destruct Hc1 as [Hc Ht1]; [done| |].
    { unfold counted. cbn [set_bitmap pmm_bitmap free_frames total_frames pmm_bss].
      assert (free_set (λ _, 2 ^ 64 - 1) = ∅) as ->; [|by rewrite size_empty].
      apply elem_of_equiv_empty_L. intros g. rewrite elem_free_set, Hf0. naive_solver. }
    split; [by auto|]. rewrite Ht3, Ht2, Ht1. do 2 f_equal. apply set_eq. intros f.
    rewrite elem_free_set, elem_of_list_to_set, list_elem_of_filter, elem_of_seqZ.
    split; intros [? ?]; (split; [|lia]) || (split; [lia|]); rewrite Hf1 in * by lia; done.
Qed.

(** ** Properties *)

(** C1: Boot.  For a memory map of at most 32 entries whose usable pages do not
    overlap and a kernel image below 4 GB, [pmm_init] runs to the end (no access
    outside the bitmap), establishes the allocator's invariant, and leaves free
    exactly the frames that lie wholly in a usable region, are not frame 0 and
    are not part of the kernel image; [pmm_total_pages] counts the usable
    frames and [pmm_free_pages] the free ones. *)
Theorem pmm_init_correct bi kend :
  0 ≤ e820_count bi ≤ E820_MAX_ENTRIES →
  regions_disjoint (e820_count bi) (e820_map bi) →
  ALIGN_UP kend PAGE_SIZE ≤ PMM_MAX_FRAMES * PAGE_SIZE →
  ∃ p, pmm_init bi kend pmm_bss = Some p ∧ pmm_inv p
    ∧ pmm_free_pages p = Z.of_nat (size (free_set (pmm_bitmap p)))
    ∧ pmm_total_pages p = Z.of_nat (size (list_to_set (filter (λ f,
         usable (e820_count bi) (e820_map bi) f = true) (seqZ 0 PMM_MAX_FRAMES)) : gset Z))
    ∧ ∀ f, f ∈ free_set (pmm_bitmap p) ↔
        (0 < f < PMM_MAX_FRAMES ∧ usable (e820_count bi) (e820_map bi) f = true
         ∧ kernel_frame kend f = false).
Proof.
  intros Hn Hd Hk. destruct (pmm_init_spec bi kend Hn Hk) as (p & E & Hw & Hh & Hf & Hc).
  destruct (Hc Hd) as [Hfree Htotal]. exists p. split_and!; [done| |done|done|].
  - split; [done|done| |by rewrite Hh]. rewrite Hf by done. by rewrite andb_false_r.
  - intros f. rewrite elem_free_set. split.
    + intros [Hr H]. rewrite Hf in H by done.
      apply andb_true_iff in H as [[Hu H0]%andb_true_iff Hker].
      destruct (kernel_frame kend f); [done|]. bool_cases; [done|]. split_and!; [lia|lia|done|done].
    + intros (Hr & Hu & Hker). split; [lia|]. rewrite Hf by lia. rewrite Hu, Hker. by bool_cases; lia.
Qed.

(** One usable region of 7 MB from 1 MB on, and a kernel that ends at 2 MB. *)
Definition sample_boot_info : boot_info :=
  {| bi_magic := BOOT_INFO_MAGIC; e820_count := 1;
     e820_map := λ _, {| e_base := 0x100000; e_length := 0x700000; e_type := 1; e_acpi_attrs := 0 |};
     kernel_phys_start := 0x100000; kernel_phys_end := 0x200000;
     fb_addr := 0; fb_width := 0; fb_height := 0; fb_pitch := 0; fb_bpp := 0 |}.

Lemma pmm_init_correct_witness :
  ∃ p, pmm_init sample_boot_info 0x200000 pmm_bss = Some p ∧ 512 ∈ free_set (pmm_bitmap p)
       ∧ 511 ∉ free_set (pmm_bitmap p).
Proof.
  destruct (pmm_init_correct sample_boot_info 0x200000) as (p & E & _ & _ & _ & Hf).
  - done.
  - intros i j f Hij Hj. simpl in Hj. lia.
  - by vm_compute.
  - exists p. split; [done|]. rewrite !Hf. split.
    + split_and!; done || by vm_compute.
    + intros (_ & _ & H). by vm_compute in H.
Defined.

(** C2: Allocation.  In a state that satisfies the invariant [pmm_alloc] never
    accesses the bitmap out of range and keeps the invariant.  It answers NULL
    exactly when no frame is free, and then changes nothing; otherwise it
    answers the address of a frame that was free, takes it out of the free set,
    zeroes its 4096 bytes and no other byte, and decrements the count. *)
Theorem pmm_alloc_correct p m :
  pmm_inv p →
  ∃ r p' m', pmm_alloc p m = Some (r, p', m') ∧ pmm_inv p'
    ∧ ((r = 0 ∧ free_set (pmm_bitmap p) = ∅ ∧ p' = p ∧ m' = m)
       ∨ (∃ f, r = f * PAGE_SIZE ∧ 0 < f < PMM_MAX_FRAMES ∧ f ∈ free_set (pmm_bitmap p)
            ∧ free_set (pmm_bitmap p') = free_set (pmm_bitmap p) ∖ {[f]}
            ∧ pmm_free_pages p' = pmm_free_pages p - 1
            ∧ ∀ a, m' a = if decide (in_frame f a) then 0 else m a)).
Proof.
  intros Hp. destruct (pmm_alloc_ok p m Hp) as (r & p' & m' & E & Hp' & Hpost & _ & H0).
  exists r, p', m'. split_and!; [done|done|].
  destruct Hpost as [(-> & Hs & _)|(f & Hf & -> & Hs & Hm)].
  - left. destruct (H0 eq_refl) as [-> ->]. done.
  - right. exists f. pose proof (fa_frame_range p f Hp Hf). split_and!; try done.
    + apply H.
    + apply H.
    + unfold pmm_free_pages. rewrite (inv_count _ Hp'), (inv_count _ Hp), Hs. by apply size_remove.
Qed.

(** A state with the single free frame [f]. *)
Definition one_free (f : Z) : pmm :=
  {| pmm_bitmap := λ i, if i =? f / 64 then 2 ^ 64 - 1 - 2 ^ (f mod 64) else 2 ^ 64 - 1;
     total_frames := 1; free_frames := 1; search_hint := 0 |}.

Lemma one_free_is_free f g : 0 ≤ f → is_free (pmm_bitmap (one_free f)) g = (g =? f).
Proof.
  intros Hf. unfold is_free, one_free. simpl.
  pose proof (Z.mod_pos_bound g 64 eq_refl). pose proof (Z.mod_pos_bound f 64 eq_refl).
  destruct (Z.eqb_spec (g / 64) (f / 64)) as [E|E].
  - replace (2 ^ 64 - 1 - 2 ^ (f mod 64)) with (Z.ldiff (Z.ones 64) (2 ^ (f mod 64))).
    + rewrite Z.ldiff_spec, Z.ones_spec_low, Z.pow2_bits_eqb by lia. simpl. rewrite negb_involutive.
      destruct (Z.eqb_spec g f) as [->|]; [apply Z.eqb_refl|].
      destruct (Z.eqb_spec (f mod 64) (g mod 64)); [|done]. by destruct n; apply frame_split.
    + rewrite <-Z.sub_nocarry_ldiff; [done|]. apply Z.bits_inj'. intros j Hj.
      rewrite Z.ldiff_spec, Z.bits_0, Z.pow2_bits_eqb by lia. destruct (Z.eqb_spec (f mod 64) j); [|done].
      subst j. by rewrite Z.ones_spec_low by lia.
  - change (2 ^ 64 - 1) with (Z.ones 64). rewrite Z.ones_spec_low by lia.
    destruct (Z.eqb_spec g f); [congruence|done].
Qed.

Lemma one_free_set f : 0 ≤ f < PMM_MAX_FRAMES → free_set (pmm_bitmap (one_free f)) = {[f]}.
Proof.
  intros Hf. apply set_eq. intros g. rewrite elem_free_set, elem_of_singleton, one_free_is_free by lia.
  split; [by intros [_ ?%Z.eqb_eq]|]. intros ->. by rewrite Z.eqb_refl.
Qed.

Lemma one_free_inv f : 0 < f < PMM_MAX_FRAMES → pmm_inv (one_free f).
Proof.
  intros Hf. split.
  - intros i _. unfold one_free; simpl. bool_cases; [|lia].
    pose proof (Z.mod_pos_bound f 64 eq_refl).
    assert (0 < 2 ^ (f mod 64) ≤ 2 ^ 63) by (split; [lia|apply Z.pow_le_mono_r; lia]). lia.
  - rewrite one_free_set by lia. by rewrite size_singleton.
  - rewrite one_free_is_free by lia. bool_cases; [lia|done].
  - done.
Qed.

Lemma one_free_set_300 : free_set (pmm_bitmap (one_free 300)) = {[300]}.
Proof. by apply one_free_set. Qed.

Lemma pmm_alloc_correct_witness :
  ∃ p' m', pmm_alloc (one_free 300) (λ _, 7) = Some (300 * PAGE_SIZE, p', m') ∧ m' (300 * PAGE_SIZE) = 0.
Proof.
  destruct (pmm_alloc_correct (one_free 300) (λ _, 7)) as (r & p' & m' & E & _ & Hpost).
  - by apply one_free_inv.
  - exists p', m'. rewrite one_free_set_300 in Hpost.
    destruct Hpost as [(_ & H & _)|(f & -> & _ & Hf & _ & _ & Hm)]; [destruct (non_empty_singleton_L _ H)|].
    apply elem_of_singleton in Hf as ->. split; [exact E|]. rewrite Hm. reflexivity.
Defined.

(** Release and round trip.  Freeing what [pmm_alloc] returned restores the
    free set and the count, and freeing it a second time changes nothing. *)
Theorem pmm_alloc_free_roundtrip p m r p1 m1 :
  pmm_inv p → pmm_alloc p m = Some (r, p1, m1) → r ≠ 0 →
  ∃ p2, pmm_free_page r p1 = Some p2 ∧ pmm_inv p2
    ∧ free_set (pmm_bitmap p2) = free_set (pmm_bitmap p)
    ∧ pmm_free_pages p2 = pmm_free_pages p ∧ pmm_total_pages p2 = pmm_total_pages p1
    ∧ pmm_free_page r p2 = Some p2.
Proof.
  intros Hp E Hr. destruct (pmm_alloc_ok p m Hp) as (r' & p1' & m1' & E' & Hp1 & Hpost & _).
  rewrite E in E'. simplify_eq. destruct Hpost as [(? & _)|(f & Hf & -> & Hs & _)]; [done|].
  pose proof (fa_frame_range p f Hp Hf) as Hfr.
  assert (0 ≤ f * PAGE_SIZE < 2 ^ 64) as Hr64 by (cbn in Hfr; unfold PMM_MAX_FRAMES, PAGE_SIZE in *; lia).
  destruct (pmm_free_page_ok p1' (f * PAGE_SIZE) Hp1 Hr64) as (p2 & E2 & Hp2 & Hpost & _ & Ht).
  unfold release_post in Hpost. rewrite Z.div_mul, decide_True in Hpost by done.
  assert (free_set (pmm_bitmap p2) = free_set (pmm_bitmap p)) as Hs2.
  { rewrite Hpost, Hs. symmetry. by apply union_difference_singleton_L. }
  exists p2. split_and!; [exact E2|exact Hp2|exact Hs2| |exact Ht|].
  - unfold pmm_free_pages. by rewrite (inv_count _ Hp2), (inv_count _ Hp), Hs2.
  - destruct (pmm_free_page_ok p2 (f * PAGE_SIZE) Hp2 Hr64) as (p3 & E3 & _ & _ & H3 & _).
    rewrite E3. f_equal. apply H3. rewrite Z.div_mul, Hs2 by done. done.
Qed.

Lemma pmm_alloc_free_roundtrip_witness :
  ∃ p1 m1 p2, pmm_alloc (one_free 300) (λ _, 7) = Some (300 * PAGE_SIZE, p1, m1)
    ∧ pmm_free_page (300 * PAGE_SIZE) p1 = Some p2 ∧ free_set (pmm_bitmap p2) = {[300]}.
Proof.
  pose proof (one_free_inv 300 ltac:(done)) as Hp.
  destruct (pmm_alloc_ok (one_free 300) (λ _, 7) Hp) as (r & p1 & m1 & E & _ & Hpost & _).
  rewrite one_free_set_300 in Hpost.
  destruct Hpost as [(_ & H & _)|(f & Hf & -> & _)]; [destruct (non_empty_singleton_L _ H)|].
  apply elem_of_singleton in Hf as ->.
  destruct (pmm_alloc_free_roundtrip _ _ _ _ _ Hp E) as (p2 & E2 & _ & Hs & _); [clear; by vm_compute|].
  exists p1, m1, p2. rewrite Hs. split_and!; [exact E|exact E2|]. apply one_free_set_300.
Defined.

(** Exclusive ownership.  Over any sequence of [pmm_alloc] and
    [pmm_free_page] calls, with any arguments, no call faults, and between two
    allocations that return the same frame there is a release of that frame:
    two owners never hold one frame at once. *)
Theorem pmm_exclusive cs p m :
  pmm_inv p → Forall call_ok cs →
  ∃ tr p' m', fa_run (A:=pmm) cs p m = Some (tr, p', m') ∧ pmm_inv p'
    ∧ ∀ f tr1 tr2 tr3, f ≠ 0 →
        tr = tr1 ++ EvAlloc (f * PAGE_SIZE) :: tr2 ++ EvAlloc (f * PAGE_SIZE) :: tr3 →
        ∃ phys, EvRelease phys ∈ tr2 ∧ phys / PAGE_SIZE = f.
Proof.
  intros Hp Hcs. destruct (fa_run_total cs p m) as (tr & p' & m' & E & Hp'); [exact Hp|exact Hcs|].
  exists tr, p', m'. split_and!; [exact E|exact Hp'|]. intros f tr1 tr2 tr3 Hf Htr.
  eapply (fa_run_exclusive cs p m); [exact Hp|exact Hcs|exact Hf|exact E|exact Htr].
Qed.

Lemma pmm_exclusive_witness :
  ∃ tr p' m', fa_run (A:=pmm) [CallAlloc; CallRelease (300 * PAGE_SIZE); CallAlloc] (one_free 300) (λ _, 7)
              = Some (tr, p', m') ∧ pmm_inv p'.
Proof.
  destruct (pmm_exclusive [CallAlloc; CallRelease (300 * PAGE_SIZE); CallAlloc] (one_free 300) (λ _, 7))
    as (tr & p' & m' & E & Hp & _).
  - by apply one_free_inv.
  - by repeat constructor.
  - exists tr, p', m'. split; [exact E|exact Hp].
Defined.
