(* ===== verification/Vmm.v ===== *)
(** Model of kernel/mm/vmm.c, vmm.h and vmm_ext.c: four-level paging.  The
    page tables live in the byte memory, at the physical addresses the code
    dereferences; table pages come from a frame allocator known only through
    the interface of FrameAlloc.  The state carries, besides that memory and
    the allocator, the global [kernel_pml4], the register CR3, the EFER MSR and
    the log of the TLB operations issued. *)
From stdpp Require Import prelude gmap.
From S2P Require Import Prelude CString FrameAlloc.

(** ** Data *)

Definition VMM_PRESENT : Z := Z.shiftl 1 0.
Definition VMM_WRITABLE : Z := Z.shiftl 1 1.
Definition VMM_USER : Z := Z.shiftl 1 2.
Definition VMM_PWT : Z := Z.shiftl 1 3.
Definition VMM_PCD : Z := Z.shiftl 1 4.
Definition VMM_HUGE : Z := Z.shiftl 1 7.
Definition VMM_GLOBAL : Z := Z.shiftl 1 8.
Definition VMM_NO_EXEC : Z := Z.shiftl 1 63.

Definition VMM_KERNEL_RO : Z := Z.lor VMM_PRESENT VMM_GLOBAL.
Definition VMM_KERNEL_RW : Z := Z.lor (Z.lor VMM_PRESENT VMM_WRITABLE) VMM_GLOBAL.
Definition VMM_USER_RO : Z := Z.lor VMM_PRESENT VMM_USER.
Definition VMM_USER_RW : Z := Z.lor (Z.lor VMM_PRESENT VMM_WRITABLE) VMM_USER.
Definition VMM_MMIO : Z :=
  Z.lor (Z.lor (Z.lor (Z.lor VMM_PRESENT VMM_WRITABLE) VMM_PCD) VMM_PWT) VMM_GLOBAL.

Definition VMM_PHYS_MASK : Z := 0x000FFFFFFFFFF000.
Definition KERNEL_VIRT_BASE : Z := 0xFFFFFFFF80000000.

Definition PML4_IDX (v : Z) : Z := Z.land (Z.shiftr v 39) 0x1FF.
Definition PDPT_IDX (v : Z) : Z := Z.land (Z.shiftr v 30) 0x1FF.
Definition PD_IDX (v : Z) : Z := Z.land (Z.shiftr v 21) 0x1FF.
Definition PT_IDX (v : Z) : Z := Z.land (Z.shiftr v 12) 0x1FF.

Arguments PML4_IDX : simpl never.
Arguments PDPT_IDX : simpl never.
Arguments PD_IDX : simpl never.
Arguments PT_IDX : simpl never.

Definition EFER_NXE : Z := Z.shiftl 1 11.

Inductive tlb_op := Invlpg (virt : Z) | LoadCr3 (phys : Z).

Record vmm (A : Type) := {
  vm_alloc : A;
  vm_mem : mem;
  kernel_pml4 : Z;
  vm_cr3 : Z;
  vm_efer : Z;
  vm_tlb : list tlb_op;
}.
Arguments vm_alloc {A} _.
Arguments vm_mem {A} _.
Arguments kernel_pml4 {A} _.
Arguments vm_cr3 {A} _.
Arguments vm_efer {A} _.
Arguments vm_tlb {A} _.

Definition set_mem {A} (s : vmm A) (m : mem) : vmm A :=
  {| vm_alloc := vm_alloc s; vm_mem := m; kernel_pml4 := kernel_pml4 s;
     vm_cr3 := vm_cr3 s; vm_efer := vm_efer s; vm_tlb := vm_tlb s |}.
Definition set_alloc {A} (s : vmm A) (a : A) (m : mem) : vmm A :=
  {| vm_alloc := a; vm_mem := m; kernel_pml4 := kernel_pml4 s;
     vm_cr3 := vm_cr3 s; vm_efer := vm_efer s; vm_tlb := vm_tlb s |}.

(** [table[idx]] of a table at address [table]. *)
Definition entry (m : mem) (table idx : Z) : Z := load64 m (table + 8 * idx).
Definition set_entry (m : mem) (table idx v : Z) : mem := store64 m (table + 8 * idx) v.

(** [for (i = 0; i < n; i++) body(i)]: [n] iterations are left. *)
Fixpoint for_pages {S : Type} (n : nat) (i : Z) (body : Z → S → option S) (s : S) : option S :=
  match n with
  | O => Some s
  | S n' => s' ← body i s; for_pages n' (i + 1) body s'
  end.

(** [vmm_init] halts the machine when it cannot allocate the root table. *)
Inductive boot_result (S : Type) := Running (s : S) | Halted.
Arguments Running {S} _.
Arguments Halted {S}.

(** ** Operations *)

Section operations.
Context {A : Type} `{FrameOps A}.

Definition vmm_invlpg (virt : Z) (s : vmm A) : vmm A :=
  {| vm_alloc := vm_alloc s; vm_mem := vm_mem s; kernel_pml4 := kernel_pml4 s;
     vm_cr3 := vm_cr3 s; vm_efer := vm_efer s; vm_tlb := vm_tlb s ++ [Invlpg virt] |}.

Definition pmm_alloc_vm (s : vmm A) : option (Z * vmm A) :=
  '(page, a, m) ← fa_alloc (vm_alloc s) (vm_mem s);
  Some (page, set_alloc s a m).

Definition pmm_free_vm (phys : Z) (s : vmm A) : option (vmm A) :=
  a ← fa_release phys (vm_alloc s);
  Some (set_alloc s a (vm_mem s)).

(** Answers the address of the child table, 0 for NULL. *)
Definition get_or_create (table idx flags : Z) (s : vmm A) : option (Z * vmm A) :=
  if Z.land (entry (vm_mem s) table idx) VMM_PRESENT =? 0 then
    '(page, s1) ← pmm_alloc_vm s;
    if page =? 0 then Some (0, s1)
    else
      let s2 := set_mem s1 (set_entry (vm_mem s1) table idx (Z.lor page flags)) in
      Some (Z.land (entry (vm_mem s2) table idx) VMM_PHYS_MASK, s2)
  else Some (Z.land (entry (vm_mem s) table idx) VMM_PHYS_MASK, s).

Definition vmm_map (pml4 virt phys flags : Z) (s : vmm A) : option (vmm A) :=
  let p4 := PML4_IDX virt in
  let p3 := PDPT_IDX virt in
  let p2 := PD_IDX virt in
  let p1 := PT_IDX virt in
  let mid_flags := Z.lor (Z.lor VMM_PRESENT VMM_WRITABLE) (Z.land flags VMM_USER) in
  '(pdpt, s1) ← get_or_create pml4 p4 mid_flags s;
  if pdpt =? 0 then Some s1 else
  '(pd, s2) ← get_or_create pdpt p3 mid_flags s1;
  if pd =? 0 then Some s2 else
  '(pt, s3) ← get_or_create pd p2 mid_flags s2;
  if pt =? 0 then Some s3 else
  let s4 := set_mem s3 (set_entry (vm_mem s3) pt p1 (Z.lor (Z.land phys VMM_PHYS_MASK) flags)) in
  Some (vmm_invlpg virt s4).

Definition vmm_map_range (pml4 virt phys size flags : Z) (s : vmm A) : option (vmm A) :=
  let pages := ALIGN_UP size PAGE_SIZE / PAGE_SIZE in
  for_pages (Z.to_nat pages) 0
    (λ i, vmm_map pml4 (u64 (virt + i * PAGE_SIZE)) (u64 (phys + i * PAGE_SIZE)) flags) s.

Definition vmm_unmap (pml4 virt : Z) (s : vmm A) : vmm A :=
  let p4 := PML4_IDX virt in
  let p3 := PDPT_IDX virt in
  let p2 := PD_IDX virt in
  let p1 := PT_IDX virt in
  let m := vm_mem s in
  if Z.land (entry m pml4 p4) VMM_PRESENT =? 0 then s else
  let pdpt := Z.land (entry m pml4 p4) VMM_PHYS_MASK in
  if Z.land (entry m pdpt p3) VMM_PRESENT =? 0 then s else
  let pd := Z.land (entry m pdpt p3) VMM_PHYS_MASK in
  if Z.land (entry m pd p2) VMM_PRESENT =? 0 then s else
  let pt := Z.land (entry m pd p2) VMM_PHYS_MASK in
  vmm_invlpg virt (set_mem s (set_entry m pt p1 0)).

Definition vmm_translate (pml4 virt : Z) (m : mem) : Z :=
  let p4 := PML4_IDX virt in
  let p3 := PDPT_IDX virt in
  let p2 := PD_IDX virt in
  let p1 := PT_IDX virt in
  if Z.land (entry m pml4 p4) VMM_PRESENT =? 0 then 0 else
  let pdpt := Z.land (entry m pml4 p4) VMM_PHYS_MASK in
  if Z.land (entry m pdpt p3) VMM_PRESENT =? 0 then 0 else
  if negb (Z.land (entry m pdpt p3) VMM_HUGE =? 0) then
    Z.lor (Z.land (entry m pdpt p3) 0x000FFFFFC0000000) (Z.land virt 0x3FFFFFFF)
  else
  let pd := Z.land (entry m pdpt p3) VMM_PHYS_MASK in
  if Z.land (entry m pd p2) VMM_PRESENT =? 0 then 0 else
  if negb (Z.land (entry m pd p2) VMM_HUGE =? 0) then
    Z.lor (Z.land (entry m pd p2) 0x000FFFFFFFE00000) (Z.land virt 0x1FFFFF)
  else
  let pt := Z.land (entry m pd p2) VMM_PHYS_MASK in
  if Z.land (entry m pt p1) VMM_PRESENT =? 0 then 0 else
  Z.lor (Z.land (entry m pt p1) VMM_PHYS_MASK) (Z.land virt 0xFFF).

Definition vmm_switch (pml4 : Z) (s : vmm A) : vmm A :=
  {| vm_alloc := vm_alloc s; vm_mem := vm_mem s; kernel_pml4 := kernel_pml4 s;
     vm_cr3 := pml4; vm_efer := vm_efer s; vm_tlb := vm_tlb s ++ [LoadCr3 pml4] |}.

(** [for (i = 256; i < 512; i++) pml4[i] = kernel_pml4[i];] with [n] entries left. *)
Fixpoint copy_upper (n : nat) (i pml4 kernel : Z) (m : mem) : mem :=
  match n with
  | O => m
  | S n' => copy_upper n' (i + 1) pml4 kernel (set_entry m pml4 i (entry m kernel i))
  end.

Definition vmm_create_address_space (s : vmm A) : option (Z * vmm A) :=
  '(page, s1) ← pmm_alloc_vm s;
  if page =? 0 then Some (0, s1)
  else Some (page, set_mem s1 (copy_upper 256 256 page (kernel_pml4 s1) (vm_mem s1))).

Definition cpu_enable_nxe (s : vmm A) : vmm A :=
  {| vm_alloc := vm_alloc s; vm_mem := vm_mem s; kernel_pml4 := kernel_pml4 s;
     vm_cr3 := vm_cr3 s; vm_efer := Z.lor (vm_efer s) EFER_NXE; vm_tlb := vm_tlb s |}.

Definition set_kernel_pml4 (page : Z) (s : vmm A) : vmm A :=
  {| vm_alloc := vm_alloc s; vm_mem := vm_mem s; kernel_pml4 := page;
     vm_cr3 := vm_cr3 s; vm_efer := vm_efer s; vm_tlb := vm_tlb s |}.

(** The loops of [vmm_init] step [p] by PAGE_SIZE: iteration [i] has
    [p = i * PAGE_SIZE]. *)
Definition vmm_init (s : vmm A) : option (boot_result (vmm A)) :=
  '(pml4_page, s1) ← pmm_alloc_vm s;
  if pml4_page =? 0 then Some Halted
  else
    let s2 := set_kernel_pml4 pml4_page s1 in
    s3 ← for_pages (Z.to_nat (128 * 1024 * 1024 / PAGE_SIZE)) 0
           (λ i, vmm_map pml4_page (u64 (KERNEL_VIRT_BASE + i * PAGE_SIZE)) (i * PAGE_SIZE) VMM_KERNEL_RW) s2;
    s4 ← for_pages (Z.to_nat (2 * 1024 * 1024 / PAGE_SIZE)) 0
           (λ i, vmm_map pml4_page (i * PAGE_SIZE) (i * PAGE_SIZE) VMM_KERNEL_RW) s3;
    Some (Running (vmm_switch pml4_page (cpu_enable_nxe s4))).

(** *** vmm_ext.c *)

Definition vmm_map_kernel (virt phys flags : Z) (s : vmm A) : option (vmm A) :=
  vmm_map (kernel_pml4 s) virt phys flags s.

Definition vmm_alloc_map (pml4 virt flags : Z) (s : vmm A) : option (Z * vmm A) :=
  '(phys, s1) ← pmm_alloc_vm s;
  if phys =? 0 then Some (0, s1)
  else s2 ← vmm_map pml4 virt phys flags s1; Some (phys, s2).

(** The loop of [vmm_alloc_range], with [n] pages left from page [i] on. *)
Fixpoint alloc_range_loop (n : nat) (i pml4 virt flags : Z) (s : vmm A) : option (Z * vmm A) :=
  match n with
  | O => Some (0, s)
  | S n' =>
      '(r, s1) ← vmm_alloc_map pml4 (u64 (virt + i * PAGE_SIZE)) flags s;
      if r =? 0 then Some (-1, s1)
      else alloc_range_loop n' (i + 1) pml4 virt flags s1
  end.

Definition vmm_alloc_range (pml4 virt size flags : Z) (s : vmm A) : option (Z * vmm A) :=
  let pages := ALIGN_UP size PAGE_SIZE / PAGE_SIZE in
  alloc_range_loop (Z.to_nat pages) 0 pml4 virt flags s.

Definition free_range_step (pml4 virt i : Z) (s : vmm A) : option (vmm A) :=
  let va := u64 (virt + i * PAGE_SIZE) in
  let phys := vmm_translate pml4 va (vm_mem s) in
  if phys =? 0 then Some s
  else pmm_free_vm phys (vmm_unmap pml4 va s).

Definition vmm_free_range (pml4 virt size : Z) (s : vmm A) : option (vmm A) :=
  let pages := ALIGN_UP size PAGE_SIZE / PAGE_SIZE in
  for_pages (Z.to_nat pages) 0 (free_range_step pml4 virt) s.
End operations.
