(* ===== verification/VmmWf.v ===== *)
(** The well-formedness invariant of the page tables of kernel/mm/vmm.c and the
    two lemmas every theorem on paging rests on: creating an intermediate table
    changes no translation, and writing a leaf entry changes the translations
    of one page only.

    A ghost map labels each table page with its owner and the path of indices
    that leads to it.  The tables below the upper half of a root belong to the
    kernel (owner 0) because [vmm_create_address_space] shares them; the tables
    below the lower half belong to their root. *)
From stdpp Require Import prelude gmap.
From S2P Require Import Prelude CString FrameAlloc Vmm.

Abbreviation absent e := (Z.land e VMM_PRESENT =? 0).
Abbreviation table_of e := (Z.land e VMM_PHYS_MASK).

(** ** Arithmetic of entries and indices *)

Lemma page_lor f k : 0 ≤ k < PAGE_SIZE → Z.lor (f * PAGE_SIZE) k = f * PAGE_SIZE + k.
Proof.
  change PAGE_SIZE with (2 ^ 12). intros Hk. rewrite <-(Z.add_lor_land (f * 2 ^ 12) k).
  replace (Z.land (f * 2 ^ 12) k) with 0; [lia|]. symmetry. apply Z.bits_inj'. intros i Hi.
  rewrite Z.land_spec, Z.bits_0. destruct (Z.lt_ge_cases i 12).
  - by rewrite Z.mul_pow2_bits_low by lia.
  - rewrite (testbit_high k 12) by lia. apply andb_false_r.
Qed.

Lemma phys_mask e : table_of e = (e / PAGE_SIZE) mod 2 ^ 40 * PAGE_SIZE.
Proof.
  change VMM_PHYS_MASK with (Z.shiftl (Z.ones 40) 12). change PAGE_SIZE with (2 ^ 12).
  apply Z.bits_inj'. intros i Hi. rewrite Z.land_spec, Z.shiftl_spec by done.
  destruct (Z.lt_ge_cases i 12).
  - rewrite Z.mul_pow2_bits_low by lia. rewrite (Z.testbit_neg_r _ (i - 12)) by lia. apply andb_false_r.
  - rewrite Z.mul_pow2_bits by lia. destruct (Z.lt_ge_cases i 52).
    + rewrite Z.ones_spec_low, Z.mod_pow2_bits_low by lia. rewrite andb_true_r, Z.div_pow2_bits by lia.
      f_equal. lia.
    + rewrite Z.ones_spec_high, Z.mod_pow2_bits_high by lia. apply andb_false_r.
Qed.

Lemma table_of_entry f k : 0 ≤ f < 2 ^ 40 → 0 ≤ k < PAGE_SIZE → table_of (f * PAGE_SIZE + k) = f * PAGE_SIZE.
Proof.
  intros Hf Hk. rewrite phys_mask. f_equal. rewrite Z.div_add_l, (Z.div_small k) by done.
  rewrite Z.add_0_r. by apply Z.mod_small.
Qed.

Lemma land_pow2_page f k j : 0 ≤ j < 12 → Z.land (f * PAGE_SIZE + k) (2 ^ j) = Z.land k (2 ^ j).
Proof.
  intros Hj. assert (∀ x, Z.land x (2 ^ j) = Z.land (x mod 2 ^ 12) (2 ^ j)) as H.
  { intros x. apply Z.bits_inj'. intros i Hi. rewrite !Z.land_spec, Z.pow2_bits_eqb by lia.
    destruct (Z.eqb_spec j i) as [->|]; [|by rewrite !andb_false_r].
    by rewrite Z.mod_pow2_bits_low by lia. }
  rewrite H, (H k). f_equal. change PAGE_SIZE with (2 ^ 12). rewrite Z.add_comm. by apply Z.mod_add.
Qed.

(** The flags [vmm_map] gives to intermediate entries. *)
Definition mid_ok (flags : Z) : Prop := flags = 3 ∨ flags = 7.

Lemma mid_flags_ok flags :
  mid_ok (Z.lor (Z.lor VMM_PRESENT VMM_WRITABLE) (Z.land flags VMM_USER)).
Proof.
  assert (Z.land flags VMM_USER = 0 ∨ Z.land flags VMM_USER = 4) as [->| ->]; [|by left|by right].
  change VMM_USER with (2 ^ 2). destruct (Z.testbit flags 2) eqn:E; [right|left]; apply Z.bits_inj';
    intros i Hi; rewrite Z.land_spec, Z.pow2_bits_eqb by lia; destruct (Z.eqb_spec 2 i) as [<-|].
  - by rewrite E.
  - rewrite andb_false_r. symmetry. by apply (Z.pow2_bits_false 2).
  - by rewrite E, Z.bits_0.
  - by rewrite andb_false_r, Z.bits_0.
Qed.

Lemma mid_entry f flags :
  mid_ok flags → 0 ≤ f < 2 ^ 40 → let e := u64 (Z.lor (f * PAGE_SIZE) flags) in
  absent e = false ∧ Z.land e VMM_HUGE = 0 ∧ table_of e = f * PAGE_SIZE.
Proof.
  intros Hm Hf e. assert (0 ≤ flags < 8) by (destruct Hm; lia).
  assert (e = f * PAGE_SIZE + flags) as ->.
  { unfold e. rewrite page_lor by (unfold PAGE_SIZE; lia). apply u64_small. unfold PAGE_SIZE. lia. }
  change VMM_PRESENT with (2 ^ 0). change VMM_HUGE with (2 ^ 7).
  rewrite !land_pow2_page, table_of_entry by (unfold PAGE_SIZE; lia).
  by destruct Hm as [-> | ->].
Qed.

Lemma idx_eq v k : 0 ≤ k → Z.land (Z.shiftr v k) 0x1FF = (v / 2 ^ k) mod 512.
Proof.
  intros. change 0x1FF with (Z.ones 9). by rewrite Z.land_ones, Z.shiftr_div_pow2.
Qed.

Lemma idx_range v k : 0 ≤ k → 0 ≤ Z.land (Z.shiftr v k) 0x1FF < 512.
Proof. intros. rewrite idx_eq by done. apply Z.mod_pos_bound. lia. Qed.

(** The page number that the four indices encode. *)
Definition vpn (v : Z) : Z := (v / PAGE_SIZE) mod 2 ^ 36.

Arguments vpn : simpl never.

Definition path (v : Z) : list Z := [PML4_IDX v; PDPT_IDX v; PD_IDX v].

Lemma vpn_split v :
  vpn v = ((PML4_IDX v * 512 + PDPT_IDX v) * 512 + PD_IDX v) * 512 + PT_IDX v.
Proof.
  unfold vpn, PML4_IDX, PDPT_IDX, PD_IDX, PT_IDX. rewrite !idx_eq by lia. unfold PAGE_SIZE.
  change (2 ^ 39) with (4096 * 512 * 512 * 512). change (2 ^ 30) with (4096 * 512 * 512).
  change (2 ^ 21) with (4096 * 512). change (2 ^ 12) with 4096.
  rewrite <-!Z.div_div by lia. change (2 ^ 36) with (512 * (512 * (512 * 512))).
  set (x := v / 4096). rewrite !Z.rem_mul_r by lia. lia.
Qed.

Lemma path_idx v : Forall (λ i, 0 ≤ i < 512) (path v).
Proof. repeat constructor; apply idx_range; lia. Qed.

Lemma vpn_eq v v' : vpn v = vpn v' ↔ path v = path v' ∧ PT_IDX v = PT_IDX v'.
Proof.
  rewrite !vpn_split. unfold path.
  pose proof (idx_range v 39 ltac:(lia)) as H1. pose proof (idx_range v' 39 ltac:(lia)) as H2.
  pose proof (idx_range v 30 ltac:(lia)) as H3. pose proof (idx_range v' 30 ltac:(lia)) as H4.
  pose proof (idx_range v 21 ltac:(lia)) as H5. pose proof (idx_range v' 21 ltac:(lia)) as H6.
  pose proof (idx_range v 12 ltac:(lia)) as H7. pose proof (idx_range v' 12 ltac:(lia)) as H8.
  fold (PML4_IDX v) (PML4_IDX v') (PDPT_IDX v) (PDPT_IDX v') (PD_IDX v) (PD_IDX v') (PT_IDX v) (PT_IDX v') in *.
  split; [|intros [E ->]; by injection E as -> -> ->].
  intros E. assert (PML4_IDX v = PML4_IDX v') by lia. assert (PDPT_IDX v = PDPT_IDX v') by lia.
  assert (PD_IDX v = PD_IDX v') by lia. split; [congruence|lia].
Qed.

(** ** Walks *)

(** The table that the indices of [π] lead to from the table at [t]. *)
Fixpoint walk (m : mem) (t : Z) (π : list Z) : option Z :=
  match π with
  | [] => Some t
  | i :: π' => if absent (entry m t i) then None else walk m (table_of (entry m t i)) π'
  end.

(** How many tables are still to be created below [t] to reach the end of [π]. *)
Fixpoint missing (m : mem) (t : Z) (π : list Z) : nat :=
  match π with
  | [] => 0
  | i :: π' => if absent (entry m t i) then length π else missing m (table_of (entry m t i)) π'
  end.

(** The leaf entry for [v] under the root at [t]; 0 if a table is missing. *)
Definition pte (m : mem) (t v : Z) : Z :=
  match walk m t (path v) with
  | Some pt => entry m pt (PT_IDX v)
  | None => 0
  end.

Lemma walk_app m t π1 π2 : walk m t (π1 ++ π2) = (walk m t π1 ≫= λ t', walk m t' π2).
Proof.
  revert t. induction π1 as [|i π1 IH]; intros t; [done|]. simpl. destruct (absent _); [done|]. apply IH.
Qed.

Lemma missing_zero m t π : missing m t π = 0%nat ↔ is_Some (walk m t π).
Proof.
  revert t. induction π as [|i π IH]; intros t; simpl; [naive_solver|].
  destruct (absent _); [|apply IH]. split; [done|]. by intros [? ?].
Qed.

(** ** The invariant *)

(** A label: the owner of a table and its path from the root. *)
Abbreviation label := (Z * list Z)%type.

Definition child_owner (o : Z) (π : list Z) (i : Z) : Z :=
  match π with
  | [] => if i <? 256 then o else 0
  | _ => o
  end.

Section wf.
Context {A : Type} `{FrameAllocator A}.
Implicit Types (s : vmm A) (T : gmap Z label).

Definition frames (s : vmm A) : gset Z := fa_frames (vm_alloc s).

(** Each labelled page is a frame in use; a present entry of a table that is
    not a leaf table points to the table labelled with the longer path, and is
    not marked as a huge page. *)
Record pt_wf (T : gmap Z label) (s : vmm A) : Prop := {
  wf_alloc : fa_ok (vm_alloc s);
  wf_used : ∀ f o π, T !! f = Some (o, π) → (f ∉ frames s) ∧ 0 < f < fa_bound;
  wf_root : ∀ f o, T !! f = Some (o, []) → o = f;
  wf_child : ∀ f o π i, T !! f = Some (o, π) → (length π < 3)%nat → 0 ≤ i < 512 →
    absent (entry (vm_mem s) (f * PAGE_SIZE) i) = false →
    Z.land (entry (vm_mem s) (f * PAGE_SIZE) i) VMM_HUGE = 0
    ∧ ∃ g, table_of (entry (vm_mem s) (f * PAGE_SIZE) i) = g * PAGE_SIZE
           ∧ T !! g = Some (child_owner o π i, π ++ [i]);
}.

(** A state in which nothing is labelled satisfies the invariant. *)
Lemma pt_wf_empty s : fa_ok (vm_alloc s) → pt_wf ∅ s.
Proof. intros Hok. split; try done. Qed.

(** The owner of the table at the end of a non-empty walk from a root. *)
Definition path_owner (o : Z) (π0 π : list Z) : Z :=
  match π with
  | [] => o
  | i :: _ => child_owner o π0 i
  end.

Lemma walk_label T s f o π0 π t :
  pt_wf T s → T !! f = Some (o, π0) → (length π0 + length π ≤ 3)%nat →
  Forall (λ i, 0 ≤ i < 512) π → walk (vm_mem s) (f * PAGE_SIZE) π = Some t →
  ∃ g, t = g * PAGE_SIZE ∧ T !! g = Some (path_owner o π0 π, π0 ++ π).
Proof.
  intros Hwf. revert f o π0. induction π as [|i π IH]; intros f o π0 Hf Hlen Hi Hw; simpl in *.
  { simplify_eq. exists f. by rewrite app_nil_r. }
  apply Forall_cons in Hi as [Hi Hπ]. destruct (absent _) eqn:E; [done|].
  destruct (wf_child _ _ Hwf f o π0 i Hf) as [_ (g & Eg & Hg)]; [lia|done|done|].
  rewrite Eg in Hw. destruct (IH g _ _ Hg) as (h & -> & Hh); [rewrite length_app; simpl; lia|done|done|].
  exists h. split; [done|]. rewrite Hh, <-app_assoc. do 2 f_equal.
  destruct π as [|j π]; [done|]. simpl. by destruct π0.
Qed.

(** Under the invariant [vmm_translate] reads the leaf entry. *)
Lemma vmm_translate_pte T s r v :
  pt_wf T s → T !! r = Some (r, []) →
  vmm_translate (r * PAGE_SIZE) v (vm_mem s)
  = let e := pte (vm_mem s) (r * PAGE_SIZE) v in
    if absent e then 0 else Z.lor (table_of e) (Z.land v 0xFFF).
Proof.
  intros Hwf Hr. unfold vmm_translate, pte, path. simpl.
  pose proof (path_idx v) as Hi. apply Forall_cons in Hi as [H4 [H3 [H2 _]%Forall_cons]%Forall_cons].
  destruct (absent (entry _ (r * PAGE_SIZE) _)) eqn:E4; [done|].
  destruct (wf_child _ _ Hwf _ _ _ _ Hr ltac:(simpl; lia) H4 E4) as [_ (g3 & -> & Hg3)].
  destruct (absent (entry _ (g3 * PAGE_SIZE) _)) eqn:E3; [done|].
  destruct (wf_child _ _ Hwf _ _ _ _ Hg3 ltac:(simpl; lia) H3 E3) as [-> (g2 & -> & Hg2)]. simpl.
  destruct (absent (entry _ (g2 * PAGE_SIZE) _)) eqn:E2; [done|].
  destruct (wf_child _ _ Hwf _ _ _ _ Hg2 ltac:(simpl; lia) H2 E2) as [-> (g1 & -> & Hg1)]. done.
Qed.

(** ** Table pages do not overlap *)

Lemma entry_frame m m' f i :
  0 ≤ i < 512 → (∀ a, in_frame f a → m' a = m a) →
  entry m' (f * PAGE_SIZE) i = entry m (f * PAGE_SIZE) i.
Proof.
  intros Hi Hm. apply load64_ext. intros b Hb. apply Hm. unfold in_frame, PAGE_SIZE in *. lia.
Qed.

Lemma entry_set_other m f g i j v :
  0 ≤ i < 512 → 0 ≤ j < 512 → (f ≠ g ∨ i ≠ j) →
  entry (set_entry m (g * PAGE_SIZE) j v) (f * PAGE_SIZE) i = entry m (f * PAGE_SIZE) i.
Proof. intros Hi Hj Hne. apply load_store64_ne. unfold PAGE_SIZE. lia. Qed.

Lemma entry_set_same m f i v : entry (set_entry m (f * PAGE_SIZE) i v) (f * PAGE_SIZE) i = u64 v.
Proof. apply load_store64_eq. Qed.

Lemma set_entry_outside m g j v a :
  0 ≤ j < 512 → ¬ in_frame g a → set_entry m (g * PAGE_SIZE) j v a = m a.
Proof. intros Hj Ha. apply store64_outside. unfold in_frame, PAGE_SIZE in *. lia. Qed.

(** Walks depend only on the entries of labelled pages. *)
Lemma walk_ext T s m' f o π0 π :
  pt_wf T s → T !! f = Some (o, π0) → (length π0 + length π ≤ 3)%nat →
  Forall (λ i, 0 ≤ i < 512) π →
  (∀ g o' π' i, T !! g = Some (o', π') → (length π' < 3)%nat → 0 ≤ i < 512 →
    entry m' (g * PAGE_SIZE) i = entry (vm_mem s) (g * PAGE_SIZE) i) →
  walk m' (f * PAGE_SIZE) π = walk (vm_mem s) (f * PAGE_SIZE) π.
Proof.
  intros Hwf Hf Hlen Hi Hm. revert f o π0 Hf Hlen.
  induction Hi as [|i π Hi Hπ IH]; intros f o π0 Hf Hlen; [done|]. simpl in *.
  rewrite (Hm f o π0 i Hf) by lia. destruct (absent _) eqn:E; [done|].
  destruct (wf_child _ _ Hwf f o π0 i Hf) as [_ (g & -> & Hg)]; [lia|done|done|].
  apply (IH g _ _ Hg). rewrite length_app. simpl. lia.
Qed.

(** ** Extensions

    [vm_ext T s T' s']: the operation from [s] to [s'] only adds tables, takes
    frames from the allocator, keeps every walk that succeeds, and leaves the
    bytes outside the tables and the free frames alone. *)
Record vm_ext (T : gmap Z label) (s : vmm A) (T' : gmap Z label) (s' : vmm A) : Prop := {
  ext_tables : T ⊆ T';
  ext_new : ∀ f, is_Some (T' !! f) → is_Some (T !! f) ∨ f ∈ frames s;
  ext_roots : ∀ f o, T' !! f = Some (o, []) → T !! f = Some (o, []);
  ext_frames : frames s' ⊆ frames s;
  ext_wf : pt_wf T' s';
  ext_walk : ∀ f l π t, T !! f = Some l → (length l.2 + length π ≤ 3)%nat →
    Forall (λ i, 0 ≤ i < 512) π →
    walk (vm_mem s) (f * PAGE_SIZE) π = Some t → walk (vm_mem s') (f * PAGE_SIZE) π = Some t;
  ext_data : ∀ f a, in_frame f a → T !! f = None → f ∉ frames s → vm_mem s' a = vm_mem s a;
  ext_regs : kernel_pml4 s' = kernel_pml4 s ∧ vm_cr3 s' = vm_cr3 s ∧ vm_efer s' = vm_efer s;
}.

Lemma vm_ext_refl T s : pt_wf T s → vm_ext T s T s.
Proof. intros Hwf. split; auto. Qed.

Lemma vm_ext_trans T1 s1 T2 s2 T3 s3 :
  vm_ext T1 s1 T2 s2 → vm_ext T2 s2 T3 s3 → vm_ext T1 s1 T3 s3.
Proof.
  intros H1 H2. split.
  - etrans; [apply H1|apply H2].
  - intros f Hf. destruct (ext_new _ _ _ _ H2 f Hf) as [Hf2|Hf2]; [by apply (ext_new _ _ _ _ H1)|].
    right. by apply (ext_frames _ _ _ _ H1).
  - intros f o Hf. by apply (ext_roots _ _ _ _ H1), (ext_roots _ _ _ _ H2).
  - etrans; [apply H2|apply H1].
  - apply H2.
  - intros f l π t Hf Hlen Hi Hw. apply (ext_walk _ _ _ _ H2 f l); [|done|done|].
    + by apply (lookup_weaken _ _ _ _ Hf), H1.
    + by apply (ext_walk _ _ _ _ H1 f l).
  - intros f a Ha HT Hfr. rewrite (ext_data _ _ _ _ H2 f); [by apply (ext_data _ _ _ _ H1 f)|done| |].
    + apply eq_None_not_Some. intros Hs. destruct (ext_new _ _ _ _ H1 f Hs) as [[? ?]|]; [congruence|done].
    + intros Hin. by apply Hfr, (ext_frames _ _ _ _ H1).
  - destruct (ext_regs _ _ _ _ H1) as (? & ? & ?), (ext_regs _ _ _ _ H2) as (? & ? & ?).
    split_and!; congruence.
Qed.

(** ** Creating a table *)

Definition same_ptes (T : gmap Z label) (m m' : mem) : Prop :=
  ∀ r v, T !! r = Some (r, []) → pte m' (r * PAGE_SIZE) v = pte m (r * PAGE_SIZE) v.

(** The invariant depends on the memory only through the entries of the tables
    that are not leaf tables. *)
Lemma pt_wf_mem T s s' :
  pt_wf T s → fa_ok (vm_alloc s') → frames s' ⊆ frames s →
  (∀ f o π i, T !! f = Some (o, π) → (length π < 3)%nat → 0 ≤ i < 512 →
    entry (vm_mem s') (f * PAGE_SIZE) i = entry (vm_mem s) (f * PAGE_SIZE) i) →
  pt_wf T s'.
Proof.
  intros Hwf Hok Hfr He. split; [done| |by apply Hwf|].
  - intros f o π Hf. destruct (wf_used _ _ Hwf f o π Hf). set_solver.
  - intros f o π i Hf Hlen Hi. rewrite (He f o π i Hf Hlen Hi). by apply Hwf.
Qed.

(** Same for an extension that creates no table. *)
Lemma vm_ext_mem T s s' :
  pt_wf T s → fa_ok (vm_alloc s') → frames s' ⊆ frames s →
  (∀ f o π i, T !! f = Some (o, π) → (length π < 3)%nat → 0 ≤ i < 512 →
    entry (vm_mem s') (f * PAGE_SIZE) i = entry (vm_mem s) (f * PAGE_SIZE) i) →
  (∀ f a, in_frame f a → T !! f = None → f ∉ frames s → vm_mem s' a = vm_mem s a) →
  kernel_pml4 s' = kernel_pml4 s ∧ vm_cr3 s' = vm_cr3 s ∧ vm_efer s' = vm_efer s →
  vm_ext T s T s'.
Proof.
  intros Hwf Hok Hfr He Hd Hr. split; auto.
  - by eapply pt_wf_mem.
  - intros f [o π0] π t Hf Hlen Hi <-. by eapply walk_ext.
Qed.

(** The memory after a zeroed frame [g] was entered at index [i] of table [f]. *)
Record created (T : gmap Z label) (m m' : mem) (f i g : Z) : Prop := {
  cr_fresh : T !! g = None;
  cr_absent : absent (entry m (f * PAGE_SIZE) i) = true;
  cr_entry : absent (entry m' (f * PAGE_SIZE) i) = false
             ∧ Z.land (entry m' (f * PAGE_SIZE) i) VMM_HUGE = 0
             ∧ table_of (entry m' (f * PAGE_SIZE) i) = g * PAGE_SIZE;
  cr_zero : ∀ j, 0 ≤ j < 512 → entry m' (g * PAGE_SIZE) j = 0;
  cr_other : ∀ h j, is_Some (T !! h) → 0 ≤ j < 512 → (h ≠ f ∨ j ≠ i) →
    entry m' (h * PAGE_SIZE) j = entry m (h * PAGE_SIZE) j;
}.

Lemma walk_zero m t π :
  (∀ j, 0 ≤ j < 512 → entry m t j = 0) → Forall (λ i, 0 ≤ i < 512) π →
  walk m t π = match π with [] => Some t | _ => None end ∧ missing m t π = length π.
Proof. intros Hz Hi. destruct Hi as [|i π Hi Hπ]; simpl; [done|]. by rewrite Hz. Qed.

Lemma walk_created T s m' f i g h l π :
  pt_wf T s → created T (vm_mem s) m' f i g → T !! h = Some l → (length l.2 + length π ≤ 3)%nat →
  Forall (λ i, 0 ≤ i < 512) π →
  walk m' (h * PAGE_SIZE) π = walk (vm_mem s) (h * PAGE_SIZE) π
  ∨ (walk (vm_mem s) (h * PAGE_SIZE) π = None ∧ walk m' (h * PAGE_SIZE) π = Some (g * PAGE_SIZE)).
Proof.
  intros Hwf Hc Hh Hlen Hi. revert h l Hh Hlen.
  induction Hi as [|j π Hj Hπ IH]; intros h [o π0] Hh Hlen; [by left|]. simpl in *.
  destruct (decide (h = f ∧ j = i)) as [[-> ->]|Hne].
  - rewrite (cr_absent _ _ _ _ _ _ Hc). destruct (cr_entry _ _ _ _ _ _ Hc) as (-> & _ & ->).
    destruct (walk_zero m' (g * PAGE_SIZE) π (cr_zero _ _ _ _ _ _ Hc) Hπ) as [-> _].
    destruct π; [by right|by left].
  - rewrite (cr_other _ _ _ _ _ _ Hc h j) by (eauto || lia).
    destruct (absent _) eqn:E; [by left|].
    destruct (wf_child _ _ Hwf h o π0 j Hh) as [_ (k & -> & Hk)]; [lia|done|done|].
    apply (IH k _ Hk). simpl. rewrite length_app. simpl. lia.
Qed.

Lemma created_same_ptes T s m' f i g :
  pt_wf T s → created T (vm_mem s) m' f i g →
  (∀ h o π, T !! h = Some (o, π) → length π = 3%nat → h ≠ f) → same_ptes T (vm_mem s) m'.
Proof.
  intros Hwf Hc Hleaf r v Hr. unfold pte.
  assert (0 ≤ PT_IDX v < 512) as Hv by (apply idx_range; lia).
  destruct (walk_created T s m' f i g r (r, []) (path v) Hwf Hc Hr) as [->|[-> ->]];
    [simpl; lia|apply path_idx| |by apply Hc].
  destruct (walk (vm_mem s) _ _) as [t|] eqn:E; [|done].
  destruct (walk_label T s r r [] (path v) t) as (k & -> & Hk); [done|done|simpl; lia|apply path_idx|done|].
  apply (cr_other _ _ _ _ _ _ Hc k); [by eexists|done|]. left. by eapply Hleaf.
Qed.

Lemma created_wf T s s' f o π i g :
  pt_wf T s → T !! f = Some (o, π) → (length π < 3)%nat → 0 < g < fa_bound →
  created T (vm_mem s) (vm_mem s') f i g → fa_ok (vm_alloc s') → frames s' = frames s ∖ {[g]} →
  pt_wf (<[g := (child_owner o π i, π ++ [i])]> T) s'.
Proof.
  intros Hwf Hf Hlen Hg Hc Hok Hfr. split; [done| | |].
  - intros h o' π' [[<- ?]|[Hne Hh]]%lookup_insert_Some; [set_solver|].
    destruct (wf_used _ _ Hwf h o' π' Hh). set_solver.
  - intros h o' [[<- ?]|[Hne Hh]]%lookup_insert_Some; [by destruct π; simplify_eq|by apply Hwf].
  - intros h o' π' j [[<- ?]|[Hne Hh]]%lookup_insert_Some Hlen' Hj E.
    { by rewrite (cr_zero _ _ _ _ _ _ Hc j Hj) in E. }
    destruct (decide (h = f ∧ j = i)) as [[-> ->]|Hne'].
    + destruct (cr_entry _ _ _ _ _ _ Hc) as (_ & Hhuge & Ht). split; [done|]. exists g.
      rewrite lookup_insert_eq.
      rewrite Hf in Hh. by injection Hh as <- <-.
    + assert (entry (vm_mem s') (h * PAGE_SIZE) j = entry (vm_mem s) (h * PAGE_SIZE) j) as Ee
        by (apply (cr_other _ _ _ _ _ _ Hc h j); [by eexists|done|lia]).
      rewrite Ee in *. destruct (wf_child _ _ Hwf h o' π' j Hh Hlen' Hj E) as [? (k & ? & Hk)].
      split; [done|]. exists k. split; [done|]. rewrite lookup_insert_ne; [done|].
      intros ->. by rewrite (cr_fresh _ _ _ _ _ _ Hc) in Hk.
Qed.

Lemma alloc_created T m m1 f i g flags :
  is_Some (T !! f) → T !! g = None → 0 ≤ i < 512 → 0 ≤ g < 2 ^ 40 → mid_ok flags →
  absent (entry m (f * PAGE_SIZE) i) = true →
  (∀ a, m1 a = if decide (in_frame g a) then 0 else m a) →
  created T m (set_entry m1 (f * PAGE_SIZE) i (Z.lor (g * PAGE_SIZE) flags)) f i g.
Proof.
  intros Hf Hg Hi Hgr Hm Ha Hm1.
  assert (f ≠ g) as Hfg by (intros ->; destruct Hf; congruence). split; [done|done| | |].
  - rewrite entry_set_same. by apply mid_entry.
  - intros j Hj. rewrite entry_set_other by (done || lia). apply load64_zero. intros b Hb.
    rewrite Hm1, decide_True; [done|]. unfold in_frame, PAGE_SIZE in *. lia.
  - intros h j Hh Hj Hne. rewrite entry_set_other by (done || lia).
    apply entry_frame; [done|]. intros a Hin. rewrite Hm1, decide_False; [done|].
    intros Hin'. assert (h = g) as -> by (unfold in_frame, PAGE_SIZE in *; lia). destruct Hh. congruence.
Qed.

Lemma created_ext T s s' f o π i g :
  pt_wf T s → T !! f = Some (o, π) → (length π < 3)%nat → g ∈ frames s →
  created T (vm_mem s) (vm_mem s') f i g → fa_ok (vm_alloc s') → frames s' = frames s ∖ {[g]} →
  (∀ f a, in_frame f a → T !! f = None → f ∉ frames s → vm_mem s' a = vm_mem s a) →
  kernel_pml4 s' = kernel_pml4 s ∧ vm_cr3 s' = vm_cr3 s ∧ vm_efer s' = vm_efer s →
  vm_ext T s (<[g := (child_owner o π i, π ++ [i])]> T) s'.
Proof.
  intros Hwf Hf Hlen Hg Hc Hok Hfr Hd Hr. split.
  - apply insert_subseteq, Hc.
  - intros h. destruct (decide (h = g)) as [->|Hne]; [by right|]. rewrite lookup_insert_ne by done. by left.
  - intros h o' [[<- ?]|[_ ?]]%lookup_insert_Some; [by destruct π|done].
  - set_solver.
  - eapply created_wf; try done. by apply (fa_frame_range _ _ (wf_alloc _ _ Hwf)).
  - intros h l π' t Hh Hl Hi Hw.
    destruct (walk_created T s (vm_mem s') f i g h l π' Hwf Hc Hh Hl Hi) as [->|[? _]]; congruence.
  - done.
  - done.
Qed.

(** [get_or_create] at index [i] of a table: it answers NULL when the entry is
    absent and no frame is left; otherwise it answers the child table, keeps
    every translation, and used a frame exactly if the entry was absent. *)
Lemma get_or_create_spec T s f o π i flags :
  pt_wf T s → T !! f = Some (o, π) → (length π < 3)%nat → 0 ≤ i < 512 → mid_ok flags →
  ∃ t s', get_or_create (f * PAGE_SIZE) i flags s = Some (t, s') ∧ vm_tlb s' = vm_tlb s
    ∧ ((t = 0 ∧ absent (entry (vm_mem s) (f * PAGE_SIZE) i) = true ∧ frames s = ∅
        ∧ vm_ext T s T s' ∧ same_ptes T (vm_mem s) (vm_mem s'))
       ∨ ∃ g T', t = g * PAGE_SIZE ∧ 0 < g ∧ T' !! g = Some (child_owner o π i, π ++ [i])
           ∧ vm_ext T s T' s' ∧ same_ptes T (vm_mem s) (vm_mem s')
           ∧ walk (vm_mem s') (f * PAGE_SIZE) [i] = Some t
           ∧ ∀ π', Forall (λ i, 0 ≤ i < 512) π' →
               (size (frames s) + missing (vm_mem s') t π'
                = size (frames s') + missing (vm_mem s) (f * PAGE_SIZE) (i :: π'))%nat).
Proof.
  intros Hwf Hf Hlen Hi Hm. unfold get_or_create, pmm_alloc_vm. simpl.
  destruct (absent (entry (vm_mem s) (f * PAGE_SIZE) i)) eqn:E; last first.
  { destruct (wf_child _ _ Hwf f o π i Hf Hlen Hi E) as [_ (g & Eg & Hg)].
    eexists _, s. split; [done|]. split; [done|]. right. exists g, T. rewrite Eg.
    destruct (wf_used _ _ Hwf _ _ _ Hg).
    split_and!; [done|lia|done|by apply vm_ext_refl|done|simpl; by rewrite E|done]. }
  destruct (fa_alloc_ok (vm_alloc s) (vm_mem s) (wf_alloc _ _ Hwf)) as (r & a & m1 & -> & Hok & Hpost).
  simpl. destruct Hpost as [(-> & Hfr & Hfr' & Hmem)|(g & Hg & -> & Hfr & Hmem)].
  { exists 0, (set_alloc s a m1). split; [done|]. split; [done|]. left.
    assert (∀ h i, 0 ≤ i < 512 → entry m1 (h * PAGE_SIZE) i = entry (vm_mem s) (h * PAGE_SIZE) i) as He.
    { intros. apply entry_frame; [done|]. intros. apply Hmem. }
    split_and!; try done.
    - apply vm_ext_mem; try done; [unfold frames; simpl; by rewrite Hfr'|by intros; apply He].
    - intros r v Hr. unfold pte. cbn [set_alloc vm_mem]. 
      rewrite (walk_ext T s m1 r r [] (path v) Hwf Hr ltac:(simpl; lia) (path_idx v))
        by (intros; by apply He).
      destruct (walk (vm_mem s) _ _) as [t|] eqn:Ew; [|done].
      destruct (walk_label T s r r [] (path v) t) as (k & -> & _); [done|done|simpl; lia|apply path_idx|done|].
      apply He, idx_range. lia. }
  pose proof (fa_frame_range _ _ (wf_alloc _ _ Hwf) Hg) as Hgr. pose proof fa_bound_range as Hb.
  destruct (Z.eqb_spec (g * PAGE_SIZE) 0) as [|_]; [unfold PAGE_SIZE in *; lia|].
  set (m2 := set_entry m1 (f * PAGE_SIZE) i (Z.lor (g * PAGE_SIZE) flags)).
  assert (T !! g = None) as Hgn.
  { destruct (T !! g) as [[o' π']|] eqn:Eg; [|done]. by destruct (wf_used _ _ Hwf _ _ _ Eg). }
  assert (created T (vm_mem s) m2 f i g) as Hc by (apply alloc_created; [by eexists|done|done|lia|done|done|done]).
  destruct (cr_entry _ _ _ _ _ _ Hc) as (Ha & _ & Ht). simpl. rewrite Ht.
  eexists _, _. split; [done|]. split; [done|]. right.
  exists g, (<[g := (child_owner o π i, π ++ [i])]> T).
  assert (same_ptes T (vm_mem s) m2) as Hsame.
  { eapply created_same_ptes; [done|done|]. intros h o' π' Hh Hl ->. rewrite Hf in Hh. simplify_eq. lia. }
  split_and!; [done|lia|by rewrite lookup_insert_eq| |done|simpl; by rewrite Ha, Ht|].
  - eapply created_ext; try done. intros h a' Hin Hh Hnf. unfold m2. simpl.
    rewrite set_entry_outside, Hmem; [|done|unfold in_frame, PAGE_SIZE in *; intros ?; congruence || idtac].
    + rewrite decide_False; [done|]. intros Hin'. apply Hnf.
      assert (h = g) as -> by (unfold in_frame, PAGE_SIZE in *; lia). done.
    + assert (h = f) as -> by lia. congruence.
  - intros π' Hπ'. simpl.
    destruct (walk_zero m2 (g * PAGE_SIZE) π' (cr_zero _ _ _ _ _ _ Hc) Hπ') as [_ ->].
    unfold frames. simpl. rewrite Hfr. pose proof (size_remove (fa_frames (vm_alloc s)) g Hg). lia.
Qed.
End wf.
