(* ===== verification/VmmSpec.v ===== *)
(** Specifications of the paging operations of kernel/mm/vmm.c and vmm_ext.c
    over the invariant of VmmWf, and the properties of address spaces that
    follow from them. *)
From stdpp Require Import prelude gmap.
From S2P Require Import Prelude CString FrameAlloc Vmm VmmWf.

Lemma lor_range a b n : 0 ≤ n → 0 ≤ a < 2 ^ n → 0 ≤ b < 2 ^ n → 0 ≤ Z.lor a b < 2 ^ n.
Proof.
  intros Hn Ha Hb. split; [apply Z.lor_nonneg; lia|].
  destruct (Z.eq_dec a 0) as [->|]; [rewrite Z.lor_0_l; lia|].
  destruct (Z.eq_dec b 0) as [->|]; [rewrite Z.lor_0_r; lia|].
  assert (0 < Z.lor a b) by (destruct (Z.eq_dec (Z.lor a b) 0) as [[? ?]%Z.lor_eq_0_iff|];
    [done|]; pose proof (proj2 (Z.lor_nonneg a b) ltac:(lia)); lia).
  apply Z.log2_lt_pow2; [done|]. rewrite Z.log2_lor by lia.
  apply Z.max_lub_lt; apply Z.log2_lt_pow2; lia.
Qed.

Section spec.
Context {A : Type} `{FrameAllocator A}.
Implicit Types (s : vmm A) (T : gmap Z label).

(** The three calls of [get_or_create] in [vmm_map] follow the path. *)
Fixpoint descend (table : Z) (π : list Z) (flags : Z) (s : vmm A) : option (Z * vmm A) :=
  match π with
  | [] => Some (table, s)
  | i :: π' =>
      '(t, s1) ← get_or_create table i flags s;
      if t =? 0 then Some (0, s1) else descend t π' flags s1
  end.

Lemma vmm_map_descend pml4 v phys flags s :
  vmm_map pml4 v phys flags s
  = ('(pt, s3) ← descend pml4 (path v)
       (Z.lor (Z.lor VMM_PRESENT VMM_WRITABLE) (Z.land flags VMM_USER)) s;
     if pt =? 0 then Some s3 else
     Some (vmm_invlpg v (set_mem s3
       (set_entry (vm_mem s3) pt (PT_IDX v) (Z.lor (Z.land phys VMM_PHYS_MASK) flags))))).
Proof.
  unfold vmm_map, path. cbn [descend].
  do 3 (destruct (get_or_create _ _ _ _) as [[? ?]|]; [|done]; simpl;
        match goal with |- context [?t =? 0] => destruct (Z.eqb_spec t 0); [done|] end).
  simpl. bool_cases; done.
Qed.

Lemma descend_spec T s f o π0 π flags :
  pt_wf T s → T !! f = Some (o, π0) → (length π0 + length π ≤ 3)%nat →
  Forall (λ i, 0 ≤ i < 512) π → mid_ok flags →
  ∃ t s' T', descend (f * PAGE_SIZE) π flags s = Some (t, s') ∧ vm_tlb s' = vm_tlb s
    ∧ vm_ext T s T' s' ∧ same_ptes T (vm_mem s) (vm_mem s')
    ∧ ((t = 0 ∧ frames s' = ∅ ∧ (size (frames s) < missing (vm_mem s) (f * PAGE_SIZE) π)%nat)
       ∨ ∃ g, t = g * PAGE_SIZE ∧ 0 < g ∧ T' !! g = Some (path_owner o π0 π, π0 ++ π)
           ∧ walk (vm_mem s') (f * PAGE_SIZE) π = Some t
           ∧ (size (frames s) = size (frames s') + missing (vm_mem s) (f * PAGE_SIZE) π)%nat).
Proof.
  intros Hwf Hf Hlen Hi Hm. revert T s f o π0 Hwf Hf Hlen.
  induction Hi as [|i π Hi Hπ IH]; intros T s f o π0 Hwf Hf Hlen; cbn [descend].
  { exists (f * PAGE_SIZE), s, T. destruct (wf_used _ _ Hwf _ _ _ Hf).
    split_and!; [done|done|by apply vm_ext_refl|done|]. right. exists f. rewrite app_nil_r.
    split_and!; [done|lia|done|done|simpl; lia]. }
  simpl in Hlen.
  destruct (get_or_create_spec T s f o π0 i flags Hwf Hf ltac:(lia) Hi Hm)
    as (t & s1 & -> & Htlb & [(-> & Ea & Hfr & Hext & Hsame)|(g & T1 & -> & Hg & HT1 & Hext & Hsame & Hw & Hsz)]);
    simpl.
  { exists 0, s1, T. split_and!; try done. left. rewrite Ea, Hfr. split_and!; [done| |].
    - pose proof (ext_frames _ _ _ _ Hext). set_solver.
    - rewrite size_empty. simpl. lia. }
  destruct (Z.eqb_spec (g * PAGE_SIZE) 0) as [|_]; [unfold PAGE_SIZE in *; lia|].
  destruct (IH T1 s1 g _ _ (ext_wf _ _ _ _ Hext) HT1) as (t & s2 & T2 & -> & Htlb2 & Hext2 & Hsame2 & Hres).
  { rewrite length_app. simpl. lia. }
  specialize (Hsz π Hπ). exists t, s2, T2. split_and!; [done|congruence|by eapply vm_ext_trans| |].
  - intros r v Hr. rewrite Hsame2; [by apply Hsame|]. by apply (lookup_weaken _ _ _ _ Hr), Hext.
  - destruct Hres as [(-> & Hfr & Hlt)|(h & -> & Hh & HT2 & Hw2 & Hsz2)].
    + left. split_and!; [done|done|]. simpl in *. lia.
    + right. exists h. split_and!; [done|done| | |simpl in *; lia].
      * rewrite HT2, <-app_assoc. do 2 f_equal. destruct π as [|j π]; [done|]. simpl. by destruct π0.
      * etrans; [exact (walk_app (vm_mem s2) (f * PAGE_SIZE) [i] π)|].
        rewrite (ext_walk _ _ _ _ Hext2 f (o, π0) [i] (g * PAGE_SIZE)); [done| | | |done].
        -- by apply (lookup_weaken _ _ _ _ Hf), Hext.
        -- simpl. lia.
        -- by constructor.
Qed.

(** ** Writing a leaf entry *)

Lemma leaf_write T s g o v e s' :
  pt_wf T s → T !! g = Some (o, path v) → fa_ok (vm_alloc s') → frames s' = frames s →
  kernel_pml4 s' = kernel_pml4 s ∧ vm_cr3 s' = vm_cr3 s ∧ vm_efer s' = vm_efer s →
  vm_mem s' = set_entry (vm_mem s) (g * PAGE_SIZE) (PT_IDX v) e → 0 ≤ e < 2 ^ 64 →
  vm_ext T s T s'
  ∧ (∀ r π, T !! r = Some (r, []) → (length π ≤ 3)%nat → Forall (λ i, 0 ≤ i < 512) π →
      walk (vm_mem s') (r * PAGE_SIZE) π = walk (vm_mem s) (r * PAGE_SIZE) π)
  ∧ ∀ r v', T !! r = Some (r, []) →
      pte (vm_mem s') (r * PAGE_SIZE) v'
      = if decide (vpn v' = vpn v ∧ walk (vm_mem s) (r * PAGE_SIZE) (path v) = Some (g * PAGE_SIZE))
        then e else pte (vm_mem s) (r * PAGE_SIZE) v'.
Proof.
  intros Hwf Hg Hok Hfr Hregs Hmem He.
  assert (0 ≤ PT_IDX v < 512) as Hv by (apply idx_range; lia).
  assert (∀ f o π i, T !! f = Some (o, π) → (length π < 3)%nat → 0 ≤ i < 512 →
    entry (vm_mem s') (f * PAGE_SIZE) i = entry (vm_mem s) (f * PAGE_SIZE) i) as Hent.
  { intros f o' π i Hf Hlen Hi. rewrite Hmem. apply entry_set_other; [done|done|]. left. intros ->.
    rewrite Hg in Hf. simplify_eq. simpl in Hlen. lia. }
  assert (∀ r π, T !! r = Some (r, []) → (length π ≤ 3)%nat → Forall (λ i, 0 ≤ i < 512) π →
      walk (vm_mem s') (r * PAGE_SIZE) π = walk (vm_mem s) (r * PAGE_SIZE) π) as Hwalk.
  { intros r π Hr Hl Hi. by eapply walk_ext. }
  split_and!; [|done|].
  - apply vm_ext_mem; try done; [by rewrite Hfr|]. intros f a Ha HT _. rewrite Hmem.
    apply set_entry_outside; [done|]. intros Ha'.
    assert (f = g) as -> by (unfold in_frame, PAGE_SIZE in *; lia). congruence.
  - intros r v' Hr. unfold pte. rewrite Hwalk; [|done|simpl; lia|apply path_idx].
    assert (0 ≤ PT_IDX v' < 512) as Hv' by (apply idx_range; lia).
    destruct (walk (vm_mem s) _ (path v')) as [t|] eqn:Ew; last first.
    { rewrite decide_False; [done|]. intros [Hvpn Hwv]. apply vpn_eq in Hvpn as [Hp _]. congruence. }
    destruct (walk_label T s r r [] (path v') t) as (k & -> & Hk);
      [done|done|simpl; lia|apply path_idx|done|]. rewrite Hmem.
    destruct (decide _) as [[Hvpn Hwv]|Hne].
    + apply vpn_eq in Hvpn as [Hp Hi]. rewrite Hp, Hwv in Ew. injection Ew as <-. rewrite Hi.
      rewrite entry_set_same. by apply u64_small.
    + apply entry_set_other; [done|done|]. destruct (decide (k = g)) as [->|]; [|by left]. right.
      intros Hi. apply Hne. rewrite Hg in Hk. apply (inj Some), (f_equal snd) in Hk.
      assert (path v' = path v) as Hp by (symmetry; exact Hk).
      split; [by apply vpn_eq|]. by rewrite <-Hp.
Qed.

(** The leaf entry [vmm_map] writes. *)
Definition map_pte (phys flags : Z) : Z := Z.lor (Z.land phys VMM_PHYS_MASK) flags.

Lemma map_pte_range phys flags : 0 ≤ flags < 2 ^ 64 → 0 ≤ map_pte phys flags < 2 ^ 64.
Proof.
  intros Hf. apply lor_range; [lia| |done]. rewrite phys_mask.
  pose proof (Z.mod_pos_bound (phys / PAGE_SIZE) (2 ^ 40) eq_refl). unfold PAGE_SIZE in *. lia.
Qed.

(** [vmm_map]: either a frame for a table is missing, all frames are then used
    up and no translation changed, or the page is mapped. *)
Lemma vmm_map_spec T s r v phys flags :
  pt_wf T s → T !! r = Some (r, []) → 0 ≤ flags < 2 ^ 64 →
  ∃ s' T', vmm_map (r * PAGE_SIZE) v phys flags s = Some s' ∧ vm_ext T s T' s'
    ∧ ((frames s' = ∅ ∧ (size (frames s) < missing (vm_mem s) (r * PAGE_SIZE) (path v))%nat
        ∧ same_ptes T (vm_mem s) (vm_mem s') ∧ vm_tlb s' = vm_tlb s)
       ∨ ∃ g, T' !! g = Some (child_owner r [] (PML4_IDX v), path v)
           ∧ walk (vm_mem s') (r * PAGE_SIZE) (path v) = Some (g * PAGE_SIZE)
           ∧ (size (frames s) = size (frames s') + missing (vm_mem s) (r * PAGE_SIZE) (path v))%nat
           ∧ vm_tlb s' = vm_tlb s ++ [Invlpg v]
           ∧ ∀ r' v', T !! r' = Some (r', []) →
               pte (vm_mem s') (r' * PAGE_SIZE) v'
               = if decide (vpn v' = vpn v
                            ∧ walk (vm_mem s') (r' * PAGE_SIZE) (path v) = Some (g * PAGE_SIZE))
                 then map_pte phys flags else pte (vm_mem s) (r' * PAGE_SIZE) v').
Proof.
  intros Hwf Hr Hfl. rewrite vmm_map_descend.
  destruct (descend_spec T s r r [] (path v) _ Hwf Hr ltac:(simpl; lia) (path_idx v) (mid_flags_ok flags))
    as (t & s3 & T' & -> & Htlb & Hext & Hsame & [(-> & Hfr & Hlt)|(g & -> & Hg & HT' & Hw & Hsz)]);
    cbn [mbind option_bind].
  { exists s3, T'. split_and!; [done|done|]. by left. }
  destruct (Z.eqb_spec (g * PAGE_SIZE) 0) as [|_]; [unfold PAGE_SIZE in *; lia|].
  set (s4 := vmm_invlpg v _).
  destruct (leaf_write T' s3 g _ v (map_pte phys flags) s4 (ext_wf _ _ _ _ Hext) HT')
    as (Hext4 & Hwalk & Hpte); try done; [apply Hext|by apply map_pte_range|].
  assert (∀ r', T !! r' = Some (r', []) → T' !! r' = Some (r', [])) as Hroot.
  { intros r' Hr'. by apply (lookup_weaken _ _ _ _ Hr'), Hext. }
  exists s4, T'. split_and!; [done|by eapply vm_ext_trans|]. right. exists g.
  split_and!; [done| |done|simpl; by rewrite Htlb|].
  - rewrite Hwalk; [done|by apply Hroot|simpl; lia|apply path_idx].
  - intros r' v' Hr'. rewrite Hpte by by apply Hroot.
    rewrite (Hwalk r' (path v)) by (by apply Hroot || (simpl; lia) || apply path_idx).
    case_decide; [done|]. by apply Hsame.
Qed.

(** ** Leaf entries and translations *)

(** Flags as the callers give them: present, and no bits in the frame field. *)
Definition flags_ok (flags : Z) : Prop :=
  0 ≤ flags < 2 ^ 64 ∧ Z.land flags VMM_PRESENT ≠ 0 ∧ Z.land flags VMM_PHYS_MASK = 0.

Lemma map_pte_present phys flags :
  flags_ok flags → absent (map_pte phys flags) = false ∧ table_of (map_pte phys flags) = Z.land phys VMM_PHYS_MASK.
Proof.
  intros (_ & Hp & Hm). unfold map_pte. rewrite !Z.land_lor_distr_l, Hm, <-!Z.land_assoc.
  change (Z.land VMM_PHYS_MASK VMM_PRESENT) with 0. rewrite Z.land_0_r, Z.lor_0_l, Z.lor_0_r.
  rewrite Z.land_diag. split; [|done]. by apply Z.eqb_neq.
Qed.

(** The physical address of [v] when its page is mapped to [phys]. *)
Definition mapped_to (phys v : Z) : Z := Z.lor (Z.land phys VMM_PHYS_MASK) (Z.land v 0xFFF).

Lemma mapped_to_page f v :
  0 ≤ f < 2 ^ 40 → mapped_to (f * PAGE_SIZE) v = f * PAGE_SIZE + v mod PAGE_SIZE.
Proof.
  intros Hf. unfold mapped_to. rewrite phys_mask, Z.div_mul, Z.mod_small by done.
  change 0xFFF with (Z.ones 12). rewrite Z.land_ones by lia. apply page_lor.
  apply Z.mod_pos_bound. done.
Qed.

Definition is_root (T : gmap Z label) (r : Z) : Prop := T !! r = Some (r, []).

Lemma same_translate T s T' s' r v :
  pt_wf T s → pt_wf T' s' → is_root T r → is_root T' r →
  pte (vm_mem s') (r * PAGE_SIZE) v = pte (vm_mem s) (r * PAGE_SIZE) v →
  vmm_translate (r * PAGE_SIZE) v (vm_mem s') = vmm_translate (r * PAGE_SIZE) v (vm_mem s).
Proof.
  intros Hwf Hwf' Hr Hr' E. rewrite (vmm_translate_pte T' s' r v Hwf' Hr').
  by rewrite (vmm_translate_pte T s r v Hwf Hr), E.
Qed.

Lemma ext_root T s T' s' r : vm_ext T s T' s' → is_root T r → is_root T' r.
Proof. intros Hext Hr. by apply (lookup_weaken _ _ _ _ Hr), Hext. Qed.

Lemma vmm_map_mapped T s r v phys flags :
  pt_wf T s → is_root T r → flags_ok flags →
  ∃ s' T', vmm_map (r * PAGE_SIZE) v phys flags s = Some s' ∧ vm_ext T s T' s'
    ∧ ((frames s' = ∅ ∧ (size (frames s) < missing (vm_mem s) (r * PAGE_SIZE) (path v))%nat
        ∧ same_ptes T (vm_mem s) (vm_mem s') ∧ vm_tlb s' = vm_tlb s)
       ∨ (missing (vm_mem s') (r * PAGE_SIZE) (path v) = 0%nat
          ∧ (size (frames s) = size (frames s') + missing (vm_mem s) (r * PAGE_SIZE) (path v))%nat
          ∧ vm_tlb s' = vm_tlb s ++ [Invlpg v]
          ∧ ∀ v', vmm_translate (r * PAGE_SIZE) v' (vm_mem s')
                  = if decide (vpn v' = vpn v) then mapped_to phys v'
                    else vmm_translate (r * PAGE_SIZE) v' (vm_mem s))).
Proof.
  intros Hwf Hr Hfl. pose proof Hfl as (Hfr & _).
  destruct (vmm_map_spec T s r v phys flags Hwf Hr Hfr) as (s' & T' & E & Hext & Hres).
  exists s', T'. split_and!; [done|done|]. destruct Hres as [?|(g & _ & Hw & Hsz & Htlb & Hpte)]; [by left|].
  right. split_and!; [by apply missing_zero; rewrite Hw|done|done|]. intros v'.
  pose proof (ext_root _ _ _ _ _ Hext Hr) as Hr'. specialize (Hpte r v' Hr).
  rewrite (vmm_translate_pte T' s' r v' (ext_wf _ _ _ _ Hext) Hr'), Hpte.
  rewrite (vmm_translate_pte T s r v' Hwf Hr).
  destruct (decide (vpn v' = vpn v)) as [Hv|Hv].
  - rewrite decide_True by done. cbv zeta. by destruct (map_pte_present phys flags Hfl) as [-> ->].
  - by rewrite decide_False by naive_solver.
Qed.

(** The lower half of any other address space is left alone. *)
Lemma vmm_map_other_root T s r v phys flags s' r' v' :
  pt_wf T s → is_root T r → 0 ≤ flags < 2 ^ 64 → is_root T r' → r' ≠ r → PML4_IDX v' < 256 →
  vmm_map (r * PAGE_SIZE) v phys flags s = Some s' →
  vmm_translate (r' * PAGE_SIZE) v' (vm_mem s') = vmm_translate (r' * PAGE_SIZE) v' (vm_mem s).
Proof.
  intros Hwf Hr Hfl Hr' Hne Hlow E.
  destruct (vmm_map_spec T s r v phys flags Hwf Hr Hfl) as (s1 & T' & E1 & Hext & Hres).
  rewrite E in E1. injection E1 as <-. pose proof (ext_root _ _ _ _ _ Hext Hr') as Hr1.
  eapply same_translate; [exact Hwf|apply Hext|done|done|].
  destruct Hres as [(_ & _ & Hsame & _)|(g & HT' & _ & _ & _ & Hpte)]; [by apply Hsame|].
  rewrite Hpte by done. rewrite decide_False; [done|]. intros [Hv Hw].
  destruct (walk_label T' s' r' r' [] (path v) _ (ext_wf _ _ _ _ Hext) Hr1 ltac:(simpl; lia) (path_idx v) Hw)
    as (h & Eh & Hh).
  assert (h = g) as -> by (unfold PAGE_SIZE in Eh; lia). apply vpn_eq in Hv as [Hp _].
  assert (PML4_IDX v = PML4_IDX v') as E4 by (unfold path in Hp; congruence).
  rewrite HT' in Hh. apply (inj Some), (f_equal fst) in Hh.
  cbn [fst path_owner path child_owner] in Hh.
  rewrite E4 in Hh. destruct (Z.ltb_spec (PML4_IDX v') 256); [congruence|lia].
Qed.

(** ** Unmapping *)

Lemma vmm_unmap_walk pml4 v s :
  vmm_unmap pml4 v s
  = match walk (vm_mem s) pml4 (path v) with
    | Some pt => vmm_invlpg v (set_mem s (set_entry (vm_mem s) pt (PT_IDX v) 0))
    | None => s
    end.
Proof. unfold vmm_unmap, path. simpl. by repeat case_match. Qed.

Lemma vmm_unmap_spec T s r v :
  pt_wf T s → is_root T r → let s' := vmm_unmap (r * PAGE_SIZE) v s in
  vm_ext T s T s' ∧ vm_alloc s' = vm_alloc s
  ∧ (vm_tlb s' = vm_tlb s ++ [Invlpg v] ∨ vm_tlb s' = vm_tlb s ∧ ∀ v', vpn v' = vpn v →
       vmm_translate (r * PAGE_SIZE) v' (vm_mem s) = 0)
  ∧ ∀ v', vmm_translate (r * PAGE_SIZE) v' (vm_mem s')
          = if decide (vpn v' = vpn v) then 0 else vmm_translate (r * PAGE_SIZE) v' (vm_mem s).
Proof.
  intros Hwf Hr. rewrite vmm_unmap_walk.
  destruct (walk (vm_mem s) (r * PAGE_SIZE) (path v)) as [t|] eqn:Ew; cbv zeta; last first.
  { assert (∀ v', vpn v' = vpn v → vmm_translate (r * PAGE_SIZE) v' (vm_mem s) = 0) as H0'.
    { intros v' [Hp _]%vpn_eq. rewrite (vmm_translate_pte T s r v' Hwf Hr). unfold pte. by rewrite Hp, Ew. }
    split_and!; [by apply vm_ext_refl|done|by right|]. intros v'. case_decide; auto. }
  destruct (walk_label T s r r [] (path v) t Hwf Hr ltac:(simpl; lia) (path_idx v) Ew) as (g & -> & Hg).
  set (s' := vmm_invlpg v _).
  destruct (leaf_write T s g _ v 0 s' Hwf Hg) as (Hext & _ & Hpte); try done; [apply Hwf|].
  split_and!; [done|done|by left|]. intros v'.
  rewrite (vmm_translate_pte T s' r v' (ext_wf _ _ _ _ Hext) Hr), (vmm_translate_pte T s r v' Hwf Hr).
  rewrite (Hpte r v' Hr). destruct (decide (vpn v' = vpn v)).
  - by rewrite decide_True by done.
  - by rewrite decide_False by naive_solver.
Qed.

(** ** New address spaces *)

Lemma land_u64 e k : 0 ≤ k < 2 ^ 64 → Z.land (u64 e) k = Z.land e k.
Proof.
  intros Hk. unfold u64. rewrite <-Z.land_ones by lia. rewrite <-Z.land_assoc. f_equal.
  rewrite Z.land_comm, Z.land_ones by lia. by apply Z.mod_small.
Qed.

Lemma copy_upper_spec n i p k m :
  p ≠ k → 0 ≤ i → i + Z.of_nat n ≤ 512 →
  (∀ a, ¬ in_frame p a → copy_upper n i (p * PAGE_SIZE) (k * PAGE_SIZE) m a = m a)
  ∧ ∀ j, 0 ≤ j < 512 →
      entry (copy_upper n i (p * PAGE_SIZE) (k * PAGE_SIZE) m) (p * PAGE_SIZE) j
      = if (i <=? j) && (j <? i + Z.of_nat n) then u64 (entry m (k * PAGE_SIZE) j)
        else entry m (p * PAGE_SIZE) j.
Proof.
  intros Hpk. revert i m. induction n as [|n IH]; intros i m Hi Hn; cbn [copy_upper].
  { split; [done|]. intros j Hj. rewrite Z.add_0_r. bool_cases; simpl; done || lia. }
  destruct (IH (i + 1) (set_entry m (p * PAGE_SIZE) i (entry m (k * PAGE_SIZE) i))) as [IH1 IH2]; [lia|lia|].
  split.
  - intros a Ha. rewrite IH1 by done. apply set_entry_outside; [lia|done].
  - intros j Hj. rewrite IH2 by done.
    rewrite (entry_set_other _ k p) by lia. destruct (Z.eq_dec j i) as [->|Hne].
    + rewrite entry_set_same. bool_cases; simpl; done || lia.
    + rewrite entry_set_other by lia. bool_cases; simpl; done || lia.
Qed.

(** The memory after [vmm_create_address_space] took frame [f] for the root. *)
Record root_created (T : gmap Z label) (m m' : mem) (k f : Z) : Prop := {
  rc_fresh : T !! f = None;
  rc_low : ∀ j, 0 ≤ j < 256 → entry m' (f * PAGE_SIZE) j = 0;
  rc_high : ∀ j, 256 ≤ j < 512 → entry m' (f * PAGE_SIZE) j = u64 (entry m (k * PAGE_SIZE) j);
  rc_other : ∀ a, ¬ in_frame f a → m' a = m a;
}.

Lemma rc_entry T m m' k f h j :
  root_created T m m' k f → is_Some (T !! h) → 0 ≤ j < 512 →
  entry m' (h * PAGE_SIZE) j = entry m (h * PAGE_SIZE) j.
Proof.
  intros Hrc Hh Hj. apply entry_frame; [done|]. intros a Ha. apply Hrc. intros Ha'.
  assert (h = f) as -> by (unfold in_frame, PAGE_SIZE in *; lia).
  rewrite (rc_fresh _ _ _ _ _ Hrc) in Hh. by destruct Hh.
Qed.

Lemma rc_wf T s s' k f :
  pt_wf T s → is_root T k → 0 < f < fa_bound → root_created T (vm_mem s) (vm_mem s') k f →
  fa_ok (vm_alloc s') → frames s' = frames s ∖ {[f]} → pt_wf (<[f := (f, [])]> T) s'.
Proof.
  intros Hwf Hk Hf Hrc Hok Hfr. split; [done| | |].
  - intros h o π [[<- ?]|[Hne Hh]]%lookup_insert_Some; [set_solver|].
    destruct (wf_used _ _ Hwf h o π Hh). set_solver.
  - intros h o [[<- ?]|[Hne Hh]]%lookup_insert_Some; [congruence|by apply Hwf].
  - assert (∀ g l, T !! g = Some l → <[f := (f, [])]> T !! g = Some l) as Hins.
    { intros g l Hg. rewrite lookup_insert_ne; [done|]. intros ->. by rewrite (rc_fresh _ _ _ _ _ Hrc) in Hg. }
    intros h o π j [[<- Eo]|[Hne Hh]]%lookup_insert_Some Hlen Hj E.
    + injection Eo as <- <-. destruct (Z.lt_ge_cases j 256) as [Hlow|Hhigh].
      { by rewrite (rc_low _ _ _ _ _ Hrc) in E by lia. }
      rewrite (rc_high _ _ _ _ _ Hrc) in * by lia. rewrite land_u64 in E by done.
      rewrite !land_u64 by done.
      destruct (wf_child _ _ Hwf k k [] j Hk) as [? (g & ? & Hg)]; [simpl; lia|done|done|].
      split; [done|]. exists g. split; [done|]. apply Hins. rewrite Hg. do 2 f_equal.
      cbn [child_owner]. destruct (Z.ltb_spec j 256); [lia|done].
    + assert (entry (vm_mem s') (h * PAGE_SIZE) j = entry (vm_mem s) (h * PAGE_SIZE) j) as Ee
        by (eapply rc_entry; [done|by eexists|done]).
      rewrite Ee in *. destruct (wf_child _ _ Hwf h o π j Hh Hlen Hj E) as [? (g & ? & Hg)].
      split; [done|]. exists g. split; [done|]. by apply Hins.
Qed.

Lemma rc_same_ptes T s m' k f : pt_wf T s → root_created T (vm_mem s) m' k f → same_ptes T (vm_mem s) m'.
Proof.
  intros Hwf Hrc r v Hr. unfold pte.
  rewrite (walk_ext T s m' r r [] (path v) Hwf Hr ltac:(simpl; lia) (path_idx v))
    by (intros; eapply rc_entry; [done|by eexists|done]).
  destruct (walk (vm_mem s) _ _) as [t|] eqn:Ew; [|done].
  destruct (walk_label T s r r [] (path v) t Hwf Hr ltac:(simpl; lia) (path_idx v) Ew) as (g & -> & Hg).
  eapply rc_entry; [done|by eexists|]. apply idx_range. lia.
Qed.

Lemma rc_pte T s m' k f v :
  pt_wf T s → is_root T k → root_created T (vm_mem s) m' k f →
  pte m' (f * PAGE_SIZE) v = if PML4_IDX v <? 256 then 0 else pte (vm_mem s) (k * PAGE_SIZE) v.
Proof.
  intros Hwf Hk Hrc. rewrite <-(rc_same_ptes T s m' k f Hwf Hrc k v Hk). unfold pte, path.
  pose proof (idx_range v 39 ltac:(lia)) as H4. fold (PML4_IDX v) in H4. cbn [walk].
  destruct (Z.ltb_spec (PML4_IDX v) 256) as [Hl|Hl].
  - by rewrite (rc_low _ _ _ _ _ Hrc) by lia.
  - rewrite (rc_high _ _ _ _ _ Hrc) by lia. rewrite !land_u64 by done.
    by rewrite (rc_entry _ _ _ _ _ k (PML4_IDX v) Hrc) by (done || by eexists).
Qed.

Lemma vmm_create_address_space_spec T s k :
  pt_wf T s → is_root T k → kernel_pml4 s = k * PAGE_SIZE →
  ∃ page s', vmm_create_address_space s = Some (page, s') ∧ vm_tlb s' = vm_tlb s
    ∧ kernel_pml4 s' = kernel_pml4 s ∧ vm_cr3 s' = vm_cr3 s
    ∧ ((page = 0 ∧ frames s = ∅ ∧ pt_wf T s' ∧ ∀ a, vm_mem s' a = vm_mem s a)
       ∨ ∃ f, page = f * PAGE_SIZE ∧ f ∈ frames s ∧ frames s' = frames s ∖ {[f]}
           ∧ pt_wf (<[f := (f, [])]> T) s' ∧ root_created T (vm_mem s) (vm_mem s') k f).
Proof.
  intros Hwf Hk Ek. unfold vmm_create_address_space, pmm_alloc_vm.
  destruct (fa_alloc_ok (vm_alloc s) (vm_mem s) (wf_alloc _ _ Hwf)) as (r & a & m1 & -> & Hok & Hpost).
  cbn [mbind option_bind]. destruct Hpost as [(-> & Hfr & Hfr' & Hmem)|(f & Hf & -> & Hfr & Hmem)].
  { exists 0, (set_alloc s a m1). split_and!; try done. left. split_and!; try done.
    eapply pt_wf_mem; [done|done|unfold frames; simpl; by rewrite Hfr'|].
    intros. apply entry_frame; [done|]. intros. apply Hmem. }
  pose proof (fa_frame_range _ _ (wf_alloc _ _ Hwf) Hf) as Hfb.
  destruct (Z.eqb_spec (f * PAGE_SIZE) 0) as [|_]; [unfold PAGE_SIZE in *; lia|].
  cbn [set_alloc kernel_pml4 vm_mem]. rewrite Ek. eexists _, _. split; [reflexivity|].
  cbn [set_mem set_alloc vm_tlb kernel_pml4 vm_cr3 vm_mem]. do 3 (split; [first [exact Ek|exact eq_refl]|]).
  right. exists f.
  assert (T !! f = None) as Hn.
  { destruct (T !! f) as [[o π]|] eqn:E; [|done]. by destruct (wf_used _ _ Hwf _ _ _ E). }
  assert (f ≠ k) as Hfk by (intros ->; unfold is_root in Hk; congruence).
  destruct (copy_upper_spec 256 256 f k m1 Hfk) as [Hout Hent]; [lia|lia|].
  assert (root_created T (vm_mem s) (copy_upper 256 256 (f * PAGE_SIZE) (k * PAGE_SIZE) m1) k f) as Hrc.
  { split; [done| | |].
    - intros j Hj. rewrite Hent by lia. replace (256 <=? j) with false by (bool_cases; lia). cbn [andb].
      apply load64_zero. intros b Hb. rewrite Hmem, decide_True; [done|]. unfold in_frame, PAGE_SIZE in *. lia.
    - intros j Hj. rewrite Hent by lia.
      replace ((256 <=? j) && (j <? 256 + Z.of_nat 256)) with true by (bool_cases; simpl; done || lia).
      f_equal. apply entry_frame; [lia|]. intros b Hb. rewrite Hmem, decide_False; [done|].
      unfold in_frame, PAGE_SIZE in *. lia.
    - intros b Hb. rewrite Hout, Hmem by done. by rewrite decide_False. }
  split_and!; [reflexivity|exact Hf|exact Hfr|by eapply rc_wf|exact Hrc].
Qed.
End spec.
