(* ===== verification/VmmRange.v ===== *)
(** The loops of kernel/mm/vmm.c and vmm_ext.c over ranges of pages:
    [vmm_map_range], [vmm_alloc_range], [vmm_free_range] and the two loops of
    [vmm_init], over the specifications of VmmSpec. *)
From stdpp Require Import prelude gmap.
From S2P Require Import Prelude CString FrameAlloc Vmm VmmWf VmmSpec.

(** ** Page numbers of a range *)

Lemma vpn_u64 v : vpn (u64 v) = vpn v.
Proof.
  unfold vpn, u64, PAGE_SIZE. change (2 ^ 64) with (4096 * (2 ^ 36 * 2 ^ 16)).
  rewrite Z.rem_mul_r by lia. rewrite Z.mul_comm, Z.div_add by lia.
  rewrite (Z.div_small (v mod 4096)) by (apply Z.mod_pos_bound; lia). rewrite Z.add_0_l.
  rewrite Z.rem_mul_r by lia. rewrite (Z.mul_comm (2 ^ 36)), Z.mod_add by lia. by rewrite Z.mod_mod by lia.
Qed.

Lemma vpn_range_page virt i : vpn (u64 (virt + i * PAGE_SIZE)) = (virt / PAGE_SIZE + i) mod 2 ^ 36.
Proof. rewrite vpn_u64. unfold vpn. by rewrite Z.div_add by done. Qed.

(** The index of the page of [v] in a range that starts at page [base]. *)
Definition page_off (base v : Z) : Z := (vpn v - base) mod 2 ^ 36.

Lemma page_off_range base v : 0 ≤ page_off base v < 2 ^ 36.
Proof. apply Z.mod_pos_bound. lia. Qed.

Lemma vpn_mod v : vpn v mod 2 ^ 36 = vpn v.
Proof. unfold vpn. apply Z.mod_mod. lia. Qed.

Lemma page_off_eq base v i :
  0 ≤ i < 2 ^ 36 → vpn v = (base + i) mod 2 ^ 36 ↔ page_off base v = i.
Proof.
  intros Hi. unfold page_off. split.
  - intros ->. rewrite Zminus_mod_idemp_l. replace (base + i - base) with i by lia. by apply Z.mod_small.
  - intros <-. rewrite Z.add_mod_idemp_r by lia. replace (base + (vpn v - base)) with (vpn v) by lia.
    by rewrite vpn_mod.
Qed.

Lemma vpn_path v : vpn v / 512 = (PML4_IDX v * 512 + PDPT_IDX v) * 512 + PD_IDX v.
Proof.
  rewrite vpn_split. pose proof (idx_range v 12 ltac:(lia)) as Hp. fold (PT_IDX v) in Hp.
  rewrite Z.div_add_l by lia. rewrite (Z.div_small (PT_IDX v)) by done. lia.
Qed.

Lemma path_eq v v' : vpn v / 512 = vpn v' / 512 → path v = path v'.
Proof.
  rewrite !vpn_path. unfold path.
  pose proof (idx_range v 30 ltac:(lia)). pose proof (idx_range v' 30 ltac:(lia)).
  pose proof (idx_range v 21 ltac:(lia)). pose proof (idx_range v' 21 ltac:(lia)).
  fold (PDPT_IDX v) (PDPT_IDX v') (PD_IDX v) (PD_IDX v') in *.
  intros E. assert (PML4_IDX v = PML4_IDX v') by lia. assert (PDPT_IDX v = PDPT_IDX v') by lia.
  assert (PD_IDX v = PD_IDX v') by lia. congruence.
Qed.

Lemma path_prefix_eq v v' :
  vpn v / 2 ^ 18 = vpn v' / 2 ^ 18 → PML4_IDX v = PML4_IDX v' ∧ PDPT_IDX v = PDPT_IDX v'.
Proof.
  change (2 ^ 18) with (512 * 512). rewrite <-!Z.div_div by lia. rewrite !vpn_path.
  pose proof (idx_range v 30 ltac:(lia)). pose proof (idx_range v' 30 ltac:(lia)).
  pose proof (idx_range v 21 ltac:(lia)). pose proof (idx_range v' 21 ltac:(lia)).
  fold (PDPT_IDX v) (PDPT_IDX v') (PD_IDX v) (PD_IDX v') in *.
  rewrite !Z.div_add_l by lia. rewrite (Z.div_small (PD_IDX v)), (Z.div_small (PD_IDX v')) by done.
  intros E. lia.
Qed.

Lemma missing_prefix m t π i : is_Some (walk m t π) → (missing m t (π ++ [i]) ≤ 1)%nat.
Proof.
  revert t. induction π as [|j π IH]; intros t; simpl.
  - destruct (absent _); lia.
  - destruct (absent _); [by intros [? ?]|]. apply IH.
Qed.

Lemma walk_prefix m t π1 π2 : is_Some (walk m t (π1 ++ π2)) → is_Some (walk m t π1).
Proof. rewrite walk_app. destruct (walk m t π1); [by eexists|by intros [? ?]]. Qed.

Lemma missing_length m t π : (missing m t π ≤ length π)%nat.
Proof. revert t. induction π as [|j π IH]; intros t; simpl; [lia|]. destruct (absent _); [lia|]. specialize (IH (table_of (entry m t j))). lia. Qed.

Section range.
Context {A : Type} `{FrameAllocator A}.
Implicit Types (s : vmm A) (T : gmap Z label).

(** ** Loops of [vmm_map] *)

Section map_loop.
Context (V P : Z → Z) (base flags r : Z).
Context (HV : ∀ i, vpn (V i) = (base + i) mod 2 ^ 36).
Context (Hflags : flags_ok flags).

Abbreviation body := (λ i, vmm_map (r * PAGE_SIZE) (V i) (P i) flags).

(** If a frame is left at the end, every page of the range is mapped and no
    other translation changed. *)
Lemma map_loop_spec n i T s :
  pt_wf T s → is_root T r → 0 ≤ i → i + Z.of_nat n ≤ 2 ^ 36 →
  ∃ s' T', for_pages n i body s = Some s' ∧ vm_ext T s T' s'
    ∧ (frames s' ≠ ∅ → ∀ v, vmm_translate (r * PAGE_SIZE) v (vm_mem s')
         = if decide (i ≤ page_off base v < i + Z.of_nat n) then mapped_to (P (page_off base v)) v
           else vmm_translate (r * PAGE_SIZE) v (vm_mem s)).
Proof.
  revert i T s. induction n as [|n IH]; intros i T s Hwf Hr Hi Hn; cbn [for_pages].
  { exists s, T. split_and!; [done|by apply vm_ext_refl|]. intros _ v. rewrite decide_False by lia. done. }
  destruct (vmm_map_mapped T s r (V i) (P i) flags Hwf Hr Hflags) as (s1 & T1 & -> & Hext1 & Hres).
  cbn [mbind option_bind].
  destruct (IH (i + 1) T1 s1) as (s' & T' & -> & Hext' & Htr);
    [apply Hext1|by eapply ext_root|lia|lia|].
  exists s', T'. split_and!; [done|by eapply vm_ext_trans|]. intros Hne v. rewrite Htr by done.
  destruct Hres as [(Hemp & _)|(_ & _ & _ & Hv)].
  { destruct Hne. pose proof (ext_frames _ _ _ _ Hext') as Hsub. rewrite Hemp in Hsub.
    by apply set_eq, set_subseteq_antisymm; [|apply empty_subseteq]. }
  rewrite Hv, HV. destruct (decide (page_off base v = i)) as [Ei|Ei].
  - rewrite (decide_False (P := i + 1 ≤ _ < _)) by lia. rewrite decide_True by (apply page_off_eq; [lia|done]).
    by rewrite decide_True, Ei by lia.
  - rewrite (decide_False (P := vpn v = _)) by (by rewrite page_off_eq by lia).
    destruct (decide (i + 1 ≤ page_off base v < i + 1 + Z.of_nat n)).
    + by rewrite decide_True by lia.
    + by rewrite decide_False by lia.
Qed.

(** The frames a loop within one gigabyte uses: those missing for the first
    page and one for each further page table. *)
Lemma map_loop_size n i T s :
  pt_wf T s → is_root T r → 0 ≤ i → 0 ≤ base → base + i + Z.of_nat n < 2 ^ 36 →
  (base + i) / 2 ^ 18 = (base + i + Z.of_nat n) / 2 ^ 18 →
  ∃ s', for_pages (S n) i body s = Some s'
    ∧ Z.of_nat (size (frames s)) ≤ Z.of_nat (size (frames s'))
        + Z.of_nat (missing (vm_mem s) (r * PAGE_SIZE) (path (V i)))
        + ((base + i + Z.of_nat n) / 512 - (base + i) / 512).
Proof.
  revert i T s. induction n as [|n IH]; intros i T s Hwf Hr Hi Hb Hn Hgb; cbn [for_pages];
    destruct (vmm_map_mapped T s r (V i) (P i) flags Hwf Hr Hflags) as (s1 & T1 & -> & Hext1 & Hres);
    cbn [mbind option_bind].
  { exists s1. split; [done|]. change (Z.of_nat 0) with 0. rewrite Z.add_0_r.
    destruct Hres as [(_ & Hlt & _)|(_ & Hsz & _)]; lia. }
  destruct (IH (i + 1) T1 s1) as (s' & E & Hsz'); [apply Hext1|by eapply ext_root|lia|lia|lia| |].
  { Z.to_euclidean_division_equations; lia. }
  exists s'. split; [exact E|].
  replace (base + (i + 1) + Z.of_nat n) with (base + i + Z.of_nat (S n)) in Hsz' by lia.
  assert ((base + i) / 512 ≤ (base + (i + 1)) / 512) by (apply Z.div_le_mono; lia).
  assert ((base + (i + 1)) / 512 ≤ (base + i + Z.of_nat (S n)) / 512) by (apply Z.div_le_mono; lia).
  destruct Hres as [(Hemp & Hlt & _)|(Hm & Hsz & _)]; [lia|].
  assert (Z.of_nat (missing (vm_mem s1) (r * PAGE_SIZE) (path (V (i + 1))))
          ≤ (base + (i + 1)) / 512 - (base + i) / 512); [|lia].
  assert (vpn (V i) = base + i) as Evi by (rewrite HV; apply Z.mod_small; lia).
  assert (vpn (V (i + 1)) = base + (i + 1)) as Evi' by (rewrite HV; apply Z.mod_small; lia).
  destruct (Z.eq_dec ((base + (i + 1)) / 512) ((base + i) / 512)) as [Eq|Ne].
  - rewrite (path_eq (V (i + 1)) (V i)) by congruence. rewrite Hm. lia.
  - destruct (path_prefix_eq (V (i + 1)) (V i)) as [E4 E3].
    { rewrite Evi, Evi'. Z.to_euclidean_division_equations; lia. }
    assert (missing (vm_mem s1) (r * PAGE_SIZE) (path (V (i + 1))) ≤ 1)%nat; [|lia].
    unfold path. rewrite E4, E3.
    apply (missing_prefix _ _ [PML4_IDX (V i); PDPT_IDX (V i)]).
    apply missing_zero, (walk_prefix _ _ [PML4_IDX (V i); PDPT_IDX (V i)] [PD_IDX (V i)]) in Hm. done.
Qed.
End map_loop.

(** ** [vmm_init] *)

(** A zeroed frame is a well-formed root that translates nothing. *)
Lemma zero_root_wf f s :
  fa_ok (vm_alloc s) → f ∉ frames s → 0 < f < fa_bound → (∀ a, in_frame f a → vm_mem s a = 0) →
  pt_wf {[f := (f, [])]} s
  ∧ ∀ v, vmm_translate (f * PAGE_SIZE) v (vm_mem s) = 0.
Proof.
  intros Hok Hf Hr Hz.
  assert (∀ i, 0 ≤ i < 512 → entry (vm_mem s) (f * PAGE_SIZE) i = 0) as Hent.
  { intros i Hi. apply load64_zero. intros b Hb. apply Hz. unfold in_frame, PAGE_SIZE in *. lia. }
  assert (pt_wf {[f := (f, [])]} s) as Hwf.
  { split; [done| | |].
    - intros g o π [<- _]%lookup_singleton_Some. done.
    - intros g o [<- ?]%lookup_singleton_Some. congruence.
    - intros g o π i [<- _]%lookup_singleton_Some _ Hi. by rewrite Hent. }
  split; [done|]. intros v. rewrite (vmm_translate_pte _ _ f v Hwf (lookup_singleton_eq _ _)).
  unfold pte. destruct (walk_zero (vm_mem s) (f * PAGE_SIZE) (path v) Hent (path_idx v)) as [-> _]. done.
Qed.

Definition kvb_page : Z := (KERNEL_VIRT_BASE / PAGE_SIZE) mod 2 ^ 36.

Lemma kvb_pages i : vpn (u64 (KERNEL_VIRT_BASE + i * PAGE_SIZE)) = (kvb_page + i) mod 2 ^ 36.
Proof. rewrite vpn_range_page. unfold kvb_page. by rewrite Z.add_mod_idemp_l by lia. Qed.

Lemma low_pages i : vpn (i * PAGE_SIZE) = (0 + i) mod 2 ^ 36.
Proof. unfold vpn. by rewrite Z.div_mul by done. Qed.

Lemma kernel_rw_ok : flags_ok VMM_KERNEL_RW.
Proof. unfold flags_ok. by vm_compute. Qed.

(** The tables the two loops of [vmm_init] build, in terms of page numbers. *)
Definition init_translation (v : Z) : Z :=
  if decide (page_off 0 v < 512) then mapped_to (page_off 0 v * PAGE_SIZE) v
  else if decide (page_off kvb_page v < 32768) then mapped_to (page_off kvb_page v * PAGE_SIZE) v
  else 0.

Lemma init_loops f s :
  pt_wf {[f := (f, [])]} s → (∀ v, vmm_translate (f * PAGE_SIZE) v (vm_mem s) = 0) →
  (69 < size (frames s))%nat →
  ∃ s3 s4 T',
    for_pages (Z.to_nat (128 * 1024 * 1024 / PAGE_SIZE)) 0
      (λ i, vmm_map (f * PAGE_SIZE) (u64 (KERNEL_VIRT_BASE + i * PAGE_SIZE)) (i * PAGE_SIZE) VMM_KERNEL_RW) s
      = Some s3
    ∧ for_pages (Z.to_nat (2 * 1024 * 1024 / PAGE_SIZE)) 0
        (λ i, vmm_map (f * PAGE_SIZE) (i * PAGE_SIZE) (i * PAGE_SIZE) VMM_KERNEL_RW) s3 = Some s4
    ∧ vm_ext {[f := (f, [])]} s T' s4
    ∧ (size (frames s) ≤ size (frames s4) + 69)%nat
    ∧ ∀ v, vmm_translate (f * PAGE_SIZE) v (vm_mem s4) = init_translation v.
Proof.
  intros Hwf Hz Hsz. set (T := {[f := (f, [])]} : gmap Z label) in *.
  assert (is_root T f) as Hr by apply lookup_singleton_eq.
  change (Z.to_nat (128 * 1024 * 1024 / PAGE_SIZE)) with (Z.to_nat 32768).
  change (Z.to_nat (2 * 1024 * 1024 / PAGE_SIZE)) with (Z.to_nat 512).
  set (V1 := λ i, u64 (KERNEL_VIRT_BASE + i * PAGE_SIZE)).
  destruct (map_loop_spec V1 (λ i, i * PAGE_SIZE) kvb_page VMM_KERNEL_RW f kvb_pages kernel_rw_ok
              (Z.to_nat 32768) 0 T s Hwf Hr) as (s3 & T3 & E3 & Hext3 & Htr3); [lia|lia|].
  destruct (map_loop_size V1 (λ i, i * PAGE_SIZE) kvb_page VMM_KERNEL_RW f kvb_pages kernel_rw_ok
              (Z.to_nat 32767) 0 T s Hwf Hr) as (s3' & E3' & Hs3);
    [lia|by vm_compute|rewrite Z2Nat.id by lia; by vm_compute|rewrite Z2Nat.id by lia; by vm_compute|].
  rewrite <-Z2Nat.inj_succ in E3' by lia. change (Z.succ 32767) with 32768 in E3'.
  rewrite E3 in E3'. injection E3' as <-.
  pose proof (ext_root _ _ _ _ _ Hext3 Hr) as Hr3.
  destruct (map_loop_spec (λ i, i * PAGE_SIZE) (λ i, i * PAGE_SIZE) 0 VMM_KERNEL_RW f low_pages kernel_rw_ok
              (Z.to_nat 512) 0 T3 s3 (ext_wf _ _ _ _ Hext3) Hr3) as (s4 & T4 & E4 & Hext4 & Htr4); [lia|lia|].
  destruct (map_loop_size (λ i, i * PAGE_SIZE) (λ i, i * PAGE_SIZE) 0 VMM_KERNEL_RW f low_pages kernel_rw_ok
              (Z.to_nat 511) 0 T3 s3 (ext_wf _ _ _ _ Hext3) Hr3) as (s4' & E4' & Hs4);
    [lia|lia|lia|rewrite Z2Nat.id by lia; by vm_compute|].
  rewrite <-Z2Nat.inj_succ in E4' by lia. change (Z.succ 511) with 512 in E4'.
  rewrite E4 in E4'. injection E4' as <-.
  rewrite Z2Nat.id in Hs3, Hs4, Htr3, Htr4 by lia.
  change ((kvb_page + 0 + 32767) / 512 - (kvb_page + 0) / 512) with 63 in Hs3.
  change ((0 + 0 + 511) / 512 - (0 + 0) / 512) with 0 in Hs4.
  pose proof (missing_length (vm_mem s) (f * PAGE_SIZE) (path (V1 0))) as Hm1.
  pose proof (missing_length (vm_mem s3) (f * PAGE_SIZE) (path (0 * PAGE_SIZE))) as Hm2.
  cbn [length path] in Hm1, Hm2.
  assert (∀ s' : vmm A, (0 < size (frames s'))%nat → frames s' ≠ ∅) as Hne.
  { intros s' Hs' E. rewrite E, size_empty in Hs'. lia. }
  exists s3, s4, T4. split_and!; [exact E3|exact E4|by eapply vm_ext_trans|lia|].
  intros v. rewrite Htr4, Htr3 by (apply Hne; lia). unfold init_translation. rewrite Hz.
  pose proof (page_off_range 0 v). pose proof (page_off_range kvb_page v).
  repeat case_decide; done || lia.
Qed.

Lemma vmm_init_spec s :
  fa_ok (vm_alloc s) → (70 < size (frames s))%nat →
  ∃ s' f T, vmm_init s = Some (Running s') ∧ pt_wf T s' ∧ is_root T f
    ∧ kernel_pml4 s' = f * PAGE_SIZE ∧ vm_cr3 s' = f * PAGE_SIZE
    ∧ vm_efer s' = Z.lor (vm_efer s) EFER_NXE
    ∧ (size (frames s) ≤ size (frames s') + 70)%nat ∧ frames s' ⊆ frames s
    ∧ ∀ v, vmm_translate (f * PAGE_SIZE) v (vm_mem s') = init_translation v.
Proof.
  intros Hok Hsz. unfold vmm_init, pmm_alloc_vm.
  destruct (fa_alloc_ok (vm_alloc s) (vm_mem s) Hok) as (r & a & m1 & -> & Hok' & Hpost).
  cbn [mbind option_bind]. unfold frames in Hsz.
  destruct Hpost as [(_ & Hfr & _)|(f & Hf & -> & Hfr & Hmem)]; [rewrite Hfr, size_empty in Hsz; lia|].
  pose proof (fa_frame_range _ _ Hok Hf) as Hfb.
  destruct (Z.eqb_spec (f * PAGE_SIZE) 0) as [|_]; [unfold PAGE_SIZE in *; lia|].
  set (s2 := set_kernel_pml4 (f * PAGE_SIZE) (set_alloc s a m1)).
  assert (frames s2 = frames s ∖ {[f]}) as Hfr2 by exact Hfr.
  destruct (zero_root_wf f s2) as [Hwf Hz]; [done|set_solver|done| |].
  { intros b Hb. cbn [s2 set_kernel_pml4 set_alloc vm_mem]. by rewrite Hmem, decide_True. }
  pose proof (size_remove (frames s) f Hf) as Hs2. rewrite <-Hfr2 in Hs2. unfold frames at 2 in Hs2.
  destruct (init_loops f s2 Hwf Hz) as (s3 & s4 & T' & -> & E4 & Hext & Hs4 & Htr); [lia|].
  cbn [mbind option_bind]. rewrite E4. cbn [mbind option_bind].
  destruct (ext_regs _ _ _ _ Hext) as (Hk & _ & He).
  eexists _, f, T'. split; [reflexivity|].
  split_and!; [|apply (ext_root _ _ _ _ _ Hext), lookup_singleton_eq| | | | | |].
  - destruct (ext_wf _ _ _ _ Hext) as [H1 H2 H3 H4]. split; [exact H1|exact H2|exact H3|exact H4].
  - exact Hk.
  - reflexivity.
  - cbn [vmm_switch cpu_enable_nxe vm_efer]. by rewrite He.
  - unfold frames in *. cbn [vmm_switch cpu_enable_nxe vm_alloc]. lia.
  - pose proof (ext_frames _ _ _ _ Hext) as Hsub. rewrite Hfr2 in Hsub. intros g Hg.
    apply Hsub, elem_of_difference in Hg as [Hg _]. exact Hg.
  - exact Htr.
Qed.

(** ** Allocating ranges *)

Lemma missing_ext T s m' f o π0 π :
  pt_wf T s → T !! f = Some (o, π0) → (length π0 + length π ≤ 3)%nat →
  Forall (λ i, 0 ≤ i < 512) π →
  (∀ g o' π' i, T !! g = Some (o', π') → (length π' < 3)%nat → 0 ≤ i < 512 →
    entry m' (g * PAGE_SIZE) i = entry (vm_mem s) (g * PAGE_SIZE) i) →
  missing m' (f * PAGE_SIZE) π = missing (vm_mem s) (f * PAGE_SIZE) π.
Proof.
  intros Hwf Hf Hlen Hi Hm. revert f o π0 Hf Hlen.
  induction Hi as [|i π Hi Hπ IH]; intros f o π0 Hf Hlen; [done|]. cbn [missing length] in *.
  rewrite (Hm f o π0 i Hf) by lia. destruct (absent _) eqn:E; [done|].
  destruct (wf_child _ _ Hwf f o π0 i Hf) as [_ (g & -> & Hg)]; [lia|done|done|].
  apply (IH g _ _ Hg). rewrite length_app. cbn [length]. lia.
Qed.

Lemma alloc_ext T s a m1 f :
  pt_wf T s → fa_ok a → f ∈ frames s → fa_frames a = frames s ∖ {[f]} →
  (∀ b, m1 b = if decide (in_frame f b) then 0 else vm_mem s b) →
  vm_ext T s T (set_alloc s a m1) ∧ same_ptes T (vm_mem s) m1
  ∧ ∀ r v, is_root T r → missing m1 (r * PAGE_SIZE) (path v) = missing (vm_mem s) (r * PAGE_SIZE) (path v).
Proof.
  intros Hwf Hok Hf Hfr Hm. assert (T !! f = None) as Hn.
  { destruct (T !! f) as [[o π]|] eqn:E; [|done]. by destruct (wf_used _ _ Hwf _ _ _ E). }
  assert (∀ g o π i, T !! g = Some (o, π) → 0 ≤ i < 512 →
    entry m1 (g * PAGE_SIZE) i = entry (vm_mem s) (g * PAGE_SIZE) i) as He.
  { intros g o π i Hg Hi. apply entry_frame; [done|]. intros b Hb. rewrite Hm, decide_False; [done|].
    intros Hb'. assert (g = f) as -> by (unfold in_frame, PAGE_SIZE in *; lia). congruence. }
  split_and!.
  - apply vm_ext_mem; [done|done| | | |done].
    + unfold frames at 1. cbn [set_alloc vm_alloc]. rewrite Hfr. set_solver.
    + intros. by eapply He.
    + intros g b Hb _ Hg. cbn [set_alloc vm_mem]. rewrite Hm, decide_False; [done|]. intros Hb'.
      apply Hg. assert (g = f) as -> by (unfold in_frame, PAGE_SIZE in *; lia). done.
  - intros r v Hr. unfold pte.
    rewrite (walk_ext T s m1 r r [] (path v) Hwf Hr ltac:(simpl; lia) (path_idx v))
      by (intros; by eapply He).
    destruct (walk (vm_mem s) _ _) as [t|] eqn:Ew; [|done].
    destruct (walk_label T s r r [] (path v) t Hwf Hr ltac:(simpl; lia) (path_idx v) Ew) as (g & -> & Hg).
    eapply He; [done|]. apply idx_range. lia.
  - intros r v Hr. eapply missing_ext; [done|exact Hr|simpl; lia|apply path_idx|]. intros. by eapply He.
Qed.

Lemma translate_ext (m m' : mem) t v : (∀ a, m' a = m a) → vmm_translate t v m' = vmm_translate t v m.
Proof.
  intros Hm. assert (∀ t i, entry m' t i = entry m t i) as He by (intros; by apply load64_ext).
  unfold vmm_translate. by rewrite !He.
Qed.

Lemma vmm_alloc_map_spec T s r v flags :
  pt_wf T s → is_root T r → flags_ok flags →
  ∃ x s' T', vmm_alloc_map (r * PAGE_SIZE) v flags s = Some (x, s') ∧ vm_ext T s T' s'
    ∧ (size (frames s) ≤ size (frames s') + 4)%nat
    ∧ (∀ v', vpn v' ≠ vpn v → vmm_translate (r * PAGE_SIZE) v' (vm_mem s')
                              = vmm_translate (r * PAGE_SIZE) v' (vm_mem s))
    ∧ ((x = 0 ∧ frames s = ∅)
       ∨ ∃ f, x = f * PAGE_SIZE ∧ x ≠ 0 ∧ f ∈ frames s ∧ (f ∉ frames s') ∧ T' !! f = None
           ∧ (∀ b, in_frame f b → vm_mem s' b = 0)
           ∧ ((frames s' = ∅ ∧ ∀ v', vmm_translate (r * PAGE_SIZE) v' (vm_mem s')
                                     = vmm_translate (r * PAGE_SIZE) v' (vm_mem s))
              ∨ ((missing (vm_mem s) (r * PAGE_SIZE) (path v) < size (frames s))%nat
                 ∧ ∀ v', vmm_translate (r * PAGE_SIZE) v' (vm_mem s')
                    = if decide (vpn v' = vpn v) then mapped_to x v'
                      else vmm_translate (r * PAGE_SIZE) v' (vm_mem s)))).
Proof.
  intros Hwf Hr Hfl. unfold vmm_alloc_map, pmm_alloc_vm.
  destruct (fa_alloc_ok (vm_alloc s) (vm_mem s) (wf_alloc _ _ Hwf)) as (x & a & m1 & -> & Hok & Hpost).
  cbn [mbind option_bind]. destruct Hpost as [(-> & Hfr & Hfr' & Hmem)|(f & Hf & -> & Hfr & Hmem)].
  { exists 0, (set_alloc s a m1), T. split_and!; [done| |unfold frames; rewrite Hfr, size_empty; lia
                                           |intros v' _; by apply translate_ext|by left].
    apply vm_ext_mem; [done|done|unfold frames; cbn [set_alloc vm_alloc]; by rewrite Hfr'| | |done].
    - intros. apply entry_frame; [done|]. intros. apply Hmem.
    - intros. apply Hmem. }
  pose proof (fa_frame_range _ _ (wf_alloc _ _ Hwf) Hf) as Hfb.
  destruct (alloc_ext T s a m1 f Hwf Hok Hf Hfr Hmem) as (Hext1 & Hsame & Hmiss).
  destruct (Z.eqb_spec (f * PAGE_SIZE) 0) as [|Hnz]; [unfold PAGE_SIZE in *; lia|].
  set (s1 := set_alloc s a m1) in *.
  assert (frames s1 = frames s ∖ {[f]}) as Hfr1 by exact Hfr.
  assert (∀ v', vmm_translate (r * PAGE_SIZE) v' (vm_mem s1) = vmm_translate (r * PAGE_SIZE) v' (vm_mem s)) as Htr1.
  { intros v'. eapply same_translate; [exact Hwf|apply Hext1|done|done|]. by apply Hsame. }
  destruct (vmm_map_mapped T s1 r v (f * PAGE_SIZE) flags (ext_wf _ _ _ _ Hext1) Hr Hfl)
    as (s' & T' & -> & Hext2 & Hres). cbn [mbind option_bind].
  assert (T !! f = None) as Hn.
  { destruct (T !! f) as [[o π]|] eqn:E; [|done]. by destruct (wf_used _ _ Hwf _ _ _ E). }
  pose proof (size_remove (frames s) f Hf) as Hs1. rewrite <-Hfr1 in Hs1.
  pose proof (missing_length (vm_mem s1) (r * PAGE_SIZE) (path v)) as Hml. cbn [length path] in Hml.
  exists (f * PAGE_SIZE), s', T'. split_and!; [done|by eapply vm_ext_trans| | |].
  { destruct Hres as [(_ & Hlt & _)|(_ & Hsz & _)]; lia. }
  { intros v' Hv'. destruct Hres as [(_ & _ & Hs & _)|(_ & _ & _ & Hv)].
    - rewrite <-Htr1. eapply same_translate; [apply Hext1|apply Hext2|done|by eapply ext_root|]. by apply Hs.
    - rewrite Hv, Htr1. by rewrite decide_False. }
  right. exists f.
  split_and!; [done|done|done| | | |].
  - intros Hin. apply (ext_frames _ _ _ _ Hext2) in Hin. rewrite Hfr1 in Hin. set_solver.
  - apply eq_None_not_Some. intros Hs. destruct (ext_new _ _ _ _ Hext2 f Hs) as [[? ?]|Hin]; [congruence|].
    rewrite Hfr1 in Hin. set_solver.
  - intros b Hb. rewrite (ext_data _ _ _ _ Hext2 f b Hb Hn) by (rewrite Hfr1; set_solver).
    cbn [s1 set_alloc vm_mem]. by rewrite Hmem, decide_True.
  - destruct Hres as [(Hemp & _ & Hs & _)|(_ & Hsz & _ & Hv)].
    + left. split; [done|]. intros v'. rewrite <-Htr1.
      eapply same_translate; [apply Hext1|apply Hext2|done|by eapply ext_root|]. by apply Hs.
    + right. split; [|intros v'; by rewrite Hv, Htr1].
      specialize (Hmiss r v Hr). change m1 with (vm_mem s1) in Hmiss. lia.
Qed.

(** [vmm_alloc_range]: if it answers 0 and a frame is left, each page of the
    range is mapped to a frame of its own, taken from the free ones, zeroed and
    not used as a table; other translations are unchanged. *)
Lemma alloc_range_loop_spec n i T s r virt flags :
  pt_wf T s → is_root T r → flags_ok flags → 0 ≤ i → i + Z.of_nat n ≤ 2 ^ 36 →
  ∃ rc s' T', alloc_range_loop n i (r * PAGE_SIZE) virt flags s = Some (rc, s') ∧ vm_ext T s T' s'
    ∧ (rc = 0 ∨ rc = -1 ∧ frames s' = ∅) ∧ (size (frames s) ≤ size (frames s') + 4 * n)%nat
    ∧ (∀ v, ¬ i ≤ page_off (virt / PAGE_SIZE) v < i + Z.of_nat n →
        vmm_translate (r * PAGE_SIZE) v (vm_mem s') = vmm_translate (r * PAGE_SIZE) v (vm_mem s))
    ∧ (rc = 0 → frames s' ≠ ∅ → ∃ fs : list Z, length fs = n ∧ NoDup fs
        ∧ (∀ f, f ∈ fs → f ∈ frames s ∧ (f ∉ frames s') ∧ T' !! f = None
                          ∧ ∀ b, in_frame f b → vm_mem s' b = 0)
        ∧ ∀ v, vmm_translate (r * PAGE_SIZE) v (vm_mem s')
             = let j := page_off (virt / PAGE_SIZE) v in
               if decide (i ≤ j < i + Z.of_nat n)
               then mapped_to (nth (Z.to_nat (j - i)) fs 0 * PAGE_SIZE) v
               else vmm_translate (r * PAGE_SIZE) v (vm_mem s)).
Proof.
  revert i T s. induction n as [|n IH]; intros i T s Hwf Hr Hfl Hi Hn; cbn [alloc_range_loop].
  { exists 0, s, T. split_and!; [done|by apply vm_ext_refl|by left|lia|done|]. intros _ _. exists [].
    split_and!; [done|constructor|by intros f ?%not_elem_of_nil|].
    intros v. cbv zeta. by rewrite decide_False by lia. }
  destruct (vmm_alloc_map_spec T s r (u64 (virt + i * PAGE_SIZE)) flags Hwf Hr Hfl)
    as (x & s1 & T1 & -> & Hext1 & Hs1 & Hother & Hres). cbn [mbind option_bind].
  assert (∀ v, page_off (virt / PAGE_SIZE) v ≠ i → vpn v ≠ vpn (u64 (virt + i * PAGE_SIZE))) as Hvne.
  { intros v Hv Ev. apply Hv. apply page_off_eq; [lia|]. by rewrite Ev, vpn_range_page. }
  destruct Hres as [(-> & Hemp)|(f & -> & Hnz & Hf & Hf1 & HTf & Hzero & Hmap)].
  { exists (-1), s1, T1. split_and!; [done|done| |rewrite Hemp, size_empty; lia
                                    |intros v Hv; apply Hother, Hvne; lia|done]. right. split; [done|].
    pose proof (ext_frames _ _ _ _ Hext1). set_solver. }
  apply Z.eqb_neq in Hnz. rewrite Hnz.
  destruct (IH (i + 1) T1 s1) as (rc & s' & T' & -> & Hext' & Hrc & Hs' & Hother' & Hok);
    [apply Hext1|by eapply ext_root|done|lia|lia|].
  exists rc, s', T'. split_and!; [done|by eapply vm_ext_trans|done|lia| |].
  { intros v Hv. rewrite Hother' by lia. apply Hother, Hvne. lia. }
  intros Hrc0 Hne.
  destruct (Hok Hrc0 Hne) as (fs & Hlen & Hnd & Hfs & Htr). exists (f :: fs).
  destruct Hmap as [[Hemp _]|[_ Hmap]].
  { destruct Hne. pose proof (ext_frames _ _ _ _ Hext'). set_solver. }
  split_and!; [simpl; lia| | |].
  - constructor; [|done]. intros Hin. destruct (Hfs f Hin) as (Hin' & _). done.
  - intros g [->|Hg]%elem_of_cons.
    + split_and!; [done| | |].
      * intros Hin. by apply Hf1, (ext_frames _ _ _ _ Hext').
      * apply eq_None_not_Some. intros Hs.
        destruct (ext_new _ _ _ _ Hext' f Hs) as [[? ?]|?]; [congruence|done].
      * intros b Hb. rewrite (ext_data _ _ _ _ Hext' f b Hb HTf Hf1). by apply Hzero.
    + destruct (Hfs g Hg) as (Hg1 & ? & ? & ?). split_and!; try done. by apply (ext_frames _ _ _ _ Hext1).
  - intros v. rewrite Htr, Hmap, vpn_range_page. cbv zeta.
    set (j := page_off (virt / PAGE_SIZE) v).
    destruct (decide (j = i)) as [Ej|Ej].
    + rewrite (decide_False (P := i + 1 ≤ _ < _)) by lia.
      rewrite decide_True by (apply page_off_eq; [lia|done]). rewrite decide_True by lia.
      by rewrite Ej, Z.sub_diag.
    + rewrite (decide_False (P := vpn v = _)) by (by rewrite page_off_eq by lia).
      destruct (decide (i + 1 ≤ j < i + 1 + Z.of_nat n)).
      * rewrite decide_True by lia.
        replace (Z.to_nat (j - i)) with (S (Z.to_nat (j - (i + 1)))) by lia. done.
      * by rewrite decide_False by lia.
Qed.

(** ** Freeing ranges *)

(** The state after a frame was given back. *)
Lemma release_wf T s a phys :
  pt_wf T s → fa_ok a → release_post fa_bound (frames s) (fa_frames a) phys →
  T !! (phys / PAGE_SIZE) = None → pt_wf T (set_alloc s a (vm_mem s)).
Proof.
  intros Hwf Hok Hpost Hn. split; [done| |apply Hwf|apply Hwf].
  intros g o π Hg. destruct (wf_used _ _ Hwf g o π Hg) as [Hg1 Hg2]. split; [|done].
  unfold frames. cbn [set_alloc vm_alloc]. rewrite Hpost. case_decide; [|done].
  rewrite elem_of_union, elem_of_singleton. intros [->|?]; [congruence|done].
Qed.

Lemma translate_range T s r v :
  pt_wf T s → is_root T r → 0 ≤ vmm_translate (r * PAGE_SIZE) v (vm_mem s) < 2 ^ 64.
Proof.
  intros Hwf Hr. rewrite (vmm_translate_pte T s r v Hwf Hr). cbv zeta. destruct (absent _); [lia|].
  assert (∀ a b, 0 ≤ a < 2 ^ 52 → 0 ≤ b < 2 ^ 52 → 0 ≤ Z.lor a b < 2 ^ 64) as Hl.
  { intros a b Ha Hb. pose proof (lor_range a b 52 ltac:(lia) Ha Hb). lia. }
  apply Hl.
  - rewrite phys_mask. pose proof (Z.mod_pos_bound (pte (vm_mem s) (r * PAGE_SIZE) v / PAGE_SIZE) (2 ^ 40) eq_refl).
    unfold PAGE_SIZE in *. lia.
  - change 0xFFF with (Z.ones 12). rewrite Z.land_ones by lia.
    pose proof (Z.mod_pos_bound v (2 ^ 12) eq_refl). lia.
Qed.

Lemma free_range_step_spec T s r virt i :
  pt_wf T s → is_root T r → let va := u64 (virt + i * PAGE_SIZE) in
  let p := vmm_translate (r * PAGE_SIZE) va (vm_mem s) in
  (p ≠ 0 → T !! (p / PAGE_SIZE) = None) →
  ∃ s', free_range_step (r * PAGE_SIZE) virt i s = Some s' ∧ pt_wf T s'
    ∧ vmm_translate (r * PAGE_SIZE) va (vm_mem s') = 0
    ∧ (∀ v, vpn v ≠ vpn va →
        vmm_translate (r * PAGE_SIZE) v (vm_mem s') = vmm_translate (r * PAGE_SIZE) v (vm_mem s))
    ∧ ∀ f, f ∈ frames s' ↔ f ∈ frames s ∨ (0 < f < fa_bound ∧ p ≠ 0 ∧ p / PAGE_SIZE = f).
Proof.
  intros Hwf Hr va p Hp. unfold free_range_step. fold va p. cbv zeta.
  destruct (Z.eqb_spec p 0) as [E|E].
  { exists s. split_and!; [done|done|done|done|]. intros f. naive_solver. }
  destruct (vmm_unmap_spec T s r va Hwf Hr) as (Hext & Ha & _ & Htr).
  set (s1 := vmm_unmap (r * PAGE_SIZE) va s) in *.
  pose proof (translate_range T s r va Hwf Hr) as Hrange. fold p in Hrange.
  destruct (fa_release_ok (vm_alloc s1) p (wf_alloc _ _ (ext_wf _ _ _ _ Hext)) Hrange) as (a & Ea & Hok & Hpost).
  unfold pmm_free_vm. rewrite Ea. cbn [mbind option_bind]. eexists. split; [reflexivity|].
  split_and!.
  - eapply release_wf; [apply Hext|done|exact Hpost|by apply Hp].
  - cbn [set_alloc vm_mem]. rewrite Htr. by rewrite decide_True.
  - intros v Hv. cbn [set_alloc vm_mem]. rewrite Htr. by rewrite decide_False.
  - intros f. unfold frames. cbn [set_alloc vm_alloc]. rewrite Hpost, Ha.
    case_decide as Hd; [rewrite elem_of_union, elem_of_singleton|].
    + split; [intros [->|?]; [right|left]; done|]. intros [?|(_ & _ & ->)]; [by right|by left].
    + split; [by left|]. intros [?|(Hf & _ & <-)]; [done|lia].
Qed.

Lemma free_range_loop_spec n i T s r virt :
  pt_wf T s → is_root T r → 0 ≤ i → i + Z.of_nat n ≤ 2 ^ 36 →
  let P := λ (s : vmm A) j, vmm_translate (r * PAGE_SIZE) (u64 (virt + j * PAGE_SIZE)) (vm_mem s) in
  (∀ j, i ≤ j < i + Z.of_nat n → P s j ≠ 0 → T !! (P s j / PAGE_SIZE) = None) →
  ∃ s', for_pages n i (free_range_step (r * PAGE_SIZE) virt) s = Some s' ∧ pt_wf T s'
    ∧ (∀ j, i ≤ j < i + Z.of_nat n → P s' j = 0)
    ∧ (∀ v, ¬ i ≤ page_off (virt / PAGE_SIZE) v < i + Z.of_nat n →
        vmm_translate (r * PAGE_SIZE) v (vm_mem s') = vmm_translate (r * PAGE_SIZE) v (vm_mem s))
    ∧ ∀ f, f ∈ frames s' ↔ f ∈ frames s
        ∨ (0 < f < fa_bound ∧ ∃ j, i ≤ j < i + Z.of_nat n ∧ P s j ≠ 0 ∧ P s j / PAGE_SIZE = f).
Proof.
  intros Hwf Hr Hi Hn P. revert i s Hwf Hi Hn.
  induction n as [|n IH]; intros i s Hwf Hi Hn HP; cbn [for_pages].
  { exists s. split_and!; [done|done|lia|done|]. intros f. split; [by left|].
    intros [?|(_ & j & ? & _)]; [done|lia]. }
  destruct (free_range_step_spec T s r virt i Hwf Hr) as (s1 & -> & Hwf1 & Hz & Hother & Hf1);
    [apply (HP i); lia|]. cbn [mbind option_bind].
  assert (∀ j, 0 ≤ j < 2 ^ 36 → page_off (virt / PAGE_SIZE) (u64 (virt + j * PAGE_SIZE)) = j) as Hoff.
  { intros j Hj. apply page_off_eq; [done|]. apply vpn_range_page. }
  assert (∀ v, page_off (virt / PAGE_SIZE) v ≠ i → vpn v ≠ vpn (u64 (virt + i * PAGE_SIZE))) as Hvne.
  { intros v Hv E. apply Hv. apply page_off_eq; [lia|]. by rewrite E, vpn_range_page. }
  assert (∀ j, i < j < i + Z.of_nat (S n) → P s1 j = P s j) as HPj.
  { intros j Hj. apply Hother, Hvne. rewrite Hoff by lia. lia. }
  destruct (IH (i + 1) s1 Hwf1) as (s' & -> & Hwf' & Hz' & Hother' & Hf'); [lia|lia| |].
  { intros j Hj. rewrite HPj by lia. apply HP. lia. }
  exists s'. split_and!; [done|done| | |].
  - intros j Hj. destruct (Z.eq_dec j i) as [->|]; [|apply Hz'; lia].
    unfold P. rewrite Hother' by (rewrite Hoff by lia; lia). exact Hz.
  - intros v Hv. rewrite Hother' by lia. apply Hother, Hvne. lia.
  - intros f. rewrite Hf', Hf1. split.
    + intros [[?|(? & ? & ?)]|(? & j & Hj & Hp)]; [by left|right; split; [done|]; exists i; split; [lia|done]|].
      right. split; [done|]. exists j. rewrite HPj in Hp by lia. split; [lia|done].
    + intros [?|(Hf & j & Hj & Hp)]; [by left; left|].
      destruct (Z.eq_dec j i) as [->|]; [by left; right|]. right. split; [done|]. exists j.
      rewrite HPj by lia. split; [lia|done].
Qed.
End range.
