(* ===== verification/VmmProps.v ===== *)
(** The properties of the paging code of kernel/mm/vmm.c and vmm_ext.c.  They
    are stated for any frame allocator that satisfies the interface; the
    witnesses run them with the allocator of kernel/mm/pmm.c. *)
From stdpp Require Import prelude gmap.
From S2P Require Import Prelude CString FrameAlloc Bitmap Pmm Vmm VmmWf VmmSpec VmmRange.

(** ** A sample machine *)

(** The allocator after boot on [sample_boot_info]: frames 512 to 2047 are free. *)
Lemma sample_pmm :
  ∃ p, pmm_inv p ∧ ∀ f, f ∈ free_set (pmm_bitmap p) ↔ 512 ≤ f < 2048.
Proof.
  destruct (pmm_init_spec sample_boot_info 0x200000) as (p & _ & Hw & Hh & Hf & Hc); [done|by vm_compute|].
  destruct Hc as [Hc _]; [intros i j f Hij Hj; cbn in Hj; lia|].
  assert (∀ f, 0 ≤ f < PMM_MAX_FRAMES → is_free (pmm_bitmap p) f = (512 <=? f) && (f <? 2048)) as Hfree.
  { intros f Hr. rewrite Hf by done. unfold usable, region_has, kernel_frame.
    change (ALIGN_UP 0x200000 PAGE_SIZE) with 0x200000. change kstart with 0x100000.
    change (e820_count sample_boot_info) with 1. change (seqZ 0 1) with [0].
    cbn [existsb e820_map sample_boot_info e_type].
    match goal with |- context [region_start ?e] => change (region_start e) with 0x100000;
      change (region_end e) with 0x800000 end.
    unfold PAGE_SIZE. bool_cases; cbn; done || lia. }
  exists p. split.
  - split; [done|done| |by rewrite Hh]. by rewrite Hfree.
  - intros f. rewrite elem_free_set. split.
    + intros [Hr H]. rewrite Hfree in H by done. apply andb_true_iff in H as [H1 H2]. bool_cases; lia || done.
    + intros Hr. unfold PMM_MAX_FRAMES. split; [lia|]. rewrite Hfree by (unfold PMM_MAX_FRAMES; lia).
      bool_cases; cbn; done || lia.
Qed.

Definition sample_vmm (p : pmm) : vmm pmm :=
  {| vm_alloc := p; vm_mem := λ _, 0; kernel_pml4 := 1 * PAGE_SIZE; vm_cr3 := 1 * PAGE_SIZE;
     vm_efer := 0; vm_tlb := [] |}.

(** Its root table is the zeroed frame 1. *)
Lemma sample_wf :
  ∃ p, pt_wf {[1 := (1, [])]} (sample_vmm p) ∧ (1000 < size (frames (sample_vmm p)))%nat
       ∧ ∀ v, vmm_translate (1 * PAGE_SIZE) v (λ _, 0) = 0.
Proof.
  destruct sample_pmm as (p & Hp & Hf). exists p.
  destruct (zero_root_wf 1 (sample_vmm p)) as [Hwf Hz]; [exact Hp| |done|done|].
  { unfold frames. cbn. rewrite Hf. lia. }
  split_and!; [done| |exact Hz].
  assert (size (list_to_set (seqZ 512 1001) : gset Z) ≤ size (frames (sample_vmm p)))%nat as Hs.
  { apply subseteq_size. intros f. rewrite elem_of_list_to_set, elem_of_seqZ. intros H.
    apply Hf. lia. }
  rewrite size_list_to_set, length_seqZ in Hs by apply NoDup_seqZ. lia.
Qed.

(** ** Properties *)

Section properties.
Context {A : Type} `{FrameAllocator A}.
Implicit Types (s : vmm A) (T : gmap Z label).

(** C3: Mapping.  On well-formed page tables, if the allocator has the frames
    for the tables that are missing on the path, [vmm_map] followed by
    [vmm_translate] gives the new frame with the page offset for every address
    of the page and leaves every other translation of the address space as it
    was.  The tables stay well-formed, the allocator loses exactly the missing
    tables, data frames are untouched, and the page is flushed from the TLB. *)
Theorem vmm_map_translate T s r virt phys flags :
  pt_wf T s → is_root T r → flags_ok flags →
  (missing (vm_mem s) (r * PAGE_SIZE) (path virt) ≤ size (frames s))%nat →
  ∃ s' T', vmm_map (r * PAGE_SIZE) virt phys flags s = Some s' ∧ pt_wf T' s' ∧ T ⊆ T'
    ∧ (size (frames s) = size (frames s') + missing (vm_mem s) (r * PAGE_SIZE) (path virt))%nat
    ∧ vm_tlb s' = vm_tlb s ++ [Invlpg virt]
    ∧ (∀ f a, in_frame f a → T !! f = None → f ∉ frames s → vm_mem s' a = vm_mem s a)
    ∧ ∀ v, vmm_translate (r * PAGE_SIZE) v (vm_mem s')
           = if decide (vpn v = vpn virt) then mapped_to phys v
             else vmm_translate (r * PAGE_SIZE) v (vm_mem s).
Proof.
  intros Hwf Hr Hfl Hm.
  destruct (vmm_map_mapped T s r virt phys flags Hwf Hr Hfl) as (s' & T' & E & Hext & Hres).
  exists s', T'. destruct Hres as [(_ & Hlt & _)|(_ & Hsz & Htlb & Htr)]; [lia|].
  split_and!; [exact E|apply Hext|exact (ext_tables _ _ _ _ Hext)|exact Hsz|exact Htlb
               |exact (ext_data _ _ _ _ Hext)|exact Htr].
Qed.

(** C32: Isolation.  Whatever [vmm_map] does in one address space, and whether
    or not it succeeds, the lower half of every other address space translates
    as before. *)
Theorem vmm_map_isolation T s r virt phys flags r' v :
  pt_wf T s → is_root T r → is_root T r' → r' ≠ r → 0 ≤ flags < 2 ^ 64 → PML4_IDX v < 256 →
  ∃ s', vmm_map (r * PAGE_SIZE) virt phys flags s = Some s'
    ∧ vmm_translate (r' * PAGE_SIZE) v (vm_mem s') = vmm_translate (r' * PAGE_SIZE) v (vm_mem s).
Proof.
  intros Hwf Hr Hr' Hne Hfl Hv.
  destruct (vmm_map_spec T s r virt phys flags Hwf Hr Hfl) as (s' & T' & E & _).
  exists s'. split; [done|]. exact (vmm_map_other_root T s r virt phys flags s' r' v Hwf Hr Hfl Hr' Hne Hv E).
Qed.

(** Unmapping.  After [vmm_unmap] no address of the page translates, every
    other address of the address space translates as before, the tables stay
    well-formed, and the page is flushed from the TLB unless it was not mapped. *)
Theorem vmm_unmap_correct T s r virt :
  pt_wf T s → is_root T r →
  let s' := vmm_unmap (r * PAGE_SIZE) virt s in
  pt_wf T s' ∧ vm_alloc s' = vm_alloc s
  ∧ (∀ v, vmm_translate (r * PAGE_SIZE) v (vm_mem s')
          = if decide (vpn v = vpn virt) then 0 else vmm_translate (r * PAGE_SIZE) v (vm_mem s))
  ∧ (vm_tlb s' = vm_tlb s ++ [Invlpg virt]
     ∨ vm_tlb s' = vm_tlb s
       ∧ ∀ v, vpn v = vpn virt → vmm_translate (r * PAGE_SIZE) v (vm_mem s) = 0).
Proof.
  intros Hwf Hr. destruct (vmm_unmap_spec T s r virt Hwf Hr) as (Hext & Ha & Htlb & Htr).
  split_and!; [apply Hext|exact Ha|exact Htr|exact Htlb].
Qed.

(** New address spaces.  [vmm_create_address_space] answers NULL only when
    no frame is free.  Otherwise the new root translates nothing in its lower
    half and exactly what the kernel translates in its upper half; all existing
    address spaces translate as before and the tables stay well-formed. *)
Theorem vmm_create_address_space_correct T s k :
  pt_wf T s → is_root T k → kernel_pml4 s = k * PAGE_SIZE → frames s ≠ ∅ →
  ∃ f s', vmm_create_address_space s = Some (f * PAGE_SIZE, s') ∧ f ∈ frames s
    ∧ frames s' = frames s ∖ {[f]} ∧ pt_wf (<[f := (f, [])]> T) s'
    ∧ (∀ v, vmm_translate (f * PAGE_SIZE) v (vm_mem s')
            = if PML4_IDX v <? 256 then 0 else vmm_translate (k * PAGE_SIZE) v (vm_mem s))
    ∧ ∀ r v, is_root T r →
        vmm_translate (r * PAGE_SIZE) v (vm_mem s') = vmm_translate (r * PAGE_SIZE) v (vm_mem s).
Proof.
  intros Hwf Hk Ek Hne.
  destruct (vmm_create_address_space_spec T s k Hwf Hk Ek) as (page & s' & E & _ & _ & _ & Hres).
  destruct Hres as [(_ & ? & _)|(f & -> & Hf & Hfr & Hwf' & Hrc)]; [done|].
  exists f, s'. assert (is_root (<[f := (f, [])]> T) f) as Hroot by apply lookup_insert_eq.
  split_and!; [done|done|done|done| |].
  - intros v. rewrite (vmm_translate_pte _ _ f v Hwf' Hroot), (vmm_translate_pte _ _ k v Hwf Hk).
    rewrite (rc_pte T s (vm_mem s') k f v Hwf Hk Hrc). by destruct (PML4_IDX v <? 256).
  - intros r v Hr. eapply same_translate; [exact Hwf|exact Hwf'|done| |].
    + unfold is_root. rewrite lookup_insert_ne; [done|]. intros ->.
      unfold is_root in Hr. by rewrite (rc_fresh _ _ _ _ _ Hrc) in Hr.
    + by apply (rc_same_ptes T s (vm_mem s') k f).
Qed.

Lemma init_translation_high p :
  0 ≤ p < 128 * 1024 * 1024 → init_translation (KERNEL_VIRT_BASE + p) = p.
Proof.
  intros Hp.
  assert (page_off kvb_page (KERNEL_VIRT_BASE + p) = p / PAGE_SIZE) as E1.
  { apply page_off_eq; [unfold PAGE_SIZE; Z.to_euclidean_division_equations; lia|].
    unfold vpn, kvb_page. rewrite Z.add_mod_idemp_l by lia. f_equal. unfold PAGE_SIZE.
    change KERNEL_VIRT_BASE with (0xFFFFFFFF80000 * 4096). rewrite Z.div_add_l, Z.div_mul by lia. lia. }
  assert (page_off 0 (KERNEL_VIRT_BASE + p) = kvb_page + p / PAGE_SIZE) as E0.
  { apply page_off_eq; unfold kvb_page, PAGE_SIZE, KERNEL_VIRT_BASE.
    - change ((0xFFFFFFFF80000000 / 4096) mod 2 ^ 36) with 0xFFFF80000.
      Z.to_euclidean_division_equations; lia.
    - unfold vpn, PAGE_SIZE. rewrite Z.add_0_l, Z.add_mod_idemp_l by lia. f_equal.
      change 0xFFFFFFFF80000000 with (0xFFFFFFFF80000 * 4096). rewrite Z.div_add_l, Z.div_mul by lia. lia. }
  unfold init_translation. rewrite E0, E1. change kvb_page with 0xFFFF80000.
  assert (0 ≤ p / PAGE_SIZE < 32768) by (unfold PAGE_SIZE; Z.to_euclidean_division_equations; lia).
  rewrite decide_False, decide_True by lia. rewrite mapped_to_page by lia.
  change KERNEL_VIRT_BASE with (0xFFFFFFFF80000 * PAGE_SIZE).
  rewrite (Z.add_comm (_ * PAGE_SIZE) p), Z.mod_add by done. pose proof (Z.div_mod p PAGE_SIZE ltac:(done)). lia.
Qed.

Lemma low_page_off v : 0 ≤ v < 2 ^ 47 → page_off 0 v = v / PAGE_SIZE.
Proof.
  intros Hv. unfold page_off, vpn, PAGE_SIZE. rewrite Z.sub_0_r.
  rewrite Z.mod_mod by lia. apply Z.mod_small. Z.to_euclidean_division_equations; lia.
Qed.

Lemma init_translation_low p : 0 ≤ p < 2 * 1024 * 1024 → init_translation p = p.
Proof.
  intros Hp. unfold init_translation. rewrite low_page_off by lia.
  assert (0 ≤ p / PAGE_SIZE < 512) by (unfold PAGE_SIZE; Z.to_euclidean_division_equations; lia).
  rewrite decide_True, mapped_to_page by lia. pose proof (Z.div_mod p PAGE_SIZE ltac:(done)). lia.
Qed.

Lemma init_translation_user v : 2 * 1024 * 1024 ≤ v < 2 ^ 47 → init_translation v = 0.
Proof.
  intros Hv. unfold init_translation. rewrite low_page_off by lia.
  assert (512 ≤ v / PAGE_SIZE < 2 ^ 35) by (unfold PAGE_SIZE; Z.to_euclidean_division_equations; lia).
  rewrite decide_False by lia.
  assert (page_off kvb_page v = v / PAGE_SIZE + 0x80000) as ->.
  { change kvb_page with 0xFFFF80000. apply page_off_eq; [lia|]. unfold vpn.
    replace (0xFFFF80000 + (v / PAGE_SIZE + 0x80000)) with (v / PAGE_SIZE + 1 * 2 ^ 36) by lia.
    by rewrite Z.mod_add by lia. }
  by rewrite decide_False by lia.
Qed.

(** C33: Kernel address space.  With more than 70 free frames [vmm_init] does
    not halt.  It leaves well-formed tables in CR3 in which the first 128 MB of
    physical memory appear at KERNEL_VIRT_BASE, the first 2 MB appear at their
    own address, and no other lower-half address is mapped; NX is enabled and
    at most 70 frames are used. *)
Theorem vmm_init_correct s :
  fa_ok (vm_alloc s) → (70 < size (frames s))%nat →
  ∃ s' f T, vmm_init s = Some (Running s') ∧ pt_wf T s' ∧ is_root T f
    ∧ kernel_pml4 s' = f * PAGE_SIZE ∧ vm_cr3 s' = kernel_pml4 s'
    ∧ vm_efer s' = Z.lor (vm_efer s) EFER_NXE ∧ (size (frames s) ≤ size (frames s') + 70)%nat
    ∧ (∀ p, 0 ≤ p < 128 * 1024 * 1024 →
        vmm_translate (kernel_pml4 s') (KERNEL_VIRT_BASE + p) (vm_mem s') = p)
    ∧ (∀ p, 0 ≤ p < 2 * 1024 * 1024 → vmm_translate (kernel_pml4 s') p (vm_mem s') = p)
    ∧ ∀ v, 2 * 1024 * 1024 ≤ v < 2 ^ 47 → vmm_translate (kernel_pml4 s') v (vm_mem s') = 0.
Proof.
  intros Hok Hsz. destruct (vmm_init_spec s Hok Hsz) as (s' & f & T & E & Hwf & Hr & Hk & Hc & He & Hs & _ & Htr).
  exists s', f, T. rewrite Hc, Hk. split_and!; try done; intros; rewrite Htr.
  - by apply init_translation_high.
  - by apply init_translation_low.
  - by apply init_translation_user.
Qed.

(** Allocated ranges.  If [vmm_alloc_range] answers 0 and the allocator is
    not exhausted, each page of the range is mapped to a frame of its own,
    which was free, is zero, and is neither free nor a page table afterwards;
    no translation outside the range changes.  It answers -1 only when the
    frames ran out. *)
Theorem vmm_alloc_range_correct T s r virt size_ flags :
  pt_wf T s → is_root T r → flags_ok flags → ALIGN_UP size_ PAGE_SIZE / PAGE_SIZE ≤ 2 ^ 36 →
  let n := ALIGN_UP size_ PAGE_SIZE / PAGE_SIZE in
  ∃ rc s' T', vmm_alloc_range (r * PAGE_SIZE) virt size_ flags s = Some (rc, s') ∧ pt_wf T' s'
    ∧ (rc = 0 ∨ rc = -1 ∧ frames s' = ∅)
    ∧ (rc = 0 → frames s' ≠ ∅ → ∃ fs : list Z, Z.of_nat (length fs) = n ∧ NoDup fs
        ∧ (∀ f, f ∈ fs → f ∈ frames s ∧ (f ∉ frames s') ∧ T' !! f = None
                          ∧ ∀ b, in_frame f b → vm_mem s' b = 0)
        ∧ ∀ v, vmm_translate (r * PAGE_SIZE) v (vm_mem s')
             = let j := page_off (virt / PAGE_SIZE) v in
               if decide (j < n) then mapped_to (nth (Z.to_nat j) fs 0 * PAGE_SIZE) v
               else vmm_translate (r * PAGE_SIZE) v (vm_mem s)).
Proof.
  intros Hwf Hr Hfl Hn n. assert (0 ≤ n).
  { apply Z.div_pos; [|done]. unfold ALIGN_UP. apply Z.land_nonneg. left. apply u64_range. }
  destruct (alloc_range_loop_spec (Z.to_nat n) 0 T s r virt flags Hwf Hr Hfl)
    as (rc & s' & T' & E & Hext & Hrc & _ & _ & Hok); [lia|lia|].
  exists rc, s', T'. split_and!; [exact E|apply Hext|done|]. intros Hrc0 Hne.
  destruct (Hok Hrc0 Hne) as (fs & Hlen & Hnd & Hfs & Htr). exists fs.
  split_and!; [lia|done|done|]. intros v. rewrite Htr. cbv zeta.
  pose proof (page_off_range (virt / PAGE_SIZE) v). rewrite Z.sub_0_r.
  case_decide; case_decide; done || lia.
Qed.

(** Freed ranges.  If no page of the range maps a page table, then after
    [vmm_free_range] no page of it translates, other pages translate as before,
    the tables are well-formed, and the free frames are those of before and the
    frames the range mapped. *)
Theorem vmm_free_range_correct T s r virt size_ :
  let n := ALIGN_UP size_ PAGE_SIZE / PAGE_SIZE in
  let P := λ (s : vmm A) j, vmm_translate (r * PAGE_SIZE) (u64 (virt + j * PAGE_SIZE)) (vm_mem s) in
  pt_wf T s → is_root T r → n ≤ 2 ^ 36 →
  (∀ j, 0 ≤ j < n → P s j ≠ 0 → T !! (P s j / PAGE_SIZE) = None) →
  ∃ s', vmm_free_range (r * PAGE_SIZE) virt size_ s = Some s' ∧ pt_wf T s'
    ∧ (∀ j, 0 ≤ j < n → P s' j = 0)
    ∧ (∀ v, n ≤ page_off (virt / PAGE_SIZE) v →
        vmm_translate (r * PAGE_SIZE) v (vm_mem s') = vmm_translate (r * PAGE_SIZE) v (vm_mem s))
    ∧ ∀ f, f ∈ frames s' ↔ f ∈ frames s
        ∨ (0 < f < fa_bound ∧ ∃ j, 0 ≤ j < n ∧ P s j ≠ 0 ∧ P s j / PAGE_SIZE = f).
Proof.
  intros n P Hwf Hr Hn HP. assert (0 ≤ n).
  { apply Z.div_pos; [|done]. unfold ALIGN_UP. apply Z.land_nonneg. left. apply u64_range. }
  destruct (free_range_loop_spec (Z.to_nat n) 0 T s r virt Hwf Hr) as (s' & E & Hwf' & Hz & Ho & Hf);
    [lia|lia| |].
  { intros j Hj. apply HP. lia. }
  rewrite Z2Nat.id in * by lia. exists s'. split_and!; [exact E|done|exact Hz| |exact Hf].
  intros v Hv. apply Ho. lia.
Qed.

(** False success.  When exactly one frame is free and a table is missing
    on the path, [vmm_alloc_map] takes the frame, cannot create the table, and
    still answers the frame's non-zero address although nothing is mapped:
    [vmm_map] has no way to report the failure. *)
Theorem vmm_alloc_map_false_success T s r virt flags f :
  pt_wf T s → is_root T r → flags_ok flags → frames s = {[f]} →
  missing (vm_mem s) (r * PAGE_SIZE) (path virt) ≠ 0%nat →
  vmm_translate (r * PAGE_SIZE) virt (vm_mem s) = 0 →
  ∃ s', vmm_alloc_map (r * PAGE_SIZE) virt flags s = Some (f * PAGE_SIZE, s') ∧ f * PAGE_SIZE ≠ 0
    ∧ vmm_translate (r * PAGE_SIZE) virt (vm_mem s') = 0.
Proof.
  intros Hwf Hr Hfl Hfr Hm Hz.
  destruct (vmm_alloc_map_spec T s r virt flags Hwf Hr Hfl) as (x & s' & T' & E & _ & _ & _ & Hres).
  rewrite Hfr in Hres. destruct Hres as [(_ & Hemp)|(g & -> & Hnz & Hg & _ & _ & _ & Hmap)].
  { by apply non_empty_singleton_L in Hemp. }
  apply elem_of_singleton in Hg as ->. exists s'. split_and!; [done|done|].
  destruct Hmap as [[_ ->]|[Hlt _]]; [done|]. rewrite size_singleton in Hlt. lia.
Qed.
End properties.

(** ** Composition with the boot of the allocator *)

(** Boot order.  After [pmm_init] and [vmm_init] as [kmain] calls them, a
    frame at or above 2 MB that [pmm_alloc] hands out is at an address the new
    page tables do not map, although [pmm_alloc] clears it through that very
    address. *)
Theorem pmm_alloc_clears_unmapped_address (s : vmm pmm) :
  pmm_inv (vm_alloc s) → (70 < size (free_set (pmm_bitmap (vm_alloc s))))%nat →
  (∀ f, f ∈ free_set (pmm_bitmap (vm_alloc s)) → 512 ≤ f) →
  ∃ s', vmm_init s = Some (Running s')
    ∧ ∀ f, f ∈ free_set (pmm_bitmap (vm_alloc s')) → vmm_translate (vm_cr3 s') (f * PAGE_SIZE) (vm_mem s') = 0.
Proof.
  intros Hp Hsz Hlow. destruct (vmm_init_spec s) as (s' & f & T & E & Hwf & Hr & Hk & Hc & _ & _ & Hsub & Htr);
    [exact Hp|exact Hsz|].
  exists s'. split; [exact E|]. intros g Hg. rewrite Hc, Htr. apply init_translation_user.
  apply Hsub in Hg. apply Hlow in Hg as Hg'. apply elem_free_set in Hg as [Hgr _].
  unfold PAGE_SIZE, PMM_MAX_FRAMES in *. lia.
Qed.

(** ** Witnesses *)

Lemma user_rw_ok : flags_ok VMM_USER_RW.
Proof. unfold flags_ok. by vm_compute. Qed.

(** Two roots in zeroed memory. *)
Lemma two_roots_wf p :
  pmm_inv p → (∀ f, f ∈ free_set (pmm_bitmap p) → 2 < f) →
  pt_wf {[1 := (1, []); 2 := (2, [])]} (sample_vmm p).
Proof.
  intros Hp Hf. assert (∀ f o π, ({[1 := (1, []); 2 := (2, [])]} : gmap Z label) !! f = Some (o, π) →
    o = f ∧ (f = 1 ∨ f = 2)) as HT.
  { intros f o π [[<- ?]|[_ [<- ?]%lookup_singleton_Some]]%lookup_insert_Some; simplify_eq; auto. }
  split; [exact Hp| | |].
  - intros f o π [_ Hfr]%HT. split.
    + intros Hin. apply Hf in Hin. lia.
    + change fa_bound with PMM_MAX_FRAMES. unfold PMM_MAX_FRAMES. lia.
  - intros f o [? _]%HT. done.
  - intros f o π i _ _ _ E. unfold entry in E. by rewrite load64_zero in E.
Qed.

Lemma vmm_map_translate_witness :
  ∃ (p : pmm) s', vmm_map (1 * PAGE_SIZE) 0x400000 0x300000 VMM_USER_RW (sample_vmm p) = Some s'
    ∧ vmm_translate (1 * PAGE_SIZE) 0x400123 (vm_mem s') = 0x300123.
Proof.
  destruct sample_wf as (p & Hwf & Hsz & _).
  destruct (vmm_map_translate _ _ 1 0x400000 0x300000 VMM_USER_RW Hwf (lookup_singleton_eq _ _) user_rw_ok)
    as (s' & T' & E & _ & _ & _ & _ & _ & Htr).
  - pose proof (missing_length (vm_mem (sample_vmm p)) (1 * PAGE_SIZE) (path 0x400000)) as Hm.
    cbn [length path] in Hm. lia.
  - exists p, s'. split; [exact E|]. rewrite Htr, decide_True by reflexivity. reflexivity.
Defined.

Lemma vmm_map_isolation_witness :
  ∃ (p : pmm) s', vmm_map (1 * PAGE_SIZE) 0x400000 0x300000 VMM_USER_RW (sample_vmm p) = Some s'
    ∧ vmm_translate (2 * PAGE_SIZE) 0x400000 (vm_mem s')
      = vmm_translate (2 * PAGE_SIZE) 0x400000 (vm_mem (sample_vmm p)).
Proof.
  destruct sample_pmm as (p & Hp & Hf). exists p.
  pose proof (two_roots_wf p Hp ltac:(intros f ?%Hf; lia)) as Hwf.
  apply (vmm_map_isolation _ _ 1 0x400000 0x300000 VMM_USER_RW 2 0x400000 Hwf); done || by vm_compute.
Defined.

Lemma vmm_unmap_correct_witness :
  ∃ p : pmm, vmm_translate (1 * PAGE_SIZE) 0x400000 (vm_mem (vmm_unmap (1 * PAGE_SIZE) 0x400000 (sample_vmm p))) = 0.
Proof.
  destruct sample_wf as (p & Hwf & _). exists p.
  destruct (vmm_unmap_correct _ _ 1 0x400000 Hwf (lookup_singleton_eq _ _)) as (_ & _ & Htr & _).
  rewrite Htr. by rewrite decide_True.
Defined.

Lemma vmm_create_address_space_correct_witness :
  ∃ (p : pmm) f s', vmm_create_address_space (sample_vmm p) = Some (f * PAGE_SIZE, s')
    ∧ vmm_translate (f * PAGE_SIZE) 0x400000 (vm_mem s') = 0.
Proof.
  destruct sample_wf as (p & Hwf & Hsz & _). exists p.
  destruct (vmm_create_address_space_correct _ _ 1 Hwf (lookup_singleton_eq _ _) eq_refl)
    as (f & s' & E & _ & _ & _ & Htr & _).
  - intros Hemp. rewrite Hemp, size_empty in Hsz. lia.
  - exists f, s'. split; [exact E|]. rewrite Htr. reflexivity.
Defined.

Lemma vmm_init_correct_witness :
  ∃ (p : pmm) s', vmm_init (sample_vmm p) = Some (Running s')
    ∧ vmm_translate (vm_cr3 s') 0x1234 (vm_mem s') = 0x1234
    ∧ vmm_translate (vm_cr3 s') (KERNEL_VIRT_BASE + 0x100000) (vm_mem s') = 0x100000.
Proof.
  destruct sample_wf as (p & Hwf & Hsz & _). exists p.
  destruct (vmm_init_correct (sample_vmm p)) as (s' & f & T & E & _ & _ & Hk & Hc & _ & _ & Hhigh & Hlow & _).
  - exact (wf_alloc _ _ Hwf).
  - lia.
  - exists s'. rewrite Hc. split; [exact E|]. split; [apply Hlow|apply Hhigh]; lia.
Defined.

Lemma vmm_alloc_range_correct_witness :
  ∃ (p : pmm) rc s', vmm_alloc_range (1 * PAGE_SIZE) 0x400000 0x2000 VMM_USER_RW (sample_vmm p) = Some (rc, s').
Proof.
  destruct sample_wf as (p & Hwf & _). exists p.
  destruct (vmm_alloc_range_correct _ _ 1 0x400000 0x2000 VMM_USER_RW Hwf (lookup_singleton_eq _ _) user_rw_ok)
    as (rc & s' & T' & E & _); [by vm_compute|]. exists rc, s'. exact E.
Defined.

Lemma vmm_free_range_correct_witness :
  ∃ (p : pmm) s', vmm_free_range (1 * PAGE_SIZE) 0x400000 0x2000 (sample_vmm p) = Some s'.
Proof.
  destruct sample_wf as (p & Hwf & _ & Hz). exists p.
  destruct (vmm_free_range_correct _ _ 1 0x400000 0x2000 Hwf (lookup_singleton_eq _ _))
    as (s' & E & _); [by vm_compute| |exists s'; exact E].
  intros j _ Hne. destruct Hne. apply Hz.
Defined.

Lemma vmm_alloc_map_false_success_witness :
  ∃ s', vmm_alloc_map (1 * PAGE_SIZE) 0x400000 VMM_USER_RW (sample_vmm (one_free 300))
        = Some (300 * PAGE_SIZE, s')
    ∧ vmm_translate (1 * PAGE_SIZE) 0x400000 (vm_mem s') = 0.
Proof.
  pose proof (one_free_inv 300 ltac:(done)) as Hp.
  destruct (zero_root_wf 1 (sample_vmm (one_free 300))) as [Hwf Hz]; [exact Hp| |done|done|].
  { unfold frames. cbn [sample_vmm vm_alloc fa_frames pmm_frame_allocator].
    rewrite one_free_set_300, elem_of_singleton. lia. }
  destruct (vmm_alloc_map_false_success _ _ 1 0x400000 VMM_USER_RW 300 Hwf (lookup_singleton_eq _ _) user_rw_ok)
    as (s' & E & _ & Htr); [exact one_free_set_300| |apply Hz|exists s'; split; [exact E|exact Htr]].
  destruct (walk_zero (vm_mem (sample_vmm (one_free 300))) (1 * PAGE_SIZE) (path 0x400000)) as [_ Hm].
  - intros j Hj. by apply load64_zero.
  - apply path_idx.
  - rewrite Hm. cbn [length path]. lia.
Defined.

Lemma pmm_alloc_clears_unmapped_address_witness :
  ∃ (p : pmm) s', vmm_init (sample_vmm p) = Some (Running s').
Proof.
  destruct sample_pmm as (p & Hp & Hf). exists p.
  destruct (pmm_alloc_clears_unmapped_address (sample_vmm p)) as (s' & E & _).
  - exact Hp.
  - change (70 < size (free_set (pmm_bitmap p)))%nat.
    assert (size (list_to_set (seqZ 512 71) : gset Z) ≤ size (free_set (pmm_bitmap p)))%nat as Hs.
    { apply subseteq_size. intros f. rewrite elem_of_list_to_set, elem_of_seqZ. intros H. apply Hf. lia. }
    rewrite size_list_to_set, length_seqZ in Hs by apply NoDup_seqZ. lia.
  - intros f Hin. apply Hf in Hin. lia.
  - exists s'. exact E.
Defined.
