(* ===== verification/Heap.v ===== *)
(** Model of kernel/mm/heap.c: the kernel heap.  Small requests go to slab pages
    of one size class, larger ones to spans of whole pages kept on a free list.

    The structures the allocator keeps at the start of its pages are objects of
    a store, keyed by their virtual address; user data is byte memory.  A page
    header is reached through the page tables: reading or writing one at an
    address the kernel address space does not map faults ([None]), as does
    reading a header where the allocator never wrote one. *)
From stdpp Require Import prelude gmap.
From S2P Require Import Prelude CString FrameAlloc Vmm.

(** ** Data *)

Definition HEAP_VIRT_BASE : Z := 0xFFFFFF8000000000.
Definition HEAP_MAX_SIZE : Z := 256 * 1024 * 1024.
Definition SLAB_MIN_ORDER : Z := 4.
Definition SLAB_MAX_ORDER : Z := 11.
Definition SLAB_CLASSES : Z := SLAB_MAX_ORDER - SLAB_MIN_ORDER + 1.
Definition LARGE_THRESHOLD : Z := 2048.
Definition HEAP_MAGIC_FREE : Z := 0xDEADC0DEDEADC0DE.
Definition HEAP_MAGIC_ALLOC : Z := 0xA110CA11A110CA11.
Definition SLAB_PAGE_MAGIC : Z := 0x5AB000005AB00000.

Record large_hdr := {
  lh_magic : Z;
  lh_size : Z;
  lh_next : Z;
  lh_prev : Z;
}.
Definition LARGE_HDR_SIZE : Z := 32.

(** The bitmap that follows the header is kept with it. *)
Record slab_page := {
  sp_magic : Z;
  sp_order : Z;
  sp_obj_size : Z;
  sp_capacity : Z;
  sp_free_count : Z;
  sp_first_free : Z;
  sp_next : Z;
  sp_bitmap : Z → Z;
}.
(** [ALIGN_UP(sizeof(slab_page_t), 8)]: 8 + 1 (+1) + 4 * 2 (+6) + 8 bytes. *)
Definition SLAB_HDR_SIZE : Z := 32.

Inductive hobj := OSlab (sp : slab_page) | OLarge (lh : large_hdr).

Record heap (A : Type) := {
  hp_vm : vmm A;
  hp_objs : gmap Z hobj;
  hp_mem : mem;
  slab_classes : Z → Z;
  large_free_list : Z;
  heap_cursor : Z;
  heap_limit : Z;
}.
Arguments hp_vm {A} _.
Arguments hp_objs {A} _.
Arguments hp_mem {A} _.
Arguments slab_classes {A} _.
Arguments large_free_list {A} _.
Arguments heap_cursor {A} _.
Arguments heap_limit {A} _.

Section heap_ops.
Context {A : Type} `{FrameOps A}.
Implicit Types (h : heap A).

Definition set_objs (h : heap A) (o : gmap Z hobj) : heap A :=
  {| hp_vm := hp_vm h; hp_objs := o; hp_mem := hp_mem h; slab_classes := slab_classes h;
     large_free_list := large_free_list h; heap_cursor := heap_cursor h; heap_limit := heap_limit h |}.
Definition set_hmem (h : heap A) (m : mem) : heap A :=
  {| hp_vm := hp_vm h; hp_objs := hp_objs h; hp_mem := m; slab_classes := slab_classes h;
     large_free_list := large_free_list h; heap_cursor := heap_cursor h; heap_limit := heap_limit h |}.
Definition set_class (h : heap A) (c sp : Z) : heap A :=
  {| hp_vm := hp_vm h; hp_objs := hp_objs h; hp_mem := hp_mem h; slab_classes := upd (slab_classes h) c sp;
     large_free_list := large_free_list h; heap_cursor := heap_cursor h; heap_limit := heap_limit h |}.
Definition set_free_list (h : heap A) (p : Z) : heap A :=
  {| hp_vm := hp_vm h; hp_objs := hp_objs h; hp_mem := hp_mem h; slab_classes := slab_classes h;
     large_free_list := p; heap_cursor := heap_cursor h; heap_limit := heap_limit h |}.
Definition set_vm (h : heap A) (v : vmm A) (m : mem) : heap A :=
  {| hp_vm := v; hp_objs := hp_objs h; hp_mem := m; slab_classes := slab_classes h;
     large_free_list := large_free_list h; heap_cursor := heap_cursor h; heap_limit := heap_limit h |}.
Definition set_cursor (h : heap A) (c : Z) : heap A :=
  {| hp_vm := hp_vm h; hp_objs := hp_objs h; hp_mem := hp_mem h; slab_classes := slab_classes h;
     large_free_list := large_free_list h; heap_cursor := c; heap_limit := c |}.

(** *** Access to page headers *)

Definition page_mapped (h : heap A) (a : Z) : bool :=
  negb (vmm_translate (kernel_pml4 (hp_vm h)) a (vm_mem (hp_vm h)) =? 0).

Definition get_obj (h : heap A) (a : Z) : option hobj :=
  if page_mapped h a then hp_objs h !! a else None.
Definition put_obj (h : heap A) (a : Z) (o : hobj) : option (heap A) :=
  if page_mapped h a then Some (set_objs h (<[a := o]> (hp_objs h))) else None.

Definition get_large (h : heap A) (a : Z) : option large_hdr :=
  o ← get_obj h a; match o with OLarge lh => Some lh | OSlab _ => None end.
Definition get_slab (h : heap A) (a : Z) : option slab_page :=
  o ← get_obj h a; match o with OSlab sp => Some sp | OLarge _ => None end.
(** Both structures start with their magic number. *)
Definition get_magic (h : heap A) (a : Z) : option Z :=
  o ← get_obj h a; Some (match o with OSlab sp => sp_magic sp | OLarge lh => lh_magic lh end).

(** *** Growing the heap *)

(** The loop of [heap_map_pages]: [n] pages left from page [i] on; [false] when
    the frames run out.  A page that was just mapped reads as the zeroed frame. *)
Fixpoint heap_map_loop (n : nat) (i : Z) (h : heap A) : option (bool * heap A) :=
  match n with
  | O => Some (true, h)
  | S n' =>
      '(phys, v1) ← pmm_alloc_vm (hp_vm h);
      if phys =? 0 then Some (false, set_vm h v1 (hp_mem h))
      else
        let va := u64 (heap_cursor h + i * PAGE_SIZE) in
        v2 ← vmm_map_kernel va phys (Z.lor VMM_KERNEL_RW VMM_NO_EXEC) v1;
        heap_map_loop n' (i + 1) (set_vm h v2 (memset va 0 PAGE_SIZE (hp_mem h)))
  end.

Definition heap_map_pages (count : Z) (h : heap A) : option (Z * heap A) :=
  let bytes := u64 (count * PAGE_SIZE) in
  if HEAP_VIRT_BASE + HEAP_MAX_SIZE <? u64 (heap_cursor h + bytes) then Some (0, h)
  else
    '(ok, h1) ← heap_map_loop (Z.to_nat count) 0 h;
    if (ok : bool) then Some (heap_cursor h1, set_cursor h1 (u64 (heap_cursor h1 + bytes)))
    else Some (0, h1).

(** *** Slabs *)

Definition slab_bitmap_words (sp : slab_page) : Z := u16 ((sp_capacity sp + 63) / 64).

Definition slab_data_off (sp : slab_page) : Z :=
  u32 (ALIGN_UP (SLAB_HDR_SIZE + u16 (slab_bitmap_words sp * 8)) (sp_obj_size sp)).

Definition slab_object (a : Z) (sp : slab_page) (idx : Z) : Z :=
  a + slab_data_off sp + u32 (idx * sp_obj_size sp).

(** [for (;;) { ...; if (fits) break; cap--; }] *)
Fixpoint slab_cap_loop (fuel : nat) (obj_size cap : Z) : option Z :=
  match fuel with
  | O => None
  | S f =>
      let bmap_bytes := u16 ((cap + 63) / 64 * 8) in
      let data_off := u32 (ALIGN_UP (SLAB_HDR_SIZE + bmap_bytes) obj_size) in
      if u32 (data_off + cap * obj_size) <=? PAGE_SIZE then Some cap
      else slab_cap_loop f obj_size (u16 (cap - 1))
  end.

Definition slab_new_page (order : Z) (h : heap A) : option (Z * heap A) :=
  '(sp, h1) ← heap_map_pages 1 h;
  if sp =? 0 then Some (0, h1)
  else
    let obj_size := u16 (Z.shiftl 1 order) in
    let cap_est := u16 ((PAGE_SIZE - SLAB_HDR_SIZE) / obj_size) in
    cap ← slab_cap_loop (Z.to_nat (cap_est + 1)) obj_size cap_est;
    h2 ← put_obj h1 sp (OSlab
      {| sp_magic := SLAB_PAGE_MAGIC; sp_order := order; sp_obj_size := obj_size;
         sp_capacity := cap; sp_free_count := cap; sp_first_free := 0; sp_next := 0;
         sp_bitmap := λ _, 0 |});
    Some (sp, h2).

(** [while (sp && sp->free_count == 0) sp = sp->next;] *)
Fixpoint slab_find (fuel : nat) (sp : Z) (h : heap A) : option Z :=
  match fuel with
  | O => None
  | S f =>
      if sp =? 0 then Some 0
      else
        p ← get_slab h sp;
        if sp_free_count p =? 0 then slab_find f (sp_next p) h else Some sp
  end.

Definition sp_take (p : slab_page) (w bit idx : Z) : slab_page :=
  {| sp_magic := sp_magic p; sp_order := sp_order p; sp_obj_size := sp_obj_size p;
     sp_capacity := sp_capacity p; sp_free_count := u16 (sp_free_count p - 1);
     sp_first_free := idx; sp_next := sp_next p;
     sp_bitmap := upd (sp_bitmap p) w (Z.lor (sp_bitmap p w) (Z.shiftl 1 bit)) |}.

(** The search of [slab_alloc] for a free slot, [n] words left from [w] on:
    the slot and the page with the slot taken. *)
Fixpoint slab_slot (n : nat) (wi w : Z) (p : slab_page) : option (Z * slab_page) :=
  match n with
  | O => None
  | S n' =>
      let actual_w := (wi + w) mod slab_bitmap_words p in
      let free_mask := u64 (Z.lnot (sp_bitmap p actual_w)) in
      if free_mask =? 0 then slab_slot n' wi (w + 1) p
      else
        let bit := ctzll free_mask in
        let idx := u16 (actual_w * 64 + bit) in
        if sp_capacity p <=? idx then slab_slot n' wi (w + 1) p
        else Some (idx, sp_take p actual_w bit idx)
  end.

(** The page a request of this class is served from: a page of the class with a
    free slot, or a new one put at the head of the list. *)
Definition slab_pick (order : Z) (h : heap A) : option (Z * heap A) :=
  let cls := order - SLAB_MIN_ORDER in
  head ← aget SLAB_CLASSES (slab_classes h) cls;
  sp ← slab_find (S (size (hp_objs h))) head h;
  if sp =? 0 then
    '(sp, h1) ← slab_new_page order h;
    if sp =? 0 then Some (0, h1)
    else
      p ← get_slab h1 sp;
      h2 ← put_obj h1 sp (OSlab
        {| sp_magic := sp_magic p; sp_order := sp_order p; sp_obj_size := sp_obj_size p;
           sp_capacity := sp_capacity p; sp_free_count := sp_free_count p;
           sp_first_free := sp_first_free p; sp_next := slab_classes h1 cls;
           sp_bitmap := sp_bitmap p |});
      Some (sp, set_class h2 cls sp)
  else Some (sp, h).

Definition slab_alloc (order : Z) (h : heap A) : option (Z * heap A) :=
  '(sp, h1) ← slab_pick order h;
  if sp =? 0 then Some (0, h1)
  else
    p ← get_slab h1 sp;
    match slab_slot (Z.to_nat (slab_bitmap_words p)) (sp_first_free p / 64) 0 p with
    | None => Some (0, h1)
    | Some (idx, p') =>
        h2 ← put_obj h1 sp (OSlab p');
        Some (slab_object sp p' idx, h2)
    end.

Definition sp_release (p : slab_page) (idx : Z) : slab_page :=
  {| sp_magic := sp_magic p; sp_order := sp_order p; sp_obj_size := sp_obj_size p;
     sp_capacity := sp_capacity p; sp_free_count := u16 (sp_free_count p + 1);
     sp_first_free := if idx <? sp_first_free p then idx else sp_first_free p; sp_next := sp_next p;
     sp_bitmap := upd (sp_bitmap p) (idx / 64)
       (Z.land (sp_bitmap p (idx / 64)) (u64 (Z.lnot (Z.shiftl 1 (idx mod 64))))) |}.

(** [true] if the pointer was in a slab. *)
Definition slab_free (ptr : Z) (h : heap A) : option (bool * heap A) :=
  let sp := ALIGN_DOWN ptr PAGE_SIZE in
  magic ← get_magic h sp;
  if negb (magic =? SLAB_PAGE_MAGIC) then Some (false, h)
  else
    p ← get_slab h sp;
    let objects := sp + slab_data_off p in
    if ptr <? objects then Some (false, h)
    else
      let byte_off := ptr - objects in
      if negb (byte_off mod sp_obj_size p =? 0) then Some (false, h)
      else
        let idx := u16 (byte_off / sp_obj_size p) in
        if sp_capacity p <=? idx then Some (false, h)
        else if Z.land (sp_bitmap p (idx / 64)) (Z.shiftl 1 (idx mod 64)) =? 0 then Some (true, h)
        else h1 ← put_obj h sp (OSlab (sp_release p idx)); Some (true, h1).

(** *** Large blocks *)

Definition put_large (h : heap A) (a : Z) (lh : large_hdr) : option (heap A) := put_obj h a (OLarge lh).

Definition lh_set_prev (lh : large_hdr) (p : Z) : large_hdr :=
  {| lh_magic := lh_magic lh; lh_size := lh_size lh; lh_next := lh_next lh; lh_prev := p |}.
Definition lh_set_next (lh : large_hdr) (p : Z) : large_hdr :=
  {| lh_magic := lh_magic lh; lh_size := lh_size lh; lh_next := p; lh_prev := lh_prev lh |}.
Definition lh_set_size (lh : large_hdr) (n : Z) : large_hdr :=
  {| lh_magic := lh_magic lh; lh_size := n; lh_next := lh_next lh; lh_prev := lh_prev lh |}.

Definition large_insert_free (hdr : Z) (h : heap A) : option (heap A) :=
  lh ← get_large h hdr;
  h1 ← put_large h hdr {| lh_magic := HEAP_MAGIC_FREE; lh_size := lh_size lh;
                          lh_next := large_free_list h; lh_prev := 0 |};
  h2 ← (if large_free_list h1 =? 0 then Some h1
        else
          f ← get_large h1 (large_free_list h1);
          put_large h1 (large_free_list h1) (lh_set_prev f hdr));
  Some (set_free_list h2 hdr).

Definition large_remove_free (hdr : Z) (h : heap A) : option (heap A) :=
  lh ← get_large h hdr;
  h1 ← (if lh_prev lh =? 0 then Some (set_free_list h (lh_next lh))
        else
          p ← get_large h (lh_prev lh);
          put_large h (lh_prev lh) (lh_set_next p (lh_next lh)));
  h2 ← (if lh_next lh =? 0 then Some h1
        else
          n ← get_large h1 (lh_next lh);
          put_large h1 (lh_next lh) (lh_set_prev n (lh_prev lh)));
  lh2 ← get_large h2 hdr;
  put_large h2 hdr (lh_set_prev (lh_set_next lh2 0) 0).

(** The best-fit search; [best] is 0 before a block was found. *)
Fixpoint large_best (fuel : nat) (p best total : Z) (h : heap A) : option Z :=
  match fuel with
  | O => None
  | S f =>
      if p =? 0 then Some best
      else
        lh ← get_large h p;
        best' ← (if total <=? lh_size lh then
                   if best =? 0 then Some p
                   else b ← get_large h best; Some (if lh_size lh <? lh_size b then p else best)
                 else Some best);
        large_best f (lh_next lh) best' total h
  end.

(** Splitting and marking a block: the end of [large_alloc]. *)
Definition large_take (best total : Z) (h : heap A) : option (Z * heap A) :=
  b ← get_large h best;
  h1 ← (if u64 (u64 (total + PAGE_SIZE) + LARGE_HDR_SIZE) <=? lh_size b then
          let rem := best + total in
          ha ← put_large h rem {| lh_magic := 0; lh_size := u64 (lh_size b - total); lh_next := 0; lh_prev := 0 |};
          hb ← put_large ha best (lh_set_size b total);
          large_insert_free rem hb
        else Some h);
  b1 ← get_large h1 best;
  h2 ← put_large h1 best {| lh_magic := HEAP_MAGIC_ALLOC; lh_size := lh_size b1; lh_next := 0; lh_prev := 0 |};
  Some (best + LARGE_HDR_SIZE, h2).

Definition large_alloc (size_ : Z) (h : heap A) : option (Z * heap A) :=
  let total := ALIGN_UP (u64 (size_ + LARGE_HDR_SIZE)) PAGE_SIZE in
  best ← large_best (S (size (hp_objs h))) (large_free_list h) 0 total h;
  if best =? 0 then
    let pages := total / PAGE_SIZE in
    '(b, h1) ← heap_map_pages pages h;
    if b =? 0 then Some (0, h1)
    else
      h2 ← put_large h1 b {| lh_magic := HEAP_MAGIC_FREE; lh_size := u64 (pages * PAGE_SIZE);
                             lh_next := 0; lh_prev := 0 |};
      large_take b total h2
  else
    h1 ← large_remove_free best h;
    large_take best total h1.

Definition large_free (ptr : Z) (h : heap A) : option (heap A) :=
  let hdr := u64 (ptr - LARGE_HDR_SIZE) in
  lh ← get_large h hdr;
  if lh_magic lh =? HEAP_MAGIC_FREE then Some h
  else if negb (lh_magic lh =? HEAP_MAGIC_ALLOC) then Some h
  else large_insert_free hdr h.

(** *** Public interface *)

Definition heap_init (h : heap A) : option (heap A) :=
  let h0 := {| hp_vm := hp_vm h; hp_objs := hp_objs h; hp_mem := hp_mem h; slab_classes := λ _, 0;
               large_free_list := 0; heap_cursor := HEAP_VIRT_BASE; heap_limit := HEAP_VIRT_BASE |} in
  '(_, h1) ← heap_map_pages 4 h0;
  h2 ← put_large h1 HEAP_VIRT_BASE {| lh_magic := HEAP_MAGIC_FREE; lh_size := 4 * PAGE_SIZE;
                                      lh_next := 0; lh_prev := 0 |};
  Some (set_free_list h2 HEAP_VIRT_BASE).

(** [while ((1u << order) < size && order <= SLAB_MAX_ORDER) order++;] *)
Fixpoint slab_order (fuel : nat) (order size_ : Z) : Z :=
  match fuel with
  | O => order
  | S f =>
      if (Z.shiftl 1 order <? size_) && (order <=? SLAB_MAX_ORDER) then slab_order f (order + 1) size_
      else order
  end.

Definition kmalloc (size_ : Z) (h : heap A) : option (Z * heap A) :=
  if size_ =? 0 then Some (0, h)
  else if size_ <=? LARGE_THRESHOLD then
    let order := slab_order (Z.to_nat (SLAB_CLASSES + 1)) SLAB_MIN_ORDER size_ in
    if order <=? SLAB_MAX_ORDER then slab_alloc order h else large_alloc size_ h
  else large_alloc size_ h.

Definition kzalloc (size_ : Z) (h : heap A) : option (Z * heap A) :=
  '(p, h1) ← kmalloc size_ h;
  Some (p, if p =? 0 then h1 else set_hmem h1 (memset p 0 size_ (hp_mem h1))).

Definition kfree (ptr : Z) (h : heap A) : option (heap A) :=
  if ptr =? 0 then Some h
  else
    '(done, h1) ← slab_free ptr h;
    if (done : bool) then Some h1 else large_free ptr h1.

Definition krealloc (ptr new_size : Z) (h : heap A) : option (Z * heap A) :=
  if ptr =? 0 then kmalloc new_size h
  else if new_size =? 0 then h1 ← kfree ptr h; Some (0, h1)
  else
    let sp := ALIGN_DOWN ptr PAGE_SIZE in
    magic ← get_magic h sp;
    old_size ← (if magic =? SLAB_PAGE_MAGIC then p ← get_slab h sp; Some (sp_obj_size p)
                else lh ← get_large h (u64 (ptr - LARGE_HDR_SIZE)); Some (u64 (lh_size lh - LARGE_HDR_SIZE)));
    if new_size <=? old_size then Some (ptr, h)
    else
      '(new_ptr, h1) ← kmalloc new_size h;
      if new_ptr =? 0 then Some (0, h1)
      else
        h2 ← kfree ptr (set_hmem h1 (memcpy new_ptr ptr old_size (hp_mem h1)));
        Some (new_ptr, h2).
End heap_ops.
