(* ===== verification/HeapSlab.v ===== *)
(** Slab pages of kernel/mm/heap.c on their own: the layout of each size class,
    the search for a free slot and the two updates of a page. *)
From stdpp Require Import prelude gmap.
From S2P Require Import Prelude CString FrameAlloc Bitmap Vmm Heap.

(** ** Layout *)

(** The capacity [slab_new_page] computes for a class. *)
Definition slab_cap (order : Z) : Z :=
  let obj_size := u16 (Z.shiftl 1 order) in
  let cap_est := u16 ((PAGE_SIZE - SLAB_HDR_SIZE) / obj_size) in
  default 0 (slab_cap_loop (Z.to_nat (cap_est + 1)) obj_size cap_est).

Lemma order_cases order :
  SLAB_MIN_ORDER ≤ order ≤ SLAB_MAX_ORDER → order ∈ [4; 5; 6; 7; 8; 9; 10; 11].
Proof. unfold SLAB_MIN_ORDER, SLAB_MAX_ORDER. intros H. rewrite !elem_of_cons. lia. Qed.

(** What the layout of a class must satisfy: the capacity loop ends, the slots
    lie after the header and the bitmap, inside the page, 16-byte aligned. *)
Definition layout_ok (order : Z) : bool :=
  let obj_size := u16 (Z.shiftl 1 order) in
  let cap_est := u16 ((PAGE_SIZE - SLAB_HDR_SIZE) / obj_size) in
  let cap := slab_cap order in
  let words := (cap + 63) / 64 in
  let off := u32 (ALIGN_UP (SLAB_HDR_SIZE + u16 (u16 words * 8)) obj_size) in
  bool_decide (slab_cap_loop (Z.to_nat (cap_est + 1)) obj_size cap_est = Some cap)
  && (obj_size =? 2 ^ order) && (0 <? cap) && (cap <=? 252) && (u16 words =? words)
  && (SLAB_HDR_SIZE + words * 8 <=? off) && (off mod 16 =? 0) && (2 ^ order mod 16 =? 0)
  && (off + cap * 2 ^ order <=? PAGE_SIZE).

Lemma layouts_ok : forallb layout_ok [4; 5; 6; 7; 8; 9; 10; 11] = true.
Proof. by vm_compute. Qed.

Record slab_wf (p : slab_page) : Prop := {
  sw_magic : sp_magic p = SLAB_PAGE_MAGIC;
  sw_order : SLAB_MIN_ORDER ≤ sp_order p ≤ SLAB_MAX_ORDER;
  sw_size : sp_obj_size p = 2 ^ sp_order p;
  sw_cap : sp_capacity p = slab_cap (sp_order p);
  sw_words : ∀ i, 0 ≤ sp_bitmap p i < 2 ^ 64;
  sw_count : sp_free_count p = countb (is_free (sp_bitmap p)) (seqZ 0 (sp_capacity p));
  sw_hint : 0 ≤ sp_first_free p < sp_capacity p;
}.

Record slab_geometry (p : slab_page) : Prop := {
  sg_cap : 0 < sp_capacity p ≤ 252;
  sg_size : 16 ≤ sp_obj_size p ≤ 2048;
  sg_words : slab_bitmap_words p = (sp_capacity p + 63) / 64;
  sg_off : SLAB_HDR_SIZE ≤ slab_data_off p;
  sg_fit : slab_data_off p + sp_capacity p * sp_obj_size p ≤ PAGE_SIZE;
  sg_align : slab_data_off p mod 16 = 0 ∧ sp_obj_size p mod 16 = 0;
}.

Lemma slab_layout order :
  SLAB_MIN_ORDER ≤ order ≤ SLAB_MAX_ORDER → layout_ok order = true.
Proof.
  intros Ho. pose proof layouts_ok as H. rewrite forallb_forall in H. apply H.
  apply list_elem_of_In, order_cases, Ho.
Qed.

Lemma slab_wf_geometry p : slab_wf p → slab_geometry p.
Proof.
  intros Hp. pose proof (slab_layout _ (sw_order _ Hp)) as H. unfold layout_ok in H.
  repeat (apply andb_true_iff in H as [H ?]). apply Z.leb_le in H0, H3, H5. apply Z.ltb_lt in H6.
  apply Z.eqb_eq in H1, H2, H4, H7.
  pose proof (sw_size _ Hp) as Hs. pose proof (sw_cap _ Hp) as Hc. pose proof (sw_order _ Hp) as Ho.
  assert (slab_bitmap_words p = (sp_capacity p + 63) / 64) as Hw by (unfold slab_bitmap_words; by rewrite Hc, H4).
  assert (slab_data_off p = u32 (ALIGN_UP (SLAB_HDR_SIZE + u16 (u16 ((slab_cap (sp_order p) + 63) / 64) * 8))
    (u16 (Z.shiftl 1 (sp_order p))))) as Hoff.
  { unfold slab_data_off. rewrite H7, <-Hs. do 3 f_equal. unfold slab_bitmap_words. by rewrite Hc. }
  rewrite <-Hoff in *. split; rewrite ?Hc, ?Hs.
  - lia.
  - unfold SLAB_MIN_ORDER, SLAB_MAX_ORDER in Ho. change 16 with (2 ^ 4). change 2048 with (2 ^ 11).
    split; apply Z.pow_le_mono_r; lia.
  - by rewrite <-Hc.
  - assert (0 ≤ (slab_cap (sp_order p) + 63) / 64) by (apply Z.div_pos; lia). lia.
  - done.
  - done.
Qed.

Lemma slab_cap_loop_ok order :
  SLAB_MIN_ORDER ≤ order ≤ SLAB_MAX_ORDER →
  let cap_est := u16 ((PAGE_SIZE - SLAB_HDR_SIZE) / u16 (Z.shiftl 1 order)) in
  slab_cap_loop (Z.to_nat (cap_est + 1)) (u16 (Z.shiftl 1 order)) cap_est = Some (slab_cap order)
  ∧ u16 (Z.shiftl 1 order) = 2 ^ order ∧ 0 < slab_cap order.
Proof.
  intros Ho. pose proof (slab_layout _ Ho) as H. unfold layout_ok in H.
  repeat (apply andb_true_iff in H as [H ?]). apply bool_decide_eq_true in H.
  apply Z.eqb_eq in H7. apply Z.ltb_lt in H6. done.
Qed.

(** ** Searching a slot *)

Lemma slab_slot_spec n wi w p :
  slab_wf p → 0 ≤ wi < slab_bitmap_words p → 0 ≤ w → w + Z.of_nat n = slab_bitmap_words p →
  (∀ j i, 0 ≤ j < w → i / 64 = (wi + j) mod slab_bitmap_words p → i < sp_capacity p →
    is_free (sp_bitmap p) i = false) →
  0 < sp_free_count p →
  ∃ idx, slab_slot n wi w p = Some (idx, sp_take p (idx / 64) (idx mod 64) idx)
    ∧ 0 ≤ idx < sp_capacity p ∧ is_free (sp_bitmap p) idx = true.
Proof.
  intros Hp Hwi. pose proof (slab_wf_geometry p Hp) as Hg. revert w.
  set (W := slab_bitmap_words p) in *.
  induction n as [|n IH]; intros w Hw Hn Hfull Hfc; cbn [slab_slot].
  - exfalso. rewrite (sw_count _ Hp) in Hfc. apply countb_pos in Hfc as (i & Hi & Hfree).
    apply elem_of_seqZ in Hi. rewrite (Hfull ((i / 64 - wi) mod W) i) in Hfree; [done| | |lia].
    + replace w with W by lia. apply Z.mod_pos_bound. lia.
    + rewrite Z.add_mod_idemp_r by lia. replace (wi + (i / 64 - wi)) with (i / 64) by lia.
      symmetry. apply Z.mod_small. unfold W. rewrite (sg_words _ Hg).
      split; [apply Z.div_pos; lia|]. Z.to_euclidean_division_equations; lia.
  - fold W. set (aw := (wi + w) mod W). set (word := sp_bitmap p aw).
    assert (0 ≤ aw < W) as Haw by (apply Z.mod_pos_bound; lia).
    pose proof (sw_words _ Hp aw) as Hword. fold word in Hword.
    assert (aw < 4) as Haw4.
    { pose proof (sg_words _ Hg) as Hgw. fold W in Hgw. pose proof (sg_cap _ Hg).
      Z.to_euclidean_division_equations; lia. }
    assert (∀ f : bool, (∀ i, i / 64 = aw → i < sp_capacity p → is_free (sp_bitmap p) i = false) →
      ∃ idx, slab_slot n wi (w + 1) p = Some (idx, sp_take p (idx / 64) (idx mod 64) idx)
        ∧ 0 ≤ idx < sp_capacity p ∧ is_free (sp_bitmap p) idx = true) as Hnext.
    { intros _ Hi. apply IH; [lia|lia| |done]. intros j i Hj Hij.
      destruct (Z.eq_dec j w) as [->|]; [by apply Hi|]. apply (Hfull j); [lia|done]. }
    assert (u64 (Z.lnot word) = 2 ^ 64 - 1 - word) as E.
    { unfold u64. rewrite <-(Z.mod_add _ 1) by lia. rewrite Z.mod_small; unfold Z.lnot; lia. }
    destruct (Z.eqb_spec (u64 (Z.lnot word)) 0) as [Ez|Enz].
    { apply (Hnext true). intros i Hi _. unfold is_free. rewrite Hi. fold word.
      assert (word = Z.ones 64) as -> by (change (Z.ones 64) with (2 ^ 64 - 1); lia).
      rewrite Z.ones_spec_low; [done|]. apply Z.mod_pos_bound. lia. }
    assert (word ≠ 2 ^ 64 - 1) as Hne by lia.
    destruct (free_bit word Hword Hne) as [Hb Hbit]. set (bit := ctzll (u64 (Z.lnot word))) in *.
    assert (u16 (aw * 64 + bit) = aw * 64 + bit) as -> by (apply u16_small; lia).
    destruct (Z.leb_spec (sp_capacity p) (aw * 64 + bit)) as [Hle|Hlt].
    + apply (Hnext true). intros i Hi Hcap. unfold is_free. rewrite Hi. fold word.
      rewrite (free_bit_lowest word (i mod 64) Hword Hne); [done|]. fold bit.
      pose proof (Z.div_mod i 64 ltac:(lia)). pose proof (Z.mod_pos_bound i 64 eq_refl). lia.
    + exists (aw * 64 + bit).
      replace ((aw * 64 + bit) / 64) with aw by (Z.to_euclidean_division_equations; lia).
      replace ((aw * 64 + bit) mod 64) with bit by (Z.to_euclidean_division_equations; lia).
      split_and!; [done|lia|done|]. rewrite is_free_frame by done. fold word. by rewrite Hbit.
Qed.

(** ** Taking and releasing a slot *)

Lemma countb_bound {B} (P : B → bool) l : countb P l ≤ Z.of_nat (length l).
Proof. induction l as [|x l IH]; simpl; [lia|]. destruct (P x); lia. Qed.

Lemma slab_count_range p : slab_wf p → 0 ≤ sp_free_count p ≤ sp_capacity p.
Proof.
  intros Hp. rewrite (sw_count _ Hp). pose proof (countb_nonneg (is_free (sp_bitmap p)) (seqZ 0 (sp_capacity p))).
  pose proof (countb_bound (is_free (sp_bitmap p)) (seqZ 0 (sp_capacity p))) as Hb.
  rewrite length_seqZ in Hb. pose proof (sg_cap _ (slab_wf_geometry p Hp)). lia.
Qed.

Lemma sp_take_free p idx g :
  0 ≤ g → is_free (sp_bitmap (sp_take p (idx / 64) (idx mod 64) idx)) g
          = if g =? idx then false else is_free (sp_bitmap p) g.
Proof. intros Hg. by apply set_bit_free. Qed.

Lemma sp_take_wf p idx :
  slab_wf p → 0 ≤ idx < sp_capacity p → is_free (sp_bitmap p) idx = true →
  slab_wf (sp_take p (idx / 64) (idx mod 64) idx).
Proof.
  intros Hp Hi Hfree. pose proof (slab_count_range p Hp). pose proof (sg_cap _ (slab_wf_geometry p Hp)).
  pose proof (Z.mod_pos_bound idx 64 eq_refl).
  assert (countb (is_free (sp_bitmap p)) (seqZ 0 (sp_capacity p))
    = countb (is_free (sp_bitmap (sp_take p (idx / 64) (idx mod 64) idx))) (seqZ 0 (sp_capacity p)) + 1) as Hc.
  { apply (countb_drop _ _ _ idx); [apply NoDup_seqZ|apply elem_of_seqZ; lia|done| |].
    - rewrite sp_take_free by lia. by rewrite Z.eqb_refl.
    - intros y Hy Hne. apply elem_of_seqZ in Hy. rewrite sp_take_free by lia.
      by destruct (Z.eqb_spec y idx). }
  pose proof (countb_nonneg (is_free (sp_bitmap (sp_take p (idx / 64) (idx mod 64) idx))) (seqZ 0 (sp_capacity p))).
  pose proof (sw_count _ Hp) as Hcount.
  split; try apply Hp; [| |exact Hi].
  - intros i. cbn [sp_take sp_bitmap]. unfold upd. bool_cases; [|apply Hp].
    apply word_set_range; [apply Hp|lia].
  - change (sp_free_count (sp_take p (idx / 64) (idx mod 64) idx)) with (u16 (sp_free_count p - 1)).
    change (sp_capacity (sp_take p (idx / 64) (idx mod 64) idx)) with (sp_capacity p).
    rewrite u16_small; lia.
Qed.

Lemma sp_release_free p idx g :
  slab_wf p → 0 ≤ g → is_free (sp_bitmap (sp_release p idx)) g
                      = if g =? idx then true else is_free (sp_bitmap p) g.
Proof. intros Hp Hg. apply clear_bit_free; [done|apply Hp]. Qed.

Lemma sp_release_wf p idx :
  slab_wf p → 0 ≤ idx < sp_capacity p → is_free (sp_bitmap p) idx = false →
  slab_wf (sp_release p idx).
Proof.
  intros Hp Hi Hused. pose proof (sg_cap _ (slab_wf_geometry p Hp)). pose proof (slab_count_range p Hp).
  assert (countb (is_free (sp_bitmap (sp_release p idx))) (seqZ 0 (sp_capacity p))
    = countb (is_free (sp_bitmap p)) (seqZ 0 (sp_capacity p)) + 1) as Hc.
  { apply (countb_drop _ _ _ idx); [apply NoDup_seqZ|apply elem_of_seqZ; lia| |done|].
    - rewrite sp_release_free by (done || lia). by rewrite Z.eqb_refl.
    - intros y Hy Hne. apply elem_of_seqZ in Hy. rewrite sp_release_free by (done || lia).
      by destruct (Z.eqb_spec y idx). }
  pose proof (sw_count _ Hp) as Hcount.
  split; try apply Hp.
  - intros i. cbn [sp_release sp_bitmap]. unfold upd. bool_cases; [|apply Hp].
    apply word_and_range; [apply Hp|apply u64_range].
  - change (sp_free_count (sp_release p idx)) with (u16 (sp_free_count p + 1)).
    change (sp_capacity (sp_release p idx)) with (sp_capacity p).
    rewrite u16_small; lia.
  - cbn [sp_release sp_first_free sp_capacity]. pose proof (sw_hint _ Hp). bool_cases; lia.
Qed.

(** The page [slab_new_page] writes. *)
Lemma slab_fresh_wf order next :
  SLAB_MIN_ORDER ≤ order ≤ SLAB_MAX_ORDER →
  slab_wf {| sp_magic := SLAB_PAGE_MAGIC; sp_order := order; sp_obj_size := u16 (Z.shiftl 1 order);
             sp_capacity := slab_cap order; sp_free_count := slab_cap order; sp_first_free := 0;
             sp_next := next; sp_bitmap := λ _, 0 |}.
Proof.
  intros Ho. destruct (slab_cap_loop_ok order Ho) as (_ & Hs & Hcap).
  split; [done|done|exact Hs|done|done| |cbn; lia]. cbn [sp_free_count sp_capacity sp_bitmap].
  transitivity (Z.of_nat (length (seqZ 0 (slab_cap order)))); [rewrite length_seqZ; lia|].
  generalize (seqZ 0 (slab_cap order)). intros l. induction l as [|x l IH]; [done|].
  change (countb (is_free (λ _, 0)) (x :: l)) with ((if is_free (λ _, 0) x then 1 else 0) + countb (is_free (λ _, 0)) l).
  assert (is_free (λ _, 0) x = true) as -> by (unfold is_free; by rewrite Z.bits_0). rewrite <-IH. simpl length. lia.
Qed.
