(* ===== verification/HeapMap.v ===== *)
(** Growing the heap of kernel/mm/heap.c: [heap_map_pages] over the paging
    theorems.  The part of the heap invariant that concerns the address space
    is here; the part that concerns the heap's structures is in HeapInv. *)
From stdpp Require Import prelude gmap.
From S2P Require Import Prelude CString FrameAlloc Vmm VmmWf VmmSpec VmmRange Heap.

Definition HEAP_END : Z := HEAP_VIRT_BASE + HEAP_MAX_SIZE.

Section heap_map.
Context {A : Type} `{FrameAllocator A}.
Implicit Types (h : heap A).

(** The kernel's tables are well-formed and every address of the heap below the
    cursor is mapped. *)
Record heap_vm_ok (h : heap A) : Prop := {
  hv_tables : ∃ T k, pt_wf T (hp_vm h) ∧ is_root T k ∧ kernel_pml4 (hp_vm h) = k * PAGE_SIZE;
  hv_mapped : ∀ a, HEAP_VIRT_BASE ≤ a < heap_cursor h → page_mapped h a = true;
  hv_cursor : HEAP_VIRT_BASE ≤ heap_cursor h ≤ HEAP_END;
  hv_align : heap_cursor h mod PAGE_SIZE = 0;
}.

(** Enough frames for [n] pages and their tables, or none at all: between the
    two a page may be handed out that could not be mapped. *)
Definition frames_for (n : Z) (h : heap A) : Prop :=
  frames (hp_vm h) = ∅ ∨ 4 * n < Z.of_nat (size (frames (hp_vm h))).

(** [n] more pages do not fit: no frame is left, or the heap's range is used up. *)
Definition no_room (n : Z) (h : heap A) : Prop :=
  frames (hp_vm h) = ∅ ∨ HEAP_END < heap_cursor h + n * PAGE_SIZE.

(** What an allocation that may take [n] pages costs: it fails only without
    room, takes at most [n] pages of the range, and every page needs at most
    four frames. *)
Definition page_cost (n ptr : Z) (h h' : heap A) : Prop :=
  (ptr = 0 → no_room n h)
  ∧ Z.of_nat (size (frames (hp_vm h))) ≤ Z.of_nat (size (frames (hp_vm h'))) + 4 * n
  ∧ heap_cursor h' ≤ heap_cursor h + n * PAGE_SIZE.

Definition heap_flags : Z := Z.lor VMM_KERNEL_RW VMM_NO_EXEC.

Lemma heap_flags_ok : flags_ok heap_flags.
Proof. unfold flags_ok. by vm_compute. Qed.

Lemma get_or_create_regs table idx flags (s : vmm A) t s' :
  get_or_create table idx flags s = Some (t, s') → kernel_pml4 s' = kernel_pml4 s.
Proof.
  unfold get_or_create, pmm_alloc_vm. case_match; [|by intros [= <- <-]].
  destruct (fa_alloc _ _) as [[[? ?] ?]|]; cbn [mbind option_bind]; [|done].
  case_match; by intros [= <- <-].
Qed.

Lemma vmm_map_regs pml4 v phys flags (s s' : vmm A) :
  vmm_map pml4 v phys flags s = Some s' → kernel_pml4 s' = kernel_pml4 s.
Proof.
  unfold vmm_map.
  do 3 (destruct (get_or_create _ _ _ _) as [[? ?]|] eqn:?; cbn [mbind option_bind]; [|done];
        match goal with H : get_or_create _ _ _ _ = _ |- _ => apply get_or_create_regs in H as <- end;
        case_match; [by intros [= <-]|]).
  by intros [= <-].
Qed.

(** The loop of [heap_map_pages] is that of [vmm_alloc_range] on the kernel's
    address space; it also clears the pages in the heap's memory. *)
Lemma heap_map_loop_alloc n i h rc v :
  0 ≤ i → 0 ≤ heap_cursor h → heap_cursor h + (i + Z.of_nat n) * PAGE_SIZE < 2 ^ 64 →
  alloc_range_loop n i (kernel_pml4 (hp_vm h)) (heap_cursor h) heap_flags (hp_vm h) = Some (rc, v) →
  ∃ m, heap_map_loop n i h = Some (rc =? 0, set_vm h v m)
    ∧ (∀ a, ¬ heap_cursor h + i * PAGE_SIZE ≤ a < heap_cursor h + (i + Z.of_nat n) * PAGE_SIZE →
        m a = hp_mem h a)
    ∧ (rc = 0 → ∀ a, heap_cursor h + i * PAGE_SIZE ≤ a < heap_cursor h + (i + Z.of_nat n) * PAGE_SIZE → m a = 0).
Proof.
  revert i h. induction n as [|n IH]; intros i h Hi Hc Hw E; cbn [alloc_range_loop heap_map_loop] in *.
  { injection E as <- <-. exists (hp_mem h). split_and!; [by destruct h|done|lia]. }
  unfold vmm_alloc_map in E. destruct (pmm_alloc_vm (hp_vm h)) as [[phys v1]|] eqn:Ea; [|done].
  assert (kernel_pml4 v1 = kernel_pml4 (hp_vm h)) as Hk1.
  { revert Ea. unfold pmm_alloc_vm. destruct (fa_alloc _ _) as [[[? ?] ?]|]; [|done]. by intros [= <- <-]. }
  cbn [mbind option_bind] in *. destruct (Z.eqb_spec phys 0) as [->|Hnz].
  { cbn [mbind option_bind] in E. injection E as <- <-. exists (hp_mem h). by split_and!. }
  unfold vmm_map_kernel. rewrite Hk1.
  set (va := u64 (heap_cursor h + i * PAGE_SIZE)) in *.
  assert (va = heap_cursor h + i * PAGE_SIZE) as Hva by (apply u64_small; unfold PAGE_SIZE in *; lia).
  change (Z.lor VMM_KERNEL_RW VMM_NO_EXEC) with heap_flags.
  destruct (vmm_map (kernel_pml4 (hp_vm h)) va phys heap_flags v1) as [v2|] eqn:Em; [|done].
  cbn [mbind option_bind] in *. apply Z.eqb_neq in Hnz. rewrite Hnz in E.
  destruct (IH (i + 1) (set_vm h v2 (memset va 0 PAGE_SIZE (hp_mem h)))) as (m & E' & Hout & Hin).
  - lia.
  - done.
  - cbn [set_vm heap_cursor]. lia.
  - cbn [set_vm heap_cursor hp_vm]. by rewrite (vmm_map_regs _ _ _ _ _ _ Em), Hk1.
  - exists m. cbn [set_vm heap_cursor hp_mem] in Hout, Hin. rewrite E'. split_and!; [done| |].
    + intros a Ha. unfold PAGE_SIZE in *. rewrite Hout by lia. apply memset_outside. lia.
    + intros Hrc a Ha. destruct (Z.lt_ge_cases a (heap_cursor h + (i + 1) * PAGE_SIZE)).
      * rewrite Hout by lia. rewrite memset_inside by (unfold PAGE_SIZE in *; lia). done.
      * apply Hin; [done|]. unfold PAGE_SIZE in *. lia.
Qed.

Lemma heap_page_off c a n :
  HEAP_VIRT_BASE ≤ c ≤ HEAP_END → c mod PAGE_SIZE = 0 → HEAP_VIRT_BASE ≤ a < 2 ^ 64 → 0 ≤ n ≤ 2 ^ 26 →
  page_off (c / PAGE_SIZE) a < n ↔ c ≤ a < c + n * PAGE_SIZE.
Proof.
  intros Hc Hal Ha Hn. unfold page_off, vpn. rewrite Zminus_mod_idemp_l.
  unfold HEAP_END, HEAP_VIRT_BASE, HEAP_MAX_SIZE, PAGE_SIZE in *.
  destruct (Z.lt_ge_cases a c).
  - rewrite <-(Z.mod_add _ 1), Z.mod_small by (Z.to_euclidean_division_equations; lia).
    Z.to_euclidean_division_equations; lia.
  - rewrite Z.mod_small by (Z.to_euclidean_division_equations; lia).
    Z.to_euclidean_division_equations; lia.
Qed.

Lemma heap_map_pages_spec h count :
  heap_vm_ok h → 0 < count ≤ 2 ^ 26 → frames_for count h →
  ∃ p h', heap_map_pages count h = Some (p, h') ∧ heap_vm_ok h'
    ∧ hp_objs h' = hp_objs h ∧ slab_classes h' = slab_classes h ∧ large_free_list h' = large_free_list h
    ∧ (∀ a, a < heap_cursor h → hp_mem h' a = hp_mem h a)
    ∧ Z.of_nat (size (frames (hp_vm h))) ≤ Z.of_nat (size (frames (hp_vm h'))) + 4 * count
    ∧ ((p = 0 ∧ no_room count h ∧ heap_cursor h' = heap_cursor h)
       ∨ (p = heap_cursor h ∧ heap_cursor h' = heap_cursor h + count * PAGE_SIZE
          ∧ ∀ a, heap_cursor h ≤ a < heap_cursor h' → hp_mem h' a = 0)).
Proof.
  intros Hok Hc Hfr. destruct (hv_tables _ Hok) as (T & k & Hwf & Hk & Ek).
  pose proof (hv_cursor _ Hok) as Hcur. pose proof (hv_align _ Hok) as Hal.
  assert (heap_cursor h + count * PAGE_SIZE < 2 ^ 64) as Hlim
    by (unfold HEAP_END, HEAP_VIRT_BASE, HEAP_MAX_SIZE, PAGE_SIZE in *; lia).
  unfold heap_map_pages. rewrite (u64_small (count * PAGE_SIZE)) by (unfold PAGE_SIZE; lia).
  rewrite (u64_small (heap_cursor h + _)) by (unfold HEAP_VIRT_BASE, PAGE_SIZE in *; lia).
  destruct (Z.ltb_spec (HEAP_VIRT_BASE + HEAP_MAX_SIZE) (heap_cursor h + count * PAGE_SIZE)) as [Hx|Hx].
  { exists 0, h. split_and!; try done; [lia|]. left. split_and!; [done|by right|done]. }
  destruct (alloc_range_loop_spec (Z.to_nat count) 0 T (hp_vm h) k (heap_cursor h) heap_flags Hwf Hk heap_flags_ok)
    as (rc & v & T' & E & Hext & Hrc & Hsz & Hother & Hmap); [lia|lia|].
  rewrite <-Ek in E. rewrite Z2Nat.id in * by lia.
  destruct (heap_map_loop_alloc (Z.to_nat count) 0 h rc v) as (m & -> & Hout & Hin);
    [lia|unfold HEAP_VIRT_BASE in *; lia|rewrite Z2Nat.id by lia; lia|exact E|].
  rewrite Z2Nat.id in * by lia. cbn [mbind option_bind].
  destruct (ext_regs _ _ _ _ Hext) as (Hkp & _).
  assert (∀ a, HEAP_VIRT_BASE ≤ a < heap_cursor h → page_mapped (set_vm h v m) a = true) as Hold.
  { intros a Ha. pose proof (hv_mapped _ Hok a Ha) as Hm. unfold page_mapped in *. cbn [set_vm hp_vm].
    rewrite Hkp, Ek in *. rewrite Hother; [done|]. rewrite Z.add_0_l. intros [_ Hlt].
    apply (heap_page_off (heap_cursor h) a count) in Hlt; [lia|done|done| |lia].
    unfold HEAP_END, HEAP_VIRT_BASE, HEAP_MAX_SIZE in *. lia. }
  assert (∃ T k, pt_wf T v ∧ is_root T k ∧ kernel_pml4 v = k * PAGE_SIZE) as Htab.
  { exists T', k. split_and!; [apply Hext|by eapply ext_root|by rewrite Hkp]. }
  assert (Z.of_nat (size (frames (hp_vm h))) ≤ Z.of_nat (size (frames v)) + 4 * count) as Hsz' by lia.
  destruct Hrc as [->|[-> Hemp]]; cbn [Z.eqb].
  - eexists _, _. split; [reflexivity|].
    assert (frames v ≠ ∅) as Hne.
    { intros Hv. rewrite Hv, size_empty in Hsz. destruct Hfr as [Hfr|Hfr]; [|lia].
      destruct (Z.to_nat count) as [|n'] eqn:En; [lia|]. clear -E Hfr Hwf.
      cbn [alloc_range_loop] in E. unfold vmm_alloc_map, pmm_alloc_vm in E.
      destruct (fa_alloc_ok (vm_alloc (hp_vm h)) (vm_mem (hp_vm h)) (wf_alloc _ _ Hwf)) as (x & a & m1 & Ea & _ & Hpost).
      rewrite Ea in E. destruct Hpost as [(-> & _)|(f & Hf & _)]; [done|]. unfold frames in Hfr. set_solver. }
    destruct (Hmap eq_refl Hne) as (fs & Hlen & _ & Hfs & Htr).
    cbn [set_vm set_cursor heap_cursor hp_objs slab_classes large_free_list hp_mem].
    rewrite (u64_small (heap_cursor h + _)) by (unfold HEAP_VIRT_BASE, PAGE_SIZE in *; lia).
    split_and!; [|done|done|done| |exact Hsz'|right; split_and!; [done|done|]].
    + split; cbn [set_vm set_cursor heap_cursor hp_vm]; [done| | |].
      * intros a Ha. destruct (Z.lt_ge_cases a (heap_cursor h)) as [Hlt|Hge]; [apply Hold; lia|].
        unfold page_mapped. cbn [set_vm set_cursor hp_vm]. rewrite Hkp, Ek, Htr. cbv zeta.
        pose proof (page_off_range (heap_cursor h / PAGE_SIZE) a) as Hp0.
        assert (page_off (heap_cursor h / PAGE_SIZE) a < count) as Hoff.
        { apply heap_page_off; [done|done| |lia|lia]. unfold HEAP_VIRT_BASE in *. lia. }
        rewrite decide_True by lia. set (f := nth _ fs 0).
        assert (f ∈ fs) as Hf by (apply list_elem_of_In, nth_In; lia).
        destruct (Hfs f Hf) as (Hfr' & _).
        pose proof (fa_frame_range _ _ (wf_alloc _ _ Hwf) Hfr'). pose proof fa_bound_range.
        rewrite mapped_to_page by lia. pose proof (Z.mod_pos_bound a PAGE_SIZE eq_refl).
        destruct (Z.eqb_spec (f * PAGE_SIZE + a mod PAGE_SIZE) 0); [unfold PAGE_SIZE in *; lia|done].
      * unfold HEAP_END. unfold PAGE_SIZE in *. lia.
      * rewrite Z.mod_add by done. done.
    + intros a Ha. apply Hout. lia.
    + intros a Ha. apply Hin; [done|lia].
  - eexists _, _. split; [reflexivity|].
    cbn [set_vm heap_cursor hp_objs slab_classes large_free_list hp_mem].
    split_and!; [|done|done|done| |exact Hsz'|left; split_and!; [done|left|done]].
    + split; [done|exact Hold|done|done].
    + intros a Ha. apply Hout. lia.
    + destruct Hfr as [|Hfr]; [done|]. rewrite Hemp, size_empty in Hsz. lia.
Qed.
End heap_map.
