(* ===== verification/HeapList.v ===== *)
(** The linked lists of kernel/mm/heap.c: the singly linked list of the slab
    pages of a class and the doubly linked list of free large blocks, related
    to Rocq lists of addresses. *)
From stdpp Require Import prelude gmap.
From S2P Require Import Prelude CString FrameAlloc Vmm Heap.

Implicit Types (objs : gmap Z hobj) (l : list Z).

(** ** Slab pages of a class *)

Definition slab_key objs (a : Z) : option (Z * Z) :=
  match objs !! a with
  | Some (OSlab p) => Some (sp_order p, sp_next p)
  | _ => None
  end.

Fixpoint chain objs (p : Z) l : Prop :=
  match l with
  | [] => p = 0
  | a :: l' => p = a ∧ ∃ o n, slab_key objs a = Some (o, n) ∧ chain objs n l'
  end.

Lemma chain_ext objs objs' p l :
  (∀ a, a ∈ l → slab_key objs' a = slab_key objs a) → chain objs p l → chain objs' p l.
Proof.
  revert p. induction l as [|a l IH]; intros p He; simpl; [done|].
  intros [-> (o & n & Hk & Hc)]. split; [done|]. exists o, n. rewrite He by set_solver. split; [done|].
  apply IH; [set_solver|done].
Qed.

(** ** Free blocks *)

Definition last_or (d : Z) l : Z := default d (last l).

(** The segment from [p] to [q] through the blocks of [l]; [pv] precedes it. *)
Fixpoint dseg objs (p pv : Z) l (q : Z) : Prop :=
  match l with
  | [] => p = q
  | a :: l' => p = a ∧ ∃ lh, objs !! a = Some (OLarge lh) ∧ lh_magic lh = HEAP_MAGIC_FREE
      ∧ lh_prev lh = pv ∧ dseg objs (lh_next lh) a l' q
  end.

Lemma dseg_ext objs objs' p pv l q :
  (∀ a, a ∈ l → objs' !! a = objs !! a) → dseg objs p pv l q → dseg objs' p pv l q.
Proof.
  revert p pv. induction l as [|a l IH]; intros p pv He; simpl; [done|].
  intros [-> (lh & Ha & ? & ? & Hd)]. split; [done|]. exists lh. rewrite He by set_solver.
  split_and!; [done|done|done|]. apply IH; [set_solver|done].
Qed.

Lemma last_or_cons d a l : last_or d (a :: l) = last_or a l.
Proof. unfold last_or. destruct l as [|b l]; [done|]. rewrite last_cons_cons. by destruct (last (b :: l)) eqn:E; [|apply last_None in E]. Qed.

Lemma dseg_app objs p pv l1 l2 q :
  dseg objs p pv (l1 ++ l2) q ↔ ∃ m, dseg objs p pv l1 m ∧ dseg objs m (last_or pv l1) l2 q.
Proof.
  revert p pv. induction l1 as [|a l1 IH]; intros p pv; simpl.
  { split; [intros; by exists p|]. by intros (m & -> & ?). }
  rewrite last_or_cons. split.
  - intros [-> (lh & ? & ? & ? & Hd)]. apply IH in Hd as (m & ? & ?). exists m. naive_solver.
  - intros (m & [-> (lh & ? & ? & ? & ?)] & ?). split; [done|]. exists lh. split_and!; try done.
    apply IH. by exists m.
Qed.

Lemma dseg_member objs p pv l q a : dseg objs p pv l q → a ∈ l →
  ∃ lh, objs !! a = Some (OLarge lh) ∧ lh_magic lh = HEAP_MAGIC_FREE.
Proof.
  revert p pv. induction l as [|b l IH]; intros p pv; simpl; [by intros _ ?%not_elem_of_nil|].
  intros [-> (lh & ? & ? & ? & Hd)] [->|Hin]%elem_of_cons; [by exists lh|]. by eapply IH.
Qed.

(** The last block of a segment may point elsewhere. *)
Lemma dseg_retarget objs p pv l b lh q q' :
  dseg objs p pv (l ++ [b]) q → b ∉ l → objs !! b = Some (OLarge lh) →
  dseg (<[b := OLarge (lh_set_next lh q')]> objs) p pv (l ++ [b]) q'.
Proof.
  intros (m & Hl & Hb)%dseg_app Hnin Hlh. apply dseg_app. exists m. split.
  - eapply dseg_ext; [|exact Hl]. intros a Ha. apply lookup_insert_ne. by intros ->.
  - simpl in *. destruct Hb as [-> (lh' & Hb & ? & ? & _)]. rewrite Hlh in Hb. injection Hb as <-.
    split; [done|]. exists (lh_set_next lh q'). rewrite lookup_insert_eq. done.
Qed.

(** The first block of a segment may have another predecessor. *)
Lemma dseg_reprev objs pv c l q lh pv' :
  dseg objs c pv (c :: l) q → c ∉ l → objs !! c = Some (OLarge lh) →
  dseg (<[c := OLarge (lh_set_prev lh pv')]> objs) c pv' (c :: l) q.
Proof.
  simpl. intros [_ (lh' & Hc & ? & ? & Hd)] Hnin Hlh. rewrite Hlh in Hc. injection Hc as <-.
  split; [done|]. exists (lh_set_prev lh pv'). rewrite lookup_insert_eq. split_and!; [done|done|done|].
  eapply dseg_ext; [|exact Hd]. intros a Ha. apply lookup_insert_ne. by intros ->.
Qed.

(** ** What the list operations leave alone *)

(** An object up to the links of large blocks. *)
Definition obj_shape (o : hobj) : hobj :=
  match o with
  | OSlab p => OSlab p
  | OLarge lh => OLarge {| lh_magic := lh_magic lh; lh_size := lh_size lh; lh_next := 0; lh_prev := 0 |}
  end.

Definition same_shape objs objs' : Prop := ∀ a, obj_shape <$> objs' !! a = obj_shape <$> objs !! a.

#[export] Instance same_shape_equiv : Equivalence same_shape.
Proof.
  split.
  - by intros ? ?.
  - intros x y Hxy a. by rewrite Hxy.
  - intros x y z Hxy Hyz a. by rewrite Hyz, Hxy.
Qed.

Lemma same_shape_link objs a lh lh' :
  objs !! a = Some (OLarge lh) → lh_magic lh' = lh_magic lh → lh_size lh' = lh_size lh →
  same_shape objs (<[a := OLarge lh']> objs).
Proof.
  intros Ha Hm Hs b. destruct (decide (b = a)) as [->|]; [|by rewrite lookup_insert_ne].
  rewrite lookup_insert_eq, Ha. simpl. by rewrite Hm, Hs.
Qed.

Lemma same_shape_slab objs objs' a p :
  same_shape objs objs' → objs' !! a = Some (OSlab p) ↔ objs !! a = Some (OSlab p).
Proof.
  intros Hs. specialize (Hs a). destruct (objs !! a) as [[]|], (objs' !! a) as [[]|]; simpl in Hs; naive_solver.
Qed.

Lemma same_shape_large objs objs' a lh :
  same_shape objs objs' → objs !! a = Some (OLarge lh) →
  ∃ lh', objs' !! a = Some (OLarge lh') ∧ lh_magic lh' = lh_magic lh ∧ lh_size lh' = lh_size lh.
Proof.
  intros Hs Ha. specialize (Hs a). rewrite Ha in Hs. destruct (objs' !! a) as [[p|lh']|]; simpl in Hs; [done| |done].
  injection Hs as ? ?. by exists lh'.
Qed.

Lemma same_shape_key objs objs' a : same_shape objs objs' → slab_key objs' a = slab_key objs a.
Proof.
  intros Hs. specialize (Hs a). unfold slab_key.
  destruct (objs !! a) as [[]|], (objs' !! a) as [[]|]; simpl in Hs; naive_solver.
Qed.

Section ops.
Context {A : Type} `{FrameOps A}.
Implicit Types (h : heap A).

Lemma get_obj_mapped h a : page_mapped h a = true → get_obj h a = hp_objs h !! a.
Proof. intros Hm. unfold get_obj. by rewrite Hm. Qed.

Lemma get_large_mapped h a lh :
  page_mapped h a = true → hp_objs h !! a = Some (OLarge lh) → get_large h a = Some lh.
Proof. intros Hm Ha. unfold get_large. rewrite get_obj_mapped by done. by rewrite Ha. Qed.

Lemma get_slab_mapped h a p :
  page_mapped h a = true → hp_objs h !! a = Some (OSlab p) → get_slab h a = Some p.
Proof. intros Hm Ha. unfold get_slab. rewrite get_obj_mapped by done. by rewrite Ha. Qed.

Lemma put_obj_mapped h a o :
  page_mapped h a = true → put_obj h a o = Some (set_objs h (<[a := o]> (hp_objs h))).
Proof. intros Hm. unfold put_obj. by rewrite Hm. Qed.

(** All blocks of a set of addresses are mapped. *)
Definition all_mapped h : Prop := ∀ a, is_Some (hp_objs h !! a) → page_mapped h a = true.

(** [large_insert_free] puts the block at the head of the list. *)
Lemma large_insert_free_spec h x lh l :
  all_mapped h → hp_objs h !! x = Some (OLarge lh) → x ≠ 0 →
  dseg (hp_objs h) (large_free_list h) 0 l 0 → x ∉ l → NoDup l → (∀ a, a ∈ l → a ≠ 0) →
  ∃ objs', large_insert_free x h = Some (set_free_list (set_objs h objs') x)
    ∧ dseg objs' x 0 (x :: l) 0
    ∧ same_shape (<[x := OLarge {| lh_magic := HEAP_MAGIC_FREE; lh_size := lh_size lh;
                                   lh_next := 0; lh_prev := 0 |}]> (hp_objs h)) objs'.
Proof.
  intros Hmap Hx Hx0 Hd Hxl Hnd Hnz. unfold large_insert_free, put_large.
  assert (page_mapped h x = true) as Hmx by (apply Hmap; by eexists).
  rewrite (get_large_mapped h x lh) by done. cbn [mbind option_bind]. rewrite put_obj_mapped by done.
  cbn [mbind option_bind].
  set (new := OLarge {| lh_magic := HEAP_MAGIC_FREE; lh_size := lh_size lh;
                        lh_next := large_free_list h; lh_prev := 0 |}).
  set (objs1 := <[x := new]> (hp_objs h)).
  assert (dseg objs1 (large_free_list h) 0 l 0) as Hd1.
  { eapply dseg_ext; [|exact Hd]. intros a Ha. apply lookup_insert_ne. by intros ->. }
  assert (same_shape (<[x := OLarge {| lh_magic := HEAP_MAGIC_FREE; lh_size := lh_size lh;
    lh_next := 0; lh_prev := 0 |}]> (hp_objs h)) objs1) as Hsh.
  { intros a. unfold objs1. destruct (decide (a = x)) as [->|]; [by rewrite !lookup_insert_eq|].
    by rewrite !lookup_insert_ne. }
  change (large_free_list (set_objs h objs1)) with (large_free_list h).
  destruct l as [|c l].
  - simpl in Hd1. rewrite Hd1. cbn [Z.eqb mbind option_bind]. exists objs1. split_and!; [done| |done].
    simpl. split; [done|]. eexists. unfold objs1. rewrite lookup_insert_eq. split_and!; [done|done|done|].
    simpl. done.
  - pose proof Hd1 as [Hc (lhc & Hlhc & _)]. rewrite Hc in *.
    assert (c ≠ 0) as Hc0 by (apply Hnz; set_solver). apply Z.eqb_neq in Hc0. rewrite Hc0.
    assert (c ≠ x) as Hcx by set_solver.
    assert (page_mapped (set_objs h objs1) c = true) as Hmc.
    { apply (Hmap c). unfold objs1 in Hlhc. rewrite lookup_insert_ne in Hlhc by done. by eexists. }
    rewrite (get_large_mapped _ c lhc) by done. cbn [mbind option_bind].
    rewrite put_obj_mapped by done. cbn [mbind option_bind set_objs hp_objs].
    eexists. split; [reflexivity|]. apply NoDup_cons in Hnd as [Hcl _]. split.
    + simpl. split; [done|]. eexists. rewrite lookup_insert_ne by done. unfold objs1 at 1.
      rewrite lookup_insert_eq. split; [reflexivity|]. split; [done|]. split; [done|]. cbn [lh_next]. rewrite Hc.
      exact (dseg_reprev objs1 0 c l 0 lhc x Hd1 Hcl Hlhc).
    + etrans; [exact Hsh|]. by eapply same_shape_link.
Qed.

(** [large_remove_free] unlinks a block from the list. *)
Lemma large_remove_free_spec h x lh l1 l2 :
  all_mapped h → hp_objs h !! x = Some (OLarge lh) → 
  dseg (hp_objs h) (large_free_list h) 0 (l1 ++ x :: l2) 0 → NoDup (l1 ++ x :: l2) →
  (∀ a, a ∈ l1 ++ x :: l2 → a ≠ 0) →
  ∃ objs' p, large_remove_free x h = Some (set_free_list (set_objs h objs') p)
    ∧ dseg objs' p 0 (l1 ++ l2) 0 ∧ same_shape (hp_objs h) objs'.
Proof.
  intros Hmap Hx Hd Hnd Hnz. set (objs := hp_objs h) in *.
  pose proof Hd as (m & Hd1 & Hd2)%dseg_app. destruct Hd2 as [-> (lh' & Hx' & Hmag & Hprev & Hd2)].
  rewrite Hx in Hx'. injection Hx' as <-.
  apply NoDup_app in Hnd as (Hnd1 & Hdis & [Hx2 Hnd2]%NoDup_cons).
  assert (x ∉ l1) as Hx1 by (intros Hin; apply (Hdis x Hin); set_solver).
  unfold large_remove_free, put_large.
  rewrite (get_large_mapped h x lh) by (done || apply Hmap; by eexists). cbn [mbind option_bind].
  assert (∃ h1 objs1 p, (if lh_prev lh =? 0 then Some (set_free_list h (lh_next lh))
       else p ← get_large h (lh_prev lh); put_obj h (lh_prev lh) (OLarge (lh_set_next p (lh_next lh)))) = Some h1
     ∧ h1 = set_free_list (set_objs h objs1) p
     ∧ dseg objs1 p 0 l1 (lh_next lh) ∧ same_shape objs objs1 ∧ ∀ a, a ∉ l1 → objs1 !! a = objs !! a)
    as (h1 & objs1 & p1 & -> & -> & Hd1' & Hsh1 & Hout1).
  { rewrite Hprev. destruct l1 as [|b l1' _] using rev_ind.
    - exists (set_free_list h (lh_next lh)), objs, (lh_next lh). split_and!; done.
    - unfold last_or. rewrite last_snoc. simpl default.
      assert (b ≠ 0) as Hb0 by (apply Hnz; set_solver). apply Z.eqb_neq in Hb0. rewrite Hb0.
      destruct (dseg_member _ _ _ _ _ b Hd1) as (lhb & Hlhb & _); [set_solver|].
      assert (page_mapped h b = true) as Hmb by (apply Hmap; by eexists).
      rewrite (get_large_mapped h b lhb) by done. cbn [mbind option_bind]. rewrite put_obj_mapped by done.
      eexists _, (<[b := OLarge (lh_set_next lhb (lh_next lh))]> objs), (large_free_list h).
      split; [reflexivity|]. split; [unfold objs; by destruct h|].
      apply NoDup_app in Hnd1 as (_ & Hb & _). split_and!.
      + eapply dseg_retarget; [exact Hd1| |done]. intros Hin. apply (Hb b Hin). set_solver.
      + by eapply same_shape_link.
      + intros a Ha. apply lookup_insert_ne. set_solver. }
  cbn [mbind option_bind].
  assert (dseg objs1 (lh_next lh) x l2 0) as Hd2'.
  { eapply dseg_ext; [|exact Hd2]. intros a Ha. apply Hout1. intros Hin. apply (Hdis a Hin). set_solver. }
  set (h1 := set_free_list (set_objs h objs1) p1).
  assert (∃ h2 objs2, (if lh_next lh =? 0 then Some h1
       else n ← get_large h1 (lh_next lh); put_obj h1 (lh_next lh) (OLarge (lh_set_prev n (lh_prev lh)))) = Some h2
     ∧ h2 = set_free_list (set_objs h objs2) p1
     ∧ dseg objs2 (lh_next lh) (last_or 0 l1) l2 0 ∧ same_shape objs1 objs2 ∧ ∀ a, a ∉ l2 → objs2 !! a = objs1 !! a)
    as (h2 & objs2 & -> & -> & Hd2'' & Hsh2 & Hout2).
  { destruct l2 as [|c l2].
    - simpl in Hd2'. rewrite Hd2'. cbn [Z.eqb]. exists h1, objs1. by split_and!.
    - pose proof Hd2' as [Hc (lhc & Hlhc & _)]. rewrite Hc in *.
      assert (c ≠ 0) as Hc0 by (apply Hnz; set_solver). apply Z.eqb_neq in Hc0. rewrite Hc0.
      assert (page_mapped h1 c = true) as Hmc.
      { apply (Hmap c). destruct (dseg_member _ _ _ _ _ c Hd2) as (? & ? & _); [set_solver|]. by eexists. }
      rewrite (get_large_mapped h1 c lhc) by done. cbn [mbind option_bind]. rewrite put_obj_mapped by done.
      exists (set_objs h1 (<[c := OLarge (lh_set_prev lhc (last_or 0 l1))]> objs1)),
        (<[c := OLarge (lh_set_prev lhc (last_or 0 l1))]> objs1).
      rewrite Hprev. split; [reflexivity|]. split; [reflexivity|]. apply NoDup_cons in Hnd2 as [Hcl _].
      split; [|split].
      + exact (dseg_reprev objs1 x c l2 0 lhc (last_or 0 l1) Hd2' Hcl Hlhc).
      + by eapply same_shape_link.
      + intros a Ha. apply lookup_insert_ne. set_solver. }
  cbn [mbind option_bind].
  assert (same_shape objs objs2) as Hsh by (etrans; eassumption).
  assert (objs2 !! x = Some (OLarge lh)) as Hx'' by (rewrite Hout2, Hout1 by done; done).
  assert (page_mapped (set_free_list (set_objs h objs2) p1) x = true) as Hmx by (apply (Hmap x); by eexists).
  rewrite (get_large_mapped _ x lh) by done. cbn [mbind option_bind]. rewrite put_obj_mapped by done.
  exists (<[x := OLarge (lh_set_prev (lh_set_next lh 0) 0)]> objs2), p1. split; [reflexivity|]. split.
  - apply (dseg_ext objs2).
    { intros a Ha. apply lookup_insert_ne. intros ->. set_solver. }
    apply dseg_app. exists (lh_next lh). split; [|done]. eapply dseg_ext; [|exact Hd1'].
    intros a Ha. apply Hout2. intros Hin. apply (Hdis a Ha). set_solver.
  - etrans; [exact Hsh|]. by eapply same_shape_link.
Qed.
End ops.
