(* ===== verification/HeapInv.v ===== *)
(** The invariant of the kernel heap (kernel/mm/heap.c), live allocations, and
    the specifications of the slab and the large allocator. *)
From stdpp Require Import prelude gmap.
From S2P Require Import Prelude CString FrameAlloc Bitmap Vmm VmmWf VmmSpec VmmRange Heap HeapMap HeapSlab HeapList.

Implicit Types (objs : gmap Z hobj).

(** ** Objects *)

(** The bytes an object occupies, header included. *)
Definition extent (o : hobj) : Z :=
  match o with OSlab _ => PAGE_SIZE | OLarge lh => lh_size lh end.

Definition obj_wf (o : hobj) : Prop :=
  match o with
  | OSlab p => slab_wf p
  | OLarge lh => lh_magic lh = HEAP_MAGIC_FREE ∨ lh_magic lh = HEAP_MAGIC_ALLOC
  end.

(** Objects are whole pages between the heap base and [lim], and do not overlap. *)
Record objs_wf objs (lim : Z) : Prop := {
  ow_base : ∀ a o, objs !! a = Some o → HEAP_VIRT_BASE ≤ a ∧ a mod PAGE_SIZE = 0;
  ow_extent : ∀ a o, objs !! a = Some o →
    PAGE_SIZE ≤ extent o ∧ extent o mod PAGE_SIZE = 0 ∧ a + extent o ≤ lim;
  ow_disj : ∀ a b o, objs !! a = Some o → is_Some (objs !! b) → a < b → a + extent o ≤ b;
  ow_obj : ∀ a o, objs !! a = Some o → obj_wf o;
}.

Lemma extent_shape o : extent (obj_shape o) = extent o.
Proof. by destruct o. Qed.

Lemma obj_wf_shape o : obj_wf (obj_shape o) ↔ obj_wf o.
Proof. by destruct o. Qed.

Lemma same_shape_obj objs objs' a o :
  same_shape objs objs' → objs' !! a = Some o →
  ∃ o', objs !! a = Some o' ∧ extent o' = extent o ∧ (obj_wf o' ↔ obj_wf o).
Proof.
  intros Hs Ha. specialize (Hs a). rewrite Ha in Hs. destruct (objs !! a) as [o'|]; [|done].
  simpl in Hs. injection Hs as Hs. exists o'.
  by rewrite <-(extent_shape o), <-(extent_shape o'), <-(obj_wf_shape o), <-(obj_wf_shape o'), Hs.
Qed.

Lemma objs_wf_shape objs objs' lim : same_shape objs objs' → objs_wf objs lim → objs_wf objs' lim.
Proof.
  intros Hs Hw. split.
  - intros a o Ha. destruct (same_shape_obj _ _ _ _ Hs Ha) as (o' & ? & _). by eapply ow_base.
  - intros a o Ha. destruct (same_shape_obj _ _ _ _ Hs Ha) as (o' & ? & <- & _). by eapply ow_extent.
  - intros a b o Ha [ob Hb]. destruct (same_shape_obj _ _ _ _ Hs Ha) as (o' & ? & <- & _).
    destruct (same_shape_obj _ _ _ _ Hs Hb) as (? & ? & _). eapply ow_disj; [done|done|by eexists].
  - intros a o Ha. destruct (same_shape_obj _ _ _ _ Hs Ha) as (o' & ? & _ & <-). by eapply ow_obj.
Qed.

(** Replacing an object by one of the same extent. *)
Lemma objs_wf_replace objs lim a o o' :
  objs_wf objs lim → objs !! a = Some o → extent o' = extent o → obj_wf o' →
  objs_wf (<[a := o']> objs) lim.
Proof.
  intros Hw Ha He Ho. split.
  - intros b ob [[<- <-]|[_ Hb]]%lookup_insert_Some; [|by eapply ow_base]. by eapply ow_base.
  - intros b ob [[<- <-]|[_ Hb]]%lookup_insert_Some; [|by eapply ow_extent].
    rewrite He. by eapply ow_extent.
  - intros b c ob Hb Hc Hlt.
    assert (is_Some (objs !! c)) as Hc'.
    { destruct (decide (c = a)) as [->|]; [by eexists|]. by rewrite lookup_insert_ne in Hc. }
    apply lookup_insert_Some in Hb as [[<- <-]|[_ Hb]]; [rewrite He|]; by eapply ow_disj.
  - intros b ob [[<- <-]|[_ Hb]]%lookup_insert_Some; [done|by eapply ow_obj].
Qed.

(** A new object in the pages that were just mapped. *)
Lemma objs_wf_grow objs lim lim' o :
  objs_wf objs lim → HEAP_VIRT_BASE ≤ lim → lim mod PAGE_SIZE = 0 → PAGE_SIZE ≤ extent o →
  extent o mod PAGE_SIZE = 0 → lim' = lim + extent o → obj_wf o → objs_wf (<[lim := o]> objs) lim'.
Proof.
  intros Hw Hb Hal He Hem -> Ho.
  assert (∀ a oa, objs !! a = Some oa → a < lim ∧ a + extent oa ≤ lim) as Hlt.
  { intros a oa Ha. destruct (ow_extent _ _ Hw a oa Ha) as (? & _ & ?). unfold PAGE_SIZE in *. lia. }
  split.
  - intros b ob [[<- <-]|[_ Hb']]%lookup_insert_Some; [done|by eapply ow_base].
  - intros b ob [[<- <-]|[_ Hb']]%lookup_insert_Some; [by split_and!|].
    destruct (ow_extent _ _ Hw b ob Hb') as (? & ? & ?). unfold PAGE_SIZE in *. split_and!; lia.
  - intros b c ob [[<- <-]|[_ Hb']]%lookup_insert_Some Hc Hbc.
    + rewrite lookup_insert_ne in Hc by lia. destruct Hc as [oc Hc]. apply Hlt in Hc. lia.
    + destruct (decide (c = lim)) as [->|]; [by apply Hlt in Hb' as [_ ?]|]. rewrite lookup_insert_ne in Hc by done.
      by eapply ow_disj.
  - intros b ob [[<- <-]|[_ Hb']]%lookup_insert_Some; [done|by eapply ow_obj].
Qed.

(** Cutting a large block in two. *)
Lemma objs_wf_split objs lim a lh n lh1 lh2 :
  objs_wf objs lim → objs !! a = Some (OLarge lh) → 0 < n < lh_size lh → n mod PAGE_SIZE = 0 →
  lh_size lh1 = n → lh_size lh2 = lh_size lh - n → obj_wf (OLarge lh1) → obj_wf (OLarge lh2) →
  objs !! (a + n) = None ∧ objs_wf (<[a := OLarge lh1]> (<[a + n := OLarge lh2]> objs)) lim.
Proof.
  intros Hw Ha Hn Hnm H1 H2 Hw1 Hw2.
  destruct (ow_base _ _ Hw a _ Ha) as [Hab Ham]. destruct (ow_extent _ _ Hw a _ Ha) as (Hae & Haem & Hal).
  cbn [extent] in *.
  assert (∀ b, is_Some (objs !! b) → a < b → a + lh_size lh ≤ b) as Hafter.
  { intros b Hb Hlt. by apply (ow_disj _ _ Hw a b _ Ha). }
  assert (objs !! (a + n) = None) as Hnone.
  { apply eq_None_not_Some. intros Hs. apply Hafter in Hs; lia. }
  assert (PAGE_SIZE ≤ n ∧ PAGE_SIZE ≤ lh_size lh - n ∧ (lh_size lh - n) mod PAGE_SIZE = 0
          ∧ (a + n) mod PAGE_SIZE = 0) as (Hp1 & Hp2 & Hp3 & Hp4).
  { unfold PAGE_SIZE in *. Z.to_euclidean_division_equations; lia. }
  split; [done|]. split.
  - intros b ob [[<- <-]|[_ [[<- <-]|[_ Hb]]%lookup_insert_Some]]%lookup_insert_Some.
    + done.
    + split; [lia|done].
    + by eapply ow_base.
  - intros b ob [[<- <-]|[_ [[<- <-]|[_ Hb]]%lookup_insert_Some]]%lookup_insert_Some; cbn [extent].
    + rewrite H1. split_and!; [lia|lia|lia].
    + rewrite H2. split_and!; [lia|lia|lia].
    + by eapply ow_extent.
  - assert (∀ c, is_Some (<[a := OLarge lh1]> (<[a + n := OLarge lh2]> objs) !! c) →
      c = a ∨ c = a + n ∨ is_Some (objs !! c)) as Hdom.
    { intros c [oc [[<- _]|[_ [[<- _]|[_ ?]]%lookup_insert_Some]]%lookup_insert_Some]; naive_solver. }
    intros b c ob Hb Hc Hlt. apply Hdom in Hc.
    apply lookup_insert_Some in Hb as [[<- <-]|[Hba [[<- <-]|[Hbn Hb]]%lookup_insert_Some]]; cbn [extent].
    + rewrite H1. destruct Hc as [->|[->|Hc]]; [lia|lia|]. pose proof (Hafter c Hc Hlt). lia.
    + rewrite H2. destruct Hc as [->|[->|Hc]]; [lia|lia|]. pose proof (Hafter c Hc ltac:(lia)). lia.
    + destruct Hc as [->|[->|Hc]]; [| |by eapply ow_disj].
      * by apply (ow_disj _ _ Hw b a ob Hb ltac:(by eexists)).
      * destruct (Z.lt_ge_cases b a) as [Hb'|Hb'].
        -- pose proof (ow_disj _ _ Hw b a ob Hb ltac:(by eexists) Hb'). lia.
        -- pose proof (Hafter b ltac:(by eexists) ltac:(lia)). lia.
  - intros b ob [[<- <-]|[_ [[<- <-]|[_ Hb]]%lookup_insert_Some]]%lookup_insert_Some; [done|done|].
    by eapply ow_obj.
Qed.

(** ** Live allocations *)

(** [live objs p n]: the caller owns the [n] bytes from [p] on. *)
Definition live objs (p n : Z) : Prop :=
  match objs !! (p / PAGE_SIZE * PAGE_SIZE) with
  | Some (OSlab sp) =>
      n = sp_obj_size sp ∧ ∃ idx, 0 ≤ idx < sp_capacity sp ∧ is_free (sp_bitmap sp) idx = false
        ∧ p = slab_object (p / PAGE_SIZE * PAGE_SIZE) sp idx
  | Some (OLarge lh) =>
      lh_magic lh = HEAP_MAGIC_ALLOC ∧ p = p / PAGE_SIZE * PAGE_SIZE + LARGE_HDR_SIZE
      ∧ n = lh_size lh - LARGE_HDR_SIZE
  | None => False
  end.

Lemma live_shape objs objs' p n : same_shape objs objs' → live objs' p n ↔ live objs p n.
Proof.
  intros Hs. specialize (Hs (p / PAGE_SIZE * PAGE_SIZE)). unfold live.
  destruct (objs !! _) as [[sp|lh]|], (objs' !! _) as [[sp'|lh']|]; simpl in Hs; try discriminate Hs; [| |done].
  - by injection Hs as ->.
  - by injection Hs as -> ->.
Qed.

Lemma live_same objs objs' p n :
  objs' !! (p / PAGE_SIZE * PAGE_SIZE) = objs !! (p / PAGE_SIZE * PAGE_SIZE) → live objs' p n ↔ live objs p n.
Proof. intros E. unfold live. by rewrite E. Qed.

(** The place of a slot in its page. *)
Lemma slab_object_place a p idx :
  slab_wf p → a mod PAGE_SIZE = 0 → 0 ≤ idx < sp_capacity p →
  slab_object a p idx = a + slab_data_off p + idx * sp_obj_size p
  ∧ a + SLAB_HDR_SIZE ≤ slab_object a p idx
  ∧ slab_object a p idx + sp_obj_size p ≤ a + PAGE_SIZE
  ∧ slab_object a p idx / PAGE_SIZE * PAGE_SIZE = a.
Proof.
  intros Hp Ha Hi. pose proof (slab_wf_geometry p Hp) as Hg.
  pose proof (sg_cap _ Hg) as Hc. pose proof (sg_size _ Hg) as Hs. pose proof (sg_fit _ Hg) as Hf.
  pose proof (sg_off _ Hg) as Ho. unfold SLAB_HDR_SIZE in *.
  assert (0 ≤ idx * sp_obj_size p ∧ idx * sp_obj_size p + sp_obj_size p ≤ sp_capacity p * sp_obj_size p) as Hm by nia.
  assert (slab_object a p idx = a + slab_data_off p + idx * sp_obj_size p) as E.
  { unfold slab_object. rewrite u32_small; [done|]. unfold PAGE_SIZE in *. lia. }
  rewrite E. split_and!; [done|lia|lia|]. unfold PAGE_SIZE in *.
  assert ((a + slab_data_off p + idx * sp_obj_size p) / 4096 = a / 4096) as ->.
  { Z.to_euclidean_division_equations. lia. }
  Z.to_euclidean_division_equations. lia.
Qed.

Lemma slab_object_inj a p i j :
  slab_wf p → a mod PAGE_SIZE = 0 → 0 ≤ i < sp_capacity p → 0 ≤ j < sp_capacity p →
  slab_object a p i = slab_object a p j → i = j.
Proof.
  intros Hp Ha Hi Hj. destruct (slab_object_place a p i Hp Ha Hi) as (-> & _).
  destruct (slab_object_place a p j Hp Ha Hj) as (-> & _).
  pose proof (sg_size _ (slab_wf_geometry p Hp)). nia.
Qed.

Lemma large_place a : a mod PAGE_SIZE = 0 → (a + LARGE_HDR_SIZE) / PAGE_SIZE * PAGE_SIZE = a.
Proof. unfold LARGE_HDR_SIZE, PAGE_SIZE. intros. Z.to_euclidean_division_equations. lia. Qed.

(** ** The invariant *)

Definition slab_list objs (head c : Z) : Prop :=
  ∃ l, chain objs head l ∧ NoDup l ∧ ∀ a, a ∈ l ↔ ∃ n, slab_key objs a = Some (c + SLAB_MIN_ORDER, n).

(** The free list holds exactly the blocks marked free, except [x]. *)
Definition free_list objs (head : Z) (l : list Z) (x : Z) : Prop :=
  dseg objs head 0 l 0 ∧ NoDup l
  ∧ ∀ a, a ∈ l ↔ a ≠ x ∧ ∃ lh, objs !! a = Some (OLarge lh) ∧ lh_magic lh = HEAP_MAGIC_FREE.

Section inv.
Context {A : Type} `{FrameAllocator A}.
Implicit Types (h : heap A).

Record heap_inv_x (x : Z) (h : heap A) : Prop := {
  hi_vm : heap_vm_ok h;
  hi_objs : objs_wf (hp_objs h) (heap_cursor h);
  hi_slabs : ∀ c, 0 ≤ c < SLAB_CLASSES → slab_list (hp_objs h) (slab_classes h c) c;
  hi_free : ∃ l, free_list (hp_objs h) (large_free_list h) l x;
}.

(** No address is 0, so no block is left out. *)
Definition heap_inv : heap A → Prop := heap_inv_x 0.

Lemma inv_obj_range x h a o :
  heap_inv_x x h → hp_objs h !! a = Some o → HEAP_VIRT_BASE ≤ a < heap_cursor h ∧ a + extent o ≤ heap_cursor h.
Proof.
  intros Hi Ha. destruct (ow_base _ _ (hi_objs _ _ Hi) a o Ha) as [? _].
  destruct (ow_extent _ _ (hi_objs _ _ Hi) a o Ha) as (? & _ & ?). unfold PAGE_SIZE in *. lia.
Qed.

Lemma inv_mapped x h : heap_inv_x x h → all_mapped h.
Proof. intros Hi a [o Ha]. apply (hi_vm _ _ Hi). by apply (inv_obj_range x h a o). Qed.

Lemma inv_nonzero x h a o : heap_inv_x x h → hp_objs h !! a = Some o → a ≠ 0.
Proof. intros Hi Ha. destruct (inv_obj_range x h a o Hi Ha). unfold HEAP_VIRT_BASE in *. lia. Qed.

Lemma slab_key_Some objs a o n :
  slab_key objs a = Some (o, n) ↔ ∃ p, objs !! a = Some (OSlab p) ∧ sp_order p = o ∧ sp_next p = n.
Proof. unfold slab_key. destruct (objs !! a) as [[p|lh]|]; naive_solver. Qed.

Lemma slab_list_ext objs objs' head c :
  (∀ a, slab_key objs' a = slab_key objs a) → slab_list objs head c → slab_list objs' head c.
Proof.
  intros He (l & Hc & Hnd & Hl). exists l. split_and!; [|done|].
  - eapply chain_ext; [|exact Hc]. intros. apply He.
  - intros a. by rewrite Hl, He.
Qed.

(** The invariant when only the objects changed, within their shape. *)
Lemma inv_update x y h objs' head' :
  heap_inv_x x h → objs_wf objs' (heap_cursor h) → (∀ a, slab_key objs' a = slab_key (hp_objs h) a) →
  (∃ l, free_list objs' head' l y) →
  heap_inv_x y (set_free_list (set_objs h objs') head').
Proof.
  intros Hi Hw Hk Hf. split; [|done| |done].
  - destruct (hi_vm _ _ Hi) as [H1 H2 H3 H4]. split; [exact H1|exact H2|exact H3|exact H4].
  - intros c Hc. eapply slab_list_ext; [exact Hk|]. by apply (hi_slabs _ _ Hi).
Qed.

(** ** Slab allocation *)

Lemma chain_length objs p l : chain objs p l → NoDup l → (length l ≤ size objs)%nat.
Proof.
  intros Hc Hnd. assert (∀ a, a ∈ l → is_Some (objs !! a)) as Hl.
  { revert p Hc. clear Hnd. induction l as [|b l IH]; intros p; [by intros _ a ?%not_elem_of_nil|].
    simpl. intros [-> (o & n & Hk & Hc)] a [->|Ha]%elem_of_cons; [|by eapply IH].
    apply slab_key_Some in Hk as (q & -> & _). by eexists. }
  rewrite <-size_dom, <-(size_list_to_set (C:=gset Z) l Hnd). apply subseteq_size.
  intros a. rewrite elem_of_list_to_set, elem_of_dom. apply Hl.
Qed.

Lemma slab_find_spec x h p l fuel :
  heap_inv_x x h → chain (hp_objs h) p l → (length l < fuel)%nat →
  ∃ sp, slab_find fuel p h = Some sp
    ∧ (sp = 0 ∨ sp ∈ l ∧ ∃ q, hp_objs h !! sp = Some (OSlab q) ∧ sp_free_count q ≠ 0).
Proof.
  intros Hi. revert p fuel. induction l as [|a l IH]; intros p [|fuel] Hc Hf; simpl in Hf; try lia;
    cbn [slab_find].
  { simpl in Hc. subst p. exists 0. split; [done|by left]. }
  destruct Hc as [-> (o & n & (q & Hq & <- & <-)%slab_key_Some & Hc)].
  pose proof (inv_nonzero x h a _ Hi Hq) as Hnz. apply Z.eqb_neq in Hnz as ->.
  rewrite (get_slab_mapped h a q) by (done || apply (inv_mapped x h Hi); by eexists). cbn [mbind option_bind].
  destruct (Z.eqb_spec (sp_free_count q) 0) as [_|Hfc].
  - destruct (IH (sp_next q) fuel Hc) as (sp & E & Hsp); [lia|]. exists sp. split; [done|].
    destruct Hsp as [?|[? ?]]; [by left|right]. split; [by right|done].
  - exists a. split; [done|]. right. split; [by left|]. by exists q.
Qed.

Definition same_live objs objs' : Prop := ∀ q k, live objs' q k ↔ live objs q k.

(** What an allocation gives: a fresh block of [n] bytes, or NULL. *)
Record alloc_result (h : heap A) (ptr n : Z) (h' : heap A) : Prop := {
  ar_inv : heap_inv h';
  ar_mem : ∀ a, a < heap_cursor h → hp_mem h' a = hp_mem h a;
  ar_cursor : heap_cursor h ≤ heap_cursor h';
  ar_live : (ptr = 0 ∧ same_live (hp_objs h) (hp_objs h'))
    ∨ (ptr ≠ 0 ∧ (∀ k, ¬ live (hp_objs h) ptr k)
       ∧ ∀ q k, live (hp_objs h') q k ↔ live (hp_objs h) q k ∨ (q = ptr ∧ k = n));
}.

Lemma free_list_slab_insert objs head l x a p :
  (∀ lh, objs !! a ≠ Some (OLarge lh)) → free_list objs head l x → free_list (<[a := OSlab p]> objs) head l x.
Proof.
  intros Ha (Hd & Hnd & Hl).
  assert (∀ b lh, <[a := OSlab p]> objs !! b = Some (OLarge lh) ↔ objs !! b = Some (OLarge lh)) as Hb.
  { intros b lh. destruct (decide (b = a)) as [->|]; [|by rewrite lookup_insert_ne].
    rewrite lookup_insert_eq. split; [done|]. by intros ?%Ha. }
  split_and!; [|done|].
  - eapply dseg_ext; [|exact Hd]. intros b (lh & Hlh & _)%(dseg_member _ _ _ _ _ _ Hd).
    rewrite Hlh. by apply Hb.
  - intros b. rewrite Hl. by setoid_rewrite Hb.
Qed.

(** A new slab page at the old cursor. *)
Lemma slab_grow h h1 order :
  heap_inv h → SLAB_MIN_ORDER ≤ order ≤ SLAB_MAX_ORDER → heap_vm_ok h1 →
  hp_objs h1 = hp_objs h → slab_classes h1 = slab_classes h → large_free_list h1 = large_free_list h →
  heap_cursor h1 = heap_cursor h + PAGE_SIZE →
  let p := {| sp_magic := SLAB_PAGE_MAGIC; sp_order := order; sp_obj_size := u16 (Z.shiftl 1 order);
              sp_capacity := slab_cap order; sp_free_count := slab_cap order; sp_first_free := 0;
              sp_next := slab_classes h (order - SLAB_MIN_ORDER); sp_bitmap := λ _, 0 |} in
  let objs' := <[heap_cursor h := OSlab p]> (hp_objs h) in
  heap_inv (set_class (set_objs h1 objs') (order - SLAB_MIN_ORDER) (heap_cursor h))
  ∧ same_live (hp_objs h) objs'.
Proof.
  intros Hi Ho Hvm Eo Ec Ef Ecur p objs'. pose proof (slab_fresh_wf order (slab_classes h (order - SLAB_MIN_ORDER)) Ho) as Hp.
  fold p in Hp. pose proof (hv_cursor _ (hi_vm _ _ Hi)) as Hcur. pose proof (hv_align _ (hi_vm _ _ Hi)) as Hal.
  assert (hp_objs h !! heap_cursor h = None) as Hnone.
  { apply eq_None_not_Some. intros [o Hs]. apply (inv_obj_range 0 h _ _ Hi) in Hs. lia. }
  assert (objs_wf objs' (heap_cursor h1)) as Hw.
  { apply (objs_wf_grow (hp_objs h)); [apply Hi|lia|done|done|done|done|done]. }
  assert (∀ a, a ≠ heap_cursor h → slab_key objs' a = slab_key (hp_objs h) a) as Hkey.
  { intros a Ha. unfold slab_key, objs'. by rewrite lookup_insert_ne. }
  assert (slab_key objs' (heap_cursor h) = Some (order, slab_classes h (order - SLAB_MIN_ORDER))) as Hkeyn.
  { unfold slab_key, objs'. by rewrite lookup_insert_eq. }
  split.
  - split.
    + destruct Hvm as [H1 H2 H3 H4]. split; [exact H1|exact H2|exact H3|exact H4].
    + exact Hw.
    + intros c Hc. cbn [set_class set_objs hp_objs slab_classes]. rewrite Ec.
      destruct (hi_slabs _ _ Hi c Hc) as (l & Hch & Hnd & Hl).
      assert (heap_cursor h ∉ l) as Hnin.
      { intros (n & Hk)%Hl. unfold slab_key in Hk. by rewrite Hnone in Hk. }
      assert (chain objs' (slab_classes h c) l) as Hch'.
      { eapply chain_ext; [|exact Hch]. intros a Ha. apply Hkey. by intros ->. }
      destruct (decide (c = order - SLAB_MIN_ORDER)) as [->|Hne].
      * rewrite upd_eq. exists (heap_cursor h :: l). split_and!.
        -- simpl. split; [done|]. eexists _, _. split; [exact Hkeyn|done].
        -- by constructor.
        -- intros a. rewrite elem_of_cons, Hl. destruct (decide (a = heap_cursor h)) as [->|Ha].
           { rewrite Hkeyn. split; [|by left]. intros _. eexists. do 2 f_equal. lia. }
           rewrite Hkey by done. naive_solver.
      * rewrite upd_ne by done. exists l. split_and!; [done|done|]. intros a.
        destruct (decide (a = heap_cursor h)) as [->|Ha]; [|by rewrite Hkey].
        rewrite Hkeyn. split; [done|]. intros (n & [= ? _]). lia.
    + destruct (hi_free _ _ Hi) as (l & Hl). exists l. cbn [set_class set_objs hp_objs large_free_list]. rewrite Ef.
      apply free_list_slab_insert; [|done]. intros lh. by rewrite Hnone.
  - intros q k. destruct (decide (q / PAGE_SIZE * PAGE_SIZE = heap_cursor h)) as [E|E].
    + unfold live. rewrite E. unfold objs'. rewrite lookup_insert_eq, Hnone. split; [|done].
      intros (_ & idx & _ & Hfr & _). unfold is_free in Hfr. cbn [sp_bitmap p] in Hfr. by rewrite Z.bits_0 in Hfr.
    + apply live_same. unfold objs'. by rewrite lookup_insert_ne.
Qed.

Lemma get_slab_set h a p : page_mapped h a = true →
  get_slab (set_objs h (<[a := OSlab p]> (hp_objs h))) a = Some p.
Proof.
  intros Hm. apply get_slab_mapped; [exact Hm|]. apply lookup_insert_eq.
Qed.

Lemma inv_vm_only h h1 :
  heap_inv h → heap_vm_ok h1 → hp_objs h1 = hp_objs h → slab_classes h1 = slab_classes h →
  large_free_list h1 = large_free_list h → heap_cursor h1 = heap_cursor h → heap_inv h1.
Proof.
  intros Hi Hvm Eo Ec Ef Ecur. split; [done| | |].
  - rewrite Eo, Ecur. apply Hi.
  - intros c Hc. rewrite Eo, Ec. by apply Hi.
  - rewrite Eo, Ef. apply Hi.
Qed.

Lemma slab_pick_spec h order :
  heap_inv h → SLAB_MIN_ORDER ≤ order ≤ SLAB_MAX_ORDER → frames_for 1 h →
  ∃ sp h1, slab_pick order h = Some (sp, h1) ∧ heap_inv h1
    ∧ (∀ a, a < heap_cursor h → hp_mem h1 a = hp_mem h a) ∧ heap_cursor h ≤ heap_cursor h1
    ∧ same_live (hp_objs h) (hp_objs h1)
    ∧ page_cost 1 sp h h1
    ∧ (sp = 0 ∨ ∃ p, hp_objs h1 !! sp = Some (OSlab p) ∧ sp_order p = order ∧ sp_free_count p ≠ 0).
Proof.
  intros Hi Ho Hfr. unfold slab_pick. set (cls := order - SLAB_MIN_ORDER).
  assert (0 ≤ cls < SLAB_CLASSES) as Hcls.
  { unfold cls, SLAB_CLASSES, SLAB_MIN_ORDER, SLAB_MAX_ORDER in *. lia. }
  rewrite aget_Some by done. cbn [mbind option_bind].
  destruct (hi_slabs _ _ Hi cls Hcls) as (l & Hch & Hnd & Hl).
  destruct (slab_find_spec 0 h (slab_classes h cls) l (S (size (hp_objs h))) Hi Hch) as (sp & -> & Hsp).
  { pose proof (chain_length _ _ _ Hch Hnd). lia. }
  cbn [mbind option_bind]. destruct Hsp as [->|(Hin & q & Hq & Hfc)]; last first.
  { pose proof (inv_nonzero 0 h sp _ Hi Hq) as Hnz. apply Z.eqb_neq in Hnz as Hnz'. rewrite Hnz'.
    exists sp, h. split_and!; [done|done|done|done|done|split_and!; [done|lia|unfold PAGE_SIZE; lia]|]. right. exists q. split_and!; [done| |done].
    apply Hl in Hin as (n & (q' & Hq' & Hord & _)%slab_key_Some). rewrite Hq in Hq'. injection Hq' as <-.
    unfold cls in Hord. lia. }
  cbn [Z.eqb]. unfold slab_new_page.
  destruct (heap_map_pages_spec h 1 (hi_vm _ _ Hi)) as (p & h1 & -> & Hvm & Eo & Ec & Ef & Hmem & Hfs & Hres); [lia|done|].
  cbn [mbind option_bind]. destruct Hres as [(-> & Hroom & Ecur)|(-> & Ecur & _)].
  { cbn [Z.eqb mbind option_bind]. exists 0, h1. split_and!; [done|by eapply inv_vm_only|done|lia| |split_and!; [done|lia|unfold PAGE_SIZE; lia]|by left].
    by rewrite Eo. }
  pose proof (hv_cursor _ (hi_vm _ _ Hi)) as Hcur.
  assert (heap_cursor h ≠ 0) as Hnz by (unfold HEAP_VIRT_BASE in *; lia). apply Z.eqb_neq in Hnz. rewrite Hnz.
  destruct (slab_cap_loop_ok order Ho) as (-> & _ & Hcap). cbn [mbind option_bind].
  assert (page_mapped h1 (heap_cursor h) = true) as Hm1.
  { apply (hv_mapped _ Hvm). unfold PAGE_SIZE in *. lia. }
  rewrite put_obj_mapped by done. cbn [mbind option_bind]. rewrite Hnz.
  rewrite get_slab_set by done. cbn [mbind option_bind].
  rewrite put_obj_mapped by exact Hm1. cbn [mbind option_bind].
  cbn [set_objs hp_objs slab_classes sp_magic sp_order sp_obj_size sp_capacity sp_free_count sp_first_free sp_bitmap].
  rewrite insert_insert_eq. fold cls.
  destruct (slab_grow h h1 order Hi Ho Hvm Eo Ec Ef) as [Hinv Hlive]; [lia|].
  rewrite Eo, Ec. eexists _, _. split; [reflexivity|].
  cbn [set_class set_objs hp_objs hp_mem heap_cursor]. split_and!; [exact Hinv|done|unfold PAGE_SIZE in *; lia|done| |].
  { split_and!; [intros E; by apply Z.eqb_neq in Hnz|exact Hfs|cbn [set_class set_objs heap_cursor]; lia]. }
  right. rewrite lookup_insert_eq. eexists. split; [reflexivity|]. split; [done|]. cbn. lia.
Qed.

(** Changing one slab page without touching its links. *)
Lemma inv_slab_update h sp p p' :
  heap_inv h → hp_objs h !! sp = Some (OSlab p) → slab_wf p' →
  sp_order p' = sp_order p → sp_next p' = sp_next p →
  heap_inv (set_objs h (<[sp := OSlab p']> (hp_objs h))).
Proof.
  intros Hi Hp Hp' Ho Hn.
  replace (set_objs h (<[sp := OSlab p']> (hp_objs h)))
    with (set_free_list (set_objs h (<[sp := OSlab p']> (hp_objs h))) (large_free_list h)) by (by destruct h).
  apply (inv_update 0); [done| | |].
  - eapply objs_wf_replace; [apply Hi|done|done|done].
  - intros a. unfold slab_key. destruct (decide (a = sp)) as [->|]; [|by rewrite lookup_insert_ne].
    rewrite lookup_insert_eq, Hp. by rewrite Ho, Hn.
  - destruct (hi_free _ _ Hi) as (l & Hl). exists l. apply free_list_slab_insert; [|done].
    intros lh. by rewrite Hp.
Qed.

Lemma slab_alloc_spec h order :
  heap_inv h → SLAB_MIN_ORDER ≤ order ≤ SLAB_MAX_ORDER → frames_for 1 h →
  ∃ ptr h', slab_alloc order h = Some (ptr, h') ∧ alloc_result h ptr (2 ^ order) h' ∧ page_cost 1 ptr h h'.
Proof.
  intros Hi Ho Hfr. unfold slab_alloc.
  destruct (slab_pick_spec h order Hi Ho Hfr) as (sp & h1 & -> & Hi1 & Hmem & Hcur & Hlive & Hcost & Hsp).
  cbn [mbind option_bind]. destruct Hsp as [->|(p & Hp & Hord & Hfc)].
  { cbn [Z.eqb]. exists 0, h1. split_and!; [done| |done]. split; [done|done|done|by left]. }
  pose proof (inv_nonzero 0 h1 sp _ Hi1 Hp) as Hnz. apply Z.eqb_neq in Hnz as ->.
  assert (page_mapped h1 sp = true) as Hm by (apply (inv_mapped 0 h1 Hi1); by eexists).
  rewrite (get_slab_mapped h1 sp p Hm Hp). cbn [mbind option_bind].
  pose proof (ow_obj _ _ (hi_objs _ _ Hi1) sp _ Hp) as Hpw. cbn [obj_wf] in Hpw.
  destruct (ow_base _ _ (hi_objs _ _ Hi1) sp _ Hp) as [Hb Hal].
  pose proof (slab_wf_geometry p Hpw) as Hg. pose proof (slab_count_range p Hpw).
  destruct (slab_slot_spec (Z.to_nat (slab_bitmap_words p)) (sp_first_free p / 64) 0 p Hpw)
    as (idx & -> & Hidx & Hfree); [| |rewrite Z2Nat.id; [lia|]|lia|lia|].
  1,3: rewrite (sg_words _ Hg); pose proof (sw_hint _ Hpw); pose proof (sg_cap _ Hg);
    Z.to_euclidean_division_equations; lia.
  { lia. }
  rewrite put_obj_mapped by done. cbn [mbind option_bind]. set (p' := sp_take p (idx / 64) (idx mod 64) idx).
  assert (slab_wf p') as Hpw' by (by apply sp_take_wf).
  assert (∀ i, slab_object sp p' i = slab_object sp p i) as Hobj by done.
  destruct (slab_object_place sp p idx Hpw Hal Hidx) as (_ & Hlo & _ & Hpage).
  eexists _, _. split; [reflexivity|].
  split; [|split; [rewrite Hobj; intros Hz; unfold HEAP_VIRT_BASE, SLAB_HDR_SIZE in *; lia|apply Hcost]]. split.
  - by eapply inv_slab_update.
  - exact Hmem.
  - exact Hcur.
  - right. rewrite Hobj. split_and!.
    + unfold HEAP_VIRT_BASE, SLAB_HDR_SIZE in *. lia.
    + intros k Hk. apply Hlive in Hk. unfold live in Hk. rewrite Hpage, Hp in Hk.
      destruct Hk as (_ & j & Hj & Hused & E).
      apply (slab_object_inj sp p idx j Hpw Hal Hidx Hj) in E as <-. congruence.
    + intros q k. cbn [set_objs hp_objs]. rewrite <-(Hlive q k). unfold live.
      destruct (decide (q / PAGE_SIZE * PAGE_SIZE = sp)) as [E|E].
      * rewrite E, lookup_insert_eq, Hp. change (sp_obj_size p') with (sp_obj_size p).
        change (sp_capacity p') with (sp_capacity p). rewrite (sw_size _ Hpw), Hord. split.
        -- intros (-> & j & Hj & Hused & Eq). unfold p' in Hused. rewrite sp_take_free in Hused by lia.
           destruct (Z.eqb_spec j idx) as [->|]; [by right|]. left. split; [done|]. by exists j.
        -- intros [(-> & j & Hj & Hused & Eq)|(-> & ->)]; (split; [done|]).
           ++ exists j. split; [done|]. split; [|done]. unfold p'. rewrite sp_take_free by lia. by bool_cases.
           ++ exists idx. split; [done|]. split; [|done]. unfold p'. rewrite sp_take_free by lia. by rewrite Z.eqb_refl.
      * rewrite lookup_insert_ne by done. split; [by left|]. intros [?|(-> & _)]; [done|]. by rewrite Hpage in E.
Qed.
End inv.
