(* ===== verification/HeapOps.v ===== *)
(** Release and large allocation of the kernel heap (kernel/mm/heap.c):
    specifications of [slab_free], [large_free] and [large_alloc], and of the
    public functions over them. *)
From stdpp Require Import prelude gmap.
From S2P Require Import Prelude CString FrameAlloc Bitmap Vmm VmmWf VmmSpec VmmRange Heap HeapMap HeapSlab HeapList HeapInv.

Section ops.
Context {A : Type} `{FrameAllocator A}.
Implicit Types (h : heap A).

(** What a release gives: the block is gone, everything else is as before. *)
Record free_result (h : heap A) (ptr : Z) (h' : heap A) : Prop := {
  fr_inv : heap_inv h';
  fr_mem : ∀ a, hp_mem h' a = hp_mem h a;
  fr_cursor : heap_cursor h' = heap_cursor h;
  fr_vm : hp_vm h' = hp_vm h;
  fr_live : ∀ q k, live (hp_objs h') q k ↔ live (hp_objs h) q k ∧ q ≠ ptr;
}.

Lemma inv_align_down h a o ptr :
  heap_inv h → hp_objs h !! a = Some o → a ≤ ptr < a + PAGE_SIZE → ALIGN_DOWN ptr PAGE_SIZE = ptr / PAGE_SIZE * PAGE_SIZE.
Proof.
  intros Hi Ha Hp. destruct (inv_obj_range 0 h a o Hi Ha) as [Hr He].
  destruct (ow_extent _ _ (hi_objs _ _ Hi) a o Ha) as (He' & _).
  pose proof (hv_cursor _ (hi_vm _ _ Hi)). apply ALIGN_DOWN_page.
  unfold HEAP_END, HEAP_VIRT_BASE, HEAP_MAX_SIZE, PAGE_SIZE in *. lia.
Qed.

Lemma get_magic_obj h a o :
  heap_inv h → hp_objs h !! a = Some o →
  get_magic h a = Some (match o with OSlab sp => sp_magic sp | OLarge lh => lh_magic lh end).
Proof.
  intros Hi Ha. unfold get_magic. rewrite get_obj_mapped by (apply (inv_mapped 0 h Hi); by eexists).
  by rewrite Ha.
Qed.

(** ** Slots *)

(** [slab_free] on the address of a slot. *)
Lemma slab_free_slot h a p idx :
  heap_inv h → hp_objs h !! a = Some (OSlab p) → 0 ≤ idx < sp_capacity p →
  slab_free (slab_object a p idx) h
  = Some (true, if is_free (sp_bitmap p) idx then h
                else set_objs h (<[a := OSlab (sp_release p idx)]> (hp_objs h))).
Proof.
  intros Hi Ha Hidx. pose proof (ow_obj _ _ (hi_objs _ _ Hi) a _ Ha) as Hp. cbn [obj_wf] in Hp.
  destruct (ow_base _ _ (hi_objs _ _ Hi) a _ Ha) as [Hb Hal].
  destruct (slab_object_place a p idx Hp Hal Hidx) as (E & Hlo & Hhi & Hpage).
  pose proof (slab_wf_geometry p Hp) as Hg. pose proof (sg_size _ Hg) as Hsz. pose proof (sg_cap _ Hg).
  pose proof (sg_off _ Hg) as Hoff. unfold slab_free.
  rewrite (inv_align_down h a _ _ Hi Ha) by (unfold SLAB_HDR_SIZE, PAGE_SIZE in *; lia). rewrite Hpage.
  rewrite (get_magic_obj h a _ Hi Ha). cbn [mbind option_bind]. rewrite (sw_magic _ Hp), Z.eqb_refl. cbn [negb].
  assert (page_mapped h a = true) as Hm by (apply (inv_mapped 0 h Hi); by eexists).
  rewrite (get_slab_mapped h a p Hm Ha). cbn [mbind option_bind].
  rewrite E. destruct (Z.ltb_spec (a + slab_data_off p + idx * sp_obj_size p) (a + slab_data_off p)); [nia|].
  replace (a + slab_data_off p + idx * sp_obj_size p - (a + slab_data_off p)) with (idx * sp_obj_size p) by lia.
  rewrite Z.mod_mul, Z.div_mul by lia. cbn [Z.eqb negb].
  rewrite u16_small by lia. destruct (Z.leb_spec (sp_capacity p) idx); [lia|].
  rewrite mask_test by (apply Z.mod_pos_bound; lia). fold (is_free (sp_bitmap p) idx).
  destruct (is_free (sp_bitmap p) idx); [done|]. rewrite put_obj_mapped by done. done.
Qed.

Lemma slab_release_result h a p idx :
  heap_inv h → hp_objs h !! a = Some (OSlab p) → 0 ≤ idx < sp_capacity p → is_free (sp_bitmap p) idx = false →
  free_result h (slab_object a p idx) (set_objs h (<[a := OSlab (sp_release p idx)]> (hp_objs h))).
Proof.
  intros Hi Ha Hidx Hused. pose proof (ow_obj _ _ (hi_objs _ _ Hi) a _ Ha) as Hp. cbn [obj_wf] in Hp.
  destruct (ow_base _ _ (hi_objs _ _ Hi) a _ Ha) as [Hb Hal].
  destruct (slab_object_place a p idx Hp Hal Hidx) as (_ & _ & _ & Hpage).
  split; [|done|done|done|].
  - eapply inv_slab_update; [done|done|by apply sp_release_wf|done|done].
  - intros q k. cbn [set_objs hp_objs]. unfold live.
    destruct (decide (q / PAGE_SIZE * PAGE_SIZE = a)) as [E|E].
    + rewrite E, lookup_insert_eq, Ha. change (sp_obj_size (sp_release p idx)) with (sp_obj_size p).
      change (sp_capacity (sp_release p idx)) with (sp_capacity p).
      change (slab_object a (sp_release p idx)) with (slab_object a p). split.
      * intros (-> & j & Hj & Hju & Eq). rewrite sp_release_free in Hju by (done || lia).
        destruct (Z.eqb_spec j idx) as [->|Hne]; [done|]. split; [split; [done|by exists j]|].
        rewrite Eq. by intros ->%(slab_object_inj a p j idx Hp Hal Hj Hidx).
      * intros [(-> & j & Hj & Hju & Eq) Hne]. split; [done|]. exists j. split; [done|]. split; [|done].
        rewrite sp_release_free by (done || lia). destruct (Z.eqb_spec j idx) as [->|]; [congruence|done].
    + rewrite lookup_insert_ne by done. split; [|by intros [? _]]. intros Hl. split; [done|].
      intros ->. by rewrite Hpage in E.
Qed.

(** ** Free blocks *)

Lemma dseg_length (objs : gmap Z hobj) p pv l q : dseg objs p pv l q → NoDup l → (length l ≤ size objs)%nat.
Proof.
  intros Hd Hnd. rewrite <-size_dom, <-(size_list_to_set (C:=gset Z) l Hnd). apply subseteq_size.
  intros a. rewrite elem_of_list_to_set, elem_of_dom. intros Ha.
  destruct (dseg_member _ _ _ _ _ a Hd Ha) as (lh & ? & _). by eexists.
Qed.

Definition block_size (objs : gmap Z hobj) (a n : Z) : Prop := ∃ lh, objs !! a = Some (OLarge lh) ∧ lh_size lh = n.

(** The best-fit search answers a smallest block that is large enough. *)
Lemma large_best_spec h fuel p pv l best total :
  all_mapped h → dseg (hp_objs h) p pv l 0 → (length l < fuel)%nat → (∀ a, a ∈ l → a ≠ 0) →
  (best = 0 ∨ best ≠ 0 ∧ ∃ n, block_size (hp_objs h) best n ∧ total ≤ n) →
  ∃ b, large_best fuel p best total h = Some b
    ∧ ((b = 0 ∧ best = 0 ∧ ∀ a n, a ∈ l → block_size (hp_objs h) a n → n < total)
       ∨ (b ≠ 0 ∧ (b ∈ l ∨ b = best) ∧ ∃ n, block_size (hp_objs h) b n ∧ total ≤ n
          ∧ (∀ m, best ≠ 0 → block_size (hp_objs h) best m → n ≤ m)
          ∧ ∀ a m, a ∈ l → block_size (hp_objs h) a m → total ≤ m → n ≤ m)).
Proof.
  intros Hmap. revert fuel p pv best.
  induction l as [|a l IH]; intros [|fuel] p pv best Hd Hf Hnz Hbest; simpl in Hf; try lia; cbn [large_best].
  { simpl in Hd. subst p. exists best. split; [done|].
    destruct Hbest as [->|(Hb & n & Hn & Hle)]; [left|right].
    - split_and!; [done|done|by intros ? ? ?%not_elem_of_nil].
    - split_and!; [done|by right|]. exists n. split_and!; [done|done| |by intros ? ? ?%not_elem_of_nil].
      intros m _ (lh & Hl & <-). destruct Hn as (lh' & Hl' & <-). rewrite Hl in Hl'. injection Hl' as <-. lia. }
  destruct Hd as [-> (lh & Hlh & Hmag & Hprev & Hd)].
  assert (a ≠ 0) as Ha0 by (apply Hnz; set_solver). apply Z.eqb_neq in Ha0 as Ha0'. rewrite Ha0'.
  rewrite (get_large_mapped h a lh) by (done || apply Hmap; by eexists). cbn [mbind option_bind].
  assert (∀ n, block_size (hp_objs h) a n → n = lh_size lh) as Hsa.
  { intros n (lh' & Hl' & <-). rewrite Hlh in Hl'. by injection Hl' as <-. }
  assert (block_size (hp_objs h) a (lh_size lh)) as Hba by (by exists lh).
  assert (∃ best', (if total <=? lh_size lh then if best =? 0 then Some a
       else b ← get_large h best; Some (if lh_size lh <? lh_size b then a else best) else Some best) = Some best'
     ∧ (best' = 0 ∧ best = 0 ∧ lh_size lh < total
        ∨ best' ≠ 0 ∧ (best' = a ∨ best' = best) ∧ ∃ n, block_size (hp_objs h) best' n ∧ total ≤ n
          ∧ (∀ m, best ≠ 0 → block_size (hp_objs h) best m → n ≤ m) ∧ (total ≤ lh_size lh → n ≤ lh_size lh)))
    as (best' & -> & Hbest').
  { destruct (Z.leb_spec total (lh_size lh)) as [Hle|Hgt].
    - destruct Hbest as [->|(Hb & n & (lhb & Hlb & <-) & Hn)].
      + exists a. split; [done|]. right. split_and!; [done|by left|]. exists (lh_size lh). by split_and!.
      + apply Z.eqb_neq in Hb as Hb'. rewrite Hb'.
        rewrite (get_large_mapped h best lhb) by (done || apply Hmap; by eexists). cbn [mbind option_bind].
        eexists. split; [reflexivity|]. right.
        assert (∀ m, block_size (hp_objs h) best m → m = lh_size lhb) as Hsb.
        { intros m (lh' & Hl' & <-). rewrite Hlb in Hl'. by injection Hl' as <-. }
        destruct (Z.ltb_spec (lh_size lh) (lh_size lhb)) as [Hlt|Hge].
        * split_and!; [done|by left|]. exists (lh_size lh). split_and!; [done|done| |lia].
          intros m _ ->%Hsb. lia.
        * split_and!; [done|by right|]. exists (lh_size lhb). split_and!; [by exists lhb|done| |lia].
          intros m _ ->%Hsb. lia.
    - exists best. split; [done|]. destruct Hbest as [->|(Hb & n & Hn & Hle)]; [by left|]. right.
      split_and!; [done|by right|]. exists n. split_and!; [done|done| |lia].
      intros m _ (lh' & Hl' & <-). destruct Hn as (lhb & Hl & <-). rewrite Hl in Hl'. injection Hl' as <-. lia. }
  cbn [mbind option_bind].
  destruct (IH fuel (lh_next lh) a best' Hd) as (b & E & Hb); [lia|set_solver| |].
  { destruct Hbest' as [(-> & _)|(? & _ & n & ? & ? & _)]; [by left|]. right. split; [done|]. by exists n. }
  exists b. split; [done|]. destruct Hb as [(-> & -> & Hall)|(Hb0 & Hin & n & Hn & Hle & Hbm & Hall)].
  - left. destruct Hbest' as [(_ & -> & Hlt)|(? & _)]; [|done]. split_and!; [done|done|].
    intros c m [->|Hc]%elem_of_cons Hcm; [by rewrite (Hsa m Hcm)|by eapply Hall].
  - right. split_and!; [done| |].
    { destruct Hin as [?| ->]; [left; by right|]. destruct Hbest' as [(? & _)|(_ & [->| ->] & _)]; [done| |by right].
      left. by left. }
    exists n. split_and!; [done|done| |].
    + intros m Hbz Hm. destruct Hbest' as [(_ & ? & _)|(Hz & _ & n' & Hn' & _ & Hmin & _)]; [done|].
      transitivity n'; [by apply Hbm|by apply Hmin].
    + intros c m [->|Hc]%elem_of_cons Hcm Hcle; [|by eapply Hall].
      apply Hsa in Hcm as ->. destruct Hbest' as [(_ & _ & ?)|(Hz & _ & n' & Hn' & _ & _ & Hmin)]; [lia|].
      transitivity n'; [by apply Hbm|by apply Hmin].
Qed.

(** ** Taking a block *)

Lemma large_shape_free (objs objs' : gmap Z hobj) a :
  same_shape objs objs' →
  (∃ lh, objs' !! a = Some (OLarge lh) ∧ lh_magic lh = HEAP_MAGIC_FREE)
  ↔ (∃ lh, objs !! a = Some (OLarge lh) ∧ lh_magic lh = HEAP_MAGIC_FREE).
Proof.
  intros Hs. split; intros (lh & Hl & Hm).
  - symmetry in Hs. destruct (same_shape_large _ _ _ _ Hs Hl) as (lh' & ? & ? & _). exists lh'. split; [done|congruence].
  - destruct (same_shape_large _ _ _ _ Hs Hl) as (lh' & ? & ? & _). exists lh'. split; [done|congruence].
Qed.

Lemma magic_differs : HEAP_MAGIC_ALLOC ≠ HEAP_MAGIC_FREE.
Proof. done. Qed.

(** Marking the block that is not on the free list as allocated. *)
Lemma mark_alloc h best b :
  heap_inv_x best h → hp_objs h !! best = Some (OLarge b) → lh_magic b = HEAP_MAGIC_FREE →
  let b' := {| lh_magic := HEAP_MAGIC_ALLOC; lh_size := lh_size b; lh_next := 0; lh_prev := 0 |} in
  let objs' := <[best := OLarge b']> (hp_objs h) in
  put_large h best b' = Some (set_objs h objs') ∧ heap_inv (set_objs h objs')
  ∧ (∀ k, ¬ live (hp_objs h) (best + LARGE_HDR_SIZE) k)
  ∧ ∀ q k, live objs' q k ↔ live (hp_objs h) q k ∨ (q = best + LARGE_HDR_SIZE ∧ k = lh_size b - LARGE_HDR_SIZE).
Proof.
  intros Hi Hb Hm b' objs'. destruct (ow_base _ _ (hi_objs _ _ Hi) best _ Hb) as [Hbase Hal].
  pose proof (large_place best Hal) as Hpl.
  assert (page_mapped h best = true) as Hmap by (apply (inv_mapped best h Hi); by eexists).
  split_and!.
  - unfold put_large. by rewrite put_obj_mapped.
  - replace (set_objs h objs') with (set_free_list (set_objs h objs') (large_free_list h)) by (by destruct h).
    apply (inv_update best); [done| | |].
    + eapply objs_wf_replace; [apply Hi|done|done|by right].
    + intros a. unfold slab_key, objs'. destruct (decide (a = best)) as [->|]; [|by rewrite lookup_insert_ne].
      by rewrite lookup_insert_eq, Hb.
    + destruct (hi_free _ _ Hi) as (l & Hd & Hnd & Hl). exists l.
      assert (best ∉ l) as Hnin by (intros [? _]%Hl; done).
      split_and!; [|done|].
      * eapply dseg_ext; [|exact Hd]. intros a Ha. apply lookup_insert_ne. by intros ->.
      * intros a. rewrite Hl. unfold objs'. destruct (decide (a = best)) as [->|Hne].
        -- rewrite lookup_insert_eq. split; [by intros [? _]|]. intros [_ (lh & [= <-] & ?)]. done.
        -- rewrite lookup_insert_ne by done. split; intros [_ (lh & Hlh & ?)]; (split; [|by exists lh]); [|done].
           eapply (inv_nonzero best h a); eauto.
  - intros k. unfold live. rewrite Hpl, Hb, Hm. by intros [? _].
  - intros q k. unfold live. destruct (decide (q / PAGE_SIZE * PAGE_SIZE = best)) as [E|E].
    + rewrite E. unfold objs'. rewrite lookup_insert_eq, Hb, Hm. cbn [lh_magic lh_size b']. split.
      * intros (_ & -> & ->). by right.
      * intros [[? _]|[-> ->]]; done.
    + unfold objs'. rewrite lookup_insert_ne by done. split; [by left|]. intros [?|[-> _]]; [done|].
      by rewrite Hpl in E.
Qed.

(** Cutting the rest of a block off and putting it on the free list. *)
Lemma large_split h best b total :
  heap_inv_x best h → hp_objs h !! best = Some (OLarge b) → lh_magic b = HEAP_MAGIC_FREE →
  0 < total < lh_size b → total mod PAGE_SIZE = 0 →
  ∃ h1 b1, (ha ← put_large h (best + total) {| lh_magic := 0; lh_size := u64 (lh_size b - total); lh_next := 0; lh_prev := 0 |};
            hb ← put_large ha best (lh_set_size b total); large_insert_free (best + total) hb) = Some h1
    ∧ heap_inv_x best h1 ∧ hp_objs h1 !! best = Some (OLarge b1) ∧ lh_magic b1 = HEAP_MAGIC_FREE
    ∧ lh_size b1 = total ∧ hp_mem h1 = hp_mem h ∧ heap_cursor h1 = heap_cursor h ∧ hp_vm h1 = hp_vm h
    ∧ same_live (hp_objs h) (hp_objs h1).
Proof.
  intros Hi Hb Hm Ht Htm. set (objs := hp_objs h) in *.
  destruct (ow_extent _ _ (hi_objs _ _ Hi) best _ Hb) as (He & Hem & Hlim). cbn [extent] in *.
  destruct (ow_base _ _ (hi_objs _ _ Hi) best _ Hb) as [Hbase Hal].
  pose proof (hv_cursor _ (hi_vm _ _ Hi)) as Hcur.
  set (lh2 := {| lh_magic := HEAP_MAGIC_FREE; lh_size := lh_size b - total; lh_next := 0; lh_prev := 0 |}).
  destruct (objs_wf_split objs (heap_cursor h) best b total (lh_set_size b total) lh2 (hi_objs _ _ Hi) Hb Ht Htm)
    as [Hnone Hw]; [done|done|by left|by left|].
  remember (best + total) as rem eqn:Hrem. assert (rem ≠ best) as Hne by lia.
  assert (u64 (lh_size b - total) = lh_size b - total) as ->.
  { apply u64_small. unfold HEAP_END, HEAP_VIRT_BASE, HEAP_MAX_SIZE in *. lia. }
  assert (∀ o, page_mapped (set_objs h o) rem = true ∧ page_mapped (set_objs h o) best = true) as Hmap.
  { intros o. split; apply (hv_mapped _ (hi_vm _ _ Hi)); lia. }
  set (raw := {| lh_magic := 0; lh_size := lh_size b - total; lh_next := 0; lh_prev := 0 |}).
  unfold put_large. rewrite put_obj_mapped by apply (Hmap objs). cbn [mbind option_bind].
  rewrite put_obj_mapped by apply Hmap. cbn [mbind option_bind].
  set (objs2 := <[best := OLarge (lh_set_size b total)]> (<[rem := OLarge raw]> objs)).
  match goal with |- context [large_insert_free rem ?x] => change x with (set_objs h objs2) end.
  destruct (hi_free _ _ Hi) as (l & Hd & Hnd & Hl).
  assert (best ∉ l) as Hbl by (intros [? _]%Hl; done).
  assert (rem ∉ l) as Hrl by (intros [_ (lh & Hlh & _)]%Hl; fold objs in Hlh; congruence).
  assert (∀ a, a ∈ l → a ≠ 0) as Hnz.
  { intros a [_ (lh & Hlh & _)]%Hl. by eapply inv_nonzero. }
  destruct (large_insert_free_spec (set_objs h objs2) rem raw l) as (objs3 & -> & Hd3 & Hsh).
  - intros a [o Ha]. cbn [set_objs hp_objs] in Ha.
    apply lookup_insert_Some in Ha as [[<- _]|[_ [[<- _]|[_ Ha]]%lookup_insert_Some]]; [apply Hmap|apply Hmap|].
    apply (inv_mapped best h Hi). by eexists.
  - cbn [set_objs hp_objs]. unfold objs2. rewrite lookup_insert_ne by done. by rewrite lookup_insert_eq.
  - unfold HEAP_VIRT_BASE in *. lia.
  - cbn [set_objs hp_objs large_free_list]. eapply dseg_ext; [|exact Hd]. intros a Ha. unfold objs2.
    rewrite !lookup_insert_ne; [done| |]; by intros ->.
  - done.
  - done.
  - done.
  - cbn [set_objs hp_objs] in Hsh.
    assert (same_shape (<[best := OLarge (lh_set_size b total)]> (<[rem := OLarge lh2]> objs)) objs3) as Hsh'.
    { intros a. rewrite Hsh. unfold objs2. f_equal. destruct (decide (a = rem)) as [->|].
      - by rewrite lookup_insert_eq, lookup_insert_ne, lookup_insert_eq.
      - rewrite (lookup_insert_ne _ rem a) by done. destruct (decide (a = best)) as [->|].
        + by rewrite !lookup_insert_eq.
        + by rewrite !lookup_insert_ne. }
    destruct (same_shape_large _ _ best (lh_set_size b total) Hsh' (lookup_insert_eq _ _ _)) as (b1 & Hb1 & Hm1 & Hs1).
    eexists _, b1. split; [reflexivity|]. cbn [set_free_list set_objs hp_objs hp_mem heap_cursor hp_vm].
    split_and!; [|done|by rewrite Hm1|by rewrite Hs1|done|done|done|].
    + change (set_free_list (set_objs (set_objs h objs2) objs3) rem) with (set_free_list (set_objs h objs3) rem).
      apply (inv_update best); [done|by eapply objs_wf_shape| |].
      * intros a. rewrite (same_shape_key _ _ _ Hsh'). fold objs. unfold slab_key.
        destruct (decide (a = best)) as [->|]; [by rewrite lookup_insert_eq, Hb|].
        rewrite lookup_insert_ne by done. destruct (decide (a = rem)) as [->|]; [by rewrite lookup_insert_eq, Hnone|].
        by rewrite lookup_insert_ne.
      * exists (rem :: l). split_and!; [done|by constructor|]. intros a. rewrite elem_of_cons, Hl.
        rewrite (large_shape_free _ _ a Hsh'). fold objs. destruct (decide (a = best)) as [->|].
        { split; [|by intros [? _]]. intros [->|[? _]]; done. }
        rewrite lookup_insert_ne by done. destruct (decide (a = rem)) as [->|].
        { rewrite lookup_insert_eq. split; [|by left]. intros _. split; [done|]. by exists lh2. }
        rewrite lookup_insert_ne by done. naive_solver.
    + intros q k. rewrite (live_shape _ _ q k Hsh'). fold objs. unfold live.
      destruct (decide (q / PAGE_SIZE * PAGE_SIZE = best)) as [->|]; [rewrite lookup_insert_eq, Hb; cbn; rewrite Hm; naive_solver|].
      rewrite lookup_insert_ne by done.
      destruct (decide (q / PAGE_SIZE * PAGE_SIZE = rem)) as [->|]; [rewrite lookup_insert_eq, Hnone; cbn; naive_solver|].
      by rewrite lookup_insert_ne.
Qed.

Lemma large_take_spec h best b total :
  heap_inv_x best h → hp_objs h !! best = Some (OLarge b) → lh_magic b = HEAP_MAGIC_FREE →
  0 < total ≤ lh_size b → total mod PAGE_SIZE = 0 →
  ∃ h' n, large_take best total h = Some (best + LARGE_HDR_SIZE, h') ∧ heap_inv h'
    ∧ hp_mem h' = hp_mem h ∧ heap_cursor h' = heap_cursor h ∧ hp_vm h' = hp_vm h
    ∧ total - LARGE_HDR_SIZE ≤ n
    ∧ (∀ k, ¬ live (hp_objs h) (best + LARGE_HDR_SIZE) k)
    ∧ ∀ q k, live (hp_objs h') q k ↔ live (hp_objs h) q k ∨ (q = best + LARGE_HDR_SIZE ∧ k = n).
Proof.
  intros Hi Hb Hm Ht Htm. unfold large_take.
  assert (∀ h1 b1, heap_inv_x best h1 → hp_objs h1 !! best = Some (OLarge b1) → get_large h1 best = Some b1) as Hget.
  { intros h1 b1 Hi1 Hb1. apply get_large_mapped; [|done]. apply (inv_mapped best h1 Hi1). by eexists. }
  rewrite (Hget h b Hi Hb). cbn [mbind option_bind].
  destruct (ow_extent _ _ (hi_objs _ _ Hi) best _ Hb) as (He & Hem & Hlim). cbn [extent] in *.
  destruct (ow_base _ _ (hi_objs _ _ Hi) best _ Hb) as [Hbase _].
  pose proof (hv_cursor _ (hi_vm _ _ Hi)) as Hcur.
  rewrite (u64_small (total + PAGE_SIZE)) by (unfold HEAP_END, HEAP_VIRT_BASE, HEAP_MAX_SIZE, PAGE_SIZE in *; lia).
  rewrite u64_small by (unfold HEAP_END, HEAP_VIRT_BASE, HEAP_MAX_SIZE, PAGE_SIZE, LARGE_HDR_SIZE in *; lia).
  destruct (Z.leb_spec (total + PAGE_SIZE + LARGE_HDR_SIZE) (lh_size b)) as [Hle|Hgt].
  - destruct (large_split h best b total Hi Hb Hm) as (h1 & b1 & E & Hi1 & Hb1 & Hm1 & Hs1 & Emem & Ecur & Evm & Hlive);
      [unfold PAGE_SIZE, LARGE_HDR_SIZE in *; lia|done|].
    cbv zeta. rewrite E. cbn [mbind option_bind]. rewrite (Hget h1 b1 Hi1 Hb1). cbn [mbind option_bind].
    destruct (mark_alloc h1 best b1 Hi1 Hb1 Hm1) as (-> & Hinv & Hno & Hl). cbn [mbind option_bind].
    eexists _, (total - LARGE_HDR_SIZE). split; [reflexivity|]. cbn [set_objs hp_mem heap_cursor hp_objs].
    split_and!; [done|done|done|done|lia| |].
    + intros k Hk. apply (Hno k), Hlive, Hk.
    + intros q k. rewrite Hl, (Hlive q k), Hs1. done.
  - cbn [mbind option_bind]. rewrite (Hget h b Hi Hb). cbn [mbind option_bind].
    destruct (mark_alloc h best b Hi Hb Hm) as (-> & Hinv & Hno & Hl). cbn [mbind option_bind].
    eexists _, (lh_size b - LARGE_HDR_SIZE). split; [reflexivity|]. cbn [set_objs hp_mem heap_cursor hp_objs].
    split_and!; [done|done|done|done|lia|done|done].
Qed.

(** ** [large_alloc] and [large_free] *)

(** A free block that was just unlinked. *)
Lemma unlink_inv h best objs' p l1 l2 :
  heap_inv h → free_list (hp_objs h) (large_free_list h) (l1 ++ best :: l2) 0 →
  dseg objs' p 0 (l1 ++ l2) 0 → same_shape (hp_objs h) objs' →
  heap_inv_x best (set_free_list (set_objs h objs') p).
Proof.
  intros Hi (_ & Hnd & Hl) Hd Hsh. apply (inv_update 0); [done| | |].
  - by eapply objs_wf_shape; [|apply Hi].
  - intros a. by apply same_shape_key.
  - exists (l1 ++ l2). apply NoDup_app in Hnd as (Hnd1 & Hdis & [Hb2 Hnd2]%NoDup_cons).
    split_and!; [done| |].
    + apply NoDup_app. split_and!; [done| |done]. intros a Ha Ha2. apply (Hdis a Ha). by right.
    + intros a. rewrite (large_shape_free _ _ a Hsh).
      assert (best ∉ l1 ++ l2) as Hnin.
      { rewrite elem_of_app. intros [Hin|Hin]; [|done]. apply (Hdis best Hin). by left. }
      specialize (Hl a). rewrite elem_of_app, elem_of_cons in Hl. rewrite elem_of_app. split.
      * intros Hin. split; [intros ->; apply Hnin; by rewrite elem_of_app|].
        assert (a ∈ l1 ∨ a = best ∨ a ∈ l2) as Ha by (destruct Hin; auto). apply Hl in Ha as [_ ?]. done.
      * intros [Hne Hf]. destruct Hl as [_ Hl]. destruct Hl as [?|[?|?]]; [|by left|done|by right].
        split; [|done]. destruct Hf as (lh & Hlh & _). by eapply inv_nonzero.
Qed.

(** A fresh block at the old cursor. *)
Lemma large_grow h h1 n :
  heap_inv h → heap_vm_ok h1 → hp_objs h1 = hp_objs h → slab_classes h1 = slab_classes h →
  large_free_list h1 = large_free_list h → heap_cursor h1 = heap_cursor h + n → PAGE_SIZE ≤ n → n mod PAGE_SIZE = 0 →
  let b := {| lh_magic := HEAP_MAGIC_FREE; lh_size := n; lh_next := 0; lh_prev := 0 |} in
  let objs' := <[heap_cursor h := OLarge b]> (hp_objs h) in
  heap_inv_x (heap_cursor h) (set_objs h1 objs') ∧ same_live (hp_objs h) objs'.
Proof.
  intros Hi Hvm Eo Ec Ef Ecur Hn Hnm b objs'.
  pose proof (hv_cursor _ (hi_vm _ _ Hi)) as Hcur. pose proof (hv_align _ (hi_vm _ _ Hi)) as Hal.
  assert (hp_objs h !! heap_cursor h = None) as Hnone.
  { apply eq_None_not_Some. intros [o Hs]. apply (inv_obj_range 0 h _ _ Hi) in Hs. lia. }
  split.
  - split.
    + destruct Hvm as [H1 H2 H3 H4]. split; [exact H1|exact H2|exact H3|exact H4].
    + cbn [set_objs hp_objs heap_cursor].
      apply (objs_wf_grow (hp_objs h)); [apply Hi|lia|done|done|done|done|by left].
    + intros c Hc. cbn [set_objs hp_objs slab_classes]. rewrite Ec.
      eapply slab_list_ext; [|apply (hi_slabs _ _ Hi c Hc)]. intros a. unfold slab_key, objs'.
      destruct (decide (a = heap_cursor h)) as [->|]; [by rewrite lookup_insert_eq, Hnone|].
      by rewrite lookup_insert_ne.
    + destruct (hi_free _ _ Hi) as (l & Hd & Hnd & Hl). exists l. cbn [set_objs hp_objs large_free_list]. rewrite Ef.
      assert (heap_cursor h ∉ l) as Hnin by (intros [_ (? & ? & _)]%Hl; congruence).
      split_and!; [|done|].
      * eapply dseg_ext; [|exact Hd]. intros a Ha. apply lookup_insert_ne. by intros <-.
      * intros a. rewrite Hl. unfold objs'. destruct (decide (a = heap_cursor h)) as [->|].
        -- rewrite Hnone. split; [by intros [_ (? & ? & _)]|by intros [? _]].
        -- rewrite lookup_insert_ne by done. split; intros [_ Hx]; (split; [|done]); [done|].
           destruct Hx as (lh & Hlh & _). by eapply inv_nonzero.
  - intros q k. destruct (decide (q / PAGE_SIZE * PAGE_SIZE = heap_cursor h)) as [E|E].
    + unfold live. rewrite E. unfold objs'. rewrite lookup_insert_eq, Hnone. split; [|done]. by intros [? _].
    + apply live_same. unfold objs'. by rewrite lookup_insert_ne.
Qed.

(** The pages a large request of [size_] bytes takes. *)
Definition large_pages (size_ : Z) : Z := (size_ + LARGE_HDR_SIZE + PAGE_SIZE - 1) / PAGE_SIZE.

Lemma large_total size_ :
  0 < size_ < 2 ^ 38 - 2 ^ 13 →
  ALIGN_UP (u64 (size_ + LARGE_HDR_SIZE)) PAGE_SIZE = large_pages size_ * PAGE_SIZE
  ∧ 0 < large_pages size_ ≤ 2 ^ 26 ∧ size_ + LARGE_HDR_SIZE ≤ large_pages size_ * PAGE_SIZE.
Proof.
  intros Hs. unfold large_pages. rewrite u64_small by (unfold LARGE_HDR_SIZE; lia).
  rewrite ALIGN_UP_page by (unfold LARGE_HDR_SIZE, PAGE_SIZE; lia).
  unfold LARGE_HDR_SIZE, PAGE_SIZE. split; [done|]. Z.to_euclidean_division_equations; lia.
Qed.

Lemma large_alloc_spec h size_ :
  heap_inv h → 0 < size_ < 2 ^ 38 - 2 ^ 13 → frames_for (large_pages size_) h →
  ∃ ptr h' n, large_alloc size_ h = Some (ptr, h') ∧ alloc_result h ptr n h' ∧ size_ ≤ n
    ∧ page_cost (large_pages size_) ptr h h'.
Proof.
  intros Hi Hs Hfr. unfold large_alloc. destruct (large_total size_ Hs) as (-> & Hp & Hle). cbv zeta.
  set (n := large_pages size_) in *. pose proof (inv_mapped 0 h Hi) as Hmap.
  destruct (hi_free _ _ Hi) as (l & Hl). pose proof Hl as (Hd & Hnd & Hmem).
  assert (∀ a, a ∈ l → a ≠ 0) as Hnz by (intros a [? _]%Hmem; done).
  destruct (large_best_spec h (S (size (hp_objs h))) (large_free_list h) 0 l 0 (n * PAGE_SIZE) Hmap Hd)
    as (best & -> & Hbest); [pose proof (dseg_length _ _ _ _ _ Hd Hnd); lia|done|by left|].
  cbn [mbind option_bind].
  assert (n * PAGE_SIZE / PAGE_SIZE = n) as Hdiv by (by apply Z.div_mul).
  assert ((n * PAGE_SIZE) mod PAGE_SIZE = 0) as Hmod by (by apply Z.mod_mul).
  destruct Hbest as [(-> & _)|(Hb0 & Hin & m & (b & Hb & <-) & Hfit & _)].
  - cbn [Z.eqb]. rewrite Hdiv.
    destruct (heap_map_pages_spec h n (hi_vm _ _ Hi)) as (p & h1 & -> & Hvm & Eo & Ec & Ef & Hm1 & Hfs & Hres); [lia|done|].
    cbn [mbind option_bind]. destruct Hres as [(-> & Hroom & Ecur)|(-> & Ecur & _)].
    { cbn [Z.eqb]. exists 0, h1, size_. split_and!; [done| |lia|split_and!; [done|exact Hfs|unfold PAGE_SIZE; lia]]. split; [by eapply inv_vm_only|done|lia|].
      left. split; [done|]. by rewrite Eo. }
    pose proof (hv_cursor _ (hi_vm _ _ Hi)) as Hcur.
    assert (heap_cursor h ≠ 0) as Hcz by (unfold HEAP_VIRT_BASE in *; lia). apply Z.eqb_neq in Hcz. rewrite Hcz.
    rewrite u64_small by (unfold PAGE_SIZE; lia). unfold put_large.
    rewrite put_obj_mapped by (apply (hv_mapped _ Hvm); unfold PAGE_SIZE in *; lia). cbn [mbind option_bind].
    destruct (large_grow h h1 (n * PAGE_SIZE) Hi Hvm Eo Ec Ef Ecur) as [Hix Hlive];
      [unfold PAGE_SIZE; lia|done|]. rewrite Eo.
    destruct (large_take_spec _ _ _ (n * PAGE_SIZE) Hix (lookup_insert_eq _ _ _)) as (h' & k & -> & Hinv & Em & Ecu & Evm & Hk & Hno & Hl');
      [done|cbn [lh_size]; unfold PAGE_SIZE in *; lia|done|].
    cbn [set_objs hp_objs hp_mem heap_cursor] in *.
    exists (heap_cursor h + LARGE_HDR_SIZE), h', k.
    split_and!; [done| |lia|split; [unfold LARGE_HDR_SIZE, HEAP_VIRT_BASE in *; lia|split; [rewrite Evm; exact Hfs|lia]]]. split.
    + done.
    + intros a Ha. rewrite Em. by apply Hm1.
    + rewrite Ecu, Ecur. unfold PAGE_SIZE in *. lia.
    + right. split_and!.
      * unfold LARGE_HDR_SIZE, HEAP_VIRT_BASE in *. lia.
      * intros j Hj. apply (Hno j), Hlive, Hj.
      * intros q j. rewrite Hl', (Hlive q j). done.
  - destruct Hin as [Hin| ->]; [|done]. apply Z.eqb_neq in Hb0 as Hb0'. rewrite Hb0'.
    apply list_elem_of_split in Hin as (l1 & l2 & ->).
    destruct (large_remove_free_spec h best b l1 l2 Hmap Hb Hd Hnd Hnz) as (objs' & p & -> & Hd' & Hsh).
    cbn [mbind option_bind]. pose proof (unlink_inv h best objs' p l1 l2 Hi Hl Hd' Hsh) as Hix.
    destruct (same_shape_large _ _ _ _ Hsh Hb) as (b' & Hb' & Hbm & Hbs).
    assert (lh_magic b = HEAP_MAGIC_FREE) as Hbf.
    { destruct (Hmem best) as [[_ (lh & Hlh & ?)] _]; [set_solver|]. congruence. }
    destruct (large_take_spec _ best b' (n * PAGE_SIZE) Hix Hb') as (h' & k & -> & Hinv & Em & Ecu & Evm & Hk & Hno & Hl');
      [congruence|unfold PAGE_SIZE in *; lia|done|].
    cbn [set_free_list set_objs hp_objs hp_mem heap_cursor] in *.
    destruct (inv_obj_range 0 h best _ Hi Hb) as [Hbr _]. exists (best + LARGE_HDR_SIZE), h', k.
    split_and!; [done| |lia|split; [unfold LARGE_HDR_SIZE, HEAP_VIRT_BASE in *; lia|split; [rewrite Evm; cbn; lia|unfold PAGE_SIZE; lia]]]. split.
    + done.
    + intros a _. by rewrite Em.
    + lia.
    + right. split_and!.
      * unfold LARGE_HDR_SIZE, HEAP_VIRT_BASE in *. lia.
      * intros j Hj. apply (Hno j). by rewrite (live_shape _ _ _ _ Hsh).
      * intros q j. by rewrite Hl', (live_shape _ _ _ _ Hsh).
Qed.

Lemma large_free_live h a lh :
  heap_inv h → hp_objs h !! a = Some (OLarge lh) → lh_magic lh = HEAP_MAGIC_ALLOC →
  ∃ h', large_free (a + LARGE_HDR_SIZE) h = Some h' ∧ free_result h (a + LARGE_HDR_SIZE) h'
    ∧ ∃ lh', hp_objs h' !! a = Some (OLarge lh') ∧ lh_magic lh' = HEAP_MAGIC_FREE.
Proof.
  intros Hi Ha Hm. unfold large_free. destruct (inv_obj_range 0 h a _ Hi Ha) as [Hr _].
  destruct (ow_base _ _ (hi_objs _ _ Hi) a _ Ha) as [Hbase Hal]. pose proof (hv_cursor _ (hi_vm _ _ Hi)) as Hcur.
  replace (a + LARGE_HDR_SIZE - LARGE_HDR_SIZE) with a by lia.
  rewrite u64_small by (unfold HEAP_END, HEAP_VIRT_BASE, HEAP_MAX_SIZE in *; lia).
  pose proof (inv_mapped 0 h Hi) as Hmap.
  rewrite (get_large_mapped h a lh) by (done || apply Hmap; by eexists). cbn [mbind option_bind].
  rewrite Hm. cbn [negb Z.eqb Pos.eqb HEAP_MAGIC_ALLOC HEAP_MAGIC_FREE].
  destruct (hi_free _ _ Hi) as (l & Hd & Hnd & Hl).
  assert (a ∉ l) as Hnin by (intros [_ (lh' & Hlh' & Hm')]%Hl; rewrite Ha in Hlh'; injection Hlh' as <-; rewrite Hm in Hm'; by apply magic_differs).
  destruct (large_insert_free_spec h a lh l Hmap Ha) as (objs' & -> & Hd' & Hsh);
    [unfold HEAP_VIRT_BASE in *; lia|done|done|done|by intros b [? _]%Hl|].
  set (fr := {| lh_magic := HEAP_MAGIC_FREE; lh_size := lh_size lh; lh_next := 0; lh_prev := 0 |}) in *.
  eexists. split; [reflexivity|]. split; [split; [|done|done|done|]|].
  - apply (inv_update 0); [done| | |].
    + eapply objs_wf_shape; [exact Hsh|]. eapply objs_wf_replace; [apply Hi|done|done|by left].
    + intros b. rewrite (same_shape_key _ _ _ Hsh). unfold slab_key.
      destruct (decide (b = a)) as [->|]; [by rewrite lookup_insert_eq, Ha|by rewrite lookup_insert_ne].
    + exists (a :: l). split_and!; [done|by constructor|]. intros b. rewrite elem_of_cons, Hl.
      rewrite (large_shape_free _ _ b Hsh). destruct (decide (b = a)) as [->|].
      * rewrite lookup_insert_eq. split; [|by left]. intros _.
        split; [unfold HEAP_VIRT_BASE in *; lia|]. by exists fr.
      * rewrite lookup_insert_ne by done. naive_solver.
  - intros q k. cbn [set_free_list set_objs hp_objs]. rewrite (live_shape _ _ q k Hsh). unfold live.
    destruct (decide (q / PAGE_SIZE * PAGE_SIZE = a)) as [E|E].
    + rewrite E, lookup_insert_eq, Ha. split; [by intros [? _]|]. intros [(_ & -> & _) Hne]. done.
    + rewrite lookup_insert_ne by done. split; [|by intros [? _]]. intros Hq. split; [done|]. intros ->.
      by rewrite large_place in E.
  - cbn [set_free_list set_objs hp_objs].
    destruct (same_shape_large _ _ a fr Hsh (lookup_insert_eq _ _ _)) as (lh' & ? & ? & _). by exists lh'.
Qed.
End ops.
