(* ===== verification/HeapApi.v ===== *)
(** Blocks of kernel/mm/heap.c and the specifications of its public functions. *)
From stdpp Require Import prelude gmap.
From S2P Require Import Prelude CString FrameAlloc Bitmap Pmm Vmm VmmWf VmmSpec VmmRange Heap HeapMap HeapSlab HeapList HeapInv HeapOps.

(** ** Blocks *)

(** [n] bytes from [p] and [k] bytes from [q] have no byte in common. *)
Definition apart (p n q k : Z) : Prop := p + n ≤ q ∨ q + k ≤ p.

Section blocks.
Context {A : Type} `{FrameAllocator A}.
Implicit Types (h : heap A).

(** A live block lies behind the header of one object, inside the object. *)
Lemma live_in_object h p n :
  heap_inv h → live (hp_objs h) p n →
  ∃ o, hp_objs h !! (p / PAGE_SIZE * PAGE_SIZE) = Some o
    ∧ p / PAGE_SIZE * PAGE_SIZE + LARGE_HDR_SIZE ≤ p < p / PAGE_SIZE * PAGE_SIZE + PAGE_SIZE
    ∧ 0 < n ∧ p + n ≤ p / PAGE_SIZE * PAGE_SIZE + extent o.
Proof.
  intros Hi Hl. unfold live in Hl. remember (p / PAGE_SIZE * PAGE_SIZE) as a eqn:Epage.
  destruct (hp_objs h !! a) as [o|] eqn:Ha; [|done]. exists o. split; [done|].
  destruct (ow_base _ _ (hi_objs _ _ Hi) a o Ha) as [_ Hal].
  destruct (ow_extent _ _ (hi_objs _ _ Hi) a o Ha) as [He _]. pose proof (ow_obj _ _ (hi_objs _ _ Hi) a o Ha) as Hw.
  destruct o as [sp|lh]; cbn [extent obj_wf] in *.
  - destruct Hl as (-> & idx & Hidx & _ & ->). destruct (slab_object_place a sp idx Hw Hal Hidx) as (_ & ? & ? & _).
    pose proof (sg_size _ (slab_wf_geometry sp Hw)). unfold SLAB_HDR_SIZE, LARGE_HDR_SIZE in *. lia.
  - destruct Hl as (_ & -> & ->). unfold LARGE_HDR_SIZE, PAGE_SIZE in *. lia.
Qed.

Lemma live_range h p n :
  heap_inv h → live (hp_objs h) p n → HEAP_VIRT_BASE < p ∧ 0 < n ∧ p + n ≤ heap_cursor h ≤ HEAP_END.
Proof.
  intros Hi Hl. destruct (live_in_object h p n Hi Hl) as (o & Ho & Hp & Hn & He).
  destruct (inv_obj_range 0 h _ o Hi Ho). pose proof (hv_cursor _ (hi_vm _ _ Hi)).
  unfold LARGE_HDR_SIZE in *. lia.
Qed.

Lemma live_fun objs p n k : live objs p n → live objs p k → n = k.
Proof. unfold live. destruct (objs !! _) as [[]|]; naive_solver. Qed.

Lemma live_apart h p n q k :
  heap_inv h → live (hp_objs h) p n → live (hp_objs h) q k → p ≠ q → apart p n q k.
Proof.
  intros Hi Hp Hq Hne. destruct (live_in_object h p n Hi Hp) as (o & Ho & Hpa & _ & Hpe).
  destruct (live_in_object h q k Hi Hq) as (o' & Ho' & Hqa & _ & Hqe). unfold apart.
  set (a := p / PAGE_SIZE * PAGE_SIZE) in *. set (b := q / PAGE_SIZE * PAGE_SIZE) in *.
  assert (Hdis := ow_disj _ _ (hi_objs _ _ Hi)). unfold LARGE_HDR_SIZE, PAGE_SIZE in Hpa, Hqa.
  destruct (Z.lt_trichotomy a b) as [Hlt|[Hab|Hlt]].
  - pose proof (Hdis a b o Ho ltac:(by eexists) Hlt). lia.
  - unfold live in Hp, Hq. fold a in Hp. fold b in Hq. rewrite <-Hab in Hq. rewrite Ho in Hp, Hq.
    destruct (ow_base _ _ (hi_objs _ _ Hi) a o Ho) as [_ Hal]. pose proof (ow_obj _ _ (hi_objs _ _ Hi) a o Ho) as Hw.
    destruct o as [sp|lh]; [|lia]. cbn [obj_wf] in Hw.
    destruct Hp as (-> & i & Hii & _ & Ep), Hq as (-> & j & Hj & _ & Eq).
    destruct (slab_object_place a sp i Hw Hal Hii) as (Ei & _).
    destruct (slab_object_place a sp j Hw Hal Hj) as (Ej & _).
    assert (i ≠ j) by (intros ->; congruence). pose proof (sg_size _ (slab_wf_geometry sp Hw)).
    rewrite Ep, Eq, Ei, Ej. nia.
  - pose proof (Hdis b a o' Ho' ltac:(by eexists) Hlt). lia.
Qed.

(** 8-byte alignment of every block. *)
Lemma live_aligned h p n : heap_inv h → live (hp_objs h) p n → p mod 16 = 0.
Proof.
  intros Hi Hl. unfold live in Hl. remember (p / PAGE_SIZE * PAGE_SIZE) as a eqn:Epage.
  destruct (hp_objs h !! a) as [o|] eqn:Ha; [|done].
  destruct (ow_base _ _ (hi_objs _ _ Hi) a o Ha) as [_ Hal].
  pose proof (ow_obj _ _ (hi_objs _ _ Hi) a o Ha) as Hw.
  assert (a mod 16 = 0) as Ha16 by (unfold PAGE_SIZE in *; Z.to_euclidean_division_equations; lia).
  destruct o as [sp|lh]; cbn [obj_wf] in *.
  - destruct Hl as (-> & idx & Hidx & _ & ->). destruct (slab_object_place a sp idx Hw Hal Hidx) as (-> & _).
    destruct (sg_align _ (slab_wf_geometry sp Hw)) as [H1 H2].
    rewrite Z.add_mod, (Z.add_mod a), Ha16, H1, Z.mul_mod, H2, Z.mul_0_r by lia. done.
  - destruct Hl as (_ & -> & _). unfold LARGE_HDR_SIZE.
    by rewrite Z.add_mod, Ha16 by lia.
Qed.

(** ** [kmalloc] *)

Lemma slab_order_bounds fuel order size_ :
  0 ≤ order ≤ SLAB_MAX_ORDER → SLAB_MAX_ORDER - order < Z.of_nat fuel → size_ ≤ LARGE_THRESHOLD →
  order ≤ slab_order fuel order size_ ≤ SLAB_MAX_ORDER ∧ size_ ≤ 2 ^ slab_order fuel order size_.
Proof.
  revert order. induction fuel as [|f IH]; intros order Ho Hf Hs; [lia|]. cbn [slab_order].
  rewrite Z.shiftl_1_l. destruct (Z.ltb_spec (2 ^ order) size_) as [Hlt|]; cbn [andb]; [|split; [lia|done]].
  destruct (Z.leb_spec order SLAB_MAX_ORDER); [|lia].
  assert (order ≠ SLAB_MAX_ORDER) by (intros ->; unfold SLAB_MAX_ORDER, LARGE_THRESHOLD in *; lia).
  destruct (IH (order + 1)) as [? ?]; [lia|lia|done|]. split; [lia|done].
Qed.

Lemma slab_order_spec size_ :
  0 < size_ ≤ LARGE_THRESHOLD →
  let order := slab_order (Z.to_nat (SLAB_CLASSES + 1)) SLAB_MIN_ORDER size_ in
  SLAB_MIN_ORDER ≤ order ≤ SLAB_MAX_ORDER ∧ size_ ≤ 2 ^ order.
Proof. intros Hs. apply slab_order_bounds; [done|done|lia]. Qed.

(** The pages a request may add to the heap. *)
Definition request_pages (size_ : Z) : Z :=
  if size_ <=? LARGE_THRESHOLD then 1 else large_pages size_.

Lemma kmalloc_spec h size_ :
  heap_inv h → 0 < size_ < 2 ^ 38 - 2 ^ 13 → frames_for (request_pages size_) h →
  ∃ ptr h' n, kmalloc size_ h = Some (ptr, h') ∧ alloc_result h ptr n h' ∧ size_ ≤ n
    ∧ page_cost (request_pages size_) ptr h h'.
Proof.
  intros Hi Hs Hfr. unfold kmalloc, request_pages in *.
  destruct (Z.eqb_spec size_ 0); [lia|]. destruct (Z.leb_spec size_ LARGE_THRESHOLD) as [Hle|Hgt].
  - destruct (slab_order_spec size_ ltac:(lia)) as [Ho Hsz].
    set (order := slab_order _ _ _) in *. destruct (Z.leb_spec order SLAB_MAX_ORDER); [|lia].
    destruct (slab_alloc_spec h order Hi Ho Hfr) as (ptr & h' & E & Har & ?). by exists ptr, h', (2 ^ order).
  - by apply large_alloc_spec.
Qed.

(** ** [kfree] *)

Lemma magic_slab_differs : HEAP_MAGIC_ALLOC ≠ SLAB_PAGE_MAGIC ∧ HEAP_MAGIC_FREE ≠ SLAB_PAGE_MAGIC.
Proof. by vm_compute. Qed.

Lemma slab_free_large h a lh :
  heap_inv h → hp_objs h !! a = Some (OLarge lh) → slab_free (a + LARGE_HDR_SIZE) h = Some (false, h).
Proof.
  intros Hi Ha. destruct (ow_base _ _ (hi_objs _ _ Hi) a _ Ha) as [_ Hal].
  pose proof (ow_obj _ _ (hi_objs _ _ Hi) a _ Ha) as Hw. destruct magic_slab_differs as [H1 H2].
  unfold slab_free. rewrite (inv_align_down h a _ _ Hi Ha) by (unfold LARGE_HDR_SIZE, PAGE_SIZE; lia).
  rewrite large_place by done. rewrite (get_magic_obj h a _ Hi Ha). cbn [mbind option_bind].
  destruct (Z.eqb_spec (lh_magic lh) SLAB_PAGE_MAGIC); [|done]. destruct Hw; congruence.
Qed.

Lemma large_free_free h a lh :
  heap_inv h → hp_objs h !! a = Some (OLarge lh) → lh_magic lh = HEAP_MAGIC_FREE →
  large_free (a + LARGE_HDR_SIZE) h = Some h.
Proof.
  intros Hi Ha Hm. destruct (inv_obj_range 0 h a _ Hi Ha) as [Hr _]. pose proof (hv_cursor _ (hi_vm _ _ Hi)).
  unfold large_free. replace (a + LARGE_HDR_SIZE - LARGE_HDR_SIZE) with a by lia.
  rewrite u64_small by (unfold HEAP_END, HEAP_VIRT_BASE, HEAP_MAX_SIZE in *; lia).
  rewrite (get_large_mapped h a lh) by (done || apply (inv_mapped 0 h Hi); by eexists). cbn [mbind option_bind].
  by rewrite Hm, Z.eqb_refl.
Qed.

Lemma kfree_spec h p n :
  heap_inv h → live (hp_objs h) p n →
  ∃ h', kfree p h = Some h' ∧ free_result h p h' ∧ kfree p h' = Some h'.
Proof.
  intros Hi Hl. destruct (live_range h p n Hi Hl) as (Hr & _ & _).
  assert (p ≠ 0) as Hp0%Z.eqb_neq by (unfold HEAP_VIRT_BASE in *; lia).
  unfold kfree. rewrite Hp0. unfold live in Hl. remember (p / PAGE_SIZE * PAGE_SIZE) as a eqn:Epage.
  destruct (hp_objs h !! a) as [[sp|lh]|] eqn:Ha; [| |done].
  - destruct Hl as (-> & idx & Hidx & Hused & ->).
    pose proof (slab_release_result h a sp idx Hi Ha Hidx Hused) as Hfr.
    rewrite (slab_free_slot h a sp idx Hi Ha Hidx), Hused. cbn [mbind option_bind].
    eexists. split; [reflexivity|]. split; [exact Hfr|].
    set (h' := set_objs _ _) in *. assert (hp_objs h' !! a = Some (OSlab (sp_release sp idx))) as Ha'
      by apply lookup_insert_eq.
    pose proof (slab_free_slot h' a _ idx (fr_inv _ _ _ Hfr) Ha' Hidx) as E.
    change (slab_object a (sp_release sp idx)) with (slab_object a sp) in E. rewrite E. cbn [mbind option_bind].
    pose proof (ow_obj _ _ (hi_objs _ _ Hi) a _ Ha) as Hw. cbn [obj_wf] in Hw.
    rewrite sp_release_free by (done || lia). by rewrite Z.eqb_refl.
  - destruct Hl as (Hm & -> & ->). rewrite (slab_free_large h a lh Hi Ha). cbn [mbind option_bind].
    destruct (large_free_live h a lh Hi Ha Hm) as (h' & -> & Hfr & lh' & Ha' & Hm').
    exists h'. split_and!; [done|done|]. rewrite (slab_free_large h' a lh' (fr_inv _ _ _ Hfr) Ha').
    cbn [mbind option_bind]. exact (large_free_free h' a lh' (fr_inv _ _ _ Hfr) Ha' Hm').
Qed.

(** ** [krealloc] *)

Lemma inv_hmem h m : heap_inv h → heap_inv (set_hmem h m).
Proof.
  intros [[H1 H2 H3 H4] Ho Hs Hf]. split; [|exact Ho|exact Hs|exact Hf]. split; [exact H1|exact H2|exact H3|exact H4].
Qed.

(** What an allocation leaves alone: the contents of every live block. *)
Lemma alloc_keeps h ptr n h' q k a :
  heap_inv h → alloc_result h ptr n h' → live (hp_objs h) q k → q ≤ a < q + k → hp_mem h' a = hp_mem h a.
Proof. intros Hi Har Hq Ha. apply (ar_mem _ _ _ _ Har). destruct (live_range h q k Hi Hq). lia. Qed.

Lemma alloc_low h ptr n h' a : heap_inv h → alloc_result h ptr n h' → a < HEAP_VIRT_BASE → hp_mem h' a = hp_mem h a.
Proof. intros Hi Har Ha. apply (ar_mem _ _ _ _ Har). pose proof (hv_cursor _ (hi_vm _ _ Hi)). lia. Qed.

(** The block an allocation returns. *)
Lemma alloc_fresh h ptr n h' :
  alloc_result h ptr n h' → ptr ≠ 0 →
  live (hp_objs h') ptr n
  ∧ (∀ q k, live (hp_objs h) q k → live (hp_objs h') q k ∧ q ≠ ptr ∧ apart ptr n q k).
Proof.
  intros Har Hnz. destruct (ar_live _ _ _ _ Har) as [[? _]|(_ & Hno & Hl)]; [done|].
  assert (live (hp_objs h') ptr n) as Hp by (apply Hl; by right). split; [done|]. intros q k Hq.
  assert (live (hp_objs h') q k) as Hq' by (apply Hl; by left).
  assert (q ≠ ptr) as Hne by (intros ->; by apply (Hno k)). split_and!; [done|done|].
  eapply live_apart; [apply (ar_inv _ _ _ _ Har)|done|done|done].
Qed.

Lemma krealloc_old_size h p n :
  heap_inv h → live (hp_objs h) p n →
  (magic ← get_magic h (ALIGN_DOWN p PAGE_SIZE);
   if magic =? SLAB_PAGE_MAGIC then x ← get_slab h (ALIGN_DOWN p PAGE_SIZE); Some (sp_obj_size x)
   else lh ← get_large h (u64 (p - LARGE_HDR_SIZE)); Some (u64 (lh_size lh - LARGE_HDR_SIZE))) = Some n.
Proof.
  intros Hi Hl. destruct (live_in_object h p n Hi Hl) as (o & Ho & Hp & _ & _).
  rewrite (inv_align_down h _ _ p Hi Ho) by (unfold LARGE_HDR_SIZE in *; lia).
  rewrite (get_magic_obj h _ _ Hi Ho). cbn [mbind option_bind]. unfold live in Hl. rewrite Ho in Hl.
  destruct (inv_obj_range 0 h _ o Hi Ho) as [Hr He]. pose proof (hv_cursor _ (hi_vm _ _ Hi)) as Hcur.
  pose proof (ow_obj _ _ (hi_objs _ _ Hi) _ _ Ho) as Hw. destruct magic_slab_differs as [Hd _].
  destruct (ow_extent _ _ (hi_objs _ _ Hi) _ _ Ho) as [Hx _].
  set (a := p / PAGE_SIZE * PAGE_SIZE) in *.
  assert (page_mapped h a = true) as Hm by (apply (inv_mapped 0 h Hi); by eexists).
  destruct o as [sp|lh]; cbn [obj_wf extent] in *.
  - rewrite (sw_magic _ Hw), Z.eqb_refl, (get_slab_mapped h a sp Hm Ho). cbn [mbind option_bind].
    by destruct Hl as [-> _].
  - destruct Hl as (Hma & Ep & ->). rewrite Hma. apply Z.eqb_neq in Hd. rewrite Hd.
    replace (p - LARGE_HDR_SIZE) with a by lia.
    rewrite u64_small by (unfold HEAP_END, HEAP_VIRT_BASE, HEAP_MAX_SIZE in *; lia).
    rewrite (get_large_mapped h a lh Hm Ho). cbn [mbind option_bind].
    rewrite u64_small; [done|]. unfold HEAP_END, HEAP_VIRT_BASE, HEAP_MAX_SIZE, LARGE_HDR_SIZE, PAGE_SIZE in *. lia.
Qed.

(** The block [p] of [n] bytes has moved to [ret], where it has [k] bytes. *)
Record moved h (p n ret k : Z) h' : Prop := {
  mv_ret : ret ≠ 0;
  mv_apart : ∀ q j, live (hp_objs h) q j → q ≠ ret ∧ apart ret k q j;
  mv_live : ∀ q j, live (hp_objs h') q j ↔ (live (hp_objs h) q j ∧ q ≠ p) ∨ (q = ret ∧ j = k);
  mv_data : ∀ i, 0 ≤ i < n → hp_mem h' (ret + i) = hp_mem h (p + i);
  mv_other : ∀ q j a, live (hp_objs h) q j → q ≤ a < q + j → hp_mem h' a = hp_mem h a;
  mv_low : ∀ a, a < HEAP_VIRT_BASE → hp_mem h' a = hp_mem h a;
}.

Lemma krealloc_spec h p n new_size :
  heap_inv h → live (hp_objs h) p n → 0 < new_size < 2 ^ 38 - 2 ^ 13 → frames_for (request_pages new_size) h →
  ∃ ret h', krealloc p new_size h = Some (ret, h') ∧ heap_inv h'
    ∧ ((new_size ≤ n ∧ ret = p ∧ h' = h)
       ∨ (n < new_size ∧ alloc_result h 0 0 h' ∧ ret = 0)
       ∨ (n < new_size ∧ ∃ k, new_size ≤ k ∧ moved h p n ret k h')).
Proof.
  intros Hi Hl Hs Hfr. destruct (live_range h p n Hi Hl) as (Hp & Hn & _).
  pose proof (krealloc_old_size h p n Hi Hl) as Hold. unfold krealloc.
  assert (p ≠ 0) as ->%Z.eqb_neq by (unfold HEAP_VIRT_BASE in *; lia).
  destruct (Z.eqb_spec new_size 0); [lia|]. cbv zeta.
  destruct (get_magic h _) as [magic|]; [|done]. cbn [mbind option_bind] in *. rewrite Hold. cbn [mbind option_bind].
  destruct (Z.leb_spec new_size n) as [Hle|Hgt].
  { exists p, h. split_and!; [done|done|by left]. }
  destruct (kmalloc_spec h new_size Hi Hs Hfr) as (ret & h1 & k & -> & Har & Hk & _). cbn [mbind option_bind].
  destruct (Z.eqb_spec ret 0) as [->|Hr].
  { exists 0, h1. split_and!; [done|apply Har|]. right; left. split_and!; [done| |done].
    destruct Har as [? ? ? [[_ ?]|[? _]]]; [|done]. split; [done|done|done|by left]. }
  destruct (alloc_fresh h ret k h1 Har Hr) as [Hret Hap]. destruct (Hap p n Hl) as (Hp1 & Hne & Hpr).
  set (m := memcpy ret p n (hp_mem h1)). pose proof (inv_hmem h1 m (ar_inv _ _ _ _ Har)) as Him.
  destruct (kfree_spec (set_hmem h1 m) p n Him Hp1) as (h2 & -> & Hf & _). cbn [mbind option_bind].
  exists ret, h2. split_and!; [done|apply Hf|]. right; right. split; [done|]. exists k. split; [done|].
  assert (∀ a, m a = if (ret <=? a) && (a <? ret + n) then hp_mem h1 (p + (a - ret)) else hp_mem h1 a) as Hm.
  { intros a. apply memcpy_spec; [lia|]. unfold apart in Hpr. lia. }
  split.
  - done.
  - intros q j Hq. by apply Hap.
  - intros q j. rewrite (fr_live _ _ _ Hf). cbn [set_hmem hp_objs].
    destruct (ar_live _ _ _ _ Har) as [[? _]|(_ & _ & ->)]; [done|]. naive_solver.
  - intros i Hii. rewrite (fr_mem _ _ _ Hf). cbn [set_hmem hp_mem]. rewrite Hm.
    replace (p + (ret + i - ret)) with (p + i) by lia.
    destruct (Z.leb_spec ret (ret + i)); [|lia]. destruct (Z.ltb_spec (ret + i) (ret + n)); [|lia].
    cbn [andb]. eapply alloc_keeps; [done|done|exact Hl|lia].
  - intros q j a Hq Ha. rewrite (fr_mem _ _ _ Hf). cbn [set_hmem hp_mem]. rewrite Hm.
    destruct (Hap q j Hq) as (_ & _ & Hqr). unfold apart in Hqr.
    bool_cases; cbn [andb]; (lia || by eapply alloc_keeps).
  - intros a Ha. rewrite (fr_mem _ _ _ Hf). cbn [set_hmem hp_mem]. rewrite Hm.
    destruct (live_range h1 ret k (ar_inv _ _ _ _ Har) Hret). destruct (Z.leb_spec ret a); [lia|]. cbn [andb].
    apply (ar_mem _ _ _ _ Har). pose proof (hv_cursor _ (hi_vm _ _ Hi)). lia.
Qed.
End blocks.
