(* ===== verification/HeapRefine.v ===== *)
(** The abstract allocator that kernel/mm/heap.c implements: a finite map from
    block addresses to block contents, and the simulation between the two. *)
From stdpp Require Import prelude gmap.
From S2P Require Import Prelude CString FrameAlloc Bitmap Vmm VmmWf VmmSpec VmmRange Heap HeapMap HeapSlab HeapList HeapInv HeapOps HeapApi.

(** ** The abstract allocator *)

Inductive heap_op :=
  | Malloc (size_ : Z)
  | Zalloc (size_ : Z)
  | Free (ptr : Z)
  | Realloc (ptr new_size : Z).

Abbreviation blocks := (gmap Z (list Z)).
Implicit Types (B : blocks).

(** A block that shares no byte with the blocks of [B]. *)
Definition fresh_block B (ret : Z) (bs : list Z) : Prop :=
  ret ≠ 0 ∧ ∀ q bq, B !! q = Some bq → apart ret (Z.of_nat (length bs)) q (Z.of_nat (length bq)).

(** An allocation of at least [size_] bytes whose contents satisfy [P], or NULL. *)
Definition alloc_spec (P : list Z → Prop) B (size_ ret : Z) B' : Prop :=
  (ret = 0 ∧ B' = B)
  ∨ ∃ bs, fresh_block B ret bs ∧ size_ ≤ Z.of_nat (length bs) ∧ P bs ∧ B' = <[ret := bs]> B.

Definition block_spec (op : heap_op) B (ret : Z) B' : Prop :=
  match op with
  | Malloc size_ => alloc_spec (λ _, True) B size_ ret B'
  | Zalloc size_ =>
      alloc_spec (λ bs, take (Z.to_nat size_) bs = replicate (Z.to_nat size_) 0) B size_ ret B'
  | Free ptr => ret = 0 ∧ B' = delete ptr B
  | Realloc ptr new_size =>
      if ptr =? 0 then alloc_spec (λ _, True) B new_size ret B'
      else if new_size =? 0 then ret = 0 ∧ B' = delete ptr B
      else ∃ old, B !! ptr = Some old
        ∧ ((ret = ptr ∧ new_size ≤ Z.of_nat (length old) ∧ B' = B)
           ∨ (ret = 0 ∧ B' = B)
           ∨ ∃ bs, fresh_block B ret bs ∧ new_size ≤ Z.of_nat (length bs) ∧ take (length old) bs = old
               ∧ B' = <[ret := bs]> (delete ptr B))
  end.

Definition bytes_at (m : mem) (p n : Z) : list Z := (λ i, m (p + i)) <$> seqZ 0 n.

Lemma length_bytes_at m p n : 0 ≤ n → Z.of_nat (length (bytes_at m p n)) = n.
Proof. intros. unfold bytes_at. rewrite length_fmap, length_seqZ. lia. Qed.

Lemma bytes_at_ext m m' p n : (∀ a, p ≤ a < p + n → m' a = m a) → bytes_at m' p n = bytes_at m p n.
Proof. intros He. apply list_fmap_ext. intros j i [-> Hi]%lookup_seqZ. apply He. lia. Qed.

Lemma take_bytes_at m p n k : 0 ≤ k ≤ n → take (Z.to_nat k) (bytes_at m p n) = bytes_at m p k.
Proof.
  intros Hk. unfold bytes_at. rewrite <-fmap_take. f_equal.
  replace n with (k + (n - k)) by lia. rewrite seqZ_app by lia. apply take_app_length'. rewrite length_seqZ. lia.
Qed.

Lemma bytes_at_zero m p n : (∀ a, p ≤ a < p + n → m a = 0) → bytes_at m p n = replicate (Z.to_nat n) 0.
Proof.
  intros Hz. symmetry. apply replicate_as_elem_of. unfold bytes_at. split; [by rewrite length_fmap, length_seqZ|].
  intros x (i & -> & Hi%elem_of_seqZ)%list_elem_of_fmap. apply Hz. lia.
Qed.

Section refine.
Context {A : Type} `{FrameAllocator A}.
Implicit Types (h : heap A).

Definition heap_exec (op : heap_op) h : option (Z * heap A) :=
  match op with
  | Malloc size_ => kmalloc size_ h
  | Zalloc size_ => kzalloc size_ h
  | Free ptr => h' ← kfree ptr h; Some (0, h')
  | Realloc ptr new_size => krealloc ptr new_size h
  end.

(** Sizes below 256 GB, frames for the pages the request may need, and pointers
    that are NULL or live. *)
Definition request_ok (size_ : Z) h : Prop :=
  0 ≤ size_ < 2 ^ 38 - 2 ^ 13 ∧ frames_for (request_pages size_) h.

Definition op_ok (op : heap_op) h : Prop :=
  match op with
  | Malloc size_ | Zalloc size_ => request_ok size_ h
  | Free ptr => ptr = 0 ∨ ∃ n, live (hp_objs h) ptr n
  | Realloc ptr new_size => (ptr = 0 ∨ ∃ n, live (hp_objs h) ptr n) ∧ request_ok new_size h
  end.

(** ** The abstraction relation *)

Record heap_abs h B : Prop := {
  ha_live : ∀ p n, live (hp_objs h) p n → B !! p = Some (bytes_at (hp_mem h) p n);
  ha_block : ∀ p bs, B !! p = Some bs → ∃ n, live (hp_objs h) p n;
}.

Definition keeps_live h h' : Prop :=
  ∀ q k a, live (hp_objs h) q k → q ≤ a < q + k → hp_mem h' a = hp_mem h a.

Lemma abs_same h h' B :
  heap_abs h B → same_live (hp_objs h) (hp_objs h') → keeps_live h h' → heap_abs h' B.
Proof.
  intros Ha Hl Hm. split.
  - intros p n Hp%Hl. rewrite (ha_live _ _ Ha p n Hp). f_equal. symmetry. apply bytes_at_ext. intros a. by apply Hm.
  - intros p bs Hp. destruct (ha_block _ _ Ha p bs Hp) as (n & Hn). exists n. by apply Hl.
Qed.

Lemma abs_drop h h' B p :
  heap_abs h B → keeps_live h h' → (∀ q k, live (hp_objs h') q k ↔ live (hp_objs h) q k ∧ q ≠ p) →
  heap_abs h' (delete p B).
Proof.
  intros Ha Hm Hl. split.
  - intros q n [Hq Hne]%Hl. rewrite lookup_delete_ne by done. rewrite (ha_live _ _ Ha q n Hq). f_equal.
    symmetry. apply bytes_at_ext. intros a. by apply Hm.
  - intros q bs [Hne Hq]%lookup_delete_Some. destruct (ha_block _ _ Ha q bs Hq) as (n & Hn). exists n. by apply Hl.
Qed.

Lemma abs_add h h' B p ret n :
  heap_abs h B → keeps_live h h' → (∀ k, ¬ live (hp_objs h) ret k) →
  (∀ q k, live (hp_objs h') q k ↔ (live (hp_objs h) q k ∧ q ≠ p) ∨ (q = ret ∧ k = n)) →
  heap_abs h' (<[ret := bytes_at (hp_mem h') ret n]> (delete p B)).
Proof.
  intros Ha Hm Hno Hl. split.
  - intros q k [[Hq Hne]|[-> ->]]%Hl; [|by rewrite lookup_insert_eq].
    rewrite lookup_insert_ne by (intros <-; by apply (Hno k)). rewrite lookup_delete_ne by done.
    rewrite (ha_live _ _ Ha q k Hq). f_equal. symmetry. apply bytes_at_ext. intros a. by apply Hm.
  - intros q bs [[<- <-]|[_ [Hne Hq]%lookup_delete_Some]]%lookup_insert_Some.
    + exists n. apply Hl. by right.
    + destruct (ha_block _ _ Ha q bs Hq) as (k & Hk). exists k. apply Hl. by left.
Qed.

Lemma abs_fresh h h' B ret n :
  heap_inv h → heap_abs h B → ret ≠ 0 → 0 ≤ n → (∀ q k, live (hp_objs h) q k → apart ret n q k) →
  fresh_block B ret (bytes_at (hp_mem h') ret n).
Proof.
  intros Hi Ha Hr Hn Hap. split; [done|]. intros q bq Hq. destruct (ha_block _ _ Ha q bq Hq) as (k & Hk).
  rewrite (ha_live _ _ Ha q k Hk) in Hq. injection Hq as <-. destruct (live_range h q k Hi Hk) as (_ & ? & _).
  rewrite !length_bytes_at by lia. by apply Hap.
Qed.

(** [kmalloc] followed by a change of the new block alone ([kzalloc]). *)
Lemma abs_alloc P h ptr n h1 m B size_ :
  heap_inv h → heap_abs h B → alloc_result h ptr n h1 → 0 ≤ size_ ≤ n →
  (∀ a, ¬ (ptr ≠ 0 ∧ ptr ≤ a < ptr + n) → m a = hp_mem h1 a) → (ptr ≠ 0 → P (bytes_at m ptr n)) →
  let h' := set_hmem h1 m in
  ∃ B', heap_inv h' ∧ heap_abs h' B' ∧ alloc_spec P B size_ ptr B'.
Proof.
  intros Hi Ha Har Hs Hm HP h'. pose proof (inv_hmem h1 m (ar_inv _ _ _ _ Har)) as Hi'.
  assert (keeps_live h h') as Hk.
  { intros q k a Hq Haa. cbn [h' set_hmem hp_mem]. rewrite <-(alloc_keeps h ptr n h1 q k a Hi Har Hq Haa).
    apply Hm. intros [Hp Hr]. destruct (alloc_fresh h ptr n h1 Har Hp) as [_ Hf].
    destruct (Hf q k Hq) as (_ & _ & Hap). unfold apart in Hap. lia. }
  destruct (decide (ptr = 0)) as [->|Hp].
  { exists B. split_and!; [done| |by left]. eapply abs_same; [done| |done].
    by destruct (ar_live _ _ _ _ Har) as [[_ ?]|[? _]]. }
  destruct (ar_live _ _ _ _ Har) as [[? _]|(_ & Hno & Hl)]; [done|].
  destruct (alloc_fresh h ptr n h1 Har Hp) as [_ Hf].
  exists (<[ptr := bytes_at m ptr n]> B). split_and!; [done| |].
  - assert (B !! ptr = None) as HB.
    { apply eq_None_not_Some. intros [bs (k & Hlk)%(ha_block _ _ Ha)]. by apply (Hno k). }
    rewrite <-(delete_id B ptr HB). apply (abs_add h h' B ptr ptr n Ha Hk Hno).
    intros q k. cbn [h' set_hmem hp_objs]. rewrite Hl. split; [|naive_solver].
    intros [Hq|?]; [|by right]. left. split; [done|]. intros ->. by apply (Hno k).
  - right. exists (bytes_at m ptr n). rewrite length_bytes_at by lia. split_and!; [|lia|by apply HP|done].
    apply (abs_fresh h h' B ptr n); [done|done|done|lia|]. intros q k Hq. by apply Hf.
Qed.

(** ** The steps *)

Lemma malloc_step h B size_ :
  heap_inv h → heap_abs h B → request_ok size_ h →
  ∃ ret h' B', kmalloc size_ h = Some (ret, h') ∧ heap_inv h' ∧ heap_abs h' B'
    ∧ alloc_spec (λ _, True) B size_ ret B'.
Proof.
  intros Hi Ha [Hs Hfr]. destruct (decide (size_ = 0)) as [->|Hnz].
  { exists 0, h, B. split_and!; [done|done|done|by left]. }
  destruct (kmalloc_spec h size_ Hi ltac:(lia) Hfr) as (ret & h' & n & -> & Har & Hn & _).
  destruct (abs_alloc (λ _, True) h ret n h' (hp_mem h') B size_ Hi Ha Har) as (B' & Hi' & Ha' & Hsp); [lia|done|done|].
  exists ret, h', B'. replace (set_hmem h' (hp_mem h')) with h' in * by (by destruct h'). by split_and!.
Qed.

Lemma zalloc_step h B size_ :
  heap_inv h → heap_abs h B → request_ok size_ h →
  ∃ ret h' B', kzalloc size_ h = Some (ret, h') ∧ heap_inv h' ∧ heap_abs h' B'
    ∧ alloc_spec (λ bs, take (Z.to_nat size_) bs = replicate (Z.to_nat size_) 0) B size_ ret B'.
Proof.
  intros Hi Ha [Hs Hfr]. unfold kzalloc. destruct (decide (size_ = 0)) as [->|Hnz].
  { exists 0, h, B. split_and!; [done|done|done|by left]. }
  destruct (kmalloc_spec h size_ Hi ltac:(lia) Hfr) as (ret & h1 & n & -> & Har & Hn & _). cbn [mbind option_bind].
  set (m := if ret =? 0 then hp_mem h1 else memset ret 0 size_ (hp_mem h1)).
  destruct (abs_alloc (λ bs, take (Z.to_nat size_) bs = replicate (Z.to_nat size_) 0) h ret n h1 m B size_ Hi Ha Har)
    as (B' & Hi' & Ha' & Hsp).
  - lia.
  - intros a Hna. unfold m. destruct (Z.eqb_spec ret 0); [done|]. apply memset_outside. lia.
  - intros Hr. rewrite take_bytes_at by lia. apply bytes_at_zero. intros a Haa. unfold m.
    destruct (Z.eqb_spec ret 0); [done|]. by rewrite memset_inside.
  - exists ret, (set_hmem h1 m), B'. split_and!; [|done|done|done].
    unfold m. by destruct (ret =? 0); [destruct h1|].
Qed.

Lemma free_step h B ptr :
  heap_inv h → heap_abs h B → ptr = 0 ∨ (∃ n, live (hp_objs h) ptr n) →
  ∃ h', kfree ptr h = Some h' ∧ heap_inv h' ∧ heap_abs h' (delete ptr B).
Proof.
  intros Hi Ha [->|[n Hl]].
  - exists h. rewrite delete_id; [done|]. apply eq_None_not_Some. intros [bs (n & Hl)%(ha_block _ _ Ha)].
    destruct (live_range h 0 n Hi Hl). unfold HEAP_VIRT_BASE in *. lia.
  - destruct (kfree_spec h ptr n Hi Hl) as (h' & -> & Hf & _). exists h'. split_and!; [done|apply Hf|].
    eapply abs_drop; [done| |apply Hf]. intros q k a _ _. apply Hf.
Qed.

Lemma realloc_step h B ptr n new_size :
  heap_inv h → heap_abs h B → live (hp_objs h) ptr n → 0 < new_size < 2 ^ 38 - 2 ^ 13 →
  frames_for (request_pages new_size) h →
  ∃ ret h' B', krealloc ptr new_size h = Some (ret, h') ∧ heap_inv h' ∧ heap_abs h' B'
    ∧ block_spec (Realloc ptr new_size) B ret B'.
Proof.
  intros Hi Ha Hl Hs Hfr. pose proof (live_range h ptr n Hi Hl) as (Hp & Hn & _).
  destruct (krealloc_spec h ptr n new_size Hi Hl Hs Hfr) as (ret & h' & E & Hi' & Hcase). rewrite E.
  exists ret, h'. pose proof (ha_live _ _ Ha ptr n Hl) as HB. cbn [block_spec].
  assert (ptr ≠ 0) as ->%Z.eqb_neq by (unfold HEAP_VIRT_BASE in *; lia).
  assert (new_size ≠ 0) as ->%Z.eqb_neq by lia.
  destruct Hcase as [(Hle & -> & ->)|[(_ & Har & ->)|(Hlt & k & Hk & Hmv)]].
  - exists B. split_and!; [done|done|done|]. exists (bytes_at (hp_mem h) ptr n). rewrite length_bytes_at by lia. auto.
  - exists B. split_and!; [done|done| |exists (bytes_at (hp_mem h) ptr n); auto].
    eapply abs_same; [done| |].
    + by destruct (ar_live _ _ _ _ Har) as [[_ ?]|[? _]].
    + intros q j a. by eapply alloc_keeps.
  - exists (<[ret := bytes_at (hp_mem h') ret k]> (delete ptr B)). split_and!; [done|done| |].
    + apply (abs_add h h'); [done| | |apply Hmv].
      * intros q j a. by apply (mv_other _ _ _ _ _ _ Hmv).
      * intros j Hj. by destruct (mv_apart _ _ _ _ _ _ Hmv ret j Hj).
    + exists (bytes_at (hp_mem h) ptr n). split; [done|]. right; right.
      pose proof (live_range h' ret k Hi') as Hkr. rewrite (mv_live _ _ _ _ _ _ Hmv) in Hkr.
      destruct Hkr as (_ & ? & _); [by right|].
      exists (bytes_at (hp_mem h') ret k). rewrite length_bytes_at by lia. split_and!; [|lia| |done].
      * apply (abs_fresh h h'); [done|done|apply Hmv|lia|]. intros q j Hq. by apply Hmv.
      * replace (length (bytes_at (hp_mem h) ptr n)) with (Z.to_nat n)
          by (unfold bytes_at; by rewrite length_fmap, length_seqZ).
        rewrite take_bytes_at by lia. apply list_fmap_ext. intros j i [-> Hj]%lookup_seqZ.
        apply (mv_data _ _ _ _ _ _ Hmv). lia.
Qed.

Lemma heap_step op h B :
  heap_inv h → heap_abs h B → op_ok op h →
  ∃ ret h' B', heap_exec op h = Some (ret, h') ∧ heap_inv h' ∧ heap_abs h' B' ∧ block_spec op B ret B'.
Proof.
  intros Hi Ha Hok. destruct op as [size_|size_|ptr|ptr new_size]; cbn [op_ok heap_exec] in *.
  - by apply malloc_step.
  - by apply zalloc_step.
  - destruct (free_step h B ptr Hi Ha Hok) as (h' & -> & Hi' & Ha'). by exists 0, h', (delete ptr B).
  - destruct Hok as [Hp [Hs Hfr]]. destruct (decide (ptr = 0)) as [->|Hp0].
    { cbn [block_spec Z.eqb]. unfold krealloc. cbn [Z.eqb]. by apply malloc_step. }
    destruct (decide (new_size = 0)) as [->|Hs0].
    + destruct (free_step h B ptr Hi Ha Hp) as (h' & E & Hi' & Ha'). exists 0, h', (delete ptr B).
      cbn [block_spec]. unfold krealloc. apply Z.eqb_neq in Hp0. rewrite Hp0. cbn [Z.eqb]. by rewrite E.
    + destruct Hp as [?|[n Hl]]; [done|]. eapply realloc_step; [done|done|done|lia|done].
Qed.
End refine.
