(* ===== verification/HeapProps.v ===== *)
(** The properties of kernel/mm/heap.c.  They hold for any frame allocator that
    satisfies the interface; the witnesses run them with the allocator of
    kernel/mm/pmm.c. *)
From stdpp Require Import prelude gmap.
From S2P Require Import Prelude CString FrameAlloc Bitmap Pmm Vmm VmmWf VmmSpec VmmRange VmmProps Heap HeapMap HeapSlab HeapList HeapInv HeapOps HeapApi HeapRefine.

Section init.
Context {A : Type} `{FrameAllocator A}.
Implicit Types (h : heap A).

(** The state [heap_init] starts from: page tables are up, the heap's pages hold nothing. *)
Record before_init (h : heap A) : Prop := {
  bi_tables : ∃ T k, pt_wf T (hp_vm h) ∧ is_root T k ∧ kernel_pml4 (hp_vm h) = k * PAGE_SIZE;
  bi_objs : hp_objs h = ∅;
}.

Definition cleared h : heap A :=
  {| hp_vm := hp_vm h; hp_objs := hp_objs h; hp_mem := hp_mem h; slab_classes := λ _, 0;
     large_free_list := 0; heap_cursor := HEAP_VIRT_BASE; heap_limit := HEAP_VIRT_BASE |}.

Lemma cleared_inv h : before_init h → heap_inv (cleared h).
Proof.
  intros [Ht Ho]. split; cbn [cleared hp_objs heap_cursor slab_classes large_free_list]; rewrite ?Ho.
  - split; cbn [cleared hp_vm heap_cursor]; [exact Ht|lia|by vm_compute|done].
  - split; intros a; intros; by rewrite ?lookup_empty in *.
  - intros c Hc. exists []. split_and!; [done|constructor|]. intros a. split; [by intros ?%not_elem_of_nil|].
    unfold slab_key. rewrite lookup_empty. by intros [? ?].
  - exists []. split_and!; [done|constructor|]. intros a. split; [by intros ?%not_elem_of_nil|].
    rewrite lookup_empty. by intros [_ (? & ? & _)].
Qed.

Lemma heap_init_spec h :
  before_init h → 16 < Z.of_nat (size (frames (hp_vm h))) →
  ∃ h', heap_init h = Some h' ∧ heap_inv h' ∧ heap_cursor h' = HEAP_VIRT_BASE + 4 * PAGE_SIZE
    ∧ (∀ p n, ¬ live (hp_objs h') p n)
    ∧ Z.of_nat (size (frames (hp_vm h))) ≤ Z.of_nat (size (frames (hp_vm h'))) + 16
    ∧ hp_objs h' !! HEAP_VIRT_BASE
      = Some (OLarge {| lh_magic := HEAP_MAGIC_FREE; lh_size := 4 * PAGE_SIZE; lh_next := 0; lh_prev := 0 |}).
Proof.
  intros Hb Hsz. pose proof (cleared_inv h Hb) as Hi. unfold heap_init. fold (cleared h). cbv zeta.
  destruct (heap_map_pages_spec (cleared h) 4 (hi_vm _ _ Hi)) as (p & h1 & -> & Hvm & Eo & Ec & Ef & _ & Hfs & Hres);
    [lia|right; exact Hsz|].
  cbn [mbind option_bind]. destruct Hres as [(_ & Hroom & _)|(-> & Ecur & _)].
  { exfalso. destruct Hroom as [Hz|Hz]; [|by vm_compute in Hz]. cbn [cleared hp_vm] in Hz.
    rewrite Hz, size_empty in Hsz. lia. }
  unfold put_large. rewrite put_obj_mapped.
  2: { apply (hv_mapped _ Hvm). rewrite Ecur. cbn [cleared heap_cursor]. unfold PAGE_SIZE. lia. }
  cbn [mbind option_bind]. destruct (large_grow (cleared h) h1 (4 * PAGE_SIZE) Hi Hvm Eo Ec Ef Ecur) as [Hix Hlive];
    [unfold PAGE_SIZE; lia|done|].
  cbn [cleared heap_cursor] in *. rewrite Eo. cbn [cleared hp_objs] in *.
  set (b := {| lh_magic := HEAP_MAGIC_FREE; lh_size := 4 * PAGE_SIZE; lh_next := 0; lh_prev := 0 |}) in *.
  rewrite (bi_objs _ Hb) in *. eexists. split; [reflexivity|]. split_and!.
  - apply (inv_update HEAP_VIRT_BASE 0 (set_objs h1 (<[HEAP_VIRT_BASE := OLarge b]> ∅)) (<[HEAP_VIRT_BASE := OLarge b]> ∅)); [exact Hix|apply Hix|done|].
    exists [HEAP_VIRT_BASE]. split_and!.
    + simpl. split; [done|]. exists b. by rewrite lookup_insert_eq.
    + apply NoDup_singleton.
    + intros a. rewrite list_elem_of_singleton. split.
      * intros ->. split; [done|]. exists b. by rewrite lookup_insert_eq.
      * intros [_ (lh & [[<- _]|[_ Hn]]%lookup_insert_Some & _)]; [done|]. by rewrite lookup_empty in Hn.
  - exact Ecur.
  - intros p n Hp%Hlive. unfold live in Hp. by rewrite lookup_empty in Hp.
  - exact Hfs.
  - apply lookup_insert_eq.
Qed.

(** States of the heap after boot: [heap_init], then calls whose guards hold. *)
Inductive heap_reach : heap A → Prop :=
  | reach_init h0 h :
      before_init h0 → 16 < Z.of_nat (size (frames (hp_vm h0))) → heap_init h0 = Some h → heap_reach h
  | reach_step h op ret h' :
      heap_reach h → op_ok op h → heap_exec op h = Some (ret, h') → heap_reach h'.

Lemma heap_reach_inv h : heap_reach h → ∃ B, heap_inv h ∧ heap_abs h B.
Proof.
  induction 1 as [h0 h Hb Hsz E|h op ret h' _ (B & Hi & Ha) Hok E].
  - destruct (heap_init_spec h0 Hb Hsz) as (h' & E' & Hi & _ & Hno & _). rewrite E in E'. injection E' as <-.
    exists ∅. split; [done|]. split; [by intros p n ?%Hno|intros p bs; by rewrite lookup_empty].
  - destruct (heap_step op h B Hi Ha Hok) as (ret' & h1 & B' & E' & Hi' & Ha' & _).
    rewrite E in E'. injection E' as <- <-. by exists B'.
Qed.
End init.

(** ** A sample heap *)

Definition sample_heap (p : pmm) : heap pmm :=
  {| hp_vm := sample_vmm p; hp_objs := ∅; hp_mem := λ _, 0; slab_classes := λ _, 0; large_free_list := 0;
     heap_cursor := HEAP_VIRT_BASE; heap_limit := HEAP_VIRT_BASE |}.

Lemma sample_before_init :
  ∃ p, before_init (sample_heap p) ∧ heap_inv (sample_heap p)
       ∧ 1000 < Z.of_nat (size (frames (hp_vm (sample_heap p)))).
Proof.
  destruct sample_wf as (p & Hwf & Hsz & _). exists p.
  assert (before_init (sample_heap p)) as Hb.
  { split; [|reflexivity]. exists {[1 := (1, [])]}, 1. split_and!; [exact Hwf|apply lookup_singleton_eq|reflexivity]. }
  split; [exact Hb|]. split; [exact (cleared_inv _ Hb)|]. cbn [sample_heap hp_vm]. lia.
Qed.

(** A sample heap with one live block of at least 100 bytes. *)
Lemma sample_block : ∃ h : heap pmm, heap_inv h ∧ ∃ p n, live (hp_objs h) p n ∧ 100 ≤ n.
Proof.
  destruct sample_before_init as (p & _ & Hi & Hsz).
  destruct (kmalloc_spec (sample_heap p) 100 Hi) as (ptr & h' & n & _ & Har & Hn & Hroom & _); [lia|right|].
  { change (request_pages 100) with 1. lia. }
  assert (ptr ≠ 0) as Hp.
  { intros Hz. destruct (Hroom Hz) as [He|He]; [|by vm_compute in He]. rewrite He, size_empty in Hsz. lia. }
  exists h'. split; [apply Har|]. exists ptr, n. split; [|exact Hn].
  by destruct (alloc_fresh _ _ _ _ Har Hp) as [? _].
Qed.

(** ** Properties *)

Section properties.
Context {A : Type} `{FrameAllocator A}.
Implicit Types (h : heap A).

(** C4: The heap refines the abstract block allocator.  From a heap that
    satisfies the invariant and represents the blocks [B], every call of
    [kmalloc], [kzalloc], [kfree] and [krealloc] whose guard holds returns
    without a fault, restores the invariant, and what it returns and the blocks
    it leaves are those the abstract operation allows: a new block overlaps no
    live one, [kzalloc] clears it, [krealloc] keeps the old contents, and the
    contents of every other block are untouched. *)
Theorem heap_refines_blocks op h B :
  heap_inv h → heap_abs h B → op_ok op h →
  ∃ ret h' B', heap_exec op h = Some (ret, h') ∧ heap_inv h' ∧ heap_abs h' B' ∧ block_spec op B ret B'.
Proof. apply heap_step. Qed.

(** Heap safety.  In every state reached from [heap_init] by any sequence
    of calls, a live block is 16-byte aligned, lies inside the heap on mapped
    pages, and shares no byte with another live block. *)
Theorem heap_blocks_disjoint h p n :
  heap_reach h → live (hp_objs h) p n →
  p mod 16 = 0 ∧ 0 < n ∧ HEAP_VIRT_BASE < p ∧ p + n ≤ HEAP_VIRT_BASE + HEAP_MAX_SIZE
  ∧ (∀ a, p ≤ a < p + n → page_mapped h a = true)
  ∧ ∀ q k, live (hp_objs h) q k → q ≠ p → apart p n q k.
Proof.
  intros (B & Hi & _)%heap_reach_inv Hl. destruct (live_range h p n Hi Hl) as (Hp & Hn & Hc).
  split_and!; [by eapply live_aligned|done|done|unfold HEAP_END in *; lia| |].
  - intros a Ha. apply (hv_mapped _ (hi_vm _ _ Hi)). lia.
  - intros q k Hq Hne. by eapply live_apart.
Qed.

(** Allocation.  [kmalloc] of a positive size answers NULL only when no
    frame is left or the heap's 256 MB are used up; otherwise it answers a
    block of at least the requested size that was not live before, and the
    other live blocks and their contents stay. *)
Theorem kmalloc_correct h size_ :
  heap_inv h → 0 < size_ < 2 ^ 38 - 2 ^ 13 → frames_for (request_pages size_) h →
  ∃ ptr h', kmalloc size_ h = Some (ptr, h') ∧ heap_inv h'
    ∧ (∀ q k, live (hp_objs h) q k → live (hp_objs h') q k ∧ ∀ a, q ≤ a < q + k → hp_mem h' a = hp_mem h a)
    ∧ ((ptr = 0 ∧ no_room (request_pages size_) h)
       ∨ ∃ n, live (hp_objs h') ptr n ∧ size_ ≤ n ∧ ∀ k, ¬ live (hp_objs h) ptr k).
Proof.
  intros Hi Hs Hfr. destruct (kmalloc_spec h size_ Hi Hs Hfr) as (ptr & h' & n & -> & Har & Hn & Hroom & _).
  exists ptr, h'. split_and!; [done|apply Har| |].
  - intros q k Hq. split; [|intros a; by eapply alloc_keeps].
    destruct (ar_live _ _ _ _ Har) as [[_ Hl]|(_ & _ & Hl)]; apply Hl; [done|by left].
  - destruct (decide (ptr = 0)) as [->|Hp]; [left; auto|right]. exists n.
    destruct (alloc_fresh _ _ _ _ Har Hp) as [Hl Hf]. split_and!; [done|done|]. intros k Hk.
    by destruct (Hf ptr k Hk) as (_ & ? & _).
Qed.

(** Release.  [kfree] of a live block makes exactly that block not live,
    keeps the contents of memory, and a second [kfree] of the same pointer
    changes nothing. *)
Theorem kfree_correct h p n :
  heap_inv h → live (hp_objs h) p n →
  ∃ h', kfree p h = Some h' ∧ heap_inv h' ∧ (∀ a, hp_mem h' a = hp_mem h a)
    ∧ (∀ q k, live (hp_objs h') q k ↔ live (hp_objs h) q k ∧ q ≠ p)
    ∧ kfree p h' = Some h'.
Proof.
  intros Hi Hl. destruct (kfree_spec h p n Hi Hl) as (h' & E & Hf & E'). exists h'.
  split_and!; [done|apply Hf|apply Hf|apply Hf|done].
Qed.

(** Boot.  With 17 free frames [heap_init] succeeds, establishes the heap
    invariant, maps the first four pages and leaves them as one free block with
    nothing live. *)
Theorem heap_init_correct h :
  before_init h → 16 < Z.of_nat (size (frames (hp_vm h))) →
  ∃ h', heap_init h = Some h' ∧ heap_inv h' ∧ (∀ p n, ¬ live (hp_objs h') p n)
    ∧ (∀ a, HEAP_VIRT_BASE ≤ a < HEAP_VIRT_BASE + 4 * PAGE_SIZE → page_mapped h' a = true).
Proof.
  intros Hb Hsz. destruct (heap_init_spec h Hb Hsz) as (h' & E & Hi & Ec & Hno & _). exists h'.
  split_and!; [done|done|done|]. intros a Ha. apply (hv_mapped _ (hi_vm _ _ Hi)). by rewrite Ec.
Qed.

(** Size overflow.  The header size is added to the request without a
    check: a request within 31 bytes of 2^64 behaves as a request of 4064 bytes
    and gets a block of that size. *)
Theorem kmalloc_size_overflow h size_ :
  2 ^ 64 - LARGE_HDR_SIZE < size_ < 2 ^ 64 → kmalloc size_ h = kmalloc 4064 h.
Proof.
  intros Hs. unfold LARGE_HDR_SIZE in Hs. unfold kmalloc, LARGE_THRESHOLD.
  destruct (Z.eqb_spec size_ 0); [lia|]. destruct (Z.leb_spec size_ 2048); [lia|]. cbn [Z.eqb Z.leb Z.compare Pos.compare].
  unfold large_alloc.
  assert (ALIGN_UP (u64 (size_ + LARGE_HDR_SIZE)) PAGE_SIZE = ALIGN_UP (u64 (4064 + LARGE_HDR_SIZE)) PAGE_SIZE) as ->; [|done].
  change (ALIGN_UP (u64 (4064 + LARGE_HDR_SIZE)) PAGE_SIZE) with 4096. unfold LARGE_HDR_SIZE.
  assert (u64 (size_ + 32) = size_ + 32 - 2 ^ 64) as ->.
  { unfold u64. symmetry. apply (Z.mod_unique_pos _ _ 1); lia. }
  rewrite ALIGN_UP_page by (unfold PAGE_SIZE; lia). unfold PAGE_SIZE. Z.to_euclidean_division_equations. lia.
Qed.
End properties.

(** ** Witnesses *)

Lemma heap_refines_blocks_witness :
  ∃ (h : heap pmm) ret h' B', heap_exec (Zalloc 3000) h = Some (ret, h') ∧ block_spec (Zalloc 3000) ∅ ret B'.
Proof.
  destruct sample_before_init as (p & Hb & Hi & Hsz).
  destruct (heap_refines_blocks (Zalloc 3000) (sample_heap p) ∅ Hi) as (ret & h' & B' & E & _ & _ & Hsp).
  - split; [intros q k Hq; unfold live in Hq; cbn in Hq; by rewrite lookup_empty in Hq|].
    intros q bs Hq. by rewrite lookup_empty in Hq.
  - split; [lia|]. right. change (request_pages 3000) with 1. lia.
  - by exists (sample_heap p), ret, h', B'.
Defined.

Lemma heap_blocks_disjoint_witness : ∃ (h : heap pmm) p n, live (hp_objs h) p n ∧ p mod 16 = 0.
Proof.
  destruct sample_before_init as (p & Hb & _ & Hsz).
  destruct (heap_init_spec (sample_heap p) Hb) as (h & E & Hi & Hc & _ & Hfs & _); [lia|].
  assert (heap_reach h) as Hr by (eapply reach_init; [exact Hb|lia|exact E]).
  assert (frames_for (request_pages 100) h) as Hfr.
  { right. change (request_pages 100) with 1. cbn [sample_heap hp_vm] in *. lia. }
  destruct (kmalloc_spec h 100 Hi ltac:(lia) Hfr) as (ptr & h' & n & Ek & Har & _ & Hroom & _).
  assert (ptr ≠ 0) as Hp.
  { intros Hz. destruct (Hroom Hz) as [He|He]; [|rewrite Hc in He; by vm_compute in He].
    rewrite He, size_empty in Hfs. cbn [sample_heap hp_vm] in *. lia. }
  destruct (alloc_fresh _ _ _ _ Har Hp) as [Hl _].
  exists h', ptr, n. split; [exact Hl|]. refine (proj1 (heap_blocks_disjoint h' ptr n _ Hl)).
  eapply (reach_step h (Malloc 100)); [exact Hr|split; [lia|exact Hfr]|exact Ek].
Defined.

Lemma kmalloc_correct_witness : ∃ (h : heap pmm) ptr h', kmalloc 5000 h = Some (ptr, h') ∧ heap_inv h'.
Proof.
  destruct sample_before_init as (p & _ & Hi & Hsz).
  destruct (kmalloc_correct (sample_heap p) 5000 Hi) as (ptr & h' & E & Hi' & _); [lia| |].
  - right. change (request_pages 5000) with 2. lia.
  - by exists (sample_heap p), ptr, h'.
Defined.

Lemma kfree_correct_witness : ∃ (h : heap pmm) p h', kfree p h = Some h' ∧ kfree p h' = Some h' ∧ h ≠ h'.
Proof.
  destruct sample_block as (h & Hi & p & n & Hl & _).
  destruct (kfree_correct h p n Hi Hl) as (h' & E & _ & _ & Hlive & E2). exists h, p, h'. split_and!; [done|done|].
  intros <-. by destruct (proj1 (Hlive p n) Hl).
Defined.

Lemma heap_init_correct_witness : ∃ h h' : heap pmm, heap_init h = Some h' ∧ heap_inv h'.
Proof.
  destruct sample_before_init as (p & Hb & _ & Hsz).
  destruct (heap_init_correct (sample_heap p) Hb) as (h' & E & Hi & _); [lia|]. by exists (sample_heap p), h'.
Defined.

Lemma kmalloc_size_overflow_witness :
  kmalloc (2 ^ 64 - 1) (sample_heap (one_free 300)) = kmalloc 4064 (sample_heap (one_free 300)).
Proof. apply kmalloc_size_overflow. unfold LARGE_HDR_SIZE. lia. Defined.
