(* ===== verification/Sched.v ===== *)
(** Model of kernel/sched/sched.c and of the context switch in
    kernel/arch/x86_64/sched_switch.asm.

    Tasks are records of a store keyed by the address of the [task_t]; following
    a NULL pointer, or any pointer that is not a task, is undefined and [None]
    (where page 0 is mapped, as in the kernel's address space, the machine reads
    and writes that page instead).  A call
    is modelled up to its context switch: what follows the switch in the C code
    only restores the interrupt flag of the task that is resumed.  [PANIC] halts
    the machine ([Halted]). *)
From stdpp Require Import prelude gmap.
From S2P Require Import Prelude CString FrameAlloc Vmm Heap.

(** ** Data *)

Inductive task_state :=
  | TASK_CREATED | TASK_READY | TASK_RUNNING | TASK_BLOCKED | TASK_ZOMBIE | TASK_DEAD.

#[export] Instance task_state_eq_dec : EqDecision task_state.
Proof. solve_decision. Defined.

Record cpu_state := { r15 : Z; r14 : Z; r13 : Z; r12 : Z; rbx : Z; rbp : Z; rsp : Z }.

Definition MAX_FDS : Z := 64.

Record task := {
  t_pid : Z;
  t_ppid : Z;
  t_name : Z → Z;
  t_cpu : cpu_state;
  t_kernel_stack : Z;
  t_user_stack : Z;
  t_rip_entry : Z;
  t_cr3 : Z;
  t_state : task_state;
  t_priority : Z;
  t_time_slice : Z;
  t_total_ticks : Z;
  t_wake_tick : Z;
  t_mmap_cursor : Z;
  t_ai_weight : Z;
  t_tensor_mem : Z;
  t_numa_node : Z;
  t_next : Z;
  t_prev : Z;
  t_fds : Z → Z;
}.

Definition set_next (v : Z) (t : task) : task :=
  {| t_pid := t_pid t; t_ppid := t_ppid t; t_name := t_name t; t_cpu := t_cpu t;
     t_kernel_stack := t_kernel_stack t; t_user_stack := t_user_stack t; t_rip_entry := t_rip_entry t;
     t_cr3 := t_cr3 t; t_state := t_state t; t_priority := t_priority t; t_time_slice := t_time_slice t;
     t_total_ticks := t_total_ticks t; t_wake_tick := t_wake_tick t; t_mmap_cursor := t_mmap_cursor t;
     t_ai_weight := t_ai_weight t; t_tensor_mem := t_tensor_mem t; t_numa_node := t_numa_node t;
     t_next := v; t_prev := t_prev t; t_fds := t_fds t |}.

Definition set_prev (v : Z) (t : task) : task :=
  {| t_pid := t_pid t; t_ppid := t_ppid t; t_name := t_name t; t_cpu := t_cpu t;
     t_kernel_stack := t_kernel_stack t; t_user_stack := t_user_stack t; t_rip_entry := t_rip_entry t;
     t_cr3 := t_cr3 t; t_state := t_state t; t_priority := t_priority t; t_time_slice := t_time_slice t;
     t_total_ticks := t_total_ticks t; t_wake_tick := t_wake_tick t; t_mmap_cursor := t_mmap_cursor t;
     t_ai_weight := t_ai_weight t; t_tensor_mem := t_tensor_mem t; t_numa_node := t_numa_node t;
     t_next := t_next t; t_prev := v; t_fds := t_fds t |}.

Definition set_state (v : task_state) (t : task) : task :=
  {| t_pid := t_pid t; t_ppid := t_ppid t; t_name := t_name t; t_cpu := t_cpu t;
     t_kernel_stack := t_kernel_stack t; t_user_stack := t_user_stack t; t_rip_entry := t_rip_entry t;
     t_cr3 := t_cr3 t; t_state := v; t_priority := t_priority t; t_time_slice := t_time_slice t;
     t_total_ticks := t_total_ticks t; t_wake_tick := t_wake_tick t; t_mmap_cursor := t_mmap_cursor t;
     t_ai_weight := t_ai_weight t; t_tensor_mem := t_tensor_mem t; t_numa_node := t_numa_node t;
     t_next := t_next t; t_prev := t_prev t; t_fds := t_fds t |}.

Definition set_slice (v : Z) (t : task) : task :=
  {| t_pid := t_pid t; t_ppid := t_ppid t; t_name := t_name t; t_cpu := t_cpu t;
     t_kernel_stack := t_kernel_stack t; t_user_stack := t_user_stack t; t_rip_entry := t_rip_entry t;
     t_cr3 := t_cr3 t; t_state := t_state t; t_priority := t_priority t; t_time_slice := v;
     t_total_ticks := t_total_ticks t; t_wake_tick := t_wake_tick t; t_mmap_cursor := t_mmap_cursor t;
     t_ai_weight := t_ai_weight t; t_tensor_mem := t_tensor_mem t; t_numa_node := t_numa_node t;
     t_next := t_next t; t_prev := t_prev t; t_fds := t_fds t |}.

Definition set_total (v : Z) (t : task) : task :=
  {| t_pid := t_pid t; t_ppid := t_ppid t; t_name := t_name t; t_cpu := t_cpu t;
     t_kernel_stack := t_kernel_stack t; t_user_stack := t_user_stack t; t_rip_entry := t_rip_entry t;
     t_cr3 := t_cr3 t; t_state := t_state t; t_priority := t_priority t; t_time_slice := t_time_slice t;
     t_total_ticks := v; t_wake_tick := t_wake_tick t; t_mmap_cursor := t_mmap_cursor t;
     t_ai_weight := t_ai_weight t; t_tensor_mem := t_tensor_mem t; t_numa_node := t_numa_node t;
     t_next := t_next t; t_prev := t_prev t; t_fds := t_fds t |}.

Definition set_wake (v : Z) (t : task) : task :=
  {| t_pid := t_pid t; t_ppid := t_ppid t; t_name := t_name t; t_cpu := t_cpu t;
     t_kernel_stack := t_kernel_stack t; t_user_stack := t_user_stack t; t_rip_entry := t_rip_entry t;
     t_cr3 := t_cr3 t; t_state := t_state t; t_priority := t_priority t; t_time_slice := t_time_slice t;
     t_total_ticks := t_total_ticks t; t_wake_tick := v; t_mmap_cursor := t_mmap_cursor t;
     t_ai_weight := t_ai_weight t; t_tensor_mem := t_tensor_mem t; t_numa_node := t_numa_node t;
     t_next := t_next t; t_prev := t_prev t; t_fds := t_fds t |}.

Definition set_cpu (v : cpu_state) (t : task) : task :=
  {| t_pid := t_pid t; t_ppid := t_ppid t; t_name := t_name t; t_cpu := v;
     t_kernel_stack := t_kernel_stack t; t_user_stack := t_user_stack t; t_rip_entry := t_rip_entry t;
     t_cr3 := t_cr3 t; t_state := t_state t; t_priority := t_priority t; t_time_slice := t_time_slice t;
     t_total_ticks := t_total_ticks t; t_wake_tick := t_wake_tick t; t_mmap_cursor := t_mmap_cursor t;
     t_ai_weight := t_ai_weight t; t_tensor_mem := t_tensor_mem t; t_numa_node := t_numa_node t;
     t_next := t_next t; t_prev := t_prev t; t_fds := t_fds t |}.

Definition set_kstack (v : Z) (t : task) : task :=
  {| t_pid := t_pid t; t_ppid := t_ppid t; t_name := t_name t; t_cpu := t_cpu t; t_kernel_stack := v;
     t_user_stack := t_user_stack t; t_rip_entry := t_rip_entry t; t_cr3 := t_cr3 t;
     t_state := t_state t; t_priority := t_priority t; t_time_slice := t_time_slice t;
     t_total_ticks := t_total_ticks t; t_wake_tick := t_wake_tick t; t_mmap_cursor := t_mmap_cursor t;
     t_ai_weight := t_ai_weight t; t_tensor_mem := t_tensor_mem t; t_numa_node := t_numa_node t;
     t_next := t_next t; t_prev := t_prev t; t_fds := t_fds t |}.

Definition set_cr3 (v : Z) (t : task) : task :=
  {| t_pid := t_pid t; t_ppid := t_ppid t; t_name := t_name t; t_cpu := t_cpu t;
     t_kernel_stack := t_kernel_stack t; t_user_stack := t_user_stack t; t_rip_entry := t_rip_entry t;
     t_cr3 := v; t_state := t_state t; t_priority := t_priority t; t_time_slice := t_time_slice t;
     t_total_ticks := t_total_ticks t; t_wake_tick := t_wake_tick t; t_mmap_cursor := t_mmap_cursor t;
     t_ai_weight := t_ai_weight t; t_tensor_mem := t_tensor_mem t; t_numa_node := t_numa_node t;
     t_next := t_next t; t_prev := t_prev t; t_fds := t_fds t |}.

Definition set_rip (v : Z) (t : task) : task :=
  {| t_pid := t_pid t; t_ppid := t_ppid t; t_name := t_name t; t_cpu := t_cpu t;
     t_kernel_stack := t_kernel_stack t; t_user_stack := t_user_stack t; t_rip_entry := v;
     t_cr3 := t_cr3 t; t_state := t_state t; t_priority := t_priority t; t_time_slice := t_time_slice t;
     t_total_ticks := t_total_ticks t; t_wake_tick := t_wake_tick t; t_mmap_cursor := t_mmap_cursor t;
     t_ai_weight := t_ai_weight t; t_tensor_mem := t_tensor_mem t; t_numa_node := t_numa_node t;
     t_next := t_next t; t_prev := t_prev t; t_fds := t_fds t |}.

Definition set_ustack (v : Z) (t : task) : task :=
  {| t_pid := t_pid t; t_ppid := t_ppid t; t_name := t_name t; t_cpu := t_cpu t;
     t_kernel_stack := t_kernel_stack t; t_user_stack := v; t_rip_entry := t_rip_entry t;
     t_cr3 := t_cr3 t; t_state := t_state t; t_priority := t_priority t; t_time_slice := t_time_slice t;
     t_total_ticks := t_total_ticks t; t_wake_tick := t_wake_tick t; t_mmap_cursor := t_mmap_cursor t;
     t_ai_weight := t_ai_weight t; t_tensor_mem := t_tensor_mem t; t_numa_node := t_numa_node t;
     t_next := t_next t; t_prev := t_prev t; t_fds := t_fds t |}.

Definition set_mmap (v : Z) (t : task) : task :=
  {| t_pid := t_pid t; t_ppid := t_ppid t; t_name := t_name t; t_cpu := t_cpu t;
     t_kernel_stack := t_kernel_stack t; t_user_stack := t_user_stack t; t_rip_entry := t_rip_entry t;
     t_cr3 := t_cr3 t; t_state := t_state t; t_priority := t_priority t; t_time_slice := t_time_slice t;
     t_total_ticks := t_total_ticks t; t_wake_tick := t_wake_tick t; t_mmap_cursor := v;
     t_ai_weight := t_ai_weight t; t_tensor_mem := t_tensor_mem t; t_numa_node := t_numa_node t;
     t_next := t_next t; t_prev := t_prev t; t_fds := t_fds t |}.

Definition set_fds (v : Z → Z) (t : task) : task :=
  {| t_pid := t_pid t; t_ppid := t_ppid t; t_name := t_name t; t_cpu := t_cpu t;
     t_kernel_stack := t_kernel_stack t; t_user_stack := t_user_stack t; t_rip_entry := t_rip_entry t;
     t_cr3 := t_cr3 t; t_state := t_state t; t_priority := t_priority t; t_time_slice := t_time_slice t;
     t_total_ticks := t_total_ticks t; t_wake_tick := t_wake_tick t; t_mmap_cursor := t_mmap_cursor t;
     t_ai_weight := t_ai_weight t; t_tensor_mem := t_tensor_mem t; t_numa_node := t_numa_node t;
     t_next := t_next t; t_prev := t_prev t; t_fds := v |}.

Definition DEFAULT_TIMESLICE : Z := 20.
Definition KSTACK_SIZE : Z := 16 * 1024.
Definition SLEEP_LIST_MAX : Z := 256.

(** [sizeof(task_t)] on x86_64. *)
Definition TASK_SIZE : Z := 720.

(** A zeroed [task_t] with the fields the creation functions set. *)
Definition zero_cpu : cpu_state := {| r15 := 0; r14 := 0; r13 := 0; r12 := 0; rbx := 0; rbp := 0; rsp := 0 |}.

Definition new_task (pid ppid priority slice : Z) (state : task_state) (name : Z → Z) : task :=
  {| t_pid := pid; t_ppid := ppid; t_name := name; t_cpu := zero_cpu; t_kernel_stack := 0;
     t_user_stack := 0; t_rip_entry := 0; t_cr3 := 0; t_state := state; t_priority := priority;
     t_time_slice := slice; t_total_ticks := 0; t_wake_tick := 0; t_mmap_cursor := 0; t_ai_weight := 0;
     t_tensor_mem := 0; t_numa_node := 0; t_next := 0; t_prev := 0; t_fds := λ _, 0 |}.

(** The scheduler's variables, the CPU registers a switch saves and the two
    places that hold the kernel stack of the running task. *)
Record sched (A : Type) := {
  sc_heap : heap A;
  sc_tasks : gmap Z task;
  idle_task : Z;
  current_task : Z;
  run_queue_head : Z;
  next_pid : Z;
  sched_tick_count : Z;
  in_sched : Z;
  sleep_list : Z → Z;
  sleep_list_cnt : Z;
  sc_regs : cpu_state;
  tss_rsp0 : Z;
  syscall_kernel_rsp : Z;
}.
Arguments sc_heap {A} _.
Arguments sc_tasks {A} _.
Arguments idle_task {A} _.
Arguments current_task {A} _.
Arguments run_queue_head {A} _.
Arguments next_pid {A} _.
Arguments sched_tick_count {A} _.
Arguments in_sched {A} _.
Arguments sleep_list {A} _.
Arguments sleep_list_cnt {A} _.
Arguments sc_regs {A} _.
Arguments tss_rsp0 {A} _.
Arguments syscall_kernel_rsp {A} _.

Section ops.
Context {A : Type} `{FrameOps A}.
Implicit Types (s : sched A).

Definition with_heap (v : heap A) s : sched A :=
  {| sc_heap := v; sc_tasks := sc_tasks s; idle_task := idle_task s; current_task := current_task s;
     run_queue_head := run_queue_head s; next_pid := next_pid s; sched_tick_count := sched_tick_count s;
     in_sched := in_sched s; sleep_list := sleep_list s; sleep_list_cnt := sleep_list_cnt s;
     sc_regs := sc_regs s; tss_rsp0 := tss_rsp0 s; syscall_kernel_rsp := syscall_kernel_rsp s |}.

Definition with_tasks (v : gmap Z task) s : sched A :=
  {| sc_heap := sc_heap s; sc_tasks := v; idle_task := idle_task s; current_task := current_task s;
     run_queue_head := run_queue_head s; next_pid := next_pid s; sched_tick_count := sched_tick_count s;
     in_sched := in_sched s; sleep_list := sleep_list s; sleep_list_cnt := sleep_list_cnt s;
     sc_regs := sc_regs s; tss_rsp0 := tss_rsp0 s; syscall_kernel_rsp := syscall_kernel_rsp s |}.

Definition with_current (v : Z) s : sched A :=
  {| sc_heap := sc_heap s; sc_tasks := sc_tasks s; idle_task := idle_task s; current_task := v;
     run_queue_head := run_queue_head s; next_pid := next_pid s; sched_tick_count := sched_tick_count s;
     in_sched := in_sched s; sleep_list := sleep_list s; sleep_list_cnt := sleep_list_cnt s;
     sc_regs := sc_regs s; tss_rsp0 := tss_rsp0 s; syscall_kernel_rsp := syscall_kernel_rsp s |}.

Definition with_idle (v : Z) s : sched A :=
  {| sc_heap := sc_heap s; sc_tasks := sc_tasks s; idle_task := v; current_task := current_task s;
     run_queue_head := run_queue_head s; next_pid := next_pid s; sched_tick_count := sched_tick_count s;
     in_sched := in_sched s; sleep_list := sleep_list s; sleep_list_cnt := sleep_list_cnt s;
     sc_regs := sc_regs s; tss_rsp0 := tss_rsp0 s; syscall_kernel_rsp := syscall_kernel_rsp s |}.

Definition with_head (v : Z) s : sched A :=
  {| sc_heap := sc_heap s; sc_tasks := sc_tasks s; idle_task := idle_task s;
     current_task := current_task s; run_queue_head := v; next_pid := next_pid s;
     sched_tick_count := sched_tick_count s; in_sched := in_sched s; sleep_list := sleep_list s;
     sleep_list_cnt := sleep_list_cnt s; sc_regs := sc_regs s; tss_rsp0 := tss_rsp0 s;
     syscall_kernel_rsp := syscall_kernel_rsp s |}.

Definition with_pid (v : Z) s : sched A :=
  {| sc_heap := sc_heap s; sc_tasks := sc_tasks s; idle_task := idle_task s;
     current_task := current_task s; run_queue_head := run_queue_head s; next_pid := v;
     sched_tick_count := sched_tick_count s; in_sched := in_sched s; sleep_list := sleep_list s;
     sleep_list_cnt := sleep_list_cnt s; sc_regs := sc_regs s; tss_rsp0 := tss_rsp0 s;
     syscall_kernel_rsp := syscall_kernel_rsp s |}.

Definition with_ticks (v : Z) s : sched A :=
  {| sc_heap := sc_heap s; sc_tasks := sc_tasks s; idle_task := idle_task s;
     current_task := current_task s; run_queue_head := run_queue_head s; next_pid := next_pid s;
     sched_tick_count := v; in_sched := in_sched s; sleep_list := sleep_list s;
     sleep_list_cnt := sleep_list_cnt s; sc_regs := sc_regs s; tss_rsp0 := tss_rsp0 s;
     syscall_kernel_rsp := syscall_kernel_rsp s |}.

Definition with_in_sched (v : Z) s : sched A :=
  {| sc_heap := sc_heap s; sc_tasks := sc_tasks s; idle_task := idle_task s;
     current_task := current_task s; run_queue_head := run_queue_head s; next_pid := next_pid s;
     sched_tick_count := sched_tick_count s; in_sched := v; sleep_list := sleep_list s;
     sleep_list_cnt := sleep_list_cnt s; sc_regs := sc_regs s; tss_rsp0 := tss_rsp0 s;
     syscall_kernel_rsp := syscall_kernel_rsp s |}.

Definition with_sleep (l : Z → Z) (n : Z) s : sched A :=
  {| sc_heap := sc_heap s; sc_tasks := sc_tasks s; idle_task := idle_task s;
     current_task := current_task s; run_queue_head := run_queue_head s; next_pid := next_pid s;
     sched_tick_count := sched_tick_count s; in_sched := in_sched s; sleep_list := l;
     sleep_list_cnt := n; sc_regs := sc_regs s; tss_rsp0 := tss_rsp0 s;
     syscall_kernel_rsp := syscall_kernel_rsp s |}.

Definition with_regs (r : cpu_state) (h : heap A) s : sched A :=
  {| sc_heap := h; sc_tasks := sc_tasks s; idle_task := idle_task s; current_task := current_task s;
     run_queue_head := run_queue_head s; next_pid := next_pid s; sched_tick_count := sched_tick_count s;
     in_sched := in_sched s; sleep_list := sleep_list s; sleep_list_cnt := sleep_list_cnt s;
     sc_regs := r; tss_rsp0 := tss_rsp0 s; syscall_kernel_rsp := syscall_kernel_rsp s |}.

(** [gdt_set_kernel_stack(v); syscall_kernel_rsp = v;] *)
Definition with_kstack (v : Z) s : sched A :=
  {| sc_heap := sc_heap s; sc_tasks := sc_tasks s; idle_task := idle_task s;
     current_task := current_task s; run_queue_head := run_queue_head s; next_pid := next_pid s;
     sched_tick_count := sched_tick_count s; in_sched := in_sched s; sleep_list := sleep_list s;
     sleep_list_cnt := sleep_list_cnt s; sc_regs := sc_regs s; tss_rsp0 := v; syscall_kernel_rsp := v |}.

Definition get_task (a : Z) s : option task := sc_tasks s !! a.

Definition mod_task (a : Z) (f : task → task) s : option (sched A) :=
  t ← get_task a s; Some (with_tasks (<[a := f t]> (sc_tasks s)) s).

(** ** Run queue *)

Definition run_queue_add (t : Z) s : option (sched A) :=
  s1 ← (if run_queue_head s =? 0 then
          s1 ← mod_task t (set_next t) s;
          s2 ← mod_task t (set_prev t) s1;
          Some (with_head t s2)
        else
          hd ← get_task (run_queue_head s) s;
          let tail := t_prev hd in
          s1 ← mod_task tail (set_next t) s;
          s2 ← mod_task t (set_prev tail) s1;
          s3 ← mod_task t (set_next (run_queue_head s)) s2;
          mod_task (run_queue_head s) (set_prev t) s3);
  mod_task t (set_state TASK_READY) s1.

Definition run_queue_remove (t : Z) s : option (sched A) :=
  tt ← get_task t s;
  s1 ← (if t_next tt =? t then Some (with_head 0 s)
        else
          s1 ← mod_task (t_prev tt) (set_next (t_next tt)) s;
          t1 ← get_task t s1;
          s2 ← mod_task (t_next t1) (set_prev (t_prev t1)) s1;
          t2 ← get_task t s2;
          Some (if run_queue_head s2 =? t then with_head (t_next t2) s2 else s2));
  s2 ← mod_task t (set_prev 0) s1;
  mod_task t (set_next 0) s2.

(** ** Task creation *)

(** [while (name[n] && n < 31) n++;] *)
Fixpoint name_len (fuel : nat) (n : Z) (name : Z → Z) : Z :=
  match fuel with
  | O => n
  | S f => if negb (name n =? 0) && (n <? 31) then name_len f (n + 1) name else n
  end.

Definition task_name (name : Z → Z) : Z → Z :=
  let n := name_len 32 0 name in
  λ i, if (0 <=? i) && (i <? n) then name i else 0.

(** NULL is 0; on failure of the stack allocation the task is given back. *)
Definition sched_alloc_task (name : Z → Z) (priority : Z) s : option (Z * sched A) :=
  '(t, h1) ← kzalloc TASK_SIZE (sc_heap s);
  if t =? 0 then Some (0, with_heap h1 s)
  else
    ppid ← (if current_task s =? 0 then Some 0 else c ← get_task (current_task s) s; Some (t_pid c));
    let tt := new_task (next_pid s) ppid priority DEFAULT_TIMESLICE TASK_CREATED (task_name name) in
    let s1 := with_pid (u32 (next_pid s + 1)) (with_heap h1 s) in
    '(kstack, h2) ← kmalloc KSTACK_SIZE h1;
    if kstack =? 0 then h3 ← kfree t h2; Some (0, with_heap h3 s1)
    else
      let tt1 := set_cr3 (vm_cr3 (hp_vm h2)) (set_kstack (ALIGN_DOWN (u64 (kstack + KSTACK_SIZE)) 16) tt) in
      Some (t, with_tasks (<[t := tt1]> (sc_tasks s)) (with_heap h2 s1)).

(** The first frame of a new kernel stack: the function to run, and where it
    returns to; the registers a switch restores. *)
Definition first_frame (t entry ret : Z) s : option (sched A) :=
  tt ← get_task t s;
  let sp := u64 (t_kernel_stack tt - 16) in
  let h1 := set_hmem (sc_heap s) (store64 (store64 (hp_mem (sc_heap s)) (u64 (t_kernel_stack tt - 8)) ret) sp entry) in
  mod_task t (set_cpu {| r15 := 0; r14 := 0; r13 := 0; r12 := 0; rbx := 0; rbp := 0; rsp := sp |}) (with_heap h1 s).

(** The addresses the linker gives to the functions whose address is taken. *)
Context (sched_exit_addr idle_fn_addr ring3_enter_first_addr : Z).

Definition sched_create_task (name : Z → Z) (entry priority : Z) s : option (Z * sched A) :=
  '(t, s1) ← sched_alloc_task name priority s;
  if t =? 0 then Some (0, s1)
  else
    s2 ← mod_task t (set_rip entry) s1;
    s3 ← first_frame t entry sched_exit_addr s2;
    Some (t, s3).

Definition sched_create_user_task (name : Z → Z) (entry_rip user_rsp pml4_phys priority : Z) s
    : option (Z * sched A) :=
  '(t, s1) ← sched_alloc_task name priority s;
  if t =? 0 then Some (0, s1)
  else
    s2 ← mod_task t (λ x, set_cr3 pml4_phys (set_ustack user_rsp (set_rip entry_rip x))) s1;
    s3 ← first_frame t ring3_enter_first_addr sched_exit_addr s2;
    s4 ← mod_task t (set_mmap 0x500000000000) s3;
    Some (t, s4).

Definition sched_enqueue (t : Z) s : option (sched A) := run_queue_add t s.

Definition sched_init s : option (boot_result (sched A)) :=
  '(boot, h1) ← kzalloc TASK_SIZE (sc_heap s);
  if boot =? 0 then Some Halted
  else
    let tt := new_task 0 0 255 1 TASK_RUNNING (lit [98; 111; 111; 116]) in
    let tt1 := set_kstack (u64 (ALIGN_UP (rsp (sc_regs s)) PAGE_SIZE + PAGE_SIZE))
                 (set_cr3 (vm_cr3 (hp_vm h1)) tt) in
    let s1 := with_current boot (with_tasks (<[boot := tt1]> (sc_tasks s)) (with_heap h1 s)) in
    '(idle, s2) ← sched_create_task (lit [105; 100; 108; 101]) idle_fn_addr 255 s1;
    if idle =? 0 then Some Halted else s3 ← run_queue_add idle (with_idle idle s2); Some (Running s3).

(** ** Scheduling *)

(** The [do ... while (t != start)] loop of [sched_pick_next]. *)
Fixpoint pick_loop (fuel : nat) (start t : Z) s : option Z :=
  match fuel with
  | O => None
  | S f =>
      tt ← get_task t s;
      if decide (t_state tt = TASK_READY) then Some t
      else if t_next tt =? start then Some (idle_task s)
      else pick_loop f start (t_next tt) s
  end.

Definition sched_pick_next s : option Z :=
  if run_queue_head s =? 0 then Some (idle_task s)
  else pick_loop (S (size (sc_tasks s))) (run_queue_head s) (run_queue_head s) s.

(** sched_switch.asm: save the callee-saved registers, load [cr3] if it differs,
    restore the registers of the other task. *)
Definition sched_switch (from to : Z) s : option (sched A) :=
  s1 ← mod_task from (set_cpu (sc_regs s)) s;
  f ← get_task from s1;
  t ← get_task to s1;
  let h := sc_heap s1 in
  let h1 := if t_cr3 f =? t_cr3 t then h else set_vm h (vmm_switch (t_cr3 t) (hp_vm h)) (hp_mem h) in
  Some (with_regs (t_cpu t) h1 s1).

Definition sched_do_switch (next : Z) s : option (sched A) :=
  if next =? current_task s then Some s
  else
    let prev := current_task s in
    p ← get_task prev s;
    s1 ← (if decide (t_state p = TASK_RUNNING) then
            s1 ← mod_task prev (set_state TASK_READY) s;
            if prev =? idle_task s then Some s1 else run_queue_add prev s1
          else Some s);
    s2 ← run_queue_remove next s1;
    s3 ← mod_task next (λ x, set_slice DEFAULT_TIMESLICE (set_state TASK_RUNNING x)) s2;
    n ← get_task next s3;
    sched_switch prev next (with_in_sched 0 (with_kstack (t_kernel_stack n) (with_current next s3))).

Definition sched_unblock (t : Z) s : option (sched A) :=
  tt ← get_task t s;
  if decide (t_state tt = TASK_BLOCKED) then run_queue_add t s else Some s.

(** The loop of [sched_check_sleepers]; each round drops an entry or moves on. *)
Fixpoint sleepers_loop (fuel : nat) (i tick : Z) s : option (sched A) :=
  match fuel with
  | O => if i <? sleep_list_cnt s then None else Some s
  | S f =>
      if i <? sleep_list_cnt s then
        t ← aget SLEEP_LIST_MAX (sleep_list s) i;
        wake ← (if t =? 0 then Some false
                else tt ← get_task t s;
                     Some (bool_decide (t_state tt = TASK_BLOCKED) && (t_wake_tick tt <=? tick)));
        if (wake : bool) then
          s1 ← sched_unblock t s;
          let cnt := sleep_list_cnt s1 - 1 in
          last ← aget SLEEP_LIST_MAX (sleep_list s1) cnt;
          sleepers_loop f i tick (with_sleep (upd (sleep_list s1) i last) cnt s1)
        else sleepers_loop f (i + 1) tick s
      else Some s
  end.

Definition sched_check_sleepers (tick : Z) s : option (sched A) :=
  sleepers_loop (Z.to_nat (sleep_list_cnt s)) 0 tick s.

Definition sched_tick s : option (sched A) :=
  let s0 := with_ticks (u64 (sched_tick_count s + 1)) s in
  s1 ← sched_check_sleepers (sched_tick_count s0) s0;
  if current_task s1 =? 0 then Some s1
  else if negb (in_sched s1 =? 0) then Some s1
  else
    c ← get_task (current_task s1) s1;
    s2 ← (if 0 <? t_time_slice c
          then mod_task (current_task s1)
                 (λ x, set_total (u64 (t_total_ticks x + 1)) (set_slice (t_time_slice x - 1) x)) s1
          else Some s1);
    c2 ← get_task (current_task s2) s2;
    if t_time_slice c2 =? 0 then
      let s3 := with_in_sched 1 s2 in
      next ← sched_pick_next s3; sched_do_switch next s3
    else Some s2.

Definition sched_yield s : option (sched A) :=
  let s1 := with_in_sched 1 s in
  next ← sched_pick_next s1; sched_do_switch next s1.

Definition sched_block (t wake_tick : Z) s : option (sched A) :=
  s1 ← mod_task t (λ x, set_wake wake_tick (set_state TASK_BLOCKED x)) s;
  s2 ← run_queue_remove t s1;
  let s3 := if sleep_list_cnt s2 <? SLEEP_LIST_MAX
            then with_sleep (upd (sleep_list s2) (sleep_list_cnt s2) t) (sleep_list_cnt s2 + 1) s2 else s2 in
  if t =? current_task s3 then sched_yield s3 else Some s3.

(** Up to the switch that does not return. *)
Definition sched_exit s : option (sched A) :=
  s1 ← mod_task (current_task s) (set_state TASK_ZOMBIE) s;
  s2 ← run_queue_remove (current_task s1) s1;
  let dead := current_task s2 in
  next ← sched_pick_next s2;
  s3 ← mod_task next (set_state TASK_RUNNING) s2;
  n ← get_task next s3;
  sched_switch dead next (with_kstack (t_kernel_stack n) (with_current next s3)).

Definition sched_get_run_queue_head s : Z := run_queue_head s.

(** The tasks [sched_get_sleep_list] copies to a buffer of [max] entries. *)
Definition sched_get_sleep_list (max : Z) s : list Z :=
  sleep_list s <$> seqZ 0 (if sleep_list_cnt s <? max then sleep_list_cnt s else max).
End ops.
