(* ===== verification/SchedRing.v ===== *)
(** The run queue of kernel/sched/sched.c: a circular doubly-linked list. *)
From stdpp Require Import prelude gmap.
From S2P Require Import Prelude CString FrameAlloc Vmm Heap Sched.

Implicit Types (ts : gmap Z task) (l L : list Z).

(** ** Links *)

Definition nxt ts (a : Z) : option Z := t_next <$> ts !! a.
Definition prv ts (a : Z) : option Z := t_prev <$> ts !! a.

Definition linked ts (a b : Z) : Prop := nxt ts a = Some b ∧ prv ts b = Some a.

(** Every two neighbours of [l] point to each other. *)
Fixpoint linkeds ts l : Prop :=
  match l with
  | [] => True
  | a :: l' => match l' with [] => True | b :: _ => linked ts a b ∧ linkeds ts l' end
  end.

Arguments linkeds : simpl never.

(** [L] is the run queue from [head] on. *)
Definition ring ts (head : Z) L : Prop :=
  match L with
  | [] => head = 0
  | h :: _ => head = h ∧ h ≠ 0 ∧ NoDup L ∧ linkeds ts (L ++ [h])
  end.

Lemma linkeds_cons ts a b l : linkeds ts (a :: b :: l) ↔ linked ts a b ∧ linkeds ts (b :: l).
Proof. done. Qed.

Lemma linkeds_app ts l1 a l2 : linkeds ts (l1 ++ a :: l2) ↔ linkeds ts (l1 ++ [a]) ∧ linkeds ts (a :: l2).
Proof.
  assert (∀ x, linkeds ts [x] ↔ True) as Hone by done.
  induction l1 as [|b l1 IH]; [cbn [app]; rewrite Hone; tauto|]. destruct l1 as [|c l1].
  - change ([b] ++ a :: l2) with (b :: a :: l2). change ([b] ++ [a]) with [b; a].
    rewrite !linkeds_cons, Hone. tauto.
  - change ((b :: c :: l1) ++ a :: l2) with (b :: c :: (l1 ++ a :: l2)).
    change ((b :: c :: l1) ++ [a]) with (b :: c :: (l1 ++ [a])). rewrite !linkeds_cons.
    change (c :: l1 ++ a :: l2) with ((c :: l1) ++ a :: l2). rewrite IH.
    change ((c :: l1) ++ [a]) with (c :: l1 ++ [a]). tauto.
Qed.

(** Joining two lists at a new link. *)
Lemma linkeds_join ts l1 a b l2 :
  linkeds ts (l1 ++ [a]) → linked ts a b → linkeds ts (b :: l2) → linkeds ts (l1 ++ a :: b :: l2).
Proof. intros H1 H2 H3. apply linkeds_app. split; [done|]. by apply linkeds_cons. Qed.

(** What the links of [l] depend on: the next pointers of all but the last, the
    previous pointers of all but the first. *)
Lemma linkeds_frame ts ts' l :
  (∀ l1 a b l2, l = l1 ++ a :: b :: l2 → nxt ts' a = nxt ts a ∧ prv ts' b = prv ts b) →
  linkeds ts l → linkeds ts' l.
Proof.
  induction l as [|a l IH]; intros Hf; [done|]. destruct l as [|b l]; [done|]. rewrite !linkeds_cons.
  intros [[Ha Hb] Hl]. destruct (Hf [] a b l eq_refl) as [Ea Eb]. split.
  - split; congruence.
  - apply IH; [|done]. intros l1 x y l2 E. apply (Hf (a :: l1) x y l2). simpl. by rewrite E.
Qed.

Lemma nodup_snoc l x : NoDup l → x ∉ l → NoDup (l ++ [x]).
Proof. intros. apply NoDup_app. split_and!; [done|set_solver|apply NoDup_singleton]. Qed.

Lemma last_in l x : last l = Some x → x ∈ l.
Proof. intros (l' & ->)%last_Some. set_solver. Qed.

Lemma linkeds_inner ts ts' l x y :
  head l = Some x → last l = Some y → NoDup l →
  (∀ a, a ∈ l → a ≠ y → nxt ts' a = nxt ts a) → (∀ b, b ∈ l → b ≠ x → prv ts' b = prv ts b) →
  linkeds ts l → linkeds ts' l.
Proof.
  intros Hx Hy Hnd Hn Hp. apply linkeds_frame. intros l1 a b l2 ->.
  apply NoDup_app in Hnd as (_ & Hd & [Ha Hnd]%NoDup_cons). split.
  - apply Hn; [set_solver|]. intros ->. apply Ha. rewrite last_app_cons, last_cons_cons in Hy. by apply last_in.
  - apply Hp; [set_solver|]. intros ->. destruct l1 as [|c l1]; simpl in Hx; injection Hx as ->; set_solver.
Qed.

Lemma linkeds_same ts ts' l :
  (∀ a, a ∈ l → nxt ts' a = nxt ts a ∧ prv ts' a = prv ts a) → linkeds ts l → linkeds ts' l.
Proof.
  intros Hf. apply linkeds_frame. intros l1 a b l2 ->. split; apply Hf; set_solver.
Qed.

Lemma ring_same ts ts' head L :
  (∀ a, a ∈ L → nxt ts' a = nxt ts a ∧ prv ts' a = prv ts a) → ring ts head L → ring ts' head L.
Proof.
  destruct L as [|h L]; [done|]. intros Hf (-> & ? & ? & Hl). split_and!; [done|done|done|].
  eapply linkeds_same; [|exact Hl]. intros a Ha. apply Hf. set_solver.
Qed.

(** The tail of the queue is the previous pointer of its head. *)
Lemma ring_tail ts h L a : ring ts h (L ++ [a]) → linkeds ts (L ++ [a]) ∧ prv ts h = Some a ∧ nxt ts a = Some h.
Proof.
  intros Hr. destruct L as [|b L].
  - destruct Hr as (-> & _ & _ & [[? ?] _]). done.
  - destruct Hr as (-> & _ & _ & Hl). change (((b :: L) ++ [a]) ++ [b]) with (((b :: L) ++ [a]) ++ [b]) in Hl.
    rewrite <-(assoc_L (++)) in Hl. change ([a] ++ [b]) with (a :: [b]) in Hl.
    apply linkeds_app in Hl as [Hl [[? ?] _]]. done.
Qed.

Lemma ring_NoDup ts h L : ring ts h L → NoDup L.
Proof. destruct L; [constructor|]. by intros (_ & _ & ? & _). Qed.

Lemma ring_head ts h L : ring ts h L → h = 0 ↔ L = [].
Proof. destruct L as [|a L]; simpl; [naive_solver|]. intros (-> & ? & _). naive_solver. Qed.

(** ** Task bodies: everything but the links *)

Definition unlink (t : task) : task := set_next 0 (set_prev 0 t).

Definition same_body ts ts' : Prop := ∀ a, unlink <$> ts' !! a = unlink <$> ts !! a.

#[export] Instance same_body_equiv : Equivalence same_body.
Proof.
  split; [intros ts a; done|intros ts ts' H a; by rewrite (H a)|]. intros x y z H1 H2 a. by rewrite (H2 a), (H1 a).
Qed.

Lemma same_body_lookup ts ts' a t :
  same_body ts ts' → ts !! a = Some t → ∃ t', ts' !! a = Some t' ∧ unlink t' = unlink t.
Proof.
  intros Hs Ha. specialize (Hs a). rewrite Ha in Hs. destruct (ts' !! a) as [t'|]; [|done].
  cbn [fmap option_fmap option_map] in Hs. apply (inj Some) in Hs. by exists t'.
Qed.

(** A field that the links do not touch. *)
Lemma same_body_field {B} (f : task → B) ts ts' a :
  (∀ t, f (unlink t) = f t) → same_body ts ts' → f <$> ts' !! a = f <$> ts !! a.
Proof.
  intros Hf Hs. specialize (Hs a). destruct (ts !! a) as [t|], (ts' !! a) as [t'|]; cbn [fmap option_fmap option_map] in *; try done.
  apply (inj Some) in Hs. by rewrite <-(Hf t), <-(Hf t'), Hs.
Qed.

Lemma same_body_insert ts a t t' :
  ts !! a = Some t → unlink t' = unlink t → same_body ts (<[a := t']> ts).
Proof.
  intros Ha E b. destruct (decide (b = a)) as [->|]; [|by rewrite lookup_insert_ne].
  rewrite lookup_insert_eq, Ha. simpl. by rewrite E.
Qed.

Section links.
Context {A : Type} `{FrameOps A}.
Implicit Types (s : sched A).

Lemma mod_task_eq a f s t :
  sc_tasks s !! a = Some t → mod_task a f s = Some (with_tasks (<[a := f t]> (sc_tasks s)) s).
Proof. intros Ha. unfold mod_task, get_task. by rewrite Ha. Qed.

Lemma with_tasks_tasks ts ts' s : with_tasks ts (with_tasks ts' s) = with_tasks ts s.
Proof. done. Qed.
End links.

Lemma nxt_insert ts a b t : nxt (<[b := t]> ts) a = if decide (a = b) then Some (t_next t) else nxt ts a.
Proof.
  unfold nxt. destruct (decide (a = b)) as [->|]; [by rewrite lookup_insert_eq|by rewrite lookup_insert_ne].
Qed.

Lemma prv_insert ts a b t : prv (<[b := t]> ts) a = if decide (a = b) then Some (t_prev t) else prv ts a.
Proof.
  unfold prv. destruct (decide (a = b)) as [->|]; [by rewrite lookup_insert_eq|by rewrite lookup_insert_ne].
Qed.

(** ** Adding at the tail *)

(** A ring from both ends. *)
Lemma ring_ends ts h L :
  ring ts h L → L ≠ [] →
  ∃ tail, head L = Some h ∧ last L = Some tail ∧ h ≠ 0 ∧ NoDup L ∧ linkeds ts L ∧ linked ts tail h.
Proof.
  intros Hr Hne. destruct (exists_last Hne) as (L' & tail & ->). exists tail.
  destruct (ring_tail ts h L' tail Hr) as (Hl & Hp & Hn). pose proof (ring_NoDup _ _ _ Hr) as Hnd.
  split_and!; [|apply last_snoc| |done|done|done].
  - destruct L'; destruct Hr as (-> & _); done.
  - destruct L'; by destruct Hr as (-> & ? & _).
Qed.

Lemma ring_intro ts h L tail :
  head L = Some h → last L = Some tail → h ≠ 0 → NoDup L → linkeds ts L → linked ts tail h → ring ts h L.
Proof.
  intros Hh Ht H0 Hnd Hl Hlk. apply last_Some in Ht as (L' & ->).
  assert (linkeds ts ((L' ++ [tail]) ++ [h])) as Hall.
  { rewrite <-(assoc_L (++)). apply linkeds_app. split; [done|]. by apply linkeds_cons. }
  destruct L' as [|b L']; simpl in Hh; injection Hh as ->; by split_and!.
Qed.

Lemma ring_add ts ts' h L tail t :
  ring ts h L → last L = Some tail → t ∉ L →
  (∀ a, nxt ts' a = if decide (a = t) then Some h else if decide (a = tail) then Some t else nxt ts a) →
  (∀ a, prv ts' a = if decide (a = t) then Some tail else if decide (a = h) then Some t else prv ts a) →
  ring ts' h (L ++ [t]).
Proof.
  intros Hr Htail Ht Hn Hp. assert (L ≠ []) as Hne by (by destruct L).
  destruct (ring_ends ts h L Hr Hne) as (x & Hh & Hx & H0 & Hnd & Hl & _).
  rewrite Htail in Hx. injection Hx as <-.
  assert (t ≠ tail) as Htt by (intros ->; by apply Ht, last_in).
  assert (t ≠ h) as Hth by (intros ->; apply Ht; destruct L; simpl in Hh; [done|]; injection Hh as ->; left).
  apply (ring_intro _ _ _ t).
  - by destruct L.
  - apply last_snoc.
  - done.
  - by apply nodup_snoc.
  - pose proof Htail as (L' & ->)%last_Some. rewrite <-(assoc_L (++)). apply linkeds_app. split.
    + eapply (linkeds_inner ts); [done|done|done| | |done].
      * intros a Ha Hne'. rewrite Hn, !decide_False; [done|done|]. by intros ->.
      * intros b Hb Hne'. rewrite Hp, !decide_False; [done|done|]. by intros ->.
    + apply linkeds_cons. split; [|done]. split.
      * rewrite Hn, decide_False, decide_True; done.
      * by rewrite Hp, decide_True.
  - split; [by rewrite Hn, decide_True|]. rewrite Hp, decide_False, decide_True; done.
Qed.

(** ** Removing a task *)

(** The queue after a removal starts at its own head. *)
Definition new_head L : Z := default 0 (head L).

Lemma ring_remove ts ts' h l1 t l2 pv nx :
  ring ts h (l1 ++ t :: l2) → l1 ++ l2 ≠ [] → prv ts t = Some pv → nxt ts t = Some nx →
  (∀ a, a ≠ t → nxt ts' a = if decide (a = pv) then Some nx else nxt ts a) →
  (∀ a, a ≠ t → prv ts' a = if decide (a = nx) then Some pv else prv ts a) →
  (∀ a, a ∈ l1 ++ l2 → a ≠ 0) →
  ring ts' (new_head (l1 ++ l2)) (l1 ++ l2) ∧ new_head (l1 ++ l2) = if decide (h = t) then nx else h.
Proof.
  intros Hr Hne Hpv Hnx Hn Hp H0. pose proof (ring_NoDup _ _ _ Hr) as Hnd.
  destruct (ring_ends ts h _ Hr) as (tail & Hh & Htail & _ & _ & Hl & Hlk); [by destruct l1|].
  apply NoDup_app in Hnd as (Hnd1 & Hd & [Ht2 Hnd2]%NoDup_cons).
  assert (t ∉ l1) as Ht1 by (intros Hin; apply (Hd t Hin); by left).
  assert (NoDup (l1 ++ l2)) as Hnd12.
  { apply NoDup_app. split_and!; [done| |done]. intros a Ha Hb. apply (Hd a Ha). by right. }
  destruct l1 as [|a l1' _] using rev_ind.
  - (* the head goes *)
    destruct l2 as [|b l2]; [done|]. simpl in Hh. injection Hh as ->. rewrite decide_True by done.
    apply linkeds_cons in Hl as [[Hn1 Hp1] Hl]. rewrite Hnx in Hn1. injection Hn1 as ->.
    destruct Hlk as [_ Hlp]. rewrite Hpv in Hlp. injection Hlp as ->.
    simpl in Htail. assert (tail ∈ b :: l2) as Htin by (by apply last_in).
    split; [|done]. apply (ring_intro _ _ _ tail); [done|done|apply H0; set_solver|done| |].
    + eapply (linkeds_inner ts); [done|done|done| | |done].
      * intros x Hx Hxt. rewrite Hn, decide_False; [done|done|set_solver].
      * intros x Hx Hxb. rewrite Hp, decide_False; [done|done|set_solver].
    + split; [rewrite Hn, decide_True|rewrite Hp, decide_True]; set_solver.
  - (* the head stays *)
    rewrite <-(assoc_L (++)) in *. cbn [app] in *. apply linkeds_app in Hl as [Hl1 Hl].
    apply linkeds_cons in Hl as [[_ Hpa] Hl2]. rewrite Hpv in Hpa. injection Hpa as ->.
    assert (∃ m, l1' ++ [a] = h :: m) as [m Em].
    { destruct l1' as [|c l1']; simpl in Hh; injection Hh as ->; by eexists. }
    assert (h ∈ l1' ++ [a]) as Hh1 by (rewrite Em; set_solver).
    assert (h ≠ t) as Hht by (by intros ->). rewrite decide_False by done.
    assert (head (l1' ++ a :: l2) = Some h) as Hhd.
    { change (a :: l2) with ([a] ++ l2). rewrite (assoc_L (++)), Em. done. }
    split; [|unfold new_head; by rewrite Hhd]. replace (new_head (l1' ++ a :: l2)) with h by (unfold new_head; by rewrite Hhd).
    assert (∀ nx', nx' = nx → nx' ∉ l1' ++ [a] ∨ nx' = h → linkeds ts' (l1' ++ [a])) as Hleft.
    { intros nx' -> Hnx'. eapply (linkeds_inner ts _ _ h a); [by rewrite Em|apply last_snoc|done| | |done].
      - intros x Hx Hxa. rewrite Hn, decide_False; [done|done|set_solver].
      - intros x Hx Hxh. rewrite Hp, decide_False; [done| |set_solver]. intros ->. by destruct Hnx'. }
    assert (h ≠ 0) as Hh0 by (apply H0; set_solver).
    destruct l2 as [|b l2].
    + assert (tail = t) as -> by (rewrite last_app_cons in Htail; by injection Htail).
      destruct Hlk as [Hnt _]. rewrite Hnx in Hnt. injection Hnt as ->.
      apply (ring_intro _ _ _ a); [done|apply last_snoc|done|done|by apply (Hleft h); [|right]|].
      split; [rewrite Hn, decide_True|rewrite Hp, decide_True]; set_solver.
    + apply linkeds_cons in Hl2 as [[Hnt _] Hl2]. rewrite Hnx in Hnt. injection Hnt as ->.
      assert (tail ∈ b :: l2) as Htin.
      { rewrite last_app_cons, !last_cons_cons in Htail. by apply last_in. }
      assert (b ∉ l1' ++ [a]) as Hb1 by (intros Hin; apply (Hd b Hin); set_solver).
      assert (a ∉ b :: l2) as Ha2 by (intros Hin; apply (Hd a); set_solver).
      apply (ring_intro _ _ _ tail); [done| |done|done| |].
      * by rewrite last_app_cons, !last_cons_cons in *.
      * apply linkeds_join; [by apply (Hleft b); [|left]| |].
        -- split; [rewrite Hn, decide_True|rewrite Hp, decide_True]; set_solver.
        -- eapply (linkeds_inner ts _ (b :: l2) b tail); [done| |done| | |done].
           ++ by rewrite last_app_cons, !last_cons_cons in Htail.
           ++ intros x Hx _. rewrite Hn, decide_False; [done| |]; intros ->; set_solver.
           ++ intros x Hx Hxb. rewrite Hp, decide_False; [done|done|]. intros ->; set_solver.
      * destruct Hlk as [Hl3 Hl4]. split.
        -- rewrite Hn, decide_False; [done| |]; intros ->; set_solver.
        -- rewrite Hp, decide_False; [done| |]; [by intros ->|done].
Qed.

(** ** The two operations *)

Lemma nxt_Some ts a b : nxt ts a = Some b → ∃ t, ts !! a = Some t ∧ t_next t = b.
Proof. unfold nxt. destruct (ts !! a) as [t|]; [|done]. intros [= <-]. by exists t. Qed.

Lemma prv_Some ts a b : prv ts a = Some b → ∃ t, ts !! a = Some t ∧ t_prev t = b.
Proof. unfold prv. destruct (ts !! a) as [t|]; [|done]. intros [= <-]. by exists t. Qed.

Ltac map_lookup := repeat first [rewrite lookup_insert_eq | rewrite lookup_insert_ne by congruence].

Section ops.
Context {A : Type} `{FrameOps A}.
Implicit Types (s : sched A).

Lemma run_queue_add_spec s L t tt :
  ring (sc_tasks s) (run_queue_head s) L → sc_tasks s !! t = Some tt → t ∉ L → t ≠ 0 →
  ∃ ts' hd', run_queue_add t s = Some (with_head hd' (with_tasks ts' s))
    ∧ ring ts' hd' (L ++ [t])
    ∧ same_body (<[t := set_state TASK_READY tt]> (sc_tasks s)) ts'
    ∧ ∀ a, a ∉ L → a ≠ t → ts' !! a = sc_tasks s !! a.
Proof.
  intros Hr Ht HtL Ht0. unfold run_queue_add. destruct (decide (L = [])) as [->|Hne].
  { simpl in Hr. rewrite Hr. cbn [Z.eqb].
    rewrite (mod_task_eq _ _ _ _ Ht). cbn [mbind option_bind].
    erewrite mod_task_eq by apply lookup_insert_eq. cbn [mbind option_bind].
    erewrite mod_task_eq by apply lookup_insert_eq. cbn [with_tasks with_head sc_tasks].
    rewrite !insert_insert_eq.
    match goal with |- context [Some (with_tasks ?ts' _)] => exists ts', t end. split; [done|]. split_and!.
    - split_and!; [done|done|apply NoDup_singleton|]. apply linkeds_cons. split; [|done].
      split; [rewrite nxt_insert|rewrite prv_insert]; by rewrite decide_True.
    - intros a. destruct (decide (a = t)) as [->|]; [by map_lookup|by rewrite !lookup_insert_ne].
    - intros a _ Ha. by rewrite lookup_insert_ne. }
  destruct (ring_ends _ _ _ Hr Hne) as (tail & Hh & Htail & H0 & _ & _ & [Hnt Hph]).
  assert (run_queue_head s ∈ L) as HhL by (destruct L; [done|]; injection Hh as ->; left).
  pose proof (last_in _ _ Htail) as HtailL.
  apply Z.eqb_neq in H0 as ->. apply prv_Some in Hph as (hd & Hhd & <-). set (tail := t_prev hd) in *.
  apply nxt_Some in Hnt as (tl & Htl & Htln). unfold get_task. rewrite Hhd. cbn [mbind option_bind]. fold tail.
  assert (t ≠ tail) as Htt by (intros ->; done). assert (t ≠ run_queue_head s) as Hth by (intros ->; done).
  set (h := run_queue_head s) in *.
  rewrite (mod_task_eq _ _ _ _ Htl). cbn [mbind option_bind].
  erewrite (mod_task_eq t) by (cbn [with_tasks sc_tasks]; by rewrite lookup_insert_ne). cbn [mbind option_bind].
  erewrite (mod_task_eq t) by apply lookup_insert_eq. cbn [mbind option_bind with_tasks sc_tasks].
  set (x := if decide (h = tail) then set_next t tl else hd).
  erewrite (mod_task_eq h _ _ x).
  2: { cbn [with_tasks sc_tasks]. rewrite !(lookup_insert_ne _ t h) by done. unfold x.
       destruct (decide (h = tail)) as [->|]; [apply lookup_insert_eq|by rewrite lookup_insert_ne]. }
  cbn [mbind option_bind with_tasks sc_tasks].
  erewrite (mod_task_eq t) by (cbn [with_tasks sc_tasks]; rewrite lookup_insert_ne by done; apply lookup_insert_eq).
  cbn [with_tasks sc_tasks]. rewrite !insert_insert_eq.
  match goal with |- context [Some (with_tasks ?ts' _)] => exists ts', h end.
  split; [by destruct s|].
  assert (unlink x = unlink hd) as Hx.
  { unfold x. destruct (decide (h = tail)) as [E|]; [|done]. rewrite <-E, Hhd in Htl. by injection Htl as <-. }
  split_and!.
  - eapply (ring_add (sc_tasks s)); [done|exact Htail|done| |]; intros a.
    + rewrite !nxt_insert. repeat case_decide; simplify_eq; try done.
      * unfold x. by rewrite decide_True.
      * unfold x. rewrite decide_False by done. cbn. unfold nxt. by rewrite Hhd.
    + rewrite !prv_insert. repeat case_decide; simplify_eq; try done.
      unfold prv. fold tail. rewrite Htl. done.
  - intros a. destruct (decide (a = t)) as [->|Hat]; [by rewrite !lookup_insert_eq|].
    rewrite !(lookup_insert_ne _ t a) by congruence. destruct (decide (a = h)) as [->|Hah].
    + rewrite lookup_insert_eq, Hhd. cbn [fmap option_fmap option_map]. f_equal. exact Hx.
    + rewrite (lookup_insert_ne _ h a), (lookup_insert_ne _ t a) by congruence.
      destruct (decide (a = tail)) as [->|]; [|by rewrite lookup_insert_ne].
      by rewrite lookup_insert_eq, Htl.
  - intros a Ha Hat. rewrite !lookup_insert_ne; [done|..]; intros ->; done.
Qed.

Lemma ring_neighbours ts h l1 t l2 :
  ring ts h (l1 ++ t :: l2) → l1 ++ l2 ≠ [] →
  ∃ pv nx, linked ts pv t ∧ linked ts t nx ∧ pv ∈ l1 ++ l2 ∧ nx ∈ l1 ++ l2.
Proof.
  intros Hr Hne. destruct (ring_ends ts h _ Hr) as (tail & Hh & Htail & _ & _ & Hl & Hlk); [by destruct l1|].
  destruct l1 as [|a l1' _] using rev_ind.
  - destruct l2 as [|b l2]; [done|]. simpl in Hh. injection Hh as ->. exists tail, b.
    cbn [app] in *. apply linkeds_cons in Hl as [? _]. split_and!; [done|done| |set_solver].
    rewrite last_cons_cons in Htail. by apply last_in.
  - rewrite <-(assoc_L (++)) in *. cbn [app] in *. apply linkeds_app in Hl as [_ Hl].
    apply linkeds_cons in Hl as [Hat Hl]. exists a. destruct l2 as [|b l2].
    + rewrite last_app_cons in Htail. injection Htail as ->. exists h. split_and!; [done|done|set_solver|].
      destruct l1' as [|c l1']; simpl in Hh; injection Hh as ->; set_solver.
    + apply linkeds_cons in Hl as [? _]. exists b. split_and!; [done|done|set_solver|set_solver].
Qed.

Lemma ring_mem ts h L a : ring ts h L → a ∈ L → is_Some (ts !! a).
Proof.
  intros Hr (l1 & l2 & ->)%list_elem_of_split. destruct (decide (l1 ++ l2 = [])) as [E|Hne].
  - apply app_eq_nil in E as [-> ->]. destruct Hr as (_ & _ & _ & [[Hn _] _]). apply nxt_Some in Hn as (x & ? & _).
    by eexists.
  - destruct (ring_neighbours ts h l1 a l2 Hr Hne) as (pv & nx & _ & [Hn _] & _).
    apply nxt_Some in Hn as (x & ? & _). by eexists.
Qed.

Lemma run_queue_remove_spec s l1 t l2 :
  ring (sc_tasks s) (run_queue_head s) (l1 ++ t :: l2) → sc_tasks s !! 0 = None →
  ∃ ts', run_queue_remove t s = Some (with_head (new_head (l1 ++ l2)) (with_tasks ts' s))
    ∧ ring ts' (new_head (l1 ++ l2)) (l1 ++ l2) ∧ same_body (sc_tasks s) ts'
    ∧ nxt ts' t = Some 0 ∧ prv ts' t = Some 0
    ∧ ∀ a, a ∉ l1 ++ t :: l2 → ts' !! a = sc_tasks s !! a.
Proof.
  intros Hr Hz. assert (∀ a, a ∈ l1 ++ t :: l2 → a ≠ 0) as Hnz.
  { intros a Ha ->. destruct (ring_mem _ _ _ _ Hr Ha). congruence. }
  destruct (ring_mem _ _ _ t Hr) as [tt Ht]; [set_solver|].
  unfold run_queue_remove, get_task. rewrite Ht. cbn [mbind option_bind].
  set (ts0 := sc_tasks s) in *. set (h := run_queue_head s) in *.
  destruct (decide (l1 ++ l2 = [])) as [E|Hne].
  { apply app_eq_nil in E as [-> ->]. destruct Hr as (_ & _ & _ & [[Hn _] _]). unfold nxt in Hn. rewrite Ht in Hn.
    injection Hn as ->. rewrite Z.eqb_refl. cbn [mbind option_bind].
    rewrite (mod_task_eq t _ _ tt) by exact Ht. cbn [mbind option_bind].
    erewrite mod_task_eq by apply lookup_insert_eq. cbn [with_tasks with_head sc_tasks]. rewrite insert_insert_eq.
    match goal with |- context [Some (with_tasks ?ts' _)] => exists ts' end. split; [done|]. split_and!.
    - done.
    - by apply (same_body_insert _ _ tt).
    - by rewrite nxt_insert, decide_True.
    - by rewrite prv_insert, decide_True.
    - intros a Ha. rewrite lookup_insert_ne; [done|]. set_solver. }
  destruct (ring_neighbours _ _ _ _ _ Hr Hne) as (pv & nx & [Hpn Hpv] & [Hnx Hnp] & Hpl & Hnl).
  pose proof (ring_NoDup _ _ _ Hr) as Hnd. apply NoDup_app in Hnd as (_ & Hd & [Ht2 _]%NoDup_cons).
  assert (t ∉ l1 ++ l2) as Htl by (intros [Hin|Hin]%elem_of_app; [apply (Hd t Hin); by left|done]).
  assert (pv ≠ t ∧ nx ≠ t) as [Hpt Hnt] by (split; by intros ->).
  assert (t_next tt = nx ∧ t_prev tt = pv) as [En Ep].
  { unfold nxt in Hnx. unfold prv in Hpv. rewrite Ht in *. by injection Hnx; injection Hpv. }
  rewrite En, Ep. apply Z.eqb_neq in Hnt as Hnt'. rewrite Hnt'.
  apply nxt_Some in Hpn as (pt & Hpt' & _). apply prv_Some in Hnp as (nt & Hnt1 & _).
  rewrite (mod_task_eq pv _ _ pt) by exact Hpt'. cbn [mbind option_bind with_tasks sc_tasks]. fold ts0.
  rewrite (lookup_insert_ne _ pv t), Ht by done. cbn [mbind option_bind]. rewrite En, Ep.
  set (y := if decide (nx = pv) then set_next nx pt else nt).
  rewrite (mod_task_eq nx _ _ y).
  2: { cbn [with_tasks sc_tasks]. fold ts0. unfold y. destruct (decide (nx = pv)) as [->|];
       [apply lookup_insert_eq|by rewrite lookup_insert_ne]. }
  cbn [mbind option_bind with_tasks sc_tasks]. fold ts0.
  rewrite (lookup_insert_ne _ nx t), (lookup_insert_ne _ pv t), Ht by done. cbn [mbind option_bind]. rewrite En.
  set (ts2 := <[nx := set_prev pv y]> (<[pv := set_next nx pt]> ts0)).
  assert (ts2 !! t = Some tt) as Ht2'.
  { unfold ts2. by rewrite (lookup_insert_ne _ nx t), (lookup_insert_ne _ pv t). }
  assert (unlink y = unlink nt) as Hy.
  { unfold y. destruct (decide (nx = pv)) as [E|]; [|done]. rewrite <-E, Hnt1 in Hpt'. by injection Hpt' as <-. }
  set (s2 := if run_queue_head _ =? t then _ else _).
  assert (s2 = with_head (if decide (h = t) then nx else h) (with_tasks ts2 s)) as ->.
  { unfold s2. cbn [with_tasks with_head run_queue_head]. fold h.
    destruct (Z.eqb_spec h t) as [->|]; [by rewrite decide_True|rewrite decide_False by done]. by destruct s. }
  rewrite (mod_task_eq t _ _ tt) by exact Ht2'. cbn [mbind option_bind].
  erewrite (mod_task_eq t) by apply lookup_insert_eq. cbn [with_tasks with_head sc_tasks]. rewrite insert_insert_eq.
  set (ts' := <[t := _]> ts2).
  destruct (ring_remove ts0 ts' h l1 t l2 pv nx Hr Hne Hpv Hnx) as [Hr' Ehd].
  - intros a Ha. unfold ts', ts2. rewrite !nxt_insert. repeat case_decide; simplify_eq; try done.
    + unfold y. by rewrite decide_True.
    + unfold y. rewrite decide_False by done. cbn. unfold nxt. by rewrite Hnt1.
  - intros a Ha. unfold ts', ts2. rewrite !prv_insert. repeat case_decide; simplify_eq; try done.
    cbn. unfold prv. by rewrite Hpt'.
  - intros a Ha. apply Hnz. set_solver.
  - exists ts'. split; [by rewrite Ehd|]. split_and!; [done| | | |].
    + intros a. unfold ts'. destruct (decide (a = t)) as [->|Hat]; [rewrite lookup_insert_eq, Ht; done|].
      rewrite lookup_insert_ne by congruence. unfold ts2. destruct (decide (a = nx)) as [->|Han].
      * rewrite lookup_insert_eq, Hnt1. cbn [fmap option_fmap option_map]. f_equal. exact Hy.
      * rewrite lookup_insert_ne by congruence. destruct (decide (a = pv)) as [->|]; [|by rewrite lookup_insert_ne].
        by rewrite lookup_insert_eq, Hpt'.
    + unfold ts'. by rewrite nxt_insert, decide_True.
    + unfold ts'. by rewrite prv_insert, decide_True.
    + intros a Ha. unfold ts', ts2. rewrite !lookup_insert_ne; [done|..]; set_solver.
Qed.
End ops.
