(* ===== verification/SchedInv.v ===== *)
(** The invariant of kernel/sched/sched.c and the specifications of the calls
    that keep it: picking, switching, waking sleepers and the timer tick. *)
From stdpp Require Import prelude gmap.
From S2P Require Import Prelude CString FrameAlloc Vmm Heap Sched SchedRing.

Implicit Types (ts : gmap Z task) (l L W : list Z).

Definition tstate ts (a : Z) : option task_state := t_state <$> ts !! a.

(** A body update commutes with forgetting the links. *)
Definition body_fun (f : task → task) : Prop := ∀ x, unlink (f x) = f (unlink x).

Lemma same_body_mod f ts ts' a t t' :
  body_fun f → same_body ts ts' → ts !! a = Some t → ts' !! a = Some t' →
  same_body (<[a := f t]> ts) (<[a := f t']> ts').
Proof.
  intros Hf Hs Ha Ha' b. pose proof (Hs a) as Hab. destruct (decide (b = a)) as [->|].
  - rewrite !lookup_insert_eq. rewrite Ha, Ha' in Hab. cbn [fmap option_fmap option_map] in *.
    apply (inj Some) in Hab. f_equal. by rewrite !Hf, Hab.
  - rewrite !lookup_insert_ne by done. apply Hs.
Qed.

Lemma same_body_state ts ts' a : same_body ts ts' → tstate ts' a = tstate ts a.
Proof. apply (same_body_field t_state). done. Qed.

Lemma same_body_dom ts ts' a : same_body ts ts' → is_Some (ts' !! a) ↔ is_Some (ts !! a).
Proof.
  intros Hs. pose proof (Hs a) as E. destruct (ts !! a), (ts' !! a); simpl in E; try done; split; by eexists || intros [? ?].
Qed.

Section inv.
Context {A : Type} `{FrameOps A}.
Implicit Types (s : sched A).

(** [L] is the run queue: all its tasks are ready, the current task is the one
    that runs, and the links of every other task are NULL. *)
Record sched_inv s L : Prop := {
  si_null : sc_tasks s !! 0 = None;
  si_ring : ring (sc_tasks s) (run_queue_head s) L;
  si_ready : ∀ t, t ∈ L → tstate (sc_tasks s) t = Some TASK_READY;
  si_queued : ∀ t, tstate (sc_tasks s) t = Some TASK_READY → t ≠ idle_task s → t ∈ L;
  si_cur : tstate (sc_tasks s) (current_task s) = Some TASK_RUNNING;
  si_one : ∀ t, tstate (sc_tasks s) t = Some TASK_RUNNING → t = current_task s;
  si_unlinked : ∀ t x, sc_tasks s !! t = Some x → t ∉ L → t_next x = 0 ∧ t_prev x = 0;
  si_idle : is_Some (sc_tasks s !! idle_task s);
  si_slice : ∀ c, sc_tasks s !! current_task s = Some c → 0 ≤ t_time_slice c ≤ DEFAULT_TIMESLICE;
  si_sleep : 0 ≤ sleep_list_cnt s ≤ SLEEP_LIST_MAX
             ∧ ∀ i, 0 ≤ i < sleep_list_cnt s → is_Some (sc_tasks s !! sleep_list s i);
}.

Lemma inv_cur_task s L : sched_inv s L → ∃ c, sc_tasks s !! current_task s = Some c ∧ t_state c = TASK_RUNNING.
Proof.
  intros Hi. pose proof (si_cur _ _ Hi) as Hc. unfold tstate in Hc.
  destruct (sc_tasks s !! current_task s) as [c|]; [|done]. injection Hc as Hc. by exists c.
Qed.

Lemma inv_cur_notin s L : sched_inv s L → current_task s ∉ L.
Proof. intros Hi Hin%(si_ready _ _ Hi). pose proof (si_cur _ _ Hi). congruence. Qed.

Lemma task_nonzero s L a x : sched_inv s L → sc_tasks s !! a = Some x → a ≠ 0.
Proof. intros Hi Ha ->. pose proof (si_null _ _ Hi). congruence. Qed.

Lemma pick_next_spec s L :
  sched_inv s L → sched_pick_next s = Some (match L with [] => idle_task s | n :: _ => n end).
Proof.
  intros Hi. unfold sched_pick_next. pose proof (si_ring _ _ Hi) as Hr. destruct L as [|n L].
  - simpl in Hr. by rewrite Hr.
  - destruct Hr as (-> & Hn & _). apply Z.eqb_neq in Hn as ->. cbn [pick_loop]. unfold get_task.
    pose proof (si_ready _ _ Hi n ltac:(by left)) as Hs. unfold tstate in Hs.
    destruct (sc_tasks s !! n) as [x|]; [|done]. injection Hs as Hs. cbn [mbind option_bind].
    by rewrite decide_True.
Qed.

(** ** The switch *)

(** The tasks after a switch to [n], links aside. *)
Definition switch_body s (n : Z) (c x : task) : gmap Z task :=
  <[current_task s := set_cpu (sc_regs s) (set_state TASK_READY c)]>
    (<[n := set_slice DEFAULT_TIMESLICE (set_state TASK_RUNNING x)]> (sc_tasks s)).

Record switched s (n : Z) (c x : task) s' : Prop := {
  sw_body : same_body (switch_body s n c x) (sc_tasks s');
  sw_current : current_task s' = n;
  sw_flag : in_sched s' = 0;
  sw_regs : sc_regs s' = t_cpu x;
  sw_kstack : tss_rsp0 s' = t_kernel_stack x ∧ syscall_kernel_rsp s' = t_kernel_stack x;
  sw_cr3 : vm_cr3 (hp_vm (sc_heap s')) = if t_cr3 c =? t_cr3 x then vm_cr3 (hp_vm (sc_heap s)) else t_cr3 x;
  sw_idle : idle_task s' = idle_task s;
  sw_sleep : sleep_list s' = sleep_list s ∧ sleep_list_cnt s' = sleep_list_cnt s;
}.

(** The tasks that are not queued have no links. *)
Definition unlinked ts L : Prop := ∀ a y, ts !! a = Some y → a ∉ L → t_next y = 0 ∧ t_prev y = 0.

(** The outgoing task: ready again, and at the tail of the queue unless idle. *)
Definition requeue s : list Z := if decide (current_task s = idle_task s) then [] else [current_task s].

Lemma requeue_spec s n L c :
  sched_inv s (n :: L) → sc_tasks s !! current_task s = Some c →
  ∃ ts' hd', (s1 ← mod_task (current_task s) (set_state TASK_READY) s;
              if current_task s =? idle_task s then Some s1 else run_queue_add (current_task s) s1)
             = Some (with_head hd' (with_tasks ts' s))
    ∧ ring ts' hd' (n :: L ++ requeue s)
    ∧ same_body (<[current_task s := set_state TASK_READY c]> (sc_tasks s)) ts'
    ∧ unlinked ts' (n :: L ++ requeue s).
Proof.
  intros Hi Hc. rewrite (mod_task_eq _ _ _ _ Hc). cbn [mbind option_bind]. unfold requeue.
  set (ts1 := <[current_task s := _]> _).
  assert (ring ts1 (run_queue_head s) (n :: L)) as Hr1.
  { eapply ring_same; [|apply (si_ring _ _ Hi)]. intros a Ha. unfold ts1. rewrite nxt_insert, prv_insert.
    rewrite !decide_False; [done|..]; intros ->; by apply (inv_cur_notin _ _ Hi). }
  destruct (Z.eqb_spec (current_task s) (idle_task s)) as [E|E].
  - rewrite decide_True by done. rewrite app_nil_r. exists ts1, (run_queue_head s). split_and!; [by destruct s|done|done|].
    intros a y [[<- <-]|[_ Ha]]%lookup_insert_Some Hal; [|by eapply si_unlinked].
    apply (si_unlinked _ _ Hi _ _ Hc). by apply inv_cur_notin.
  - rewrite decide_False by done.
    destruct (run_queue_add_spec (with_tasks ts1 s) (n :: L) (current_task s) (set_state TASK_READY c))
      as (ts' & hd' & -> & Hr & Hb & Hout); [exact Hr1|apply lookup_insert_eq|by apply inv_cur_notin|by eapply task_nonzero|].
    exists ts', hd'. split_and!; [done|done| |].
    + cbn [with_tasks sc_tasks] in Hb. unfold ts1 in Hb. rewrite insert_insert_eq in Hb. exact Hb.
    + intros a y Ha Hal. rewrite Hout in Ha by set_solver. cbn [with_tasks sc_tasks] in Ha. unfold ts1 in Ha.
      rewrite lookup_insert_ne in Ha by set_solver. eapply (si_unlinked _ _ Hi); [done|set_solver].
Qed.

Lemma do_switch_spec s n L c x :
  sched_inv s (n :: L) → sc_tasks s !! current_task s = Some c → sc_tasks s !! n = Some x →
  ∃ s', sched_do_switch n s = Some s' ∧ switched s n c x s' ∧ ring (sc_tasks s') (run_queue_head s') (L ++ requeue s)
    ∧ unlinked (sc_tasks s') (L ++ requeue s).
Proof.
  intros Hi Hc Hx. pose proof (inv_cur_notin _ _ Hi) as Hnin.
  assert (current_task s ≠ n) as Hcn by (intros E; apply Hnin; rewrite E; left).
  unfold sched_do_switch. destruct (Z.eqb_spec n (current_task s)); [congruence|]. cbv zeta.
  unfold get_task. rewrite Hc. cbn [mbind option_bind].
  destruct (inv_cur_task _ _ Hi) as (c' & Hc' & Hrun). rewrite Hc in Hc'. injection Hc' as <-.
  rewrite decide_True by done.
  destruct (requeue_spec s n L c Hi Hc) as (ts1 & hd1 & E1 & Hr1 & Hb1 & Hout1). rewrite E1. cbn [mbind option_bind].
  assert (ts1 !! 0 = None) as Hz1.
  { apply eq_None_not_Some. rewrite (same_body_dom _ _ 0 Hb1), lookup_insert_ne by (by eapply task_nonzero).
    rewrite (si_null _ _ Hi). by intros [? ?]. }
  destruct (run_queue_remove_spec (with_head hd1 (with_tasks ts1 s)) [] n (L ++ requeue s) Hr1 Hz1)
    as (ts2 & -> & Hr2 & Hb2 & Hn2 & Hp2 & Hout2).
  cbn [mbind option_bind with_head with_tasks sc_tasks app] in *.
  assert (same_body (<[current_task s := set_state TASK_READY c]> (sc_tasks s)) ts2) as Hb by (by etrans).
  destruct (same_body_lookup _ _ n x Hb) as (x2 & Hx2 & Ex2); [by rewrite lookup_insert_ne|].
  rewrite (mod_task_eq n _ _ x2) by exact Hx2. cbn [mbind option_bind with_head with_tasks sc_tasks].
  rewrite lookup_insert_eq. cbn [mbind option_bind].
  set (ts3 := <[n := _]> ts2).
  destruct (same_body_lookup _ _ (current_task s) _ Hb (lookup_insert_eq _ _ _)) as (c2 & Hc2 & Ec2).
  assert (ts3 !! current_task s = Some c2) as Hc3 by (unfold ts3; by rewrite lookup_insert_ne).
  assert (ts3 !! n = Some (set_slice DEFAULT_TIMESLICE (set_state TASK_RUNNING x2))) as Hn3 by apply lookup_insert_eq.
  unfold sched_switch.
  rewrite (mod_task_eq (current_task s) _ _ c2) by exact Hc3.
  unfold get_task. cbn [mbind option_bind with_head with_tasks with_in_sched with_kstack with_current sc_tasks sc_regs sc_heap].
  rewrite lookup_insert_eq. cbn [mbind option_bind]. rewrite (lookup_insert_ne _ (current_task s) n), Hn3 by done.
  cbn [mbind option_bind].
  eexists. split; [reflexivity|].
  assert (t_cr3 c2 = t_cr3 c ∧ t_cr3 x2 = t_cr3 x ∧ t_cpu x2 = t_cpu x ∧ t_kernel_stack x2 = t_kernel_stack x)
    as (Ecr & Exr & Exc & Exk).
  { split_and!; [change (t_cr3 (unlink c2) = t_cr3 c); by rewrite Ec2
                |change (t_cr3 (unlink x2) = t_cr3 x); by rewrite Ex2
                |change (t_cpu (unlink x2) = t_cpu x); by rewrite Ex2
                |change (t_kernel_stack (unlink x2) = t_kernel_stack x); by rewrite Ex2]. }
  cbn [with_regs with_tasks with_in_sched with_kstack with_current with_head sc_tasks run_queue_head sc_regs sc_heap].
  split; [split|split].
  - cbn [with_regs with_tasks with_in_sched with_kstack with_current with_head sc_tasks]. unfold switch_body.
    assert (same_body (<[n := set_slice DEFAULT_TIMESLICE (set_state TASK_RUNNING x)]>
              (<[current_task s := set_state TASK_READY c]> (sc_tasks s))) ts3) as Hb3.
    { apply (same_body_mod (λ y, set_slice DEFAULT_TIMESLICE (set_state TASK_RUNNING y))); [done|done| |done].
      by rewrite lookup_insert_ne. }
    rewrite insert_insert_ne in Hb3 by done.
    pose proof (same_body_mod (set_cpu (sc_regs s)) _ _ (current_task s) _ _ ltac:(done) Hb3
                  (lookup_insert_eq _ _ _) Hc3) as Hb4.
    by rewrite insert_insert_eq in Hb4.
  - done.
  - done.
  - exact Exc.
  - split; exact Exk.
  - cbn. rewrite Ecr, Exr. by destruct (t_cr3 c =? t_cr3 x).
  - done.
  - done.
  - eapply ring_same; [|exact Hr2]. intros a Ha. rewrite !nxt_insert, !prv_insert. unfold ts3.
    rewrite !nxt_insert, !prv_insert. pose proof (ring_NoDup _ _ _ Hr1) as [Hnd _]%NoDup_cons.
    repeat case_decide; simplify_eq; try done; unfold nxt, prv; by rewrite Hc2.
  - intros a y Ha Hal.
    assert (∃ y2, ts2 !! a = Some y2 ∧ t_next y2 = t_next y ∧ t_prev y2 = t_prev y) as (y2 & Hy2 & <- & <-).
    { revert Ha. destruct (decide (a = current_task s)) as [->|].
      - rewrite lookup_insert_eq. intros [= <-]. by exists c2.
      - rewrite lookup_insert_ne by done. unfold ts3. destruct (decide (a = n)) as [->|].
        + rewrite lookup_insert_eq. intros [= <-]. by exists x2.
        + rewrite lookup_insert_ne by done. intros Ha. by exists y. }
    destruct (decide (a = n)) as [->|Han].
    + unfold nxt in Hn2. unfold prv in Hp2. rewrite Hy2 in *. by injection Hn2; injection Hp2.
    + rewrite Hout2 in Hy2 by set_solver. eapply Hout1; [exact Hy2|set_solver].
Qed.

(** The invariant after a switch. *)
Lemma switched_inv s n L c x s' :
  sched_inv s (n :: L) → sc_tasks s !! current_task s = Some c → sc_tasks s !! n = Some x →
  switched s n c x s' → ring (sc_tasks s') (run_queue_head s') (L ++ requeue s) →
  unlinked (sc_tasks s') (L ++ requeue s) → sched_inv s' (L ++ requeue s).
Proof.
  intros Hi Hc Hx Hsw Hr Hu. pose proof (sw_body _ _ _ _ _ Hsw) as Hb. unfold switch_body in Hb.
  pose proof (inv_cur_notin _ _ Hi) as Hnin.
  assert (current_task s ≠ n) as Hcn by (intros E; apply Hnin; rewrite E; left).
  assert (∀ a, tstate (sc_tasks s') a = if decide (a = current_task s) then Some TASK_READY
                                         else if decide (a = n) then Some TASK_RUNNING else tstate (sc_tasks s) a) as Hst.
  { intros a. rewrite (same_body_state _ _ _ Hb). unfold tstate. repeat case_decide; subst; map_lookup; done. }
  assert (∀ a, is_Some (sc_tasks s' !! a) ↔ is_Some (sc_tasks s !! a)) as Hdom.
  { intros a. rewrite (same_body_dom _ _ _ Hb), !lookup_insert_is_Some'. split; [|tauto].
    intros [<-|[<-|?]]; [by eexists|by eexists|done]. }
  pose proof (ring_NoDup _ _ _ (si_ring _ _ Hi)) as [Hnl _]%NoDup_cons.
  split.
  - apply eq_None_not_Some. rewrite Hdom, (si_null _ _ Hi). by intros [? ?].
  - done.
  - intros t Ht. rewrite Hst. apply elem_of_app in Ht as [Ht|Ht].
    + rewrite !decide_False; [apply (si_ready _ _ Hi); by right|by intros ->|]. intros ->. apply Hnin. by right.
    + unfold requeue in Ht. case_decide; [by apply not_elem_of_nil in Ht|]. apply list_elem_of_singleton in Ht as ->.
      by rewrite decide_True.
  - intros t. rewrite Hst, (sw_idle _ _ _ _ _ Hsw). intros Ht Hti. apply elem_of_app. repeat case_decide; [|done|].
    + right. unfold requeue. rewrite decide_False by congruence. subst t. by apply list_elem_of_singleton.
    + left. apply (si_queued _ _ Hi) in Ht; [|done]. by apply elem_of_cons in Ht as [?|?].
  - rewrite Hst, (sw_current _ _ _ _ _ Hsw). rewrite decide_False by congruence. by rewrite decide_True.
  - intros t. rewrite Hst, (sw_current _ _ _ _ _ Hsw). repeat case_decide; [done|done|]. intros Ht.
    by apply (si_one _ _ Hi) in Ht.
  - exact Hu.
  - rewrite Hdom, (sw_idle _ _ _ _ _ Hsw). apply Hi.
  - intros y Hy. rewrite (sw_current _ _ _ _ _ Hsw) in Hy.
    pose proof (same_body_field t_time_slice _ _ n ltac:(done) Hb) as E. rewrite Hy in E.
    rewrite lookup_insert_ne, lookup_insert_eq in E by done. injection E as ->. cbn. unfold DEFAULT_TIMESLICE. lia.
  - destruct (sw_sleep _ _ _ _ _ Hsw) as [-> ->]. split; [apply Hi|]. intros i Hii. rewrite Hdom. by apply (si_sleep _ _ Hi).
Qed.

(** ** Enqueueing and waking *)

(** The tasks of [W] became ready; nothing else changed but links. *)
Record woke W s s' : Prop := {
  wk_body : ∀ a, unlink <$> sc_tasks s' !! a
                 = (λ y, unlink (if decide (a ∈ W) then set_state TASK_READY y else y)) <$> sc_tasks s !! a;
  wk_current : current_task s' = current_task s;
  wk_idle : idle_task s' = idle_task s;
  wk_flag : in_sched s' = in_sched s;
  wk_regs : sc_regs s' = sc_regs s;
  wk_heap : sc_heap s' = sc_heap s;
}.

Lemma woke_nil s s' :
  sc_tasks s' = sc_tasks s → current_task s' = current_task s → idle_task s' = idle_task s →
  in_sched s' = in_sched s → sc_regs s' = sc_regs s → sc_heap s' = sc_heap s → woke [] s s'.
Proof.
  intros E ? ? ? ? ?. split; [|done..]. intros a. rewrite E. apply option_fmap_ext. intros y.
  rewrite decide_False; [done|]. apply not_elem_of_nil.
Qed.

Lemma woke_trans W1 W2 s s1 s2 : woke W1 s s1 → woke W2 s1 s2 → woke (W1 ++ W2) s s2.
Proof.
  intros [B1 ? ? ? ? ?] [B2 ? ? ? ? ?]. split; [|congruence..]. intros a. specialize (B1 a). rewrite B2.
  destruct (sc_tasks s !! a) as [y|], (sc_tasks s1 !! a) as [y1|]; cbn [fmap option_fmap option_map] in *; try done.
  f_equal. apply (inj Some) in B1.
  assert (∀ z, unlink (set_state TASK_READY z) = set_state TASK_READY (unlink z)) as Hu by done.
  destruct (decide (a ∈ W2)), (decide (a ∈ W1)), (decide (a ∈ W1 ++ W2)); try set_solver; rewrite ?Hu, ?B1; done.
Qed.

(** A field the scheduler's queues do not touch. *)
Lemma woke_field {B} (f : task → B) W s s' a :
  (∀ t, f (unlink t) = f t) → (∀ t, f (set_state TASK_READY t) = f t) → woke W s s' →
  f <$> sc_tasks s' !! a = f <$> sc_tasks s !! a.
Proof.
  intros Hf Hs Hw. pose proof (wk_body _ _ _ Hw a) as E.
  destruct (sc_tasks s !! a) as [t|], (sc_tasks s' !! a) as [t'|]; cbn [fmap option_fmap option_map] in *; try done.
  apply (inj Some) in E. rewrite <-(Hf t'), E, Hf. by case_decide; rewrite ?Hs.
Qed.

Lemma woke_state W s s' a :
  woke W s s' → tstate (sc_tasks s') a
    = if decide (a ∈ W) then (λ _, TASK_READY) <$> sc_tasks s !! a else tstate (sc_tasks s) a.
Proof.
  intros Hw. pose proof (wk_body _ _ _ Hw a) as E. unfold tstate.
  destruct (sc_tasks s !! a) as [t|], (sc_tasks s' !! a) as [t'|]; cbn [fmap option_fmap option_map] in *;
    try done; [|by case_decide].
  apply (inj Some) in E. change (t_state t') with (t_state (unlink t')). rewrite E. by case_decide.
Qed.

Lemma enqueue_spec s L t x :
  sched_inv s L → sc_tasks s !! t = Some x → t ∉ L → t ≠ current_task s →
  ∃ s', run_queue_add t s = Some s' ∧ sched_inv s' (L ++ [t]) ∧ woke [t] s s'
    ∧ sleep_list s' = sleep_list s ∧ sleep_list_cnt s' = sleep_list_cnt s ∧ sched_tick_count s' = sched_tick_count s.
Proof.
  intros Hi Hx HtL Htc.
  destruct (run_queue_add_spec s L t x (si_ring _ _ Hi) Hx HtL) as (ts' & hd' & -> & Hr & Hb & Hout);
    [by eapply task_nonzero|].
  eexists. split; [reflexivity|].
  assert (woke [t] s (with_head hd' (with_tasks ts' s))) as Hw.
  { split; [|done..]. intros a. cbn [with_head with_tasks sc_tasks]. rewrite (Hb a). destruct (decide (a = t)) as [->|].
    - rewrite lookup_insert_eq, Hx. cbn [fmap option_fmap option_map]. by rewrite decide_True by (by left).
    - rewrite lookup_insert_ne by done. apply option_fmap_ext. intros y. rewrite decide_False; [done|]. set_solver. }
  assert (∀ a, is_Some (ts' !! a) ↔ is_Some (sc_tasks s !! a)) as Hdom.
  { intros a. rewrite (same_body_dom _ _ _ Hb), lookup_insert_is_Some'. split; [|tauto]. intros [<-|?]; [by eexists|done]. }
  assert (∀ a, a ≠ t → tstate ts' a = tstate (sc_tasks s) a) as Hst.
  { intros a Ha. rewrite (same_body_state _ _ _ Hb). unfold tstate. by rewrite lookup_insert_ne. }
  assert (tstate ts' t = Some TASK_READY) as Hstt.
  { rewrite (same_body_state _ _ _ Hb). unfold tstate. by rewrite lookup_insert_eq. }
  split; [|split; [exact Hw|done]]. split; cbn [with_head with_tasks sc_tasks run_queue_head current_task idle_task sleep_list_cnt sleep_list].
  - apply eq_None_not_Some. rewrite Hdom, (si_null _ _ Hi). by intros [? ?].
  - done.
  - intros a Ha. destruct (decide (a = t)) as [->|Hat]; [done|]. rewrite Hst by done. apply (si_ready _ _ Hi). set_solver.
  - intros a Ha Hai. destruct (decide (a = t)) as [->|Hat]; [set_solver|]. rewrite Hst in Ha by done.
    apply elem_of_app. left. by apply (si_queued _ _ Hi).
  - rewrite Hst by done. apply Hi.
  - intros a Ha. destruct (decide (a = t)) as [->|Hat]; [congruence|]. rewrite Hst in Ha by done. by apply (si_one _ _ Hi).
  - intros a y Ha Hal. rewrite Hout in Ha by set_solver. eapply (si_unlinked _ _ Hi); [done|set_solver].
  - rewrite Hdom. apply Hi.
  - intros c Hc. pose proof (woke_field t_time_slice _ _ _ (current_task s) ltac:(done) ltac:(done) Hw) as E.
    cbn [with_head with_tasks sc_tasks] in E. rewrite Hc in E.
    destruct (inv_cur_task _ _ Hi) as (c0 & Hc0 & _). rewrite Hc0 in E. injection E as ->. by apply (si_slice _ _ Hi).
  - split; [apply Hi|]. intros i Hii. rewrite Hdom. by apply (si_sleep _ _ Hi).
Qed.

(** ** Sleepers *)

Definition due (tick : Z) s (w : Z) : Prop :=
  ∃ y, sc_tasks s !! w = Some y ∧ t_state y = TASK_BLOCKED ∧ t_wake_tick y ≤ tick.

Lemma due_unqueued tick s L w : sched_inv s L → due tick s w → (w ∉ L) ∧ w ≠ current_task s.
Proof.
  intros Hi (y & Hy & Hs & _). split.
  - intros Hin%(si_ready _ _ Hi). unfold tstate in Hin. rewrite Hy in Hin. injection Hin as E. congruence.
  - intros ->. pose proof (si_cur _ _ Hi) as Hin. unfold tstate in Hin. rewrite Hy in Hin. injection Hin as E. congruence.
Qed.

Lemma due_woke tick W s s' w : woke W s s' → due tick s w → w ∈ W ∨ due tick s' w.
Proof.
  intros Hw (y & Hy & Hs & Ht). destruct (decide (w ∈ W)) as [|Hn]; [by left|right].
  pose proof (woke_state _ _ _ w Hw) as E. rewrite decide_False in E by done. unfold tstate in E. rewrite Hy in E.
  pose proof (woke_field t_wake_tick _ _ _ w ltac:(done) ltac:(done) Hw) as E2. rewrite Hy in E2.
  destruct (sc_tasks s' !! w) as [y'|] eqn:Hy'; [|done]. injection E as E. injection E2 as E2.
  exists y'. split_and!; [done|congruence|congruence].
Qed.

Lemma due_back tick W s s' w : woke W s s' → due tick s' w → due tick s w.
Proof.
  intros Hw (y & Hy & Hs & Ht). pose proof (woke_state _ _ _ w Hw) as E. unfold tstate in E. rewrite Hy in E.
  pose proof (woke_field t_wake_tick _ _ _ w ltac:(done) ltac:(done) Hw) as E2. rewrite Hy in E2.
  destruct (sc_tasks s !! w) as [y0|] eqn:Hy0; [|done]. injection E2 as E2. case_decide; injection E as E; [congruence|].
  exists y0. split_and!; [done|congruence|congruence].
Qed.

Lemma due_test tick s t y :
  sc_tasks s !! t = Some y →
  bool_decide (t_state y = TASK_BLOCKED) && (t_wake_tick y <=? tick) = true ↔ due tick s t.
Proof.
  intros Hy. rewrite andb_true_iff, bool_decide_eq_true, Z.leb_le. split.
  - intros [? ?]. by exists y.
  - intros (y' & Hy' & ? & ?). rewrite Hy in Hy'. by injection Hy' as <-.
Qed.

Lemma sleepers_loop_spec fuel i tick s L :
  sched_inv s L → 0 ≤ i → sleep_list_cnt s - i ≤ Z.of_nat fuel →
  ∃ s' W, sleepers_loop fuel i tick s = Some s' ∧ sched_inv s' (L ++ W) ∧ woke W s s'
    ∧ (∀ w, w ∈ W → due tick s w)
    ∧ (∀ j, i ≤ j < sleep_list_cnt s → due tick s (sleep_list s j) → sleep_list s j ∈ W).
Proof.
  revert i s L. induction fuel as [|f IH]; intros i s L Hi H0 Hf; cbn [sleepers_loop].
  { destruct (Z.ltb_spec i (sleep_list_cnt s)); [lia|]. exists s, []. rewrite app_nil_r.
    split_and!; [done|done|by apply woke_nil|by intros w ?%not_elem_of_nil|lia]. }
  destruct (Z.ltb_spec i (sleep_list_cnt s)) as [Hlt|]; last first.
  { exists s, []. rewrite app_nil_r. split_and!; [done|done|by apply woke_nil|by intros w ?%not_elem_of_nil|lia]. }
  destruct (si_sleep _ _ Hi) as [Hcnt Hsl]. rewrite aget_Some by lia. cbn [mbind option_bind].
  set (t := sleep_list s i). destruct (Hsl i ltac:(lia)) as [y Hy]. fold t in Hy.
  pose proof (task_nonzero _ _ _ _ Hi Hy) as ->%Z.eqb_neq. unfold get_task. rewrite Hy. cbn [mbind option_bind].
  pose proof (due_test tick s t y Hy) as Htest.
  destruct (bool_decide _ && _) eqn:Edue.
  - assert (due tick s t) as Hdue by (by apply Htest). destruct (due_unqueued _ _ _ _ Hi Hdue) as [HtL Htc].
    destruct (enqueue_spec s L t y Hi Hy HtL Htc) as (s1 & E1 & Hi1 & Hw1 & Esl & Ecn & _).
    unfold sched_unblock, get_task. rewrite Hy. cbn [mbind option_bind].
    rewrite decide_True by (by destruct Hdue as (y' & Hy' & ? & _); rewrite Hy in Hy'; injection Hy' as <-).
    rewrite E1. cbn [mbind option_bind]. rewrite Esl, Ecn.
    rewrite aget_Some by lia. cbn [mbind option_bind].
    set (s2 := with_sleep _ _ _).
    assert (sched_inv s2 (L ++ [t])) as Hi2.
    { destruct Hi1 as [J1 J2 J3 J4 J5 J6 J7 J8 J9 [J10 J11]].
      split; [exact J1|exact J2|exact J3|exact J4|exact J5|exact J6|exact J7|exact J8|exact J9|].
      rewrite Ecn, Esl in J11. cbn [s2 with_sleep sleep_list sleep_list_cnt sc_tasks]. split; [lia|]. intros j Hj.
      unfold upd. destruct (Z.eqb_spec j i); apply J11; lia. }
    destruct (IH i s2 (L ++ [t]) Hi2 H0) as (s' & W & -> & Hi' & Hw & Hdw & Hcw).
    { cbn [s2 with_sleep sleep_list_cnt]. lia. }
    exists s', (t :: W). rewrite <-(assoc_L (++)) in Hi'. split_and!; [done|exact Hi'| | |].
    + apply (woke_trans [t] W s s1); [done|]. destruct Hw. split; done.
    + intros w [->|Hw']%elem_of_cons; [done|]. eapply due_back; [exact Hw1|]. by apply Hdw.
    + intros j Hj Hd. apply elem_of_cons. destruct (decide (sleep_list s j = t)) as [|Hne]; [by left|right].
      assert (due tick s2 (sleep_list s j)) as Hd2.
      { destruct (due_woke _ _ _ _ _ Hw1 Hd) as [?%list_elem_of_singleton|Hd1]; [done|exact Hd1]. }
      assert (∃ j', i ≤ j' < sleep_list_cnt s2 ∧ sleep_list s2 j' = sleep_list s j) as (j' & Hj' & Ej).
      { cbn [s2 with_sleep sleep_list sleep_list_cnt]. unfold upd. destruct (decide (j = sleep_list_cnt s - 1)) as [->|].
        - exists i. rewrite Z.eqb_refl. split; [|done]. assert (i ≠ sleep_list_cnt s - 1) by (intros ->; done). lia.
        - exists j. destruct (Z.eqb_spec j i) as [->|]; [done|]. split; [lia|done]. }
      rewrite <-Ej. apply Hcw; [done|]. by rewrite Ej.
  - destruct (IH (i + 1) s L Hi ltac:(lia) ltac:(lia)) as (s' & W & -> & Hi' & Hw & Hdw & Hcw).
    exists s', W. split_and!; [done|done|done|done|]. intros j Hj Hd. destruct (decide (j = i)) as [->|].
    + apply Htest in Hd. congruence.
    + apply Hcw; [lia|done].
Qed.

(** ** The timer tick *)

(** Only the current task's counters changed since the sleepers were woken. *)
Lemma charge_spec s L c (f : task → task) :
  sched_inv s L → sc_tasks s !! current_task s = Some c → body_fun f →
  t_state (f c) = t_state c → t_next (f c) = t_next c → t_prev (f c) = t_prev c →
  0 ≤ t_time_slice (f c) ≤ DEFAULT_TIMESLICE →
  sched_inv (with_tasks (<[current_task s := f c]> (sc_tasks s)) s) L.
Proof.
  intros Hi Hc Hf Es En Ep Hsl. pose proof (inv_cur_notin _ _ Hi) as Hnin.
  assert (∀ a, tstate (<[current_task s := f c]> (sc_tasks s)) a = tstate (sc_tasks s) a) as Hst.
  { intros a. unfold tstate. destruct (decide (a = current_task s)) as [->|]; [|by rewrite lookup_insert_ne].
    rewrite lookup_insert_eq, Hc. simpl. by rewrite Es. }
  assert (∀ a, is_Some (<[current_task s := f c]> (sc_tasks s) !! a) ↔ is_Some (sc_tasks s !! a)) as Hdom.
  { intros a. rewrite lookup_insert_is_Some'. split; [|tauto]. intros [<-|?]; [by eexists|done]. }
  split; cbn [with_tasks sc_tasks run_queue_head current_task idle_task sleep_list sleep_list_cnt].
  - apply eq_None_not_Some. rewrite Hdom, (si_null _ _ Hi). by intros [? ?].
  - eapply ring_same; [|apply (si_ring _ _ Hi)]. intros a Ha. rewrite nxt_insert, prv_insert.
    rewrite !decide_False; [done|..]; by intros ->.
  - intros t Ht. rewrite Hst. by apply (si_ready _ _ Hi).
  - intros t. rewrite Hst. apply (si_queued _ _ Hi).
  - rewrite Hst. apply Hi.
  - intros t. rewrite Hst. apply (si_one _ _ Hi).
  - intros t y [[<- <-]|[_ Ht]]%lookup_insert_Some Hin; [|by eapply si_unlinked]. rewrite En, Ep. by eapply (si_unlinked _ _ Hi).
  - rewrite Hdom. apply Hi.
  - intros y. rewrite lookup_insert_eq. by intros [= <-].
  - split; [apply Hi|]. intros i Hii. rewrite Hdom. by apply (si_sleep _ _ Hi).
Qed.

Lemma inv_flag v s L : sched_inv s L → sched_inv (with_in_sched v s) L.
Proof. intros [J1 J2 J3 J4 J5 J6 J7 J8 J9 J10]. by split. Qed.

Lemma inv_ticks v s L : sched_inv s L → sched_inv (with_ticks v s) L.
Proof. intros [J1 J2 J3 J4 J5 J6 J7 J8 J9 J10]. by split. Qed.

(** [sched_yield], and the second half of a tick whose slice is over. *)
Lemma yield_spec s n L :
  sched_inv s (n :: L) →
  ∃ s' c x, sched_yield s = Some s' ∧ sc_tasks s !! current_task s = Some c ∧ sc_tasks s !! n = Some x
    ∧ switched (with_in_sched 1 s) n c x s' ∧ sched_inv s' (L ++ requeue s).
Proof.
  intros Hi. destruct (inv_cur_task _ _ Hi) as (c & Hc & _).
  destruct (ring_mem _ _ _ n (si_ring _ _ Hi)) as [x Hx]; [by left|].
  unfold sched_yield. cbv zeta. rewrite (pick_next_spec _ _ (inv_flag 1 _ _ Hi)). cbn [mbind option_bind].
  destruct (do_switch_spec (with_in_sched 1 s) n L c x (inv_flag 1 _ _ Hi) Hc Hx) as (s' & -> & Hsw & Hr & Hu).
  exists s', c, x. split_and!; [done|done|done|done|].
  exact (switched_inv (with_in_sched 1 s) n L c x s' (inv_flag 1 _ _ Hi) Hc Hx Hsw Hr Hu).
Qed.

(** ** Removing a task that is not queued *)

Lemma remove_unlinked s t x :
  sc_tasks s !! 0 = None → sc_tasks s !! t = Some x → t_next x = 0 → t_prev x = 0 → run_queue_remove t s = None.
Proof.
  intros Hz Ht Hn Hp. unfold run_queue_remove, get_task. rewrite Ht. cbn [mbind option_bind]. rewrite Hn, Hp.
  assert ((0 =? t) = false) as -> by (apply Z.eqb_neq; intros <-; congruence).
  unfold mod_task, get_task. by rewrite Hz.
Qed.

(** With an empty queue a switch is possible only from the idle task, and then
    the flag that disables preemption stays set. *)
Lemma yield_empty s :
  sched_inv s [] → sched_yield s = if decide (current_task s = idle_task s) then Some (with_in_sched 1 s) else None.
Proof.
  intros Hi. unfold sched_yield. cbv zeta. rewrite (pick_next_spec _ _ (inv_flag 1 _ _ Hi)). cbn [mbind option_bind].
  unfold sched_do_switch. cbn [with_in_sched current_task idle_task]. destruct (decide (current_task s = idle_task s)) as [E|E].
  { by rewrite E, Z.eqb_refl. }
  destruct (Z.eqb_spec (idle_task s) (current_task s)); [congruence|]. cbv zeta.
  destruct (inv_cur_task _ _ Hi) as (c & Hc & Hrun). unfold get_task. cbn [with_in_sched sc_tasks]. rewrite Hc.
  cbn [mbind option_bind]. rewrite decide_True by done. apply Z.eqb_neq in E as E'. rewrite E'.
  rewrite (mod_task_eq (current_task s) _ _ c) by exact Hc. cbn [mbind option_bind].
  set (s1 := with_tasks _ _). destruct (run_queue_add_spec s1 [] (current_task s) (set_state TASK_READY c))
    as (ts' & hd' & -> & _ & Hb & Hout).
  - exact (si_ring _ _ Hi).
  - apply lookup_insert_eq.
  - apply not_elem_of_nil.
  - by eapply task_nonzero.
  - cbn [mbind option_bind]. destruct (si_idle _ _ Hi) as [x Hx].
    assert (∀ a, a ≠ current_task s → ts' !! a = sc_tasks s !! a) as Hts.
    { intros a Ha. rewrite Hout by (done || apply not_elem_of_nil). cbn [s1 with_tasks with_in_sched sc_tasks].
      by rewrite lookup_insert_ne. }
    destruct (si_unlinked _ _ Hi _ _ Hx ltac:(apply not_elem_of_nil)) as [Hn Hp].
    rewrite (remove_unlinked _ (idle_task s) x); [done| | |done|done]; cbn [with_head with_tasks sc_tasks];
      rewrite Hts; [apply Hi|..].
    + intros E0. rewrite <-E0 in Hc. by rewrite (si_null _ _ Hi) in Hc.
    + exact Hx.
    + congruence.
Qed.

Lemma remove_current_faults s L (f : task → task) :
  sched_inv s L → (∀ x, t_next (f x) = t_next x) → (∀ x, t_prev (f x) = t_prev x) →
  (s1 ← mod_task (current_task s) f s; run_queue_remove (current_task s) s1) = None.
Proof.
  intros Hi Hfn Hfp. destruct (inv_cur_task _ _ Hi) as (c & Hc & _). rewrite (mod_task_eq _ _ _ _ Hc).
  cbn [mbind option_bind]. destruct (si_unlinked _ _ Hi _ _ Hc) as [Hn Hp]; [by apply inv_cur_notin|].
  apply (remove_unlinked _ _ (f c)); cbn [with_tasks sc_tasks].
  - rewrite lookup_insert_ne; [apply Hi|by eapply task_nonzero].
  - apply lookup_insert_eq.
  - by rewrite Hfn.
  - by rewrite Hfp.
Qed.

Lemma block_current_faults s L wake : sched_inv s L → sched_block (current_task s) wake s = None.
Proof.
  intros Hi. unfold sched_block.
  pose proof (remove_current_faults s L (λ x, set_wake wake (set_state TASK_BLOCKED x)) Hi) as Hn.
  destruct (inv_cur_task _ _ Hi) as (c & Hc & _). rewrite (mod_task_eq _ _ _ _ Hc) in *. cbn [mbind option_bind] in *.
  by rewrite Hn.
Qed.

(** ** Blocking a queued task *)

Lemma block_queued_spec s l1 t l2 wake x :
  sched_inv s (l1 ++ t :: l2) → sc_tasks s !! t = Some x →
  ∃ s', sched_block t wake s = Some s' ∧ sched_inv s' (l1 ++ l2)
    ∧ tstate (sc_tasks s') t = Some TASK_BLOCKED
    ∧ same_body (<[t := set_wake wake (set_state TASK_BLOCKED x)]> (sc_tasks s)) (sc_tasks s')
    ∧ current_task s' = current_task s ∧ idle_task s' = idle_task s ∧ sc_regs s' = sc_regs s ∧ in_sched s' = in_sched s.
Proof.
  intros Hi Hx. assert (t ≠ current_task s) as Htc.
  { intros ->. apply (inv_cur_notin _ _ Hi). set_solver. }
  unfold sched_block. rewrite (mod_task_eq _ _ _ _ Hx). cbn [mbind option_bind].
  set (x' := set_wake wake (set_state TASK_BLOCKED x)). set (ts1 := <[t := x']> (sc_tasks s)).
  pose proof (task_nonzero _ _ _ _ Hi Hx) as Ht0.
  assert (ring ts1 (run_queue_head s) (l1 ++ t :: l2)) as Hr1.
  { eapply ring_same; [|apply (si_ring _ _ Hi)]. intros a Ha. unfold ts1, nxt, prv.
    destruct (decide (a = t)) as [->|]; [by rewrite lookup_insert_eq, Hx|by rewrite lookup_insert_ne]. }
  destruct (run_queue_remove_spec (with_tasks ts1 s) l1 t l2 Hr1) as (ts2 & -> & Hr2 & Hb & Hn & Hp & Hout).
  { cbn [with_tasks sc_tasks]. unfold ts1. rewrite lookup_insert_ne by done. apply Hi. }
  cbn [mbind option_bind with_tasks sc_tasks] in *.
  pose proof (ring_NoDup _ _ _ (si_ring _ _ Hi)) as (_ & Hd & [Ht2 _]%NoDup_cons)%NoDup_app.
  assert (t ∉ l1 ++ l2) as Htl by (intros [Hin|Hin]%elem_of_app; [apply (Hd t Hin); by left|done]).
  assert (∀ a, tstate ts2 a = if decide (a = t) then Some TASK_BLOCKED else tstate (sc_tasks s) a) as Hst.
  { intros a. rewrite (same_body_state _ _ _ Hb). unfold tstate, ts1. case_decide; subst; map_lookup; done. }
  assert (∀ a, is_Some (ts2 !! a) ↔ is_Some (sc_tasks s !! a)) as Hdom.
  { intros a. rewrite (same_body_dom _ _ _ Hb). unfold ts1. rewrite lookup_insert_is_Some'.
    split; [|tauto]. intros [<-|?]; [by eexists|done]. }
  set (s2 := with_head _ _). set (s3 := if _ <? _ then _ else _).
  assert (sc_tasks s3 = ts2 ∧ current_task s3 = current_task s ∧ idle_task s3 = idle_task s
          ∧ sc_regs s3 = sc_regs s ∧ in_sched s3 = in_sched s ∧ run_queue_head s3 = new_head (l1 ++ l2)
          ∧ 0 ≤ sleep_list_cnt s3 ≤ SLEEP_LIST_MAX
          ∧ ∀ i, 0 ≤ i < sleep_list_cnt s3 → is_Some (sc_tasks s !! sleep_list s3 i)) as (E1 & E2 & E3 & E4 & E5 & E6 & E7 & E8).
  { destruct (si_sleep _ _ Hi) as [Hc Hs]. unfold s3. cbn [s2 with_head with_tasks sleep_list_cnt].
    destruct (Z.ltb_spec (sleep_list_cnt s) SLEEP_LIST_MAX); [|do 6 (split; [reflexivity|]); split; [exact Hc|exact Hs]].
    split_and!; try done; cbn [with_sleep sleep_list_cnt sleep_list]; [lia|lia|].
    intros i Hii. unfold upd. destruct (Z.eqb_spec i (sleep_list_cnt s)); [by eexists|]. apply Hs. lia. }
  exists s3. rewrite E2. apply Z.eqb_neq in Htc as Htc'. rewrite Htc'. split; [done|].
  split; [|split_and!; [by rewrite E1, Hst, decide_True|by rewrite E1|done|done|done|done]].
  split; rewrite ?E1, ?E2, ?E3, ?E6.
  - apply eq_None_not_Some. rewrite Hdom, (si_null _ _ Hi). by intros [? ?].
  - exact Hr2.
  - intros a Ha. rewrite Hst, decide_False by (by intros ->). apply (si_ready _ _ Hi). set_solver.
  - intros a. rewrite Hst. case_decide; [done|]. intros Ha Hai. apply (si_queued _ _ Hi) in Ha; [|done]. set_solver.
  - rewrite Hst, decide_False by done. apply Hi.
  - intros a. rewrite Hst. case_decide; [done|]. apply (si_one _ _ Hi).
  - intros a y Ha Hal. destruct (decide (a = t)) as [->|Hat].
    + unfold nxt in Hn. unfold prv in Hp. rewrite Ha in *. by injection Hn; injection Hp.
    + rewrite Hout in Ha by set_solver. unfold ts1 in Ha. rewrite lookup_insert_ne in Ha by done.
      eapply (si_unlinked _ _ Hi); [done|set_solver].
  - rewrite Hdom. apply Hi.
  - intros c Hc. pose proof (same_body_field t_time_slice _ _ (current_task s) ltac:(done) Hb) as E. rewrite Hc in E.
    unfold ts1 in E. rewrite lookup_insert_ne in E by done.
    destruct (inv_cur_task _ _ Hi) as (c0 & Hc0 & _). rewrite Hc0 in E. injection E as ->. by apply (si_slice _ _ Hi).
  - split; [done|]. intros i Hii. rewrite Hdom. by apply E8.
Qed.
End inv.
