(* ===== verification/SchedRun.v ===== *)
(** Runs of the scheduler of kernel/sched/sched.c: the tick as a round robin, how
    long a queued task waits, and that calls keep the invariant. *)
From stdpp Require Import prelude gmap.
From S2P Require Import Prelude CString FrameAlloc Vmm Heap Sched SchedRing SchedInv.

Implicit Types (ts : gmap Z task) (L W : list Z).

Section tick.
Context {A : Type} `{FrameOps A}.
Implicit Types (s : sched A).

(** ** The tick *)

Definition slice_of s : option Z := t_time_slice <$> sc_tasks s !! current_task s.

(** The registers of a task: those of the CPU while it runs, the saved ones otherwise. *)
Definition context s (t : Z) : option cpu_state :=
  if decide (t = current_task s) then Some (sc_regs s) else t_cpu <$> sc_tasks s !! t.

(** The tasks a tick wakes. *)
Record tick_wakes s W : Prop := {
  tw_due : ∀ w, w ∈ W → due (u64 (sched_tick_count s + 1)) s w;
  tw_all : ∀ j, 0 ≤ j < sleep_list_cnt s →
    due (u64 (sched_tick_count s + 1)) s (sleep_list s j) → sleep_list s j ∈ W;
}.

Lemma wake_spec s L :
  sched_inv s L →
  ∃ s1 W, sched_check_sleepers (u64 (sched_tick_count s + 1)) (with_ticks (u64 (sched_tick_count s + 1)) s) = Some s1
    ∧ sched_inv s1 (L ++ W) ∧ woke W s s1 ∧ tick_wakes s W.
Proof.
  intros Hi. set (tick := u64 (sched_tick_count s + 1)).
  destruct (sleepers_loop_spec (Z.to_nat (sleep_list_cnt s)) 0 tick (with_ticks tick s) L (inv_ticks tick s L Hi))
    as (s1 & W & E & Hi1 & Hw & Hd & Hc); [lia|cbn [with_ticks sleep_list_cnt]; lia|].
  exists s1, W. split_and!; [exact E|done|destruct Hw; by split|]. split; [exact Hd|exact Hc].
Qed.

Lemma woke_context W s s' t : woke W s s' → context s' t = context s t.
Proof.
  intros Hw. unfold context. rewrite (wk_current _ _ _ Hw), (wk_regs _ _ _ Hw).
  destruct (decide (t = current_task s)); [done|]. by apply (woke_field t_cpu) with W.
Qed.

Lemma switched_context s n c x s' t :
  sc_tasks s !! current_task s = Some c → sc_tasks s !! n = Some x → current_task s ≠ n →
  switched s n c x s' → context s' t = context s t.
Proof.
  intros Hc Hx Hne Hsw. unfold context. rewrite (sw_current _ _ _ _ _ Hsw), (sw_regs _ _ _ _ _ Hsw).
  pose proof (same_body_field t_cpu _ _ t ltac:(done) (sw_body _ _ _ _ _ Hsw)) as E. rewrite E. unfold switch_body.
  destruct (decide (t = current_task s)) as [->|Htc].
  - rewrite decide_False by done. by rewrite lookup_insert_eq.
  - rewrite lookup_insert_ne by congruence. destruct (decide (t = n)) as [->|Htn]; [by rewrite Hx|].
    by rewrite lookup_insert_ne by congruence.
Qed.

Lemma requeue_woke W s s' : woke W s s' → requeue s' = requeue s.
Proof. intros Hw. unfold requeue. by rewrite (wk_current _ _ _ Hw), (wk_idle _ _ _ Hw). Qed.

Definition charge (x : task) : task := set_total (u64 (t_total_ticks x + 1)) (set_slice (t_time_slice x - 1) x).

(** The tick up to the decision to switch. *)
Lemma tick_charge s L c :
  sched_inv s L → in_sched s = 0 → sc_tasks s !! current_task s = Some c →
  ∃ s2 W, tick_wakes s W ∧ sched_inv s2 (L ++ W) ∧ current_task s2 = current_task s ∧ idle_task s2 = idle_task s
    ∧ in_sched s2 = 0 ∧ (∀ t, context s2 t = context s t)
    ∧ slice_of s2 = Some (Z.max 0 (t_time_slice c - 1))
    ∧ sched_tick s = if Z.max 0 (t_time_slice c - 1) =? 0 then sched_yield s2 else Some s2.
Proof.
  intros Hi Hfl Hc. destruct (wake_spec s L Hi) as (s1 & W & E1 & Hi1 & Hw & Htw).
  destruct (inv_cur_task _ _ Hi1) as (c1 & Hc1 & _).
  assert (t_time_slice c1 = t_time_slice c) as Esl.
  { pose proof (woke_field t_time_slice _ _ _ (current_task s) ltac:(done) ltac:(done) Hw) as E.
    rewrite <-(wk_current _ _ _ Hw), Hc1, (wk_current _ _ _ Hw), Hc in E. by injection E. }
  pose proof (si_slice _ _ Hi1 c1 Hc1) as Hsl.
  assert (current_task s1 ≠ 0) as Hc0 by (by eapply task_nonzero).
  unfold sched_tick. cbv zeta. cbn [with_ticks sched_tick_count]. rewrite E1. cbn [mbind option_bind].
  apply Z.eqb_neq in Hc0. rewrite Hc0, (wk_flag _ _ _ Hw), Hfl. cbn [Z.eqb negb].
  unfold get_task. rewrite Hc1. cbn [mbind option_bind].
  destruct (Z.ltb_spec 0 (t_time_slice c1)) as [Hpos|Hz].
  - rewrite (mod_task_eq _ _ _ _ Hc1). cbn [mbind option_bind]. change (set_total _ (set_slice _ c1)) with (charge c1).
    set (s2 := with_tasks (<[current_task s1 := charge c1]> (sc_tasks s1)) s1).
    exists s2, W. split_and!; [done| |exact (wk_current _ _ _ Hw)|exact (wk_idle _ _ _ Hw)|
      cbn [s2 with_tasks in_sched]; by rewrite (wk_flag _ _ _ Hw)| | |].
    + apply (charge_spec s1 (L ++ W) c1 charge); [done|done|done|done|done|done|]. cbn. lia.
    + intros t. rewrite <-(woke_context W s s1 t Hw). unfold context. cbn [s2 with_tasks current_task sc_regs sc_tasks].
      destruct (decide (t = current_task s1)); [done|]. by rewrite lookup_insert_ne.
    + unfold slice_of. cbn [s2 with_tasks current_task sc_tasks]. rewrite lookup_insert_eq. cbn. f_equal. lia.
    + unfold get_task. cbn [s2 with_tasks current_task sc_tasks]. rewrite lookup_insert_eq. cbn [mbind option_bind].
      cbn [charge set_total set_slice t_time_slice]. rewrite Esl, Z.max_r by lia. done.
  - exists s1, W. split_and!; [done|done|exact (wk_current _ _ _ Hw)|exact (wk_idle _ _ _ Hw)|
      by rewrite (wk_flag _ _ _ Hw)|intros t; by apply (woke_context W)| |].
    + unfold slice_of. rewrite Hc1. cbn. f_equal. lia.
    + cbn [mbind option_bind]. unfold get_task. rewrite Hc1. cbn [mbind option_bind].
      replace (t_time_slice c1) with 0 by lia. rewrite Z.max_l by lia. done.
Qed.

Lemma slice_after s n c x s' : switched s n c x s' → current_task s ≠ n → slice_of s' = Some DEFAULT_TIMESLICE.
Proof.
  intros Hsw Hne. unfold slice_of. rewrite (sw_current _ _ _ _ _ Hsw).
  rewrite (same_body_field t_time_slice _ _ n ltac:(done) (sw_body _ _ _ _ _ Hsw)). unfold switch_body.
  by rewrite lookup_insert_ne, lookup_insert_eq.
Qed.

(** ** The abstract scheduler *)

Record rr := { rr_cur : Z; rr_queue : list Z; rr_slice : Z }.

(** One tick of a round robin that puts the running task at the tail of the
    queue when its slice is over; [idle] is only run when it is queued. *)
Definition rr_tick (idle : Z) W (r : rr) : option rr :=
  if Z.max 0 (rr_slice r - 1) =? 0 then
    match rr_queue r ++ W with
    | [] => None
    | n :: q => Some {| rr_cur := n; rr_queue := q ++ (if decide (rr_cur r = idle) then [] else [rr_cur r]);
                        rr_slice := DEFAULT_TIMESLICE |}
    end
  else Some {| rr_cur := rr_cur r; rr_queue := rr_queue r ++ W; rr_slice := rr_slice r - 1 |}.

(** The state represents [r], and no switch is in progress. *)
Record represents s (r : rr) : Prop := {
  rp_inv : sched_inv s (rr_queue r);
  rp_cur : current_task s = rr_cur r;
  rp_slice : slice_of s = Some (rr_slice r);
  rp_flag : in_sched s = 0;
}.

Lemma tick_refines s r :
  represents s r →
  ∃ W, tick_wakes s W ∧ ∀ r', rr_tick (idle_task s) W r = Some r' →
    ∃ s', sched_tick s = Some s' ∧ represents s' r' ∧ idle_task s' = idle_task s
      ∧ ∀ t, context s' t = context s t.
Proof.
  intros [Hi Ec Es Hf]. destruct (inv_cur_task _ _ Hi) as (c & Hc & _).
  unfold slice_of in Es. rewrite Hc in Es. injection Es as Es.
  destruct (tick_charge s _ c Hi Hf Hc) as (s2 & W & Htw & Hi2 & Ec2 & Ei2 & Hf2 & Hx2 & Hs2 & Et).
  exists W. split; [done|]. intros r' Hr'. unfold rr_tick in Hr'. rewrite <-Es in Hr'. rewrite Et.
  destruct (Z.eqb_spec (Z.max 0 (t_time_slice c - 1)) 0) as [Hz|Hz].
  - destruct (rr_queue r ++ W) as [|n q] eqn:Eq; [done|]. injection Hr' as <-.
    destruct (yield_spec s2 n q Hi2) as (s' & c' & x & -> & Hc' & Hx & Hsw & Hi').
    assert (current_task s2 ≠ n) as Hne by (intros E; apply (inv_cur_notin _ _ Hi2); rewrite E; left).
    exists s'. split_and!; [done| | |].
    + split; cbn [rr_cur rr_queue rr_slice].
      * unfold requeue in Hi'. rewrite Ec2, Ei2, Ec in Hi'. exact Hi'.
      * apply (sw_current _ _ _ _ _ Hsw).
      * eapply slice_after; [exact Hsw|exact Hne].
      * apply (sw_flag _ _ _ _ _ Hsw).
    + rewrite (sw_idle _ _ _ _ _ Hsw). exact Ei2.
    + intros t. rewrite <-Hx2. exact (switched_context (with_in_sched 1 s2) n c' x s' t Hc' Hx Hne Hsw).
  - injection Hr' as <-. exists s2. split_and!; [done| |done|done].
    split; cbn [rr_cur rr_queue rr_slice]; [done|by rewrite Ec2|rewrite Hs2; f_equal; lia|done].
Qed.

(** ** Runs *)

Fixpoint sched_ticks (n : nat) s : option (sched A) :=
  match n with O => Some s | S m => s1 ← sched_tick s; sched_ticks m s1 end.

Lemma sched_ticks_app m n s s1 : sched_ticks m s = Some s1 → sched_ticks (m + n) s = sched_ticks n s1.
Proof.
  revert s. induction m as [|m IH]; intros s; simpl; [by intros [= ->]|].
  destruct (sched_tick s) as [s0|]; [|done]. apply IH.
Qed.

(** The first task of the queue runs after at most one slice. *)
Lemma run_to_switch k s r n q :
  represents s r → rr_queue r = n :: q → rr_slice r ≤ Z.of_nat (S k) →
  ∃ m s' r' X, (m ≤ S k)%nat ∧ sched_ticks m s = Some s' ∧ represents s' r'
    ∧ rr_cur r' = n ∧ rr_queue r' = q ++ X ∧ rr_slice r' = DEFAULT_TIMESLICE.
Proof.
  revert s r q. induction k as [|k IH]; intros s r q Hrep Hq Hsl.
  all: destruct (tick_refines s r Hrep) as (W & _ & Hstep); unfold rr_tick in Hstep; rewrite Hq in Hstep;
       cbn [app] in Hstep; destruct (Z.eqb_spec (Z.max 0 (rr_slice r - 1)) 0) as [Hz|Hz].
  1, 3: destruct (Hstep _ eq_refl) as (s' & E & Hrep' & _); eexists 1%nat, s', _, _; simpl; rewrite E;
        split_and!; [lia|done|exact Hrep'|done|cbn; by rewrite <-(assoc_L (++))|done].
  - lia.
  - destruct (Hstep _ eq_refl) as (s1 & E & Hrep1 & _).
    destruct (IH s1 _ (q ++ W) Hrep1 eq_refl) as (m & s' & r' & X & Hm & Em & Hrep' & Hc & Hqq & Hs'); [cbn; lia|].
    exists (S m), s', r', (W ++ X). simpl. rewrite E. cbn [mbind option_bind].
    split_and!; [lia|done|done|done|by rewrite (assoc_L (++))|done].
Qed.

Lemma run_to_task k s r t :
  represents s r → rr_queue r !! k = Some t → rr_slice r ≤ DEFAULT_TIMESLICE →
  ∃ m s' r', (m ≤ 20 * S k)%nat ∧ sched_ticks m s = Some s' ∧ represents s' r' ∧ rr_cur r' = t.
Proof.
  revert s r. induction k as [|k IH]; intros s r Hrep Hk Hsl;
    (destruct (rr_queue r) as [|n q] eqn:Hq; [done|]);
    (destruct (run_to_switch 19 s r n q Hrep Hq) as (m & s1 & r1 & X & Hm & Em & Hrep1 & Hc & Hq1 & Hs1); [exact Hsl|]).
  - exists m, s1, r1. split_and!; [lia|done|done|]. simpl in Hk. by injection Hk as <-.
  - destruct (IH s1 r1 Hrep1) as (m2 & s' & r' & Hm2 & Em2 & Hrep' & Hc'); [|by rewrite Hs1|].
    + rewrite Hq1. by apply lookup_app_l_Some.
    + exists (m + m2)%nat, s', r'. split_and!; [lia| |done|done]. by rewrite (sched_ticks_app _ _ _ _ Em).
Qed.

(** ** The calls that keep the invariant *)

Lemma yield_inv s L s' :
  sched_inv s L → sched_yield s = Some s' → (∃ L', sched_inv s' L') ∧ ∀ t, context s' t = context s t.
Proof.
  intros Hi E. destruct L as [|n L].
  - rewrite (yield_empty s Hi) in E. case_decide; [|done]. injection E as <-. split; [exists []; by apply inv_flag|done].
  - destruct (yield_spec s n L Hi) as (s1 & c & x & E1 & Hc & Hx & Hsw & Hi1). rewrite E in E1. injection E1 as <-.
    split; [by eexists|]. intros t. refine (switched_context (with_in_sched 1 s) n c x s' t Hc Hx _ Hsw).
    intros En. apply (inv_cur_notin _ _ Hi). cbn in En. rewrite En. left.
Qed.

Lemma enqueue_inv s L t x s' :
  sched_inv s L → sc_tasks s !! t = Some x → t_state x ≠ TASK_READY → t_state x ≠ TASK_RUNNING →
  run_queue_add t s = Some s' → (∃ L', sched_inv s' L') ∧ ∀ t, context s' t = context s t.
Proof.
  intros Hi Hx Hr Hn E. destruct (enqueue_spec s L t x Hi Hx) as (s1 & E1 & Hi1 & Hw & _).
  - intros Hin%(si_ready _ _ Hi). unfold tstate in Hin. rewrite Hx in Hin. by injection Hin.
  - intros ->. pose proof (si_cur _ _ Hi) as Hc. unfold tstate in Hc. rewrite Hx in Hc. by injection Hc.
  - rewrite E in E1. injection E1 as <-. split; [by eexists|]. intros u. by apply (woke_context [t]).
Qed.

Lemma tick_inv s L s' :
  sched_inv s L → sched_tick s = Some s' → (∃ L', sched_inv s' L') ∧ ∀ t, context s' t = context s t.
Proof.
  intros Hi E. destruct (decide (in_sched s = 0)) as [Hf|Hf].
  - destruct (inv_cur_task _ _ Hi) as (c & Hc & _).
    destruct (tick_charge s L c Hi Hf Hc) as (s2 & W & _ & Hi2 & _ & _ & _ & Hx2 & _ & Et). rewrite Et in E.
    case_match.
    + destruct (yield_inv s2 _ s' Hi2 E) as [? Hx]. split; [done|]. intros t. by rewrite Hx.
    + injection E as <-. split; [by eexists|done].
  - destruct (wake_spec s L Hi) as (s1 & W & E1 & Hi1 & Hw & _). unfold sched_tick in E. cbv zeta in E.
    cbn [with_ticks sched_tick_count] in E. rewrite E1 in E. cbn [mbind option_bind] in E.
    destruct (inv_cur_task _ _ Hi1) as (c & Hc & _). pose proof (task_nonzero _ _ _ _ Hi1 Hc) as Hc0.
    apply Z.eqb_neq in Hc0, Hf. rewrite Hc0, (wk_flag _ _ _ Hw), Hf in E. cbn [negb] in E. injection E as <-.
    split; [by eexists|]. intros t. by apply (woke_context W).
Qed.

Lemma block_inv s L t x wake s' :
  sched_inv s L → sc_tasks s !! t = Some x → t_state x = TASK_READY → t ≠ idle_task s →
  sched_block t wake s = Some s' → (∃ L', sched_inv s' L') ∧ ∀ t, context s' t = context s t.
Proof.
  intros Hi Hx Hs Hti E. assert (t ∈ L) as (l1 & l2 & ->)%list_elem_of_split.
  { apply (si_queued _ _ Hi); [|done]. unfold tstate. rewrite Hx. simpl. by rewrite Hs. }
  destruct (block_queued_spec s l1 t l2 wake x Hi Hx) as (s1 & E1 & Hi1 & _ & Hb & Ec & _ & Er & _).
  rewrite E in E1. injection E1 as <-. split; [by eexists|]. intros u. unfold context. rewrite Ec, Er.
  case_decide; [done|]. rewrite (same_body_field t_cpu _ _ u ltac:(done) Hb).
  destruct (decide (u = t)) as [->|]; [by rewrite lookup_insert_eq, Hx|by rewrite lookup_insert_ne].
Qed.
End tick.
