(* ===== verification/SchedCreate.v ===== *)
(** Creating tasks (kernel/sched/sched.c) over the kernel heap: the structures
    of a new task are blocks of its own, its stack starts at its entry point,
    and [sched_init] establishes the scheduler's invariant. *)
From stdpp Require Import prelude gmap.
From S2P Require Import Prelude CString FrameAlloc Bitmap Vmm VmmWf VmmSpec VmmRange Heap HeapMap HeapSlab HeapList HeapInv HeapOps HeapApi HeapRefine Sched SchedRing SchedInv.

Implicit Types (ts : gmap Z task) (L : list Z).

Section create.
Context {A : Type} `{FrameAllocator A}.
Implicit Types (h : heap A) (s : sched A).

(** ** Blocks of the heap *)

(** [ptr] is NULL or a new block of [n] bytes; live blocks keep their contents. *)
Record block_result h (ptr n : Z) h' : Prop := {
  br_inv : heap_inv h';
  br_keeps : keeps_live h h';
  br_live : (ptr = 0 ∧ same_live (hp_objs h) (hp_objs h'))
    ∨ (ptr ≠ 0 ∧ (∀ k, ¬ live (hp_objs h) ptr k)
       ∧ ∀ q k, live (hp_objs h') q k ↔ live (hp_objs h) q k ∨ (q = ptr ∧ k = n));
}.

Lemma kmalloc_block h size_ :
  heap_inv h → 0 < size_ < 2 ^ 38 - 2 ^ 13 → frames_for (request_pages size_) h →
  ∃ ptr h' n, kmalloc size_ h = Some (ptr, h') ∧ block_result h ptr n h' ∧ size_ ≤ n
    ∧ page_cost (request_pages size_) ptr h h'.
Proof.
  intros Hi Hs Hf. destruct (kmalloc_spec h size_ Hi Hs Hf) as (ptr & h' & n & E & Har & Hn & Hc).
  exists ptr, h', n. split_and!; [done| |done|done]. split; [apply Har| |apply Har].
  intros q k a Hq Ha. by eapply alloc_keeps.
Qed.

Lemma kzalloc_block h size_ :
  heap_inv h → 0 < size_ < 2 ^ 38 - 2 ^ 13 → frames_for (request_pages size_) h →
  ∃ ptr h' n, kzalloc size_ h = Some (ptr, h') ∧ block_result h ptr n h' ∧ size_ ≤ n
    ∧ page_cost (request_pages size_) ptr h h'.
Proof.
  intros Hi Hs Hf. destruct (kmalloc_spec h size_ Hi Hs Hf) as (ptr & h1 & n & E & Har & Hn & Hc).
  unfold kzalloc. rewrite E. cbn [mbind option_bind]. destruct (Z.eqb_spec ptr 0) as [->|Hp].
  - exists 0, h1, n. split_and!; [done| |done|done]. split; [apply Har| |apply Har].
    intros q k a Hq Ha. by eapply alloc_keeps.
  - eexists ptr, _, n. split; [reflexivity|]. split_and!; [|done|exact Hc].
    destruct (alloc_fresh h ptr n h1 Har Hp) as [_ Hf']. split; [apply inv_hmem, Har| |exact (ar_live _ _ _ _ Har)].
    intros q k a Hq Ha. cbn [set_hmem hp_mem]. destruct (Hf' q k Hq) as (_ & _ & Hap). unfold apart in Hap.
    rewrite memset_outside by lia. by eapply alloc_keeps.
Qed.

(** What the new block shares with the old ones: nothing. *)
Lemma block_fresh h ptr n h' :
  block_result h ptr n h' → ptr ≠ 0 →
  live (hp_objs h') ptr n
  ∧ (∀ q k, live (hp_objs h) q k → live (hp_objs h') q k ∧ q ≠ ptr ∧ apart ptr n q k).
Proof.
  intros Hb Hnz. destruct (br_live _ _ _ _ Hb) as [[? _]|(_ & Hno & Hl)]; [done|].
  assert (live (hp_objs h') ptr n) as Hp by (apply Hl; by right). split; [done|]. intros q k Hq.
  assert (live (hp_objs h') q k) as Hq' by (apply Hl; by left).
  assert (q ≠ ptr) as Hne by (intros ->; by apply (Hno k)). split_and!; [done|done|].
  eapply live_apart; [apply (br_inv _ _ _ _ Hb)|done|done|done].
Qed.

(** ** A new task *)

Definition KSTACK_PAGES : Z := 5.

(** At most [n] pages were taken, with at most four frames for each. *)
Definition took_pages (n : Z) h h' : Prop :=
  Z.of_nat (size (frames (hp_vm h))) ≤ Z.of_nat (size (frames (hp_vm h'))) + 4 * n
  ∧ heap_cursor h' ≤ heap_cursor h + n * PAGE_SIZE.

(** What [sched_alloc_task] leaves: NULL and the live blocks as they were, or a
    task in a block of its own with a stack in another. *)
Record task_result s (t : Z) (x : task) s' : Prop := {
  tr_heap : heap_inv (sc_heap s');
  tr_keeps : keeps_live (sc_heap s) (sc_heap s');
  tr_live : ∃ n stack m, live (hp_objs (sc_heap s')) t n ∧ live (hp_objs (sc_heap s')) stack m
    ∧ TASK_SIZE ≤ n ∧ KSTACK_SIZE ≤ m ∧ t ≠ stack ∧ t_kernel_stack x = stack + KSTACK_SIZE
    ∧ (∀ k, ¬ live (hp_objs (sc_heap s)) t k) ∧ (∀ k, ¬ live (hp_objs (sc_heap s)) stack k)
    ∧ ∀ q k, live (hp_objs (sc_heap s')) q k
             ↔ live (hp_objs (sc_heap s)) q k ∨ (q = t ∧ k = n) ∨ (q = stack ∧ k = m);
  tr_null : t ≠ 0;
  tr_tasks : sc_tasks s' = <[t := x]> (sc_tasks s);
  tr_rest : current_task s' = current_task s ∧ idle_task s' = idle_task s
    ∧ run_queue_head s' = run_queue_head s ∧ in_sched s' = in_sched s ∧ sleep_list s' = sleep_list s
    ∧ sleep_list_cnt s' = sleep_list_cnt s ∧ sc_regs s' = sc_regs s ∧ next_pid s' = u32 (next_pid s + 1);
  tr_task : t_state x = TASK_CREATED ∧ t_next x = 0 ∧ t_prev x = 0 ∧ t_pid x = next_pid s
    ∧ t_time_slice x = DEFAULT_TIMESLICE;
  tr_cost : took_pages (1 + KSTACK_PAGES) (sc_heap s) (sc_heap s');
}.

(** Frames for the pages of a new task. *)
Definition enough_frames h : Prop := 4 * (1 + KSTACK_PAGES) < Z.of_nat (size (frames (hp_vm h))).

(** The pages do not fit in what is left of the heap's range. *)
Definition range_full h : Prop := HEAP_END < heap_cursor h + (1 + KSTACK_PAGES) * PAGE_SIZE.

Lemma no_room_range n h : no_room n h → 0 < Z.of_nat (size (frames (hp_vm h))) → HEAP_END < heap_cursor h + n * PAGE_SIZE.
Proof. intros [E|E] Hf; [|done]. rewrite E, size_empty in Hf. lia. Qed.

Lemma stack_top h k m : heap_inv h → live (hp_objs h) k m → KSTACK_SIZE ≤ m →
  ALIGN_DOWN (u64 (k + KSTACK_SIZE)) 16 = k + KSTACK_SIZE.
Proof.
  intros Hi Hl Hm. destruct (live_range h k m Hi Hl) as (Hb & _ & Hc). pose proof (live_aligned h k m Hi Hl) as Ha.
  unfold HEAP_END, HEAP_VIRT_BASE, HEAP_MAX_SIZE in *.
  rewrite u64_small by (unfold KSTACK_SIZE in *; lia). change 16 with (2 ^ 4). rewrite ALIGN_DOWN_pow2 by (unfold KSTACK_SIZE in *; lia).
  unfold KSTACK_SIZE in *. Z.to_euclidean_division_equations. lia.
Qed.

Record null_result s s' : Prop := {
  nr_heap : heap_inv (sc_heap s');
  nr_keeps : keeps_live (sc_heap s) (sc_heap s');
  nr_live : same_live (hp_objs (sc_heap s)) (hp_objs (sc_heap s'));
  nr_rest : s' = with_pid (next_pid s') (with_heap (sc_heap s') s);
}.

Lemma alloc_task_spec name priority s :
  heap_inv (sc_heap s) → enough_frames (sc_heap s) →
  current_task s = 0 ∨ is_Some (sc_tasks s !! current_task s) →
  ∃ t s', sched_alloc_task name priority s = Some (t, s')
    ∧ ((t = 0 ∧ null_result s s' ∧ range_full (sc_heap s)) ∨ ∃ x, task_result s t x s').
Proof.
  intros Hi Hfr Hcur. unfold enough_frames, KSTACK_PAGES in Hfr. unfold range_full, sched_alloc_task.
  change (request_pages TASK_SIZE) with 1 in *.
  destruct (kzalloc_block (sc_heap s) TASK_SIZE Hi) as (t & h1 & n & -> & Hb1 & Hn & Hc1);
    [unfold TASK_SIZE; lia|right; change (request_pages TASK_SIZE) with 1; lia|].
  destruct Hc1 as (Hroom1 & Hfs1 & Hcu1). change (request_pages TASK_SIZE) with 1 in *.
  cbn [mbind option_bind]. destruct (Z.eqb_spec t 0) as [->|Ht].
  { eexists 0, _. split; [reflexivity|]. left. split; [done|].
    pose proof (no_room_range _ _ (Hroom1 eq_refl) ltac:(lia)).
    destruct Hb1 as [B1 B2 [[_ B3]|[? _]]]; [|done]. split; [by split|unfold KSTACK_PAGES, PAGE_SIZE in *; lia]. }
  assert (∃ ppid, (if current_task s =? 0 then Some 0 else c ← get_task (current_task s) s; Some (t_pid c)) = Some ppid)
    as [ppid ->].
  { destruct (Z.eqb_spec (current_task s) 0); [by eexists|]. destruct Hcur as [?|[c Hc]]; [done|].
    unfold get_task. rewrite Hc. by eexists. }
  cbn [mbind option_bind]. destruct (block_fresh _ _ _ _ Hb1 Ht) as [Hlt Hf1].
  destruct (kmalloc_block h1 KSTACK_SIZE (br_inv _ _ _ _ Hb1)) as (k & h2 & m & -> & Hb2 & Hm & Hroom2 & Hfs2 & Hcu2).
  { unfold KSTACK_SIZE. lia. }
  { right. change (request_pages KSTACK_SIZE) with 5. lia. }
  change (request_pages KSTACK_SIZE) with 5 in *.
  assert (keeps_live (sc_heap s) h2) as Hk2.
  { intros q j a Hq Ha. destruct (Hf1 q j Hq) as (Hq1 & _). rewrite (br_keeps _ _ _ _ Hb2 q j a Hq1 Ha).
    by apply (br_keeps _ _ _ _ Hb1 q j). }
  cbn [mbind option_bind]. destruct (Z.eqb_spec k 0) as [->|Hk].
  - destruct (br_live _ _ _ _ Hb2) as [[_ Hl2]|[? _]]; [|done].
    destruct (kfree_spec h2 t n (br_inv _ _ _ _ Hb2)) as (h3 & -> & Hf3 & _); [by apply Hl2|]. cbn [mbind option_bind].
    eexists 0, _. split; [reflexivity|]. left. split; [done|].
    pose proof (no_room_range _ _ (Hroom2 eq_refl) ltac:(lia)) as Hfull.
    split; [|unfold KSTACK_PAGES, PAGE_SIZE in *; lia].
    destruct (br_live _ _ _ _ Hb1) as [[? _]|(_ & Hno & Hl1)]; [done|].
    split; cbn [with_heap with_pid sc_heap sc_tasks]; [apply Hf3| | |done].
    + intros q j a Hq Ha. rewrite (fr_mem _ _ _ Hf3). by apply (Hk2 q j).
    + intros q j. rewrite (fr_live _ _ _ Hf3), (Hl2 q j), Hl1. split; [naive_solver|].
      intros Hq. split; [by left|]. intros ->. by apply (Hno j).
  - destruct (block_fresh _ _ _ _ Hb2 Hk) as [Hlk Hf2]. destruct (Hf2 t n Hlt) as (Hlt2 & Htk & _).
    eexists t, _. split; [reflexivity|]. right. eexists.
    split; cbn [with_heap with_pid with_tasks sc_heap sc_tasks current_task idle_task run_queue_head in_sched
                sleep_list sleep_list_cnt sc_regs next_pid]; [|done| |done|reflexivity|by split_and!|by split_and!|].
    3: { unfold took_pages, KSTACK_PAGES. lia. }
    { apply (br_inv _ _ _ _ Hb2). }
    destruct (br_live _ _ _ _ Hb1) as [[? _]|(_ & Hno & Hl1)]; [done|].
    destruct (br_live _ _ _ _ Hb2) as [[? _]|(_ & Hno2 & Hl2)]; [done|].
    exists n, k, m. split_and!; [done|done|done|done|done| |done| |].
    + cbn [set_cr3 set_kstack t_kernel_stack]. by apply (stack_top h2 k m (br_inv _ _ _ _ Hb2) Hlk).
    + intros j Hj. apply (Hno2 j), Hl1. by left.
    + intros q j. rewrite Hl2, Hl1. tauto.
Qed.

(** Writing the first frame touches only the new stack. *)
Lemma first_frame_spec s0 t x s entry ret :
  task_result s0 t x s → 0 ≤ entry < 2 ^ 64 → 0 ≤ ret < 2 ^ 64 →
  ∃ s' x', first_frame t entry ret s = Some s' ∧ task_result s0 t x' s'
    ∧ x' = set_cpu (t_cpu x') x ∧ rsp (t_cpu x') = t_kernel_stack x - 16
    ∧ load64 (hp_mem (sc_heap s')) (rsp (t_cpu x')) = entry
    ∧ load64 (hp_mem (sc_heap s')) (rsp (t_cpu x') + 8) = ret.
Proof.
  intros Hr He Hret. pose proof (tr_live _ _ _ _ Hr) as (n & stack & m & Hlt & Hls & Hn & Hm & Hts & Eks & Hno & Hnos & Hl).
  pose proof (tr_heap _ _ _ _ Hr) as Hi. destruct (live_range _ _ _ Hi Hls) as (Hb & _ & Hc).
  assert (0 ≤ stack ∧ stack + KSTACK_SIZE < 2 ^ 64) as Hrange.
  { unfold HEAP_END, HEAP_VIRT_BASE, HEAP_MAX_SIZE, KSTACK_SIZE in *. lia. }
  unfold first_frame, get_task. rewrite (tr_tasks _ _ _ _ Hr), lookup_insert_eq. cbn [mbind option_bind].
  rewrite Eks. assert (KSTACK_SIZE = 16384) as EK by done.
  rewrite !u64_small by lia. cbv zeta.
  erewrite mod_task_eq by (cbn [with_heap sc_tasks]; rewrite (tr_tasks _ _ _ _ Hr); apply lookup_insert_eq).
  match goal with |- context [set_cpu ?r x] => eexists _, (set_cpu r x) end. split; [reflexivity|].
  cbn [with_tasks with_heap sc_tasks sc_heap set_hmem hp_mem set_cpu t_cpu rsp t_kernel_stack].
  split_and!; [|reflexivity|done|rewrite load_store64_eq; by apply u64_small|].
  2: { replace (stack + KSTACK_SIZE - 16 + 8) with (stack + KSTACK_SIZE - 8) by lia.
       rewrite load_store64_ne by lia. rewrite load_store64_eq. by apply u64_small. }
  destruct Hr as [R1 R2 R3 R4 R5 R6 R7 R8].
  split; cbn [with_tasks with_heap sc_tasks sc_heap set_hmem hp_mem hp_objs]; [by apply inv_hmem| | |done| |exact R6|exact R7|exact R8].
  - intros q j a Hq Ha. cbn [set_hmem hp_mem]. rewrite <-(R2 q j a Hq Ha).
    assert (apart stack m q j) as Hap.
    { eapply live_apart; [exact R1|exact Hls|apply Hl; by left|]. intros ->. by apply (Hnos j). }
    unfold apart in Hap. rewrite !store64_outside by lia. done.
  - by exists n, stack, m.
  - by rewrite R5, insert_insert_eq.
Qed.

(** Setting other fields of the new task. *)
Lemma task_result_mod f s0 t x s :
  task_result s0 t x s →
  t_state (f x) = t_state x → t_next (f x) = t_next x → t_prev (f x) = t_prev x → t_pid (f x) = t_pid x →
  t_time_slice (f x) = t_time_slice x → t_kernel_stack (f x) = t_kernel_stack x →
  ∃ s', mod_task t f s = Some s' ∧ task_result s0 t (f x) s' ∧ sc_heap s' = sc_heap s.
Proof.
  intros Hr E1 E2 E3 E4 E5 E6. erewrite mod_task_eq by (rewrite (tr_tasks _ _ _ _ Hr); apply lookup_insert_eq).
  eexists. split; [reflexivity|]. destruct Hr as [R1 R2 R3 R4 R5 R6 R7 R8]. split; [|done].
  split; cbn [with_tasks sc_heap sc_tasks]; [done|done| |done| |done| |exact R8].
  - rewrite E6. exact R3.
  - by rewrite R5, insert_insert_eq.
  - by rewrite E1, E2, E3, E4, E5.
Qed.

(** A task that is ready to be switched to: [ret] pops [entry], which returns to [ret]. *)
Definition starts_at h (x : task) (entry ret : Z) : Prop :=
  rsp (t_cpu x) = t_kernel_stack x - 16 ∧ t_kernel_stack x mod 16 = 0
  ∧ load64 (hp_mem h) (rsp (t_cpu x)) = entry ∧ load64 (hp_mem h) (rsp (t_cpu x) + 8) = ret.

Lemma kstack_aligned s0 t x s : task_result s0 t x s → t_kernel_stack x mod 16 = 0.
Proof.
  intros Hr. destruct (tr_live _ _ _ _ Hr) as (n & k & m & _ & Hl & _ & _ & _ & -> & _).
  pose proof (live_aligned _ _ _ (tr_heap _ _ _ _ Hr) Hl) as Ha. unfold KSTACK_SIZE.
  by rewrite Z.add_mod, Ha by lia.
Qed.

Context (sched_exit_addr idle_fn_addr ring3_enter_first_addr : Z).
Context (Hexit : 0 ≤ sched_exit_addr < 2 ^ 64).

Lemma create_task_spec name entry priority s :
  heap_inv (sc_heap s) → enough_frames (sc_heap s) →
  current_task s = 0 ∨ is_Some (sc_tasks s !! current_task s) → 0 ≤ entry < 2 ^ 64 →
  ∃ t s', sched_create_task sched_exit_addr name entry priority s = Some (t, s')
    ∧ ((t = 0 ∧ null_result s s' ∧ range_full (sc_heap s))
       ∨ ∃ x, task_result s t x s' ∧ t_rip_entry x = entry ∧ starts_at (sc_heap s') x entry sched_exit_addr).
Proof.
  intros Hi Hfr Hcur He. unfold sched_create_task.
  destruct (alloc_task_spec name priority s Hi Hfr Hcur) as (t & s1 & -> & [(-> & Hn)|(x & Hr)]); cbn [mbind option_bind].
  { exists 0, s1. split; [done|by left]. }
  pose proof (tr_null _ _ _ _ Hr) as Ht%Z.eqb_neq. rewrite Ht.
  destruct (task_result_mod (set_rip entry) s t x s1 Hr) as (s2 & -> & Hr2 & _); [done..|]. cbn [mbind option_bind].
  destruct (first_frame_spec s t _ s2 entry sched_exit_addr Hr2 He Hexit) as (s3 & x3 & -> & Hr3 & Ex & Hsp & H1 & H2).
  cbn [mbind option_bind]. exists t, s3. split; [done|]. right. exists x3. split_and!; [done|by rewrite Ex|].
  split_and!; [by rewrite Hsp, Ex|by eapply kstack_aligned|done|done].
Qed.

Lemma create_user_task_spec name entry user_rsp pml4 priority s :
  heap_inv (sc_heap s) → enough_frames (sc_heap s) →
  current_task s = 0 ∨ is_Some (sc_tasks s !! current_task s) → 0 ≤ ring3_enter_first_addr < 2 ^ 64 →
  ∃ t s', sched_create_user_task sched_exit_addr ring3_enter_first_addr name entry user_rsp pml4 priority s = Some (t, s')
    ∧ ((t = 0 ∧ null_result s s' ∧ range_full (sc_heap s))
       ∨ ∃ x, task_result s t x s' ∧ t_rip_entry x = entry ∧ t_user_stack x = user_rsp ∧ t_cr3 x = pml4
           ∧ t_mmap_cursor x = 0x500000000000 ∧ starts_at (sc_heap s') x ring3_enter_first_addr sched_exit_addr).
Proof.
  intros Hi Hfr Hcur He. unfold sched_create_user_task.
  destruct (alloc_task_spec name priority s Hi Hfr Hcur) as (t & s1 & -> & [(-> & Hn)|(x & Hr)]); cbn [mbind option_bind].
  { exists 0, s1. split; [done|by left]. }
  pose proof (tr_null _ _ _ _ Hr) as Ht%Z.eqb_neq. rewrite Ht.
  destruct (task_result_mod (λ x, set_cr3 pml4 (set_ustack user_rsp (set_rip entry x))) s t x s1 Hr)
    as (s2 & -> & Hr2 & _); [done..|]. cbn [mbind option_bind].
  destruct (first_frame_spec s t _ s2 ring3_enter_first_addr sched_exit_addr Hr2 He Hexit)
    as (s3 & x3 & -> & Hr3 & Ex & Hsp & H1 & H2). cbn [mbind option_bind].
  destruct (task_result_mod (set_mmap 0x500000000000) s t x3 s3 Hr3) as (s4 & -> & Hr4 & Eh); [done..|].
  cbn [mbind option_bind]. exists t, s4. split; [done|]. right. eexists. split; [exact Hr4|].
  rewrite Eh. split_and!; [by rewrite Ex|by rewrite Ex|by rewrite Ex|done|].
  split_and!; [by rewrite Ex in *|by eapply (kstack_aligned s t _ s4)|done|done].
Qed.

(** ** The invariant with a new task *)

(** Task structures are live blocks, so a new one has a new address. *)
Definition tasks_live s : Prop :=
  ∀ t x, sc_tasks s !! t = Some x → ∃ n, live (hp_objs (sc_heap s)) t n.

Lemma create_inv s L t x s' :
  sched_inv s L → tasks_live s → task_result s t x s' → sched_inv s' L ∧ tasks_live s'.
Proof.
  intros Hi Htl Hr. destruct (tr_live _ _ _ _ Hr) as (n & k & m & _ & _ & _ & _ & _ & _ & Hno & _ & Hl).
  assert (sc_tasks s !! t = None) as Hnone.
  { apply eq_None_not_Some. intros [y (j & Hj)%Htl]. by apply (Hno j). }
  destruct (tr_rest _ _ _ _ Hr) as (E1 & E2 & E3 & _ & E5 & E6 & _). destruct (tr_task _ _ _ _ Hr) as (T1 & T2 & T3 & _).
  assert (∀ a, is_Some (sc_tasks s !! a) → a ≠ t) as Hne by (intros a [y Hy] ->; congruence).
  assert (∀ a, a ≠ t → sc_tasks s' !! a = sc_tasks s !! a) as Hts.
  { intros a Ha. rewrite (tr_tasks _ _ _ _ Hr). by rewrite lookup_insert_ne. }
  assert (sc_tasks s' !! t = Some x) as Htx by (rewrite (tr_tasks _ _ _ _ Hr); apply lookup_insert_eq).
  assert (∀ a v, v ≠ TASK_CREATED → tstate (sc_tasks s') a = Some v → a ≠ t ∧ tstate (sc_tasks s) a = Some v) as Hst.
  { intros a v Hv Ha. unfold tstate in *. destruct (decide (a = t)) as [->|]; [|by rewrite Hts in Ha].
    rewrite Htx in Ha. injection Ha as Ha. congruence. }
  split.
  - split; rewrite ?E1, ?E2, ?E3, ?E5, ?E6.
    + rewrite Hts; [apply Hi|]. apply not_eq_sym, (tr_null _ _ _ _ Hr).
    + eapply ring_same; [|apply (si_ring _ _ Hi)]. intros a Ha. unfold nxt, prv. rewrite Hts; [done|].
      apply Hne. by eapply ring_mem; [apply (si_ring _ _ Hi)|].
    + intros a Ha. unfold tstate. rewrite Hts; [by apply (si_ready _ _ Hi)|]. apply Hne.
      by eapply ring_mem; [apply (si_ring _ _ Hi)|].
    + intros a Ha Hai. apply Hst in Ha as [_ Ha]; [|done]. by apply (si_queued _ _ Hi).
    + unfold tstate. rewrite Hts; [apply Hi|]. apply Hne. destruct (inv_cur_task _ _ Hi) as (c & ? & _). by eexists.
    + intros a Ha. apply Hst in Ha as [_ Ha]; [|done]. by apply (si_one _ _ Hi).
    + intros a y Ha Hal. destruct (decide (a = t)) as [->|]; [|by rewrite Hts in Ha by done; eapply si_unlinked].
      rewrite Htx in Ha. by injection Ha as <-.
    + rewrite Hts; [apply Hi|]. apply Hne, Hi.
    + intros c. rewrite Hts; [apply (si_slice _ _ Hi)|]. apply Hne.
      destruct (inv_cur_task _ _ Hi) as (c' & ? & _). by eexists.
    + split; [apply Hi|]. intros i Hii. pose proof (proj2 (si_sleep _ _ Hi) i Hii) as Hs. by rewrite Hts by (by apply Hne).
  - intros a y Ha. destruct (decide (a = t)) as [->|].
    + exists n. apply Hl. right; by left.
    + rewrite Hts in Ha by done. destruct (Htl a y Ha) as (j & Hj). exists j. apply Hl. by left.
Qed.

(** ** Boot *)

(** The scheduler's variables as they are linked in. *)
Record sched_fresh s : Prop := {
  sf_tasks : sc_tasks s = ∅;
  sf_head : run_queue_head s = 0;
  sf_sleep : sleep_list_cnt s = 0;
  sf_flag : in_sched s = 0;
}.

(** Boot task and idle task, before the idle task is queued. *)
Lemma two_tasks_inv s boot idle b x :
  sc_tasks s = <[idle := x]> {[boot := b]} → boot ≠ 0 → idle ≠ 0 → boot ≠ idle →
  t_state b = TASK_RUNNING → t_state x = TASK_CREATED → t_time_slice b = 1 →
  t_next b = 0 → t_prev b = 0 → t_next x = 0 → t_prev x = 0 →
  current_task s = boot → idle_task s = idle → run_queue_head s = 0 → sleep_list_cnt s = 0 → sched_inv s [].
Proof.
  intros Ets Hb0 Hi0 Hne Sb Sx Slb B1 B2 X1 X2 Ec Ei Eh Es.
  assert (∀ a y, sc_tasks s !! a = Some y → (a = idle ∧ y = x) ∨ (a = boot ∧ y = b)) as Hl.
  { intros a y. rewrite Ets, lookup_insert_Some, lookup_singleton_Some. naive_solver. }
  assert (sc_tasks s !! boot = Some b) as Hboot.
  { rewrite Ets, lookup_insert_ne by done. apply lookup_singleton_eq. }
  assert (∀ a v, tstate (sc_tasks s) a = Some v → (a = idle ∧ v = TASK_CREATED) ∨ (a = boot ∧ v = TASK_RUNNING)) as Hst.
  { intros a v Hv. unfold tstate in Hv. destruct (sc_tasks s !! a) as [y|] eqn:Ha; [|done]. injection Hv as <-.
    apply Hl in Ha as [[-> ->]|[-> ->]]; auto. }
  split; rewrite ?Ec, ?Ei.
  - apply eq_None_not_Some. intros [y [[? _]|[? _]]%Hl]; done.
  - exact Eh.
  - by intros t ?%not_elem_of_nil.
  - intros t Ht. apply Hst in Ht as [[_ ?]|[_ ?]]; done.
  - unfold tstate. rewrite Hboot. simpl. by rewrite Sb.
  - intros t Ht. by apply Hst in Ht as [[_ ?]|[? _]].
  - intros t y [[-> ->]|[-> ->]]%Hl _; done.
  - rewrite Ets, lookup_insert_eq. by eexists.
  - intros c. rewrite Hboot. intros [= <-]. rewrite Slb. unfold DEFAULT_TIMESLICE. lia.
  - rewrite Es. split; [unfold SLEEP_LIST_MAX; lia|lia].
Qed.

Lemma sched_init_spec s :
  sched_fresh s → heap_inv (sc_heap s) → 4 * (2 + KSTACK_PAGES) < Z.of_nat (size (frames (hp_vm (sc_heap s)))) →
  0 ≤ idle_fn_addr < 2 ^ 64 →
  ∃ r, sched_init sched_exit_addr idle_fn_addr s = Some r
    ∧ match r with
      | Halted => HEAP_END < heap_cursor (sc_heap s) + (2 + KSTACK_PAGES) * PAGE_SIZE
      | Running s' => sched_inv s' [idle_task s'] ∧ heap_inv (sc_heap s') ∧ tasks_live s' ∧ in_sched s' = 0
          ∧ current_task s' ≠ idle_task s' ∧ t_time_slice <$> sc_tasks s' !! current_task s' = Some 1
          ∧ (∃ x, sc_tasks s' !! idle_task s' = Some x ∧ starts_at (sc_heap s') x idle_fn_addr sched_exit_addr)
          ∧ took_pages (2 + KSTACK_PAGES) (sc_heap s) (sc_heap s')
      end.
Proof.
  intros Hf Hi Hfr Hidle. unfold KSTACK_PAGES in *. unfold sched_init.
  destruct (kzalloc_block (sc_heap s) TASK_SIZE Hi) as (boot & h1 & n & -> & Hb1 & Hn & Hroom & Hfs & Hcu);
    [unfold TASK_SIZE; lia|right; change (request_pages TASK_SIZE) with 1; lia|].
  change (request_pages TASK_SIZE) with 1 in *. cbn [mbind option_bind].
  destruct (Z.eqb_spec boot 0) as [->|Hboot].
  { exists Halted. split; [done|]. pose proof (no_room_range _ _ (Hroom eq_refl) ltac:(lia)). unfold PAGE_SIZE in *. lia. }
  destruct (block_fresh _ _ _ _ Hb1 Hboot) as [Hlb _].
  set (b := set_kstack _ _). rewrite (sf_tasks _ Hf). set (s1 := with_current boot _).
  destruct (create_task_spec (lit [105; 100; 108; 101]) idle_fn_addr 255 s1) as (idle & s2 & -> & Hres).
  - exact (br_inv _ _ _ _ Hb1).
  - unfold enough_frames, KSTACK_PAGES. cbn [s1 with_current with_tasks with_heap sc_heap]. lia.
  - right. cbn [s1 with_current with_tasks with_heap sc_tasks current_task]. rewrite lookup_insert_eq. by eexists.
  - done.
  - cbn [mbind option_bind]. destruct Hres as [(-> & _ & Hfull)|(x & Hr & _ & Hst)].
    { exists Halted. split; [done|]. unfold range_full, KSTACK_PAGES in Hfull.
      cbn [s1 with_current with_tasks with_heap sc_heap] in Hfull. unfold PAGE_SIZE in *. lia. }
    pose proof (tr_null _ _ _ _ Hr) as Hid0. apply Z.eqb_neq in Hid0 as Hid'. rewrite Hid'.
    destruct (tr_rest _ _ _ _ Hr) as (E1 & _ & E3 & E4 & _ & E6 & _).
    destruct (tr_task _ _ _ _ Hr) as (T1 & T2 & T3 & _).
    destruct (tr_live _ _ _ _ Hr) as (n2 & k2 & m2 & Hl2 & _ & _ & _ & _ & _ & Hno2 & _ & Hl).
    assert (boot ≠ idle) as Hbi by (intros ->; by apply (Hno2 n)).
    pose proof (tr_tasks _ _ _ _ Hr) as Ets. cbn [s1 with_current with_tasks with_heap sc_tasks] in Ets.
    rewrite insert_empty in Ets.
    assert (sched_inv (with_idle idle s2) []) as Hinv.
    { apply (two_tasks_inv _ boot idle b x); try done; cbn [with_idle current_task run_queue_head sleep_list_cnt].
      - rewrite E3. apply (sf_head _ Hf).
      - rewrite E6. apply (sf_sleep _ Hf). }
    destruct (enqueue_spec (with_idle idle s2) [] idle x Hinv) as (s3 & -> & Hi3 & Hw & _).
    { cbn [with_idle sc_tasks]. rewrite Ets. apply lookup_insert_eq. }
    { apply not_elem_of_nil. }
    { cbn [with_idle current_task]. rewrite E1. cbn. congruence. }
    cbn [mbind option_bind]. exists (Running s3). split; [done|].
    pose proof (wk_idle _ _ _ Hw) as Ei. pose proof (wk_current _ _ _ Hw) as Ec. pose proof (wk_heap _ _ _ Hw) as Eh.
    cbn [with_idle idle_task current_task sc_heap] in *. rewrite Ei, Ec, Eh, E1. cbn [s1 with_current current_task].
    rewrite <-Ei at 1. rewrite Ei. split_and!; [done|apply Hr| | |done| | |].
    + intros a y Ha. rewrite Eh. pose proof (woke_field (λ _, tt) _ _ _ a ltac:(done) ltac:(done) Hw) as Ed. rewrite Ha in Ed.
      cbn [with_idle sc_tasks] in Ed. rewrite Ets in Ed. destruct (decide (a = idle)) as [->|].
      { exists n2. exact Hl2. }
      rewrite lookup_insert_ne in Ed by done. destruct (decide (a = boot)) as [->|]; [|by rewrite lookup_singleton_ne in Ed].
      exists n. apply Hl. left. exact Hlb.
    + rewrite (wk_flag _ _ _ Hw). cbn [with_idle in_sched]. rewrite E4. apply (sf_flag _ Hf).
    + rewrite (woke_field t_time_slice _ _ _ boot ltac:(done) ltac:(done) Hw). cbn [with_idle sc_tasks].
      by rewrite Ets, lookup_insert_ne, lookup_singleton_eq.
    + pose proof (woke_field t_cpu _ _ _ idle ltac:(done) ltac:(done) Hw) as C1.
      pose proof (woke_field t_kernel_stack _ _ _ idle ltac:(done) ltac:(done) Hw) as C2.
      cbn [with_idle sc_tasks] in C1, C2. rewrite Ets, lookup_insert_eq in C1, C2.
      destruct (sc_tasks s3 !! idle) as [x3|]; [|done]. injection C1 as C1. injection C2 as C2. exists x3. split; [done|].
      unfold starts_at in *. rewrite C1, C2. exact Hst.
    + destruct (tr_cost _ _ _ _ Hr) as [C1 C2]. cbn [s1 with_current with_tasks with_heap sc_heap] in *.
      unfold took_pages, KSTACK_PAGES in *. lia.
Qed.
End create.
