(* ===== verification/SchedProps.v ===== *)
(** The properties of kernel/sched/sched.c. *)
From stdpp Require Import prelude gmap.
From S2P Require Import Prelude CString FrameAlloc Bitmap Pmm Vmm VmmWf VmmSpec VmmRange VmmProps Heap HeapMap HeapSlab HeapList HeapInv HeapOps HeapApi HeapRefine HeapProps Sched SchedRing SchedInv SchedRun SchedCreate.

Implicit Types (L W : list Z).

(** ** Preemption that stays off *)

Section stuck.
Context {A : Type} `{FrameOps A}.
Implicit Types (s : sched A).

Lemma tick_flagged s L :
  sched_inv s L → in_sched s ≠ 0 →
  ∃ s' L', sched_tick s = Some s' ∧ sched_inv s' L' ∧ in_sched s' = in_sched s ∧ current_task s' = current_task s.
Proof.
  intros Hi Hf. destruct (wake_spec s L Hi) as (s1 & W & E1 & Hi1 & Hw & _). exists s1, (L ++ W).
  unfold sched_tick. cbv zeta. cbn [with_ticks sched_tick_count]. rewrite E1. cbn [mbind option_bind].
  destruct (inv_cur_task _ _ Hi1) as (c & Hc & _). pose proof (task_nonzero _ _ _ _ Hi1 Hc) as Hc0.
  apply Z.eqb_neq in Hc0, Hf. rewrite Hc0, (wk_flag _ _ _ Hw), Hf. cbn [negb].
  split_and!; [done|done|done|apply Hw].
Qed.

Lemma ticks_flagged n s L :
  sched_inv s L → in_sched s ≠ 0 → ∃ s', sched_ticks n s = Some s' ∧ current_task s' = current_task s.
Proof.
  revert s L. induction n as [|n IH]; intros s L Hi Hf; [by exists s|]. cbn [sched_ticks].
  destruct (tick_flagged s L Hi Hf) as (s1 & L1 & -> & Hi1 & Hf1 & Hc1). cbn [mbind option_bind].
  destruct (IH s1 L1 Hi1) as (s' & E & Hc); [congruence|]. exists s'. split; [done|congruence].
Qed.

(** Boot and idle alone: idle, unlinked when it was switched away from, cannot be
    switched to again. *)
Lemma alone_faults s :
  sched_inv s [idle_task s] → current_task s ≠ idle_task s →
  ∃ s1 s2, sched_yield s = Some s1 ∧ sched_yield s1 = Some s2 ∧ sched_yield s2 = None.
Proof.
  intros Hi Hne. destruct (yield_spec s _ [] Hi) as (s1 & c1 & x1 & E1 & _ & _ & Hsw1 & Hi1).
  unfold requeue in Hi1. rewrite decide_False in Hi1 by done. cbn [app] in Hi1.
  destruct (yield_spec s1 _ [] Hi1) as (s2 & c2 & x2 & E2 & _ & _ & Hsw2 & Hi2).
  pose proof (sw_current _ _ _ _ _ Hsw1) as Ec1. pose proof (sw_idle _ _ _ _ _ Hsw1) as Ei1.
  pose proof (sw_current _ _ _ _ _ Hsw2) as Ec2. pose proof (sw_idle _ _ _ _ _ Hsw2) as Ei2.
  cbn [with_in_sched idle_task] in *. unfold requeue in Hi2. rewrite decide_True in Hi2 by congruence. cbn [app] in Hi2.
  exists s1, s2. split_and!; [done|done|]. rewrite (yield_empty s2 Hi2). rewrite decide_False; [done|congruence].
Qed.
End stuck.

(** ** A sample scheduler *)

Definition sample_boot (p : pmm) : sched pmm :=
  {| sc_heap := sample_heap p; sc_tasks := ∅; idle_task := 0; current_task := 0; run_queue_head := 0; next_pid := 1;
     sched_tick_count := 0; in_sched := 0; sleep_list := λ _, 0; sleep_list_cnt := 0; sc_regs := zero_cpu;
     tss_rsp0 := 0; syscall_kernel_rsp := 0 |}.

(** After [sched_init] with the exit function at 8 and the idle function at 16. *)
Lemma sample_sched :
  ∃ p s, sched_init 8 16 (sample_boot p) = Some (Running s) ∧ sched_fresh (sample_boot p)
    ∧ heap_inv (sc_heap (sample_boot p)) ∧ 1000 < Z.of_nat (size (frames (hp_vm (sc_heap (sample_boot p)))))
    ∧ sched_inv s [idle_task s] ∧ in_sched s = 0 ∧ current_task s ≠ idle_task s ∧ slice_of s = Some 1.
Proof.
  destruct sample_before_init as (p & _ & Hi & Hsz).
  assert (sched_fresh (sample_boot p)) as Hf by (split; reflexivity).
  destruct (sched_init_spec 8 16 ltac:(lia) (sample_boot p) Hf Hi) as (r & E & Hr); [unfold KSTACK_PAGES; cbn [sample_boot sc_heap]; lia|lia|].
  destruct r as [s|]; [|exfalso; by vm_compute in Hr].
  destruct Hr as (Hinv & _ & _ & Hfl & Hne & Hsl & _). exists p, s. split_and!; [exact E|exact Hf|exact Hi|exact Hsz|done|done|done|exact Hsl].
Qed.

(** ** Reachable states *)

Section reachable.
Context {A : Type} `{FrameAllocator A}.
Implicit Types (s : sched A).

(** Tasks are live blocks of a well-formed heap. *)
Definition tasks_placed s : Prop := tasks_live s ∧ heap_inv (sc_heap s).

Create HintDb placed.

Lemma placed_current v s : tasks_placed s → tasks_placed (with_current v s).
Proof. done. Qed.
Lemma placed_head v s : tasks_placed s → tasks_placed (with_head v s).
Proof. done. Qed.
Lemma placed_ticks v s : tasks_placed s → tasks_placed (with_ticks v s).
Proof. done. Qed.
Lemma placed_flag v s : tasks_placed s → tasks_placed (with_in_sched v s).
Proof. done. Qed.
Lemma placed_sleep l n s : tasks_placed s → tasks_placed (with_sleep l n s).
Proof. done. Qed.
Lemma placed_kstack v s : tasks_placed s → tasks_placed (with_kstack v s).
Proof. done. Qed.

Lemma placed_mod a f s s' : mod_task a f s = Some s' → tasks_placed s → tasks_placed s'.
Proof.
  unfold mod_task. intros E [Ht Hh]. steps. split; [|done]. intros t y. cbn [with_tasks sc_tasks sc_heap].
  intros [[<- _]|[_ Hy]]%lookup_insert_Some; by eapply Ht.
Qed.

#[local] Hint Resolve placed_current placed_head placed_ticks placed_flag placed_sleep placed_kstack placed_mod : placed.
Ltac placed := steps; repeat case_match; eauto 12 with placed.

Lemma placed_add t s s' : run_queue_add t s = Some s' → tasks_placed s → tasks_placed s'.
Proof. unfold run_queue_add. intros E Hs. placed. Qed.

Lemma placed_remove t s s' : run_queue_remove t s = Some s' → tasks_placed s → tasks_placed s'.
Proof. unfold run_queue_remove. intros E Hs. placed. Qed.

(** The invariant of the heap does not depend on the address space in use. *)
Lemma inv_switch c h : heap_inv h → heap_inv (set_vm h (vmm_switch c (hp_vm h)) (hp_mem h)).
Proof.
  intros [V O S F]. split; [|exact O|exact S|exact F].
  destruct V as [(T & k & [W1 W2 W3 W4] & R & K) V2 V3 V4]. split; [|exact V2|exact V3|exact V4].
  exists T, k. split; [split; [exact W1|exact W2|exact W3|exact W4]|by split].
Qed.

Lemma placed_switch f t s s' : sched_switch f t s = Some s' → tasks_placed s → tasks_placed s'.
Proof.
  unfold sched_switch. cbv zeta. intros E Hs. steps.
  match goal with Hm : mod_task _ _ _ = Some ?s1 |- _ => assert (tasks_placed s1) as [Ht Hh] by eauto with placed end.
  destruct (_ =? _); [by split|]. split; [exact Ht|by apply inv_switch].
Qed.

#[local] Hint Resolve placed_add placed_remove placed_switch : placed.

Lemma placed_do_switch n s s' : sched_do_switch n s = Some s' → tasks_placed s → tasks_placed s'.
Proof. unfold sched_do_switch. intros E Hs. placed. Qed.

Lemma placed_unblock t s s' : sched_unblock t s = Some s' → tasks_placed s → tasks_placed s'.
Proof. unfold sched_unblock. intros E Hs. placed. Qed.

#[local] Hint Resolve placed_do_switch placed_unblock : placed.

Lemma placed_sleepers n i k s s' : sleepers_loop n i k s = Some s' → tasks_placed s → tasks_placed s'.
Proof. revert i s. induction n as [|n IH]; intros i s E Hs; simpl in E; placed. Qed.

Lemma placed_yield s s' : sched_yield s = Some s' → tasks_placed s → tasks_placed s'.
Proof. unfold sched_yield. cbv zeta. intros E Hs. placed. Qed.

#[local] Hint Resolve placed_sleepers placed_yield : placed.

Lemma placed_tick s s' : sched_tick s = Some s' → tasks_placed s → tasks_placed s'.
Proof. unfold sched_tick, sched_check_sleepers. cbv zeta. intros E Hs. placed. Qed.

Lemma placed_block t w s s' : sched_block t w s = Some s' → tasks_placed s → tasks_placed s'.
Proof. unfold sched_block. cbv zeta. intros E Hs. placed. Qed.

#[local] Hint Resolve placed_tick placed_block : placed.

(** The calls of the scheduler, with what they need: creating kernel and user tasks
    while there are frames for their pages, queueing a new task, ticks, yields,
    blocking a queued task and waking one. *)
Inductive sched_step (exit_addr ring3_addr : Z) s : sched A → Prop :=
  | step_create name entry priority t s' :
      enough_frames (sc_heap s) → 0 ≤ entry < 2 ^ 64 →
      sched_create_task exit_addr name entry priority s = Some (t, s') → sched_step exit_addr ring3_addr s s'
  | step_create_user name rip rsp_ pml4 priority t s' :
      enough_frames (sc_heap s) →
      sched_create_user_task exit_addr ring3_addr name rip rsp_ pml4 priority s = Some (t, s') →
      sched_step exit_addr ring3_addr s s'
  | step_enqueue t x s' :
      sc_tasks s !! t = Some x → t_state x = TASK_CREATED → sched_enqueue t s = Some s' → sched_step exit_addr ring3_addr s s'
  | step_tick s' : sched_tick s = Some s' → sched_step exit_addr ring3_addr s s'
  | step_yield s' : sched_yield s = Some s' → sched_step exit_addr ring3_addr s s'
  | step_unblock t s' : sched_unblock t s = Some s' → sched_step exit_addr ring3_addr s s'
  | step_block t x wake s' :
      sc_tasks s !! t = Some x → t_state x = TASK_READY → t ≠ idle_task s →
      sched_block t wake s = Some s' → sched_step exit_addr ring3_addr s s'.

(** What every step keeps: the invariant, and the registers of the tasks there are. *)
Definition step_keeps s s' : Prop :=
  (∃ L, sched_inv s' L) ∧ tasks_placed s'
  ∧ ∀ t, is_Some (sc_tasks s !! t) → is_Some (sc_tasks s' !! t) ∧ context s' t = context s t.

(** A new task, or none. *)
Lemma created_keeps s L t s' :
  sched_inv s L → tasks_live s → (null_result s s' ∨ ∃ x, task_result s t x s') → step_keeps s s'.
Proof.
  intros Hi Ht [Hn|[x Hr]].
  - destruct Hn as [N1 _ N3 N4]. split_and!; [|split; [|exact N1]|].
    + exists L. rewrite N4. by destruct Hi; split.
    + intros a y Ha. rewrite N4 in Ha. destruct (Ht a y Ha) as [n Hl]. exists n. by apply N3.
    + intros a Ha. rewrite N4. done.
  - destruct (create_inv s L t x s' Hi Ht Hr) as [Hi' Ht']. split_and!; [by exists L|split; [exact Ht'|apply Hr]|].
    destruct (tr_live _ _ _ _ Hr) as (n & k & m & _ & _ & _ & _ & _ & _ & Hno & _).
    destruct (tr_rest _ _ _ _ Hr) as (E1 & _ & _ & _ & _ & _ & E7 & _).
    intros a [y Hy]. assert (a ≠ t) as Hne by (intros ->; destruct (Ht t y Hy) as [j Hj]; by apply (Hno j)).
    unfold context. rewrite E1, E7, (tr_tasks _ _ _ _ Hr), lookup_insert_ne by done. split; [by eexists|done].
Qed.

Lemma context_some s L t : sched_inv s L → is_Some (sc_tasks s !! t) ↔ is_Some (context s t).
Proof.
  intros Hi. unfold context. case_decide as Hd; [|by rewrite fmap_is_Some]. subst t.
  destruct (inv_cur_task _ _ Hi) as (c & Hc & _). rewrite Hc. split; by eexists.
Qed.

Lemma moved_keeps s L s' :
  sched_inv s L → tasks_placed s' → ((∃ L', sched_inv s' L') ∧ ∀ t, context s' t = context s t) → step_keeps s s'.
Proof.
  intros Hi Hp [[L' Hi'] Hx]. split_and!; [by exists L'|done|]. intros t Ht. split; [|done].
  apply (context_some _ _ _ Hi'). rewrite Hx. by apply (context_some _ _ _ Hi).
Qed.

Context (exit_addr ring3_addr : Z) (Hexit : 0 ≤ exit_addr < 2 ^ 64) (Hring3 : 0 ≤ ring3_addr < 2 ^ 64).

Lemma step_inv s L s' :
  sched_inv s L → tasks_placed s → sched_step exit_addr ring3_addr s s' → step_keeps s s'.
Proof.
  intros Hi [Ht Hh] Hstep. assert (tasks_placed s) as Hp by done.
  assert (current_task s = 0 ∨ is_Some (sc_tasks s !! current_task s)) as Hcur.
  { right. destruct (inv_cur_task _ _ Hi) as (c & ? & _). by eexists. }
  destruct Hstep as [name entry pr t s' Hf He E|name rip sp pml4 pr t s' Hf E|t x s' Hx Hs E|s' E|s' E|t s' E|t x wake s' Hx Hs Hti E].
  - destruct (create_task_spec exit_addr Hexit name entry pr s Hh Hf Hcur He) as (t1 & s1 & E1 & Hres).
    rewrite E in E1. apply (inj Some), pair_eq in E1 as [<- <-]. apply (created_keeps s L t); naive_solver.
  - destruct (create_user_task_spec exit_addr ring3_addr Hexit name rip sp pml4 pr s Hh Hf Hcur Hring3) as (t1 & s1 & E1 & Hres).
    rewrite E in E1. apply (inj Some), pair_eq in E1 as [<- <-]. apply (created_keeps s L t); naive_solver.
  - apply (moved_keeps s L); [done|by eapply placed_add|]. eapply (enqueue_inv s L t x); [done|done|congruence|congruence|exact E].
  - apply (moved_keeps s L); [done|by eapply placed_tick|by eapply tick_inv].
  - apply (moved_keeps s L); [done|by eapply placed_yield|by eapply yield_inv].
  - apply (moved_keeps s L); [done|by eapply placed_unblock|].
    unfold sched_unblock, get_task in E. destruct (sc_tasks s !! t) as [x|] eqn:Hx; [|done]. cbn [mbind option_bind] in E.
    case_decide; [|injection E as <-; split; [by eexists|done]].
    eapply (enqueue_inv s L t x); [done|done|congruence|congruence|exact E].
  - apply (moved_keeps s L); [done|by eapply placed_block|]. eapply (block_inv s L t x); done.
Qed.

Lemma steps_inv s L s' :
  sched_inv s L → tasks_placed s → rtc (sched_step exit_addr ring3_addr) s s' → step_keeps s s'.
Proof.
  intros Hi Hp Hr. revert L Hi Hp. induction Hr as [s|s s1 s' Hs _ IH]; intros L Hi Hp.
  { split_and!; [by exists L|done|done]. }
  destruct (step_inv s L s1 Hi Hp Hs) as ([L1 Hi1] & Hp1 & Hx1). destruct (IH L1 Hi1 Hp1) as (Hi2 & Hp2 & Hx2).
  split_and!; [done|done|]. intros t Ht. destruct (Hx1 t Ht) as [Ht1 E1]. destruct (Hx2 t Ht1) as [Ht2 E2]. split; congruence.
Qed.
End reachable.

(** ** Properties *)

Section properties.
Context {A : Type} `{FrameAllocator A}.
Implicit Types (s : sched A).

(** C5: Round robin.  A timer tick implements one tick of the abstract round
    robin: it wakes exactly the sleepers whose time has come and puts them at
    the tail, charges the running task, and when the slice is over runs the
    head of the queue for a full slice with the old task at the tail.  The
    registers of every task survive, and the run queue stays a well-formed ring
    of ready tasks with one running task. *)
Theorem sched_tick_refines_round_robin s r :
  represents s r →
  ∃ W, tick_wakes s W ∧ ∀ r', rr_tick (idle_task s) W r = Some r' →
    ∃ s', sched_tick s = Some s' ∧ represents s' r' ∧ idle_task s' = idle_task s
      ∧ ∀ t, context s' t = context s t.
Proof. apply tick_refines. Qed.

(** C6: No starvation.  A task at position [k] of the run queue runs after at
    most [20 * (k + 1)] timer ticks, however many sleepers wake meanwhile. *)
Theorem sched_no_starvation s r k t :
  represents s r → rr_queue r !! k = Some t →
  ∃ n s' r', (n ≤ 20 * S k)%nat ∧ sched_ticks n s = Some s' ∧ represents s' r' ∧ current_task s' = t.
Proof.
  intros Hrep Hk. destruct (run_to_task k s r t Hrep Hk) as (n & s' & r' & Hn & E & Hrep' & Hc).
  - destruct (inv_cur_task _ _ (rp_inv _ _ Hrep)) as (c & Hc & _). pose proof (rp_slice _ _ Hrep) as Es.
    unfold slice_of in Es. rewrite Hc in Es. injection Es as <-. apply (si_slice _ _ (rp_inv _ _ Hrep) c Hc).
  - exists n, s', r'. split_and!; [done|done|done|]. by rewrite (rp_cur _ _ Hrep').
Qed.

(** C7: Scheduler invariant.  After [sched_init] every sequence of creating kernel and
    user tasks, enqueueing new ones, ticks, yields, blocking of queued tasks and
    unblocking leaves the run queue a circular list of exactly the ready tasks
    (idle aside), one running task that is not on it, no stale link in any other
    task, every task a live block of the heap, and every task there was with the
    registers it had. *)
Theorem sched_reachable_invariant exit_addr idle_addr ring3_addr s0 s s' :
  sched_fresh s0 → heap_inv (sc_heap s0) → 28 < Z.of_nat (size (frames (hp_vm (sc_heap s0)))) →
  0 ≤ exit_addr < 2 ^ 64 → 0 ≤ idle_addr < 2 ^ 64 → 0 ≤ ring3_addr < 2 ^ 64 →
  sched_init exit_addr idle_addr s0 = Some (Running s) → rtc (sched_step exit_addr ring3_addr) s s' →
  (∃ L, sched_inv s' L) ∧ tasks_placed s'
  ∧ ∀ t, is_Some (sc_tasks s !! t) → is_Some (sc_tasks s' !! t) ∧ context s' t = context s t.
Proof.
  intros Hf Hi Hfr He Hid H3 E Hr. destruct (sched_init_spec exit_addr idle_addr He s0 Hf Hi Hfr Hid) as (r & E' & Hr').
  rewrite E in E'. injection E' as <-. destruct Hr' as (Hinv & Hh & Ht & _).
  exact (steps_inv exit_addr ring3_addr He H3 s _ s' Hinv (conj Ht Hh) Hr).
Qed.

(** C8: Task creation.  With enough frames [sched_create_task] does not fault: it
    answers NULL only when the heap's range is used up, and then every block it
    took is given back; otherwise the task and its 16-byte aligned stack are two
    new blocks, apart from all others, the task is CREATED and unlinked with the
    next pid, the stack pops the entry point and then [sched_exit], and the
    scheduler's invariant holds. *)
Theorem sched_create_task_correct exit_addr name entry priority s L :
  sched_inv s L → tasks_live s → heap_inv (sc_heap s) → enough_frames (sc_heap s) →
  0 ≤ entry < 2 ^ 64 → 0 ≤ exit_addr < 2 ^ 64 →
  ∃ t s', sched_create_task exit_addr name entry priority s = Some (t, s') ∧ heap_inv (sc_heap s')
    ∧ ((t = 0 ∧ same_live (hp_objs (sc_heap s)) (hp_objs (sc_heap s')) ∧ range_full (sc_heap s))
       ∨ ∃ x, task_result s t x s' ∧ t_rip_entry x = entry ∧ starts_at (sc_heap s') x entry exit_addr
           ∧ sched_inv s' L ∧ tasks_live s').
Proof.
  intros Hi Htl Hh Hfr He Hx. destruct (create_task_spec exit_addr Hx name entry priority s Hh Hfr) as (t & s' & E & Hres).
  - right. destruct (inv_cur_task _ _ Hi) as (c & ? & _). by eexists.
  - done.
  - exists t, s'. split; [done|]. destruct Hres as [(-> & Hn & Hfull)|(x & Hr & Hrip & Hst)].
    + split; [apply Hn|]. left. split_and!; [done|apply Hn|done].
    + split; [apply Hr|]. right. exists x. destruct (create_inv s L t x s' Hi Htl Hr) as [? ?]. by split_and!.
Qed.

(** Blocking oneself.  The running task is not on the run queue, so
    [sched_block] of the current task and [sched_exit], which unlink it, write
    through its NULL links, which is undefined. *)
Theorem sched_block_current_faults s L wake :
  sched_inv s L → sched_block (current_task s) wake s = None ∧ sched_exit s = None.
Proof.
  intros Hi. split.
  - by apply (block_current_faults s L).
  - unfold sched_exit. pose proof (remove_current_faults s L (set_state TASK_ZOMBIE) Hi) as Hn.
    destruct (inv_cur_task _ _ Hi) as (c & Hc & _). rewrite (mod_task_eq _ _ _ _ Hc) in *. cbn [mbind option_bind] in *.
    cbn [with_tasks current_task]. by rewrite Hn.
Qed.

(** One task alone.  With only the boot task and the idle task, the third
    switch writes through NULL: the idle task is unlinked when it is switched away from, and
    never queued again. *)
Theorem sched_third_switch_faults s :
  sched_inv s [idle_task s] → current_task s ≠ idle_task s →
  ∃ s1 s2, sched_yield s = Some s1 ∧ sched_yield s1 = Some s2 ∧ sched_yield s2 = None.
Proof. apply alone_faults. Qed.

(** Preemption stays off.  When the idle task finds the run queue empty,
    [in_sched] stays set, and from then on no number of timer ticks takes the
    CPU from it, whichever sleepers wake. *)
Theorem sched_idle_never_preempted s :
  sched_inv s [] → current_task s = idle_task s →
  ∃ s1, sched_yield s = Some s1 ∧ ∀ n, ∃ s2, sched_ticks n s1 = Some s2 ∧ current_task s2 = current_task s.
Proof.
  intros Hi Hc. rewrite (yield_empty s Hi). rewrite decide_True by done. eexists. split; [reflexivity|].
  intros n. destruct (ticks_flagged n (with_in_sched 1 s) [] (inv_flag 1 _ _ Hi)) as (s2 & E & Hc2); [done|]. by exists s2.
Qed.
End properties.

(** ** Witnesses *)

Lemma sched_tick_refines_round_robin_witness :
  ∃ (s s' : sched pmm) r', sched_tick s = Some s' ∧ represents s' r' ∧ current_task s' ≠ current_task s.
Proof.
  destruct sample_sched as (p & s & _ & _ & _ & _ & Hi & Hf & Hne & Hsl).
  destruct (sched_tick_refines_round_robin s {| rr_cur := current_task s; rr_queue := [idle_task s]; rr_slice := 1 |})
    as (W & _ & Hstep); [by split|].
  destruct (Hstep _ eq_refl) as (s' & E & Hrep & _). eexists s, s', _. split_and!; [exact E|exact Hrep|].
  rewrite (rp_cur _ _ Hrep). cbn. congruence.
Defined.

Lemma sched_no_starvation_witness :
  ∃ (s s' : sched pmm) n, (n ≤ 20)%nat ∧ sched_ticks n s = Some s' ∧ current_task s' = idle_task s.
Proof.
  destruct sample_sched as (p & s & _ & _ & _ & _ & Hi & Hf & Hne & Hsl).
  destruct (sched_no_starvation s {| rr_cur := current_task s; rr_queue := [idle_task s]; rr_slice := 1 |} 0 (idle_task s))
    as (n & s' & r' & Hn & E & _ & Hc); [by split|done|]. by exists s, s', n.
Defined.

(** A task created and queued beside the idle task. *)
Lemma sched_reachable_invariant_witness :
  ∃ (s s' : sched pmm) t L, sc_tasks s !! t = None ∧ sched_inv s' L ∧ t ∈ L.
Proof.
  destruct sample_sched as (p & s & E & Hf & Hh & Hsz & Hi & _ & Hne & _).
  destruct (sched_init_spec 8 16 ltac:(lia) (sample_boot p) Hf Hh) as (r & E' & Hr); [unfold KSTACK_PAGES; lia|lia|].
  rewrite E in E'. injection E' as <-. destruct Hr as (_ & Hh1 & Ht1 & _ & _ & _ & _ & Hc).
  assert (enough_frames (sc_heap s)) as Hen by (destruct Hc as [Hc _]; unfold enough_frames, KSTACK_PAGES in *; lia).
  destruct (create_task_spec 8 ltac:(lia) (lit [97]) 4096 1 s Hh1 Hen) as (t & s1 & E1 & Hres);
    [right; destruct (inv_cur_task _ _ Hi) as (c & ? & _); by eexists|lia|].
  destruct Hres as [(-> & _ & Hfull)|(x & Hr & _)].
  { exfalso. destruct Hc as [_ Hc]. change (heap_cursor (sc_heap (sample_boot p))) with HEAP_VIRT_BASE in Hc.
    unfold range_full, KSTACK_PAGES, HEAP_END, HEAP_MAX_SIZE, PAGE_SIZE in *. lia. }
  destruct (create_inv s _ t x s1 Hi Ht1 Hr) as [Hi1 _]. destruct (tr_task _ _ _ _ Hr) as (Tc & _).
  destruct (tr_live _ _ _ _ Hr) as (n & k & m & _ & _ & _ & _ & _ & _ & Hno & _).
  assert (sc_tasks s !! t = None) as Hnone by (apply eq_None_not_Some; intros [y (j & Hj)%Ht1]; by apply (Hno j)).
  assert (sc_tasks s1 !! t = Some x) as Hx by (rewrite (tr_tasks _ _ _ _ Hr); apply lookup_insert_eq).
  assert (t ≠ idle_task s) as Hti by (intros ->; destruct (si_idle _ _ Hi); congruence).
  assert (t ∉ [idle_task s]) as Hnt by (by rewrite list_elem_of_singleton).
  destruct (enqueue_spec s1 _ t x Hi1 Hx Hnt) as (s2 & E2 & Hi2 & Hw & _).
  { destruct (tr_rest _ _ _ _ Hr) as (-> & _). intros ->. destruct (inv_cur_task _ _ Hi) as (c & ? & _). congruence. }
  destruct (sched_reachable_invariant 8 16 32 (sample_boot p) s s2 Hf Hh) as ([L HL] & _); [lia..|exact E| |].
  { eapply rtc_l; [eapply step_create; [exact Hen| |exact E1]; lia|]. apply rtc_once. by eapply step_enqueue. }
  exists s, s2, t, L. split_and!; [done|exact HL|]. apply (si_queued _ _ HL); [apply (si_ready _ _ Hi2); set_solver|].
  rewrite (wk_idle _ _ _ Hw). destruct (tr_rest _ _ _ _ Hr) as (_ & -> & _). exact Hti.
Defined.

(** A scheduler whose only task, at [ptr], is the idle task and runs. *)
Definition single (ptr : Z) (h : heap pmm) : sched pmm :=
  with_idle ptr (with_current ptr (with_tasks {[ptr := new_task 0 0 255 1 TASK_RUNNING (lit [])]}
    (with_heap h (sample_boot (one_free 300))))).

Lemma single_inv ptr h : ptr ≠ 0 → sched_inv (single ptr h) [].
Proof.
  intros Hp. split; cbn [single with_idle with_current with_tasks with_heap sc_tasks run_queue_head current_task idle_task sleep_list_cnt sleep_list].
  - by rewrite lookup_singleton_ne.
  - reflexivity.
  - by intros t ?%not_elem_of_nil.
  - intros t Ht _. unfold tstate in Ht. destruct (decide (t = ptr)) as [->|]; [by rewrite lookup_singleton_eq in Ht|].
    by rewrite lookup_singleton_ne in Ht.
  - unfold tstate. by rewrite lookup_singleton_eq.
  - intros t Ht. unfold tstate in Ht. destruct (decide (t = ptr)) as [->|]; [done|]. by rewrite lookup_singleton_ne in Ht.
  - intros t y [<- <-]%lookup_singleton_Some _. done.
  - rewrite lookup_singleton_eq. by eexists.
  - intros c. rewrite lookup_singleton_eq. intros [= <-]. by vm_compute.
  - split; [by vm_compute|]. cbn. lia.
Qed.

Lemma sched_create_task_correct_witness :
  ∃ (s s' : sched pmm) t, sched_create_task 8 (lit [97]) 4096 1 s = Some (t, s') ∧ heap_inv (sc_heap s').
Proof.
  destruct sample_before_init as (p & _ & Hh & Hsz).
  destruct (kmalloc_block (sample_heap p) TASK_SIZE Hh) as (ptr & h2 & n & _ & Hb & Hn & Hroom & Hfs & _);
    [unfold TASK_SIZE; lia|right; change (request_pages TASK_SIZE) with 1; lia|].
  assert (ptr ≠ 0) as Hp.
  { intros Hz. destruct (Hroom Hz) as [He|He]; [rewrite He, size_empty in Hsz; lia|by vm_compute in He]. }
  destruct (sched_create_task_correct 8 (lit [97]) 4096 1 (single ptr h2) [] (single_inv ptr h2 Hp)) as (t & s' & E & Hh' & _).
  - intros t y Ht. cbn [single with_idle with_current with_tasks sc_tasks] in Ht.
    apply lookup_singleton_Some in Ht as [<- <-]. exists n. by destruct (block_fresh _ _ _ _ Hb Hp).
  - apply Hb.
  - unfold enough_frames, KSTACK_PAGES. change (request_pages TASK_SIZE) with 1 in Hfs.
    cbn [single with_idle with_current with_tasks with_heap sc_heap]. lia.
  - lia.
  - lia.
  - by exists (single ptr h2), s', t.
Defined.

Lemma sched_block_current_faults_witness : ∃ s : sched pmm, sched_block (current_task s) 100 s = None.
Proof.
  destruct sample_sched as (p & s & _ & _ & _ & _ & Hi & _). exists s.
  exact (proj1 (sched_block_current_faults s [idle_task s] 100 Hi)).
Defined.

Lemma sched_third_switch_faults_witness :
  ∃ s s1 s2 : sched pmm, sched_yield s = Some s1 ∧ sched_yield s1 = Some s2 ∧ sched_yield s2 = None.
Proof.
  destruct sample_sched as (p & s & _ & _ & _ & _ & Hi & _ & Hne & _). exists s.
  exact (sched_third_switch_faults s Hi Hne).
Defined.

Lemma sched_idle_never_preempted_witness :
  ∃ s s1 : sched pmm, sched_yield s = Some s1
    ∧ ∀ n, ∃ s2, sched_ticks n s1 = Some s2 ∧ current_task s2 = current_task s.
Proof.
  exists (single 5 (sample_heap (one_free 300))).
  apply (sched_idle_never_preempted (single 5 (sample_heap (one_free 300)))); [by apply single_inv|reflexivity].
Defined.
