(* ===== verification/Vfs.v ===== *)
(** Model of kernel/fs/vfs.c and kernel/fs/ramfs.c.

    A [const char *] that is only read is the list of its bytes before the NUL,
    [path + k] is [drop k].  Nodes and open files are records of two stores keyed
    by their address; a node's [vnode] is its first field and [private] points
    back to it, so both pointers are the node's address.  The function tables
    are the two the kernel defines; a NULL entry is [None].  File contents are
    the bytes of the heap's memory.  [None] is a fault, here also a write past
    the end of a buffer on the stack. *)
From stdpp Require Import prelude gmap.
From S2P Require Import Prelude CString FrameAlloc Vmm Heap Sched.

(** ** Data *)

Definition VFS_NAME_MAX : Z := 255.
Definition VFS_PATH_MAX : Z := 4096.
Definition VFS_FD_MAX : Z := 1024.
Definition VFS_TYPE_FILE : Z := 0x8000.
Definition VFS_TYPE_DIR : Z := 0x4000.
Definition O_CREAT : Z := 0x40.
Definition O_APPEND : Z := 0x400.
Definition SEEK_SET : Z := 0.
Definition SEEK_CUR : Z := 1.
Definition SEEK_END : Z := 2.
Definition MOUNT_MAX : Z := 16.
Definition RAMFS_BLOCK : Z := 4096.
Definition RAMFS_MAX_CHILDREN : Z := 256.

(** [sizeof(ramfs_node_t)] and [sizeof(file_t)] on x86_64. *)
Definition RAMFS_NODE_SIZE : Z := 2392.
Definition FILE_SIZE : Z := 24.

Record vfs_stat_t := { st_ino : Z; st_mode : Z; st_nlink : Z; st_size : Z; st_blksize : Z; st_blocks : Z }.

Inductive vfs_ops := ramfs_file_ops | ramfs_dir_ops.

(** [ramfs_node_t] with the [vfs_node_t] it starts with. *)
Record ramfs_node := {
  vn_name : list Z;
  vn_flags : Z;
  vn_mode : Z;
  vn_inode : Z;
  vn_size : Z;
  vn_refcount : Z;
  vn_ops : vfs_ops;
  vn_parent : Z;
  rn_data : Z;
  rn_data_cap : Z;
  rn_children : Z → Z;
  rn_nchildren : Z;
  rn_ino : Z;
}.

Record file_t := { f_node : Z; f_offset : Z; f_flags : Z; f_refcount : Z }.

Record mount_t := { mnt_path : list Z; mnt_root : Z }.

Record fs (A : Type) := {
  fs_sched : sched A;
  fs_nodes : gmap Z ramfs_node;
  fs_files : gmap Z file_t;
  next_ino : Z;
  mount_table : Z → mount_t;
  mount_count : Z;
  global_fd_table : Z → Z;
}.
Arguments fs_sched {A} _.
Arguments fs_nodes {A} _.
Arguments fs_files {A} _.
Arguments next_ino {A} _.
Arguments mount_table {A} _.
Arguments mount_count {A} _.
Arguments global_fd_table {A} _.

Definition vn_set_refcount (v : Z) (x : ramfs_node) : ramfs_node :=
  {| vn_name := vn_name x; vn_flags := vn_flags x; vn_mode := vn_mode x; vn_inode := vn_inode x;
     vn_size := vn_size x; vn_refcount := v; vn_ops := vn_ops x; vn_parent := vn_parent x;
     rn_data := rn_data x; rn_data_cap := rn_data_cap x; rn_children := rn_children x;
     rn_nchildren := rn_nchildren x; rn_ino := rn_ino x |}.

Definition vn_set_mode (mode parent : Z) (x : ramfs_node) : ramfs_node :=
  {| vn_name := vn_name x; vn_flags := vn_flags x; vn_mode := mode; vn_inode := vn_inode x;
     vn_size := vn_size x; vn_refcount := vn_refcount x; vn_ops := vn_ops x; vn_parent := parent;
     rn_data := rn_data x; rn_data_cap := rn_data_cap x; rn_children := rn_children x;
     rn_nchildren := rn_nchildren x; rn_ino := rn_ino x |}.

Definition vn_set_file (size_ data cap : Z) (x : ramfs_node) : ramfs_node :=
  {| vn_name := vn_name x; vn_flags := vn_flags x; vn_mode := vn_mode x; vn_inode := vn_inode x;
     vn_size := size_; vn_refcount := vn_refcount x; vn_ops := vn_ops x; vn_parent := vn_parent x;
     rn_data := data; rn_data_cap := cap; rn_children := rn_children x;
     rn_nchildren := rn_nchildren x; rn_ino := rn_ino x |}.

Definition vn_set_children (ch : Z → Z) (n : Z) (x : ramfs_node) : ramfs_node :=
  {| vn_name := vn_name x; vn_flags := vn_flags x; vn_mode := vn_mode x; vn_inode := vn_inode x;
     vn_size := vn_size x; vn_refcount := vn_refcount x; vn_ops := vn_ops x; vn_parent := vn_parent x;
     rn_data := rn_data x; rn_data_cap := rn_data_cap x; rn_children := ch;
     rn_nchildren := n; rn_ino := rn_ino x |}.

(** [strcmp(a, b) == 0] *)
Definition str_eq (a b : list Z) : bool :=
  match strcmp (S (length a)) (lit a) (lit b) with Some r => r =? 0 | None => false end.

(** [strncpy] into a zeroed buffer of [n + 1] bytes. *)
Definition str_copy (n : Z) (s : list Z) : list Z := take (Z.to_nat n) s.

Section ops.
Context {A : Type} `{FrameOps A}.
Implicit Types (s : fs A).

Definition fs_heap s : heap A := sc_heap (fs_sched s).

Definition set_sched (c : sched A) s : fs A :=
  {| fs_sched := c; fs_nodes := fs_nodes s; fs_files := fs_files s; next_ino := next_ino s;
     mount_table := mount_table s; mount_count := mount_count s; global_fd_table := global_fd_table s |}.
Definition set_fheap (h : heap A) s : fs A := set_sched (with_heap h (fs_sched s)) s.
Definition set_nodes (m : gmap Z ramfs_node) s : fs A :=
  {| fs_sched := fs_sched s; fs_nodes := m; fs_files := fs_files s; next_ino := next_ino s;
     mount_table := mount_table s; mount_count := mount_count s; global_fd_table := global_fd_table s |}.
Definition set_files (m : gmap Z file_t) s : fs A :=
  {| fs_sched := fs_sched s; fs_nodes := fs_nodes s; fs_files := m; next_ino := next_ino s;
     mount_table := mount_table s; mount_count := mount_count s; global_fd_table := global_fd_table s |}.
Definition set_ino (v : Z) s : fs A :=
  {| fs_sched := fs_sched s; fs_nodes := fs_nodes s; fs_files := fs_files s; next_ino := v;
     mount_table := mount_table s; mount_count := mount_count s; global_fd_table := global_fd_table s |}.
Definition set_mounts (t : Z → mount_t) (n : Z) (g : Z → Z) s : fs A :=
  {| fs_sched := fs_sched s; fs_nodes := fs_nodes s; fs_files := fs_files s; next_ino := next_ino s;
     mount_table := t; mount_count := n; global_fd_table := g |}.

Definition mod_node (a : Z) (f : ramfs_node → ramfs_node) s : option (fs A) :=
  x ← fs_nodes s !! a; Some (set_nodes (<[a := f x]> (fs_nodes s)) s).

(** ** ramfs.c *)

Definition ramfs_alloc (name : list Z) (type : Z) s : option (Z * fs A) :=
  '(n, h1) ← kzalloc RAMFS_NODE_SIZE (fs_heap s);
  if n =? 0 then Some (0, set_fheap h1 s)
  else
    let x := {| vn_name := str_copy VFS_NAME_MAX name; vn_flags := type; vn_mode := 0; vn_inode := next_ino s;
                vn_size := 0; vn_refcount := 0;
                vn_ops := if Z.land type VFS_TYPE_DIR =? 0 then ramfs_file_ops else ramfs_dir_ops;
                vn_parent := 0; rn_data := 0; rn_data_cap := 0; rn_children := λ _, 0; rn_nchildren := 0;
                rn_ino := next_ino s |} in
    Some (n, set_ino (u64 (next_ino s + 1)) (set_nodes (<[n := x]> (fs_nodes s)) (set_fheap h1 s))).

Definition ramfs_read (node buf len off : Z) s : option (Z * fs A) :=
  x ← fs_nodes s !! node;
  if vn_size x <=? off then Some (0, s)
  else
    let len1 := if vn_size x <? u64 (off + len) then u64 (vn_size x - off) else len in
    let h := fs_heap s in
    Some (i64 len1, set_fheap (set_hmem h (memcpy buf (u64 (rn_data x + off)) len1 (hp_mem h))) s).

(** The growth step of [ramfs_write]: NULL when [krealloc] fails. *)
Definition ramfs_grow (node end_ : Z) s : option (bool * fs A) :=
  x ← fs_nodes s !! node;
  if rn_data_cap x <? end_ then
    let new_cap := ALIGN_UP end_ RAMFS_BLOCK in
    '(new_data, h1) ← krealloc (rn_data x) new_cap (fs_heap s);
    if new_data =? 0 then Some (false, set_fheap h1 s)
    else
      let h2 := if rn_data_cap x <? new_cap
                then set_hmem h1 (memset (u64 (new_data + rn_data_cap x)) 0 (u64 (new_cap - rn_data_cap x)) (hp_mem h1))
                else h1 in
      s1 ← mod_node node (vn_set_file (vn_size x) new_data new_cap) (set_fheap h2 s);
      Some (true, s1)
  else Some (true, s).

Definition ramfs_write (node buf len off : Z) s : option (Z * fs A) :=
  let end_ := u64 (off + len) in
  '(ok, s1) ← ramfs_grow node end_ s;
  if negb ok then Some (-12, s1)
  else
    x ← fs_nodes s1 !! node;
    let h := fs_heap s1 in
    let s2 := set_fheap (set_hmem h (memcpy (u64 (rn_data x + off)) buf len (hp_mem h))) s1 in
    s3 ← mod_node node (λ y, vn_set_file (if vn_size y <? end_ then end_ else vn_size y) (rn_data y) (rn_data_cap y) y) s2;
    Some (i64 len, s3).

Definition ramfs_stat_file (node : Z) s : option (Z * vfs_stat_t) :=
  x ← fs_nodes s !! node;
  Some (0, {| st_ino := rn_ino x; st_mode := Z.lor (vn_flags x) (vn_mode x); st_nlink := 1; st_size := vn_size x;
              st_blksize := RAMFS_BLOCK; st_blocks := ALIGN_UP (vn_size x) 512 / 512 |}).

Definition ramfs_truncate (node size_ : Z) s : option (Z * fs A) :=
  x ← fs_nodes s !! node;
  let h := fs_heap s in
  let s1 := if (size_ <? vn_size x) && negb (rn_data x =? 0)
            then set_fheap (set_hmem h (memset (u64 (rn_data x + size_)) 0 (u64 (vn_size x - size_)) (hp_mem h))) s
            else s in
  s2 ← mod_node node (λ y, vn_set_file size_ (rn_data y) (rn_data_cap y) y) s1;
  Some (0, s2).

(** [for (i = 0; i < nchildren; i++) if (strcmp(children[i]->name, name) == 0)] with [n] rounds left. *)
Fixpoint child_loop (n : nat) (i : Z) (d : ramfs_node) (name : list Z) s : option (option Z) :=
  match n with
  | O => Some None
  | S n' =>
      a ← aget RAMFS_MAX_CHILDREN (rn_children d) i;
      c ← fs_nodes s !! a;
      if str_eq (vn_name c) name then Some (Some i) else child_loop n' (i + 1) d name s
  end.

Definition ramfs_lookup (dir : Z) (name : list Z) s : option Z :=
  d ← fs_nodes s !! dir;
  r ← child_loop (Z.to_nat (rn_nchildren d)) 0 d name s;
  match r with Some i => aget RAMFS_MAX_CHILDREN (rn_children d) i | None => Some 0 end.

(** The name of an entry, or -1. *)
Definition ramfs_readdir (dir idx : Z) s : option (Z * list Z) :=
  d ← fs_nodes s !! dir;
  if rn_nchildren d <=? idx then Some (-1, [])
  else
    a ← aget RAMFS_MAX_CHILDREN (rn_children d) idx;
    c ← fs_nodes s !! a;
    Some (0, str_copy VFS_NAME_MAX (vn_name c)).

(** [ramfs_mkdir] and [ramfs_create] differ in the type of the new node. *)
Definition ramfs_add (type dir : Z) (name : list Z) (mode : Z) s : option (Z * fs A) :=
  d ← fs_nodes s !! dir;
  if RAMFS_MAX_CHILDREN <=? rn_nchildren d then Some (-28, s)
  else
    '(child, s1) ← ramfs_alloc name type s;
    if child =? 0 then Some (-12, s1)
    else
      s2 ← mod_node child (vn_set_mode mode dir) s1;
      d2 ← fs_nodes s2 !! dir;
      ch ← aset RAMFS_MAX_CHILDREN (rn_children d2) (rn_nchildren d2) child;
      s3 ← mod_node dir (vn_set_children ch (rn_nchildren d2 + 1)) s2;
      Some (0, s3).

Definition ramfs_mkdir := ramfs_add VFS_TYPE_DIR.
Definition ramfs_create := ramfs_add VFS_TYPE_FILE.

(** [for (j = i; j < nchildren - 1; j++) children[j] = children[j + 1];] *)
Fixpoint shift_loop (n : nat) (j : Z) (ch : Z → Z) : option (Z → Z) :=
  match n with
  | O => Some ch
  | S n' =>
      v ← aget RAMFS_MAX_CHILDREN ch (j + 1);
      ch1 ← aset RAMFS_MAX_CHILDREN ch j v;
      shift_loop n' (j + 1) ch1
  end.

Definition ramfs_unlink (dir : Z) (name : list Z) s : option (Z * fs A) :=
  d ← fs_nodes s !! dir;
  r ← child_loop (Z.to_nat (rn_nchildren d)) 0 d name s;
  match r with
  | None => Some (-2, s)
  | Some i =>
      ch ← shift_loop (Z.to_nat (rn_nchildren d - 1 - i)) i (rn_children d);
      s1 ← mod_node dir (vn_set_children ch (rn_nchildren d - 1)) s;
      Some (0, s1)
  end.

(** [st_blksize] and [st_blocks] keep what the caller's buffer held. *)
Definition ramfs_stat_dir (node : Z) (st : vfs_stat_t) s : option (Z * vfs_stat_t) :=
  x ← fs_nodes s !! node;
  Some (0, {| st_ino := rn_ino x; st_mode := Z.lor (vn_flags x) (vn_mode x); st_nlink := u32 (rn_nchildren x + 2);
              st_size := 0; st_blksize := st_blksize st; st_blocks := st_blocks st |}).

Definition ramfs_create_root s : option (Z * fs A) :=
  '(root, s1) ← ramfs_alloc [47] VFS_TYPE_DIR s;
  if root =? 0 then Some (0, s1)
  else s2 ← mod_node root (λ x, vn_set_mode 493 (vn_parent x) x) s1; Some (root, s2).

(** ** vfs.c: paths *)

Fixpoint skip_slash (p : list Z) : list Z :=
  match p with
  | c :: q => if c =? 47 then skip_slash q else p
  | [] => []
  end.

(** [while ( *s && *s != '/' && i < outsz - 1) out[i++] = *s++;] *)
Fixpoint take_comp (n : nat) (p : list Z) : list Z * list Z :=
  match n, p with
  | S n', c :: q => if c =? 47 then ([], p) else let '(a, b) := take_comp n' q in (c :: a, b)
  | _, _ => ([], p)
  end.

(** The next component and what follows it; [None] when the function returns 0. *)
Definition path_component (p : list Z) (outsz : Z) : option (list Z * list Z) :=
  match skip_slash p with
  | [] => None
  | q => Some (take_comp (Z.to_nat (outsz - 1)) q)
  end.

(** The offset of the last slash. *)
Fixpoint last_slash_loop (p : list Z) (i : Z) (last : option Z) : option Z :=
  match p with
  | [] => last
  | c :: q => last_slash_loop q (i + 1) (if c =? 47 then Some i else last)
  end.
Definition last_slash (p : list Z) : option Z := last_slash_loop p 0 None.

(** *** Mount table *)

Definition vfs_mount (path : list Z) (root : Z) s : option (Z * fs A) :=
  if MOUNT_MAX <=? mount_count s then Some (-1, s)
  else
    t ← aset MOUNT_MAX (mount_table s) (mount_count s)
          {| mnt_path := str_copy (VFS_PATH_MAX - 1) path; mnt_root := root |};
    Some (0, set_mounts t (mount_count s + 1) (global_fd_table s) s).

(** The best mount so far and the length of its path, with [n] entries left. *)
Fixpoint mount_loop (n : nat) (i : Z) (path : list Z) (best : option Z) (best_len : Z) s : option (option Z * Z) :=
  match n with
  | O => Some (best, best_len)
  | S n' =>
      m ← aget MOUNT_MAX (mount_table s) i;
      let mlen := Z.of_nat (length (mnt_path m)) in
      if (strncmp (lit path) (lit (mnt_path m)) mlen =? 0) && (best_len <? mlen)
      then mount_loop n' (i + 1) path (Some i) mlen s
      else mount_loop n' (i + 1) path best best_len s
  end.

(** The root of the mount and the rest of the path; 0 for NULL. *)
Definition find_mount (path : list Z) s : option (Z * list Z) :=
  '(best, best_len) ← mount_loop (Z.to_nat (mount_count s)) 0 path None 0 s;
  match best with
  | None => Some (0, [])
  | Some b => m ← aget MOUNT_MAX (mount_table s) b; Some (mnt_root m, drop (Z.to_nat best_len) path)
  end.

(** *** Path resolution *)

Fixpoint walk_path (fuel : nat) (node : Z) (p : list Z) s : option Z :=
  match fuel with
  | O => None
  | S f =>
      match path_component p (VFS_NAME_MAX + 1) with
      | None => Some node
      | Some (comp, rest) =>
          x ← fs_nodes s !! node;
          match vn_ops x with
          | ramfs_file_ops => Some 0
          | ramfs_dir_ops =>
              child ← ramfs_lookup node comp s;
              if child =? 0 then Some 0 else walk_path f child rest s
          end
      end
  end.

Definition vfs_lookup (path : list Z) s : option Z :=
  match path with
  | c :: _ =>
      if negb (c =? 47) then Some 0
      else
        '(node, rel) ← find_mount path s;
        if node =? 0 then Some 0 else walk_path (S (length rel)) node rel s
  | [] => Some 0
  end.

(** The parent directory of a path whose last slash is at [k], in a buffer on the stack. *)
Definition parent_path (path : list Z) (k : Z) : option (list Z) :=
  if VFS_PATH_MAX <=? k then None
  else Some (if k =? 0 then [47] else take (Z.to_nat k) path).

Definition vfs_mkdir (path : list Z) (mode : Z) s : option (Z * fs A) :=
  match last_slash path with
  | None => Some (-22, s)
  | Some k =>
      parent ← parent_path path k;
      dir ← vfs_lookup parent s;
      if dir =? 0 then Some (-2, s)
      else
        d ← fs_nodes s !! dir;
        match vn_ops d with
        | ramfs_file_ops => Some (-38, s)
        | ramfs_dir_ops => ramfs_mkdir dir (drop (Z.to_nat (k + 1)) path) mode s
        end
  end.

Definition vfs_init s : option (fs A) :=
  let s0 := set_mounts (λ _, {| mnt_path := []; mnt_root := 0 |}) 0 (λ _, 0) s in
  '(rootfs, s1) ← ramfs_create_root s0;
  '(_, s2) ← vfs_mount [47] rootfs s1;
  '(_, s3) ← vfs_mkdir [47; 100; 101; 118] 493 s2;
  '(_, s4) ← vfs_mkdir [47; 112; 114; 111; 99] 365 s3;
  '(_, s5) ← vfs_mkdir [47; 116; 109; 112] 511 s4;
  Some s5.

Definition vfs_stat (path : list Z) (st : vfs_stat_t) s : option (Z * vfs_stat_t) :=
  node ← vfs_lookup path s;
  if node =? 0 then Some (-2, st)
  else
    x ← fs_nodes s !! node;
    match vn_ops x with
    | ramfs_file_ops => ramfs_stat_file node s
    | ramfs_dir_ops => ramfs_stat_dir node st s
    end.

(** *** File descriptors *)

(** The first free slot from [i] on, with [n] slots left. *)
Fixpoint free_slot (n : nat) (i : Z) (t : Z → Z) : option Z :=
  match n with
  | O => None
  | S n' => if t i =? 0 then Some i else free_slot n' (i + 1) t
  end.

(** The unused [global_fd_alloc]: the slot (-1 for none) and the new file. *)
Definition global_fd_alloc s : option (Z * fs A) :=
  match free_slot (Z.to_nat (VFS_FD_MAX - 3)) 3 (global_fd_table s) with
  | None => Some (-1, s)
  | Some i =>
      '(f, h1) ← kzalloc FILE_SIZE (fs_heap s);
      if f =? 0 then Some (-1, set_fheap h1 s)
      else
        let s1 := set_files (<[f := {| f_node := 0; f_offset := 0; f_flags := 0; f_refcount := 0 |}]> (fs_files s))
                    (set_fheap h1 s) in
        Some (i, set_mounts (mount_table s1) (mount_count s1) (upd (global_fd_table s1) i f) s1)
  end.

Definition fd_alloc (f : Z) s : option (Z * fs A) :=
  let c := fs_sched s in
  if current_task c =? 0 then Some (-1, s)
  else
    t ← get_task (current_task c) c;
    match free_slot (Z.to_nat MAX_FDS) 0 (t_fds t) with
    | None => Some (-1, s)
    | Some i => c1 ← mod_task (current_task c) (set_fds (upd (t_fds t) i f)) c; Some (i, set_sched c1 s)
    end.

Definition fd_free (fd : Z) s : option (fs A) :=
  let c := fs_sched s in
  if (current_task c =? 0) || (fd <? 0) || (MAX_FDS <=? fd) then Some s
  else
    t ← get_task (current_task c) c;
    c1 ← mod_task (current_task c) (set_fds (upd (t_fds t) fd 0)) c;
    Some (set_sched c1 s).

Definition fd_get (fd : Z) s : option Z :=
  let c := fs_sched s in
  if (current_task c =? 0) || (fd <? 0) || (MAX_FDS <=? fd) then Some 0
  else t ← get_task (current_task c) c; Some (t_fds t fd).

(** *** Files *)

(** The node to open, created when [O_CREAT] asks for it; or the error. *)
Definition open_node (path : list Z) (flags mode : Z) s : option (Z * Z * fs A) :=
  node ← vfs_lookup path s;
  if negb (node =? 0) then Some (0, node, s)
  else if Z.land flags O_CREAT =? 0 then Some (-2, 0, s)
  else
    match last_slash path with
    | None => Some (-22, 0, s)
    | Some k =>
        dir_path ← parent_path path k;
        dir ← vfs_lookup dir_path s;
        if dir =? 0 then Some (-2, 0, s)
        else
          d ← fs_nodes s !! dir;
          match vn_ops d with
          | ramfs_file_ops => Some (-2, 0, s)
          | ramfs_dir_ops =>
              '(r, s1) ← ramfs_create dir (drop (Z.to_nat (k + 1)) path) mode s;
              if negb (r =? 0) then Some (-13, 0, s1)
              else
                node1 ← vfs_lookup path s1;
                if node1 =? 0 then Some (-2, 0, s1) else Some (0, node1, s1)
          end
    end.

Definition vfs_open (path : list Z) (flags mode : Z) s : option (Z * fs A) :=
  '(err, node, s1) ← open_node path flags mode s;
  if negb (err =? 0) then Some (err, s1)
  else
    '(f, h1) ← kzalloc FILE_SIZE (fs_heap s1);
    let s2 := set_fheap h1 s1 in
    if f =? 0 then Some (-12, s2)
    else
      x ← fs_nodes s2 !! node;
      let file := {| f_node := node; f_offset := if Z.land flags O_APPEND =? 0 then 0 else vn_size x;
                     f_flags := flags; f_refcount := 1 |} in
      s3 ← mod_node node (λ y, vn_set_refcount (u32 (vn_refcount y + 1)) y)
             (set_files (<[f := file]> (fs_files s2)) s2);
      '(fd, s4) ← fd_alloc f s3;
      if fd <? 0 then
        h2 ← kfree f (fs_heap s4); Some (-24, set_files (delete f (fs_files s4)) (set_fheap h2 s4))
      else Some (fd, s4).

Definition vfs_close (fd : Z) s : option (Z * fs A) :=
  f ← fd_get fd s;
  if f =? 0 then Some (-9, s)
  else
    s1 ← fd_free fd s;
    file ← fs_files s1 !! f;
    let rc := u32 (f_refcount file - 1) in
    if rc =? 0 then
      s2 ← (if f_node file =? 0 then Some s1
            else mod_node (f_node file) (λ y, vn_set_refcount (u32 (vn_refcount y - 1)) y) s1);
      h1 ← kfree f (fs_heap s2);
      Some (0, set_files (delete f (fs_files s2)) (set_fheap h1 s2))
    else
      Some (0, set_files (<[f := {| f_node := f_node file; f_offset := f_offset file; f_flags := f_flags file;
                                    f_refcount := rc |}]> (fs_files s1)) s1).

Definition set_offset (f off : Z) s : option (fs A) :=
  file ← fs_files s !! f;
  Some (set_files (<[f := {| f_node := f_node file; f_offset := off; f_flags := f_flags file;
                             f_refcount := f_refcount file |}]> (fs_files s)) s).

(** [vfs_read] and [vfs_write] with the file operation they call. *)
Definition vfs_rw (op : Z → Z → Z → Z → fs A → option (Z * fs A)) (fd buf len : Z) s : option (Z * fs A) :=
  f ← fd_get fd s;
  if f =? 0 then Some (-9, s)
  else
    file ← fs_files s !! f;
    if f_node file =? 0 then Some (-22, s)
    else
      x ← fs_nodes s !! f_node file;
      match vn_ops x with
      | ramfs_dir_ops => Some (-22, s)
      | ramfs_file_ops =>
          '(n, s1) ← op (f_node file) buf len (f_offset file) s;
          if 0 <? n then s2 ← set_offset f (u64 (f_offset file + n)) s1; Some (n, s2) else Some (n, s1)
      end.

Definition vfs_read := vfs_rw ramfs_read.
Definition vfs_write := vfs_rw ramfs_write.

Definition vfs_lseek (fd off whence : Z) s : option (Z * fs A) :=
  f ← fd_get fd s;
  if f =? 0 then Some (-9, s)
  else
    file ← fs_files s !! f;
    new_off ← (if whence =? SEEK_SET then Some (Some off)
               else if whence =? SEEK_CUR then Some (Some (i64 (i64 (f_offset file) + off)))
               else if whence =? SEEK_END then x ← fs_nodes s !! f_node file; Some (Some (i64 (i64 (vn_size x) + off)))
               else Some None);
    match new_off with
    | None => Some (-22, s)
    | Some o => if o <? 0 then Some (-22, s) else s1 ← set_offset f o s; Some (o, s1)
    end.
End ops.
