(* ===== verification/RamfsFile.v ===== *)
(** Files of kernel/fs/ramfs.c over the kernel heap: what [ramfs_write] and
    [ramfs_read] do to the bytes of a file. *)
From stdpp Require Import prelude gmap.
From S2P Require Import Prelude CString FrameAlloc Bitmap Vmm VmmWf VmmSpec VmmRange Heap HeapMap HeapSlab HeapList HeapInv HeapOps HeapApi HeapRefine Sched Vfs.

(** ** Abstract files *)

(** Writing [bs] at [off] in a file with contents [c]; a gap reads as zeros. *)
Definition write_bytes (c : list Z) (off : Z) (bs : list Z) : list Z :=
  (λ i, if (off <=? i) && (i <? off + Z.of_nat (length bs)) then nth (Z.to_nat (i - off)) bs 0
        else nth (Z.to_nat i) c 0)
  <$> seqZ 0 (Z.max (Z.of_nat (length c)) (off + Z.of_nat (length bs))).

Definition read_bytes (c : list Z) (off len : Z) : list Z := take (Z.to_nat len) (drop (Z.to_nat off) c).

Section files.
Context {A : Type} `{FrameAllocator A}.
Implicit Types (h : heap A) (s : fs A) (x : ramfs_node).

(** ** Growing a buffer *)

(** [krealloc] of a buffer that is NULL or live, to [ret] with [k] bytes. *)
Record regrown h (data n ret k : Z) h' : Prop := {
  rg_inv : heap_inv h';
  rg_live : live (hp_objs h') ret k;
  rg_others : ∀ q j, live (hp_objs h) q j → q ≠ data → live (hp_objs h') q j ∧ q ≠ ret ∧ apart ret k q j;
  rg_data : ∀ i, 0 ≤ i < n → hp_mem h' (ret + i) = hp_mem h (data + i);
  rg_keeps : ∀ q j a, live (hp_objs h) q j → q ≠ data → q ≤ a < q + j → hp_mem h' a = hp_mem h a;
  rg_low : ∀ a, a < HEAP_VIRT_BASE → hp_mem h' a = hp_mem h a;
}.

(** The failed call: nothing is lost. *)
Record ungrown h h' : Prop := {
  ug_inv : heap_inv h';
  ug_live : same_live (hp_objs h) (hp_objs h');
  ug_keeps : keeps_live h h';
  ug_low : ∀ a, a < HEAP_VIRT_BASE → hp_mem h' a = hp_mem h a;
}.

Lemma alloc_failed h n h' : heap_inv h → alloc_result h 0 n h' → ungrown h h'.
Proof.
  intros Hi Har. split; [apply Har| |intros q k a; by eapply alloc_keeps|intros a; by eapply alloc_low].
  by destruct (ar_live _ _ _ _ Har) as [[_ ?]|[? _]].
Qed.

Lemma regrow h data n new_cap :
  heap_inv h → (data = 0 ∧ n = 0) ∨ live (hp_objs h) data n → 0 < new_cap < 2 ^ 38 - 2 ^ 13 →
  frames_for (request_pages new_cap) h →
  ∃ ret h', krealloc data new_cap h = Some (ret, h')
    ∧ ((ret = 0 ∧ ungrown h h') ∨ (ret ≠ 0 ∧ ∃ k, new_cap ≤ k ∧ regrown h data n ret k h')).
Proof.
  intros Hi Hd Hs Hfr. destruct Hd as [[-> ->]|Hl].
  - unfold krealloc. cbn [Z.eqb]. destruct (kmalloc_spec h new_cap Hi Hs Hfr) as (ret & h' & k & -> & Har & Hk & _).
    exists ret, h'. split; [done|]. destruct (decide (ret = 0)) as [->|Hr]; [left; split; [done|by eapply alloc_failed]|right].
    split; [done|]. exists k. split; [done|]. destruct (alloc_fresh h ret k h' Har Hr) as [Hlr Hf].
    split; [apply Har|done| |lia| |intros a; by eapply alloc_low].
    + intros q j Hq _. by apply Hf.
    + intros q j a Hq _. by eapply alloc_keeps.
  - destruct (krealloc_spec h data n new_cap Hi Hl Hs Hfr) as (ret & h' & -> & Hi' & Hcase). exists ret, h'. split; [done|].
    destruct Hcase as [(Hle & -> & ->)|[(_ & Har & ->)|(_ & k & Hk & Hmv)]].
    + right. split; [destruct (live_range h data n Hi Hl); unfold HEAP_VIRT_BASE in *; lia|].
      exists n. split; [done|]. split; [done|done| |done|done|done].
      intros q j Hq Hne. split_and!; [done|done|]. by eapply live_apart.
    + left. split; [done|by eapply alloc_failed].
    + right. split; [apply Hmv|]. exists k. split; [done|]. split; [done|apply (mv_live _ _ _ _ _ _ Hmv); by right| | | |apply Hmv].
      * intros q j Hq Hne. destruct (mv_apart _ _ _ _ _ _ Hmv q j Hq). split_and!; [|done|done].
        apply (mv_live _ _ _ _ _ _ Hmv). by left.
      * apply (mv_data _ _ _ _ _ _ Hmv).
      * intros q j a Hq _. by apply (mv_other _ _ _ _ _ _ Hmv q j).
Qed.

(** ** Files in the heap *)

Record file_ok h x : Prop := {
  fo_size : 0 ≤ vn_size x ≤ rn_data_cap x;
  fo_data : (rn_data x = 0 ∧ rn_data_cap x = 0) ∨ (rn_data x ≠ 0 ∧ ∃ k, live (hp_objs h) (rn_data x) k ∧ rn_data_cap x ≤ k);
  fo_zero : ∀ i, vn_size x ≤ i < rn_data_cap x → hp_mem h (rn_data x + i) = 0;
}.

Definition content h x : list Z := bytes_at (hp_mem h) (rn_data x) (vn_size x).

(** Files have buffers of their own. *)
Record fs_inv s : Prop := {
  fi_heap : heap_inv (fs_heap s);
  fi_files : ∀ n x, fs_nodes s !! n = Some x → file_ok (fs_heap s) x;
  fi_apart : ∀ n m x y, fs_nodes s !! n = Some x → fs_nodes s !! m = Some y → n ≠ m →
    rn_data x = rn_data y → rn_data x = 0;
}.

(** A buffer of the caller: below the heap, or in a live block that is not the
    file's own. *)
Definition buf_ok h x (buf len : Z) : Prop :=
  buf + len ≤ HEAP_VIRT_BASE
  ∨ ∃ q k, live (hp_objs h) q k ∧ q ≤ buf ∧ buf + len ≤ q + k ∧ q ≠ rn_data x.

Lemma nth_bytes_at m p n i : 0 ≤ i < n → nth (Z.to_nat i) (bytes_at m p n) 0 = m (p + i).
Proof.
  intros Hi. apply nth_lookup_Some. unfold bytes_at. rewrite list_lookup_fmap, lookup_seqZ_lt by lia. simpl.
  do 2 f_equal. lia.
Qed.

Lemma nth_bytes_over m p n i : 0 ≤ n ≤ i → nth (Z.to_nat i) (bytes_at m p n) 0 = 0.
Proof. intros Hi. apply nth_overflow. unfold bytes_at. rewrite length_fmap, length_seqZ. lia. Qed.

(** The other files, as they were. *)
Definition others_same (n : Z) s s' : Prop :=
  ∀ m y, m ≠ n → fs_nodes s !! m = Some y →
    fs_nodes s' !! m = Some y ∧ content (fs_heap s') y = content (fs_heap s) y.

(** The caller's buffers, as they were. *)
Definition bufs_same x x' s s' : Prop :=
  ∀ buf len, buf_ok (fs_heap s) x buf len →
    buf_ok (fs_heap s') x' buf len ∧ bytes_at (hp_mem (fs_heap s')) buf len = bytes_at (hp_mem (fs_heap s)) buf len.

(** Memory that changes only outside a file's buffer. *)
Lemma file_ok_ext h h' x :
  file_ok h x → (∀ k, rn_data x ≠ 0 → live (hp_objs h) (rn_data x) k → live (hp_objs h') (rn_data x) k) →
  (rn_data x ≠ 0 → ∀ a, rn_data x ≤ a < rn_data x + rn_data_cap x → hp_mem h' a = hp_mem h a) →
  file_ok h' x ∧ content h' x = content h x.
Proof.
  intros [Hs Hd Hz] Hl Hm.
  assert (∀ i, 0 ≤ i < rn_data_cap x → hp_mem h' (rn_data x + i) = hp_mem h (rn_data x + i)) as Hm'.
  { intros i Hi. destruct Hd as [[_ ?]|[Hd _]]; [lia|]. apply Hm; [done|lia]. }
  split.
  - split; [done| |].
    + destruct Hd as [?|(Hd & k & Hk & ?)]; [by left|right]. split; [done|]. exists k. split; [by apply Hl|done].
    + intros i Hi. rewrite Hm' by lia. by apply Hz.
  - apply bytes_at_ext. intros a Ha. replace a with (rn_data x + (a - rn_data x)) by lia. apply Hm'. lia.
Qed.

Lemma fs_nodes_fheap h s : fs_nodes (set_fheap h s) = fs_nodes s.
Proof. done. Qed.

Lemma mod_node_eq a f s x :
  fs_nodes s !! a = Some x → mod_node a f s = Some (set_nodes (<[a := f x]> (fs_nodes s)) s).
Proof. intros Ha. unfold mod_node. by rewrite Ha. Qed.

Definition frames_for_file (end_ : Z) s : Prop :=
  frames_for (request_pages (ALIGN_UP end_ RAMFS_BLOCK)) (fs_heap s).

Lemma block_round end_ : 0 < end_ < 2 ^ 37 →
  end_ ≤ ALIGN_UP end_ RAMFS_BLOCK < 2 ^ 38 - 2 ^ 13 ∧ 0 < ALIGN_UP end_ RAMFS_BLOCK.
Proof.
  intros He. change RAMFS_BLOCK with PAGE_SIZE. rewrite ALIGN_UP_page by (unfold PAGE_SIZE; lia).
  unfold PAGE_SIZE. Z.to_euclidean_division_equations. lia.
Qed.

(** A buffer that was grown to [ret], with the new part cleared. *)
Lemma regrown_file s n x k ret j h1 new_cap :
  fs_inv s → fs_nodes s !! n = Some x → (rn_data x = 0 ∧ k = 0) ∨ live (hp_objs (fs_heap s)) (rn_data x) k →
  rn_data_cap x ≤ k → rn_data_cap x < new_cap ≤ j → regrown (fs_heap s) (rn_data x) k ret j h1 → ret ≠ 0 →
  let m := memset (ret + rn_data_cap x) 0 (new_cap - rn_data_cap x) (hp_mem h1) in
  let x' := vn_set_file (vn_size x) ret new_cap x in
  let s' := set_nodes (<[n := x']> (fs_nodes s)) (set_fheap (set_hmem h1 m) s) in
  fs_inv s' ∧ others_same n s s' ∧ content (fs_heap s') x' = content (fs_heap s) x ∧ bufs_same x x' s s'.
Proof.
  intros Hi Hx Hd Hck Hnc Hrg Hr m x' s'. pose proof (fi_files _ Hi n x Hx) as Hfx.
  destruct (fo_size _ _ Hfx) as [Hsz0 Hsz]. destruct (live_range _ _ _ (rg_inv _ _ _ _ _ _ Hrg) (rg_live _ _ _ _ _ _ Hrg)) as (Hrb & _ & _).
  assert (∀ i, 0 ≤ i < new_cap → m (ret + i) = if i <? rn_data_cap x then hp_mem (fs_heap s) (rn_data x + i) else 0) as Hm.
  { intros i Hii. unfold m. destruct (Z.ltb_spec i (rn_data_cap x)).
    - rewrite memset_outside by lia. apply (rg_data _ _ _ _ _ _ Hrg). lia.
    - rewrite memset_inside by lia. done. }
  assert (∀ q i a, live (hp_objs (fs_heap s)) q i → q ≠ rn_data x → q ≤ a < q + i → m a = hp_mem (fs_heap s) a) as Hmo.
  { intros q i a Hq Hne Ha. unfold m. destruct (rg_others _ _ _ _ _ _ Hrg q i Hq Hne) as (_ & _ & Hap). unfold apart in Hap.
    rewrite memset_outside by lia. by apply (rg_keeps _ _ _ _ _ _ Hrg q i). }
  assert (∀ p y, p ≠ n → fs_nodes s !! p = Some y → rn_data y ≠ 0 → rn_data y ≠ rn_data x) as Hdy.
  { intros p y Hp Hy Hy0 E. apply Hy0. by apply (fi_apart _ Hi p n y x). }
  assert (∀ p y, p ≠ n → fs_nodes s !! p = Some y →
    file_ok (set_hmem h1 m) y ∧ content (set_hmem h1 m) y = content (fs_heap s) y) as Hoth.
  { intros p y Hp Hy. pose proof (fi_files _ Hi p y Hy) as Hfy. apply (file_ok_ext (fs_heap s)); [done| |].
    - intros i Hy0 Hl. apply (rg_others _ _ _ _ _ _ Hrg _ _ Hl). by apply (Hdy p).
    - intros Hy0 a Ha. destruct (fo_data _ _ Hfy) as [[? _]|(_ & i & Hl & Hc)]; [done|].
      apply (Hmo (rn_data y) i); [done|by apply (Hdy p)|lia]. }
  split_and!.
  - split; cbn [s' set_nodes set_fheap set_sched fs_heap fs_sched with_heap sc_heap fs_nodes].
    + apply inv_hmem, (rg_inv _ _ _ _ _ _ Hrg).
    + intros p y [[<- <-]|[Hp Hy]]%lookup_insert_Some; [|by apply (Hoth p)].
      split; cbn [x' vn_set_file vn_size rn_data rn_data_cap set_hmem hp_objs hp_mem].
      * lia.
      * right. split; [done|]. exists j. split; [apply Hrg|lia].
      * intros i Hii. rewrite Hm by lia. destruct (Z.ltb_spec i (rn_data_cap x)); [|done]. apply (fo_zero _ _ Hfx). lia.
    + assert (∀ p y, p ≠ n → fs_nodes s !! p = Some y → rn_data y = ret → False) as Hfresh.
      { intros p y Hp Hy E. pose proof (fi_files _ Hi p y Hy) as Hfy.
        destruct (fo_data _ _ Hfy) as [[? _]|(Hy0 & i & Hl & _)]; [congruence|].
        destruct (rg_others _ _ _ _ _ _ Hrg _ _ Hl (Hdy p y Hp Hy Hy0)) as (_ & ? & _). done. }
      intros p q y z [[<- <-]|[Hp Hy]]%lookup_insert_Some [[<- <-]|[Hq Hz]]%lookup_insert_Some Hpq E; [done| | |].
      * exfalso. by eapply (Hfresh q z).
      * exfalso. by eapply (Hfresh p y).
      * by eapply (fi_apart _ Hi p q).
  - intros p y Hp Hy. cbn [s' set_nodes fs_nodes]. rewrite lookup_insert_ne by done. split; [done|]. by apply (Hoth p).
  - unfold content. cbn [s' set_nodes set_fheap set_sched fs_heap fs_sched with_heap sc_heap x' vn_set_file vn_size rn_data set_hmem hp_mem].
    apply list_fmap_ext. intros idx i [-> Hii]%lookup_seqZ. rewrite Hm by lia.
    destruct (Z.ltb_spec (0 + Z.of_nat idx) (rn_data_cap x)); [done|lia].
  - intros buf len [Hb|(q & i & Hq & Hb1 & Hb2 & Hne)].
    + split; [by left|]. apply bytes_at_ext. intros a Ha.
      cbn [s' set_nodes set_fheap set_sched fs_heap fs_sched with_heap sc_heap set_hmem hp_mem]. unfold m.
      rewrite memset_outside by lia. apply (rg_low _ _ _ _ _ _ Hrg). lia.
    + destruct (rg_others _ _ _ _ _ _ Hrg q i Hq Hne) as (Hq' & Hqr & _). split.
      * right. exists q, i. split_and!; [exact Hq'|done|done|done].
      * apply bytes_at_ext. intros a Ha.
        cbn [s' set_nodes set_fheap set_sched fs_heap fs_sched with_heap sc_heap set_hmem hp_mem]. apply (Hmo q i); [done|done|lia].
Qed.

(** A step that leaves every file as it was. *)
Lemma ungrown_files s h1 n x :
  fs_inv s → fs_nodes s !! n = Some x → ungrown (fs_heap s) h1 →
  let s' := set_fheap h1 s in
  fs_inv s' ∧ others_same n s s' ∧ content (fs_heap s') x = content (fs_heap s) x.
Proof.
  intros Hi Hx Hug s'.
  assert (∀ p y, fs_nodes s !! p = Some y → file_ok h1 y ∧ content h1 y = content (fs_heap s) y) as Hall.
  { intros p y Hy. pose proof (fi_files _ Hi p y Hy) as Hfy. apply (file_ok_ext (fs_heap s)); [done| |].
    - intros k _ Hl. by apply (ug_live _ _ Hug).
    - intros Hy0 a Ha. destruct (fo_data _ _ Hfy) as [[? _]|(_ & k & Hl & Hc)]; [done|].
      apply (ug_keeps _ _ Hug (rn_data y) k); [done|lia]. }
  split_and!.
  - split; [apply Hug|intros p y Hy; by apply (Hall p)|apply (fi_apart _ Hi)].
  - intros p y _ Hy. split; [done|]. by apply (Hall p).
  - by apply (Hall n).
Qed.

Lemma ramfs_grow_spec s n x end_ :
  fs_inv s → fs_nodes s !! n = Some x → 0 ≤ end_ < 2 ^ 37 → (rn_data_cap x < end_ → frames_for_file end_ s) →
  ∃ ok s', ramfs_grow n end_ s = Some (ok, s') ∧ fs_inv s' ∧ others_same n s s'
    ∧ (ok = false → fs_nodes s' = fs_nodes s ∧ content (fs_heap s') x = content (fs_heap s) x)
    ∧ (ok = true → ∃ x', fs_nodes s' !! n = Some x' ∧ dom (fs_nodes s') = dom (fs_nodes s)
         ∧ x' = vn_set_file (vn_size x) (rn_data x') (rn_data_cap x') x ∧ end_ ≤ rn_data_cap x'
         ∧ content (fs_heap s') x' = content (fs_heap s) x ∧ bufs_same x x' s s').
Proof.
  intros Hi Hx He Hfr. pose proof (fi_files _ Hi n x Hx) as Hfx. destruct (fo_size _ _ Hfx) as [Hsz0 Hsz].
  unfold ramfs_grow. rewrite Hx. cbn [mbind option_bind]. destruct (Z.ltb_spec (rn_data_cap x) end_) as [Hlt|Hge]; last first.
  { exists true, s. split_and!; [done|done|done|done|]. intros _. exists x. split_and!; [done|done|by destruct x|done|done|done]. }
  destruct (block_round end_ ltac:(lia)) as [Hnc Hnc0]. set (new_cap := ALIGN_UP end_ RAMFS_BLOCK) in *.
  assert (∃ k, ((rn_data x = 0 ∧ k = 0) ∨ live (hp_objs (fs_heap s)) (rn_data x) k) ∧ rn_data_cap x ≤ k) as (k & Hd & Hck).
  { destruct (fo_data _ _ Hfx) as [[? ?]|(_ & k & ? & ?)]; [exists 0|exists k]; (split; [auto|lia]). }
  destruct (regrow (fs_heap s) (rn_data x) k new_cap (fi_heap _ Hi) Hd ltac:(lia) (Hfr Hlt)) as (ret & h1 & -> & Hres).
  cbn [mbind option_bind]. destruct Hres as [[-> Hug]|(Hr & j & Hj & Hrg)].
  { cbn [Z.eqb]. destruct (ungrown_files s h1 n x Hi Hx Hug) as (Hi' & Ho & Hc).
    exists false, (set_fheap h1 s). split_and!; [done|done|done|done|done]. }
  apply Z.eqb_neq in Hr as Hr'. rewrite Hr'. destruct (Z.ltb_spec (rn_data_cap x) new_cap) as [_|]; [|lia].
  destruct (live_range _ _ _ (rg_inv _ _ _ _ _ _ Hrg) (rg_live _ _ _ _ _ _ Hrg)) as (Hrb & _ & Hre).
  rewrite !u64_small by (unfold HEAP_END, HEAP_VIRT_BASE, HEAP_MAX_SIZE in *; lia).
  rewrite (mod_node_eq n _ _ x) by exact Hx. cbn [mbind option_bind]. rewrite fs_nodes_fheap.
  destruct (regrown_file s n x k ret j h1 new_cap Hi Hx Hd Hck ltac:(lia) Hrg Hr) as (Hi' & Ho & Hc & Hbs).
  eexists true, _. split; [reflexivity|]. split_and!; [exact Hi'|exact Ho|done|]. intros _.
  exists (vn_set_file (vn_size x) ret new_cap x). split_and!; [apply lookup_insert_eq| |done|cbn; lia|exact Hc|exact Hbs].
  cbn [set_nodes fs_nodes]. apply dom_insert_lookup_L. by eexists.
Qed.

(** ** Writing and reading *)

(** A buffer that is apart from the file's own. *)
Lemma buf_apart h x buf len :
  heap_inv h → file_ok h x → buf_ok h x buf len → 0 ≤ len → rn_data x ≠ 0 →
  buf + len ≤ rn_data x ∨ rn_data x + rn_data_cap x ≤ buf.
Proof.
  intros Hi Hf Hb Hlen Hd. destruct (fo_data _ _ Hf) as [[? _]|(_ & k & Hl & Hc)]; [done|].
  destruct (live_range h _ _ Hi Hl) as (Hr & _ & _).
  destruct Hb as [Hb|(q & j & Hq & Hb1 & Hb2 & Hne)]; [lia|].
  destruct (live_apart h _ _ _ _ Hi Hl Hq) as [Hap|Hap]; [done| |]; lia.
Qed.

Lemma write_content m data size_ off buf len m' :
  0 ≤ size_ → 0 ≤ off → 0 ≤ len →
  (∀ i, size_ ≤ i < off → m (data + i) = 0) →
  (∀ i, 0 ≤ i < Z.max size_ (off + len) →
     m' (data + i) = if (off <=? i) && (i <? off + len) then m (buf + (i - off)) else m (data + i)) →
  bytes_at m' data (Z.max size_ (off + len)) = write_bytes (bytes_at m data size_) off (bytes_at m buf len).
Proof.
  intros Hs Ho Hl Hz Hm. unfold write_bytes. rewrite !length_bytes_at by lia. unfold bytes_at at 1.
  apply list_fmap_ext. intros idx i [-> Hi]%lookup_seqZ. rewrite Z.add_0_l. rewrite Hm by lia.
  destruct (Z.leb_spec off (Z.of_nat idx)); cbn [andb].
  - destruct (Z.ltb_spec (Z.of_nat idx) (off + len)); [by rewrite nth_bytes_at by lia|]. rewrite nth_bytes_at by lia. done.
  - destruct (Z.lt_ge_cases (Z.of_nat idx) size_); [by rewrite nth_bytes_at by lia|].
    rewrite nth_bytes_over by lia. apply Hz. lia.
Qed.

(** [memcpy] into the file's buffer. *)
Lemma put_mem h x buf len off :
  heap_inv h → file_ok h x → buf_ok h x buf len → 0 ≤ off → 0 ≤ len → off + len ≤ rn_data_cap x →
  let m' := memcpy (u64 (rn_data x + off)) buf len (hp_mem h) in
  (∀ a, m' a = if (rn_data x + off <=? a) && (a <? rn_data x + off + len) then hp_mem h (buf + (a - (rn_data x + off)))
               else hp_mem h a).
Proof.
  intros Hi Hf Hb Ho Hl He m' a. unfold m'. destruct (decide (len = 0)) as [->|Hl0].
  { unfold memcpy. cbn [Z.to_nat copy_fwd].
    destruct (Z.leb_spec (rn_data x + off) a); [|done]. destruct (Z.ltb_spec a (rn_data x + off + 0)); [lia|done]. }
  destruct (fo_data _ _ Hf) as [[_ ?]|(Hd & k & Hlk & Hc)]; [lia|].
  destruct (live_range h _ _ Hi Hlk) as (Hr & _ & Hre).
  rewrite u64_small by (unfold HEAP_END, HEAP_VIRT_BASE, HEAP_MAX_SIZE in *; lia).
  apply memcpy_spec; [lia|]. pose proof (buf_apart h x buf len Hi Hf Hb Hl Hd). lia.
Qed.

Lemma put_spec s n x buf len off :
  fs_inv s → fs_nodes s !! n = Some x → buf_ok (fs_heap s) x buf len → 0 ≤ off → 0 ≤ len → off + len ≤ rn_data_cap x →
  let m' := memcpy (u64 (rn_data x + off)) buf len (hp_mem (fs_heap s)) in
  let x' := vn_set_file (Z.max (vn_size x) (off + len)) (rn_data x) (rn_data_cap x) x in
  let s' := set_nodes (<[n := x']> (fs_nodes s)) (set_fheap (set_hmem (fs_heap s) m') s) in
  fs_inv s' ∧ others_same n s s'
  ∧ content (fs_heap s') x'
    = write_bytes (content (fs_heap s) x) off (bytes_at (hp_mem (fs_heap s)) buf len).
Proof.
  intros Hi Hx Hb Ho Hl He m' x' s'. pose proof (fi_files _ Hi n x Hx) as Hfx. destruct (fo_size _ _ Hfx) as [Hsz0 Hsz].
  pose proof (put_mem _ _ _ _ _ (fi_heap _ Hi) Hfx Hb Ho Hl He) as Hm. fold m' in Hm. cbv zeta in Hm.
  assert (∀ p y, p ≠ n → fs_nodes s !! p = Some y →
    file_ok (set_hmem (fs_heap s) m') y ∧ content (set_hmem (fs_heap s) m') y = content (fs_heap s) y) as Hoth.
  { intros p y Hp Hy. pose proof (fi_files _ Hi p y Hy) as Hfy. apply (file_ok_ext (fs_heap s)); [done|done|].
    intros Hy0 a Ha. cbn [set_hmem hp_mem]. rewrite Hm.
    destruct (Z.leb_spec (rn_data x + off) a); [|done]. destruct (Z.ltb_spec a (rn_data x + off + len)); [|done]. exfalso.
    destruct (fo_data _ _ Hfy) as [[? _]|(_ & j & Hj & Hcj)]; [done|].
    destruct (fo_data _ _ Hfx) as [[_ ?]|(Hx0 & k & Hk & Hck)]; [lia|].
    assert (rn_data x ≠ rn_data y) as Hne by (intros E; by apply Hx0, (fi_apart _ Hi n p x y)).
    destruct (live_apart _ _ _ _ _ (fi_heap _ Hi) Hk Hj Hne); lia. }
  assert (∀ i, 0 ≤ i < rn_data_cap x → m' (rn_data x + i)
     = if (off <=? i) && (i <? off + len) then hp_mem (fs_heap s) (buf + (i - off)) else hp_mem (fs_heap s) (rn_data x + i)) as Hmi.
  { intros i Hii. rewrite Hm. replace (rn_data x + i - (rn_data x + off)) with (i - off) by lia.
    destruct (Z.leb_spec off i), (Z.leb_spec (rn_data x + off) (rn_data x + i)); try lia; [|done].
    destruct (Z.ltb_spec i (off + len)), (Z.ltb_spec (rn_data x + i) (rn_data x + off + len)); try lia; done. }
  split_and!.
  - split; cbn [s' set_nodes set_fheap set_sched fs_heap fs_sched with_heap sc_heap fs_nodes].
    + apply inv_hmem, Hi.
    + intros p y [[<- <-]|[Hp Hy]]%lookup_insert_Some; [|by apply (Hoth p)].
      split; cbn [x' vn_set_file vn_size rn_data rn_data_cap set_hmem hp_objs hp_mem]; [lia|apply Hfx|].
      intros i Hii. rewrite Hmi by lia. destruct (Z.leb_spec off i), (Z.ltb_spec i (off + len)); cbn [andb]; try lia;
        apply (fo_zero _ _ Hfx); lia.
    + intros p q y z [[<- <-]|[Hp Hy]]%lookup_insert_Some [[<- <-]|[Hq Hz]]%lookup_insert_Some Hpq E; [done| | |].
      * by apply (fi_apart _ Hi n q x z).
      * by apply (fi_apart _ Hi p n y x).
      * by eapply (fi_apart _ Hi p q).
  - intros p y Hp Hy. cbn [s' set_nodes fs_nodes]. rewrite lookup_insert_ne by done. split; [done|]. by apply (Hoth p).
  - unfold content. cbn [s' set_nodes set_fheap set_sched fs_heap fs_sched with_heap sc_heap x' vn_set_file vn_size rn_data set_hmem hp_mem].
    apply write_content; [done|done|done| |].
    + intros i Hii. apply (fo_zero _ _ Hfx). lia.
    + intros i Hii. apply Hmi. lia.
Qed.

(** What a write does to the file it writes, and to the others. *)
Lemma ramfs_write_spec s n x buf len off :
  fs_inv s → fs_nodes s !! n = Some x → buf_ok (fs_heap s) x buf len → 0 ≤ off → 0 ≤ len → off + len < 2 ^ 37 →
  (rn_data_cap x < off + len → frames_for_file (off + len) s) →
  ∃ r s' x', ramfs_write n buf len off s = Some (r, s') ∧ fs_inv s' ∧ others_same n s s'
    ∧ fs_nodes s' !! n = Some x' ∧ vn_name x' = vn_name x ∧ vn_ops x' = vn_ops x
    ∧ ((r = -12 ∧ content (fs_heap s') x' = content (fs_heap s) x)
       ∨ (r = len ∧ content (fs_heap s') x'
                    = write_bytes (content (fs_heap s) x) off (bytes_at (hp_mem (fs_heap s)) buf len))).
Proof.
  intros Hi Hx Hb Ho Hl He Hfr. unfold ramfs_write. rewrite u64_small by lia. cbv zeta.
  destruct (ramfs_grow_spec s n x (off + len) Hi Hx ltac:(lia) Hfr) as (ok & s1 & -> & Hi1 & Hoth1 & Hno & Hyes).
  cbn [mbind option_bind]. destruct ok; cbn [negb].
  - destruct (Hyes eq_refl) as (x1 & Hx1 & _ & Ex1 & Hcap & Hc1 & Hbs). rewrite Hx1. cbn [mbind option_bind].
    destruct (Hbs buf len Hb) as [Hb1 Eb].
    destruct (put_spec s1 n x1 buf len off Hi1 Hx1 Hb1 Ho Hl Hcap) as (Hi2 & Hoth2 & Hc2).
    rewrite (mod_node_eq n _ _ x1) by exact Hx1. cbn [mbind option_bind]. rewrite fs_nodes_fheap.
    assert ((if vn_size x1 <? off + len then off + len else vn_size x1) = Z.max (vn_size x1) (off + len)) as ->.
    { destruct (Z.ltb_spec (vn_size x1) (off + len)); lia. }
    eexists _, _, _. split; [reflexivity|]. split_and!; [exact Hi2| |apply lookup_insert_eq|by rewrite Ex1|by rewrite Ex1|].
    + intros p y Hp Hy. destruct (Hoth1 p y Hp Hy) as [Hy1 E1]. destruct (Hoth2 p y Hp Hy1) as [Hy2 E2]. split; [done|].
      by rewrite E2.
    + right. split; [unfold i64; rewrite Z.mod_small by lia; lia|]. by rewrite Hc2, Hc1, Eb.
  - destruct (Hno eq_refl) as [En Hc]. exists (-12), s1, x. rewrite En. split_and!; [done|done|done|done|done|done|by left].
Qed.

(** A read fills the buffer with the bytes of the file and changes nothing else. *)
Lemma ramfs_read_spec s n x buf len off :
  fs_inv s → fs_nodes s !! n = Some x → 0 ≤ off → 0 ≤ len → off + len < 2 ^ 63 →
  (rn_data x ≠ 0 → buf + len ≤ rn_data x ∨ rn_data x + rn_data_cap x ≤ buf) →
  let bs := read_bytes (content (fs_heap s) x) off len in
  ∃ s', ramfs_read n buf len off s = Some (Z.of_nat (length bs), s')
    ∧ bytes_at (hp_mem (fs_heap s')) buf (Z.of_nat (length bs)) = bs
    ∧ (∀ a, ¬ buf ≤ a < buf + Z.of_nat (length bs) → hp_mem (fs_heap s') a = hp_mem (fs_heap s) a)
    ∧ fs_nodes s' = fs_nodes s.
Proof.
  intros Hi Hx Ho Hl He Hb bs. pose proof (fi_files _ Hi n x Hx) as Hfx. destruct (fo_size _ _ Hfx) as [Hsz0 Hsz].
  unfold ramfs_read. rewrite Hx. cbn [mbind option_bind].
  assert (Z.of_nat (length bs) = Z.max 0 (Z.min len (vn_size x - off))) as Elen.
  { unfold bs, read_bytes, content. rewrite length_take, length_drop. pose proof (length_bytes_at (hp_mem (fs_heap s)) (rn_data x) (vn_size x) Hsz0). lia. }
  assert (bs = bytes_at (hp_mem (fs_heap s)) (rn_data x + off) (Z.of_nat (length bs))) as Ebs.
  { rewrite Elen. unfold bs, read_bytes, content. apply list_eq_same_length with (n := length bs).
    - pose proof (length_bytes_at (hp_mem (fs_heap s)) (rn_data x + off) (Z.max 0 (Z.min len (vn_size x - off))) ltac:(lia)). lia.
    - done.
    - intros i u v Hii. rewrite lookup_take_lt by lia. rewrite lookup_drop. unfold bytes_at. rewrite !list_lookup_fmap.
      rewrite !lookup_seqZ_lt by lia. cbn. intros [= <-] [= <-]. f_equal. lia. }
  clearbody bs. destruct (Z.leb_spec (vn_size x) off) as [Hle|Hgt].
  { exists s. assert (length bs = 0%nat) as E0 by lia. rewrite E0. apply nil_length_inv in E0. rewrite E0. by split_and!. }
  destruct (fo_data _ _ Hfx) as [[_ ?]|(Hd & k & Hk & Hck)]; [lia|].
  destruct (live_range _ _ _ (fi_heap _ Hi) Hk) as (Hr & _ & Hre). specialize (Hb Hd).
  rewrite (u64_small (off + len)), (u64_small (vn_size x - off)) by (unfold HEAP_END, HEAP_VIRT_BASE, HEAP_MAX_SIZE in *; lia).
  assert ((if vn_size x <? off + len then vn_size x - off else len) = Z.of_nat (length bs)) as ->.
  { destruct (Z.ltb_spec (vn_size x) (off + len)); lia. }
  rewrite (u64_small (rn_data x + off)) by (unfold HEAP_END, HEAP_VIRT_BASE, HEAP_MAX_SIZE in *; lia).
  assert (i64 (Z.of_nat (length bs)) = Z.of_nat (length bs)) as -> by (unfold i64; rewrite Z.mod_small by lia; lia).
  eexists. split; [reflexivity|]. split_and!; [| |reflexivity].
  - cbn [set_fheap set_sched fs_heap fs_sched with_heap sc_heap set_hmem hp_mem]. rewrite Ebs at 3.
    apply list_fmap_ext. intros idx i [-> Hii]%lookup_seqZ. rewrite memcpy_spec by lia.
    destruct (Z.leb_spec buf (buf + (0 + Z.of_nat idx))); [|lia].
    destruct (Z.ltb_spec (buf + (0 + Z.of_nat idx)) (buf + Z.of_nat (length bs))); [|lia]. cbn [andb]. f_equal. lia.
  - intros a Ha. cbn [set_fheap set_sched fs_heap fs_sched with_heap sc_heap set_hmem hp_mem]. rewrite memcpy_spec by lia.
    destruct (Z.leb_spec buf a); [|done]. destruct (Z.ltb_spec a (buf + Z.of_nat (length bs))); [lia|done].
Qed.
End files.
