(* ===== verification/VfsDir.v ===== *)
(** Directories of kernel/fs/ramfs.c as lists of named entries. *)
From stdpp Require Import prelude gmap.
From S2P Require Import Prelude CString FrameAlloc Bitmap Vmm VmmWf VmmSpec VmmRange Heap HeapMap HeapSlab HeapList HeapInv HeapOps HeapApi HeapRefine Sched SchedCreate Vfs RamfsFile.

Abbreviation str_ok := (Forall (λ b, 0 < b < 256)).

Lemma str_eq_spec a b : str_ok a → str_ok b → str_eq a b = bool_decide (a = b).
Proof.
  intros Ha Hb. unfold str_eq.
  destruct (strcmp_spec (lit a) (lit b) a b (S (length a))) as (r & -> & Hr); [by apply cstr_lit|by apply cstr_lit|lia|].
  destruct (Z.eqb_spec r 0) as [E|E]; symmetry; [apply bool_decide_eq_true_2|apply bool_decide_eq_false_2]; tauto.
Qed.

(** ** Entries *)

Abbreviation entries := (list (list Z * Z)).

Definition entry_named (name : list Z) (e : list Z * Z) : Prop := e.1 = name.
#[export] Instance entry_named_dec name e : Decision (entry_named name e).
Proof. unfold entry_named. apply _. Defined.

(** The node of the first entry with a name; 0 when there is none. *)
Definition find_entry (name : list Z) (l : entries) : Z :=
  match list_find (entry_named name) l with Some (_, (_, c)) => c | None => 0 end.

Section dirs.
Context {A : Type} `{FrameAllocator A}.
Implicit Types (s : fs A) (l : entries).

Record dir_rep s (dir : Z) l : Prop := {
  dr_node : ∃ d, fs_nodes s !! dir = Some d ∧ rn_nchildren d = Z.of_nat (length l)
    ∧ ∀ i nm c, l !! i = Some (nm, c) → rn_children d (Z.of_nat i) = c;
  dr_ops : ∀ d, fs_nodes s !! dir = Some d → vn_ops d = ramfs_dir_ops;
  dr_size : Z.of_nat (length l) ≤ RAMFS_MAX_CHILDREN;
  dr_entry : ∀ nm c, (nm, c) ∈ l → c ≠ 0 ∧ str_ok nm ∧ ∃ x, fs_nodes s !! c = Some x ∧ vn_name x = nm;
}.

Lemma child_loop_spec s dir l d name n i :
  dir_rep s dir l → fs_nodes s !! dir = Some d → str_ok name → (i + n = length l)%nat →
  child_loop n (Z.of_nat i) d name s
  = Some ((λ p, Z.of_nat (i + p.1)) <$> list_find (entry_named name) (drop i l)).
Proof.
  intros Hr Hd Hn. revert i. induction n as [|n IH]; intros i Hi; cbn [child_loop].
  { rewrite drop_ge by lia. done. }
  destruct (lookup_lt_is_Some_2 l i) as [[nm c] He]; [lia|].
  destruct (dr_node _ _ _ Hr) as (d' & Hd' & _ & Hch). rewrite Hd in Hd'. injection Hd' as <-.
  pose proof (dr_size _ _ _ Hr). rewrite aget_Some by lia. cbn [mbind option_bind]. rewrite (Hch i nm c He).
  destruct (dr_entry _ _ _ Hr nm c) as (_ & Hnm & x & Hx & <-); [by eapply list_elem_of_lookup_2|].
  rewrite Hx. cbn [mbind option_bind]. rewrite str_eq_spec by done.
  rewrite (drop_S _ _ _ He). cbn [list_find]. unfold entry_named at 1. cbn [fst].
  case_bool_decide as E.
  - rewrite decide_True by done. cbn. do 2 f_equal. lia.
  - rewrite decide_False by done. replace (Z.of_nat i + 1) with (Z.of_nat (S i)) by lia. rewrite IH by lia.
    destruct (list_find _ (drop (S i) l)) as [[j e]|]; cbn; [|done]. do 2 f_equal. lia.
Qed.

Lemma find_index s dir l d name :
  dir_rep s dir l → fs_nodes s !! dir = Some d → str_ok name →
  child_loop (Z.to_nat (rn_nchildren d)) 0 d name s = Some ((λ p, Z.of_nat p.1) <$> list_find (entry_named name) l).
Proof.
  intros Hr Hd Hn. destruct (dr_node _ _ _ Hr) as (d' & Hd' & En & _). rewrite Hd in Hd'. injection Hd' as <-.
  rewrite En, Nat2Z.id. exact (child_loop_spec s dir l d name (length l) 0 Hr Hd Hn eq_refl).
Qed.

Lemma ramfs_lookup_spec s dir l name :
  dir_rep s dir l → str_ok name → ramfs_lookup dir name s = Some (find_entry name l).
Proof.
  intros Hr Hn. destruct (dr_node _ _ _ Hr) as (d & Hd & En & Hch). unfold ramfs_lookup. rewrite Hd. cbn [mbind option_bind].
  rewrite (find_index s dir l d name Hr Hd Hn). cbn [mbind option_bind]. unfold find_entry.
  destruct (list_find (entry_named name) l) as [[i [nm c]]|] eqn:Hf; cbn; [|done].
  apply list_find_Some in Hf as (He & _ & _). pose proof (dr_size _ _ _ Hr). apply lookup_lt_Some in He as Hlt.
  rewrite aget_Some by lia. by rewrite (Hch i nm c He).
Qed.

Lemma ramfs_readdir_spec s dir l idx :
  dir_rep s dir l → 0 ≤ idx →
  ramfs_readdir dir idx s
  = Some (match l !! Z.to_nat idx with Some (nm, _) => (0, take 255 nm) | None => (-1, []) end).
Proof.
  intros Hr Hi. destruct (dr_node _ _ _ Hr) as (d & Hd & En & Hch). unfold ramfs_readdir. rewrite Hd. cbn [mbind option_bind].
  rewrite En. destruct (Z.leb_spec (Z.of_nat (length l)) idx).
  - by rewrite lookup_ge_None_2 by lia.
  - destruct (lookup_lt_is_Some_2 l (Z.to_nat idx)) as [[nm c] He]; [lia|]. rewrite He.
    pose proof (dr_size _ _ _ Hr). rewrite aget_Some by lia. cbn [mbind option_bind].
    specialize (Hch _ _ _ He). rewrite Z2Nat.id in Hch by lia. rewrite Hch.
    destruct (dr_entry _ _ _ Hr nm c) as (_ & _ & x & -> & <-); [by eapply list_elem_of_lookup_2|]. done.
Qed.

(** ** Removing an entry *)

Lemma shift_loop_spec n j ch (l : list Z) :
  (∀ i c, l !! i = Some c → ch (Z.of_nat i) = c) → (j + n + 1 = length l)%nat → Z.of_nat (length l) ≤ RAMFS_MAX_CHILDREN →
  ∃ ch', shift_loop n (Z.of_nat j) ch = Some ch' ∧ ∀ i c, delete j l !! i = Some c → ch' (Z.of_nat i) = c.
Proof.
  revert j ch l. induction n as [|n IH]; intros j ch l Hch Hj Hm; cbn [shift_loop].
  - exists ch. split; [done|]. intros i c Hi. apply Hch.
    assert (i < j)%nat as Hlt by (apply lookup_lt_Some in Hi; rewrite length_delete in Hi by (apply lookup_lt_is_Some_2; lia); lia).
    by rewrite list_lookup_delete_lt in Hi.
  - destruct (lookup_lt_is_Some_2 l (S j)) as [v Hv]; [lia|].
    rewrite aget_Some by lia. cbn [mbind option_bind]. rewrite aset_Some by lia. cbn [mbind option_bind].
    replace (Z.of_nat j + 1) with (Z.of_nat (S j)) by lia. rewrite (Hch _ _ Hv).
    destruct (IH (S j) (upd ch (Z.of_nat j) v) (<[j := v]> l)) as (ch' & E & Hch').
    + intros i c Hi. unfold upd. destruct (Z.eqb_spec (Z.of_nat i) (Z.of_nat j)) as [Ei|Ei].
      * assert (i = j) as -> by lia. rewrite list_lookup_insert_eq in Hi by lia. by injection Hi.
      * rewrite list_lookup_insert_ne in Hi by lia. by apply Hch.
    + rewrite length_insert. lia.
    + rewrite length_insert. lia.
    + exists ch'. split; [done|]. intros i c Hi. apply Hch'.
      destruct (Nat.lt_trichotomy i j) as [Hlt|[->|Hgt]].
      * rewrite list_lookup_delete_lt in * by lia. by rewrite list_lookup_insert_ne by lia.
      * rewrite list_lookup_delete_ge in Hi by lia. rewrite list_lookup_delete_lt by lia.
        rewrite list_lookup_insert_eq by lia. congruence.
      * rewrite list_lookup_delete_ge in * by lia. by rewrite list_lookup_insert_ne by lia.
Qed.

(** Changing a directory node's children only. *)
Lemma dir_rep_set s dir d ch n l :
  fs_nodes s !! dir = Some d → vn_ops d = ramfs_dir_ops →
  n = Z.of_nat (length l) → Z.of_nat (length l) ≤ RAMFS_MAX_CHILDREN →
  (∀ i nm c, l !! i = Some (nm, c) → ch (Z.of_nat i) = c) →
  (∀ nm c, (nm, c) ∈ l → c ≠ 0 ∧ str_ok nm ∧ ∃ x, fs_nodes s !! c = Some x ∧ vn_name x = nm) →
  dir_rep (set_nodes (<[dir := vn_set_children ch n d]> (fs_nodes s)) s) dir l.
Proof.
  intros Hd Ho -> Hsz Hch He. split; [| |done|].
  - eexists. cbn [set_nodes fs_nodes]. rewrite lookup_insert_eq. split; [reflexivity|]. done.
  - intros d'. cbn [set_nodes fs_nodes]. rewrite lookup_insert_eq. by intros [= <-].
  - intros nm c Hin. destruct (He nm c Hin) as (Hc & Hok & x & Hx & Hn). split_and!; [done|done|].
    cbn [set_nodes fs_nodes]. destruct (decide (c = dir)) as [->|]; [|rewrite lookup_insert_ne by done; by exists x].
    rewrite lookup_insert_eq. eexists. split; [reflexivity|]. rewrite Hd in Hx. injection Hx as <-. exact Hn.
Qed.

Lemma ramfs_unlink_spec s dir l name :
  dir_rep s dir l → str_ok name →
  match list_find (entry_named name) l with
  | None => ramfs_unlink dir name s = Some (-2, s)
  | Some (i, _) => ∃ s', ramfs_unlink dir name s = Some (0, s') ∧ dir_rep s' dir (delete i l)
      ∧ (∀ n, n ≠ dir → fs_nodes s' !! n = fs_nodes s !! n) ∧ fs_sched s' = fs_sched s
  end.
Proof.
  intros Hr Hn. destruct (dr_node _ _ _ Hr) as (d & Hd & En & Hch). unfold ramfs_unlink. rewrite Hd. cbn [mbind option_bind].
  rewrite (find_index s dir l d name Hr Hd Hn). cbn [mbind option_bind].
  destruct (list_find (entry_named name) l) as [[i e]|] eqn:Hf; cbn [fmap option_fmap option_map]; [|done].
  apply list_find_Some in Hf as (He & _ & _). apply lookup_lt_Some in He as Hlt. pose proof (dr_size _ _ _ Hr) as Hsz.
  cbn [fst]. destruct (shift_loop_spec (length l - 1 - i) i (rn_children d) (l.*2)) as (ch & Esh & Hch').
  - intros j c Hj. apply list_lookup_fmap_Some in Hj as ([nm c'] & -> & Hj). by apply (Hch j nm).
  - rewrite length_fmap. lia.
  - rewrite length_fmap. done.
  - replace (Z.to_nat (rn_nchildren d - 1 - Z.of_nat i)) with (length l - 1 - i)%nat by lia. rewrite Esh.
    cbn [mbind option_bind]. rewrite (mod_node_eq _ _ _ _ Hd). cbn [mbind option_bind].
    eexists. split; [reflexivity|]. split_and!; [| |done].
    + assert (length (delete i l) = length l - 1)%nat as El by (rewrite length_delete by (by eexists); lia).
      apply dir_rep_set; [done|by apply (dr_ops _ _ _ Hr)|lia|lia| |].
      * intros j nm c Hj. apply Hch'. rewrite <-list_fmap_delete, list_lookup_fmap, Hj. done.
      * intros nm c Hin. apply (dr_entry _ _ _ Hr). apply list_elem_of_lookup in Hin as [j Hj].
        destruct (decide (j < i)%nat).
        -- rewrite list_lookup_delete_lt in Hj by done. by eapply list_elem_of_lookup_2.
        -- rewrite list_lookup_delete_ge in Hj by lia. by eapply list_elem_of_lookup_2.
    + intros m Hm. cbn [set_nodes fs_nodes]. by rewrite lookup_insert_ne.
Qed.

(** ** Adding an entry *)

(** Node structures are live blocks. *)
Definition nodes_live s : Prop := ∀ n x, fs_nodes s !! n = Some x → ∃ k, live (hp_objs (fs_heap s)) n k.

Lemma str_ok_take n a : str_ok a → str_ok (take n a).
Proof. apply Forall_take. Qed.

Lemma fs_inv_grow s h1 n x :
  fs_inv s → heap_inv h1 → keeps_live (fs_heap s) h1 →
  (∀ q k, live (hp_objs (fs_heap s)) q k → live (hp_objs h1) q k) →
  fs_nodes s !! n = None → vn_size x = 0 → rn_data x = 0 → rn_data_cap x = 0 →
  fs_inv (set_nodes (<[n := x]> (fs_nodes s)) (set_fheap h1 s))
  ∧ ∀ m y, fs_nodes s !! m = Some y → content h1 y = content (fs_heap s) y.
Proof.
  intros Hi Hh Hk Hl Hn E1 E2 E3.
  assert (∀ m y, fs_nodes s !! m = Some y → file_ok h1 y ∧ content h1 y = content (fs_heap s) y) as Hall.
  { intros m y Hy. pose proof (fi_files _ Hi m y Hy) as Hfy. apply (file_ok_ext (fs_heap s)); [done|by intros k _ ?%Hl|].
    intros Hy0 a Ha. destruct (fo_data _ _ Hfy) as [[? _]|(_ & k & Hlk & Hc)]; [done|].
    apply (Hk (rn_data y) k); [done|lia]. }
  split; [|intros m y Hy; by apply (Hall m)].
  split; cbn [set_nodes set_fheap set_sched fs_heap fs_sched with_heap sc_heap fs_nodes]; [done| |].
  - intros m y [[<- <-]|[_ Hy]]%lookup_insert_Some; [|by apply (Hall m)].
    split; [lia|left; done|lia].
  - intros m q y z [[<- <-]|[_ Hy]]%lookup_insert_Some [[<- <-]|[_ Hz]]%lookup_insert_Some Hne E;
      [done|congruence|congruence|by eapply (fi_apart _ Hi m q)].
Qed.

(** Only the heap of the scheduler changed, and what was live in it is as it was. *)
Record kept s s' : Prop := {
  kp_sched : fs_sched s' = with_heap (fs_heap s') (fs_sched s);
  kp_live : ∀ q k, live (hp_objs (fs_heap s)) q k → live (hp_objs (fs_heap s')) q k;
  kp_mem : keeps_live (fs_heap s) (fs_heap s');
}.

Lemma kept_refl s : kept s s.
Proof. split; [|done|by intros q k a _ _]. unfold fs_heap. by destruct (fs_sched s). Qed.

Lemma kept_trans s1 s2 s3 : kept s1 s2 → kept s2 s3 → kept s1 s3.
Proof.
  intros [A1 A2 A3] [B1 B2 B3]. split; [by rewrite B1, A1|by auto|].
  intros q k a Hq Ha. rewrite (B3 q k a) by auto. by apply (A3 q k).
Qed.

Lemma block_kept s p n h1 : block_result (fs_heap s) p n h1 → kept s (set_fheap h1 s).
Proof.
  intros Hb. split; [done| |exact (br_keeps _ _ _ _ Hb)]. intros q k Hq.
  destruct (br_live _ _ _ _ Hb) as [[_ Hl]|(_ & _ & Hl)]; apply Hl; [done|by left].
Qed.

Lemma ramfs_alloc_spec s name type :
  fs_inv s → nodes_live s → frames_for 1 (fs_heap s) →
  ∃ n s', ramfs_alloc name type s = Some (n, s') ∧ fs_inv s' ∧ nodes_live s' ∧ kept s s' ∧ page_cost 1 n (fs_heap s) (fs_heap s')
    ∧ (∀ m y, fs_nodes s !! m = Some y → fs_nodes s' !! m = Some y ∧ content (fs_heap s') y = content (fs_heap s) y)
    ∧ mount_table s' = mount_table s ∧ mount_count s' = mount_count s
    ∧ ((n = 0 ∧ fs_nodes s' = fs_nodes s)
       ∨ (n ≠ 0 ∧ fs_nodes s !! n = None ∧ ∃ x, fs_nodes s' = <[n := x]> (fs_nodes s)
          ∧ vn_name x = take 255 name ∧ vn_size x = 0 ∧ rn_nchildren x = 0 ∧ vn_flags x = type
          ∧ vn_ops x = if Z.land type VFS_TYPE_DIR =? 0 then ramfs_file_ops else ramfs_dir_ops)).
Proof.
  intros Hi Hnl Hfr. unfold ramfs_alloc.
  destruct (kzalloc_block (fs_heap s) RAMFS_NODE_SIZE (fi_heap _ Hi)) as (n & h1 & k & -> & Hb & Hk & Hc);
    [unfold RAMFS_NODE_SIZE; lia|exact Hfr|].
  change (request_pages RAMFS_NODE_SIZE) with 1 in Hc. cbn [mbind option_bind].
  destruct (Z.eqb_spec n 0) as [->|Hn].
  - destruct (br_live _ _ _ _ Hb) as [[_ Hl]|[? _]]; [|done].
    assert (∀ m y, fs_nodes s !! m = Some y → file_ok h1 y ∧ content h1 y = content (fs_heap s) y) as Hall.
    { intros m y Hy. pose proof (fi_files _ Hi m y Hy) as Hfy.
      apply (file_ok_ext (fs_heap s)); [done|intros j _ Hj; by apply Hl|].
      intros Hy0 a Ha. destruct (fo_data _ _ Hfy) as [[? _]|(_ & j & Hlj & Hcj)]; [done|].
      apply (br_keeps _ _ _ _ Hb (rn_data y) j); [done|lia]. }
    exists 0, (set_fheap h1 s). split_and!; [done| | |by eapply block_kept|exact Hc| |done|done|by left].
    + split; [apply Hb|intros m y Hy; by apply (Hall m)|apply (fi_apart _ Hi)].
    + intros m y Hy. destruct (Hnl m y Hy) as [j Hj]. exists j. by apply Hl.
    + intros m y Hy. split; [done|]. by apply (Hall m).
  - destruct (block_fresh _ _ _ _ Hb Hn) as [Hln Hf].
    assert (fs_nodes s !! n = None) as Hnone.
    { apply eq_None_not_Some. intros [y (j & Hj)%Hnl]. by destruct (Hf n j Hj) as (_ & ? & _). }
    match goal with |- context [<[n := ?y]>] => set (x := y) end.
    destruct (fs_inv_grow s h1 n x Hi (br_inv _ _ _ _ Hb) (br_keeps _ _ _ _ Hb)) as [Hi' Hcont];
      [intros q j Hq; by apply Hf|done|done|done|done|].
    exists n, (set_ino (u64 (next_ino s + 1)) (set_nodes (<[n := x]> (fs_nodes s)) (set_fheap h1 s))).
    split_and!; [done| | |by destruct (block_kept _ _ _ _ Hb); split|exact Hc| |done|done|].
    + destruct Hi' as [I1 I2 I3]. split; [exact I1|exact I2|exact I3].
    + intros m y Hy. cbn [set_ino set_nodes fs_nodes] in Hy.
      apply lookup_insert_Some in Hy as [[<- <-]|[_ Hy]]; [by exists k|]. destruct (Hnl m y Hy) as [j Hj]. exists j. by apply Hf.
    + intros m y Hy. cbn [set_ino set_nodes fs_nodes]. rewrite lookup_insert_ne by (intros ->; congruence).
      split; [done|]. by apply (Hcont m).
    + right. split_and!; [done|done|]. exists x. by split_and!.
Qed.

(** Rewriting a node without touching its buffer. *)
Lemma fs_inv_meta s n x y :
  fs_inv s → fs_nodes s !! n = Some x → vn_size y = vn_size x → rn_data y = rn_data x → rn_data_cap y = rn_data_cap x →
  fs_inv (set_nodes (<[n := y]> (fs_nodes s)) s).
Proof.
  intros Hi Hx E1 E2 E3. destruct (fi_files _ Hi n x Hx) as [F1 F2 F3].
  split; cbn [set_nodes fs_nodes fs_heap fs_sched]; [apply Hi| |].
  - intros m z [[<- <-]|[_ Hz]]%lookup_insert_Some; [|by apply (fi_files _ Hi m)].
    split; rewrite ?E1, ?E2, ?E3; done.
  - intros m q z w [[<- <-]|[_ Hz]]%lookup_insert_Some [[<- <-]|[_ Hw]]%lookup_insert_Some Hne E; [done| | |].
    + rewrite E2 in *. by apply (fi_apart _ Hi n q x w).
    + rewrite E2 in *. by apply (fi_apart _ Hi m n z x).
    + by apply (fi_apart _ Hi m q z w).
Qed.

Lemma nodes_live_meta s n x y : nodes_live s → fs_nodes s !! n = Some x → nodes_live (set_nodes (<[n := y]> (fs_nodes s)) s).
Proof.
  intros Hnl Hx m z Hz. cbn [set_nodes fs_nodes] in Hz. apply lookup_insert_Some in Hz as [[<- <-]|[_ Hz]]; [by apply (Hnl n x)|].
  by apply (Hnl m z).
Qed.

Record added s (type dir : Z) (name : list Z) l s' (c : Z) : Prop := {
  ad_rep : dir_rep s' dir (l ++ [(take 255 name, c)]);
  ad_new : c ≠ 0 ∧ fs_nodes s !! c = None;
  ad_child : ∃ x, fs_nodes s' !! c = Some x ∧ vn_name x = take 255 name ∧ vn_size x = 0 ∧ rn_nchildren x = 0
    ∧ vn_flags x = type ∧ vn_ops x = if Z.land type VFS_TYPE_DIR =? 0 then ramfs_file_ops else ramfs_dir_ops;
  ad_other : ∀ n y, n ≠ dir → fs_nodes s !! n = Some y →
    fs_nodes s' !! n = Some y ∧ content (fs_heap s') y = content (fs_heap s) y;
}.

Lemma ramfs_add_spec s type dir name mode l :
  fs_inv s → nodes_live s → frames_for 1 (fs_heap s) → dir_rep s dir l → str_ok name →
  ∃ r s', ramfs_add type dir name mode s = Some (r, s') ∧ fs_inv s' ∧ nodes_live s' ∧ kept s s'
    ∧ mount_table s' = mount_table s ∧ mount_count s' = mount_count s
    ∧ ((r = -28 ∧ s' = s ∧ Z.of_nat (length l) = RAMFS_MAX_CHILDREN)
       ∨ (r = -12 ∧ dir_rep s' dir l ∧ no_room 1 (fs_heap s))
       ∨ (r = 0 ∧ ∃ c, added s type dir name l s' c ∧ page_cost 1 c (fs_heap s) (fs_heap s'))).
Proof.
  intros Hi Hnl Hfr Hr Hok. destruct (dr_node _ _ _ Hr) as (d & Hd & En & Hch). pose proof (dr_size _ _ _ Hr) as Hsz.
  unfold ramfs_add. rewrite Hd. cbn [mbind option_bind]. rewrite En.
  destruct (Z.leb_spec RAMFS_MAX_CHILDREN (Z.of_nat (length l))) as [Hfull|Hlt].
  { exists (-28), s. split_and!; [done|done|done|apply kept_refl|done|done|left; split_and!; [done|done|lia]]. }
  destruct (ramfs_alloc_spec s name type Hi Hnl Hfr) as (c & s1 & -> & Hi1 & Hnl1 & Hkp & Hcost & Hsame & Em & Ec & Hres).
  cbn [mbind option_bind]. destruct Hres as [[-> En1]|(Hc & Hnone & x & En1 & X1 & X2 & X3 & X4 & X5)].
  { exists (-12), s1. split_and!; [done|done|done|done|done|done|]. right; left. split_and!; [done| |by apply Hcost].
    split; rewrite ?En1; [exists d; by split_and!|apply Hr|done|apply (dr_entry _ _ _ Hr)]. }
  apply Z.eqb_neq in Hc as Hc'. rewrite Hc'.
  assert (fs_nodes s1 !! c = Some x) as Hx1 by (rewrite En1; apply lookup_insert_eq).
  assert (c ≠ dir) as Hcd by (intros ->; congruence).
  rewrite (mod_node_eq c _ _ x Hx1). cbn [mbind option_bind]. set (x2 := vn_set_mode mode dir x).
  set (s2 := set_nodes (<[c := x2]> (fs_nodes s1)) s1).
  assert (fs_nodes s2 !! dir = Some d) as Hd2.
  { cbn [s2 set_nodes fs_nodes]. rewrite lookup_insert_ne by done. by apply Hsame. }
  rewrite Hd2. cbn [mbind option_bind]. rewrite En. rewrite aset_Some by lia. cbn [mbind option_bind].
  rewrite (mod_node_eq dir _ _ d Hd2). cbn [mbind option_bind].
  set (d' := vn_set_children _ _ d).
  assert (fs_inv s2) as Hi2 by (by apply (fs_inv_meta s1 c x)).
  assert (nodes_live s2) as Hnl2 by (by apply (nodes_live_meta s1 c x)).
  eexists 0, (set_nodes (<[dir := d']> (fs_nodes s2)) s2). split; [done|].
  split_and!; [by apply (fs_inv_meta s2 dir d)|by apply (nodes_live_meta s2 dir d)|by destruct Hkp; split|exact Em|exact Ec|].
  right; right. split; [done|]. exists c. split; [|exact Hcost].
  assert (∀ n y, n ≠ c → fs_nodes s !! n = Some y → fs_nodes s2 !! n = Some y) as Hs2.
  { intros n y Hn Hy. cbn [s2 set_nodes fs_nodes]. rewrite lookup_insert_ne by done. by apply Hsame. }
  split.
  - apply dir_rep_set; [done|by apply (dr_ops _ _ _ Hr)|rewrite length_app; cbn; lia|rewrite length_app; cbn; lia| |].
    + intros i nm e He. unfold upd. apply lookup_app_Some in He as [He|[Hge He]].
      * apply lookup_lt_Some in He as Hi'. destruct (Z.eqb_spec (Z.of_nat i) (Z.of_nat (length l))); [lia|]. by apply (Hch i nm).
      * apply list_lookup_singleton_Some in He as [Ei [= <- <-]].
        assert (i = length l) as -> by lia. by rewrite Z.eqb_refl.
    + intros nm e [Hin|Hin]%elem_of_app.
      * destruct (dr_entry _ _ _ Hr nm e Hin) as (? & ? & y & Hy & ?). split_and!; [done|done|]. exists y. split; [|done].
        apply Hs2; [intros ->; congruence|done].
      * apply list_elem_of_singleton in Hin as [= -> ->]. split_and!; [done|by apply Forall_take|].
        exists x2. split; [apply lookup_insert_eq|done].
  - done.
  - exists x2. cbn [set_nodes fs_nodes]. rewrite lookup_insert_ne by done. cbn [s2 set_nodes fs_nodes].
    rewrite lookup_insert_eq. by split_and!.
  - intros n y Hn Hy. cbn [set_nodes fs_nodes]. rewrite lookup_insert_ne by done.
    split; [apply Hs2; [intros ->; congruence|done]|]. exact (proj2 (Hsame n y Hy)).
Qed.
End dirs.
