(* ===== verification/VfsPath.v ===== *)
(** Paths of kernel/fs/vfs.c: splitting, resolution and the mount table; and
    what [vfs_init] sets up. *)
From stdpp Require Import prelude gmap.
From S2P Require Import Prelude CString FrameAlloc Bitmap Vmm VmmWf VmmSpec VmmRange Heap HeapMap HeapSlab HeapList HeapInv HeapOps HeapApi HeapRefine Sched SchedCreate Vfs RamfsFile VfsDir.

(** ** Splitting *)

(** Reference: the components of a path between its slashes. *)
Fixpoint components (cur p : list Z) : list (list Z) :=
  match p with
  | [] => match cur with [] => [] | _ => [cur] end
  | c :: q => if c =? 47 then match cur with [] => components [] q | _ => cur :: components [] q end
              else components (cur ++ [c]) q
  end.

Lemma components_skip p : components [] (skip_slash p) = components [] p.
Proof. induction p as [|c p IH]; [done|]. cbn [skip_slash components]. destruct (c =? 47) eqn:E; [done|]. cbn [components]. by rewrite E. Qed.

Lemma skip_slash_head p c q : skip_slash p = c :: q → c ≠ 47.
Proof. induction p as [|d p IH]; [done|]. cbn [skip_slash]. destruct (Z.eqb_spec d 47); [done|]. by intros [= <- _]. Qed.

Lemma take_comp_spec n p cur :
  (∀ c, c ∈ components cur p → Z.of_nat (length c) ≤ Z.of_nat (length cur) + Z.of_nat n) →
  let '(a, b) := take_comp n p in
  p = a ++ b ∧ (b = [] ∨ ∃ q, b = 47 :: q) ∧ Forall (λ c, c ≠ 47) a.
Proof.
  revert n cur. induction p as [|c p IH]; intros n cur Hn; [by destruct n; (split; [done|split; [by left|constructor]])|].
  destruct n as [|n]; cbn [take_comp].
  - destruct (Z.eqb_spec c 47) as [->|Hc].
    + split; [done|split; [right; by eexists|constructor]].
    + exfalso. cbn [components] in Hn. destruct (Z.eqb_spec c 47); [done|].
      assert (∃ d, d ∈ components (cur ++ [c]) p ∧ (length cur < length d)%nat) as (d & Hd & Hl).
      { clear -c. revert cur c. induction p as [|e p IH]; intros cur c.
        - exists (cur ++ [c]). cbn [components]. destruct (cur ++ [c]) as [|z l] eqn:E; [by destruct cur|].
          split; [by left|]. rewrite <-E, length_app. cbn. lia.
        - cbn [components]. destruct (e =? 47).
          + exists (cur ++ [c]). destruct (cur ++ [c]) as [|z l] eqn:E; [by destruct cur|]. split; [by left|].
            rewrite <-E, length_app. cbn. lia.
          + destruct (IH (cur ++ [c]) e) as (d & ? & Hl). exists d. split; [done|]. rewrite length_app in Hl. cbn in Hl. lia. }
      specialize (Hn d Hd). lia.
  - destruct (Z.eqb_spec c 47) as [->|Hc]; [split; [done|split; [right; by eexists|constructor]]|].
    specialize (IH n (cur ++ [c])). destruct (take_comp n p) as [a b]. destruct IH as (-> & Hb & Ha).
    { intros d Hd. rewrite length_app. cbn [length]. cbn [components] in Hn. destruct (Z.eqb_spec c 47); [done|].
      specialize (Hn d Hd). lia. }
    split_and!; [done|done|by constructor].
Qed.

Lemma components_split a b cur :
  Forall (λ c, c ≠ 47) a → (b = [] ∨ ∃ q, b = 47 :: q) → cur ++ a ≠ [] →
  components cur (a ++ b) = (cur ++ a) :: components [] b.
Proof.
  revert cur. induction a as [|c a IH]; intros cur Ha Hb Hne.
  - cbn [app]. rewrite app_nil_r in *. destruct Hb as [->|[q ->]]; cbn [components]; by destruct cur.
  - apply Forall_cons in Ha as [Hc Ha]. cbn [app components]. destruct (Z.eqb_spec c 47); [done|].
    rewrite IH by (done || by destruct cur). by rewrite <-(assoc_L (++)).
Qed.

(** [path_component] takes the components one by one when none is longer than the buffer. *)
Lemma path_component_spec p outsz :
  (∀ c, c ∈ components [] p → Z.of_nat (length c) ≤ outsz - 1) → 1 < outsz →
  match path_component p outsz with
  | None => components [] p = []
  | Some (comp, rest) => components [] p = comp :: components [] rest ∧ (length rest < length p)%nat
  end.
Proof.
  intros Hn Ho. unfold path_component. rewrite <-(components_skip p) in *.
  assert (length (skip_slash p) ≤ length p)%nat as Hlen.
  { clear. induction p as [|c p IH]; [done|]. cbn [skip_slash]. destruct (c =? 47); cbn; lia. }
  destruct (skip_slash p) as [|c q] eqn:E; [done|]. pose proof (skip_slash_head p c q E) as Hc.
  pose proof (take_comp_spec (Z.to_nat (outsz - 1)) (c :: q) []) as Ht.
  destruct (take_comp (Z.to_nat (outsz - 1)) (c :: q)) as [a b] eqn:Et. destruct Ht as (Eq & Hb & Ha).
  { intros d Hd. cbn [length]. specialize (Hn d Hd). lia. }
  assert (a ≠ []) as Hne.
  { destruct (Z.to_nat (outsz - 1)) as [|n] eqn:En; [lia|]. cbn [take_comp] in Et. destruct (Z.eqb_spec c 47); [done|].
    destruct (take_comp n q). by injection Et as <- <-. }
  rewrite Eq. split; [exact (components_split a b [] Ha Hb Hne)|].
  assert (length (c :: q) = length a + length b)%nat as El by (rewrite Eq; apply length_app).
  destruct a; [done|]. cbn [length] in *. lia.
Qed.

Section paths.
Context {A : Type} `{FrameAllocator A}.
Implicit Types (s : fs A).

(** ** Resolution *)

(** Reference: looking the components up one after the other. *)
Fixpoint resolve s (node : Z) (cs : list (list Z)) : option Z :=
  match cs with
  | [] => Some node
  | c :: cs' =>
      x ← fs_nodes s !! node;
      match vn_ops x with
      | ramfs_file_ops => Some 0
      | ramfs_dir_ops => child ← ramfs_lookup node c s; if child =? 0 then Some 0 else resolve s child cs'
      end
  end.

Lemma walk_path_spec fuel node p s :
  (∀ c, c ∈ components [] p → Z.of_nat (length c) ≤ VFS_NAME_MAX) → (length p < fuel)%nat →
  walk_path fuel node p s = resolve s node (components [] p).
Proof.
  revert node p. induction fuel as [|f IH]; intros node p Hn Hf; [lia|]. cbn [walk_path].
  pose proof (path_component_spec p (VFS_NAME_MAX + 1)) as Hp.
  destruct (path_component p (VFS_NAME_MAX + 1)) as [[comp rest]|].
  - destruct Hp as [Ec Hl]; [intros c Hc; specialize (Hn c Hc); lia|unfold VFS_NAME_MAX; lia|]. rewrite Ec. cbn [resolve].
    destruct (fs_nodes s !! node) as [x|]; [|done]. cbn [mbind option_bind]. destruct (vn_ops x); [done|].
    destruct (ramfs_lookup node comp s) as [child|]; [|done]. cbn [mbind option_bind]. destruct (child =? 0); [done|].
    apply IH; [|lia]. intros c Hc. apply Hn. rewrite Ec. by right.
  - rewrite Hp; [done|intros c Hc; specialize (Hn c Hc); lia|unfold VFS_NAME_MAX; lia].
Qed.

(** ** The mount table *)

(** The state [vfs_init] leaves: one file system, at [/]. *)
Definition mounted s (root : Z) : Prop :=
  mount_count s = 1 ∧ mount_table s 0 = {| mnt_path := [47]; mnt_root := root |} ∧ root ≠ 0.

Lemma find_mount_root s root path :
  mounted s root → str_ok path →
  find_mount (47 :: path) s = Some (if bool_decide (path = []) then (root, []) else (0, [])).
Proof.
  intros (Ec & Et & Hr) Hok. unfold find_mount. rewrite Ec. change (Z.to_nat 1) with 1%nat. cbn [mount_loop].
  rewrite aget_Some by (unfold MOUNT_MAX; lia). cbn [mbind option_bind]. rewrite Et. cbn [mnt_path mnt_root length].
  change (Z.of_nat 1) with 1. rewrite strncmp_prefix; [|lia|].
  - destruct path as [|c q].
    + rewrite bool_decide_true by done. change (u8 (lit [47] 1) - u8 (lit [47] 1) =? 0) with true. change (0 <? 1) with true. cbn [andb mbind option_bind].
      rewrite aget_Some by (unfold MOUNT_MAX; lia). cbn [mbind option_bind]. by rewrite Et.
    + rewrite bool_decide_false by done. apply Forall_cons in Hok as [Hc _].
      change (lit (47 :: c :: q) 1) with c. change (lit [47] 1) with 0. rewrite (u8_small c), (u8_small 0) by lia.
      destruct (Z.eqb_spec (c - 0) 0); [lia|done].
  - intros j Hj. assert (j = 0) as -> by lia. done.
Qed.

Lemma vfs_lookup_root s root path :
  mounted s root → str_ok path → vfs_lookup path s = Some (if bool_decide (path = [47]) then root else 0).
Proof.
  intros Hm Hok. destruct path as [|c q]; [by rewrite bool_decide_false|]. unfold vfs_lookup.
  destruct (Z.eqb_spec c 47) as [->|Hc]; cbn [negb]; [|by rewrite bool_decide_false by congruence].
  apply Forall_cons in Hok as [_ Hok]. rewrite (find_mount_root s root q Hm Hok). cbn [mbind option_bind].
  destruct (decide (q = [])) as [->|Hq].
  - rewrite !bool_decide_true by done. destruct Hm as (_ & _ & Hr). by apply Z.eqb_neq in Hr as ->.
  - by rewrite !bool_decide_false by congruence.
Qed.

Lemma ramfs_create_root_spec s :
  fs_inv s → nodes_live s → 4 < Z.of_nat (size (frames (hp_vm (fs_heap s)))) →
  ∃ root s', ramfs_create_root s = Some (root, s') ∧ fs_inv s' ∧ nodes_live s' ∧ kept s s' ∧ page_cost 1 root (fs_heap s) (fs_heap s')
    ∧ mount_table s' = mount_table s ∧ mount_count s' = mount_count s
    ∧ (root ≠ 0 → dir_rep s' root []).
Proof.
  intros Hi Hnl Hfr. unfold ramfs_create_root.
  destruct (ramfs_alloc_spec s [47] VFS_TYPE_DIR Hi Hnl) as (n & s1 & -> & Hi1 & Hnl1 & Hkp & Hc & _ & Em & Ec & Hres); [right; lia|].
  cbn [mbind option_bind]. destruct Hres as [[-> _]|(Hn & Hnone & x & En & Xn & Xs & Xc & Xf & Xo)].
  - exists 0, s1. by split_and!.
  - apply Z.eqb_neq in Hn as Hn'. rewrite Hn'. assert (fs_nodes s1 !! n = Some x) as Hx by (rewrite En; apply lookup_insert_eq).
    rewrite (mod_node_eq n _ _ x Hx). cbn [mbind option_bind]. eexists n, _. split; [reflexivity|].
    split_and!; [by apply (fs_inv_meta s1 n x)|by apply (nodes_live_meta s1 n x)|by destruct Hkp; split|exact Hc|exact Em|exact Ec|].
    intros _. split; [| |unfold RAMFS_MAX_CHILDREN; cbn; lia|by intros ? ? ?%not_elem_of_nil].
    + eexists. split; [apply lookup_insert_eq|]. split; [exact Xc|done].
    + intros d. cbn [set_nodes fs_nodes]. rewrite lookup_insert_eq. by intros [= <-].
Qed.

Lemma last_slash_name name i k : Forall (λ c, c ≠ 47) name → last_slash_loop name i k = k.
Proof.
  revert i k. induction name as [|c q IH]; intros i k Hn; [done|]. apply Forall_cons in Hn as [Hc Hn]. cbn [last_slash_loop].
  rewrite IH by done. by destruct (Z.eqb_spec c 47).
Qed.

(** Making a directory below the root. *)
Lemma vfs_mkdir_root s root l name mode :
  mounted s root → dir_rep s root l → Forall (λ c, c ≠ 47) name →
  vfs_mkdir (47 :: name) mode s = ramfs_mkdir root name mode s.
Proof.
  intros Hm Hr Hn. unfold vfs_mkdir, last_slash. cbn [last_slash_loop]. rewrite last_slash_name by done. cbn [Z.eqb Pos.eqb].
  change (parent_path (47 :: name) 0) with (Some [47]). cbn [mbind option_bind].
  rewrite (vfs_lookup_root s root [47] Hm) by (repeat constructor; lia). rewrite bool_decide_true by done. cbn [mbind option_bind].
  destruct Hm as (_ & _ & Hnz). apply Z.eqb_neq in Hnz as ->. destruct (dr_node _ _ _ Hr) as (d & Hd & _). rewrite Hd.
  cbn [mbind option_bind]. by rewrite (dr_ops _ _ _ Hr d Hd).
Qed.

(** Room for [n] more pages with the frames their tables may need. *)
Definition room (n : Z) s : Prop :=
  4 * n < Z.of_nat (size (frames (hp_vm (fs_heap s)))) ∧ heap_cursor (fs_heap s) + n * PAGE_SIZE ≤ HEAP_END.

Lemma room_cost n s s' p : 0 < n → room n s → page_cost 1 p (fs_heap s) (fs_heap s') → p ≠ 0 ∧ room (n - 1) s'.
Proof.
  intros Hn [Hf Hc] (H0' & Hs & Hcur). unfold PAGE_SIZE in *. split; [|unfold room, PAGE_SIZE; lia].
  intros ->. destruct (H0' eq_refl) as [E|Hr]; [rewrite E, size_empty in Hf; lia|unfold PAGE_SIZE in Hr; lia].
Qed.

(** At most four frames a page. *)
Definition spent (n : Z) s s' : Prop :=
  Z.of_nat (size (frames (hp_vm (fs_heap s)))) ≤ Z.of_nat (size (frames (hp_vm (fs_heap s')))) + 4 * n.

Lemma mkdir_step s root l name mode n :
  mounted s root → dir_rep s root l → fs_inv s → nodes_live s → 0 < n → room n s → (length l < 60)%nat →
  str_ok name → Forall (λ c, c ≠ 47) name → (length name ≤ 255)%nat →
  ∃ s' c, vfs_mkdir (47 :: name) mode s = Some (0, s') ∧ mounted s' root ∧ dir_rep s' root (l ++ [(name, c)])
    ∧ fs_inv s' ∧ nodes_live s' ∧ room (n - 1) s' ∧ kept s s' ∧ spent 1 s s'.
Proof.
  intros Hm Hr Hi Hnl Hn Hro Hl Hok Hns Hlen. rewrite (vfs_mkdir_root s root l) by done.
  destruct (ramfs_add_spec s VFS_TYPE_DIR root name mode l Hi Hnl) as (r & s' & E & Hi' & Hnl' & Hkp & Em & Ec & Hres);
    [right; destruct Hro; lia|done|done|].
  destruct Hres as [(-> & _ & Hf)|[(-> & _ & Hnr)|(-> & c & Ha & Hc)]].
  - unfold RAMFS_MAX_CHILDREN in Hf. lia.
  - exfalso. destruct Hro as [Hf Hc]. unfold PAGE_SIZE in *.
    destruct Hnr as [E0|?]; [rewrite E0, size_empty in Hf; lia|unfold PAGE_SIZE in *; lia].
  - destruct (room_cost n s s' c Hn Hro Hc) as [_ Hro']. exists s', c. split_and!; [exact E| | |done|done|done|done|apply Hc].
    + destruct Hm as (? & ? & ?). unfold mounted. by rewrite Em, Ec.
    + pose proof (ad_rep _ _ _ _ _ _ _ Ha) as Hd. by rewrite take_ge in Hd by done.
Qed.

(** The file system before [vfs_init]. *)
Record fs_fresh s : Prop := {
  ff_heap : heap_inv (fs_heap s);
  ff_nodes : fs_nodes s = ∅;
}.

Ltac room_eq := match goal with H : room ?a ?s |- room ?b ?s => replace b with a by lia end.

Lemma vfs_init_spec s k :
  fs_fresh s → 0 ≤ k → room (4 + k) s →
  ∃ s' root c1 c2 c3, vfs_init s = Some s' ∧ mounted s' root ∧ fs_inv s' ∧ nodes_live s' ∧ room k s' ∧ kept s s' ∧ spent 4 s s'
    ∧ dir_rep s' root [([100; 101; 118], c1); ([112; 114; 111; 99], c2); ([116; 109; 112], c3)].
Proof.
  intros [Hh Hn] Hk Hro. unfold vfs_init. cbv zeta.
  match goal with |- context [ramfs_create_root ?x] => set (s0 := x) end.
  assert (fs_inv s0) as Hi0 by (split; [exact Hh|cbn [s0 set_mounts fs_nodes]; rewrite Hn; done|cbn [s0 set_mounts fs_nodes]; rewrite Hn; done]).
  assert (nodes_live s0) as Hl0 by (intros n x; cbn [s0 set_mounts fs_nodes]; by rewrite Hn).
  assert (room (4 + k) s0) as Hro0 by exact Hro.
  destruct (ramfs_create_root_spec s0 Hi0 Hl0) as (root & s1 & -> & Hi1 & Hl1 & Hk1 & Hc1 & Em & Ec & Hroot); [destruct Hro0; lia|].
  destruct (room_cost (4 + k) s0 s1 root ltac:(lia) Hro0 Hc1) as [Hnz Hro1]. specialize (Hroot Hnz). cbn [mbind option_bind].
  unfold vfs_mount at 1. rewrite Ec. change (mount_count s0) with 0. cbn [Z.leb MOUNT_MAX Z.compare].
  rewrite aset_Some by (unfold MOUNT_MAX; lia). cbn [mbind option_bind]. change (str_copy (VFS_PATH_MAX - 1) [47]) with [47].
  match goal with |- context [vfs_mkdir _ _ ?x] => set (s2 := x) end.
  assert (mounted s2 root) as Hm2 by (split_and!; done).
  assert (dir_rep s2 root []) as Hr2 by (destruct Hroot; split; done).
  assert (fs_inv s2) as Hi2 by (destruct Hi1; split; done).
  assert (room (3 + k) s2) as Hro2 by (change (room (3 + k) s1); by room_eq).
  destruct (mkdir_step s2 root [] [100; 101; 118] 493 (3 + k) Hm2 Hr2 Hi2 Hl1) as (s3 & c1 & -> & Hm3 & Hr3 & Hi3 & Hl3 & Hro3 & Hk3 & Hs3);
    [lia|by room_eq|cbn; lia|repeat constructor; lia|repeat constructor; lia|cbn; lia|].
  cbn [mbind option_bind].
  destruct (mkdir_step s3 root _ [112; 114; 111; 99] 365 (2 + k) Hm3 Hr3 Hi3 Hl3) as (s4 & c2 & -> & Hm4 & Hr4 & Hi4 & Hl4 & Hro4 & Hk4 & Hs4);
    [lia|by room_eq|cbn; lia|repeat constructor; lia|repeat constructor; lia|cbn; lia|].
  cbn [mbind option_bind].
  destruct (mkdir_step s4 root _ [116; 109; 112] 511 (1 + k) Hm4 Hr4 Hi4 Hl4) as (s5 & c3 & -> & Hm5 & Hr5 & Hi5 & Hl5 & Hro5 & Hk5 & Hs5);
    [lia|by room_eq|cbn; lia|repeat constructor; lia|repeat constructor; lia|cbn; lia|].
  exists s5, root, c1, c2, c3. split_and!; [done..|by room_eq| | |done].
  - assert (kept s s2) as Hk2 by (destruct Hk1; split; done). by eauto using kept_trans.
  - destruct Hc1 as (_ & Hs1 & _). unfold spent in *. change (fs_heap s2) with (fs_heap s1) in Hs3. change (fs_heap s0) with (fs_heap s) in Hs1. lia.
Qed.
End paths.
