(* ===== verification/VfsFd.v ===== *)
(** Descriptors of kernel/fs/vfs.c and reads and writes through them. *)
From stdpp Require Import prelude gmap.
From S2P Require Import Prelude CString FrameAlloc Bitmap Vmm VmmWf VmmSpec VmmRange Heap HeapMap HeapSlab HeapList HeapInv HeapOps HeapApi HeapRefine Sched SchedCreate Vfs RamfsFile VfsDir VfsPath.

Lemma free_slot_spec n i t :
  match free_slot n i t with
  | Some j => i ≤ j < i + Z.of_nat n ∧ t j = 0 ∧ ∀ k, i ≤ k < j → t k ≠ 0
  | None => ∀ k, i ≤ k < i + Z.of_nat n → t k ≠ 0
  end.
Proof.
  revert i. induction n as [|n IH]; intros i; cbn [free_slot]; [intros; lia|].
  destruct (Z.eqb_spec (t i) 0) as [E|E]; [split_and!; [lia|lia|done|intros; lia]|]. specialize (IH (i + 1)).
  destruct (free_slot n (i + 1) t) as [j|].
  - destruct IH as (? & ? & Hk). split_and!; [lia|lia|done|]. intros k Hki. destruct (decide (k = i)) as [->|]; [done|]. apply Hk. lia.
  - intros k Hki. destruct (decide (k = i)) as [->|]; [done|]. apply IH. lia.
Qed.

(** What a write and a read of the same range have in common. *)
Lemma read_write c off bs :
  0 ≤ off → read_bytes (write_bytes c off bs) off (Z.of_nat (length bs)) = bs.
Proof.
  intros Ho. unfold read_bytes, write_bytes. apply list_eq. intros i.
  destruct (decide (i < length bs)%nat) as [Hi|Hi].
  - rewrite lookup_take_lt by lia. rewrite lookup_drop, list_lookup_fmap, lookup_seqZ_lt by lia. cbn. rewrite Z.add_0_l.
    destruct (Z.leb_spec off (Z.of_nat (Z.to_nat off + i))); [|lia].
    destruct (Z.ltb_spec (Z.of_nat (Z.to_nat off + i)) (off + Z.of_nat (length bs))); [|lia]. cbn [andb].
    replace (Z.to_nat (Z.of_nat (Z.to_nat off + i) - off)) with i by lia.
    destruct (lookup_lt_is_Some_2 bs i Hi) as [v Hv]. rewrite Hv. f_equal. by apply nth_lookup_Some.
  - rewrite lookup_take_ge by lia. symmetry. apply lookup_ge_None_2. lia.
Qed.

Section fds.
Context {A : Type} `{FrameAllocator A}.
Implicit Types (s : fs A).

(** ** The descriptor table of the running task *)

Lemma fd_get_task s t fd :
  current_task (fs_sched s) ≠ 0 → sc_tasks (fs_sched s) !! current_task (fs_sched s) = Some t →
  fd_get fd s = Some (if (0 <=? fd) && (fd <? MAX_FDS) then t_fds t fd else 0).
Proof.
  intros Hc Ht. unfold fd_get. apply Z.eqb_neq in Hc as ->. cbn [orb]. unfold get_task. rewrite Ht. cbn [mbind option_bind].
  destruct (Z.ltb_spec fd 0), (Z.leb_spec 0 fd), (Z.leb_spec MAX_FDS fd), (Z.ltb_spec fd MAX_FDS); try lia; done.
Qed.

(** Setting one entry of the running task's table. *)
Definition fd_set (fd v : Z) (t : task) s : fs A :=
  set_sched (with_tasks (<[current_task (fs_sched s) := set_fds (upd (t_fds t) fd v) t]> (sc_tasks (fs_sched s))) (fs_sched s)) s.

Lemma fd_get_set s t fd v j :
  current_task (fs_sched s) ≠ 0 → sc_tasks (fs_sched s) !! current_task (fs_sched s) = Some t → 0 ≤ fd < MAX_FDS →
  fd_get j (fd_set fd v t s) = if j =? fd then Some v else fd_get j s.
Proof.
  intros Hc Ht Hfd. rewrite (fd_get_task (fd_set fd v t s) (set_fds (upd (t_fds t) fd v) t) j); [|exact Hc|apply lookup_insert_eq].
  rewrite (fd_get_task s t j Hc Ht). cbn [set_fds t_fds]. unfold upd. destruct (Z.eqb_spec j fd) as [->|].
  - destruct (Z.leb_spec 0 fd), (Z.ltb_spec fd MAX_FDS); try lia. done.
  - done.
Qed.

Lemma fd_alloc_eq s t f :
  current_task (fs_sched s) ≠ 0 → sc_tasks (fs_sched s) !! current_task (fs_sched s) = Some t →
  fd_alloc f s = Some (match free_slot (Z.to_nat MAX_FDS) 0 (t_fds t) with
                       | None => (-1, s) | Some i => (i, fd_set i f t s) end).
Proof.
  intros Hc Ht. unfold fd_alloc. apply Z.eqb_neq in Hc as ->. unfold mod_task, get_task. rewrite Ht. cbn [mbind option_bind].
  by destruct (free_slot _ _ _).
Qed.

Lemma fd_free_eq s t fd :
  current_task (fs_sched s) ≠ 0 → sc_tasks (fs_sched s) !! current_task (fs_sched s) = Some t → 0 ≤ fd < MAX_FDS →
  fd_free fd s = Some (fd_set fd 0 t s).
Proof.
  intros Hc Ht Hfd. unfold fd_free. apply Z.eqb_neq in Hc as ->. destruct (Z.ltb_spec fd 0), (Z.leb_spec MAX_FDS fd); try lia.
  cbn [orb]. unfold mod_task, get_task. by rewrite Ht.
Qed.

(** ** Reads and writes *)

Record open_file s (fd f : Z) (file : file_t) (x : ramfs_node) : Prop := {
  of_fd : fd_get fd s = Some f;
  of_file : fs_files s !! f = Some file;
  of_nonzero : f ≠ 0 ∧ f_node file ≠ 0;
  of_node : fs_nodes s !! f_node file = Some x;
  of_ops : vn_ops x = ramfs_file_ops;
}.

Definition at_offset (off : Z) (file : file_t) : file_t :=
  {| f_node := f_node file; f_offset := off; f_flags := f_flags file; f_refcount := f_refcount file |}.

(** Tasks and open files, as they were. *)
Definition same_files s s' : Prop :=
  sc_tasks (fs_sched s') = sc_tasks (fs_sched s) ∧ current_task (fs_sched s') = current_task (fs_sched s)
  ∧ fs_files s' = fs_files s.

Lemma same_files_fd s s' fd : same_files s s' → fd_get fd s' = fd_get fd s.
Proof. intros (E1 & E2 & _). unfold fd_get, get_task. by rewrite E1, E2. Qed.

Lemma ramfs_write_frame n buf len off s r s' : ramfs_write n buf len off s = Some (r, s') → same_files s s'.
Proof.
  unfold ramfs_write, ramfs_grow, mod_node. cbv zeta. destruct (fs_nodes s !! n) as [x|] eqn:Hx; [|done]. cbn [mbind option_bind].
  destruct (_ <? _).
  - destruct (krealloc _ _ _) as [[p h1]|]; [|done]. cbn [mbind option_bind]. destruct (p =? 0); cbn [mbind option_bind negb].
    { by intros [= <- <-]. }
    cbn [set_fheap set_sched fs_nodes]. rewrite Hx. cbn [mbind option_bind negb set_nodes fs_nodes]. rewrite lookup_insert_eq.
    cbn [mbind option_bind set_fheap set_sched fs_nodes set_nodes].
    by intros [= <- <-].
  - cbn [mbind option_bind negb]. rewrite Hx. cbn [mbind option_bind set_fheap set_sched fs_nodes]. rewrite Hx. by intros [= <- <-].
Qed.

Lemma ramfs_read_frame n buf len off s r s' : ramfs_read n buf len off s = Some (r, s') → same_files s s'.
Proof.
  unfold ramfs_read. cbv zeta. destruct (fs_nodes s !! n) as [x|]; [|done]. cbn [mbind option_bind].
  destruct (_ <=? _); by intros [= <- <-].
Qed.

(** The operation on the file, then the offset. *)
Lemma vfs_rw_eq op fd f file x buf len s n s1 :
  open_file s fd f file x → op (f_node file) buf len (f_offset file) s = Some (n, s1) → same_files s s1 →
  vfs_rw op fd buf len s
  = Some (n, if 0 <? n then set_files (<[f := at_offset (u64 (f_offset file + n)) file]> (fs_files s1)) s1 else s1).
Proof.
  intros Ho Hop Hs. unfold vfs_rw. rewrite (of_fd _ _ _ _ _ Ho). cbn [mbind option_bind]. destruct (of_nonzero _ _ _ _ _ Ho) as [Hf Hn].
  apply Z.eqb_neq in Hf as ->. rewrite (of_file _ _ _ _ _ Ho). cbn [mbind option_bind]. apply Z.eqb_neq in Hn as ->.
  rewrite (of_node _ _ _ _ _ Ho). cbn [mbind option_bind]. rewrite (of_ops _ _ _ _ _ Ho), Hop. cbn [mbind option_bind].
  destruct (0 <? n); [|done]. unfold set_offset. destruct Hs as (_ & _ & ->). by rewrite (of_file _ _ _ _ _ Ho).
Qed.

Lemma open_file_step s s1 fd f file x x' v :
  open_file s fd f file x → same_files s s1 → fs_nodes s1 !! f_node file = Some x' → vn_ops x' = vn_ops x →
  open_file (set_files (<[f := at_offset v file]> (fs_files s1)) s1) fd f (at_offset v file) x'.
Proof.
  intros Ho Hs Hx Hops. split; [| |apply Ho|exact Hx|rewrite Hops; apply Ho].
  - change (fd_get fd s1 = Some f). rewrite (same_files_fd _ _ _ Hs). apply Ho.
  - apply lookup_insert_eq.
Qed.

Lemma fs_inv_files s m : fs_inv s → fs_inv (set_files m s).
Proof. intros [I1 I2 I3]. split; [exact I1|exact I2|exact I3]. Qed.

Lemma at_offset_same file : at_offset (f_offset file) file = file.
Proof. by destruct file. Qed.

Lemma vfs_write_spec s fd f file x buf len :
  fs_inv s → open_file s fd f file x → buf_ok (fs_heap s) x buf len → 0 ≤ f_offset file → 0 < len →
  f_offset file + len < 2 ^ 37 → (rn_data_cap x < f_offset file + len → frames_for_file (f_offset file + len) s) →
  ∃ r s' x', vfs_write fd buf len s = Some (r, s') ∧ fs_inv s' ∧ others_same (f_node file) s s'
    ∧ ((r = -12 ∧ open_file s' fd f file x' ∧ content (fs_heap s') x' = content (fs_heap s) x)
       ∨ (r = len ∧ open_file s' fd f (at_offset (f_offset file + len) file) x'
          ∧ content (fs_heap s') x'
            = write_bytes (content (fs_heap s) x) (f_offset file) (bytes_at (hp_mem (fs_heap s)) buf len))).
Proof.
  intros Hi Ho Hb Hoff Hl He Hfr.
  destruct (ramfs_write_spec s (f_node file) x buf len (f_offset file) Hi (of_node _ _ _ _ _ Ho) Hb Hoff ltac:(lia) He Hfr)
    as (r & s1 & x' & E & Hi1 & Hoth & Hx' & _ & Hops & Hres).
  pose proof (ramfs_write_frame _ _ _ _ _ _ _ E) as Hs. unfold vfs_write. rewrite (vfs_rw_eq _ _ _ _ _ _ _ _ _ _ Ho E Hs).
  destruct Hres as [[-> Hc]|[-> Hc]].
  - exists (-12), s1, x'. split_and!; [done|done|done|left]. split_and!; [done| |done].
    split; [|destruct Hs as (_ & _ & ->); apply Ho|apply Ho|done|rewrite Hops; apply Ho].
    rewrite (same_files_fd _ _ _ Hs). apply Ho.
  - destruct (Z.ltb_spec 0 len); [|lia]. rewrite u64_small by lia. eexists len, _, x'. split; [reflexivity|].
    split_and!; [by apply fs_inv_files|exact Hoth|right]. split_and!; [done|by apply (open_file_step s s1 fd f file x)|exact Hc].
Qed.

Lemma vfs_read_spec s fd f file x buf len :
  fs_inv s → open_file s fd f file x → 0 ≤ f_offset file → 0 ≤ len → f_offset file + len < 2 ^ 63 →
  (rn_data x ≠ 0 → buf + len ≤ rn_data x ∨ rn_data x + rn_data_cap x ≤ buf) →
  let bs := read_bytes (content (fs_heap s) x) (f_offset file) len in
  ∃ s', vfs_read fd buf len s = Some (Z.of_nat (length bs), s')
    ∧ bytes_at (hp_mem (fs_heap s')) buf (Z.of_nat (length bs)) = bs
    ∧ (∀ a, ¬ buf ≤ a < buf + Z.of_nat (length bs) → hp_mem (fs_heap s') a = hp_mem (fs_heap s) a)
    ∧ open_file s' fd f (at_offset (f_offset file + Z.of_nat (length bs)) file) x.
Proof.
  intros Hi Ho Hoff Hl He Hb bs.
  destruct (ramfs_read_spec s (f_node file) x buf len (f_offset file) Hi (of_node _ _ _ _ _ Ho) Hoff Hl He Hb)
    as (s1 & E & Hbs & Hout & En). fold bs in E, Hbs, Hout.
  pose proof (ramfs_read_frame _ _ _ _ _ _ _ E) as Hs. unfold vfs_read. rewrite (vfs_rw_eq _ _ _ _ _ _ _ _ _ _ Ho E Hs).
  assert (Z.of_nat (length bs) ≤ len) as Hle by (unfold bs, read_bytes; rewrite length_take; lia).
  rewrite u64_small by lia. eexists. split; [reflexivity|].
  assert (fs_nodes s1 !! f_node file = Some x) as Hx by (rewrite En; apply Ho).
  destruct (Z.ltb_spec 0 (Z.of_nat (length bs))).
  - split_and!; [exact Hbs|exact Hout|]. by apply (open_file_step s s1 fd f file x).
  - replace (Z.of_nat (length bs)) with 0 in * by lia. rewrite (Z.add_0_r (f_offset file)), at_offset_same.
    split_and!; [exact Hbs|exact Hout|].
    split; [|destruct Hs as (_ & _ & ->); apply Ho|apply Ho|done|apply Ho]. rewrite (same_files_fd _ _ _ Hs). apply Ho.
Qed.

Lemma vfs_lseek_set s fd f file x off :
  open_file s fd f file x → 0 ≤ off →
  vfs_lseek fd off SEEK_SET s = Some (off, set_files (<[f := at_offset off file]> (fs_files s)) s).
Proof.
  intros Ho Hoff. unfold vfs_lseek. rewrite (of_fd _ _ _ _ _ Ho). cbn [mbind option_bind]. destruct (of_nonzero _ _ _ _ _ Ho) as [Hf _].
  apply Z.eqb_neq in Hf as ->. rewrite (of_file _ _ _ _ _ Ho). cbn [mbind option_bind]. rewrite Z.eqb_refl. cbn [mbind option_bind].
  destruct (Z.ltb_spec off 0); [lia|]. unfold set_offset. rewrite (of_file _ _ _ _ _ Ho). done.
Qed.
End fds.
