(* ===== verification/VfsProps.v ===== *)
(** The properties of kernel/fs/vfs.c and kernel/fs/ramfs.c. *)
From stdpp Require Import prelude gmap.
From S2P Require Import Prelude CString FrameAlloc Bitmap Pmm Vmm VmmWf VmmSpec VmmRange VmmProps Heap HeapMap HeapSlab HeapList HeapInv HeapOps HeapApi HeapRefine HeapProps Sched SchedCreate SchedProps Vfs RamfsFile VfsDir VfsPath VfsFd.

(** ** Directories as entry lists *)

Inductive dir_op := DirCreate (name : list Z) (mode : Z) | DirMkdir (name : list Z) (mode : Z)
  | DirLookup (name : list Z) | DirUnlink (name : list Z).

Definition op_name (o : dir_op) : list Z :=
  match o with DirCreate n _ | DirMkdir n _ | DirLookup n | DirUnlink n => n end.

Section exec.
Context {A : Type} `{FrameOps A}.

Definition dir_exec (dir : Z) (o : dir_op) (s : fs A) : option (Z * fs A) :=
  match o with
  | DirCreate name mode => ramfs_create dir name mode s
  | DirMkdir name mode => ramfs_mkdir dir name mode s
  | DirLookup name => c ← ramfs_lookup dir name s; Some (c, s)
  | DirUnlink name => ramfs_unlink dir name s
  end.
End exec.

(** What the operation may answer on a list of entries, and the entries after:
    a new entry goes to the end, and only the first of a name is removed. *)
Definition dir_spec (o : dir_op) (l : entries) (r : Z) (l' : entries) : Prop :=
  match o with
  | DirCreate name _ | DirMkdir name _ =>
      (r = 0 ∧ ∃ c, l' = l ++ [(take 255 name, c)])
      ∨ (l' = l ∧ (r = -12 ∨ (r = -28 ∧ Z.of_nat (length l) = RAMFS_MAX_CHILDREN)))
  | DirLookup name => r = find_entry name l ∧ l' = l
  | DirUnlink name =>
      match list_find (entry_named name) l with
      | None => r = -2 ∧ l' = l
      | Some (i, _) => r = 0 ∧ l' = delete i l
      end
  end.

Section properties.
Context {A : Type} `{FrameAllocator A}.
Implicit Types (s : fs A).

Lemma added_refines s dir name mode l type :
  fs_inv s → nodes_live s → frames_for 1 (fs_heap s) → dir_rep s dir l → str_ok name →
  ∃ r s' l', ramfs_add type dir name mode s = Some (r, s') ∧ dir_rep s' dir l'
    ∧ ((r = 0 ∧ ∃ c, l' = l ++ [(take 255 name, c)])
       ∨ (l' = l ∧ (r = -12 ∨ (r = -28 ∧ Z.of_nat (length l) = RAMFS_MAX_CHILDREN)))).
Proof.
  intros Hi Hnl Hfr Hr Hok.
  destruct (ramfs_add_spec s type dir name mode l Hi Hnl Hfr Hr Hok) as (r & s' & E & _ & _ & _ & _ & _ & Hres).
  exists r, s'. destruct Hres as [(-> & -> & Hf)|[(-> & Hd & _)|(-> & c & Ha & _)]].
  - exists l. split_and!; [done|done|right]. by split; [|right].
  - exists l. split_and!; [done|done|right]. by split; [|left].
  - exists (l ++ [(take 255 name, c)]). split_and!; [done|apply Ha|left]. split; [done|by exists c].
Qed.

(** C9: A ramfs directory is a list of named entries.  Creating a file or a
    directory appends an entry under the name cut to 255 bytes or reports that
    the directory is full or memory is out; lookup finds the first entry of the
    name and 0 without one; unlink removes exactly the first entry of the name
    and answers -2 without one.  No operation faults. *)
Theorem ramfs_dir_refines_entries s dir l o :
  fs_inv s → nodes_live s → frames_for 1 (fs_heap s) → dir_rep s dir l → str_ok (op_name o) →
  ∃ r s' l', dir_exec dir o s = Some (r, s') ∧ dir_rep s' dir l' ∧ dir_spec o l r l'.
Proof.
  intros Hi Hnl Hfr Hr Hok. destruct o as [name mode|name mode|name|name]; cbn [op_name dir_exec dir_spec] in *.
  - by apply added_refines.
  - by apply added_refines.
  - rewrite (ramfs_lookup_spec s dir l name Hr Hok). by exists (find_entry name l), s, l.
  - pose proof (ramfs_unlink_spec s dir l name Hr Hok) as Hu.
    destruct (list_find (entry_named name) l) as [[i e]|].
    + destruct Hu as (s' & E & Hd & _). by exists 0, s', (delete i l).
    + by exists (-2), s, l.
Qed.

(** [vfs_init] mounts a root directory at [/] with the entries dev, proc
    and tmp, in a file system whose files have buffers of their own, given
    memory for four nodes. *)
Theorem vfs_init_correct s :
  fs_fresh s → room 4 s →
  ∃ s' root c1 c2 c3, vfs_init s = Some s' ∧ mounted s' root ∧ fs_inv s'
    ∧ dir_rep s' root [([100; 101; 118], c1); ([112; 114; 111; 99], c2); ([116; 109; 112], c3)]
    ∧ vfs_lookup [47] s' = Some root.
Proof.
  intros Hf Hro. destruct (vfs_init_spec s 0 Hf ltac:(lia) Hro) as (s' & root & c1 & c2 & c3 & E & Hm & Hi & _ & _ & _ & _ & Hr).
  exists s', root, c1, c2, c3. split_and!; [exact E|exact Hm|exact Hi|exact Hr|].
  rewrite (vfs_lookup_root s' root [47] Hm) by (repeat constructor; lia). by rewrite bool_decide_true.
Qed.

(** C10: Writing through a descriptor.  The file's contents become the old ones
    with the caller's bytes at the file's offset, a gap filled with zeros, and
    the offset advances; or the write answers -12 and the file is as it was.
    No other file changes. *)
Theorem vfs_write_correct s fd f file x buf len :
  fs_inv s → open_file s fd f file x → buf_ok (fs_heap s) x buf len → 0 ≤ f_offset file → 0 < len →
  f_offset file + len < 2 ^ 37 → (rn_data_cap x < f_offset file + len → frames_for_file (f_offset file + len) s) →
  ∃ r s' x', vfs_write fd buf len s = Some (r, s') ∧ fs_inv s' ∧ others_same (f_node file) s s'
    ∧ ((r = -12 ∧ open_file s' fd f file x' ∧ content (fs_heap s') x' = content (fs_heap s) x)
       ∨ (r = len ∧ open_file s' fd f (at_offset (f_offset file + len) file) x'
          ∧ content (fs_heap s') x'
            = write_bytes (content (fs_heap s) x) (f_offset file) (bytes_at (hp_mem (fs_heap s)) buf len))).
Proof. intros. by apply vfs_write_spec. Qed.

(** Round trip.  After a write that did not run out of memory, seeking back
    to where it started and reading as many bytes into a buffer below the heap
    gives the bytes that were written. *)
Theorem vfs_write_read_roundtrip s fd f file x buf len buf2 :
  fs_inv s → open_file s fd f file x → buf_ok (fs_heap s) x buf len → 0 ≤ f_offset file → 0 < len →
  f_offset file + len < 2 ^ 37 → (rn_data_cap x < f_offset file + len → frames_for_file (f_offset file + len) s) →
  buf2 + len ≤ HEAP_VIRT_BASE →
  ∃ r s1, vfs_write fd buf len s = Some (r, s1)
    ∧ (r = -12
       ∨ ∃ s2 s3, vfs_lseek fd (f_offset file) SEEK_SET s1 = Some (f_offset file, s2)
           ∧ vfs_read fd buf2 len s2 = Some (len, s3)
           ∧ bytes_at (hp_mem (fs_heap s3)) buf2 len = bytes_at (hp_mem (fs_heap s)) buf len).
Proof.
  intros Hi Ho Hb Hoff Hl He Hfr Hb2.
  destruct (vfs_write_spec s fd f file x buf len Hi Ho Hb Hoff Hl He Hfr) as (r & s1 & x1 & E & Hi1 & _ & Hres).
  exists r, s1. split; [done|]. destruct Hres as [[-> _]|(-> & Ho1 & Hc1)]; [by left|right].
  pose proof (vfs_lseek_set s1 fd f _ x1 (f_offset file) Ho1 Hoff) as Es.
  match type of Es with _ = Some (_, ?z) => set (s2 := z) in Es end. fold s2 in Es.
  assert (open_file s2 fd f (at_offset (f_offset file) file) x1) as Ho2.
  { apply (open_file_step s1 s1 fd f (at_offset (f_offset file + len) file) x1); [done|done|apply Ho1|done]. }
  pose proof (fs_inv_files s1 (fs_files s2) Hi1) as Hi2. change (fs_inv s2) in Hi2.
  destruct (vfs_read_spec s2 fd f _ x1 buf2 len Hi2 Ho2 Hoff ltac:(lia)) as (s3 & Er & Hbs & _).
  - cbn [at_offset f_offset]. lia.
  - intros Hd. left. destruct (fo_data _ _ (fi_files _ Hi2 _ _ (of_node _ _ _ _ _ Ho2))) as [[? _]|(_ & k & Hk & _)]; [done|].
    destruct (live_range _ _ _ (fi_heap _ Hi2) Hk) as (? & _ & _). lia.
  - change (fs_heap s2) with (fs_heap s1) in Er, Hbs. rewrite Hc1 in Er, Hbs. cbn [at_offset f_offset] in Er, Hbs.
    pose proof (length_bytes_at (hp_mem (fs_heap s)) buf len ltac:(lia)) as El.
    pose proof (read_write (content (fs_heap s) x) (f_offset file) (bytes_at (hp_mem (fs_heap s)) buf len) Hoff) as Erw.
    rewrite El in Erw. rewrite Erw, El in Er, Hbs.
    by exists s2, s3.
Qed.

(** Descriptors.  [fd_alloc] takes the lowest free slot of the running
    task's table, or answers -1 when all 64 are taken; [fd_get] then finds the
    file there and every other descriptor as it was; and [fd_free] of the new
    descriptor gives the old table back. *)
Theorem fd_alloc_free_roundtrip s t f :
  current_task (fs_sched s) ≠ 0 → sc_tasks (fs_sched s) !! current_task (fs_sched s) = Some t →
  ∃ fd s', fd_alloc f s = Some (fd, s')
    ∧ ((fd = -1 ∧ s' = s ∧ ∀ j, 0 ≤ j < MAX_FDS → t_fds t j ≠ 0)
       ∨ (0 ≤ fd < MAX_FDS ∧ t_fds t fd = 0 ∧ (∀ j, 0 ≤ j < fd → t_fds t j ≠ 0)
          ∧ fd_get fd s' = Some f ∧ (∀ j, j ≠ fd → fd_get j s' = fd_get j s)
          ∧ ∃ s'', fd_free fd s' = Some s'' ∧ ∀ j, fd_get j s'' = fd_get j s)).
Proof.
  intros Hc Ht. rewrite (fd_alloc_eq s t f Hc Ht). pose proof (free_slot_spec (Z.to_nat MAX_FDS) 0 (t_fds t)) as Hs.
  destruct (free_slot _ _ _) as [i|]; last first.
  { exists (-1), s. split; [done|left]. split_and!; [done|done|]. intros j Hj. apply Hs. unfold MAX_FDS in *. lia. }
  destruct Hs as (Hi & Hz & Hlow). assert (0 ≤ i < MAX_FDS) as Hi' by (unfold MAX_FDS in *; lia).
  exists i, (fd_set i f t s). split; [done|right]. split_and!; [lia|lia|done|done| | |].
  - rewrite (fd_get_set s t) by done. by rewrite Z.eqb_refl.
  - intros j Hj. rewrite (fd_get_set s t) by done. by apply Z.eqb_neq in Hj as ->.
  - set (s1 := fd_set i f t s).
    assert (sc_tasks (fs_sched s1) !! current_task (fs_sched s1) = Some (set_fds (upd (t_fds t) i f) t)) as Ht1
      by apply lookup_insert_eq.
    rewrite (fd_free_eq s1 _ i Hc Ht1 Hi'). eexists. split; [reflexivity|]. intros j.
    rewrite (fd_get_set s1 _ i 0 j Hc Ht1 Hi'). unfold s1. rewrite (fd_get_set s t i f j Hc Ht Hi').
    destruct (Z.eqb_spec j i) as [->|]; [|done]. rewrite (fd_get_task s t i Hc Ht), Hz. by destruct (_ && _).
Qed.

(** C38: Only [/] itself can be found.  With the root file system mounted, a
    path other than [/] is never found, since [find_mount] compares one byte too
    many with [strncmp]; so [vfs_open] of it answers ENOENT, EACCES or EINVAL,
    also with [O_CREAT], and never a descriptor. *)
Theorem vfs_only_root_found s root l path flags mode :
  mounted s root → dir_rep s root l → fs_inv s → nodes_live s → frames_for 1 (fs_heap s) →
  str_ok path → path ≠ [47] → Z.of_nat (length path) < VFS_PATH_MAX →
  vfs_lookup path s = Some 0 ∧ ∃ r s', vfs_open path flags mode s = Some (r, s') ∧ (r = -2 ∨ r = -13 ∨ r = -22).
Proof.
  intros Hm Hr Hi Hnl Hfr Hok Hne Hlen. pose proof (vfs_lookup_root s root path Hm Hok) as El.
  rewrite bool_decide_false in El by done. split; [done|].
  assert (∃ r n s', open_node path flags mode s = Some (r, n, s') ∧ (r = -2 ∨ r = -13 ∨ r = -22)) as (r & n & s' & Eo & Hc).
  { unfold open_node. rewrite El. cbn [mbind option_bind Z.eqb negb].
    destruct (Z.land flags O_CREAT =? 0); [eauto 6|]. destruct (last_slash path) as [k|] eqn:Ek; [|eauto 8].
    assert (∀ p i j, last_slash_loop p i j = Some k → j = Some k ∨ k < i + Z.of_nat (length p)) as Hbound.
    { clear. induction p as [|c p IH]; intros i j; cbn [last_slash_loop length]; [by left|]. intros [E|E]%IH; [|right; lia].
      destruct (c =? 47); [injection E as <-; right; lia|by left]. }
    destruct (Hbound path 0 None Ek) as [?|Hk]; [done|]. unfold parent_path. destruct (Z.leb_spec VFS_PATH_MAX k); [lia|].
    cbn [mbind option_bind]. set (dir := if k =? 0 then [47] else take (Z.to_nat k) path).
    assert (str_ok dir) as Hdok by (unfold dir; destruct (k =? 0); [repeat constructor; lia|by apply Forall_take]).
    rewrite (vfs_lookup_root s root dir Hm Hdok). cbn [mbind option_bind].
    destruct (bool_decide (dir = [47])); [|eauto 6]. destruct Hm as (M1 & M2 & M3) eqn:EM. clear EM.
    apply Z.eqb_neq in M3 as M3'. rewrite M3'. destruct (dr_node _ _ _ Hr) as (d & Hd & _). rewrite Hd. cbn [mbind option_bind].
    rewrite (dr_ops _ _ _ Hr d Hd). unfold ramfs_create.
    destruct (ramfs_add_spec s VFS_TYPE_FILE root (drop (Z.to_nat (k + 1)) path) mode l Hi Hnl Hfr Hr) as
      (r & s' & -> & _ & _ & _ & Em & Ec & _); [by apply Forall_drop|].
    cbn [mbind option_bind]. destruct (negb (r =? 0)); [eauto 8|].
    rewrite (vfs_lookup_root s' root path); [|unfold mounted; by rewrite Em, Ec|done]. rewrite bool_decide_false by done.
    cbn [mbind option_bind Z.eqb]. eauto 6. }
  exists r, s'. unfold vfs_open. rewrite Eo. cbn [mbind option_bind]. split; [|done].
  destruct (Z.eqb_spec r 0); [lia|done].
Qed.
End properties.

(** ** Samples *)

(** A file system over a sample heap: task 5 runs, descriptor 0 is the file 9. *)
Definition sample_fs (nodes : gmap Z ramfs_node) (p : pmm) : fs pmm :=
  {| fs_sched := with_tasks {[5 := set_fds (upd (λ _, 0) 0 9) (new_task 0 0 255 1 TASK_RUNNING (lit []))]}
       (single 5 (sample_heap p));
     fs_nodes := nodes; fs_files := {[9 := {| f_node := 7; f_offset := 0; f_flags := 0; f_refcount := 1 |}]};
     next_ino := 1; mount_table := λ _, {| mnt_path := []; mnt_root := 0 |}; mount_count := 0;
     global_fd_table := λ _, 0 |}.

Definition empty_node (ops : vfs_ops) : ramfs_node :=
  {| vn_name := [102]; vn_flags := 0; vn_mode := 0; vn_inode := 1; vn_size := 0; vn_refcount := 1; vn_ops := ops;
     vn_parent := 0; rn_data := 0; rn_data_cap := 0; rn_children := λ _, 0; rn_nchildren := 0; rn_ino := 1 |}.

Lemma sample_file :
  ∃ p, let s := sample_fs {[7 := empty_node ramfs_file_ops]} p in
       fs_inv s ∧ open_file s 0 9 {| f_node := 7; f_offset := 0; f_flags := 0; f_refcount := 1 |} (empty_node ramfs_file_ops)
       ∧ frames_for_file (0 + 100) s.
Proof.
  destruct sample_before_init as (p & _ & Hi & Hsz). exists p. split_and!.
  - split; [exact Hi| |].
    + cbn [sample_fs fs_nodes]. intros n x [<- <-]%lookup_singleton_Some. split; [cbn; lia|by left|cbn; lia].
    + cbn [sample_fs fs_nodes]. by intros n m x y [<- <-]%lookup_singleton_Some [<- <-]%lookup_singleton_Some.
  - split; [reflexivity|reflexivity|done|reflexivity|reflexivity].
  - right. change (request_pages (ALIGN_UP (0 + 100) RAMFS_BLOCK)) with 2.
    change (fs_heap (sample_fs _ p)) with (sample_heap p). lia.
Qed.

(** The state after [vfs_init]. *)
Lemma sample_mounted :
  ∃ (s : fs pmm) root l, mounted s root ∧ dir_rep s root l ∧ fs_inv s ∧ nodes_live s ∧ frames_for 1 (fs_heap s) ∧ length l = 3%nat.
Proof.
  destruct sample_before_init as (p & _ & Hi & Hsz).
  destruct (vfs_init_spec (sample_fs ∅ p) 2) as (s & root & c1 & c2 & c3 & E & Hm & Hinv & Hnl & Hro & _ & _ & Hr); [by split|lia| |].
  - split; [|by vm_compute]. change (fs_heap (sample_fs ∅ p)) with (sample_heap p). cbn [sample_heap hp_vm] in *. lia.
  - eexists s, root, _. split_and!; [exact Hm|exact Hr|exact Hinv|exact Hnl| |done]. right. destruct Hro. lia.
Qed.

Lemma ramfs_dir_refines_entries_witness :
  ∃ (s : fs pmm) dir r s' l', dir_exec dir (DirCreate [102] 420) s = Some (r, s') ∧ dir_rep s' dir l'.
Proof.
  destruct sample_mounted as (s & root & l & _ & Hr & Hi & Hnl & Hfr & _).
  destruct (ramfs_dir_refines_entries s root l (DirCreate [102] 420) Hi Hnl Hfr Hr) as (r & s' & l' & E & Hd & _).
  - cbn [op_name]. repeat constructor; lia.
  - by exists s, root, r, s', l'.
Defined.

Lemma vfs_init_correct_witness : ∃ (s s' : fs pmm) root, vfs_init s = Some s' ∧ vfs_lookup [47] s' = Some root.
Proof.
  destruct sample_before_init as (p & _ & Hi & Hsz).
  destruct (vfs_init_correct (sample_fs ∅ p)) as (s' & root & c1 & c2 & c3 & E & _ & _ & _ & El); [by split| |].
  - split; [|by vm_compute]. change (fs_heap (sample_fs ∅ p)) with (sample_heap p). cbn [sample_heap hp_vm] in *. lia.
  - by exists (sample_fs ∅ p), s', root.
Defined.

Lemma vfs_write_correct_witness : ∃ (s s' : fs pmm) r, vfs_write 0 0 100 s = Some (r, s') ∧ fs_inv s'.
Proof.
  destruct sample_file as (p & Hi & Ho & Hfr).
  destruct (vfs_write_correct _ 0 9 _ _ 0 100 Hi Ho) as (r & s' & x' & E & Hi' & _);
    [left; by vm_compute|by vm_compute|by vm_compute|by vm_compute|intros _; exact Hfr|].
  eexists _, s', r. split; [exact E|exact Hi'].
Defined.

Lemma vfs_write_read_roundtrip_witness : ∃ (s s' : fs pmm) r, vfs_write 0 0 100 s = Some (r, s').
Proof.
  destruct sample_file as (p & Hi & Ho & Hfr).
  destruct (vfs_write_read_roundtrip _ 0 9 _ _ 0 100 4096 Hi Ho) as (r & s' & E & _);
    [left; by vm_compute|by vm_compute|by vm_compute|by vm_compute|intros _; exact Hfr|by vm_compute|].
  eexists _, s', r. exact E.
Defined.

Lemma fd_alloc_free_roundtrip_witness : ∃ (s s' : fs pmm), fd_alloc 40 s = Some (1, s').
Proof.
  exists (sample_fs ∅ (one_free 300)).
  destruct (fd_alloc_free_roundtrip (sample_fs ∅ (one_free 300)) (set_fds (upd (λ _, 0) 0 9) (new_task 0 0 255 1 TASK_RUNNING (lit []))) 40)
    as (fd & s' & E & Hr); [done|reflexivity|]. exists s'. rewrite E.
  destruct Hr as [(_ & _ & Hall)|(Hfd & Hz & Hlow & _)].
  - exfalso. apply (Hall 1); [by unfold MAX_FDS|done].
  - destruct (decide (fd = 1)) as [->|]; [done|]. exfalso. destruct (decide (fd = 0)) as [->|]; [done|].
    apply (Hlow 1); [lia|done].
Defined.

Lemma vfs_only_root_found_witness : ∃ (s : fs pmm) r s', vfs_open [47; 102] O_CREAT 420 s = Some (r, s') ∧ r < 0.
Proof.
  destruct sample_mounted as (s & root & l & Hm & Hr & Hi & Hnl & Hfr & _).
  destruct (vfs_only_root_found s root l [47; 102] O_CREAT 420 Hm Hr Hi Hnl Hfr) as (_ & r & s' & E & Hc);
    [repeat constructor; lia|done|by vm_compute|].
  exists s, r, s'. split; [done|lia].
Defined.
