(* ===== verification/Net.v ===== *)
(** Model of kernel/drivers/net: netdev.c, ethernet.c, arp.c, ipv4.c, icmp.c.

    Received packets and packets under construction are bytes of the heap's
    memory, packet structures are read and written field by field at their
    packed offsets, and multi-byte fields are little-endian words that [htons]
    and [htonl] swap.  A buffer that a function only reads is a view, a function
    of the memory at the time it is read: a local structure is a constant view.
    Device structures are records of a store keyed by their address.  A device's
    [send] is a function pointer of its driver: its answer is a parameter, and
    the frames handed to it are recorded.  Serial output is left out. *)
From stdpp Require Import prelude gmap.
From S2P Require Import Prelude CString FrameAlloc Vmm Heap HeapRefine.

(** ** ethernet.h, ipv4.h, icmp.h, netdev.h *)

Definition NETDEV_MAX : Z := 8.
Definition ETH_TYPE_ARP : Z := 0x0806.
Definition ETH_TYPE_IPV4 : Z := 0x0800.
Definition ETH_HEADER_LEN : Z := 14.
Definition IP_PROTO_ICMP : Z := 1.
Definition ICMP_ECHO_REQUEST : Z := 8.
Definition ICMP_ECHO_REPLY : Z := 0.
Definition IPV4_HEADER_SIZE : Z := 20.
Definition ICMP_HEADER_SIZE : Z := 8.
Definition ARP_PACKET_SIZE : Z := 28.
Definition ARP_HW_ETH : Z := 1.
Definition ARP_PROTO_IPV4 : Z := 0x0800.
Definition ARP_REQUEST : Z := 1.
Definition ARP_REPLY : Z := 2.
Definition ARP_CACHE_SIZE : Z := 32.

Definition htons (v : Z) : Z := u16 (Z.lor (Z.shiftr v 8) (Z.shiftl v 8)).
Definition ntohs (v : Z) : Z := htons v.
Definition htonl (v : Z) : Z :=
  Z.lor (Z.lor (Z.lor (u32 (Z.shiftl (Z.land v 0xFF) 24)) (Z.shiftl (Z.land (Z.shiftr v 8) 0xFF) 16))
               (Z.shiftl (Z.land (Z.shiftr v 16) 0xFF) 8))
        (Z.land (Z.shiftr v 24) 0xFF).
Definition ntohl (v : Z) : Z := htonl v.

Definition load16 : mem → Z → Z := load_le 2.
Definition load32 : mem → Z → Z := load_le 4.
Definition store16 : mem → Z → Z → mem := store_le 2.
Definition store32 : mem → Z → Z → mem := store_le 4.
Definition le16 (v : Z) : list Z := [u8 v; u8 (v / 256)].
Definition le32 (v : Z) : list Z := [u8 v; u8 (v / 256); u8 (v / 256 / 256); u8 (v / 256 / 256 / 256)].

Record net_device := { d_name : list Z; d_mac : list Z; d_up : bool; d_send : bool }.

Record arp_entry := { ae_ip : Z; ae_mac : list Z; ae_valid : bool }.

Inductive rx_fn := rx_eth.

Record net (A : Type) := {
  nt_heap : heap A;
  nt_devices : gmap Z net_device;
  devs : Z → Z;
  dev_cnt : Z;
  rx_handler : option rx_fn;
  arp_cache : Z → arp_entry;
  my_ip : Z;
  g_my_ip : Z;
  g_ip_id : Z;
  sent : list (Z * list Z);
}.
Arguments nt_heap {A} _.
Arguments nt_devices {A} _.
Arguments devs {A} _.
Arguments dev_cnt {A} _.
Arguments rx_handler {A} _.
Arguments arp_cache {A} _.
Arguments my_ip {A} _.
Arguments g_my_ip {A} _.
Arguments g_ip_id {A} _.
Arguments sent {A} _.

(** A packet buffer that is only read. *)
Abbreviation view := (mem → list Z).

(** ** Checksum *)

(** [while (len > 1) { sum += *ptr++; len -= 2; }] *)
Fixpoint sum_words (n : nat) (m : mem) (a sum : Z) : Z :=
  match n with
  | O => sum
  | S n' => sum_words n' m (a + 2) (u32 (sum + load16 m a))
  end.

(** [while (sum >> 16) sum = (sum & 0xFFFF) + (sum >> 16);] *)
Fixpoint fold_sum (fuel : nat) (sum : Z) : option Z :=
  match fuel with
  | O => None
  | S f =>
      if Z.shiftr sum 16 =? 0 then Some sum
      else fold_sum f (u32 (Z.land sum 0xFFFF + Z.shiftr sum 16))
  end.

Definition ipv4_checksum (m : mem) (data len : Z) : option Z :=
  let sum := sum_words (Z.to_nat (len / 2)) m data 0 in
  let sum1 := if len mod 2 =? 0 then sum else u32 (sum + m (data + 2 * (len / 2))) in
  sum2 ← fold_sum 3 sum1;
  Some (u16 (Z.lnot sum2)).

Definition eth_broadcast : list Z := [0xFF; 0xFF; 0xFF; 0xFF; 0xFF; 0xFF].

(** An [arp_packet_t] filled field by field. *)
Definition arp_packet (operation : Z) (sender_mac : list Z) (sender_ip : Z) (target_mac : list Z) (target_ip : Z) : list Z :=
  le16 (htons ARP_HW_ETH) ++ le16 (htons ARP_PROTO_IPV4) ++ [6; 4] ++ le16 (htons operation)
    ++ sender_mac ++ le32 sender_ip ++ target_mac ++ le32 target_ip.

(** The slot from [i] on that satisfies [P], with [n] slots left. *)
Fixpoint cache_find (n : nat) (i : Z) (P : arp_entry → bool) (c : Z → arp_entry) : option Z :=
  match n with
  | O => None
  | S n' => if P (c i) then Some i else cache_find n' (i + 1) P c
  end.

Definition arp_cache_update (ip : Z) (mac : list Z) (c : Z → arp_entry) : Z → arp_entry :=
  match cache_find (Z.to_nat ARP_CACHE_SIZE) 0 (λ e, ae_valid e && (ae_ip e =? ip)) c with
  | Some i => upd c i {| ae_ip := ae_ip (c i); ae_mac := mac; ae_valid := ae_valid (c i) |}
  | None =>
      match cache_find (Z.to_nat ARP_CACHE_SIZE) 0 (λ e, negb (ae_valid e)) c with
      | Some i => upd c i {| ae_ip := ip; ae_mac := mac; ae_valid := true |}
      | None => c
      end
  end.

Section ops.
Context {A : Type} `{FrameOps A}.
(** The answer of a driver's [send] to a frame. *)
Context (dev_send : Z → list Z → Z).
Implicit Types (s : net A).

Definition nt_mem s : mem := hp_mem (nt_heap s).

Definition set_nheap (h : heap A) s : net A :=
  {| nt_heap := h; nt_devices := nt_devices s; devs := devs s; dev_cnt := dev_cnt s; rx_handler := rx_handler s;
     arp_cache := arp_cache s; my_ip := my_ip s; g_my_ip := g_my_ip s; g_ip_id := g_ip_id s; sent := sent s |}.
Definition set_nmem (m : mem) s : net A := set_nheap (set_hmem (nt_heap s) m) s.
Definition set_arp (c : Z → arp_entry) (ip : Z) s : net A :=
  {| nt_heap := nt_heap s; nt_devices := nt_devices s; devs := devs s; dev_cnt := dev_cnt s; rx_handler := rx_handler s;
     arp_cache := c; my_ip := ip; g_my_ip := g_my_ip s; g_ip_id := g_ip_id s; sent := sent s |}.
Definition set_ip (ip id : Z) s : net A :=
  {| nt_heap := nt_heap s; nt_devices := nt_devices s; devs := devs s; dev_cnt := dev_cnt s; rx_handler := rx_handler s;
     arp_cache := arp_cache s; my_ip := my_ip s; g_my_ip := ip; g_ip_id := id; sent := sent s |}.
Definition set_sent (l : list (Z * list Z)) s : net A :=
  {| nt_heap := nt_heap s; nt_devices := nt_devices s; devs := devs s; dev_cnt := dev_cnt s; rx_handler := rx_handler s;
     arp_cache := arp_cache s; my_ip := my_ip s; g_my_ip := g_my_ip s; g_ip_id := g_ip_id s; sent := l |}.
Definition set_devs (d : Z → Z) (n : Z) (r : option rx_fn) s : net A :=
  {| nt_heap := nt_heap s; nt_devices := nt_devices s; devs := d; dev_cnt := n; rx_handler := r;
     arp_cache := arp_cache s; my_ip := my_ip s; g_my_ip := g_my_ip s; g_ip_id := g_ip_id s; sent := sent s |}.

(** ** ethernet.c: sending *)

Definition eth_tx (dev : Z) (dst : view) (ethertype : Z) (payload : view) (payload_len : Z) s : option (Z * net A) :=
  if dev =? 0 then Some (-1, s)
  else
    d ← nt_devices s !! dev;
    if negb (d_send d) then Some (-1, s)
    else
      let total := u64 (ETH_HEADER_LEN + payload_len) in
      '(frame, h1) ← kmalloc (if total <? 64 then 64 else total) (nt_heap s);
      if frame =? 0 then Some (-1, set_nheap h1 s)
      else
        let m1 := store_list (hp_mem h1) frame (dst (hp_mem h1)) in
        let m2 := store_list m1 (frame + 6) (d_mac d) in
        let m3 := store16 m2 (frame + 12) (htons ethertype) in
        let m4 := store_list m3 (frame + 14) (payload m3) in
        let '(m5, total1) := if total <? 60 then (memset (frame + total) 0 (60 - total) m4, 60) else (m4, total) in
        let fr := bytes_at m5 frame total1 in
        h2 ← kfree frame (set_hmem h1 m5);
        Some (dev_send dev fr, set_sent (sent s ++ [(dev, fr)]) (set_nheap h2 s)).

(** ** arp.c *)

Definition arp_init (ip : Z) s : net A := set_arp (λ _, {| ae_ip := 0; ae_mac := replicate 6 0; ae_valid := false |}) ip s.

Definition arp_rx (dev data len : Z) s : option (net A) :=
  if len <? ARP_PACKET_SIZE then Some s
  else
    let m := nt_mem s in
    let op := ntohs (load16 m (data + 6)) in
    let sender_ip := ntohl (load32 m (data + 14)) in
    let target_ip := ntohl (load32 m (data + 24)) in
    let s1 := set_arp (arp_cache_update sender_ip (bytes_at m (data + 8) 6) (arp_cache s)) (my_ip s) s in
    if (op =? ARP_REQUEST) && (target_ip =? ntohl (my_ip s1)) then
      d ← nt_devices s1 !! dev;
      let reply := arp_packet ARP_REPLY (d_mac d) (my_ip s1) (bytes_at m (data + 8) 6) (load32 m (data + 14)) in
      '(_, s2) ← eth_tx dev (λ m', bytes_at m' (data + 8) 6) ETH_TYPE_ARP (λ _, reply) ARP_PACKET_SIZE s1;
      Some s2
    else Some s1.

(** The result and the bytes written to [mac_out]. *)
Definition arp_resolve (dev ip : Z) s : option (Z * list Z * net A) :=
  match cache_find (Z.to_nat ARP_CACHE_SIZE) 0 (λ e, ae_valid e && (ae_ip e =? ip)) (arp_cache s) with
  | Some i => Some (0, ae_mac (arp_cache s i), s)
  | None =>
      d ← nt_devices s !! dev;
      let req := arp_packet ARP_REQUEST (d_mac d) (my_ip s) (replicate 6 0) (htonl ip) in
      '(_, s1) ← eth_tx dev (λ _, eth_broadcast) ETH_TYPE_ARP (λ _, req) ARP_PACKET_SIZE s;
      Some (-1, [], s1)
  end.

(** ** ipv4.c *)

Definition ipv4_init (ip : Z) s : net A := arp_init ip (set_ip ip (g_ip_id s) s).

(** The header [ipv4_send] writes at [pkt], before its checksum. *)
Definition ipv4_header (m : mem) (pkt total id proto src dst : Z) : mem :=
  let m := upd m pkt 0x45 in
  let m := upd m (pkt + 1) 0 in
  let m := store16 m (pkt + 2) (htons (u16 total)) in
  let m := store16 m (pkt + 4) (htons id) in
  let m := store16 m (pkt + 6) 0 in
  let m := upd m (pkt + 8) 64 in
  let m := upd m (pkt + 9) (u8 proto) in
  let m := store16 m (pkt + 10) 0 in
  let m := store32 m (pkt + 12) (htonl src) in
  store32 m (pkt + 16) (htonl dst).

Definition ipv4_send (dev dst_ip proto : Z) (payload : view) (payload_len : Z) s : option (Z * net A) :=
  let total := u64 (IPV4_HEADER_SIZE + payload_len) in
  '(pkt, h1) ← kmalloc total (nt_heap s);
  if pkt =? 0 then Some (-1, set_nheap h1 s)
  else
    let m1 := ipv4_header (hp_mem h1) pkt total (g_ip_id s) proto (g_my_ip s) dst_ip in
    c ← ipv4_checksum m1 pkt IPV4_HEADER_SIZE;
    let m2 := store16 m1 (pkt + 10) c in
    let m3 := store_list m2 (pkt + 20) (payload m2) in
    let s1 := set_ip (g_my_ip s) (u16 (g_ip_id s + 1)) (set_nheap (set_hmem h1 m3) s) in
    '(r, dst_mac, s2) ← arp_resolve dev dst_ip s1;
    if negb (r =? 0) then
      h2 ← kfree pkt (nt_heap s2); Some (-1, set_nheap h2 s2)
    else
      '(r1, s3) ← eth_tx dev (λ _, dst_mac) ETH_TYPE_IPV4 (λ m, bytes_at m pkt total) total s2;
      h3 ← kfree pkt (nt_heap s3);
      Some (r1, set_nheap h3 s3).

(** ** icmp.c *)

Definition icmp_rx (dev ip_hdr data len : Z) s : option (net A) :=
  if len <? ICMP_HEADER_SIZE then Some s
  else
    c ← ipv4_checksum (nt_mem s) data len;
    if negb (c =? 0) then Some s
    else if nt_mem s data =? ICMP_ECHO_REQUEST then
      '(reply, h1) ← kmalloc len (nt_heap s);
      if reply =? 0 then Some (set_nheap h1 s)
      else
        let m1 := memcpy reply data len (hp_mem h1) in
        let m2 := upd m1 reply ICMP_ECHO_REPLY in
        let m3 := store16 m2 (reply + 2) 0 in
        c1 ← ipv4_checksum m3 reply len;
        let m4 := store16 m3 (reply + 2) c1 in
        '(_, s1) ← ipv4_send dev (ntohl (load32 m4 (ip_hdr + 12))) IP_PROTO_ICMP (λ m, bytes_at m reply len) len
                     (set_nheap (set_hmem h1 m4) s);
        h2 ← kfree reply (nt_heap s1);
        Some (set_nheap h2 s1)
    else Some s.

Definition ipv4_rx (dev data len : Z) s : option (net A) :=
  if len <? IPV4_HEADER_SIZE then Some s
  else
    let m := nt_mem s in
    let ihl := u8 (Z.land (m data) 0xF * 4) in
    if (ihl <? 20) || (u8 len <? ihl) then Some s
    else
      c ← ipv4_checksum m data ihl;
      if negb (c =? 0) then Some s
      else if negb (ntohl (load32 m (data + 16)) =? g_my_ip s) then Some s
      else
        let payload_len := u64 (ntohs (load16 m (data + 2)) - ihl) in
        if m (data + 9) =? IP_PROTO_ICMP then icmp_rx dev data (data + ihl) payload_len s else Some s.

(** ** ethernet.c: receiving *)

Definition eth_rx (dev frame len : Z) s : option (net A) :=
  if len <? ETH_HEADER_LEN then Some s
  else
    let ethertype := ntohs (load16 (nt_mem s) (frame + 12)) in
    if ethertype =? ETH_TYPE_ARP then arp_rx dev (frame + 14) (len - ETH_HEADER_LEN) s
    else if ethertype =? ETH_TYPE_IPV4 then ipv4_rx dev (frame + 14) (len - ETH_HEADER_LEN) s
    else Some s.

(** ** netdev.c *)

Definition netdev_register (dev : Z) s : option (Z * net A) :=
  if (dev =? 0) || (NETDEV_MAX <=? dev_cnt s) then Some (-1, s)
  else
    d ← aset NETDEV_MAX (devs s) (dev_cnt s) dev;
    Some (dev_cnt s + 1 - 1, set_devs d (dev_cnt s + 1) (rx_handler s) s).

Definition netdev_get (index : Z) s : option Z :=
  if (index <? 0) || (dev_cnt s <=? index) then Some 0 else aget NETDEV_MAX (devs s) index.

Definition netdev_count s : Z := dev_cnt s.

Definition netdev_set_rx_handler (fn : option rx_fn) s : net A := set_devs (devs s) (dev_cnt s) fn s.

Definition netdev_dispatch_rx (dev data len : Z) s : option (net A) :=
  match rx_handler s with
  | None => Some s
  | Some rx_eth => eth_rx dev data len s
  end.
End ops.
