(* ===== verification/NetSum.v ===== *)
(** The Internet checksum of kernel/drivers/net/ipv4.c against its definition:
    the one's complement of the one's complement sum of the 16-bit words. *)
From stdpp Require Import prelude gmap.
From S2P Require Import Prelude CString FrameAlloc Vmm Heap HeapRefine Net.

(** ** Reference *)

(** The sum of [n] words, and with the odd byte of [len] bytes. *)
Fixpoint word_sum (n : nat) (m : mem) (a : Z) : Z :=
  match n with O => 0 | S n' => load16 m a + word_sum n' m (a + 2) end.

Definition byte_sum (m : mem) (a len : Z) : Z :=
  word_sum (Z.to_nat (len / 2)) m a + (if len mod 2 =? 0 then 0 else m (a + 2 * (len / 2))).

(** One's complement value of a sum: its residue modulo 65535, with 65535 for
    the residue of a positive multiple. *)
Definition ones_sum (x : Z) : Z := if x =? 0 then 0 else (x - 1) mod 65535 + 1.

Definition bytes_ok (m : mem) (a len : Z) : Prop := ∀ b, a ≤ b < a + len → 0 ≤ m b < 256.

(** ** The loops *)

Lemma load16_range m a : bytes_ok m a 2 → 0 ≤ load16 m a < 65536.
Proof. intros Hb. unfold load16. cbn [load_le]. pose proof (Hb a ltac:(lia)). pose proof (Hb (a + 1) ltac:(lia)). lia. Qed.

Lemma word_sum_range n m a : bytes_ok m a (2 * Z.of_nat n) → 0 ≤ word_sum n m a ≤ 65535 * Z.of_nat n.
Proof.
  revert a. induction n as [|n IH]; intros a Hb; cbn [word_sum]; [lia|].
  pose proof (load16_range m a) as Hl. assert (bytes_ok m a 2) by (intros b Hb'; apply Hb; lia).
  specialize (IH (a + 2)). assert (bytes_ok m (a + 2) (2 * Z.of_nat n)) by (intros b Hb'; apply Hb; lia). specialize (IH ltac:(done)).
  specialize (Hl ltac:(done)). lia.
Qed.

Lemma sum_words_eq n m a sum :
  bytes_ok m a (2 * Z.of_nat n) → 0 ≤ sum → sum + 65535 * Z.of_nat n < 2 ^ 32 → sum_words n m a sum = sum + word_sum n m a.
Proof.
  revert a sum. induction n as [|n IH]; intros a sum Hb Hs Hlt; cbn [sum_words word_sum]; [lia|].
  assert (bytes_ok m a 2) as Hb2 by (intros b Hb'; apply Hb; lia). pose proof (load16_range m a Hb2).
  rewrite u32_small by lia. rewrite IH; [lia| |lia|lia]. intros b Hb'. apply Hb. lia.
Qed.

Lemma fold_once sum : 65536 ≤ sum < 2 ^ 32 →
  u32 (Z.land sum 0xFFFF + Z.shiftr sum 16) = sum mod 65536 + sum / 65536.
Proof.
  intros Hs. change 0xFFFF with (Z.ones 16). rewrite Z.land_ones, Z.shiftr_div_pow2 by lia. change (2 ^ 16) with 65536.
  apply u32_small. Z.to_euclidean_division_equations. lia.
Qed.

Lemma ones_sum_fold x : 65536 ≤ x → ones_sum (x mod 65536 + x / 65536) = ones_sum x.
Proof.
  intros Hx. unfold ones_sum. destruct (Z.eqb_spec x 0); [lia|].
  destruct (Z.eqb_spec (x mod 65536 + x / 65536) 0); [Z.to_euclidean_division_equations; lia|].
  f_equal. replace (x - 1) with (x mod 65536 + x / 65536 - 1 + x / 65536 * 65535) by (Z.to_euclidean_division_equations; lia).
  by rewrite Z.mod_add.
Qed.

Lemma ones_sum_small x : 0 ≤ x < 65536 → ones_sum x = x.
Proof. intros Hx. unfold ones_sum. destruct (Z.eqb_spec x 0); [done|]. rewrite Z.mod_small by lia. lia. Qed.

Lemma fold_sum_eq f sum : 0 ≤ sum < 2 ^ 32 → fold_sum (3 + f) sum = Some (ones_sum sum).
Proof.
  intros Hs. cbn [Nat.add].
  assert (∀ k x, 0 ≤ x < 65536 → fold_sum (S k) x = Some (ones_sum x)) as Hstop.
  { intros k x Hx. cbn [fold_sum]. rewrite Z.shiftr_div_pow2, Z.div_small by lia. cbn [Z.eqb]. by rewrite ones_sum_small. }
  assert (∀ k x, 65536 ≤ x < 2 ^ 32 → fold_sum (S k) x = fold_sum k (x mod 65536 + x / 65536)) as Hgo.
  { intros k x Hx. cbn [fold_sum]. rewrite fold_once by done. rewrite Z.shiftr_div_pow2 by lia.
    destruct (Z.eqb_spec (x / 2 ^ 16) 0); [Z.to_euclidean_division_equations; lia|done]. }
  destruct (decide (sum < 65536)); [apply Hstop; lia|]. rewrite Hgo by lia. rewrite <-(ones_sum_fold sum) by lia.
  set (x := sum mod 65536 + sum / 65536). assert (0 ≤ x < 131071) as Hx by (unfold x; Z.to_euclidean_division_equations; lia).
  clearbody x. destruct (decide (x < 65536)); [apply Hstop; lia|]. rewrite Hgo by lia. rewrite <-(ones_sum_fold x) by lia.
  apply Hstop. Z.to_euclidean_division_equations. lia.
Qed.

Lemma byte_sum_range m a len : 0 ≤ len → bytes_ok m a len → 0 ≤ byte_sum m a len ≤ 65535 * (len / 2) + 255.
Proof.
  intros Hl Hb. unfold byte_sum. assert (0 ≤ 2 * (len / 2) ≤ len) by (Z.to_euclidean_division_equations; lia).
  assert (bytes_ok m a (2 * Z.of_nat (Z.to_nat (len / 2)))) as Hb' by (intros b ?; apply Hb; lia).
  pose proof (word_sum_range _ _ _ Hb') as Hw. rewrite Z2Nat.id in Hw by lia.
  destruct (Z.eqb_spec (len mod 2) 0); [lia|].
  assert (2 * (len / 2) < len) by (Z.to_euclidean_division_equations; lia). pose proof (Hb (a + 2 * (len / 2)) ltac:(lia)). lia.
Qed.

Lemma ones_sum_range x : 0 ≤ x → 0 ≤ ones_sum x ≤ 65535.
Proof. intros. unfold ones_sum. destruct (Z.eqb_spec x 0); [lia|]. pose proof (Z.mod_pos_bound (x - 1) 65535). lia. Qed.

(** The function computes the reference on packets of up to 128 KB. *)
Lemma checksum_spec m a len :
  0 ≤ len < 131072 → bytes_ok m a len → ipv4_checksum m a len = Some (65535 - ones_sum (byte_sum m a len)).
Proof.
  intros Hl Hb. unfold ipv4_checksum. pose proof (byte_sum_range m a len ltac:(lia) Hb) as Hr. unfold byte_sum in Hr.
  assert (0 ≤ 2 * (len / 2) ≤ len) by (Z.to_euclidean_division_equations; lia).
  assert (bytes_ok m a (2 * Z.of_nat (Z.to_nat (len / 2)))) as Hb' by (intros b ?; apply Hb; lia).
  rewrite sum_words_eq by (done || lia). rewrite Z.add_0_l.
  match goal with |- (fold_sum 3 ?x ≫= _) = _ => assert (x = byte_sum m a len) as -> end.
  { unfold byte_sum. destruct (Z.eqb_spec (len mod 2) 0); [lia|]. apply u32_small. lia. }
  pose proof (byte_sum_range m a len ltac:(lia) Hb). rewrite (fold_sum_eq 0) by lia. cbn [mbind option_bind]. f_equal.
  pose proof (ones_sum_range (byte_sum m a len) ltac:(lia)). unfold u16, Z.lnot. rewrite Z.sub_1_r || idtac.
  symmetry. apply (Z.mod_unique_pos _ _ (-1)); lia.
Qed.

(** ** Checking a sum *)

Lemma checksum_zero m a len :
  0 ≤ len < 131072 → bytes_ok m a len →
  ipv4_checksum m a len = Some 0 ↔ (0 < byte_sum m a len ∧ (65535 | byte_sum m a len)).
Proof.
  intros Hl Hb. rewrite checksum_spec by done. pose proof (byte_sum_range m a len ltac:(lia) Hb) as Hr.
  set (x := byte_sum m a len) in *. clearbody x. unfold ones_sum. destruct (Z.eqb_spec x 0) as [->|Hx].
  - split; [intros [= E]; lia|intros [? _]; lia].
  - split.
    + intros E. apply (inj Some) in E. split; [lia|]. exists ((x - 1) / 65535 + 1). Z.to_euclidean_division_equations. lia.
    + intros [_ [k ->]]. f_equal. replace (k * 65535 - 1) with (65534 + (k - 1) * 65535) by lia. rewrite Z.mod_add by lia.
      rewrite Z.mod_small by lia. lia.
Qed.

(** ** Changing a word *)

Lemma byte_sum_ext m m' a a' len : 0 ≤ len → (∀ i, 0 ≤ i < len → m' (a' + i) = m (a + i)) → byte_sum m' a' len = byte_sum m a len.
Proof.
  intros Hl He. unfold byte_sum. assert (0 ≤ 2 * (len / 2) ≤ len) by (Z.to_euclidean_division_equations; lia). f_equal.
  - assert (∀ n b b', (∀ i, 0 ≤ i < 2 * Z.of_nat n → m' (b' + i) = m (b + i)) → word_sum n m' b' = word_sum n m b) as Hw.
    { induction n as [|n IH]; intros b b' Hi; [done|]. cbn [word_sum]. f_equal.
      - unfold load16. cbn [load_le]. rewrite (Hi 1) by lia. pose proof (Hi 0 ltac:(lia)) as H0. rewrite !Z.add_0_r in H0. by rewrite H0.
      - apply IH. intros i Hi'. replace (b' + 2 + i) with (b' + (2 + i)) by lia. replace (b + 2 + i) with (b + (2 + i)) by lia. apply Hi. lia. }
    apply Hw. intros i Hi. apply He. lia.
  - destruct (Z.eqb_spec (len mod 2) 0); [done|]. apply He. Z.to_euclidean_division_equations. lia.
Qed.

Lemma word_sum_store n m a k v :
  0 ≤ k < Z.of_nat n → word_sum n (store16 m (a + 2 * k) v) a = word_sum n m a - load16 m (a + 2 * k) + u16 v.
Proof.
  revert a k. induction n as [|n IH]; intros a k Hk; [lia|]. cbn [word_sum]. destruct (decide (k = 0)) as [->|].
  - replace (a + 2 * 0) with a by lia. unfold load16 at 1, store16 at 1. rewrite load_store_le_eq. change (2 ^ (8 * Z.of_nat 2)) with (2 ^ 16).
    assert (∀ j b, a + 2 ≤ b → word_sum j (store16 m a v) b = word_sum j m b) as Hj; [|rewrite Hj by lia; unfold u16; lia].
    induction j as [|j IHj]; intros b Hb; [done|]. cbn [word_sum]. rewrite IHj by lia. f_equal. unfold load16.
    apply load_le_ext. intros c Hc. unfold store16. apply store_le_outside. lia.
  - replace (a + 2 * k) with (a + 2 + 2 * (k - 1)) by lia. rewrite IH by lia.
    assert (load16 (store16 m (a + 2 + 2 * (k - 1)) v) a = load16 m a) as ->; [|lia].
    unfold load16, store16. apply load_le_ext. intros c Hc. apply store_le_outside. lia.
Qed.

Lemma byte_sum_store m a len k v :
  0 ≤ k → 2 * k + 2 ≤ len → byte_sum (store16 m (a + 2 * k) v) a len = byte_sum m a len - load16 m (a + 2 * k) + u16 v.
Proof.
  intros Hk Hl. unfold byte_sum. rewrite word_sum_store by (Z.to_euclidean_division_equations; lia).
  destruct (Z.eqb_spec (len mod 2) 0); [lia|]. unfold store16. rewrite store_le_outside; [lia|].
  Z.to_euclidean_division_equations. lia.
Qed.

Lemma store16_bytes m a len b v : bytes_ok m a len → bytes_ok (store16 m b v) a len.
Proof.
  intros Hb c Hc. unfold store16. cbn [store_le]. unfold upd. destruct (Z.eqb_spec c (b + 1)); [apply u8_range|].
  destruct (Z.eqb_spec c b); [apply u8_range|]. by apply Hb.
Qed.

(** Storing the checksum of data whose checksum field is zero makes it check. *)
Lemma checksum_fill m a len k c :
  0 ≤ k → 2 * k + 2 ≤ len < 131072 → bytes_ok m a len → load16 m (a + 2 * k) = 0 → ipv4_checksum m a len = Some c →
  ipv4_checksum (store16 m (a + 2 * k) c) a len = Some 0.
Proof.
  intros Hk Hl Hb Hz Hc. rewrite checksum_spec in Hc by (done || lia). apply (inj Some) in Hc.
  pose proof (byte_sum_range m a len ltac:(lia) Hb) as Hr. pose proof (ones_sum_range _ (proj1 Hr)) as Ho.
  apply checksum_zero; [lia|by apply store16_bytes|]. rewrite byte_sum_store by lia. rewrite Hz, u16_small by lia.
  set (x := byte_sum m a len) in *. clearbody x. subst c. unfold ones_sum in *. destruct (Z.eqb_spec x 0) as [->|Hx].
  - split; [lia|]. by exists 1.
  - split; [lia|]. exists ((x - 1) / 65535 + 1). Z.to_euclidean_division_equations. lia.
Qed.
