(* ===== verification/NetTx.v ===== *)
(** Building and sending packets: what [eth_tx] and [ipv4_send] of
    kernel/drivers/net hand to the driver, over the kernel heap. *)
From stdpp Require Import prelude gmap.
From S2P Require Import Prelude CString FrameAlloc Bitmap Vmm VmmWf VmmSpec VmmRange Heap HeapMap HeapSlab HeapList HeapInv HeapOps HeapApi HeapRefine SchedCreate Net NetSum.

(** ** Lists in memory *)

Lemma bytes_at_app m a n k : 0 ≤ n → 0 ≤ k → bytes_at m a (n + k) = bytes_at m a n ++ bytes_at m (a + n) k.
Proof.
  intros Hn Hk. unfold bytes_at. rewrite seqZ_app, fmap_app by lia. f_equal. apply list_eq. intros i. rewrite !list_lookup_fmap.
  destruct (decide (Z.of_nat i < k)); [|by rewrite !lookup_seqZ_ge by lia]. rewrite !lookup_seqZ_lt by lia. cbn. do 2 f_equal. lia.
Qed.

Lemma bytes_at_cons m a n : 0 ≤ n → bytes_at m a (n + 1) = m a :: bytes_at m (a + 1) n.
Proof.
  intros Hn. rewrite Z.add_comm, bytes_at_app by lia. change (bytes_at m a 1) with [m (a + 0)]. by rewrite Z.add_0_r.
Qed.

Lemma bytes_at_store_list m a l : bytes_at (store_list m a l) a (Z.of_nat (length l)) = l.
Proof.
  revert m a. induction l as [|x l IH]; intros m a; [done|]. cbn [length store_list].
  replace (Z.of_nat (S (length l))) with (Z.of_nat (length l) + 1) by lia. rewrite bytes_at_cons by lia. rewrite IH. f_equal.
  rewrite store_list_outside by lia. apply upd_eq.
Qed.

Lemma bytes_at_store16 m a v : bytes_at (store16 m a v) a 2 = le16 v.
Proof.
  change 2 with (0 + 1 + 1). rewrite !bytes_at_cons by lia. unfold store16, le16. cbn [store_le].
  rewrite (upd_ne _ _ a) by lia. by rewrite !upd_eq.
Qed.

Lemma lit_bytes_at m a n i : 0 ≤ i < n → lit (bytes_at m a n) i = m (a + i).
Proof.
  intros Hi. unfold lit. destruct (Z.leb_spec 0 i); [|lia]. unfold bytes_at. rewrite list_lookup_fmap, lookup_seqZ_lt by lia. cbn.
  f_equal. lia.
Qed.

(** The Internet checksum as RFC 1071 defines it: the 16-bit words of the data,
    in network order and the last one padded with a zero byte, are added with
    end-around carry, and data checks when the sum is all ones. *)
Definition oc_add (x y : Z) : Z := if x + y <? 65536 then x + y else x + y - 65535.

Fixpoint oc_sum (l : list Z) : Z :=
  match l with
  | hi :: lo :: r => oc_add (256 * hi + lo) (oc_sum r)
  | [hi] => 256 * hi
  | [] => 0
  end.

Definition checks (l : list Z) : Prop := oc_sum l = 0xFFFF.

Lemma byte_sum_step m a len : 2 ≤ len → byte_sum m a len = load16 m a + byte_sum m (a + 2) (len - 2).
Proof.
  intros Hl. unfold byte_sum. replace ((len - 2) mod 2) with (len mod 2) by (Z.to_euclidean_division_equations; lia).
  replace (len / 2) with ((len - 2) / 2 + 1) by (Z.to_euclidean_division_equations; lia).
  assert (0 ≤ (len - 2) / 2) by (Z.to_euclidean_division_equations; lia). rewrite Z2Nat.inj_add by lia.
  replace (Z.to_nat ((len - 2) / 2) + Z.to_nat 1)%nat with (S (Z.to_nat ((len - 2) / 2))) by lia. cbn [word_sum].
  replace (a + 2 * ((len - 2) / 2 + 1)) with (a + 2 + 2 * ((len - 2) / 2)) by lia. lia.
Qed.

(** The sum in network order is the sum of the words as the machine loads them,
    with the bytes swapped. *)
Lemma oc_sum_bytes m a len :
  0 ≤ len → bytes_ok m a len →
  0 ≤ oc_sum (bytes_at m a len) ≤ 65535
  ∧ (∃ j, oc_sum (bytes_at m a len) = 256 * byte_sum m a len + j * 65535)
  ∧ (oc_sum (bytes_at m a len) = 0 ↔ byte_sum m a len = 0).
Proof.
  intros H0. revert a H0. induction (Z.lt_wf 0 len) as [len _ IH]. intros a H0 Hb.
  destruct (decide (len = 0)) as [->|]; [|destruct (decide (len = 1)) as [->|]].
  - change (bytes_at m a 0) with (@nil Z). change (byte_sum m a 0) with 0. cbn [oc_sum]. split_and!; [lia|lia|by exists 0|done].
  - pose proof (Hb a ltac:(lia)). change (bytes_at m a 1) with [m (a + 0)]. change (byte_sum m a 1) with (0 + m (a + 0)).
    cbn [oc_sum]. rewrite !Z.add_0_r. split_and!; [lia|lia|exists 0; lia|lia].
  - destruct (IH (len - 2) ltac:(lia) (a + 2) ltac:(lia)) as (Hr & [j Hj] & Hz); [intros b Hbb; apply Hb; lia|].
    pose proof (byte_sum_range m (a + 2) (len - 2) ltac:(lia)) as Hs. specialize (Hs ltac:(intros b Hbb; apply Hb; lia)).
    assert (bytes_at m a len = m a :: m (a + 1) :: bytes_at m (a + 2) (len - 2)) as ->.
    { replace len with (len - 2 + 1 + 1) at 1 by lia. rewrite !bytes_at_cons by lia. by rewrite <-Z.add_assoc. }
    rewrite byte_sum_step by lia. unfold load16. cbn [oc_sum load_le]. unfold oc_add.
    pose proof (Hb a ltac:(lia)). pose proof (Hb (a + 1) ltac:(lia)).
    destruct (Z.ltb_spec (256 * m a + m (a + 1) + oc_sum (bytes_at m (a + 2) (len - 2))) 65536).
    + split_and!; [lia|lia|exists (j - m (a + 1)); lia|lia].
    + split_and!; [lia|lia|exists (j - m (a + 1) - 1); lia|lia].
Qed.

Lemma checks_bytes_at m a n :
  0 ≤ n < 131072 → bytes_ok m a n → checks (bytes_at m a n) ↔ ipv4_checksum m a n = Some 0.
Proof.
  intros Hn Hb. rewrite checksum_zero by done. pose proof (byte_sum_range m a n ltac:(lia) Hb) as Hs.
  destruct (oc_sum_bytes m a n ltac:(lia) Hb) as (Hr & [j Hj] & Hz). unfold checks. split.
  - intros E. split; [lia|]. exists (256 * (1 - j) - byte_sum m a n). lia.
  - intros [Hp [k Hk]]. rewrite Hj, Hk in *. lia.
Qed.

Lemma le16_bytes v : Forall (λ x, 0 ≤ x < 256) (le16 v).
Proof. repeat constructor; apply u8_range. Qed.

(** ** Temporary blocks *)

Section blocks.
Context {A : Type} `{FrameAllocator A}.
Implicit Types (h : heap A).

(** Memory in which everything below the heap and every live block is as in [h]. *)
Definition keeps h (m : mem) : Prop :=
  (∀ a, a < HEAP_VIRT_BASE → m a = hp_mem h a)
  ∧ ∀ q k a, live (hp_objs h) q k → q ≤ a < q + k → m a = hp_mem h a.

(** Memory that stays: below the heap or in a live block. *)
Definition kept_area h (a n : Z) : Prop :=
  a + n ≤ HEAP_VIRT_BASE ∨ ∃ q k, live (hp_objs h) q k ∧ q ≤ a ∧ a + n ≤ q + k.

Lemma kept_part h a n b k : kept_area h a n → a ≤ b → b + k ≤ a + n → kept_area h b k.
Proof. intros [Hl|(q & j & Hq & H1 & H2)] Hb Hk; [left; lia|right; exists q, j; split_and!; [done|lia|lia]]. Qed.

Lemma keeps_area h m a n b : keeps h m → kept_area h a n → a ≤ b < a + n → m b = hp_mem h b.
Proof. intros [Hlow Hlive] [Hl|(q & j & Hq & H1 & H2)] Hb; [apply Hlow; lia|apply (Hlive q j); [done|lia]]. Qed.

Definition stable h (v : view) (l : list Z) : Prop := ∀ m, keeps h m → v m = l.

Definition heap_room (n : Z) h : Prop :=
  4 * n < Z.of_nat (size (frames (hp_vm h))) ∧ heap_cursor h + n * PAGE_SIZE ≤ HEAP_END.

(** All blocks taken were given back; room for [k] pages is left. *)
Record balanced (k : Z) h h' : Prop := {
  bl_inv : heap_inv h';
  bl_live : same_live (hp_objs h) (hp_objs h');
  bl_keeps : keeps h (hp_mem h');
  bl_room : heap_room k h';
}.

Record temporary (k : Z) h (p n : Z) h1 : Prop := {
  tp_inv : heap_inv h1;
  tp_ptr : HEAP_VIRT_BASE ≤ p;
  tp_live : live (hp_objs h1) p n;
  tp_others : ∀ q j, live (hp_objs h) q j → live (hp_objs h1) q j ∧ q ≠ p ∧ apart p n q j;
  tp_back : ∀ q j, live (hp_objs h1) q j → q ≠ p → live (hp_objs h) q j;
  tp_keeps : keeps h (hp_mem h1);
  tp_room : heap_room k h1;
}.

Lemma temporary_apart k h p n h1 a l : temporary k h p n h1 → kept_area h a l → apart p n a l.
Proof.
  intros Ht [Hl|(q & j & Hq & H1 & H2)]; [right; pose proof (tp_ptr _ _ _ _ _ Ht); lia|].
  destruct (tp_others _ _ _ _ _ Ht q j Hq) as (_ & _ & [Hap|Hap]); [left; lia|right; lia].
Qed.

Lemma kmalloc_temporary h sz k :
  heap_inv h → 0 < sz < 2 ^ 38 - 2 ^ 13 → 0 ≤ k → heap_room (request_pages sz + k) h → 0 < request_pages sz →
  ∃ p h1 n, kmalloc sz h = Some (p, h1) ∧ p ≠ 0 ∧ sz ≤ n ∧ temporary k h p n h1.
Proof.
  intros Hi Hs Hk [Hf Hc] Hpos. destruct (kmalloc_spec h sz Hi Hs) as (p & h1 & n & E & Har & Hn & Hroom & Hfs & Hcu); [right; lia|].
  assert (p ≠ 0) as Hp.
  { intros ->. destruct (Hroom eq_refl) as [E0|E0]; [rewrite E0, size_empty in Hf; lia|unfold PAGE_SIZE in *; lia]. }
  destruct (alloc_fresh h p n h1 Har Hp) as [Hl Ho]. exists p, h1, n. split_and!; [done|done|done|].
  split; [apply Har| |done|exact Ho| | |].
  - destruct (live_range h1 p n (ar_inv _ _ _ _ Har) Hl). lia.
  - intros q j Hq Hne. destruct (ar_live _ _ _ _ Har) as [[? _]|(_ & _ & Hiff)]; [done|]. apply Hiff in Hq as [?|[? _]]; done.
  - split; [intros a Ha; by eapply alloc_low|]. intros q j a Hq Ha. by eapply alloc_keeps.
  - unfold heap_room, PAGE_SIZE in *. lia.
Qed.

(** Writing inside the temporary block. *)
Lemma temporary_write k h p n h1 m :
  temporary k h p n h1 → (∀ a, ¬ p ≤ a < p + n → m a = hp_mem h1 a) →
  temporary k h p n (set_hmem h1 m) ∧ keeps h m.
Proof.
  intros [T1 T2 T3 T4 T5 [T6 T6'] T7] Hm.
  assert (keeps h m) as Hk.
  { split; [intros a Ha; rewrite Hm by lia; by apply T6|]. intros q j a Hq Ha. destruct (T4 q j Hq) as (_ & _ & Hap). unfold apart in Hap.
    rewrite Hm by lia. by apply (T6' q j). }
  split; [|done]. split; [by apply inv_hmem|done|exact T3|exact T4|exact T5|exact Hk|exact T7].
Qed.

(** Giving it back after what ran in between was balanced. *)
Lemma kfree_temporary k k' h p n h1 h2 :
  temporary k h p n h1 → balanced k' h1 h2 → ∃ h3, kfree p h2 = Some h3 ∧ balanced k' h h3.
Proof.
  intros [T1 T2 T3 T4 T5 [T6 T6'] T7] [B1 B2 [B3 B3'] [B4 B4']].
  destruct (kfree_spec h2 p n B1) as (h3 & E & [F1 F2 F3 F4 F5] & _); [by apply B2|]. exists h3. split; [done|].
  split; [done| | |by unfold heap_room; rewrite F4, F3].
  - intros q j. rewrite F5. split.
    + intros [Hq Hne]. apply T5; [by apply B2|done].
    + intros Hq. destruct (T4 q j Hq) as (Hq1 & Hne & _). split; [by apply B2|done].
  - split; [intros a Ha; rewrite F2, B3 by done; by apply T6|]. intros q j a Hq Ha. destruct (T4 q j Hq) as (Hq1 & _ & _).
    rewrite F2, (B3' q j) by done. by apply (T6' q j).
Qed.

Lemma balanced_refl k h : heap_inv h → heap_room k h → balanced k h h.
Proof. intros. split; [done|by intros|by split|done]. Qed.
End blocks.

(** ** Frames *)

(** The frame [eth_tx] builds: header, payload, and zeros up to 60 bytes. *)
Definition eth_frame (dst mac : list Z) (ethertype : Z) (pl : list Z) : list Z :=
  let b := dst ++ mac ++ le16 (htons ethertype) ++ pl in b ++ replicate (60 - length b) 0.

Definition tx_pages (plen : Z) : Z := request_pages (Z.max 64 (14 + plen)).

Lemma request_pages_pos sz : 0 < sz → 0 < request_pages sz.
Proof.
  intros Hs. unfold request_pages, large_pages, LARGE_HDR_SIZE, PAGE_SIZE. destruct (Z.leb_spec sz LARGE_THRESHOLD); [lia|].
  Z.to_euclidean_division_equations. lia.
Qed.

(** The bytes of the frame, written piece by piece at [p]. *)
Lemma frame_bytes m p dst mac ty pl :
  length dst = 6%nat → length mac = 6%nat →
  let m4 := store_list (store16 (store_list (store_list m p dst) (p + 6) mac) (p + 12) (htons ty)) (p + 14) pl in
  bytes_at m4 p (14 + Z.of_nat (length pl)) = dst ++ mac ++ le16 (htons ty) ++ pl.
Proof.
  intros Hd Hm m4.
  replace (14 + Z.of_nat (length pl)) with (6 + (6 + (2 + Z.of_nat (length pl)))) by lia.
  rewrite !bytes_at_app by lia. f_equal; [|f_equal; [|f_equal]].
  - rewrite <-(bytes_at_store_list m p dst) at 1. rewrite Hd. apply bytes_at_ext. intros a Ha. unfold m4.
    rewrite store_list_outside by lia. unfold store16. rewrite store_le_outside by lia. by rewrite store_list_outside by lia.
  - rewrite <-(bytes_at_store_list (store_list m p dst) (p + 6) mac) at 1. rewrite Hm. apply bytes_at_ext. intros a Ha. unfold m4.
    rewrite store_list_outside by lia. unfold store16. by rewrite store_le_outside by lia.
  - replace (p + 6 + 6) with (p + 12) by lia. rewrite <-(bytes_at_store16 (store_list (store_list m p dst) (p + 6) mac) (p + 12) (htons ty)).
    apply bytes_at_ext. intros a Ha. unfold m4. by rewrite store_list_outside by lia.
  - replace (p + 6 + 6 + 2) with (p + 14) by lia. apply bytes_at_store_list.
Qed.

Section tx.
Context {A : Type} `{FrameAllocator A}.
Context (dev_send : Z → list Z → Z).
Implicit Types (s : net A).

(** A device that can send. *)
Definition sender s (dev : Z) (mac : list Z) : Prop :=
  dev ≠ 0 ∧ length mac = 6%nat ∧ ∃ d, nt_devices s !! dev = Some d ∧ d_send d = true ∧ d_mac d = mac.

Lemma eth_tx_spec s dev mac dst ty payload dl pl k :
  heap_inv (nt_heap s) → sender s dev mac → stable (nt_heap s) dst dl → stable (nt_heap s) payload pl →
  length dl = 6%nat → Z.of_nat (length pl) < 2 ^ 37 → 0 ≤ k → heap_room (tx_pages (Z.of_nat (length pl)) + k) (nt_heap s) →
  let fr := eth_frame dl mac ty pl in
  ∃ h', eth_tx dev_send dev dst ty payload (Z.of_nat (length pl)) s
        = Some (dev_send dev fr, set_sent (sent s ++ [(dev, fr)]) (set_nheap h' s)) ∧ balanced k (nt_heap s) h'.
Proof.
  intros Hi (Hdev & Hmac & d & Hd & Hsend & Em) Hdst Hpl Hdl Hlen Hk Hroom fr. unfold eth_tx.
  apply Z.eqb_neq in Hdev as ->. rewrite Hd. cbn [mbind option_bind]. rewrite Hsend, Em. cbn [negb].
  unfold ETH_HEADER_LEN. rewrite u64_small by lia. set (total := 14 + Z.of_nat (length pl)).
  assert ((if total <? 64 then 64 else total) = Z.max 64 total) as -> by (destruct (Z.ltb_spec total 64); lia).
  destruct (kmalloc_temporary (nt_heap s) (Z.max 64 total) k Hi) as (p & h1 & n & -> & Hp & Hn & Ht);
    [lia|lia|exact Hroom|apply request_pages_pos; lia|].
  cbn [mbind option_bind]. apply Z.eqb_neq in Hp as ->.
  rewrite (Hdst (hp_mem h1)) by apply (tp_keeps _ _ _ _ _ Ht).
  set (m3 := store16 (store_list (store_list (hp_mem h1) p dl) (p + 6) mac) (p + 12) (htons ty)).
  assert (∀ a, ¬ p ≤ a < p + 14 → m3 a = hp_mem h1 a) as Hm3.
  { intros a Ha. unfold m3, store16. rewrite store_le_outside by lia. by rewrite !store_list_outside by lia. }
  assert (keeps (nt_heap s) m3) as Hk3.
  { apply (temporary_write k (nt_heap s) p n h1 m3 Ht). intros a Ha. apply Hm3. lia. }
  rewrite (Hpl m3 Hk3). pose proof (frame_bytes (hp_mem h1) p dl mac ty pl Hdl Hmac) as Hfb. cbv zeta in Hfb. fold m3 in Hfb.
  set (m4 := store_list m3 (p + 14) pl) in *. fold total in Hfb.
  destruct (if total <? 60 then (memset (p + total) 0 (60 - total) m4, 60) else (m4, total)) as [m5 total1] eqn:E5.
  assert (bytes_at m5 p total1 = fr ∧ ∀ a, ¬ p ≤ a < p + n → m5 a = hp_mem h1 a) as [-> Hm5].
  { unfold fr, eth_frame. rewrite <-Hfb. pose proof (length_bytes_at m4 p total ltac:(lia)) as Hlb.
    assert (∀ a, ¬ p ≤ a < p + total → m4 a = hp_mem h1 a) as Hm4.
    { intros a Ha. unfold m4. rewrite store_list_outside by lia. apply Hm3. lia. }
    destruct (Z.ltb_spec total 60) as [Hlt|Hge]; injection E5 as <- <-.
    - split.
      + transitivity (bytes_at (memset (p + total) 0 (60 - total) m4) p (total + (60 - total))); [f_equal; lia|].
        rewrite bytes_at_app by lia. f_equal.
        * apply bytes_at_ext. intros a Ha. apply memset_outside. lia.
        * rewrite bytes_at_zero; [f_equal; lia|]. intros a Ha. rewrite memset_inside by lia. done.
      + intros a Ha. rewrite memset_outside by lia. apply Hm4. lia.
    - split; [|intros a Ha; apply Hm4; lia]. replace (60 - _)%nat with 0%nat by lia. by rewrite app_nil_r. }
  destruct (temporary_write k (nt_heap s) p n h1 m5 Ht Hm5) as [Ht' _].
  destruct (kfree_temporary k k (nt_heap s) p n _ (set_hmem h1 m5) Ht') as (h3 & -> & Hb).
  { apply balanced_refl; [apply Ht'|apply Ht']. }
  exists h3. cbn [mbind option_bind]. done.
Qed.
End tx.
