(* ===== verification/NetIp.v ===== *)
(** IPv4 packets and ICMP echo replies of kernel/drivers/net: the bytes that
    reach the driver. *)
From stdpp Require Import prelude gmap.
From S2P Require Import Prelude CString FrameAlloc Bitmap Vmm VmmWf VmmSpec VmmRange Heap HeapMap HeapSlab HeapList HeapInv HeapOps HeapApi HeapRefine SchedCreate Net NetSum NetTx.

(** ** The IPv4 header *)

Definition ipv4_hdr (total id proto src dst c : Z) : list Z :=
  [0x45; 0] ++ le16 (htons (u16 total)) ++ le16 (htons id) ++ [0; 0; 64; u8 proto] ++ le16 c
    ++ le32 (htonl src) ++ le32 (htonl dst).

Lemma upd_at {B} (f : Z → B) i j v : j = i → upd f i v j = v.
Proof. intros ->. apply upd_eq. Qed.

Ltac find_byte := first [rewrite upd_at by lia; reflexivity | rewrite upd_ne by lia; find_byte].

Lemma header_bytes m p total id proto src dst c :
  bytes_at (store16 (ipv4_header m p total id proto src dst) (p + 10) c) p 20 = ipv4_hdr total id proto src dst c.
Proof.
  unfold bytes_at. change (seqZ 0 20) with [0; 1; 2; 3; 4; 5; 6; 7; 8; 9; 10; 11; 12; 13; 14; 15; 16; 17; 18; 19].
  cbn [fmap list_fmap]. unfold ipv4_hdr, le16, le32. cbn [app]. unfold ipv4_header, store16, store32. cbn [store_le].
  repeat (apply (f_equal2 cons); [find_byte|]). done.
Qed.

Lemma header_outside m p total id proto src dst c a :
  ¬ p ≤ a < p + 20 → store16 (ipv4_header m p total id proto src dst) (p + 10) c a = m a.
Proof. intros Ha. unfold ipv4_header, store16, store32. cbn [store_le]. repeat rewrite upd_ne by lia. done. Qed.

Lemma header_bytes_zero m p total id proto src dst :
  bytes_at (ipv4_header m p total id proto src dst) p 20 = ipv4_hdr total id proto src dst 0.
Proof.
  unfold bytes_at. change (seqZ 0 20) with [0; 1; 2; 3; 4; 5; 6; 7; 8; 9; 10; 11; 12; 13; 14; 15; 16; 17; 18; 19].
  cbn [fmap list_fmap]. unfold ipv4_hdr, le16, le32. cbn [app]. unfold ipv4_header, store16, store32. cbn [store_le].
  repeat (apply (f_equal2 cons); [find_byte|]). done.
Qed.

(** What is read back from bytes that are known. *)
Lemma bytes_known m p n l i : bytes_at m p n = l → 0 ≤ i < n → m (p + i) = lit l i.
Proof. intros <- Hi. by rewrite lit_bytes_at. Qed.

Lemma lit_bytes_ok l i : Forall (λ x, 0 ≤ x < 256) l → 0 ≤ lit l i < 256.
Proof.
  intros Hf. unfold lit. destruct (0 <=? i); [|lia]. destruct (l !! Z.to_nat i) as [x|] eqn:Hx; [|cbn; lia].
  exact (proj1 (Forall_lookup _ _) Hf _ _ Hx).
Qed.

(** Its checksum field makes the header check. *)
Lemma header_checksum m p total id proto src dst :
  ∃ c, ipv4_checksum (ipv4_header m p total id proto src dst) p 20 = Some c
    ∧ checks (ipv4_hdr total id proto src dst c).
Proof.
  set (m1 := ipv4_header m p total id proto src dst). pose proof (header_bytes_zero m p total id proto src dst) as E. fold m1 in E.
  assert (load16 m1 (p + 2 * 5) = 0) as Hz.
  { unfold load16. cbn [load_le]. replace (p + 2 * 5 + 1) with (p + 11) by lia. replace (p + 2 * 5) with (p + 10) by lia.
    rewrite (bytes_known m1 p 20 _ 10 E), (bytes_known m1 p 20 _ 11 E) by lia. done. }
  assert (bytes_ok m1 p 20) as Hb.
  { intros b Hb. replace b with (p + (b - p)) by lia. rewrite (bytes_known m1 p 20 _ _ E) by lia. apply lit_bytes_ok.
    unfold ipv4_hdr, le16, le32. cbn [app]. repeat constructor; (apply u8_range || lia). }
  eexists. rewrite checksum_spec by (done || lia). split; [reflexivity|].
  rewrite <-(header_bytes m p). fold m1. apply checks_bytes_at; [lia|by apply store16_bytes|].
  replace (p + 10) with (p + 2 * 5) by lia. apply checksum_fill; [lia|lia|done|done|]. by rewrite checksum_spec by (done || lia).
Qed.

Section ip.
Context {A : Type} `{FrameAllocator A}.
Context (dev_send : Z → list Z → Z).
Implicit Types (s : net A).

(** ** Sending *)

Definition cached s (ip : Z) (mac : list Z) : Prop :=
  length mac = 6%nat
  ∧ ∃ i, cache_find (Z.to_nat ARP_CACHE_SIZE) 0 (λ e, ae_valid e && (ae_ip e =? ip)) (arp_cache s) = Some i
         ∧ ae_mac (arp_cache s i) = mac.

Lemma ipv4_send_spec s dev mac ip dmac proto payload pl k :
  heap_inv (nt_heap s) → sender s dev mac → cached s ip dmac → stable (nt_heap s) payload pl →
  Z.of_nat (length pl) < 65516 → 0 ≤ k →
  let total := 20 + Z.of_nat (length pl) in
  heap_room (request_pages total + (tx_pages total + k)) (nt_heap s) →
  ∃ c h' , let fr := eth_frame dmac mac ETH_TYPE_IPV4 (ipv4_hdr total (g_ip_id s) proto (g_my_ip s) ip c ++ pl) in
    checks (ipv4_hdr total (g_ip_id s) proto (g_my_ip s) ip c)
    ∧ ipv4_send dev_send dev ip proto payload (Z.of_nat (length pl)) s
      = Some (dev_send dev fr, set_sent (sent s ++ [(dev, fr)])
                                 (set_nheap h' (set_ip (g_my_ip s) (u16 (g_ip_id s + 1)) s)))
    ∧ balanced k (nt_heap s) h'.
Proof.
  intros Hi Hsd (Hdl & i & Hci & Hmac) Hpl Hlen Hk total Hroom. unfold ipv4_send, IPV4_HEADER_SIZE.
  rewrite u64_small by lia. fold total.
  assert (0 < tx_pages total) as Htx by (apply request_pages_pos; lia).
  destruct (kmalloc_temporary (nt_heap s) total (tx_pages total + k) Hi) as (p & h1 & n & -> & Hp & Hn & Ht);
    [lia|lia|exact Hroom|apply request_pages_pos; lia|].
  cbn [mbind option_bind]. apply Z.eqb_neq in Hp as ->.
  destruct (header_checksum (hp_mem h1) p total (g_ip_id s) proto (g_my_ip s) ip) as (c & -> & Hc). cbn [mbind option_bind].
  set (m2 := store16 (ipv4_header (hp_mem h1) p total (g_ip_id s) proto (g_my_ip s) ip) (p + 10) c).
  assert (∀ a, ¬ p ≤ a < p + 20 → m2 a = hp_mem h1 a) as Hm2 by (intros; by apply header_outside).
  assert (keeps (nt_heap s) m2) as Hk2.
  { apply (temporary_write _ _ p n h1 m2 Ht). intros a Ha. apply Hm2. lia. }
  rewrite (Hpl m2 Hk2). set (m3 := store_list m2 (p + 20) pl).
  destruct (temporary_write _ _ p n h1 m3 Ht) as [Ht3 Hk3].
  { intros a Ha. unfold m3. rewrite store_list_outside by lia. apply Hm2. lia. }
  set (s1 := set_ip (g_my_ip s) (u16 (g_ip_id s + 1)) (set_nheap (set_hmem h1 m3) s)).
  unfold arp_resolve. change (arp_cache s1) with (arp_cache s). rewrite Hci. cbn [mbind option_bind]. rewrite Hmac. cbn [Z.eqb negb].
  assert (bytes_at m3 p total = ipv4_hdr total (g_ip_id s) proto (g_my_ip s) ip c ++ pl) as Eb.
  { unfold total. rewrite bytes_at_app by lia. f_equal; [|apply bytes_at_store_list].
    rewrite <-(header_bytes (hp_mem h1) p). apply bytes_at_ext. intros a Ha. by apply store_list_outside; lia. }
  pose proof (length_bytes_at m3 p total ltac:(lia)) as El. rewrite Eb in El.
  pose proof (eth_tx_spec dev_send s1 dev mac (λ _, dmac) ETH_TYPE_IPV4 (λ m, bytes_at m p total) dmac
              (ipv4_hdr total (g_ip_id s) proto (g_my_ip s) ip c ++ pl) k) as Heth.
  rewrite El in Heth. destruct Heth as (h' & -> & Hb).
  - apply Ht3.
  - exact Hsd.
  - by intros m _.
  - intros m Hm. rewrite <-Eb. apply bytes_at_ext. intros a Ha. apply (proj2 Hm p n); [apply Ht|lia].
  - done.
  - lia.
  - done.
  - apply Ht3.
  - cbn [mbind option_bind]. destruct (kfree_temporary _ k (nt_heap s) p n _ h' Ht3 Hb) as (h3 & E3 & Hb3).
    exists c, h3. split; [done|]. cbn [nt_heap set_sent set_nheap]. rewrite E3. done.
Qed.
End ip.

(** ** The ICMP echo of icmp.c *)

Lemma drop_bytes_at m a n k : 0 ≤ k ≤ n → drop (Z.to_nat k) (bytes_at m a n) = bytes_at m (a + k) (n - k).
Proof.
  intros Hk. replace n with (k + (n - k)) at 1 by lia. rewrite bytes_at_app by lia.
  rewrite drop_app_length'; [done|]. pose proof (length_bytes_at m a k). lia.
Qed.

(** The reply to an echo request [l]: type 0, a new checksum, the rest as it came. *)
Definition echo_reply (l : list Z) (c : Z) : list Z := [0] ++ take 1 (drop 1 l) ++ le16 c ++ drop 4 l.

Section echo.
Context {A : Type} `{FrameAllocator A}.
Context (dev_send : Z → list Z → Z).
Implicit Types (s : net A).

Lemma reply_bytes m reply len c :
  4 ≤ len →
  bytes_at (store16 (store16 (upd m reply 0) (reply + 2) 0) (reply + 2) c) reply len = echo_reply (bytes_at m reply len) c.
Proof.
  intros Hl. unfold echo_reply. change 4%nat with (Z.to_nat 4). change (drop 1) with (@drop Z (Z.to_nat 1)).
  rewrite !drop_bytes_at by lia. change 1%nat with (Z.to_nat 1). rewrite take_bytes_at by lia.
  replace len with (1 + (1 + (2 + (len - 4)))) at 1 by lia. rewrite !bytes_at_app by lia.
  f_equal; [|f_equal; [|f_equal]].
  - change (bytes_at ?f reply 1) with [f (reply + 0)]. rewrite Z.add_0_r. unfold store16. rewrite !store_le_outside by lia. by rewrite upd_eq.
  - apply bytes_at_ext. intros a Ha. unfold store16. rewrite !store_le_outside by lia. apply upd_ne. lia.
  - replace (reply + 1 + 1) with (reply + 2) by lia. apply bytes_at_store16.
  - replace (reply + 1 + 1 + 2) with (reply + 4) by lia. apply bytes_at_ext. intros a Ha. unfold store16.
    rewrite !store_le_outside by lia. apply upd_ne. lia.
Qed.

(** Pages a reply of [len] bytes needs: the message, the packet and the frame. *)
Definition echo_pages (len : Z) : Z := request_pages len + (request_pages (20 + len) + tx_pages (20 + len)).

Lemma icmp_echo_spec s dev mac ip_hdr data len src dmac k :
  heap_inv (nt_heap s) → sender s dev mac → cached s src dmac → 8 ≤ len < 65516 → 0 ≤ k →
  kept_area (nt_heap s) data len → kept_area (nt_heap s) (ip_hdr + 12) 4 → bytes_ok (nt_mem s) data len →
  ipv4_checksum (nt_mem s) data len = Some 0 → nt_mem s data = ICMP_ECHO_REQUEST →
  src = ntohl (load32 (nt_mem s) (ip_hdr + 12)) → heap_room (echo_pages len + k) (nt_heap s) →
  ∃ c c1 h', let hdr := ipv4_hdr (20 + len) (g_ip_id s) IP_PROTO_ICMP (g_my_ip s) src c in
    let msg := echo_reply (bytes_at (nt_mem s) data len) c1 in
    checks hdr ∧ checks msg
    ∧ icmp_rx dev_send dev ip_hdr data len s
      = Some (set_sent (sent s ++ [(dev, eth_frame dmac mac ETH_TYPE_IPV4 (hdr ++ msg))])
                (set_nheap h' (set_ip (g_my_ip s) (u16 (g_ip_id s + 1)) s)))
    ∧ balanced k (nt_heap s) h'.
Proof.
  intros Hi Hsd Hca Hlen Hk Hdata Hhdr Hb Hc Ht Hsrc Hroom. unfold icmp_rx, ICMP_HEADER_SIZE, ICMP_ECHO_REPLY.
  destruct (Z.ltb_spec len 8); [lia|]. rewrite Hc. cbn [mbind option_bind Z.eqb negb]. rewrite Ht, Z.eqb_refl.
  unfold echo_pages in Hroom.
  assert (0 < tx_pages (20 + len) ∧ 0 < request_pages (20 + len)) as [Htx Hrp] by (split; apply request_pages_pos; lia).
  destruct (kmalloc_temporary (nt_heap s) len (request_pages (20 + len) + (tx_pages (20 + len) + k)) Hi)
    as (p & h1 & n & -> & Hp & Hn & Htp); [lia|lia|by rewrite <-Z.add_assoc, <-Z.add_assoc in Hroom|apply request_pages_pos; lia|].
  cbn [mbind option_bind]. apply Z.eqb_neq in Hp as ->. pose proof (tp_ptr _ _ _ _ _ Htp) as Hpb.
  set (m1 := memcpy p data len (hp_mem h1)).
  assert (∀ a, m1 a = if (p <=? a) && (a <? p + len) then hp_mem h1 (data + (a - p)) else hp_mem h1 a) as Hm1
    by (intros a; unfold m1; pose proof (temporary_apart _ _ _ _ _ _ _ Htp Hdata) as [|]; apply memcpy_spec; lia).
  assert (∀ i, 0 ≤ i < len → m1 (p + i) = nt_mem s (data + i)) as Hcopy.
  { intros i Hii. rewrite Hm1. destruct (Z.leb_spec p (p + i)), (Z.ltb_spec (p + i) (p + len)); try lia. cbn [andb].
    replace (data + (p + i - p)) with (data + i) by lia. apply (keeps_area _ _ _ _ _ (tp_keeps _ _ _ _ _ Htp) Hdata). lia. }
  set (m3 := store16 (upd m1 p 0) (p + 2) 0).
  assert (bytes_ok m3 p len) as Hb3.
  { apply store16_bytes. intros b Hbb. unfold upd. destruct (b =? p); [lia|]. replace b with (p + (b - p)) by lia.
    rewrite Hcopy by lia. apply Hb. lia. }
  rewrite (checksum_spec m3 p len) by (done || lia). cbn [mbind option_bind]. set (c1 := 65535 - _).
  set (m4 := store16 m3 (p + 2) c1).
  assert (bytes_at m4 p len = echo_reply (bytes_at (nt_mem s) data len) c1) as Em.
  { unfold m4, m3. rewrite reply_bytes by lia. f_equal. unfold bytes_at. apply list_fmap_ext. intros idx i [-> Hii]%lookup_seqZ.
    apply Hcopy. lia. }
  assert (ipv4_checksum m4 p len = Some 0) as Hc4.
  { apply (checksum_fill m3 p len 1 c1); [lia|lia|done| |apply checksum_spec; [lia|done]].
    unfold m3, load16, store16. by rewrite load_store_le_eq. }
  destruct (temporary_write _ _ p n h1 m4 Htp) as [Ht4 Hk4].
  { intros a Ha. unfold m4, m3, store16. rewrite !store_le_outside, upd_ne, Hm1 by lia.
    destruct (Z.leb_spec p a), (Z.ltb_spec a (p + len)); done || lia. }
  assert (ntohl (load32 m4 (ip_hdr + 12)) = src) as ->.
  { rewrite Hsrc. f_equal. apply load_le_ext. intros b Hbb. apply (keeps_area _ _ _ _ _ Hk4 Hhdr). lia. }
  set (s1 := set_nheap (set_hmem h1 m4) s).
  pose proof (ipv4_send_spec dev_send s1 dev mac src dmac IP_PROTO_ICMP (λ m, bytes_at m p len) (bytes_at m4 p len) k) as Hs.
  rewrite (length_bytes_at m4 p len) in Hs by lia. cbv zeta in Hs. destruct Hs as (c & h' & Hhc & -> & Hbal).
  - apply Ht4.
  - exact Hsd.
  - exact Hca.
  - intros m Hm. apply bytes_at_ext. intros a Ha. apply (proj2 Hm p n); [apply Htp|lia].
  - lia.
  - done.
  - apply Ht4.
  - cbn [mbind option_bind]. destruct (kfree_temporary _ k (nt_heap s) p n _ h' Ht4 Hbal) as (h3 & E3 & Hb3').
    exists c, c1, h3. cbv zeta. rewrite <-Em. split_and!; [exact Hhc| | |done].
    + apply checks_bytes_at; [lia|by apply store16_bytes|done].
    + cbn [nt_heap set_sent set_nheap]. by rewrite E3.
Qed.
End echo.
