(* ===== verification/NetProps.v ===== *)
(** The properties of the network stack of kernel/drivers/net. *)
From stdpp Require Import prelude gmap.
From S2P Require Import Prelude CString FrameAlloc Bitmap Pmm Vmm VmmWf VmmSpec VmmRange VmmProps Heap HeapMap HeapSlab HeapList HeapInv HeapOps HeapApi HeapRefine HeapProps SchedCreate Net NetSum NetTx NetIp.

(** ** The ARP cache *)

Lemma cache_find_Some n i P c j :
  cache_find n i P c = Some j ↔ i ≤ j < i + Z.of_nat n ∧ P (c j) = true ∧ ∀ k, i ≤ k < j → P (c k) = false.
Proof.
  revert i. induction n as [|n IH]; intros i; cbn [cache_find]; [split; [done|lia]|]. destruct (P (c i)) eqn:E.
  - split; [intros [= <-]; split_and!; [lia|lia|done|lia]|]. intros (Hj & Hp & Hlow). f_equal.
    destruct (decide (i = j)) as [|]; [done|]. rewrite (Hlow i) in E by lia. done.
  - rewrite IH. split.
    + intros (Hj & Hp & Hlow). split_and!; [lia|lia|done|]. intros k Hk. destruct (decide (k = i)) as [->|]; [done|]. apply Hlow. lia.
    + intros (Hj & Hp & Hlow). destruct (decide (i = j)) as [->|]; [congruence|]. split_and!; [lia|lia|done|]. intros k Hk. apply Hlow. lia.
Qed.

Lemma cache_find_None n i P c : cache_find n i P c = None ↔ ∀ k, i ≤ k < i + Z.of_nat n → P (c k) = false.
Proof.
  revert i. induction n as [|n IH]; intros i; cbn [cache_find]; [split; [lia|done]|]. destruct (P (c i)) eqn:E.
  - split; [done|]. intros Hk. rewrite (Hk i) in E by lia. done.
  - rewrite IH. split; intros Hk k Hki; [destruct (decide (k = i)) as [->|]; [done|]|]; apply Hk; lia.
Qed.

Lemma cache_find_ext n i P c c' :
  (∀ k, i ≤ k < i + Z.of_nat n → P (c k) = P (c' k)) → cache_find n i P c = cache_find n i P c'.
Proof.
  revert i. induction n as [|n IH]; intros i He; [done|]. cbn [cache_find]. rewrite (He i) by lia. rewrite IH; [done|].
  intros k Hk. apply He. lia.
Qed.

(** The address a cache has for an IP. *)
Definition cache_lookup (ip : Z) (c : Z → arp_entry) : option (list Z) :=
  (λ i, ae_mac (c i)) <$> cache_find (Z.to_nat ARP_CACHE_SIZE) 0 (λ e, ae_valid e && (ae_ip e =? ip)) c.

Definition cache_full (c : Z → arp_entry) : Prop := ∀ i, 0 ≤ i < ARP_CACHE_SIZE → ae_valid (c i) = true.

(** An entry that is overwritten where only [ip] can see it. *)
Lemma cache_lookup_upd ip c i e ip' :
  (ae_valid (c i) = false ∨ ae_ip (c i) = ip) → ae_ip e = ip → ip' ≠ ip → cache_lookup ip' (upd c i e) = cache_lookup ip' c.
Proof.
  intros Hold He Hne. unfold cache_lookup. set (P := λ e, ae_valid e && (ae_ip e =? ip')).
  assert (P e = false) as He' by (unfold P; rewrite He; apply Z.eqb_neq in Hne; rewrite Z.eqb_sym, Hne; apply andb_false_r).
  assert (P (c i) = false) as Hi'.
  { unfold P. destruct Hold as [Ev|Ev]; rewrite Ev; [done|]. apply Z.eqb_neq in Hne. rewrite Z.eqb_sym, Hne. apply andb_false_r. }
  rewrite (cache_find_ext _ _ P (upd c i e) c).
  - destruct (cache_find _ _ P c) as [j|] eqn:Ej; cbn; [|done]. apply cache_find_Some in Ej as (_ & Hj & _).
    unfold upd. destruct (Z.eqb_spec j i) as [->|]; [congruence|done].
  - intros k _. unfold upd. destruct (Z.eqb_spec k i) as [->|]; congruence.
Qed.

(** The ARP cache is a partial map of 32 entries.  An update makes the
    address the one found for its IP, unless the cache is full and had no entry
    for it, when nothing changes; the addresses of other IPs stay. *)
Theorem arp_cache_update_lookup ip mac c :
  (cache_full c → cache_lookup ip c ≠ None → cache_lookup ip (arp_cache_update ip mac c) = Some mac)
  ∧ (¬ cache_full c → cache_lookup ip (arp_cache_update ip mac c) = Some mac)
  ∧ (cache_full c → cache_lookup ip c = None → arp_cache_update ip mac c = c)
  ∧ ∀ ip', ip' ≠ ip → cache_lookup ip' (arp_cache_update ip mac c) = cache_lookup ip' c.
Proof.
  unfold arp_cache_update. set (P := λ e, ae_valid e && (ae_ip e =? ip)). unfold cache_lookup at 1 2 3 4. fold P.
  destruct (cache_find (Z.to_nat ARP_CACHE_SIZE) 0 P c) as [i|] eqn:Ei.
  - apply cache_find_Some in Ei as (Hi & Hp & Hlow). unfold P in Hp. apply andb_true_iff in Hp as [Hv Hip%Z.eqb_eq].
    set (e := {| ae_ip := _; ae_mac := _; ae_valid := _ |}).
    assert (cache_find (Z.to_nat ARP_CACHE_SIZE) 0 P (upd c i e) = Some i) as E.
    { apply cache_find_Some. split_and!; [lia|lia| |].
      - rewrite upd_eq. unfold P, e. cbn. by rewrite Hv, Hip, Z.eqb_refl.
      - intros k Hk. rewrite upd_ne by lia. by apply Hlow. }
    rewrite E. cbn. rewrite upd_eq. split_and!; [done|done|done|]. intros ip' Hne. apply (cache_lookup_upd ip); [by right|done|done].
  - destruct (cache_find (Z.to_nat ARP_CACHE_SIZE) 0 (λ e, negb (ae_valid e)) c) as [i|] eqn:Ej.
    + apply cache_find_Some in Ej as (Hi & Hp & _). apply negb_true_iff in Hp. set (e := {| ae_ip := _; ae_mac := _; ae_valid := _ |}).
      rewrite cache_find_None in Ei.
      assert (cache_find (Z.to_nat ARP_CACHE_SIZE) 0 P (upd c i e) = Some i) as E.
      { apply cache_find_Some. split_and!; [lia|lia| |].
        - rewrite upd_eq. unfold P, e. cbn. by rewrite Z.eqb_refl.
        - intros k Hk. rewrite upd_ne by lia. apply Ei. lia. }
      rewrite E. cbn. rewrite upd_eq. split_and!; [done|done| |].
      * intros Hf. rewrite (Hf i) in Hp; [done|]. unfold ARP_CACHE_SIZE in *. lia.
      * intros ip' Hne. apply (cache_lookup_upd ip); [by left|done|done].
    + rewrite cache_find_None in Ej. cbn. split_and!; [done| |done|done].
      intros Hnf. exfalso. apply Hnf. intros i Hi. specialize (Ej i). unfold ARP_CACHE_SIZE in *. specialize (Ej ltac:(lia)).
      by apply negb_false_iff in Ej.
Qed.

(** C25: The Internet checksum.  On up to 128 KB of data [ipv4_checksum] returns, its
    folding loop ending after at most two rounds.  It answers 0 exactly for data
    that checks by the definition of RFC 1071; and the value it computes for data
    with a zero checksum field makes the data check once it is stored there. *)
Theorem ipv4_checksum_correct m a len :
  0 ≤ len < 131072 → bytes_ok m a len →
  ∃ c, ipv4_checksum m a len = Some c ∧ 0 ≤ c < 65536 ∧ (c = 0 ↔ checks (bytes_at m a len))
    ∧ ∀ k, 0 ≤ k → 2 * k + 2 ≤ len → load16 m (a + 2 * k) = 0 → checks (bytes_at (store16 m (a + 2 * k) c) a len).
Proof.
  intros Hl Hb. pose proof (checksum_spec m a len Hl Hb) as E. pose proof (byte_sum_range m a len ltac:(lia) Hb) as Hr.
  pose proof (ones_sum_range _ (proj1 Hr)) as Ho. eexists. split; [exact E|]. split; [lia|]. split.
  - rewrite checks_bytes_at by done. rewrite E. split; [by intros ->|by intros [= ->]].
  - intros k Hk Hk2 Hz. apply checks_bytes_at; [done|by apply store16_bytes|]. apply checksum_fill; [lia|lia|done|done|exact E].
Qed.

Section properties.
Context {A : Type} `{FrameAllocator A}.
Context (dev_send : Z → list Z → Z).
Implicit Types (s : net A).

(** An Ethernet frame at [frame], in static memory or in a block of the heap,
    with an ICMP echo request of [n] bytes to us. *)
Record echo_request s (frame len src n : Z) : Prop := {
  er_len : 8 ≤ n < 65516 ∧ 34 + n ≤ len;
  er_area : kept_area (nt_heap s) frame len;
  er_bytes : bytes_ok (nt_mem s) frame len;
  er_type : nt_mem s (frame + 12) = 8 ∧ nt_mem s (frame + 13) = 0;
  er_ihl : nt_mem s (frame + 14) = 0x45;
  er_total : ntohs (load16 (nt_mem s) (frame + 16)) = 20 + n;
  er_proto : nt_mem s (frame + 23) = IP_PROTO_ICMP;
  er_check : checks (bytes_at (nt_mem s) (frame + 14) 20);
  er_src : ntohl (load32 (nt_mem s) (frame + 26)) = src;
  er_dst : ntohl (load32 (nt_mem s) (frame + 30)) = g_my_ip s;
  er_icmp : nt_mem s (frame + 34) = ICMP_ECHO_REQUEST ∧ checks (bytes_at (nt_mem s) (frame + 34) n);
}.

(** The way of such a frame to [icmp_rx]: it gets there unless the low byte of
    the packet's length is less than the header's 20. *)
Lemma eth_rx_echo s dev frame len src n :
  echo_request s frame len src n →
  eth_rx dev_send dev frame len s
  = if u8 (len - 14) <? 20 then Some s else icmp_rx dev_send dev (frame + 14) (frame + 34) n s.
Proof.
  intros [(Hn & Hl) _ Hb [Ht1 Ht2] Hihl Htot Hpr Hck Hsrc Hdst _]. unfold eth_rx, ETH_HEADER_LEN.
  destruct (Z.ltb_spec len 14); [lia|].
  assert (load16 (nt_mem s) (frame + 12) = 8) as ->.
  { unfold load16. cbn [load_le]. replace (frame + 12 + 1) with (frame + 13) by lia. by rewrite Ht1, Ht2. }
  change (ntohs 8 =? ETH_TYPE_ARP) with false. change (ntohs 8 =? ETH_TYPE_IPV4) with true. cbv iota.
  unfold ipv4_rx, IPV4_HEADER_SIZE. destruct (Z.ltb_spec (len - 14) 20); [lia|]. rewrite Hihl.
  change (u8 (Z.land 0x45 0xF * 4)) with 20. change (20 <? 20) with false. cbn [orb].
  destruct (u8 (len - 14) <? 20); [done|].
  apply checks_bytes_at in Hck; [|lia|intros b Hbb; apply Hb; lia]. rewrite Hck. cbn [mbind option_bind Z.eqb negb].
  replace (frame + 14 + 16) with (frame + 30) by lia. replace (frame + 14 + 2) with (frame + 16) by lia.
  replace (frame + 14 + 9) with (frame + 23) by lia. replace (frame + 14 + 20) with (frame + 34) by lia.
  rewrite Hdst, Z.eqb_refl, Hpr, Z.eqb_refl, Htot. cbn [negb]. rewrite u64_small by lia. by replace (20 + n - 20) with n by lia.
Qed.

(** C24: Ping.  A received frame with a well-formed ICMP echo request to our
    address, its checksums right by the definition of RFC 1071, and whose sender
    is in the ARP cache, makes the stack send exactly one frame: to the sender's
    hardware address, with an IPv4 header from us to the sender whose checksum
    is right, and the request's message with type 0 and a checksum that is
    right.  The three buffers taken from the heap are given back, and no other
    block changes.  That is when the low byte of the packet's length is at
    least 20: [ipv4_rx] compares the header's length with that byte alone, and
    drops the same request silently when it is less. *)
Theorem ping_answered s dev mac frame len src dmac n k :
  heap_inv (nt_heap s) → sender s dev mac → cached s src dmac → echo_request s frame len src n → 0 ≤ k →
  heap_room (echo_pages n + k) (nt_heap s) →
  (20 ≤ (len - 14) mod 256 →
   ∃ c c1 s', let hdr := ipv4_hdr (20 + n) (g_ip_id s) IP_PROTO_ICMP (g_my_ip s) src c in
     let msg := echo_reply (bytes_at (nt_mem s) (frame + 34) n) c1 in
     eth_rx dev_send dev frame len s = Some s'
     ∧ sent s' = sent s ++ [(dev, eth_frame dmac mac ETH_TYPE_IPV4 (hdr ++ msg))]
     ∧ checks hdr ∧ checks msg ∧ balanced k (nt_heap s) (nt_heap s'))
  ∧ ((len - 14) mod 256 < 20 → eth_rx dev_send dev frame len s = Some s).
Proof.
  intros Hi Hsd Hca Her Hk Hroom. rewrite (eth_rx_echo _ _ _ _ _ _ Her). change (u8 (len - 14)) with ((len - 14) mod 256).
  destruct Her as [(Hn & Hl) Har Hb _ _ _ _ _ Hsrc _ [Hic Hcc]].
  destruct (Z.ltb_spec ((len - 14) mod 256) 20) as [Hu|Hu]; (split; intros Hu'; [|done || lia]); [lia|].
  destruct (icmp_echo_spec dev_send s dev mac (frame + 14) (frame + 34) n src dmac k Hi Hsd Hca Hn Hk) as (c & c1 & h' & Hc & Hm & E & Hbal).
  - apply (kept_part _ _ _ _ _ Har); lia.
  - apply (kept_part _ _ _ _ _ Har); lia.
  - intros b Hbb. apply Hb. lia.
  - apply checks_bytes_at; [lia|intros b Hbb; apply Hb; lia|done].
  - done.
  - rewrite <-Hsrc. do 2 f_equal. lia.
  - done.
  - exists c, c1. cbv zeta. eexists. split_and!; [exact E|done|exact Hc|exact Hm|exact Hbal].
Qed.

(** C39: No ARP request is answered.  [ipv4_init] stores the address in host
    order, but [arp_rx] compares a request's target with the swapped address:
    unless the address is its own reverse, a request for it sends nothing. *)
Theorem arp_request_unanswered s ip dev data len :
  let s0 := ipv4_init ip s in
  ARP_PACKET_SIZE ≤ len → ntohs (load16 (nt_mem s0) (data + 6)) = ARP_REQUEST →
  ntohl (load32 (nt_mem s0) (data + 24)) = ip → ntohl ip ≠ ip →
  ∃ s', arp_rx dev_send dev data len s0 = Some s' ∧ sent s' = sent s.
Proof.
  intros s0 Hl Hop Htg Hne. unfold arp_rx. destruct (Z.ltb_spec len ARP_PACKET_SIZE); [lia|]. cbv zeta.
  change (my_ip (set_arp _ (my_ip s0) s0)) with ip. rewrite Htg. apply not_eq_sym, Z.eqb_neq in Hne as ->.
  rewrite andb_false_r. eexists. split; [reflexivity|done].
Qed.
End properties.

(** ** Samples *)

(** An echo request with the message hi from 10.0.0.1 to 10.0.0.2. *)
Definition sample_frame : list Z :=
  [2; 0; 0; 0; 0; 2; 2; 0; 0; 0; 0; 1; 8; 0; 69; 0; 0; 30; 0; 9; 0; 0; 64; 1; 102; 212; 10; 0; 0; 1; 10; 0; 0; 2;
   8; 0; 143; 142; 0; 1; 0; 7; 104; 105].

(** One with 228 zero bytes: the packet is 256 bytes long. *)
Definition long_frame : list Z :=
  [2; 0; 0; 0; 0; 2; 2; 0; 0; 0; 0; 1; 8; 0; 69; 0; 1; 0; 0; 9; 0; 0; 64; 1; 101; 242; 10; 0; 0; 1; 10; 0; 0; 2;
   8; 0; 247; 247; 0; 1; 0; 7] ++ replicate 228 0.

Definition sample_net (m : mem) (p : pmm) : net pmm :=
  {| nt_heap := set_hmem (sample_heap p) m;
     nt_devices := {[5 := {| d_name := [101]; d_mac := [2; 0; 0; 0; 0; 2]; d_up := true; d_send := true |}]};
     devs := λ _, 0; dev_cnt := 0; rx_handler := None;
     arp_cache := λ _, {| ae_ip := 0x0A000001; ae_mac := [2; 0; 0; 0; 0; 1]; ae_valid := true |};
     my_ip := 0x0A000002; g_my_ip := 0x0A000002; g_ip_id := 1; sent := [] |}.

Lemma ipv4_checksum_correct_witness : ∃ c, ipv4_checksum (lit [8; 0; 0; 0; 0; 1]) 0 6 = Some c
  ∧ checks (bytes_at (store16 (lit [8; 0; 0; 0; 0; 1]) 2 c) 0 6).
Proof.
  destruct (ipv4_checksum_correct (lit [8; 0; 0; 0; 0; 1]) 0 6) as (c & E & _ & _ & Hc);
    [lia|intros b Hb; apply lit_bytes_ok; repeat constructor; lia|].
  exists c. split; [exact E|]. apply (Hc 1); [lia|lia|reflexivity].
Defined.

Lemma ping_answered_witness :
  (∃ (s s' : net pmm) fr, eth_rx (λ _ _, 0) 5 0 44 s = Some s' ∧ sent s' = [(5, fr)])
  ∧ ∃ (s : net pmm), eth_rx (λ _ _, 0) 5 0 270 s = Some s ∧ sent s = [].
Proof.
  destruct sample_before_init as (p & _ & Hi & Hsz). split.
  - destruct (ping_answered (λ _ _, 0) (sample_net (lit sample_frame) p) 5 [2; 0; 0; 0; 0; 2] 0 44 0x0A000001 [2; 0; 0; 0; 0; 1] 10 0)
      as [(c & c1 & s' & E & Hs & _) _].
    + by apply inv_hmem.
    + split_and!; [done|done|]. eexists. split; [apply lookup_singleton_eq|done].
    + split; [done|]. exists 0. done.
    + split; try reflexivity; try done; [by left|]. intros b Hb. apply lit_bytes_ok. repeat constructor; lia.
    + lia.
    + split; [change (echo_pages 10 + 0) with 3; cbn [sample_net nt_heap set_hmem hp_vm sample_heap] in *; lia|by vm_compute].
    + by vm_compute.
    + eexists _, s', _. split; [exact E|]. rewrite Hs. reflexivity.
  - destruct (ping_answered (λ _ _, 0) (sample_net (lit long_frame) p) 5 [2; 0; 0; 0; 0; 2] 0 270 0x0A000001 [2; 0; 0; 0; 0; 1] 236 0)
      as [_ E].
    + by apply inv_hmem.
    + split_and!; [done|done|]. eexists. split; [apply lookup_singleton_eq|done].
    + split; [done|]. exists 0. done.
    + split; try reflexivity; try done; [by left|]. intros b Hb. apply lit_bytes_ok. repeat constructor; lia.
    + lia.
    + split; [change (echo_pages 236 + 0) with 3; cbn [sample_net nt_heap set_hmem hp_vm sample_heap] in *; lia|by vm_compute].
    + exists (sample_net (lit long_frame) p). split; [apply E; by vm_compute|done].
Defined.

Lemma arp_request_unanswered_witness :
  ∃ (s s' : net pmm), arp_rx (λ _ _, 0) 5 0 28 (ipv4_init 0x0A000002 s) = Some s' ∧ sent s' = [].
Proof.
  exists (sample_net (lit (arp_packet ARP_REQUEST [2; 0; 0; 0; 0; 1] (htonl 0x0A000001) [0; 0; 0; 0; 0; 0] (htonl 0x0A000002))) (one_free 300)).
  destruct (arp_request_unanswered (λ _ _, 0)
    (sample_net (lit (arp_packet ARP_REQUEST [2; 0; 0; 0; 0; 1] (htonl 0x0A000001) [0; 0; 0; 0; 0; 0] (htonl 0x0A000002))) (one_free 300))
    0x0A000002 5 0 28) as (s' & E & Hs); [by vm_compute|by vm_compute|by vm_compute|by vm_compute|].
  exists s'. split; [exact E|exact Hs].
Defined.
