(* ===== verification/Elf.v ===== *)
(** Model of kernel/elf/elf.c: the ELF64 loader.

    The image is the function of its bytes, [elf_data], with its length
    [elf_size]; the reads that the code does not check against the length are
    checked here, and fail where the code would read outside the image.  Offsets
    are 64-bit.  Segments are written to physical memory through the identity
    map, as the code does.  Serial output is left out. *)
From stdpp Require Import prelude gmap.
From S2P Require Import Prelude CString FrameAlloc Vmm Heap Sched.

Definition ELF_MAGIC : Z := 0x464C457F.
Definition ET_EXEC : Z := 2.
Definition EM_X86_64 : Z := 62.
Definition EV_CURRENT : Z := 1.
Definition ELFCLASS64 : Z := 2.
Definition ELFDATA2LSB : Z := 1.
Definition PT_LOAD : Z := 1.
Definition PF_X : Z := Z.shiftl 1 0.
Definition PF_W : Z := Z.shiftl 1 1.
Definition USER_STACK_TOP : Z := 0x00007FFFFFFF0000.
Definition USER_STACK_SIZE : Z := 64 * 1024.
Definition ELF64_HDR_SIZE : Z := 64.
Definition ELF64_PHDR_SIZE : Z := 56.

Record elf64_hdr := {
  e_magic : Z; e_class : Z; e_data : Z;
  e_type : Z; e_machine : Z; e_version : Z;
  e_entry : Z; e_phoff : Z; e_phentsize : Z; e_phnum : Z;
}.

(** The fields of the header the loader uses, at their packed offsets. *)
Definition read_hdr (d : Z → Z) : elf64_hdr :=
  {| e_magic := load_le 4 d 0; e_class := d 4; e_data := d 5; e_type := load_le 2 d 16; e_machine := load_le 2 d 18;
     e_version := load_le 4 d 20; e_entry := load_le 8 d 24; e_phoff := load_le 8 d 32; e_phentsize := load_le 2 d 54;
     e_phnum := load_le 2 d 56 |}.

Record elf64_phdr := { p_type : Z; p_flags : Z; p_offset : Z; p_vaddr : Z; p_filesz : Z; p_memsz : Z }.

(** [p_type] of the header at [off]: [None] when it is not inside the image. *)
Definition read_type (d : Z → Z) (size_ off : Z) : option Z :=
  if off + 4 <=? size_ then Some (load_le 4 d off) else None.

(** The header at [off], likewise. *)
Definition read_phdr (d : Z → Z) (size_ off : Z) : option elf64_phdr :=
  if off + ELF64_PHDR_SIZE <=? size_ then
    Some {| p_type := load_le 4 d off; p_flags := load_le 4 d (off + 4); p_offset := load_le 8 d (off + 8);
            p_vaddr := load_le 8 d (off + 16); p_filesz := load_le 8 d (off + 32); p_memsz := load_le 8 d (off + 40) |}
  else None.

Definition elf_flags_to_vmm (pf : Z) : Z :=
  let flags := Z.lor VMM_PRESENT VMM_USER in
  let flags := if Z.land pf PF_W =? 0 then flags else Z.lor flags VMM_WRITABLE in
  if Z.land pf PF_X =? 0 then Z.lor flags VMM_NO_EXEC else flags.

Definition elf_validate (d : Z → Z) (size_ : Z) : Z :=
  let hdr := read_hdr d in
  if size_ <? ELF64_HDR_SIZE then -1
  else if negb (e_magic hdr =? ELF_MAGIC) then -1
  else if negb (e_class hdr =? ELFCLASS64) then -1
  else if negb (e_data hdr =? ELFDATA2LSB) then -1
  else if negb (e_type hdr =? ET_EXEC) then -1
  else if negb (e_machine hdr =? EM_X86_64) then -1
  else if negb (e_version hdr =? EV_CURRENT) then -1
  else if e_phentsize hdr <? ELF64_PHDR_SIZE then -1
  else if e_phnum hdr =? 0 then -1
  else if e_entry hdr =? 0 then -1
  else 0.

(** [memcpy(dst, elf_data + off, len)] into physical memory. *)
Fixpoint copy_in (n : nat) (d : Z → Z) (off dst : Z) (m : mem) : mem :=
  match n with
  | O => m
  | S n' => copy_in n' d (off + 1) (dst + 1) (upd m dst (d off))
  end.

Definition copy_image (d : Z → Z) (size_ off dst len : Z) (m : mem) : option mem :=
  if off + len <=? size_ then Some (copy_in (Z.to_nat len) d off dst m) else None.

(** The part of [elf_map_segment]'s loop body that copies file data to the page
    at [page_phys], mapped at [page_va]. *)
Definition copy_page (d : Z → Z) (size_ : Z) (ph : elf64_phdr) (page_va page_phys : Z) (m : mem) : option mem :=
  let page_start := page_va in
  let page_end := u64 (page_va + PAGE_SIZE) in
  let seg_start := p_vaddr ph in
  let seg_fend := u64 (p_vaddr ph + p_filesz ph) in
  let copy_va_start := if page_start <? seg_start then seg_start else page_start in
  let copy_va_end := if seg_fend <? page_end then seg_fend else page_end in
  if (copy_va_start <? copy_va_end) && (copy_va_start <? seg_fend) then
    let dst_off := u64 (copy_va_start - page_start) in
    let src_off := u64 (copy_va_start - seg_start) in
    copy_image d size_ (u64 (p_offset ph + src_off)) (u64 (page_phys + dst_off)) (copy_va_end - copy_va_start) m
  else Some m.

Section ops.
Context {A : Type} `{FrameOps A}.

(** The loop of [elf_map_segment] from page [i] on, with [n] pages left. *)
Fixpoint segment_loop (n : nat) (i pml4 va_start vmm_flags : Z) (d : Z → Z) (size_ : Z) (ph : elf64_phdr) (s : vmm A)
    : option (Z * vmm A) :=
  match n with
  | O => Some (0, s)
  | S n' =>
      '(phys_page, s1) ← pmm_alloc_vm s;
      if phys_page =? 0 then Some (-1, s1)
      else
        let page_va := u64 (va_start + i * PAGE_SIZE) in
        s2 ← vmm_map pml4 page_va phys_page vmm_flags s1;
        m ← copy_page d size_ ph page_va phys_page (vm_mem s2);
        segment_loop n' (i + 1) pml4 va_start vmm_flags d size_ ph (set_mem s2 m)
  end.

Definition elf_map_segment (pml4 : Z) (d : Z → Z) (size_ : Z) (ph : elf64_phdr) (s : vmm A) : option (Z * vmm A) :=
  if p_memsz ph =? 0 then Some (0, s)
  else if (0 <? p_filesz ph) && (size_ <? u64 (p_offset ph + p_filesz ph)) then Some (-1, s)
  else
    let va_start := ALIGN_DOWN (p_vaddr ph) PAGE_SIZE in
    let va_end := ALIGN_UP (u64 (p_vaddr ph + p_memsz ph)) PAGE_SIZE in
    let num_pages := u64 (va_end - va_start) / PAGE_SIZE in
    segment_loop (Z.to_nat num_pages) 0 pml4 va_start (elf_flags_to_vmm (p_flags ph)) d size_ ph s.

(** The loop over the program headers from [i] on, with [n] left. *)
Fixpoint segments_loop (n : nat) (i pml4 : Z) (d : Z → Z) (size_ : Z) (s : vmm A) : option (Z * vmm A) :=
  match n with
  | O => Some (0, s)
  | S n' =>
      let hdr := read_hdr d in
      let off := u64 (e_phoff hdr + i * e_phentsize hdr) in
      type ← read_type d size_ off;
      if negb (type =? PT_LOAD) then segments_loop n' (i + 1) pml4 d size_ s
      else
        ph ← read_phdr d size_ off;
        '(r, s1) ← elf_map_segment pml4 d size_ ph s;
        if negb (r =? 0) then Some (-1, s1) else segments_loop n' (i + 1) pml4 d size_ s1
  end.

(** The null return address at the top of the new stack. *)
Definition null_return (pml4 user_rsp : Z) (s : vmm A) : vmm A :=
  let rsp_phys := vmm_translate pml4 (Z.land user_rsp (u64 (Z.lnot 7))) (vm_mem s) in
  if rsp_phys =? 0 then s
  else set_mem s (store64 (vm_mem s) (u64 (rsp_phys + Z.land user_rsp 0xFFF)) 0).

(** The address space of the new process; 0 for NULL. *)
Definition elf_address_space (d : Z → Z) (size_ : Z) (s : vmm A) : option (Z * vmm A) :=
  '(pml4, s1) ← vmm_create_address_space s;
  if pml4 =? 0 then Some (0, s1)
  else
    '(r, s2) ← segments_loop (Z.to_nat (e_phnum (read_hdr d))) 0 pml4 d size_ s1;
    if negb (r =? 0) then Some (0, s2)
    else
      '(r1, s3) ← vmm_alloc_range pml4 (USER_STACK_TOP - USER_STACK_SIZE) USER_STACK_SIZE
                    (Z.lor VMM_USER_RW VMM_NO_EXEC) s2;
      if negb (r1 =? 0) then Some (0, s3) else Some (pml4, null_return pml4 (USER_STACK_TOP - 8) s3).

(** Addresses the kernel image fixes, as in Sched. *)
Context (sched_exit_addr ring3_enter_first_addr : Z).

Definition elf_load (name : Z → Z) (d : Z → Z) (size_ priority : Z) (s : sched A) : option (Z * sched A) :=
  if negb (elf_validate d size_ =? 0) then Some (0, s)
  else
    '(pml4, v) ← elf_address_space d size_ (hp_vm (sc_heap s));
    let s1 := with_heap (set_vm (sc_heap s) v (hp_mem (sc_heap s))) s in
    if pml4 =? 0 then Some (0, s1)
    else
      '(t, s2) ← sched_create_user_task sched_exit_addr ring3_enter_first_addr name (e_entry (read_hdr d))
                   (USER_STACK_TOP - 8) pml4 priority s1;
      if t =? 0 then Some (0, s2) else s3 ← sched_enqueue t s2; Some (t, s3).
End ops.
