(* ===== verification/ElfMap.v ===== *)
(** Loading one segment: what [elf_map_segment] of kernel/elf/elf.c leaves in
    the new address space. *)
From stdpp Require Import prelude gmap.
From S2P Require Import Prelude CString FrameAlloc Vmm VmmWf VmmSpec VmmRange Heap Sched Elf.

(** The byte of a segment at virtual address [va]: file data, then zeros. *)
Definition image (d : Z → Z) (ph : elf64_phdr) (va : Z) : Z :=
  if decide (p_vaddr ph ≤ va < p_vaddr ph + p_filesz ph) then d (p_offset ph + (va - p_vaddr ph)) else 0.

(** A segment inside the image, in the lower half of the address space. *)
Record segment_ok (size_ : Z) (ph : elf64_phdr) : Prop := {
  sg_mem : 0 ≤ p_filesz ph ≤ p_memsz ph;
  sg_range : 0 ≤ p_vaddr ph ∧ p_vaddr ph + p_memsz ph ≤ 2 ^ 47;
  sg_file : 0 ≤ p_offset ph ∧ p_offset ph + p_filesz ph ≤ size_;
  sg_size : size_ < 2 ^ 64;
}.

Lemma copy_in_spec n d off dst m a :
  copy_in n d off dst m a = if decide (dst ≤ a < dst + Z.of_nat n) then d (off + (a - dst)) else m a.
Proof.
  revert off dst m. induction n as [|n IH]; intros off dst m; cbn [copy_in]; [by rewrite decide_False by lia|].
  rewrite IH. destruct (decide (dst + 1 ≤ a < dst + 1 + Z.of_nat n)).
  - rewrite decide_True by lia. f_equal. lia.
  - unfold upd. destruct (Z.eqb_spec a dst) as [->|]; [rewrite decide_True by lia; f_equal; lia|by rewrite decide_False by lia].
Qed.

Lemma elf_flags_ok pf : flags_ok (elf_flags_to_vmm pf).
Proof. unfold elf_flags_to_vmm. destruct (Z.land pf PF_W =? 0), (Z.land pf PF_X =? 0); unfold flags_ok; by vm_compute. Qed.

(** A page of zeros becomes the page of the segment. *)
Lemma copy_page_spec d size_ ph va f m :
  segment_ok size_ ph → 0 ≤ va → va + PAGE_SIZE ≤ 2 ^ 48 → 0 ≤ f < 2 ^ 40 → (∀ a, in_frame f a → m a = 0) →
  ∃ m', copy_page d size_ ph va (f * PAGE_SIZE) m = Some m'
    ∧ (∀ o, 0 ≤ o < PAGE_SIZE → m' (f * PAGE_SIZE + o) = image d ph (va + o))
    ∧ ∀ a, ¬ in_frame f a → m' a = m a.
Proof.
  intros [S1 S2 S3 S4] Hva Hv Hf Hz. unfold copy_page. rewrite (u64_small (va + PAGE_SIZE)) by (unfold PAGE_SIZE in *; lia).
  rewrite (u64_small (p_vaddr ph + p_filesz ph)) by lia.
  assert ((if va <? p_vaddr ph then p_vaddr ph else va) = Z.max va (p_vaddr ph)) as -> by (destruct (Z.ltb_spec va (p_vaddr ph)); lia).
  assert ((if p_vaddr ph + p_filesz ph <? va + PAGE_SIZE then p_vaddr ph + p_filesz ph else va + PAGE_SIZE)
          = Z.min (va + PAGE_SIZE) (p_vaddr ph + p_filesz ph)) as ->
    by (destruct (Z.ltb_spec (p_vaddr ph + p_filesz ph) (va + PAGE_SIZE)); lia).
  set (cs := Z.max va (p_vaddr ph)). set (ce := Z.min (va + PAGE_SIZE) (p_vaddr ph + p_filesz ph)).
  destruct (Z.ltb_spec cs ce) as [Hlt|Hge]; cbn [andb].
  - destruct (Z.ltb_spec cs (p_vaddr ph + p_filesz ph)); [|lia].
    rewrite (u64_small (cs - va)), (u64_small (cs - p_vaddr ph)) by lia.
    rewrite (u64_small (p_offset ph + _)), (u64_small (f * PAGE_SIZE + _)) by (unfold PAGE_SIZE in *; lia).
    unfold copy_image. destruct (Z.leb_spec (p_offset ph + (cs - p_vaddr ph) + (ce - cs)) size_); [|lia].
    eexists. split; [reflexivity|]. split.
    + intros o Ho. rewrite copy_in_spec. unfold image. destruct (decide (p_vaddr ph ≤ va + o < p_vaddr ph + p_filesz ph)).
      * rewrite decide_True by lia. f_equal. lia.
      * rewrite decide_False by lia. apply Hz. unfold in_frame, PAGE_SIZE in *. lia.
    + intros a Ha. rewrite copy_in_spec, decide_False; [done|]. unfold in_frame, PAGE_SIZE in *. lia.
  - exists m. split; [done|]. split; [|done]. intros o Ho. unfold image. rewrite decide_False by lia. apply Hz.
    unfold in_frame, PAGE_SIZE in *. lia.
Qed.

Section load.
Context {A : Type} `{FrameAllocator A}.
Implicit Types (s : vmm A) (T : gmap Z label).

(** Writing to a frame that was free and is not a table. *)
Lemma ext_write T s T' s' f m :
  vm_ext T s T' s' → f ∈ frames s → (f ∉ frames s') → T' !! f = None → (∀ a, ¬ in_frame f a → m a = vm_mem s' a) →
  vm_ext T s T' (set_mem s' m)
  ∧ ∀ r v, is_root T' r → vmm_translate (r * PAGE_SIZE) v m = vmm_translate (r * PAGE_SIZE) v (vm_mem s').
Proof.
  intros Hext Hf Hf' HT Hm.
  assert (∀ g o π i, T' !! g = Some (o, π) → 0 ≤ i < 512 → entry m (g * PAGE_SIZE) i = entry (vm_mem s') (g * PAGE_SIZE) i) as He.
  { intros g o π i Hg Hi. apply entry_frame; [done|]. intros b Hb. apply Hm. intros Hb'.
    assert (g = f) as -> by (unfold in_frame, PAGE_SIZE in *; lia). congruence. }
  assert (pt_wf T' (set_mem s' m)) as Hwf'.
  { eapply pt_wf_mem; [apply Hext|apply (wf_alloc _ _ (ext_wf _ _ _ _ Hext))|done|]. intros. by eapply He. }
  split.
  - destruct Hext as [X1 X2 X3 X4 X5 X6 X7 X8]. split; [done|done|done|exact X4|done| | |exact X8].
    + intros g [o π0] π t Hg Hlen Hi Hw. cbn [set_mem vm_mem]. rewrite (walk_ext T' s' m g o π0 π X5); [by apply (X6 g (o, π0))| | | |].
      * by apply (lookup_weaken _ _ _ _ Hg).
      * done.
      * done.
      * intros. by eapply He.
    + intros g a Ha Hg Hn. cbn [set_mem vm_mem]. rewrite Hm; [by apply (X7 g)|]. intros Ha'.
      assert (g = f) as -> by (unfold in_frame, PAGE_SIZE in *; lia). done.
  - intros r v Hr. change m with (vm_mem (set_mem s' m)). eapply same_translate; [apply Hext|exact Hwf'|done|done|].
    cbn [set_mem vm_mem]. unfold pte. rewrite (walk_ext T' s' m r r [] (path v) (ext_wf _ _ _ _ Hext) Hr ltac:(simpl; lia) (path_idx v))
      by (intros; by eapply He).
    destruct (walk (vm_mem s') _ _) as [t|] eqn:Ew; [|done].
    destruct (walk_label T' s' r r [] (path v) t (ext_wf _ _ _ _ Hext) Hr ltac:(simpl; lia) (path_idx v) Ew) as (g & -> & Hg).
    eapply He; [done|]. apply idx_range. lia.
Qed.

(** The body of the loop is [vmm_alloc_map] and the copy. *)
Lemma segment_loop_S n i pml4 va fl d size_ ph s :
  segment_loop (S n) i pml4 va fl d size_ ph s
  = ('(x, s2) ← vmm_alloc_map pml4 (u64 (va + i * PAGE_SIZE)) fl s;
     if x =? 0 then Some (-1, s2)
     else m ← copy_page d size_ ph (u64 (va + i * PAGE_SIZE)) x (vm_mem s2);
          segment_loop n (i + 1) pml4 va fl d size_ ph (set_mem s2 m)).
Proof.
  cbn [segment_loop]. unfold vmm_alloc_map. destruct (pmm_alloc_vm s) as [[x s1]|]; [|done]. cbn [mbind option_bind].
  destruct (x =? 0) eqn:E; cbn [mbind option_bind]; [done|]. destruct (vmm_map _ _ _ _ s1) as [s2|]; [|done].
  cbn [mbind option_bind]. by rewrite E.
Qed.

(** The frames of the pages from page [i] on, their contents, and the
    translations that lead there. *)
Record loaded T s (r va i : Z) (n : nat) (d : Z → Z) (ph : elf64_phdr) T' s' (fs : list Z) : Prop := {
  ld_len : length fs = n;
  ld_nodup : NoDup fs;
  ld_frame : ∀ k f, fs !! k = Some f → f ∈ frames s ∧ (f ∉ frames s') ∧ T' !! f = None
    ∧ ∀ o, 0 ≤ o < PAGE_SIZE → vm_mem s' (f * PAGE_SIZE + o) = image d ph (va + (i + Z.of_nat k) * PAGE_SIZE + o);
  ld_map : ∀ v, vmm_translate (r * PAGE_SIZE) v (vm_mem s')
    = let j := page_off (va / PAGE_SIZE) v in
      if decide (i ≤ j < i + Z.of_nat n) then mapped_to (nth (Z.to_nat (j - i)) fs 0 * PAGE_SIZE) v
      else vmm_translate (r * PAGE_SIZE) v (vm_mem s);
}.

Lemma segment_loop_spec n i T s r va fl d size_ ph :
  pt_wf T s → is_root T r → flags_ok fl → segment_ok size_ ph → 0 ≤ va → 0 ≤ i →
  va + (i + Z.of_nat n) * PAGE_SIZE ≤ 2 ^ 48 →
  ∃ rc s' T', segment_loop n i (r * PAGE_SIZE) va fl d size_ ph s = Some (rc, s') ∧ vm_ext T s T' s'
    ∧ (rc = 0 ∨ rc = -1 ∧ frames s' = ∅) ∧ (size (frames s) ≤ size (frames s') + 4 * n)%nat
    ∧ (rc = 0 → frames s' ≠ ∅ → ∃ fs, loaded T s r va i n d ph T' s' fs).
Proof.
  intros Hwf0 Hr0 Hfl Hsg Hva. revert i T s Hwf0 Hr0. induction n as [|n IH]; intros i T s Hwf Hr Hi Hn.
  { exists 0, s, T. split_and!; [done|by apply vm_ext_refl|by left|lia|]. intros _ _. exists [].
    split; [done|constructor|done|]. intros v. cbv zeta. by rewrite decide_False by lia. }
  assert (0 ≤ va + i * PAGE_SIZE < 2 ^ 48) as Hpv by (unfold PAGE_SIZE in *; lia).
  rewrite segment_loop_S. rewrite (u64_small (va + i * PAGE_SIZE)) by lia.
  destruct (vmm_alloc_map_spec T s r (va + i * PAGE_SIZE) fl Hwf Hr Hfl) as (x & s1 & T1 & -> & Hext1 & Hs1 & Hother & Hres).
  cbn [mbind option_bind].
  destruct Hres as [(-> & Hemp)|(f & -> & Hnz & Hf & Hf1 & HTf & Hzero & Hmap)].
  { exists (-1), s1, T1. split_and!; [done|done| |rewrite Hemp, size_empty; lia|done]. right. split; [done|].
    pose proof (ext_frames _ _ _ _ Hext1). set_solver. }
  apply Z.eqb_neq in Hnz as ->. pose proof (fa_frame_range _ _ (wf_alloc _ _ Hwf) Hf) as Hfb. pose proof fa_bound_range as Hbd.
  destruct (copy_page_spec d size_ ph (va + i * PAGE_SIZE) f (vm_mem s1) Hsg) as (m & -> & Hm1 & Hm2);
    [lia|unfold PAGE_SIZE in *; lia|lia|done|]. cbn [mbind option_bind].
  destruct (ext_write T s T1 s1 f m Hext1 Hf Hf1 HTf Hm2) as [Hext2 Htr2].
  pose proof (ext_root _ _ _ _ _ Hext2 Hr) as Hr2.
  destruct (IH (i + 1) T1 (set_mem s1 m)) as (rc & s' & T' & -> & Hext' & Hrc & Hs' & Hok);
    [apply Hext2|done|lia|unfold PAGE_SIZE in *; lia|]. change (frames (set_mem s1 m)) with (frames s1) in *.
  exists rc, s', T'. split_and!; [done|by eapply vm_ext_trans|done|lia|]. intros Hrc0 Hne.
  destruct (Hok Hrc0 Hne) as (fs & [Hlen Hnd Hfs Htr]). exists (f :: fs).
  destruct Hmap as [[Hemp _]|[_ Hmap]].
  { destruct Hne. pose proof (ext_frames _ _ _ _ Hext') as Hsub. change (frames (set_mem s1 m)) with (frames s1) in Hsub. set_solver. }
  split; [simpl; lia| | |].
  - constructor; [|done]. intros Hin. apply list_elem_of_lookup in Hin as [k Hk]. destruct (Hfs k f Hk) as (Hin' & _). done.
  - intros [|k] g Hg.
    + injection Hg as <-. split_and!; [done| | |].
      * intros Hin. by apply Hf1, (ext_frames _ _ _ _ Hext').
      * apply eq_None_not_Some. intros Hs. destruct (ext_new _ _ _ _ Hext' f Hs) as [[? ?]|?]; [congruence|done].
      * intros o Ho. rewrite (ext_data _ _ _ _ Hext' f); [|unfold in_frame, PAGE_SIZE in *; lia|done|done]. cbn [set_mem vm_mem].
        rewrite Hm1 by done. f_equal. lia.
    + destruct (Hfs k g Hg) as (G1 & G2 & G3 & G4). split_and!; [by apply (ext_frames _ _ _ _ Hext1)|done|done|].
      intros o Ho. rewrite G4 by done. f_equal. lia.
  - intros v. rewrite Htr. cbn [set_mem vm_mem]. rewrite (Htr2 r v Hr2), Hmap. cbv zeta. set (j := page_off (va / PAGE_SIZE) v).
    assert (vpn v = vpn (va + i * PAGE_SIZE) ↔ j = i) as Hvj.
    { unfold j. rewrite <-page_off_eq by (unfold PAGE_SIZE in *; lia). by rewrite <-vpn_range_page, vpn_u64. }
    destruct (decide (j = i)) as [Ej|Ej].
    + rewrite (decide_False (P := i + 1 ≤ _ < _)) by lia. rewrite decide_True by (by apply Hvj). rewrite decide_True by lia.
      by rewrite Ej, Z.sub_diag.
    + rewrite (decide_False (P := vpn v = _)) by (by rewrite Hvj).
      destruct (decide (i + 1 ≤ j < i + 1 + Z.of_nat n)).
      * rewrite decide_True by lia. replace (Z.to_nat (j - i)) with (S (Z.to_nat (j - (i + 1)))) by lia. done.
      * by rewrite decide_False by lia.
Qed.
End load.
