(* ===== verification/ElfProps.v ===== *)
(** The properties of kernel/elf/elf.c. *)
From stdpp Require Import prelude gmap.
From S2P Require Import Prelude CString FrameAlloc Bitmap Pmm Vmm VmmWf VmmSpec VmmRange VmmProps Heap HeapMap HeapSlab HeapList HeapInv HeapOps HeapApi HeapRefine HeapProps Sched SchedCreate SchedProps Elf ElfMap.

Section properties.
Context {A : Type} `{FrameAllocator A}.
Implicit Types (s : vmm A) (T : gmap Z label).

(** The pages a segment covers. *)
Definition seg_start (ph : elf64_phdr) : Z := p_vaddr ph / PAGE_SIZE * PAGE_SIZE.
Definition seg_end (ph : elf64_phdr) : Z := (p_vaddr ph + p_memsz ph + PAGE_SIZE - 1) / PAGE_SIZE * PAGE_SIZE.

Lemma elf_map_segment_loop r d size_ ph s :
  segment_ok size_ ph → 0 < p_memsz ph →
  elf_map_segment (r * PAGE_SIZE) d size_ ph s
  = segment_loop (Z.to_nat ((seg_end ph - seg_start ph) / PAGE_SIZE)) 0 (r * PAGE_SIZE) (seg_start ph)
      (elf_flags_to_vmm (p_flags ph)) d size_ ph s.
Proof.
  intros [S1 S2 S3 S4] Hm. unfold elf_map_segment. destruct (Z.eqb_spec (p_memsz ph) 0); [lia|].
  rewrite (u64_small (p_offset ph + p_filesz ph)) by lia. destruct (Z.ltb_spec size_ (p_offset ph + p_filesz ph)); [lia|].
  rewrite andb_false_r. rewrite (u64_small (p_vaddr ph + p_memsz ph)) by lia. rewrite ALIGN_DOWN_page by lia.
  rewrite ALIGN_UP_page by (unfold PAGE_SIZE; lia). fold (seg_start ph) (seg_end ph). rewrite u64_small; [done|].
  unfold seg_start, seg_end, PAGE_SIZE. Z.to_euclidean_division_equations. lia.
Qed.

(** C11: Loading a segment.  For a segment inside the image and in the lower
    half, [elf_map_segment] answers 0, or -1 with all frames used up; when it
    answers 0 and a frame is left, every address of the segment's pages is
    mapped, each page to a free frame of its own, and the byte there is the
    file's byte or, past the file data, 0.  Addresses of other pages keep their
    translation. *)
Theorem elf_map_segment_correct T s r d size_ ph :
  pt_wf T s → is_root T r → segment_ok size_ ph → 0 < p_memsz ph →
  ∃ rc s' T', elf_map_segment (r * PAGE_SIZE) d size_ ph s = Some (rc, s') ∧ vm_ext T s T' s'
    ∧ (rc = 0 ∨ rc = -1 ∧ frames s' = ∅)
    ∧ (rc = 0 → frames s' ≠ ∅ →
        (∀ va, seg_start ph ≤ va < seg_end ph →
           let a := vmm_translate (r * PAGE_SIZE) va (vm_mem s') in
           a ≠ 0 ∧ a / PAGE_SIZE ∈ frames s ∧ (a / PAGE_SIZE ∉ frames s') ∧ vm_mem s' a = image d ph va)
        ∧ (∀ va vb, seg_start ph ≤ va < seg_end ph → seg_start ph ≤ vb < seg_end ph →
             vmm_translate (r * PAGE_SIZE) va (vm_mem s') = vmm_translate (r * PAGE_SIZE) vb (vm_mem s') → va = vb)
        ∧ ∀ va, 0 ≤ va < 2 ^ 48 → ¬ seg_start ph ≤ va < seg_end ph →
            vmm_translate (r * PAGE_SIZE) va (vm_mem s') = vmm_translate (r * PAGE_SIZE) va (vm_mem s)).
Proof.
  intros Hwf Hr Hsg Hm. rewrite elf_map_segment_loop by done. pose proof Hsg as [S1 S2 S3 S4].
  assert (0 ≤ seg_start ph ∧ seg_start ph < seg_end ph ∧ seg_end ph ≤ 2 ^ 47 ∧ seg_start ph mod PAGE_SIZE = 0 ∧ seg_end ph mod PAGE_SIZE = 0)
    as (B1 & B2 & B3 & B4 & B5).
  { unfold seg_start, seg_end, PAGE_SIZE. Z.to_euclidean_division_equations. lia. }
  set (n := Z.to_nat ((seg_end ph - seg_start ph) / PAGE_SIZE)).
  assert (seg_end ph = seg_start ph + Z.of_nat n * PAGE_SIZE) as En.
  { unfold n, PAGE_SIZE in *. Z.to_euclidean_division_equations. lia. }
  assert (Z.of_nat n ≤ 2 ^ 35) as Hn35 by (unfold PAGE_SIZE in En; lia). clearbody n.
  destruct (segment_loop_spec n 0 T s r (seg_start ph) (elf_flags_to_vmm (p_flags ph)) d size_ ph Hwf Hr (elf_flags_ok _) Hsg)
    as (rc & s' & T' & E & Hext & Hrc & _ & Hok); [lia|lia|unfold PAGE_SIZE in *; lia|].
  exists rc, s', T'. split_and!; [exact E|exact Hext|exact Hrc|]. intros Hrc0 Hne. destruct (Hok Hrc0 Hne) as (fs & [Hlen Hnd Hfs Htr]).
  assert (∀ va, 0 ≤ va < 2 ^ 48 → page_off (seg_start ph / PAGE_SIZE) va = (va / PAGE_SIZE - seg_start ph / PAGE_SIZE) mod 2 ^ 36) as Hpo.
  { intros va Hva. unfold page_off, vpn. by rewrite Zminus_mod_idemp_l. }
  assert (∀ va, seg_start ph ≤ va < seg_end ph → ∃ k f, fs !! k = Some f ∧ Z.of_nat k = va / PAGE_SIZE - seg_start ph / PAGE_SIZE
            ∧ 0 < f < 2 ^ 40 ∧ vmm_translate (r * PAGE_SIZE) va (vm_mem s') = f * PAGE_SIZE + va mod PAGE_SIZE) as Hin.
  { intros va Hva. set (k := va / PAGE_SIZE - seg_start ph / PAGE_SIZE).
    assert (0 ≤ k < Z.of_nat n) as Hk by (unfold k, PAGE_SIZE in *; Z.to_euclidean_division_equations; lia).
    destruct (lookup_lt_is_Some_2 fs (Z.to_nat k)) as [f Hf]; [lia|]. exists (Z.to_nat k), f.
    destruct (Hfs _ _ Hf) as (Hfr & _). pose proof (fa_frame_range _ _ (wf_alloc _ _ Hwf) Hfr). pose proof fa_bound_range.
    split_and!; [done|lia|lia|lia|]. rewrite Htr. cbv zeta. rewrite Hpo by lia. fold k. rewrite Z.mod_small by lia.
    rewrite decide_True by lia. rewrite Z.sub_0_r, (nth_lookup_Some _ _ 0 _ Hf). apply mapped_to_page. lia. }
  split_and!.
  - intros va Hva. destruct (Hin va Hva) as (k & f & Hf & Ek & Hfr & ->). cbv zeta. destruct (Hfs k f Hf) as (G1 & G2 & _ & G4).
    assert ((f * PAGE_SIZE + va mod PAGE_SIZE) / PAGE_SIZE = f) as ->.
    { rewrite Z.div_add_l, (Z.div_small (va mod PAGE_SIZE)) by (done || apply Z.mod_pos_bound; done). lia. }
    split_and!; [pose proof (Z.mod_pos_bound va PAGE_SIZE eq_refl); unfold PAGE_SIZE in *; lia|done|done|].
    rewrite G4 by (apply Z.mod_pos_bound; done). f_equal. unfold PAGE_SIZE in *. Z.to_euclidean_division_equations. lia.
  - intros va vb Hva Hvb. destruct (Hin va Hva) as (k & f & Hf & Ek & Hfr & ->), (Hin vb Hvb) as (k' & f' & Hf' & Ek' & Hfr' & ->).
    intros Heq. assert (f = f' ∧ va mod PAGE_SIZE = vb mod PAGE_SIZE) as [-> Hmod].
    { unfold PAGE_SIZE in *. Z.to_euclidean_division_equations. lia. }
    assert (k = k') as -> by (by eapply NoDup_lookup). unfold PAGE_SIZE in *. Z.to_euclidean_division_equations. lia.
  - intros va Hva Hout. rewrite Htr. cbv zeta. rewrite Hpo by done. rewrite decide_False; [done|]. intros Hj. apply Hout.
    unfold PAGE_SIZE in *. Z.to_euclidean_division_equations. lia.
Qed.

(** The null return address misses the stack.  [vmm_translate] already
    adds the offset in the page, and the loader adds it again: with the page of
    the top of the user stack at frame [f], the eight zero bytes go to the
    following frame, and the top of the stack stays as it is. *)
Theorem elf_null_return_misplaced s r f :
  vmm_translate (r * PAGE_SIZE) (USER_STACK_TOP - 8) (vm_mem s) = f * PAGE_SIZE + 0xFF8 → 0 < f < 2 ^ 40 →
  let s' := null_return (r * PAGE_SIZE) (USER_STACK_TOP - 8) s in
  load64 (vm_mem s') ((f + 1) * PAGE_SIZE + 0xFF0) = 0
  ∧ ∀ a, ¬ (f + 1) * PAGE_SIZE + 0xFF0 ≤ a < (f + 1) * PAGE_SIZE + 0xFF8 → vm_mem s' a = vm_mem s a.
Proof.
  intros Htr Hf s'. unfold s', null_return.
  change (Z.land (USER_STACK_TOP - 8) (u64 (Z.lnot 7))) with (USER_STACK_TOP - 8). rewrite Htr.
  change (Z.land (USER_STACK_TOP - 8) 0xFFF) with 0xFF8.
  destruct (Z.eqb_spec (f * PAGE_SIZE + 0xFF8) 0); [unfold PAGE_SIZE in *; lia|]. cbn [set_mem vm_mem].
  replace (f * PAGE_SIZE + 0xFF8 + 0xFF8) with ((f + 1) * PAGE_SIZE + 0xFF0) by (unfold PAGE_SIZE; lia).
  rewrite u64_small by (unfold PAGE_SIZE; lia). split; [by rewrite load_store64_eq|].
  intros a Ha. apply store64_outside. lia.
Qed.

(** Program headers are not checked against the image.  An image whose
    header passes [elf_validate] but whose program header table starts outside
    it makes [elf_load] read outside the image, as soon as a frame is left for
    the new address space. *)
Theorem elf_load_reads_outside T (c : sched A) k exit_ ring3 name d size_ prio :
  let s := hp_vm (sc_heap c) in
  pt_wf T s → is_root T k → kernel_pml4 s = k * PAGE_SIZE → frames s ≠ ∅ →
  elf_validate d size_ = 0 → 0 < e_phnum (read_hdr d) → 0 ≤ e_phoff (read_hdr d) < 2 ^ 64 → size_ < e_phoff (read_hdr d) + 4 →
  elf_load exit_ ring3 name d size_ prio c = None.
Proof.
  intros s Hwf Hk Ek Hne Hv Hpn Hoff Hsz. unfold elf_load. rewrite Hv. cbn [Z.eqb negb]. unfold elf_address_space.
  destruct (vmm_create_address_space_spec T s k Hwf Hk Ek) as (page & s1 & E & _ & _ & _ & Hres). fold s. rewrite E. cbn [mbind option_bind].
  destruct Hres as [(_ & Hemp & _)|(f & -> & Hf & _)]; [done|]. pose proof (fa_frame_range _ _ (wf_alloc _ _ Hwf) Hf).
  destruct (Z.eqb_spec (f * PAGE_SIZE) 0); [unfold PAGE_SIZE in *; lia|].
  destruct (Z.to_nat (e_phnum (read_hdr d))) as [|cnt] eqn:En; [lia|]. cbn [segments_loop]. rewrite Z.mul_0_l, Z.add_0_r, u64_small by done.
  unfold read_type. destruct (Z.leb_spec (e_phoff (read_hdr d) + 4) size_); [lia|]. done.
Qed.
End properties.

(** ** Samples *)

(** A segment of 5000 bytes, 100 of them from the file, at 0x400123. *)
Definition sample_phdr : elf64_phdr :=
  {| p_type := PT_LOAD; p_flags := 5; p_offset := 64; p_vaddr := 0x400123; p_filesz := 100; p_memsz := 5000 |}.

(** A header that validates, with its program headers far outside the file. *)
Definition sample_elf : list Z :=
  [0x7F; 0x45; 0x4C; 0x46; 2; 1] ++ replicate 10 0 ++ [2; 0; 62; 0; 1; 0; 0; 0]
    ++ [0; 0; 64; 0; 0; 0; 0; 0] ++ [0; 0; 0; 0; 0; 1; 0; 0] ++ replicate 14 0 ++ [56; 0; 1; 0; 0; 0; 0; 0].

Lemma elf_map_segment_correct_witness :
  ∃ (p : pmm) rc s', elf_map_segment (1 * PAGE_SIZE) (λ i, i mod 256) 200 sample_phdr (sample_vmm p) = Some (rc, s').
Proof.
  destruct sample_wf as (p & Hwf & _). exists p.
  destruct (elf_map_segment_correct _ _ 1 (λ i, i mod 256) 200 sample_phdr Hwf (lookup_singleton_eq _ _)) as (rc & s' & T' & E & _);
    [split; cbn; lia|done|]. by exists rc, s'.
Defined.

Lemma elf_null_return_misplaced_witness :
  ∃ (s : vmm pmm) r f, load64 (vm_mem (null_return (r * PAGE_SIZE) (USER_STACK_TOP - 8) s)) ((f + 1) * PAGE_SIZE + 0xFF0) = 0
    ∧ vmm_translate (r * PAGE_SIZE) (USER_STACK_TOP - 8) (vm_mem s) = f * PAGE_SIZE + 0xFF8.
Proof.
  destruct sample_wf as (p & Hwf & Hsz & _).
  destruct (vmm_map_mapped _ _ 1 (USER_STACK_TOP - 8) (0x300 * PAGE_SIZE) VMM_USER_RW Hwf (lookup_singleton_eq _ _) user_rw_ok)
    as (s & T & _ & _ & Hres).
  assert (vmm_translate (1 * PAGE_SIZE) (USER_STACK_TOP - 8) (vm_mem s) = 0x300 * PAGE_SIZE + 0xFF8) as Htr.
  { destruct Hres as [(_ & Hlt & _)|(_ & _ & _ & Hv)].
    - pose proof (missing_length (vm_mem (sample_vmm p)) (1 * PAGE_SIZE) (path (USER_STACK_TOP - 8))) as Hm. cbn [length path] in Hm. lia.
    - rewrite Hv, decide_True by done. by vm_compute. }
  exists s, 1, 0x300. split; [|exact Htr]. exact (proj1 (elf_null_return_misplaced s 1 0x300 Htr ltac:(lia))).
Defined.

Lemma elf_load_reads_outside_witness :
  ∃ c : sched pmm, elf_load 8 16 (lit []) (lit sample_elf) 64 1 c = None.
Proof.
  destruct sample_wf as (p & Hwf & Hsz & _). exists (sample_boot p).
  apply (elf_load_reads_outside {[1 := (1, [])]} (sample_boot p) 1 8 16 (lit []) (lit sample_elf) 64 1 Hwf (lookup_singleton_eq _ _) eq_refl).
  - intros He. change (frames (sample_vmm p) = ∅) in He. rewrite He, size_empty in Hsz. lia.
  - by vm_compute.
  - by vm_compute.
  - by vm_compute.
  - by vm_compute.
Defined.
