(* ===== verification/Printf.v ===== *)
(** Model of kernel/lib/printf.c.

    The format is the list of its bytes before the NUL, the variable arguments
    are a list of 64-bit slots and strings, taken with the width the conversion
    asks for; [None] is a missing or mismatched argument, or reading the format
    past its NUL.  The output goes to the byte memory. *)
From stdpp Require Import prelude.
From S2P Require Import Prelude CString.

Inductive va_arg := VInt (v : Z) | VStr (s : option (list Z)).

(** [buf] and [pos]. *)
Record out := { o_mem : mem; o_pos : Z }.

Definition OUT (buf sz c : Z) (o : out) : out :=
  if o_pos o <? sz - 1 then {| o_mem := upd (o_mem o) (buf + o_pos o) (u8 c); o_pos := o_pos o + 1 |} else o.

Definition OUTs (buf sz : Z) (l : list Z) (o : out) : out := foldl (λ o c, OUT buf sz c o) o l.

(** *** Numbers *)

Definition digits_lo : list Z := [48; 49; 50; 51; 52; 53; 54; 55; 56; 57; 97; 98; 99; 100; 101; 102].
Definition digits_hi : list Z := [48; 49; 50; 51; 52; 53; 54; 55; 56; 57; 65; 66; 67; 68; 69; 70].
Definition TMP_SIZE : Z := 20.

(** [tmp[len++] = c]: the bytes of [tmp] so far, [None] outside the array. *)
Definition tmp_push (tmp : list Z) (c : Z) : option (list Z) :=
  if Z.of_nat (length tmp) <? TMP_SIZE then Some (tmp ++ [c]) else None.

(** [while (v) { tmp[len++] = digits[v % base]; v /= base; }] *)
Fixpoint digits_loop (fuel : nat) (v base : Z) (digits tmp : list Z) : option (list Z) :=
  match fuel with
  | O => None
  | S f =>
      if v =? 0 then Some tmp
      else
        c ← digits !! Z.to_nat (v mod base);
        tmp1 ← tmp_push tmp c;
        digits_loop f (v / base) base digits tmp1
  end.

Definition put_uint (buf sz val base : Z) (upper : bool) (width : Z) (zero_pad : bool) (o : out) : option out :=
  let digits := if upper then digits_hi else digits_lo in
  tmp ← (if val =? 0 then tmp_push [] 48 else digits_loop 65 val base digits []);
  let pad := if zero_pad then 48 else 32 in
  let o1 := OUTs buf sz (replicate (Z.to_nat (width - Z.of_nat (length tmp))) pad) o in
  Some (OUTs buf sz (rev tmp) o1).

(** *** Conversions *)

(** [while ( *fmt >= '0' && *fmt <= '9') width = width * 10 + ( *fmt++ - '0');] *)
Fixpoint parse_width (fmt : list Z) (width : Z) : Z * list Z :=
  match fmt with
  | c :: q => if (48 <=? c) && (c <=? 57) then parse_width q (i32 (width * 10 + (c - 48))) else (width, fmt)
  | [] => (width, [])
  end.

Definition skip_char (c : Z) (fmt : list Z) : bool * list Z :=
  match fmt with
  | d :: q => if d =? c then (true, q) else (false, fmt)
  | [] => (false, [])
  end.

Record spec := { sp_zero : bool; sp_width : Z; sp_long : bool }.

(** The flags, width and length between the percent sign and the conversion. *)
Definition parse_spec (fmt : list Z) : spec * list Z :=
  let '(zero_pad, fmt) := skip_char 48 fmt in
  let '(width, fmt) := parse_width fmt 0 in
  let '(l1, fmt) := skip_char 108 fmt in
  let fmt := if l1 then snd (skip_char 108 fmt) else fmt in
  let '(z, fmt) := skip_char 122 fmt in
  ({| sp_zero := zero_pad; sp_width := width; sp_long := l1 || z |}, fmt).

Definition arg_signed (is_long : bool) (ap : list va_arg) : option (Z * list va_arg) :=
  match ap with VInt v :: ap' => Some (if is_long then i64 v else i32 v, ap') | _ => None end.

Definition arg_unsigned (is_long : bool) (ap : list va_arg) : option (Z * list va_arg) :=
  match ap with VInt v :: ap' => Some (if is_long then u64 v else u32 v, ap') | _ => None end.

Definition arg_string (ap : list va_arg) : option (list Z * list va_arg) :=
  match ap with
  | VStr (Some s) :: ap' => Some (s, ap')
  | VStr None :: ap' => Some ([40; 110; 117; 108; 108; 41], ap')
  | _ => None
  end.

(** The [switch] on the conversion character.  [-v] of the smallest 64-bit value
    overflows in C; it wraps here, and is then printed right. *)
Definition convert (buf sz : Z) (sp : spec) (c : Z) (ap : list va_arg) (o : out) : option (out * list va_arg) :=
  if (c =? 100) || (c =? 105) then
    '(v, ap1) ← arg_signed (sp_long sp) ap;
    let '(o1, v1) := if v <? 0 then (OUT buf sz 45 o, u64 (- v)) else (o, v) in
    o2 ← put_uint buf sz v1 10 false (sp_width sp) (sp_zero sp) o1;
    Some (o2, ap1)
  else if c =? 117 then
    '(v, ap1) ← arg_unsigned (sp_long sp) ap;
    o1 ← put_uint buf sz v 10 false (sp_width sp) (sp_zero sp) o;
    Some (o1, ap1)
  else if c =? 120 then
    '(v, ap1) ← arg_unsigned (sp_long sp) ap;
    o1 ← put_uint buf sz v 16 false (sp_width sp) (sp_zero sp) o;
    Some (o1, ap1)
  else if c =? 88 then
    '(v, ap1) ← arg_unsigned (sp_long sp) ap;
    o1 ← put_uint buf sz v 16 true (sp_width sp) (sp_zero sp) o;
    Some (o1, ap1)
  else if c =? 112 then
    '(v, ap1) ← arg_unsigned true ap;
    o1 ← put_uint buf sz v 16 false 16 true (OUT buf sz 120 (OUT buf sz 48 o));
    Some (o1, ap1)
  else if c =? 99 then
    '(v, ap1) ← arg_signed false ap;
    Some (OUT buf sz v o, ap1)
  else if c =? 115 then
    '(s, ap1) ← arg_string ap;
    Some (OUTs buf sz s o, ap1)
  else if c =? 37 then Some (OUT buf sz 37 o, ap)
  else Some (OUT buf sz c (OUT buf sz 37 o), ap).

Fixpoint format_loop (fuel : nat) (buf sz : Z) (fmt : list Z) (ap : list va_arg) (o : out) : option out :=
  match fuel with
  | O => None
  | S f =>
      match fmt with
      | [] => Some o
      | c :: q =>
          if negb (c =? 37) then format_loop f buf sz q ap (OUT buf sz c o)
          else
            let '(sp, r) := parse_spec q in
            match r with
            | [] => None
            | c1 :: r1 => '(o1, ap1) ← convert buf sz sp c1 ap o; format_loop f buf sz r1 ap1 o1
            end
      end
  end.

Definition kvsnprintf (buf sz : Z) (fmt : list Z) (ap : list va_arg) (m : mem) : option (Z * mem) :=
  if (buf =? 0) || (sz =? 0) then Some (0, m)
  else
    o ← format_loop (S (length fmt)) buf sz fmt ap {| o_mem := m; o_pos := 0 |};
    Some (i32 (o_pos o), upd (o_mem o) (buf + o_pos o) 0).

Definition ksnprintf (buf sz : Z) (fmt : list Z) (args : list va_arg) (m : mem) : option (Z * mem) :=
  kvsnprintf buf sz fmt args m.
