(* ===== verification/PrintfProps.v ===== *)
(** The output of kernel/lib/printf.c against a reference without buffers. *)
From stdpp Require Import prelude.
From S2P Require Import Prelude CString Printf.

(** ** Reference *)

(** The digits of a number, most significant first. *)
Fixpoint numeral (fuel : nat) (base v : Z) : list Z :=
  match fuel with
  | O => []
  | S f => if v =? 0 then [] else numeral f base (v / base) ++ [v mod base]
  end.

Definition number (base v : Z) : list Z := if v =? 0 then [0] else numeral 65 base v.

Definition value (base : Z) (l : list Z) : Z := foldl (λ a d, a * base + d) 0 l.

Definition digit (upper : bool) (d : Z) : Z := if d <? 10 then 48 + d else if upper then 55 + d else 87 + d.

(** A number with its padding. *)
Definition number_text (upper : bool) (base v width : Z) (zero_pad : bool) : list Z :=
  let t := digit upper <$> number base v in
  replicate (Z.to_nat (width - Z.of_nat (length t))) (if zero_pad then 48 else 32) ++ t.

Definition conversion_text (sp : spec) (c : Z) (ap : list va_arg) : option (list Z * list va_arg) :=
  if (c =? 100) || (c =? 105) then
    '(v, ap1) ← arg_signed (sp_long sp) ap;
    Some ((if v <? 0 then [45] else []) ++ number_text false 10 (Z.abs v) (sp_width sp) (sp_zero sp), ap1)
  else if c =? 117 then
    '(v, ap1) ← arg_unsigned (sp_long sp) ap; Some (number_text false 10 v (sp_width sp) (sp_zero sp), ap1)
  else if c =? 120 then
    '(v, ap1) ← arg_unsigned (sp_long sp) ap; Some (number_text false 16 v (sp_width sp) (sp_zero sp), ap1)
  else if c =? 88 then
    '(v, ap1) ← arg_unsigned (sp_long sp) ap; Some (number_text true 16 v (sp_width sp) (sp_zero sp), ap1)
  else if c =? 112 then
    '(v, ap1) ← arg_unsigned true ap; Some ([48; 120] ++ number_text false 16 v 16 true, ap1)
  else if c =? 99 then '(v, ap1) ← arg_signed false ap; Some ([v], ap1)
  else if c =? 115 then arg_string ap
  else if c =? 37 then Some ([37], ap)
  else Some ([37; c], ap).

(** The whole text, [None] where an argument or a conversion is missing. *)
Fixpoint format (fuel : nat) (fmt : list Z) (ap : list va_arg) : option (list Z) :=
  match fuel with
  | O => None
  | S f =>
      match fmt with
      | [] => Some []
      | c :: q =>
          if negb (c =? 37) then t ← format f q ap; Some (c :: t)
          else
            let '(sp, r) := parse_spec q in
            match r with
            | [] => None
            | c1 :: r1 => '(t, ap1) ← conversion_text sp c1 ap; t1 ← format f r1 ap1; Some (t ++ t1)
            end
      end
  end.

(** ** Numbers *)

Lemma numeral_value f base v : 2 ≤ base → 0 ≤ v < base ^ Z.of_nat f → value base (numeral f base v) = v.
Proof.
  intros Hb. revert v. induction f as [|f IH]; intros v Hv; cbn [numeral].
  - change (base ^ Z.of_nat 0) with 1 in Hv. cbn. lia.
  - rewrite Nat2Z.inj_succ, Z.pow_succ_r in Hv by lia. destruct (Z.eqb_spec v 0) as [->|]; [done|].
    unfold value. rewrite foldl_app. fold (value base (numeral f base (v / base))). cbn [foldl]. rewrite IH.
    + pose proof (Z.div_mod v base ltac:(lia)). lia.
    + split; [apply Z.div_pos; lia|]. apply Z.div_lt_upper_bound; lia.
Qed.

Lemma numeral_digits f base v : 2 ≤ base → 0 ≤ v → Forall (λ d, 0 ≤ d < base) (numeral f base v).
Proof.
  intros Hb. revert v. induction f as [|f IH]; intros v Hv; cbn [numeral]; [constructor|]. destruct (v =? 0); [constructor|].
  apply Forall_app. split; [apply IH, Z.div_pos; lia|]. repeat constructor; apply Z.mod_pos_bound; lia.
Qed.

Lemma numeral_length f base v k : 2 ≤ base → 0 ≤ v < base ^ Z.of_nat k → (length (numeral f base v) ≤ k)%nat.
Proof.
  intros Hb. revert v k. induction f as [|f IH]; intros v k Hv; cbn [numeral length]; [lia|].
  destruct (Z.eqb_spec v 0); [cbn; lia|]. destruct k as [|k]; [change (base ^ Z.of_nat 0) with 1 in Hv; lia|].
  rewrite length_app. cbn [length]. rewrite Nat2Z.inj_succ, Z.pow_succ_r in Hv by lia. specialize (IH (v / base) k).
  enough (length (numeral f base (v / base)) ≤ k)%nat by lia. apply IH. split; [apply Z.div_pos; lia|]. apply Z.div_lt_upper_bound; lia.
Qed.

Lemma number_ok base v :
  2 ≤ base → 0 ≤ v < 2 ^ 64 → value base (number base v) = v ∧ Forall (λ d, 0 ≤ d < base) (number base v).
Proof.
  intros Hb Hv. unfold number. destruct (Z.eqb_spec v 0) as [->|]; [split; [done|repeat constructor; lia]|].
  split; [|apply numeral_digits; lia]. apply numeral_value; [done|]. split; [lia|].
  apply Z.lt_le_trans with (2 ^ 64); [lia|]. transitivity (2 ^ Z.of_nat 65); [done|]. apply Z.pow_le_mono_l. lia.
Qed.

Lemma digit_lookup (upper : bool) d :
  0 ≤ d < 16 → (if upper then digits_hi else digits_lo) !! Z.to_nat d = Some (digit upper d).
Proof.
  intros Hd. assert (d ∈ seqZ 0 16) as Hin by (apply elem_of_seqZ; lia).
  assert (Forall (λ d, (if upper then digits_hi else digits_lo) !! Z.to_nat d = Some (digit upper d)) (seqZ 0 16)) as Hall.
  { destruct upper; cbn; repeat constructor. }
  exact (proj1 (Forall_forall _ _) Hall d Hin).
Qed.

Lemma digits_loop_spec f base (upper : bool) v tmp :
  2 ≤ base ≤ 16 → 0 ≤ v < base ^ Z.of_nat f → Z.of_nat (length tmp + length (numeral f base v)) ≤ TMP_SIZE →
  digits_loop (S f) v base (if upper then digits_hi else digits_lo) tmp
  = Some (tmp ++ rev (digit upper <$> numeral f base v)).
Proof.
  intros Hb. revert v tmp. induction f as [|f IH]; intros v tmp Hv Hl.
  - change (base ^ Z.of_nat 0) with 1 in Hv. assert (v = 0) as -> by lia. cbn. by rewrite app_nil_r.
  - remember (S f) as f1 eqn:Ef. cbn [digits_loop]. subst f1. cbn [numeral] in *.
    rewrite Nat2Z.inj_succ, Z.pow_succ_r in Hv by lia. destruct (Z.eqb_spec v 0) as [->|]; [by rewrite app_nil_r|].
    pose proof (Z.mod_pos_bound v base ltac:(lia)). rewrite digit_lookup by lia. cbn [mbind option_bind].
    rewrite length_app in Hl. cbn [length] in Hl. unfold tmp_push. destruct (Z.ltb_spec (Z.of_nat (length tmp)) TMP_SIZE); [|lia].
    cbn [mbind option_bind]. rewrite IH.
    + rewrite fmap_app, rev_app_distr. cbn. by rewrite <-app_assoc.
    + split; [apply Z.div_pos; lia|]. apply Z.div_lt_upper_bound; lia.
    + rewrite length_app. cbn [length]. lia.
Qed.

(** ** Output *)

(** The buffer after the text [t]. *)
Definition emitted (buf sz : Z) (m : mem) (t : list Z) : out :=
  let w := u8 <$> take (Z.to_nat (sz - 1)) t in {| o_mem := store_list m buf w; o_pos := Z.of_nat (length w) |}.

Lemma OUT_emitted buf sz m t c : 0 < sz → OUT buf sz c (emitted buf sz m t) = emitted buf sz m (t ++ [c]).
Proof.
  intros Hs. unfold OUT, emitted. cbn [o_pos o_mem]. rewrite !length_fmap, !length_take.
  destruct (Z.ltb_spec (Z.of_nat (Z.to_nat (sz - 1) `min` length t)) (sz - 1)).
  - rewrite (take_ge t) by lia. rewrite (take_ge (t ++ [c])) by (rewrite length_app; cbn; lia).
    rewrite fmap_app, length_app. cbn [fmap list_fmap length]. rewrite store_list_snoc, length_fmap. f_equal; [f_equal|]; lia.
  - rewrite (take_app_le t) by lia. rewrite length_app. cbn [length]. f_equal. lia.
Qed.

Lemma OUTs_emitted buf sz m t l : 0 < sz → OUTs buf sz l (emitted buf sz m t) = emitted buf sz m (t ++ l).
Proof.
  intros Hs. revert t. induction l as [|c l IH]; intros t; [by rewrite app_nil_r|]. unfold OUTs. cbn [foldl].
  rewrite OUT_emitted by done. fold (OUTs buf sz l (emitted buf sz m (t ++ [c]))). rewrite IH. by rewrite <-app_assoc.
Qed.

(** More fuel than digits changes nothing. *)
Lemma numeral_S k base v : 2 ≤ base → 0 ≤ v < base ^ Z.of_nat k → numeral (S k) base v = numeral k base v.
Proof.
  intros Hb. revert v. induction k as [|k IH]; intros v Hv.
  - change (base ^ Z.of_nat 0) with 1 in Hv. assert (v = 0) as -> by lia. done.
  - change (numeral (S (S k)) base v) with (if v =? 0 then [] else numeral (S k) base (v / base) ++ [v mod base]).
    change (numeral (S k) base v) with (if v =? 0 then [] else numeral k base (v / base) ++ [v mod base]).
    destruct (v =? 0); [done|]. rewrite IH; [done|]. rewrite Nat2Z.inj_succ, Z.pow_succ_r in Hv by lia.
    split; [apply Z.div_pos; lia|]. apply Z.div_lt_upper_bound; lia.
Qed.

Lemma base_pow base k : base = 10 ∨ base = 16 → 20 ≤ k → 2 ^ 64 ≤ base ^ k.
Proof.
  intros Hb Hk. transitivity (base ^ 20); [destruct Hb as [-> | ->]; by vm_compute|]. apply Z.pow_le_mono_r; lia.
Qed.

Lemma tmp_digits_fuel k v base (upper : bool) :
  (20 ≤ k)%nat → 0 ≤ v < 2 ^ 64 → base = 10 ∨ base = 16 →
  digits_loop (S k) v base (if upper then digits_hi else digits_lo) [] = Some (rev (digit upper <$> numeral (S k) base v)).
Proof.
  intros Hk Hv Hb. pose proof (base_pow base (Z.of_nat k) Hb ltac:(lia)) as Hpk. pose proof (base_pow base (Z.of_nat 20) Hb ltac:(lia)) as H20.
  rewrite (numeral_S k base v) by lia. apply (digits_loop_spec k base upper v []); [lia|lia|].
  pose proof (numeral_length k base v 20 ltac:(lia) ltac:(lia)). unfold TMP_SIZE. cbn [length Nat.add]. lia.
Qed.

Lemma tmp_digits v base (upper : bool) :
  0 ≤ v < 2 ^ 64 → base = 10 ∨ base = 16 →
  (if v =? 0 then tmp_push [] 48 else digits_loop 65 v base (if upper then digits_hi else digits_lo) [])
  = Some (rev (digit upper <$> number base v)).
Proof.
  intros Hv Hb. unfold number. destruct (v =? 0); [by destruct upper|]. apply tmp_digits_fuel; [lia|done|done].
Qed.

Lemma put_uint_emitted buf sz m t v base upper width zero_pad :
  0 < sz → 0 ≤ v < 2 ^ 64 → base = 10 ∨ base = 16 →
  put_uint buf sz v base upper width zero_pad (emitted buf sz m t)
  = Some (emitted buf sz m (t ++ number_text upper base v width zero_pad)).
Proof.
  intros Hs Hv Hb. unfold put_uint, number_text. cbv zeta. rewrite tmp_digits by done. cbn [mbind option_bind].
  rewrite !OUTs_emitted by done. rewrite rev_involutive, length_rev. by rewrite <-app_assoc.
Qed.

Lemma i64_range x : - 2 ^ 63 ≤ i64 x < 2 ^ 63.
Proof. unfold i64. pose proof (Z.mod_pos_bound (x + 2 ^ 63) (2 ^ 64) ltac:(lia)). lia. Qed.

Lemma i32_range x : - 2 ^ 31 ≤ i32 x < 2 ^ 31.
Proof. unfold i32. pose proof (Z.mod_pos_bound (x + 2 ^ 31) (2 ^ 32) ltac:(lia)). lia. Qed.

Lemma arg_signed_range l ap v ap1 : arg_signed l ap = Some (v, ap1) → - 2 ^ 63 ≤ v < 2 ^ 63.
Proof.
  destruct ap as [|[x|] ap]; [done| |done]. intros [= <- <-]. pose proof (i64_range x). pose proof (i32_range x). destruct l; lia.
Qed.

Lemma arg_unsigned_range l ap v ap1 : arg_unsigned l ap = Some (v, ap1) → 0 ≤ v < 2 ^ 64.
Proof.
  destruct ap as [|[x|] ap]; [done| |done]. intros [= <- <-]. pose proof (u64_range x).
  assert (0 ≤ u32 x < 2 ^ 32) by (unfold u32; apply Z.mod_pos_bound; lia). destruct l; lia.
Qed.

(** An unsigned conversion. *)
Lemma unsigned_emitted buf sz m t l ap base upper width zero_pad :
  0 < sz → base = 10 ∨ base = 16 →
  ('(v, ap1) ← arg_unsigned l ap; o1 ← put_uint buf sz v base upper width zero_pad (emitted buf sz m t); Some (o1, ap1))
  = ('(x, ap1) ← ('(v, ap1) ← arg_unsigned l ap; Some (number_text upper base v width zero_pad, ap1));
     Some (emitted buf sz m (t ++ x), ap1)).
Proof.
  intros Hs Hb. destruct (arg_unsigned l ap) as [[v ap1]|] eqn:E; [|done]. cbn [mbind option_bind].
  rewrite put_uint_emitted; [done|done|by eapply arg_unsigned_range|done].
Qed.

Lemma convert_emitted buf sz m t sp c ap :
  0 < sz →
  convert buf sz sp c ap (emitted buf sz m t)
  = ('(x, ap1) ← conversion_text sp c ap; Some (emitted buf sz m (t ++ x), ap1)).
Proof.
  intros Hs. unfold convert, conversion_text. destruct ((c =? 100) || (c =? 105)).
  { destruct (arg_signed (sp_long sp) ap) as [[v ap1]|] eqn:E; [|done]. cbn [mbind option_bind]. apply arg_signed_range in E.
    destruct (Z.ltb_spec v 0).
    - rewrite OUT_emitted, put_uint_emitted by (done || lia || apply u64_range || by left). rewrite u64_small by lia. cbn [mbind option_bind].
      rewrite Z.abs_neq by lia. by rewrite <-app_assoc.
    - rewrite put_uint_emitted by (done || lia || by left). rewrite Z.abs_eq by lia. done. }
  destruct (c =? 117); [apply unsigned_emitted; [done|by left]|].
  destruct (c =? 120); [apply unsigned_emitted; [done|by right]|].
  destruct (c =? 88); [apply unsigned_emitted; [done|by right]|].
  destruct (c =? 112).
  { rewrite !OUT_emitted by done. rewrite unsigned_emitted by (done || by right). destruct (arg_unsigned true ap) as [[v ap1]|]; [|done].
    cbn [mbind option_bind]. by rewrite <-!app_assoc. }
  destruct (c =? 99).
  { destruct (arg_signed false ap) as [[v ap1]|]; [|done]. cbn [mbind option_bind]. by rewrite OUT_emitted. }
  destruct (c =? 115).
  { destruct (arg_string ap) as [[v ap1]|]; [|done]. cbn [mbind option_bind]. by rewrite OUTs_emitted. }
  destruct (c =? 37); cbn [mbind option_bind]; rewrite !OUT_emitted by done; [done|]. by rewrite <-app_assoc.
Qed.

Lemma format_emitted f buf sz m t fmt ap :
  0 < sz →
  format_loop f buf sz fmt ap (emitted buf sz m t) = (x ← format f fmt ap; Some (emitted buf sz m (t ++ x))).
Proof.
  intros Hs. revert t fmt ap. induction f as [|f IH]; intros t fmt ap; [done|]. cbn [format_loop format].
  destruct fmt as [|c q]; [cbn [mbind option_bind]; by rewrite app_nil_r|]. destruct (negb (c =? 37)).
  - rewrite OUT_emitted, IH by done. destruct (format f q ap) as [x|]; [|done]. cbn [mbind option_bind]. by rewrite <-app_assoc.
  - destruct (parse_spec q) as [sp r]. destruct r as [|c1 r1]; [done|]. rewrite convert_emitted by done.
    destruct (conversion_text sp c1 ap) as [[x ap1]|]; [|done]. cbn [mbind option_bind]. rewrite IH.
    destruct (format f r1 ap1) as [y|]; [|done]. cbn [mbind option_bind]. by rewrite <-app_assoc.
Qed.

Lemma kvsnprintf_spec buf sz fmt ap m :
  buf ≠ 0 → 0 < sz < 2 ^ 31 →
  match format (S (length fmt)) fmt ap with
  | None => kvsnprintf buf sz fmt ap m = None
  | Some t =>
      let w := u8 <$> take (Z.to_nat (sz - 1)) t in
      ∃ m', kvsnprintf buf sz fmt ap m = Some (Z.of_nat (length w), m')
        ∧ (∀ i x, w !! i = Some x → m' (buf + Z.of_nat i) = x) ∧ m' (buf + Z.of_nat (length w)) = 0
        ∧ ∀ a, ¬ buf ≤ a < buf + sz → m' a = m a
  end.
Proof.
  intros Hb Hs. unfold kvsnprintf. apply Z.eqb_neq in Hb as ->. destruct (Z.eqb_spec sz 0); [lia|]. cbn [orb].
  replace {| o_mem := m; o_pos := 0 |} with (emitted buf sz m []) by (unfold emitted; by rewrite take_nil).
  rewrite format_emitted by lia. destruct (format (S (length fmt)) fmt ap) as [t|]; [|done]. cbn [mbind option_bind app].
  unfold emitted. cbn [o_pos o_mem]. set (w := u8 <$> take (Z.to_nat (sz - 1)) t).
  assert (Z.of_nat (length w) < sz) as Hw by (unfold w; rewrite length_fmap, length_take; lia).
  eexists. split; [|split_and!].
  - f_equal. f_equal. unfold i32. rewrite Z.mod_small by lia. lia.
  - intros i x Hi. apply lookup_lt_Some in Hi as Hlt. rewrite upd_ne by lia. by apply store_list_inside.
  - apply upd_eq.
  - intros a Ha. rewrite upd_ne by lia. apply store_list_outside. lia.
Qed.

Lemma number_length v : 0 ≤ v < 2 ^ 64 → (length (number 10 v) ≤ 20)%nat.
Proof.
  intros Hv. unfold number. destruct (v =? 0); [cbn; lia|]. apply numeral_length; [lia|].
  pose proof (base_pow 10 (Z.of_nat 20) ltac:(by left) ltac:(lia)). lia.
Qed.

(** ** Properties *)

(** C28: Formatted output.  [kvsnprintf] writes the text of the format, cut to
    one byte less than the buffer, and a NUL after it, answers its length, and
    touches no byte outside the buffer; it fails exactly where the text is not
    defined.  The digits of a number never overrun the twenty bytes they are
    collected in. *)
Theorem kvsnprintf_correct buf sz fmt ap m :
  buf ≠ 0 → 0 < sz < 2 ^ 31 →
  match format (S (length fmt)) fmt ap with
  | None => kvsnprintf buf sz fmt ap m = None
  | Some t =>
      let w := u8 <$> take (Z.to_nat (sz - 1)) t in
      ∃ m', kvsnprintf buf sz fmt ap m = Some (Z.of_nat (length w), m')
        ∧ (∀ i x, w !! i = Some x → m' (buf + Z.of_nat i) = x) ∧ m' (buf + Z.of_nat (length w)) = 0
        ∧ ∀ a, ¬ buf ≤ a < buf + sz → m' a = m a
  end.
Proof. apply kvsnprintf_spec. Qed.

Lemma kvsnprintf_correct_witness :
  ∃ m, kvsnprintf 100 8 [37; 48; 52; 120; 33] [VInt 255] (λ _, 7) = Some (5, m) ∧ m 108 = 7.
Proof.
  destruct (kvsnprintf_correct 100 8 [37; 48; 52; 120; 33] [VInt 255] (λ _, 7)) as (m & E & _ & _ & Ho); [done|lia|].
  exists m. split; [exact E|]. rewrite Ho by lia. reflexivity.
Defined.

(** Numbers read back.  What the conversion %lu prints of a 64-bit value
    into a buffer that is large enough is the decimal text of the value. *)
Theorem printf_number_roundtrip buf v m :
  buf ≠ 0 →
  ∃ n m', ksnprintf buf 21 [37; 108; 117] [VInt v] m = Some (Z.of_nat n, m')
    ∧ value 10 ((λ i, m' (buf + i) - 48) <$> seqZ 0 (Z.of_nat n)) = u64 v.
Proof.
  intros Hb. destruct (number_ok 10 (u64 v) ltac:(lia) (u64_range v)) as [Hval Hdig]. pose proof (number_length (u64 v) (u64_range v)) as Hlen.
  pose proof (kvsnprintf_spec buf 21 [37; 108; 117] [VInt v] m Hb ltac:(lia)) as Hs.
  assert (format (S (length [37; 108; 117])) [37; 108; 117] [VInt v] = Some (digit false <$> number 10 (u64 v))) as E.
  { cbn [format length parse_spec skip_char parse_width Z.eqb Pos.eqb Z.leb Z.compare Pos.compare Pos.compare_cont andb orb negb fst snd
          conversion_text arg_unsigned mbind option_bind sp_long sp_width sp_zero].
    unfold number_text. rewrite app_nil_r. by replace (Z.to_nat _) with 0%nat by lia. }
  rewrite E in Hs. set (l := number 10 (u64 v)) in *. cbv zeta in Hs.
  rewrite take_ge in Hs by (rewrite length_fmap; change (Z.to_nat (21 - 1)) with 20%nat; lia).
  destruct Hs as (m' & Ek & Hby & _). exists (length l), m'. split; [unfold ksnprintf; by rewrite Ek, !length_fmap|].
  rewrite <-Hval. f_equal. apply list_eq. intros i. rewrite list_lookup_fmap. destruct (decide (i < length l)%nat) as [Hi|Hi].
  - rewrite lookup_seqZ_lt by lia. cbn. destruct (lookup_lt_is_Some_2 l i Hi) as [d Hd]. rewrite Hd. f_equal.
    pose proof (proj1 (Forall_lookup _ _) Hdig i d Hd) as Hr. cbn in Hr. rewrite Z.add_0_l, (Hby i (48 + d)); [lia|].
    rewrite !list_lookup_fmap, Hd. cbn. unfold digit. destruct (Z.ltb_spec d 10); [|lia]. by rewrite u8_small by lia.
  - rewrite lookup_seqZ_ge by lia. symmetry. apply lookup_ge_None_2. lia.
Qed.

Lemma printf_number_roundtrip_witness :
  ∃ n m', ksnprintf 100 21 [37; 108; 117] [VInt 1234567890123] (λ _, 0) = Some (Z.of_nat n, m')
    ∧ value 10 ((λ i, m' (100 + i) - 48) <$> seqZ 0 (Z.of_nat n)) = 1234567890123.
Proof. exact (printf_number_roundtrip 100 1234567890123 (λ _, 0) ltac:(lia)). Defined.
