(* ===== verification/Proc.v ===== *)
(** Model of kernel/proc/proc.c: processes over tasks, with their wait queues.
    Process structures are records of a store keyed by their heap address.

    Properties: the life of a process, from creation to its parent's
    [proc_waitpid], over the heap and the scheduler. *)
From stdpp Require Import prelude gmap.
From S2P Require Import Prelude CString FrameAlloc Bitmap Pmm Vmm VmmWf VmmSpec VmmRange VmmProps Heap HeapSlab HeapMap HeapList HeapInv HeapOps HeapApi HeapRefine HeapProps Sched SchedRing SchedInv SchedRun SchedCreate SchedProps.

Definition PROC_MAX : Z := 256.
Definition WAIT_QUEUE_MAX : Z := 8.
Definition ESRCH : Z := 3.
Definition UINT64_MAX : Z := 2 ^ 64 - 1.

(** [sizeof(proc_t)] on x86_64. *)
Definition PROC_SIZE : Z := 56.

Record proc := { p_pid : Z; p_ppid : Z; p_task : Z; p_exit_code : Z; p_exited : bool; p_name : list Z }.

Record wait_queue := { wq_tasks : Z → Z; wq_count : Z }.

Record procs (A : Type) := {
  pr_sched : sched A;
  pr_store : gmap Z proc;
  proc_table : Z → Z;
  wait_queues : Z → wait_queue;
}.
Arguments pr_sched {A} _.
Arguments pr_store {A} _.
Arguments proc_table {A} _.
Arguments wait_queues {A} _.

(** Unblocking the tasks of a queue from entry [i] on, with [n] left. *)
Fixpoint wake_loop {A} `{FrameOps A} (n : nat) (i : Z) (ts : Z → Z) (s : sched A) : option (sched A) :=
  match n with
  | O => Some s
  | S n' =>
      t ← aget WAIT_QUEUE_MAX ts i;
      s1 ← (if t =? 0 then Some s else sched_unblock t s);
      wake_loop n' (i + 1) ts s1
  end.

Section ops.
Context {A : Type} `{FrameOps A}.
Implicit Types (s : procs A).

Definition pr_set_sched (c : sched A) s : procs A :=
  {| pr_sched := c; pr_store := pr_store s; proc_table := proc_table s; wait_queues := wait_queues s |}.
Definition pr_set_heap (h : heap A) s : procs A := pr_set_sched (with_heap h (pr_sched s)) s.
Definition pr_set_store (m : gmap Z proc) s : procs A :=
  {| pr_sched := pr_sched s; pr_store := m; proc_table := proc_table s; wait_queues := wait_queues s |}.
Definition pr_set_table (t : Z → Z) s : procs A :=
  {| pr_sched := pr_sched s; pr_store := pr_store s; proc_table := t; wait_queues := wait_queues s |}.
Definition pr_set_queues (q : Z → wait_queue) s : procs A :=
  {| pr_sched := pr_sched s; pr_store := pr_store s; proc_table := proc_table s; wait_queues := q |}.

Definition proc_init s : procs A :=
  pr_set_queues (λ _, {| wq_tasks := λ _, 0; wq_count := 0 |}) (pr_set_table (λ _, 0) s).

Definition proc_create (name : list Z) (t : Z) s : option (Z * procs A) :=
  if t =? 0 then Some (0, s)
  else
    tt ← get_task t (pr_sched s);
    let pid := t_pid tt in
    if PROC_MAX <=? pid then Some (0, s)
    else
      '(p, h1) ← kzalloc PROC_SIZE (sc_heap (pr_sched s));
      if p =? 0 then Some (0, pr_set_heap h1 s)
      else
        let x := {| p_pid := pid; p_ppid := t_ppid tt; p_task := t; p_exit_code := 0; p_exited := false;
                    p_name := take 31 name |} in
        let s1 := pr_set_store (<[p := x]> (pr_store s)) (pr_set_heap h1 s) in
        tbl ← aset PROC_MAX (proc_table s1) pid p;
        Some (p, pr_set_table tbl s1).

Definition proc_get (pid : Z) s : option Z :=
  if PROC_MAX <=? pid then Some 0 else aget PROC_MAX (proc_table s) pid.

Definition proc_exit (p code : Z) s : option (procs A) :=
  if p =? 0 then Some s
  else
    x ← pr_store s !! p;
    let y := {| p_pid := p_pid x; p_ppid := p_ppid x; p_task := p_task x; p_exit_code := code; p_exited := true;
                p_name := p_name x |} in
    let s1 := pr_set_store (<[p := y]> (pr_store s)) s in
    wq ← aget PROC_MAX (wait_queues s1) (p_pid x);
    c ← wake_loop (Z.to_nat (wq_count wq)) 0 (wq_tasks wq) (pr_sched s1);
    q ← aset PROC_MAX (wait_queues s1) (p_pid x) {| wq_tasks := wq_tasks wq; wq_count := 0 |};
    Some (pr_set_queues q (pr_set_sched c s1)).

Definition proc_reap (pid : Z) s : option (procs A) :=
  if PROC_MAX <=? pid then Some s
  else
    p ← aget PROC_MAX (proc_table s) pid;
    if p =? 0 then Some s
    else
      h1 ← kfree p (sc_heap (pr_sched s));
      tbl ← aset PROC_MAX (proc_table s) pid 0;
      Some (pr_set_table tbl (pr_set_store (delete p (pr_store s)) (pr_set_heap h1 s))).

(** The answer and what is stored through [status]. *)
Definition proc_waitpid (pid : Z) s : option (Z * option Z * procs A) :=
  p ← proc_get pid s;
  if p =? 0 then Some (- ESRCH, None, s)
  else
    x ← pr_store s !! p;
    s1 ← (if p_exited x then Some s
          else
            wq ← aget PROC_MAX (wait_queues s) pid;
            let cur := current_task (pr_sched s) in
            s1 ← (if wq_count wq <? WAIT_QUEUE_MAX then
                    ts ← aset WAIT_QUEUE_MAX (wq_tasks wq) (wq_count wq) cur;
                    q ← aset PROC_MAX (wait_queues s) pid {| wq_tasks := ts; wq_count := wq_count wq + 1 |};
                    Some (pr_set_queues q s)
                  else Some s);
            c ← sched_block cur UINT64_MAX (pr_sched s1);
            Some (pr_set_sched c s1));
    y ← pr_store s1 !! p;
    s2 ← proc_reap pid s1;
    Some (pid, Some (p_exit_code y), s2).
End ops.

Section wake.
Context {A : Type} `{FrameAllocator A}.
Implicit Types (c : sched A) (L : list Z).

(** What waking tasks leaves alone. *)
Record woken c c' : Prop := {
  wo_heap : sc_heap c' = sc_heap c;
  wo_current : current_task c' = current_task c;
  wo_tasks : ∀ a, is_Some (sc_tasks c' !! a) ↔ is_Some (sc_tasks c !! a);
  wo_ready : ∀ a, tstate (sc_tasks c) a ≠ Some TASK_BLOCKED → tstate (sc_tasks c') a ≠ Some TASK_BLOCKED;
}.

Lemma woken_refl c : woken c c.
Proof. by split. Qed.

Lemma woken_trans c1 c2 c3 : woken c1 c2 → woken c2 c3 → woken c1 c3.
Proof.
  intros [A1 A2 A3 A4] [B1 B2 B3 B4]. split; [congruence|congruence|intros a; by rewrite B3|].
  intros a Ha. by apply B4, A4.
Qed.

Lemma unblock_spec c L t :
  sched_inv c L → is_Some (sc_tasks c !! t) →
  ∃ c' L', sched_unblock t c = Some c' ∧ sched_inv c' L' ∧ woken c c' ∧ tstate (sc_tasks c') t ≠ Some TASK_BLOCKED.
Proof.
  intros Hi [x Hx]. unfold sched_unblock, get_task. rewrite Hx. cbn [mbind option_bind]. case_decide as Hs.
  - assert (tstate (sc_tasks c) t = Some TASK_BLOCKED) as Ht by (unfold tstate; rewrite Hx; simpl; by rewrite Hs).
    destruct (enqueue_spec c L t x Hi Hx) as (c' & E & Hi' & Hw & _).
    + intros Hin%(si_ready _ _ Hi). congruence.
    + intros ->. pose proof (si_cur _ _ Hi). congruence.
    + assert (∀ a, tstate (sc_tasks c') a = if decide (a = t) then Some TASK_READY else tstate (sc_tasks c) a) as Hst.
      { intros a. unfold tstate. pose proof (wk_body _ _ _ Hw a) as Hb. apply (f_equal (fmap t_state)) in Hb.
        rewrite <-!option_fmap_compose in Hb. etrans; [|etrans; [exact Hb|]].
        - by apply option_fmap_ext.
        - destruct (decide (a = t)) as [->|].
          + rewrite Hx. cbn. by rewrite decide_True by (by left).
          + apply option_fmap_ext. intros y. cbn. by rewrite decide_False by set_solver. }
      exists c', (L ++ [t]). split_and!; [exact E|exact Hi'| |by rewrite Hst, decide_True].
      split; [apply Hw|apply Hw| |].
      * intros a. pose proof (wk_body _ _ _ Hw a) as Hb. destruct (sc_tasks c' !! a), (sc_tasks c !! a); done.
      * intros a Ha. rewrite Hst. by case_decide.
  - exists c, L. split_and!; [done|done|apply woken_refl|]. unfold tstate. rewrite Hx. simpl. congruence.
Qed.

Lemma wake_loop_spec n i ts c L :
  sched_inv c L → 0 ≤ i → i + Z.of_nat n ≤ WAIT_QUEUE_MAX →
  (∀ j, i ≤ j < i + Z.of_nat n → ts j = 0 ∨ is_Some (sc_tasks c !! ts j)) →
  ∃ c' L', wake_loop n i ts c = Some c' ∧ sched_inv c' L' ∧ woken c c'
    ∧ ∀ j, i ≤ j < i + Z.of_nat n → ts j ≠ 0 → tstate (sc_tasks c') (ts j) ≠ Some TASK_BLOCKED.
Proof.
  revert i c L. induction n as [|n IH]; intros i c L Hi Hi0 Hn Hts; cbn [wake_loop].
  { exists c, L. split_and!; [done|done|apply woken_refl|lia]. }
  rewrite aget_Some by lia. cbn [mbind option_bind].
  assert (∃ c1 L1, (if ts i =? 0 then Some c else sched_unblock (ts i) c) = Some c1 ∧ sched_inv c1 L1 ∧ woken c c1
            ∧ (ts i ≠ 0 → tstate (sc_tasks c1) (ts i) ≠ Some TASK_BLOCKED)) as (c1 & L1 & -> & Hi1 & Hw1 & Ht1).
  { destruct (Z.eqb_spec (ts i) 0) as [E|E]; [exists c, L; split_and!; [done|done|apply woken_refl|done]|].
    destruct (Hts i) as [?|Hs]; [lia|done|]. destruct (unblock_spec c L (ts i) Hi Hs) as (c1 & L1 & ? & ? & ? & ?). by exists c1, L1. }
  cbn [mbind option_bind]. destruct (IH (i + 1) c1 L1 Hi1) as (c' & L' & -> & Hi' & Hw' & Hj); [lia|lia| |].
  { intros j Hj. destruct (Hts j) as [?|Hs]; [lia|by left|right]. by apply (wo_tasks _ _ Hw1). }
  exists c', L'. split_and!; [done|done|by eapply woken_trans|]. intros j Hji Hnz. destruct (decide (j = i)) as [->|]; [|apply Hj; [lia|done]].
  apply (wo_ready _ _ Hw'). by apply Ht1.
Qed.
End wake.

Section properties.
Context {A : Type} `{FrameAllocator A}.
Implicit Types (s : procs A) (L : list Z).

(** A wait queue whose entries are tasks. *)
Definition queue_ok (c : sched A) (q : wait_queue) : Prop :=
  0 ≤ wq_count q ≤ WAIT_QUEUE_MAX
  ∧ ∀ j, 0 ≤ j < wq_count q → wq_tasks q j = 0 ∨ is_Some (sc_tasks c !! wq_tasks q j).

(** C30: The life of a process.  [proc_create] registers the process under its
    task's pid in a heap block of its own, or answers NULL for want of memory;
    [proc_exit] then wakes every task waiting for it; a later [proc_waitpid]
    answers the pid and the exit code without blocking, forgets the process and
    gives its block back, so the live blocks are those from before. *)
Theorem proc_lifecycle s L name t tt code :
  let c := pr_sched s in let pid := t_pid tt in
  sched_inv c L → heap_inv (sc_heap c) → frames_for 1 (sc_heap c) →
  sc_tasks c !! t = Some tt → 0 ≤ pid < PROC_MAX → queue_ok c (wait_queues s pid) →
  ∃ p s1, proc_create name t s = Some (p, s1)
    ∧ ((p = 0 ∧ no_room 1 (sc_heap c))
       ∨ (p ≠ 0 ∧ proc_get pid s1 = Some p
          ∧ ∃ s2 s3, proc_exit p code s1 = Some s2 ∧ proc_waitpid pid s2 = Some (pid, Some code, s3)
            ∧ (∀ j, 0 ≤ j < wq_count (wait_queues s pid) → wq_tasks (wait_queues s pid) j ≠ 0 →
                 tstate (sc_tasks (pr_sched s2)) (wq_tasks (wait_queues s pid) j) ≠ Some TASK_BLOCKED)
            ∧ proc_get pid s3 = Some 0 ∧ heap_inv (sc_heap (pr_sched s3))
            ∧ same_live (hp_objs (sc_heap c)) (hp_objs (sc_heap (pr_sched s3))))).
Proof.
  intros c pid Hi Hh Hfr Ht Hpid [Hq1 Hq2]. pose proof (task_nonzero _ _ _ _ Hi Ht) as Ht0.
  unfold proc_create. apply Z.eqb_neq in Ht0 as ->. unfold get_task. fold c. rewrite Ht. cbn [mbind option_bind]. fold pid.
  destruct (Z.leb_spec PROC_MAX pid); [lia|].
  destruct (kzalloc_block (sc_heap c) PROC_SIZE Hh) as (p & h1 & n & -> & Hb & Hn & Hroom & _);
    [unfold PROC_SIZE; lia|exact Hfr|]. change (request_pages PROC_SIZE) with 1 in Hroom. cbn [mbind option_bind].
  destruct (Z.eqb_spec p 0) as [->|Hp]; [eexists 0, _; split; [reflexivity|left; split; [done|by apply Hroom]]|].
  rewrite aset_Some by done. cbn [mbind option_bind]. eexists p, _. split; [reflexivity|]. right.
  match goal with |- context [pr_set_table ?tb ?z] => set (s1 := pr_set_table tb z) end.
  split_and!; [done| |].
  { unfold proc_get. destruct (Z.leb_spec PROC_MAX pid); [lia|]. rewrite aget_Some by done. cbn [s1 pr_set_table proc_table]. by rewrite upd_eq. }
  set (x := {| p_pid := pid; p_ppid := t_ppid tt; p_task := t; p_exit_code := 0; p_exited := false; p_name := take 31 name |}) in s1.
  set (y := {| p_pid := pid; p_ppid := t_ppid tt; p_task := t; p_exit_code := code; p_exited := true; p_name := take 31 name |}).
  assert (pr_store s1 !! p = Some x) as Hx by apply lookup_insert_eq.
  unfold proc_exit. apply Z.eqb_neq in Hp as Hp'. rewrite Hp', Hx. cbn [mbind option_bind]. change (p_pid x) with pid.
  rewrite aget_Some by done. cbn [mbind option_bind].
  match goal with |- context [wake_loop ?a ?b ?d ?e] => set (wq := wait_queues s pid) in *;
    change (wake_loop a b d e) with (wake_loop (Z.to_nat (wq_count wq)) 0 (wq_tasks wq) (with_heap h1 c)) end.
  assert (sched_inv (with_heap h1 c) L) as Hi1 by (destruct Hi; split; done).
  destruct (wake_loop_spec (Z.to_nat (wq_count wq)) 0 (wq_tasks wq) (with_heap h1 c) L Hi1) as (c2 & L2 & -> & Hi2 & Hw & Hwk);
    [lia|lia|intros j Hj; apply Hq2; lia|]. cbn [mbind option_bind]. rewrite aset_Some by done. cbn [mbind option_bind].
  match goal with |- context [Some (pr_set_queues ?q ?z)] => set (s2 := pr_set_queues q z) end.
  exists s2. assert (pr_store s2 !! p = Some y) as Hy by apply lookup_insert_eq.
  assert (proc_get pid s2 = Some p) as Hg.
  { unfold proc_get. destruct (Z.leb_spec PROC_MAX pid); [lia|]. rewrite aget_Some by done. f_equal. apply upd_eq. }
  assert (sc_heap (pr_sched s2) = h1) as Eh by exact (wo_heap _ _ Hw).
  destruct (block_fresh _ _ _ _ Hb Hp) as [Hlp Hf].
  destruct (kfree_spec h1 p n (br_inv _ _ _ _ Hb) Hlp) as (h3 & Ek & Hfr3 & _).
  assert (proc_reap pid s2 = Some (pr_set_table (upd (proc_table s2) pid 0) (pr_set_store (delete p (pr_store s2)) (pr_set_heap h3 s2)))) as Er.
  { unfold proc_reap. destruct (Z.leb_spec PROC_MAX pid); [lia|]. rewrite aget_Some by done. cbn [mbind option_bind].
    change (proc_table s2 pid) with (upd (proc_table s) pid p pid). rewrite upd_eq, Hp', Eh, Ek. cbn [mbind option_bind].
    by rewrite aset_Some by done. }
  eexists. split_and!; [done| | | | |].
  - unfold proc_waitpid. rewrite Hg. cbn [mbind option_bind]. rewrite Hp', Hy. cbn [mbind option_bind y p_exited]. rewrite Hy.
    cbn [mbind option_bind]. rewrite Er. reflexivity.
  - intros j Hj Hnz. apply Hwk; [lia|done].
  - unfold proc_get. destruct (Z.leb_spec PROC_MAX pid); [lia|]. rewrite aget_Some by done. f_equal. apply upd_eq.
  - exact (fr_inv _ _ _ Hfr3).
  - intros q j. cbn [pr_set_table pr_set_store pr_set_heap pr_set_sched pr_sched with_heap sc_heap]. rewrite (fr_live _ _ _ Hfr3).
    destruct (br_live _ _ _ _ Hb) as [[? _]|(_ & Hno & Hiff)]; [done|]. rewrite Hiff. split.
    + intros [[?|[? _]] ?]; [done|done].
    + intros Hq. split; [by left|]. intros ->. by apply (Hno j).
Qed.
End properties.

Lemma proc_lifecycle_witness : ∃ (s s1 : procs pmm) p t, proc_create [105] t s = Some (p, s1).
Proof.
  destruct sample_before_init as (p & _ & Hi & Hsz).
  set (s := {| pr_sched := single 5 (sample_heap p); pr_store := ∅; proc_table := λ _, 0;
               wait_queues := λ _, {| wq_tasks := λ _, 5; wq_count := 1 |} |} : procs pmm).
  destruct (proc_lifecycle s [] [105] 5 (new_task 0 0 255 1 TASK_RUNNING (lit [])) 3) as (q & s1 & E & _).
  - by apply single_inv.
  - exact Hi.
  - right. cbn [s pr_sched single with_idle with_current with_tasks with_heap sc_heap]. lia.
  - apply lookup_singleton_eq.
  - by vm_compute.
  - split; [by vm_compute|]. intros j _. right. cbn [s wait_queues wq_tasks pr_sched single with_idle with_current with_tasks sc_tasks].
    rewrite lookup_singleton_eq. by eexists.
  - by exists s, s1, q, 5.
Defined.
