(* ===== verification/Ports.v ===== *)
(** Port input and output.  A device is anything that answers reads and takes
    writes of I/O ports; the drivers are modelled over this interface, and what
    they rely on is stated as laws of the device.

    Device registers in memory.  As with ports, a device is anything that answers
    reads and takes writes; accesses are of 1, 2, 4 or 8 bytes.

    Devices that access memory on their own.  [dma] is what the device did to the
    kernel's memory since the processor last looked; the drivers of such devices
    let it happen before every read of memory the device writes. *)
From stdpp Require Import prelude.
From S2P Require Import Prelude Vmm.

Inductive io_width := W8 | W16 | W32.

Class PortIO (D : Type) := {
  port_in : io_width → Z → D → Z * D;
  port_out : io_width → Z → Z → D → D;
}.

Section ports.
Context {D : Type} `{PortIO D}.

Definition inb (p : Z) (d : D) : Z * D := let '(v, d1) := port_in W8 p d in (u8 v, d1).
Definition inw (p : Z) (d : D) : Z * D := let '(v, d1) := port_in W16 p d in (u16 v, d1).
Definition inl (p : Z) (d : D) : Z * D := let '(v, d1) := port_in W32 p d in (u32 v, d1).
Definition outb (p v : Z) (d : D) : D := port_out W8 p (u8 v) d.
Definition outw (p v : Z) (d : D) : D := port_out W16 p (u16 v) d.
Definition outl (p v : Z) (d : D) : D := port_out W32 p (u32 v) d.
End ports.

Class MmioIO (D : Type) := {
  mmio_read : Z → Z → D → Z * D;
  mmio_write : Z → Z → Z → D → D;
}.

Section access.
Context {D : Type} `{MmioIO D}.

Definition rd8 (a : Z) (d : D) : Z * D := let '(v, d1) := mmio_read 1 a d in (u8 v, d1).
Definition rd16 (a : Z) (d : D) : Z * D := let '(v, d1) := mmio_read 2 a d in (u16 v, d1).
Definition rd32 (a : Z) (d : D) : Z * D := let '(v, d1) := mmio_read 4 a d in (u32 v, d1).
Definition rd64 (a : Z) (d : D) : Z * D := let '(v, d1) := mmio_read 8 a d in (u64 v, d1).
Definition wr8 (a v : Z) (d : D) : D := mmio_write 1 a (u8 v) d.
Definition wr16 (a v : Z) (d : D) : D := mmio_write 2 a (u16 v) d.
Definition wr32 (a v : Z) (d : D) : D := mmio_write 4 a (u32 v) d.
Definition wr64 (a v : Z) (d : D) : D := mmio_write 8 a (u64 v) d.
End access.

Class DmaIO (D : Type) `{MmioIO D} := { dma : D → mem → D * mem }.

(** The address the drivers give to the device for the kernel address [b]:
    [(uint64_t)(uintptr_t)b - KERNEL_VIRT_BASE]. *)
Definition dma_addr (b : Z) : Z := u64 (b - KERNEL_VIRT_BASE).

(** Everything the kernel maps from [KERNEL_VIRT_BASE] on, memory and registers, is
    at its physical address plus that base.  [linear a n]: the [n] bytes of physical
    memory from [a] on have such addresses. *)
Definition linear (a n : Z) : Prop := 0 ≤ a ∧ a + n ≤ 2 ^ 64 - KERNEL_VIRT_BASE.

(** The kernel's address of physical memory in the linear map. *)
Definition dma_virt (a : Z) : Z := u64 (a + KERNEL_VIRT_BASE).

Lemma dma_virt_addr b : 0 ≤ b < 2 ^ 64 → dma_virt (dma_addr b) = b.
Proof.
  intros Hb. unfold dma_virt, dma_addr, u64. rewrite Zplus_mod_idemp_l.
  replace (b - KERNEL_VIRT_BASE + KERNEL_VIRT_BASE) with b by lia. apply Z.mod_small. exact Hb.
Qed.

(** A buffer of the linear map: the drivers compute its physical address. *)
Lemma dma_addr_linear b n : KERNEL_VIRT_BASE ≤ b → b + n ≤ 2 ^ 64 → 0 < n → linear (dma_addr b) n.
Proof. unfold linear, dma_addr, KERNEL_VIRT_BASE. intros H1 H2 Hn. rewrite u64_small by lia. lia. Qed.

(** The two words the drivers store of a value. *)
Lemma words_join x :
  0 ≤ x < 2 ^ 64 → u32 (Z.land x 0xFFFFFFFF) mod 2 ^ 32 + 2 ^ 32 * (u32 (Z.shiftr x 32) mod 2 ^ 32) = x.
Proof.
  intros Hx. change 0xFFFFFFFF with (Z.ones 32). rewrite Z.land_ones, Z.shiftr_div_pow2 by lia. unfold u32.
  rewrite !Z.mod_mod by lia. rewrite (Z.mod_small (x / 2 ^ 32)) by (split; [apply Z.div_pos; lia|apply Z.div_lt_upper_bound; nia]).
  pose proof (Z.div_mod x (2 ^ 32) ltac:(lia)). lia.
Qed.

(** ** Transfers of a disk of blocks of [ls] bytes *)

(** Bytes of the blocks from [lba] on in memory. *)
Definition blocks_to_mem (ls buf lba n : Z) (disk : Z → Z → Z) (m : mem) : mem :=
  λ a, if (buf <=? a) && (a <? buf + n * ls) then disk (lba + (a - buf) / ls) ((a - buf) mod ls) else m a.

Definition mem_to_blocks (ls buf lba n : Z) (m : mem) (disk : Z → Z → Z) : Z → Z → Z :=
  λ s j, if (lba <=? s) && (s <? lba + n) then m (buf + (s - lba) * ls + j) else disk s j.

(** The bytes of block [i] of a transfer. *)
Lemma block_byte ls b lba n disk m i j :
  0 ≤ i < n → 0 ≤ j < ls → blocks_to_mem ls b lba n disk m (b + i * ls + j) = disk (lba + i) j.
Proof.
  intros Hi Hj. unfold blocks_to_mem. rewrite (proj2 (Z.leb_le _ _)), (proj2 (Z.ltb_lt _ _)) by nia. cbn [andb].
  replace (b + i * ls + j - b) with (j + i * ls) by lia. rewrite Z.div_add, Z.mod_add, Z.div_small, Z.mod_small by lia. done.
Qed.

(** Two transfers one after the other. *)
Lemma blocks_to_mem_app ls b lba n k disk m a :
  0 < ls → 0 ≤ n → 0 ≤ k →
  blocks_to_mem ls (b + n * ls) (lba + n) k disk (blocks_to_mem ls b lba n disk m) a = blocks_to_mem ls b lba (n + k) disk m a.
Proof.
  intros Hls Hn Hk. unfold blocks_to_mem.
  assert (b + n * ls ≤ a → lba + n + (a - (b + n * ls)) / ls = lba + (a - b) / ls ∧ (a - (b + n * ls)) mod ls = (a - b) mod ls) as Hs.
  { intros _. replace (a - b) with (a - (b + n * ls) + n * ls) by lia. rewrite Z.div_add, Z.mod_add by lia. lia. }
  destruct (Z.leb_spec (b + n * ls) a) as [Hge|Hlt]; destruct (Z.ltb_spec a (b + n * ls + k * ls)) as [Ha|Ha];
    destruct (Z.leb_spec b a); destruct (Z.ltb_spec a (b + n * ls)); destruct (Z.ltb_spec a (b + (n + k) * ls)); cbn [andb];
    try reflexivity; try (exfalso; nia).
  by destruct (Hs Hge) as [-> ->].
Qed.

Lemma mem_to_blocks_app ls b lba n k m m1 disk s j :
  0 ≤ n → 0 ≤ k → 0 ≤ j < ls → (∀ a, b + n * ls ≤ a < b + (n + k) * ls → m1 a = m a) →
  mem_to_blocks ls (b + n * ls) (lba + n) k m1 (mem_to_blocks ls b lba n m disk) s j = mem_to_blocks ls b lba (n + k) m disk s j.
Proof.
  intros Hn Hk Hj Hm. unfold mem_to_blocks.
  destruct (Z.leb_spec (lba + n) s); destruct (Z.ltb_spec s (lba + n + k)); destruct (Z.leb_spec lba s);
    destruct (Z.ltb_spec s (lba + n)); destruct (Z.ltb_spec s (lba + (n + k))); cbn [andb]; try reflexivity; try (exfalso; lia).
  rewrite Hm by nia. f_equal. lia.
Qed.
