(* ===== verification/Irq.v ===== *)
(** Model of kernel/arch/x86_64/idt.c and kernel/arch/x86_64/irq.c: the interrupt
    descriptor table, the handler tables, and the two 8259 interrupt controllers
    behind their ports.

    [H] are the functions that can be registered.  [io_wait] writes to port 0x80. *)
From stdpp Require Import prelude.
From S2P Require Import Prelude CString Ports Vmm.

Definition PIC1_CMD : Z := 0x20.
Definition PIC1_DATA : Z := 0x21.
Definition PIC2_CMD : Z := 0xA0.
Definition PIC2_DATA : Z := 0xA1.
Definition PIC_EOI : Z := 0x20.
Definition ICW1_ICW4 : Z := 0x01.
Definition ICW1_INIT : Z := 0x10.
Definition ICW4_8086 : Z := 0x01.
Definition IRQ_BASE : Z := 32.

Record idt_entry := { off_low : Z; gate_cs : Z; gate_ist : Z; gate_attr : Z; off_mid : Z; off_high : Z }.

(** An entry of [handlers]: the dispatcher of the controllers, or another function. *)
Inductive isr (H : Type) := Irq_dispatch | Isr (h : H).
Arguments Irq_dispatch {H}.
Arguments Isr {H} _.

Record irqs (D H : Type) := {
  iq_dev : D;
  idt : Z → idt_entry;
  handlers : Z → option (isr H);
  irq_handlers : Z → option H;
}.
Arguments iq_dev {D H} _.
Arguments idt {D H} _.
Arguments handlers {D H} _.
Arguments irq_handlers {D H} _.

(** The gate of a handler at address [handler]. *)
Definition idt_set_entry (handler ist attr : Z) : idt_entry :=
  {| off_low := u16 (Z.land handler 0xFFFF); gate_cs := 0x08; gate_ist := ist; gate_attr := attr;
     off_mid := u16 (Z.land (Z.shiftr handler 16) 0xFFFF); off_high := u32 (Z.shiftr handler 32) |}.

Section ops.
Context {D H : Type} `{PortIO D}.
Implicit Types (q : irqs D H).

Definition set_iqdev (d : D) q : irqs D H :=
  {| iq_dev := d; idt := idt q; handlers := handlers q; irq_handlers := irq_handlers q |}.
Definition set_handlers (f : Z → option (isr H)) q : irqs D H :=
  {| iq_dev := iq_dev q; idt := idt q; handlers := f; irq_handlers := irq_handlers q |}.
Definition set_irq_handlers (f : Z → option H) q : irqs D H :=
  {| iq_dev := iq_dev q; idt := idt q; handlers := handlers q; irq_handlers := f |}.

(** All 256 gates, from the table of stubs. *)
Definition idt_init (isr_stub_table : Z → Z) q : irqs D H :=
  {| iq_dev := iq_dev q; idt := λ i, if (0 <=? i) && (i <? 256) then idt_set_entry (isr_stub_table i) 0 0x8E else idt q i;
     handlers := handlers q; irq_handlers := irq_handlers q |}.

Definition idt_set_handler (vec : Z) (h : isr H) q : irqs D H := set_handlers (upd (handlers q) vec (Some h)) q.

(** *** Controllers *)

Definition io_wait (d : D) : D := outb 0x80 0 d.

Definition pic_init (d : D) : D :=
  let d := io_wait (outb PIC1_CMD (Z.lor ICW1_INIT ICW1_ICW4) d) in
  let d := io_wait (outb PIC2_CMD (Z.lor ICW1_INIT ICW1_ICW4) d) in
  let d := io_wait (outb PIC1_DATA IRQ_BASE d) in
  let d := io_wait (outb PIC2_DATA (IRQ_BASE + 8) d) in
  let d := io_wait (outb PIC1_DATA 0x04 d) in
  let d := io_wait (outb PIC2_DATA 0x02 d) in
  let d := io_wait (outb PIC1_DATA ICW4_8086 d) in
  let d := io_wait (outb PIC2_DATA ICW4_8086 d) in
  let d := outb PIC1_DATA 0xFB d in
  outb PIC2_DATA 0xFF d.

Definition pic_eoi (irq : Z) (d : D) : D :=
  outb PIC1_CMD PIC_EOI (if 8 <=? irq then outb PIC2_CMD PIC_EOI d else d).

Definition irq_port (irq : Z) : Z := if irq <? 8 then PIC1_DATA else PIC2_DATA.
Definition irq_bit (irq : Z) : Z := if irq <? 8 then irq else u8 (irq - 8).

Definition irq_register (irq : Z) (h : H) q : irqs D H :=
  if 16 <=? irq then q
  else
    let q := idt_set_handler (u8 (IRQ_BASE + irq)) Irq_dispatch (set_irq_handlers (upd (irq_handlers q) irq (Some h)) q) in
    let '(mask, d) := inb (irq_port irq) (iq_dev q) in
    let mask := u8 (Z.land mask (Z.lnot (Z.shiftl 1 (irq_bit irq)))) in
    set_iqdev (outb (irq_port irq) mask d) q.

Definition irq_unregister (irq : Z) q : irqs D H :=
  if 16 <=? irq then q
  else
    let q := set_irq_handlers (upd (irq_handlers q) irq None) q in
    let '(mask, d) := inb (irq_port irq) (iq_dev q) in
    let mask := u8 (Z.lor mask (Z.shiftl 1 (irq_bit irq))) in
    set_iqdev (outb (irq_port irq) mask d) q.

(** *** Dispatch *)

(** The handlers run on the rest of the kernel's state [S] and on this one. *)
Context {S : Type} (run : H → irqs D H * S → option (irqs D H * S)).

(** [irq_handlers] has 16 entries; reading outside is [None]. *)
Definition irq_dispatch (vec : Z) (qs : irqs D H * S) : option (irqs D H * S) :=
  let irq := u8 (vec - IRQ_BASE) in
  h ← aget 16 (irq_handlers (fst qs)) irq;
  '(q, s) ← (match h with Some f => run f qs | None => Some qs end);
  Some (set_iqdev (pic_eoi irq (iq_dev q)) q, s).

(** An exception without a handler halts. *)
Definition isr_dispatch (vec : Z) (qs : irqs D H * S) : option (boot_result (irqs D H * S)) :=
  h ← aget 256 (handlers (fst qs)) vec;
  match h with
  | Some Irq_dispatch => r ← irq_dispatch vec qs; Some (Running r)
  | Some (Isr f) => r ← run f qs; Some (Running r)
  | None => Some (if vec <? 32 then Halted else Running qs)
  end.
End ops.

(** ** The controllers *)

(** A reference 8259: which initialisation word comes next, 0 when ready; the
    vector of its first line, the mask, and the ends of interrupt it was sent. *)
Record pic := { pic_step : Z; pic_base : Z; pic_mask : Z; pic_eois : nat }.

Definition pic_command (v : Z) (p : pic) : pic :=
  if Z.testbit v 4 then {| pic_step := 1; pic_base := pic_base p; pic_mask := 0; pic_eois := pic_eois p |}
  else if v =? PIC_EOI then {| pic_step := pic_step p; pic_base := pic_base p; pic_mask := pic_mask p; pic_eois := S (pic_eois p) |}
  else p.

Definition pic_data (v : Z) (p : pic) : pic :=
  if pic_step p =? 0 then {| pic_step := 0; pic_base := pic_base p; pic_mask := v; pic_eois := pic_eois p |}
  else if pic_step p =? 1 then {| pic_step := 2; pic_base := v; pic_mask := pic_mask p; pic_eois := pic_eois p |}
  else if pic_step p =? 2 then {| pic_step := 3; pic_base := pic_base p; pic_mask := pic_mask p; pic_eois := pic_eois p |}
  else {| pic_step := 0; pic_base := pic_base p; pic_mask := pic_mask p; pic_eois := pic_eois p |}.

(** A device whose controller ports behave as two of them. *)
Class PicPair (D : Type) `{PortIO D} := {
  pics : D → pic * pic;
  pics_out : ∀ p v d, pics (port_out W8 p v d) =
    let '(a, b) := pics d in
    if p =? PIC1_CMD then (pic_command v a, b)
    else if p =? PIC1_DATA then (pic_data v a, b)
    else if p =? PIC2_CMD then (a, pic_command v b)
    else if p =? PIC2_DATA then (a, pic_data v b)
    else (a, b);
  pics_in : ∀ p d, p = PIC1_DATA ∨ p = PIC2_DATA →
    fst (port_in W8 p d) = pic_mask (if p =? PIC1_DATA then fst (pics d) else snd (pics d)) ∧ pics (snd (port_in W8 p d)) = pics d;
}.
