(* ===== verification/IrqProps.v ===== *)
(** Interrupts reach the handler registered for their line: the gates of
    kernel/arch/x86_64/idt.c, and the controllers and tables of
    kernel/arch/x86_64/irq.c. *)
From stdpp Require Import prelude.
From S2P Require Import Prelude CString Ports Vmm Irq.

(** The address the processor jumps to through a gate. *)
Definition gate_target (g : idt_entry) : Z := off_low g + 2 ^ 16 * off_mid g + 2 ^ 32 * off_high g.

Lemma gate_target_entry a ist attr : 0 ≤ a < 2 ^ 64 → gate_target (idt_set_entry a ist attr) = a.
Proof.
  intros Ha. unfold gate_target, idt_set_entry. cbn [off_low off_mid off_high]. change 0xFFFF with (Z.ones 16).
  rewrite !Z.land_ones, !Z.shiftr_div_pow2 by lia. unfold u16, u32. rewrite !Z.mod_mod by lia.
  rewrite (Z.mod_small (a / 2 ^ 32)) by (split; [apply Z.div_pos|apply Z.div_lt_upper_bound]; lia).
  replace (a / 2 ^ 32) with (a / 2 ^ 16 / 2 ^ 16) by (by rewrite Z.div_div by lia).
  pose proof (Z.div_mod a (2 ^ 16) ltac:(lia)). pose proof (Z.div_mod (a / 2 ^ 16) (2 ^ 16) ltac:(lia)). lia.
Qed.

(** A line's bit in the mask, cleared or set. *)
Lemma mask_clear m b j : 0 ≤ m < 256 → 0 ≤ b < 8 → 0 ≤ j < 8 →
  Z.testbit (u8 (Z.land m (Z.lnot (Z.shiftl 1 b)))) j = if decide (j = b) then false else Z.testbit m j.
Proof.
  intros Hm Hb Hj. unfold u8. rewrite Z.mod_pow2_bits_low, Z.land_spec, Z.lnot_spec, Z.shiftl_spec by lia.
  case_decide as E; [subst; rewrite Z.sub_diag; apply andb_false_r|].
  replace (Z.testbit 1 (j - b)) with false; [apply andb_true_r|].
  destruct (decide (j < b)); [by rewrite Z.testbit_neg_r by lia|]. symmetry. apply Z.bits_above_log2; [lia|]. cbn. lia.
Qed.

Lemma mask_set m b j : 0 ≤ m < 256 → 0 ≤ b < 8 → 0 ≤ j < 8 →
  Z.testbit (u8 (Z.lor m (Z.shiftl 1 b))) j = if decide (j = b) then true else Z.testbit m j.
Proof.
  intros Hm Hb Hj. unfold u8. rewrite Z.mod_pow2_bits_low, Z.lor_spec, Z.shiftl_spec by lia.
  case_decide as E; [subst; rewrite Z.sub_diag; apply orb_true_r|].
  replace (Z.testbit 1 (j - b)) with false; [apply orb_false_r|].
  destruct (decide (j < b)); [by rewrite Z.testbit_neg_r by lia|]. symmetry. apply Z.bits_above_log2; [lia|]. cbn. lia.
Qed.

Section lines.
Context {D H : Type} `{PicPair D}.
Implicit Types (d : D) (q : irqs D H).

Definition ready d : Prop :=
  pic_step (fst (pics d)) = 0 ∧ pic_step (snd (pics d)) = 0
  ∧ 0 ≤ pic_mask (fst (pics d)) < 256 ∧ 0 ≤ pic_mask (snd (pics d)) < 256.

Definition masked d (i : Z) : bool :=
  Z.testbit (pic_mask (if i <? 8 then fst (pics d) else snd (pics d))) (if i <? 8 then i else i - 8).

Lemma pic_init_spec d :
  let '(a, b) := pics (pic_init d) in
  a = {| pic_step := 0; pic_base := 32; pic_mask := 0xFB; pic_eois := pic_eois (fst (pics d)) |}
  ∧ b = {| pic_step := 0; pic_base := 40; pic_mask := 0xFF; pic_eois := pic_eois (snd (pics d)) |}.
Proof.
  unfold pic_init, io_wait, outb. rewrite !pics_out. destruct (pics d) as [a b]. split; reflexivity.
Qed.

Lemma pic_eoi_spec i d :
  pics (pic_eoi i d) = (pic_command PIC_EOI (fst (pics d)),
                        if 8 <=? i then pic_command PIC_EOI (snd (pics d)) else snd (pics d)).
Proof. unfold pic_eoi, outb. destruct (8 <=? i); rewrite !pics_out; by destruct (pics d). Qed.

(** The mask of a line changes as [f] says, the others stay. *)
Lemma line_update d i (f : Z → Z) :
  0 ≤ i < 16 → ready d →
  let '(mask, d1) := inb (irq_port i) d in
  let d2 := outb (irq_port i) (u8 (f mask)) d1 in
  ready d2 ∧ mask = pic_mask (if i <? 8 then fst (pics d) else snd (pics d)) ∧ 0 ≤ mask < 256
  ∧ ∀ j, 0 ≤ j < 16 → masked d2 j = if decide ((j <? 8) = (i <? 8)) then Z.testbit (u8 (f mask)) (if j <? 8 then j else j - 8) else masked d j.
Proof.
  intros Hi (S1 & S2 & M1 & M2). unfold inb. destruct (pics_in (irq_port i) d) as [E1 E2].
  { unfold irq_port. destruct (i <? 8); auto. }
  destruct (port_in W8 (irq_port i) d) as [v d1]. cbn [fst snd] in *.
  assert (0 ≤ v < 256 ∧ v = pic_mask (if i <? 8 then fst (pics d) else snd (pics d))) as [Hv Ev].
  { rewrite E1. unfold irq_port. by destruct (i <? 8). }
  rewrite !(u8_small v) by lia. pose proof (Z.mod_pos_bound (f v) 256 ltac:(lia)) as Hu. change (f v mod 256) with (u8 (f v)) in Hu.
  assert (u8 (u8 (f v)) = u8 (f v)) as Euu by (by apply u8_small).
  unfold outb, masked, ready. rewrite pics_out, E2, Euu. destruct (pics d) as [a b]. cbn [fst snd] in *.
  unfold irq_port. destruct (Z.ltb_spec i 8); cbn [PIC1_CMD PIC1_DATA PIC2_CMD PIC2_DATA Z.eqb Pos.eqb]; unfold pic_data.
  - rewrite S1. cbn [Z.eqb fst snd pic_mask pic_step]. split_and!; try done; try lia. intros j Hj.
    by destruct (Z.ltb_spec j 8).
  - rewrite S2. cbn [Z.eqb fst snd pic_mask pic_step]. split_and!; try done; try lia. intros j Hj.
    by destruct (Z.ltb_spec j 8).
Qed.

Lemma irq_bit_small i : 0 ≤ i < 16 → irq_bit i = if i <? 8 then i else i - 8.
Proof. intros Hi. unfold irq_bit. destruct (Z.ltb_spec i 8); [done|]. rewrite u8_small; lia. Qed.

(** Registering clears the line's bit and sets both handlers. *)
Lemma irq_register_spec i h q :
  0 ≤ i < 16 → ready (iq_dev q) →
  let q1 := irq_register i h q in
  ready (iq_dev q1) ∧ (∀ j, 0 ≤ j < 16 → masked (iq_dev q1) j = if decide (j = i) then false else masked (iq_dev q) j)
  ∧ handlers q1 = upd (handlers q) (32 + i) (Some Irq_dispatch) ∧ irq_handlers q1 = upd (irq_handlers q) i (Some h)
  ∧ idt q1 = idt q.
Proof.
  intros Hi Hr q1. unfold q1, irq_register. destruct (Z.leb_spec 16 i); [lia|].
  set (q0 := idt_set_handler _ _ _). change (iq_dev q0) with (iq_dev q).
  pose proof (line_update (iq_dev q) i (λ m, Z.land m (Z.lnot (Z.shiftl 1 (irq_bit i)))) Hi Hr) as Hl.
  destruct (inb (irq_port i) (iq_dev q)) as [mask d]. destruct Hl as (Hr1 & Em & Hm & Hj). cbn [iq_dev set_iqdev].
  split_and!; [done| |unfold q0, idt_set_handler, IRQ_BASE; cbn; by rewrite u8_small by lia|done|done].
  intros j Hjr. rewrite Hj by done. rewrite irq_bit_small by done. unfold masked.
  destruct (Z.ltb_spec j 8), (Z.ltb_spec i 8); try (rewrite decide_False by done; rewrite decide_False by lia; done).
  all: rewrite decide_True by done; rewrite mask_clear by lia; rewrite Em; repeat case_decide; done || lia.
Qed.

Lemma irq_unregister_spec i q :
  0 ≤ i < 16 → ready (iq_dev q) →
  let q1 := irq_unregister i q in
  ready (iq_dev q1) ∧ (∀ j, 0 ≤ j < 16 → masked (iq_dev q1) j = if decide (j = i) then true else masked (iq_dev q) j)
  ∧ handlers q1 = handlers q ∧ irq_handlers q1 = upd (irq_handlers q) i None.
Proof.
  intros Hi Hr q1. unfold q1, irq_unregister. destruct (Z.leb_spec 16 i); [lia|].
  set (q0 := set_irq_handlers _ _). change (iq_dev q0) with (iq_dev q).
  pose proof (line_update (iq_dev q) i (λ m, Z.lor m (Z.shiftl 1 (irq_bit i))) Hi Hr) as Hl.
  destruct (inb (irq_port i) (iq_dev q)) as [mask d]. destruct Hl as (Hr1 & Em & Hm & Hj). cbn [iq_dev set_iqdev].
  split_and!; [done| |done|done].
  intros j Hjr. rewrite Hj by done. rewrite irq_bit_small by done. unfold masked.
  destruct (Z.ltb_spec j 8), (Z.ltb_spec i 8); try (rewrite decide_False by done; rewrite decide_False by lia; done).
  all: rewrite decide_True by done; rewrite mask_set by lia; rewrite Em; repeat case_decide; done || lia.
Qed.

(** Every gate leads to its stub. *)
Lemma idt_init_gate (stubs : Z → Z) q v :
  (∀ v, 0 ≤ v < 256 → 0 ≤ stubs v < 2 ^ 64) → 0 ≤ v < 256 → gate_target (idt (idt_init stubs q) v) = stubs v.
Proof.
  intros Hst Hv. unfold idt_init. cbn [idt].
  rewrite (proj2 (Z.leb_le 0 v)), (proj2 (Z.ltb_lt v 256)) by lia. by apply gate_target_entry, Hst.
Qed.

(** Delivery of a line whose handler slot is [o]. *)
Lemma deliver {S} (run : H → irqs D H * S → option (irqs D H * S)) i q s o :
  0 ≤ i < 16 → handlers q (32 + i) = Some Irq_dispatch → irq_handlers q i = o →
  isr_dispatch run (32 + i) (q, s)
  = match (match o with Some f => run f (q, s) | None => Some (q, s) end) with
    | Some (q2, s2) => Some (Running (set_iqdev (pic_eoi i (iq_dev q2)) q2, s2))
    | None => None
    end.
Proof.
  intros Hi Hh Ho. unfold isr_dispatch. cbn [fst]. rewrite aget_Some, Hh by lia. cbn [mbind option_bind].
  unfold irq_dispatch, IRQ_BASE. replace (32 + i - 32) with i by lia. rewrite u8_small, aget_Some by (cbn; lia).
  cbn [mbind option_bind fst]. rewrite Ho. by destruct o as [f|]; [destruct (run f (q, s)) as [[]|]|].
Qed.

(** C21: Interrupt routing.  [pic_init] leaves both controllers ready at vectors
    32 and 40, with every line but the cascade masked; and every gate of
    [idt_init] leads to its stub.  From then on [irq_register] unmasks exactly its
    line, an interrupt on the line runs the registered function and is then
    acknowledged once at the first controller and, from line 8 on, once at the
    second; after [irq_unregister] the line alone is masked again and an interrupt
    is only acknowledged. *)
Theorem interrupts_routed {S} (run : H → irqs D H * S → option (irqs D H * S)) q i h s stubs :
  0 ≤ i < 16 → (∀ v, 0 ≤ v < 256 → 0 ≤ stubs v < 2 ^ 64) →
  let q0 := idt_init stubs (set_iqdev (pic_init (iq_dev q)) q) in
  let q1 := irq_register i h q0 in
  let q2 := irq_unregister i q1 in
  (∀ v, 0 ≤ v < 256 → gate_target (idt q0 v) = stubs v)
  ∧ (pic_base (fst (pics (iq_dev q0))) = 32 ∧ pic_base (snd (pics (iq_dev q0))) = 40)
  ∧ (∀ j, 0 ≤ j < 16 → masked (iq_dev q0) j = negb (j =? 2))
  ∧ (∀ j, 0 ≤ j < 16 → masked (iq_dev q1) j = if decide (j = i) then false else negb (j =? 2))
  ∧ isr_dispatch run (32 + i) (q1, s)
    = match run h (q1, s) with
      | Some (q', s') => Some (Running (set_iqdev (pic_eoi i (iq_dev q')) q', s'))
      | None => None
      end
  ∧ (∀ d, pic_eois (fst (pics (pic_eoi i d))) = Nat.succ (pic_eois (fst (pics d)))
          ∧ pic_eois (snd (pics (pic_eoi i d))) = ((if (8 <=? i)%Z then 1 else 0) + pic_eois (snd (pics d)))%nat)
  ∧ (∀ j, 0 ≤ j < 16 → masked (iq_dev q2) j = if decide (j = i) then true else negb (j =? 2))
  ∧ isr_dispatch run (32 + i) (q2, s) = Some (Running (set_iqdev (pic_eoi i (iq_dev q2)) q2, s)).
Proof.
  intros Hi Hst q0 q1 q2. pose proof (pic_init_spec (iq_dev q)) as Hp.
  change (pic_init (iq_dev q)) with (iq_dev q0) in Hp. destruct (pics (iq_dev q0)) as [a b] eqn:Ep.
  destruct Hp as [Ha Hb].
  assert (ready (iq_dev q0)) as Hr0 by (unfold ready; rewrite Ep; cbn; subst a b; cbn; split_and!; done || lia).
  assert (∀ j, 0 ≤ j < 16 → masked (iq_dev q0) j = negb (j =? 2)) as Hm0.
  { intros j Hj. unfold masked. rewrite Ep. cbn [fst snd]. subst a b. cbn [pic_mask].
    pose proof (check_range (λ j, eqb (Z.testbit (if j <? 8 then 0xFB else 0xFF) (if j <? 8 then j else j - 8)) (negb (j =? 2))) 16
                  eq_refl j Hj) as Hc. apply eqb_prop in Hc. by destruct (j <? 8). }
  destruct (irq_register_spec i h q0 Hi Hr0) as (Hr1 & Hm1 & Hh1 & Hi1 & _). fold q1 in Hr1, Hm1, Hh1, Hi1.
  destruct (irq_unregister_spec i q1 Hi Hr1) as (_ & Hm2 & Hh2 & Hi2). fold q2 in Hm2, Hh2, Hi2.
  split_and!; [|by subst|by subst|exact Hm0| | | | |].
  - intros v Hv. by apply idt_init_gate.
  - intros j Hj. rewrite Hm1 by done. case_decide; [done|by apply Hm0].
  - apply (deliver run i q1 s (Some h)); [done|rewrite Hh1; apply upd_eq|rewrite Hi1; apply upd_eq].
  - intros d. rewrite pic_eoi_spec. cbn [fst snd]. split; [done|]. by destruct (8 <=? i).
  - intros j Hj. rewrite Hm2, Hm1 by done. case_decide; [done|by apply Hm0].
  - apply (deliver run i q2 s None); [done|rewrite Hh2, Hh1; apply upd_eq|rewrite Hi2; apply upd_eq].
Qed.
End lines.

(** ** Samples *)

(** Two controllers and nothing else. *)
#[export] Instance pic_ports : PortIO (pic * pic) := {|
  port_in _ p d := (if p =? PIC1_DATA then pic_mask (fst d) else if p =? PIC2_DATA then pic_mask (snd d) else 0, d);
  port_out _ p v d :=
    let '(a, b) := d in
    if p =? PIC1_CMD then (pic_command v a, b)
    else if p =? PIC1_DATA then (pic_data v a, b)
    else if p =? PIC2_CMD then (a, pic_command v b)
    else if p =? PIC2_DATA then (a, pic_data v b)
    else (a, b) |}.

#[export] Instance pic_pair : PicPair (pic * pic).
Proof. refine {| pics := id; pics_out := _; pics_in := _ |}; [done|]. by intros p d [-> | ->]. Defined.

Lemma interrupts_routed_witness :
  let p := {| pic_step := 0; pic_base := 8; pic_mask := 0; pic_eois := 0 |} in
  let g := {| off_low := 0; gate_cs := 0; gate_ist := 0; gate_attr := 0; off_mid := 0; off_high := 0 |} in
  let q := {| iq_dev := (p, p); idt := λ _, g; handlers := λ _, None; irq_handlers := λ _, None |} in
  let q1 := irq_register 12 5 (idt_init (λ v, 0x100000 + 16 * v) (set_iqdev (pic_init (iq_dev q)) q)) in
  ∃ q', isr_dispatch (λ h '(q, s), Some (q, s + h)) 44 (q1, 100) = Some (Running (q', 105)).
Proof.
  intros p g q q1.
  destruct (interrupts_routed (λ h '(q, s), Some (q, s + h)) q 12 5 100 (λ v, 0x100000 + 16 * v))
    as (_ & _ & _ & _ & E & _); [lia|intros v Hv; lia|]. eexists. exact E.
Defined.
