(* ===== verification/Ring.v ===== *)
(** A ring buffer of [N] slots as the queue of its elements: the drivers keep
    [head] and [tail] indices and leave one slot free. *)
From stdpp Require Import prelude.
From S2P Require Import Prelude.

Lemma mod_add_once N x y : 0 ≤ x < N → 0 ≤ y < N → (x + y) mod N = if decide (x + y < N) then x + y else x + y - N.
Proof.
  intros Hx Hy. case_decide; [apply Z.mod_small; lia|]. symmetry. apply (Z.mod_unique _ _ 1); lia.
Qed.

Lemma mod_sub_once N x y : 0 ≤ x < N → 0 ≤ y < N → (x - y) mod N = if decide (y ≤ x) then x - y else x - y + N.
Proof.
  intros Hx Hy. case_decide; [apply Z.mod_small; lia|]. symmetry. apply (Z.mod_unique _ _ (-1)); lia.
Qed.

Section ring.
Context {B : Type} (N : Z).
Implicit Types (buf : Z → B) (q : list B).

Record ring_rep buf (head tail : Z) q : Prop := {
  rr_head : 0 ≤ head < N;
  rr_tail : 0 ≤ tail < N;
  rr_len : Z.of_nat (length q) = (head - tail) mod N;
  rr_buf : ∀ i c, q !! i = Some c → buf ((tail + Z.of_nat i) mod N) = c;
}.

Lemma rr_length buf head tail q :
  ring_rep buf head tail q → Z.of_nat (length q) = if decide (tail ≤ head) then head - tail else head - tail + N.
Proof. intros [R1 R2 R3 _]. by rewrite R3, mod_sub_once. Qed.

Lemma ring_empty buf head tail q : ring_rep buf head tail q → (head = tail ↔ q = []).
Proof.
  intros R. pose proof (rr_length _ _ _ _ R) as Hl. destruct R as [R1 R2 _ _]. split.
  - intros ->. rewrite decide_True in Hl by lia. destruct q; [done|cbn in Hl; lia].
  - intros ->. cbn in Hl. case_decide; lia.
Qed.

Lemma ring_full buf head tail q :
  1 < N → ring_rep buf head tail q → (head + 1) mod N = tail ↔ Z.of_nat (length q) = N - 1.
Proof.
  intros HN R. rewrite (rr_length _ _ _ _ R). destruct R as [R1 R2 _ _]. rewrite mod_add_once by lia.
  repeat case_decide; lia.
Qed.

Lemma ring_push buf head tail q c :
  ring_rep buf head tail q → Z.of_nat (length q) < N - 1 → ring_rep (upd buf head c) ((head + 1) mod N) tail (q ++ [c]).
Proof.
  intros R Hl. pose proof (rr_length _ _ _ _ R) as Hlen. destruct R as [R1 R2 R3 R4].
  assert (0 ≤ (head + 1) mod N < N) as Hh by (apply Z.mod_pos_bound; lia).
  split; [done|done| |].
  - rewrite length_app. cbn [length]. rewrite mod_sub_once by done. rewrite mod_add_once in * by lia.
    repeat case_decide; lia.
  - intros i x [Hi|[Hge Hi]]%lookup_app_Some.
    + rewrite upd_ne; [by apply R4|]. apply lookup_lt_Some in Hi. rewrite mod_add_once by lia. repeat case_decide; lia.
    + apply list_lookup_singleton_Some in Hi as [Ei <-].
      replace ((tail + Z.of_nat i) mod N) with head; [apply upd_eq|].
      rewrite mod_add_once by lia. repeat case_decide; lia.
Qed.

Lemma ring_pop buf head tail c q :
  ring_rep buf head tail (c :: q) → buf tail = c ∧ ring_rep buf head ((tail + 1) mod N) q.
Proof.
  intros R. pose proof (rr_length _ _ _ _ R) as Hlen. destruct R as [R1 R2 R3 R4]. split.
  - pose proof (R4 0%nat c eq_refl) as E. by rewrite Z.add_0_r, Z.mod_small in E.
  - assert (0 ≤ (tail + 1) mod N < N) as Ht by (apply Z.mod_pos_bound; lia). cbn [length] in Hlen.
    assert (1 < N) as HN by (case_decide; lia).
    split; [done|done| |].
    + rewrite mod_sub_once by done. rewrite mod_add_once in * by lia. repeat case_decide; lia.
    + intros i x Hi. rewrite Z.add_mod_idemp_l by lia. rewrite <-(R4 (S i) x Hi). do 2 f_equal. lia.
Qed.
End ring.
