(* ===== verification/Kbd.v ===== *)
(** Model of kernel/drivers/keyboard.c: the PS/2 keyboard's ring buffer, its
    interrupt handler and the blocking read.  A byte read from the data port is
    an argument of the handler.

    Properties: the ring buffer as a bounded queue. *)
From stdpp Require Import prelude gmap.
From S2P Require Import Prelude CString FrameAlloc Bitmap Pmm Vmm VmmWf VmmSpec VmmRange VmmProps Heap HeapSlab HeapMap HeapList HeapInv HeapOps HeapApi HeapRefine HeapProps Sched SchedRing SchedInv SchedRun SchedCreate SchedProps Proc Ports Irq Ring.

Definition KB_DATA : Z := 0x60.
Definition KB_STATUS : Z := 0x64.
Definition KB_BUF_SIZE : Z := 256.
Definition KB_WAIT_MAX : Z := 8.

(** The entries the initialisers list; the rest of the 128 are 0. *)
Definition scancode_map : Z → Z := lit
  [0; 27; 49; 50; 51; 52; 53; 54; 55; 56; 57; 48; 45; 61; 8; 9; 113; 119; 101; 114; 116; 121; 117; 105; 111; 112; 91; 93; 10; 0; 97; 115; 100; 102; 103; 104; 106; 107; 108; 59; 39; 96; 0; 92; 122; 120; 99; 118; 98; 110; 109; 44; 46; 47; 0; 42; 0; 32].
Definition scancode_shift_map : Z → Z := lit
  [0; 27; 33; 64; 35; 36; 37; 94; 38; 42; 40; 41; 95; 43; 8; 9; 81; 87; 69; 82; 84; 89; 85; 73; 79; 80; 123; 125; 10; 0; 65; 83; 68; 70; 71; 72; 74; 75; 76; 58; 34; 126; 0; 124; 90; 88; 67; 86; 66; 78; 77; 60; 62; 63; 0; 42; 0; 32].

Record kbd (A : Type) := {
  kb_sched : sched A;
  kb_buf : Z → Z;
  kb_head : Z;
  kb_tail : Z;
  kb_waiters : Z → Z;
  kb_waiter_count : Z;
  shift_state : bool;
  caps_state : bool;
}.
Arguments kb_sched {A} _.
Arguments kb_buf {A} _.
Arguments kb_head {A} _.
Arguments kb_tail {A} _.
Arguments kb_waiters {A} _.
Arguments kb_waiter_count {A} _.
Arguments shift_state {A} _.
Arguments caps_state {A} _.

Section ops.
Context {A : Type} `{FrameOps A}.
Implicit Types (k : kbd A).

Definition set_mods (shift caps : bool) k : kbd A :=
  {| kb_sched := kb_sched k; kb_buf := kb_buf k; kb_head := kb_head k; kb_tail := kb_tail k; kb_waiters := kb_waiters k;
     kb_waiter_count := kb_waiter_count k; shift_state := shift; caps_state := caps |}.
Definition set_ring (b : Z → Z) (h t : Z) k : kbd A :=
  {| kb_sched := kb_sched k; kb_buf := b; kb_head := h; kb_tail := t; kb_waiters := kb_waiters k;
     kb_waiter_count := kb_waiter_count k; shift_state := shift_state k; caps_state := caps_state k |}.
Definition set_waiters (c : sched A) (w : Z → Z) (n : Z) k : kbd A :=
  {| kb_sched := c; kb_buf := kb_buf k; kb_head := kb_head k; kb_tail := kb_tail k; kb_waiters := w;
     kb_waiter_count := n; shift_state := shift_state k; caps_state := caps_state k |}.

(** The loop of the handler over the waiters from [i] on, with [n] left, in an
    array of [max]. *)
Fixpoint waiters_loop (max : Z) (n : nat) (i : Z) (w : Z → Z) (c : sched A) : option ((Z → Z) * sched A) :=
  match n with
  | O => Some (w, c)
  | S n' =>
      t ← aget max w i;
      if t =? 0 then waiters_loop max n' (i + 1) w c
      else
        c1 ← sched_unblock t c;
        w1 ← aset max w i 0;
        waiters_loop max n' (i + 1) w1 c1
  end.

(** [kb_irq_handler] after it read [sc] from the port. *)
Definition kb_irq_handler (sc : Z) k : option (kbd A) :=
  if negb (Z.land sc 0x80 =? 0) then
    let sc := Z.land sc 0x7F in
    Some (if (sc =? 0x2A) || (sc =? 0x36) then set_mods false (caps_state k) k else k)
  else if (sc =? 0x2A) || (sc =? 0x36) then Some (set_mods true (caps_state k) k)
  else if sc =? 0x3A then Some (set_mods (shift_state k) (negb (caps_state k)) k)
  else if 128 <=? sc then Some k
  else
    c ← aget 128 (if shift_state k || caps_state k then scancode_shift_map else scancode_map) sc;
    if c =? 0 then Some k
    else
      let next := u32 (kb_head k + 1) mod KB_BUF_SIZE in
      k1 ← (if negb (next =? kb_tail k) then
              b ← aset KB_BUF_SIZE (kb_buf k) (kb_head k) c; Some (set_ring b next (kb_tail k) k)
            else Some k);
      '(w, c1) ← waiters_loop KB_WAIT_MAX (Z.to_nat (kb_waiter_count k1)) 0 (kb_waiters k1) (kb_sched k1);
      Some (set_waiters c1 w 0 k1).

Definition keyboard_poll k : option (Z * kbd A) :=
  if kb_head k =? kb_tail k then Some (-1, k)
  else
    c ← aget KB_BUF_SIZE (kb_buf k) (kb_tail k);
    Some (c, set_ring (kb_buf k) (kb_head k) (u32 (kb_tail k + 1) mod KB_BUF_SIZE) k).

(** One round of [keyboard_read_char]: the character, or [None] inside after
    blocking until the next interrupt. *)
Definition read_round k : option (option Z * kbd A) :=
  if negb (kb_head k =? kb_tail k) then '(c, k1) ← keyboard_poll k; Some (Some c, k1)
  else
    let cur := current_task (kb_sched k) in
    '(w, n) ← (if negb (cur =? 0) && (kb_waiter_count k <? KB_WAIT_MAX) then
                 w ← aset KB_WAIT_MAX (kb_waiters k) (kb_waiter_count k) cur; Some (w, kb_waiter_count k + 1)
               else Some (kb_waiters k, kb_waiter_count k));
    c ← sched_block cur UINT64_MAX (kb_sched k);
    Some (None, set_waiters c w n k).
End ops.

(** [while (inb(KB_STATUS) & 1) inb(KB_DATA);] *)
Fixpoint drain_loop {D} `{PortIO D} (fuel : nat) (d : D) : option D :=
  let '(st, d) := inb KB_STATUS d in
  if Z.land st 1 =? 0 then Some d
  else match fuel with O => None | S f => drain_loop f (snd (inb KB_DATA d)) end.

(** [h] is the handler above. *)
Definition keyboard_init {D H} `{PortIO D} (fuel : nat) (h : H) (q : irqs D H) : option (irqs D H) :=
  d ← drain_loop fuel (iq_dev q); Some (irq_register 1 h (set_iqdev d q)).

(** The character a scan code types, given the modifiers. *)
Definition typed (sc : Z) (upper : bool) : option Z :=
  if (128 <=? sc) || bool_decide (sc ∈ [0x2A; 0x36; 0x3A]) then None
  else let c := (if upper then scancode_shift_map else scancode_map) sc in if c =? 0 then None else Some c.

(** The queue after a key: a key that does not fit is lost. *)
Definition enqueue_key (c : option Z) (q : list Z) : list Z :=
  match c with Some c => if Z.of_nat (length q) <? KB_BUF_SIZE - 1 then q ++ [c] else q | None => q end.

Section fifo.
Context {A : Type} `{FrameAllocator A}.
Implicit Types (k : kbd A) (q L : list Z).

(** The unread characters, oldest first. *)
Definition kb_rep k q : Prop := ring_rep KB_BUF_SIZE (kb_buf k) (kb_head k) (kb_tail k) q.

(** The waiters are tasks of a sound scheduler. *)
Definition waiters_ok k L : Prop :=
  sched_inv (kb_sched k) L ∧ 0 ≤ kb_waiter_count k ≤ KB_WAIT_MAX
  ∧ ∀ j, 0 ≤ j < kb_waiter_count k → kb_waiters k j = 0 ∨ is_Some (sc_tasks (kb_sched k) !! kb_waiters k j).

Lemma waiters_loop_spec max n i w (c : sched A) L :
  sched_inv c L → 0 ≤ i → i + Z.of_nat n ≤ max →
  (∀ j, i ≤ j < i + Z.of_nat n → w j = 0 ∨ is_Some (sc_tasks c !! w j)) →
  ∃ w' c' L', waiters_loop max n i w c = Some (w', c') ∧ sched_inv c' L' ∧ woken c c'
    ∧ ∀ j, i ≤ j < i + Z.of_nat n → w j ≠ 0 → tstate (sc_tasks c') (w j) ≠ Some TASK_BLOCKED.
Proof.
  revert i w c L. induction n as [|n IH]; intros i w c L Hi Hi0 Hn Hw; cbn [waiters_loop].
  { exists w, c, L. split_and!; [done|done|apply woken_refl|lia]. }
  rewrite aget_Some by lia. cbn [mbind option_bind]. destruct (Z.eqb_spec (w i) 0) as [E|E].
  - destruct (IH (i + 1) w c L Hi) as (w' & c' & L' & -> & Hi' & Hwk & Hj); [lia|lia|intros j Hj; apply Hw; lia|].
    exists w', c', L'. split_and!; [done|done|done|]. intros j Hji Hnz. apply Hj; [|done].
    destruct (decide (j = i)) as [->|]; [done|lia].
  - destruct (Hw i) as [?|Hs]; [lia|done|]. destruct (unblock_spec c L (w i) Hi Hs) as (c1 & L1 & -> & Hi1 & Hw1 & Ht1).
    cbn [mbind option_bind]. rewrite aset_Some by lia. cbn [mbind option_bind].
    destruct (IH (i + 1) (upd w i 0) c1 L1 Hi1) as (w' & c' & L' & -> & Hi' & Hwk & Hj); [lia|lia| |].
    { intros j Hj. rewrite upd_ne by lia. destruct (Hw j) as [?|?]; [lia|by left|right]. by apply (wo_tasks _ _ Hw1). }
    exists w', c', L'. split_and!; [done|done|by eapply woken_trans|]. intros j Hji Hnz. destruct (decide (j = i)) as [->|].
    + by apply (wo_ready _ _ Hwk).
    + specialize (Hj j ltac:(lia)). rewrite upd_ne in Hj by done. by apply Hj.
Qed.

(** Bit 7 marks the release of a key. *)
Lemma break_bit sc : 0 ≤ sc < 256 → (Z.land sc 0x80 =? 0) = (sc <? 128).
Proof. intros Hsc. apply eqb_prop. by apply (check_range (λ x, Bool.eqb (Z.land x 0x80 =? 0) (x <? 128)) 256). Qed.

(** Storing a key in the ring. *)
Lemma key_stored k q c :
  kb_rep k q →
  ∃ k1, (if negb ((kb_head k + 1) mod KB_BUF_SIZE =? kb_tail k)
         then b ← aset KB_BUF_SIZE (kb_buf k) (kb_head k) c; Some (set_ring b ((kb_head k + 1) mod KB_BUF_SIZE) (kb_tail k) k)
         else Some k) = Some k1
    ∧ kb_rep k1 (if Z.of_nat (length q) <? KB_BUF_SIZE - 1 then q ++ [c] else q)
    ∧ kb_waiter_count k1 = kb_waiter_count k ∧ kb_waiters k1 = kb_waiters k ∧ kb_sched k1 = kb_sched k.
Proof.
  intros Hr. pose proof (ring_full _ _ _ _ _ (eq_refl : 1 < KB_BUF_SIZE) Hr) as Hf. assert (Z.of_nat (length q) ≤ KB_BUF_SIZE - 1) as Hle.
  { rewrite (rr_len _ _ _ _ _ Hr). pose proof (Z.mod_pos_bound (kb_head k - kb_tail k) KB_BUF_SIZE eq_refl). lia. }
  destruct (Z.eqb_spec ((kb_head k + 1) mod KB_BUF_SIZE) (kb_tail k)) as [E|E]; cbn [negb].
  - exists k. destruct (Z.ltb_spec (Z.of_nat (length q)) (KB_BUF_SIZE - 1)); [|by split_and!]. apply Hf in E. lia.
  - rewrite aset_Some by apply Hr. cbn [mbind option_bind]. eexists. split; [reflexivity|].
    destruct (Z.ltb_spec (Z.of_nat (length q)) (KB_BUF_SIZE - 1)) as [Hlt|Hge]; [|destruct E; apply Hf; lia].
    split; [by apply ring_push|done].
Qed.

(** C29: The keyboard is a queue of 255 characters.  The interrupt handler
    never faults and appends the character of the scan code under the current
    modifiers, losing it when the queue is full, and then wakes every waiting
    task; [keyboard_poll] takes the oldest character, or answers -1 on an empty
    queue. *)
Theorem keyboard_refines_queue k q L sc :
  kb_rep k q → waiters_ok k L → 0 ≤ sc < 256 →
  (∃ k', kb_irq_handler sc k = Some k'
     ∧ kb_rep k' (enqueue_key (typed sc (shift_state k || caps_state k)) q)
     ∧ (typed sc (shift_state k || caps_state k) ≠ None → kb_waiter_count k' = 0
          ∧ ∀ j, 0 ≤ j < kb_waiter_count k → kb_waiters k j ≠ 0 →
              tstate (sc_tasks (kb_sched k')) (kb_waiters k j) ≠ Some TASK_BLOCKED))
  ∧ match q with
    | [] => keyboard_poll k = Some (-1, k)
    | c :: q' => ∃ k', keyboard_poll k = Some (c, k') ∧ kb_rep k' q'
    end.
Proof.
  intros Hr (Hi & Hc & Hw) Hsc. split.
  - unfold kb_irq_handler, typed. set (up := shift_state k || caps_state k).
    rewrite (break_bit sc Hsc). destruct (Z.ltb_spec sc 128) as [Hlt|Hge]; cbn [negb]; last first.
    { destruct (Z.leb_spec 128 sc); [|lia]. cbn [orb enqueue_key]. eexists. split; [reflexivity|]. split; [|done].
      by destruct ((Z.land sc 127 =? 42) || (Z.land sc 127 =? 54)). }
    destruct (Z.leb_spec 128 sc); [lia|]. cbn [orb].
    destruct ((sc =? 0x2A) || (sc =? 0x36)) eqn:E1.
    { rewrite bool_decide_true by (apply orb_true_iff in E1; rewrite !Z.eqb_eq in E1; destruct E1 as [-> | ->]; set_solver).
      eexists. split; [reflexivity|]. split; [|done]. exact Hr. }
    apply orb_false_iff in E1 as [E1 E2]. apply Z.eqb_neq in E1, E2. destruct (Z.eqb_spec sc 0x3A) as [->|E3].
    { eexists. split; [reflexivity|]. split; [|done]. exact Hr. }
    rewrite bool_decide_false by (intros [->|[->|[->|[]%not_elem_of_nil]%elem_of_cons]%elem_of_cons]%elem_of_cons; lia).
    rewrite aget_Some by lia. cbn [mbind option_bind]. set (c := (if up then scancode_shift_map else scancode_map) sc).
    destruct (Z.eqb_spec c 0) as [Ec|Ec]; [by exists k|].
    rewrite u32_small by (pose proof (rr_head _ _ _ _ _ Hr); unfold KB_BUF_SIZE in *; lia). cbn [enqueue_key].
    pose proof (key_stored k q c Hr) as (k1 & -> & Hr1 & E4 & E5 & E6). cbn [mbind option_bind]. rewrite E4, E5, E6.
    destruct (waiters_loop_spec KB_WAIT_MAX (Z.to_nat (kb_waiter_count k)) 0 (kb_waiters k) (kb_sched k) L Hi) as (w' & c' & L' & -> & _ & _ & Hj);
      [lia|lia|intros j Hj; apply Hw; lia|]. cbn [mbind option_bind]. eexists. split; [reflexivity|].
    split; [exact Hr1|]. intros _. split; [done|]. intros j Hjr. apply Hj. lia.
  - destruct q as [|c q'].
    + unfold keyboard_poll. by rewrite (proj2 (ring_empty _ _ _ _ _ Hr)), Z.eqb_refl by done.
    + destruct (ring_pop _ _ _ _ _ _ Hr) as [Hb Hr']. unfold keyboard_poll. destruct (Z.eqb_spec (kb_head k) (kb_tail k)) as [E|E].
      { by apply (ring_empty _ _ _ _ _ Hr) in E. }
      rewrite aget_Some by apply Hr. cbn [mbind option_bind]. rewrite Hb. eexists. split; [reflexivity|].
      rewrite u32_small; [exact Hr'|]. pose proof (rr_tail _ _ _ _ _ Hr). unfold KB_BUF_SIZE in *. lia.
Qed.
End fifo.

Lemma keyboard_refines_queue_witness :
  ∃ k k' : kbd pmm, kb_irq_handler 0x1E k = Some k' ∧ keyboard_poll k' = Some (97, set_ring (kb_buf k') 1 1 k').
Proof.
  set (k := {| kb_sched := single 5 (sample_heap (one_free 300)); kb_buf := λ _, 0; kb_head := 0; kb_tail := 0; kb_waiters := λ _, 5;
               kb_waiter_count := 1; shift_state := false; caps_state := false |} : kbd pmm).
  assert (kb_rep k []) as Hr by (split; done).
  assert (waiters_ok k []) as Hw.
  { split_and!; [by apply single_inv|done|done|]. intros j _. right. cbn [k kb_waiters kb_sched single with_idle with_current with_tasks sc_tasks].
    rewrite lookup_singleton_eq. by eexists. }
  destruct (keyboard_refines_queue k [] [] 0x1E Hr Hw ltac:(lia)) as [(k' & E & Hr' & _) _]. exists k, k'. split; [exact E|].
  assert (kb_head k' = 1 ∧ kb_tail k' = 0) as [Eh Et].
  { vm_compute in E. injection E as <-. done. }
  unfold keyboard_poll. rewrite Eh, Et. cbn [Z.eqb]. rewrite aget_Some by (unfold KB_BUF_SIZE; lia). cbn [mbind option_bind].
  pose proof (rr_buf _ _ _ _ _ Hr' 0%nat 97 eq_refl) as Eb. rewrite Et in Eb. change ((0 + Z.of_nat 0) mod KB_BUF_SIZE) with 0 in Eb. by rewrite Eb.
Defined.
