(* ===== verification/Mouse.v ===== *)
(** Model of kernel/drivers/mouse.c: the PS/2 mouse behind the keyboard
    controller's ports, its packets and the ring buffer of its events.

    Properties: the packets as a queue of movements. *)
From stdpp Require Import prelude gmap.
From S2P Require Import Prelude CString FrameAlloc Bitmap Pmm Vmm VmmProps Heap HeapProps Sched SchedInv SchedProps Proc Ports Irq Ring Kbd.

Definition PS2_DATA : Z := 0x60.
Definition PS2_STATUS : Z := 0x64.
Definition PS2_CMD : Z := 0x64.
Definition PS2_STATUS_OBF : Z := Z.shiftl 1 0.
Definition PS2_STATUS_IBF : Z := Z.shiftl 1 1.
Definition MOUSE_BUF_SIZE : Z := 64.
Definition MOUSE_WAIT_MAX : Z := 4.
Definition PS2_TIMEOUT : Z := 100000.

Record mouse_event := { dx : Z; dy : Z; buttons : Z; overflow_x : bool; overflow_y : bool; valid : bool }.

Record mouse (A : Type) := {
  mo_sched : sched A;
  mouse_buf : Z → mouse_event;
  mouse_head : Z;
  mouse_tail : Z;
  packet : Z → Z;
  packet_idx : Z;
  mouse_waiters : Z → Z;
  mouse_waiter_count : Z;
}.
Arguments mo_sched {A} _.
Arguments mouse_buf {A} _.
Arguments mouse_head {A} _.
Arguments mouse_tail {A} _.
Arguments packet {A} _.
Arguments packet_idx {A} _.
Arguments mouse_waiters {A} _.
Arguments mouse_waiter_count {A} _.

(** ** The controller *)

Section ports.
Context {D : Type} `{PortIO D}.
Implicit Types (d : D).

(** [while (busy(inb(PS2_STATUS)) && timeout--);] *)
Fixpoint ps2_wait (timeout : nat) (busy : Z → bool) d : D :=
  let '(st, d) := inb PS2_STATUS d in
  if busy st then match timeout with O => d | S n => ps2_wait n busy d end else d.

Definition ps2_wait_write d : D := ps2_wait (Z.to_nat PS2_TIMEOUT) (λ st, negb (Z.land st PS2_STATUS_IBF =? 0)) d.
Definition ps2_wait_read d : D := ps2_wait (Z.to_nat PS2_TIMEOUT) (λ st, Z.land st PS2_STATUS_OBF =? 0) d.

Definition ps2_cmd (cmd : Z) d : D := outb PS2_CMD cmd (ps2_wait_write d).
Definition ps2_write (val : Z) d : D := outb PS2_DATA val (ps2_wait_write d).
Definition mouse_write (val : Z) d : D := ps2_write val (ps2_cmd 0xD4 d).
Definition ps2_read d : Z * D := inb PS2_DATA (ps2_wait_read d).

(** [h] is [mouse_irq_handler]. *)
Definition mouse_init {H} (h : H) (q : irqs D H) : irqs D H :=
  let d := ps2_cmd 0xA8 (iq_dev q) in
  let d := ps2_cmd 0x20 d in
  let '(cfg, d) := ps2_read d in
  let cfg := Z.lor cfg 0x02 in
  let cfg := u8 (Z.land cfg (Z.lnot 0x20)) in
  let d := ps2_cmd 0x60 d in
  let d := ps2_write cfg d in
  let d := mouse_write 0xF6 d in
  let '(_, d) := ps2_read d in
  let d := mouse_write 0xF4 d in
  let '(_, d) := ps2_read d in
  irq_register 12 h (set_iqdev d q).
End ports.

(** ** Events *)

Definition decode_packet (flags raw_x raw_y : Z) : mouse_event :=
  let x := if negb (Z.land flags 0x10 =? 0) then i8 (Z.lor raw_x 0x100) else i8 raw_x in
  let y := if negb (Z.land flags 0x20 =? 0) then i8 (Z.lor raw_y 0x100) else i8 raw_y in
  {| dx := x; dy := i8 (- y); buttons := Z.land flags 0x07;
     overflow_x := negb (Z.land (Z.shiftr flags 6) 1 =? 0); overflow_y := negb (Z.land (Z.shiftr flags 7) 1 =? 0);
     valid := true |}.

Section ops.
Context {A : Type} `{FrameOps A}.
Implicit Types (k : mouse A).

Definition set_packet (p : Z → Z) (i : Z) k : mouse A :=
  {| mo_sched := mo_sched k; mouse_buf := mouse_buf k; mouse_head := mouse_head k; mouse_tail := mouse_tail k;
     packet := p; packet_idx := i; mouse_waiters := mouse_waiters k; mouse_waiter_count := mouse_waiter_count k |}.
Definition set_events (b : Z → mouse_event) (h t : Z) k : mouse A :=
  {| mo_sched := mo_sched k; mouse_buf := b; mouse_head := h; mouse_tail := t;
     packet := packet k; packet_idx := packet_idx k; mouse_waiters := mouse_waiters k; mouse_waiter_count := mouse_waiter_count k |}.
Definition set_mwaiters (c : sched A) (w : Z → Z) (n : Z) k : mouse A :=
  {| mo_sched := c; mouse_buf := mouse_buf k; mouse_head := mouse_head k; mouse_tail := mouse_tail k;
     packet := packet k; packet_idx := packet_idx k; mouse_waiters := w; mouse_waiter_count := n |}.

(** [mouse_irq_handler] from the byte read from the data port on. *)
Definition mouse_byte (byte : Z) k : option (mouse A) :=
  if (packet_idx k =? 0) && (Z.land byte 0x08 =? 0) then Some k
  else
    p ← aset 3 (packet k) (packet_idx k) byte;
    let k := set_packet p (u8 (packet_idx k + 1)) k in
    if packet_idx k <? 3 then Some k
    else
      let k := set_packet p 0 k in
      let ev := decode_packet (p 0) (p 1) (p 2) in
      let next := u32 (mouse_head k + 1) mod MOUSE_BUF_SIZE in
      k ← (if negb (next =? mouse_tail k) then
             b ← aset MOUSE_BUF_SIZE (mouse_buf k) (mouse_head k) ev; Some (set_events b next (mouse_tail k) k)
           else Some k);
      '(w, c) ← waiters_loop MOUSE_WAIT_MAX (Z.to_nat (mouse_waiter_count k)) 0 (mouse_waiters k) (mo_sched k);
      Some (set_mwaiters c w 0 k).

Definition mouse_irq_handler {D} `{PortIO D} (dk : D * mouse A) : option (D * mouse A) :=
  let '(d, k) := dk in
  let '(st, d) := inb PS2_STATUS d in
  if Z.land st PS2_STATUS_OBF =? 0 then Some (d, k)
  else
    let '(byte, d) := inb PS2_DATA d in
    k ← mouse_byte byte k; Some (d, k).

(** For a pointer that is not NULL: the event, if there is one. *)
Definition mouse_get_event k : option (option mouse_event * mouse A) :=
  if mouse_head k =? mouse_tail k then Some (None, k)
  else
    ev ← aget MOUSE_BUF_SIZE (mouse_buf k) (mouse_tail k);
    Some (Some ev, set_events (mouse_buf k) (mouse_head k) (u32 (mouse_tail k + 1) mod MOUSE_BUF_SIZE) k).

(** One round of [mouse_read]: the event, or [None] inside after blocking until
    the next interrupt. *)
Definition mouse_read_round k : option (option mouse_event * mouse A) :=
  if negb (mouse_head k =? mouse_tail k) then mouse_get_event k
  else
    let cur := current_task (mo_sched k) in
    '(w, n) ← (if negb (cur =? 0) && (mouse_waiter_count k <? MOUSE_WAIT_MAX) then
                 w ← aset MOUSE_WAIT_MAX (mouse_waiters k) (mouse_waiter_count k) cur; Some (w, mouse_waiter_count k + 1)
               else Some (mouse_waiters k, mouse_waiter_count k));
    c ← sched_block cur UINT64_MAX (mo_sched k);
    Some (None, set_mwaiters c w n k).
End ops.

(** The nine-bit movement: the byte, and the sign from the flags. *)
Definition move9 (sign : bool) (raw : Z) : Z := raw - if sign then 256 else 0.

(** Bit 8 has no effect on the low eight bits. *)
Lemma i8_lor_256 x : 0 ≤ x < 256 → i8 (Z.lor x 0x100) = i8 x.
Proof. intros Hx. apply Z.eqb_eq. by apply (check_range (λ x, i8 (Z.lor x 0x100) =? i8 x) 256). Qed.

(** A movement is decoded correctly exactly when it fits in eight bits. *)
Lemma i8_move9 s x : 0 ≤ x < 256 → i8 x = move9 s x ↔ -128 ≤ move9 s x ≤ 127.
Proof. intros Hx. unfold i8, move9. change (2 ^ 7) with 128. change (2 ^ 8) with 256. destruct s; Z.to_euclidean_division_equations; lia. Qed.

Lemma decode_moves flags x y :
  0 ≤ x < 256 → 0 ≤ y < 256 →
  let ev := decode_packet flags x y in
  let mx := move9 (Z.testbit flags 4) x in
  let my := move9 (Z.testbit flags 5) y in
  (dx ev = mx ↔ -128 ≤ mx ≤ 127) ∧ (-127 ≤ my ≤ 127 → dy ev = - my) ∧ buttons ev = Z.land flags 0x07.
Proof.
  intros Hx Hy ev mx my. unfold ev, decode_packet. cbn [dx dy buttons]. rewrite !i8_lor_256 by done.
  split_and!; [| |done].
  - destruct (negb _); by apply i8_move9.
  - intros Hm. assert (i8 y = my) as E by (apply i8_move9; [done|fold my; lia]).
    destruct (negb _); rewrite E; unfold i8; change (2 ^ 7) with 128; change (2 ^ 8) with 256;
      Z.to_euclidean_division_equations; lia.
Qed.

Section packets.
Context {A : Type} `{FrameAllocator A}.
Implicit Types (k : mouse A) (q : list mouse_event).

Definition mo_rep k q : Prop := ring_rep MOUSE_BUF_SIZE (mouse_buf k) (mouse_head k) (mouse_tail k) q.

Definition mwaiters_ok k (L : list Z) : Prop :=
  sched_inv (mo_sched k) L ∧ 0 ≤ mouse_waiter_count k ≤ MOUSE_WAIT_MAX
  ∧ ∀ j, 0 ≤ j < mouse_waiter_count k → mouse_waiters k j = 0 ∨ is_Some (sc_tasks (mo_sched k) !! mouse_waiters k j).

Lemma event_stored k q ev :
  mo_rep k q →
  ∃ k1, (if negb (u32 (mouse_head k + 1) mod MOUSE_BUF_SIZE =? mouse_tail k)
         then b ← aset MOUSE_BUF_SIZE (mouse_buf k) (mouse_head k) ev;
              Some (set_events b (u32 (mouse_head k + 1) mod MOUSE_BUF_SIZE) (mouse_tail k) k)
         else Some k) = Some k1
    ∧ mo_rep k1 (if Z.of_nat (length q) <? MOUSE_BUF_SIZE - 1 then q ++ [ev] else q)
    ∧ mouse_waiter_count k1 = mouse_waiter_count k ∧ mouse_waiters k1 = mouse_waiters k ∧ mo_sched k1 = mo_sched k
    ∧ packet_idx k1 = packet_idx k.
Proof.
  intros Hr. pose proof (ring_full _ _ _ _ _ (eq_refl : 1 < MOUSE_BUF_SIZE) Hr) as Hf.
  assert (Z.of_nat (length q) ≤ MOUSE_BUF_SIZE - 1) as Hle.
  { rewrite (rr_len _ _ _ _ _ Hr). pose proof (Z.mod_pos_bound (mouse_head k - mouse_tail k) MOUSE_BUF_SIZE eq_refl). lia. }
  rewrite u32_small by (pose proof (rr_head _ _ _ _ _ Hr); unfold MOUSE_BUF_SIZE in *; lia).
  destruct (Z.eqb_spec ((mouse_head k + 1) mod MOUSE_BUF_SIZE) (mouse_tail k)) as [E|E]; cbn [negb].
  - exists k. destruct (Z.ltb_spec (Z.of_nat (length q)) (MOUSE_BUF_SIZE - 1)); [|by split_and!]. apply Hf in E. lia.
  - rewrite aset_Some by apply Hr. cbn [mbind option_bind]. eexists. split; [reflexivity|].
    destruct (Z.ltb_spec (Z.of_nat (length q)) (MOUSE_BUF_SIZE - 1)) as [Hlt|Hge]; [|destruct E; apply Hf; lia].
    split; [by apply ring_push|done].
Qed.

(** The first two bytes of a packet are only kept. *)
Lemma byte_kept k b : 0 ≤ packet_idx k < 2 → (packet_idx k = 0 → Z.testbit b 3 = true) →
  mouse_byte b k = Some (set_packet (upd (packet k) (packet_idx k) b) (packet_idx k + 1) k).
Proof.
  intros Hi Hb. unfold mouse_byte.
  assert ((packet_idx k =? 0) && (Z.land b 0x08 =? 0) = false) as ->.
  { destruct (Z.eqb_spec (packet_idx k) 0) as [E|]; [|done]. cbn [andb]. pose proof (land_bit b 3 ltac:(lia)) as Hf.
    by rewrite (Hb E) in Hf. }
  rewrite aset_Some by lia. cbn [mbind option_bind set_packet packet_idx]. rewrite u8_small by lia.
  by rewrite (proj2 (Z.ltb_lt (packet_idx k + 1) 3)) by lia.
Qed.

(** The third byte completes the packet. *)
Lemma packet_done k q L b :
  mo_rep k q → mwaiters_ok k L → packet_idx k = 2 →
  let p := upd (packet k) 2 b in
  ∃ k', mouse_byte b k = Some k'
    ∧ mo_rep k' (if Z.of_nat (length q) <? MOUSE_BUF_SIZE - 1 then q ++ [decode_packet (p 0) (p 1) (p 2)] else q)
    ∧ packet_idx k' = 0
    ∧ ∀ j, 0 ≤ j < mouse_waiter_count k → mouse_waiters k j ≠ 0 →
        tstate (sc_tasks (mo_sched k')) (mouse_waiters k j) ≠ Some TASK_BLOCKED.
Proof.
  intros Hr (Hi & Hc & Hw) Hidx p. set (ev := decode_packet (p 0) (p 1) (p 2)).
  destruct (event_stored (set_packet p 0 k) q ev Hr) as (k3 & E3 & Hr3 & W1 & W2 & W3 & W4).
  destruct (waiters_loop_spec MOUSE_WAIT_MAX (Z.to_nat (mouse_waiter_count k)) 0 (mouse_waiters k) (mo_sched k) L Hi)
    as (w' & c' & L' & Ew & _ & _ & Hj); [lia|lia|intros j Hj; apply Hw; lia|].
  exists (set_mwaiters c' w' 0 k3). split_and!; [|exact Hr3|exact W4|intros j Hjr; apply Hj; lia].
  unfold mouse_byte. rewrite Hidx. cbn [Z.eqb andb]. rewrite (aset_Some 3) by lia. cbn [mbind option_bind]. fold p ev.
  change (packet_idx (set_packet p (u8 (2 + 1)) k) <? 3) with false. cbv iota.
  change (set_packet p 0 (set_packet p (u8 (2 + 1)) k)) with (set_packet p 0 k).
  cbv zeta. rewrite E3. cbn [mbind option_bind]. rewrite W1, W2, W3. cbn [set_packet mouse_waiter_count mouse_waiters mo_sched].
  by rewrite Ew.
Qed.

(** Mouse packets.  At the start of a packet a byte without the sync bit is
    dropped.  Three bytes starting with it append one event to the queue of 63,
    unless it is full, and wake every waiting task.  The event has the buttons, the
    horizontal movement exactly when it fits in eight bits, and the negated
    vertical movement; the ninth bit, the sign, is lost. *)
Theorem mouse_packet_queued k q L flags x y :
  mo_rep k q → mwaiters_ok k L → packet_idx k = 0 → 0 ≤ x < 256 → 0 ≤ y < 256 →
  let ev := decode_packet flags x y in
  let mx := move9 (Z.testbit flags 4) x in
  let my := move9 (Z.testbit flags 5) y in
  (Z.testbit flags 3 = false → mouse_byte flags k = Some k)
  ∧ (Z.testbit flags 3 = true →
     ∃ k1 k2 k3, mouse_byte flags k = Some k1 ∧ mouse_byte x k1 = Some k2 ∧ mouse_byte y k2 = Some k3
       ∧ mo_rep k3 (if Z.of_nat (length q) <? MOUSE_BUF_SIZE - 1 then q ++ [ev] else q) ∧ packet_idx k3 = 0
       ∧ ∀ j, 0 ≤ j < mouse_waiter_count k → mouse_waiters k j ≠ 0 →
           tstate (sc_tasks (mo_sched k3)) (mouse_waiters k j) ≠ Some TASK_BLOCKED)
  ∧ ((dx ev = mx ↔ -128 ≤ mx ≤ 127) ∧ (-127 ≤ my ≤ 127 → dy ev = - my) ∧ buttons ev = Z.land flags 0x07).
Proof.
  intros Hr (Hi & Hc & Hw) Hidx Hx Hy ev mx my. split; [|split; [|by apply decode_moves]].
  - intros Hb. unfold mouse_byte. rewrite Hidx. pose proof (land_bit flags 3 ltac:(lia)) as Hf. rewrite Hb in Hf.
    change (2 ^ 3) with 0x08 in Hf. by rewrite Hf.
  - intros Hb. set (k1 := set_packet (upd (packet k) 0 flags) 1 k).
    assert (mouse_byte flags k = Some k1) as E1 by (rewrite byte_kept; by rewrite Hidx).
    set (k2 := set_packet (upd (packet k1) 1 x) 2 k1).
    assert (mouse_byte x k1 = Some k2) as E2 by (by apply byte_kept).
    destruct (packet_done k2 q L y Hr (conj Hi (conj Hc Hw)) eq_refl) as (k3 & E3 & Hr3 & Hi3 & Hj).
    by exists k1, k2, k3.
Qed.
End packets.

Lemma mouse_packet_queued_witness :
  ∃ k k1 k2 k3 : mouse pmm,
    mouse_byte 0x39 k = Some k1 ∧ mouse_byte 0xF0 k1 = Some k2 ∧ mouse_byte 0xFE k2 = Some k3
    ∧ mo_rep k3 [{| dx := -16; dy := 2; buttons := 1; overflow_x := false; overflow_y := false; valid := true |}].
Proof.
  set (k := {| mo_sched := single 5 (sample_heap (one_free 300)); mouse_buf := λ _, {| dx := 0; dy := 0; buttons := 0; overflow_x := false; overflow_y := false; valid := false |};
               mouse_head := 0; mouse_tail := 0; packet := λ _, 0; packet_idx := 0; mouse_waiters := λ _, 5;
               mouse_waiter_count := 1 |} : mouse pmm).
  assert (mo_rep k []) as Hr by (split; done).
  assert (mwaiters_ok k []) as Hw.
  { split_and!; [by apply single_inv|done|done|]. intros j _. right. cbn [k mouse_waiters mo_sched single with_idle with_current with_tasks sc_tasks].
    rewrite lookup_singleton_eq. by eexists. }
  destruct (mouse_packet_queued k [] [] 0x39 0xF0 0xFE Hr Hw eq_refl ltac:(lia) ltac:(lia))
    as (_ & Hp & _). destruct (Hp eq_refl) as (k1 & k2 & k3 & E1 & E2 & E3 & Hr3 & _).
  exists k, k1, k2, k3. split_and!; [exact E1|exact E2|exact E3|exact Hr3].
Defined.
