(* ===== verification/Syscall.v ===== *)
(** Model of kernel/syscall/syscall.c, of the entry and exit code in
    kernel/arch/x86_64/syscall_entry.asm, and of the clock in
    kernel/arch/x86_64/timer.c.

    User memory is the byte memory of the current address space.  The answer of
    a call that switches tasks is what its caller gets when it runs again;
    [sys_exit] has no answer.  The [fuel] of the calls that take a path bounds
    the scan for its NUL, which the code does not bound. *)
From stdpp Require Import prelude gmap.
From S2P Require Import Prelude CString FrameAlloc Vmm Heap Sched Vfs Proc Ports Irq.

(** ** Data *)

Definition ENOMEM : Z := 12.
Definition EFAULT : Z := 14.
Definition EINVAL : Z := 22.

Definition SYSCALL_MAX : Z := 256.
Definition SYS_READ : Z := 0.
Definition SYS_WRITE : Z := 1.
Definition SYS_OPEN : Z := 2.
Definition SYS_CLOSE : Z := 3.
Definition SYS_LSEEK : Z := 8.
Definition SYS_MMAP : Z := 9.
Definition SYS_MUNMAP : Z := 11.
Definition SYS_YIELD : Z := 24.
Definition SYS_NANOSLEEP : Z := 35.
Definition SYS_GETPID : Z := 39.
Definition SYS_EXIT : Z := 60.
Definition SYS_MKDIR : Z := 83.
Definition SYS_GETTIME : Z := 228.

(** The functions a table entry can point to. *)
Inductive syscall_fn :=
  | Sys_read | Sys_write | Sys_open | Sys_close | Sys_lseek | Sys_mmap | Sys_munmap | Sys_exit
  | Sys_getpid | Sys_yield | Sys_nanosleep | Sys_mkdir | Sys_gettime.

Record msrs := { msr_star : Z; msr_lstar : Z; msr_cstar : Z; msr_sfmask : Z }.

Definition EFER_SCE : Z := Z.shiftl 1 0.

(** The bytes given to the serial port are in [k_serial], oldest first. *)
Record kern (A : Type) := {
  k_fs : fs A;
  tick_count : Z;
  k_serial : list Z;
  k_msrs : msrs;
  syscall_table : Z → option syscall_fn;
  syscall_user_rsp : Z;
}.
Arguments k_fs {A} _.
Arguments tick_count {A} _.
Arguments k_serial {A} _.
Arguments k_msrs {A} _.
Arguments syscall_table {A} _.
Arguments syscall_user_rsp {A} _.

(** The user registers the entry and exit code saves and restores; [u_rcx] and
    [u_r11] hold the user's rip and rflags. *)
Record uregs := { u_rsp : Z; u_rcx : Z; u_r11 : Z; u_r10 : Z; u_r9 : Z; u_r8 : Z }.

(** Pointer ranges a caller may pass. *)
Definition uptr_ok (addr len : Z) : bool :=
  if (addr =? 0) || (len =? 0) then false
  else if 0x00007FFFFFFFFFFF <=? addr then false
  else if u64 (addr + len) <? addr then false
  else if 0x00007FFFFFFFFFFF <? u64 (addr + len) then false
  else true.

Section ops.
Context {A : Type} `{FrameOps A}.
Implicit Types (k : kern A).

Definition k_sched k : sched A := fs_sched (k_fs k).
Definition k_heap k : heap A := sc_heap (k_sched k).

Definition set_kfs (f : fs A) k : kern A :=
  {| k_fs := f; tick_count := tick_count k; k_serial := k_serial k; k_msrs := k_msrs k;
     syscall_table := syscall_table k; syscall_user_rsp := syscall_user_rsp k |}.
Definition set_ksched (c : sched A) k : kern A := set_kfs (set_sched c (k_fs k)) k.
Definition set_kheap (h : heap A) k : kern A := set_ksched (with_heap h (k_sched k)) k.
Definition set_ktick (v : Z) k : kern A :=
  {| k_fs := k_fs k; tick_count := v; k_serial := k_serial k; k_msrs := k_msrs k;
     syscall_table := syscall_table k; syscall_user_rsp := syscall_user_rsp k |}.
Definition set_kserial (l : list Z) k : kern A :=
  {| k_fs := k_fs k; tick_count := tick_count k; k_serial := l; k_msrs := k_msrs k;
     syscall_table := syscall_table k; syscall_user_rsp := syscall_user_rsp k |}.
Definition set_ktable (m : msrs) (t : Z → option syscall_fn) k : kern A :=
  {| k_fs := k_fs k; tick_count := tick_count k; k_serial := k_serial k; k_msrs := m;
     syscall_table := t; syscall_user_rsp := syscall_user_rsp k |}.
Definition set_kursp (v : Z) k : kern A :=
  {| k_fs := k_fs k; tick_count := tick_count k; k_serial := k_serial k; k_msrs := k_msrs k;
     syscall_table := syscall_table k; syscall_user_rsp := v |}.

(** ** Timer *)

Definition PIT_CHANNEL0 : Z := 0x40.
Definition PIT_CMD : Z := 0x43.
Definition PIT_FREQUENCY : Z := 1193182.
Definition TICKS_PER_SEC : Z := 1000.

(** [h] is [timer_irq_handler]. *)
Definition timer_init {D H} `{PortIO D} (h : H) (q : irqs D H) : irqs D H :=
  let divisor := u32 (PIT_FREQUENCY / TICKS_PER_SEC) in
  let d := outb PIT_CMD 0x36 (iq_dev q) in
  let d := outb PIT_CHANNEL0 (u8 (Z.land divisor 0xFF)) d in
  let d := outb PIT_CHANNEL0 (u8 (Z.land (Z.shiftr divisor 8) 0xFF)) d in
  irq_register 0 h (set_iqdev d q).

Definition timer_irq_handler k : option (kern A) :=
  let k1 := set_ktick (u64 (tick_count k + 1)) k in
  c ← sched_tick (k_sched k1); Some (set_ksched c k1).

Definition timer_ticks k : Z := tick_count k.

(** The wait before there is a scheduler: only timer interrupts change the
    count it reads, so a round of the loop is one interrupt. *)
Fixpoint busy_wait (fuel : nat) (wake_at : Z) k : option (kern A) :=
  if tick_count k <? wake_at then
    match fuel with O => None | S f => k1 ← timer_irq_handler k; busy_wait f wake_at k1 end
  else Some k.

Definition timer_sleep_ms (ms : Z) k : option (kern A) :=
  if ms =? 0 then Some k
  else
    let wake_at := u64 (tick_count k + ms) in
    let cur := current_task (k_sched k) in
    if negb (cur =? 0) then
      c1 ← sched_block cur wake_at (k_sched k);
      c2 ← sched_yield c1;
      Some (set_ksched c2 k)
    else busy_wait (Z.to_nat ms) wake_at k.

(** ** System calls *)

Definition sys_read (fd buf count : Z) k : option (Z * kern A) :=
  if negb (uptr_ok buf count) then Some (u64 (- EFAULT), k)
  else '(n, f) ← vfs_read (i32 fd) buf count (k_fs k); Some (u64 n, set_kfs f k).

Definition sys_write (fd buf count : Z) k : option (Z * kern A) :=
  if negb (uptr_ok buf count) then Some (u64 (- EFAULT), k)
  else if (fd =? 1) || (fd =? 2) then
    Some (count, set_kserial (k_serial k ++ (hp_mem (k_heap k) <$> seqZ buf count)) k)
  else '(n, f) ← vfs_write (i32 fd) buf count (k_fs k); Some (u64 n, set_kfs f k).

(** The bytes of the string at [p]. *)
Definition user_string (fuel : nat) (m : mem) (p : Z) : option (list Z) :=
  n ← strlen fuel (at_ptr m p); Some (m <$> seqZ p n).

Definition sys_open (fuel : nat) (path flags mode : Z) k : option (Z * kern A) :=
  if negb (uptr_ok path 1) then Some (u64 (- EFAULT), k)
  else
    p ← user_string fuel (hp_mem (k_heap k)) path;
    '(fd, f) ← vfs_open p (i32 flags) (u32 mode) (k_fs k);
    Some (u64 fd, set_kfs f k).

Definition sys_close (fd : Z) k : option (Z * kern A) :=
  '(r, f) ← vfs_close (i32 fd) (k_fs k); Some (u64 r, set_kfs f k).

Definition sys_lseek (fd off whence : Z) k : option (Z * kern A) :=
  '(r, f) ← vfs_lseek (i32 fd) (i64 off) (i32 whence) (k_fs k); Some (u64 r, set_kfs f k).

Definition sys_exit (code : Z) k : option (kern A) :=
  c ← sched_exit (k_sched k); Some (set_ksched c k).

Definition sys_getpid k : option (Z * kern A) :=
  let cur := current_task (k_sched k) in
  if cur =? 0 then Some (0, k) else t ← get_task cur (k_sched k); Some (t_pid t, k).

Definition sys_yield k : option (Z * kern A) :=
  c ← sched_yield (k_sched k); Some (0, set_ksched c k).

Definition sys_nanosleep (rqtp : Z) k : option (Z * kern A) :=
  if negb (uptr_ok rqtp 16) then Some (u64 (- EFAULT), k)
  else
    let m := hp_mem (k_heap k) in
    let ms := u64 (u64 (load64 m rqtp * 1000) + load64 m (rqtp + 8) / 1000000) in
    let wake := u64 (timer_ticks k + ms) in
    c ← sched_block (current_task (k_sched k)) wake (k_sched k);
    Some (0, set_ksched c k).

(** A call runs in the address space of its process, whose lower half does not map
    physical memory as that of the kernel does.  [pmm_alloc] clears a frame and
    [vmm_map] writes the tables at their physical addresses: where CR3 does not
    map such an address to itself the access faults or hits other memory ([None]). *)
Definition reaches (v : vmm A) (phys : Z) : bool := vmm_translate (vm_cr3 v) phys (vm_mem v) =? phys.

(** The allocator, whose frames have to satisfy [ok]. *)
Definition checked_ops (ok : Z → bool) : FrameOps A := {|
  fa_alloc a m := '(page, a1, m1) ← fa_alloc a m; if (page =? 0) || ok page then Some (page, a1, m1) else None;
  fa_release := fa_release |}.

(** The pages of the new range read as zeroed frames. *)
Definition sys_mmap (addr length : Z) k : option (Z * kern A) :=
  let cur := current_task (k_sched k) in
  if length =? 0 then Some (u64 (- EINVAL), k)
  else if cur =? 0 then Some (u64 (- ESRCH), k)
  else
    t ← get_task cur (k_sched k);
    let va := if negb (addr =? 0) then ALIGN_DOWN addr PAGE_SIZE else t_mmap_cursor t in
    let nbytes := ALIGN_UP length PAGE_SIZE in
    let v := hp_vm (k_heap k) in
    let m := hp_mem (k_heap k) in
    '(rc, v1) ← @vmm_alloc_range A (checked_ops (λ page, reaches v page && reaches v (t_cr3 t)))
                  (t_cr3 t) va nbytes (Z.lor VMM_USER_RW VMM_NO_EXEC) v;
    if negb (rc =? 0) then Some (u64 (- ENOMEM), set_kheap (set_vm (k_heap k) v1 m) k)
    else
      let k1 := set_kheap (set_vm (k_heap k) v1 (memset va 0 nbytes m)) k in
      c ← (if addr =? 0 then mod_task cur (set_mmap (u64 (va + nbytes))) (k_sched k1) else Some (k_sched k1));
      Some (va, set_ksched c k1).

(** [vmm_free_range] reads the root table first, unless the length wraps to no page. *)
Definition sys_munmap (addr length : Z) k : option (Z * kern A) :=
  if (addr =? 0) || (length =? 0) then Some (u64 (- EINVAL), k)
  else
    t ← get_task (current_task (k_sched k)) (k_sched k);
    let v := hp_vm (k_heap k) in
    if (ALIGN_UP length PAGE_SIZE =? 0) || reaches v (t_cr3 t) then
      v1 ← vmm_free_range (t_cr3 t) addr length v;
      Some (0, set_kheap (set_vm (k_heap k) v1 (hp_mem (k_heap k))) k)
    else None.

Definition sys_mkdir (fuel : nat) (path mode : Z) k : option (Z * kern A) :=
  if negb (uptr_ok path 1) then Some (u64 (- EFAULT), k)
  else
    p ← user_string fuel (hp_mem (k_heap k)) path;
    '(r, f) ← vfs_mkdir p (u32 mode) (k_fs k);
    Some (u64 r, set_kfs f k).

Definition sys_gettime k : option (Z * kern A) := Some (timer_ticks k, k).

(** ** Table, entry and exit *)

(** The address the linker gives to the entry code. *)
Context (syscall_entry_addr : Z).

Definition syscall_entries : list (Z * syscall_fn) :=
  [(SYS_READ, Sys_read); (SYS_WRITE, Sys_write); (SYS_OPEN, Sys_open); (SYS_CLOSE, Sys_close);
   (SYS_LSEEK, Sys_lseek); (SYS_MMAP, Sys_mmap); (SYS_MUNMAP, Sys_munmap); (SYS_EXIT, Sys_exit);
   (SYS_GETPID, Sys_getpid); (SYS_YIELD, Sys_yield); (SYS_NANOSLEEP, Sys_nanosleep);
   (SYS_MKDIR, Sys_mkdir); (SYS_GETTIME, Sys_gettime)].

Definition set_efer (v : Z) (s : vmm A) : vmm A :=
  {| vm_alloc := vm_alloc s; vm_mem := vm_mem s; kernel_pml4 := kernel_pml4 s;
     vm_cr3 := vm_cr3 s; vm_efer := v; vm_tlb := vm_tlb s |}.

Definition syscall_init k : option (kern A) :=
  let v := hp_vm (k_heap k) in
  let k1 := set_kheap (set_vm (k_heap k) (set_efer (Z.lor (vm_efer v) EFER_SCE) v) (hp_mem (k_heap k))) k in
  let m := {| msr_star := Z.lor (Z.shiftl 0x08 32) (Z.shiftl 0x10 48); msr_lstar := syscall_entry_addr;
              msr_cstar := 0;
              msr_sfmask := Z.lor (Z.lor (Z.lor (Z.shiftl 1 9) (Z.shiftl 1 8)) (Z.shiftl 1 10)) (Z.shiftl 1 18) |} in
  t ← foldl (λ ot e, t ← ot; aset SYSCALL_MAX t (fst e) (Some (snd e))) (Some (syscall_table k1)) syscall_entries;
  let k2 := set_ktable m t k1 in
  let c := k_sched k2 in
  if current_task c =? 0 then Some k2
  else
    x ← get_task (current_task c) c;
    Some (set_ksched
      {| sc_heap := sc_heap c; sc_tasks := sc_tasks c; idle_task := idle_task c; current_task := current_task c;
         run_queue_head := run_queue_head c; next_pid := next_pid c; sched_tick_count := sched_tick_count c;
         in_sched := in_sched c; sleep_list := sleep_list c; sleep_list_cnt := sleep_list_cnt c;
         sc_regs := sc_regs c; tss_rsp0 := tss_rsp0 c; syscall_kernel_rsp := t_kernel_stack x |} k2).

(** The call of the handler with the arguments in rdi, rsi, rdx. *)
Definition call_fn (fuel : nat) (fn : syscall_fn) (a1 a2 a3 : Z) k : option (option Z * kern A) :=
  let answer (r : option (Z * kern A)) : option (option Z * kern A) := '(v, k1) ← r; Some (Some v, k1) in
  match fn with
  | Sys_read => answer (sys_read a1 a2 a3 k)
  | Sys_write => answer (sys_write a1 a2 a3 k)
  | Sys_open => answer (sys_open fuel a1 a2 a3 k)
  | Sys_close => answer (sys_close a1 k)
  | Sys_lseek => answer (sys_lseek a1 a2 a3 k)
  | Sys_mmap => answer (sys_mmap a1 a2 k)
  | Sys_munmap => answer (sys_munmap a1 a2 k)
  | Sys_exit => k1 ← sys_exit a1 k; Some (None, k1)
  | Sys_getpid => answer (sys_getpid k)
  | Sys_yield => answer (sys_yield k)
  | Sys_nanosleep => answer (sys_nanosleep a1 k)
  | Sys_mkdir => answer (sys_mkdir fuel a1 a2 k)
  | Sys_gettime => answer (sys_gettime k)
  end.

(** Reading an entry past the end of the table is [None]. *)
Definition syscall_dispatch (fuel : nat) (rax a1 a2 a3 : Z) k : option (option Z * kern A) :=
  if 512 <=? rax then Some (Some (u64 (-38)), k)
  else
    e ← aget SYSCALL_MAX (syscall_table k) rax;
    match e with
    | None => Some (Some (u64 (-38)), k)
    | Some fn => call_fn fuel fn a1 a2 a3 k
    end.

(** Up to the check of the number: the user's stack pointer goes to the global
    slot and six registers to the kernel stack.  The answer is the kernel's
    stack pointer. *)
Definition syscall_enter (u : uregs) k : Z * kern A :=
  let k1 := set_kursp (u_rsp u) k in
  let sp := syscall_kernel_rsp (k_sched k1) in
  let m := foldl (λ m '(i, v), store64 m (u64 (sp - 8 * i)) v) (hp_mem (k_heap k1))
             [(1, u_rcx u); (2, u_r11 u); (3, syscall_user_rsp k1); (4, u_r10 u); (5, u_r9 u); (6, u_r8 u)] in
  (u64 (sp - 48), set_kheap (set_hmem (k_heap k1) m) k1).

(** From [.done] on, with the kernel's stack pointer [sp]. *)
Definition syscall_leave (sp : Z) k : uregs :=
  let m := hp_mem (k_heap k) in
  {| u_r8 := load64 m sp; u_r9 := load64 m (u64 (sp + 8)); u_r10 := load64 m (u64 (sp + 16));
     u_r11 := load64 m (u64 (sp + 32)); u_rcx := load64 m (u64 (sp + 40)); u_rsp := syscall_user_rsp k |}.
End ops.
