(* ===== verification/SyscallProps.v ===== *)
(** What the system calls of kernel/syscall/syscall.c guarantee to and demand
    from user programs: checked buffers, registers across
    a call, and the numbers the entry code accepts. *)
From stdpp Require Import prelude gmap.
From S2P Require Import Prelude CString FrameAlloc Bitmap Pmm Vmm VmmWf VmmSpec VmmRange VmmProps Heap HeapProps Sched SchedProps Vfs VfsProps Proc Syscall.

Definition USER_END : Z := 0x00007FFFFFFFFFFF.

Lemma uptr_ok_iff addr len :
  0 ≤ addr < 2 ^ 64 → 0 ≤ len < 2 ^ 64 → uptr_ok addr len = true ↔ 0 < addr ∧ 0 < len ∧ addr + len ≤ USER_END.
Proof.
  intros Ha Hl. unfold uptr_ok, USER_END.
  destruct (Z.eqb_spec addr 0); [simpl; split; [done|lia]|].
  destruct (Z.eqb_spec len 0); [simpl; split; [done|lia]|]. cbn [orb].
  destruct (Z.leb_spec 0x00007FFFFFFFFFFF addr); [split; [done|lia]|].
  assert (u64 (addr + len) = addr + len ∨ 2 ^ 64 ≤ addr + len ∧ u64 (addr + len) = addr + len - 2 ^ 64) as [E|[? E]].
  { destruct (decide (addr + len < 2 ^ 64)); [left; apply u64_small; lia|right; split; [lia|]].
    unfold u64. symmetry. apply (Z.mod_unique _ _ 1); lia. }
  - rewrite E. destruct (Z.ltb_spec (addr + len) addr); [split; [done|lia]|].
    destruct (Z.ltb_spec 0x00007FFFFFFFFFFF (addr + len)); [split; [done|lia]|]. split; [lia|done].
  - rewrite E. destruct (Z.ltb_spec (addr + len - 2 ^ 64) addr); [split; [done|lia]|lia].
Qed.

Lemma align_up_twice n : 0 ≤ n → n + PAGE_SIZE < 2 ^ 64 →
  ALIGN_UP (ALIGN_UP n PAGE_SIZE) PAGE_SIZE / PAGE_SIZE = (n + PAGE_SIZE - 1) / PAGE_SIZE.
Proof.
  intros H0 Hn. assert (0 < PAGE_SIZE) by done. rewrite (ALIGN_UP_page n) by lia.
  set (q := (n + PAGE_SIZE - 1) / PAGE_SIZE).
  assert (0 ≤ q) by (apply Z.div_pos; lia).
  assert (q * PAGE_SIZE ≤ n + PAGE_SIZE - 1) by (rewrite Z.mul_comm; by apply Z.mul_div_le).
  clearbody q. unfold PAGE_SIZE in *. rewrite ALIGN_UP_page; unfold PAGE_SIZE; [|lia..].
  rewrite Z.div_mul by lia. symmetry. apply Z.div_unique with (r := 4095); lia.
Qed.

Section calls.
Context {A : Type} `{FrameAllocator A}.
Implicit Types (k : kern A).

(** Mapping memory in a process.  In an address space that maps no free frame at
    its own physical address, as the new one of a process does not, [sys_mmap]
    never returns while a frame is free: the frame [pmm_alloc] finds is cleared at
    an address that is not mapped to it.  [sys_munmap] does not return either when
    the root table is not mapped at its own address. *)
Theorem sys_mmap_faults k t addr len :
  let v := hp_vm (k_heap k) in
  fa_ok (vm_alloc v) → frames v ≠ ∅ →
  (∀ f, f ∈ frames v → vmm_translate (vm_cr3 v) (f * PAGE_SIZE) (vm_mem v) ≠ f * PAGE_SIZE) →
  get_task (current_task (k_sched k)) (k_sched k) = Some t → current_task (k_sched k) ≠ 0 → 0 < len < 2 ^ 63 →
  sys_mmap addr len k = None
  ∧ (addr ≠ 0 → vmm_translate (vm_cr3 v) (t_cr3 t) (vm_mem v) ≠ t_cr3 t → sys_munmap addr len k = None).
Proof.
  intros v Hok Hne Hun Ht Hc Hl. split.
  - unfold sys_mmap. rewrite (proj2 (Z.eqb_neq len 0)), (proj2 (Z.eqb_neq _ 0) Hc), Ht by lia. cbn [mbind option_bind]. fold v.
    unfold vmm_alloc_range. rewrite align_up_twice by (unfold PAGE_SIZE; lia).
    assert (0 < (len + PAGE_SIZE - 1) / PAGE_SIZE) by (apply Z.div_str_pos; unfold PAGE_SIZE; lia).
    destruct (Z.to_nat ((len + PAGE_SIZE - 1) / PAGE_SIZE)) as [|n] eqn:En; [lia|]. cbn [alloc_range_loop].
    unfold vmm_alloc_map, pmm_alloc_vm. cbn [fa_alloc checked_ops].
    destruct (fa_alloc_ok (vm_alloc v) (vm_mem v) Hok) as (r & a & m & -> & _ & [(_ & He & _)|(f & Hf & -> & _)]); [done|].
    cbn [mbind option_bind]. pose proof (fa_frame_range _ _ Hok Hf).
    rewrite (proj2 (Z.eqb_neq (f * PAGE_SIZE) 0)) by (unfold PAGE_SIZE; lia). unfold reaches.
    by rewrite (proj2 (Z.eqb_neq _ _) (Hun f Hf)).
  - intros Ha Hr. unfold sys_munmap. rewrite (proj2 (Z.eqb_neq addr 0) Ha), (proj2 (Z.eqb_neq len 0)), Ht by lia.
    cbn [mbind option_bind orb]. fold v. unfold reaches. rewrite (proj2 (Z.eqb_neq _ _) Hr), orb_false_r.
    rewrite ALIGN_UP_page by (unfold PAGE_SIZE; lia). rewrite (proj2 (Z.eqb_neq _ 0)); [done|].
    assert (0 < (len + PAGE_SIZE - 1) / PAGE_SIZE) by (apply Z.div_str_pos; unfold PAGE_SIZE; lia). unfold PAGE_SIZE in *. lia.
Qed.

(** C34: User buffers.  [uptr_ok] accepts a range exactly when it is not empty,
    does not start at NULL and ends below the end of user space, with no
    overflow accepted.  [sys_read] and [sys_write] answer -EFAULT on every other
    range and change nothing; a write to descriptor 1 or 2 sends exactly the
    bytes of the range to the serial port. *)
Theorem user_buffers_checked k fd buf count :
  0 ≤ buf < 2 ^ 64 → 0 ≤ count < 2 ^ 64 →
  (uptr_ok buf count = true ↔ 0 < buf ∧ 0 < count ∧ buf + count ≤ USER_END)
  ∧ (¬ (0 < buf ∧ 0 < count ∧ buf + count ≤ USER_END) →
     sys_read fd buf count k = Some (2 ^ 64 - 14, k) ∧ sys_write fd buf count k = Some (2 ^ 64 - 14, k))
  ∧ (0 < buf ∧ 0 < count ∧ buf + count ≤ USER_END → fd = 1 ∨ fd = 2 →
     ∃ k', sys_write fd buf count k = Some (count, k') ∧ k_fs k' = k_fs k
       ∧ k_serial k' = k_serial k ++ (hp_mem (k_heap k) <$> seqZ buf count)).
Proof.
  intros Hb Hc. pose proof (uptr_ok_iff buf count Hb Hc) as Hiff. split_and!; [exact Hiff| |].
  - intros Hno. rewrite <-Hiff in Hno. apply not_true_is_false in Hno. unfold sys_read, sys_write. rewrite Hno. done.
  - intros Hok Hfd. apply Hiff in Hok. unfold sys_write. rewrite Hok. cbn [negb].
    eexists. split; [destruct Hfd as [-> | ->]; reflexivity|done].
Qed.

(** ** Entry and exit *)

(** The six words the entry code pushes, and that they survive. *)
Lemma enter_frame u k i v :
  48 ≤ syscall_kernel_rsp (k_sched k) < 2 ^ 64 →
  (i, v) ∈ [(1, u_rcx u); (2, u_r11 u); (3, u_rsp u); (4, u_r10 u); (5, u_r9 u); (6, u_r8 u)] → 0 ≤ v < 2 ^ 64 →
  load64 (hp_mem (k_heap (snd (syscall_enter u k)))) (syscall_kernel_rsp (k_sched k) - 8 * i) = v.
Proof.
  intros Hsp Hin Hv. unfold syscall_enter. cbn [snd].
  change (k_heap (set_kheap ?h ?k)) with h. change (hp_mem (set_hmem ?h ?m)) with m.
  change (syscall_user_rsp (set_kursp ?x ?k)) with x. change (k_sched (set_kursp ?x ?k)) with (k_sched k).
  change (k_heap (set_kursp ?x ?k)) with (k_heap k). cbn [foldl].
  set (sp := syscall_kernel_rsp (k_sched k)) in *. rewrite !(u64_small (sp - _)) by lia.
  rewrite !elem_of_cons in Hin.
  destruct_or! Hin; [..|by apply not_elem_of_nil in Hin]; apply pair_equal_spec in Hin as [-> ->].
  all: rewrite ?load_store64_ne by lia; by rewrite load_store64_eq, u64_small.
Qed.

Record regs64 (u : uregs) : Prop := {
  r64_rsp : 0 ≤ u_rsp u < 2 ^ 64;
  r64_rcx : 0 ≤ u_rcx u < 2 ^ 64;
  r64_r11 : 0 ≤ u_r11 u < 2 ^ 64;
  r64_r10 : 0 ≤ u_r10 u < 2 ^ 64;
  r64_r9 : 0 ≤ u_r9 u < 2 ^ 64;
  r64_r8 : 0 ≤ u_r8 u < 2 ^ 64;
}.

Definition with_rsp (v : Z) (u : uregs) : uregs :=
  {| u_rsp := v; u_rcx := u_rcx u; u_r11 := u_r11 u; u_r10 := u_r10 u; u_r9 := u_r9 u; u_r8 := u_r8 u |}.

(** The frame of the call [u] made in [k] is still on the stack in [k']. *)
Definition frame_kept u k k' : Prop :=
  ∀ a, syscall_kernel_rsp (k_sched k) - 48 ≤ a < syscall_kernel_rsp (k_sched k) →
    hp_mem (k_heap k') a = hp_mem (k_heap (snd (syscall_enter u k))) a.

(** Leaving restores the registers of the frame and the stack pointer of the slot. *)
Lemma leave_frame u k k' :
  regs64 u → 48 ≤ syscall_kernel_rsp (k_sched k) < 2 ^ 64 → frame_kept u k k' →
  syscall_leave (fst (syscall_enter u k)) k' = with_rsp (syscall_user_rsp k') u.
Proof.
  intros [] Hsp Hk. change (fst (syscall_enter u k)) with (u64 (syscall_kernel_rsp (k_sched k) - 48)).
  assert (∀ i v, (i, v) ∈ [(1, u_rcx u); (2, u_r11 u); (3, u_rsp u); (4, u_r10 u); (5, u_r9 u); (6, u_r8 u)] →
    0 ≤ v < 2 ^ 64 → 1 ≤ i ≤ 6 → load64 (hp_mem (k_heap k')) (syscall_kernel_rsp (k_sched k) - 8 * i) = v) as Hl.
  { intros i v Hin Hv Hi. etrans; [|exact (enter_frame u k i v Hsp Hin Hv)]. apply load64_ext. intros a Ha. apply Hk. lia. }
  pose proof (Hl 1 (u_rcx u)) as H1. pose proof (Hl 2 (u_r11 u)) as H2. pose proof (Hl 4 (u_r10 u)) as H4.
  pose proof (Hl 5 (u_r9 u)) as H5. pose proof (Hl 6 (u_r8 u)) as H6.
  unfold syscall_leave, with_rsp. set (sp := syscall_kernel_rsp (k_sched k)) in *.
  rewrite (u64_small (sp - 48)), !(u64_small (sp - 48 + _)) by lia.
  replace (sp - 48 + 8) with (sp - 8 * 5) by lia. replace (sp - 48 + 16) with (sp - 8 * 4) by lia.
  replace (sp - 48 + 32) with (sp - 8 * 2) by lia. replace (sp - 48 + 40) with (sp - 8 * 1) by lia.
  replace (sp - 48) with (sp - 8 * 6) by lia.
  rewrite H1, H2, H4, H5, H6; first [done|lia|rewrite !elem_of_cons; tauto].
Qed.

Lemma enter_outside u k a :
  48 ≤ syscall_kernel_rsp (k_sched k) < 2 ^ 64 →
  ¬ syscall_kernel_rsp (k_sched k) - 48 ≤ a < syscall_kernel_rsp (k_sched k) →
  hp_mem (k_heap (snd (syscall_enter u k))) a = hp_mem (k_heap k) a.
Proof.
  intros Hsp Ha. unfold syscall_enter. cbn [snd].
  change (k_heap (set_kheap ?h ?k)) with h. change (hp_mem (set_hmem ?h ?m)) with m.
  change (k_sched (set_kursp ?x ?k)) with (k_sched k). change (k_heap (set_kursp ?x ?k)) with (k_heap k).
  cbn [foldl]. set (sp := syscall_kernel_rsp (k_sched k)) in *. rewrite !(u64_small (sp - _)) by lia.
  by rewrite !store64_outside by lia.
Qed.

(** C31: Registers across a system call.  A call entered with [u] in state [k]
    and left in a state that kept its frame gives back every saved register, and
    the stack pointer if the slot that holds it was not written in between.  But
    the slot is shared: if the call gave up the processor and another task, on a
    kernel stack of its own, entered a call with [u2], the first call returns to
    its program with the stack pointer of [u2]. *)
Theorem syscall_return_registers u k k2 :
  regs64 u → 48 ≤ syscall_kernel_rsp (k_sched k) < 2 ^ 64 → frame_kept u k k2 →
  let sp := fst (syscall_enter u k) in
  (syscall_user_rsp k2 = syscall_user_rsp (snd (syscall_enter u k)) → syscall_leave sp k2 = u)
  ∧ ∀ u2, 48 ≤ syscall_kernel_rsp (k_sched k2) < 2 ^ 64 →
      (syscall_kernel_rsp (k_sched k2) ≤ syscall_kernel_rsp (k_sched k) - 48
       ∨ syscall_kernel_rsp (k_sched k) ≤ syscall_kernel_rsp (k_sched k2) - 48) →
      syscall_leave sp (snd (syscall_enter u2 k2)) = with_rsp (u_rsp u2) u.
Proof.
  intros Hu Hsp Hk sp. unfold sp. split.
  - intros E. rewrite leave_frame by done. rewrite E. by destruct u.
  - intros u2 Hsp2 Hap. rewrite leave_frame; [done..|]. intros a Ha. rewrite enter_outside by lia. by apply Hk.
Qed.

(** ** Numbers *)

Lemma find_none_out {B} (l : list (Z * B)) n : n ∉ l.*1 → find (λ e, fst e =? n) l = None.
Proof.
  induction l as [|[a b] l IH]; [done|]. cbn [fmap list_fmap fst find]. intros Hn.
  rewrite (proj2 (Z.eqb_neq a n)); [apply IH|]; set_solver.
Qed.

(** Filling a table from a list: the last entry of a number counts. *)
Lemma table_spec {B} (t : Z → option B) (l : list (Z * B)) :
  forallb (λ e, (0 <=? fst e) && (fst e <? SYSCALL_MAX)) l = true →
  ∃ t', foldl (λ ot e, t ← ot; aset SYSCALL_MAX t (fst e) (Some (snd e))) (Some t) l = Some t'
    ∧ ∀ n, t' n = match find (λ e, fst e =? n) (reverse l) with Some e => Some (snd e) | None => t n end.
Proof.
  induction l as [|[a b] l IH] using rev_ind; [by exists t|].
  rewrite forallb_app, foldl_app, reverse_snoc. intros [Hl Hr]%andb_prop. destruct (IH Hl) as (t' & -> & Ht).
  cbn [forallb fst snd] in Hr. cbn [foldl mbind option_bind fst snd find].
  apply andb_prop in Hr as [[Ha Hb]%andb_prop _]. apply Z.leb_le in Ha. apply Z.ltb_lt in Hb.
  rewrite aset_Some by done. eexists. split; [done|]. intros n. unfold upd. rewrite (Z.eqb_sym n a).
  destruct (a =? n); [done|apply Ht].
Qed.

Lemma syscall_init_table entry k k' :
  syscall_init entry k = Some k' → (∀ n, syscall_table k n = None) →
  ∀ n, syscall_table k' n = snd <$> find (λ e, fst e =? n) syscall_entries.
Proof.
  intros E Hz n. unfold syscall_init in E. cbv zeta in E.
  match type of E with (?o ≫= _) = _ => destruct o as [t|] eqn:Et end; [|done].
  assert (syscall_table k' = t) as ->.
  { cbn [mbind option_bind] in E. destruct (_ =? 0); [by apply (inj Some) in E as <-|].
    destruct (get_task _ _); [|done]. cbn [mbind option_bind] in E. by apply (inj Some) in E as <-. }
  change (syscall_table (set_kheap ?h ?k)) with (syscall_table k) in Et.
  destruct (table_spec (syscall_table k) syscall_entries) as (t' & Et' & Ht); [by vm_compute|].
  rewrite Et' in Et. apply (inj Some) in Et as <-. rewrite Ht, Hz. clear.
  destruct (decide (n ∈ syscall_entries.*1)) as [Hin|Hout].
  - cbn [fmap list_fmap syscall_entries fst] in Hin. rewrite !elem_of_cons in Hin.
    destruct_or! Hin; [subst; reflexivity..|by apply not_elem_of_nil in Hin].
  - rewrite (find_none_out syscall_entries) by done.
    rewrite (find_none_out (reverse _)) by (by rewrite fmap_reverse, elem_of_reverse). done.
Qed.

(** System call numbers.  After [syscall_init] on an empty table the thirteen
    calls are reached by their numbers and every other number below 256, or from
    512 on, is answered -ENOSYS with nothing changed; but for the numbers from
    256 to 511 the entry code loads a handler from behind the table. *)
Theorem syscall_number_check entry_addr k k' fuel rax a1 a2 a3 :
  syscall_init entry_addr k = Some k' → (∀ n, syscall_table k n = None) → 0 ≤ rax →
  syscall_dispatch fuel rax a1 a2 a3 k'
  = if (256 <=? rax) && (rax <? 512) then None
    else match find (λ e, fst e =? rax) syscall_entries with
         | Some (_, fn) => call_fn fuel fn a1 a2 a3 k'
         | None => Some (Some (2 ^ 64 - 38), k')
         end.
Proof.
  intros E Hz Hr. pose proof (syscall_init_table _ _ _ E Hz rax) as Ht. unfold syscall_dispatch.
  assert (256 ≤ rax → find (λ e, fst e =? rax) syscall_entries = None) as Hbig.
  { intros Hb. apply find_none_out. cbn [syscall_entries fmap list_fmap fst].
    rewrite !elem_of_cons, elem_of_nil. intros Hin. destruct_or! Hin; subst rax; by apply Hb. }
  destruct (Z.leb_spec 256 rax), (Z.ltb_spec rax 512); cbn [andb].
  - rewrite (proj2 (Z.leb_gt 512 rax)) by lia. rewrite aget_None by (unfold SYSCALL_MAX; lia). done.
  - rewrite (proj2 (Z.leb_le 512 rax)), Hbig by lia. done.
  - rewrite (proj2 (Z.leb_gt 512 rax)), aget_Some by (unfold SYSCALL_MAX; lia). cbn [mbind option_bind].
    rewrite Ht. by destruct (find _ _) as [[]|].
  - lia.
Qed.
End calls.

(** ** Samples *)

(** Task 5 runs in the address space of frame 1, over the memory state [v]. *)
Definition sample_task : task :=
  set_mmap 0x40000000 (set_cr3 (1 * PAGE_SIZE) (new_task 7 0 255 1 TASK_RUNNING (lit []))).

Definition sample_kern (v : vmm pmm) : kern pmm :=
  {| k_fs := set_sched (with_kstack 0x9000 (with_tasks {[5 := sample_task]}
               (single 5 (set_vm (sample_heap (vm_alloc v)) v (λ _, 0))))) (sample_fs ∅ (vm_alloc v));
     tick_count := 0; k_serial := []; k_msrs := {| msr_star := 0; msr_lstar := 0; msr_cstar := 0; msr_sfmask := 0 |};
     syscall_table := λ _, None; syscall_user_rsp := 0 |}.

Lemma sys_mmap_faults_witness : ∃ v : vmm pmm, sys_mmap 0 0x2000 (sample_kern v) = None.
Proof.
  destruct sample_pmm as (p & Hp & Hf). exists (vmm_switch (1 * PAGE_SIZE) (sample_vmm p)).
  destruct (zero_root_wf 1 (sample_vmm p)) as [_ Hz]; [exact Hp|unfold frames; cbn; rewrite Hf; lia|done|done|].
  apply (sys_mmap_faults (sample_kern (vmm_switch (1 * PAGE_SIZE) (sample_vmm p))) sample_task 0 0x2000).
  - exact Hp.
  - intros E. assert (512 ∈ free_set (pmm_bitmap p)) as Hin by (apply Hf; lia). change (free_set (pmm_bitmap p) = ∅) in E.
    rewrite E in Hin. set_solver.
  - intros f Hin. change (f ∈ free_set (pmm_bitmap p)) in Hin. apply Hf in Hin. cbn [sample_kern vmm_switch vm_cr3 vm_mem].
    change (vmm_translate (1 * PAGE_SIZE) (f * PAGE_SIZE) (vm_mem (sample_vmm p)) ≠ f * PAGE_SIZE). rewrite Hz. unfold PAGE_SIZE. lia.
  - reflexivity.
  - done.
  - lia.
Defined.

Lemma user_buffers_checked_witness :
  sys_read 3 HEAP_VIRT_BASE 16 (sample_kern (sample_vmm (one_free 300)))
  = Some (2 ^ 64 - 14, sample_kern (sample_vmm (one_free 300))).
Proof.
  destruct (user_buffers_checked (sample_kern (sample_vmm (one_free 300))) 3 HEAP_VIRT_BASE 16) as (_ & Hbad & _).
  - unfold HEAP_VIRT_BASE. lia.
  - lia.
  - apply Hbad. unfold HEAP_VIRT_BASE, USER_END. lia.
Defined.

Definition sample_regs (sp : Z) : uregs :=
  {| u_rsp := sp; u_rcx := 0x400000; u_r11 := 0x202; u_r10 := 1; u_r9 := 2; u_r8 := 3 |}.

Lemma sample_regs_ok sp : 0 ≤ sp < 2 ^ 64 → regs64 (sample_regs sp).
Proof. intros Hs. split; cbn; lia. Qed.

(** The state in which the task with the kernel stack [v] runs. *)
Definition on_stack (v : Z) (k : kern pmm) : kern pmm := set_ksched (with_kstack v (k_sched k)) k.

Lemma on_stack_heap v k : k_heap (on_stack v k) = k_heap k.
Proof. done. Qed.
Lemma on_stack_rsp v k : syscall_kernel_rsp (k_sched (on_stack v k)) = v.
Proof. done. Qed.

Lemma syscall_return_registers_witness :
  ∃ k : kern pmm,
    let sp := fst (syscall_enter (sample_regs 0x7000) (on_stack 0x9000 k)) in
    let k2 := on_stack 0xa000 (snd (syscall_enter (sample_regs 0x7000) (on_stack 0x9000 k))) in
    syscall_leave sp (snd (syscall_enter (sample_regs 0x6000) k2)) = sample_regs 0x6000.
Proof.
  generalize (sample_kern (sample_vmm (one_free 300))); intros k. exists k. cbv zeta.
  destruct (syscall_return_registers (sample_regs 0x7000) (on_stack 0x9000 k)
              (on_stack 0xa000 (snd (syscall_enter (sample_regs 0x7000) (on_stack 0x9000 k))))) as [_ H2].
  - apply sample_regs_ok. lia.
  - rewrite on_stack_rsp. lia.
  - intros a _. by rewrite on_stack_heap.
  - rewrite H2; [reflexivity|rewrite on_stack_rsp; lia|rewrite !on_stack_rsp; lia].
Defined.

(** [syscall_init] succeeds and keeps the tasks. *)
Lemma syscall_init_ok {A} `{FrameOps A} entry (k : kern A) cur t :
  current_task (k_sched k) = cur → cur ≠ 0 → get_task cur (k_sched k) = Some t →
  ∃ k', syscall_init entry k = Some k' ∧ current_task (k_sched k') = cur ∧ get_task cur (k_sched k') = Some t.
Proof.
  intros Hc Hn Ht. unfold syscall_init. cbv zeta.
  match goal with |- context [foldl ?f (Some ?t0) syscall_entries] =>
    destruct (table_spec t0 syscall_entries) as (tb & -> & _) end; [by vm_compute|]. cbn [mbind option_bind].
  change (current_task (k_sched (set_ktable _ _ (set_kheap _ k)))) with (current_task (k_sched k)).
  rewrite Hc, (proj2 (Z.eqb_neq cur 0)) by done.
  change (get_task cur (k_sched (set_ktable _ _ (set_kheap _ k)))) with (get_task cur (k_sched k)). rewrite Ht.
  eexists. split_and!; [reflexivity|reflexivity|exact Ht].
Qed.

Lemma sample_init v :
  ∃ k', syscall_init 0x1000 (sample_kern v) = Some k' ∧ current_task (k_sched k') = 5
    ∧ get_task 5 (k_sched k') = Some sample_task.
Proof. by apply syscall_init_ok. Qed.

Lemma syscall_number_check_witness :
  ∃ k' : kern pmm, syscall_init 0x1000 (sample_kern (sample_vmm (one_free 300))) = Some k'
    ∧ syscall_dispatch 10 39 0 0 0 k' = Some (Some 7, k') ∧ syscall_dispatch 10 300 0 0 0 k' = None.
Proof.
  destruct (sample_init (sample_vmm (one_free 300))) as (k' & E & Hc & Ht). exists k'. split; [exact E|].
  pose proof (λ n, syscall_number_check 0x1000 _ k' 10 n 0 0 0 E (λ _, eq_refl)) as Hd.
  split; rewrite Hd by lia; [|reflexivity]. cbn. unfold sys_getpid. rewrite Hc, Ht. reflexivity.
Defined.
