(* ===== verification/Rtc.v ===== *)
(** Model of kernel/drivers/rtc.c, the CMOS clock.

    The chip is a parameter: [cmos r d] is what reading register [r] gives in the
    chip's state [d], and the state after it.

    Properties: the time reported for a clock that holds still. *)
From stdpp Require Import prelude.
From S2P Require Import Prelude CString.

Record rtc_time := { second : Z; minute : Z; hour : Z; weekday : Z; day : Z; month : Z; year : Z }.

Definition RTC_UIP : Z := 0x80.
Definition RTC_TIMEOUT : Z := 1000000.

Definition bcd2bin (bcd : Z) : Z := u8 (Z.land (Z.shiftr bcd 4) 0x0F * 10 + Z.land bcd 0x0F).

Section chip.
Context {D : Type} (cmos : Z → D → Z * D).
Implicit Types (d : D).

(** The data port gives a byte. *)
Definition cmos_read (reg : Z) d : Z * D := let '(v, d1) := cmos reg d in (u8 v, d1).

(** [while ((cmos_read(0x0A) & RTC_UIP) && timeout--);] *)
Fixpoint wait_loop (timeout : nat) d : D :=
  let '(v, d1) := cmos_read 0x0A d in
  if Z.land v RTC_UIP =? 0 then d1 else match timeout with O => d1 | S n => wait_loop n d1 end.

Definition rtc_wait_ready d : D := wait_loop (Z.to_nat RTC_TIMEOUT) d.

(** The seven registers in the order both rounds read them. *)
Definition read_regs d : rtc_time * D :=
  let '(s, d) := cmos_read 0x00 d in
  let '(mi, d) := cmos_read 0x02 d in
  let '(h, d) := cmos_read 0x04 d in
  let '(w, d) := cmos_read 0x06 d in
  let '(da, d) := cmos_read 0x07 d in
  let '(mo, d) := cmos_read 0x08 d in
  let '(y, d) := cmos_read 0x09 d in
  ({| second := s; minute := mi; hour := h; weekday := w; day := da; month := mo; year := y |}, d).

Definition bcd_time (t : rtc_time) : rtc_time :=
  {| second := bcd2bin (second t); minute := bcd2bin (minute t); hour := bcd2bin (Z.land (hour t) 0x7F);
     weekday := bcd2bin (weekday t); day := bcd2bin (day t); month := bcd2bin (month t);
     year := bcd2bin (u8 (year t)) |}.

Definition set_hour (h : Z) (t : rtc_time) : rtc_time :=
  {| second := second t; minute := minute t; hour := h; weekday := weekday t; day := day t; month := month t; year := year t |}.
Definition set_year (y : Z) (t : rtc_time) : rtc_time :=
  {| second := second t; minute := minute t; hour := hour t; weekday := weekday t; day := day t; month := month t; year := y |}.

(** Into 24 hours, with the hour register read once more. *)
Definition hour_24 (t : rtc_time) d : rtc_time * D :=
  let '(raw_hour, d) := cmos_read 0x04 d in
  let pm := negb (Z.land raw_hour 0x80 =? 0) in
  let t := if pm && (hour t <? 12) then set_hour (u8 (hour t + 12)) t else t in
  let t := if negb pm && (hour t =? 12) then set_hour 0 t else t in
  (t, d).

(** The time [rtc_get_time] stores, for a pointer that is not NULL. *)
Definition rtc_get_time d : rtc_time * D :=
  let d := rtc_wait_ready d in
  let '(_, d) := read_regs d in
  let '(status_b, d) := cmos_read 0x0B d in
  let d := rtc_wait_ready d in
  let '(b, d) := read_regs d in
  let t := if Z.land status_b 0x04 =? 0 then bcd_time b else b in
  let '(t, d) := if Z.land status_b 0x02 =? 0 then hour_24 t d else (t, d) in
  let '(century, d) := cmos_read 0x32 d in
  if (19 <=? century) && (century <=? 21) then
    let century := if Z.land status_b 0x04 =? 0 then bcd2bin century else century in
    (set_year (u16 (century * 100 + year t)) t, d)
  else (set_year (u16 (2000 + year t)) t, d).
End chip.

(** ** A clock that holds still *)

(** How the chip stores a number, an hour, and a time: in BCD or binary, with 24
    or 12 hours and the afternoon in bit 7. *)
Definition enc (bcd : bool) (v : Z) : Z := if bcd then v / 10 * 16 + v mod 10 else v.
Definition enc_hour (bcd h24 : bool) (h : Z) : Z :=
  if h24 then enc bcd h
  else Z.lor (enc bcd (if h mod 12 =? 0 then 12 else h mod 12)) (if 12 <=? h then 0x80 else 0).
Definition enc_status (bcd h24 : bool) : Z := (if bcd then 0 else 4) + (if h24 then 2 else 0).

Definition clock_regs (bcd h24 : bool) (t : rtc_time) (r : Z) : Z :=
  if r =? 0x00 then enc bcd (second t)
  else if r =? 0x02 then enc bcd (minute t)
  else if r =? 0x04 then enc_hour bcd h24 (hour t)
  else if r =? 0x06 then enc bcd (weekday t)
  else if r =? 0x07 then enc bcd (day t)
  else if r =? 0x08 then enc bcd (month t)
  else if r =? 0x09 then enc bcd (year t mod 100)
  else if r =? 0x0A then 0
  else if r =? 0x0B then enc_status bcd h24
  else if r =? 0x32 then enc bcd (year t / 100)
  else 0.

Record valid_time (t : rtc_time) : Prop := {
  vt_second : 0 ≤ second t < 60;
  vt_minute : 0 ≤ minute t < 60;
  vt_hour : 0 ≤ hour t < 24;
  vt_weekday : 1 ≤ weekday t ≤ 7;
  vt_day : 1 ≤ day t ≤ 31;
  vt_month : 1 ≤ month t ≤ 12;
}.

Lemma bcd_small v : 0 ≤ v < 100 → u8 (enc true v) = enc true v ∧ bcd2bin (enc true v) = v ∧ Z.land (enc true v) 0x7F = enc true v mod 128.
Proof.
  intros Hv. assert ((u8 (enc true v) =? enc true v) && (bcd2bin (enc true v) =? v)
    && (Z.land (enc true v) 0x7F =? enc true v mod 128) = true) as Hc.
  { apply (check_range (λ v, (u8 (enc true v) =? enc true v) && (bcd2bin (enc true v) =? v)
      && (Z.land (enc true v) 0x7F =? enc true v mod 128)) 100); [by vm_compute|done]. }
  apply andb_prop in Hc as [[Ha Hb]%andb_prop Hc]. split_and!; by apply Z.eqb_eq.
Qed.

Lemma time_eta (t : rtc_time) : set_hour (hour t) (set_year (year t) t) = t.
Proof. by destruct t. Qed.

Section still.
Context {D : Type} (cmos : Z → D → Z * D) (bcd h24 : bool) (t : rtc_time).

(** The chip answers from its registers, and none of them changes. *)
Hypothesis at_rest : ∀ r d, fst (cmos r d) = clock_regs bcd h24 t r.

Lemma read_rest r d : ∃ d', cmos_read cmos r d = (u8 (clock_regs bcd h24 t r), d').
Proof. unfold cmos_read. pose proof (at_rest r d) as Hr. destruct (cmos r d) as [v d']. exists d'. by rewrite <-Hr. Qed.

(** The bytes of the seven registers. *)
Definition raw_time : rtc_time :=
  let g r := u8 (clock_regs bcd h24 t r) in
  {| second := g 0x00; minute := g 0x02; hour := g 0x04; weekday := g 0x06; day := g 0x07; month := g 0x08; year := g 0x09 |}.

Lemma read_regs_rest d : ∃ d', read_regs cmos d = (raw_time, d').
Proof.
  unfold read_regs.
  repeat match goal with
  | |- context [cmos_read cmos ?r ?d] => destruct (read_rest r d) as [? ->]; cbv iota beta
  end.
  eexists. reflexivity.
Qed.

(** What the driver makes of the bytes. *)
Definition decoded : rtc_time :=
  let t1 := if bcd then bcd_time raw_time else raw_time in
  let pm := negb (Z.land (u8 (clock_regs bcd h24 t 0x04)) 0x80 =? 0) in
  let t2 := if h24 then t1
            else let t2 := if pm && (hour t1 <? 12) then set_hour (u8 (hour t1 + 12)) t1 else t1 in
                 if negb pm && (hour t2 =? 12) then set_hour 0 t2 else t2 in
  let c := u8 (clock_regs bcd h24 t 0x32) in
  if (19 <=? c) && (c <=? 21) then set_year (u16 ((if bcd then bcd2bin c else c) * 100 + year t2)) t2
  else set_year (u16 (2000 + year t2)) t2.

Lemma rtc_decoded d : fst (rtc_get_time cmos d) = decoded.
Proof.
  unfold rtc_get_time.
  destruct (read_regs_rest (rtc_wait_ready cmos d)) as [d1 ->].
  destruct (read_rest 0x0B d1) as [d2 ->]. destruct (read_regs_rest (rtc_wait_ready cmos d2)) as [d3 ->].
  unfold decoded. change (clock_regs bcd h24 t 0x0B) with (enc_status bcd h24).
  assert ((Z.land (u8 (enc_status bcd h24)) 0x04 =? 0) = bcd) as -> by (by destruct bcd, h24).
  assert ((Z.land (u8 (enc_status bcd h24)) 0x02 =? 0) = negb h24) as -> by (by destruct bcd, h24).
  unfold hour_24. pose proof read_rest as Hrd. destruct h24; cbn [negb].
  - destruct (Hrd 0x32 d3) as [d4 ->]. by destruct (_ && _).
  - destruct (Hrd 0x04 d3) as [d4 ->]. destruct (Hrd 0x32 d4) as [d5 ->]. by destruct (_ && _).
Qed.

(** ** Registers *)

Definition in_range : Prop := valid_time t ∧ 1900 ≤ year t < 2200.

Lemma enc_number v : 0 ≤ v < 100 → u8 (enc bcd v) = enc bcd v ∧ (if bcd then bcd2bin (enc bcd v) else enc bcd v) = v.
Proof.
  intros Hv. destruct bcd; [by destruct (bcd_small v Hv) as (? & ? & _)|]. cbn [enc]. rewrite u8_small by lia. done.
Qed.

(** The hours, by cases on the modes: right but for binary afternoons. *)
Definition hour_read : Z :=
  if bcd || h24 || (hour t <? 12) then hour t else 128 + (if hour t mod 12 =? 0 then 12 else hour t mod 12).

Definition hour_check (h : Z) : bool :=
  let raw := u8 (enc_hour bcd h24 h) in
  let v1 := if bcd then bcd2bin (Z.land raw 0x7F) else raw in
  let pm := negb (Z.land raw 0x80 =? 0) in
  let v2 := if pm && (v1 <? 12) then u8 (v1 + 12) else v1 in
  let v3 := if negb pm && (v2 =? 12) then 0 else v2 in
  (if h24 then v1 else v3) =?
    (if bcd || h24 || (h <? 12) then h else 128 + (if h mod 12 =? 0 then 12 else h mod 12)).

Lemma hour_check_all h : 0 ≤ h < 24 → hour_check h = true.
Proof. intros Hh. apply (check_range hour_check 24); [|done]. unfold hour_check. by destruct bcd, h24; vm_compute. Qed.

Definition year_read : Z := if bcd then 2000 + year t mod 100 else year t.

Definition time_read : rtc_time := set_hour hour_read (set_year year_read t).

Lemma raw_number : valid_time t → 1900 ≤ year t < 2200 →
  (if bcd then bcd_time (raw_time) else raw_time)
  = {| second := second t; minute := minute t;
       hour := if bcd then bcd2bin (Z.land (u8 (enc_hour bcd h24 (hour t))) 0x7F) else u8 (enc_hour bcd h24 (hour t));
       weekday := weekday t; day := day t; month := month t; year := year t mod 100 |}.
Proof.
  intros [] Hy. pose proof (Z.mod_pos_bound (year t) 100 ltac:(lia)) as Hm.
  destruct (enc_number (second t)) as [U1 E1]; [lia|]. destruct (enc_number (minute t)) as [U2 E2]; [lia|].
  destruct (enc_number (weekday t)) as [U3 E3]; [lia|]. destruct (enc_number (day t)) as [U4 E4]; [lia|].
  destruct (enc_number (month t)) as [U5 E5]; [lia|]. destruct (enc_number (year t mod 100)) as [U6 E6]; [lia|].
  unfold bcd_time, raw_time.
  cbn [clock_regs Z.eqb Pos.eqb second minute hour weekday day month year]. rewrite U1, U2, U3, U4, U5, U6.
  destruct bcd; [rewrite U6|]; by rewrite E1, E2, E3, E4, E5, E6.
Qed.

Lemma century_read : 1900 ≤ year t < 2200 →
  let c := u8 (enc bcd (year t / 100)) in
  (if (19 <=? c) && (c <=? 21) then (if bcd then bcd2bin c else c) * 100 + year t mod 100 else 2000 + year t mod 100)
  = year_read.
Proof.
  intros Hy c. unfold c, year_read. pose proof (Z.div_mod (year t) 100 ltac:(lia)) as Hd.
  assert (year t / 100 = 19 ∨ year t / 100 = 20 ∨ year t / 100 = 21) as Hc.
  { pose proof (Z.div_le_lower_bound (year t) 100 19). pose proof (Z.div_lt_upper_bound (year t) 100 22). lia. }
  destruct Hc as [Hc|[Hc|Hc]]; rewrite Hc in *; destruct bcd; cbn [enc]; try (by vm_compute).
  all: match goal with |- context [u8 ?v] => change (u8 v) with v end; cbn [Z.leb Z.compare Pos.compare Pos.compare_cont andb]; lia.
Qed.

Lemma decoded_read : in_range → decoded = time_read.
Proof.
  intros [Hv Hy]. pose proof Hv as []. unfold decoded. rewrite (raw_number Hv Hy).
  change (clock_regs bcd h24 t 0x04) with (enc_hour bcd h24 (hour t)).
  change (clock_regs bcd h24 t 0x32) with (enc bcd (year t / 100)).
  pose proof (hour_check_all (hour t) ltac:(lia)) as Hh. unfold hour_check in Hh. apply Z.eqb_eq in Hh.
  pose proof (century_read Hy) as Hc. cbv zeta in Hc, Hh |- *. unfold time_read, hour_read. rewrite <-Hh. clear Hh.
  assert (u16 year_read = year_read) as Hu.
  { apply u16_small. unfold year_read. pose proof (Z.mod_pos_bound (year t) 100 ltac:(lia)). destruct bcd; lia. }
  set (raw := u8 (enc_hour bcd h24 (hour t))) in *. set (c := u8 (enc bcd (year t / 100))) in *.
  set (v1 := if bcd then bcd2bin (Z.land raw 0x7F) else raw). clearbody raw c v1. cbn [hour set_hour].
  revert Hc; destruct ((19 <=? c) && (c <=? 21)); intros Hc;
  (destruct h24; [|destruct (negb (Z.land raw 0x80 =? 0)); cbn [negb andb hour];
                  [destruct (v1 <? 12)|destruct (v1 =? 12)]]); unfold set_hour, set_year;
    cbn [second minute hour weekday day month year negb andb];
    rewrite Hc, Hu; reflexivity.
Qed.

(** The clock.  For a chip that holds still and shows a valid time of the
    years 1900 to 2199, in BCD or binary and with 12 or 24 hours, [rtc_get_time]
    returns that time, with two exceptions: in BCD the century register is
    tested before it is converted and so never used, which puts every year in
    2000 to 2099; and in binary 12-hour mode the afternoon bit stays in the hour. *)
Theorem rtc_get_time_correct d :
  in_range →
  fst (rtc_get_time cmos d) = time_read
  ∧ ((bcd = false ∨ 2000 ≤ year t < 2100) → (bcd = true ∨ h24 = true ∨ hour t < 12) → time_read = t)
  ∧ (bcd = true → year time_read = 2000 + year t mod 100)
  ∧ (bcd = false → h24 = false → 12 ≤ hour t → 128 ≤ hour time_read).
Proof.
  intros Hr. split_and!.
  - rewrite rtc_decoded. by apply decoded_read.
  - intros Hy Hh. destruct Hr as [_ Hr]. unfold time_read.
    assert (hour_read = hour t) as ->.
    { unfold hour_read. destruct Hh as [-> | [-> | Hh]]; [done|by rewrite orb_true_r|].
      by rewrite (proj2 (Z.ltb_lt _ _) Hh), orb_true_r. }
    assert (year_read = year t) as ->.
    { unfold year_read. destruct Hy as [-> | Hy]; [done|]. destruct bcd; [|done].
      rewrite <-(Z.mod_unique (year t) 100 20 (year t - 2000)); lia. }
    apply time_eta.
  - intros Hb. unfold time_read, year_read. by rewrite Hb.
  - intros Hb H24 Hh. unfold time_read, hour_read. rewrite Hb, H24. cbn [hour set_hour orb].
    rewrite (proj2 (Z.ltb_ge _ _) Hh). pose proof (Z.mod_pos_bound (hour t) 12). destruct (_ =? 0); lia.
Qed.
End still.

(** A clock in BCD with 24 hours that shows 2024-02-29 23:59:58. *)
Lemma rtc_get_time_correct_witness :
  let t := {| second := 58; minute := 59; hour := 23; weekday := 5; day := 29; month := 2; year := 2024 |} in
  fst (rtc_get_time (λ r (d : nat), (clock_regs true true t r, S d)) 0%nat) = t.
Proof.
  intros t. destruct (rtc_get_time_correct (λ r (d : nat), (clock_regs true true t r, S d)) true true t) with (d := 0%nat)
    as (E & Ht & _).
  - intros r d. reflexivity.
  - split; [split; cbn; lia|cbn; lia].
  - rewrite E. apply Ht; [right; cbn; lia|by left].
Defined.
