(* ===== verification/Gdt.v ===== *)
(** Model of kernel/arch/x86_64/gdt.c: the descriptor table and the task state
    segment.  The table is the bytes of the union [gdt]; offset 0 is its start.
    Loading the table and the segment registers is not modelled.

    Properties: the segments and the task state segment that are installed, and that the selectors kernel/syscall/syscall.c puts in STAR name the right ones. *)
From stdpp Require Import prelude.
From S2P Require Import Prelude CString FrameAlloc Bitmap Pmm Vmm VmmProps Heap HeapProps Sched Vfs Proc Syscall SyscallProps.

Definition GDT_NULL : Z := 0.
Definition GDT_KERNEL_CODE : Z := 1.
Definition GDT_KERNEL_DATA : Z := 2.
Definition GDT_USER_DATA : Z := 3.
Definition GDT_USER_CODE : Z := 4.
Definition GDT_TSS_LOW : Z := 5.
Definition GDT_ENTRIES : Z := 7.

Record tss64 := { rsp0 : Z; ist : Z → Z; iopb_offset : Z }.

(** [sizeof(tss64_t)], packed. *)
Definition TSS_SIZE : Z := 104.

Record gdt_state := { gdt_raw : mem; tss : tss64; gdtr_limit : Z; gdtr_base : Z }.

Definition set_raw (m : mem) (g : gdt_state) : gdt_state :=
  {| gdt_raw := m; tss := tss g; gdtr_limit := gdtr_limit g; gdtr_base := gdtr_base g |}.
Definition set_tss (t : tss64) (g : gdt_state) : gdt_state :=
  {| gdt_raw := gdt_raw g; tss := t; gdtr_limit := gdtr_limit g; gdtr_base := gdtr_base g |}.
Definition set_gdtr (limit base : Z) (g : gdt_state) : gdt_state :=
  {| gdt_raw := gdt_raw g; tss := tss g; gdtr_limit := limit; gdtr_base := base |}.

(** [e[idx]] is 8 bytes: limit, base, base, access, flags with the high limit, base. *)
Definition gdt_set_entry (idx base limit access gran : Z) (m : mem) : mem :=
  let e := 8 * idx in
  let m := store_le 2 m e (u16 (Z.land limit 0xFFFF)) in
  let m := store_le 2 m (e + 2) (u16 (Z.land base 0xFFFF)) in
  let m := upd m (e + 4) (u8 (Z.land (Z.shiftr base 16) 0xFF)) in
  let m := upd m (e + 5) access in
  let m := upd m (e + 6) (u8 (Z.lor (Z.land (Z.shiftr limit 16) 0x0F) (Z.land gran 0xF0))) in
  upd m (e + 7) (u8 (Z.land (Z.shiftr base 24) 0xFF)).

Definition gdt_set_ist (slot stack_top : Z) (g : gdt_state) : gdt_state :=
  if (slot <? 1) || (7 <? slot) then g
  else set_tss {| rsp0 := rsp0 (tss g); ist := upd (ist (tss g)) (slot - 1) stack_top;
                  iopb_offset := iopb_offset (tss g) |} g.

Definition gdt_set_kernel_stack (stack_top : Z) (g : gdt_state) : gdt_state :=
  set_tss {| rsp0 := stack_top; ist := ist (tss g); iopb_offset := iopb_offset (tss g) |} g.

(** The 16 bytes of the descriptor of a task state segment at [base]. *)
Definition set_tss_descriptor (base limit : Z) (m : mem) : mem :=
  let e := 8 * GDT_TSS_LOW in
  let m := store_le 2 m e (u16 (Z.land limit 0xFFFF)) in
  let m := store_le 2 m (e + 2) (u16 (Z.land base 0xFFFF)) in
  let m := upd m (e + 4) (u8 (Z.land (Z.shiftr base 16) 0xFF)) in
  let m := upd m (e + 5) 0x89 in
  let m := upd m (e + 6) (u8 (Z.land (Z.shiftr limit 16) 0x0F)) in
  let m := upd m (e + 7) (u8 (Z.land (Z.shiftr base 24) 0xFF)) in
  let m := store_le 4 m (e + 8) (u32 (Z.shiftr base 32)) in
  store_le 4 m (e + 12) 0.

(** [gdt_addr] and [tss_addr] are where the linker put the two objects. *)
Definition gdt_init (gdt_addr tss_addr : Z) (g : gdt_state) : gdt_state :=
  let g := set_raw (memset 0 0 (8 * GDT_ENTRIES) (gdt_raw g)) g in
  let g := set_tss {| rsp0 := 0; ist := λ _, 0; iopb_offset := u16 TSS_SIZE |} g in
  let m := gdt_raw g in
  let m := gdt_set_entry GDT_NULL 0 0 0 0 m in
  let m := gdt_set_entry GDT_KERNEL_CODE 0 0xFFFFF 0x9A 0x20 m in
  let m := gdt_set_entry GDT_KERNEL_DATA 0 0xFFFFF 0x92 0x00 m in
  let m := gdt_set_entry GDT_USER_DATA 0 0xFFFFF 0xF2 0x00 m in
  let m := gdt_set_entry GDT_USER_CODE 0 0xFFFFF 0xFA 0x20 m in
  let m := set_tss_descriptor tss_addr (u32 (TSS_SIZE - 1)) m in
  set_gdtr (u16 (8 * GDT_ENTRIES - 1)) gdt_addr (set_raw m g).

(** ** What the processor reads *)

(** The fields of the descriptor a selector names, as the processor combines
    them: base and limit of a segment, its access byte and its flags. *)
Definition desc_limit (m : mem) (sel : Z) : Z :=
  let e := sel / 8 * 8 in load_le 2 m e + 2 ^ 16 * (m (e + 6) mod 16).
Definition desc_base (m : mem) (sel : Z) : Z :=
  let e := sel / 8 * 8 in load_le 2 m (e + 2) + 2 ^ 16 * m (e + 4) + 2 ^ 24 * m (e + 7).
Definition desc_access (m : mem) (sel : Z) : Z := m (sel / 8 * 8 + 5).
Definition desc_long (m : mem) (sel : Z) : bool := Z.testbit (m (sel / 8 * 8 + 6)) 5.
Definition sys_base (m : mem) (sel : Z) : Z := desc_base m sel + 2 ^ 32 * load_le 4 m (sel / 8 * 8 + 8).

(** The privilege level in an access byte, and whether it is a present code or
    data segment. *)
Definition dpl (access : Z) : Z := Z.land (Z.shiftr access 5) 3.
Definition is_code (access : Z) : bool := Z.testbit access 7 && Z.testbit access 4 && Z.testbit access 3.
Definition is_data (access : Z) : bool := Z.testbit access 7 && Z.testbit access 4 && negb (Z.testbit access 3) && Z.testbit access 1.

(** The parts of a 64-bit number the descriptor spreads over its bytes. *)
Lemma split_base b : 0 ≤ b < 2 ^ 64 →
  u16 (Z.land b 0xFFFF) + 2 ^ 16 * u8 (Z.land (Z.shiftr b 16) 0xFF) + 2 ^ 24 * u8 (Z.land (Z.shiftr b 24) 0xFF)
    + 2 ^ 32 * u32 (Z.shiftr b 32) = b.
Proof.
  intros Hb. change 0xFFFF with (Z.ones 16). change 0xFF with (Z.ones 8).
  rewrite !Z.land_ones, !Z.shiftr_div_pow2 by lia. unfold u8, u16, u32.
  rewrite !Z.mod_mod by lia. rewrite (Z.mod_small (b / 2 ^ 32)).
  2:{ split; [apply Z.div_pos; lia|]. apply Z.div_lt_upper_bound; lia. }
  replace (b / 2 ^ 32) with (b / 2 ^ 16 / 2 ^ 8 / 2 ^ 8) by (by rewrite !Z.div_div by lia).
  replace (b / 2 ^ 24) with (b / 2 ^ 16 / 2 ^ 8) by (by rewrite !Z.div_div by lia).
  pose proof (Z.div_mod b (2 ^ 16) ltac:(lia)). pose proof (Z.div_mod (b / 2 ^ 16) (2 ^ 8) ltac:(lia)).
  pose proof (Z.div_mod (b / 2 ^ 16 / 2 ^ 8) (2 ^ 8) ltac:(lia)). lia.
Qed.

Lemma load_upd_ne k m a b v : ¬ b ≤ a < b + Z.of_nat k → load_le k (upd m a v) b = load_le k m b.
Proof. intros Hb. apply load_le_ext. intros c Hc. apply upd_ne. lia. Qed.

(** Past stores elsewhere. *)
Ltac skip_stores :=
  repeat first [rewrite store_le_outside by lia | rewrite upd_ne by lia | rewrite load_store_le_ne by lia
               | rewrite load_upd_ne by lia].

(** Reading back the descriptor of the task state segment. *)
Lemma tss_descriptor_base b limit m :
  0 ≤ b < 2 ^ 64 → sys_base (set_tss_descriptor b limit m) 0x28 = b.
Proof.
  intros Hb. unfold sys_base, desc_base, set_tss_descriptor. change (0x28 / 8 * 8) with 40. change (8 * GDT_TSS_LOW) with 40.
  cbv zeta. etrans; [|exact (split_base b Hb)]. repeat apply (f_equal2 Z.add); try apply (f_equal2 Z.mul eq_refl); skip_stores.
  - rewrite load_store_le_eq. apply Z.mod_mod. lia.
  - by rewrite upd_eq.
  - by rewrite upd_eq.
  - rewrite load_store_le_eq. apply Z.mod_mod. lia.
Qed.

(** The byte with the high limit and the flags. *)
Lemma flags_byte h g : 0 ≤ h < 16 →
  u8 (Z.lor h (Z.land g 0xF0)) mod 16 = h ∧ Z.testbit (u8 (Z.lor h (Z.land g 0xF0))) 5 = Z.testbit g 5.
Proof.
  intros Hh. unfold u8. split.
  - change 16 with (2 ^ 4). rewrite <-!Z.land_ones by lia. rewrite <-Z.land_assoc. change (Z.land (Z.ones 8) (Z.ones 4)) with (Z.ones 4).
    rewrite Z.land_lor_distr_l, <-Z.land_assoc. change (Z.land 0xF0 (Z.ones 4)) with 0.
    rewrite Z.land_0_r, Z.lor_0_r, Z.land_ones by lia. apply Z.mod_small. lia.
  - rewrite Z.mod_pow2_bits_low by lia. rewrite Z.lor_spec, Z.land_spec. change (Z.testbit 0xF0 5) with true.
    rewrite andb_true_r, (Z.bits_above_log2 h 5); [done|lia|]. destruct (decide (h = 0)) as [->|]; [done|].
    apply Z.log2_lt_pow2; lia.
Qed.

Lemma nibble_range l : 0 ≤ l < 2 ^ 20 → 0 ≤ l / 2 ^ 16 < 16.
Proof. intros Hl. split; [apply Z.div_pos|apply Z.div_lt_upper_bound]; lia. Qed.

Lemma nibble l : 0 ≤ l < 2 ^ 20 → Z.land (Z.shiftr l 16) 0x0F = l / 2 ^ 16.
Proof.
  intros Hl. change 0x0F with (Z.ones 4). rewrite Z.land_ones, Z.shiftr_div_pow2 by lia.
  apply Z.mod_small. by apply nibble_range.
Qed.

(** Reading back a segment descriptor. *)
Lemma entry_fields idx base limit access gran m :
  let m' := gdt_set_entry idx base limit access gran m in
  let e := 8 * idx in
  desc_access m' e = access ∧ (∀ a, ¬ e ≤ a < e + 8 → m' a = m a)
  ∧ (0 ≤ base < 2 ^ 32 → desc_base m' e = base) ∧ (0 ≤ limit < 2 ^ 20 → desc_limit m' e = limit)
  ∧ desc_long m' e = Z.testbit gran 5.
Proof.
  intros m' e. unfold desc_access, desc_base, desc_limit, desc_long. cbv zeta.
  replace (e / 8 * 8) with e by (unfold e; rewrite Z.mul_comm, Z.div_mul by lia; lia).
  assert (m' (e + 6) = u8 (Z.lor (Z.land (Z.shiftr limit 16) 0x0F) (Z.land gran 0xF0))) as E6.
  { unfold m', gdt_set_entry. skip_stores. by rewrite upd_eq. }
  split_and!.
  - unfold m', gdt_set_entry. skip_stores. by rewrite upd_eq.
  - intros a Ha. unfold m', gdt_set_entry. by skip_stores.
  - intros Hb. etrans; [|apply (split_base base); lia].
    replace (u32 (Z.shiftr base 32)) with 0 by (rewrite Z.shiftr_div_pow2, Z.div_small by lia; done).
    rewrite Z.mul_0_r, Z.add_0_r. unfold m', gdt_set_entry. repeat apply (f_equal2 Z.add); try apply (f_equal2 Z.mul eq_refl); skip_stores.
    + rewrite load_store_le_eq. apply Z.mod_mod. lia.
    + by rewrite upd_eq.
    + by rewrite upd_eq.
  - intros Hl. rewrite E6, (nibble limit) by done. rewrite (proj1 (flags_byte (limit / 2 ^ 16) gran (nibble_range limit Hl))).
    unfold m', gdt_set_entry. skip_stores. rewrite load_store_le_eq. change 0xFFFF with (Z.ones 16).
    rewrite Z.land_ones by lia. unfold u16. change (2 ^ (8 * Z.of_nat 2)) with (2 ^ 16). rewrite !Z.mod_mod by lia.
    pose proof (Z.div_mod limit (2 ^ 16) ltac:(lia)). lia.
  - rewrite E6. change 0x0F with (Z.ones 4). rewrite Z.land_ones by lia. apply flags_byte. apply Z.mod_pos_bound. lia.
Qed.

(** A flat segment of privilege level [level]: present, base 0, the full limit,
    64-bit if it is code. *)
Definition flat_segment (m : mem) (sel : Z) (code : bool) (level : Z) : Prop :=
  (if code then is_code (desc_access m sel) && desc_long m sel else is_data (desc_access m sel)) = true
  ∧ dpl (desc_access m sel) = level ∧ desc_base m sel = 0 ∧ desc_limit m sel = 0xFFFFF.

Lemma gdt_init_flat ga ta g :
  let m := gdt_raw (gdt_init ga ta g) in
  flat_segment m 0x08 true 0 ∧ flat_segment m 0x10 false 0 ∧ flat_segment m 0x1B false 3 ∧ flat_segment m 0x23 true 3
  ∧ desc_limit m 0x28 = TSS_SIZE - 1 ∧ desc_access m 0x28 = 0x89.
Proof. repeat split; vm_compute; reflexivity. Qed.

(** The selectors the processor loads on SYSCALL and SYSRET from STAR. *)
Definition syscall_cs (star : Z) : Z := Z.land (Z.shiftr star 32) 0xFFFF.
Definition syscall_ss (star : Z) : Z := syscall_cs star + 8.
Definition sysret_cs (star : Z) : Z := Z.lor (Z.land (Z.shiftr star 48) 0xFFFF + 16) 3.
Definition sysret_ss (star : Z) : Z := Z.lor (Z.land (Z.shiftr star 48) 0xFFFF + 8) 3.

Lemma syscall_init_star {A} `{FrameOps A} entry (k k' : kern A) :
  syscall_init entry k = Some k' → msr_star (k_msrs k') = Z.lor (Z.shiftl 0x08 32) (Z.shiftl 0x10 48).
Proof.
  intros E. unfold syscall_init in E. cbv zeta in E.
  match type of E with (?o ≫= _) = _ => destruct o as [t|] end; [|done]. cbn [mbind option_bind] in E.
  destruct (_ =? 0); [by apply (inj Some) in E as <-|].
  destruct (get_task _ _); [|done]. cbn [mbind option_bind] in E. by apply (inj Some) in E as <-.
Qed.

(** Privilege transitions.  After [gdt_init] and [syscall_init], SYSCALL
    enters with flat ring 0 code and data segments, SYSRET leaves with flat ring 3
    ones, and the task register's descriptor holds the address and the size of the
    task state segment wherever the linker put it. *)
Theorem syscall_segments {A} `{FrameOps A} gdt_addr tss_addr g entry (k k' : kern A) :
  0 ≤ tss_addr < 2 ^ 64 → syscall_init entry k = Some k' →
  let m := gdt_raw (gdt_init gdt_addr tss_addr g) in
  let star := msr_star (k_msrs k') in
  flat_segment m (syscall_cs star) true 0 ∧ flat_segment m (syscall_ss star) false 0
  ∧ flat_segment m (sysret_cs star) true 3 ∧ flat_segment m (sysret_ss star) false 3
  ∧ sys_base m 0x28 = tss_addr ∧ desc_limit m 0x28 = TSS_SIZE - 1 ∧ desc_access m 0x28 = 0x89.
Proof.
  intros Ht E m star. unfold star. rewrite (syscall_init_star _ _ _ E).
  destruct (gdt_init_flat gdt_addr tss_addr g) as (F1 & F2 & F3 & F4 & F5 & F6).
  assert (∀ x y, x = y → ∀ c l, flat_segment m y c l → flat_segment m x c l) as Hx by (by intros ? ? ->).
  split_and!; [by apply (Hx _ 0x08)|by apply (Hx _ 0x10)|by apply (Hx _ 0x23)|by apply (Hx _ 0x1B)| |exact F5|exact F6].
  exact (tss_descriptor_base _ _ _ Ht).
Qed.

Lemma syscall_segments_witness :
  ∃ g (k' : kern pmm), sysret_cs (msr_star (k_msrs k')) = 0x23
    ∧ flat_segment (gdt_raw (gdt_init 0x5000 0xFFFFFFFF80123456 g)) (sysret_cs (msr_star (k_msrs k'))) true 3.
Proof.
  exists {| gdt_raw := λ _, 0; tss := {| rsp0 := 0; ist := λ _, 0; iopb_offset := 0 |}; gdtr_limit := 0; gdtr_base := 0 |}.
  destruct (sample_init (sample_vmm (one_free 300))) as (k' & E & _). exists k'.
  split; [by rewrite (syscall_init_star _ _ _ E)|].
  match goal with |- context [gdt_init _ _ ?g] =>
    destruct (syscall_segments 0x5000 0xFFFFFFFF80123456 g 0x1000 _ k' ltac:(lia) E) as (_ & _ & Hc & _) end.
  exact Hc.
Defined.
