(* ===== verification/Ata.v ===== *)
(** Model of kernel/drivers/storage/ata.c and of the registry of block devices in
    kernel/drivers/storage/block.c.

    The two channels are one device behind the port interface.  Buffers are in the
    byte memory; a [block_device_t] is a record of a store keyed by its address. *)
From stdpp Require Import prelude gmap.
From S2P Require Import Prelude CString Ports.

(** ** Block devices *)

Definition BLKDEV_MAX : Z := 16.
Definition BLKDEV_NAME_LEN : Z := 16.

(** The driver whose functions the device points to. *)
Inductive blk_driver := Blk_ata | Blk_ahci | Blk_nvme.

Record block_device := {
  bd_name : list Z;
  bd_sector_count : Z;
  bd_sector_size : Z;
  bd_read_only : bool;
  bd_private : Z;
  bd_ops : blk_driver;
}.

(** [sizeof(block_device_t)] on x86_64. *)
Definition BLOCK_DEVICE_SIZE : Z := 56.

Record blkdevs_state := { bd_store : gmap Z block_device; blkdevs : Z → Z; blkdev_cnt : Z }.

Definition blkdev_register (dev : Z) (b : blkdevs_state) : option (Z * blkdevs_state) :=
  if (dev =? 0) || (BLKDEV_MAX <=? blkdev_cnt b) then Some (-1, b)
  else
    t ← aset BLKDEV_MAX (blkdevs b) (blkdev_cnt b) dev;
    Some (blkdev_cnt b, {| bd_store := bd_store b; blkdevs := t; blkdev_cnt := blkdev_cnt b + 1 |}).

Definition blkdev_get (index : Z) (b : blkdevs_state) : option Z :=
  if (index <? 0) || (blkdev_cnt b <=? index) then Some 0 else aget BLKDEV_MAX (blkdevs b) index.

Definition blkdev_count (b : blkdevs_state) : Z := blkdev_cnt b.

(** ** ATA *)

Definition ata_base (chan : Z) : Z := if chan =? 0 then 0x1F0 else 0x170.
Definition ata_ctrl (chan : Z) : Z := if chan =? 0 then 0x3F6 else 0x376.

Definition ATA_SECT_CNT : Z := 2.
Definition ATA_LBA_LO : Z := 3.
Definition ATA_LBA_MID : Z := 4.
Definition ATA_LBA_HI : Z := 5.
Definition ATA_DRIVE_SEL : Z := 6.
Definition ATA_STATUS : Z := 7.
Definition ATA_CMD : Z := 7.
Definition ATA_SR_BSY : Z := 0x80.
Definition ATA_SR_DRQ : Z := 0x08.
Definition ATA_SR_ERR : Z := 0x01.
Definition ATA_CMD_IDENTIFY : Z := 0xEC.
Definition ATA_CMD_READ28 : Z := 0x20.
Definition ATA_CMD_WRITE28 : Z := 0x30.
Definition ATA_CMD_CACHE_FLUSH : Z := 0xE7.
Definition ATA_MAX_DRIVES : Z := 4.

Record ata_drive := {
  present : bool;
  is_atapi : bool;
  lba48 : bool;
  model : Z → Z;
  lba28_sectors : Z;
  lba48_sectors : Z;
}.

Definition no_drive : ata_drive :=
  {| present := false; is_atapi := false; lba48 := false; model := λ _, 0; lba28_sectors := 0; lba48_sectors := 0 |}.

Record ata_state (D : Type) := { at_dev : D; ata_drives : Z → ata_drive; at_blk : blkdevs_state }.
Arguments at_dev {D} _.
Arguments ata_drives {D} _.
Arguments at_blk {D} _.

Section driver.
Context {D : Type} `{PortIO D}.
Implicit Types (d : D).

Definition ata_delay (ctrl : Z) d : D := snd (inb ctrl (snd (inb ctrl (snd (inb ctrl (snd (inb ctrl d))))))).

(** The loops [while (n--)] of the two waits. *)
Fixpoint busy_loop (n : nat) (base : Z) d : bool * D :=
  match n with
  | O => (false, d)
  | S n' =>
      let '(st, d1) := inb (base + ATA_STATUS) d in
      if Z.land st ATA_SR_BSY =? 0 then (true, d1) else busy_loop n' base d1
  end.

Definition ata_wait_not_busy (base timeout_ms : Z) d : bool * D := busy_loop (Z.to_nat (u32 (timeout_ms * 10000))) base d.

Fixpoint drq_loop (n : nat) (base : Z) d : Z * D :=
  match n with
  | O => (0, d)
  | S n' =>
      let '(st, d1) := inb (base + ATA_STATUS) d in
      if negb (Z.land st ATA_SR_ERR =? 0) then (-1, d1)
      else if negb (Z.land st ATA_SR_DRQ =? 0) then (1, d1)
      else drq_loop n' base d1
  end.

Definition ata_wait_drq (base timeout_ms : Z) d : Z * D := drq_loop (Z.to_nat (u32 (timeout_ms * 10000))) base d.

(** The next [n] words of the data port. *)
Fixpoint read_words (n : nat) (base : Z) d : list Z * D :=
  match n with
  | O => ([], d)
  | S n' =>
      let '(w, d1) := inw base d in
      let '(l, d2) := read_words n' base d1 in
      (w :: l, d2)
  end.

(** *** IDENTIFY *)

(** [model[i]] for the words 27 to 46, the high byte first. *)
Definition ident_model (ident : list Z) (i : Z) : Z :=
  if (0 <=? i) && (i <? 40) then
    let w := nth (Z.to_nat (27 + i / 2)) ident 0 in
    if i mod 2 =? 0 then u8 (Z.shiftr w 8) else u8 (Z.land w 0xFF)
  else 0.

(** [for (i = 39; i >= 0 && model[i] == ' '; i--) model[i] = 0;] with [n] = i + 1. *)
Fixpoint trim_model (n : nat) (m : Z → Z) : Z → Z :=
  match n with
  | O => m
  | S n' => if m (Z.of_nat n') =? 32 then trim_model n' (upd m (Z.of_nat n') 0) else m
  end.

Definition word (ident : list Z) (i : nat) : Z := nth i ident 0.

(** The drive described by the 256 words. *)
Definition ident_drive (ident : list Z) (old : ata_drive) : ata_drive :=
  let big := negb (Z.land (Z.shiftr (word ident 83) 10) 1 =? 0) in
  {| present := true; is_atapi := is_atapi old; lba48 := big;
     model := trim_model 40 (ident_model ident);
     lba28_sectors := Z.lor (u32 (Z.shiftl (word ident 61) 16)) (word ident 60);
     lba48_sectors :=
       if big then
         Z.lor (Z.lor (Z.lor (u64 (Z.shiftl (word ident 103) 48)) (u64 (Z.shiftl (word ident 102) 32)))
                      (u64 (Z.shiftl (word ident 101) 16))) (word ident 100)
       else lba48_sectors old |}.

Definition set_absent (x : ata_drive) : ata_drive :=
  {| present := false; is_atapi := is_atapi x; lba48 := lba48 x; model := model x;
     lba28_sectors := lba28_sectors x; lba48_sectors := lba48_sectors x |}.

(** The bytes of the string copied to the model of a packet device, with its NUL. *)
Definition atapi_name : list Z := [65; 84; 65; 80; 73; 32; 100; 101; 118; 105; 99; 101; 0].

Definition set_atapi (x : ata_drive) : ata_drive :=
  {| present := true; is_atapi := true; lba48 := lba48 x;
     model := λ i, if (0 <=? i) && (i <? 13) then nth (Z.to_nat i) atapi_name 0 else model x i;
     lba28_sectors := lba28_sectors x; lba48_sectors := lba48_sectors x |}.

(** [ata_identify] on the record of the drive. *)
Definition ata_identify (chan sel : Z) (x : ata_drive) d : ata_drive * D :=
  let base := ata_base chan in
  let ctrl := ata_ctrl chan in
  let x := set_absent x in
  let d := ata_delay ctrl (outb (base + ATA_DRIVE_SEL) (if sel =? 0 then 0xA0 else 0xB0) d) in
  let d := ata_delay ctrl (outb (base + ATA_CMD) ATA_CMD_IDENTIFY d) in
  let '(st, d) := inb (base + ATA_STATUS) d in
  if st =? 0 then (x, d)
  else
    let '(ready, d) := ata_wait_not_busy base 5000 d in
    if negb ready then (x, d)
    else
      let '(st, d) := inb (base + ATA_STATUS) d in
      if negb (Z.land st ATA_SR_ERR =? 0) then
        let '(mid, d) := inb (base + ATA_LBA_MID) d in
        let '(hi, d) := inb (base + ATA_LBA_HI) d in
        if (mid =? 0x14) && (hi =? 0xEB) then (set_atapi x, d) else (x, d)
      else
        let '(r, d) := ata_wait_drq base 5000 d in
        if r =? 0 then (x, d)
        else let '(ident, d) := read_words 256 base d in (ident_drive ident x, d).

(** *** Reading and writing *)

(** The registers of a 28-bit command. *)
Definition ata_command (chan sel lba count cmd : Z) d : D :=
  let base := ata_base chan in
  let d := outb (base + ATA_DRIVE_SEL) (u8 (Z.lor (Z.lor 0xE0 (Z.shiftl sel 4)) (Z.land (Z.shiftr lba 24) 0x0F))) d in
  let d := outb (base + ATA_SECT_CNT) count d in
  let d := outb (base + ATA_LBA_LO) (u8 (Z.land lba 0xFF)) d in
  let d := outb (base + ATA_LBA_MID) (u8 (Z.land (Z.shiftr lba 8) 0xFF)) d in
  let d := outb (base + ATA_LBA_HI) (u8 (Z.land (Z.shiftr lba 16) 0xFF)) d in
  let d := outb (base + ATA_CMD) cmd d in
  ata_delay (ata_ctrl chan) d.

(** The 256 words stored from [p] on. *)
Fixpoint store_words (m : mem) (p : Z) (l : list Z) : mem :=
  match l with [] => m | w :: l' => store_words (store_le 2 m p w) (p + 2) l' end.

Fixpoint read_sectors (n : nat) (s base buf : Z) d (m : mem) : Z * D * mem :=
  match n with
  | O => (0, d, m)
  | S n' =>
      let '(ready, d) := ata_wait_not_busy base 5000 d in
      if negb ready then (-1, d, m)
      else
        let '(r, d) := ata_wait_drq base 5000 d in
        if r <? 0 then (-1, d, m)
        else if r =? 0 then (-1, d, m)
        else
          let '(l, d) := read_words 256 base d in
          read_sectors n' (s + 1) base buf d (store_words m (buf + s * 512) l)
  end.

Definition ata_do_read (chan sel lba count buf : Z) d (m : mem) : Z * D * mem :=
  let base := ata_base chan in
  let '(ready, d) := ata_wait_not_busy base 5000 d in
  if negb ready then (-1, d, m)
  else read_sectors (Z.to_nat count) 0 base buf (ata_command chan sel lba count ATA_CMD_READ28 d) m.

(** The next [n] words from [p] on, written to the data port. *)
Fixpoint write_words (n : nat) (base p : Z) (m : mem) d : D :=
  match n with O => d | S n' => write_words n' base (p + 2) m (outw base (load_le 2 m p) d) end.

Fixpoint write_sectors (n : nat) (s base buf : Z) (m : mem) d : Z * D :=
  match n with
  | O => (0, d)
  | S n' =>
      let '(ready, d) := ata_wait_not_busy base 5000 d in
      if negb ready then (-1, d)
      else
        let '(r, d) := ata_wait_drq base 5000 d in
        if r <=? 0 then (-1, d) else write_sectors n' (s + 1) base buf m (write_words 256 base (buf + s * 512) m d)
  end.

Definition ata_do_write (chan sel lba count buf : Z) (m : mem) d : Z * D :=
  let base := ata_base chan in
  let '(ready, d) := ata_wait_not_busy base 5000 d in
  if negb ready then (-1, d)
  else
    let '(r, d) := write_sectors (Z.to_nat count) 0 base buf m (ata_command chan sel lba count ATA_CMD_WRITE28 d) in
    if negb (r =? 0) then (r, d)
    else
      let d := outb (base + ATA_CMD) ATA_CMD_CACHE_FLUSH d in
      (0, snd (ata_wait_not_busy base 5000 d)).

(** The loops of the block device functions; each round moves at least one sector. *)
Fixpoint blk_read_loop (fuel : nat) (chan sel lba count b : Z) d (m : mem) : option (Z * D * mem) :=
  match fuel with
  | O => None
  | S f =>
      if count =? 0 then Some (0, d, m)
      else
        let n := if 255 <? count then 255 else u8 count in
        let '(r, d, m) := ata_do_read chan sel (u32 lba) n b d m in
        if negb (r =? 0) then Some (-1, d, m) else blk_read_loop f chan sel (u64 (lba + n)) (count - n) (b + n * 512) d m
  end.

Definition ata_blk_read (private lba count buf : Z) d (m : mem) : option (Z * D * mem) :=
  let drive := i32 private in
  blk_read_loop (S (Z.to_nat count)) (Z.quot drive 2) (Z.rem drive 2) lba count buf d m.

Fixpoint blk_write_loop (fuel : nat) (chan sel lba count b : Z) (m : mem) d : option (Z * D) :=
  match fuel with
  | O => None
  | S f =>
      if count =? 0 then Some (0, d)
      else
        let n := if 255 <? count then 255 else u8 count in
        let '(r, d) := ata_do_write chan sel (u32 lba) n b m d in
        if negb (r =? 0) then Some (-1, d) else blk_write_loop f chan sel (u64 (lba + n)) (count - n) (b + n * 512) m d
  end.

Definition ata_blk_write (private lba count buf : Z) (m : mem) d : option (Z * D) :=
  let drive := i32 private in
  blk_write_loop (S (Z.to_nat count)) (Z.quot drive 2) (Z.rem drive 2) lba count buf m d.

Definition ata_read_sectors (drive lba count buf : Z) (drives : Z → ata_drive) d (m : mem) : Z * D * mem :=
  if (drive <? 0) || (ATA_MAX_DRIVES <=? drive) || negb (present (drives drive)) then (-1, d, m)
  else ata_do_read (drive / 2) (drive mod 2) lba count buf d m.

Definition ata_write_sectors (drive lba count buf : Z) (drives : Z → ata_drive) (m : mem) d : Z * D :=
  if (drive <? 0) || (ATA_MAX_DRIVES <=? drive) || negb (present (drives drive)) then (-1, d)
  else ata_do_write (drive / 2) (drive mod 2) lba count buf m d.

(** *** Initialisation *)

(** The name of a drive in 16 bytes: ata0 to ata3. *)
Definition ata_blkdev_name (idx : Z) : list Z := [97; 116; 97; 48 + idx].

(** The address the linker gives to [ata_blkdevs]. *)
Context (ata_blkdevs : Z).

Definition ata_blkdev (idx : Z) (x : ata_drive) : block_device :=
  {| bd_name := ata_blkdev_name idx;
     bd_sector_count := if lba48 x then lba48_sectors x else lba28_sectors x;
     bd_sector_size := 512; bd_read_only := false; bd_private := idx; bd_ops := Blk_ata |}.

(** One round of the two loops: identify drive [idx] and register it. *)
Definition ata_probe (idx : Z) (s : ata_state D) : option (ata_state D) :=
  let '(x, d) := ata_identify (idx / 2) (idx mod 2) (ata_drives s idx) (at_dev s) in
  let drives := upd (ata_drives s) idx x in
  if present x && negb (is_atapi x) then
    let bd := ata_blkdevs + idx * BLOCK_DEVICE_SIZE in
    let blk := {| bd_store := <[bd := ata_blkdev idx x]> (bd_store (at_blk s)); blkdevs := blkdevs (at_blk s);
                  blkdev_cnt := blkdev_cnt (at_blk s) |} in
    '(_, blk) ← blkdev_register bd blk;
    Some {| at_dev := d; ata_drives := drives; at_blk := blk |}
  else Some {| at_dev := d; ata_drives := drives; at_blk := at_blk s |}.

Definition ata_init (s : ata_state D) : option (ata_state D) :=
  let s := {| at_dev := at_dev s; ata_drives := λ _, no_drive; at_blk := at_blk s |} in
  foldl (λ os idx, s ← os; ata_probe idx s) (Some s) [0; 1; 2; 3].
End driver.
