(* ===== verification/AtaDisk.v ===== *)
(** A reference ATA channel in PIO mode with 28-bit addresses, as the ATA standard
    describes a drive that reports no errors, and the interface by which the driver
    of Ata.v sees a device that behaves like it.  After a command and after each
    sector the drive is busy for [lat] reads of its status. *)
From stdpp Require Import prelude gmap.
From S2P Require Import Prelude CString Ports Ata.

(** Delivering words, or taking the sectors from [lba] on, [n] of them after the
    one whose words so far are [got]. *)
Inductive phase := Idle | Sending (l : list Z) | Taking (drv lba : Z) (n : nat) (got : list Z).

(** [dk_data drv lba] are the 256 words of a sector. *)
Record disk := { dk_regs : Z → Z; dk_data : Z → Z → list Z; dk_phase : phase; dk_busy : nat }.

Definition with_phase (p : phase) (b : nat) (k : disk) : disk :=
  {| dk_regs := dk_regs k; dk_data := dk_data k; dk_phase := p; dk_busy := b |}.
Definition with_reg (r v : Z) (k : disk) : disk :=
  {| dk_regs := upd (dk_regs k) r v; dk_data := dk_data k; dk_phase := dk_phase k; dk_busy := dk_busy k |}.
Definition with_sector (drv lba : Z) (l : list Z) (k : disk) : disk :=
  {| dk_regs := dk_regs k; dk_data := λ x s, if (x =? drv) && (s =? lba) then l else dk_data k x s;
     dk_phase := dk_phase k; dk_busy := dk_busy k |}.

(** The drive, the address and the number of sectors in the registers. *)
Definition sel_drive (k : disk) : Z := dk_regs k 6 / 16 mod 2.
Definition sel_lba (k : disk) : Z := dk_regs k 3 + 2 ^ 8 * dk_regs k 4 + 2 ^ 16 * dk_regs k 5 + 2 ^ 24 * (dk_regs k 6 mod 16).
Definition sel_count (k : disk) : Z := if dk_regs k 2 =? 0 then 256 else dk_regs k 2.

Definition sectors (k : disk) (drv lba n : Z) : list Z := concat (dk_data k drv <$> seqZ lba n).

(** What is left to deliver. *)
Definition rest (l : list Z) : phase := match l with [] => Idle | _ => Sending l end.

Definition status (k : disk) : Z :=
  match dk_busy k with S _ => 0x80 | O => match dk_phase k with Idle => 0x40 | _ => 0x48 end end.

Section channel.
Context (base : Z) (lat : nat).

Definition disk_in (p : Z) (k : disk) : Z * disk :=
  if p =? base + 7 then (status k, with_phase (dk_phase k) (pred (dk_busy k)) k)
  else if p =? base then
    match dk_phase k with
    | Sending (w :: l) =>
        (w, with_phase (rest l)
              (if decide (length l mod 256 = 0)%nat then lat else dk_busy k) k)
    | _ => (0, k)
    end
  else if (base + 2 <=? p) && (p <=? base + 6) then (dk_regs k (p - base), k)
  else (0, k).

Definition disk_out (p v : Z) (k : disk) : disk :=
  if p =? base + 7 then
    if v =? ATA_CMD_READ28 then with_phase (Sending (sectors k (sel_drive k) (sel_lba k) (sel_count k))) lat k
    else if v =? ATA_CMD_WRITE28 then with_phase (Taking (sel_drive k) (sel_lba k) (Z.to_nat (sel_count k) - 1) []) lat k
    else with_phase Idle lat k
  else if p =? base then
    match dk_phase k with
    | Taking drv lba n got =>
        if decide (length got = 255)%nat then
          with_sector drv lba (got ++ [v])
            (with_phase (match n with O => Idle | S n' => Taking drv (lba + 1) n' [] end) lat k)
        else with_phase (Taking drv lba n (got ++ [v])) (dk_busy k) k
    | _ => k
    end
  else if (base + 2 <=? p) && (p <=? base + 6) then with_reg (p - base) v k
  else k.
End channel.

(** A device whose ports of the channel behave as the reference. *)
Class AtaChannel (D : Type) `{PortIO D} (chan : Z) := {
  ac_lat : nat;
  ac_lat_bound : Z.of_nat ac_lat < 50000000;
  ac_view : D → disk;
  ac_in : ∀ w p d, w = W16 ∧ p = ata_base chan ∨ w = W8 ∧ (p = ata_ctrl chan ∨ ata_base chan + 1 ≤ p ≤ ata_base chan + 7) →
    fst (port_in w p d) = fst (disk_in (ata_base chan) ac_lat p (ac_view d))
    ∧ ac_view (snd (port_in w p d)) = snd (disk_in (ata_base chan) ac_lat p (ac_view d));
  ac_out : ∀ w p v d, w = W16 ∧ p = ata_base chan ∨ w = W8 ∧ ata_base chan + 1 ≤ p ≤ ata_base chan + 7 →
    ac_view (port_out w p v d) = disk_out (ata_base chan) ac_lat p v (ac_view d);
}.

(** ** What the waits and transfers do *)

Definition words_bytes (l : list Z) : list Z := l ≫= λ w, [u8 w; u8 (w / 256)].

Lemma store_words_list m p l : store_words m p l = store_list m p (words_bytes l).
Proof.
  revert m p. induction l as [|w l IH]; intros m p; [done|]. cbn [store_words words_bytes mbind list_bind app store_list].
  rewrite IH. cbn [store_le]. by replace (p + 2) with (p + 1 + 1) by lia.
Qed.

Lemma words_bytes_app l1 l2 : words_bytes (l1 ++ l2) = words_bytes l1 ++ words_bytes l2.
Proof. apply bind_app. Qed.

Lemma words_bytes_length l : length (words_bytes l) = (2 * length l)%nat.
Proof. induction l as [|w l IH]; [done|]. cbn [words_bytes mbind list_bind app length]. unfold words_bytes in IH. rewrite IH. lia. Qed.

Lemma store_list_app m p l1 l2 : store_list (store_list m p l1) (p + Z.of_nat (length l1)) l2 = store_list m p (l1 ++ l2).
Proof.
  revert m p. induction l1 as [|x l1 IH]; intros m p; cbn [store_list app length]; [by rewrite Z.add_0_r|].
  rewrite <-IH. f_equal. lia.
Qed.

Lemma disk_eta k : with_phase (dk_phase k) (dk_busy k) k = k.
Proof. by destruct k. Qed.

Section transfers.
Context {D : Type} (chan : Z) `{AtaChannel D chan}.
Implicit Types (d : D).
Abbreviation base := (ata_base chan).
Abbreviation view := (ac_view (chan := chan)).

Lemma view_inb p d v : (p = ata_ctrl chan ∨ base + 1 ≤ p ≤ base + 7) → fst (disk_in base ac_lat p (view d)) = v →
  ∃ d', inb p d = (u8 v, d') ∧ view d' = snd (disk_in base ac_lat p (view d)).
Proof.
  intros Hp Hv. destruct (ac_in W8 p d ltac:(by right)) as [E1 E2]. unfold inb. destruct (port_in W8 p d) as [x d']. cbn [fst snd] in *.
  exists d'. by rewrite E1, Hv.
Qed.

Lemma view_inw d v : fst (disk_in base ac_lat base (view d)) = v →
  ∃ d', inw base d = (u16 v, d') ∧ view d' = snd (disk_in base ac_lat base (view d)).
Proof.
  intros Hv. destruct (ac_in W16 base d) as [E1 E2]; [by left|]. unfold inw. destruct (port_in W16 base d) as [x d']. cbn [fst snd] in *.
  exists d'. by rewrite E1, Hv.
Qed.

Lemma ctrl_port : ata_ctrl chan ≠ base + 7 ∧ ata_ctrl chan ≠ base
  ∧ (base + 2 <=? ata_ctrl chan) && (ata_ctrl chan <=? base + 6) = false.
Proof. unfold ata_ctrl, ata_base. by destruct (chan =? 0). Qed.

Lemma view_ctrl d : view (snd (inb (ata_ctrl chan) d)) = view d.
Proof.
  destruct (view_inb (ata_ctrl chan) d _ ltac:(by left) eq_refl) as (d' & -> & E). cbn [snd]. rewrite E.
  destruct ctrl_port as (H1 & H2 & H3). unfold disk_in. by rewrite (proj2 (Z.eqb_neq _ _) H1), (proj2 (Z.eqb_neq _ _) H2), H3.
Qed.

Lemma view_delay d : view (ata_delay (ata_ctrl chan) d) = view d.
Proof. unfold ata_delay. by rewrite !view_ctrl. Qed.

Lemma view_status d :
  ∃ d', inb (base + ATA_STATUS) d = (status (view d), d') ∧ view d' = with_phase (dk_phase (view d)) (pred (dk_busy (view d))) (view d).
Proof.
  destruct (view_inb (base + ATA_STATUS) d (status (view d))) as (d' & E & Ev).
  - right. unfold ATA_STATUS. lia.
  - unfold disk_in. by rewrite Z.eqb_refl.
  - exists d'. rewrite E, Ev. unfold disk_in. rewrite Z.eqb_refl. split; [|done]. f_equal. unfold status.
    destruct (dk_busy (view d)); [destruct (dk_phase (view d))|]; reflexivity.
Qed.

Lemma busy_loop_view n d : (dk_busy (view d) < n)%nat →
  ∃ d', busy_loop n base d = (true, d') ∧ view d' = with_phase (dk_phase (view d)) 0 (view d).
Proof.
  revert d. induction n as [|n IH]; intros d Hn; [lia|]. cbn [busy_loop].
  destruct (view_status d) as (d1 & -> & Ev). unfold status at 1. destruct (dk_busy (view d)) as [|b] eqn:Eb.
  - exists d1. split; [by destruct (dk_phase (view d))|exact Ev].
  - change (Z.land 0x80 ATA_SR_BSY =? 0) with false. cbv iota. cbn [pred] in Ev.
    destruct (IH d1) as (d' & -> & E); [rewrite Ev; cbn [with_phase dk_busy]; lia|].
    exists d'. split; [done|]. rewrite E, Ev. done.
Qed.

Lemma wait_not_busy_view d : (dk_busy (view d) ≤ ac_lat)%nat →
  ∃ d', ata_wait_not_busy base 5000 d = (true, d') ∧ view d' = with_phase (dk_phase (view d)) 0 (view d).
Proof.
  intros Hb. apply busy_loop_view. pose proof (ac_lat_bound (chan := chan)) as Hl.
  change (u32 (5000 * 10000)) with 50000000. lia.
Qed.

Lemma wait_drq_view d : dk_busy (view d) = 0%nat → dk_phase (view d) ≠ Idle →
  ∃ d', ata_wait_drq base 5000 d = (1, d') ∧ view d' = view d.
Proof.
  intros Hb Hp. unfold ata_wait_drq. destruct (Z.to_nat (u32 (5000 * 10000))) as [|n] eqn:En.
  { apply (f_equal Z.of_nat) in En. rewrite Z2Nat.id in En by done. by vm_compute in En. }
  clear En. cbn [drq_loop]. destruct (view_status d) as (d1 & -> & Ev). exists d1. rewrite Ev, Hb. cbn [pred].
  split; [|rewrite <-(disk_eta (view d)) at 3; by rewrite Hb]. unfold status. rewrite Hb. by destruct (dk_phase (view d)).
Qed.

(** *** Commands *)

Lemma view_reg r v d : 2 ≤ r ≤ 6 → view (outb (base + r) v d) = with_reg r (u8 v) (view d).
Proof.
  intros Hr. unfold outb. rewrite ac_out by (right; split; [done|lia]). unfold disk_out.
  rewrite (proj2 (Z.eqb_neq (base + r) (base + 7))), (proj2 (Z.eqb_neq (base + r) base)) by lia.
  rewrite (proj2 (Z.leb_le (base + 2) (base + r))), (proj2 (Z.leb_le (base + r) (base + 6))) by lia.
  cbn [andb]. f_equal. lia.
Qed.

Definition loaded (sel lba count : Z) (k : disk) : disk :=
  with_reg 5 (lba / 2 ^ 16 mod 256) (with_reg 4 (lba / 2 ^ 8 mod 256) (with_reg 3 (lba mod 256)
    (with_reg 2 count (with_reg 6 (0xE0 + 16 * sel + lba / 2 ^ 24 mod 16) k)))).

(** The byte of the drive register. *)
Lemma drive_byte sel x : sel = 0 ∨ sel = 1 → 0 ≤ x < 16 → Z.lor (Z.lor 0xE0 (Z.shiftl sel 4)) x = 0xE0 + 16 * sel + x.
Proof.
  intros Hs Hx. assert (x ∈ seqZ 0 16) as Hin by (apply elem_of_seqZ; lia). revert Hin. change (seqZ 0 16) with [0;1;2;3;4;5;6;7;8;9;10;11;12;13;14;15].
  rewrite !elem_of_cons, elem_of_nil. intros Hin. destruct Hs as [-> | ->]; destruct_or! Hin; subst; done.
Qed.

Lemma view_command sel lba count cmd d :
  sel = 0 ∨ sel = 1 → 0 ≤ lba → 0 ≤ count < 256 → 0 ≤ cmd < 256 →
  view (ata_command chan sel lba count cmd d) = disk_out base ac_lat (base + 7) cmd (loaded sel lba count (view d)).
Proof.
  intros Hs Hl Hc Hm. unfold ata_command. rewrite view_delay. unfold ATA_CMD, ATA_LBA_HI, ATA_LBA_MID, ATA_LBA_LO, ATA_SECT_CNT, ATA_DRIVE_SEL.
  unfold outb at 1. rewrite ac_out by (right; split; [done|lia]). rewrite (u8_small cmd) by lia. rewrite !view_reg by lia. unfold loaded.
  change 0xFF with (Z.ones 8). change 0x0F with (Z.ones 4). rewrite !Z.land_ones, !Z.shiftr_div_pow2 by lia.
  pose proof (Z.mod_pos_bound (lba / 2 ^ 24) (2 ^ 4) ltac:(lia)) as H4.
  rewrite drive_byte by (done || lia). rewrite (u8_small count) by lia.
  assert (∀ x, u8 (u8 (x mod 2 ^ 8)) = x mod 256) as Hu.
  { intros x. change (2 ^ 8) with 256. pose proof (Z.mod_pos_bound x 256 ltac:(lia)). by rewrite !(u8_small (x mod 256)) by lia. }
  rewrite !Hu. change (2 ^ 4) with 16 in *. rewrite !(u8_small (0xE0 + _ + _)) by lia. done.
Qed.

Lemma loaded_fields sel lba count k :
  sel = 0 ∨ sel = 1 → 0 ≤ lba →
  let k' := loaded sel lba count k in
  sel_drive k' = sel ∧ sel_lba k' = lba mod 2 ^ 28 ∧ sel_count k' = (if count =? 0 then 256 else count)
  ∧ dk_data k' = dk_data k ∧ dk_phase k' = dk_phase k ∧ dk_busy k' = dk_busy k.
Proof.
  intros Hs Hl k'. pose proof (Z.mod_pos_bound (lba / 2 ^ 24) 16 ltac:(lia)) as H16. split_and!; [| |done..].
  - unfold sel_drive, k', loaded. cbn [with_reg dk_regs upd Z.eqb Pos.eqb].
    destruct Hs as [-> | ->]; Z.to_euclidean_division_equations; lia.
  - unfold sel_lba, k', loaded. cbn [with_reg dk_regs upd Z.eqb Pos.eqb].
    replace ((0xE0 + 16 * sel + lba / 2 ^ 24 mod 16) mod 16) with (lba / 2 ^ 24 mod 16)
      by (destruct Hs as [-> | ->]; Z.to_euclidean_division_equations; lia).
    Z.to_euclidean_division_equations. lia.
Qed.

(** *** Reading *)

Definition words_ok (l : list Z) : Prop := Forall (λ w, 0 ≤ w < 2 ^ 16) l.
Definition sector_ok (l : list Z) : Prop := length l = 256%nat ∧ words_ok l.

Lemma read_words_view l1 l2 d :
  dk_phase (view d) = rest (l1 ++ l2) → (dk_busy (view d) ≤ ac_lat)%nat → words_ok l1 →
  ∃ d' b, read_words (length l1) base d = (l1, d') ∧ view d' = with_phase (rest l2) b (view d) ∧ (b ≤ ac_lat)%nat.
Proof.
  revert d. induction l1 as [|w l1 IH]; intros d Hp Hb Hw.
  - exists d, (dk_busy (view d)). cbn [app] in Hp. split_and!; [done|by rewrite <-Hp, disk_eta|done].
  - apply Forall_cons in Hw as [Hw Hws]. cbn [app] in Hp. cbn [rest] in Hp.
    destruct (view_inw d w) as (d1 & E & Ev).
    { unfold disk_in. rewrite (proj2 (Z.eqb_neq base (base + 7))), Z.eqb_refl by lia. by rewrite Hp. }
    unfold disk_in in Ev. rewrite (proj2 (Z.eqb_neq base (base + 7))), Z.eqb_refl, Hp in Ev by lia. cbn [snd] in Ev.
    destruct (IH d1) as (d' & b & E1 & Ev1 & Hb1); [by rewrite Ev| |done|].
    { rewrite Ev. cbn [with_phase dk_busy]. by case_decide. }
    exists d', b. cbn [length read_words]. rewrite E, E1, u16_small by lia. split_and!; [done| |done].
    by rewrite Ev1, Ev.
Qed.

Lemma read_sectors_view L s buf d m :
  dk_phase (view d) = rest (concat L) → (dk_busy (view d) ≤ ac_lat)%nat → Forall sector_ok L →
  ∃ d' b, read_sectors (length L) s base buf d m = (0, d', store_list m (buf + s * 512) (words_bytes (concat L)))
    ∧ view d' = with_phase Idle b (view d) ∧ (b ≤ ac_lat)%nat.
Proof.
  revert s d m. induction L as [|l L IH]; intros s d m Hp Hb Hok.
  - exists d, (dk_busy (view d)). split_and!; [done| |done]. change Idle with (rest (concat [])). by rewrite <-Hp, disk_eta.
  - apply Forall_cons in Hok as [[Hlen Hw] Hok]. cbn [concat] in Hp. cbn [length read_sectors].
    destruct (wait_not_busy_view d Hb) as (d1 & -> & E1). cbn [negb].
    destruct (wait_drq_view d1) as (d2 & -> & E2).
    { by rewrite E1. }
    { rewrite E1. cbn [with_phase dk_phase]. rewrite Hp. by destruct l. }
    change (1 <? 0) with false. change (1 =? 0) with false. cbv iota.
    destruct (read_words_view l (concat L) d2) as (d3 & b & E3 & Ev & Hb3); [by rewrite E2, E1|rewrite E2, E1; apply Nat.le_0_l|done|].
    rewrite Hlen in E3. rewrite E3. destruct (IH (s + 1) d3 (store_words m (buf + s * 512) l)) as (d' & b' & -> & Ev' & Hb');
      [by rewrite Ev|rewrite Ev; exact Hb3|done|].
    exists d', b'. split_and!; [|by rewrite Ev', Ev, E2, E1|done]. f_equal. cbn [concat]. rewrite words_bytes_app.
    rewrite <-store_list_app, store_words_list. f_equal. rewrite words_bytes_length, Hlen. lia.
Qed.

(** [ata_do_read] of at least one sector inside the 28-bit range. *)
Lemma do_read_view sel lba count buf d m :
  sel = 0 ∨ sel = 1 → 0 ≤ lba → 1 ≤ count ≤ 255 → (dk_busy (view d) ≤ ac_lat)%nat →
  (∀ x, sector_ok (dk_data (view d) sel x)) →
  ∃ d', ata_do_read chan sel lba count buf d m
      = (0, d', store_list m buf (words_bytes (sectors (view d) sel (lba mod 2 ^ 28) count)))
    ∧ dk_data (view d') = dk_data (view d) ∧ dk_phase (view d') = Idle ∧ (dk_busy (view d') ≤ ac_lat)%nat.
Proof.
  intros Hs Hl Hc Hb Hok. unfold ata_do_read. destruct (wait_not_busy_view d Hb) as (d1 & -> & E1). cbn [negb].
  set (d2 := ata_command chan sel lba count ATA_CMD_READ28 d1).
  assert (view d2 = with_phase (Sending (sectors (view d) sel (lba mod 2 ^ 28) count)) ac_lat (loaded sel lba count (view d1))) as E2.
  { unfold d2. rewrite view_command by (done || lia). unfold disk_out. rewrite Z.eqb_refl. cbn [ATA_CMD_READ28 Z.eqb Pos.eqb].
    destruct (loaded_fields sel lba count (view d1) Hs Hl) as (F1 & F2 & F3 & F4 & _ & _).
    rewrite F1, F2, F3, (proj2 (Z.eqb_neq count 0)) by lia. unfold sectors. rewrite F4, E1. done. }
  clearbody d2. set (L := dk_data (view d) sel <$> seqZ (lba mod 2 ^ 28) count) in *.
  assert (length L = Z.to_nat count) as HL by (unfold L; by rewrite length_fmap, length_seqZ).
  assert (Forall sector_ok L) as HLok by (unfold L; apply Forall_fmap, Forall_true; intros x; apply Hok).
  destruct (read_sectors_view L 0 buf d2 m) as (d' & b & E3 & Ev & Hb3).
  - rewrite E2. cbn [with_phase dk_phase]. unfold sectors. fold L.
    destruct L as [|l L']; [cbn in HL; lia|]. apply Forall_cons in HLok as [[Hl' _] _]. by destruct l.
  - by rewrite E2.
  - done.
  - rewrite <-HL, E3. exists d'. rewrite Ev, E2. unfold sectors. fold L. rewrite Z.add_0_r.
    split_and!; [done| |done|done]. cbn [with_phase dk_data]. by rewrite E1.
Qed.

(** *** Writing *)

Fixpoint mem_words (n : nat) (m : mem) (p : Z) : list Z :=
  match n with O => [] | S n' => u16 (load_le 2 m p) :: mem_words n' m (p + 2) end.

Lemma write_words_view n drv lba k got p m d :
  dk_phase (view d) = Taking drv lba k got → (length got + S n = 256)%nat →
  view (write_words (S n) base p m d)
  = with_sector drv lba (got ++ mem_words (S n) m p)
      (with_phase (match k with O => Idle | S k' => Taking drv (lba + 1) k' [] end) ac_lat (view d)).
Proof.
  revert got p d. induction n as [|n IH]; intros got p d Hp Hl.
  - cbn [write_words mem_words]. unfold outw. rewrite ac_out by (by left). unfold disk_out.
    rewrite (proj2 (Z.eqb_neq base (base + 7))), Z.eqb_refl, Hp by lia. by rewrite decide_True by lia.
  - change (write_words (S (S n)) base p m d) with (write_words (S n) base (p + 2) m (outw base (load_le 2 m p) d)).
    set (d1 := outw base (load_le 2 m p) d).
    assert (view d1 = with_phase (Taking drv lba k (got ++ [u16 (load_le 2 m p)])) (dk_busy (view d)) (view d)) as E1.
    { unfold d1, outw. rewrite ac_out by (by left). unfold disk_out.
      rewrite (proj2 (Z.eqb_neq base (base + 7))), Z.eqb_refl, Hp by lia. by rewrite decide_False by lia. }
    clearbody d1. rewrite (IH (got ++ [u16 (load_le 2 m p)])); [|by rewrite E1|rewrite length_app; cbn; lia].
    rewrite E1, <-app_assoc. done.
Qed.

Lemma write_sectors_S n s b buf m d :
  write_sectors (S n) s b buf m d
  = (let '(ready, d) := ata_wait_not_busy b 5000 d in
     if negb ready then (-1, d)
     else let '(r, d) := ata_wait_drq b 5000 d in
          if r <=? 0 then (-1, d) else write_sectors n (s + 1) b buf m (write_words 256 b (buf + s * 512) m d)).
Proof. done. Qed.

Lemma write_sectors_view n drv lba s buf m d :
  dk_phase (view d) = Taking drv lba n [] → (dk_busy (view d) ≤ ac_lat)%nat →
  ∃ d', write_sectors (S n) s base buf m d = (0, d') ∧ dk_phase (view d') = Idle ∧ (dk_busy (view d') ≤ ac_lat)%nat
    ∧ ∀ x y, dk_data (view d') x y = if decide (x = drv ∧ lba ≤ y < lba + Z.of_nat (S n))
                                     then mem_words 256 m (buf + (s + (y - lba)) * 512) else dk_data (view d) x y.
Proof.
  revert lba s d. induction n as [|n IH]; intros lba s d Hp Hb.
  all: destruct (wait_not_busy_view d Hb) as (d1 & E1 & V1); destruct (wait_drq_view d1) as (d2 & E2 & V2);
    [by rewrite V1|rewrite V1; cbn [with_phase dk_phase]; by rewrite Hp|].
  all: assert (dk_phase (view d2) = Taking drv lba _ []) as Hp2 by (rewrite V2, V1; exact Hp).
  all: pose proof (write_words_view 255 drv lba _ [] (buf + s * 512) m d2 Hp2 eq_refl) as Hw.
  all: set (d3 := write_words 256 base (buf + s * 512) m d2) in *; cbn [app] in Hw.
  - exists d3. cbn [write_sectors]. rewrite E1. cbn [negb]. rewrite E2. change (1 <=? 0) with false. cbv iota. fold d3.
    rewrite Hw. split_and!; [done|done|done|]. intros x y. cbn [with_sector with_phase dk_data].
    rewrite V2, V1. cbn [with_phase dk_data].
    case_decide as Hc; destruct (Z.eqb_spec x drv), (Z.eqb_spec y lba); cbn [andb]; try (exfalso; lia); try done.
    subst. by rewrite Z.sub_diag, Z.add_0_r.
  - destruct (IH (lba + 1) (s + 1) d3) as (d' & E & Hi & Hbb & Hd); [by rewrite Hw|by rewrite Hw|].
    exists d'. rewrite write_sectors_S.
    rewrite E1. cbn [negb]. rewrite E2. change (1 <=? 0) with false. cbv iota. fold d3. rewrite E.
    split_and!; [done|done|done|]. intros x y. rewrite Hd, Hw. cbn [with_sector with_phase dk_data].
    rewrite V2, V1. cbn [with_phase dk_data].
    repeat case_decide; destruct (Z.eqb_spec x drv), (Z.eqb_spec y lba); cbn [andb]; try (exfalso; lia); try done.
    + by replace (s + 1 + (y - (lba + 1))) with (s + (y - lba)) by lia.
    + subst. by rewrite Z.sub_diag, Z.add_0_r.
Qed.

Lemma do_write_view sel lba count buf m d :
  sel = 0 ∨ sel = 1 → 0 ≤ lba → 1 ≤ count ≤ 255 → (dk_busy (view d) ≤ ac_lat)%nat →
  ∃ d', ata_do_write chan sel lba count buf m d = (0, d') ∧ dk_phase (view d') = Idle ∧ (dk_busy (view d') ≤ ac_lat)%nat
    ∧ ∀ x y, dk_data (view d') x y
             = if decide (x = sel ∧ lba mod 2 ^ 28 ≤ y < lba mod 2 ^ 28 + count)
               then mem_words 256 m (buf + (y - lba mod 2 ^ 28) * 512) else dk_data (view d) x y.
Proof.
  intros Hs Hl Hc Hb. unfold ata_do_write. destruct (wait_not_busy_view d Hb) as (d1 & -> & E1). cbn [negb].
  set (d2 := ata_command chan sel lba count ATA_CMD_WRITE28 d1).
  destruct (loaded_fields sel lba count (view d1) Hs Hl) as (F1 & F2 & F3 & F4 & _ & _).
  assert (view d2 = with_phase (Taking sel (lba mod 2 ^ 28) (Z.to_nat count - 1) []) ac_lat (loaded sel lba count (view d1))) as E2.
  { unfold d2. rewrite view_command by (done || lia). unfold disk_out. rewrite Z.eqb_refl. cbn [ATA_CMD_WRITE28 ATA_CMD_READ28 Z.eqb Pos.eqb].
    by rewrite F1, F2, F3, (proj2 (Z.eqb_neq count 0)) by lia. }
  clearbody d2. destruct (write_sectors_view (Z.to_nat count - 1) sel (lba mod 2 ^ 28) 0 buf m d2) as (d3 & E3 & Hi & Hbb & Hd);
    [by rewrite E2|by rewrite E2|].
  replace (S (Z.to_nat count - 1)) with (Z.to_nat count) in E3, Hd by lia. rewrite E3. cbn [Z.eqb negb].
  assert (view (outb (base + ATA_CMD) ATA_CMD_CACHE_FLUSH d3) = with_phase Idle ac_lat (view d3)) as E4.
  { unfold outb, ATA_CMD. rewrite ac_out by (right; split; [done|lia]). unfold disk_out. by rewrite Z.eqb_refl. }
  destruct (wait_not_busy_view (outb (base + ATA_CMD) ATA_CMD_CACHE_FLUSH d3)) as (d' & -> & E5); [by rewrite E4|].
  exists d'. cbn [snd]. rewrite E5, E4. split_and!; [done|done|apply Nat.le_0_l|]. intros x y.
  cbn [with_phase dk_data]. rewrite Hd, E2. cbn [with_phase dk_data loaded with_reg]. rewrite E1, Z2Nat.id by lia. done.
Qed.
End transfers.
