(* ===== verification/AtaProps.v ===== *)
(** The block device functions of kernel/drivers/storage/ata.c on a drive that
    behaves as the ATA standard says, and on a device that never answers. *)
From stdpp Require Import prelude gmap.
From S2P Require Import Prelude CString Ports Ata AtaDisk.

(** ** Sectors and bytes *)

Lemma sectors_app k drv lba n c : 0 ≤ n → 0 ≤ c → sectors k drv lba (n + c) = sectors k drv lba n ++ sectors k drv (lba + n) c.
Proof. intros Hn Hc. unfold sectors. by rewrite seqZ_app, fmap_app, concat_app. Qed.

Lemma sectors_ext k k' drv lba n : (∀ y, lba ≤ y < lba + n → dk_data k drv y = dk_data k' drv y) → sectors k drv lba n = sectors k' drv lba n.
Proof. intros He. unfold sectors. f_equal. apply list_fmap_ext. intros i y [-> Hi]%lookup_seqZ. apply He. lia. Qed.

Lemma mem_words_length n m p : length (mem_words n m p) = n.
Proof. revert p. induction n as [|n IH]; intros p; cbn; [done|]. by rewrite IH. Qed.

Lemma mem_words_ok n m p : sector_ok (mem_words 256 m p) ∧ words_ok (mem_words n m p).
Proof.
  assert (∀ n p, words_ok (mem_words n m p)) as Hw.
  { clear. intros n. induction n as [|n IH]; intros p; constructor; [|apply IH]. unfold u16. apply Z.mod_pos_bound. lia. }
  split; [split; [apply mem_words_length|apply Hw]|apply Hw].
Qed.

(** The words read from bytes are those bytes. *)
Lemma mem_words_bytes n m p :
  (∀ a, p ≤ a < p + 2 * Z.of_nat n → 0 ≤ m a < 256) → words_bytes (mem_words n m p) = m <$> seqZ p (2 * Z.of_nat n).
Proof.
  revert p. induction n as [|n IH]; intros p Hb; [done|]. cbn [mem_words words_bytes mbind list_bind app load_le].
  fold (words_bytes (mem_words n m (p + 2))). rewrite IH by (intros a Ha; apply Hb; lia).
  replace (2 * Z.of_nat (S n)) with (Z.succ (Z.succ (2 * Z.of_nat n))) by lia.
  rewrite (seqZ_cons p), (seqZ_cons (Z.succ p)) by lia. cbn [fmap list_fmap]. rewrite Z.mul_0_r, Z.add_0_r, !Z.pred_succ.
  pose proof (Hb p ltac:(lia)). pose proof (Hb (p + 1) ltac:(lia)).
  rewrite u16_small by lia. unfold Z.succ in *. f_equal; [|f_equal; [|by replace (p + 1 + 1) with (p + 2) by lia]].
  - unfold u8. rewrite Z.mul_comm, Z.mod_add, Z.mod_small; lia.
  - rewrite (Z.mul_comm 256), Z.div_add, Z.div_small, u8_small; lia.
Qed.

Lemma sectors_length k drv lba n : 0 ≤ n → (∀ x, sector_ok (dk_data k drv x)) → Z.of_nat (length (sectors k drv lba n)) = 256 * n.
Proof.
  intros Hn Hok. unfold sectors. rewrite length_concat.
  assert (∀ l : list Z, sum_list (length <$> (dk_data k drv <$> l)) = (256 * length l)%nat) as ->.
  { intros l. induction l as [|x l IH]; [done|]. rewrite !fmap_cons. cbn [sum_list length].
    rewrite IH, (proj1 (Hok x)). unfold id. lia. }
  rewrite length_seqZ. lia.
Qed.

Section blocks.
Context {D : Type} (chan : Z) `{AtaChannel D chan}.
Implicit Types (d : D).
Abbreviation view := (ac_view (chan := chan)).

(** The size of a round of the block device loops. *)
Lemma chunk count : 0 < count → let n := if 255 <? count then 255 else u8 count in 1 ≤ n ≤ 255 ∧ n ≤ count.
Proof. intros Hc n. unfold n. destruct (Z.ltb_spec 255 count); [lia|]. rewrite u8_small; lia. Qed.

(** An idle drive with complete sectors. *)
Record drive_ok (sel : Z) d : Prop := {
  do_sel : sel = 0 ∨ sel = 1;
  do_busy : (dk_busy (view d) ≤ ac_lat)%nat;
  do_sectors : ∀ x, sector_ok (dk_data (view d) sel x);
}.

Lemma blk_read_view fuel sel lba count b d m :
  drive_ok sel d → 0 ≤ lba → 0 ≤ count → lba + count ≤ 2 ^ 28 → (Z.to_nat count < fuel)%nat →
  ∃ d', blk_read_loop fuel chan sel lba count b d m = Some (0, d', store_list m b (words_bytes (sectors (view d) sel lba count)))
    ∧ dk_data (view d') = dk_data (view d) ∧ drive_ok sel d'.
Proof.
  revert lba count b d m. induction fuel as [|f IH]; intros lba count b d m Hok Hl Hc Hr Hf; [lia|].
  cbn [blk_read_loop]. destruct (Z.eqb_spec count 0) as [->|Hne]; [exists d; by split_and!|].
  pose proof (chunk count ltac:(lia)) as Hn. set (n := if 255 <? count then 255 else u8 count) in *. clearbody n. cbv zeta in Hn.
  destruct Hok as [Hs Hb Hsec].
  destruct (do_read_view chan sel (u32 lba) n b d m Hs) as (d1 & -> & Hd & _ & Hb1); [rewrite u32_small; lia|lia|done|done|].
  rewrite u32_small, Z.mod_small, u64_small by lia. cbn [Z.eqb negb].
  set (m1 := store_list m b _).
  destruct (IH (lba + n) (count - n) (b + n * 512) d1 m1) as (d' & -> & Hd' & Hok'); [|lia..|].
  { split; [done|done|by rewrite Hd]. }
  exists d'. split_and!; [|by rewrite Hd', Hd|done]. do 2 f_equal. unfold m1.
  rewrite (sectors_ext (view d1) (view d)) by (by rewrite Hd).
  replace count with (n + (count - n)) at 2 by lia. rewrite sectors_app, words_bytes_app by lia.
  rewrite <-store_list_app. f_equal. rewrite words_bytes_length.
  pose proof (sectors_length (view d) sel lba n ltac:(lia) Hsec). lia.
Qed.

(** The sectors a write of [count] sectors from [buf] leaves. *)
Definition written (sel lba count buf : Z) (m : mem) (k k' : disk) : Prop :=
  ∀ x y, dk_data k' x y = if decide (x = sel ∧ lba ≤ y < lba + count)
                          then mem_words 256 m (buf + (y - lba) * 512) else dk_data k x y.

Lemma blk_write_view fuel sel lba count b m d :
  drive_ok sel d → 0 ≤ lba → 0 ≤ count → lba + count ≤ 2 ^ 28 → (Z.to_nat count < fuel)%nat →
  ∃ d', blk_write_loop fuel chan sel lba count b m d = Some (0, d') ∧ written sel lba count b m (view d) (view d') ∧ drive_ok sel d'.
Proof.
  revert lba count b d. induction fuel as [|f IH]; intros lba count b d Hok Hl Hc Hr Hf; [lia|].
  cbn [blk_write_loop]. destruct (Z.eqb_spec count 0) as [->|Hne].
  { exists d. split_and!; [done| |done]. intros x y. by rewrite decide_False by lia. }
  pose proof (chunk count ltac:(lia)) as Hn. set (n := if 255 <? count then 255 else u8 count) in *. clearbody n. cbv zeta in Hn.
  destruct Hok as [Hs Hb Hsec].
  destruct (do_write_view chan sel (u32 lba) n b m d Hs) as (d1 & -> & _ & Hb1 & Hd); [rewrite u32_small; lia|lia|done|].
  rewrite u32_small, Z.mod_small in Hd by lia. rewrite u64_small by lia. cbn [Z.eqb negb].
  destruct (IH (lba + n) (count - n) (b + n * 512) d1) as (d' & -> & Hw & Hok'); [|lia..|].
  { split; [done|done|]. intros x. rewrite Hd. case_decide; [|apply Hsec]. apply (mem_words_ok 0). }
  exists d'. split_and!; [done| |done]. intros x y. rewrite Hw, Hd.
  repeat case_decide; try (exfalso; lia); try done. f_equal. lia.
Qed.

Lemma blk_private sel : chan = 0 ∨ chan = 1 → sel = 0 ∨ sel = 1 →
  Z.quot (i32 (2 * chan + sel)) 2 = chan ∧ Z.rem (i32 (2 * chan + sel)) 2 = sel.
Proof. by intros [-> | ->] [-> | ->]. Qed.

Lemma sectors_bytes k sel lba c b m :
  0 ≤ c → (∀ y, lba ≤ y < lba + c → dk_data k sel y = mem_words 256 m (b + (y - lba) * 512)) →
  (∀ a, b ≤ a < b + 512 * c → 0 ≤ m a < 256) → words_bytes (sectors k sel lba c) = m <$> seqZ b (512 * c).
Proof.
  intros Hc. revert lba b. pattern c. apply natlike_ind; [done| |done]. clear c Hc. intros c Hc IH lba b Hd Hb.
  rewrite <-Z.add_1_l, sectors_app, words_bytes_app by lia. unfold sectors at 1. change (seqZ lba 1) with [lba].
  cbn [fmap list_fmap concat]. rewrite app_nil_r, Hd, Z.sub_diag, Z.mul_0_l, Z.add_0_r by lia.
  rewrite mem_words_bytes by (intros a Ha; apply Hb; lia).
  replace (512 * (1 + c)) with (512 + 512 * c) by lia. rewrite seqZ_app, fmap_app by lia. f_equal.
  apply IH; [|intros a Ha; apply Hb; lia]. intros y Hy. rewrite Hd by lia. f_equal. lia.
Qed.

(** C12: The disk keeps what is written.  On a drive that follows the standard,
    with any latency below the driver's patience, writing any number of sectors
    inside the 28-bit range and reading them back succeeds and gives the bytes of
    the written buffer, in rounds of at most 255 sectors; no other sector and no
    byte outside the target buffer changes. *)
Theorem ata_write_read_roundtrip sel lba count buf buf2 m m2 d :
  chan = 0 ∨ chan = 1 → drive_ok sel d → 0 ≤ lba → 0 ≤ count → lba + count ≤ 2 ^ 28 →
  (∀ a, buf ≤ a < buf + 512 * count → 0 ≤ m a < 256) →
  ∃ d1 d2, ata_blk_write (2 * chan + sel) lba count buf m d = Some (0, d1)
    ∧ ata_blk_read (2 * chan + sel) lba count buf2 d1 m2 = Some (0, d2, store_list m2 buf2 (m <$> seqZ buf (512 * count)))
    ∧ ∀ x y, ¬ (x = sel ∧ lba ≤ y < lba + count) → dk_data (view d2) x y = dk_data (view d) x y.
Proof.
  intros Hch Hok Hl Hc Hr Hby. pose proof (do_sel _ _ Hok) as Hs. unfold ata_blk_write, ata_blk_read. cbv zeta.
  destruct (blk_private sel Hch Hs) as [-> ->].
  destruct (blk_write_view (S (Z.to_nat count)) sel lba count buf m d Hok Hl Hc Hr) as (d1 & E1 & Hw & Hok1); [lia|].
  destruct (blk_read_view (S (Z.to_nat count)) sel lba count buf2 d1 m2 Hok1 Hl Hc Hr) as (d2 & E2 & Hd & _); [lia|].
  exists d1, d2. split_and!; [exact E1| |].
  - rewrite E2. do 3 f_equal. apply sectors_bytes; [done| |done]. intros y Hy. rewrite Hw. by rewrite decide_True by (split; [done|lia]).
  - intros x y Hne. rewrite Hd, Hw. by rewrite decide_False.
Qed.

(** Addresses above 28 bits wrap.  A drive with 48-bit addresses is registered
    with its full size, but commands carry 28 bits: reading the sector at [lba]
    delivers the sector at [lba] modulo 2^28. *)
Theorem ata_high_sector_wraps sel lba buf m d :
  chan = 0 ∨ chan = 1 → drive_ok sel d → 2 ^ 28 ≤ lba < 2 ^ 32 →
  ∃ d', ata_blk_read (2 * chan + sel) lba 1 buf d m
        = Some (0, d', store_list m buf (words_bytes (dk_data (view d) sel (lba mod 2 ^ 28)))).
Proof.
  intros Hch [Hs Hb Hsec] Hl. unfold ata_blk_read. cbv zeta. destruct (blk_private sel Hch Hs) as [-> ->].
  change (S (Z.to_nat 1)) with 2%nat. cbn [blk_read_loop]. change (1 =? 0) with false. change (255 <? 1) with false.
  change (u8 1) with 1. cbv iota.
  destruct (do_read_view chan sel (u32 lba) 1 buf d m Hs) as (d1 & -> & _); [rewrite u32_small; lia|lia|done|done|].
  exists d1. cbn [Z.eqb negb Z.sub Z.add Z.opp Pos.sub Z.pos_sub]. rewrite u32_small by lia. unfold sectors. change (seqZ (lba mod 2 ^ 28) 1) with [lba mod 2 ^ 28].
  cbn [fmap list_fmap concat]. by rewrite app_nil_r.
Qed.
End blocks.

(** ** A device that does not answer *)

Section any_device.
Context {D : Type} `{PortIO D}.
Implicit Types (d : D).

(** The status register reads busy in every state. *)
Definition stuck (base : Z) : Prop := ∀ d, Z.land (fst (inb (base + ATA_STATUS) d)) ATA_SR_BSY ≠ 0.

Lemma busy_loop_stuck n base d : stuck base → fst (busy_loop n base d) = false.
Proof.
  intros Hs. revert d. induction n as [|n IH]; intros d; [done|]. cbn [busy_loop]. specialize (Hs d).
  destruct (inb (base + ATA_STATUS) d) as [st d1]. cbn [fst] in Hs. apply Z.eqb_neq in Hs as ->. apply IH.
Qed.

Lemma blk_read_total fuel chan sel lba count b d m :
  0 ≤ count → (Z.to_nat count < fuel)%nat → is_Some (blk_read_loop fuel chan sel lba count b d m).
Proof.
  revert lba count b d m. induction fuel as [|f IH]; intros lba count b d m Hc Hf; [lia|]. cbn [blk_read_loop].
  destruct (Z.eqb_spec count 0); [done|]. pose proof (chunk count ltac:(lia)) as Hn. cbv zeta in Hn.
  destruct (ata_do_read _ _ _ _ _ _ _) as [[r d1] m1]. destruct (negb (r =? 0)); [done|]. apply IH; lia.
Qed.

Lemma blk_write_total fuel chan sel lba count b m d :
  0 ≤ count → (Z.to_nat count < fuel)%nat → is_Some (blk_write_loop fuel chan sel lba count b m d).
Proof.
  revert lba count b d. induction fuel as [|f IH]; intros lba count b d Hc Hf; [lia|]. cbn [blk_write_loop].
  destruct (Z.eqb_spec count 0); [done|]. pose proof (chunk count ltac:(lia)) as Hn. cbv zeta in Hn.
  destruct (ata_do_write _ _ _ _ _ _ _) as [r d1]. destruct (negb (r =? 0)); [done|]. apply IH; lia.
Qed.

(** C23: The driver does not hang.  Whatever the device answers, the block device
    functions terminate; and when its status always reads busy they answer -1 for
    any non-empty request and leave the memory alone. *)
Theorem ata_terminates private lba count buf m d :
  0 ≤ count →
  (is_Some (ata_blk_read private lba count buf d m) ∧ is_Some (ata_blk_write private lba count buf m d))
  ∧ (0 < count → stuck (ata_base (Z.quot (i32 private) 2)) →
     ∃ d1 d2, ata_blk_read private lba count buf d m = Some (-1, d1, m) ∧ ata_blk_write private lba count buf m d = Some (-1, d2)).
Proof.
  intros Hc. split; [split; [apply blk_read_total|apply blk_write_total]; lia|]. intros Hpos Hst.
  unfold ata_blk_read, ata_blk_write. cbv zeta. cbn [blk_read_loop blk_write_loop].
  rewrite (proj2 (Z.eqb_neq count 0)) by lia. unfold ata_do_read, ata_do_write, ata_wait_not_busy.
  set (n := Z.to_nat (u32 (5000 * 10000))). clearbody n.
  pose proof (busy_loop_stuck n _ d Hst) as Hb. destruct (busy_loop n _ d) as [r d1]. cbn [fst] in Hb. rewrite Hb.
  by exists d1, d1.
Qed.
End any_device.

(** ** Samples *)

(** The reference channel itself, busy for three status reads at a time. *)
#[export] Instance disk_ports : PortIO disk := {| port_in _ := disk_in (ata_base 0) 3; port_out _ := disk_out (ata_base 0) 3 |}.

#[export] Instance disk_channel : AtaChannel disk 0.
Proof. refine {| ac_lat := 3; ac_view := id; ac_lat_bound := _; ac_in := _; ac_out := _ |}; [done|by split|done]. Defined.

Definition sample_disk : disk :=
  {| dk_regs := λ _, 0; dk_data := λ _ s, replicate 256 (s mod 2 ^ 16); dk_phase := Idle; dk_busy := 0 |}.

Lemma sample_drive_ok : drive_ok 0 1 sample_disk.
Proof.
  split; [by right|apply Nat.le_0_l|]. intros x. split; [done|]. apply Forall_replicate. apply Z.mod_pos_bound. lia.
Qed.

Lemma ata_write_read_roundtrip_witness :
  ∃ d1 d2 : disk, ata_blk_write 1 5 300 0x1000 (λ a, a mod 256) sample_disk = Some (0, d1)
    ∧ ata_blk_read 1 5 300 0x90000 d1 (λ _, 0)
      = Some (0, d2, store_list (λ _, 0) 0x90000 ((λ a, a mod 256) <$> seqZ 0x1000 (512 * 300))).
Proof.
  destruct (ata_write_read_roundtrip 0 1 5 300 0x1000 0x90000 (λ a, a mod 256) (λ _, 0) sample_disk)
    as (d1 & d2 & E1 & E2 & _); [by left|exact sample_drive_ok|lia|lia|lia| |].
  - intros a _. apply Z.mod_pos_bound. lia.
  - exists d1, d2. split; [exact E1|exact E2].
Defined.

Lemma ata_high_sector_wraps_witness :
  ∃ d' : disk, ata_blk_read 1 (2 ^ 28 + 7) 1 0x1000 sample_disk (λ _, 0)
    = Some (0, d', store_list (λ _, 0) 0x1000 (words_bytes (replicate 256 7))).
Proof.
  destruct (ata_high_sector_wraps 0 1 (2 ^ 28 + 7) 0x1000 (λ _, 0) sample_disk) as (d' & E);
    [by left|exact sample_drive_ok|lia|]. exists d'. exact E.
Defined.

(** A port that always reads busy. *)
Definition busy_port : PortIO unit := {| port_in _ _ d := (0x80, d); port_out _ _ _ d := d |}.

Lemma ata_terminates_witness :
  ata_blk_read (H := busy_port) 2 0 4 0x1000 tt (λ _, 0) = Some (-1, tt, λ _, 0).
Proof.
  destruct (ata_terminates (H := busy_port) 2 0 4 0x1000 (λ _, 0) tt) as [_ Hs]; [lia|].
  destruct Hs as ([] & _ & E & _); [lia| |exact E]. intros []. by vm_compute.
Defined.
