(* ===== verification/Console.v ===== *)
(** Model of text output: kernel/arch/x86_64/serial.c, kernel/drivers/vga.c and
    kernel/drivers/console.c.

    The text memory at VGA_BASE is an array of 80 * 25 cells; the serial line is
    a port device.  A string is a function from its indices, as in CString;
    [None] is a cell outside the screen, or fuel that ran out. *)
From stdpp Require Import prelude.
From Stdlib Require Import Ascii String.
From S2P Require Import Prelude CString Ports Printf.

(** The bytes of a string literal. *)
Definition bytes (s : string) : list Z := (λ a, Z.of_N (N_of_ascii a)) <$> list_ascii_of_string s.
Arguments bytes s%_string.

(** [while ( *s) f( *s++);] *)
Fixpoint puts_loop {S} (fuel : nat) (f : Z → S → option S) (s : Z → Z) (i : Z) (x : S) : option S :=
  match fuel with
  | O => None
  | Datatypes.S n => if s i =? 0 then Some x else x1 ← f (s i) x; puts_loop n f s (i + 1) x1
  end.

(** ** Serial line *)

Definition COM1 : Z := 0x3F8.

Section serial.
Context {D : Type} `{PortIO D}.
Implicit Types (d : D).

Definition serial_init d : D :=
  let d := outb (COM1 + 1) 0x00 d in
  let d := outb (COM1 + 3) 0x80 d in
  let d := outb (COM1 + 0) 0x01 d in
  let d := outb (COM1 + 1) 0x00 d in
  let d := outb (COM1 + 3) 0x03 d in
  let d := outb (COM1 + 2) 0xC7 d in
  outb (COM1 + 4) 0x0B d.

(** [while (!(inb(COM1 + 5) & 0x20));] *)
Fixpoint thr_wait (fuel : nat) d : option D :=
  match fuel with
  | O => None
  | S n => let '(st, d) := inb (COM1 + 5) d in if Z.land st 0x20 =? 0 then thr_wait n d else Some d
  end.

Definition serial_putchar (fuel : nat) (c : Z) d : option D :=
  d ← thr_wait fuel d; Some (outb COM1 (u8 c) d).

Definition serial_puts (fuel : nat) (s : Z → Z) d : option D := puts_loop fuel (serial_putchar fuel) s 0 d.

(** [buf] is the address of the local array. *)
Definition serial_printf (fuel : nat) (buf : Z) (fmt : list Z) (ap : list va_arg) (m : mem) d : option (mem * D) :=
  '(_, m) ← kvsnprintf buf 512 fmt ap m;
  d ← serial_puts fuel (at_ptr m buf) d;
  Some (m, d).
End serial.

(** ** Text screen *)

Definition VGA_COLS : Z := 80.
Definition VGA_ROWS : Z := 25.
Definition VGA_COLOR_BLACK : Z := 0.
Definition VGA_COLOR_LIGHT_GREY : Z := 7.

Record vga := { vga_buf : Z → Z; vga_color : Z; vga_row : Z; vga_col : Z }.

Definition make_entry (c color : Z) : Z := u16 (Z.lor (u8 c) (Z.shiftl (u16 color) 8)).

(** [for (i...; i++) buf[i] = e;] *)
Fixpoint fill_cells (n : nat) (i e : Z) (b : Z → Z) : option (Z → Z) :=
  match n with
  | O => Some b
  | S n => b ← aset (VGA_COLS * VGA_ROWS) b i e; fill_cells n (i + 1) e b
  end.

Definition vga_init (v : vga) : option vga :=
  let color := u8 (Z.lor VGA_COLOR_LIGHT_GREY (Z.shiftl VGA_COLOR_BLACK 4)) in
  b ← fill_cells (Z.to_nat (VGA_COLS * VGA_ROWS)) 0 (make_entry 32 color) (vga_buf v);
  Some {| vga_buf := b; vga_color := color; vga_row := 0; vga_col := 0 |}.

Definition vga_set_color (fg bg : Z) (v : vga) : vga :=
  {| vga_buf := vga_buf v; vga_color := u8 (Z.lor (u8 fg) (Z.shiftl (u8 bg) 4));
     vga_row := vga_row v; vga_col := vga_col v |}.

(** The inner loop of [vga_scroll], for row [r]. *)
Fixpoint scroll_cols (n : nat) (r c : Z) (b : Z → Z) : option (Z → Z) :=
  match n with
  | O => Some b
  | S n =>
      x ← aget (VGA_COLS * VGA_ROWS) b ((r + 1) * VGA_COLS + c);
      b ← aset (VGA_COLS * VGA_ROWS) b (r * VGA_COLS + c) x;
      scroll_cols n r (c + 1) b
  end.

Fixpoint scroll_rows (n : nat) (r : Z) (b : Z → Z) : option (Z → Z) :=
  match n with
  | O => Some b
  | S n => b ← scroll_cols (Z.to_nat VGA_COLS) r 0 b; scroll_rows n (r + 1) b
  end.

Definition vga_scroll (v : vga) : option vga :=
  b ← scroll_rows (Z.to_nat (VGA_ROWS - 1)) 0 (vga_buf v);
  b ← fill_cells (Z.to_nat VGA_COLS) ((VGA_ROWS - 1) * VGA_COLS) (make_entry 32 (vga_color v)) b;
  Some {| vga_buf := b; vga_color := vga_color v; vga_row := VGA_ROWS - 1; vga_col := vga_col v |}.

(** [vga_col = 0; if (++vga_row >= VGA_ROWS) vga_scroll();] *)
Definition vga_newline (v : vga) : option vga :=
  let v := {| vga_buf := vga_buf v; vga_color := vga_color v; vga_row := u16 (vga_row v + 1); vga_col := 0 |} in
  if VGA_ROWS <=? vga_row v then vga_scroll v else Some v.

Definition vga_putchar (c : Z) (v : vga) : option vga :=
  if c =? 10 then vga_newline v
  else if c =? 13 then
    Some {| vga_buf := vga_buf v; vga_color := vga_color v; vga_row := vga_row v; vga_col := 0 |}
  else
    b ← aset (VGA_COLS * VGA_ROWS) (vga_buf v) (vga_row v * VGA_COLS + vga_col v) (make_entry c (vga_color v));
    let v := {| vga_buf := b; vga_color := vga_color v; vga_row := vga_row v; vga_col := u16 (vga_col v + 1) |} in
    if VGA_COLS <=? vga_col v then vga_newline v else Some v.

Definition vga_puts (fuel : nat) (s : Z → Z) (v : vga) : option vga := puts_loop fuel vga_putchar s 0 v.

Definition vga_clear (v : vga) : option vga :=
  b ← fill_cells (Z.to_nat (VGA_COLS * VGA_ROWS)) 0 (make_entry 32 (vga_color v)) (vga_buf v);
  Some {| vga_buf := b; vga_color := vga_color v; vga_row := 0; vga_col := 0 |}.

(** ** Console *)

Inductive console_backend := CONSOLE_VGA | CONSOLE_FB.

Record console (D : Type) := {
  co_vga : vga;
  co_dev : D;
  active_backend : console_backend;
  console_ready : bool;
}.
Arguments co_vga {D} _.
Arguments co_dev {D} _.
Arguments active_backend {D} _.
Arguments console_ready {D} _.

Section console.
Context {D : Type} `{PortIO D}.
Implicit Types (k : console D).

Definition console_init (fuel : nat) k : option (console D) :=
  d ← serial_puts fuel (lit (bytes "[CONSOLE] init OK (backend=VGA)" ++ [10])) (co_dev k);
  Some {| co_vga := co_vga k; co_dev := d; active_backend := CONSOLE_VGA; console_ready := true |}.

Definition set_vga (v : vga) k : console D :=
  {| co_vga := v; co_dev := co_dev k; active_backend := active_backend k; console_ready := console_ready k |}.
Definition set_codev (d : D) k : console D :=
  {| co_vga := co_vga k; co_dev := d; active_backend := active_backend k; console_ready := console_ready k |}.

Definition console_putc (fuel : nat) (c : Z) k : option (console D) :=
  if negb (console_ready k) then Some k
  else
    v ← match active_backend k with
        | CONSOLE_VGA => vga_putchar c (co_vga k)
        | CONSOLE_FB => vga_putchar c (co_vga k)
        end;
    d ← serial_putchar fuel (u8 c) (co_dev k);
    Some (set_codev d (set_vga v k)).

(** [s = None] is the NULL pointer. *)
Definition console_write (fuel : nat) (s : option (Z → Z)) k : option (console D) :=
  match s with None => Some k | Some s => puts_loop fuel (console_putc fuel) s 0 k end.

Definition console_clear k : option (console D) :=
  if negb (console_ready k) then Some k else v ← vga_clear (co_vga k); Some (set_vga v k).

Definition console_set_color (fg bg : Z) k : console D := set_vga (vga_set_color fg bg (co_vga k)) k.

Definition framebuffer_available : bool := false.
End console.
