(* ===== verification/ConsoleProps.v ===== *)
(** Text output as an unbounded terminal of which the screen shows the end. *)
From stdpp Require Import prelude.
From S2P Require Import Prelude CString Ports Printf Console.

(** ** The serial line

    What the driver relies on: bit 5 of the line status tells that the holding
    register is empty, which it is after finitely many reads of the status, and
    with the divisor latch off a byte written to the register is sent. *)
Class Uart (D : Type) `{PortIO D} := {
  uart_sent : D → list Z;
  uart_busy : D → nat;
  uart_lcr : D → Z;
  uart_char : nat;
  uart_status d v d1 : port_in W8 (COM1 + 5) d = (v, d1) →
    uart_sent d1 = uart_sent d ∧ uart_lcr d1 = uart_lcr d ∧ uart_busy d1 = pred (uart_busy d)
    ∧ (Z.testbit v 5 = true ↔ uart_busy d = O);
  uart_send d c : uart_busy d = O → Z.testbit (uart_lcr d) 7 = false → 0 ≤ c < 256 →
    uart_sent (port_out W8 COM1 c d) = uart_sent d ++ [c] ∧ uart_lcr (port_out W8 COM1 c d) = uart_lcr d
    ∧ (uart_busy (port_out W8 COM1 c d) ≤ uart_char)%nat;
  uart_divisor d c : Z.testbit (uart_lcr d) 7 = true →
    uart_sent (port_out W8 COM1 c d) = uart_sent d ∧ uart_lcr (port_out W8 COM1 c d) = uart_lcr d;
  uart_control d p c : p ∈ [COM1 + 1; COM1 + 2; COM1 + 4] →
    uart_sent (port_out W8 p c d) = uart_sent d ∧ uart_lcr (port_out W8 p c d) = uart_lcr d;
  uart_line d c : 0 ≤ c < 256 → uart_sent (port_out W8 (COM1 + 3) c d) = uart_sent d ∧ uart_lcr (port_out W8 (COM1 + 3) c d) = c;
}.

Lemma cstr_ext s t l : (∀ j, s j = t j) → cstr s l → cstr t l.
Proof. intros E [H1 H2]. split; [|by rewrite <-E]. intros i x Hx. rewrite <-E. by apply H1. Qed.

(** A string written by a loop: [P] is kept, for the bytes written so far. *)
Lemma puts_loop_spec {S} (P : list Z → S → Prop) (f : Z → S → option S) l s i pre x fuel :
  (∀ c pre x, 0 < c < 256 → P pre x → ∃ x1, f c x = Some x1 ∧ P (pre ++ [c]) x1) →
  cstr (λ j, s (i + j)) l → P pre x → (length l < fuel)%nat →
  ∃ x1, puts_loop fuel f s i x = Some x1 ∧ P (pre ++ l) x1.
Proof.
  intros Hf. revert i pre x fuel. induction l as [|c l IH]; intros i pre x fuel Hs Hp Hl; (destruct fuel as [|n]; [cbn in Hl; lia|]).
  - apply cstr_nil in Hs. rewrite Z.add_0_r in Hs. cbn [puts_loop]. rewrite Hs. cbn. exists x. by rewrite app_nil_r.
  - apply cstr_cons in Hs as (E & Hc & Hs). rewrite Z.add_0_r in E. cbn [puts_loop]. rewrite E.
    destruct (Z.eqb_spec c 0); [lia|]. destruct (Hf c pre x Hc Hp) as (x1 & -> & Hp1). cbn [mbind option_bind].
    destruct (IH (i + 1) (pre ++ [c]) x1 n) as (x2 & -> & Hp2); [|done|cbn in Hl; lia|].
    + eapply cstr_ext; [|exact Hs]. intros j. cbn beta. by replace (i + 1 + j) with (i + (j + 1)) by lia.
    + exists x2. split; [done|]. by rewrite <-app_assoc in Hp2.
Qed.

(** ** The screen *)

Section screen.
Variable color : Z.

Definition blank : Z := make_entry 32 color.

(** All lines written so far, of 80 cells each, and the column of the cursor. *)
Record term := { t_done : list (list Z); t_line : list Z; t_col : nat }.

Definition t_rows (t : term) : list (list Z) := t_done t ++ [t_line t].
Definition empty_line : list Z := replicate 80 blank.
Definition new_term : term := {| t_done := []; t_line := empty_line; t_col := 0 |}.
Definition new_line (t : term) : term := {| t_done := t_rows t; t_line := empty_line; t_col := 0 |}.

(** One character: line feed, carriage return, or a cell; a full line ends. *)
Definition feed (t : term) (c : Z) : term :=
  if c =? 10 then new_line t
  else if c =? 13 then {| t_done := t_done t; t_line := t_line t; t_col := 0 |}
  else
    let t1 := {| t_done := t_done t; t_line := <[t_col t := make_entry c color]> (t_line t); t_col := S (t_col t) |} in
    if (80 <=? t_col t1)%nat then new_line t1 else t1.

(** The line shown on the first row, and the cell at row [r] and column [c]. *)
Definition t_top (t : term) : nat := length (t_done t) - 24.
Definition t_cell (t : term) (r c : nat) : Z := default blank (t_rows t !! (t_top t + r)%nat ≫= λ l, l !! c).

(** The screen shows the last 25 lines, and the cursor is on the last one. *)
Record shows (v : vga) (t : term) : Prop := {
  sh_cell : ∀ r c, (r < 25)%nat → (c < 80)%nat → vga_buf v (Z.of_nat r * 80 + Z.of_nat c) = t_cell t r c;
  sh_row : vga_row v = Z.of_nat (length (t_done t) - t_top t);
  sh_col : vga_col v = Z.of_nat (t_col t);
  sh_color : vga_color v = color;
  sh_len : length (t_line t) = 80%nat;
  sh_lt : (t_col t < 80)%nat;
}.

Lemma fill_cells_spec n i e b :
  0 ≤ i → i + Z.of_nat n ≤ 2000 →
  ∃ b1, fill_cells n i e b = Some b1 ∧ ∀ j, b1 j = if decide (i ≤ j < i + Z.of_nat n) then e else b j.
Proof.
  revert i b. induction n as [|n IH]; intros i b Hi Hn; cbn [fill_cells].
  { exists b. split; [done|]. intros j. case_decide; [lia|done]. }
  rewrite aset_Some by (change (VGA_COLS * VGA_ROWS) with 2000; lia). cbn [mbind option_bind].
  destruct (IH (i + 1) (upd b i e)) as (b1 & -> & Hb); [lia|lia|]. exists b1. split; [done|].
  intros j. rewrite Hb. unfold upd. destruct (Z.eqb_spec j i); repeat case_decide; try lia; done.
Qed.

Lemma scroll_cols_spec n r c b :
  0 ≤ r < 24 → 0 ≤ c → c + Z.of_nat n ≤ 80 →
  ∃ b1, scroll_cols n r c b = Some b1
    ∧ ∀ j, b1 j = if decide (r * 80 + c ≤ j < r * 80 + c + Z.of_nat n) then b (j + 80) else b j.
Proof.
  revert c b. induction n as [|n IH]; intros c b Hr Hc Hn; cbn [scroll_cols].
  { exists b. split; [done|]. intros j. case_decide; [lia|done]. }
  change (VGA_COLS * VGA_ROWS) with 2000. change VGA_COLS with 80.
  rewrite aget_Some by lia. cbn [mbind option_bind]. rewrite aset_Some by lia. cbn [mbind option_bind].
  destruct (IH (c + 1) (upd b (r * 80 + c) (b ((r + 1) * 80 + c)))) as (b1 & -> & Hb); [lia..|]. exists b1. split; [done|].
  intros j. rewrite Hb. unfold upd. repeat case_decide; repeat match goal with |- context [?x =? ?y] => destruct (Z.eqb_spec x y) end;
    first [lia|done|f_equal; lia].
Qed.

Lemma scroll_rows_spec n r b :
  0 ≤ r → r + Z.of_nat n ≤ 24 →
  ∃ b1, scroll_rows n r b = Some b1
    ∧ ∀ j, b1 j = if decide (r * 80 ≤ j < (r + Z.of_nat n) * 80) then b (j + 80) else b j.
Proof.
  revert r b. induction n as [|n IH]; intros r b Hr Hn; cbn [scroll_rows].
  { exists b. split; [done|]. intros j. case_decide; [lia|done]. }
  destruct (scroll_cols_spec (Z.to_nat VGA_COLS) r 0 b) as (b1 & -> & H1); [lia|lia|unfold VGA_COLS; lia|]. cbn [mbind option_bind].
  destruct (IH (r + 1) b1) as (b2 & -> & H2); [lia|lia|]. exists b2. split; [done|].
  change (Z.of_nat (Z.to_nat VGA_COLS)) with 80 in H1.
  intros j. rewrite H2, !H1. repeat case_decide; try lia; done.
Qed.

Lemma vga_scroll_spec v :
  ∃ v1, vga_scroll v = Some v1 ∧ vga_row v1 = 24 ∧ vga_col v1 = vga_col v ∧ vga_color v1 = vga_color v
    ∧ (∀ j, 0 ≤ j < 1920 → vga_buf v1 j = vga_buf v (j + 80))
    ∧ (∀ j, 1920 ≤ j < 2000 → vga_buf v1 j = make_entry 32 (vga_color v)).
Proof.
  unfold vga_scroll. destruct (scroll_rows_spec (Z.to_nat (VGA_ROWS - 1)) 0 (vga_buf v)) as (b1 & -> & H1); [lia|done|].
  cbn [mbind option_bind].
  destruct (fill_cells_spec (Z.to_nat VGA_COLS) ((VGA_ROWS - 1) * VGA_COLS) (make_entry 32 (vga_color v)) b1) as (b2 & -> & H2); [done..|].
  cbn [mbind option_bind]. eexists. split; [reflexivity|]. cbn [vga_row vga_col vga_color vga_buf].
  change ((VGA_ROWS - 1) * VGA_COLS) with 1920 in H2. change (Z.of_nat (Z.to_nat VGA_COLS)) with 80 in H2.
  change (Z.of_nat (Z.to_nat (VGA_ROWS - 1))) with 24 in H1.
  split_and!; [done..| |]; intros j Hj; rewrite H2; case_decide; try lia.
  rewrite H1. case_decide; [done|lia].
Qed.

Lemma new_line_cell t r c :
  t_cell (new_line t) r c
  = default blank ((t_rows t ++ [empty_line]) !! (S (length (t_done t)) - 24 + r)%nat ≫= λ l, l !! c).
Proof.
  assert (length (t_rows t) = S (length (t_done t))) as E by (unfold t_rows; rewrite length_app; cbn; lia).
  unfold t_cell, t_top. cbn [new_line t_done]. by rewrite E.
Qed.

(** A line feed. *)
Lemma newline_shows v t : shows v t → ∃ v1, vga_newline v = Some v1 ∧ shows v1 (new_line t).
Proof.
  intros [S1 S2 S3 S4 S5 S6]. unfold t_top in *. set (n := length (t_done t)) in *.
  assert (length (t_rows t) = S n) as Hlen by (unfold t_rows; rewrite length_app; cbn; lia).
  unfold vga_newline. cbn [vga_row]. rewrite u16_small by lia. change VGA_ROWS with 25. rewrite S2.
  destruct (Z.leb_spec 25 (Z.of_nat (n - (n - 24)) + 1)) as [Hf|Hf].
  - destruct (vga_scroll_spec {| vga_buf := vga_buf v; vga_color := vga_color v; vga_row := Z.of_nat (n - (n - 24)) + 1; vga_col := 0 |})
      as (v1 & -> & R1 & R2 & R3 & R4 & R5). cbn [vga_col vga_color vga_buf] in *. exists v1. split; [done|].
    split; unfold t_top; cbn [new_line t_done t_line t_col]; [| |done|by rewrite R3|apply length_replicate|lia].
    + intros r c Hr Hc. rewrite new_line_cell. fold n.
      destruct (decide (r = 24%nat)) as [->|].
      * rewrite R5, S4 by lia. rewrite lookup_app_r by lia. replace (_ + 24 - _)%nat with 0%nat by lia.
        cbn [lookup list_lookup mbind option_bind]. unfold empty_line. by rewrite lookup_replicate_2.
      * rewrite R4 by lia. replace (_ + 80) with (Z.of_nat (S r) * 80 + Z.of_nat c) by lia. rewrite S1 by lia.
        unfold t_cell, t_top. fold n. rewrite lookup_app_l by lia. by replace (S n - 24 + r)%nat with (n - 24 + S r)%nat by lia.
    + rewrite R1, Hlen. lia.
  - eexists. split; [reflexivity|].
    split; unfold t_top; cbn [new_line vga_buf vga_row vga_col vga_color t_done t_line t_col]; [| |done|done|apply length_replicate|lia].
    + intros r c Hr Hc. rewrite S1 by done. rewrite new_line_cell. unfold t_cell, t_top. fold n.
      replace (n - 24 + r)%nat with r by lia. replace (S n - 24 + r)%nat with r by lia.
      destruct (decide (r < S n)%nat) as [Hlt|Hge]; [by rewrite lookup_app_l by lia|].
      rewrite (lookup_ge_None_2 (t_rows t)) by lia. rewrite lookup_app_r by lia.
      destruct (r - length (t_rows t))%nat as [|k]; cbn [lookup list_lookup mbind option_bind]; [|done]. unfold empty_line. by rewrite lookup_replicate_2.
    + rewrite Hlen. lia.
Qed.

(** A cell at the cursor. *)
Lemma cell_shown v t e k :
  shows v t →
  ∀ r c, (r < 25)%nat → (c < 80)%nat →
  upd (vga_buf v) (vga_row v * 80 + vga_col v) e (Z.of_nat r * 80 + Z.of_nat c)
  = t_cell {| t_done := t_done t; t_line := <[t_col t := e]> (t_line t); t_col := k |} r c.
Proof.
  intros [S1 S2 S3 S4 S5 S6] r c Hr Hc. unfold t_top in S2. unfold upd. rewrite S2, S3.
  unfold t_cell, t_rows, t_top. cbn [t_done t_line]. set (n := length (t_done t)) in *.
  destruct (Z.eqb_spec (Z.of_nat r * 80 + Z.of_nat c) (Z.of_nat (n - (n - 24)) * 80 + Z.of_nat (t_col t))) as [E|E].
  - assert (r = n - (n - 24) ∧ c = t_col t)%nat as [-> ->] by lia. rewrite lookup_app_r by lia.
    replace (_ - _)%nat with 0%nat by lia. cbn. by rewrite list_lookup_insert_eq by lia.
  - rewrite S1 by done. unfold t_cell, t_rows, t_top. fold n.
    destruct (decide (n - 24 + r < n)%nat) as [Hlt|Hge]; [by rewrite !lookup_app_l by lia|]. rewrite !lookup_app_r by lia.
    destruct (n - 24 + r - length (t_done t))%nat as [|j] eqn:Ej; cbn; [|done].
    by rewrite list_lookup_insert_ne by lia.
Qed.

Lemma putchar_shows v t c : shows v t → ∃ v1, vga_putchar c v = Some v1 ∧ shows v1 (feed t c).
Proof.
  intros Hs. pose proof (cell_shown v t (make_entry c (vga_color v))) as Hc. pose proof Hs as [S1 S2 S3 S4 S5 S6].
  unfold vga_putchar, feed. destruct (c =? 10); [by apply newline_shows|]. destruct (c =? 13); [eexists; split; [reflexivity|]; split; [done|done|done|done|done|cbn; lia]|].
  rewrite aset_Some by (change (VGA_COLS * VGA_ROWS) with 2000; change VGA_COLS with 80; unfold t_top in *; lia).
  cbn [mbind option_bind vga_col]. change VGA_COLS with 80. rewrite u16_small by lia. rewrite S4 in *. cbn [t_col].
  set (v1 := {| vga_buf := _; vga_color := color; vga_row := vga_row v; vga_col := vga_col v + 1 |}).
  set (t1 := {| t_done := _; t_line := <[_ := _]> _; t_col := _ |}).
  destruct (Z.leb_spec 80 (vga_col v + 1)) as [Hf|Hf].
  - rewrite (proj2 (Nat.leb_le 80 (S (t_col t)))) by lia.
    change (vga_newline v1) with (vga_newline {| vga_buf := vga_buf v1; vga_color := color; vga_row := vga_row v; vga_col := 0 |}).
    change (new_line t1) with (new_line {| t_done := t_done t; t_line := t_line t1; t_col := 0 |}).
    apply newline_shows. split; [by apply Hc|done|done|done| |cbn; lia]. cbn. by rewrite length_insert.
  - rewrite (proj2 (Nat.leb_gt 80 (S (t_col t)))) by lia. eexists. split; [reflexivity|].
    split; cbn [vga_buf vga_row vga_col vga_color t_done t_line t_col v1 t1]; [by apply Hc|done|lia|done|by rewrite length_insert|lia].
Qed.

Lemma clear_shows v : vga_color v = color → ∃ v1, vga_clear v = Some v1 ∧ shows v1 new_term.
Proof.
  intros Hc. unfold vga_clear.
  destruct (fill_cells_spec (Z.to_nat (VGA_COLS * VGA_ROWS)) 0 (make_entry 32 (vga_color v)) (vga_buf v)) as (b & -> & Hb); [done..|].
  cbn [mbind option_bind]. eexists. split; [reflexivity|]. split; cbn [vga_buf vga_row vga_col vga_color]; [|done|done|done|done|cbn; lia].
  change (Z.of_nat (Z.to_nat (VGA_COLS * VGA_ROWS))) with 2000 in Hb. intros r c Hr Hcc. rewrite Hb, Hc. case_decide; [|lia].
  unfold t_cell, t_rows, t_top. cbn [t_done t_line new_term length app Nat.sub Nat.add].
  destruct r as [|r]; cbn [lookup list_lookup mbind option_bind]; [|done]. unfold empty_line. by rewrite lookup_replicate_2.
Qed.
End screen.

(** ** The console *)

Section output.
Context {D : Type} `{Uart D}.
Implicit Types (d : D) (k : console D).

Lemma status_bit v : (Z.land (u8 v) 0x20 =? 0) = negb (Z.testbit v 5).
Proof. rewrite (land_bit _ 5 ltac:(lia) : (Z.land _ 0x20 =? 0) = _). unfold u8. by rewrite Z.mod_pow2_bits_low by lia. Qed.

Lemma thr_wait_spec fuel d :
  (uart_busy d < fuel)%nat →
  ∃ d1, thr_wait fuel d = Some d1 ∧ uart_busy d1 = O ∧ uart_sent d1 = uart_sent d ∧ uart_lcr d1 = uart_lcr d.
Proof.
  revert d. induction fuel as [|n IH]; intros d Hb; [lia|]. cbn [thr_wait]. unfold inb.
  destruct (port_in W8 (COM1 + 5) d) as [v d1] eqn:E. destruct (uart_status d v d1 E) as (E1 & E2 & E3 & E4).
  rewrite status_bit. destruct (Z.testbit v 5); cbn [negb].
  - exists d1. destruct E4 as [E4 _]. specialize (E4 eq_refl). split_and!; [done|lia|done|done].
  - destruct (uart_busy d) eqn:Ed; [by destruct E4 as [_ ?%eq_sym]; [done|]|].
    destruct (IH d1) as (d2 & -> & B2 & S2 & L2); [lia|]. exists d2. split_and!; [done|done|congruence|congruence].
Qed.

(** The line transmits: the divisor latch is off and [n] reads of the status suffice. *)
Definition line_ready (n : nat) d : Prop := Z.testbit (uart_lcr d) 7 = false ∧ (uart_busy d < n)%nat ∧ (uart_char < n)%nat.

Lemma serial_putchar_sent n c d :
  line_ready n d → 0 ≤ c < 256 →
  ∃ d1, serial_putchar n c d = Some d1 ∧ line_ready n d1 ∧ uart_sent d1 = uart_sent d ++ [c].
Proof.
  intros (Hl & Hb & Hn) Hc. unfold serial_putchar. destruct (thr_wait_spec n d Hb) as (d1 & -> & B1 & S1 & L1).
  cbn [mbind option_bind]. eexists. split; [reflexivity|]. unfold outb. rewrite !(u8_small c) by lia.
  destruct (uart_send d1 c B1) as (S2 & L2 & B2); [by rewrite L1|done|].
  split; [|by rewrite S2, S1]. split_and!; [by rewrite L2, L1|lia|done].
Qed.

(** [serial_init] turns the divisor latch off again and sends nothing. *)
Lemma serial_init_ready d : uart_sent (serial_init d) = uart_sent d ∧ Z.testbit (uart_lcr (serial_init d)) 7 = false.
Proof.
  unfold serial_init, outb. change (COM1 + 0) with COM1. cbv zeta.
  repeat match goal with |- context [port_out ?w ?p ?v ?d] =>
    lazymatch d with context [port_out] => fail | _ => idtac end;
    let d' := fresh "d" in set (d' := port_out w p v d) end.
  destruct (uart_control d (COM1 + 1) (u8 0x00)) as [S0 L0]; [set_solver|]. fold d0 in S0, L0.
  destruct (uart_line d0 (u8 0x80)) as [S1 L1]; [apply u8_range|]. fold d1 in S1, L1.
  destruct (uart_divisor d1 (u8 0x01)) as [S2 L2]; [by rewrite L1|]. fold d2 in S2, L2.
  destruct (uart_control d2 (COM1 + 1) (u8 0x00)) as [S3 L3]; [set_solver|]. fold d3 in S3, L3.
  destruct (uart_line d3 (u8 0x03)) as [S4 L4]; [apply u8_range|]. fold d4 in S4, L4.
  destruct (uart_control d4 (COM1 + 2) (u8 0xC7)) as [S5 L5]; [set_solver|]. fold d5 in S5, L5.
  destruct (uart_control d5 (COM1 + 4) (u8 0x0B)) as [S6 L6]; [set_solver|]. fold d6 in S6, L6.
  split; [congruence|]. by rewrite L6, L5, L4.
Qed.

(** C15: Console output.  Writing a string to the console sends its bytes over the
    serial line, in order, and leaves the screen showing the last 25 lines, of 80
    columns, of everything written: no cell outside the screen is touched. *)
Theorem console_write_shown color k t s l fuel :
  console_ready k = true → shows color (co_vga k) t → line_ready fuel (co_dev k) →
  cstr s l → (length l < fuel)%nat →
  ∃ k1, console_write fuel (Some s) k = Some k1 ∧ shows color (co_vga k1) (foldl (feed color) t l)
    ∧ uart_sent (co_dev k1) = uart_sent (co_dev k) ++ l.
Proof.
  intros Hr Hs Hl Hc Hf.
  destruct (puts_loop_spec (λ pre x, console_ready x = true ∧ shows color (co_vga x) (foldl (feed color) t pre)
      ∧ line_ready fuel (co_dev x) ∧ uart_sent (co_dev x) = uart_sent (co_dev k) ++ pre)
    (console_putc fuel) l s 0 [] k fuel) as (k1 & E & _ & H1 & _ & H2); [|done|by rewrite app_nil_r|done|by exists k1].
  intros c pre x Hcr (R & S & L & U). unfold console_putc. rewrite R. cbn [negb].
  destruct (putchar_shows color (co_vga x) _ c S) as (v1 & Ev & Sv).
  destruct (serial_putchar_sent fuel c (co_dev x) L) as (d1 & Ed & Ld & Ud); [lia|]. rewrite (u8_small c) by lia.
  exists (set_codev d1 (set_vga v1 x)). split_and!; [|done| |done|].
  - destruct (active_backend x); rewrite Ev; cbn [mbind option_bind]; by rewrite Ed.
  - rewrite foldl_app. exact Sv.
  - cbn. rewrite Ud, U. by rewrite app_assoc.
Qed.
End output.

(** A serial line that is busy for two reads of the status after each byte. *)
Record com := { com_sent : list Z; com_busy : nat; com_lcr : Z }.

#[export] Instance com_ports : PortIO com := {
  port_in _ p d := if p =? COM1 + 5 then (if decide (com_busy d = O) then 0x20 else 0, {| com_sent := com_sent d; com_busy := pred (com_busy d); com_lcr := com_lcr d |}) else (0, d);
  port_out _ p v d :=
    if p =? COM1 + 3 then {| com_sent := com_sent d; com_busy := com_busy d; com_lcr := v |}
    else if (p =? COM1) && negb (Z.testbit (com_lcr d) 7) then {| com_sent := com_sent d ++ [v]; com_busy := 2; com_lcr := com_lcr d |}
    else d;
}.

#[export] Instance com_uart : Uart com.
Proof.
  refine {| uart_sent := com_sent; uart_busy := com_busy; uart_lcr := com_lcr; uart_char := 2 |}.
  - intros d v d1 E. cbn in E. injection E as <- <-. cbn. split_and!; [done..|]. by case_decide.
  - intros d c Hb Hl Hc. cbn [port_out com_ports]. rewrite Hl. cbn. split_and!; [done|done|apply le_n].
  - intros d c Hl. cbn [port_out com_ports]. rewrite Hl. done.
  - intros d p c Hp. cbn [port_out com_ports]. repeat (apply elem_of_cons in Hp as [->|Hp]; [done|]). by apply elem_of_nil in Hp.
  - done.
Defined.

Lemma console_write_shown_witness :
  ∃ k k1 : console com, console_write 10 (Some (lit [72; 105; 10])) k = Some k1 ∧ com_sent (co_dev k1) = [72; 105; 10].
Proof.
  destruct (clear_shows 7 {| vga_buf := λ _, 0; vga_color := 7; vga_row := 3; vga_col := 3 |} eq_refl) as (v & _ & Hv).
  set (k := {| co_vga := v; co_dev := {| com_sent := []; com_busy := 0; com_lcr := 3 |}; active_backend := CONSOLE_VGA; console_ready := true |}).
  destruct (console_write_shown 7 k (new_term 7) (lit [72; 105; 10]) [72; 105; 10] 10) as (k1 & E & _ & U).
  - reflexivity.
  - exact Hv.
  - split_and!; [reflexivity|cbn; lia|cbn; lia].
  - apply cstr_lit. repeat constructor; lia.
  - cbn. lia.
  - exists k, k1. split; [exact E|exact U].
Defined.
