(* ===== verification/Pci.v ===== *)
(** Model of kernel/drivers/pci/pci.c: configuration space through the ports
    0xCF8 and 0xCFC, the scan of all buses, lookup and base address registers. *)
From stdpp Require Import prelude.
From Stdlib Require Import String.
From S2P Require Import Prelude CString FrameAlloc Vmm Ports Printf Console.

Definition PCI_ADDR_PORT : Z := 0xCF8.
Definition PCI_DATA_PORT : Z := 0xCFC.
Definition PCI_MAX_DEVICES : Z := 256.
Definition PCI_CMD_IO_SPACE : Z := 0x0001.
Definition PCI_CMD_MEM_SPACE : Z := 0x0002.
Definition PCI_CMD_BUS_MASTER : Z := 0x0004.

Record pci_device := {
  bus : Z;
  device : Z;
  function : Z;
  vendor_id : Z;
  device_id : Z;
  class_code : Z;
  subclass : Z;
  prog_if : Z;
  header_type : Z;
  revision : Z;
  irq_line : Z;
  irq_pin : Z;
  bar : Z → Z;
}.

Record pci (D : Type) := { pc_dev : D; pci_devices : Z → pci_device; pci_device_count : Z }.
Arguments pc_dev {D} _.
Arguments pci_devices {D} _.
Arguments pci_device_count {D} _.

(** ** Configuration space *)

Definition pci_address (bus dev func reg : Z) : Z :=
  u32 (Z.lor (Z.lor (Z.lor (Z.lor 0x80000000 (u32 (Z.shiftl bus 16))) (u32 (Z.shiftl dev 11))) (u32 (Z.shiftl func 8))) (Z.land reg 0xFC)).

Section config.
Context {D : Type} `{PortIO D}.
Implicit Types (d : D).

Definition pci_read32 (bus dev func reg : Z) d : Z * D := inl PCI_DATA_PORT (outl PCI_ADDR_PORT (pci_address bus dev func reg) d).

Definition pci_read16 (bus dev func reg : Z) d : Z * D :=
  inw (u16 (PCI_DATA_PORT + Z.land reg 2)) (outl PCI_ADDR_PORT (pci_address bus dev func reg) d).

Definition pci_read8 (bus dev func reg : Z) d : Z * D :=
  inb (u16 (PCI_DATA_PORT + Z.land reg 3)) (outl PCI_ADDR_PORT (pci_address bus dev func reg) d).

Definition pci_write32 (bus dev func reg val : Z) d : D :=
  outl PCI_DATA_PORT val (outl PCI_ADDR_PORT (pci_address bus dev func reg) d).

Definition pci_write16 (bus dev func reg val : Z) d : D :=
  outw (u16 (PCI_DATA_PORT + Z.land reg 2)) val (outl PCI_ADDR_PORT (pci_address bus dev func reg) d).

(** [cmd |= bits] in the command register of [x]. *)
Definition pci_enable_bus_master (x : pci_device) d : D :=
  let '(cmd, d) := pci_read16 (bus x) (device x) (function x) 0x04 d in
  pci_write16 (bus x) (device x) (function x) 0x04 (Z.lor cmd PCI_CMD_BUS_MASTER) d.

Definition pci_enable_memory_space (x : pci_device) d : D :=
  let '(cmd, d) := pci_read16 (bus x) (device x) (function x) 0x04 d in
  pci_write16 (bus x) (device x) (function x) 0x04 (Z.lor cmd PCI_CMD_MEM_SPACE) d.

Definition pci_enable_io_space (x : pci_device) d : D :=
  let '(cmd, d) := pci_read16 (bus x) (device x) (function x) 0x04 d in
  pci_write16 (bus x) (device x) (function x) 0x04 (Z.lor cmd PCI_CMD_IO_SPACE) d.
End config.

(** ** Base address registers *)

Definition pci_bar_is_mmio (x : pci_device) (idx : Z) : option bool :=
  b ← aget 6 (bar x) idx; Some (Z.land b 1 =? 0).

Definition pci_bar_is_64bit (x : pci_device) (idx : Z) : option bool :=
  mmio ← pci_bar_is_mmio x idx;
  b ← aget 6 (bar x) idx;
  Some (mmio && (Z.land (Z.shiftr b 1) 3 =? 2)).

Definition pci_bar_address (x : pci_device) (idx : Z) : option Z :=
  mmio ← pci_bar_is_mmio x idx;
  b ← aget 6 (bar x) idx;
  if negb mmio then Some (Z.land b (u32 (Z.lnot 0x3)))
  else
    let addr := Z.land b (u32 (Z.lnot 0xF)) in
    wide ← pci_bar_is_64bit x idx;
    if wide && (idx <? 5) then hi ← aget 6 (bar x) (idx + 1); Some (Z.lor addr (u64 (Z.shiftl hi 32)))
    else Some addr.

(** The address of the registers, 0 for NULL. *)
Definition pci_map_bar {A} `{FrameOps A} (x : pci_device) (idx : Z) (s : vmm A) : option (Z * vmm A) :=
  mmio ← pci_bar_is_mmio x idx;
  if negb mmio then Some (0, s)
  else
    phys ← pci_bar_address x idx;
    let virt := u64 (KERNEL_VIRT_BASE + phys) in
    s ← vmm_map_range (kernel_pml4 s) virt phys (4 * PAGE_SIZE) VMM_MMIO s;
    Some (virt, s).

(** ** Scanning *)

Section scan.
Context {D : Type} `{PortIO D}.
Implicit Types (d : D) (p : pci D).

Definition set_pcdev d p : pci D :=
  {| pc_dev := d; pci_devices := pci_devices p; pci_device_count := pci_device_count p |}.

(** [for (i...; i < 6; i++) d->bar[i] = pci_read32(bus, dev, func, 0x10 + i * 4);] *)
Fixpoint read_bars (n : nat) (i bus dev func : Z) (b : Z → Z) d : (Z → Z) * D :=
  match n with
  | O => (b, d)
  | S n => let '(v, d) := pci_read32 bus dev func (u8 (0x10 + i * 4)) d in read_bars n (i + 1) bus dev func (upd b i v) d
  end.

(** What the function fills in, over the old contents of the slot. *)
Definition read_function (b dv f id : Z) (old : pci_device) d : pci_device * D :=
  let '(class_rev, d) := pci_read32 b dv f 0x08 d in
  let '(hdr, d) := pci_read32 b dv f 0x0C d in
  let header := u8 (Z.land (Z.shiftr hdr 16) 0xFF) in
  let '(bars, d) := if Z.land header 0x7F =? 0 then read_bars 6 0 b dv f (bar old) d else (bar old, d) in
  let '(irq, d) := pci_read32 b dv f 0x3C d in
  ({| bus := b; device := dv; function := f; vendor_id := u16 (Z.land id 0xFFFF); device_id := u16 (Z.shiftr id 16);
      class_code := u8 (Z.land (Z.shiftr class_rev 24) 0xFF); subclass := u8 (Z.land (Z.shiftr class_rev 16) 0xFF);
      prog_if := u8 (Z.land (Z.shiftr class_rev 8) 0xFF); header_type := header; revision := u8 (Z.land class_rev 0xFF);
      irq_line := u8 (Z.land irq 0xFF); irq_pin := u8 (Z.land (Z.shiftr irq 8) 0xFF); bar := bars |}, d).

Definition scan_function (b dv f : Z) p : pci D :=
  let '(id, d) := pci_read32 b dv f 0x00 (pc_dev p) in
  if Z.land id 0xFFFF =? 0xFFFF then set_pcdev d p
  else if PCI_MAX_DEVICES <=? pci_device_count p then set_pcdev d p
  else
    let n := pci_device_count p in
    let '(x, d) := read_function b dv f id (pci_devices p n) d in
    {| pc_dev := d; pci_devices := upd (pci_devices p) n x; pci_device_count := n + 1 |}.

(** [for (f = 1; f < 8; f++) ...] *)
Fixpoint scan_functions (n : nat) (f b dv : Z) p : pci D :=
  match n with
  | O => p
  | S n =>
      let '(fid, d) := pci_read32 b dv f 0x00 (pc_dev p) in
      let p := set_pcdev d p in
      scan_functions n (f + 1) b dv (if Z.land fid 0xFFFF =? 0xFFFF then p else scan_function b dv f p)
  end.

Definition scan_device (b dv : Z) p : pci D :=
  let '(id, d) := pci_read32 b dv 0 0x00 (pc_dev p) in
  if Z.land id 0xFFFF =? 0xFFFF then set_pcdev d p
  else
    let p := scan_function b dv 0 (set_pcdev d p) in
    let '(hdr, d) := pci_read32 b dv 0 0x0C (pc_dev p) in
    let p := set_pcdev d p in
    if Z.land (Z.shiftr hdr 16) 0x80 =? 0 then p else scan_functions 7 1 b dv p.

Fixpoint scan_bus (n : nat) (dv b : Z) p : pci D :=
  match n with
  | O => p
  | S n => scan_bus n (dv + 1) b (scan_device b dv p)
  end.

Fixpoint scan_buses (n : nat) (b : Z) p : pci D :=
  match n with
  | O => p
  | S n => scan_buses n (b + 1) (scan_bus 32 0 b p)
  end.

(** The message on the serial line is left out. *)
Definition pci_scan p : pci D :=
  scan_buses 256 0 {| pc_dev := pc_dev p; pci_devices := pci_devices p; pci_device_count := 0 |}.

Definition pci_init p : pci D := pci_scan p.

(** ** Lookup: the index of the device, [None] for NULL *)

Definition find_where (P : pci_device → bool) p : option Z :=
  find_some (λ i, if P (pci_devices p i) then Some i else None) (seqZ 0 (pci_device_count p)).

Definition pci_find_device (vendor did : Z) p : option Z :=
  find_where (λ x, (vendor_id x =? vendor) && (device_id x =? did)) p.

Definition pci_find_class (cls sub : Z) p : option Z :=
  find_where (λ x, (class_code x =? cls) && (subclass x =? sub)) p.

Definition pci_find_class_progif (cls sub pif : Z) p : option Z :=
  find_where (λ x, (class_code x =? cls) && (subclass x =? sub) && (prog_if x =? pif)) p.
End scan.

(** ** Listing *)

Definition pci_class_name (cls sub : Z) : list Z :=
  if cls =? 0x00 then bytes "Unclassified"
  else if cls =? 0x01 then
    if sub =? 0x01 then bytes "IDE Controller"
    else if sub =? 0x06 then bytes "SATA/AHCI Controller"
    else if sub =? 0x08 then bytes "NVMe Controller"
    else bytes "Storage Controller"
  else if cls =? 0x02 then
    if sub =? 0x00 then bytes "Ethernet Controller" else bytes "Network Controller"
  else if cls =? 0x03 then bytes "VGA Controller"
  else if cls =? 0x04 then
    if sub =? 0x03 then bytes "HD Audio Controller" else bytes "Multimedia Controller"
  else if cls =? 0x06 then
    if sub =? 0x00 then bytes "Host Bridge"
    else if sub =? 0x01 then bytes "ISA Bridge"
    else if sub =? 0x04 then bytes "PCI-to-PCI Bridge"
    else bytes "Bridge"
  else if cls =? 0x0C then
    if sub =? 0x03 then bytes "USB Controller" else bytes "Serial Bus Controller"
  else bytes "Unknown".

(** The format and the arguments of a line. *)
Definition lspci_format : list Z := bytes "%02x:%02x.%u  %04x:%04x  [%02x:%02x:%02x]  %s" ++ [10].

Definition lspci_args (x : pci_device) : list va_arg :=
  [VInt (bus x); VInt (device x); VInt (function x); VInt (vendor_id x); VInt (device_id x);
   VInt (class_code x); VInt (subclass x); VInt (prog_if x); VStr (Some (pci_class_name (class_code x) (subclass x)))].

(** [buf] is the address of the local array. *)
Fixpoint print_loop {D} `{PortIO D} (fuel n : nat) (i buf : Z) (devs : Z → pci_device) (m : mem) (v : vga) (d : D)
    : option (mem * vga * D) :=
  match n with
  | O => Some (m, v, d)
  | S n =>
      '(_, m) ← ksnprintf buf 96 lspci_format (lspci_args (devs i)) m;
      v ← vga_puts fuel (at_ptr m buf) v;
      d ← serial_puts fuel (at_ptr m buf) d;
      print_loop fuel n (i + 1) buf devs m v d
  end.

Definition pci_print_devices {D} `{PortIO D} (fuel : nat) (buf : Z) (m : mem) (v : vga) (p : pci D) : option (mem * vga * pci D) :=
  if pci_device_count p =? 0 then
    d ← serial_puts fuel (lit (bytes "No PCI devices found" ++ [10])) (pc_dev p); Some (m, v, set_pcdev d p)
  else
    '(m, v, d) ← print_loop fuel (Z.to_nat (pci_device_count p)) 0 buf (pci_devices p) m v (pc_dev p);
    Some (m, v, set_pcdev d p).
