(* ===== verification/PciProps.v ===== *)
(** The scan of kernel/drivers/pci/pci.c finds the functions of the machine, and
    where the base address registers are mapped. *)
From stdpp Require Import prelude gmap.
From S2P Require Import Prelude CString FrameAlloc Bitmap Pmm Vmm VmmWf VmmSpec VmmRange VmmProps Ports Printf Console Pci.

(** ** The host bridge

    What configuration mechanism 1 promises: the data port reads the double word
    that the fields of the address port select. *)
Class PciHost (D : Type) `{PortIO D} := {
  pci_latch : D → Z;
  pci_cfg : D → Z → Z → Z → Z → Z;
  host_range d b dv f r : 0 ≤ pci_cfg d b dv f r < 2 ^ 32;
  host_select d a : 0 ≤ a < 2 ^ 32 →
    pci_latch (port_out W32 PCI_ADDR_PORT a d) = a ∧ pci_cfg (port_out W32 PCI_ADDR_PORT a d) = pci_cfg d;
  host_read d v d1 : Z.testbit (pci_latch d) 31 = true → port_in W32 PCI_DATA_PORT d = (v, d1) →
    v = pci_cfg d (Z.land (Z.shiftr (pci_latch d) 16) 0xFF) (Z.land (Z.shiftr (pci_latch d) 11) 0x1F)
          (Z.land (Z.shiftr (pci_latch d) 8) 7) (Z.land (pci_latch d) 0xFC)
    ∧ pci_cfg d1 = pci_cfg d;
}.

(** ** Addresses *)

Lemma quad_range r : 0 ≤ r < 256 → 0 ≤ r / 4 * 4 < 2 ^ 8.
Proof. intros. Z.to_euclidean_division_equations. lia. Qed.

Lemma pci_address_sum b dv f r :
  0 ≤ b < 256 → 0 ≤ dv < 32 → 0 ≤ f < 8 → 0 ≤ r < 256 →
  pci_address b dv f r = 2 ^ 31 + b * 2 ^ 16 + dv * 2 ^ 11 + f * 2 ^ 8 + r / 4 * 4.
Proof.
  intros Hb Hd Hf Hr. pose proof (quad_range r Hr). unfold pci_address. rewrite !Z.shiftl_mul_pow2 by lia. rewrite !(u32_small (_ * _)) by lia.
  assert (Z.land r 0xFC = r / 4 * 4) as ->.
  { apply Z.eqb_eq. by apply (check_range (λ r, Z.land r 0xFC =? r / 4 * 4) 256). }
  replace 0x80000000 with (1 * 2 ^ 31) by lia. rewrite (lor_low 1) by lia.
  replace (1 * 2 ^ 31 + b * 2 ^ 16) with ((2 ^ 15 + b) * 2 ^ 16) by lia. rewrite lor_low by lia.
  replace ((2 ^ 15 + b) * 2 ^ 16 + dv * 2 ^ 11) with ((2 ^ 20 + b * 2 ^ 5 + dv) * 2 ^ 11) by lia. rewrite lor_low by lia.
  replace ((2 ^ 20 + b * 2 ^ 5 + dv) * 2 ^ 11 + f * 2 ^ 8) with ((2 ^ 23 + b * 2 ^ 8 + dv * 2 ^ 3 + f) * 2 ^ 8) by lia.
  rewrite lor_low by lia. rewrite u32_small by lia. lia.
Qed.

(** The fields the bridge reads are the ones asked for. *)
Lemma pci_address_fields b dv f r :
  0 ≤ b < 256 → 0 ≤ dv < 32 → 0 ≤ f < 8 → 0 ≤ r < 256 →
  let a := pci_address b dv f r in
  0 ≤ a < 2 ^ 32 ∧ Z.testbit a 31 = true ∧ Z.land (Z.shiftr a 16) 0xFF = b ∧ Z.land (Z.shiftr a 11) 0x1F = dv
  ∧ Z.land (Z.shiftr a 8) 7 = f ∧ Z.land a 0xFC = r / 4 * 4.
Proof.
  intros Hb Hd Hf Hr a. pose proof (quad_range r Hr). subst a. rewrite pci_address_sum by done. rewrite !Z.shiftr_div_pow2 by lia.
  assert (∀ x, Z.land x 0xFF = x mod 2 ^ 8 ∧ Z.land x 0x1F = x mod 2 ^ 5 ∧ Z.land x 7 = x mod 2 ^ 3) as Hm.
  { intros x. split_and!; [apply (Z.land_ones x 8)|apply (Z.land_ones x 5)|apply (Z.land_ones x 3)]; lia. }
  rewrite (proj1 (Hm _)), (proj1 (proj2 (Hm _))), (proj2 (proj2 (Hm _))). clear Hm.
  split; [lia|].
  split; [apply Z.testbit_true; [lia|]|split; [|split; [|split]]]; try (Z.to_euclidean_division_equations; lia).
  replace (_ + r / 4 * 4) with ((2 ^ 23 + b * 2 ^ 8 + dv * 2 ^ 3 + f) * 2 ^ 8 + r / 4 * 4) by lia.
  rewrite <-lor_low by lia. rewrite Z.land_lor_distr_l. rewrite <-Z.shiftl_mul_pow2 by lia.
  assert (Z.land (Z.shiftl (2 ^ 23 + b * 2 ^ 8 + dv * 2 ^ 3 + f) 8) 0xFC = 0) as ->.
  { apply Z.bits_inj'. intros i Hi. rewrite Z.land_spec, Z.bits_0, Z.shiftl_spec by done.
    destruct (decide (i < 8)); [by rewrite Z.testbit_neg_r by lia|]. by rewrite (testbit_high 0xFC 8), andb_false_r by lia. }
  rewrite Z.lor_0_l. apply Z.eqb_eq. apply (check_range (λ r, Z.land (r / 4 * 4) 0xFC =? r / 4 * 4) 256); [by vm_compute|done].
Qed.

(** ** The functions of the machine *)

Section machine.
Variable cfg : Z → Z → Z → Z → Z.

(** A function that does not exist reads as ones. *)
Definition fn_present (b dv f : Z) : bool := negb (cfg b dv f 0 mod 2 ^ 16 =? 0xFFFF).

(** The functions of a device: only the first, unless bit 7 of its header type is set. *)
Definition device_functions (b dv : Z) : list (Z * Z * Z) :=
  if fn_present b dv 0 then
    (b, dv, 0) :: (if Z.testbit (cfg b dv 0 0x0C) 23
                   then (λ f, (b, dv, f)) <$> filter (λ f, fn_present b dv f = true) (seqZ 1 7) else [])
  else [].

Definition bus_functions (b : Z) : list (Z * Z * Z) := seqZ 0 32 ≫= device_functions b.
Definition machine_functions : list (Z * Z * Z) := seqZ 0 256 ≫= bus_functions.

(** The descriptor [x] holds what the function's registers say. *)
Record describes (x : pci_device) (l : Z * Z * Z) : Prop := {
  ds_loc : (bus x, device x, function x) = l;
  ds_id : vendor_id x = cfg (bus x) (device x) (function x) 0 mod 2 ^ 16
          ∧ device_id x = cfg (bus x) (device x) (function x) 0 / 2 ^ 16;
  ds_class : class_code x = cfg (bus x) (device x) (function x) 8 / 2 ^ 24
             ∧ subclass x = cfg (bus x) (device x) (function x) 8 / 2 ^ 16 mod 2 ^ 8
             ∧ prog_if x = cfg (bus x) (device x) (function x) 8 / 2 ^ 8 mod 2 ^ 8
             ∧ revision x = cfg (bus x) (device x) (function x) 8 mod 2 ^ 8;
  ds_irq : irq_line x = cfg (bus x) (device x) (function x) 0x3C mod 2 ^ 8
           ∧ irq_pin x = cfg (bus x) (device x) (function x) 0x3C / 2 ^ 8 mod 2 ^ 8;
  ds_header : header_type x = cfg (bus x) (device x) (function x) 0x0C / 2 ^ 16 mod 2 ^ 8;
  ds_bars : header_type x mod 2 ^ 7 = 0 → ∀ i, 0 ≤ i < 6 → bar x i = cfg (bus x) (device x) (function x) (0x10 + 4 * i);
}.
End machine.

Lemma byte_at x k : 0 ≤ k → u8 (Z.land (Z.shiftr x k) 0xFF) = x / 2 ^ k mod 2 ^ 8.
Proof.
  intros Hk. change 0xFF with (Z.ones 8). rewrite Z.land_ones, Z.shiftr_div_pow2 by lia. apply u8_small. apply Z.mod_pos_bound. lia.
Qed.

Lemma land_ffff x : Z.land x 0xFFFF = x mod 2 ^ 16.
Proof. apply (Z.land_ones x 16). lia. Qed.

Section scan.
Context {D : Type} `{PciHost D}.
Implicit Types (d : D) (p : pci D).

Lemma read32_spec b dv f r d :
  0 ≤ b < 256 → 0 ≤ dv < 32 → 0 ≤ f < 8 → 0 ≤ r < 256 → r mod 4 = 0 →
  ∃ d1, pci_read32 b dv f r d = (pci_cfg d b dv f r, d1) ∧ pci_cfg d1 = pci_cfg d.
Proof.
  intros Hb Hd Hf Hr Hr4. unfold pci_read32, inl, outl.
  destruct (pci_address_fields b dv f r Hb Hd Hf Hr) as (Ha & Ht & E1 & E2 & E3 & E4).
  rewrite u32_small by done. destruct (host_select d (pci_address b dv f r) Ha) as [L C].
  destruct (port_in W32 PCI_DATA_PORT _) as [v d1] eqn:E. apply host_read in E as [-> Ec]; [|by rewrite L].
  rewrite L, E1, E2, E3, E4, C in *. replace (r / 4 * 4) with r by (Z.to_euclidean_division_equations; lia).
  exists d1. split; [|done]. by rewrite u32_small by apply host_range.
Qed.

Lemma read_bars_spec n i b dv f old d :
  0 ≤ b < 256 → 0 ≤ dv < 32 → 0 ≤ f < 8 → 0 ≤ i → i + Z.of_nat n = 6 →
  ∃ bars d1, read_bars n i b dv f old d = (bars, d1) ∧ pci_cfg d1 = pci_cfg d
    ∧ ∀ j, bars j = if decide (i ≤ j < 6) then pci_cfg d b dv f (0x10 + 4 * j) else old j.
Proof.
  intros Hb Hd Hf. revert i old d. induction n as [|n IH]; intros i old d Hi Hn; cbn [read_bars].
  { exists old, d. split_and!; [done..|]. intros j. case_decide; [lia|done]. }
  rewrite (u8_small (0x10 + i * 4)) by lia. destruct (read32_spec b dv f (0x10 + i * 4) d) as (d1 & -> & C1); [lia..| |].
  { by rewrite Z.add_mod, Z.mod_mul by lia. }
  destruct (IH (i + 1) (upd old i (pci_cfg d b dv f (0x10 + i * 4))) d1) as (bars & d2 & -> & C2 & Hb2); [lia|lia|].
  exists bars, d2. split_and!; [done|congruence|]. intros j. rewrite Hb2, C1. unfold upd.
  destruct (Z.eqb_spec j i) as [->|]; repeat case_decide; try lia; try done.
  by replace (0x10 + i * 4) with (0x10 + 4 * i) by lia.
Qed.

Lemma read_function_spec b dv f old d :
  0 ≤ b < 256 → 0 ≤ dv < 32 → 0 ≤ f < 8 →
  ∃ x d1, read_function b dv f (pci_cfg d b dv f 0) old d = (x, d1) ∧ pci_cfg d1 = pci_cfg d
    ∧ describes (pci_cfg d) x (b, dv, f).
Proof.
  intros Hb Hd Hf. unfold read_function.
  destruct (read32_spec b dv f 0x08 d) as (d1 & -> & C1); [lia..|done|].
  destruct (read32_spec b dv f 0x0C d1) as (d2 & -> & C2); [lia..|done|]. rewrite C1.
  set (header := u8 _).
  assert (∃ bars d3, (if Z.land header 0x7F =? 0 then read_bars 6 0 b dv f (bar old) d2 else (bar old, d2)) = (bars, d3)
    ∧ pci_cfg d3 = pci_cfg d ∧ (header mod 2 ^ 7 = 0 → ∀ i, 0 ≤ i < 6 → bars i = pci_cfg d b dv f (0x10 + 4 * i)))
    as (bars & d3 & -> & C3 & Hbars).
  { rewrite (Z.land_ones header 7 ltac:(lia) : Z.land header 0x7F = header mod 2 ^ 7).
    destruct (Z.eqb_spec (header mod 2 ^ 7) 0) as [E|E].
    - destruct (read_bars_spec 6 0 b dv f (bar old) d2) as (bars & d3 & -> & C3 & Hj); [done..|].
      exists bars, d3. split_and!; [done|congruence|]. intros _ i Hi. rewrite Hj. case_decide; [congruence|lia].
    - exists (bar old), d2. split_and!; [done|congruence|done]. }
  destruct (read32_spec b dv f 0x3C d3) as (d4 & -> & C4); [lia..|done|]. rewrite C3.
  eexists _, _. split; [reflexivity|]. split; [congruence|].
  pose proof (host_range d b dv f 0) as R0. pose proof (host_range d b dv f 8) as R8.
  split; cbn [bus device function vendor_id device_id class_code subclass prog_if header_type revision irq_line irq_pin bar].
  - done.
  - rewrite land_ffff, Z.shiftr_div_pow2 by lia. split; apply u16_small; Z.to_euclidean_division_equations; lia.
  - rewrite !byte_at by lia. split_and!; [|done|done|].
    + apply Z.mod_small. Z.to_euclidean_division_equations. lia.
    + rewrite (Z.land_ones _ 8 ltac:(lia) : Z.land _ 0xFF = _). apply u8_small. apply Z.mod_pos_bound. lia.
  - rewrite byte_at by lia. split; [|done].
    rewrite (Z.land_ones _ 8 ltac:(lia) : Z.land _ 0xFF = _). apply u8_small. apply Z.mod_pos_bound. lia.
  - unfold header. by rewrite byte_at by lia.
  - exact Hbars.
Qed.

(** The table lists the first 256 of the functions [l]. *)
Record scanned (cfg : Z → Z → Z → Z → Z) (l : list (Z * Z * Z)) p : Prop := {
  sc_cfg : pci_cfg (pc_dev p) = cfg;
  sc_count : pci_device_count p = Z.of_nat (Nat.min 256 (length l));
  sc_devs : ∀ i x, take 256 l !! i = Some x → describes cfg (pci_devices p (Z.of_nat i)) x;
}.

Lemma scanned_dev cfg l p d : scanned cfg l p → pci_cfg d = cfg → scanned cfg l (set_pcdev d p).
Proof. by intros [S1 S2 S3] E; split. Qed.

Lemma scan_function_spec cfg l b dv f p :
  0 ≤ b < 256 → 0 ≤ dv < 32 → 0 ≤ f < 8 → scanned cfg l p → fn_present cfg b dv f = true →
  scanned cfg (l ++ [(b, dv, f)]) (scan_function b dv f p).
Proof.
  intros Hb Hd Hf Hs Hp. pose proof Hs as [S1 S2 S3]. unfold scan_function.
  destruct (read32_spec b dv f 0x00 (pc_dev p)) as (d1 & -> & C1); [lia..|done|]. rewrite S1 in *.
  rewrite land_ffff. unfold fn_present in Hp. apply negb_true_iff in Hp. rewrite Hp. rewrite S2.
  destruct (Z.leb_spec PCI_MAX_DEVICES (Z.of_nat (Nat.min 256 (length l)))) as [Hf1|Hf1]; unfold PCI_MAX_DEVICES in Hf1.
  - split; cbn [set_pcdev pc_dev pci_devices pci_device_count]; [done|rewrite length_app; cbn [length]; lia|].
    intros i x Hx. apply S3. by rewrite take_app_le in Hx by lia.
  - destruct (read_function_spec b dv f (pci_devices p (Z.of_nat (Nat.min 256 (length l)))) d1 Hb Hd Hf) as (x & d2 & E & C2 & Hx).
    rewrite C1 in *. rewrite E. split; cbn [pc_dev pci_devices pci_device_count]; [done|rewrite length_app; cbn [length]; lia|].
    intros i y Hy. rewrite take_ge in Hy by (rewrite length_app; cbn [length]; lia). replace (Nat.min 256 (length l)) with (length l) by lia.
    apply lookup_app_Some in Hy as [Hy|[Hi Hy]].
    + rewrite upd_ne by (apply lookup_lt_Some in Hy; lia). apply S3. by rewrite take_ge by lia.
    + apply list_lookup_singleton_Some in Hy as [Hi0 <-]. replace i with (length l) by lia. by rewrite upd_eq.
Qed.

Lemma scan_functions_spec cfg n : ∀ f l b dv p,
  0 ≤ b < 256 → 0 ≤ dv < 32 → 0 ≤ f → f + Z.of_nat n = 8 → scanned cfg l p →
  scanned cfg (l ++ ((λ f, (b, dv, f)) <$> filter (λ f, fn_present cfg b dv f = true) (seqZ f (Z.of_nat n)))) (scan_functions n f b dv p).
Proof.
  induction n as [|n IH]; intros f l b dv p Hb Hd Hf Hn Hs; cbn [scan_functions]; [by rewrite app_nil_r|].
  destruct (read32_spec b dv f 0x00 (pc_dev p)) as (d1 & -> & C1); [lia..|done|]. rewrite (sc_cfg _ _ _ Hs), land_ffff in *.
  assert (scanned cfg l (set_pcdev d1 p)) as Hs1 by (by apply scanned_dev).
  rewrite seqZ_cons by lia. rewrite filter_cons. replace (Z.pred (Z.of_nat (S n))) with (Z.of_nat n) by lia.
  destruct (fn_present cfg b dv f) eqn:Hp; pose proof Hp as Hp'; unfold fn_present in Hp'.
  - apply negb_true_iff in Hp'. rewrite Hp', decide_True by done. rewrite fmap_cons, cons_middle, app_assoc.
    apply IH; [done|done|lia|lia|]. apply scan_function_spec; [done|done|lia|done|done].
  - apply negb_false_iff in Hp'. rewrite Hp', decide_False by done. apply IH; [done|done|lia|lia|done].
Qed.

Lemma header_bit x : (Z.land (Z.shiftr x 16) 0x80 =? 0) = negb (Z.testbit x 23).
Proof. rewrite (land_bit _ 7 ltac:(lia) : (Z.land _ 0x80 =? 0) = _). by rewrite Z.shiftr_spec. Qed.

Lemma scan_device_spec cfg l b dv p :
  0 ≤ b < 256 → 0 ≤ dv < 32 → scanned cfg l p → scanned cfg (l ++ device_functions cfg b dv) (scan_device b dv p).
Proof.
  intros Hb Hd Hs. unfold scan_device, device_functions. destruct (read32_spec b dv 0 0x00 (pc_dev p)) as (d1 & -> & C1); [lia..|done|].
  rewrite (sc_cfg _ _ _ Hs), land_ffff in *. assert (scanned cfg l (set_pcdev d1 p)) as Hs1 by (by apply scanned_dev).
  destruct (fn_present cfg b dv 0) eqn:Hp; unfold fn_present in Hp.
  - apply negb_true_iff in Hp as Hp'. rewrite Hp'. pose proof (scan_function_spec cfg l b dv 0 _ Hb Hd ltac:(lia) Hs1 Hp) as Hs2.
    set (p2 := scan_function _ _ _ _) in *. destruct (read32_spec b dv 0 0x0C (pc_dev p2)) as (d3 & -> & C3); [lia..|done|].
    rewrite (sc_cfg _ _ _ Hs2) in *. assert (scanned cfg (l ++ [(b, dv, 0)]) (set_pcdev d3 p2)) as Hs3 by (by apply scanned_dev).
    rewrite header_bit. destruct (Z.testbit (cfg b dv 0 12) 23); cbn [negb]; [|done].
    rewrite cons_middle, app_assoc. by apply (scan_functions_spec cfg 7).
  - apply negb_false_iff in Hp. rewrite Hp. by rewrite app_nil_r.
Qed.

Lemma scan_bus_spec cfg n : ∀ dv l b p,
  0 ≤ b < 256 → 0 ≤ dv → dv + Z.of_nat n = 32 → scanned cfg l p →
  scanned cfg (l ++ (seqZ dv (Z.of_nat n) ≫= device_functions cfg b)) (scan_bus n dv b p).
Proof.
  induction n as [|n IH]; intros dv l b p Hb Hd Hn Hs; cbn [scan_bus]; [by rewrite app_nil_r|].
  rewrite seqZ_cons by lia. replace (Z.pred (Z.of_nat (S n))) with (Z.of_nat n) by lia. cbn [mbind list_bind].
  rewrite app_assoc. apply IH; [done|lia|lia|]. apply scan_device_spec; [done|lia|done].
Qed.

Lemma scan_buses_spec cfg n : ∀ b l p,
  0 ≤ b → b + Z.of_nat n = 256 → scanned cfg l p →
  scanned cfg (l ++ (seqZ b (Z.of_nat n) ≫= bus_functions cfg)) (scan_buses n b p).
Proof.
  induction n as [|n IH]; intros b l p Hb Hn Hs; cbn [scan_buses]; [by rewrite app_nil_r|].
  rewrite seqZ_cons by lia. replace (Z.pred (Z.of_nat (S n))) with (Z.of_nat n) by lia. cbn [mbind list_bind].
  rewrite app_assoc. apply IH; [lia|lia|]. apply (scan_bus_spec cfg 32); [lia|lia|done|done].
Qed.

Lemma pci_scan_spec p : scanned (pci_cfg (pc_dev p)) (machine_functions (pci_cfg (pc_dev p))) (pci_scan p).
Proof. unfold pci_scan. apply (scan_buses_spec _ 256 0 []); [lia|done|]. by split. Qed.

(** The answer of a search is the first match. *)
Lemma find_where_spec P p :
  match find_where P p with
  | Some i => 0 ≤ i < pci_device_count p ∧ P (pci_devices p i) = true ∧ ∀ j, 0 ≤ j < i → P (pci_devices p j) = false
  | None => ∀ j, 0 ≤ j < pci_device_count p → P (pci_devices p j) = false
  end.
Proof.
  unfold find_where. destruct (find_some _ _) as [i|] eqn:E.
  - apply find_some_Some in E as (l1 & y & l2 & El & Ey & Hl). destruct (P (pci_devices p y)) eqn:Hy; [|done].
    injection Ey as ->. assert (seqZ 0 (pci_device_count p) !! length l1 = Some i) as Hi by (by rewrite El, list_lookup_middle).
    apply lookup_seqZ in Hi as [Hi Hlt]. split_and!; [lia|lia|done|]. intros j Hj.
    assert (l1 !! Z.to_nat j = Some j) as Hj1.
    { rewrite <-(lookup_app_l l1 (i :: l2)) by lia. rewrite <-El. apply lookup_seqZ. lia. }
    apply (Forall_lookup_1 _ _ _ _ Hl) in Hj1. by destruct (P (pci_devices p j)).
  - intros j Hj. apply find_some_None with (x := j) in E; [|by apply elem_of_seqZ]. by destruct (P (pci_devices p j)).
Qed.

(** The ids in the first register of a function. *)
Definition has_ids (cfg : Z → Z → Z → Z → Z) (vendor did : Z) (x : Z * Z * Z) : Prop :=
  let '(b, dv, f) := x in cfg b dv f 0 mod 2 ^ 16 = vendor ∧ cfg b dv f 0 / 2 ^ 16 = did.

Lemma describes_ids cfg y x vendor did :
  describes cfg y x → (vendor_id y =? vendor) && (device_id y =? did) = true ↔ has_ids cfg vendor did x.
Proof.
  destruct x as [[b dv] f]. intros [[= E3 E4 E5] [D1 D2] _ _ _ _]. rewrite E3, E4, E5 in D1, D2.
  rewrite D1, D2, andb_true_iff, !Z.eqb_eq. done.
Qed.

(** C19: Finding devices.  [pci_scan] lists the functions of all buses in order, up
    to 256 of them, each with its identification, class, interrupt and base
    address registers; a device that is not multifunction is asked for its first
    function only.  [pci_find_device] answers the first of the list with the ids
    it is given, and NULL only when none has them. *)
Theorem pci_scan_complete p vendor did :
  let cfg := pci_cfg (pc_dev p) in
  let l := take 256 (machine_functions cfg) in
  let q := pci_scan p in
  pci_device_count q = Z.of_nat (length l)
  ∧ (∀ i x, l !! i = Some x → describes cfg (pci_devices q (Z.of_nat i)) x)
  ∧ match pci_find_device vendor did q with
    | Some i => ∃ n x, i = Z.of_nat n ∧ l !! n = Some x ∧ has_ids cfg vendor did x
        ∧ ∀ m y, (m < n)%nat → l !! m = Some y → ¬ has_ids cfg vendor did y
    | None => ∀ x, x ∈ l → ¬ has_ids cfg vendor did x
    end.
Proof.
  intros cfg l q. destruct (pci_scan_spec p) as [S1 S2 S3]. fold cfg q in S1, S2, S3.
  assert (pci_device_count q = Z.of_nat (length l)) as Hc by (unfold l; rewrite length_take; done).
  split_and!; [done|exact S3|].
  pose proof (find_where_spec (λ x, (vendor_id x =? vendor) && (device_id x =? did)) q) as Hf. unfold pci_find_device.
  destruct (find_where _ q) as [i|].
  - destruct Hf as (Hi & Hp & Hfirst). destruct (lookup_lt_is_Some_2 l (Z.to_nat i)) as [x Hx]; [lia|].
    exists (Z.to_nat i), x. split_and!; [lia|done| |].
    + apply (describes_ids _ _ _ _ _ (S3 _ _ Hx)). by rewrite Z2Nat.id by lia.
    + intros m y Hm Hy Hid. apply (describes_ids _ _ _ _ _ (S3 _ _ Hy)) in Hid. by rewrite Hfirst in Hid by lia.
  - intros x [i Hi]%list_elem_of_lookup Hid. pose proof (lookup_lt_Some _ _ _ Hi) as Hlt.
    apply (describes_ids _ _ _ _ _ (S3 _ _ Hi)) in Hid. by rewrite Hf in Hid by lia.
Qed.
End scan.

(** ** Mapped registers *)

Section mapping.
Context {A : Type} `{FrameAllocator A}.
Implicit Types (s : vmm A) (T : gmap Z label).

Lemma mmio_ok : flags_ok VMM_MMIO.
Proof. unfold flags_ok. by vm_compute. Qed.

(** The four pages of a range that starts on a page. *)
Lemma map_four T s r virt phys :
  pt_wf T s → is_root T r → kernel_pml4 s = r * PAGE_SIZE → virt mod PAGE_SIZE = 0 → phys mod PAGE_SIZE = 0 →
  0 ≤ phys → phys + 4 * PAGE_SIZE ≤ 2 ^ 52 →
  ∃ s' T', vmm_map_range (kernel_pml4 s) virt phys (4 * PAGE_SIZE) VMM_MMIO s = Some s' ∧ vm_ext T s T' s'
    ∧ (frames s' ≠ ∅ → ∀ o, 0 ≤ o < 4 * PAGE_SIZE → vmm_translate (r * PAGE_SIZE) (virt + o) (vm_mem s') = phys + o).
Proof.
  intros Hwf Hr -> Hv Hp Hp0 Hp1. unfold vmm_map_range. change (Z.to_nat (ALIGN_UP (4 * PAGE_SIZE) PAGE_SIZE / PAGE_SIZE)) with 4%nat.
  destruct (map_loop_spec (λ i, u64 (virt + i * PAGE_SIZE)) (λ i, u64 (phys + i * PAGE_SIZE)) (virt / PAGE_SIZE) VMM_MMIO r)
    with (n := 4%nat) (i := 0) (T := T) (s := s) as (s' & T' & E & Hext & Htr);
    [intros i; apply vpn_range_page|exact mmio_ok|done|done|lia|lia|].
  exists s', T'. split_and!; [done|done|]. intros Hne o Ho. rewrite Htr by done.
  assert (page_off (virt / PAGE_SIZE) (virt + o) = o / PAGE_SIZE) as Eo.
  { apply page_off_eq; [unfold PAGE_SIZE in *; Z.to_euclidean_division_equations; lia|]. unfold vpn. f_equal.
    unfold PAGE_SIZE in *. Z.to_euclidean_division_equations. lia. }
  rewrite Eo, decide_True by (unfold PAGE_SIZE in *; Z.to_euclidean_division_equations; lia).
  rewrite u64_small by (unfold PAGE_SIZE in *; Z.to_euclidean_division_equations; lia).
  replace (phys + o / PAGE_SIZE * PAGE_SIZE) with ((phys / PAGE_SIZE + o / PAGE_SIZE) * PAGE_SIZE)
    by (unfold PAGE_SIZE in *; Z.to_euclidean_division_equations; lia).
  rewrite mapped_to_page by (unfold PAGE_SIZE in *; Z.to_euclidean_division_equations; lia).
  unfold PAGE_SIZE in *. Z.to_euclidean_division_equations. lia.
Qed.

(** What a new address space translates in its lower half. *)
Lemma new_space_lower T s k :
  pt_wf T s → is_root T k → kernel_pml4 s = k * PAGE_SIZE → frames s ≠ ∅ →
  ∃ f s', vmm_create_address_space s = Some (f * PAGE_SIZE, s')
    ∧ ∀ v, PML4_IDX v < 256 → vmm_translate (f * PAGE_SIZE) v (vm_mem s') = 0.
Proof.
  intros Hwf Hk Ek Hne. destruct (vmm_create_address_space_spec T s k Hwf Hk Ek) as (page & s' & E & _ & _ & _ & Hres).
  destruct Hres as [(_ & ? & _)|(f & -> & Hf & Hfr & Hwf' & Hrc)]; [done|]. exists f, s'. split; [done|]. intros v Hv.
  rewrite (vmm_translate_pte _ _ f v Hwf' (lookup_insert_eq _ _ _)), (rc_pte T s (vm_mem s') k f v Hwf Hk Hrc).
  by rewrite (proj2 (Z.ltb_lt _ _) Hv).
Qed.

(** Registers of a device.  [pci_map_bar] maps the first 16 KB of a memory
    region at its physical address plus KERNEL_VIRT_BASE in the kernel's address
    space.  For a region at 2 GB or above, where devices usually are, the sum
    wraps around into the lower half, so an address space created afterwards
    does not have the mapping. *)
Theorem pci_map_bar_correct T s r x idx phys :
  pt_wf T s → is_root T r → kernel_pml4 s = r * PAGE_SIZE →
  pci_bar_is_mmio x idx = Some true → pci_bar_address x idx = Some phys →
  phys mod PAGE_SIZE = 0 → 0 ≤ phys → phys + 4 * PAGE_SIZE ≤ 2 ^ 46 →
  let virt := u64 (KERNEL_VIRT_BASE + phys) in
  ∃ s' T', pci_map_bar x idx s = Some (virt, s') ∧ pt_wf T' s'
    ∧ (frames s' ≠ ∅ → ∀ o, 0 ≤ o < 4 * PAGE_SIZE → vmm_translate (r * PAGE_SIZE) (virt + o) (vm_mem s') = phys + o)
    ∧ (2 ^ 31 ≤ phys → frames s' ≠ ∅ →
       virt = phys - 2 ^ 31
       ∧ ∃ f s2, vmm_create_address_space s' = Some (f * PAGE_SIZE, s2)
         ∧ ∀ o, 0 ≤ o < 4 * PAGE_SIZE → vmm_translate (f * PAGE_SIZE) (virt + o) (vm_mem s2) = 0).
Proof.
  intros Hwf Hr Ek Hm Ha Hp Hp0 Hp1 virt. unfold pci_map_bar. rewrite Hm. cbn [mbind option_bind negb]. rewrite Ha. cbn [mbind option_bind].
  fold virt. assert (virt mod PAGE_SIZE = 0) as Hv.
  { unfold virt, u64, KERNEL_VIRT_BASE, PAGE_SIZE in *. Z.to_euclidean_division_equations. lia. }
  destruct (map_four T s r virt phys Hwf Hr Ek Hv Hp Hp0) as (s' & T' & -> & Hext & Htr); [lia|]. cbn [mbind option_bind].
  exists s', T'. split_and!; [done|apply Hext|exact Htr|]. intros Hhigh Hne.
  assert (virt = phys - 2 ^ 31) as Ev.
  { unfold virt, u64, KERNEL_VIRT_BASE. symmetry. apply (Z.mod_unique _ _ 1); unfold PAGE_SIZE in *; lia. }
  split; [done|]. destruct (ext_regs _ _ _ _ Hext) as [Ek' _].
  destruct (new_space_lower T' s' r (ext_wf _ _ _ _ Hext)) as (f & s2 & E2 & Hl); [by eapply ext_root|congruence|done|].
  exists f, s2. split; [done|]. intros o Ho. apply Hl. unfold PML4_IDX. rewrite idx_eq by lia. rewrite Ev.
  unfold PAGE_SIZE in *. Z.to_euclidean_division_equations. lia.
Qed.
End mapping.

(** ** Samples *)

(** A machine with a network card that has one memory region, on bus 0. *)
Definition sample_cfg (b dv f r : Z) : Z :=
  if (b =? 0) && (dv =? 3) && (f =? 0) then
    if r =? 0 then 0x813910EC else if r =? 8 then 0x02000010 else if r =? 0x10 then 0xFEBF0000 else 0
  else 0xFFFFFFFF.

(** The bridge holds the last address. *)
#[export] Instance bridge_ports : PortIO Z := {
  port_in w p a := (sample_cfg (Z.land (Z.shiftr a 16) 0xFF) (Z.land (Z.shiftr a 11) 0x1F) (Z.land (Z.shiftr a 8) 7) (Z.land a 0xFC), a);
  port_out w p v a := if p =? PCI_ADDR_PORT then v else a;
}.

#[export] Instance bridge_host : PciHost Z.
Proof.
  refine {| pci_latch := id; pci_cfg := λ _, sample_cfg |}.
  - intros d b dv f r. unfold sample_cfg. repeat case_match; lia.
  - done.
  - intros d v d1 _ [= <- <-]. done.
Defined.

Definition no_function : pci_device :=
  {| bus := 0; device := 0; function := 0; vendor_id := 0; device_id := 0; class_code := 0; subclass := 0; prog_if := 0;
     header_type := 0; revision := 0; irq_line := 0; irq_pin := 0; bar := λ _, 0 |}.

Lemma pci_scan_complete_witness :
  let p := {| pc_dev := 0; pci_devices := λ _, no_function; pci_device_count := 5 |} in
  pci_device_count (pci_scan p) = 1.
Proof.
  intros p. destruct (pci_scan_complete p 0x10EC 0x8139) as (E & _ & _). rewrite E. by vm_compute.
Defined.

Lemma pci_map_bar_correct_witness :
  ∃ (p : pmm) s', pci_map_bar {| bus := 0; device := 3; function := 0; vendor_id := 0x10EC; device_id := 0x8139; class_code := 2;
      subclass := 0; prog_if := 0; header_type := 0; revision := 0x10; irq_line := 11; irq_pin := 1; bar := λ _, 0xFEBF0000 |} 0
    (sample_vmm p) = Some (0x7EBF0000, s').
Proof.
  destruct sample_wf as (p & Hwf & _). exists p.
  destruct (pci_map_bar_correct _ _ 1
      {| bus := 0; device := 3; function := 0; vendor_id := 0x10EC; device_id := 0x8139; class_code := 2;
         subclass := 0; prog_if := 0; header_type := 0; revision := 0x10; irq_line := 11; irq_pin := 1; bar := λ _, 0xFEBF0000 |}
      0 0xFEBF0000 Hwf (lookup_singleton_eq _ _) eq_refl eq_refl eq_refl eq_refl ltac:(lia) ltac:(unfold PAGE_SIZE; lia))
    as (s' & _ & E & _). exists s'. exact E.
Defined.
