(* ===== verification/Gfx.v ===== *)
(** Model of kernel/drivers/gpu/framebuffer.c and gfx.c: the linear frame buffer
    and drawing in it.

    The buffer is byte memory; [int] arithmetic that would overflow is [None], as
    is a division by zero and fuel that ran out. *)
From stdpp Require Import prelude.
From S2P Require Import Prelude CString FrameAlloc Vmm Ports Printf Console Pci.

Record framebuffer := {
  phys_base : Z;
  virt_base : Z;
  width : Z;
  height : Z;
  pitch : Z;
  bpp : Z;
  red_offset : Z;
  green_offset : Z;
  blue_offset : Z;
  fb_valid : bool;
}.

(** [memset(&g_fb, 0, sizeof(g_fb))] *)
Definition zero_fb : framebuffer :=
  {| phys_base := 0; virt_base := 0; width := 0; height := 0; pitch := 0; bpp := 0;
     red_offset := 0; green_offset := 0; blue_offset := 0; fb_valid := false |}.

(** ** Discovery *)

Definition fb_from_boot_info : bool := false.

Section init.
Context {A D : Type} `{FrameOps A}.

(** What the function leaves in [g_fb], [None] where it returns false. *)
Definition fb_from_pci (p : pci D) (s : vmm A) : option (option framebuffer * vmm A) :=
  match (match pci_find_device 0x1234 0x1111 p with Some i => Some i | None => pci_find_class 0x03 0x00 p end) with
  | None => Some (None, s)
  | Some i =>
      let pdev := pci_devices p i in
      bar0 ← pci_bar_address pdev 0;
      mmio ← pci_bar_is_mmio pdev 0;
      if (bar0 =? 0) || negb mmio then Some (None, s)
      else
        let virt := u64 (KERNEL_VIRT_BASE + bar0) in
        s ← vmm_map_range (kernel_pml4 s) virt bar0 (3 * 1024 * 1024) VMM_MMIO s;
        Some (Some {| phys_base := bar0; virt_base := virt; width := 1024; height := 768; pitch := 1024 * 4; bpp := 32;
                      red_offset := 16; green_offset := 8; blue_offset := 0; fb_valid := true |}, s)
  end.

Definition fb_init (p : pci D) (s : vmm A) : option (bool * framebuffer * vmm A) :=
  if fb_from_boot_info then Some (true, zero_fb, s)
  else
    '(r, s) ← fb_from_pci p s;
    match r with Some fb => Some (true, fb, s) | None => Some (false, zero_fb, s) end.
End init.

(** ** Pixels *)

Definition fb_make_color (r g b : Z) (fb : framebuffer) : Z :=
  Z.lor (Z.lor (u32 (Z.shiftl r (red_offset fb))) (u32 (Z.shiftl g (green_offset fb)))) (u32 (Z.shiftl b (blue_offset fb))).

Definition fb_put_pixel (fb : framebuffer) (x y color : Z) (m : mem) : mem :=
  if negb (fb_valid fb) || (width fb <=? x) || (height fb <=? y) then m
  else store_le 4 m (virt_base fb + u32 (y * pitch fb) + 4 * x) color.

(** [for (i...; i < pixels; i++) fb[i] = color;] *)
Fixpoint clear_loop (n : nat) (i base color : Z) (m : mem) : mem :=
  match n with
  | O => m
  | S n => clear_loop n (i + 1) base color (store_le 4 m (base + 4 * i) color)
  end.

Definition fb_clear (fb : framebuffer) (color : Z) (m : mem) : option mem :=
  if negb (fb_valid fb) then Some m
  else if bpp fb / 8 =? 0 then None
  else Some (clear_loop (Z.to_nat (u32 (height fb * (pitch fb / (bpp fb / 8))))) 0 (virt_base fb) color m).

(** ** Shapes *)

Fixpoint rect_cols (n : nat) (col row color : Z) (fb : framebuffer) (m : mem) : mem :=
  match n with
  | O => m
  | S n => rect_cols n (col + 1) row color fb (fb_put_pixel fb col row color m)
  end.

Fixpoint rect_rows (n : nat) (row x w color : Z) (fb : framebuffer) (m : mem) : mem :=
  match n with
  | O => m
  | S n => rect_rows n (row + 1) x w color fb (rect_cols (Z.to_nat (u32 (x + w) - x)) x row color fb m)
  end.

(** [row] runs from [y] while it is below the wrapped [y + h]. *)
Definition gfx_draw_rect (fb : framebuffer) (x y w h color : Z) (m : mem) : mem :=
  rect_rows (Z.to_nat (u32 (y + h) - y)) y x w color fb m.

(** An [int] result, [None] on overflow. *)
Definition int (x : Z) : option Z := if (- 2 ^ 31 <=? x) && (x <? 2 ^ 31) then Some x else None.

Fixpoint line_loop (fuel : nat) (x0 y0 x1 y1 dx dy sx sy err color : Z) (fb : framebuffer) (m : mem) : option mem :=
  match fuel with
  | O => None
  | S n =>
      let m := fb_put_pixel fb (u32 x0) (u32 y0) color m in
      if (x0 =? x1) && (y0 =? y1) then Some m
      else
        e2 ← int (2 * err);
        '(err, x0) ← (if dy <=? e2 then err ← int (err + dy); x0 ← int (x0 + sx); Some (err, x0) else Some (err, x0));
        '(err, y0) ← (if e2 <=? dx then err ← int (err + dx); y0 ← int (y0 + sy); Some (err, y0) else Some (err, y0));
        line_loop n x0 y0 x1 y1 dx dy sx sy err color fb m
  end.

Definition gfx_draw_line (fuel : nat) (fb : framebuffer) (x0 y0 x1 y1 color : Z) (m : mem) : option mem :=
  dx ← int (if x0 <? x1 then x1 - x0 else x0 - x1);
  ady ← int (if y0 <? y1 then y1 - y0 else y0 - y1);
  let dy := - ady in
  let sx := if x0 <? x1 then 1 else -1 in
  let sy := if y0 <? y1 then 1 else -1 in
  err ← int (dx + dy);
  line_loop fuel x0 y0 x1 y1 dx dy sx sy err color fb m.

(** ** Text *)

Definition FONT_FIRST : Z := 0x20.
Definition FONT_LAST : Z := 0x7E.

Definition font8x8 : list (list Z) :=
  [[0x00; 0x00; 0x00; 0x00; 0x00; 0x00; 0x00; 0x00];
   [0x18; 0x18; 0x18; 0x18; 0x00; 0x18; 0x18; 0x00];
   [0x6C; 0x6C; 0x24; 0x00; 0x00; 0x00; 0x00; 0x00];
   [0x36; 0x36; 0x7F; 0x36; 0x7F; 0x36; 0x36; 0x00];
   [0x0C; 0x3F; 0x68; 0x3E; 0x0B; 0x7E; 0x18; 0x00];
   [0x60; 0x66; 0x0C; 0x18; 0x30; 0x66; 0x06; 0x00];
   [0x38; 0x6C; 0x38; 0x76; 0xDC; 0xCC; 0x76; 0x00];
   [0x0C; 0x0C; 0x18; 0x00; 0x00; 0x00; 0x00; 0x00];
   [0x0C; 0x18; 0x30; 0x30; 0x30; 0x18; 0x0C; 0x00];
   [0x30; 0x18; 0x0C; 0x0C; 0x0C; 0x18; 0x30; 0x00];
   [0x00; 0x18; 0x7E; 0x3C; 0x7E; 0x18; 0x00; 0x00];
   [0x00; 0x18; 0x18; 0x7E; 0x18; 0x18; 0x00; 0x00];
   [0x00; 0x00; 0x00; 0x00; 0x00; 0x18; 0x18; 0x30];
   [0x00; 0x00; 0x00; 0x7E; 0x00; 0x00; 0x00; 0x00];
   [0x00; 0x00; 0x00; 0x00; 0x00; 0x18; 0x18; 0x00];
   [0x06; 0x0C; 0x18; 0x30; 0x60; 0x40; 0x00; 0x00];
   [0x3C; 0x66; 0x6E; 0x76; 0x66; 0x66; 0x3C; 0x00];
   [0x18; 0x38; 0x18; 0x18; 0x18; 0x18; 0x7E; 0x00];
   [0x3C; 0x66; 0x06; 0x0C; 0x18; 0x30; 0x7E; 0x00];
   [0x3C; 0x66; 0x06; 0x1C; 0x06; 0x66; 0x3C; 0x00];
   [0x0E; 0x1E; 0x36; 0x66; 0x7F; 0x06; 0x06; 0x00];
   [0x7E; 0x60; 0x7C; 0x06; 0x06; 0x66; 0x3C; 0x00];
   [0x1C; 0x30; 0x60; 0x7C; 0x66; 0x66; 0x3C; 0x00];
   [0x7E; 0x06; 0x0C; 0x18; 0x30; 0x30; 0x30; 0x00];
   [0x3C; 0x66; 0x66; 0x3C; 0x66; 0x66; 0x3C; 0x00];
   [0x3C; 0x66; 0x66; 0x3E; 0x06; 0x0C; 0x38; 0x00];
   [0x00; 0x18; 0x18; 0x00; 0x00; 0x18; 0x18; 0x00];
   [0x00; 0x18; 0x18; 0x00; 0x00; 0x18; 0x18; 0x30];
   [0x0C; 0x18; 0x30; 0x60; 0x30; 0x18; 0x0C; 0x00];
   [0x00; 0x00; 0x7E; 0x00; 0x7E; 0x00; 0x00; 0x00];
   [0x30; 0x18; 0x0C; 0x06; 0x0C; 0x18; 0x30; 0x00];
   [0x3C; 0x66; 0x06; 0x0C; 0x18; 0x00; 0x18; 0x00];
   [0x3E; 0x63; 0x6F; 0x69; 0x6F; 0x60; 0x3E; 0x00];
   [0x18; 0x3C; 0x66; 0x7E; 0x66; 0x66; 0x66; 0x00];
   [0x7C; 0x66; 0x66; 0x7C; 0x66; 0x66; 0x7C; 0x00];
   [0x3C; 0x66; 0x60; 0x60; 0x60; 0x66; 0x3C; 0x00];
   [0x78; 0x6C; 0x66; 0x66; 0x66; 0x6C; 0x78; 0x00];
   [0x7E; 0x60; 0x60; 0x7C; 0x60; 0x60; 0x7E; 0x00];
   [0x7E; 0x60; 0x60; 0x7C; 0x60; 0x60; 0x60; 0x00];
   [0x3C; 0x66; 0x60; 0x6E; 0x66; 0x66; 0x3C; 0x00];
   [0x66; 0x66; 0x66; 0x7E; 0x66; 0x66; 0x66; 0x00];
   [0x3C; 0x18; 0x18; 0x18; 0x18; 0x18; 0x3C; 0x00];
   [0x1E; 0x0C; 0x0C; 0x0C; 0x0C; 0x6C; 0x38; 0x00];
   [0x66; 0x6C; 0x78; 0x70; 0x78; 0x6C; 0x66; 0x00];
   [0x60; 0x60; 0x60; 0x60; 0x60; 0x60; 0x7E; 0x00];
   [0x63; 0x77; 0x7F; 0x6B; 0x63; 0x63; 0x63; 0x00];
   [0x66; 0x76; 0x7E; 0x6E; 0x66; 0x66; 0x66; 0x00];
   [0x3C; 0x66; 0x66; 0x66; 0x66; 0x66; 0x3C; 0x00];
   [0x7C; 0x66; 0x66; 0x7C; 0x60; 0x60; 0x60; 0x00];
   [0x3C; 0x66; 0x66; 0x66; 0x6E; 0x3C; 0x06; 0x00];
   [0x7C; 0x66; 0x66; 0x7C; 0x6C; 0x66; 0x66; 0x00];
   [0x3C; 0x66; 0x60; 0x3C; 0x06; 0x66; 0x3C; 0x00];
   [0x7E; 0x18; 0x18; 0x18; 0x18; 0x18; 0x18; 0x00];
   [0x66; 0x66; 0x66; 0x66; 0x66; 0x66; 0x3C; 0x00];
   [0x66; 0x66; 0x66; 0x66; 0x66; 0x3C; 0x18; 0x00];
   [0x63; 0x63; 0x63; 0x6B; 0x7F; 0x77; 0x63; 0x00];
   [0x66; 0x66; 0x3C; 0x18; 0x3C; 0x66; 0x66; 0x00];
   [0x66; 0x66; 0x66; 0x3C; 0x18; 0x18; 0x18; 0x00];
   [0x7E; 0x06; 0x0C; 0x18; 0x30; 0x60; 0x7E; 0x00];
   [0x3C; 0x30; 0x30; 0x30; 0x30; 0x30; 0x3C; 0x00];
   [0x60; 0x30; 0x18; 0x0C; 0x06; 0x03; 0x00; 0x00];
   [0x3C; 0x0C; 0x0C; 0x0C; 0x0C; 0x0C; 0x3C; 0x00];
   [0x18; 0x3C; 0x66; 0x00; 0x00; 0x00; 0x00; 0x00];
   [0x00; 0x00; 0x00; 0x00; 0x00; 0x00; 0xFF; 0x00];
   [0x18; 0x18; 0x0C; 0x00; 0x00; 0x00; 0x00; 0x00];
   [0x00; 0x00; 0x3C; 0x06; 0x3E; 0x66; 0x3E; 0x00];
   [0x60; 0x60; 0x7C; 0x66; 0x66; 0x66; 0x7C; 0x00];
   [0x00; 0x00; 0x3C; 0x60; 0x60; 0x60; 0x3C; 0x00];
   [0x06; 0x06; 0x3E; 0x66; 0x66; 0x66; 0x3E; 0x00];
   [0x00; 0x00; 0x3C; 0x66; 0x7E; 0x60; 0x3C; 0x00];
   [0x1C; 0x30; 0x30; 0x7C; 0x30; 0x30; 0x30; 0x00];
   [0x00; 0x00; 0x3E; 0x66; 0x66; 0x3E; 0x06; 0x7C];
   [0x60; 0x60; 0x7C; 0x66; 0x66; 0x66; 0x66; 0x00];
   [0x18; 0x00; 0x38; 0x18; 0x18; 0x18; 0x3C; 0x00];
   [0x06; 0x00; 0x0E; 0x06; 0x06; 0x06; 0x66; 0x3C];
   [0x60; 0x60; 0x66; 0x6C; 0x78; 0x6C; 0x66; 0x00];
   [0x38; 0x18; 0x18; 0x18; 0x18; 0x18; 0x3C; 0x00];
   [0x00; 0x00; 0x66; 0x7F; 0x7F; 0x6B; 0x63; 0x00];
   [0x00; 0x00; 0x7C; 0x66; 0x66; 0x66; 0x66; 0x00];
   [0x00; 0x00; 0x3C; 0x66; 0x66; 0x66; 0x3C; 0x00];
   [0x00; 0x00; 0x7C; 0x66; 0x66; 0x7C; 0x60; 0x60];
   [0x00; 0x00; 0x3E; 0x66; 0x66; 0x3E; 0x06; 0x06];
   [0x00; 0x00; 0x6C; 0x76; 0x60; 0x60; 0x60; 0x00];
   [0x00; 0x00; 0x3C; 0x60; 0x3C; 0x06; 0x7C; 0x00];
   [0x30; 0x30; 0x7C; 0x30; 0x30; 0x30; 0x1C; 0x00];
   [0x00; 0x00; 0x66; 0x66; 0x66; 0x66; 0x3E; 0x00];
   [0x00; 0x00; 0x66; 0x66; 0x66; 0x3C; 0x18; 0x00];
   [0x00; 0x00; 0x63; 0x6B; 0x7F; 0x3E; 0x22; 0x00];
   [0x00; 0x00; 0x66; 0x3C; 0x18; 0x3C; 0x66; 0x00];
   [0x00; 0x00; 0x66; 0x66; 0x66; 0x3E; 0x06; 0x7C];
   [0x00; 0x00; 0x7E; 0x0C; 0x18; 0x30; 0x7E; 0x00];
   [0x0E; 0x18; 0x18; 0x70; 0x18; 0x18; 0x0E; 0x00];
   [0x18; 0x18; 0x18; 0x00; 0x18; 0x18; 0x18; 0x00];
   [0x70; 0x18; 0x18; 0x0E; 0x18; 0x18; 0x70; 0x00];
   [0x76; 0xDC; 0x00; 0x00; 0x00; 0x00; 0x00; 0x00]].

Fixpoint glyph_cols (n : nat) (col x y bits fg bg : Z) (fb : framebuffer) (m : mem) : mem :=
  match n with
  | O => m
  | S n =>
      let color := if Z.land bits (Z.shiftr 0x80 col) =? 0 then bg else fg in
      glyph_cols n (col + 1) x y bits fg bg fb (fb_put_pixel fb (u32 (x + col)) y color m)
  end.

Fixpoint glyph_rows (glyph : list Z) (row x y fg bg : Z) (fb : framebuffer) (m : mem) : mem :=
  match glyph with
  | [] => m
  | bits :: g => glyph_rows g (row + 1) x y fg bg fb (glyph_cols 8 0 x (u32 (y + row)) bits fg bg fb m)
  end.

Definition gfx_draw_char (fb : framebuffer) (x y c fg bg : Z) (m : mem) : option mem :=
  if negb (fb_valid fb) then Some m
  else
    let c := if (c <? FONT_FIRST) || (FONT_LAST <? c) then 63 else c in
    glyph ← font8x8 !! Z.to_nat (u8 (c - FONT_FIRST));
    Some (glyph_rows glyph 0 x y fg bg fb m).

(** The cursor is [cx], [y]. *)
Fixpoint string_loop (fuel : nat) (fb : framebuffer) (x cx y : Z) (s : Z → Z) (i fg bg : Z) (m : mem) : option mem :=
  match fuel with
  | O => None
  | S n =>
      if s i =? 0 then Some m
      else if s i =? 10 then string_loop n fb x x (u32 (y + 9)) s (i + 1) fg bg m
      else m ← gfx_draw_char fb cx y (s i) fg bg m; string_loop n fb x (u32 (cx + 9)) y s (i + 1) fg bg m
  end.

Definition gfx_draw_string (fuel : nat) (fb : framebuffer) (x y : Z) (s : Z → Z) (fg bg : Z) (m : mem) : option mem :=
  string_loop fuel fb x x y s 0 fg bg m.
