(* ===== verification/GfxProps.v ===== *)
(** Drawing in the frame buffer: pixels, and the lines of
    kernel/drivers/gpu/gfx.c against the straight line. *)
From stdpp Require Import prelude.
From S2P Require Import Prelude CString FrameAlloc Vmm Ports Printf Console Pci Gfx.

(** ** Pixels *)

Section pixels.
Variable fb : framebuffer.

(** The buffer [fb_init] describes: rows do not overlap, offsets do not wrap. *)
Record fb_wf : Prop := {
  fw_valid : fb_valid fb = true;
  fw_width : 0 ≤ width fb;
  fw_pitch : 4 * width fb ≤ pitch fb;
  fw_size : height fb * pitch fb < 2 ^ 32;
  fw_pos : 0 < pitch fb < 2 ^ 32;
}.

Definition on_screen (x y : Z) : Prop := 0 ≤ x < width fb ∧ 0 ≤ y < height fb.
Definition pixel (m : mem) (x y : Z) : Z := load_le 4 m (virt_base fb + y * pitch fb + 4 * x).

Lemma put_pixel_get a b x y c m :
  fb_wf → on_screen a b → 0 ≤ x → 0 ≤ y → 0 ≤ c < 2 ^ 32 →
  pixel (fb_put_pixel fb x y c m) a b = if decide (x = a ∧ y = b) then c else pixel m a b.
Proof.
  intros [F1 F2 F3 F4 F5] [Ha Hb] Hx Hy Hc. unfold fb_put_pixel. rewrite F1. cbn [negb orb].
  destruct (Z.leb_spec (width fb) x); cbn [orb]; [by rewrite decide_False by lia|].
  destruct (Z.leb_spec (height fb) y); [by rewrite decide_False by lia|].
  rewrite (u32_small (y * pitch fb)) by nia. unfold pixel. case_decide as E.
  - destruct E as [-> ->]. rewrite load_store_le_eq. apply Z.mod_small. done.
  - apply load_store_le_ne. change (Z.of_nat 4) with 4. destruct (Z.lt_trichotomy y b) as [Hlt|[->|Hgt]]; [|lia|]; nia.
Qed.

(** Points drawn in a colour, one after the other. *)
Definition draw_points (pts : list (Z * Z)) (c : Z) (m : mem) : mem :=
  foldl (λ m '(x, y), fb_put_pixel fb (u32 x) (u32 y) c m) m pts.

Lemma draw_points_get pts a b c m :
  fb_wf → on_screen a b → 0 ≤ c < 2 ^ 32 → Forall (λ '(x, y), - 2 ^ 31 ≤ x < 2 ^ 31 ∧ - 2 ^ 31 ≤ y < 2 ^ 31) pts → height fb ≤ 2 ^ 31 →
  pixel (draw_points pts c m) a b = if decide ((a, b) ∈ pts) then c else pixel m a b.
Proof.
  intros Hw Hs Hc Hp Hh. unfold draw_points. revert m. induction Hp as [|[x y] pts [Hx Hy] Hp IH]; intros m; cbn [foldl].
  { rewrite decide_False; [done|apply not_elem_of_nil]. }
  rewrite IH. rewrite put_pixel_get by (done || unfold u32; apply Z.mod_pos_bound; lia).
  pose proof Hw as [_ F2 F3 F4 F5]. destruct Hs as [Ha Hb].
  assert (u32 x = a ↔ x = a) as Ex by (unfold u32; Z.to_euclidean_division_equations; lia).
  assert (u32 y = b ↔ y = b) as Ey by (unfold u32; Z.to_euclidean_division_equations; lia).
  destruct (decide ((a, b) ∈ pts)) as [Hin|Hin].
  - rewrite decide_True; [done|]. by apply elem_of_cons; right.
  - destruct (decide (u32 x = a ∧ u32 y = b)) as [[E1 E2]|E].
    + apply Ex in E1 as ->. apply Ey in E2 as ->. rewrite decide_True; [done|]. apply elem_of_cons. by left.
    + rewrite decide_False; [done|]. intros [[= -> ->]|?]%elem_of_cons; [|done]. apply E. by split; [apply Ex|apply Ey].
Qed.

(** ** Lines *)

Lemma int_small x : - 2 ^ 31 ≤ x < 2 ^ 31 → int x = Some x.
Proof. intros Hx. unfold int. by rewrite (proj2 (Z.leb_le _ _)), (proj2 (Z.ltb_lt _ _)) by lia. Qed.

Section line.
Context (x0 y0 x1 y1 : Z).
Let DX := Z.abs (x1 - x0).
Let DY := Z.abs (y1 - y0).
Let N := Z.max DX DY.
Let sx := if x0 <? x1 then 1 else -1.
Let sy := if y0 <? y1 then 1 else -1.

(** After [k] steps, [a] of them to the side and [b] of them up: half a pixel
    from the line at most, and one step per unit of the longer side. *)
Definition on_line (k a b : Z) : Prop :=
  0 ≤ a ≤ DX ∧ 0 ≤ b ≤ DY ∧ - N ≤ 2 * (a * DY - b * DX) ≤ N
  ∧ (if DY <=? DX then a = k ∧ b ≤ k else b = k ∧ a ≤ k).

Definition line_err (a b : Z) : Z := (b + 1) * DX - (a + 1) * DY.

(** The next point. *)
Definition next_a (a b : Z) : Z := if - DY <=? 2 * line_err a b then a + 1 else a.
Definition next_b (a b : Z) : Z := if 2 * line_err a b <=? DX then b + 1 else b.

Lemma on_line_next k a b : on_line k a b → ¬ (a = DX ∧ b = DY) → on_line (k + 1) (next_a a b) (next_b a b).
Proof.
  intros (Ha & Hb & He & Hk) Hne. unfold next_a, next_b, line_err, on_line in *.
  assert (0 ≤ DX ∧ 0 ≤ DY) as [HX HY] by (unfold DX, DY; lia). unfold N in *.
  destruct (Z.leb_spec DY DX) as [Hxy|Hxy]; destruct Hk as [<- Hk].
  - rewrite Z.max_l in * by lia. assert (a < DX) as Hlt by (destruct (decide (a = DX)) as [->|]; [exfalso; apply Hne; split; [done|]; nia|lia]).
    rewrite (proj2 (Z.leb_le (- DY) _)) by nia.
    destruct (Z.leb_spec (2 * ((b + 1) * DX - (a + 1) * DY)) DX) as [Hs|Hs].
    + assert (b < DY) by nia. split_and!; nia.
    + split_and!; nia.
  - rewrite Z.max_r in * by lia. assert (b < DY) as Hlt by (destruct (decide (b = DY)) as [->|]; [exfalso; apply Hne; split; [|done]; nia|lia]).
    rewrite (proj2 (Z.leb_le _ DX)) by nia.
    destruct (Z.leb_spec (- DY) (2 * ((b + 1) * DX - (a + 1) * DY))) as [Hs|Hs].
    + assert (a < DX) by nia. split_and!; nia.
    + split_and!; nia.
Qed.

Lemma on_line_end k a b : on_line k a b → k = N → a = DX ∧ b = DY.
Proof.
  intros (Ha & Hb & He & Hk) ->. unfold N in *. assert (0 ≤ DX ∧ 0 ≤ DY) as [HX HY] by (unfold DX, DY; lia).
  destruct (Z.leb_spec DY DX); destruct Hk as [E ?].
  - rewrite Z.max_l in * by lia. subst a. split; [done|]. nia.
  - rewrite Z.max_r in * by lia. subst b. split; [|done]. nia.
Qed.

Lemma on_line_bound k a b : on_line k a b → 0 ≤ k ≤ N.
Proof. intros (Ha & Hb & He & Hk). unfold N. destruct (DY <=? DX); lia. Qed.

Lemma line_end a b : 0 ≤ a ≤ DX → 0 ≤ b ≤ DY → (x0 + sx * a =? x1) && (y0 + sy * b =? y1) = true ↔ a = DX ∧ b = DY.
Proof.
  intros Ha Hb. rewrite andb_true_iff, !Z.eqb_eq. unfold sx, sy, DX, DY in *.
  destruct (Z.ltb_spec x0 x1), (Z.ltb_spec y0 y1); lia.
Qed.

(** Coordinates for which no sum overflows. *)
Definition coord (x : Z) : Prop := - 2 ^ 28 ≤ x ≤ 2 ^ 28.

Lemma line_small a b k :
  coord x0 → coord x1 → coord y0 → coord y1 → on_line k a b →
  - 2 ^ 30 < line_err a b < 2 ^ 30 ∧ - 2 ^ 30 < x0 + sx * a < 2 ^ 30 ∧ - 2 ^ 30 < y0 + sy * b < 2 ^ 30 ∧ 0 ≤ DX ≤ 2 ^ 29 ∧ 0 ≤ DY ≤ 2 ^ 29.
Proof.
  unfold coord. intros H1 H2 H3 H4 (Ha & Hb & He & _). unfold line_err, N in *.
  assert (0 ≤ DX ≤ 2 ^ 29 ∧ 0 ≤ DY ≤ 2 ^ 29) as [HX HY] by (unfold DX, DY; lia).
  assert ((b + 1) * DX - (a + 1) * DY = DX - DY - (a * DY - b * DX)) as -> by lia.
  split_and!; try lia; unfold sx, sy; destruct (x0 <? x1), (y0 <? y1); lia.
Qed.

(** One step of the loop from a point that is not the last. *)
Lemma line_step n a b k c m :
  coord x0 → coord x1 → coord y0 → coord y1 → on_line k a b → ¬ (a = DX ∧ b = DY) →
  line_loop (S n) (x0 + sx * a) (y0 + sy * b) x1 y1 DX (- DY) sx sy (line_err a b) c fb m
  = line_loop n (x0 + sx * next_a a b) (y0 + sy * next_b a b) x1 y1 DX (- DY) sx sy (line_err (next_a a b) (next_b a b)) c fb
      (fb_put_pixel fb (u32 (x0 + sx * a)) (u32 (y0 + sy * b)) c m).
Proof.
  intros C1 C2 C3 C4 Hl Hne. pose proof (line_small a b k C1 C2 C3 C4 Hl) as (He & Hx & Hy & HX & HY).
  pose proof (on_line_next k a b Hl Hne) as Hl'. pose proof (line_small _ _ _ C1 C2 C3 C4 Hl') as (He' & Hx' & Hy' & _).
  cbn [line_loop]. destruct ((x0 + sx * a =? x1) && (y0 + sy * b =? y1)) eqn:E.
  { apply line_end in E; [done|apply Hl|apply Hl]. }
  assert (-1 ≤ sx ≤ 1 ∧ -1 ≤ sy ≤ 1) as [Hsx Hsy] by (unfold sx, sy; destruct (x0 <? x1), (y0 <? y1); lia).
  rewrite (int_small (2 * line_err a b)) by lia. cbn [mbind option_bind]. unfold next_a, next_b in *.
  destruct (- DY <=? 2 * line_err a b) eqn:Ea; cbn [mbind option_bind].
  - rewrite (int_small (line_err a b + - DY)) by lia. cbn [mbind option_bind].
    rewrite (int_small (x0 + sx * a + sx)) by lia. cbn [mbind option_bind].
    destruct (2 * line_err a b <=? DX) eqn:Eb; cbn [mbind option_bind].
    + rewrite (int_small (line_err a b + - DY + DX)) by lia. cbn [mbind option_bind].
      rewrite (int_small (y0 + sy * b + sy)) by lia. cbn [mbind option_bind]. f_equal; unfold line_err; lia.
    + f_equal; unfold line_err; lia.
  - destruct (2 * line_err a b <=? DX) eqn:Eb; cbn [mbind option_bind].
    + rewrite (int_small (line_err a b + DX)) by lia. cbn [mbind option_bind].
      rewrite (int_small (y0 + sy * b + sy)) by lia. cbn [mbind option_bind]. f_equal; unfold line_err; lia.
    + done.
Qed.

Lemma line_loop_spec c r : ∀ k a b m,
  coord x0 → coord x1 → coord y0 → coord y1 → on_line k a b → N - k = Z.of_nat r →
  ∃ pts, line_loop (S r) (x0 + sx * a) (y0 + sy * b) x1 y1 DX (- DY) sx sy (line_err a b) c fb m = Some (draw_points pts c m)
    ∧ length pts = S r ∧ head pts = Some (x0 + sx * a, y0 + sy * b) ∧ last pts = Some (x1, y1)
    ∧ ∀ i p, pts !! i = Some p → ∃ a' b', p = (x0 + sx * a', y0 + sy * b') ∧ on_line (k + Z.of_nat i) a' b'.
Proof.
  induction r as [|r IH]; intros k a b m C1 C2 C3 C4 Hl Hk.
  - destruct (on_line_end k a b Hl ltac:(lia)) as [Ea Eb]. pose proof (line_end a b ltac:(apply Hl) ltac:(apply Hl)) as [_ He].
    specialize (He (conj Ea Eb)). exists [(x0 + sx * a, y0 + sy * b)]. cbn [line_loop]. rewrite He. split_and!; [done..| |].
    + apply andb_true_iff in He as [Ex%Z.eqb_eq Ey%Z.eqb_eq]. cbn. by rewrite Ex, Ey.
    + intros i p [-> <-]%list_lookup_singleton_Some. exists a, b. by rewrite Z.add_0_r.
  - assert (¬ (a = DX ∧ b = DY)) as Hne.
    { intros [-> ->]. destruct Hl as (_ & _ & _ & Hkk). unfold N in Hk. destruct (Z.leb_spec DY DX); lia. }
    rewrite (line_step (S r) a b k) by done.
    destruct (IH (k + 1) (next_a a b) (next_b a b) (fb_put_pixel fb (u32 (x0 + sx * a)) (u32 (y0 + sy * b)) c m)) as (pts & -> & L1 & L2 & L3 & L4);
      [done..|by apply on_line_next|lia|].
    exists ((x0 + sx * a, y0 + sy * b) :: pts). split_and!; [done|cbn; lia|done| |].
    + destruct pts; [done|exact L3].
    + intros [|i] p Hp; cbn in Hp.
      * injection Hp as <-. exists a, b. by rewrite Z.add_0_r.
      * apply L4 in Hp as (a' & b' & -> & Hl'). exists a', b'. split; [done|]. by replace (k + Z.of_nat (S i)) with (k + 1 + Z.of_nat i) by lia.
Qed.
End line.

(** C20: Lines.  For coordinates up to 2^28 [gfx_draw_line] terminates without
    overflow after one pixel per unit of the longer side, starting at the first
    point and ending at the last.  The k-th pixel is k steps away and at most half
    a pixel off the straight line; exactly these pixels change, and those outside
    the screen are left out. *)
Theorem gfx_draw_line_correct x0 y0 x1 y1 c m :
  fb_wf → height fb ≤ 2 ^ 31 → coord x0 → coord x1 → coord y0 → coord y1 → 0 ≤ c < 2 ^ 32 →
  let n := Z.max (Z.abs (x1 - x0)) (Z.abs (y1 - y0)) in
  ∃ pts m', gfx_draw_line (S (Z.to_nat n)) fb x0 y0 x1 y1 c m = Some m'
    ∧ length pts = S (Z.to_nat n) ∧ head pts = Some (x0, y0) ∧ last pts = Some (x1, y1)
    ∧ (∀ k x y, pts !! k = Some (x, y) →
         Z.max (Z.abs (x - x0)) (Z.abs (y - y0)) = Z.of_nat k
         ∧ 2 * Z.abs ((x - x0) * (y1 - y0) - (y - y0) * (x1 - x0)) ≤ n)
    ∧ ∀ a b, on_screen a b → pixel m' a b = if decide ((a, b) ∈ pts) then c else pixel m a b.
Proof.
  intros Hw Hh C1 C2 C3 C4 Hc n. assert (on_line x0 y0 x1 y1 0 0 0) as H0.
  { unfold on_line. split_and!; try lia. destruct (_ <=? _); lia. }
  destruct (line_loop_spec x0 y0 x1 y1 c (Z.to_nat n) 0 0 0 m C1 C2 C3 C4 H0 ltac:(lia)) as (pts & E & L1 & L2 & L3 & L4).
  exists pts, (draw_points pts c m). rewrite !Z.mul_0_r, !Z.add_0_r in E, L2. split_and!; [|done|done|done| |].
  - unfold gfx_draw_line. unfold coord in *.
    assert ((if x0 <? x1 then x1 - x0 else x0 - x1) = Z.abs (x1 - x0)) as -> by (destruct (Z.ltb_spec x0 x1); lia).
    assert ((if y0 <? y1 then y1 - y0 else y0 - y1) = Z.abs (y1 - y0)) as -> by (destruct (Z.ltb_spec y0 y1); lia).
    rewrite (int_small (Z.abs (x1 - x0))) by lia. cbn [mbind option_bind].
    rewrite (int_small (Z.abs (y1 - y0))) by lia. cbn [mbind option_bind].
    rewrite int_small by lia. cbn [mbind option_bind]. rewrite <-E. f_equal.
    unfold line_err. lia.
  - intros k x y Hp. apply L4 in Hp as (a & b & [= -> ->] & (Ha & Hb & He & Hk)). rewrite !Z.add_simpl_l. split.
    + destruct (Z.leb_spec (Z.abs (y1 - y0)) (Z.abs (x1 - x0))); destruct (x0 <? x1), (y0 <? y1); lia.
    + assert (∃ s, (s = 1 ∨ s = -1) ∧ (if x0 <? x1 then 1 else -1) * a * (y1 - y0) - (if y0 <? y1 then 1 else -1) * b * (x1 - x0)
        = s * (a * Z.abs (y1 - y0) - b * Z.abs (x1 - x0))) as (s & Hs & ->).
      { destruct (Z.ltb_spec x0 x1), (Z.ltb_spec y0 y1); [exists 1|exists (-1)|exists (-1)|exists 1]; (split; [lia|]);
          rewrite ?(Z.abs_eq (x1 - x0)), ?(Z.abs_eq (y1 - y0)), ?(Z.abs_neq (x1 - x0)), ?(Z.abs_neq (y1 - y0)) by lia; lia. }
      fold n in He. destruct Hs as [-> | ->]; lia.
  - intros a b Hs. apply draw_points_get; try done. apply Forall_lookup. intros i [x y] Hp.
    apply L4 in Hp as (a' & b' & [= -> ->] & Hl). pose proof (line_small _ _ _ _ a' b' _ C1 C2 C3 C4 Hl). lia.
Qed.
End pixels.

Lemma gfx_draw_line_correct_witness :
  ∃ m', gfx_draw_line 6 {| phys_base := 0; virt_base := 0x1000; width := 8; height := 8; pitch := 32; bpp := 32;
      red_offset := 16; green_offset := 8; blue_offset := 0; fb_valid := true |} 0 0 5 2 7 (λ _, 0) = Some m'.
Proof.
  destruct (gfx_draw_line_correct {| phys_base := 0; virt_base := 0x1000; width := 8; height := 8; pitch := 32; bpp := 32;
      red_offset := 16; green_offset := 8; blue_offset := 0; fb_valid := true |} 0 0 5 2 7 (λ _, 0)) as (_ & m' & E & _).
  - split; cbn; lia || done.
  - cbn. lia.
  - unfold coord. lia.
  - unfold coord. lia.
  - unfold coord. lia.
  - unfold coord. lia.
  - lia.
  - exists m'. exact E.
Defined.
