(* ===== verification/Acpi.v ===== *)
(** Model of kernel/acpi/acpi.c: search of the root pointer, the root table and
    the interrupt controller table (MADT) in firmware memory.

    Structures are read from byte memory at their offsets.  [None] is an index
    outside an array. *)
From Stdlib Require Import String.
From stdpp Require Import prelude.
From S2P Require Import Prelude CString FrameAlloc Vmm Ports Printf Console.

Definition MADT_LAPIC : Z := 0.
Definition MADT_IOAPIC : Z := 1.
Definition MADT_ISO : Z := 2.

Record ioapic_info := { io_id : Z; io_phys : Z; io_gsi_base : Z }.
Record iso_info := { iso_bus : Z; iso_irq : Z; iso_gsi : Z; iso_flags : Z }.

Record acpi_info := {
  lapic_phys : Z;
  has_8259 : bool;
  ioapic_count : Z;
  ioapic : Z → ioapic_info;
  iso_count : Z;
  iso : Z → iso_info;
  cpu_count : Z;
  cpu_lapic_id : Z → Z;
}.

(** [memset(&g_acpi, 0, sizeof(g_acpi))] *)
Definition zero_acpi : acpi_info :=
  {| lapic_phys := 0; has_8259 := false; ioapic_count := 0; ioapic := λ _, {| io_id := 0; io_phys := 0; io_gsi_base := 0 |};
     iso_count := 0; iso := λ _, {| iso_bus := 0; iso_irq := 0; iso_gsi := 0; iso_flags := 0 |};
     cpu_count := 0; cpu_lapic_id := λ _, 0 |}.

(** The root table is 0 for NULL. *)
Record acpi := { g_acpi : acpi_info; g_root_table : Z; g_root_entry_size : Z; g_root_entry_count : Z }.

(** ** Layouts *)

Section layouts.
Variables (m : mem) (p : Z).

(** [acpi_header_t]: the fields in use; the header has 36 bytes. *)
Definition hdr_length : Z := load_le 4 m (p + 4).
Definition ACPI_HEADER_SIZE : Z := 36.

(** [rsdp_t] *)
Definition rsdp_revision : Z := m (p + 15).
Definition rsdt_address : Z := load_le 4 m (p + 16).
Definition xsdt_address : Z := load_le 8 m (p + 24).

(** [madt_t], of 44 bytes *)
Definition madt_lapic_addr : Z := load_le 4 m (p + 36).
Definition madt_flags : Z := load_le 4 m (p + 40).
Definition MADT_SIZE : Z := 44.

(** [madt_entry_t], [madt_lapic_t], [madt_ioapic_t] and [madt_iso_t] *)
Definition ent_type : Z := m p.
Definition ent_length : Z := m (p + 1).
Definition lapic_apic_id : Z := m (p + 3).
Definition lapic_flags : Z := load_le 4 m (p + 4).
Definition ioapic_id : Z := m (p + 2).
Definition ioapic_addr : Z := load_le 4 m (p + 4).
Definition ioapic_gsi_base : Z := load_le 4 m (p + 8).
Definition iso_ent : iso_info :=
  {| iso_bus := m (p + 2); iso_irq := m (p + 3); iso_gsi := load_le 4 m (p + 4); iso_flags := load_le 2 m (p + 8) |}.
End layouts.

Definition phys_to_virt (phys : Z) : Z := if phys <? 0x100000000 then u64 (phys + KERNEL_VIRT_BASE) else phys.

(** ** Tables *)

(** [for (i...; i < len; i++) sum += b[i];] *)
Fixpoint sum_loop (n : nat) (i p sum : Z) (m : mem) : Z :=
  match n with
  | O => sum
  | S n => sum_loop n (i + 1) p (u8 (sum + m (p + i))) m
  end.

Definition checksum_valid (p len : Z) (m : mem) : bool := sum_loop (Z.to_nat len) 0 p 0 m =? 0.

Definition sig_is (p : Z) (sig : list Z) (m : mem) : bool := memcmp (at_ptr m p) (lit sig) (Z.of_nat (length sig)) =? 0.

(** [for (addr = ...; addr < end; addr += 16) if (...) return r;], [n] left. *)
Fixpoint rsdp_scan (n : nat) (addr : Z) (m : mem) : option Z :=
  match n with
  | O => None
  | S n =>
      let r := phys_to_virt addr in
      if sig_is r (bytes "RSD PTR ") m && checksum_valid r 20 m then Some r else rsdp_scan n (addr + 16) m
  end.

(** The root pointer, [None] for NULL. *)
Definition find_rsdp (m : mem) : option Z :=
  let ebda_seg := load_le 2 m (phys_to_virt 0x40E) in
  let ebda_phys := u64 (Z.shiftl ebda_seg 4) in
  match rsdp_scan (Z.to_nat (1024 / 16)) ebda_phys m with
  | Some r => Some r
  | None => rsdp_scan (Z.to_nat ((0x100000 - 0xE0000) / 16)) 0xE0000 m
  end.

(** [for (i...; i < g_root_entry_count; i++) ...] *)
Fixpoint table_scan (n : nat) (i entries entry_size : Z) (sig : list Z) (m : mem) : option Z :=
  match n with
  | O => None
  | S n =>
      let phys := if entry_size =? 4 then load_le 4 m (entries + u32 (i * 4)) else load_le 8 m (entries + u32 (i * 8)) in
      let t := phys_to_virt phys in
      if sig_is t sig m && checksum_valid t (hdr_length m t) m then Some t
      else table_scan n (i + 1) entries entry_size sig m
  end.

(** The table, [None] for NULL. *)
Definition acpi_find_table (sig : list Z) (a : acpi) (m : mem) : option Z :=
  if g_root_table a =? 0 then None
  else table_scan (Z.to_nat (g_root_entry_count a)) 0 (g_root_table a + ACPI_HEADER_SIZE) (g_root_entry_size a) sig m.

(** ** The interrupt controllers *)

Definition add_cpu (id : Z) (g : acpi_info) : option acpi_info :=
  l ← aset 64 (cpu_lapic_id g) (cpu_count g) id;
  Some {| lapic_phys := lapic_phys g; has_8259 := has_8259 g; ioapic_count := ioapic_count g; ioapic := ioapic g;
          iso_count := iso_count g; iso := iso g; cpu_count := cpu_count g + 1; cpu_lapic_id := l |}.

Definition add_ioapic (x : ioapic_info) (g : acpi_info) : option acpi_info :=
  l ← aset 16 (ioapic g) (ioapic_count g) x;
  Some {| lapic_phys := lapic_phys g; has_8259 := has_8259 g; ioapic_count := ioapic_count g + 1; ioapic := l;
          iso_count := iso_count g; iso := iso g; cpu_count := cpu_count g; cpu_lapic_id := cpu_lapic_id g |}.

Definition add_iso (x : iso_info) (g : acpi_info) : option acpi_info :=
  l ← aset 32 (iso g) (iso_count g) x;
  Some {| lapic_phys := lapic_phys g; has_8259 := has_8259 g; ioapic_count := ioapic_count g; ioapic := ioapic g;
          iso_count := iso_count g + 1; iso := l; cpu_count := cpu_count g; cpu_lapic_id := cpu_lapic_id g |}.

(** The [switch] on the type of the entry at [e]. *)
Definition madt_entry (e : Z) (m : mem) (g : acpi_info) : option acpi_info :=
  if ent_type m e =? MADT_LAPIC then
    if negb (Z.land (lapic_flags m e) 1 =? 0) && (cpu_count g <? 64) then add_cpu (lapic_apic_id m e) g else Some g
  else if ent_type m e =? MADT_IOAPIC then
    if ioapic_count g <? 16 then
      add_ioapic {| io_id := ioapic_id m e; io_phys := ioapic_addr m e; io_gsi_base := ioapic_gsi_base m e |} g
    else Some g
  else if ent_type m e =? MADT_ISO then
    if iso_count g <? 32 then add_iso (iso_ent m e) g else Some g
  else Some g.

(** [while (ptr < end) { ...; ptr += e->length; }] *)
Fixpoint madt_loop (fuel : nat) (ptr stop : Z) (m : mem) (g : acpi_info) : option acpi_info :=
  match fuel with
  | O => None
  | S n =>
      if stop <=? ptr then Some g
      else if ent_length m ptr =? 0 then Some g
      else g ← madt_entry ptr m g; madt_loop n (ptr + ent_length m ptr) stop m g
  end.

(** An entry has at least one byte, so the length of the table is enough fuel. *)
Definition parse_madt (madt : Z) (m : mem) (g : acpi_info) : option acpi_info :=
  let g := {| lapic_phys := madt_lapic_addr m madt; has_8259 := negb (Z.land (madt_flags m madt) 1 =? 0);
              ioapic_count := ioapic_count g; ioapic := ioapic g; iso_count := iso_count g; iso := iso g;
              cpu_count := cpu_count g; cpu_lapic_id := cpu_lapic_id g |} in
  madt_loop (S (Z.to_nat (hdr_length m madt))) (madt + MADT_SIZE) (madt + hdr_length m madt) m g.

(** ** Start *)

Definition set_root (table size count : Z) (a : acpi) : acpi :=
  {| g_acpi := g_acpi a; g_root_table := table; g_root_entry_size := size; g_root_entry_count := count |}.
Definition set_info (g : acpi_info) (a : acpi) : acpi :=
  {| g_acpi := g; g_root_table := g_root_table a; g_root_entry_size := g_root_entry_size a; g_root_entry_count := g_root_entry_count a |}.

(** The extended root table, if the root pointer has a valid one. *)
Definition use_xsdt (rsdp : Z) (m : mem) (a : acpi) : acpi :=
  if (2 <=? rsdp_revision m rsdp) && negb (xsdt_address m rsdp =? 0) then
    let xsdt := phys_to_virt (xsdt_address m rsdp) in
    if checksum_valid xsdt (hdr_length m xsdt) m
    then set_root xsdt 8 (u32 (u64 (hdr_length m xsdt - ACPI_HEADER_SIZE) / 8)) a else a
  else a.

(** [None] in the second place where the function returns false. *)
Definition use_rsdt (rsdp : Z) (m : mem) (a : acpi) : option acpi :=
  if g_root_table a =? 0 then
    let rsdt := phys_to_virt (rsdt_address m rsdp) in
    if checksum_valid rsdt (hdr_length m rsdt) m
    then Some (set_root rsdt 4 (u32 (u64 (hdr_length m rsdt - ACPI_HEADER_SIZE) / 4)) a) else None
  else Some a.

Definition acpi_init (m : mem) (a : acpi) : option (bool * acpi) :=
  let a := set_info zero_acpi a in
  match find_rsdp m with
  | None => Some (false, a)
  | Some rsdp =>
      let a := use_xsdt rsdp m a in
      match use_rsdt rsdp m a with
      | None => Some (false, a)
      | Some a =>
          match acpi_find_table (bytes "APIC") a m with
          | Some madt => g ← parse_madt madt m (g_acpi a); Some (true, set_info g a)
          | None =>
              let g := g_acpi a in
              Some (true, set_info {| lapic_phys := 0xFEE00000; has_8259 := true; ioapic_count := ioapic_count g; ioapic := ioapic g;
                                      iso_count := iso_count g; iso := iso g; cpu_count := cpu_count g; cpu_lapic_id := cpu_lapic_id g |} a)
          end
      end
  end.

(** The port writes of [acpi_shutdown] and [acpi_reboot], before they halt. *)
Definition acpi_shutdown {D} `{PortIO D} (d : D) : D := outw 0xB004 0x2000 (outw 0x604 0x2000 d).
Definition acpi_reboot {D} `{PortIO D} (d : D) : D := outb 0x64 0xFE (outb 0xCF9 0x06 d).
