(* ===== verification/AcpiProps.v ===== *)
(** The tables kernel/acpi/acpi.c reads, written out as bytes, are read back. *)
From Stdlib Require Import String.
From stdpp Require Import prelude.
From S2P Require Import Prelude CString FrameAlloc Vmm Ports Printf Console Acpi.

(** ** Bytes in memory *)

Definition holds (m : mem) (a : Z) (l : list Z) : Prop := ∀ i x, l !! i = Some x → m (a + Z.of_nat i) = x.

Lemma holds_app m a l1 l2 : holds m a (l1 ++ l2) ↔ holds m a l1 ∧ holds m (a + Z.of_nat (length l1)) l2.
Proof.
  split.
  - intros Hl. split; intros i x Hx; [apply Hl; by apply lookup_app_l_Some|].
    rewrite <-Z.add_assoc, <-Nat2Z.inj_add. apply Hl. rewrite lookup_app_r by lia. by rewrite Nat.add_comm, Nat.add_sub.
  - intros [H1 H2] i x [Hx|[Hi Hx]]%lookup_app_Some; [by apply H1|].
    apply H2 in Hx. rewrite <-Hx. f_equal. lia.
Qed.

Lemma holds_cons m a x l : holds m a (x :: l) ↔ m a = x ∧ holds m (a + 1) l.
Proof.
  rewrite (holds_app m a [x] l : holds m a (x :: l) ↔ _). cbn [length]. change (Z.of_nat 1) with 1. split; intros [H1 H2]; split; [|done| |done].
  - specialize (H1 0%nat x eq_refl). by rewrite Z.add_0_r in H1.
  - intros i y [-> <-]%list_lookup_singleton_Some. by rewrite Z.add_0_r.
Qed.

(** The [n] bytes of a number, low byte first. *)
Fixpoint le (n : nat) (v : Z) : list Z :=
  match n with O => [] | S n => v mod 256 :: le n (v / 256) end.

Lemma le_length n v : length (le n v) = n.
Proof. revert v. induction n; intros v; cbn; auto. Qed.

Lemma load_holds n m a v : holds m a (le n v) → load_le n m a = v mod 2 ^ (8 * Z.of_nat n).
Proof.
  revert a v. induction n as [|n IH]; intros a v Hl; cbn [load_le le] in *; [by rewrite Z.mod_1_r|].
  apply holds_cons in Hl as [-> Hl]. rewrite (IH (a + 1) (v / 256) Hl).
  replace (8 * Z.of_nat (S n)) with (8 + 8 * Z.of_nat n) by lia. rewrite Z.pow_add_r by lia. change (2 ^ 8) with 256.
  rewrite Z.rem_mul_r by lia. done.
Qed.

(** ** Arrays that are filled up *)

(** The array holds the first [n] elements of [l]. *)
Definition filled {B} (n : nat) (count : Z) (arr : Z → B) (l : list B) : Prop :=
  count = Z.of_nat (Nat.min n (length l)) ∧ ∀ i x, take n l !! i = Some x → arr (Z.of_nat i) = x.

Lemma filled_push {B} n count (arr : Z → B) l x :
  filled n count arr l → count < Z.of_nat n →
  aset (Z.of_nat n) arr count x = Some (upd arr count x) ∧ filled n (count + 1) (upd arr count x) (l ++ [x]).
Proof.
  intros [-> Hl] Hlt. split; [apply aset_Some; lia|]. split; [rewrite length_app; cbn [length]; lia|].
  intros i y Hy. rewrite take_ge in Hy by (rewrite length_app; cbn [length]; lia). replace (Nat.min n (length l)) with (length l) by lia.
  apply lookup_app_Some in Hy as [Hy|[Hi Hy]].
  - rewrite upd_ne by (apply lookup_lt_Some in Hy; lia). apply Hl. by rewrite take_ge by lia.
  - apply list_lookup_singleton_Some in Hy as [? <-]. replace i with (length l) by lia. apply upd_eq.
Qed.

Lemma filled_full {B} n count (arr : Z → B) l x : filled n count arr l → ¬ count < Z.of_nat n → filled n count arr (l ++ [x]).
Proof.
  intros [-> Hl] Hlt. split; [rewrite length_app; cbn [length]; lia|]. intros i y Hy. apply Hl. by rewrite take_app_le in Hy by lia.
Qed.

(** ** Interrupt controller entries *)

Inductive madt_ent :=
  | EntLapic (uid id flags : Z)
  | EntIoapic (x : ioapic_info)
  | EntIso (x : iso_info)
  | EntOther (type : Z) (body : list Z).

Definition byte (x : Z) : Prop := 0 ≤ x < 256.

Definition ent_wf (e : madt_ent) : Prop :=
  match e with
  | EntLapic uid id flags => byte uid ∧ byte id ∧ 0 ≤ flags < 2 ^ 32
  | EntIoapic x => byte (io_id x) ∧ 0 ≤ io_phys x < 2 ^ 32 ∧ 0 ≤ io_gsi_base x < 2 ^ 32
  | EntIso x => byte (iso_bus x) ∧ byte (iso_irq x) ∧ 0 ≤ iso_gsi x < 2 ^ 32 ∧ 0 ≤ iso_flags x < 2 ^ 16
  | EntOther type body => 2 < type < 256 ∧ (length body < 254)%nat
  end.

(** The entry in the format of the ACPI specification. *)
Definition encode (e : madt_ent) : list Z :=
  match e with
  | EntLapic uid id flags => [0; 8; uid; id] ++ le 4 flags
  | EntIoapic x => [1; 12; io_id x; 0] ++ le 4 (io_phys x) ++ le 4 (io_gsi_base x)
  | EntIso x => [2; 10; iso_bus x; iso_irq x] ++ le 4 (iso_gsi x) ++ le 2 (iso_flags x)
  | EntOther type body => [type; Z.of_nat (2 + length body)] ++ body
  end.

(** Processors that are enabled, I/O controllers, and redirections. *)
Definition ent_cpus (e : madt_ent) : list Z :=
  match e with EntLapic _ id flags => if Z.odd flags then [id] else [] | _ => [] end.
Definition ent_ioapics (e : madt_ent) : list ioapic_info := match e with EntIoapic x => [x] | _ => [] end.
Definition ent_isos (e : madt_ent) : list iso_info := match e with EntIso x => [x] | _ => [] end.

(** [g] lists the first 64 processors, 16 controllers and 32 redirections. *)
Record lists (g : acpi_info) (cpus : list Z) (ios : list ioapic_info) (isos : list iso_info) : Prop := {
  li_cpus : filled 64 (cpu_count g) (cpu_lapic_id g) cpus;
  li_ios : filled 16 (ioapic_count g) (ioapic g) ios;
  li_isos : filled 32 (iso_count g) (iso g) isos;
}.

Lemma odd_flag x : (Z.land x 1 =? 0) = negb (Z.odd x).
Proof.
  rewrite (Z.land_ones x 1 ltac:(lia) : Z.land x 1 = x mod 2 ^ 1). change (2 ^ 1) with 2.
  rewrite Zmod_odd. by destruct (Z.odd x).
Qed.

Lemma encode_length e m p : ent_wf e → holds m p (encode e) → ent_length m p = Z.of_nat (length (encode e)) ∧ (2 ≤ length (encode e))%nat.
Proof.
  unfold ent_length. intros Hw He. destruct e as [uid id flags|x|x|ty body]; cbn [encode app] in *;
    apply holds_cons in He as [_ [-> _]%holds_cons]; cbn [length]; rewrite ?length_app, ?le_length; cbn [length]; split; lia.
Qed.

(** What the [switch] does with an entry. *)
Lemma madt_entry_spec e m p g cpus ios isos :
  ent_wf e → holds m p (encode e) → lists g cpus ios isos →
  ∃ g', madt_entry p m g = Some g' ∧ lists g' (cpus ++ ent_cpus e) (ios ++ ent_ioapics e) (isos ++ ent_isos e)
    ∧ lapic_phys g' = lapic_phys g ∧ has_8259 g' = has_8259 g.
Proof.
  intros Hw He [L1 L2 L3]. unfold madt_entry, ent_type, lapic_flags, lapic_apic_id, ioapic_id, ioapic_addr, ioapic_gsi_base, iso_ent.
  destruct e as [uid id flags|x|x|ty body]; cbn [encode app ent_wf ent_cpus ent_ioapics ent_isos] in *; rewrite ?app_nil_r.
  - apply holds_cons in He as [-> [_ [_ [E3 E4]%holds_cons]%holds_cons]%holds_cons]. cbn [Z.eqb MADT_LAPIC].
    apply load_holds in E4. replace (p + 1 + 1 + 1 + 1) with (p + 4) in E4 by lia. replace (p + 1 + 1 + 1) with (p + 3) in E3 by lia.
    rewrite E4, E3, odd_flag, negb_involutive. change (8 * Z.of_nat 4) with 32. rewrite Z.mod_small by lia.
    destruct (Z.odd flags); cbn [andb]; [|exists g; rewrite app_nil_r; by split_and!].
    destruct (Z.ltb_spec (cpu_count g) 64) as [Hlt|Hge].
    + destruct (filled_push 64 (cpu_count g) (cpu_lapic_id g) cpus id L1 Hlt) as [E Hf].
      unfold add_cpu. change 64 with (Z.of_nat 64). rewrite E. cbn [mbind option_bind]. eexists. split; [reflexivity|]. by split_and!.
    + exists g. split_and!; [done| |done|done]. split; [|done|done]. apply filled_full; [done|lia].
  - apply holds_cons in He as [-> [_ [E2 [_ [E4 E8]%holds_app]%holds_cons]%holds_cons]%holds_cons]. cbn [Z.eqb MADT_LAPIC MADT_IOAPIC].
    rewrite le_length in E8. apply load_holds in E4, E8. replace (p + 1 + 1) with (p + 2) in E2 by lia.
    replace (p + 1 + 1 + 1 + 1) with (p + 4) in E4 by lia. replace (p + 1 + 1 + 1 + 1 + Z.of_nat 4) with (p + 8) in E8 by lia.
    rewrite E2, E4, E8. change (8 * Z.of_nat 4) with 32. rewrite !Z.mod_small by lia.
    assert ({| io_id := io_id x; io_phys := io_phys x; io_gsi_base := io_gsi_base x |} = x) as -> by (by destruct x).
    destruct (Z.ltb_spec (ioapic_count g) 16) as [Hlt|Hge].
    + destruct (filled_push 16 (ioapic_count g) (ioapic g) ios x L2 Hlt) as [E Hf].
      unfold add_ioapic. change 16 with (Z.of_nat 16). rewrite E. cbn [mbind option_bind]. eexists. split; [reflexivity|]. by split_and!.
    + exists g. split_and!; [done| |done|done]. split; [done| |done]. apply filled_full; [done|lia].
  - apply holds_cons in He as [-> [_ [E2 [E3 [E4 E8]%holds_app]%holds_cons]%holds_cons]%holds_cons].
    cbn [Z.eqb MADT_LAPIC MADT_IOAPIC MADT_ISO Pos.eqb]. rewrite le_length in E8. apply load_holds in E4, E8.
    replace (p + 1 + 1) with (p + 2) in E2 by lia. replace (p + 1 + 1 + 1) with (p + 3) in E3 by lia.
    replace (p + 1 + 1 + 1 + 1) with (p + 4) in E4 by lia. replace (p + 1 + 1 + 1 + 1 + Z.of_nat 4) with (p + 8) in E8 by lia.
    rewrite E2, E3, E4, E8. change (8 * Z.of_nat 4) with 32. change (8 * Z.of_nat 2) with 16. rewrite !Z.mod_small by lia.
    assert ({| iso_bus := iso_bus x; iso_irq := iso_irq x; iso_gsi := iso_gsi x; iso_flags := iso_flags x |} = x) as -> by (by destruct x).
    destruct (Z.ltb_spec (iso_count g) 32) as [Hlt|Hge].
    + destruct (filled_push 32 (iso_count g) (iso g) isos x L3 Hlt) as [E Hf].
      unfold add_iso. change 32 with (Z.of_nat 32). rewrite E. cbn [mbind option_bind]. eexists. split; [reflexivity|]. by split_and!.
    + exists g. split_and!; [done| |done|done]. split; [done|done|]. apply filled_full; [done|lia].
  - apply holds_cons in He as [-> _]. unfold MADT_LAPIC, MADT_IOAPIC, MADT_ISO.
    rewrite !(proj2 (Z.eqb_neq ty _)) by lia. exists g. by split_and!.
Qed.

Lemma madt_loop_spec es m : ∀ p g cpus ios isos fuel,
  Forall ent_wf es → holds m p (es ≫= encode) → lists g cpus ios isos → (length (es ≫= encode) < fuel)%nat →
  ∃ g', madt_loop fuel p (p + Z.of_nat (length (es ≫= encode))) m g = Some g'
    ∧ lists g' (cpus ++ (es ≫= ent_cpus)) (ios ++ (es ≫= ent_ioapics)) (isos ++ (es ≫= ent_isos))
    ∧ lapic_phys g' = lapic_phys g ∧ has_8259 g' = has_8259 g.
Proof.
  induction es as [|e es IH]; intros p g cpus ios isos fuel Hw He Hl Hf; (destruct fuel as [|n]; [lia|]); cbn [madt_loop].
  - cbn. rewrite Z.add_0_r, Z.leb_refl, !app_nil_r. by exists g.
  - apply Forall_cons in Hw as [Hwe Hw]. cbn [mbind list_bind] in *. apply holds_app in He as [H1 H2].
    rewrite length_app in *. destruct (encode_length e m p Hwe H1) as [El Hl2].
    rewrite (proj2 (Z.leb_gt _ _)) by lia. rewrite El, (proj2 (Z.eqb_neq _ _)) by lia.
    destruct (madt_entry_spec e m p g cpus ios isos Hwe H1 Hl) as (g1 & -> & Hl1 & P1 & P2). cbn [mbind option_bind].
    destruct (IH (p + Z.of_nat (length (encode e))) g1 _ _ _ n Hw H2 Hl1) as (g2 & E & Hl3 & P3 & P4); [lia|].
    rewrite Nat2Z.inj_add, Z.add_assoc, E. exists g2. rewrite !app_assoc. split_and!; [done|done|congruence|congruence].
Qed.

(** ** The search *)

Definition root_at (m : mem) (addr : Z) : bool :=
  sig_is (phys_to_virt addr) (bytes "RSD PTR ") m && checksum_valid (phys_to_virt addr) 20 m.

Definition table_at (m : mem) (sig : list Z) (phys : Z) : bool :=
  sig_is (phys_to_virt phys) sig m && checksum_valid (phys_to_virt phys) (hdr_length m (phys_to_virt phys)) m.

(** [x] is the first element of [l] with [P]. *)
Definition first_with {B} (P : B → bool) (l : list B) (x : B) : Prop :=
  ∃ l1 l2, l = l1 ++ x :: l2 ∧ P x = true ∧ Forall (λ y, P y = false) l1.

(** Every 16 bytes of the extended BIOS area, and of the BIOS. *)
Definition candidates (m : mem) : list Z :=
  ((λ i, load_le 2 m (phys_to_virt 0x40E) * 16 + 16 * i) <$> seqZ 0 64) ++ ((λ i, 0xE0000 + 16 * i) <$> seqZ 0 8192).

Lemma rsdp_scan_spec n m base : ∀ i,
  rsdp_scan n (base + 16 * i) m = phys_to_virt <$> find_some (λ a, if root_at m a then Some a else None) ((λ i, base + 16 * i) <$> seqZ i (Z.of_nat n)).
Proof.
  induction n as [|n IH]; intros i; [done|]. rewrite seqZ_cons by lia. replace (Z.pred (Z.of_nat (S n))) with (Z.of_nat n) by lia.
  cbn [fmap list_fmap find_some rsdp_scan]. unfold root_at at 1. destruct (_ && _); [done|].
  rewrite <-(IH (Z.succ i)). f_equal. lia.
Qed.

Lemma find_some_app {B C} (f : B → option C) l1 l2 :
  find_some f (l1 ++ l2) = match find_some f l1 with Some y => Some y | None => find_some f l2 end.
Proof. induction l1 as [|x l1 IH]; [done|]. cbn. by destruct (f x). Qed.

Lemma first_find {B} (P : B → bool) l x : first_with P l x → find_some (λ a, if P a then Some a else None) l = Some x.
Proof.
  intros (l1 & l2 & -> & Hx & Hl). rewrite find_some_app.
  assert (find_some (λ a, if P a then Some a else None) l1 = None) as ->.
  { apply find_some_None. intros y Hy. rewrite Forall_forall in Hl. by rewrite (Hl y Hy). }
  cbn. by rewrite Hx.
Qed.

(** The root pointer is the first valid one. *)
Lemma find_rsdp_spec m addr :
  (∀ a, byte (m a)) → first_with (root_at m) (candidates m) addr → find_rsdp m = Some (phys_to_virt addr).
Proof.
  intros Hm Hf. apply first_find in Hf. unfold candidates in Hf. rewrite find_some_app in Hf. unfold find_rsdp.
  assert (0 ≤ load_le 2 m (phys_to_virt 0x40E) < 2 ^ 16) as Hr.
  { cbn [load_le]. pose proof (Hm (phys_to_virt 0x40E)). pose proof (Hm (phys_to_virt 0x40E + 1)). unfold byte in *. lia. }
  rewrite Z.shiftl_mul_pow2 by lia. rewrite u64_small by lia. change (2 ^ 4) with 16.
  pose proof (rsdp_scan_spec (Z.to_nat (1024 / 16)) m (load_le 2 m (phys_to_virt 0x40E) * 16) 0) as E1.
  pose proof (rsdp_scan_spec (Z.to_nat ((0x100000 - 0xE0000) / 16)) m 0xE0000 0) as E2.
  rewrite Z.mul_0_r, Z.add_0_r in E1, E2. rewrite E1, E2. clear E1 E2.
  change (Z.of_nat (Z.to_nat (1024 / 16))) with 64. change (Z.of_nat (Z.to_nat ((0x100000 - 0xE0000) / 16))) with 8192.
  destruct (find_some _ ((λ i, _ * 16 + _) <$> _)) as [a|]; cbn [fmap option_fmap option_map]; [congruence|]. by rewrite Hf.
Qed.

Lemma le_load n m a t l :
  holds m a (le n t ++ l) → 0 ≤ t < 2 ^ (8 * Z.of_nat n) → load_le n m a = t ∧ holds m (a + Z.of_nat n) l.
Proof.
  intros [H1 H2]%holds_app Ht. apply load_holds in H1. rewrite le_length in H2. split; [|done].
  rewrite H1. by apply Z.mod_small.
Qed.

(** Entries of 4 bytes (RSDT) or 8 (XSDT). *)
Lemma table_scan_spec w sig m entries t ts2 : w = 4%nat ∨ w = 8%nat → ∀ ts1 i,
  Forall (λ t, 0 ≤ t < 2 ^ (8 * Z.of_nat w)) (ts1 ++ t :: ts2) →
  holds m (entries + Z.of_nat w * i) ((ts1 ++ t :: ts2) ≫= le w) →
  0 ≤ i → Z.of_nat w * (i + Z.of_nat (length (ts1 ++ t :: ts2))) < 2 ^ 32 →
  Forall (λ t, table_at m sig t = false) ts1 → table_at m sig t = true →
  table_scan (length (ts1 ++ t :: ts2)) i entries (Z.of_nat w) sig m = Some (phys_to_virt t).
Proof.
  intros Hw. assert (∀ i x l, 0 ≤ i → Z.of_nat w * i < 2 ^ 32 → 0 ≤ x < 2 ^ (8 * Z.of_nat w) →
    holds m (entries + Z.of_nat w * i) (le w x ++ l) →
    (if Z.of_nat w =? 4 then load_le 4 m (entries + u32 (i * 4)) else load_le 8 m (entries + u32 (i * 8))) = x
    ∧ holds m (entries + Z.of_nat w * (i + 1)) l) as Hent.
  { intros i x l Hi Hb Hx He. apply le_load in He as [He Hl]; [|done].
    replace (entries + Z.of_nat w * (i + 1)) with (entries + Z.of_nat w * i + Z.of_nat w) by lia. split; [|done].
    destruct Hw as [-> | ->]; [change (Z.of_nat 4 =? 4) with true|change (Z.of_nat 8 =? 4) with false]; cbv iota;
      rewrite u32_small by lia; by rewrite (Z.mul_comm i). }
  induction ts1 as [|t1 ts1 IH]; intros i Hr He Hi Hn Hf Ht; cbn [app length table_scan mbind list_bind] in *;
    apply Forall_cons in Hr as [Hr1 Hr]; apply Hent in He as [-> He]; try done; try (destruct Hw; subst w; lia).
  - unfold table_at in Ht. by rewrite Ht.
  - apply Forall_cons in Hf as [Hf1 Hf]. unfold table_at in Hf1. rewrite Hf1. apply IH; try done; destruct Hw; subst w; lia.
Qed.

(** ** The firmware's tables *)

(** A valid root table at [r] that lists the tables [ts] in entries of [w] bytes. *)
Record root_table (m : mem) (r : Z) (w : nat) (ts : list Z) : Prop := {
  rt_null : r ≠ 0;
  rt_sum : checksum_valid r (hdr_length m r) m = true;
  rt_length : hdr_length m r = 36 + Z.of_nat w * Z.of_nat (length ts);
  rt_entries : holds m (r + 36) (ts ≫= le w);
  rt_range : Forall (λ t, 0 ≤ t < 2 ^ (8 * Z.of_nat w)) ts;
}.

(** The root pointer gives an extended root table that can be used. *)
Definition has_xsdt (m : mem) (rsdp : Z) : bool :=
  (2 <=? rsdp_revision m rsdp) && negb (xsdt_address m rsdp =? 0)
  && (let x := phys_to_virt (xsdt_address m rsdp) in checksum_valid x (hdr_length m x) m).

(** The address of the root table, and the size of its entries. *)
Definition root_of (m : mem) (rsdp : Z) : Z * nat :=
  if has_xsdt m rsdp then (phys_to_virt (xsdt_address m rsdp), 8%nat) else (phys_to_virt (rsdt_address m rsdp), 4%nat).

(** A root pointer of any revision at [addr], its root table with the tables
    [ts], of which [t] is the first interrupt controller table, with entries
    [es].  [m] is the memory as the kernel sees it. *)
Record firmware (m : mem) (addr : Z) (ts : list Z) (t lapic flags : Z) (es : list madt_ent) : Prop := {
  fm_bytes : ∀ a, byte (m a);
  fm_root : first_with (root_at m) (candidates m) addr;
  fm_table : let '(r, w) := root_of m (phys_to_virt addr) in root_table m r w ts;
  fm_first : first_with (table_at m (bytes "APIC")) ts t;
  fm_madt : let p := phys_to_virt t in
    hdr_length m p = 44 + Z.of_nat (length (es ≫= encode)) ∧ madt_lapic_addr m p = lapic ∧ madt_flags m p = flags
    ∧ Forall ent_wf es ∧ holds m (p + 44) (es ≫= encode);
}.

Lemma load_le_range n m a : (∀ a, byte (m a)) → 0 ≤ load_le n m a < 2 ^ (8 * Z.of_nat n).
Proof.
  intros Hm. revert a. induction n as [|n IH]; intros a; cbn [load_le]; [done|]. specialize (IH (a + 1)). pose proof (Hm a). unfold byte in *.
  replace (8 * Z.of_nat (S n)) with (8 + 8 * Z.of_nat n) by lia. rewrite Z.pow_add_r by lia. change (2 ^ 8) with 256. lia.
Qed.

(** The number of entries both branches of [acpi_init] compute. *)
Lemma root_count m r w ts :
  (∀ a, byte (m a)) → root_table m r w ts → w = 4%nat ∨ w = 8%nat →
  u32 (u64 (hdr_length m r - ACPI_HEADER_SIZE) / Z.of_nat w) = Z.of_nat (length ts)
  ∧ Z.of_nat w * Z.of_nat (length ts) < 2 ^ 32.
Proof.
  intros F1 [R1 R2 R3 R4 R5] Hw.
  pose proof (load_le_range 4 m (r + 4) F1) as Hh. change (load_le 4 m (r + 4)) with (hdr_length m r) in Hh.
  change (8 * Z.of_nat 4) with 32 in Hh. rewrite R3 in *. unfold ACPI_HEADER_SIZE. split; [|lia].
  replace (36 + Z.of_nat w * Z.of_nat (length ts) - 36) with (Z.of_nat (length ts) * Z.of_nat w) by lia.
  rewrite u64_small by lia. rewrite Z.div_mul by lia. apply u32_small. destruct Hw; subst w; lia.
Qed.

(** The root table of [acpi_init]. *)
Lemma root_used m addr ts t lapic flags es a :
  firmware m addr ts t lapic flags es → g_root_table a = 0 →
  let rsdp := phys_to_virt addr in let '(r, w) := root_of m rsdp in
  use_rsdt rsdp m (use_xsdt rsdp m a) = Some (set_root r (Z.of_nat w) (Z.of_nat (length ts)) a)
  ∧ (w = 4%nat ∨ w = 8%nat) ∧ Z.of_nat w * Z.of_nat (length ts) < 2 ^ 32.
Proof.
  intros [F1 F2 F3 F4 F5] Ha rsdp. fold rsdp in F3. unfold root_of, has_xsdt, use_xsdt in *. cbv zeta in F3 |- *.
  destruct ((2 <=? rsdp_revision m rsdp) && negb (xsdt_address m rsdp =? 0)); cbn [andb] in *.
  - destruct (checksum_valid (phys_to_virt (xsdt_address m rsdp)) _ m) eqn:Ec.
    + destruct (root_count m _ _ ts F1 F3) as [E Hn]; [by right|]. change (Z.of_nat 8) with 8 in *. rewrite E. unfold use_rsdt.
      cbn [set_root g_root_table]. rewrite (proj2 (Z.eqb_neq _ _) (rt_null _ _ _ _ F3)). split_and!; [done|by right|done].
    + destruct (root_count m _ _ ts F1 F3) as [E Hn]; [by left|]. change (Z.of_nat 4) with 4 in *. unfold use_rsdt.
      rewrite Ha, (rt_sum _ _ _ _ F3), E. split_and!; [done|by left|done].
  - destruct (root_count m _ _ ts F1 F3) as [E Hn]; [by left|]. change (Z.of_nat 4) with 4 in *. unfold use_rsdt.
    rewrite Ha, (rt_sum _ _ _ _ F3), E. split_and!; [done|by left|done].
Qed.

Lemma parse_madt_spec m p es lapic flags :
  hdr_length m p = 44 + Z.of_nat (length (es ≫= encode)) → madt_lapic_addr m p = lapic → madt_flags m p = flags →
  Forall ent_wf es → holds m (p + 44) (es ≫= encode) →
  ∃ g, parse_madt p m zero_acpi = Some g ∧ lapic_phys g = lapic ∧ has_8259 g = Z.odd flags
    ∧ lists g (es ≫= ent_cpus) (es ≫= ent_ioapics) (es ≫= ent_isos).
Proof.
  intros Hh Hl Hf Hw He. unfold parse_madt. cbv zeta. rewrite Hh, Hl, Hf, odd_flag, negb_involutive.
  match goal with |- context [madt_loop _ _ _ _ ?x] => set (g0 := x) end.
  destruct (madt_loop_spec es m (p + 44) g0 [] [] [] (S (Z.to_nat (44 + Z.of_nat (length (es ≫= encode))))) Hw He) as (g & E & L & P1 & P2);
    [by repeat split|lia|]. exists g. split_and!; [|done|done|done]. rewrite <-E. f_equal. unfold MADT_SIZE. lia.
Qed.

(** C16: Interrupt controllers.  In firmware memory with a root pointer of any
    revision, its root table (the extended one when the revision is at least 2
    and the table is valid, the 32-bit one otherwise) and a MADT, [acpi_init] reads
    back what the table encodes: the address of the local controllers, the flag
    of the 8259 pair, and, in order, the first 64 enabled processors, 16 I/O
    controllers and 32 redirections.  The memory is what the kernel sees at the
    addresses of [phys_to_virt]. *)
Theorem acpi_init_correct m addr ts t lapic flags es a :
  firmware m addr ts t lapic flags es → g_root_table a = 0 →
  ∃ a', acpi_init m a = Some (true, a')
    ∧ lapic_phys (g_acpi a') = lapic ∧ has_8259 (g_acpi a') = Z.odd flags
    ∧ lists (g_acpi a') (es ≫= ent_cpus) (es ≫= ent_ioapics) (es ≫= ent_isos).
Proof.
  intros Hfw Ha. pose proof Hfw as [F1 F2 F3 F5 F6]. unfold acpi_init. rewrite (find_rsdp_spec m addr F1 F2).
  pose proof (root_used m addr ts t lapic flags es (set_info zero_acpi a) Hfw Ha) as Hu. cbv zeta in Hu.
  destruct (root_of m (phys_to_virt addr)) as [r w]. destruct Hu as (-> & Hw & Hn). destruct F3 as [R1 R2 R3 R4 R5].
  destruct F5 as (ts1 & ts2 & Ets & Htt & Hts1). destruct F6 as (M1 & M2 & M3 & M4 & M5).
  match goal with |- context [acpi_find_table ?sig ?a ?m] => assert (acpi_find_table sig a m = Some (phys_to_virt t)) as -> end.
  { unfold acpi_find_table. cbn [set_root set_info g_root_table g_root_entry_count g_root_entry_size].
    rewrite (proj2 (Z.eqb_neq _ _) R1). rewrite Nat2Z.id. subst ts. apply table_scan_spec; try done.
    by rewrite Z.mul_0_r, Z.add_0_r. }
  cbn [set_root set_info g_acpi].
  destruct (parse_madt_spec m (phys_to_virt t) es lapic flags M1 M2 M3 M4 M5) as (g & -> & G1 & G2 & G3). cbn [mbind option_bind].
  eexists. split; [reflexivity|]. done.
Qed.

(** ** Samples *)

Lemma find_first {B} (P : B → bool) l x : find_some (λ a, if P a then Some a else None) l = Some x → first_with P l x.
Proof.
  intros (l1 & y & l2 & -> & Hy & Hl)%find_some_Some. destruct (P y) eqn:E; [|done]. injection Hy as ->.
  exists l1, l2. split_and!; [done|done|]. eapply Forall_impl; [exact Hl|]. cbn. intros z Hz. by destruct (P z).
Qed.

(** A machine with one processor, one I/O controller and the timer redirected. *)
Definition sample_rsdp : list Z :=
  [82; 83; 68; 32; 80; 84; 82; 32; 48; 68; 69; 86; 79; 83; 32; 0; 0; 16; 0; 0].
Definition sample_rsdt : list Z :=
  [82; 83; 68; 84; 40; 0; 0; 0; 1; 122; 0; 0; 0; 0; 0; 0; 0; 0; 0; 0; 0; 0; 0; 0; 0; 0; 0; 0; 0; 0; 0; 0; 0; 0; 0;
   0; 0; 32; 0; 0].
Definition sample_madt : list Z :=
  [65; 80; 73; 67; 74; 0; 0; 0; 3; 212; 0; 0; 0; 0; 0; 0; 0; 0; 0; 0; 0; 0; 0; 0; 0; 0; 0; 0; 0; 0; 0; 0; 0; 0; 0;
   0; 0; 0; 224; 254; 1; 0; 0; 0; 0; 8; 0; 0; 1; 0; 0; 0; 1; 12; 1; 0; 0; 0; 192; 254; 0; 0; 0; 0; 2; 10; 0; 0; 2;
   0; 0; 0; 0; 0].

(** The same machine with a root pointer of revision 2, whose extended root table
    lists a table of another kind first. *)
Definition sample_rsdp2 : list Z :=
  [82; 83; 68; 32; 80; 84; 82; 32; 62; 68; 69; 86; 79; 83; 32; 2; 0; 0; 0; 0; 36; 0; 0; 0; 0; 16; 0; 0; 0; 0; 0; 0; 0; 0; 0; 0].
Definition sample_xsdt : list Z :=
  [88; 83; 68; 84; 52; 0; 0; 0; 1; 56; 0; 0; 0; 0; 0; 0; 0; 0; 0; 0; 0; 0; 0; 0; 0; 0; 0; 0; 0; 0; 0; 0; 0; 0; 0;
   0; 0; 48; 0; 0; 0; 0; 0; 0; 0; 32; 0; 0; 0; 0; 0; 0].

(** Root pointer, root table and MADT at their places in the first megabyte. *)
Definition sample_firmware (rsdp root : list Z) (a : Z) : Z :=
  let o := a - KERNEL_VIRT_BASE in
  if (0xE0000 <=? o) && (o <? 0xE0000 + 36) then lit rsdp (o - 0xE0000)
  else if (0x1000 <=? o) && (o <? 0x1000 + 52) then lit root (o - 0x1000)
  else if (0x2000 <=? o) && (o <? 0x2000 + 74) then lit sample_madt (o - 0x2000)
  else 0.

Lemma lit_byte l i : Forall byte l → byte (lit l i).
Proof.
  intros Hl. unfold lit. destruct (0 <=? i); [|unfold byte; lia]. destruct (l !! Z.to_nat i) as [x|] eqn:E; cbn; [|unfold byte; lia].
  by apply (Forall_lookup_1 _ _ _ _ Hl E).
Qed.

Lemma forallb_byte l : forallb (λ x, (0 <=? x) && (x <? 256)) l = true → Forall byte l.
Proof.
  intros H. apply Forall_forall. intros x Hx. apply list_elem_of_In in Hx. rewrite forallb_forall in H. apply H in Hx.
  apply andb_true_iff in Hx as [?%Z.leb_le ?%Z.ltb_lt]. by unfold byte.
Qed.

Lemma holds_check m a l : forallb (λ i, m (a + Z.of_nat i) =? nth i l 0) (seq 0 (length l)) = true → holds m a l.
Proof.
  intros H i x Hx. rewrite forallb_forall in H. pose proof (lookup_lt_Some _ _ _ Hx) as Hlt.
  specialize (H i ltac:(apply in_seq; lia)). apply Z.eqb_eq in H. rewrite H. by rewrite nth_lookup, Hx.
Qed.

Definition sample_entries : list madt_ent :=
  [EntLapic 0 0 1; EntIoapic {| io_id := 1; io_phys := 0xFEC00000; io_gsi_base := 0 |};
   EntIso {| iso_bus := 0; iso_irq := 0; iso_gsi := 2; iso_flags := 0 |}].

Lemma sample_bytes rsdp root a : Forall byte rsdp → Forall byte root → byte (sample_firmware rsdp root a).
Proof.
  intros Hr Ht. unfold sample_firmware. cbv zeta. repeat case_match; try (by apply lit_byte); [|unfold byte; lia].
  apply lit_byte, forallb_byte. reflexivity.
Qed.

Lemma sample_rsdt_ok : firmware (sample_firmware sample_rsdp sample_rsdt) 0xE0000 [0x2000] 0x2000 0xFEE00000 1 sample_entries.
Proof.
  split.
  - intros a. apply sample_bytes; apply forallb_byte; reflexivity.
  - apply find_first. vm_compute. reflexivity.
  - assert (root_of (sample_firmware sample_rsdp sample_rsdt) (phys_to_virt 0xE0000) = (phys_to_virt 0x1000, 4%nat)) as -> by (by vm_compute).
    split; [by vm_compute|by vm_compute|by vm_compute|apply holds_check; by vm_compute|repeat constructor; lia].
  - apply find_first. by vm_compute.
  - split; [by vm_compute|]. split; [by vm_compute|]. split; [by vm_compute|]. split; [repeat constructor; unfold byte; cbn; lia|].
    apply holds_check. by vm_compute.
Qed.

Lemma sample_xsdt_ok : firmware (sample_firmware sample_rsdp2 sample_xsdt) 0xE0000 [0x3000; 0x2000] 0x2000 0xFEE00000 1 sample_entries.
Proof.
  split.
  - intros a. apply sample_bytes; apply forallb_byte; reflexivity.
  - apply find_first. vm_compute. reflexivity.
  - assert (root_of (sample_firmware sample_rsdp2 sample_xsdt) (phys_to_virt 0xE0000) = (phys_to_virt 0x1000, 8%nat)) as -> by (by vm_compute).
    split; [by vm_compute|by vm_compute|by vm_compute|apply holds_check; by vm_compute|repeat constructor; lia].
  - apply find_first. by vm_compute.
  - split; [by vm_compute|]. split; [by vm_compute|]. split; [by vm_compute|]. split; [repeat constructor; unfold byte; cbn; lia|].
    apply holds_check. by vm_compute.
Qed.

Definition sample_acpi : acpi := {| g_acpi := zero_acpi; g_root_table := 0; g_root_entry_size := 4; g_root_entry_count := 0 |}.

Lemma acpi_init_correct_witness :
  (∃ a', acpi_init (sample_firmware sample_rsdp sample_rsdt) sample_acpi = Some (true, a') ∧ cpu_count (g_acpi a') = 1)
  ∧ ∃ a', acpi_init (sample_firmware sample_rsdp2 sample_xsdt) sample_acpi = Some (true, a') ∧ lapic_phys (g_acpi a') = 0xFEE00000.
Proof.
  split.
  - destruct (acpi_init_correct _ _ _ _ _ _ _ sample_acpi sample_rsdt_ok eq_refl) as (a' & E & _ & _ & [[H2 _] _ _]).
    exists a'. split; [exact E|exact H2].
  - destruct (acpi_init_correct _ _ _ _ _ _ _ sample_acpi sample_xsdt_ok eq_refl) as (a' & E & H1 & _).
    exists a'. split; [exact E|exact H1].
Defined.
