(* ===== verification/Rtl.v ===== *)
(** Model of kernel/drivers/net/rtl8139.c: the network card's registers over port
    input and output, and its buffers in the heap's memory.

    [None] is a division by zero, a fault of the network stack, or fuel that ran
    out.  Messages on the serial line are left out.

    Properties: what the driver does with a received frame and with a card
    that is not ready to send. *)
From Stdlib Require Import String.
From stdpp Require Import prelude gmap.
From S2P Require Import Prelude CString FrameAlloc Bitmap Pmm Vmm VmmProps Heap HeapRefine HeapProps Net NetProps Printf Ports Irq Console Pci.

Definition RTL_VENDOR : Z := 0x10EC.
Definition RTL_DEVICE : Z := 0x8139.
Definition RTL_IDR0 : Z := 0x00.
Definition RTL_TSD0 : Z := 0x10.
Definition RTL_TSAD0 : Z := 0x20.
Definition RTL_RBSTART : Z := 0x30.
Definition RTL_IMR : Z := 0x3C.
Definition RTL_ISR : Z := 0x3E.
Definition RTL_RCR : Z := 0x44.
Definition RTL_9346CR : Z := 0x52.
Definition RTL_CR : Z := 0x37.
Definition RTL_CAPR : Z := 0x38.
Definition RTL_ISR_ROK : Z := Z.shiftl 1 0.
Definition RTL_ISR_TOK : Z := Z.shiftl 1 2.
Definition RTL_ISR_TER : Z := Z.shiftl 1 3.
Definition RTL_ISR_RER : Z := Z.shiftl 1 1.
Definition RTL_CR_RST : Z := Z.shiftl 1 4.
Definition RTL_CR_RE : Z := Z.shiftl 1 3.
Definition RTL_CR_TE : Z := Z.shiftl 1 2.
Definition RTL_RX_BUF_SIZE : Z := 64 * 1024 + 16.
Definition RTL_TX_BUF_SIZE : Z := 2048.
Definition RTL_TX_DESCS : Z := 4.

(** [rtl], whose network device is at the address [rtl_netdev]. *)
Record rtl8139 := { io_base : Z; rx_buf : Z; tx_buf : Z → Z; tx_cur : Z; rx_cur : Z; rtl_netdev : Z }.

Definition set_cur (rx tx : Z) (r : rtl8139) : rtl8139 :=
  {| io_base := io_base r; rx_buf := rx_buf r; tx_buf := tx_buf r; tx_cur := tx; rx_cur := rx; rtl_netdev := rtl_netdev r |}.

Section driver.
Context {A D : Type} `{FrameOps A, PortIO D}.
Context (dev_send : Z → list Z → Z).
Implicit Types (r : rtl8139) (d : D) (s : net A).

Definition R8 r (reg : Z) d : Z * D := inb (u16 (io_base r + reg)) d.
Definition R16 r (reg : Z) d : Z * D := inw (u16 (io_base r + reg)) d.
Definition R32 r (reg : Z) d : Z * D := inl (u16 (io_base r + reg)) d.
Definition W8 r (reg v : Z) d : D := outb (u16 (io_base r + reg)) (u8 v) d.
Definition W16 r (reg v : Z) d : D := outw (u16 (io_base r + reg)) (u16 v) d.
Definition W32 r (reg v : Z) d : D := outl (u16 (io_base r + reg)) (u32 v) d.

(** ** Receiving *)

(** [while (!(R8(RTL_CR) & 0x01)) { ... }] *)
Fixpoint rx_loop (fuel : nat) r d s : option (rtl8139 * D * net A) :=
  match fuel with
  | O => None
  | S n =>
      let '(cr, d) := R8 r RTL_CR d in
      if negb (Z.land cr 0x01 =? 0) then Some (r, d, s)
      else
        let offset := rx_cur r in
        let ptr := rx_buf r + offset in
        let pkt_hdr := load16 (nt_mem s) ptr in
        let pkt_len := load16 (nt_mem s) (ptr + 2) in
        if Z.land pkt_hdr 1 =? 0 then Some (r, d, s)
        else
          s ← (if (4 <? pkt_len) && (pkt_len <? 1514 + 4)
               then netdev_dispatch_rx dev_send (rtl_netdev r) (ptr + 4) (pkt_len - 4) s else Some s);
          let cur := u16 (Z.land (offset + pkt_len + 4 + 3) (Z.lnot 3)) in
          let size := u16 (RTL_RX_BUF_SIZE - 16) in
          if size =? 0 then None
          else
            let r := set_cur (cur mod size) (tx_cur r) r in
            rx_loop n r (W16 r RTL_CAPR (u16 (rx_cur r - 16)) d) s
  end.

Definition rtl8139_irq (fuel : nat) r d s : option (rtl8139 * D * net A) :=
  let '(status, d) := R16 r RTL_ISR d in
  let d := W16 r RTL_ISR status d in
  if Z.land status RTL_ISR_ROK =? 0 then Some (r, d, s) else rx_loop fuel r d s.

(** ** Sending *)

(** [while (!(R32(reg) & (1 << 13)) && timeout--);], and [timeout] after it. *)
Fixpoint tx_wait (n : nat) r (reg : Z) d : Z * D :=
  let '(v, d) := R32 r reg d in
  if Z.land v (Z.shiftl 1 13) =? 0
  then match n with O => (u32 (-1), d) | S n => tx_wait n r reg d end
  else (Z.of_nat n, d).

Definition rtl8139_send (data len : Z) r d (m : mem) : option (Z * rtl8139 * D * mem) :=
  if RTL_TX_BUF_SIZE <? len then Some (-1, r, d, m)
  else
    let desc := tx_cur r mod RTL_TX_DESCS in
    let '(timeout, d) := tx_wait (Z.to_nat 1000000) r (u8 (RTL_TSD0 + desc * 4)) d in
    if timeout =? 0 then Some (-1, r, d, m)
    else
      buf ← aget RTL_TX_DESCS (tx_buf r) desc;
      let m := memcpy buf data len m in
      let d := W32 r (u8 (RTL_TSAD0 + desc * 4)) (u32 (Z.land buf 0xFFFFFFFF)) d in
      let d := W32 r (u8 (RTL_TSD0 + desc * 4)) (u32 (Z.land (if len <? 60 then 60 else len) 0x1FFF)) d in
      Some (0, set_cur (rx_cur r) (u32 (tx_cur r + 1)) r, d, m).

(** ** Initialisation *)

(** [for (i...; i < RTL_TX_DESCS; i++) { tx_buf[i] = kzalloc(...); if (!tx_buf[i]) return false; }] *)
Fixpoint alloc_tx (n : nat) (i : Z) (tx : Z → Z) (h : heap A) : option (bool * (Z → Z) * heap A) :=
  match n with
  | O => Some (true, tx, h)
  | S n =>
      '(p, h) ← kzalloc RTL_TX_BUF_SIZE h;
      let tx := upd tx i p in
      if p =? 0 then Some (false, tx, h) else alloc_tx n (i + 1) tx h
  end.

(** [while ((R8(RTL_CR) & RTL_CR_RST) && t--);] *)
Fixpoint reset_wait (n : nat) r d : D :=
  let '(v, d) := R8 r RTL_CR d in
  if Z.land v RTL_CR_RST =? 0 then d else match n with O => d | S n => reset_wait n r d end.

(** [for (i...; i < ETH_ALEN; i++) mac[i] = R8(RTL_IDR0 + i);] *)
Fixpoint read_mac (n : nat) (i : Z) r d : list Z * D :=
  match n with
  | O => ([], d)
  | S n => let '(v, d) := R8 r (u8 (RTL_IDR0 + i)) d in let '(l, d) := read_mac n (i + 1) r d in (v :: l, d)
  end.

(** The registers, from the reset to the enabling of transfers. *)
Definition rtl_setup r d : list Z * D :=
  let d := W8 r RTL_CR RTL_CR_RST d in
  let d := reset_wait (Z.to_nat 100000) r d in
  let d := W8 r RTL_9346CR 0xC0 d in
  let '(mac, d) := read_mac 6 0 r d in
  let d := W32 r RTL_RBSTART (u32 (Z.land (rx_buf r) 0xFFFFFFFF)) d in
  let d := W32 r RTL_RCR 0x0000F40F d in
  let d := W16 r RTL_IMR (Z.lor (Z.lor (Z.lor RTL_ISR_ROK RTL_ISR_TOK) RTL_ISR_TER) RTL_ISR_RER) d in
  let d := W8 r RTL_9346CR 0x00 d in
  (mac, W8 r RTL_CR (Z.lor RTL_CR_RE RTL_CR_TE) d).

Definition set_device (dev : Z) (x : net_device) s : net A :=
  {| nt_heap := nt_heap s; nt_devices := <[dev := x]> (nt_devices s); devs := devs s; dev_cnt := dev_cnt s; rx_handler := rx_handler s;
     arp_cache := arp_cache s; my_ip := my_ip s; g_my_ip := g_my_ip s; g_ip_id := g_ip_id s; sent := sent s |}.

(** The device of [irqs] is the one of the ports; [h] is [rtl8139_irq]. *)
Definition rtl8139_init {H} (h : H) (p : pci D) (q : irqs D H) r s : option (bool * rtl8139 * irqs D H * net A) :=
  match pci_find_device RTL_VENDOR RTL_DEVICE p with
  | None => Some (false, r, q, s)
  | Some i =>
      let pdev := pci_devices p i in
      let d := pci_enable_io_space pdev (pci_enable_bus_master pdev (iq_dev q)) in
      let q := set_iqdev d q in
      let io := u16 (Z.land (bar pdev 0) (u32 (Z.lnot 0x3))) in
      '(rx, hp) ← kzalloc RTL_RX_BUF_SIZE (nt_heap s);
      let r := {| io_base := io; rx_buf := rx; tx_buf := tx_buf r; tx_cur := tx_cur r; rx_cur := rx_cur r; rtl_netdev := rtl_netdev r |} in
      if rx =? 0 then Some (false, r, q, set_nheap hp s)
      else
        '(ok, tx, hp) ← alloc_tx (Z.to_nat RTL_TX_DESCS) 0 (tx_buf r) hp;
        let r := {| io_base := io; rx_buf := rx; tx_buf := tx; tx_cur := tx_cur r; rx_cur := rx_cur r; rtl_netdev := rtl_netdev r |} in
        let s := set_nheap hp s in
        if negb ok then Some (false, r, q, s)
        else
          let '(mac, d) := rtl_setup r (iq_dev q) in
          let r := set_cur 0 0 r in
          let q := irq_register (irq_line pdev) h (set_iqdev d q) in
          let s := set_device (rtl_netdev r) {| d_name := bytes "eth0"; d_mac := mac; d_up := true; d_send := true |} s in
          '(_, s) ← netdev_register (rtl_netdev r) s;
          Some (true, r, q, s)
  end.
End driver.

Lemma bit_clear x k : 0 ≤ k → (Z.land x (Z.shiftl 1 k) =? 0) = negb (Z.testbit x k).
Proof. intros Hk. rewrite Z.shiftl_1_l. by apply land_bit. Qed.

Section driver.
Context {A D : Type} `{FrameOps A, PortIO D} (dev_send : Z → list Z → Z).
Implicit Types (r : rtl8139) (d : D) (s : net A).

(** C40: Receiving.  The size of the ring, 64 KB, is cast to 16 bits and is zero
    there.  So whenever the card reports a frame that was received correctly, the
    interrupt handler divides by zero, whatever the frame and the stack's answer;
    an interrupt without a frame is only acknowledged. *)
Theorem rtl8139_receive_faults r d s status d1 fuel :
  R16 r RTL_ISR d = (status, d1) →
  (Z.testbit status 0 = false → rtl8139_irq dev_send fuel r d s = Some (r, Rtl.W16 r RTL_ISR status d1, s))
  ∧ (∀ cr d2, R8 r RTL_CR (Rtl.W16 r RTL_ISR status d1) = (cr, d2) →
       Z.testbit status 0 = true → Z.testbit cr 0 = false → Z.testbit (load16 (nt_mem s) (rx_buf r + rx_cur r)) 0 = true →
       rtl8139_irq dev_send fuel r d s = None).
Proof.
  intros E1. unfold rtl8139_irq. rewrite E1. unfold RTL_ISR_ROK. rewrite bit_clear by lia. split.
  - intros ->. done.
  - intros cr d2 E2 -> Hc Hh. cbn [negb]. destruct fuel as [|n]; [done|]. cbn [rx_loop]. rewrite E2.
    change 0x01 with (Z.shiftl 1 0) at 1. rewrite bit_clear, Hc by lia. cbn [negb].
    change (Z.land (load16 (nt_mem s) (rx_buf r + rx_cur r)) 1) with (Z.land (load16 (nt_mem s) (rx_buf r + rx_cur r)) (Z.shiftl 1 0)).
    rewrite bit_clear, Hh by lia. cbn [negb]. change (u16 (RTL_RX_BUF_SIZE - 16)) with 0. cbn [Z.eqb].
    destruct (if _ && _ then _ else _); done.
Qed.

(** A card that never reports a free descriptor. *)
Lemma tx_wait_never n r reg d :
  (∀ d, Z.testbit (fst (R32 r reg d)) 13 = false) → fst (tx_wait n r reg d) = u32 (-1).
Proof.
  intros Hn. revert d. induction n as [|n IH]; intros d; cbn [tx_wait]; pose proof (Hn d) as Hd;
    destruct (R32 r reg d) as [v d1]; cbn [fst] in Hd; rewrite bit_clear, Hd by lia; cbn [negb]; [done|apply IH].
Qed.

(** The wait for a free descriptor has no effect.  When the card never becomes
    ready the counter wraps around, and the frame is written over the buffer of
    the earlier one and started all the same. *)
Theorem rtl8139_send_ignores_timeout r d m data len :
  len ≤ RTL_TX_BUF_SIZE → 0 ≤ tx_cur r →
  let desc := tx_cur r mod RTL_TX_DESCS in
  (∀ d, Z.testbit (fst (R32 r (u8 (RTL_TSD0 + desc * 4)) d)) 13 = false) →
  ∃ d1, rtl8139_send data len r d m
    = Some (0, set_cur (rx_cur r) (u32 (tx_cur r + 1)) r, d1, memcpy (tx_buf r desc) data len m).
Proof.
  intros Hl Ht desc Hn. unfold rtl8139_send. rewrite (proj2 (Z.ltb_ge RTL_TX_BUF_SIZE len)) by done. fold desc.
  pose proof (tx_wait_never (Z.to_nat 1000000) r (u8 (RTL_TSD0 + desc * 4)) d Hn) as Hw.
  generalize dependent (Z.to_nat 1000000). intros n Hw. destruct (tx_wait n r _ d) as [t d1]. cbn [fst] in Hw. rewrite Hw.
  change (u32 (-1) =? 0) with false. cbv iota.
  rewrite aget_Some by (apply Z.mod_pos_bound; done). cbn [mbind option_bind]. eexists. reflexivity.
Qed.
End driver.

(** A card that has a frame. *)
Definition full_card : PortIO unit := {| port_in _ p d := (if p =? RTL_ISR then 1 else 0, d); port_out _ _ _ d := d |}.

Lemma rtl8139_receive_faults_witness :
  ∃ s : net pmm, rtl8139_irq (H0 := full_card) (λ _ _, 0) 10
    {| io_base := 0; rx_buf := 0x1000; tx_buf := λ _, 0; tx_cur := 0; rx_cur := 0; rtl_netdev := 1 |} tt s = None.
Proof.
  exists (sample_net (λ _, 1) (one_free 300)).
  destruct (rtl8139_receive_faults (H0 := full_card) (λ _ _, 0)
    {| io_base := 0; rx_buf := 0x1000; tx_buf := λ _, 0; tx_cur := 0; rx_cur := 0; rtl_netdev := 1 |} tt
    (sample_net (λ _, 1) (one_free 300)) 1 tt 10 eq_refl) as [_ Hf].
  apply (Hf 0 tt); reflexivity.
Defined.
