(* ===== verification/Apic.v ===== *)
(** Model of kernel/arch/x86_64/apic.c and ioapic.c: the local and the I/O
    interrupt controllers, over registers in memory.  Messages on the serial line
    are left out. *)
From stdpp Require Import prelude.
From S2P Require Import Prelude CString FrameAlloc Vmm Ports Printf Console Acpi.

(** ** Local controller *)

Definition APIC_ID : Z := 0x020.
Definition APIC_VER : Z := 0x030.
Definition APIC_TPR : Z := 0x080.
Definition APIC_EOI : Z := 0x0B0.
Definition APIC_SVR : Z := 0x0F0.
Definition APIC_LVT_TIMER : Z := 0x320.
Definition APIC_LVT_LINT0 : Z := 0x350.
Definition APIC_LVT_LINT1 : Z := 0x360.
Definition APIC_LVT_ERR : Z := 0x370.
Definition APIC_SVR_ENABLE : Z := Z.shiftl 1 8.
Definition APIC_LVT_MASKED : Z := Z.shiftl 1 16.
Definition APIC_SPURIOUS_VEC : Z := 0xFF.
Definition MSR_APIC_BASE : Z := 0x1B.
Definition APIC_BASE_ENABLE : Z := Z.shiftl 1 11.

(** [cpuid_edx] is what the instruction answers for a leaf. *)
Record apic (D : Type) := { ap_dev : D; ap_msrs : Z → Z; cpuid_edx : Z → Z; apic_base : Z; apic_ready : bool }.
Arguments ap_dev {D} _.
Arguments ap_msrs {D} _.
Arguments cpuid_edx {D} _.
Arguments apic_base {D} _.
Arguments apic_ready {D} _.

Section local_apic.
Context {D : Type} `{MmioIO D}.
Implicit Types (a : apic D).

Definition cpuid_edx_bit (leaf bit : Z) a : Z := Z.land (Z.shiftr (cpuid_edx a leaf) bit) 1.

Definition set_apdev (d : D) a : apic D :=
  {| ap_dev := d; ap_msrs := ap_msrs a; cpuid_edx := cpuid_edx a; apic_base := apic_base a; apic_ready := apic_ready a |}.

(** [apic_base[reg >> 2]] *)
Definition apic_read (reg : Z) a : Z * apic D :=
  let '(v, d) := rd32 (apic_base a + 4 * Z.shiftr reg 2) (ap_dev a) in (v, set_apdev d a).
Definition apic_write (reg v : Z) a : apic D := set_apdev (wr32 (apic_base a + 4 * Z.shiftr reg 2) v (ap_dev a)) a.

Definition apic_available a : bool := apic_ready a.

Definition apic_id a : Z * apic D :=
  if negb (apic_ready a) then (0, a)
  else let '(v, a) := apic_read APIC_ID a in (Z.land (Z.shiftr v 24) 0xFF, a).

Definition apic_eoi a : apic D := if apic_ready a then apic_write APIC_EOI 0 a else a.

Definition apic_init {A} `{FrameOps A} (s : vmm A) a : option (bool * vmm A * apic D) :=
  if cpuid_edx_bit 1 9 a =? 0 then Some (false, s, a)
  else
    let msr_val := ap_msrs a MSR_APIC_BASE in
    let apic_phys := Z.land msr_val 0xFFFFF000 in
    let virt := u64 (KERNEL_VIRT_BASE + apic_phys) in
    s ← vmm_map (kernel_pml4 s) virt apic_phys VMM_MMIO s;
    let a := {| ap_dev := ap_dev a; ap_msrs := upd (ap_msrs a) MSR_APIC_BASE (Z.lor msr_val APIC_BASE_ENABLE);
                cpuid_edx := cpuid_edx a; apic_base := virt; apic_ready := apic_ready a |} in
    let a := apic_write APIC_SVR (Z.lor APIC_SVR_ENABLE APIC_SPURIOUS_VEC) a in
    let a := apic_write APIC_TPR 0 a in
    let a := apic_write APIC_LVT_LINT0 APIC_LVT_MASKED a in
    let a := apic_write APIC_LVT_LINT1 APIC_LVT_MASKED a in
    let a := apic_write APIC_LVT_TIMER APIC_LVT_MASKED a in
    let a := apic_write APIC_LVT_ERR (Z.lor APIC_LVT_MASKED 0xFE) a in
    let a := {| ap_dev := ap_dev a; ap_msrs := ap_msrs a; cpuid_edx := cpuid_edx a; apic_base := apic_base a; apic_ready := true |} in
    let '(_, a) := apic_id a in
    let '(_, a) := apic_read APIC_VER a in
    Some (true, s, a).
End local_apic.

(** ** I/O controllers *)

Definition IOAPIC_REGSEL : Z := 0x00.
Definition IOAPIC_WIN : Z := 0x10.
Definition IOAPIC_VER_REG : Z := 0x01.
Definition IOAPIC_RTE_BASE : Z := 0x10.
Definition MAX_IOAPICS : Z := 16.

Record ioapic_t := { ia_base : Z; ia_gsi_base : Z; max_rte : Z; ia_valid : bool }.

(** [n_ioapics] is the static [ioapic_count]. *)
Record ioapics_state (D : Type) := { ia_dev : D; ioapics : Z → ioapic_t; n_ioapics : Z }.
Arguments ia_dev {D} _.
Arguments ioapics {D} _.
Arguments n_ioapics {D} _.

Section io_apic.
Context {D : Type} `{MmioIO D}.
Implicit Types (d : D) (io : ioapic_t) (x : ioapics_state D).

Definition ioapic_read io (reg : Z) d : Z * D :=
  rd32 (ia_base io + 4 * Z.shiftr IOAPIC_WIN 2) (wr32 (ia_base io + 4 * Z.shiftr IOAPIC_REGSEL 2) reg d).

Definition ioapic_write io (reg val : Z) d : D :=
  wr32 (ia_base io + 4 * Z.shiftr IOAPIC_WIN 2) val (wr32 (ia_base io + 4 * Z.shiftr IOAPIC_REGSEL 2) reg d).

Definition ioapic_write_rte io (irq rte : Z) d : D :=
  let reg := u8 (IOAPIC_RTE_BASE + 2 * irq) in
  let d := ioapic_write io reg (u32 (Z.land rte 0xFFFFFFFF)) d in
  ioapic_write io (u8 (reg + 1)) (u32 (Z.shiftr rte 32)) d.

Definition ioapic_read_rte io (irq : Z) d : Z * D :=
  let reg := u8 (IOAPIC_RTE_BASE + 2 * irq) in
  let '(lo, d) := ioapic_read io reg d in
  let '(hi, d) := ioapic_read io (u8 (reg + 1)) d in
  (Z.lor lo (u64 (Z.shiftl hi 32)), d).

(** The controller and its line, [None] for NULL. *)
Fixpoint gsi_loop (n : nat) (i gsi : Z) (ios : Z → ioapic_t) : option (ioapic_t * Z) :=
  match n with
  | O => None
  | S n =>
      let io := ios i in
      if negb (ia_valid io) then gsi_loop n (i + 1) gsi ios
      else if (ia_gsi_base io <=? gsi) && (gsi <? u32 (ia_gsi_base io + max_rte io)) then Some (io, u8 (gsi - ia_gsi_base io))
      else gsi_loop n (i + 1) gsi ios
  end.

Definition ioapic_for_gsi (gsi : Z) x : option (ioapic_t * Z) := gsi_loop (Z.to_nat (n_ioapics x)) 0 gsi (ioapics x).

Definition RTE_MASK : Z := Z.shiftl 1 16.

(** [for (j...; j < max_rte; j++)]: every entry is masked. *)
Fixpoint mask_all (n : nat) (j : Z) io d : D :=
  match n with
  | O => d
  | S n =>
      let '(rte, d) := ioapic_read_rte io j d in
      mask_all n (j + 1) io (ioapic_write_rte io j (Z.lor rte RTE_MASK) d)
  end.

(** One controller of the table. *)
Definition ioapic_setup {A} `{FrameOps A} (i : Z) (g : acpi_info) (s : vmm A) x : option (vmm A * ioapics_state D) :=
  e ← aget 16 (ioapic g) i;
  let phys := io_phys e in
  let virt := u64 (KERNEL_VIRT_BASE + phys) in
  s ← vmm_map (kernel_pml4 s) virt phys VMM_MMIO s;
  let io := {| ia_base := virt; ia_gsi_base := io_gsi_base e; max_rte := max_rte (ioapics x i); ia_valid := true |} in
  let '(ver, d) := ioapic_read io IOAPIC_VER_REG (ia_dev x) in
  let io := {| ia_base := virt; ia_gsi_base := io_gsi_base e; max_rte := u8 (Z.land (Z.shiftr ver 16) 0xFF + 1); ia_valid := true |} in
  ios ← aset MAX_IOAPICS (ioapics x) i io;
  Some (s, {| ia_dev := mask_all (Z.to_nat (max_rte io)) 0 io d; ioapics := ios; n_ioapics := n_ioapics x + 1 |}).

Fixpoint setup_loop {A} `{FrameOps A} (n : nat) (i : Z) (g : acpi_info) (s : vmm A) x : option (vmm A * ioapics_state D) :=
  match n with
  | O => Some (s, x)
  | S n => '(s, x) ← ioapic_setup i g s x; setup_loop n (i + 1) g s x
  end.

Definition ioapic_init {A} `{FrameOps A} (g : acpi_info) (s : vmm A) x : option (bool * vmm A * ioapics_state D) :=
  if ioapic_count g =? 0 then Some (false, s, x)
  else
    '(s, x) ← setup_loop (Z.to_nat (Z.min (ioapic_count g) MAX_IOAPICS)) 0 g s x;
    Some (true, s, x).

(** The global interrupt, polarity and trigger of a line after the overrides. *)
Fixpoint iso_loop (n : nat) (i irq : Z) (level active_low : bool) (isos : Z → iso_info) : Z * bool * bool :=
  match n with
  | O => (irq, level, active_low)
  | S n =>
      let e := isos i in
      if iso_irq e =? irq then
        (iso_gsi e, level || (Z.shiftr (Z.land (iso_flags e) 0xC) 2 =? 3), active_low || (Z.land (iso_flags e) 0x3 =? 3))
      else iso_loop n (i + 1) irq level active_low isos
  end.

(** The entry for a vector. *)
Definition make_rte (vector dest : Z) (level active_low : bool) : Z :=
  let rte := vector in
  let rte := if active_low then Z.lor rte (Z.shiftl 1 13) else rte in
  let rte := if level then Z.lor rte (Z.shiftl 1 15) else rte in
  let rte := Z.lor rte (u64 (Z.shiftl dest 56)) in
  Z.land rte (u64 (Z.lnot RTE_MASK)).

Definition set_iadev d x : ioapics_state D := {| ia_dev := d; ioapics := ioapics x; n_ioapics := n_ioapics x |}.

Definition ioapic_set_irq (irq vector dest_apic_id : Z) (level active_low : bool) (g : acpi_info) x : ioapics_state D :=
  let '(gsi, level, active_low) := iso_loop (Z.to_nat (iso_count g)) 0 irq level active_low (iso g) in
  match ioapic_for_gsi gsi x with
  | None => x
  | Some (io, local_irq) => set_iadev (ioapic_write_rte io local_irq (make_rte vector dest_apic_id level active_low) (ia_dev x)) x
  end.

Definition ioapic_mask_irq (irq : Z) x : ioapics_state D :=
  match ioapic_for_gsi irq x with
  | None => x
  | Some (io, local_irq) =>
      let '(rte, d) := ioapic_read_rte io local_irq (ia_dev x) in
      set_iadev (ioapic_write_rte io local_irq (Z.lor rte RTE_MASK) d) x
  end.

Definition ioapic_unmask_irq (irq : Z) x : ioapics_state D :=
  match ioapic_for_gsi irq x with
  | None => x
  | Some (io, local_irq) =>
      let '(rte, d) := ioapic_read_rte io local_irq (ia_dev x) in
      set_iadev (ioapic_write_rte io local_irq (Z.land rte (u64 (Z.lnot RTE_MASK))) d) x
  end.
End io_apic.
