(* ===== verification/ApicProps.v ===== *)
(** The redirection tables after kernel/arch/x86_64/ioapic.c has programmed them. *)
From stdpp Require Import prelude.
From S2P Require Import Prelude CString FrameAlloc Vmm VmmWf VmmSpec Ports Printf Console Acpi Apic.

(** ** The chips

    A register is selected with the first word and accessed through the window;
    two bits of the lower half of an entry, the delivery status and the remote
    IRR, are read-only and left out of [chip_reg]. *)
Definition ro_bits (reg : Z) : Z := if (IOAPIC_RTE_BASE <=? reg) && Z.even reg then 0x5000 else 0.

Class IoapicChips (D : Type) `{MmioIO D} := {
  is_chip : Z → Prop;
  chip_sel : D → Z → Z;
  chip_reg : D → Z → Z → Z;
  chip_select d b v b' : is_chip b → is_chip b' →
    chip_sel (mmio_write 4 b v d) b' = (if decide (b' = b) then v mod 256 else chip_sel d b')
    ∧ chip_reg (mmio_write 4 b v d) b' = chip_reg d b';
  chip_write d b v b' r : is_chip b → is_chip b' → 0 ≤ v < 2 ^ 32 →
    chip_sel (mmio_write 4 (b + 16) v d) b' = chip_sel d b'
    ∧ chip_reg (mmio_write 4 (b + 16) v d) b' r
      = if decide (b' = b ∧ r = chip_sel d b) then Z.ldiff v (ro_bits r) else chip_reg d b' r;
  chip_read d b v d1 : is_chip b → mmio_read 4 (b + 16) d = (v, d1) →
    0 ≤ v < 2 ^ 32 ∧ Z.ldiff v (ro_bits (chip_sel d b)) = chip_reg d b (chip_sel d b)
    ∧ ∀ b' r, is_chip b' → chip_reg d1 b' r = chip_reg d b' r ∧ chip_sel d1 b' = chip_sel d b';
}.

Section chips.
Context {D : Type} `{IoapicChips D}.
Implicit Types (d : D) (x : ioapics_state D).

Lemma ioapic_write_spec io reg v d b r :
  is_chip (ia_base io) → is_chip b → 0 ≤ reg < 256 → 0 ≤ v < 2 ^ 32 →
  chip_reg (ioapic_write io reg v d) b r
  = if decide (b = ia_base io ∧ r = reg) then Z.ldiff v (ro_bits reg) else chip_reg d b r.
Proof.
  intros Hio Hb Hr Hv. unfold ioapic_write, wr32. change (4 * Z.shiftr IOAPIC_WIN 2) with 16.
  change (4 * Z.shiftr IOAPIC_REGSEL 2) with 0. rewrite Z.add_0_r, !u32_small by lia.
  destruct (chip_select d (ia_base io) reg (ia_base io) Hio Hio) as [S1 _]. rewrite decide_True, Z.mod_small in S1 by lia.
  destruct (chip_select d (ia_base io) reg b Hio Hb) as [_ S2].
  destruct (chip_write (mmio_write 4 (ia_base io) reg d) (ia_base io) v b r Hio Hb Hv) as [_ ->]. rewrite S1, S2.
  destruct (decide (b = ia_base io ∧ r = reg)) as [[-> ->]|]; done.
Qed.

Lemma ioapic_read_spec io reg d :
  is_chip (ia_base io) → 0 ≤ reg < 256 →
  ∃ v d1, ioapic_read io reg d = (v, d1) ∧ 0 ≤ v < 2 ^ 32 ∧ Z.ldiff v (ro_bits reg) = chip_reg d (ia_base io) reg
    ∧ ∀ b r, is_chip b → chip_reg d1 b r = chip_reg d b r.
Proof.
  intros Hio Hr. unfold ioapic_read, wr32, rd32. change (4 * Z.shiftr IOAPIC_WIN 2) with 16.
  change (4 * Z.shiftr IOAPIC_REGSEL 2) with 0. rewrite Z.add_0_r, !u32_small by lia.
  destruct (chip_select d (ia_base io) reg (ia_base io) Hio Hio) as [S1 S2]. rewrite decide_True, Z.mod_small in S1 by lia.
  destruct (mmio_read 4 (ia_base io + 16) _) as [v d1] eqn:E. apply chip_read in E as (Hv & E1 & E2); [|done].
  rewrite S1, S2 in E1. exists v, d1. rewrite u32_small by lia. split_and!; [done|lia|lia|done|]. intros b r Hb.
  destruct (E2 b r Hb) as [-> _]. destruct (chip_select d (ia_base io) reg b Hio Hb) as [_ ->]. done.
Qed.

(** The two halves of an entry, without the read-only bits. *)
Definition rte_reg (line : Z) : Z := IOAPIC_RTE_BASE + 2 * line.

Lemma ro_even line : 0 ≤ line → ro_bits (rte_reg line) = 0x5000 ∧ ro_bits (rte_reg line + 1) = 0.
Proof.
  intros Hl. unfold ro_bits, rte_reg, IOAPIC_RTE_BASE. rewrite (proj2 (Z.leb_le 16 _)), (proj2 (Z.leb_le 16 (_ + 1))) by lia.
  assert (Z.even (16 + 2 * line) = true) as E1 by (rewrite Z.even_add_mul_2; done).
  rewrite E1. replace (16 + 2 * line + 1) with (17 + 2 * line) by lia. by rewrite Z.even_add_mul_2.
Qed.

Lemma write_rte_spec io line rte d b r :
  is_chip (ia_base io) → is_chip b → 0 ≤ line < 120 → 0 ≤ rte < 2 ^ 64 →
  chip_reg (ioapic_write_rte io line rte d) b r
  = if decide (b = ia_base io ∧ r = rte_reg line) then Z.ldiff (rte mod 2 ^ 32) 0x5000
    else if decide (b = ia_base io ∧ r = rte_reg line + 1) then rte / 2 ^ 32 else chip_reg d b r.
Proof.
  intros Hio Hb Hl Hrte. unfold ioapic_write_rte. fold (rte_reg line). destruct (ro_even line) as [R1 R2]; [lia|].
  assert (0 ≤ rte_reg line < 255) by (unfold rte_reg, IOAPIC_RTE_BASE; lia). rewrite (u8_small (rte_reg line)) by lia. cbv zeta. rewrite (u8_small (rte_reg line + 1)) by lia.
  rewrite (Z.land_ones rte 32 ltac:(lia) : Z.land rte 0xFFFFFFFF = rte mod 2 ^ 32), Z.shiftr_div_pow2 by lia.
  assert (0 ≤ rte mod 2 ^ 32 < 2 ^ 32 ∧ 0 ≤ rte / 2 ^ 32 < 2 ^ 32) as [Hlo Hhi] by (Z.to_euclidean_division_equations; lia).
  rewrite !u32_small by lia. rewrite ioapic_write_spec by (done || lia). rewrite R2, Z.ldiff_0_r.
  destruct (decide (b = ia_base io ∧ r = rte_reg line + 1)) as [[-> ->]|N1]; [by case_decide as E; [lia|]|].
  rewrite ioapic_write_spec by (done || lia). by rewrite R1.
Qed.

Lemma read_rte_spec io line d :
  is_chip (ia_base io) → 0 ≤ line < 120 →
  ∃ rte d1, ioapic_read_rte io line d = (rte, d1) ∧ 0 ≤ rte < 2 ^ 64 ∧ ∀ b r, is_chip b → chip_reg d1 b r = chip_reg d b r.
Proof.
  intros Hio Hl. unfold ioapic_read_rte. fold (rte_reg line).
  assert (0 ≤ rte_reg line < 255) by (unfold rte_reg, IOAPIC_RTE_BASE; lia). rewrite (u8_small (rte_reg line)) by lia. cbv zeta. rewrite (u8_small (rte_reg line + 1)) by lia.
  destruct (ioapic_read_spec io (rte_reg line) d Hio ltac:(lia)) as (lo & d1 & -> & Hlo & _ & E1).
  destruct (ioapic_read_spec io (rte_reg line + 1) d1 Hio ltac:(lia)) as (hi & d2 & -> & Hhi & _ & E2).
  eexists _, d2. split; [reflexivity|]. split; [|intros b r Hb; by rewrite E2, E1].
  rewrite Z.shiftl_mul_pow2 by lia. rewrite u64_small by lia. apply lor_range; lia.
Qed.

(** ** Entries *)

Lemma make_rte_value vector dest level active_low :
  0 ≤ vector < 256 → 0 ≤ dest < 256 →
  make_rte vector dest level active_low
  = dest * 2 ^ 56 + ((if level then 2 ^ 15 else 0) + ((if active_low then 2 ^ 13 else 0) + vector)).
Proof.
  intros Hv Hd. unfold make_rte. rewrite (Z.shiftl_mul_pow2 dest) by lia. rewrite (u64_small (dest * 2 ^ 56)) by lia.
  assert ((if active_low then Z.lor vector (Z.shiftl 1 13) else vector) = (if active_low then 2 ^ 13 else 0) + vector) as ->.
  { destruct active_low; [|done]. rewrite Z.shiftl_mul_pow2, Z.lor_comm, lor_low by lia. lia. }
  set (w := (if active_low then 2 ^ 13 else 0) + vector). assert (0 ≤ w < 2 ^ 14) as Hw by (unfold w; destruct active_low; lia).
  assert ((if level then Z.lor w (Z.shiftl 1 15) else w) = (if level then 2 ^ 15 else 0) + w) as ->.
  { destruct level; [|done]. rewrite Z.shiftl_mul_pow2, Z.lor_comm, lor_low by lia. lia. }
  set (w1 := (if level then 2 ^ 15 else 0) + w). assert (0 ≤ w1 < 2 ^ 16) as Hw1 by (unfold w1; destruct level; lia).
  rewrite Z.lor_comm, lor_low by lia. set (v := dest * 2 ^ 56 + w1). apply Z.bits_inj'. intros i Hi. rewrite Z.land_spec.
  unfold u64, RTE_MASK. rewrite Z.shiftl_1_l. destruct (decide (i < 64)).
  - rewrite Z.mod_pow2_bits_low, Z.lnot_spec by lia. destruct (decide (i = 16)) as [->|]; [|by rewrite Z.pow2_bits_false, andb_true_r by lia].
    rewrite Z.pow2_bits_true by lia. rewrite andb_false_r. symmetry. rewrite Z.testbit_eqb by lia. apply Z.eqb_neq.
    unfold v. Z.to_euclidean_division_equations. lia.
  - by rewrite (testbit_high v 64) by (unfold v; lia).
Qed.

(** The halves of an entry, without the read-only bits. *)
Lemma rte_low vector dest (level low : bool) :
  0 ≤ vector < 256 → 0 ≤ dest < 256 →
  let w := (if level then 2 ^ 15 else 0) + ((if low then 2 ^ 13 else 0) + vector) in
  Z.ldiff ((dest * 2 ^ 56 + w) mod 2 ^ 32) 0x5000 = w.
Proof.
  intros Hv Hd w. assert (0 ≤ w < 2 ^ 16) by (unfold w; destruct level, low; lia).
  replace ((dest * 2 ^ 56 + w) mod 2 ^ 32) with w by (Z.to_euclidean_division_equations; lia).
  apply Z.eqb_eq. unfold w. destruct level, low;
    [apply (check_range (λ v, Z.ldiff (2 ^ 15 + (2 ^ 13 + v)) 0x5000 =? 2 ^ 15 + (2 ^ 13 + v)) 256)
    |apply (check_range (λ v, Z.ldiff (2 ^ 15 + (0 + v)) 0x5000 =? 2 ^ 15 + (0 + v)) 256)
    |apply (check_range (λ v, Z.ldiff (0 + (2 ^ 13 + v)) 0x5000 =? 0 + (2 ^ 13 + v)) 256)
    |apply (check_range (λ v, Z.ldiff (0 + (0 + v)) 0x5000 =? 0 + (0 + v)) 256)]; done || (by vm_compute).
Qed.

Lemma rte_high vector dest (level low : bool) :
  0 ≤ vector < 256 → 0 ≤ dest < 256 →
  (dest * 2 ^ 56 + ((if level then 2 ^ 15 else 0) + ((if low then 2 ^ 13 else 0) + vector))) / 2 ^ 32 = dest * 2 ^ 24.
Proof. intros Hv Hd. destruct level, low; Z.to_euclidean_division_equations; lia. Qed.

(** The override of a line: the first that names it. *)
Definition override (g : acpi_info) (irq : Z) : option iso_info :=
  find_some (λ i, if iso_irq (iso g i) =? irq then Some (iso g i) else None) (seqZ 0 (iso_count g)).

Lemma iso_loop_spec n irq level low isos : ∀ i,
  iso_loop n i irq level low isos
  = match find_some (λ i, if iso_irq (isos i) =? irq then Some (isos i) else None) (seqZ i (Z.of_nat n)) with
    | Some e => (iso_gsi e, level || (Z.shiftr (Z.land (iso_flags e) 0xC) 2 =? 3), low || (Z.land (iso_flags e) 0x3 =? 3))
    | None => (irq, level, low)
    end.
Proof.
  induction n as [|n IH]; intros i; [done|]. rewrite seqZ_cons by lia. replace (Z.pred (Z.of_nat (S n))) with (Z.of_nat n) by lia.
  cbn [iso_loop find_some]. destruct (iso_irq (isos i) =? irq); [done|]. apply IH.
Qed.

(** The table of controllers: each valid one has a chip and a range of its own. *)
Record chips_ok x : Prop := {
  ck_chip : ∀ i, 0 ≤ i < n_ioapics x → ia_valid (ioapics x i) = true →
    is_chip (ia_base (ioapics x i)) ∧ 0 ≤ ia_gsi_base (ioapics x i) ∧ 0 ≤ max_rte (ioapics x i) ≤ 120
    ∧ ia_gsi_base (ioapics x i) + max_rte (ioapics x i) < 2 ^ 32;
  ck_inj : ∀ i j, 0 ≤ i < n_ioapics x → 0 ≤ j < n_ioapics x → ia_valid (ioapics x i) = true → ia_valid (ioapics x j) = true →
    ia_base (ioapics x i) = ia_base (ioapics x j) → i = j;
}.

Lemma for_gsi_spec x gsi io line :
  chips_ok x → ioapic_for_gsi gsi x = Some (io, line) →
  ∃ i, 0 ≤ i < n_ioapics x ∧ io = ioapics x i ∧ ia_valid io = true ∧ 0 ≤ line < max_rte io ∧ gsi = ia_gsi_base io + line.
Proof.
  intros Hok. unfold ioapic_for_gsi.
  assert (∀ n i, 0 ≤ i → i + Z.of_nat n ≤ n_ioapics x ∨ n = O → gsi_loop n i gsi (ioapics x) = Some (io, line) →
    ∃ i, 0 ≤ i < n_ioapics x ∧ io = ioapics x i ∧ ia_valid io = true ∧ 0 ≤ line < max_rte io ∧ gsi = ia_gsi_base io + line) as Hl.
  { induction n as [|n IH]; intros i Hi Hn; cbn [gsi_loop]; [done|]. destruct (ia_valid (ioapics x i)) eqn:Hv; cbn [negb]; [|apply IH; lia].
    destruct (ck_chip x Hok i) as (_ & G1 & G2 & G3); [lia|done|]. rewrite u32_small by lia.
    destruct (Z.leb_spec (ia_gsi_base (ioapics x i)) gsi) as [L1|L1]; cbn [andb]; [|apply IH; lia].
    destruct (Z.ltb_spec gsi (ia_gsi_base (ioapics x i) + max_rte (ioapics x i))) as [L2|L2]; [|apply IH; lia].
    rewrite u8_small by lia. intros [= <- <-]. exists i. split_and!; try done; lia. }
  intros E. destruct (Z.to_nat (n_ioapics x)) as [|n] eqn:En; [done|]. apply (Hl (S n) 0); [lia|lia|done].
Qed.

(** C22: Routing.  [ioapic_set_irq] programs exactly the entry of the global
    interrupt that the firmware's override gives the line: vector, polarity,
    trigger mode and destination, not masked.  [ioapic_mask_irq] does not apply
    the override: for a line that has one it leaves that entry unmasked. *)
Theorem ioapic_set_irq_routes x g irq vector dest level active_low :
  chips_ok x → 0 ≤ vector < 256 → 0 ≤ dest < 256 → 0 ≤ iso_count g →
  let o := override g irq in
  let gsi := match o with Some e => iso_gsi e | None => irq end in
  let lvl := level || match o with Some e => Z.shiftr (Z.land (iso_flags e) 0xC) 2 =? 3 | None => false end in
  let low := active_low || match o with Some e => Z.land (iso_flags e) 0x3 =? 3 | None => false end in
  let x1 := ioapic_set_irq irq vector dest level active_low g x in
  match ioapic_for_gsi gsi x with
  | None => x1 = x
  | Some (io, line) =>
      chip_reg (ia_dev x1) (ia_base io) (rte_reg line) = (if lvl then 2 ^ 15 else 0) + ((if low then 2 ^ 13 else 0) + vector)
      ∧ chip_reg (ia_dev x1) (ia_base io) (rte_reg line + 1) = dest * 2 ^ 24
      ∧ (∀ b r, is_chip b → ¬ (b = ia_base io ∧ (r = rte_reg line ∨ r = rte_reg line + 1)) →
           chip_reg (ia_dev x1) b r = chip_reg (ia_dev x) b r)
      ∧ (gsi ≠ irq → chip_reg (ia_dev (ioapic_mask_irq irq x1)) (ia_base io) (rte_reg line)
                     = chip_reg (ia_dev x1) (ia_base io) (rte_reg line))
  end.
Proof.
  intros Hok Hv Hd Hn o gsi lvl low x1.
  assert (x1 = match ioapic_for_gsi gsi x with
    | None => x | Some (io, line) => set_iadev (ioapic_write_rte io line (make_rte vector dest lvl low) (ia_dev x)) x end) as E1.
  { unfold x1, ioapic_set_irq. rewrite iso_loop_spec, Z2Nat.id by done. unfold gsi, lvl, low, o, override.
    destruct (find_some _ _); [done|]. by rewrite !orb_false_r. }
  clearbody x1. destruct (ioapic_for_gsi gsi x) as [[io line]|] eqn:Eg; [|done].
  destruct (for_gsi_spec x gsi io line Hok Eg) as (i & Hi & -> & Hvi & Hline & Hgsi).
  destruct (ck_chip x Hok i Hi Hvi) as (Hc & G1 & G2 & G3).
  assert (∀ b r, is_chip b → chip_reg (ia_dev x1) b r = if decide (b = ia_base (ioapics x i) ∧ r = rte_reg line)
    then (if lvl then 2 ^ 15 else 0) + ((if low then 2 ^ 13 else 0) + vector)
    else if decide (b = ia_base (ioapics x i) ∧ r = rte_reg line + 1) then dest * 2 ^ 24 else chip_reg (ia_dev x) b r) as Hreg.
  { intros b r Hb. rewrite E1. cbn [set_iadev ia_dev]. rewrite write_rte_spec; [|done|done|lia|].
    - rewrite make_rte_value by done. rewrite rte_low, rte_high by done. done.
    - rewrite make_rte_value by done. destruct lvl, low; lia. }
  split_and!.
  - by rewrite Hreg, decide_True by done.
  - rewrite Hreg by done. rewrite decide_False by lia. by rewrite decide_True by done.
  - intros b r Hb Hne. rewrite Hreg by done. rewrite !decide_False; [done|intros [??]; apply Hne; auto..].
  - intros Hgi. assert (ioapic_for_gsi irq x1 = ioapic_for_gsi irq x) as Ef by (by rewrite E1).
    unfold ioapic_mask_irq. rewrite Ef. destruct (ioapic_for_gsi irq x) as [[io2 line2]|] eqn:E2; [|done].
    destruct (for_gsi_spec x irq io2 line2 Hok E2) as (j & Hj & -> & Hvj & Hline2 & Hirq).
    destruct (ck_chip x Hok j Hj Hvj) as (Hc2 & _ & G2' & _).
    destruct (read_rte_spec (ioapics x j) line2 (ia_dev x1) Hc2 ltac:(lia)) as (rte & d1 & -> & Hrte & Hsame).
    cbn [set_iadev ia_dev]. rewrite write_rte_spec; [|done|done|lia|apply lor_range; [lia|done|done]]. rewrite !decide_False; [by apply Hsame|..].
    + unfold rte_reg. intros [Eb Er]. assert (i = j) as -> by (by apply (ck_inj x Hok)). lia.
    + unfold rte_reg. intros [Eb Er]. assert (i = j) as -> by (by apply (ck_inj x Hok)). lia.
Qed.
End chips.

(** ** Samples *)

(** One chip, where the first controller is mapped. *)
Definition chip_addr : Z := 0x7EC00000.
Record chip := { ch_sel : Z; ch_regs : Z → Z }.

#[export] Instance chip_mmio : MmioIO chip := {
  mmio_read w a d := (if a =? chip_addr + 16 then ch_regs d (ch_sel d) mod 2 ^ 32 else 0, d);
  mmio_write w a v d :=
    if a =? chip_addr then {| ch_sel := v mod 256; ch_regs := ch_regs d |}
    else if a =? chip_addr + 16 then {| ch_sel := ch_sel d; ch_regs := upd (ch_regs d) (ch_sel d) v |}
    else d;
}.

#[export] Instance chip_ioapic : IoapicChips chip.
Proof.
  refine {| is_chip b := b = chip_addr; chip_sel d _ := ch_sel d; chip_reg d _ r := Z.ldiff (ch_regs d r mod 2 ^ 32) (ro_bits r) |}.
  - intros d b v b' -> ->. split; [by rewrite decide_True|done].
  - intros d b v b' r -> -> Hv. unfold mmio_write, chip_mmio. rewrite (proj2 (Z.eqb_neq (chip_addr + 16) chip_addr)) by lia.
    rewrite Z.eqb_refl. cbn [ch_sel ch_regs]. split; [done|]. unfold upd.
    destruct (Z.eqb_spec r (ch_sel d)) as [->|].
    + rewrite decide_True by done. by rewrite Z.mod_small.
    + by rewrite decide_False by lia.
  - intros d b v d1 -> [= <- <-]. split; [apply Z.mod_pos_bound; lia|done].
Defined.

Definition sample_redirect : acpi_info :=
  {| lapic_phys := 0; has_8259 := true; ioapic_count := 1; ioapic := λ _, {| io_id := 1; io_phys := 0xFEC00000; io_gsi_base := 0 |};
     iso_count := 1; iso := λ _, {| iso_bus := 0; iso_irq := 0; iso_gsi := 2; iso_flags := 0 |}; cpu_count := 1; cpu_lapic_id := λ _, 0 |}.

Lemma ioapic_set_irq_routes_witness :
  let x := {| ia_dev := {| ch_sel := 0; ch_regs := λ _, 0x10000 |};
              ioapics := λ _, {| ia_base := chip_addr; ia_gsi_base := 0; max_rte := 24; ia_valid := true |}; n_ioapics := 1 |} in
  chip_reg (ia_dev (ioapic_set_irq 0 32 0 false false sample_redirect x)) chip_addr (rte_reg 2) = 32.
Proof.
  intros x. pose proof (ioapic_set_irq_routes x sample_redirect 0 32 0 false false) as Hr.
  assert (chips_ok x) as Hok.
  { split; [intros i Hi _; cbn; split_and!; done || lia|]. intros i j Hi Hj _ _ _. cbn in Hi, Hj. lia. }
  specialize (Hr Hok ltac:(lia) ltac:(lia) ltac:(cbn; lia)). exact (proj1 Hr).
Defined.
