(* ===== verification/Boot.v ===== *)
(** The start of the kernel (kernel/kmain.c): [kmain] from the check of the boot
    information to the moment interrupts are enabled, as the composition of the
    components' start-up functions.  The progress messages are left out. *)
From stdpp Require Import prelude gmap.
From S2P Require Import Prelude CString FrameAlloc Bitmap Pmm Vmm Heap Sched Vfs Proc Ports Irq Kbd Syscall Gdt.

(** The handlers the kernel registers while it starts. *)
Inductive boot_handler := Timer_irq_handler | Kb_irq_handler | Rtl8139_irq | Mouse_irq_handler.

(** The components' static state; [mc_irqs] holds the machine's ports. *)
Record machine (D : Type) := {
  mc_gdt : gdt_state;
  mc_irqs : irqs D boot_handler;
  mc_kern : kern pmm;
  mc_store : gmap Z proc;
  mc_table : Z → Z;
  mc_queues : Z → wait_queue;
}.
Arguments mc_gdt {D} _.
Arguments mc_irqs {D} _.
Arguments mc_kern {D} _.
Arguments mc_store {D} _.
Arguments mc_table {D} _.
Arguments mc_queues {D} _.

(** Addresses the linker fixes. *)
Record image := {
  im_kernel_phys_end : Z;
  im_gdt : Z;
  im_tss : Z;
  im_isr_stub_table : Z → Z;
  im_sched_exit : Z;
  im_idle_fn : Z;
  im_syscall_entry : Z;
}.

(** [pmm_alloc] clears a frame, and [vmm_map] writes a page table, at its physical
    address.  Of these addresses the tables of [vmm_init] map the low 2 MB only, so
    after [vmm_switch] a frame above them faults: it is cleared when it is taken,
    and the root table is written when the heap is mapped. *)
Definition IDENTITY_END : Z := 2 * 1024 * 1024.

Definition frames_taken (p p' : pmm) : gset Z := free_set (pmm_bitmap p) ∖ free_set (pmm_bitmap p').

Definition frames_reachable (p p' : pmm) : bool :=
  bool_decide (set_Forall (λ f, (f + 1) * PAGE_SIZE ≤ IDENTITY_END) (frames_taken p p')).

Definition k_pmm (k : kern pmm) : pmm := vm_alloc (hp_vm (k_heap k)).

(** Memory and the scheduler: [pmm_init], [vmm_init], [heap_init], [sched_init]. *)
Definition kmain_memory (im : image) (bi : boot_info) (k : kern pmm) : option (boot_result (kern pmm)) :=
  let v := hp_vm (k_heap k) in
  p ← pmm_init bi (im_kernel_phys_end im) (vm_alloc v);
  r ← vmm_init (set_alloc v p (vm_mem v));
  match r with
  | Halted => Some Halted
  | Running v1 =>
      h ← heap_init (set_vm (k_heap k) v1 (hp_mem (k_heap k)));
      r ← sched_init (im_sched_exit im) (im_idle_fn im) (with_heap h (k_sched k));
      match r with
      | Halted => Some Halted
      | Running c =>
          let k1 := set_ksched c k in
          if frames_reachable p (k_pmm k1) then Some (Running k1) else None
      end
  end.

Section kmain.
Context {D : Type} `{PortIO D}.
Implicit Types (m : machine D).

(** [bi] is [None] for NULL; [fuel] bounds the bytes the keyboard still holds. *)
Definition kmain_core (im : image) (fuel : nat) (bi : option boot_info) m : option (boot_result (machine D)) :=
  match bi with
  | None => Some Halted
  | Some b =>
      if negb (bi_magic b =? BOOT_INFO_MAGIC) then Some Halted
      else
        let g := gdt_init (im_gdt im) (im_tss im) (mc_gdt m) in
        let q1 := idt_init (im_isr_stub_table im) (mc_irqs m) in
        let q2 := set_iqdev (pic_init (iq_dev q1)) q1 in
        r ← kmain_memory im b (mc_kern m);
        match r with
        | Halted => Some Halted
        | Running k1 =>
            k2 ← syscall_init (im_syscall_entry im) k1;
            let q3 := timer_init Timer_irq_handler q2 in
            let pr := proc_init {| pr_sched := k_sched k2; pr_store := mc_store m; proc_table := mc_table m;
                                   wait_queues := mc_queues m |} in
            f ← vfs_init (k_fs (set_ksched (pr_sched pr) k2));
            let k3 := set_kfs f k2 in
            if frames_reachable (k_pmm k1) (k_pmm k3) then
              q4 ← keyboard_init fuel Kb_irq_handler q3;
              Some (Running {| mc_gdt := g; mc_irqs := q4; mc_kern := k3; mc_store := pr_store pr;
                               mc_table := proc_table pr; mc_queues := wait_queues pr |})
            else None
        end
  end.
End kmain.
