(* ===== verification/StartFrames.v ===== *)
(** Which frames the start-up functions take.  [pmm_alloc] searches from its hint
    upwards, and until a frame is given back nothing below the hint is free: the
    frames taken are the lowest ones.  The first part carries a property of the
    allocator through every operation that only takes frames, the second part is
    the property of kernel/mm/pmm.c. *)
From stdpp Require Import prelude gmap.
From S2P Require Import Prelude CString FrameAlloc Bitmap Pmm Vmm Heap Sched Vfs.

Create HintDb taking.

Section taking.
Context {A : Type} `{FrameOps A} (P : A → Prop).
Context (take_ok : ∀ a m r a' m', fa_alloc a m = Some (r, a', m') → P a → P a').

Definition vm_has (s : vmm A) : Prop := P (vm_alloc s).
Definition hp_has (h : heap A) : Prop := vm_has (hp_vm h).
Definition sc_has (s : sched A) : Prop := hp_has (sc_heap s).
Definition fs_has (s : fs A) : Prop := sc_has (fs_sched s).

Ltac taking := steps; eauto 20 with taking.

(** ** Page tables *)

Lemma alloc_vm_has s r s' : pmm_alloc_vm s = Some (r, s') → vm_has s → vm_has s'.
Proof. unfold pmm_alloc_vm, vm_has. intros E Hs. steps. by eapply take_ok. Qed.

Lemma set_mem_has s m : vm_has s → vm_has (set_mem s m).
Proof. done. Qed.

Lemma invlpg_has v s : vm_has s → vm_has (vmm_invlpg v s).
Proof. done. Qed.

#[local] Hint Resolve alloc_vm_has set_mem_has invlpg_has : taking.

Lemma get_or_create_has t i f s r s' : get_or_create t i f s = Some (r, s') → vm_has s → vm_has s'.
Proof. unfold get_or_create. intros E Hs. taking. Qed.

#[local] Hint Resolve get_or_create_has : taking.

Lemma vmm_map_has p v ph f s s' : vmm_map p v ph f s = Some s' → vm_has s → vm_has s'.
Proof. unfold vmm_map. intros E Hs. taking. Qed.

#[local] Hint Resolve vmm_map_has : taking.

Lemma for_pages_has n i body s s' :
  (∀ i s s', body i s = Some s' → vm_has s → vm_has s') → for_pages n i body s = Some s' → vm_has s → vm_has s'.
Proof. intros Hb. revert i s. induction n as [|n IH]; intros i s E Hs; cbn [for_pages] in E; steps; eauto. Qed.

Lemma vmm_init_has s s' : vmm_init s = Some (Running s') → vm_has s → vm_has s'.
Proof.
  unfold vmm_init. intros E Hs. steps; [discriminate|]. injection E as <-.
  match goal with |- vm_has (vmm_switch _ (cpu_enable_nxe ?x)) => change (vm_has x) end.
  do 2 match goal with Ef : for_pages _ _ _ _ = Some ?x |- vm_has ?x =>
    refine (for_pages_has _ _ _ _ _ _ Ef _); [intros ???; apply vmm_map_has|] end.
  match goal with Ea : pmm_alloc_vm _ = Some _ |- _ => exact (alloc_vm_has _ _ _ Ea Hs) end.
Qed.

(** ** Heap *)

Lemma heap_map_loop_has n i h b h' : heap_map_loop n i h = Some (b, h') → hp_has h → hp_has h'.
Proof.
  revert i h. induction n as [|n IH]; intros i h E Hh; cbn [heap_map_loop] in E; steps; [done| |].
  - exact (alloc_vm_has _ _ _ ltac:(eassumption) Hh).
  - eapply IH; [exact E|]. unfold hp_has. cbn [set_vm hp_vm]. unfold vmm_map_kernel in *. taking.
Qed.

Lemma heap_map_pages_has n h r h' : heap_map_pages n h = Some (r, h') → hp_has h → hp_has h'.
Proof.
  unfold heap_map_pages. intros E Hh. cbv zeta in E.
  steps; first [exact Hh|match goal with El : heap_map_loop _ _ _ = _ |- _ => exact (heap_map_loop_has _ _ _ _ _ El Hh) end].
Qed.

(** The operations that change no page table. *)
Definition same_vm (h h' : heap A) : Prop := hp_vm h' = hp_vm h.

Lemma put_obj_vm h a o h' : put_obj h a o = Some h' → same_vm h h'.
Proof. unfold put_obj. intros E. by steps. Qed.

Lemma same_vm_has h h' : same_vm h h' → hp_has h → hp_has h'.
Proof. unfold same_vm, hp_has. by intros ->. Qed.

Lemma put_obj_has h a o h' : put_obj h a o = Some h' → hp_has h → hp_has h'.
Proof. intros E%put_obj_vm. by apply same_vm_has. Qed.

Lemma set_free_list_has h p : hp_has h → hp_has (set_free_list h p).
Proof. done. Qed.

Lemma set_class_has h c p : hp_has h → hp_has (set_class h c p).
Proof. done. Qed.

Lemma set_hmem_has h m : hp_has h → hp_has (set_hmem h m).
Proof. done. Qed.

#[local] Hint Resolve heap_map_pages_has put_obj_has set_free_list_has set_class_has set_hmem_has : taking.

Lemma slab_new_page_has o h r h' : slab_new_page o h = Some (r, h') → hp_has h → hp_has h'.
Proof. unfold slab_new_page. intros E Hh. taking. Qed.

#[local] Hint Resolve slab_new_page_has : taking.

Lemma slab_pick_has o h r h' : slab_pick o h = Some (r, h') → hp_has h → hp_has h'.
Proof. unfold slab_pick. intros E Hh. taking. Qed.

#[local] Hint Resolve slab_pick_has : taking.

Lemma slab_alloc_has o h r h' : slab_alloc o h = Some (r, h') → hp_has h → hp_has h'.
Proof. unfold slab_alloc. intros E Hh. taking. Qed.

Lemma large_insert_free_has a h h' : large_insert_free a h = Some h' → hp_has h → hp_has h'.
Proof. unfold large_insert_free, put_large. intros E Hh. taking. Qed.

Lemma large_remove_free_has a h h' : large_remove_free a h = Some h' → hp_has h → hp_has h'.
Proof. unfold large_remove_free, put_large. intros E Hh. taking. Qed.

#[local] Hint Resolve slab_alloc_has large_insert_free_has large_remove_free_has : taking.

Lemma large_take_has b n h r h' : large_take b n h = Some (r, h') → hp_has h → hp_has h'.
Proof. unfold large_take, put_large. intros E Hh. taking. Qed.

#[local] Hint Resolve large_take_has : taking.

Lemma large_alloc_has n h r h' : large_alloc n h = Some (r, h') → hp_has h → hp_has h'.
Proof. unfold large_alloc, put_large. intros E Hh. taking. Qed.

#[local] Hint Resolve large_alloc_has : taking.

Lemma kmalloc_has n h r h' : kmalloc n h = Some (r, h') → hp_has h → hp_has h'.
Proof. unfold kmalloc. intros E Hh. taking. Qed.

Lemma kzalloc_has n h r h' : kzalloc n h = Some (r, h') → hp_has h → hp_has h'.
Proof. unfold kzalloc. intros E Hh. steps. case_match; [|apply set_hmem_has]; by eapply kmalloc_has. Qed.

Lemma kfree_has p h h' : kfree p h = Some h' → hp_has h → hp_has h'.
Proof. unfold kfree, slab_free, large_free. intros E Hh. taking. Qed.

#[local] Hint Resolve kmalloc_has kzalloc_has kfree_has : taking.

Lemma heap_init_has h h' : heap_init h = Some h' → hp_has h → hp_has h'.
Proof.
  unfold heap_init, put_large. intros E Hh. steps. apply set_free_list_has. eapply put_obj_has; [eassumption|].
  eapply heap_map_pages_has; [eassumption|]. exact Hh.
Qed.

(** ** Tasks *)

Lemma mod_task_heap a f (s s' : sched A) : mod_task a f s = Some s' → sc_heap s' = sc_heap s.
Proof. unfold mod_task. intros E. by steps. Qed.

Lemma mod_task_has a f s s' : mod_task a f s = Some s' → sc_has s → sc_has s'.
Proof. unfold sc_has. by intros ->%mod_task_heap. Qed.

Lemma with_heap_has h s : hp_has h → sc_has (with_heap h s).
Proof. done. Qed.

Lemma with_tasks_has m s : sc_has s → sc_has (with_tasks m s).
Proof. done. Qed.

Lemma with_head_has t s : sc_has s → sc_has (with_head t s).
Proof. done. Qed.

Lemma with_pid_has p s : sc_has s → sc_has (with_pid p s).
Proof. done. Qed.

#[local] Hint Resolve mod_task_has with_heap_has with_tasks_has with_head_has with_pid_has : taking.

Lemma run_queue_add_has t s s' : run_queue_add t s = Some s' → sc_has s → sc_has s'.
Proof. unfold run_queue_add. intros E Hs. taking. Qed.

Lemma sched_alloc_task_has n p s r s' : sched_alloc_task n p s = Some (r, s') → sc_has s → sc_has s'.
Proof. unfold sched_alloc_task, sc_has. intros E Hs. steps; cbn; taking. Qed.

Lemma first_frame_has t e r s s' : first_frame t e r s = Some s' → sc_has s → sc_has s'.
Proof. unfold first_frame. intros E Hs. taking. Qed.

#[local] Hint Resolve run_queue_add_has sched_alloc_task_has first_frame_has : taking.

Lemma sched_create_task_has x n e p s r s' : sched_create_task x n e p s = Some (r, s') → sc_has s → sc_has s'.
Proof. unfold sched_create_task. intros E Hs. taking. Qed.

Lemma sched_init_has x i s s' : sched_init x i s = Some (Running s') → sc_has s → sc_has s'.
Proof.
  unfold sched_init. intros E Hs. steps; try discriminate. injection E as <-. eapply run_queue_add_has; [eassumption|].
  match goal with Ec : sched_create_task _ _ _ _ _ = _ |- _ => apply (sched_create_task_has _ _ _ _ _ _ _ Ec) end.
  match goal with Ek : kzalloc _ _ = _ |- _ => exact (kzalloc_has _ _ _ _ Ek Hs) end.
Qed.

(** ** Files *)

Lemma mod_node_has a f s s' : mod_node a f s = Some s' → fs_has s → fs_has s'.
Proof. unfold mod_node, fs_has. intros E. by steps. Qed.

Lemma ramfs_alloc_has n t s r s' : ramfs_alloc n t s = Some (r, s') → fs_has s → fs_has s'.
Proof. unfold ramfs_alloc. intros E Hs. steps; match goal with Ek : kzalloc _ _ = _ |- _ => exact (kzalloc_has _ _ _ _ Ek Hs) end. Qed.

#[local] Hint Resolve mod_node_has ramfs_alloc_has : taking.

Lemma vfs_mkdir_has p m s r s' : vfs_mkdir p m s = Some (r, s') → fs_has s → fs_has s'.
Proof. unfold vfs_mkdir, ramfs_mkdir, ramfs_add. intros E Hs. taking. Qed.

Lemma vfs_mount_has p r s x s' : vfs_mount p r s = Some (x, s') → fs_has s → fs_has s'.
Proof. unfold vfs_mount. intros E Hs. by steps. Qed.

Lemma vfs_init_has s s' : vfs_init s = Some s' → fs_has s → fs_has s'.
Proof.
  unfold vfs_init, ramfs_create_root. intros E Hs. apply bind_Some in E as ([root s1] & E1 & E).
  assert (fs_has s1) as H1 by (steps; eauto using mod_node_has, ramfs_alloc_has).
  clear E1. steps. do 3 (eapply vfs_mkdir_has; [eassumption|]). by eapply vfs_mount_has.
Qed.
End taking.

(** ** The frame allocator *)

Abbreviation free_of p := (free_set (pmm_bitmap p)).

(** Of the frames [S0] the lowest ones were taken. *)
Record lowest (S0 : gset Z) (p : pmm) : Prop := {
  lo_inv : pmm_inv p;
  lo_hint : ∀ f, f ∈ free_of p → search_hint p * 64 ≤ f;
  lo_sub : free_of p ⊆ S0;
  lo_taken : ∀ f g, f ∈ S0 → f ∉ free_of p → g ∈ free_of p → f < g;
}.

(** The frame found in a word that is not full. *)
Lemma word_frame p i :
  pmm_inv p → 0 ≤ i < BITMAP_WORDS → pmm_bitmap p i ≠ 2 ^ 64 - 1 →
  let f := i * 64 + ctzll (u64 (Z.lnot (pmm_bitmap p i))) in
  f ∈ free_of p ∧ f / 64 = i ∧ f < PMM_MAX_FRAMES ∧ ∀ g, g ∈ free_of p → i * 64 ≤ g → f ≤ g.
Proof.
  intros Hp Hi Hw f. destruct (free_bit _ (inv_words _ Hp _ Hi) Hw) as [Hb Hbit].
  set (b := ctzll (u64 (Z.lnot (pmm_bitmap p i)))) in *.
  assert (0 ≤ f < PMM_MAX_FRAMES) as Hf.
  { unfold f, BITMAP_WORDS, PMM_MAX_FRAMES in *. change (1 * 1024 * 1024 / 64) with 16384 in *. lia. }
  split_and!; [|unfold f; Z.to_euclidean_division_equations; lia|lia|].
  - apply elem_free_set. split; [done|]. unfold f. rewrite is_free_frame by done. by rewrite Hbit.
  - intros g [Hg Eg]%elem_free_set Hgi. destruct (decide (f ≤ g)); [done|]. exfalso. unfold f in *.
    assert (g = i * 64 + (g - i * 64)) as E by lia. rewrite E, is_free_frame in Eg by lia.
    by rewrite (free_bit_lowest _ _ (inv_words _ Hp _ Hi) Hw) in Eg by lia.
Qed.

Lemma alloc_loop_empty k wi p m r p' m' :
  pmm_inv p → free_of p = ∅ → pmm_alloc_loop k wi p m = Some (r, p', m') → p' = p.
Proof.
  intros Hp He. revert wi. induction k as [|k IH]; intros wi; cbn [pmm_alloc_loop]; [by intros [= _ <- _]|].
  assert (0 ≤ u64 (search_hint p + wi) mod BITMAP_WORDS < BITMAP_WORDS) as Ha by (apply Z.mod_pos_bound; done).
  rewrite aget_Some by done. cbn [mbind option_bind].
  destruct (Z.eqb_spec (pmm_bitmap p (u64 (search_hint p + wi) mod BITMAP_WORDS)) (2 ^ 64 - 1)); [apply IH|].
  destruct (word_frame p _ Hp Ha) as [Hf _]; [done|]. rewrite He in Hf. set_solver.
Qed.

Lemma alloc_loop_lowest k wi p m r p' m' g0 :
  pmm_inv p → g0 ∈ free_of p → 0 ≤ wi → (∀ g, g ∈ free_of p → (search_hint p + wi) * 64 ≤ g) →
  pmm_alloc_loop k wi p m = Some (r, p', m') →
  p' = p ∨ ∃ f, f ∈ free_of p ∧ (∀ g, g ∈ free_of p → f ≤ g) ∧ search_hint p' = f / 64 ∧ free_of p' = free_of p ∖ {[f]}.
Proof.
  intros Hp Hg0. revert wi. induction k as [|k IH]; intros wi Hwi Hlow; cbn [pmm_alloc_loop]; [by intros [= _ <- _]; left|].
  assert (search_hint p + wi < BITMAP_WORDS) as Hlt.
  { pose proof (Hlow _ Hg0). apply elem_free_set in Hg0 as [Hr _].
    unfold BITMAP_WORDS, PMM_MAX_FRAMES in *. change (1 * 1024 * 1024 / 64) with 16384. lia. }
  pose proof (inv_hint _ Hp) as Hh.
  assert (u64 (search_hint p + wi) mod BITMAP_WORDS = search_hint p + wi) as ->.
  { change BITMAP_WORDS with 16384 in *. rewrite u64_small by lia. apply Z.mod_small. lia. }
  rewrite aget_Some by lia. cbn [mbind option_bind].
  destruct (Z.eqb_spec (pmm_bitmap p (search_hint p + wi)) (2 ^ 64 - 1)) as [Efull|Hne].
  - apply IH; [lia|]. intros g Hg. pose proof (Hlow g Hg). apply elem_free_set in Hg as [Hr Eg].
    destruct (decide ((search_hint p + (wi + 1)) * 64 ≤ g)); [done|]. exfalso.
    assert (g = (search_hint p + wi) * 64 + (g - (search_hint p + wi) * 64)) as E by lia.
    rewrite E, is_free_frame, Efull in Eg by lia. change (2 ^ 64 - 1) with (Z.ones 64) in Eg.
    by rewrite Z.ones_spec_low in Eg by lia.
  - destruct (word_frame p (search_hint p + wi) Hp ltac:(lia) Hne) as (Hf & Ediv & Hmax & Hmin).
    set (f := (search_hint p + wi) * 64 + _) in *. rewrite (proj2 (Z.leb_gt _ _)) by done.
    destruct (take_frame p f m Hp Hf) as (bm & -> & Hs & _). cbn [mbind option_bind]. intros E. apply (inj Some), pair_eq in E as [E _]. apply pair_eq in E as [_ <-]. right. exists f.
    cbn [pmm_bitmap search_hint]. split_and!; [done| |done|done]. intros g Hg. apply Hmin; [done|by apply Hlow].
Qed.

Lemma loop_keeps_lowest S0 k p m r p' m' :
  pmm_inv p' → pmm_alloc_loop k 0 p m = Some (r, p', m') → lowest S0 p → lowest S0 p'.
Proof.
  intros Hp' E [Hp Hh Hsub Ht]. destruct (decide (free_of p = ∅)) as [He|Hne].
  { apply (alloc_loop_empty _ _ _ _ _ _ _ Hp He) in E as ->. by split. }
  apply set_choose_L in Hne as [g0 Hg0].
  destruct (alloc_loop_lowest _ _ _ _ _ _ _ g0 Hp Hg0 (Z.le_refl 0) ltac:(by intros; rewrite Z.add_0_r; apply Hh) E)
    as [->|(f & Hf & Hmin & Eh & Es)]; [by split|].
  clear E. split; [done|..]; rewrite Es.
  - intros g [Hg _]%elem_of_difference. rewrite Eh. pose proof (Hmin g Hg). Z.to_euclidean_division_equations. lia.
  - set_solver.
  - intros a g Ha Hna [Hg Hgf]%elem_of_difference. destruct (decide (a = f)) as [->|].
    + pose proof (Hmin g Hg). assert (g ≠ f) by set_solver. lia.
    + apply Ht; [done|set_solver|done].
Qed.

#[local] Transparent pmm_alloc.

Lemma pmm_alloc_loop_of p m : pmm_alloc p m = pmm_alloc_loop (Z.to_nat BITMAP_WORDS) 0 p m.
Proof. reflexivity. Qed.

#[local] Opaque pmm_alloc.

Lemma pmm_alloc_lowest S0 p m r p' m' : pmm_alloc p m = Some (r, p', m') → lowest S0 p → lowest S0 p'.
Proof.
  intros E HL. assert (pmm_inv p') as Hp'.
  { destruct (pmm_alloc_ok p m (lo_inv _ _ HL)) as (r1 & p1 & m1 & E1 & Hp1 & _). rewrite E in E1. by simplify_eq. }
  rewrite pmm_alloc_loop_of in E. exact (loop_keeps_lowest S0 _ p m r p' m' Hp' E HL).
Qed.

Lemma take_lowest S0 (a : pmm) m r a' m' : fa_alloc a m = Some (r, a', m') → lowest S0 a → lowest S0 a'.
Proof. apply pmm_alloc_lowest. Qed.

(** When fewer than [n] frames were taken of a set with [n] below [b], all those taken are below [b]. *)
Lemma lowest_below S0 p b n :
  lowest S0 p → n ≤ Z.of_nat (size (filter (λ f, f < b) S0)) → Z.of_nat (size S0) - Z.of_nat (size (free_of p)) < n →
  ∀ f, f ∈ S0 ∖ free_of p → f < b.
Proof.
  intros [_ _ Hsub Ht] Hn Hs f [Hf Hnf]%elem_of_difference. destruct (decide (f < b)) as [|Hb]; [done|]. exfalso.
  assert (filter (λ f, f < b) S0 ⊆ S0 ∖ free_of p) as Hlow.
  { intros a [Hab Ha]%elem_of_filter. apply elem_of_difference. split; [done|]. intros Hfree. pose proof (Ht f a Hf Hnf Hfree). lia. }
  apply subseteq_size in Hlow. rewrite size_difference in Hlow by done. pose proof (subseteq_size _ _ Hsub). lia.
Qed.
