(* ===== verification/BootProps.v ===== *)
(** Starting the kernel (kernel/kmain.c): the start-up functions compose, each
    leaving what the next one relies on. *)
From stdpp Require Import prelude gmap.
From S2P Require Import Prelude CString FrameAlloc Bitmap Pmm Vmm VmmWf VmmSpec VmmRange VmmProps Heap HeapMap HeapSlab HeapList HeapInv HeapOps HeapApi HeapRefine HeapProps Sched SchedRing SchedInv SchedCreate SchedProps Vfs RamfsFile VfsDir VfsPath VfsProps Proc Ports Irq IrqProps Kbd Syscall SyscallProps Gdt Boot StartFrames.

(** ** The keyboard controller *)

(** A machine whose keyboard controller holds [kb_pending] bytes: bit 0 of the
    status port tells whether there is one, reading the data port takes it. *)
Class KbPort (D : Type) `{PicPair D} := {
  kb_pending : D → nat;
  kb_status : ∀ d, Z.testbit (fst (port_in W8 KB_STATUS d)) 0 = bool_decide (kb_pending d ≠ 0%nat)
    ∧ kb_pending (snd (port_in W8 KB_STATUS d)) = kb_pending d
    ∧ pics (snd (port_in W8 KB_STATUS d)) = pics d;
  kb_data : ∀ d, kb_pending (snd (port_in W8 KB_DATA d)) = Nat.pred (kb_pending d)
    ∧ pics (snd (port_in W8 KB_DATA d)) = pics d;
  kb_other_in : ∀ p d, p = PIC1_DATA ∨ p = PIC2_DATA → kb_pending (snd (port_in W8 p d)) = kb_pending d;
  kb_other_out : ∀ p v d, p ≠ KB_DATA → p ≠ KB_STATUS → kb_pending (port_out W8 p v d) = kb_pending d;
}.

Section ports.
Context {D H : Type} `{KbPort D}.
Implicit Types (d : D) (q : irqs D H).

Lemma drain_spec fuel d :
  (kb_pending d ≤ fuel)%nat →
  ∃ d', drain_loop fuel d = Some d' ∧ kb_pending d' = 0%nat ∧ pics d' = pics d.
Proof.
  revert d. induction fuel as [|f IH]; intros d Hf; cbn [drain_loop]; unfold inb at 1;
    destruct (kb_status d) as (Hb & Hp & Hq); destruct (port_in W8 KB_STATUS d) as [st d1]; cbn [fst snd] in *;
    change (Z.land (u8 st) 1) with (Z.land (u8 st) (2 ^ 0)); rewrite (land_bit (u8 st) 0) by lia; unfold u8; change 256 with (2 ^ 8); rewrite Z.mod_pow2_bits_low, Hb by lia.
  - rewrite bool_decide_false by lia. exists d1. cbn. split_and!; [done|lia|done].
  - case_bool_decide as Hz; cbn [negb]; [|exists d1; split_and!; [done|lia|done]].
    unfold inb. destruct (kb_data d1) as [Hp' Hq']. destruct (port_in W8 KB_DATA d1) as [c d2]. cbn [fst snd] in *.
    destruct (IH d2) as (d' & E & Hz' & Hpic); [lia|]. exists d'. split_and!; [exact E|done|]. by rewrite Hpic, Hq'.
Qed.

Lemma register_pending i h q :
  0 ≤ i < 16 → kb_pending (iq_dev (irq_register i h q)) = kb_pending (iq_dev q).
Proof.
  intros Hi. unfold irq_register. destruct (Z.leb_spec 16 i); [lia|]. cbv zeta.
  match goal with |- context [inb _ (iq_dev ?x)] => change (iq_dev x) with (iq_dev q) end.
  assert (irq_port i = PIC1_DATA ∨ irq_port i = PIC2_DATA) as Hp by (unfold irq_port; destruct (i <? 8); auto).
  pose proof (kb_other_in (irq_port i) (iq_dev q) Hp) as E. unfold inb, outb.
  destruct (port_in W8 (irq_port i) (iq_dev q)) as [v d]. cbn [fst snd] in E. cbn [iq_dev set_iqdev].
  rewrite kb_other_out; [exact E|destruct Hp as [-> | ->]; done..].
Qed.

Lemma pic_init_pending d : kb_pending (pic_init d) = kb_pending d.
Proof. unfold pic_init, io_wait, outb. by rewrite !kb_other_out by done. Qed.

(** The interrupt side of the start: the timer's and the keyboard's lines are
    open, with their handlers, and the keyboard holds nothing. *)
Lemma boot_irqs_spec fuel stubs (ht hk : H) q :
  (kb_pending (iq_dev q) ≤ fuel)%nat → (∀ v, 0 ≤ v < 256 → 0 ≤ stubs v < 2 ^ 64) →
  let q1 := idt_init stubs q in
  let q3 := timer_init ht (set_iqdev (pic_init (iq_dev q1)) q1) in
  ∃ q4, keyboard_init fuel hk q3 = Some q4 ∧ kb_pending (iq_dev q4) = 0%nat
    ∧ (∀ v, 0 ≤ v < 256 → gate_target (idt q4 v) = stubs v)
    ∧ (∀ j, 0 ≤ j < 16 → masked (iq_dev q4) j = negb (j <=? 2))
    ∧ (∀ j, 0 ≤ j < 2 → handlers q4 (32 + j) = Some Irq_dispatch)
    ∧ irq_handlers q4 0 = Some ht ∧ irq_handlers q4 1 = Some hk.
Proof.
  intros Hf Hst q1 q3.
  pose proof (pic_init_spec (iq_dev q1)) as Hp. destruct (pics (pic_init (iq_dev q1))) as [a b] eqn:Ep. destruct Hp as [-> ->].
  set (q2 := set_iqdev (outb PIT_CHANNEL0 (u8 (Z.land (Z.shiftr (u32 (PIT_FREQUENCY / TICKS_PER_SEC)) 8) 0xFF))
               (outb PIT_CHANNEL0 (u8 (Z.land (u32 (PIT_FREQUENCY / TICKS_PER_SEC)) 0xFF))
                 (outb PIT_CMD 0x36 (pic_init (iq_dev q1))))) q1).
  change q3 with (irq_register 0 ht q2).
  assert (pics (iq_dev q2) = pics (pic_init (iq_dev q1))) as Ep2.
  { cbn [q2 set_iqdev iq_dev]. unfold outb. rewrite !pics_out. by destruct (pics (pic_init (iq_dev q1))). }
  rewrite Ep in Ep2.
  assert (ready (iq_dev q2)) as Hr2 by (unfold ready; rewrite Ep2; cbn; lia).
  destruct (irq_register_spec 0 ht q2 ltac:(lia) Hr2) as (Hr3 & Hm3 & Hh3 & Hi3 & Hd3).
  assert (kb_pending (iq_dev (irq_register 0 ht q2)) = kb_pending (iq_dev q)) as Hk3.
  { rewrite register_pending by lia. cbn [q2 set_iqdev iq_dev]. unfold outb.
    rewrite !kb_other_out, pic_init_pending by done. done. }
  unfold keyboard_init. destruct (drain_spec fuel (iq_dev (irq_register 0 ht q2))) as (d & -> & Hz & Hpd); [lia|].
  cbn [mbind option_bind]. set (q5 := set_iqdev d (irq_register 0 ht q2)).
  assert (ready (iq_dev q5)) as Hr5 by (unfold ready; cbn [q5 set_iqdev iq_dev]; by rewrite Hpd).
  assert (∀ j, masked (iq_dev q5) j = masked (iq_dev (irq_register 0 ht q2)) j) as Hm5.
  { intros j. unfold masked. cbn [q5 set_iqdev iq_dev]. by rewrite Hpd. }
  destruct (irq_register_spec 1 hk q5 ltac:(lia) Hr5) as (_ & Hm6 & Hh6 & Hi6 & Hd6).
  eexists. split; [reflexivity|]. split; [by rewrite register_pending by lia|]. split_and!.
  - intros v Hv. rewrite Hd6. change (idt q5) with (idt (irq_register 0 ht q2)). rewrite Hd3. cbn [q2 set_iqdev idt q1].
    by apply idt_init_gate.
  - intros j Hj. rewrite Hm6, Hm5, Hm3 by lia. unfold masked. rewrite Ep2. cbn [fst snd pic_mask].
    assert (j = 0 ∨ j = 1 ∨ j = 2 ∨ 3 ≤ j) as Hc by lia. destruct_or! Hc; [by subst..|].
    rewrite !decide_False by lia. rewrite (proj2 (Z.leb_gt j 2)) by lia.
    pose proof (check_range (λ j, (j <? 3) || Z.testbit (if j <? 8 then 0xFB else 0xFF) (if j <? 8 then j else j - 8)) 16
                  eq_refl j Hj) as Hb. cbv beta in Hb. rewrite (proj2 (Z.ltb_ge j 3)) in Hb by lia. by destruct (j <? 8).
  - intros j Hj. rewrite Hh6. change (handlers q5) with (handlers (irq_register 0 ht q2)). rewrite Hh3. unfold upd.
    assert (j = 0 ∨ j = 1) as [-> | ->] by lia; done.
  - rewrite Hi6. change (irq_handlers q5) with (irq_handlers (irq_register 0 ht q2)). by rewrite Hi3.
  - by rewrite Hi6.
Qed.
End ports.

(** ** Memory, tasks and files *)

(** The frames the boot information leaves to the allocator. *)
Definition boot_frames (bi : boot_info) (kend : Z) : gset Z :=
  list_to_set (filter (λ f, usable (e820_count bi) (e820_map bi) f && negb (f =? 0) && negb (kernel_frame kend f) = true)
                 (seqZ 0 PMM_MAX_FRAMES)).

(** A memory map the kernel can start with: below 2 MB it leaves the frames the
    start-up functions take; the 640 KB of a PC leave 158. *)
Record boot_ok (im : image) (bi : boot_info) : Prop := {
  bo_magic : bi_magic bi = BOOT_INFO_MAGIC;
  bo_count : 0 ≤ e820_count bi ≤ E820_MAX_ENTRIES;
  bo_disjoint : regions_disjoint (e820_count bi) (e820_map bi);
  bo_kend : ALIGN_UP (im_kernel_phys_end im) PAGE_SIZE ≤ PMM_MAX_FRAMES * PAGE_SIZE;
  bo_frames : 133 < Z.of_nat (size (filter (λ f, f < 512) (boot_frames bi (im_kernel_phys_end im))));
}.

(** Addresses of the image fit in 64 bits. *)
Record image_ok (im : image) : Prop := {
  io_stubs : ∀ v, 0 ≤ v < 256 → 0 ≤ im_isr_stub_table im v < 2 ^ 64;
  io_exit : 0 ≤ im_sched_exit im < 2 ^ 64;
  io_idle : 0 ≤ im_idle_fn im < 2 ^ 64;
}.

(** The static state before the kernel starts: all zero. *)
Record kern_fresh (k : kern pmm) : Prop := {
  kf_alloc : vm_alloc (hp_vm (k_heap k)) = pmm_bss;
  kf_objs : hp_objs (k_heap k) = ∅;
  kf_sched : sched_fresh (k_sched k);
  kf_nodes : fs_nodes (k_fs k) = ∅;
  kf_table : ∀ n, syscall_table k n = None;
}.

Lemma pmm_boot im bi :
  boot_ok im bi →
  ∃ p, pmm_init bi (im_kernel_phys_end im) pmm_bss = Some p ∧ pmm_inv p
    ∧ free_set (pmm_bitmap p) = boot_frames bi (im_kernel_phys_end im)
    ∧ lowest (boot_frames bi (im_kernel_phys_end im)) p.
Proof.
  intros [_ Hn Hd Hk _]. cut (∃ p, pmm_init bi (im_kernel_phys_end im) pmm_bss = Some p ∧ pmm_inv p
    ∧ free_set (pmm_bitmap p) = boot_frames bi (im_kernel_phys_end im) ∧ search_hint p = 0).
  { intros (p & E & Hp & Ef & Eh). exists p. split_and!; [done|done|done|]. split; [done| |by rewrite Ef|by rewrite <-Ef].
    intros f [Hf _]%elem_free_set. rewrite Eh. lia. }
  destruct (pmm_init_spec bi _ Hn Hk) as (p & E & Hw & Hh & Hf & Hc).
  destruct (Hc Hd) as [Hfree _]. exists p. split_and!; [exact E| | |by rewrite Hh].
  - split; [done|done| |by rewrite Hh]. rewrite Hf by done. by rewrite andb_false_r.
  - apply set_eq. intros f. unfold boot_frames.
    rewrite elem_free_set, elem_of_list_to_set, list_elem_of_filter, elem_of_seqZ.
    split; [intros [Hr E1]; rewrite Hf in E1 by done; split; [done|lia]|intros [E1 Hr]; rewrite Hf by lia; split; [lia|done]].
Qed.

(** What the first four start-up functions leave of the frames [S0]. *)
Record memory_ready (S0 : gset Z) (k k' : kern pmm) : Prop := {
  my_rest : k' = set_ksched (k_sched k') k;
  my_sched : sched_inv (k_sched k') [idle_task (k_sched k')];
  my_heap : heap_inv (k_heap k');
  my_tasks : tasks_live (k_sched k');
  my_boot : current_task (k_sched k') ≠ idle_task (k_sched k');
  my_frames : Z.of_nat (size S0) ≤ Z.of_nat (size (frames (hp_vm (k_heap k')))) + 114;
  my_lowest : lowest S0 (k_pmm k');
  my_cursor : heap_cursor (k_heap k') ≤ HEAP_VIRT_BASE + 11 * PAGE_SIZE;
}.

Lemma taken_reachable S0 p p' :
  free_of p ⊆ S0 → lowest S0 p' → 133 < Z.of_nat (size (filter (λ f, f < 512) S0)) →
  Z.of_nat (size S0) ≤ Z.of_nat (size (free_of p')) + 133 → frames_reachable p p' = true.
Proof.
  intros Hs Hl Hn Hc. apply bool_decide_eq_true. intros f Hf. unfold IDENTITY_END, PAGE_SIZE.
  assert (f < 512); [|lia]. eapply (lowest_below S0 p' 512 134); [done|lia|lia|].
  unfold frames_taken in Hf. apply elem_of_difference in Hf as [Hf Hnf]. apply elem_of_difference. split; [by apply Hs|done].
Qed.

Lemma low_frames_size bi kend : (size (filter (λ f, (f < 512)%Z) (boot_frames bi kend)) ≤ size (boot_frames bi kend))%nat.
Proof. apply subseteq_size. intros f. rewrite elem_of_filter. tauto. Qed.

Lemma kmain_memory_spec im bi k :
  boot_ok im bi → image_ok im → kern_fresh k →
  ∃ k', kmain_memory im bi k = Some (Running k') ∧ memory_ready (boot_frames bi (im_kernel_phys_end im)) k k'.
Proof.
  intros Hb Him [F1 F2 F3 F4 F5]. unfold kmain_memory. rewrite F1.
  destruct (pmm_boot im bi Hb) as (p & -> & Hp & Ef & Hlow). rewrite bind_some.
  pose proof (bo_frames _ _ Hb) as Hn. pose proof (low_frames_size bi (im_kernel_phys_end im)) as Hle.
  set (S0 := boot_frames bi (im_kernel_phys_end im)) in *.
  set (v0 := set_alloc _ p _). assert (frames v0 = S0) as Ef0 by exact Ef. assert (fa_ok (vm_alloc v0)) as Hok by exact Hp.
  assert (vm_has (lowest S0) v0) as L0 by exact Hlow. clearbody v0.
  destruct (vmm_init_spec v0) as (v1 & r & T & E1 & Hwf & Hroot & Epml & _ & _ & Hsz & _); [exact Hok|rewrite Ef0; lia|].
  apply (vmm_init_has (lowest S0) (take_lowest S0) _ _ E1) in L0. rewrite E1, bind_some. rewrite Ef0 in Hsz.
  destruct (heap_init_spec (set_vm (k_heap k) v1 (hp_mem (k_heap k)))) as (h & E2 & Hih & Ecur & _ & Hfh & _).
  { split; [by exists T, r|exact F2]. }
  { cbn [set_vm hp_vm]. lia. }
  pose proof (heap_init_has (lowest S0) (take_lowest S0) _ _ E2 L0) as L2. cbn [set_vm hp_vm] in Hfh. rewrite E2, bind_some.
  destruct (sched_init_spec (im_sched_exit im) (im_idle_fn im) (io_exit _ Him) (with_heap h (k_sched k)))
    as (x & E3 & Hx); [by destruct F3; split|exact Hih|cbn [with_heap sc_heap]; unfold KSTACK_PAGES; lia|apply Him|].
  rewrite E3, bind_some. cbn [with_heap sc_heap] in Hx. destruct x as [c|].
  - pose proof (sched_init_has (lowest S0) (take_lowest S0) _ _ _ _ E3 L2) as L3.
    destruct Hx as (Hs & Hh & Htl & _ & Hne & _ & _ & Hfr & Hcu). rewrite Ecur in Hcu. unfold KSTACK_PAGES, PAGE_SIZE in Hcu, Hfr.
    assert (k_heap (set_ksched c k) = sc_heap c) as Eh by done.
    assert (Z.of_nat (size S0) ≤ Z.of_nat (size (frames (hp_vm (sc_heap c)))) + 114) as Hcount by lia.
    cbv zeta. rewrite (taken_reachable S0); [|by rewrite Ef|exact L3|exact Hn|].
    + exists (set_ksched c k). split; [done|]. split; rewrite ?Eh; done.
    + change (free_of (k_pmm (set_ksched c k))) with (frames (hp_vm (sc_heap c))). lia.
  - exfalso. rewrite Ecur in Hx. by vm_compute in Hx.
Qed.

(** The invariants do not depend on EFER nor on the stack of the system calls. *)
Lemma inv_efer (h : heap pmm) e : heap_inv h → heap_inv (set_vm h (set_efer e (hp_vm h)) (hp_mem h)).
Proof.
  intros [V O S F]. split; [|exact O|exact S|exact F].
  destruct V as [(T & k & [W1 W2 W3 W4] & R & K) V2 V3 V4]. split; [|exact V2|exact V3|exact V4].
  exists T, k. split; [split; [exact W1|exact W2|exact W3|exact W4]|by split].
Qed.

Definition with_syscall_rsp (v : Z) (c : sched pmm) : sched pmm :=
  {| sc_heap := sc_heap c; sc_tasks := sc_tasks c; idle_task := idle_task c; current_task := current_task c;
     run_queue_head := run_queue_head c; next_pid := next_pid c; sched_tick_count := sched_tick_count c;
     in_sched := in_sched c; sleep_list := sleep_list c; sleep_list_cnt := sleep_list_cnt c;
     sc_regs := sc_regs c; tss_rsp0 := tss_rsp0 c; syscall_kernel_rsp := v |}.

Lemma syscall_init_state entry (k : kern pmm) L :
  sched_inv (k_sched k) L →
  ∃ k' v, syscall_init entry k = Some k'
    ∧ k_fs k' = set_sched (with_syscall_rsp v (with_heap (set_vm (k_heap k)
                  (set_efer (Z.lor (vm_efer (hp_vm (k_heap k))) EFER_SCE) (hp_vm (k_heap k))) (hp_mem (k_heap k))) (k_sched k))) (k_fs k).
Proof.
  intros Hs. destruct (inv_cur_task _ _ Hs) as (c & Hc & _). unfold syscall_init. cbv zeta.
  match goal with |- context [foldl ?f (Some ?t0) syscall_entries] =>
    destruct (table_spec t0 syscall_entries) as (tb & -> & _) end; [by vm_compute|]. cbn [mbind option_bind].
  match goal with |- context [current_task ?x =? 0] => set (c1 := x) end.
  change (current_task c1) with (current_task (k_sched k)).
  assert (current_task (k_sched k) ≠ 0) as Hz by (intros E; rewrite E, (si_null _ _ Hs) in Hc; done).
  rewrite (proj2 (Z.eqb_neq _ 0) Hz). change (get_task (current_task (k_sched k)) c1) with (sc_tasks (k_sched k) !! current_task (k_sched k)).
  rewrite Hc. cbn [mbind option_bind]. eexists _, _. split; reflexivity.
Qed.

(** ** Properties *)


(** ** A sample machine *)

(** The two controllers, and a keyboard controller that holds [n] bytes. *)
#[export] Instance kb_ports : PortIO ((pic * pic) * nat) := {|
  port_in w p x :=
    if p =? KB_STATUS then ((if decide (snd x = 0%nat) then 0 else 1), x)
    else if p =? KB_DATA then (0x1E, (fst x, Nat.pred (snd x)))
    else (fst (port_in w p (fst x)), (snd (port_in w p (fst x)), snd x));
  port_out w p v x := (port_out w p v (fst x), snd x) |}.

#[export] Instance kb_pics : PicPair ((pic * pic) * nat).
Proof.
  refine {| pics := λ x, pics (fst x) |}.
  - intros p v [x n]. exact (pics_out p v x).
  - intros p [x n] [-> | ->]; [exact (pics_in PIC1_DATA x (or_introl eq_refl))|exact (pics_in PIC2_DATA x (or_intror eq_refl))].
Defined.

#[export] Instance kb_port : KbPort ((pic * pic) * nat).
Proof.
  refine {| kb_pending := snd |}.
  - intros [x n]. cbn. by destruct n.
  - by intros [x n].
  - by intros p [x n] [-> | ->].
  - done.
Defined.

Definition sample_image : image :=
  {| im_kernel_phys_end := 0x200000; im_gdt := 0x108000; im_tss := 0x109000;
     im_isr_stub_table := λ v, 0x100000 + 16 * v; im_sched_exit := 0x110000; im_idle_fn := 0x110100;
     im_syscall_entry := 0x110200 |}.

(** The memory map of a small PC: 636 KB below the video memory, and 7 MB from 1 MB on. *)
Definition pc_boot_info : boot_info :=
  {| bi_magic := BOOT_INFO_MAGIC; e820_count := 2;
     e820_map := λ i, if i =? 0 then {| e_base := 0; e_length := 0x9F000; e_type := 1; e_acpi_attrs := 0 |}
                      else {| e_base := 0x100000; e_length := 0x700000; e_type := 1; e_acpi_attrs := 0 |};
     kernel_phys_start := 0x100000; kernel_phys_end := 0x200000;
     fb_addr := 0; fb_width := 0; fb_height := 0; fb_pitch := 0; fb_bpp := 0 |}.

Lemma sample_boot_ok : boot_ok sample_image pc_boot_info.
Proof.
  split; [done|done| |by vm_compute|].
  - intros i j f Hi Hj. assert (i = 0 ∧ j = 1) as [-> ->] by (cbn in Hj; lia). intros Hl. unfold region_has in *.
    change (region_end (e820_map pc_boot_info 0)) with 0x9F000 in Hl. change (region_start (e820_map pc_boot_info 1)) with 0x100000.
    apply andb_true_iff in Hl as [_ Hl]. apply Z.ltb_lt in Hl. rewrite (proj2 (Z.leb_gt 0x100000 _)) by lia. by rewrite andb_false_r.
  - assert (size (list_to_set (seqZ 1 158) : gset Z) ≤ size (filter (λ f, (f < 512)%Z) (boot_frames pc_boot_info 0x200000)))%nat as Hs.
    { apply subseteq_size. intros f. rewrite elem_of_list_to_set, elem_of_seqZ. intros Hf. unfold boot_frames.
      rewrite elem_of_filter, elem_of_list_to_set, list_elem_of_filter, elem_of_seqZ.
      pose proof (check_range (λ g, (g =? 0) || (usable 2 (e820_map pc_boot_info) g && negb (g =? 0) && negb (kernel_frame 0x200000 g)))
                    159 ltac:(by vm_compute) f ltac:(lia)) as Hc. cbv beta in Hc.
      rewrite (proj2 (Z.eqb_neq f 0)) in Hc by lia. cbn [orb] in Hc. split; [lia|]. split; [|unfold PMM_MAX_FRAMES; lia].
      by rewrite (proj2 (Z.eqb_neq f 0)) by lia. }
    rewrite size_list_to_set, length_seqZ in Hs by apply NoDup_seqZ. cbn [sample_image im_kernel_phys_end]. lia.
Qed.

Definition sample_machine : machine ((pic * pic) * nat) :=
  let p := {| pic_step := 0; pic_base := 8; pic_mask := 0; pic_eois := 0 |} in
  let g := {| off_low := 0; gate_cs := 0; gate_ist := 0; gate_attr := 0; off_mid := 0; off_high := 0 |} in
  {| mc_gdt := {| gdt_raw := λ _, 0; tss := {| rsp0 := 0; ist := λ _, 0; iopb_offset := 0 |}; gdtr_limit := 0; gdtr_base := 0 |};
     mc_irqs := {| iq_dev := ((p, p), 3%nat); idt := λ _, g; handlers := λ _, None; irq_handlers := λ _, None |};
     mc_kern := {| k_fs := set_sched (sample_boot pmm_bss) (sample_fs ∅ pmm_bss); tick_count := 0; k_serial := [];
                   k_msrs := {| msr_star := 0; msr_lstar := 0; msr_cstar := 0; msr_sfmask := 0 |};
                   syscall_table := λ _, None; syscall_user_rsp := 0 |};
     mc_store := ∅; mc_table := λ _, 0; mc_queues := λ _, {| wq_tasks := λ _, 0; wq_count := 0 |} |}.

