(* ===== verification/Shell.v ===== *)
(** Model of kernel/shell/shell.c, and of the functions that only its commands
    call: the listings of kernel/drivers/rtc.c, kernel/drivers/storage/block.c,
    kernel/drivers/net/netdev.c and kernel/mm/heap.c.

    The answers of [keyboard_read_char] are an argument, the list of keys; a list
    that ends is a shell that waits.  Local arrays are at addresses of the kernel's
    memory that the commands take as [buf].  [fuel] bounds waits on the serial
    line, strings and walks of lists.  The stop of the processor is [Halted]. *)
From Stdlib Require Import String.
From stdpp Require Import prelude gmap.
From S2P Require Import Prelude CString FrameAlloc Pmm Vmm Heap Sched Vfs Net Printf Ports Syscall Rtc Ata Console Pci.

Definition SHELL_LINE_MAX : Z := 256.
Definition SHELL_ARGS_MAX : Z := 16.

Definition VGA_COLOR_LIGHT_GREEN : Z := 10.

(** Text with the newline that ends it. *)
Definition text (s : string) : list Z := bytes s ++ [10].
Arguments text s%_string.

Record shell (D : Type) := {
  sh_vga : vga;
  sh_dev : D;
  line_buf : Z → Z;
  line_len : Z;
  sh_kern : kern pmm;
  sh_pci : Z → pci_device;
  sh_pci_count : Z;
  sh_blk : blkdevs_state;
  sh_net : net pmm;
}.
Arguments sh_vga {D} _.
Arguments sh_dev {D} _.
Arguments line_buf {D} _.
Arguments line_len {D} _.
Arguments sh_kern {D} _.
Arguments sh_pci {D} _.
Arguments sh_pci_count {D} _.
Arguments sh_blk {D} _.
Arguments sh_net {D} _.

(** ** The line *)

(** [while ( *p == ' ') p++;] *)
Fixpoint skip_spaces (fuel : nat) (p : Z) (b : Z → Z) : option Z :=
  match fuel with
  | O => None
  | S n => c ← aget SHELL_LINE_MAX b p; if c =? 32 then skip_spaces n (p + 1) b else Some p
  end.

(** [while ( *p && *p != ' ') p++;] *)
Fixpoint skip_word (fuel : nat) (p : Z) (b : Z → Z) : option Z :=
  match fuel with
  | O => None
  | S n => c ← aget SHELL_LINE_MAX b p; if negb (c =? 0) && negb (c =? 32) then skip_word n (p + 1) b else Some p
  end.

(** A line has at most 256 bytes, so does every walk over it. *)
Definition line_fuel : nat := 257.

(** The loop with [n] slots of [argv] left; [argv] is the list of offsets into
    [line_buf] of the arguments found. *)
Fixpoint parse_loop (n : nat) (p : Z) (b : Z → Z) : option (list Z * (Z → Z)) :=
  c ← aget SHELL_LINE_MAX b p;
  if c =? 0 then Some ([], b)
  else
    match n with
    | O => Some ([], b)
    | S n =>
        q ← skip_word line_fuel p b;
        e ← aget SHELL_LINE_MAX b q;
        '(b, q) ← (if negb (e =? 0) then b ← aset SHELL_LINE_MAX b q 0; Some (b, q + 1) else Some (b, q));
        q ← skip_spaces line_fuel q b;
        '(argv, b) ← parse_loop n q b;
        Some (p :: argv, b)
    end.

Definition shell_parse (max_args : Z) (b : Z → Z) : option (list Z * (Z → Z)) :=
  p ← skip_spaces line_fuel 0 b; parse_loop (Z.to_nat max_args) p b.

Section shell.
Context {D : Type} `{PortIO D}.
Context (fuel : nat).
Implicit Types (v : vga) (d : D) (x : shell D).

Definition set_tty v d x : shell D :=
  {| sh_vga := v; sh_dev := d; line_buf := line_buf x; line_len := line_len x; sh_kern := sh_kern x;
     sh_pci := sh_pci x; sh_pci_count := sh_pci_count x; sh_blk := sh_blk x; sh_net := sh_net x |}.
Definition set_line (b : Z → Z) (n : Z) x : shell D :=
  {| sh_vga := sh_vga x; sh_dev := sh_dev x; line_buf := b; line_len := n; sh_kern := sh_kern x;
     sh_pci := sh_pci x; sh_pci_count := sh_pci_count x; sh_blk := sh_blk x; sh_net := sh_net x |}.
Definition set_shkern (k : kern pmm) x : shell D :=
  {| sh_vga := sh_vga x; sh_dev := sh_dev x; line_buf := line_buf x; line_len := line_len x; sh_kern := k;
     sh_pci := sh_pci x; sh_pci_count := sh_pci_count x; sh_blk := sh_blk x; sh_net := sh_net x |}.

(** The kernel's memory, where local arrays are. *)
Definition sh_mem x : mem := hp_mem (k_heap (sh_kern x)).
Definition set_shmem (m : mem) x : shell D :=
  set_shkern (set_kheap (set_hmem (k_heap (sh_kern x)) m) (sh_kern x)) x.

Definition shell_print (s : Z → Z) x : option (shell D) :=
  v ← vga_puts fuel s (sh_vga x);
  d ← serial_puts fuel s (sh_dev x);
  Some (set_tty v d x).

Definition shell_putchar (c : Z) x : option (shell D) :=
  v ← vga_putchar c (sh_vga x);
  d ← serial_putchar fuel (u8 c) (sh_dev x);
  Some (set_tty v d x).

(** [vga_putchar('\b'); vga_putchar(' '); vga_putchar('\b'); serial_putchar('\b');] *)
Definition rub_out x : option (shell D) :=
  v ← vga_putchar 8 (sh_vga x);
  v ← vga_putchar 32 v;
  v ← vga_putchar 8 v;
  d ← serial_putchar fuel 8 (sh_dev x);
  Some (set_tty v d x).

Fixpoint read_loop (keys : list Z) x : option (list Z * shell D) :=
  match keys with
  | [] => None
  | c :: keys =>
      if c <? 0 then read_loop keys x
      else if (c =? 10) || (c =? 13) then
        x ← shell_putchar 10 x;
        b ← aset SHELL_LINE_MAX (line_buf x) (line_len x) 0;
        Some (keys, set_line b (line_len x) x)
      else if c =? 8 then
        if 0 <? line_len x then
          x ← rub_out (set_line (line_buf x) (line_len x - 1) x); read_loop keys x
        else read_loop keys x
      else if line_len x <? SHELL_LINE_MAX - 1 then
        b ← aset SHELL_LINE_MAX (line_buf x) (line_len x) (u8 c);
        x ← shell_putchar (u8 c) (set_line b (line_len x + 1) x);
        read_loop keys x
      else read_loop keys x
  end.

(** The keys that are left, and the state with the line read. *)
Definition shell_readline (keys : list Z) x : option (list Z * shell D) :=
  x ← shell_print (lit (bytes "devos> ")) (set_line (line_buf x) 0 x);
  read_loop keys x.

(** ** Commands *)

Definition print_lines (l : list (list Z)) x : option (shell D) :=
  foldl (λ ox s, x ← ox; shell_print (lit s) x) (Some x) l.

Definition cmd_help : shell D → option (shell D) :=
  print_lines
    [text "Commands:"; text "  help         this message"; text "  clear        clear screen";
     text "  meminfo      physical memory stats"; text "  heapinfo     kernel heap stats";
     text "  ps           list tasks"; text "  ls [path]    list directory"; text "  cat <path>   print file contents";
     text "  echo <...>   print arguments"; text "  uptime       milliseconds since boot";
     text "  rtc          show current RTC date/time"; text "  lspci        list PCI devices";
     text "  diskinfo     list block devices"; text "  netinfo      list network devices";
     text "  devinfo      hardware summary"; text "  halt         halt the system"; text "  reboot       reboot the system"].

Definition cmd_clear x : option (shell D) := v ← vga_clear (sh_vga x); Some (set_tty v (sh_dev x) x).

(** [snprintf(buf, size, fmt, ...); shell_print(buf);] *)
Definition print_fmt (buf size : Z) (fmt : list Z) (args : list va_arg) x : option (shell D) :=
  '(_, m) ← ksnprintf buf size fmt args (sh_mem x);
  shell_print (at_ptr m buf) (set_shmem m x).

Definition cmd_meminfo (buf : Z) x : option (shell D) :=
  let p := vm_alloc (hp_vm (k_heap (sh_kern x))) in
  let free_mb := Z.shiftr (u64 (pmm_free_pages p * PAGE_SIZE)) 20 in
  let total_mb := Z.shiftr (u64 (pmm_total_pages p * PAGE_SIZE)) 20 in
  print_fmt buf 64 (text "Physical: %llu MB free / %llu MB total") [VInt free_mb; VInt total_mb] x.

(** [serial_printf], whose array is at [buf]. *)
Definition sh_serial_printf (buf : Z) (fmt : list Z) (args : list va_arg) x : option (shell D) :=
  '(m, d) ← serial_printf fuel buf fmt args (sh_mem x) (sh_dev x);
  Some (set_tty (sh_vga x) d (set_shmem m x)).

(** [for (h = large_free_list; h; h = h->next)]: bytes and blocks. *)
Fixpoint free_stats (n : nat) (a bytes_ blocks : Z) (h : heap pmm) : option (Z * Z) :=
  if a =? 0 then Some (bytes_, blocks)
  else
    match n with
    | O => None
    | S n => lh ← get_large h a; free_stats n (lh_next lh) (u64 (bytes_ + lh_size lh)) (blocks + 1) h
    end.

(** [for (sp = slab_classes[i]; sp; sp = sp->next) pages++;] *)
Fixpoint slab_pages (n : nat) (a pages : Z) (h : heap pmm) : option Z :=
  if a =? 0 then Some pages
  else match n with O => None | S n => sp ← get_slab h a; slab_pages n (sp_next sp) (pages + 1) h end.

Fixpoint slab_stats (n : nat) (i buf : Z) x : option (shell D) :=
  match n with
  | O => Some x
  | S n =>
      let h := k_heap (sh_kern x) in
      c ← aget SLAB_CLASSES (slab_classes h) i;
      pages ← slab_pages fuel c 0 h;
      x ← (if negb (pages =? 0) then
             sh_serial_printf buf (text "  slab[%4u]: %d pages") [VInt (u16 (Z.shiftl 1 (SLAB_MIN_ORDER + i))); VInt pages] x
           else Some x);
      slab_stats n (i + 1) buf x
  end.

Definition heap_dump_stats (buf : Z) x : option (shell D) :=
  let h := k_heap (sh_kern x) in
  '(bytes_, blocks) ← free_stats fuel (large_free_list h) 0 0 h;
  x ← sh_serial_printf buf (text "[HEAP] cursor=0x%llx large_free=%zu blocks=%zu")
        [VInt (heap_cursor h); VInt bytes_; VInt blocks] x;
  slab_stats (Z.to_nat SLAB_CLASSES) 0 buf x.

Definition cmd_heapinfo := heap_dump_stats.

Definition state_name (s : task_state) : list Z :=
  match s with
  | TASK_CREATED => bytes "CREATED"
  | TASK_READY => bytes "READY  "
  | TASK_RUNNING => bytes "RUNNING"
  | TASK_BLOCKED => bytes "BLOCKED"
  | TASK_ZOMBIE => bytes "ZOMBIE "
  | TASK_DEAD => bytes "DEAD   "
  end.

(** The arguments of a line of [ps]. *)
Definition ps_args (t : task) : option (list va_arg) :=
  name ← str_bytes 32 (t_name t) 0;
  Some [VInt (t_pid t); VStr (Some (state_name (t_state t))); VInt (t_priority t); VInt (t_total_ticks t); VStr (Some name)].

(** The walk of the run queue from [t] on. *)
Fixpoint ps_queue (n : nat) (t head cur buf : Z) x : option (shell D) :=
  match n with
  | O => None
  | S n =>
      tt ← get_task t (k_sched (sh_kern x));
      x ← (if negb (t =? cur) then
             args ← ps_args tt; print_fmt buf 96 (text "%-4u %s  %-4u  %-5llu  %s") args x
           else Some x);
      if (t_next tt =? 0) || (t_next tt =? head) then Some x else ps_queue n (t_next tt) head cur buf x
  end.

(** The loop over the sleeping tasks. *)
Fixpoint ps_sleepers (l : list Z) (buf : Z) x : option (shell D) :=
  match l with
  | [] => Some x
  | s :: l =>
      x ← (if negb (s =? 0) then
             tt ← get_task s (k_sched (sh_kern x));
             name ← str_bytes 32 (t_name tt) 0;
             print_fmt buf 96 (text "%-4u BLOCKED  %-4u  %-5llu  %s  (sleep)")
               [VInt (t_pid tt); VInt (t_priority tt); VInt (t_total_ticks tt); VStr (Some name)] x
           else Some x);
      ps_sleepers l buf x
  end.

Definition cmd_ps (buf : Z) x : option (shell D) :=
  x ← print_lines [text "PID  STATE    PRIO  TICKS  NAME"; text "---  -------  ----  -----  ----"] x;
  let cur := current_task (k_sched (sh_kern x)) in
  x ← (if negb (cur =? 0) then
         tt ← get_task cur (k_sched (sh_kern x));
         args ← ps_args tt;
         print_fmt buf 96 (text "%-4u %s  %-4u  %-5llu  %s  <running>") args x
       else Some x);
  let head := run_queue_head (k_sched (sh_kern x)) in
  x ← (if negb (head =? 0) then ps_queue fuel head head cur buf x else Some x);
  ps_sleepers (sched_get_sleep_list 32 (k_sched (sh_kern x))) buf x.

(** The names of a directory from entry [i] on. *)
Fixpoint ls_loop (n : nat) (i dir : Z) x : option (shell D) :=
  match n with
  | O => None
  | S n =>
      '(r, name) ← ramfs_readdir dir i (k_fs (sh_kern x));
      if negb (r =? 0) then Some x
      else
        x ← shell_print (lit name) x;
        x ← shell_putchar 10 x;
        ls_loop n (i + 1) dir x
  end.

(** A path is [None] for NULL. *)
Definition cmd_ls (path : option (list Z)) x : option (shell D) :=
  let path := match path with None | Some [] => [47] | Some p => p end in
  dir ← vfs_lookup path (k_fs (sh_kern x));
  if dir =? 0 then shell_print (lit (text "ls: not found")) x
  else
    n ← fs_nodes (k_fs (sh_kern x)) !! dir;
    if Z.land (vn_flags n) VFS_TYPE_DIR =? 0 then shell_print (lit (text "ls: not a directory")) x
    else
      match vn_ops n with
      | ramfs_file_ops => Some x
      | ramfs_dir_ops => ls_loop fuel 0 dir x
      end.

(** [while ((n = vfs_read(fd, buf, sizeof(buf) - 1)) > 0)] *)
Fixpoint cat_loop (n : nat) (fd buf : Z) x : option (shell D) :=
  match n with
  | O => None
  | S n =>
      '(r, f) ← vfs_read fd buf 255 (k_fs (sh_kern x));
      let x := set_shkern (set_kfs f (sh_kern x)) x in
      if 0 <? r then
        let x := set_shmem (upd (sh_mem x) (buf + r) 0) x in
        x ← shell_print (at_ptr (sh_mem x) buf) x;
        cat_loop n fd buf x
      else Some x
  end.

Definition cmd_cat (path : option (list Z)) (buf : Z) x : option (shell D) :=
  match path with
  | None | Some [] => shell_print (lit (text "cat: path required")) x
  | Some p =>
      '(fd, f) ← vfs_open p 0 0 (k_fs (sh_kern x));
      let x := set_shkern (set_kfs f (sh_kern x)) x in
      if fd <? 0 then shell_print (lit (text "cat: cannot open file")) x
      else
        x ← cat_loop fuel fd buf x;
        '(_, f) ← vfs_close fd (k_fs (sh_kern x));
        Some (set_shkern (set_kfs f (sh_kern x)) x)
  end.

(** The string at an offset of the line. *)
Definition arg (p : Z) x : Z → Z := λ i, line_buf x (p + i).

(** [for (i = 1; i < argc; i++)]; [first] holds for [i = 1]. *)
Fixpoint echo_loop (first : bool) (argv : list Z) x : option (shell D) :=
  match argv with
  | [] => Some x
  | p :: argv =>
      x ← (if first then Some x else shell_putchar 32 x);
      x ← shell_print (arg p x) x;
      echo_loop false argv x
  end.

Definition cmd_echo (argv : list Z) x : option (shell D) :=
  x ← echo_loop true (tail argv) x; shell_putchar 10 x.

Definition cmd_uptime (buf : Z) x : option (shell D) :=
  let ticks := timer_ticks (sh_kern x) in
  print_fmt buf 64 (text "Uptime: %llu ms (%llu sec)") [VInt ticks; VInt (ticks / 1000)] x.

(** [cli; hlt] does not return. *)
Definition cmd_halt x : option (boot_result (shell D)) :=
  x ← shell_print (lit (text "Halting system...")) x; Some Halted.

(** [1: inb $0x64, %al; testb $0x02, %al; jnz 1b] *)
Fixpoint kbc_wait (n : nat) d : option D :=
  match n with
  | O => None
  | S n => let '(st, d) := inb 0x64 d in if negb (Z.land st 0x02 =? 0) then kbc_wait n d else Some d
  end.

(** The ports after the reset command; the processor then halts for ever. *)
Definition cmd_reboot x : option (shell D) :=
  x ← shell_print (lit (text "Rebooting...")) x;
  d ← kbc_wait fuel (sh_dev x);
  Some (set_tty (sh_vga x) (outb 0x64 0xFE d) x).

(** [outb(CMOS_ADDR, 0x80 | reg); inb(CMOS_DATA)] *)
Definition cmos_ports (reg : Z) d : Z * D := inb 0x71 (outb 0x70 (u8 (Z.lor 0x80 reg)) d).

Definition rtc_print_time (buf : Z) x : option (shell D) :=
  let '(t, d) := rtc_get_time cmos_ports (sh_dev x) in
  print_fmt buf 64 (text "Date/Time: %04u-%02u-%02u  %02u:%02u:%02u")
    [VInt (year t); VInt (month t); VInt (day t); VInt (hour t); VInt (minute t); VInt (second t)]
    (set_tty (sh_vga x) d x).

Definition cmd_rtc := rtc_print_time.

Definition cmd_lspci (buf : Z) x : option (shell D) :=
  let p := {| pc_dev := sh_dev x; pci_devices := sh_pci x; pci_device_count := sh_pci_count x |} in
  '(m, v, p) ← pci_print_devices fuel buf (sh_mem x) (sh_vga x) p;
  Some (set_tty v (pc_dev p) (set_shmem m x)).

Fixpoint blk_print_loop (n : nat) (i buf : Z) x : option (shell D) :=
  match n with
  | O => Some x
  | S n =>
      a ← aget BLKDEV_MAX (blkdevs (sh_blk x)) i;
      bd ← bd_store (sh_blk x) !! a;
      let size_mb := Z.shiftr (u64 (bd_sector_count bd * bd_sector_size bd)) 20 in
      x ← print_fmt buf 80 (text "  %s: %llu sectors x %u bytes = %llu MB%s")
            [VStr (Some (bd_name bd)); VInt (bd_sector_count bd); VInt (bd_sector_size bd); VInt size_mb;
             VStr (Some (if bd_read_only bd then bytes " [ro]" else []))] x;
      blk_print_loop n (i + 1) buf x
  end.

Definition blkdev_print_all (buf : Z) x : option (shell D) :=
  if blkdev_cnt (sh_blk x) =? 0 then shell_print (lit (text "No block devices registered")) x
  else blk_print_loop (Z.to_nat (blkdev_cnt (sh_blk x))) 0 buf x.

Definition cmd_diskinfo := blkdev_print_all.

Fixpoint net_print_loop (n : nat) (i buf : Z) x : option (shell D) :=
  match n with
  | O => Some x
  | S n =>
      a ← aget NETDEV_MAX (devs (sh_net x)) i;
      nd ← nt_devices (sh_net x) !! a;
      x ← print_fmt buf 80 (text "  %s  MAC %02x:%02x:%02x:%02x:%02x:%02x  %s")
            (VStr (Some (d_name nd)) :: (VInt <$> take 6 (d_mac nd))
             ++ [VStr (Some (if d_up nd then bytes "UP" else bytes "DOWN"))]) x;
      net_print_loop n (i + 1) buf x
  end.

Definition netdev_print_all (buf : Z) x : option (shell D) :=
  if dev_cnt (sh_net x) =? 0 then shell_print (lit (text "No network devices")) x
  else net_print_loop (Z.to_nat (dev_cnt (sh_net x))) 0 buf x.

Definition cmd_netinfo := netdev_print_all.

Definition cmd_devinfo (buf : Z) x : option (shell D) :=
  x ← shell_print (lit (text "=== DEV-OS Hardware Summary ===")) x;
  x ← cmd_meminfo buf x;
  x ← cmd_lspci buf x;
  x ← cmd_diskinfo buf x;
  cmd_netinfo buf x.

(** ** The main loop *)

Inductive command :=
  | Help | Clear | Meminfo | Heapinfo | Ps | Ls | Cat | Echo | Uptime | RtcCmd | Lspci | Diskinfo | Netinfo | Devinfo
  | Halt | Reboot.

Definition command_names : list (list Z * command) :=
  [(bytes "help", Help); (bytes "clear", Clear); (bytes "meminfo", Meminfo); (bytes "heapinfo", Heapinfo); (bytes "ps", Ps);
   (bytes "ls", Ls); (bytes "cat", Cat); (bytes "echo", Echo); (bytes "uptime", Uptime); (bytes "rtc", RtcCmd);
   (bytes "lspci", Lspci); (bytes "diskinfo", Diskinfo); (bytes "netinfo", Netinfo); (bytes "devinfo", Devinfo);
   (bytes "halt", Halt); (bytes "reboot", Reboot)].

(** The chain of [strcmp(cmd, ...) == 0]. *)
Fixpoint find_command (l : list (list Z * command)) (cmd : Z → Z) : option (option command) :=
  match l with
  | [] => Some None
  | (name, c) :: l => r ← strcmp line_fuel cmd (lit name); if r =? 0 then Some (Some c) else find_command l cmd
  end.

(** [argc > 1 ? argv[1] : NULL] *)
Definition second_arg (argv : list Z) x : option (option (list Z)) :=
  match argv with
  | _ :: p :: _ => s ← str_bytes line_fuel (arg p x) 0; Some (Some s)
  | _ => Some None
  end.

Definition running (ox : option (shell D)) : option (boot_result (shell D)) := x ← ox; Some (Running x).

Definition run_command (c : command) (argv : list Z) (buf : Z) x : option (boot_result (shell D)) :=
  match c with
  | Help => running (cmd_help x)
  | Clear => running (cmd_clear x)
  | Meminfo => running (cmd_meminfo buf x)
  | Heapinfo => running (cmd_heapinfo buf x)
  | Ps => running (cmd_ps buf x)
  | Ls => p ← second_arg argv x; running (cmd_ls p x)
  | Cat => p ← second_arg argv x; running (cmd_cat p buf x)
  | Echo => running (cmd_echo argv x)
  | Uptime => running (cmd_uptime buf x)
  | RtcCmd => running (cmd_rtc buf x)
  | Lspci => running (cmd_lspci buf x)
  | Diskinfo => running (cmd_diskinfo buf x)
  | Netinfo => running (cmd_netinfo buf x)
  | Devinfo => running (cmd_devinfo buf x)
  | Halt => cmd_halt x
  | Reboot => _ ← cmd_reboot x; Some Halted
  end.

(** The line that was read: its words, and the command they name. *)
Definition shell_command (buf : Z) x : option (boot_result (shell D)) :=
  if line_len x =? 0 then Some (Running x)
  else
    '(argv, b) ← shell_parse SHELL_ARGS_MAX (line_buf x);
    let x := set_line b (line_len x) x in
    match argv with
    | [] => Some (Running x)
    | cmd :: _ =>
        c ← find_command command_names (arg cmd x);
        match c with
        | Some c => run_command c argv buf x
        | None =>
            x ← shell_print (arg cmd x) x;
            x ← shell_print (lit (text ": command not found")) x;
            Some (Running x)
        end
    end.

(** The body of the loop of [shell_run]. *)
Definition shell_round (buf : Z) (keys : list Z) x : option (list Z * boot_result (shell D)) :=
  '(keys, x) ← shell_readline keys x; r ← shell_command buf x; Some (keys, r).

(** [n] rounds of the loop. *)
Fixpoint shell_rounds (n : nat) (buf : Z) (keys : list Z) x : option (list Z * boot_result (shell D)) :=
  match n with
  | O => Some (keys, Running x)
  | S n =>
      '(keys, r) ← shell_round buf keys x;
      match r with Halted => Some (keys, Halted) | Running x => shell_rounds n buf keys x end
  end.

Definition shell_run (n : nat) (buf : Z) (keys : list Z) x : option (list Z * boot_result (shell D)) :=
  x ← shell_print (lit [10]) x;
  let x := set_tty (vga_set_color VGA_COLOR_LIGHT_GREEN VGA_COLOR_BLACK (sh_vga x)) (sh_dev x) x in
  x ← shell_print (lit (text "DevOS Shell v0.5 -- type 'help' for commands")) x;
  let x := set_tty (vga_set_color VGA_COLOR_LIGHT_GREY VGA_COLOR_BLACK (sh_vga x)) (sh_dev x) x in
  shell_rounds n buf keys x.
End shell.
