(* ===== verification/ShellLine.v ===== *)
(** The command line of kernel/shell/shell.c: the reference line editor and
    words, what is typed and what is shown, and the words [shell_parse] finds. *)
From Stdlib Require Import String.
From stdpp Require Import prelude gmap.
From S2P Require Import Prelude CString FrameAlloc Pmm Vmm Heap Sched Vfs Net Printf PrintfProps Ports Syscall Rtc Ata Console ConsoleProps Pci VmmProps SyscallProps NetProps VfsDir VfsPath Shell.

(** ** Reference *)

(** The line after a key: a character is appended while there is room, backspace
    takes the last one back, a negative answer of the keyboard is ignored. *)
Definition edit_key (l : list Z) (c : Z) : list Z :=
  if c <? 0 then l else if c =? 8 then take (length l - 1) l
  else if decide (length l < 255)%nat then l ++ [u8 c] else l.

(** What a key prints; [rub] is what backspace prints. *)
Definition key_echo (rub : list Z) (l : list Z) (c : Z) : list Z :=
  if c <? 0 then [] else if c =? 8 then match l with [] => [] | _ => rub end
  else if decide (length l < 255)%nat then [u8 c] else [].

Fixpoint keys_echo (rub : list Z) (l keys : list Z) : list Z :=
  match keys with [] => [] | c :: keys => key_echo rub l c ++ keys_echo rub (edit_key l c) keys end.

(** The words of a line; [w] is the word read so far. *)
Fixpoint words_from (w l : list Z) : list (list Z) :=
  match l with
  | [] => match w with [] => [] | _ => [w] end
  | c :: l => if c =? 32 then match w with [] => words_from [] l | _ => w :: words_from [] l end else words_from (w ++ [c]) l
  end.

Definition words : list Z → list (list Z) := words_from [].

(** Words with a space between them. *)
Fixpoint joined (ws : list (list Z)) : list Z :=
  match ws with [] => [] | [w] => w | w :: ws => w ++ 32 :: joined ws end.

(** A key that is neither a line end nor NUL. *)
Definition key_ok (c : Z) : Prop := c < 0 ∨ (0 < c < 256 ∧ c ≠ 10 ∧ c ≠ 13).

(** ** The line buffer *)

(** The line [l] is in the buffer from [p] on, up to its NUL. *)
Definition line_at (b : Z → Z) (p : Z) (l : list Z) : Prop := cstr (λ i, b (p + i)) l.

Lemma line_at_cons b p c l : line_at b p (c :: l) ↔ b p = c ∧ 0 < c < 256 ∧ line_at b (p + 1) l.
Proof.
  unfold line_at. rewrite cstr_cons, Z.add_0_r. do 2 f_equiv.
  split; apply cstr_ext; intros j; f_equal; lia.
Qed.

Lemma line_at_nil b p : line_at b p [] ↔ b p = 0.
Proof. unfold line_at. by rewrite cstr_nil, Z.add_0_r. Qed.

Lemma line_at_ext b b' p l :
  (∀ i, p ≤ i ≤ p + Z.of_nat (length l) → b' i = b i) → line_at b p l → line_at b' p l.
Proof.
  revert p. induction l as [|c l IH]; intros p He.
  - rewrite !line_at_nil. rewrite He by (cbn; lia). done.
  - rewrite !line_at_cons. cbn [length] in He. rewrite He by lia. intros (? & ? & ?). split_and!; [done|lia|lia|].
    apply IH; [intros i Hi; apply He; lia|done].
Qed.

Lemma line_at_app b p w l : line_at b p (w ++ l) → line_at b (p + Z.of_nat (length w)) l.
Proof.
  revert p. induction w as [|c w IH]; intros p; cbn [app length]; [by rewrite Z.add_0_r|].
  rewrite line_at_cons. intros (_ & _ & Hl). replace (p + Z.of_nat (S (length w))) with (p + 1 + Z.of_nat (length w)) by lia.
  by apply IH.
Qed.

(** A word that ends where a NUL was put. *)
Lemma line_at_cut b b' p w l :
  line_at b p (w ++ l) → (∀ i, p ≤ i < p + Z.of_nat (length w) → b' i = b i) → b' (p + Z.of_nat (length w)) = 0 → line_at b' p w.
Proof.
  revert p. induction w as [|c w IH]; intros p; cbn [app length]; [rewrite line_at_nil, Z.add_0_r; done|].
  rewrite !line_at_cons. intros (Hc & Hr & Hl) He Hz. split_and!; [rewrite He by lia; done|lia|lia|].
  apply IH; [done|intros i Hi; apply He; lia|rewrite <-Hz; f_equal; lia].
Qed.

Lemma words_word w0 w l : Forall (λ c, c ≠ 32) w → words_from w0 (w ++ l) = words_from (w0 ++ w) l.
Proof.
  revert w0. induction w as [|c w IH]; intros w0 Hw; [by rewrite app_nil_r|]. apply Forall_cons in Hw as [Hc Hw].
  cbn [app words_from]. apply Z.eqb_neq in Hc as ->. rewrite IH by done. by rewrite <-app_assoc.
Qed.

Lemma skip_spaces_spec n p b l :
  line_at b p l → 0 ≤ p → p + Z.of_nat (length l) ≤ 255 → (length l < n)%nat →
  ∃ q l', skip_spaces n p b = Some q ∧ p ≤ q ∧ line_at b q l' ∧ q + Z.of_nat (length l') = p + Z.of_nat (length l)
    ∧ words l' = words l ∧ ∀ r, l' ≠ 32 :: r.
Proof.
  revert p l. induction n as [|n IH]; intros p l Hl Hp Hb Hn; [lia|]. cbn [skip_spaces].
  rewrite aget_Some by (unfold SHELL_LINE_MAX; lia). cbn [mbind option_bind]. destruct l as [|c l].
  - apply line_at_nil in Hl as Hz. rewrite Hz. exists p, []. split_and!; [done|lia|done|done|done|done].
  - apply line_at_cons in Hl as Hc. destruct Hc as (-> & Hr & Hl'). destruct (Z.eqb_spec c 32) as [->|Hne].
    + cbn [length] in *. destruct (IH (p + 1) l Hl') as (q & l' & E & Hq & Hlq & Hs & Hw & Hn'); [lia|lia|lia|].
      exists q, l'. split_and!; [done|lia|done|lia|done|done].
    + exists p, (c :: l). split_and!; [done|lia|done|done|done|congruence].
Qed.

Lemma skip_word_spec n p b l :
  line_at b p l → 0 ≤ p → p + Z.of_nat (length l) ≤ 255 → (length l < n)%nat →
  ∃ w l', skip_word n p b = Some (p + Z.of_nat (length w)) ∧ l = w ++ l' ∧ Forall (λ c, c ≠ 32) w
    ∧ (l' = [] ∨ ∃ r, l' = 32 :: r).
Proof.
  revert p l. induction n as [|n IH]; intros p l Hl Hp Hb Hn; [lia|]. cbn [skip_word].
  rewrite aget_Some by (unfold SHELL_LINE_MAX; lia). cbn [mbind option_bind]. destruct l as [|c l].
  - apply line_at_nil in Hl as ->. exists [], []. cbn. rewrite Z.add_0_r. split_and!; auto.
  - apply line_at_cons in Hl as (-> & Hr & Hl). destruct (Z.eqb_spec c 0); [lia|]. cbn [negb andb].
    destruct (Z.eqb_spec c 32) as [->|Hne]; cbn [negb].
    + exists [], (32 :: l). cbn. rewrite Z.add_0_r. split_and!; [done|done|done|right; by eexists].
    + cbn [length] in *. destruct (IH (p + 1) l Hl) as (w & l' & -> & -> & Hw & Hl'); [lia|lia|lia|].
      exists (c :: w), l'. split_and!; [f_equal; cbn [length]; lia|done|by constructor|done].
Qed.

Lemma parse_loop_spec n p b l :
  line_at b p l → 0 ≤ p → p + Z.of_nat (length l) ≤ 255 → (∀ r, l ≠ 32 :: r) →
  ∃ argv b', parse_loop n p b = Some (argv, b') ∧ (∀ i, i < p ∨ p + Z.of_nat (length l) ≤ i → b' i = b i)
    ∧ Forall2 (λ q w, 0 ≤ q ∧ line_at b' q w) argv (take n (words l)).
Proof.
  revert p b l. induction n as [|n IH]; intros p b l Hl Hp Hb Hns.
  { cbn [parse_loop]. rewrite aget_Some by (unfold SHELL_LINE_MAX; lia). cbn [mbind option_bind].
    exists [], b. split_and!; [by destruct (b p =? 0)|done|constructor]. }
  cbn [parse_loop]. rewrite aget_Some by (unfold SHELL_LINE_MAX; lia). cbn [mbind option_bind]. destruct l as [|c l0].
  { apply line_at_nil in Hl as ->. exists [], b. split_and!; [done|done|constructor]. }
  apply line_at_cons in Hl as Hc. destruct Hc as (-> & Hr & _). destruct (Z.eqb_spec c 0); [lia|].
  destruct (skip_word_spec line_fuel p b (c :: l0) Hl Hp Hb) as (w & l' & -> & El & Hw & Hend); [unfold line_fuel; lia|].
  assert (w ≠ []) as Hwn.
  { intros ->. destruct Hend as [->|[r ->]]; [done|]. by apply (Hns r). }
  rewrite El in *. rewrite length_app in Hb. set (q := p + Z.of_nat (length w)).
  assert (0 < length w)%nat as Hw0 by (destruct w; [done|cbn; lia]).
  pose proof (line_at_app _ _ _ _ Hl) as Hq. cbn [mbind option_bind]. rewrite aget_Some by (unfold q, SHELL_LINE_MAX; lia).
  cbn [mbind option_bind]. unfold words. rewrite words_word by done. cbn [app]. destruct Hend as [->|[r ->]].
  - apply line_at_nil in Hq as Hz. fold q in Hz. rewrite Hz. cbn [Z.eqb negb mbind option_bind].
    destruct (skip_spaces_spec line_fuel q b [] Hq) as (q' & l2 & -> & Hq' & Hl2 & Hs2 & Hw2 & Hn2);
      [lia|cbn in *; lia|unfold line_fuel; cbn; lia|].
    cbn [mbind option_bind length] in *. destruct l2; [|cbn in Hs2; lia].
    destruct (IH q' b []) as (argv & b' & -> & Hsame & HF); [done|lia|cbn; lia|done|]. cbn [mbind option_bind].
    exists (p :: argv), b'. split_and!; [done|intros i Hi; apply Hsame; rewrite length_app in Hi; cbn in *; lia|].
    destruct w as [|a w]; [done|]. change (take (S n) (words_from (a :: w) [])) with ((a :: w) :: take n []).
    constructor; [|exact HF]. split; [done|].
    eapply line_at_cut; [exact Hl|intros i Hi; apply Hsame; unfold q in *; lia|]. fold q. rewrite Hsame by (cbn; lia). exact Hz.
  - apply line_at_cons in Hq as Hz. destruct Hz as (Hz & _ & Hr'). fold q in Hz, Hr'. rewrite Hz. cbn [length] in Hb.
    cbn [Z.eqb negb mbind option_bind]. rewrite aset_Some by (unfold q, SHELL_LINE_MAX; lia). cbn [mbind option_bind].
    assert (line_at (upd b q 0) (q + 1) r) as Hr1.
    { eapply line_at_ext; [|exact Hr']. intros i Hi. apply upd_ne. lia. }
    destruct (skip_spaces_spec line_fuel (q + 1) (upd b q 0) r Hr1) as (q' & l2 & -> & Hq' & Hl2 & Hs2 & Hw2 & Hn2);
      [lia|unfold q; lia|unfold line_fuel; lia|].
    cbn [mbind option_bind]. destruct (IH q' _ l2 Hl2) as (argv & b' & -> & Hsame & HF); [lia|unfold q in *; lia|done|].
    cbn [mbind option_bind]. exists (p :: argv), b'. split_and!; [done| |].
    + intros i Hi. rewrite length_app in Hi. cbn [length] in Hi. rewrite Hsame by (unfold q in *; lia). apply upd_ne. unfold q in *; lia.
    + cbn [words_from Z.eqb Pos.eqb]. destruct w as [|a w]; [done|]. cbn [take]. fold (words r). rewrite <-Hw2.
      constructor; [|exact HF]. split; [done|]. eapply line_at_cut; [exact Hl| |].
      * intros i Hi. rewrite Hsame by (unfold q in *; lia). apply upd_ne. unfold q; lia.
      * fold q. rewrite Hsame by lia. apply upd_eq.
Qed.

(** The words of a line, as the commands get them. *)
Lemma shell_parse_spec b l n :
  line_at b 0 l → (length l ≤ 255)%nat → 0 ≤ n →
  ∃ argv b', shell_parse n b = Some (argv, b') ∧ Forall2 (λ q w, 0 ≤ q ∧ line_at b' q w) argv (take (Z.to_nat n) (words l)).
Proof.
  intros Hl Hn H0. unfold shell_parse.
  destruct (skip_spaces_spec line_fuel 0 b l Hl) as (q & l' & -> & Hq & Hlq & Hs & Hw & Hns); [lia|lia|unfold line_fuel; lia|].
  cbn [mbind option_bind]. destruct (parse_loop_spec (Z.to_nat n) q b l' Hlq) as (argv & b' & -> & _ & HF); [lia|lia|done|].
  exists argv, b'. split; [done|]. by rewrite <-Hw.
Qed.

(** ** Output *)

Section output.
Context {D : Type} `{Uart D} (color : Z) (fuel : nat).
Implicit Types (x : shell D) (t : term) (u : list Z).

(** The screen shows the terminal [t] and [u] was sent over the serial line. *)
Record tty_is t u x : Prop := {
  ty_screen : shows color (sh_vga x) t;
  ty_line : line_ready fuel (sh_dev x);
  ty_sent : uart_sent (sh_dev x) = u;
}.

(** Only the terminal changed. *)
Definition same_but_tty x x' : Prop := x' = set_tty (sh_vga x') (sh_dev x') x.

(** Everything but the terminal and the line is as before. *)
Definition same_world x x' : Prop :=
  sh_kern x' = sh_kern x ∧ sh_pci x' = sh_pci x ∧ sh_pci_count x' = sh_pci_count x ∧ sh_blk x' = sh_blk x ∧ sh_net x' = sh_net x.

Lemma tty_world x x' : same_but_tty x x' → same_world x x'.
Proof. intros E. unfold same_world. by rewrite E. Qed.

Lemma same_trans x y z : same_but_tty x y → same_but_tty y z → same_but_tty x z.
Proof. unfold same_but_tty. intros E1 E2. rewrite E2, E1. done. Qed.

Lemma print_tty t u x s l :
  tty_is t u x → cstr s l → (length l < fuel)%nat →
  ∃ x', shell_print fuel s x = Some x' ∧ tty_is (foldl (feed color) t l) (u ++ l) x' ∧ same_but_tty x x'.
Proof.
  intros [Hs Hl Hu] Hc Hf. unfold shell_print, vga_puts, serial_puts.
  destruct (puts_loop_spec (λ pre v, shows color v (foldl (feed color) t pre)) vga_putchar l s 0 [] (sh_vga x) fuel) as (v & -> & Hv);
    [|done|done|done|].
  { intros c pre v _ Hv. rewrite foldl_app. by apply putchar_shows. }
  cbn [mbind option_bind].
  destruct (puts_loop_spec (λ pre d, line_ready fuel d ∧ uart_sent d = u ++ pre) (serial_putchar fuel) l s 0 [] (sh_dev x) fuel)
    as (d & -> & Hd & Hu'); [|done|by rewrite app_nil_r|done|].
  { intros c pre d Hr [Hd Eu]. destruct (serial_putchar_sent fuel c d Hd) as (d1 & -> & Hd1 & E1); [lia|].
    exists d1. split_and!; [done|done|]. by rewrite E1, Eu, app_assoc. }
  cbn [mbind option_bind]. eexists. split; [reflexivity|]. split; [by split|done].
Qed.

Lemma putchar_tty t u x c :
  tty_is t u x → 0 ≤ c < 256 →
  ∃ x', shell_putchar fuel c x = Some x' ∧ tty_is (feed color t c) (u ++ [c]) x' ∧ same_but_tty x x'.
Proof.
  intros [Hs Hl Hu] Hc. unfold shell_putchar. destruct (putchar_shows color _ t c Hs) as (v & -> & Hv). cbn [mbind option_bind].
  rewrite u8_small by lia. destruct (serial_putchar_sent fuel c _ Hl Hc) as (d & -> & Hd & E). cbn [mbind option_bind].
  eexists. split; [reflexivity|]. split; [split; [done|done|]|done]. cbn [set_tty sh_dev]. by rewrite E, Hu.
Qed.

Lemma rub_tty t u x :
  tty_is t u x →
  ∃ x', rub_out fuel x = Some x' ∧ tty_is (foldl (feed color) t [8; 32; 8]) (u ++ [8]) x' ∧ same_but_tty x x'.
Proof.
  intros [Hs Hl Hu]. unfold rub_out. destruct (putchar_shows color _ t 8 Hs) as (v1 & -> & Hv1). cbn [mbind option_bind].
  destruct (putchar_shows color _ _ 32 Hv1) as (v2 & -> & Hv2). cbn [mbind option_bind].
  destruct (putchar_shows color _ _ 8 Hv2) as (v3 & -> & Hv3). cbn [mbind option_bind].
  destruct (serial_putchar_sent fuel 8 _ Hl) as (d & -> & Hd & E); [lia|]. cbn [mbind option_bind].
  eexists. split; [reflexivity|]. split; [split; [done|done|]|done]. cbn [set_tty sh_dev]. by rewrite E, Hu.
Qed.

(** ** Reading a line *)

(** The characters typed so far are in the buffer. *)
Record typed (l : list Z) x : Prop := {
  tp_len : line_len x = Z.of_nat (length l);
  tp_max : (length l ≤ 255)%nat;
  tp_buf : ∀ i c, l !! i = Some c → line_buf x (Z.of_nat i) = c;
  tp_ok : Forall (λ c, 0 < c < 256) l;
}.

Lemma typed_tty l x x' : typed l x → same_but_tty x x' → typed l x'.
Proof. intros [T1 T2 T3 T4] ->. by split. Qed.

Lemma typed_key l x c :
  typed l x → 0 < c < 256 → (length l < 255)%nat →
  typed (l ++ [c]) (set_line (upd (line_buf x) (line_len x) c) (line_len x + 1) x).
Proof.
  intros [T1 T2 T3 T4] Hc Hl. split; cbn [set_line line_len line_buf].
  - rewrite T1, length_app. cbn. lia.
  - rewrite length_app. cbn. lia.
  - intros i z Hi. rewrite T1. apply lookup_app_Some in Hi as [Hi|[Hi E]].
    + apply lookup_lt_Some in Hi as Hlt. rewrite upd_ne by lia. by apply T3.
    + apply list_lookup_singleton_Some in E as [E ->]. replace (Z.of_nat i) with (Z.of_nat (length l)) by lia. apply upd_eq.
  - apply Forall_app; split; [done|by constructor].
Qed.

Lemma typed_rub l x :
  typed l x → l ≠ [] → typed (take (length l - 1) l) (set_line (line_buf x) (line_len x - 1) x).
Proof.
  intros [T1 T2 T3 T4] Hn. assert (0 < length l)%nat by (destruct l; [done|cbn; lia]).
  split; cbn [set_line line_len line_buf].
  - rewrite T1, length_take. lia.
  - rewrite length_take. lia.
  - intros i c Hi. apply lookup_take_Some in Hi as [Hi _]. by apply T3.
  - by apply Forall_take.
Qed.

Lemma read_loop_spec keys e rest l t u x :
  tty_is t u x → typed l x → Forall key_ok keys → e = 10 ∨ e = 13 →
  let l' := foldl edit_key l keys in
  ∃ x', read_loop fuel (keys ++ e :: rest) x = Some (rest, x') ∧ line_at (line_buf x') 0 l' ∧ (length l' ≤ 255)%nat
    ∧ line_len x' = Z.of_nat (length l') ∧ same_world x x'
    ∧ tty_is (foldl (feed color) t (keys_echo [8; 32; 8] l keys ++ [10])) (u ++ keys_echo [8] l keys ++ [10]) x'.
Proof.
  revert l t u x. induction keys as [|c keys IH]; intros l t u x Ht Hy Hk He; cbn [foldl keys_echo app].
  - cbn [read_loop]. replace (e <? 0) with false by (destruct He as [-> | ->]; done).
    replace ((e =? 10) || (e =? 13)) with true by (destruct He as [-> | ->]; done).
    destruct (putchar_tty t u x 10 Ht) as (x1 & -> & Ht1 & Hs1); [lia|]. cbn [mbind option_bind].
    destruct (typed_tty _ _ _ Hy Hs1) as [T1 T2 T3 T4]. rewrite aset_Some by (unfold SHELL_LINE_MAX; lia).
    cbn [mbind option_bind]. eexists. split; [reflexivity|]. cbn [set_line line_buf line_len].
    split_and!; [|done|done|by apply tty_world in Hs1|by destruct Ht1; split].
    split; [|rewrite T1; apply upd_eq]. intros i z Hi. apply lookup_lt_Some in Hi as Hlt. split.
    + rewrite upd_ne by lia. by apply T3.
    + by eapply Forall_lookup_1 in T4.
  - apply Forall_cons in Hk as [Hc Hk]. cbn [read_loop].
    remember (edit_key l c) as l1 eqn:E1. remember (key_echo [8; 32; 8] l c) as es eqn:E2. remember (key_echo [8] l c) as eu eqn:E3.
    unfold edit_key in E1. unfold key_echo in E2, E3.
    destruct Hc as [Hneg|(Hr & H10 & H13)].
    { rewrite (proj2 (Z.ltb_lt c 0)) in * by done. subst. cbn [app]. by apply IH. }
    rewrite (proj2 (Z.ltb_ge c 0)) in * by lia. apply Z.eqb_neq in H10 as ->. apply Z.eqb_neq in H13 as ->. cbn [orb].
    destruct (Z.eqb_spec c 8) as [->|H8].
    + destruct Hy as [T1 T2 T3 T4] eqn:Ey. rewrite T1. destruct l as [|a l].
      { subst. cbn [length Z.of_nat Z.ltb Z.compare app take Nat.sub]. by apply IH. }
      subst l1 es eu.
      destruct (Z.ltb_spec 0 (Z.of_nat (length (a :: l)))); [|cbn in *; lia].
      pose proof (typed_rub _ _ Hy ltac:(done)) as Hy1. rewrite T1 in Hy1.
      destruct (rub_tty t u (set_line (line_buf x) (Z.of_nat (length (a :: l)) - 1) x)) as (x1 & -> & Ht1 & Hs1); [by destruct Ht; split|].
      cbn [mbind option_bind].
      destruct (IH _ _ _ _ Ht1 (typed_tty _ _ _ Hy1 Hs1) Hk He) as (x2 & E & HL & Hm & Hn & Hw & Ht2). exists x2.
      split_and!; [exact E|exact HL|exact Hm|exact Hn| |]; [by rewrite Hs1 in Hw|].
      rewrite !foldl_app in *. rewrite <-!app_assoc in *. exact Ht2.
    + destruct Hy as [T1 T2 T3 T4] eqn:Ey. rewrite T1. case_decide as Hl; subst l1 es eu.
      * destruct (Z.ltb_spec (Z.of_nat (length l)) (SHELL_LINE_MAX - 1)) as [_|]; [|unfold SHELL_LINE_MAX in *; lia].
        rewrite aset_Some by (unfold SHELL_LINE_MAX; lia). cbn [mbind option_bind]. rewrite (u8_small c) by lia.
        pose proof (typed_key _ _ c Hy Hr Hl) as Hy1. rewrite T1 in Hy1.
        edestruct (putchar_tty t u (set_line (upd (line_buf x) (Z.of_nat (length l)) c) (Z.of_nat (length l) + 1) x) c)
          as (x1 & -> & Ht1 & Hs1); [by destruct Ht; split|lia|]. cbn [mbind option_bind].
        destruct (IH _ _ _ _ Ht1 (typed_tty _ _ _ Hy1 Hs1) Hk He) as (x2 & E & HL & Hm & Hn & Hw & Ht2). exists x2.
        split_and!; [exact E|exact HL|exact Hm|exact Hn| |]; [by rewrite Hs1 in Hw|].
        rewrite !foldl_app in *. rewrite <-!app_assoc in *. exact Ht2.
      * destruct (Z.ltb_spec (Z.of_nat (length l)) (SHELL_LINE_MAX - 1)) as [?|_]; [unfold SHELL_LINE_MAX in *; lia|].
        cbn [app]. by apply IH.
Qed.
End output.

Lemma words_length w l : Forall (λ v, length v ≤ length w + length l)%nat (words_from w l).
Proof.
  revert w. induction l as [|c l IH]; intros w; cbn [words_from length].
  - destruct w; [constructor|]. constructor; [lia|constructor].
  - destruct (c =? 32).
    + assert (Forall (λ v, length v ≤ length w + S (length l))%nat (words_from [] l)) as Hl.
      { eapply Forall_impl; [apply IH|]. cbn. intros v Hv. lia. }
      destruct w; [exact Hl|]. constructor; [lia|exact Hl].
    + eapply Forall_impl; [apply IH|]. intros v Hv. rewrite length_app in Hv. cbn in Hv. lia.
Qed.

Lemma words_nonempty w l : Forall (λ v, v ≠ []) (words_from w l).
Proof.
  revert w. induction l as [|c l IH]; intros w; cbn [words_from].
  - destruct w; repeat constructor; done.
  - destruct (c =? 32); [|apply IH]. destruct w; [apply IH|]. constructor; [done|apply IH].
Qed.
