(* ===== verification/ShellProps.v ===== *)
(** The commands of kernel/shell/shell.c: what each prints, on the screen and
    over the serial line, and a whole round of the shell. *)
From Stdlib Require Import String.
From stdpp Require Import prelude gmap.
From S2P Require Import Prelude CString FrameAlloc Pmm Vmm Heap Sched Vfs Net Printf PrintfProps Ports Syscall Rtc Ata Console ConsoleProps Pci VmmProps SyscallProps NetProps VfsDir VfsPath VfsProps Shell ShellLine.

(** ** Reference *)

(** What goes to the screen and over the serial line. *)
Definition output : Type := list Z * list Z.
Definition both (l : list Z) : output := (l, l).
Definition and_then (o1 o2 : output) : output := (o1.1 ++ o2.1, o1.2 ++ o2.2).

(** What is printed of a line through an array of [size] bytes. *)
Definition fit (size : Z) (l : list Z) : list Z := take (Z.to_nat (size - 1)) l.

Definition dec (v : Z) : list Z := number_text false 10 v 0 false.
Definition hex (width v : Z) : list Z := number_text false 16 v width true.

Definition help_text : list Z := mjoin
  [text "Commands:"; text "  help         this message"; text "  clear        clear screen";
   text "  meminfo      physical memory stats"; text "  heapinfo     kernel heap stats";
   text "  ps           list tasks"; text "  ls [path]    list directory"; text "  cat <path>   print file contents";
   text "  echo <...>   print arguments"; text "  uptime       milliseconds since boot";
   text "  rtc          show current RTC date/time"; text "  lspci        list PCI devices";
   text "  diskinfo     list block devices"; text "  netinfo      list network devices";
   text "  devinfo      hardware summary"; text "  halt         halt the system"; text "  reboot       reboot the system"].

(** Megabytes of a number of bytes. *)
Definition mb (n : Z) : Z := u64 n / 2 ^ 20.

Definition meminfo_line (p : pmm) : list Z :=
  fit 64 (bytes "Physical: " ++ dec (mb (pmm_free_pages p * 4096)) ++ bytes " MB free / "
          ++ dec (mb (pmm_total_pages p * 4096)) ++ text " MB total").

Definition uptime_line (ticks : Z) : list Z :=
  fit 64 (bytes "Uptime: " ++ dec (u64 ticks) ++ bytes " ms (" ++ dec (u64 (ticks / 1000)) ++ text " sec)").

Definition disk_line (b : block_device) : list Z :=
  fit 80 (bytes "  " ++ bd_name b ++ bytes ": " ++ dec (u64 (bd_sector_count b)) ++ bytes " sectors x "
          ++ dec (u32 (bd_sector_size b)) ++ bytes " bytes = " ++ dec (mb (bd_sector_count b * bd_sector_size b)) ++ bytes " MB"
          ++ (if bd_read_only b then bytes " [ro]" else []) ++ [10]).

Definition mac_text (m : list Z) : list Z :=
  match m with
  | [a; b; c; d; e; f] =>
      hex 2 (u32 a) ++ 58 :: hex 2 (u32 b) ++ 58 :: hex 2 (u32 c) ++ 58 :: hex 2 (u32 d) ++ 58 :: hex 2 (u32 e) ++ 58 :: hex 2 (u32 f)
  | _ => []
  end.

Definition netdev_line (n : net_device) : list Z :=
  fit 80 (bytes "  " ++ d_name n ++ bytes "  MAC " ++ mac_text (d_mac n) ++ bytes "  "
          ++ (if d_up n then bytes "UP" else bytes "DOWN") ++ [10]).

Definition pci_line (d : pci_device) : list Z :=
  fit 96 (hex 2 (u32 (bus d)) ++ 58 :: hex 2 (u32 (device d)) ++ 46 :: dec (u32 (function d)) ++ bytes "  "
          ++ hex 4 (u32 (vendor_id d)) ++ 58 :: hex 4 (u32 (device_id d)) ++ bytes "  ["
          ++ hex 2 (u32 (class_code d)) ++ 58 :: hex 2 (u32 (subclass d)) ++ 58 :: hex 2 (u32 (prog_if d)) ++ bytes "]  "
          ++ pci_class_name (class_code d) (subclass d) ++ [10]).

Definition meminfo_out (p : pmm) : output := both (meminfo_line p).

Definition disks_out (l : list block_device) : output :=
  both (match l with [] => text "No block devices registered" | _ => mjoin (disk_line <$> l) end).

Definition netdevs_out (l : list net_device) : output :=
  both (match l with [] => text "No network devices" | _ => mjoin (netdev_line <$> l) end).

(** That there is no PCI device is only said over the serial line. *)
Definition pci_out (l : list pci_device) : output :=
  match l with [] => ([], text "No PCI devices found") | _ => both (mjoin (pci_line <$> l)) end.

Definition devinfo_out (p : pmm) (ds : list pci_device) (bs : list block_device) (ns : list net_device) : output :=
  and_then (both (text "=== DEV-OS Hardware Summary ==="))
    (and_then (meminfo_out p) (and_then (pci_out ds) (and_then (disks_out bs) (netdevs_out ns)))).

(** What a line makes the shell do: print, clear the screen, or stop. *)
Inductive reply := Shows (o : output) | Clears | Stops.

Section reference.
Context {D : Type}.
Implicit Types (x : shell D).

Definition sh_pmm x : pmm := vm_alloc (hp_vm (k_heap (sh_kern x))).

(** The devices the drivers found. *)
Definition pci_found x (l : list pci_device) : Prop :=
  sh_pci_count x = Z.of_nat (length l) ∧ ∀ i d, l !! i = Some d → sh_pci x (Z.of_nat i) = d.

Definition disks_found x (l : list block_device) : Prop :=
  blkdev_cnt (sh_blk x) = Z.of_nat (length l) ∧ (length l ≤ 16)%nat
  ∧ ∀ i b, l !! i = Some b → bd_store (sh_blk x) !! blkdevs (sh_blk x) (Z.of_nat i) = Some b ∧ str_ok (bd_name b).

Definition netdevs_found x (l : list net_device) : Prop :=
  dev_cnt (sh_net x) = Z.of_nat (length l) ∧ Z.of_nat (length l) ≤ NETDEV_MAX
  ∧ ∀ i n, l !! i = Some n →
      nt_devices (sh_net x) !! devs (sh_net x) (Z.of_nat i) = Some n ∧ str_ok (d_name n) ∧ length (d_mac n) = 6%nat.

(** The root file system is mounted, with the entries [l]. *)
Definition root_dir x (root : Z) (l : entries) : Prop :=
  mounted (k_fs (sh_kern x)) root ∧ dir_rep (k_fs (sh_kern x)) root l
  ∧ ∃ d, fs_nodes (k_fs (sh_kern x)) !! root = Some d ∧ Z.land (vn_flags d) VFS_TYPE_DIR ≠ 0.

(** The replies to the words of a line. *)
Inductive answer x : list (list Z) → reply → Prop :=
  | answer_empty : answer x [] (Shows (both []))
  | answer_help args : answer x (bytes "help" :: args) (Shows (both help_text))
  | answer_clear args : answer x (bytes "clear" :: args) Clears
  | answer_meminfo args : answer x (bytes "meminfo" :: args) (Shows (meminfo_out (sh_pmm x)))
  | answer_ls args root l :
      root_dir x root l → args = [] ∨ head args = Some [47] →
      answer x (bytes "ls" :: args) (Shows (both (mjoin ((λ e, take 255 e.1 ++ [10]) <$> l))))
  | answer_ls_missing p args root :
      mounted (k_fs (sh_kern x)) root → p ≠ [47] → answer x (bytes "ls" :: p :: args) (Shows (both (text "ls: not found")))
  | answer_cat : answer x [bytes "cat"] (Shows (both (text "cat: path required")))
  | answer_cat_missing p args root :
      mounted (k_fs (sh_kern x)) root → p ≠ [47] → answer x (bytes "cat" :: p :: args) (Shows (both (text "cat: cannot open file")))
  | answer_echo args : answer x (bytes "echo" :: args) (Shows (both (joined (take 15 args) ++ [10])))
  | answer_uptime args : answer x (bytes "uptime" :: args) (Shows (both (uptime_line (tick_count (sh_kern x)))))
  | answer_lspci args ds : pci_found x ds → answer x (bytes "lspci" :: args) (Shows (pci_out ds))
  | answer_diskinfo args bs : disks_found x bs → answer x (bytes "diskinfo" :: args) (Shows (disks_out bs))
  | answer_netinfo args ns : netdevs_found x ns → answer x (bytes "netinfo" :: args) (Shows (netdevs_out ns))
  | answer_devinfo args ds bs ns :
      pci_found x ds → disks_found x bs → netdevs_found x ns →
      answer x (bytes "devinfo" :: args) (Shows (devinfo_out (sh_pmm x) ds bs ns))
  | answer_halt args : answer x (bytes "halt" :: args) Stops
  | answer_unknown w args :
      w ∉ fst <$> command_names → answer x (w :: args) (Shows (both (w ++ text ": command not found"))).
End reference.

Section output.
Context {D : Type} `{Uart D} (color : Z) (fuel : nat).
Implicit Types (x : shell D) (t : term) (u : list Z).

Abbreviation tty := (tty_is color fuel).

(** The devices and the frames are as before. *)
Definition same_devs x x' : Prop :=
  sh_pci x' = sh_pci x ∧ sh_pci_count x' = sh_pci_count x ∧ sh_blk x' = sh_blk x ∧ sh_net x' = sh_net x ∧ sh_pmm x' = sh_pmm x.

Lemma tty_devs x x' : same_but_tty x x' → same_devs x x'.
Proof. intros E. unfold same_devs, sh_pmm. by rewrite E. Qed.

(** [e] prints [o]. *)
Definition prints x (o : output) (e : option (shell D)) : Prop :=
  ∀ t u, tty t u x → ∃ x', e = Some x' ∧ tty (foldl (feed color) t o.1) (u ++ o.2) x' ∧ same_devs x x'.

Lemma prints_none x : prints x (both []) (Some x).
Proof. intros t u Ht. exists x. cbn. rewrite app_nil_r. split_and!; done. Qed.

Lemma prints_bind x o1 o2 e f :
  prints x o1 e → (∀ x', same_devs x x' → prints x' o2 (f x')) → prints x (and_then o1 o2) (e ≫= f).
Proof.
  intros H1 H2 t u Ht. destruct (H1 t u Ht) as (x1 & -> & Ht1 & Hs1). destruct (H2 x1 Hs1 _ _ Ht1) as (x2 & E2 & Ht2 & Hs2).
  exists x2. split_and!; [exact E2| |unfold same_devs in *; intuition congruence..]. cbn [and_then fst snd].
  by rewrite foldl_app, app_assoc.
Qed.

Lemma prints_both_app x a b e : prints x (and_then (both a) (both b)) e → prints x (both (a ++ b)) e.
Proof. done. Qed.

Lemma prints_str x s l : cstr s l → (length l < fuel)%nat → prints x (both l) (shell_print fuel s x).
Proof.
  intros Hc Hl t u Ht. destruct (print_tty color fuel t u x s l Ht Hc Hl) as (x' & E & Ht' & Hs).
  exists x'. split_and!; [done|done|by apply tty_devs..].
Qed.

Lemma prints_lit x l : str_ok l → (length l < fuel)%nat → prints x (both l) (shell_print fuel (lit l) x).
Proof. intros Hl. apply prints_str. by apply cstr_lit. Qed.

(** A line through an array. *)
Lemma snprintf_str buf size fmt args s m :
  buf ≠ 0 → 0 < size < 2 ^ 31 → format (S (length fmt)) fmt args = Some s → str_ok (fit size s) →
  ∃ r m', ksnprintf buf size fmt args m = Some (r, m') ∧ cstr (at_ptr m' buf) (fit size s).
Proof.
  intros Hb Hs Ef Hok. pose proof (kvsnprintf_spec buf size fmt args m Hb Hs) as Hk. rewrite Ef in Hk. cbv zeta in Hk.
  destruct Hk as (m' & E & Hc & Hz & _). eexists _, m'. split; [exact E|].
  assert (u8 <$> fit size s = fit size s) as Eu.
  { apply list_eq. intros i. rewrite list_lookup_fmap. destruct (fit size s !! i) as [c|] eqn:Ei; [|done]. cbn.
    pose proof (Forall_lookup_1 _ _ _ _ Hok Ei) as Hr. cbn in Hr. by rewrite u8_small by lia. }
  fold (fit size s) in Hc, Hz. rewrite Eu in Hc, Hz. split; [|exact Hz].
  intros i c Hi. split; [by apply Hc|exact (Forall_lookup_1 _ _ _ _ Hok Hi)].
Qed.

Lemma fit_length size l : 0 < size → (length (fit size l) < Z.to_nat size)%nat.
Proof. intros Hs. unfold fit. rewrite length_take. lia. Qed.

Lemma mem_tty t u m x : tty t u x → tty t u (set_shmem m x).
Proof. by intros [H1 H2 H3]; split. Qed.

Lemma prints_fmt x buf size fmt args s :
  buf ≠ 0 → 0 < size ≤ 96 → (96 < fuel)%nat → format (S (length fmt)) fmt args = Some s → str_ok (fit size s) →
  prints x (both (fit size s)) (print_fmt fuel buf size fmt args x).
Proof.
  intros Hb Hs Hf Ef Hok t u Ht. unfold print_fmt. pose proof (fit_length size s ltac:(lia)).
  destruct (snprintf_str buf size fmt args s (sh_mem x) Hb ltac:(lia) Ef Hok) as (r & m & -> & Hc). cbn [mbind option_bind].
  destruct (prints_str (set_shmem m x) _ _ Hc ltac:(lia) t u (mem_tty _ _ _ _ Ht)) as (x' & E & Ht' & Hs').
  exists x'. split_and!; [exact E|exact Ht'|apply Hs'..].
Qed.

(** ** Lines *)

Lemma number_text_ok base v width pad :
  base = 10 ∨ base = 16 → 0 ≤ v < 2 ^ 64 → str_ok (number_text false base v width pad).
Proof.
  intros Hb Hv. unfold number_text. apply Forall_app. split.
  - apply Forall_replicate. destruct pad; lia.
  - apply Forall_fmap. eapply Forall_impl; [apply (number_ok base v); [lia|done]|]. cbn. intros d Hd.
    unfold digit. destruct (d <? 10); lia.
Qed.

Lemma mb_range n : 0 ≤ mb n < 2 ^ 64.
Proof. unfold mb. pose proof (u64_range n). Z.to_euclidean_division_equations. lia. Qed.

Lemma u64_mb n : u64 (Z.shiftr (u64 n) 20) = mb n.
Proof. rewrite Z.shiftr_div_pow2 by lia. apply u64_small, mb_range. Qed.

Lemma u32_range64 v : 0 ≤ u32 v < 2 ^ 64.
Proof. unfold u32. pose proof (Z.mod_pos_bound v (2 ^ 32)). lia. Qed.

Ltac str_ok_line :=
  unfold fit, dec, hex, text; apply Forall_take;
  repeat first
    [ apply number_text_ok; [by auto|by auto using u64_range, mb_range, u32_range64]
    | apply Forall_app; split
    | assumption
    | solve [cbn; repeat constructor; lia]
    | apply Forall_cons; split; [lia|] ].

(** Evaluates a format up to its numbers. *)
Ltac format_line :=
  lazy -[number_text u64 u32 mb Z.shiftr Z.mul Z.div pmm_free_pages pmm_total_pages bd_name bd_sector_count bd_sector_size d_name bus device
         function vendor_id device_id class_code subclass prog_if pci_class_name].

Lemma meminfo_prints x buf : buf ≠ 0 → (96 < fuel)%nat → prints x (meminfo_out (sh_pmm x)) (cmd_meminfo fuel buf x).
Proof.
  intros Hb Hf. unfold cmd_meminfo. apply prints_fmt; [done|lia|done| |str_ok_line].
  rewrite <-!u64_mb. format_line. reflexivity.
Qed.

Lemma uptime_prints x buf :
  buf ≠ 0 → (96 < fuel)%nat → prints x (both (uptime_line (tick_count (sh_kern x)))) (cmd_uptime fuel buf x).
Proof.
  intros Hb Hf. unfold cmd_uptime. apply prints_fmt; [done|lia|done| |str_ok_line]. format_line. reflexivity.
Qed.

Lemma and_then_nil o : and_then o (both []) = o.
Proof. destruct o. unfold and_then. cbn. by rewrite !app_nil_r. Qed.

(** The lists of devices. *)

Lemma disk_prints x buf b :
  buf ≠ 0 → (96 < fuel)%nat → str_ok (bd_name b) →
  prints x (both (disk_line b))
    (print_fmt fuel buf 80 (text "  %s: %llu sectors x %u bytes = %llu MB%s")
       [VStr (Some (bd_name b)); VInt (bd_sector_count b); VInt (bd_sector_size b);
        VInt (Z.shiftr (u64 (bd_sector_count b * bd_sector_size b)) 20);
        VStr (Some (if bd_read_only b then bytes " [ro]" else []))] x).
Proof.
  intros Hb Hf Hn. apply prints_fmt; [done|lia|done| |destruct (bd_read_only b); str_ok_line].
  rewrite <-!u64_mb. destruct (bd_read_only b); format_line; reflexivity.
Qed.

Lemma blk_loop_prints x buf l n i :
  buf ≠ 0 → (96 < fuel)%nat → disks_found x l → (i + n = length l)%nat →
  prints x (both (mjoin (disk_line <$> drop i l))) (blk_print_loop fuel n (Z.of_nat i) buf x).
Proof.
  intros Hb Hf. revert x i. induction n as [|n IH]; intros x i Hl Hi; cbn [blk_print_loop].
  { rewrite drop_ge by lia. apply prints_none. }
  destruct (lookup_lt_is_Some_2 l i) as [b Hbi]; [lia|]. destruct Hl as (Hc & H16 & Hd). destruct (Hd i b Hbi) as [Es Hn].
  rewrite aget_Some by (unfold BLKDEV_MAX; lia). cbn [mbind option_bind]. rewrite Es. cbn [mbind option_bind].
  rewrite (drop_S _ _ _ Hbi). cbn [fmap list_fmap mjoin list_join]. apply prints_both_app, prints_bind; [by apply disk_prints|].
  intros x' (_ & _ & Eb & _). replace (Z.of_nat i + 1) with (Z.of_nat (S i)) by lia. apply IH; [|lia].
  unfold disks_found. rewrite Eb. done.
Qed.

Lemma diskinfo_prints x buf l :
  buf ≠ 0 → (96 < fuel)%nat → disks_found x l → prints x (disks_out l) (cmd_diskinfo fuel buf x).
Proof.
  intros Hb Hf Hl. unfold cmd_diskinfo, blkdev_print_all. pose proof (proj1 Hl) as Hc. rewrite Hc. destruct l as [|b l].
  - apply prints_lit; [cbn; repeat constructor; lia|cbn; lia].
  - rewrite (proj2 (Z.eqb_neq _ _)) by (cbn; lia). rewrite Nat2Z.id. exact (blk_loop_prints x buf (b :: l) _ 0 Hb Hf Hl eq_refl).
Qed.

Lemma netdev_prints x buf n :
  buf ≠ 0 → (96 < fuel)%nat → str_ok (d_name n) → length (d_mac n) = 6%nat →
  prints x (both (netdev_line n))
    (print_fmt fuel buf 80 (text "  %s  MAC %02x:%02x:%02x:%02x:%02x:%02x  %s")
       (VStr (Some (d_name n)) :: (VInt <$> take 6 (d_mac n)) ++ [VStr (Some (if d_up n then bytes "UP" else bytes "DOWN"))]) x).
Proof.
  intros Hb Hf Hn Hm. unfold netdev_line. destruct (d_mac n) as [|a [|b [|c [|d [|e [|f [|]]]]]]]; try done. cbn [mac_text].
  repeat (rewrite <-app_assoc; cbn [app]).
  apply prints_fmt; [done|lia|done| |destruct (d_up n); str_ok_line]. destruct (d_up n); format_line; reflexivity.
Qed.

Lemma net_loop_prints x buf l n i :
  buf ≠ 0 → (96 < fuel)%nat → netdevs_found x l → (i + n = length l)%nat →
  prints x (both (mjoin (netdev_line <$> drop i l))) (net_print_loop fuel n (Z.of_nat i) buf x).
Proof.
  intros Hb Hf. revert x i. induction n as [|n IH]; intros x i Hl Hi; cbn [net_print_loop].
  { rewrite drop_ge by lia. apply prints_none. }
  destruct (lookup_lt_is_Some_2 l i) as [b Hbi]; [lia|]. destruct Hl as (Hc & H16 & Hd). destruct (Hd i b Hbi) as (Es & Hn & Hm).
  rewrite aget_Some by lia. cbn [mbind option_bind]. rewrite Es. cbn [mbind option_bind].
  rewrite (drop_S _ _ _ Hbi). cbn [fmap list_fmap mjoin list_join]. apply prints_both_app, prints_bind; [by apply netdev_prints|].
  intros x' (_ & _ & _ & Eb & _). replace (Z.of_nat i + 1) with (Z.of_nat (S i)) by lia. apply IH; [|lia].
  unfold netdevs_found. rewrite Eb. done.
Qed.

Lemma netinfo_prints x buf l :
  buf ≠ 0 → (96 < fuel)%nat → netdevs_found x l → prints x (netdevs_out l) (cmd_netinfo fuel buf x).
Proof.
  intros Hb Hf Hl. unfold cmd_netinfo, netdev_print_all. pose proof (proj1 Hl) as Hc. rewrite Hc. destruct l as [|b l].
  - apply prints_lit; [cbn; repeat constructor; lia|cbn; lia].
  - rewrite (proj2 (Z.eqb_neq _ _)) by (cbn; lia). rewrite Nat2Z.id. exact (net_loop_prints x buf (b :: l) _ 0 Hb Hf Hl eq_refl).
Qed.

Lemma class_name_ok c s : str_ok (pci_class_name c s).
Proof. unfold pci_class_name. repeat case_match; cbn; repeat constructor; lia. Qed.

Lemma pci_prints x buf d :
  buf ≠ 0 → (96 < fuel)%nat → prints x (both (pci_line d)) (print_fmt fuel buf 96 lspci_format (lspci_args d) x).
Proof.
  intros Hb Hf. pose proof (class_name_ok (class_code d) (subclass d)). apply prints_fmt; [done|lia|done| |str_ok_line].
  format_line. reflexivity.
Qed.

Lemma pci_loop_prints x buf l n i :
  buf ≠ 0 → (96 < fuel)%nat → pci_found x l → (i + n = length l)%nat →
  prints x (both (mjoin (pci_line <$> drop i l)))
    ('(m, v, d) ← print_loop fuel n (Z.of_nat i) buf (sh_pci x) (sh_mem x) (sh_vga x) (sh_dev x); Some (set_tty v d (set_shmem m x))).
Proof.
  intros Hb Hf. revert x i. induction n as [|n IH]; intros x i Hl Hi; cbn [print_loop].
  { rewrite drop_ge by lia. intros t u Ht. eexists. split; [reflexivity|]. cbn. rewrite app_nil_r.
    split_and!; [by destruct Ht; split|done..]. }
  destruct (lookup_lt_is_Some_2 l i) as [d Hd]; [lia|]. rewrite (proj2 Hl i d Hd). intros t u Ht.
  destruct (pci_prints x buf d Hb Hf t u Ht) as (x1 & E & Ht1 & Hs1). unfold print_fmt, shell_print in E.
  destruct (ksnprintf _ _ _ _ _) as [[r m]|]; [|done]. cbn [mbind option_bind] in *.
  change (sh_vga (set_shmem m x)) with (sh_vga x) in E. change (sh_dev (set_shmem m x)) with (sh_dev x) in E.
  destruct (vga_puts _ _ _) as [v1|]; [|done]. cbn [mbind option_bind] in *.
  destruct (serial_puts _ _ _) as [d1|]; [|done]. cbn [mbind option_bind] in *. apply (inj Some) in E.
  destruct (IH x1 (S i)) with (t := foldl (feed color) t (pci_line d)) (u := u ++ pci_line d) as (x2 & E2 & Ht2 & Hs2);
    [subst x1; exact Hl|lia|exact Ht1|]. exists x2. subst x1. replace (Z.of_nat i + 1) with (Z.of_nat (S i)) by lia.
  split_and!; [exact E2| |apply Hs2..]. rewrite (drop_S _ _ _ Hd). cbn [fmap list_fmap mjoin list_join both fst snd] in *.
  by rewrite foldl_app, app_assoc.
Qed.

Lemma serial_tty t u x l :
  tty t u x → str_ok l → (length l < fuel)%nat →
  ∃ d, serial_puts fuel (lit l) (sh_dev x) = Some d ∧ tty t (u ++ l) (set_tty (sh_vga x) d x).
Proof.
  intros [Hs Hl Hu] Hc Hf. unfold serial_puts.
  destruct (puts_loop_spec (λ pre d, line_ready fuel d ∧ uart_sent d = u ++ pre) (serial_putchar fuel) l (lit l) 0 [] (sh_dev x) fuel)
    as (d & -> & Hd & Hu'); [|by apply cstr_lit|by rewrite app_nil_r|done|by exists d; split].
  intros c pre d Hr [Hd Eu]. destruct (serial_putchar_sent fuel c d Hd) as (d1 & -> & Hd1 & E1); [lia|].
  exists d1. split_and!; [done|done|]. by rewrite E1, Eu, app_assoc.
Qed.

Lemma lspci_prints x buf l :
  buf ≠ 0 → (96 < fuel)%nat → pci_found x l → prints x (pci_out l) (cmd_lspci fuel buf x).
Proof.
  intros Hb Hf Hl. pose proof (proj1 Hl) as Hc. unfold cmd_lspci, pci_print_devices. cbn [pci_device_count pci_devices pc_dev].
  rewrite Hc. destruct l as [|d l].
  - cbn [length Z.of_nat Z.eqb]. intros t u Ht.
    destruct (serial_tty t u x (text "No PCI devices found") Ht) as (d & E & Ht'); [cbn; repeat constructor; lia|cbn; lia|].
    fold (text "No PCI devices found"). rewrite E. cbn [mbind option_bind]. eexists. split; [reflexivity|].
    split_and!; [by destruct Ht'; split|done..].
  - rewrite (proj2 (Z.eqb_neq _ _)) by (cbn; lia). rewrite Nat2Z.id. intros t u Ht.
    destruct (pci_loop_prints x buf (d :: l) _ 0 Hb Hf Hl eq_refl t u Ht) as (x' & E & Ht' & Hs').
    change (Z.of_nat 0) with 0 in E. destruct (print_loop _ _ _ _ _ _ _ _) as [[[m v] dv]|]; [|done]. cbn [mbind option_bind] in *.
    apply (inj Some) in E. exists x'. split_and!; [by subst x'|exact Ht'|apply Hs'..].
Qed.

Lemma devinfo_prints x buf ds bs ns :
  buf ≠ 0 → (96 < fuel)%nat → pci_found x ds → disks_found x bs → netdevs_found x ns →
  prints x (devinfo_out (sh_pmm x) ds bs ns) (cmd_devinfo fuel buf x).
Proof.
  intros Hb Hf Hd Hbs Hns. unfold cmd_devinfo, devinfo_out. apply prints_bind.
  { apply prints_lit; [cbn; repeat constructor; lia|cbn; lia]. }
  intros x1 (E1 & E2 & E3 & E4 & <-). apply prints_bind; [by apply meminfo_prints|]. intros x2 (F1 & F2 & F3 & F4 & _).
  apply prints_bind; [apply lspci_prints; [done|done|unfold pci_found; by rewrite F1, F2, E1, E2]|]. intros x3 (G1 & G2 & G3 & G4 & _).
  apply prints_bind; [apply diskinfo_prints; [done|done|unfold disks_found; by rewrite G3, F3, E3]|]. intros x4 (_ & _ & _ & I4 & _).
  apply netinfo_prints; [done|done|]. unfold netdevs_found. by rewrite I4, G4, F4, E4.
Qed.

Lemma lines_print l x :
  Forall (λ s, str_ok s ∧ (length s < fuel)%nat) l → prints x (both (mjoin l)) (print_lines fuel l x).
Proof.
  unfold print_lines. induction l as [|s l IH] using rev_ind; [intros; apply prints_none|].
  intros [Hl [[Hs Hn] _]%Forall_cons]%Forall_app. rewrite foldl_app. cbn [foldl].
  assert (mjoin (l ++ [s]) = mjoin l ++ s) as ->.
  { clear. induction l as [|a l IH]; [by cbn; rewrite app_nil_r|].
    change (mjoin ((a :: l) ++ [s])) with (a ++ mjoin (l ++ [s])). by rewrite IH, app_assoc. }
  apply prints_both_app, prints_bind; [by apply IH|]. intros x' _. by apply prints_lit.
Qed.

Lemma help_prints x : (96 < fuel)%nat → prints x (both help_text) (cmd_help fuel x).
Proof.
  intros Hf. apply lines_print. repeat (apply Forall_cons; split; [split; [cbn; repeat constructor; lia|cbn; lia]|]). constructor.
Qed.

(** ** Commands *)

Lemma echo_rest ws : ws ≠ [] → joined ws = hd [] ws ++ mjoin ((λ w, 32 :: w) <$> tail ws).
Proof.
  induction ws as [|w ws IH]; [done|]. intros _. destruct ws as [|w' ws]; [cbn; by rewrite app_nil_r|].
  change (joined (w :: w' :: ws)) with (w ++ 32 :: joined (w' :: ws)). rewrite IH by done. done.
Qed.

Lemma echo_loop_spec argv ws t u x :
  tty t u x → Forall2 (λ q w, 0 ≤ q ∧ line_at (line_buf x) q w) argv ws → Forall (λ w, length w < fuel)%nat ws →
  ∃ x', echo_loop fuel false argv x = Some x' ∧ same_but_tty x x'
    ∧ let o := mjoin ((λ w, 32 :: w) <$> ws) in tty (foldl (feed color) t o) (u ++ o) x'.
Proof.
  revert ws t u x. induction argv as [|q argv IH]; intros ws t u x Ht HF Hl; cbn [echo_loop].
  - apply Forall2_nil_inv_l in HF as ->. exists x. split_and!; [done|unfold same_but_tty; by destruct x|]. cbn. by rewrite app_nil_r.
  - apply Forall2_cons_inv_l in HF as (w & ws' & [Hq Hw] & HF & ->). apply Forall_cons in Hl as [Hlw Hl].
    destruct (putchar_tty color fuel t u x 32 Ht) as (x1 & -> & Ht1 & Hs1); [lia|]. cbn [mbind option_bind].
    assert (line_buf x1 = line_buf x) as Eb1 by (by rewrite Hs1).
    destruct (print_tty color fuel _ _ x1 (arg q x1) w Ht1) as (x2 & -> & Ht2 & Hs2); [unfold arg; rewrite Eb1; exact Hw|done|]. cbn [mbind option_bind].
    assert (line_buf x2 = line_buf x) as Eb2 by (by rewrite Hs2, <-Eb1).
    destruct (IH ws' _ _ x2 Ht2) as (x3 & -> & Hs3 & Ht3); [by rewrite Eb2|done|]. exists x3. split; [done|].
    split; [by eauto using same_trans|]. cbn [fmap list_fmap mjoin list_join app]. cbn [foldl]. rewrite foldl_app. cbv zeta in Ht3.
    by rewrite <-!app_assoc in Ht3.
Qed.

Lemma cmd_echo_spec q0 w0 argv ws t u x :
  tty t u x → Forall2 (λ q w, 0 ≤ q ∧ line_at (line_buf x) q w) (q0 :: argv) (w0 :: ws) → Forall (λ w, length w < fuel)%nat ws →
  ∃ x', cmd_echo fuel (q0 :: argv) x = Some x' ∧ tty (foldl (feed color) t (joined ws ++ [10])) (u ++ joined ws ++ [10]) x'.
Proof.
  intros Ht HF Hl. apply Forall2_cons in HF as [_ HF]. unfold cmd_echo. cbn [tail].
  assert (∃ x1, echo_loop fuel true argv x = Some x1 ∧ tty (foldl (feed color) t (joined ws)) (u ++ joined ws) x1) as (x1 & -> & Ht1).
  { destruct argv as [|q argv].
    - apply Forall2_nil_inv_l in HF as ->. exists x. split; [done|]. cbn. by rewrite app_nil_r.
    - apply Forall2_cons_inv_l in HF as (w & ws' & [Hq Hw] & HF & ->). apply Forall_cons in Hl as [Hlw Hl]. cbn [echo_loop mbind option_bind].
      destruct (print_tty color fuel _ _ x (arg q x) w Ht Hw Hlw) as (x1 & -> & Ht1 & Hs1). cbn [mbind option_bind].
      destruct (echo_loop_spec argv ws' _ _ x1 Ht1) as (x2 & -> & _ & Ht2); [by rewrite Hs1|done|]. exists x2. split; [done|].
      rewrite echo_rest by done. cbn [hd tail]. rewrite foldl_app. cbv zeta in Ht2. by rewrite <-app_assoc in Ht2. }
  cbn [mbind option_bind]. destruct (putchar_tty color fuel _ _ x1 10 Ht1) as (x2 & -> & Ht2 & _); [lia|]. exists x2. split; [done|].
  rewrite foldl_app. by rewrite <-app_assoc in Ht2.
Qed.

(** ** Files *)

Lemma ls_loop_prints n i root l t u x :
  (280 < fuel)%nat → dir_rep (k_fs (sh_kern x)) root l → tty t u x → (i ≤ length l < i + n)%nat →
  let o := mjoin ((λ e, take 255 e.1 ++ [10]) <$> drop i l) in
  ∃ x', ls_loop fuel n (Z.of_nat i) root x = Some x' ∧ tty (foldl (feed color) t o) (u ++ o) x'.
Proof.
  intros Hf. revert i t u x. induction n as [|n IH]; intros i t u x Hr Ht Hi; cbn [ls_loop]; [lia|].
  rewrite (ramfs_readdir_spec _ root l) by (done || lia). rewrite Nat2Z.id. cbn [mbind option_bind].
  destruct (l !! i) as [[nm c]|] eqn:Ei.
  - cbn [Z.eqb negb]. rewrite (drop_S _ _ _ Ei). cbn [fmap list_fmap mjoin list_join fst].
    assert (str_ok nm) as Hn by (apply (dr_entry _ _ _ Hr nm c); by eapply list_elem_of_lookup_2).
    destruct (print_tty color fuel t u x (lit (take 255 nm)) (take 255 nm) Ht) as (x1 & -> & Ht1 & Hs1);
      [by apply cstr_lit, Forall_take|rewrite length_take; lia|]. cbn [mbind option_bind].
    destruct (putchar_tty color fuel _ _ x1 10 Ht1) as (x2 & -> & Ht2 & Hs2); [lia|]. cbn [mbind option_bind].
    replace (Z.of_nat i + 1) with (Z.of_nat (S i)) by lia. apply lookup_lt_Some in Ei.
    destruct (IH (S i) _ _ x2 ltac:(by rewrite Hs2, Hs1) Ht2 ltac:(lia)) as (x3 & E3 & Ht3). exists x3. split; [exact E3|].
    rewrite !foldl_app. rewrite <-!app_assoc in *. exact Ht3.
  - apply lookup_ge_None in Ei. rewrite drop_ge by lia. exists x. cbn. by rewrite app_nil_r.
Qed.

Lemma str_bytes_spec n s l : cstr s l → (length l < n)%nat → str_bytes n s 0 = Some l.
Proof.
  intros Hc Hl. assert (∀ k i, cstr (λ j, s (i + j)) k → (length k < n)%nat → str_bytes n s i = Some k) as Hs; [|by apply Hs].
  clear l Hc Hl. induction n as [|n IH]; intros k i Hc Hl; [lia|]. cbn [str_bytes]. destruct k as [|c k].
  - apply cstr_nil in Hc. rewrite Z.add_0_r in Hc. by rewrite Hc.
  - apply cstr_cons in Hc as (Ec & Hr & Hc). rewrite Z.add_0_r in Ec. rewrite Ec. destruct (Z.eqb_spec c 0); [lia|].
    rewrite (IH k (i + 1)); [done| |cbn in Hl; lia]. eapply cstr_ext; [|exact Hc]. intros j. cbn. f_equal. lia.
Qed.

Lemma ls_prints x root l path t u :
  (280 < fuel)%nat → root_dir x root l → path = None ∨ path = Some [47] → tty t u x →
  let o := mjoin ((λ e, take 255 e.1 ++ [10]) <$> l) in
  ∃ x', cmd_ls fuel path x = Some x' ∧ tty (foldl (feed color) t o) (u ++ o) x'.
Proof.
  intros Hf (Hm & Hr & d & Hd & Hdir) Hp Ht. unfold cmd_ls.
  assert (match path with None | Some [] => [47] | Some p => p end = [47]) as -> by (destruct Hp as [-> | ->]; done).
  rewrite (vfs_lookup_root _ root [47] Hm) by (repeat constructor; lia). rewrite bool_decide_true by done. cbn [mbind option_bind].
  destruct Hm as (_ & _ & Hz). apply Z.eqb_neq in Hz as ->. rewrite Hd. cbn [mbind option_bind]. apply Z.eqb_neq in Hdir as ->.
  rewrite (dr_ops _ _ _ Hr d Hd). pose proof (dr_size _ _ _ Hr). unfold RAMFS_MAX_CHILDREN in *.
  apply (ls_loop_prints fuel 0 root l t u x Hf Hr Ht). lia.
Qed.

(** A path that the file system does not find. *)
Lemma missing_prints x root p buf :
  (280 < fuel)%nat → mounted (k_fs (sh_kern x)) root → str_ok p → p ≠ [] → p ≠ [47] →
  prints x (both (text "ls: not found")) (cmd_ls fuel (Some p) x)
  ∧ prints x (both (text "cat: cannot open file")) (cmd_cat fuel (Some p) buf x).
Proof.
  intros Hf Hm Hok Hn Hp. pose proof (vfs_lookup_root _ root p Hm Hok) as E. rewrite bool_decide_false in E by done. split.
  - unfold cmd_ls. destruct p as [|c p]; [done|]. rewrite E. cbn [mbind option_bind Z.eqb].
    apply prints_lit; [cbn; repeat constructor; lia|cbn; lia].
  - unfold cmd_cat. destruct p as [|c p]; [done|]. unfold vfs_open, open_node. rewrite E. cbn [mbind option_bind Z.eqb negb Z.land].
    change (-2 <? 0) with true. cbv iota. intros t u Ht.
    destruct (prints_lit (set_shkern (set_kfs (k_fs (sh_kern x)) (sh_kern x)) x) (text "cat: cannot open file")
      ltac:(cbn; repeat constructor; lia) ltac:(cbn; lia) t u) as (x' & E' & Ht' & Hs'); [by destruct Ht; split|].
    exists x'. split_and!; [exact E'|exact Ht'|apply Hs'..].
Qed.
End output.

(** The command of a word: the first name that equals it. *)
Lemma find_command_spec l cmd w :
  Forall (λ p, Forall (λ c, 0 < c < 256) (fst p)) l → cstr cmd w → (length w ≤ 255)%nat →
  find_command l cmd = Some (snd <$> find (λ p, bool_decide (w = fst p)) l).
Proof.
  intros Hl Hc Hn. induction l as [|[name c] l IH]; [done|]. apply Forall_cons in Hl as [Hname Hl]. cbn [find_command find fst snd].
  destruct (strcmp_spec cmd (lit name) w name line_fuel Hc (cstr_lit _ Hname)) as (r & -> & Hr); [unfold line_fuel; lia|].
  cbn [mbind option_bind]. destruct (Z.eqb_spec r 0) as [E|E].
  - rewrite bool_decide_true by tauto. done.
  - rewrite bool_decide_false by tauto. by apply IH.
Qed.

Lemma command_names_ok : Forall (λ p, Forall (λ c, 0 < c < 256) (fst p)) command_names.
Proof. repeat constructor; cbn; lia. Qed.

(** ** Properties *)

Section properties.
Context {D : Type} `{Uart D} (color : Z) (fuel : nat).
Implicit Types (x : shell D) (t : term) (u : list Z).

(** A reply, with the screen and the serial line after it. *)
Definition replied t u (r : reply) (e : option (boot_result (shell D))) : Prop :=
  match r with
  | Shows o => ∃ x', e = Some (Running x') ∧ tty_is color fuel (foldl (feed color) t o.1) (u ++ o.2) x'
  | Clears => ∃ x', e = Some (Running x') ∧ tty_is color fuel (new_term color) u x'
  | Stops => e = Some Halted
  end.

Lemma prints_replied x o e t u : prints color fuel x o e → tty_is color fuel t u x → replied t u (Shows o) (running e).
Proof. intros Hp Ht. destruct (Hp t u Ht) as (x' & -> & Ht' & _). by exists x'. Qed.

Lemma second_arg_spec x q argv args :
  Forall2 (λ q w, 0 ≤ q ∧ line_at (line_buf x) q w) argv (take 15 args) → Forall (λ w, length w ≤ 255)%nat args →
  second_arg (q :: argv) x = Some (head args) ∧ ∀ p, head args = Some p → str_ok p.
Proof.
  intros HF Hl. destruct args as [|w args]; [apply Forall2_nil_inv_r in HF as ->; done|]. cbn [take] in HF.
  apply Forall2_cons_inv_r in HF as (p & argv' & [_ Hw] & _ & ->). apply Forall_cons in Hl as [Hl _]. cbn [second_arg head].
  rewrite (str_bytes_spec _ (arg p x) w) by (exact Hw || (unfold line_fuel; lia)). split; [done|]. intros ? [= <-].
  apply Forall_lookup. intros i c Hc. by apply (proj1 Hw i c).
Qed.

(** The command that a word names. *)
Ltac dispatch :=
  match goal with |- context [find ?f command_names] =>
    let v := eval vm_compute in (snd <$> find f command_names) in
    match v with Some _ => change (snd <$> find f command_names) with v end
  end; cbn [run_command].

Lemma run_answer buf x q argv w args r t u :
  tty_is color fuel t u x → buf ≠ 0 → (280 < fuel)%nat →
  Forall2 (λ q w, 0 ≤ q ∧ line_at (line_buf x) q w) (q :: argv) (w :: take 15 args) →
  Forall (λ w, length w ≤ 255 ∧ w ≠ [])%nat (w :: args) → answer x (w :: args) r →
  replied t u r
    (match snd <$> find (λ p, bool_decide (w = fst p)) command_names with
     | Some c => run_command fuel c (q :: argv) buf x
     | None => x1 ← shell_print fuel (arg q x) x; x2 ← shell_print fuel (lit (text ": command not found")) x1; Some (Running x2)
     end).
Proof.
  intros Ht Hb Hf HF Hws Ha. apply Forall2_cons in HF as [[Hq Hw] HF'].
  apply Forall_cons in Hws as [[Hlw _] Hwa].
  destruct (second_arg_spec x q argv args HF') as [Es Hok]; [by eapply Forall_impl; [exact Hwa|cbn; tauto]|].
  assert (96 < fuel)%nat as Hf' by lia.
  assert (∀ o e, prints color fuel x o e → replied t u (Shows o) (running e)) as Hpr by eauto using prints_replied.
  inversion Ha; subst; try dispatch.
  - by apply Hpr, help_prints.
  - unfold cmd_clear. destruct (clear_shows color (sh_vga x)) as (v & -> & Hv); [apply Ht|].
    cbn [mbind option_bind running]. eexists. split; [reflexivity|]. by destruct Ht; split.
  - by apply Hpr, meminfo_prints.
  - rewrite Es. cbn [mbind option_bind].
    destruct (ls_prints color fuel x root l (head args) t u) as (x' & -> & Ht'); [done|done| |done|by exists x'].
    match goal with Hp : _ = [] ∨ _ |- _ => destruct Hp as [-> | ->]; auto end.
  - rewrite Es. cbn [mbind option_bind head]. apply Forall_cons in Hwa as [[_ Hne] _].
    by eapply Hpr, (missing_prints _ _ _ _ p buf); eauto.
  - rewrite Es. cbn [mbind option_bind head]. apply Hpr. apply prints_lit; [cbn; repeat constructor; lia|cbn; lia].
  - rewrite Es. cbn [mbind option_bind head]. apply Forall_cons in Hwa as [[_ Hne] _].
    by eapply Hpr, (missing_prints _ _ _ _ p buf); eauto.
  - destruct (cmd_echo_spec color fuel q (bytes "echo") argv (take 15 args) t u x Ht) as (x2 & -> & Ht2).
    + constructor; [by split|exact HF'].
    + apply Forall_take. eapply Forall_impl; [exact Hwa|]. cbn. lia.
    + exists x2. done.
  - by apply Hpr, uptime_prints.
  - by apply Hpr, lspci_prints.
  - by apply Hpr, diskinfo_prints.
  - by apply Hpr, netinfo_prints.
  - by apply Hpr, devinfo_prints.
  - unfold cmd_halt. destruct (prints_lit color fuel x (text "Halting system...") ltac:(cbn; repeat constructor; lia) ltac:(cbn; lia) t u Ht)
      as (x' & -> & _). done.
  - assert (find (λ p, bool_decide (w = fst p)) command_names = None) as ->.
    { destruct (find _ _) as [p|] eqn:Ef; [|done]. apply List.find_some in Ef as [Hin Hbd]. apply bool_decide_eq_true in Hbd as ->.
      match goal with Hno : _ ∉ _ |- _ => exfalso; apply Hno end. apply list_elem_of_fmap. exists p. split; [done|].
      by apply list_elem_of_In. }
    cbn [fmap option_fmap option_map].
    destruct (print_tty color fuel _ _ x (arg q x) w Ht Hw) as (x2 & -> & Ht2 & _); [lia|]. cbn [mbind option_bind].
    destruct (print_tty color fuel _ _ x2 (lit (text ": command not found")) (text ": command not found") Ht2) as (x3 & -> & Ht3 & _);
      [apply cstr_lit; repeat constructor; cbn; lia|cbn; lia|]. cbn [mbind option_bind].
    exists x3. split; [done|]. cbn [both fst snd]. rewrite foldl_app. by rewrite <-app_assoc in Ht3.
Qed.

Lemma answer_world x x' ws r : same_world x x' → answer x ws r → answer x' ws r.
Proof.
  intros (E1 & E2 & E3 & E4 & E5) Ha.
  inversion Ha; subst; try (econstructor; unfold root_dir, pci_found, disks_found, netdevs_found in *; rewrite ?E1, ?E2, ?E3, ?E4, ?E5; done).
  - assert (sh_pmm x = sh_pmm x') as -> by (unfold sh_pmm; by rewrite E1). constructor.
  - rewrite <-E1. constructor.
  - assert (sh_pmm x = sh_pmm x') as -> by (unfold sh_pmm; by rewrite E1).
    constructor; unfold pci_found, disks_found, netdevs_found in *; rewrite ?E2, ?E3, ?E4, ?E5; done.
Qed.

(** The words of a line and the reply, once the line is read. *)
Lemma command_answer buf l r t u x :
  tty_is color fuel t u x → line_at (line_buf x) 0 l → (length l ≤ 255)%nat → line_len x = Z.of_nat (length l) →
  buf ≠ 0 → (280 < fuel)%nat → answer x (words l) r → replied t u r (shell_command fuel buf x).
Proof.
  intros Ht Hl Hn Hlen Hb Hf Ha. unfold shell_command. rewrite Hlen. destruct (Z.eqb_spec (Z.of_nat (length l)) 0) as [E|E].
  { destruct l; [|cbn in E; lia]. inversion Ha; subst. exists x. cbn [both fst snd foldl]. by rewrite app_nil_r. }
  destruct (shell_parse_spec (line_buf x) l SHELL_ARGS_MAX Hl Hn) as (argv & b & -> & HF); [unfold SHELL_ARGS_MAX; lia|].
  cbn [mbind option_bind]. cbv zeta. pose proof (words_length [] l) as Hwl. pose proof (words_nonempty [] l) as Hwn.
  fold (words l) in Hwl, Hwn. cbn [length Nat.add] in Hwl. change (Z.to_nat SHELL_ARGS_MAX) with 16%nat in HF.
  set (x1 := set_line b _ x). assert (tty_is color fuel t u x1) as Ht1 by (by destruct Ht; split).
  destruct (words l) as [|w args]; cbn [take] in HF.
  { apply Forall2_nil_inv_r in HF as ->. inversion Ha; subst. exists x1. cbn [both fst snd foldl]. by rewrite app_nil_r. }
  apply Forall2_cons_inv_r in HF as Hc. destruct Hc as (q & argv' & [Hq Hw] & _ & ->).
  assert (answer x1 (w :: args) r) as Ha1 by (by eapply answer_world; [|exact Ha]).
  apply Forall_cons in Hwl as Hlw. destruct Hlw as [Hlw _].
  rewrite (find_command_spec command_names (arg q x1) w command_names_ok Hw) by lia. cbn [mbind option_bind].
  apply (run_answer buf x1 q argv' w args r t u Ht1 Hb Hf HF); [|exact Ha1].
  apply Forall_and. split; [|exact Hwn]. eapply Forall_impl; [exact Hwl|]. cbn. lia.
Qed.

(** C27: The command line.  For every sequence of keys up to a line end the shell
    reads the line a reference editor leaves (backspace takes a character back,
    255 characters at most), splits it into its words, at most 16, and gives the
    reply of the command the first word names.  The screen shows the prompt, the
    echo and what the command prints, and the same goes over the serial line,
    except that backspace is one byte there and three characters on the screen.
    The replies are those of [help], [clear], [meminfo], [ls], [cat], [echo],
    [uptime], [lspci], [diskinfo], [netinfo], [devinfo] and [halt], and of a word
    that is no command; for [ls] and [cat] with the root file system mounted, of
    which only [/] can be listed and nothing else is found.  [heapinfo], [rtc],
    [reboot] and [cat] of [/] are not among them, nor is [ps], whose formats
    make it read through a process number. *)
Theorem shell_line_answered buf keys e rest r t u x :
  tty_is color fuel t u x → Forall key_ok keys → e = 10 ∨ e = 13 → buf ≠ 0 → (280 < fuel)%nat →
  answer x (words (foldl edit_key [] keys)) r →
  let o rub := bytes "devos> " ++ keys_echo rub [] keys ++ [10] in
  ∃ c, shell_round fuel buf (keys ++ e :: rest) x = Some (rest, c)
    ∧ replied (foldl (feed color) t (o [8; 32; 8])) (u ++ o [8]) r (Some c).
Proof.
  intros Ht Hk He Hb Hf Ha o. unfold shell_round, shell_readline.
  destruct (print_tty color fuel t u (set_line (line_buf x) 0 x) (lit (bytes "devos> ")) (bytes "devos> ")) as (x1 & -> & Ht1 & Hs1);
    [by destruct Ht; split|apply cstr_lit; repeat constructor; cbn; lia|cbn; lia|]. cbn [mbind option_bind].
  destruct (read_loop_spec color fuel keys e rest [] _ _ x1 Ht1) as (x2 & -> & HL & Hm & Hn & Hw2 & Ht2); [|done|done|].
  { eapply typed_tty; [|exact Hs1]. by split; cbn; try lia. }
  cbn [mbind option_bind]. assert (same_world x x2) as Hw by (apply tty_world in Hs1; unfold same_world in *; cbn in *; intuition congruence).
  pose proof (command_answer buf _ r _ _ x2 Ht2 HL Hm Hn Hb Hf (answer_world _ _ _ _ Hw Ha)) as Hr.
  destruct (shell_command fuel buf x2) as [c|] eqn:Ec.
  - exists c. split; [done|]. unfold o. rewrite !foldl_app in *. rewrite <-!app_assoc in Hr. exact Hr.
  - exfalso. destruct r; cbn in Hr; [by destruct Hr as (? & ? & _)..|done].
Qed.

Lemma print_lines_kern l x x' : print_lines fuel l x = Some x' → sh_kern x' = sh_kern x.
Proof.
  unfold print_lines. revert x'. induction l as [|s l IH] using rev_ind; intros x'; [by intros [= <-]|]. rewrite foldl_app. cbn [foldl].
  destruct (foldl _ _ l) as [x1|]; [|done]. cbn [mbind option_bind]. unfold shell_print.
  destruct (vga_puts _ _ _); [|done]. cbn [mbind option_bind]. destruct (serial_puts _ _ _); [|done].
  cbn [mbind option_bind]. intros [= <-]. by rewrite <-(IH x1).
Qed.

(** Listing tasks.  The formats of [ps] use a minus sign, which the kernel's
    formatter does not know: it prints it and takes no argument, so the next
    conversion, a string, gets the process number as its pointer.  While a task
    is running the command always reads through it, which is undefined. *)
Theorem shell_ps_faults argv buf x :
  buf ≠ 0 → current_task (k_sched (sh_kern x)) ≠ 0 → run_command fuel Ps argv buf x = None.
Proof.
  intros Hb Hc. cbn [run_command]. unfold running, cmd_ps.
  destruct (print_lines _ _ _) as [x1|] eqn:Ep; [|done]. cbn [mbind option_bind].
  assert (sh_kern x1 = sh_kern x) as -> by (by eapply print_lines_kern).
  rewrite (proj2 (Z.eqb_neq _ 0) Hc). cbn [negb]. destruct (get_task _ _) as [tt|]; [|done]. cbn [mbind option_bind].
  unfold ps_args. destruct (str_bytes 32 (t_name tt) 0) as [name|]; [|done]. cbn [mbind option_bind]. unfold print_fmt, ksnprintf.
  pose proof (kvsnprintf_spec buf 96 (text "%-4u %s  %-4u  %-5llu  %s  <running>")
    [VInt (t_pid tt); VStr (Some (state_name (t_state tt))); VInt (t_priority tt); VInt (t_total_ticks tt); VStr (Some name)]
    (sh_mem x1) Hb ltac:(lia)) as Hs.
  match type of Hs with match ?f with _ => _ end => change f with (@None (list Z)) in Hs end. by rewrite Hs.
Qed.
End properties.

(** ** A sample shell *)

Definition sample_shell (v : vga) : shell com :=
  {| sh_vga := v; sh_dev := {| com_sent := []; com_busy := 0; com_lcr := 3 |}; line_buf := λ _, 0; line_len := 0;
     sh_kern := sample_kern (sample_vmm (one_free 300));
     sh_pci := λ _, {| bus := 0; device := 0; function := 0; vendor_id := 0; device_id := 0; class_code := 0; subclass := 0;
                       prog_if := 0; revision := 0; header_type := 0; irq_line := 0; irq_pin := 0; bar := λ _, 0 |};
     sh_pci_count := 0; sh_blk := {| bd_store := ∅; blkdevs := λ _, 0; blkdev_cnt := 0 |};
     sh_net := sample_net (λ _, 0) (one_free 300) |}.

Lemma shell_line_answered_witness :
  ∃ v x', shell_round 300 0x5000 (bytes "echx" ++ [8] ++ bytes "o  a b" ++ 10 :: [104]) (sample_shell v) = Some ([104], Running x')
    ∧ com_sent (sh_dev x') = bytes "devos> echx" ++ [8] ++ bytes "o  a b" ++ [10] ++ bytes "a b" ++ [10]
    ∧ ∃ x'', shell_round 300 0x5000 (bytes "devinfo" ++ 13 :: []) (sample_shell v) = Some ([], Running x'').
Proof.
  destruct (clear_shows 7 {| vga_buf := λ _, 0; vga_color := 7; vga_row := 3; vga_col := 3 |} eq_refl) as (v & _ & Hv).
  assert (tty_is 7 300 (new_term 7) [] (sample_shell v)) as Ht
    by (split; [exact Hv|split_and!; [reflexivity|cbn; lia|cbn; lia]|reflexivity]).
  destruct (shell_line_answered 7 300 0x5000 (bytes "echx" ++ [8] ++ bytes "o  a b") 10 [104]
    (Shows (both (bytes "a b" ++ [10]))) (new_term 7) [] (sample_shell v) Ht) as (c & E & x' & [= ->] & Ht').
  - cbn. repeat (apply Forall_cons; split; [right; lia|]). by apply Forall_nil.
  - by left.
  - done.
  - lia.
  - exact (answer_echo (sample_shell v) [bytes "a"; bytes "b"]).
  - destruct (shell_line_answered 7 300 0x5000 (bytes "devinfo") 13 [] (Shows (devinfo_out (sh_pmm (sample_shell v)) [] [] []))
      (new_term 7) [] (sample_shell v) Ht) as (c & E2 & x2 & [= ->] & _).
    + cbn. repeat (apply Forall_cons; split; [right; lia|]). by apply Forall_nil.
    + by right.
    + done.
    + lia.
    + apply (answer_devinfo (sample_shell v) []); split_and!; done || (cbn; lia).
    + exists v, x'. split; [exact E|]. split; [exact (ty_sent _ _ _ _ _ Ht')|]. exists x2. exact E2.
Defined.

Lemma shell_ps_faults_witness : ∃ v, run_command 300 Ps [0] 0x5000 (sample_shell v) = None.
Proof.
  exists {| vga_buf := λ _, 0; vga_color := 7; vga_row := 0; vga_col := 0 |}.
  apply shell_ps_faults; [done|]. cbn [sample_shell sh_kern]. done.
Defined.
