(* ===== verification/Nvme.v ===== *)
(** Model of kernel/drivers/storage/nvme.c: the queues of an NVMe controller in
    memory, its registers, and the block device functions.

    The admin and the I/O queue pair have the same shape; the state of each is a
    record.  Messages on the serial line are left out. *)
From Stdlib Require Import String.
From stdpp Require Import prelude gmap.
From S2P Require Import Prelude CString FrameAlloc Vmm Heap Net Ports Printf Console Pci Ata.

Definition NVME_CAP : Z := 0x00.
Definition NVME_CC : Z := 0x14.
Definition NVME_CSTS : Z := 0x1C.
Definition NVME_AQA : Z := 0x24.
Definition NVME_ASQ : Z := 0x28.
Definition NVME_ACQ : Z := 0x30.
Definition NVME_CC_EN : Z := Z.shiftl 1 0.
Definition NVME_CC_CSS_NVM : Z := Z.shiftl 0 4.
Definition NVME_CC_MPS_4K : Z := Z.shiftl 0 7.
Definition NVME_CC_AMS_RR : Z := Z.shiftl 0 11.
Definition NVME_CC_IOSQES (n : Z) : Z := Z.shiftl n 16.
Definition NVME_CC_IOCQES (n : Z) : Z := Z.shiftl n 20.
Definition NVME_CSTS_RDY : Z := Z.shiftl 1 0.
Definition NVME_QUEUE_DEPTH : Z := 64.
Definition NVME_SQ_ENTRY_SIZE : Z := 64.
Definition NVME_CQ_ENTRY_SIZE : Z := 16.
Definition NVME_TIMEOUT : Z := 2000000.

(** A submission queue and its completion queue: addresses, tail, head and the
    phase bit of the next completion. *)
Record nvme_queue := { q_sq : Z; q_cq : Z; q_tail : Z; q_head : Z; q_phase : Z }.

(** [nv_self] and [nv_blkdev] are the addresses of the structure and of its block device. *)
Record nvme_ctrl := {
  nv_bar : Z;
  nv_admin : nvme_queue;
  nv_io : nvme_queue;
  next_cid : Z;
  db_stride : Z;
  ns_size : Z;
  lba_size : Z;
  nv_self : Z;
  nv_blkdev : Z;
}.

(** A command of 16 words, from those that are not zero. *)
Definition nvme_cmd (l : list (Z * Z)) : list Z :=
  foldl (λ c e, <[Z.to_nat (fst e) := snd e]> c) (replicate 16 0) l.

(** The offset of [status] in a completion. *)
Definition cqe_status (q : nvme_queue) (i : Z) : Z := q_cq q + i * NVME_CQ_ENTRY_SIZE + 14.

Fixpoint store_words (m : mem) (a : Z) (l : list Z) : mem :=
  match l with [] => m | v :: l => store_words (store_le 4 m a v) (a + 4) l end.

Section driver.
Context {D : Type} `{DmaIO D}.
Implicit Types (d : D) (c : nvme_ctrl) (q : nvme_queue) (m : mem).

Definition set_admin q c : nvme_ctrl :=
  {| nv_bar := nv_bar c; nv_admin := q; nv_io := nv_io c; next_cid := next_cid c; db_stride := db_stride c;
     ns_size := ns_size c; lba_size := lba_size c; nv_self := nv_self c; nv_blkdev := nv_blkdev c |}.
Definition set_io q c : nvme_ctrl :=
  {| nv_bar := nv_bar c; nv_admin := nv_admin c; nv_io := q; next_cid := next_cid c; db_stride := db_stride c;
     ns_size := ns_size c; lba_size := lba_size c; nv_self := nv_self c; nv_blkdev := nv_blkdev c |}.
Definition set_cid (v : Z) c : nvme_ctrl :=
  {| nv_bar := nv_bar c; nv_admin := nv_admin c; nv_io := nv_io c; next_cid := v; db_stride := db_stride c;
     ns_size := ns_size c; lba_size := lba_size c; nv_self := nv_self c; nv_blkdev := nv_blkdev c |}.
Definition set_ns (size lba : Z) c : nvme_ctrl :=
  {| nv_bar := nv_bar c; nv_admin := nv_admin c; nv_io := nv_io c; next_cid := next_cid c; db_stride := db_stride c;
     ns_size := size; lba_size := lba; nv_self := nv_self c; nv_blkdev := nv_blkdev c |}.

(** ** Registers *)

Definition nvme_read32 (off : Z) c d : Z * D := rd32 (nv_bar c + off) d.
Definition nvme_read64 (off : Z) c d : Z * D := rd64 (nv_bar c + off) d.
Definition nvme_write32 (off val : Z) c d : D := wr32 (nv_bar c + off) val d.
Definition nvme_write64 (off val : Z) c d : D := wr64 (nv_bar c + off) val d.

Definition nvme_sq_db (qid : Z) c : Z := nv_bar c + 0x1000 + u32 (u32 (qid * db_stride c) * 2).
Definition nvme_cq_db (qid : Z) c : Z := nv_bar c + 0x1000 + u32 (u32 (qid * db_stride c) * 2) + db_stride c.

Definition nvme_alloc_cid c : Z * nvme_ctrl := (next_cid c, set_cid (u16 (next_cid c + 1)) c).

(** ** Commands *)

(** [while (timeout--)]: one round per value; the answer is that of the function. *)
Fixpoint cq_poll (n : nat) (db : Z) q d m : Z * nvme_queue * D * mem :=
  match n with
  | O => (-1, q, d, m)
  | S n =>
      let '(d, m) := dma d m in
      if Z.land (load16 m (cqe_status q (q_head q))) 1 =? q_phase q then
        let head := (q_head q + 1) mod NVME_QUEUE_DEPTH in
        let phase := if head =? 0 then Z.lxor (q_phase q) 1 else q_phase q in
        let d := wr32 db head d in
        let '(d, m) := dma d m in
        let sc := Z.land (Z.shiftr (load16 m (cqe_status q (q_head q))) 1) 0xFF in
        (if negb (sc =? 0) then -1 else 0,
         {| q_sq := q_sq q; q_cq := q_cq q; q_tail := q_tail q; q_head := head; q_phase := phase |}, d, m)
      else cq_poll n db q d m
  end.

(** [nvme_submit_admin] and [nvme_submit_io] for the queue pair [qid]. *)
Definition nvme_submit (qid : Z) (cmd : list Z) c q d m : Z * nvme_queue * D * mem :=
  let m := store_words m (q_sq q + q_tail q * NVME_SQ_ENTRY_SIZE) cmd in
  let tail := (q_tail q + 1) mod NVME_QUEUE_DEPTH in
  let q := {| q_sq := q_sq q; q_cq := q_cq q; q_tail := tail; q_head := q_head q; q_phase := q_phase q |} in
  let d := wr32 (nvme_sq_db qid c) tail d in
  cq_poll (Z.to_nat NVME_TIMEOUT) (nvme_cq_db qid c) q d m.

Definition nvme_submit_admin (cmd : list Z) c d m : Z * nvme_ctrl * D * mem :=
  let '(r, q, d, m) := nvme_submit 0 cmd c (nv_admin c) d m in (r, set_admin q c, d, m).

Definition nvme_submit_io (cmd : list Z) c d m : Z * nvme_ctrl * D * mem :=
  let '(r, q, d, m) := nvme_submit 1 cmd c (nv_io c) d m in (r, set_io q c, d, m).

(** Opcode and identifier. *)
Definition dw0 (op cid : Z) : Z := u32 (Z.lor op (Z.shiftl cid 16)).

(** The two words of an address. *)
Definition prp (b : Z) : list (Z * Z) := [(6, u32 (Z.land (dma_addr b) 0xFFFFFFFF)); (7, u32 (Z.shiftr (dma_addr b) 32))].

(** The command of [nvme_blk_read] (op 2) and [nvme_blk_write] (op 1). *)
Definition rw_cmd (op cid b lba n : Z) : list Z :=
  nvme_cmd ([(0, dw0 op cid); (1, 1)] ++ prp b ++
            [(10, u32 (Z.land lba 0xFFFFFFFF)); (11, u32 (Z.shiftr lba 32)); (12, u32 (n - 1))]).

(** [while (count > 0)]: a round takes at least one block. *)
Fixpoint nvme_rw_loop (fuel : nat) (op lba count b : Z) c d m : option (Z * nvme_ctrl * D * mem) :=
  match fuel with
  | O => None
  | S f =>
      if count =? 0 then Some (0, c, d, m)
      else
        let n := if 32 <? count then 32 else count in
        let '(cid, c) := nvme_alloc_cid c in
        let '(r, c, d, m) := nvme_submit_io (rw_cmd op cid b lba n) c d m in
        if negb (r =? 0) then Some (-1, c, d, m)
        else nvme_rw_loop f op (u64 (lba + n)) (count - n) (u64 (b + u32 (n * lba_size c))) c d m
  end.

Definition nvme_blk_read (lba count buf : Z) := nvme_rw_loop (S (Z.to_nat count)) 0x02 lba count buf.
Definition nvme_blk_write (lba count buf : Z) := nvme_rw_loop (S (Z.to_nat count)) 0x01 lba count buf.

(** ** Initialisation *)

Context {A : Type} `{FrameOps A}.
Implicit Types (h : heap A).

(** A command on the admin queue, with its identifier. *)
Definition admin_cmd (op : Z) (l : list (Z * Z)) c d h : Z * nvme_ctrl * D * heap A :=
  let '(cid, c) := nvme_alloc_cid c in
  let '(r, c, d, m) := nvme_submit_admin (nvme_cmd ((0, dw0 op cid) :: l)) c d (hp_mem h) in
  (r, c, d, set_hmem h m).

(** What the controller says of itself is only printed. *)
Definition nvme_identify_ctrl c d h : option (Z * nvme_ctrl * D * heap A) :=
  '(buf, h) ← kzalloc 4096 h;
  if buf =? 0 then Some (-1, c, d, h)
  else
    let '(r, c, d, h) := admin_cmd 0x06 (prp buf ++ [(10, 1)]) c d h in
    h ← kfree buf h;
    Some (r, c, d, h).

(** A shift by 32 or more is undefined. *)
Definition nvme_identify_ns c d h : option (Z * nvme_ctrl * D * heap A) :=
  '(buf, h) ← kzalloc 4096 h;
  if buf =? 0 then Some (-1, c, d, h)
  else
    let '(r, c, d, h) := admin_cmd 0x06 ((1, 1) :: prp buf ++ [(10, 0)]) c d h in
    c ← (if r =? 0 then
           let m := hp_mem h in
           let lbaf_idx := Z.land (m (buf + 26)) 0x0F in
           let lbaf := load_le 4 m (buf + 128 + lbaf_idx * 4) in
           let shift := Z.land (Z.shiftr lbaf 16) 0xFF in
           if 32 <=? shift then None
           else
             let lba := u32 (Z.shiftl 1 shift) in
             Some (set_ns (load64 m buf) (if lba =? 0 then 512 else lba) c)
         else Some c);
    h ← kfree buf h;
    Some (r, c, d, h).

(** [while (((read(CSTS) & RDY) != 0) == set && t--);]: [t] afterwards. *)
Fixpoint rdy_wait (n : nat) (set : bool) c d : Z * D :=
  let '(v, d) := nvme_read32 NVME_CSTS c d in
  if eqb (negb (Z.land v NVME_CSTS_RDY =? 0)) set then
    match n with O => (u32 (-1), d) | S n => rdy_wait n set c d end
  else (Z.of_nat n, d).

Definition queue_attr : Z := Z.lor (Z.shiftl (NVME_QUEUE_DEPTH - 1) 16) (NVME_QUEUE_DEPTH - 1).
Definition queue_id : Z := u32 (Z.lor (Z.shiftl (NVME_QUEUE_DEPTH - 1) 16) 1).
Definition cc_value : Z :=
  Z.lor (Z.lor (Z.lor (Z.lor (Z.lor NVME_CC_EN NVME_CC_CSS_NVM) NVME_CC_MPS_4K) NVME_CC_AMS_RR) (NVME_CC_IOSQES 6)) (NVME_CC_IOCQES 4).

(** Reset, admin queues and start of the controller; false when it gives up. *)
Definition nvme_start c d h : option (bool * nvme_ctrl * D * heap A) :=
  let '(cap, d) := nvme_read64 NVME_CAP c d in
  let c := {| nv_bar := nv_bar c; nv_admin := nv_admin c; nv_io := nv_io c; next_cid := next_cid c;
              db_stride := u32 (Z.shiftl 1 (Z.land (Z.shiftr cap 32) 0xF + 2));
              ns_size := ns_size c; lba_size := lba_size c; nv_self := nv_self c; nv_blkdev := nv_blkdev c |} in
  let d := nvme_write32 NVME_CC 0 c d in
  let '(t, d) := rdy_wait (Z.to_nat NVME_TIMEOUT) true c d in
  if t =? 0 then Some (false, c, d, h)
  else
    '(asq, h) ← kzalloc (NVME_QUEUE_DEPTH * NVME_SQ_ENTRY_SIZE) h;
    '(acq, h) ← kzalloc (NVME_QUEUE_DEPTH * NVME_CQ_ENTRY_SIZE) h;
    let q := nv_admin c in
    let c := set_admin {| q_sq := asq; q_cq := acq; q_tail := q_tail q; q_head := q_head q; q_phase := q_phase q |} c in
    if (asq =? 0) || (acq =? 0) then Some (false, c, d, h)
    else
      let d := nvme_write32 NVME_AQA queue_attr c d in
      let d := nvme_write64 NVME_ASQ (dma_addr asq) c d in
      let d := nvme_write64 NVME_ACQ (dma_addr acq) c d in
      let d := nvme_write32 NVME_CC cc_value c d in
      let '(t, d) := rdy_wait (Z.to_nat NVME_TIMEOUT) false c d in
      if t =? 0 then Some (false, c, d, h)
      else
        let c := set_cid 1 (set_admin {| q_sq := asq; q_cq := acq; q_tail := 0; q_head := 0; q_phase := 1 |} c) in
        Some (true, c, d, h).

(** The I/O completion queue, then the submission queue. *)
Definition nvme_io_queues c d h : option (bool * nvme_ctrl * D * heap A) :=
  let q := nv_io c in
  '(iocq, h) ← kzalloc (NVME_QUEUE_DEPTH * NVME_CQ_ENTRY_SIZE) h;
  let c := set_io {| q_sq := q_sq q; q_cq := iocq; q_tail := q_tail q; q_head := q_head q; q_phase := q_phase q |} c in
  let '(r, c, d, h) := admin_cmd 0x05 (prp iocq ++ [(10, queue_id); (11, 1)]) c d h in
  if negb (r =? 0) then Some (false, c, d, h)
  else
    '(iosq, h) ← kzalloc (NVME_QUEUE_DEPTH * NVME_SQ_ENTRY_SIZE) h;
    let c := set_io {| q_sq := iosq; q_cq := iocq; q_tail := q_tail q; q_head := q_head q; q_phase := q_phase q |} c in
    let '(r, c, d, h) := admin_cmd 0x01 (prp iosq ++ [(10, queue_id); (11, Z.lor (Z.shiftl 1 16) (Z.shiftl 1 0))]) c d h in
    if negb (r =? 0) then Some (false, c, d, h)
    else Some (true, set_io {| q_sq := iosq; q_cq := iocq; q_tail := 0; q_head := 0; q_phase := 1 |} c, d, h).

Definition nvme_blkdev c : block_device :=
  {| bd_name := bytes "nvme0n1"; bd_sector_count := ns_size c; bd_sector_size := lba_size c; bd_read_only := false;
     bd_private := nv_self c; bd_ops := Blk_nvme |}.

Definition nvme_init `{PortIO D} (p : pci D) (blk : blkdevs_state) c h : option (bool * nvme_ctrl * D * heap A * blkdevs_state) :=
  match pci_find_class 0x01 0x08 p with
  | None => Some (false, c, pc_dev p, h, blk)
  | Some i =>
      let pdev := pci_devices p i in
      let d := pci_enable_memory_space pdev (pci_enable_bus_master pdev (pc_dev p)) in
      '(bar, v) ← pci_map_bar pdev 0 (hp_vm h);
      let h := set_vm h v (hp_mem h) in
      let c := {| nv_bar := bar; nv_admin := nv_admin c; nv_io := nv_io c; next_cid := next_cid c; db_stride := db_stride c;
                  ns_size := ns_size c; lba_size := lba_size c; nv_self := nv_self c; nv_blkdev := nv_blkdev c |} in
      if bar =? 0 then Some (false, c, d, h, blk)
      else
        '(ok, c, d, h) ← nvme_start c d h;
        if negb ok then Some (false, c, d, h, blk)
        else
          '(r, c, d, h) ← nvme_identify_ctrl c d h;
          if negb (r =? 0) then Some (false, c, d, h, blk)
          else
            '(ok, c, d, h) ← nvme_io_queues c d h;
            if negb ok then Some (false, c, d, h, blk)
            else
              '(r, c, d, h) ← nvme_identify_ns c d h;
              if negb (r =? 0) then Some (false, c, d, h, blk)
              else
                let blk := {| bd_store := <[nv_blkdev c := nvme_blkdev c]> (bd_store blk); blkdevs := blkdevs blk;
                              blkdev_cnt := blkdev_cnt blk |} in
                '(_, blk) ← blkdev_register (nv_blkdev c) blk;
                Some (true, c, d, h, blk)
  end.
End driver.
