(* ===== verification/NvmeProps.v ===== *)
(** The block device functions of kernel/drivers/storage/nvme.c on a controller
    that executes the commands of its queue, and the addresses the driver gives
    to the controller for memory of the heap. *)
From stdpp Require Import prelude gmap.
From S2P Require Import Prelude CString FrameAlloc Bitmap Pmm Vmm VmmWf VmmSpec VmmRange VmmProps Heap HeapMap HeapSlab HeapList HeapInv HeapOps HeapApi HeapRefine HeapProps Net Ports Console Pci Ata Nvme.

(** ** A reference controller *)

(** One queue pair: the kernel's addresses of the memory the controller has for the
    two rings, the next command, the slot and phase of the next completion, whether
    a command is outstanding and for how many accesses to memory, and the blocks. *)
Record nvme_dev := {
  vd_sq : Z;
  vd_cq : Z;
  vd_head : Z;
  vd_slot : Z;
  vd_phase : Z;
  vd_busy : nat;
  vd_pending : bool;
  vd_disk : Z → Z → Z;
}.

Definition dev_pending (p : bool) (b : nat) (v : nvme_dev) : nvme_dev :=
  {| vd_sq := vd_sq v; vd_cq := vd_cq v; vd_head := vd_head v; vd_slot := vd_slot v; vd_phase := vd_phase v;
     vd_busy := b; vd_pending := p; vd_disk := vd_disk v |}.

(** What is left of the page of an address. *)
Definition page_room (a : Z) : Z := 4096 - a mod 4096.

(** The data of a command as the NVMe specification lays it out: from the first
    pointer to the end of its page, and the rest of at most one page from the
    second pointer. *)
Definition transfer_in (ls p1 p2 lba n : Z) (disk : Z → Z → Z) (m : mem) : mem :=
  if n * ls <=? page_room p1 then blocks_to_mem ls p1 lba n disk m
  else λ a,
    let byte i := disk (lba + i / ls) (i mod ls) in
    if (p1 <=? a) && (a <? p1 + page_room p1) then byte (a - p1)
    else if (p2 <=? a) && (a <? p2 + (n * ls - page_room p1)) then byte (a - p2 + page_room p1) else m a.

Definition transfer_out (ls p1 p2 lba n : Z) (m : mem) (disk : Z → Z → Z) : Z → Z → Z :=
  if n * ls <=? page_room p1 then mem_to_blocks ls p1 lba n m disk
  else λ s j,
    let i := (s - lba) * ls + j in
    if (lba <=? s) && (s <? lba + n) then m (if i <? page_room p1 then p1 + i else p2 + (i - page_room p1)) else disk s j.

(** Word [k] of the command at the head. *)
Definition cmd_word (v : nvme_dev) (m : mem) (k : Z) : Z := load_le 4 m (vd_sq v + 64 * vd_head v + 4 * k).

(** A data pointer of the command: a physical address, and the kernel's address of
    it in the linear map. *)
Definition cmd_phys (v : nvme_dev) (m : mem) (k : Z) : Z := cmd_word v m k + 2 ^ 32 * cmd_word v m (k + 1).
Definition cmd_pointer (v : nvme_dev) (m : mem) (k : Z) : Z := dma_virt (cmd_phys v m k).
Definition cmd_blocks (v : nvme_dev) (m : mem) : Z := cmd_word v m 12 mod 2 ^ 16 + 1.

(** At most two pages: the second pointer is then not a list. *)
Definition two_pages (ls : Z) (v : nvme_dev) (m : mem) : Prop := cmd_blocks v m * ls ≤ page_room (cmd_pointer v m 6) + 4096.

(** The data is in physical memory that the kernel sees in its linear map. *)
Definition data_linear (ls : Z) (v : nvme_dev) (m : mem) : Prop :=
  let n := cmd_blocks v m * ls in
  let room := page_room (cmd_pointer v m 6) in
  linear (cmd_phys v m 6) (Z.min n room) ∧ (room < n → linear (cmd_phys v m 8) (n - room)).

(** The command at the head: read (2) or write (1) of blocks of [ls] bytes, then a
    completion without error; [w] is the rest of the completion. *)
Definition execute (ls w : Z) (v : nvme_dev) (m : mem) : nvme_dev * mem :=
  let p1 := cmd_pointer v m 6 in
  let p2 := cmd_pointer v m 8 in
  let lba := cmd_word v m 10 + 2 ^ 32 * cmd_word v m 11 in
  let n := cmd_blocks v m in
  let op := cmd_word v m 0 mod 256 in
  let m1 := if op =? 2 then transfer_in ls p1 p2 lba n (vd_disk v) m else m in
  let slot := (vd_slot v + 1) mod 64 in
  let entry := vd_cq v + 16 * vd_slot v in
  ({| vd_sq := vd_sq v; vd_cq := vd_cq v; vd_head := (vd_head v + 1) mod 64; vd_slot := slot;
      vd_phase := if slot =? 0 then 1 - vd_phase v else vd_phase v; vd_busy := 0; vd_pending := false;
      vd_disk := if op =? 1 then transfer_out ls p1 p2 lba n m (vd_disk v) else vd_disk v |},
   store_le 2 (store_le 14 m1 entry w) (entry + 14) (vd_phase v)).

(** A device whose doorbells are at two addresses and that completes a command at
    the latest after [nv_delay] further accesses.  Nothing is said of commands with
    data outside the linear map. *)
Class NvmeDisk (D : Type) `{DmaIO D} := {
  nv_ls : Z;
  nv_delay : nat;
  nv_sqdb : Z;
  nv_cqdb : Z;
  nv_dev : D → nvme_dev;
  nv_submit d : vd_pending (nv_dev d) = false →
    ∃ b, (b ≤ nv_delay)%nat ∧ nv_dev (mmio_write 4 nv_sqdb ((vd_head (nv_dev d) + 1) mod 64) d) = dev_pending true b (nv_dev d);
  nv_ack d v : nv_dev (mmio_write 4 nv_cqdb v d) = nv_dev d;
  nv_dma d m :
    let v := nv_dev d in
    let '(d', m') := dma d m in
    if vd_pending v then
      match vd_busy v with
      | S b => nv_dev d' = dev_pending true b v ∧ m' = m
      | O => two_pages nv_ls v m → data_linear nv_ls v m → ∃ w, nv_dev d' = fst (execute nv_ls w v m) ∧ m' = snd (execute nv_ls w v m)
      end
    else nv_dev d' = v ∧ m' = m;
}.

(** ** Words in memory *)

Lemma store_words_outside m a l b : ¬ a ≤ b < a + 4 * Z.of_nat (length l) → store_words m a l b = m b.
Proof.
  revert m a. induction l as [|v l IH]; intros m a Hb; [done|]. cbn [store_words length] in *. rewrite IH by lia.
  apply store_le_outside. cbn. lia.
Qed.

Lemma store_words_load m a l k v :
  l !! k = Some v → load_le 4 (store_words m a l) (a + 4 * Z.of_nat k) = v mod 2 ^ 32.
Proof.
  revert m a k. induction l as [|w l IH]; intros m a k Hk; [done|]. cbn [store_words]. destruct k as [|k].
  - injection Hk as ->. rewrite Z.add_0_r. rewrite (load_le_ext 4 _ (store_le 4 m a v)).
    + by rewrite load_store_le_eq.
    + intros b Hb. apply store_words_outside. cbn in Hb. lia.
  - cbn in Hk. replace (a + 4 * Z.of_nat (S k)) with (a + 4 + 4 * Z.of_nat k) by lia. by apply IH.
Qed.

(** The words of a read or write command. *)
Lemma rw_cmd_words op cid b lba n m a :
  0 ≤ op < 256 → 0 ≤ cid < 2 ^ 16 → 0 ≤ b < 2 ^ 64 → 0 ≤ lba < 2 ^ 64 → 1 ≤ n ≤ 32 →
  let w k := load_le 4 (store_words m a (rw_cmd op cid b lba n)) (a + 4 * k) in
  w 0 mod 256 = op ∧ w 6 + 2 ^ 32 * w 7 = dma_addr b ∧ w 8 + 2 ^ 32 * w 9 = 0 ∧ w 10 + 2 ^ 32 * w 11 = lba ∧ w 12 mod 2 ^ 16 + 1 = n.
Proof.
  intros Hop Hc Hb Hl Hn w.
  assert (∀ (k : nat) v, rw_cmd op cid b lba n !! k = Some v → w (Z.of_nat k) = v mod 2 ^ 32) as Hw.
  { intros k v Hk. by apply store_words_load. }
  rewrite (Hw 0%nat _ eq_refl : w 0 = _), (Hw 6%nat _ eq_refl : w 6 = _), (Hw 7%nat _ eq_refl : w 7 = _),
    (Hw 8%nat _ eq_refl : w 8 = _), (Hw 9%nat _ eq_refl : w 9 = _),
    (Hw 10%nat _ eq_refl : w 10 = _), (Hw 11%nat _ eq_refl : w 11 = _), (Hw 12%nat _ eq_refl : w 12 = _).
  split_and!; cbn [snd].
  - unfold dw0, u32. rewrite Z.mod_mod by lia. rewrite Z.lor_comm.
    rewrite Z.shiftl_mul_pow2, lor_low by lia. Z.to_euclidean_division_equations. lia.
  - cbn [snd]. by apply words_join, u64_range.
  - done.
  - by apply words_join.
  - unfold u32. rewrite Z.mod_mod by lia. rewrite (Z.mod_small (n - 1) (2 ^ 32)), Z.mod_small by lia. lia.
Qed.

(** ** The queues of driver and controller *)

Section driver.
Context {D : Type} `{NvmeDisk D}.
Implicit Types (d : D) (c : nvme_ctrl) (q : nvme_queue) (m : mem).

(** Driver and controller agree on a queue pair; a completion carries the
    controller's phase exactly below the head. *)
Record agree q (v : nvme_dev) m : Prop := {
  ag_sq : vd_sq v = q_sq q;
  ag_cq : vd_cq v = q_cq q;
  ag_tail : vd_head v = q_tail q ∧ 0 ≤ q_tail q < 64;
  ag_head : vd_slot v = q_head q ∧ 0 ≤ q_head q < 64;
  ag_phase : vd_phase v = q_phase q ∧ (q_phase q = 0 ∨ q_phase q = 1);
  ag_stale : ∀ i, 0 ≤ i < 64 → load16 m (cqe_status q i) mod 2 = if i <? q_head q then q_phase q else 1 - q_phase q;
}.

(** Queues in memory, apart from each other. *)
Definition in_queues q (a : Z) : Prop := q_sq q ≤ a < q_sq q + 4096 ∨ q_cq q ≤ a < q_cq q + 1024.

Definition queues_ok q : Prop := q_sq q + 4096 ≤ q_cq q ∨ q_cq q + 1024 ≤ q_sq q.

(** A buffer of [n] bytes in one page of the linear map, apart from the queues. *)
Definition buffer_ok q (b n : Z) : Prop := (KERNEL_VIRT_BASE ≤ b ∧ b + n < 2 ^ 64) ∧ n ≤ page_room b ∧ ∀ a, b ≤ a < b + n → ¬ in_queues q a.

(** What a command whose first pointer is [b] and whose second is zero touches. *)
Definition touched (b n a : Z) : Prop := b ≤ a < b + Z.min n (page_room b) ∨ dma_virt 0 ≤ a < dma_virt 0 + (n - page_room b).

Lemma land_one x : Z.land x 1 = x mod 2.
Proof. change 1 with (Z.ones 1). by rewrite Z.land_ones. Qed.

Lemma agree_mem q v m m' :
  agree q v m → (∀ a, q_cq q ≤ a < q_cq q + 1024 → m' a = m a) → agree q v m'.
Proof.
  intros [A1 A2 A3 A4 A5 A6] He. split; try done. intros i Hi. rewrite <-(A6 i Hi). f_equal.
  apply (load_le_ext 2). intros b Hb. apply He. unfold cqe_status, NVME_CQ_ENTRY_SIZE in Hb. cbn in Hb. lia.
Qed.

(** The head of the queue after a completion. *)
Definition next_head q : Z := (q_head q + 1) mod 64.

Definition advanced q : nvme_queue :=
  {| q_sq := q_sq q; q_cq := q_cq q; q_tail := q_tail q; q_head := next_head q;
     q_phase := if next_head q =? 0 then 1 - q_phase q else q_phase q |}.

Lemma flip p : p = 0 ∨ p = 1 → Z.lxor p 1 = 1 - p.
Proof. by intros [-> | ->]. Qed.

Definition set_tail (t : Z) q : nvme_queue :=
  {| q_sq := q_sq q; q_cq := q_cq q; q_tail := t; q_head := q_head q; q_phase := q_phase q |}.

(** A completion in the slot at the head, for the command before the tail [t]. *)
Lemma agree_complete t q v m v' :
  0 ≤ t < 64 →
  agree q v m → vd_sq v' = vd_sq v → vd_cq v' = vd_cq v → vd_head v' = t → vd_slot v' = (vd_slot v + 1) mod 64 →
  vd_phase v' = (if (vd_slot v + 1) mod 64 =? 0 then 1 - vd_phase v else vd_phase v) →
  agree (set_tail t (advanced q)) v' (store_le 2 m (cqe_status q (q_head q)) (q_phase q)).
Proof.
  intros Ht [A1 A2 [A3 A3'] [A4 A4'] [A5 A5'] A6] E1 E2 E3 E4 E5.
  assert (0 ≤ next_head q < 64) as Hr by (unfold next_head; Z.to_euclidean_division_equations; lia).
  split; cbn [set_tail advanced q_sq q_cq q_tail q_head q_phase]; [by rewrite E1|by rewrite E2|by rewrite E3| | |].
  - rewrite E4, A4. done.
  - rewrite E5, A4, A5. fold (next_head q). split; [done|]. destruct (next_head q =? 0); lia.
  - intros i Hi. change (cqe_status (set_tail t (advanced q)) i) with (cqe_status q i). unfold load16.
    destruct (decide (i = q_head q)) as [->|Hne].
    + rewrite load_store_le_eq. change (2 ^ (8 * Z.of_nat 2)) with 65536. rewrite (Z.mod_small (q_phase q)) by lia.
      rewrite Z.mod_small by lia. unfold next_head in *.
      destruct (Z.eqb_spec ((q_head q + 1) mod 64) 0); destruct (Z.ltb_spec (q_head q) ((q_head q + 1) mod 64)); Z.to_euclidean_division_equations; lia.
    + rewrite load_store_le_ne by (unfold cqe_status, NVME_CQ_ENTRY_SIZE; cbn; lia). fold (load16 m (cqe_status q i)). rewrite (A6 i Hi).
      unfold next_head in *.
      destruct (Z.eqb_spec ((q_head q + 1) mod 64) 0); destruct (Z.ltb_spec i (q_head q));
        destruct (Z.ltb_spec i ((q_head q + 1) mod 64)); Z.to_euclidean_division_equations; lia.
Qed.

(** The rest of a completion is not looked at. *)
Lemma agree_entry q v m w : agree q v m → agree q v (store_le 14 m (q_cq q + 16 * q_head q) w).
Proof.
  intros [A1 A2 A3 A4 A5 A6]. split; try done. intros i Hi. rewrite <-(A6 i Hi). f_equal. unfold load16.
  apply load_store_le_ne. unfold cqe_status, NVME_CQ_ENTRY_SIZE. cbn. lia.
Qed.

(** The status the controller writes is read back, with no error. *)
Lemma status_done w q v m :
  agree q v m → let m1 := snd (execute nv_ls w v m) in load16 m1 (cqe_status q (q_head q)) = q_phase q.
Proof.
  intros [A1 A2 _ [A4 _] [A5 A5'] _]. unfold execute. cbn [snd]. rewrite A2, A4, A5.
  unfold cqe_status, NVME_CQ_ENTRY_SIZE. rewrite (Z.mul_comm 16). unfold load16. rewrite load_store_le_eq.
  change (2 ^ (8 * Z.of_nat 2)) with 65536. rewrite Z.mod_small by lia. done.
Qed.

(** Polling: while the controller works the head shows the old phase; then the
    command is executed, and the answer is success. *)
Lemma poll_spec b n t q d m :
  agree q (nv_dev d) m → vd_pending (nv_dev d) = true → vd_busy (nv_dev d) = b → (b < n)%nat → two_pages nv_ls (nv_dev d) m →
  data_linear nv_ls (nv_dev d) m →
  ∃ w d', let e := execute nv_ls w (dev_pending true 0 (nv_dev d)) m in
    cq_poll n nv_cqdb (set_tail t q) d m = (0, set_tail t (advanced q), d', snd e) ∧ nv_dev d' = fst e.
Proof.
  revert n d. induction b as [|b IH]; intros n d Ha Hp Hb Hn H2 H3; (destruct n as [|n]; [lia|]); cbn [cq_poll];
    pose proof (nv_dma d m) as Hd; cbv zeta in Hd; rewrite Hp, Hb in Hd; destruct (dma d m) as [d1 m1].
  - destruct (Hd H2 H3) as (w & E1 & ->). clear Hd. exists w.
    assert (dev_pending true 0 (nv_dev d) = nv_dev d) as Ev by (destruct (nv_dev d); cbn in *; by subst). rewrite Ev. cbv zeta.
    change (cqe_status (set_tail t q) (q_head (set_tail t q))) with (cqe_status q (q_head q)).
    pose proof (status_done w q (nv_dev d) m Ha) as Hst. cbv zeta in Hst. destruct (ag_phase _ _ _ Ha) as [_ Hph].
    rewrite Hst, land_one, Z.mod_small by lia. change (q_phase (set_tail t q)) with (q_phase q). rewrite Z.eqb_refl.
    change (q_head (set_tail t q)) with (q_head q). change NVME_QUEUE_DEPTH with 64. fold (next_head q).
    unfold wr32. set (d2 := mmio_write 4 nv_cqdb _ d1).
    assert (nv_dev d2 = fst (execute nv_ls w (nv_dev d) m)) as E2 by (unfold d2; by rewrite nv_ack).
    pose proof (nv_dma d2 (snd (execute nv_ls w (nv_dev d) m))) as Hd2. cbv zeta in Hd2. rewrite E2 in Hd2.
    destruct (dma d2 _) as [d3 m3]. cbn [execute fst vd_pending] in Hd2. destruct Hd2 as [E3 ->]. rewrite Hst.
    assert (Z.land (Z.shiftr (q_phase q) 1) 0xFF = 0) as -> by (destruct Hph as [-> | ->]; done). cbn [Z.eqb negb].
    exists d3. split; [|exact E3]. rewrite (flip _ Hph). done.
  - destruct Hd as [E1 ->]. change (cqe_status (set_tail t q) (q_head (set_tail t q))) with (cqe_status q (q_head q)).
    change (q_phase (set_tail t q)) with (q_phase q). rewrite land_one.
    destruct (ag_head _ _ _ Ha) as [_ Hh]. destruct (ag_phase _ _ _ Ha) as [_ Hph]. rewrite (ag_stale _ _ _ Ha) by done.
    rewrite Z.ltb_irrefl. destruct (Z.eqb_spec (1 - q_phase q) (q_phase q)); [lia|].
    destruct (IH n d1) as (w & d' & E & Ed); [rewrite E1; by destruct Ha; split|by rewrite E1|by rewrite E1|lia|by rewrite E1|by rewrite E1|].
    rewrite E1 in E, Ed. exists w, d'. split; [exact E|exact Ed].
Qed.

(** ** One command *)

Definition executed (ls w op b lba n : Z) (v : nvme_dev) m : nvme_dev * mem :=
  let slot := (vd_slot v + 1) mod 64 in
  let entry := vd_cq v + 16 * vd_slot v in
  ({| vd_sq := vd_sq v; vd_cq := vd_cq v; vd_head := (vd_head v + 1) mod 64; vd_slot := slot;
      vd_phase := if slot =? 0 then 1 - vd_phase v else vd_phase v; vd_busy := 0; vd_pending := false;
      vd_disk := if op =? 1 then transfer_out ls b (dma_virt 0) lba n m (vd_disk v) else vd_disk v |},
   store_le 2 (store_le 14 (if op =? 2 then transfer_in ls b (dma_virt 0) lba n (vd_disk v) m else m) entry w) (entry + 14) (vd_phase v)).

Lemma execute_rw op cid b lba n ls v m :
  0 ≤ op < 256 → 0 ≤ cid < 2 ^ 16 → 0 ≤ b < 2 ^ 64 → 0 ≤ lba < 2 ^ 64 → 1 ≤ n ≤ 32 →
  let m0 := store_words m (vd_sq v + 64 * vd_head v) (rw_cmd op cid b lba n) in
  (two_pages ls v m0 ↔ n * ls ≤ page_room b + 4096)
  ∧ (KERNEL_VIRT_BASE ≤ b → 0 < n * ls ≤ page_room b + 4096 → b + Z.min (n * ls) (page_room b) ≤ 2 ^ 64 → data_linear ls v m0)
  ∧ ∀ w, execute ls w v m0 = executed ls w op b lba n v m0.
Proof.
  intros Hop Hc Hb Hl Hn m0.
  destruct (rw_cmd_words op cid b lba n m (vd_sq v + 64 * vd_head v) Hop Hc Hb Hl Hn) as (W0 & W6 & W8 & W10 & W12).
  fold m0 in W0, W6, W8, W10, W12. clearbody m0. unfold two_pages, data_linear, execute, executed, cmd_pointer, cmd_blocks, cmd_phys, cmd_word.
  change (6 + 1) with 7. change (8 + 1) with 9. rewrite W0, W6, W8, W10, W12, (dma_virt_addr b Hb). split_and!; [done| |done].
  intros Hk Hn1 He. split; [|unfold linear, KERNEL_VIRT_BASE; lia]. apply dma_addr_linear; [done|done|].
  unfold page_room. pose proof (Z.mod_pos_bound b 4096 ltac:(lia)). lia.
Qed.

Lemma transfer_in_outside ls b lba n disk m a :
  ¬ touched b (n * ls) a → transfer_in ls b (dma_virt 0) lba n disk m a = m a.
Proof.
  unfold transfer_in, touched, blocks_to_mem. intros Ht.
  destruct (Z.leb_spec (n * ls) (page_room b)); cbv beta zeta; bool_cases; cbn [andb]; first [reflexivity|exfalso; lia].
Qed.

(** Its effect: the queues agree again, and outside them memory changes as the
    command says. *)
Lemma executed_agree w op b lba n q v m :
  agree q v m → queues_ok q → (∀ a, touched b (n * nv_ls) a → ¬ in_queues q a) →
  let e := executed nv_ls w op b lba n v m in
  agree (set_tail ((q_tail q + 1) mod 64) (advanced q)) (fst e) (snd e)
  ∧ ∀ a, ¬ in_queues q a → snd e a = if op =? 2 then transfer_in nv_ls b (dma_virt 0) lba n (vd_disk v) m a else m a.
Proof.
  intros Ha Hq Hb e. set (m1 := if op =? 2 then transfer_in nv_ls b (dma_virt 0) lba n (vd_disk v) m else m).
  assert (∀ a, ¬ touched b (n * nv_ls) a → m1 a = m a) as Hm1.
  { intros a Hna. unfold m1. destruct (op =? 2); [|done]. by apply transfer_in_outside. }
  pose proof (ag_cq _ _ _ Ha) as A2. destruct (ag_head _ _ _ Ha) as [A4 A4'], (ag_phase _ _ _ Ha) as [A5 _], (ag_tail _ _ _ Ha) as [A3 A3'].
  set (m2 := store_le 14 m1 (q_cq q + 16 * q_head q) w).
  assert (snd e = store_le 2 m2 (cqe_status q (q_head q)) (q_phase q)) as Em.
  { cbn [e executed snd]. fold m1. rewrite A2, A4, A5. unfold cqe_status, NVME_CQ_ENTRY_SIZE. by rewrite (Z.mul_comm (q_head q)). }
  rewrite Em. split.
  - apply (agree_complete _ q v); [Z.to_euclidean_division_equations; lia| |done|done|cbn; by rewrite A3|done|done].
    apply agree_entry, (agree_mem q v m); [done|]. intros a Hr. apply Hm1. intros Hin. apply (Hb a Hin). right. lia.
  - intros a Hna. unfold m2. rewrite store_le_outside, store_le_outside; [unfold m1; by destruct (op =? 2)| |];
      intros Hin; apply Hna; right; unfold cqe_status, NVME_CQ_ENTRY_SIZE in Hin; cbn in Hin; lia.
Qed.

(** The controller state the functions rely on. *)
Record ready c d m : Prop := {
  rd_agree : agree (nv_io c) (nv_dev d) m;
  rd_idle : vd_pending (nv_dev d) = false;
  rd_queues : queues_ok (nv_io c);
  rd_sqdb : nvme_sq_db 1 c = nv_sqdb;
  rd_cqdb : nvme_cq_db 1 c = nv_cqdb;
  rd_size : lba_size c = nv_ls ∧ 0 < nv_ls ≤ 2 ^ 20;
  rd_delay : (nv_delay < Z.to_nat NVME_TIMEOUT)%nat;
  rd_cid : 0 ≤ next_cid c < 2 ^ 16;
}.

(** What stays the same of the driver's structure. *)
Definition same_ctrl c c' : Prop := q_sq (nv_io c') = q_sq (nv_io c) ∧ q_cq (nv_io c') = q_cq (nv_io c) ∧ lba_size c' = lba_size c.

(** A read or write whose data is in at most two pages. *)
Lemma submit_two op b lba n c d m :
  ready c d m → op = 1 ∨ op = 2 → 1 ≤ n ≤ 32 → 0 ≤ lba < 2 ^ 64 → KERNEL_VIRT_BASE ≤ b → b + Z.min (n * nv_ls) (page_room b) ≤ 2 ^ 64 →
  n * nv_ls ≤ page_room b + 4096 → (∀ a, touched b (n * nv_ls) a → ¬ in_queues (nv_io c) a) →
  ∃ c' d' m' m0, nvme_submit_io (rw_cmd op (next_cid c) b lba n) (set_cid (u16 (next_cid c + 1)) c) d m = (0, c', d', m')
    ∧ ready c' d' m' ∧ same_ctrl c c' ∧ (∀ a, ¬ in_queues (nv_io c) a → m0 a = m a)
    ∧ vd_disk (nv_dev d') = (if op =? 1 then transfer_out nv_ls b (dma_virt 0) lba n m0 (vd_disk (nv_dev d)) else vd_disk (nv_dev d))
    ∧ ∀ a, ¬ in_queues (nv_io c) a →
        m' a = if op =? 2 then transfer_in nv_ls b (dma_virt 0) lba n (vd_disk (nv_dev d)) m0 a else m0 a.
Proof.
  intros [Ha Hi Hq Hsq Hcq [Hls Hlr] Hdl Hcid] Hop Hn Hl Hb0 Hbe H2 Hb. set (q := nv_io c) in *.
  assert (0 < page_room b) as Hroom by (unfold page_room; pose proof (Z.mod_pos_bound b 4096 ltac:(lia)); lia).
  assert (0 < n * nv_ls) as Hnl by nia. assert (0 ≤ b < 2 ^ 64) as Hb1 by (unfold KERNEL_VIRT_BASE in *; lia).
  unfold nvme_submit_io, nvme_submit. change (nv_io (set_cid _ c)) with q.
  change (nvme_sq_db 1 (set_cid _ c)) with (nvme_sq_db 1 c). change (nvme_cq_db 1 (set_cid _ c)) with (nvme_cq_db 1 c).
  rewrite Hsq, Hcq. destruct Ha as [A1 A2 [A3 A3'] A4 A5 A6] eqn:EA. clear EA.
  set (sq := q_sq q + q_tail q * NVME_SQ_ENTRY_SIZE). set (cmd := rw_cmd op (next_cid c) b lba n).
  set (m0 := store_words m sq cmd). set (t := (q_tail q + 1) mod NVME_QUEUE_DEPTH).
  assert (∀ a, ¬ q_sq q ≤ a < q_sq q + 4096 → m0 a = m a) as Hm0.
  { intros a Hna. apply store_words_outside. change (Z.of_nat (length cmd)) with 16. unfold sq, NVME_SQ_ENTRY_SIZE. lia. }
  assert (agree q (nv_dev d) m0) as Ha0.
  { apply (agree_mem q (nv_dev d) m); [by split|]. intros a Hr. apply Hm0. unfold queues_ok in Hq. lia. }
  unfold wr32. assert (u32 t = t) as -> by (apply u32_small; unfold t, NVME_QUEUE_DEPTH; Z.to_euclidean_division_equations; lia).
  destruct (nv_submit d Hi) as (k & Hk & Esub). rewrite A3 in Esub. change NVME_QUEUE_DEPTH with 64 in *.
  fold t in Esub. set (d1 := mmio_write 4 nv_sqdb t d) in *.
  change {| q_sq := q_sq q; q_cq := q_cq q; q_tail := t; q_head := q_head q; q_phase := q_phase q |} with (set_tail t q).
  destruct (execute_rw op (next_cid c) b lba n nv_ls (dev_pending true 0 (nv_dev d)) m) as (Htp & Hlin & Hex); [lia..|].
  change (vd_sq _ + 64 * vd_head _) with (vd_sq (nv_dev d) + 64 * vd_head (nv_dev d)) in Htp, Hlin, Hex.
  replace (vd_sq (nv_dev d) + 64 * vd_head (nv_dev d)) with sq in Htp, Hlin, Hex by (unfold sq, NVME_SQ_ENTRY_SIZE; lia).
  fold cmd m0 in Htp, Hlin, Hex.
  destruct (poll_spec k (Z.to_nat NVME_TIMEOUT) t q d1 m0) as (w & d2 & E & Ed2);
    [rewrite Esub; by destruct Ha0; split|by rewrite Esub|by rewrite Esub|lia|rewrite Esub; by apply Htp|rewrite Esub; by apply Hlin|].
  cbv zeta in E, Ed2. rewrite E. rewrite Esub in Ed2 |- *. clear E. set (v := dev_pending true 0 _) in *.
  rewrite (Hex w : execute nv_ls w v m0 = _) in Ed2 |- *. eexists _, d2, _, m0. split; [reflexivity|].
  assert (agree q v m0) as Hav by (by destruct Ha0; split).
  destruct (executed_agree w op b lba n q v m0 Hav Hq Hb) as [Hag Hmem].
  split_and!; [|done|intros a Hna; apply Hm0; intros Hin; apply Hna; by left|by rewrite Ed2|exact Hmem].
  rewrite <-Ed2 in Hag. split; cbn [set_io set_cid nv_io next_cid lba_size]; [exact Hag|by rewrite Ed2|exact Hq|exact Hsq|exact Hcq|done|done|].
  unfold u16. apply Z.mod_pos_bound. lia.
Qed.

(** In one page. *)
Lemma submit_rw op b lba n c d m :
  ready c d m → op = 1 ∨ op = 2 → 1 ≤ n ≤ 32 → 0 ≤ lba < 2 ^ 64 → buffer_ok (nv_io c) b (n * nv_ls) →
  ∃ c' d' m', nvme_submit_io (rw_cmd op (next_cid c) b lba n) (set_cid (u16 (next_cid c + 1)) c) d m = (0, c', d', m')
    ∧ ready c' d' m' ∧ same_ctrl c c'
    ∧ (∀ s j, 0 ≤ j < nv_ls → vd_disk (nv_dev d') s j
              = if op =? 1 then mem_to_blocks nv_ls b lba n m (vd_disk (nv_dev d)) s j else vd_disk (nv_dev d) s j)
    ∧ ∀ a, ¬ in_queues (nv_io c) a → m' a = if op =? 2 then blocks_to_mem nv_ls b lba n (vd_disk (nv_dev d)) m a else m a.
Proof.
  intros Hr Hop Hn Hl [Hb0 [Hb1 Hb]]. destruct (rd_size _ _ _ Hr) as [_ Hls].
  destruct (submit_two op b lba n c d m) as (c1 & d1 & m1 & m0 & E & Hr1 & Hs1 & H0' & Hd1 & Hm1); try done; [lia|lia|lia| |].
  { intros a Ht. apply Hb. unfold touched in Ht. lia. }
  exists c1, d1, m1. split_and!; [done|done|done| |].
  - intros s j Hj. rewrite Hd1. unfold transfer_out. rewrite (proj2 (Z.leb_le _ _)) by done. destruct (op =? 1); [|done].
    unfold mem_to_blocks. destruct (Z.leb_spec lba s), (Z.ltb_spec s (lba + n)); cbn [andb]; try done. apply H0', Hb. nia.
  - intros a Hna. rewrite Hm1 by done. unfold transfer_in. rewrite (proj2 (Z.leb_le _ _)) by done.
    unfold blocks_to_mem. by rewrite H0'.
Qed.

(** ** Transfers *)

Lemma buffer_part q b n b' n' : buffer_ok q b n → b ≤ b' → 0 ≤ n' → b' + n' ≤ b + n → buffer_ok q b' n'.
Proof.
  intros (B1 & B2 & B3) Hb Hn He. split_and!; [lia|lia| |intros a Ha; apply B3; lia].
  unfold page_room in *. Z.to_euclidean_division_equations. lia.
Qed.

Lemma same_buffer c c' b n : same_ctrl c c' → buffer_ok (nv_io c) b n → buffer_ok (nv_io c') b n.
Proof. intros (E1 & E2 & _). unfold buffer_ok, in_queues. by rewrite E1, E2. Qed.

Lemma read_loop fuel lba count b c d m :
  ready c d m → 0 ≤ count → (Z.to_nat count < fuel)%nat → 0 ≤ lba → lba + count < 2 ^ 64 → buffer_ok (nv_io c) b (count * nv_ls) →
  ∃ c' d' m', nvme_rw_loop fuel 0x02 lba count b c d m = Some (0, c', d', m') ∧ ready c' d' m' ∧ same_ctrl c c'
    ∧ (∀ s j, 0 ≤ j < nv_ls → vd_disk (nv_dev d') s j = vd_disk (nv_dev d) s j)
    ∧ (∀ i j, 0 ≤ i < count → 0 ≤ j < nv_ls → m' (b + i * nv_ls + j) = vd_disk (nv_dev d) (lba + i) j)
    ∧ ∀ a, ¬ in_queues (nv_io c) a → ¬ b ≤ a < b + count * nv_ls → m' a = m a.
Proof.
  revert lba count b c d m. induction fuel as [|f IH]; intros lba count b c d m Hr Hc Hf Hl Hlc Hb; [lia|]. cbn [nvme_rw_loop].
  destruct (Z.eqb_spec count 0) as [->|Hnz].
  { exists c, d, m. split_and!; [done|done|done|done|intros; lia|done]. }
  destruct (rd_size _ _ _ Hr) as [Els Hls]. unfold nvme_alloc_cid.
  assert (∃ n, (if 32 <? count then 32 else count) = n ∧ 1 ≤ n ≤ 32 ∧ n ≤ count) as (n & -> & Hn & Hnc)
    by (destruct (Z.ltb_spec 32 count); eexists; split; [done|lia|done|lia]).
  destruct (submit_rw 2 b lba n c d m Hr ltac:(by right) Hn ltac:(lia)) as (c1 & d1 & m1 & E & Hr1 & Hs1 & Hd1 & Hm1);
    [eapply buffer_part; [exact Hb|lia|nia|nia]|].
  rewrite E. cbn [Z.eqb Pos.eqb negb] in *. destruct Hs1 as (S1 & S2 & S3) eqn:Es. clear Es. rewrite S3, Els.
  destruct Hb as ([Hb0 Hb1] & Hbp & Hbq). assert (0 ≤ b) by (unfold KERNEL_VIRT_BASE in Hb0; lia). rewrite (u32_small (n * nv_ls)) by nia. rewrite !u64_small by nia.
  destruct (IH (lba + n) (count - n) (b + n * nv_ls) c1 d1 m1 Hr1) as (c2 & d2 & m2 & E2 & Hr2 & Hs2 & Hd2 & Hm2 & Ho2);
    [lia|lia|lia|lia|eapply same_buffer; [by split_and!|]; eapply buffer_part; [by split_and!|nia|nia|nia]|].
  exists c2, d2, m2. split_and!; [done|done| | | |].
  - destruct Hs2 as (? & ? & ?). split_and!; congruence.
  - intros s j Hj. by rewrite Hd2, Hd1.
  - intros i j Hi Hj. destruct (Z.lt_ge_cases i n) as [Hin|Hin].
    + rewrite Ho2 by (unfold in_queues; rewrite ?S1, ?S2; first [apply Hbq; nia|nia]). rewrite Hm1 by (apply Hbq; nia). apply block_byte; lia.
    + replace (b + i * nv_ls + j) with (b + n * nv_ls + (i - n) * nv_ls + j) by nia. rewrite Hm2, Hd1 by lia. f_equal. lia.
  - intros a Hq Ha. rewrite Ho2 by (unfold in_queues in *; rewrite ?S1, ?S2; first [exact Hq|nia]). rewrite Hm1 by done.
    assert (n * nv_ls ≤ count * nv_ls) by nia.
    unfold blocks_to_mem. destruct (Z.leb_spec b a), (Z.ltb_spec a (b + n * nv_ls)); cbn [andb]; done || lia.
Qed.

Lemma write_loop fuel lba count b c d m :
  ready c d m → 0 ≤ count → (Z.to_nat count < fuel)%nat → 0 ≤ lba → lba + count < 2 ^ 64 → buffer_ok (nv_io c) b (count * nv_ls) →
  ∃ c' d' m', nvme_rw_loop fuel 0x01 lba count b c d m = Some (0, c', d', m') ∧ ready c' d' m' ∧ same_ctrl c c'
    ∧ (∀ s j, 0 ≤ j < nv_ls → vd_disk (nv_dev d') s j = mem_to_blocks nv_ls b lba count m (vd_disk (nv_dev d)) s j)
    ∧ ∀ a, ¬ in_queues (nv_io c) a → m' a = m a.
Proof.
  revert lba count b c d m. induction fuel as [|f IH]; intros lba count b c d m Hr Hc Hf Hl Hlc Hb; [lia|]. cbn [nvme_rw_loop].
  destruct (Z.eqb_spec count 0) as [->|Hnz].
  { exists c, d, m. split_and!; [done|done|done| |done]. intros s j Hj. unfold mem_to_blocks. bool_cases; cbn; done || lia. }
  destruct (rd_size _ _ _ Hr) as [Els Hls]. unfold nvme_alloc_cid.
  assert (∃ n, (if 32 <? count then 32 else count) = n ∧ 1 ≤ n ≤ 32 ∧ n ≤ count) as (n & -> & Hn & Hnc)
    by (destruct (Z.ltb_spec 32 count); eexists; split; [done|lia|done|lia]).
  destruct (submit_rw 1 b lba n c d m Hr ltac:(by left) Hn ltac:(lia)) as (c1 & d1 & m1 & E & Hr1 & Hs1 & Hd1 & Hm1);
    [eapply buffer_part; [exact Hb|lia|nia|nia]|].
  rewrite E. cbn [Z.eqb Pos.eqb negb] in *. destruct Hs1 as (S1 & S2 & S3) eqn:Es. clear Es. rewrite S3, Els.
  destruct Hb as ([Hb0 Hb1] & Hbp & Hbq). assert (0 ≤ b) by (unfold KERNEL_VIRT_BASE in Hb0; lia). rewrite (u32_small (n * nv_ls)) by nia. rewrite !u64_small by nia.
  destruct (IH (lba + n) (count - n) (b + n * nv_ls) c1 d1 m1 Hr1) as (c2 & d2 & m2 & E2 & Hr2 & Hs2 & Hd2 & Ho2);
    [lia|lia|lia|lia|eapply same_buffer; [by split_and!|]; eapply buffer_part; [by split_and!|nia|nia|nia]|].
  exists c2, d2, m2. split_and!; [done|done| | |].
  - destruct Hs2 as (? & ? & ?). split_and!; congruence.
  - intros s j Hj. rewrite Hd2 by done. unfold mem_to_blocks. rewrite Hd1 by done. unfold mem_to_blocks.
    destruct (Z.leb_spec lba s), (Z.ltb_spec s (lba + count)), (Z.leb_spec (lba + n) s), (Z.ltb_spec s (lba + n + (count - n))),
      (Z.ltb_spec s (lba + n)); cbn [andb]; try done; try lia.
    replace (b + n * nv_ls + (s - (lba + n)) * nv_ls + j) with (b + (s - lba) * nv_ls + j) by lia.
    apply Hm1, Hbq. nia.
  - intros a Hq. rewrite Ho2 by (unfold in_queues in *; rewrite ?S1, ?S2; exact Hq). by rewrite Hm1.
Qed.


(** ** Properties *)

(** C13: Disk round trip.  On a controller that executes the commands of its queue,
    each after any delay below the driver's patience, blocks written with
    [nvme_blk_write] are what [nvme_blk_read] brings into another buffer, when
    each buffer lies in one page of the kernel's linear map, where the address
    the driver computes is the physical one ([dma_address_not_physical]: memory of
    the heap is not there), and the rings are memory the controller shares.  The
    driver keeps tail, head and phase of the rings in step with the controller:
    both functions leave them ready for the next command.  Other blocks, and
    memory outside the buffer and the rings, keep their contents. *)
Theorem nvme_write_read_roundtrip lba count src dst c d m :
  ready c d m → 0 ≤ count → 0 ≤ lba → lba + count < 2 ^ 64 →
  buffer_ok (nv_io c) src (count * nv_ls) → buffer_ok (nv_io c) dst (count * nv_ls) →
  ∃ c1 d1 m1 c2 d2 m2,
    nvme_blk_write lba count src c d m = Some (0, c1, d1, m1)
    ∧ nvme_blk_read lba count dst c1 d1 m1 = Some (0, c2, d2, m2)
    ∧ ready c2 d2 m2
    ∧ (∀ i, 0 ≤ i < count * nv_ls → m2 (dst + i) = m (src + i))
    ∧ (∀ s j, ¬ lba ≤ s < lba + count → 0 ≤ j < nv_ls → vd_disk (nv_dev d2) s j = vd_disk (nv_dev d) s j)
    ∧ ∀ a, ¬ in_queues (nv_io c) a → ¬ dst ≤ a < dst + count * nv_ls → m2 a = m a.
Proof.
  intros Hr Hc Hl Hlc Hsrc Hdst. unfold nvme_blk_write, nvme_blk_read.
  destruct (write_loop (S (Z.to_nat count)) lba count src c d m Hr) as (c1 & d1 & m1 & E1 & Hr1 & Hs1 & Hd1 & Hm1); [lia|lia|lia|lia|done|].
  destruct (read_loop (S (Z.to_nat count)) lba count dst c1 d1 m1 Hr1) as (c2 & d2 & m2 & E2 & Hr2 & Hs2 & Hd2 & Hb2 & Ho2);
    [lia|lia|lia|lia|by eapply same_buffer|].
  destruct (rd_size _ _ _ Hr) as [_ Hls].
  exists c1, d1, m1, c2, d2, m2. split_and!; [done|done|done| | |].
  - intros i Hi. assert (nv_ls ≠ 0 ∧ 0 < nv_ls) as [Hn0 Hn1] by lia. pose proof (Z.div_mod i nv_ls Hn0) as Ei.
    pose proof (Z.mod_pos_bound i nv_ls Hn1).
    assert (0 ≤ i / nv_ls < count) by (split; [apply Z.div_pos; lia|apply Z.div_lt_upper_bound; nia]).
    replace (dst + i) with (dst + i / nv_ls * nv_ls + i mod nv_ls) by lia. rewrite Hb2, Hd1 by lia. unfold mem_to_blocks.
    rewrite (proj2 (Z.leb_le _ _)), (proj2 (Z.ltb_lt _ _)) by lia. cbn [andb]. f_equal. lia.
  - intros s j Hs Hj. rewrite Hd2, Hd1 by done. unfold mem_to_blocks. bool_cases; cbn; done || lia.
  - intros a Hq Ha. destruct Hs1 as (S1 & S2 & _). rewrite Ho2; [by apply Hm1| |done]. unfold in_queues in *. by rewrite S1, S2.
Qed.

(** C36: Two pages.  The driver never fills in the second data pointer of a command,
    so on a controller that follows the specification a read whose buffer crosses
    a page boundary reports success, but the buffer beyond the boundary keeps its
    old contents and the data overwrites physical memory from address 0 on. *)
Theorem nvme_second_page_misplaced lba n b c d m :
  ready c d m → 1 ≤ n ≤ 32 → 0 ≤ lba < 2 ^ 64 → KERNEL_VIRT_BASE + 4096 ≤ b → b + n * nv_ls < 2 ^ 64 →
  page_room b < n * nv_ls ≤ page_room b + 4096 →
  (∀ a, b ≤ a < b + n * nv_ls ∨ KERNEL_VIRT_BASE ≤ a < KERNEL_VIRT_BASE + 4096 → ¬ in_queues (nv_io c) a) →
  ∃ c' d' m', nvme_blk_read lba n b c d m = Some (0, c', d', m')
    ∧ ∀ i, page_room b ≤ i < n * nv_ls →
        m' (b + i) = m (b + i)
        ∧ m' (KERNEL_VIRT_BASE + (i - page_room b)) = vd_disk (nv_dev d) (lba + i / nv_ls) (i mod nv_ls).
Proof.
  intros Hr Hn Hl Hb Hb1 H2 Hq. destruct (rd_size _ _ _ Hr) as [_ Hls].
  assert (0 ≤ b) by (unfold KERNEL_VIRT_BASE in *; lia).
  assert (0 < page_room b ≤ 4096) as Hroom by (unfold page_room; Z.to_euclidean_division_equations; lia).
  destruct (submit_two 2 b lba n c d m) as (c1 & d1 & m1 & m0 & E & Hr1 & Hs1 & Hm0 & _ & Hm1); try done; [by right|lia|lia|lia| |].
  { intros a Ht. apply Hq. unfold touched in Ht. change (dma_virt 0) with KERNEL_VIRT_BASE in Ht. lia. }
  exists c1, d1, m1. split.
  - unfold nvme_blk_read. destruct (Z.to_nat n) as [|k] eqn:Ek; [lia|]. cbn [nvme_rw_loop].
    rewrite (proj2 (Z.eqb_neq n 0)), (proj2 (Z.ltb_ge 32 n)) by lia. unfold nvme_alloc_cid. rewrite E. cbn [Z.eqb negb].
    by rewrite Z.sub_diag.
  - intros i Hi. rewrite !Hm1 by (apply Hq; lia). cbn [Z.eqb Pos.eqb]. change (dma_virt 0) with KERNEL_VIRT_BASE.
    unfold transfer_in. rewrite (proj2 (Z.leb_gt _ _)) by lia. cbv beta zeta. split.
    + rewrite (proj2 (Z.ltb_ge (b + i) (b + page_room b))), andb_false_r by lia.
      rewrite (proj2 (Z.ltb_ge (b + i) _)), andb_false_r by lia. apply Hm0, Hq. lia.
    + rewrite (proj2 (Z.leb_gt b _)) by lia. cbn [andb]. rewrite (proj2 (Z.leb_le _ _)), (proj2 (Z.ltb_lt _ _)) by lia. cbn [andb].
      by replace (KERNEL_VIRT_BASE + (i - page_room b) - KERNEL_VIRT_BASE + page_room b) with i by lia.
Qed.
End driver.

(** Addresses for the hardware.  The driver computes the address of a buffer for
    the controller by subtracting the base of the kernel's linear map.  Memory from
    [kmalloc] is not in that map: for every block the heap returns the result is
    beyond all memory the frame allocator manages, so it is not the address of the
    frame behind the block. *)
Theorem dma_address_not_physical {A} `{FrameAllocator A} (h : heap A) size_ p h' :
  heap_inv h → 0 < size_ < 2 ^ 38 - 2 ^ 13 → frames_for (request_pages size_) h → kmalloc size_ h = Some (p, h') → p ≠ 0 →
  PMM_MAX_FRAMES * PAGE_SIZE ≤ dma_addr p.
Proof.
  intros Hi Hs Hf E Hp. destruct (kmalloc_spec h size_ Hi Hs Hf) as (p' & h1 & n & E' & Har & Hn & _).
  rewrite E in E'. injection E' as <- <-. destruct (alloc_fresh _ _ _ _ Har Hp) as [Hl _].
  destruct (live_range _ _ _ (ar_inv _ _ _ _ Har) Hl) as (Hb & Hn0 & Hc).
  unfold dma_addr, u64. rewrite <-(Z.mod_add _ 1) by lia. rewrite Z.mod_small.
  - unfold PMM_MAX_FRAMES, PAGE_SIZE, KERNEL_VIRT_BASE, HEAP_VIRT_BASE in *. lia.
  - unfold KERNEL_VIRT_BASE, HEAP_END, HEAP_VIRT_BASE, HEAP_MAX_SIZE in *. lia.
Qed.

Lemma dma_address_not_physical_witness :
  ∃ (h : heap pmm) p h', kmalloc 4096 h = Some (p, h') ∧ PMM_MAX_FRAMES * PAGE_SIZE ≤ dma_addr p.
Proof.
  destruct sample_before_init as (p0 & _ & Hi & Hsz).
  assert (frames_for (request_pages 4096) (sample_heap p0)) as Hf.
  { right. change (request_pages 4096) with 2. lia. }
  destruct (kmalloc_spec (sample_heap p0) 4096 Hi ltac:(lia) Hf) as (p & h' & n & E & _ & _ & Hroom & _).
  exists (sample_heap p0), p, h'. split; [exact E|].
  apply (dma_address_not_physical (sample_heap p0) 4096 p h' Hi); [lia|exact Hf|exact E|].
  intros ->. destruct (Hroom eq_refl) as [He|He]; [rewrite He, size_empty in Hsz; lia|by vm_compute in He].
Defined.

(** ** A sample controller *)

(** The doorbells of queue 1 at 0x1008 and 0x100C, two accesses for a command. *)
#[export] Instance sample_mmio : MmioIO nvme_dev := {|
  mmio_read _ _ d := (0, d);
  mmio_write _ a v d :=
    if (a =? 0x1008) && negb (vd_pending d) && (v =? (vd_head d + 1) mod 64) then dev_pending true 2 d else d |}.

#[export] Instance sample_dma : DmaIO nvme_dev := {|
  dma d m :=
    if vd_pending d then match vd_busy d with S b => (dev_pending true b d, m) | O => execute 512 0 d m end else (d, m) |}.

#[export] Instance sample_disk : NvmeDisk nvme_dev.
Proof.
  refine {| nv_ls := 512; nv_delay := 2; nv_sqdb := 0x1008; nv_cqdb := 0x100C; nv_dev := λ d, d |}.
  - intros d Hp. exists 2%nat. split; [lia|]. cbn [mmio_write sample_mmio]. by rewrite Hp, !Z.eqb_refl.
  - done.
  - intros d m. cbn [dma sample_dma]. destruct (vd_pending d); [|done]. destruct (vd_busy d); [|done].
    destruct (execute 512 0 d m) eqn:E. intros _. exists 0. by rewrite E.
Defined.

Definition sample_ctrl : nvme_ctrl :=
  let q := {| q_sq := KERNEL_VIRT_BASE + 0x10000; q_cq := KERNEL_VIRT_BASE + 0x20000; q_tail := 0; q_head := 0; q_phase := 1 |} in
  {| nv_bar := 0; nv_admin := q; nv_io := q; next_cid := 1; db_stride := 4; ns_size := 0; lba_size := 512; nv_self := 0; nv_blkdev := 0 |}.

Lemma sample_ready disk m :
  (∀ a, KERNEL_VIRT_BASE + 0x20000 ≤ a < KERNEL_VIRT_BASE + 0x20400 → m a = 0) →
  ready sample_ctrl {| vd_sq := KERNEL_VIRT_BASE + 0x10000; vd_cq := KERNEL_VIRT_BASE + 0x20000; vd_head := 0; vd_slot := 0; vd_phase := 1; vd_busy := 0;
                       vd_pending := false; vd_disk := disk |} m.
Proof.
  intros Hm. split; [|reflexivity|left; unfold KERNEL_VIRT_BASE; cbn; lia|reflexivity|reflexivity|cbn; lia|cbn [nv_delay sample_disk]; unfold NVME_TIMEOUT; lia|cbn; lia].
  split; [reflexivity|reflexivity|cbn; lia|cbn; lia|cbn; lia|].
  intros i Hi. cbn [sample_ctrl nv_io q_head q_phase]. rewrite (proj2 (Z.ltb_ge i 0)) by lia.
  unfold load16. rewrite (load_le_ext 2 m (λ _, 0)); [done|]. intros b Hb. apply Hm. unfold cqe_status, NVME_CQ_ENTRY_SIZE in Hb. cbn [sample_ctrl nv_io q_cq] in Hb. cbn in Hb. cbn. lia.
Qed.

Lemma nvme_write_read_roundtrip_witness :
  let m a := if a <? KERNEL_VIRT_BASE + 0x10000 then a mod 256 else 0 in
  let d := {| vd_sq := KERNEL_VIRT_BASE + 0x10000; vd_cq := KERNEL_VIRT_BASE + 0x20000; vd_head := 0; vd_slot := 0; vd_phase := 1; vd_busy := 0; vd_pending := false;
              vd_disk := λ _ _, 0 |} in
  ∃ c1 d1 m1 c2 d2 m2,
    nvme_blk_write 7 8 (KERNEL_VIRT_BASE + 0x1000) sample_ctrl d m = Some (0, c1, d1, m1)
    ∧ nvme_blk_read 7 8 (KERNEL_VIRT_BASE + 0x30000) c1 d1 m1 = Some (0, c2, d2, m2) ∧ m2 (KERNEL_VIRT_BASE + 0x30005) = 5.
Proof.
  intros m d.
  destruct (nvme_write_read_roundtrip 7 8 (KERNEL_VIRT_BASE + 0x1000) (KERNEL_VIRT_BASE + 0x30000) sample_ctrl d m) as (c1 & d1 & m1 & c2 & d2 & m2 & E1 & E2 & _ & Hm & _).
  - apply sample_ready. intros a Ha. unfold m. by rewrite (proj2 (Z.ltb_ge a (KERNEL_VIRT_BASE + 0x10000))) by lia.
  - lia.
  - lia.
  - lia.
  - unfold buffer_ok, in_queues. cbn. unfold KERNEL_VIRT_BASE. split_and!; [lia|lia|by vm_compute|intros; lia].
  - unfold buffer_ok, in_queues. cbn. unfold KERNEL_VIRT_BASE. split_and!; [lia|lia|by vm_compute|intros; lia].
  - exists c1, d1, m1, c2, d2, m2. split_and!; [exact E1|exact E2|]. exact (Hm 5 ltac:(cbn; lia)).
Defined.

Lemma nvme_second_page_misplaced_witness :
  let d := {| vd_sq := KERNEL_VIRT_BASE + 0x10000; vd_cq := KERNEL_VIRT_BASE + 0x20000; vd_head := 0; vd_slot := 0; vd_phase := 1; vd_busy := 0; vd_pending := false;
              vd_disk := λ s _, s |} in
  ∃ c' d' m', nvme_blk_read 100 16 (KERNEL_VIRT_BASE + 0x100000) sample_ctrl d (λ _, 0) = Some (0, c', d', m')
    ∧ m' (KERNEL_VIRT_BASE + 0x101000) = 0 ∧ m' KERNEL_VIRT_BASE = 108.
Proof.
  intros d. destruct (nvme_second_page_misplaced 100 16 (KERNEL_VIRT_BASE + 0x100000) sample_ctrl d (λ _, 0)) as (c1 & d1 & m1 & E & Hm).
  - apply sample_ready. intros. done.
  - lia.
  - lia.
  - unfold KERNEL_VIRT_BASE. lia.
  - by vm_compute.
  - by vm_compute.
  - intros a. unfold in_queues. cbn. unfold KERNEL_VIRT_BASE. lia.
  - exists c1, d1, m1. split; [exact E|]. exact (Hm 4096 ltac:(by vm_compute)).
Defined.
