(* ===== verification/Ahci.v ===== *)
(** Model of kernel/drivers/storage/ahci.c: SATA drives behind an AHCI controller.

    Registers are in device memory; command list, command table and data are in
    the kernel's memory, which the controller accesses on its own.  Bit fields of
    structures in memory are written as the compiler does, by read and write of
    the unit.  Messages on the serial line are left out. *)
From Stdlib Require Import String.
From stdpp Require Import prelude gmap.
From S2P Require Import Prelude CString FrameAlloc Vmm Heap Net Ports Printf Console Pci Ata.

Definition AHCI_GHC_AE : Z := Z.shiftl 1 31.
Definition AHCI_GHC_HR : Z := Z.shiftl 1 0.
Definition AHCI_PORT_CMD_ST : Z := Z.shiftl 1 0.
Definition AHCI_PORT_CMD_FRE : Z := Z.shiftl 1 4.
Definition AHCI_PORT_CMD_FR : Z := Z.shiftl 1 14.
Definition AHCI_PORT_CMD_CR : Z := Z.shiftl 1 15.
Definition AHCI_SSTS_DET_MASK : Z := 0x0F.
Definition AHCI_SSTS_DET_PRES : Z := 3.
Definition AHCI_SIG_SATAPI : Z := 0xEB140101.
Definition AHCI_TFD_ERR : Z := Z.shiftl 1 0.
Definition AHCI_TFD_BSY : Z := Z.shiftl 1 7.
Definition FIS_TYPE_REG_H2D : Z := 0x27.
Definition ATA_CMD_DMA_READ : Z := 0xC8.
Definition ATA_CMD_DMA_WRITE : Z := 0xCA.
Definition ATA_CMD_IDENTIFY_PACKET : Z := 0xA1.
Definition AHCI_MAX_PORTS : Z := 32.

(** ** Structures in memory *)

(** [ahci_port_regs_t]: offsets of the registers of a port. *)
Definition P_CLB : Z := 0x00.
Definition P_CLBU : Z := 0x04.
Definition P_FB : Z := 0x08.
Definition P_FBU : Z := 0x0C.
Definition P_IS : Z := 0x10.
Definition P_CMD : Z := 0x18.
Definition P_TFD : Z := 0x20.
Definition P_SIG : Z := 0x24.
Definition P_SSTS : Z := 0x28.
Definition P_SERR : Z := 0x30.
Definition P_CI : Z := 0x38.

(** [ahci_hba_t]. *)
Definition HBA_GHC : Z := 0x04.
Definition HBA_PI : Z := 0x0C.
Definition hba_port (hba n : Z) : Z := hba + 0x100 + n * 0x80.

(** [ahci_cmd_table_t]: the command, and one region of data after 128 bytes. *)
Definition CMD_TABLE_SIZE : Z := 144.
Definition CT_PRD : Z := 128.

(** [ahci_cmd_hdr_t]: cfl is bits 0 to 4 and w bit 6 of the first half word. *)
Definition hdr_set_cfl (h v : Z) (m : mem) : mem := store16 m h (Z.lor (Z.land (load16 m h) (Z.lnot 0x1F)) (Z.land v 0x1F)).
Definition hdr_set_w (h v : Z) (m : mem) : mem :=
  store16 m h (Z.lor (Z.land (load16 m h) (Z.lnot 0x40)) (Z.shiftl (Z.land v 1) 6)).
Definition hdr_set_prdtl (h v : Z) (m : mem) : mem := store16 m (h + 2) v.
Definition hdr_set_prdbc (h v : Z) (m : mem) : mem := store_le 4 m (h + 4) v.
Definition hdr_set_ctba (h lo hi : Z) (m : mem) : mem := store_le 4 (store_le 4 m (h + 8) lo) (h + 12) hi.

(** [ahci_prd_t]: dbc is bits 0 to 21 and i bit 31 of the last word. *)
Definition prd_set (ct b dbc : Z) (m : mem) : mem :=
  let m := store_le 4 m (ct + CT_PRD) (u32 (Z.land (dma_addr b) 0xFFFFFFFF)) in
  let m := store_le 4 m (ct + CT_PRD + 4) (u32 (Z.shiftr (dma_addr b) 32)) in
  let a := ct + CT_PRD + 12 in
  let m := store_le 4 m a (Z.lor (Z.land (load_le 4 m a) (Z.lnot 0x3FFFFF)) (Z.land dbc 0x3FFFFF)) in
  store_le 4 m a (Z.lor (Z.land (load_le 4 m a) (Z.lnot (2 ^ 31))) (2 ^ 31)).

(** [ahci_fis_h2d_t] at the start of the table: type, the command bit, command. *)
Definition fis_start (ct command : Z) (m : mem) : mem :=
  let m := upd m ct FIS_TYPE_REG_H2D in
  let m := upd m (ct + 1) (Z.lor (Z.land (m (ct + 1)) 0x7F) 0x80) in
  upd m (ct + 2) command.

Definition fis_lba (ct lba sectors : Z) (m : mem) : mem :=
  let m := upd m (ct + 4) (u8 (Z.land lba 0xFF)) in
  let m := upd m (ct + 5) (u8 (Z.land (Z.shiftr lba 8) 0xFF)) in
  let m := upd m (ct + 6) (u8 (Z.land (Z.shiftr lba 16) 0xFF)) in
  let m := upd m (ct + 7) (Z.shiftl 1 6) in
  let m := upd m (ct + 8) (u8 (Z.land (Z.shiftr lba 24) 0xFF)) in
  let m := upd m (ct + 9) (u8 (Z.land (Z.shiftr lba 32) 0xFF)) in
  let m := upd m (ct + 10) (u8 (Z.land (Z.shiftr lba 40) 0xFF)) in
  store16 m (ct + 12) (u16 sectors).

(** The header of slot 0 for a command with one region. *)
Definition hdr_start (h w : Z) (m : mem) : mem := hdr_set_prdbc h 0 (hdr_set_prdtl h 1 (hdr_set_w h w (hdr_set_cfl h 5 m))).

(** [ap_self] and [ap_blkdev] are the addresses of the structure and of its block device. *)
Record ahci_port := {
  ap_num : Z;
  ap_present : bool;
  ap_atapi : bool;
  ap_model : Z → Z;
  ap_sectors : Z;
  ap_regs : Z;
  ap_cmd_list : Z;
  ap_cmd_table : Z;
  ap_fis_buf : Z;
  ap_self : Z;
  ap_blkdev : Z;
}.

Record ahci_state := { hba : Z; ports : Z → ahci_port; port_count : Z }.

Section driver.
Context {D : Type} `{DmaIO D}.
Implicit Types (d : D) (m : mem) (p : Z) (dp : ahci_port).

(** ** Registers *)

Definition set_bits (a bits : Z) d : D := let '(v, d) := rd32 a d in wr32 a (Z.lor v bits) d.
Definition clear_bits (a bits : Z) d : D := let '(v, d) := rd32 a d in wr32 a (Z.land v (u32 (Z.lnot bits))) d.

(** [while ((reg & bits) && n--);] *)
Fixpoint bits_wait (n : nat) (a bits : Z) d : D :=
  let '(v, d) := rd32 a d in
  if Z.land v bits =? 0 then d else match n with O => d | S n => bits_wait n a bits d end.

Definition port_stop p d : D :=
  let d := clear_bits (p + P_CMD) AHCI_PORT_CMD_ST d in
  let d := bits_wait (Z.to_nat 500000) (p + P_CMD) AHCI_PORT_CMD_CR d in
  let d := clear_bits (p + P_CMD) AHCI_PORT_CMD_FRE d in
  bits_wait (Z.to_nat 500000) (p + P_CMD) AHCI_PORT_CMD_FR d.

(** [while (p->cmd & AHCI_PORT_CMD_CR);] *)
Fixpoint cr_wait (fuel : nat) p d : option D :=
  match fuel with
  | O => None
  | S n => let '(v, d) := rd32 (p + P_CMD) d in if Z.land v AHCI_PORT_CMD_CR =? 0 then Some d else cr_wait n p d
  end.

Definition port_start (fuel : nat) p d : option D :=
  d ← cr_wait fuel p d;
  Some (set_bits (p + P_CMD) AHCI_PORT_CMD_ST (set_bits (p + P_CMD) AHCI_PORT_CMD_FRE d)).

(** ** Commands *)

(** The polling loop of [ahci_issue]: whether it returned on a task file error,
    and [timeout] after it. *)
Fixpoint ci_poll (n : nat) p d m : bool * Z * D * mem :=
  match n with
  | O => (false, u32 (-1), d, m)
  | S n =>
      let '(d, m) := dma d m in
      let '(ci, d) := rd32 (p + P_CI) d in
      if Z.land ci 1 =? 0 then (false, Z.of_nat n, d, m)
      else
        let '(is_, d) := rd32 (p + P_IS) d in
        if negb (Z.land is_ (Z.shiftl 1 30) =? 0) then (true, Z.of_nat n, d, m) else ci_poll n p d m
  end.

(** Command table and header of a transfer. *)
Definition build_cmd dp (write : bool) (lba sectors buf : Z) m : mem :=
  let ct := ap_cmd_table dp in
  let m := memset ct 0 CMD_TABLE_SIZE m in
  let m := fis_lba ct lba sectors (fis_start ct (if write then ATA_CMD_DMA_WRITE else ATA_CMD_DMA_READ) m) in
  let m := prd_set ct buf (u32 (u32 (sectors * 512) - 1)) m in
  hdr_start (ap_cmd_list dp) (if write then 1 else 0) m.

Definition ahci_issue dp (write : bool) (lba sectors buf : Z) d m : Z * D * mem :=
  let p := ap_regs dp in
  let m := build_cmd dp write lba sectors buf m in
  let d := wr32 (p + P_IS) 0xFFFFFFFF d in
  let d := wr32 (p + P_CI) 1 d in
  let '(err, timeout, d, m) := ci_poll (Z.to_nat 1000000) p d m in
  if err then (-1, d, m)
  else if timeout =? 0 then (-1, d, m)
  else
    let '(tfd, d) := rd32 (p + P_TFD) d in
    (if negb (Z.land tfd (Z.lor AHCI_TFD_ERR AHCI_TFD_BSY) =? 0) then -1 else 0, d, m).

(** [while (count > 0)]: a round takes at least one sector. *)
Fixpoint ahci_rw_loop (fuel : nat) dp (write : bool) (lba count b : Z) d m : option (Z * D * mem) :=
  match fuel with
  | O => None
  | S f =>
      if count =? 0 then Some (0, d, m)
      else
        let n := if 127 <? count then 127 else count in
        let '(r, d, m) := ahci_issue dp write lba n b d m in
        if negb (r =? 0) then Some (-1, d, m)
        else ahci_rw_loop f dp write (u64 (lba + n)) (count - n) (u64 (b + n * 512)) d m
  end.

Definition ahci_blk_read dp (lba count buf : Z) := ahci_rw_loop (S (Z.to_nat count)) dp false lba count buf.
Definition ahci_blk_write dp (lba count buf : Z) := ahci_rw_loop (S (Z.to_nat count)) dp true lba count buf.

(** ** Identification *)

Context {A : Type} `{FrameOps A}.
Implicit Types (h : heap A) (x : ahci_state).

(** [while ((p->ci & 1) && n--);] *)
Fixpoint ci_wait (n : nat) p d m : D * mem :=
  let '(d, m) := dma d m in
  let '(v, d) := rd32 (p + P_CI) d in
  if Z.land v 1 =? 0 then (d, m) else match n with O => (d, m) | S n => ci_wait n p d m end.

(** The 256 words the drive returned. *)
Definition ident_words (ident : Z) m : list Z := map (λ k, load16 m (ident + 2 * Z.of_nat k)) (seq 0 256).

Definition set_ident (atapi : bool) (w : list Z) dp : ahci_port :=
  let big := negb (Z.land (Z.shiftr (word w 83) 10) 1 =? 0) in
  {| ap_num := ap_num dp; ap_present := ap_present dp; ap_atapi := atapi;
     ap_model := trim_model 40 (ident_model w);
     ap_sectors :=
       if big then
         Z.lor (Z.lor (Z.lor (u64 (Z.shiftl (word w 103) 48)) (u64 (Z.shiftl (word w 102) 32)))
                      (u64 (Z.shiftl (word w 101) 16))) (word w 100)
       else Z.lor (u32 (Z.shiftl (word w 61) 16)) (word w 60);
     ap_regs := ap_regs dp; ap_cmd_list := ap_cmd_list dp; ap_cmd_table := ap_cmd_table dp; ap_fis_buf := ap_fis_buf dp;
     ap_self := ap_self dp; ap_blkdev := ap_blkdev dp |}.

Definition ahci_identify_port dp d h : option (ahci_port * D * heap A) :=
  '(ident, h) ← kzalloc 512 h;
  if ident =? 0 then Some (dp, d, h)
  else
    let p := ap_regs dp in
    let ct := ap_cmd_table dp in
    let m := memset ct 0 CMD_TABLE_SIZE (hp_mem h) in
    let '(sig, d) := rd32 (p + P_SIG) d in
    let is_satapi := sig =? AHCI_SIG_SATAPI in
    let m := upd (fis_start ct (if is_satapi then ATA_CMD_IDENTIFY_PACKET else ATA_CMD_IDENTIFY) m) (ct + 7) 0 in
    let m := hdr_start (ap_cmd_list dp) 0 (prd_set ct ident 511 m) in
    let d := wr32 (p + P_IS) 0xFFFFFFFF d in
    let d := wr32 (p + P_CI) 1 d in
    let '(d, m) := ci_wait (Z.to_nat 1000000) p d m in
    h ← kfree ident (set_hmem h m);
    Some (set_ident is_satapi (ident_words ident m) dp, d, h).

(** ** Initialisation *)

Definition set_port (pnum p cl ct fb : Z) dp : ahci_port :=
  {| ap_num := pnum; ap_present := true; ap_atapi := ap_atapi dp; ap_model := ap_model dp; ap_sectors := ap_sectors dp;
     ap_regs := p; ap_cmd_list := cl; ap_cmd_table := ct; ap_fis_buf := fb; ap_self := ap_self dp; ap_blkdev := ap_blkdev dp |}.

(** The two words of an address in registers. *)
Definition wr_addr (a b : Z) d : D :=
  wr32 (a + 4) (u32 (Z.shiftr (dma_addr b) 32)) (wr32 a (u32 (Z.land (dma_addr b) 0xFFFFFFFF)) d).

(** [p->reg = p->reg;] *)
Definition write_back (a : Z) d : D := let '(v, d) := rd32 a d in wr32 a v d.

(** The command table is not checked for NULL. *)
Definition port_init (fuel : nat) (pnum : Z) x d h : option (bool * ahci_state * D * heap A) :=
  let p := hba_port (hba x) pnum in
  let '(ssts, d) := rd32 (p + P_SSTS) d in
  if negb (Z.land ssts AHCI_SSTS_DET_MASK =? AHCI_SSTS_DET_PRES) then Some (false, x, d, h)
  else
    let d := port_stop p d in
    '(cl, h) ← kzalloc 1024 h;
    if cl =? 0 then Some (false, x, d, h)
    else
      let d := wr_addr (p + P_CLB) cl d in
      '(fb, h) ← kzalloc 256 h;
      if fb =? 0 then h ← kfree cl h; Some (false, x, d, h)
      else
        let d := wr_addr (p + P_FB) fb d in
        '(ct, h) ← kzalloc (CMD_TABLE_SIZE + 128) h;
        let ct := ALIGN_UP ct 128 in
        let m := hdr_set_ctba cl (u32 (Z.land (dma_addr ct) 0xFFFFFFFF)) (u32 (Z.shiftr (dma_addr ct) 32)) (hp_mem h) in
        let h := set_hmem h m in
        let d := write_back (p + P_IS) (write_back (p + P_SERR) d) in
        d ← port_start fuel p d;
        dp ← aget AHCI_MAX_PORTS (ports x) (port_count x);
        Some (true, {| hba := hba x; ports := upd (ports x) (port_count x) (set_port pnum p cl ct fb dp);
                       port_count := port_count x |}, d, h).

(** The address of the local array [name]. *)
Context (name : Z).

Definition ahci_blkdev dp m : option block_device :=
  s ← str_bytes 16 (at_ptr m name) 0;
  Some {| bd_name := s; bd_sector_count := ap_sectors dp; bd_sector_size := 512; bd_read_only := false;
          bd_private := ap_self dp; bd_ops := Blk_ahci |}.

Definition ahci_register dp (n : Z) h (blk : blkdevs_state) : option (heap A * blkdevs_state) :=
  '(_, m) ← ksnprintf name BLKDEV_NAME_LEN (bytes "sata%d") [VInt n] (hp_mem h);
  bd ← ahci_blkdev dp m;
  let blk := {| bd_store := <[ap_blkdev dp := bd]> (bd_store blk); blkdevs := blkdevs blk; blkdev_cnt := blkdev_cnt blk |} in
  '(_, blk) ← blkdev_register (ap_blkdev dp) blk;
  Some (set_hmem h m, blk).

(** A round of the loop over the 32 ports. *)
Definition ahci_probe (fuel : nat) (pi pnum : Z) x d h blk : option (ahci_state * D * heap A * blkdevs_state) :=
  if Z.land pi (u32 (Z.shiftl 1 pnum)) =? 0 then Some (x, d, h, blk)
  else
    '(ok, x, d, h) ← port_init fuel pnum x d h;
    if negb (ok : bool) then Some (x, d, h, blk)
    else
      '(ok, x, d, h) ← port_init fuel pnum x d h;
      if negb (ok : bool) then Some (x, d, h, blk)
      else
        '(dp, d, h) ← ahci_identify_port (ports x (port_count x)) d h;
        let x := {| hba := hba x; ports := upd (ports x) (port_count x) dp; port_count := port_count x |} in
        '(h, blk) ← (if negb (ap_atapi dp) && (0 <? ap_sectors dp) then ahci_register dp (port_count x) h blk else Some (h, blk));
        Some ({| hba := hba x; ports := ports x; port_count := port_count x + 1 |}, d, h, blk).

Fixpoint ahci_probe_loop (n : nat) (fuel : nat) (pi pnum : Z) x d h blk : option (ahci_state * D * heap A * blkdevs_state) :=
  match n with
  | O => Some (x, d, h, blk)
  | S n => '(x, d, h, blk) ← ahci_probe fuel pi pnum x d h blk; ahci_probe_loop n fuel pi (pnum + 1) x d h blk
  end.

Definition ahci_init `{PortIO D} (fuel : nat) (pc : pci D) x h blk : option (bool * ahci_state * D * heap A * blkdevs_state) :=
  match pci_find_class 0x01 0x06 pc with
  | None => Some (false, x, pc_dev pc, h, blk)
  | Some i =>
      let pdev := pci_devices pc i in
      let d := pci_enable_memory_space pdev (pci_enable_bus_master pdev (pc_dev pc)) in
      '(bar, v) ← pci_map_bar pdev 5 (hp_vm h);
      let h := set_vm h v (hp_mem h) in
      let x := {| hba := bar; ports := ports x; port_count := port_count x |} in
      if bar =? 0 then Some (false, x, d, h, blk)
      else
        let d := set_bits (bar + HBA_GHC) AHCI_GHC_AE d in
        let d := set_bits (bar + HBA_GHC) AHCI_GHC_HR d in
        let d := bits_wait (Z.to_nat 1000000) (bar + HBA_GHC) AHCI_GHC_HR d in
        let d := set_bits (bar + HBA_GHC) AHCI_GHC_AE d in
        let '(pi, d) := rd32 (bar + HBA_PI) d in
        '(x, d, h, blk) ← ahci_probe_loop 32 fuel pi 0 {| hba := bar; ports := ports x; port_count := 0 |} d h blk;
        Some (0 <? port_count x, x, d, h, blk)
  end.
End driver.
