(* ===== verification/AhciProps.v ===== *)
(** The block device functions of kernel/drivers/storage/ahci.c on a drive that
    executes 28-bit DMA commands. *)
From stdpp Require Import prelude gmap.
From S2P Require Import Prelude CString FrameAlloc Vmm Heap Net Ports Console Pci Ata Ahci.

(** ** A reference port *)

(** The kernel's addresses of the memory the controller has for the command list and
    for received FISes, whether slot 0 is issued and for how many accesses to
    memory, and the sectors. *)
Record ahci_dev := {
  hd_clb : Z;
  hd_fb : Z;
  hd_busy : nat;
  hd_pending : bool;
  hd_disk : Z → Z → Z;
}.

Definition dev_state (p : bool) (b : nat) (disk : Z → Z → Z) (v : ahci_dev) : ahci_dev :=
  {| hd_clb := hd_clb v; hd_fb := hd_fb v; hd_busy := b; hd_pending := p; hd_disk := disk |}.

(** A pointer of two words: a physical address, and the kernel's address of it in the
    linear map. *)
Definition phys_pointer (m : mem) (a : Z) : Z := load_le 4 m a + 2 ^ 32 * load_le 4 m (a + 4).
Definition pointer (m : mem) (a : Z) : Z := dma_virt (phys_pointer m a).

(** The command table of slot 0. *)
Definition table (v : ahci_dev) (m : mem) : Z := pointer m (hd_clb v + 8).

(** Slot 0 holds READ DMA or WRITE DMA of [n] sectors from [lba] on with one region
    of data at [buf].  The commands have 28 bits of address: three bytes and the low
    half of the device byte; the other three bytes are not part of them.  Table and
    data are in physical memory that the kernel sees in its linear map. *)
Record dma_command (v : ahci_dev) (m : mem) (write : bool) (lba n buf : Z) : Prop := {
  dc_length : load16 m (hd_clb v) mod 32 = 5;
  dc_write : load16 m (hd_clb v) / 64 mod 2 = (if write then 1 else 0);
  dc_regions : load16 m (hd_clb v + 2) = 1;
  dc_type : m (table v m) = 0x27;
  dc_bit : Z.testbit (m (table v m + 1)) 7 = true;
  dc_code : m (table v m + 2) = (if write then 0xCA else 0xC8);
  dc_mode : Z.testbit (m (table v m + 7)) 6 = true;
  dc_lba : lba = m (table v m + 4) + 2 ^ 8 * m (table v m + 5) + 2 ^ 16 * m (table v m + 6) + 2 ^ 24 * (m (table v m + 7) mod 16);
  dc_count : 1 ≤ n ≤ 255 ∧ m (table v m + 12) = n;
  dc_buf : buf = pointer m (table v m + 128);
  dc_bytes : load_le 4 m (table v m + 140) mod 2 ^ 22 + 1 = n * 512;
  dc_linear : linear (phys_pointer m (hd_clb v + 8)) 144 ∧ linear (phys_pointer m (table v m + 128)) (n * 512);
}.

(** The port at [ah_regs]: it finishes a command at the latest after [ah_delay]
    further accesses, transfers the data, counts the bytes in the header and stores
    a FIS; the status has then no error.  Nothing is said of other commands. *)
Class AhciDisk (D : Type) `{DmaIO D} := {
  ah_regs : Z;
  ah_delay : nat;
  ah_dev : D → ahci_dev;
  ah_ci d : let '(v, d') := rd32 (ah_regs + P_CI) d in ah_dev d' = ah_dev d ∧ Z.land v 1 = (if hd_pending (ah_dev d) then 1 else 0);
  ah_is d : let '(v, d') := rd32 (ah_regs + P_IS) d in ah_dev d' = ah_dev d ∧ Z.land v (2 ^ 30) = 0;
  ah_tfd d : hd_pending (ah_dev d) = false →
    let '(v, d') := rd32 (ah_regs + P_TFD) d in ah_dev d' = ah_dev d ∧ Z.land v 0x81 = 0;
  ah_clear d v : ah_dev (mmio_write 4 (ah_regs + P_IS) v d) = ah_dev d;
  ah_issue d : hd_pending (ah_dev d) = false →
    ∃ b, (b ≤ ah_delay)%nat ∧ ah_dev (mmio_write 4 (ah_regs + P_CI) 1 d) = dev_state true b (hd_disk (ah_dev d)) (ah_dev d);
  ah_dma d m :
    let v := ah_dev d in
    let '(d', m') := dma d m in
    if hd_pending v then
      match hd_busy v with
      | S b => ah_dev d' = dev_state true b (hd_disk v) v ∧ m' = m
      | O => ∀ write lba n buf, dma_command v m write lba n buf →
          ah_dev d' = dev_state false 0 (if write then mem_to_blocks 512 buf lba n m (hd_disk v) else hd_disk v) v
          ∧ ∀ a, ¬ hd_clb v + 4 ≤ a < hd_clb v + 8 → ¬ hd_fb v ≤ a < hd_fb v + 256 →
              m' a = if write then m a else blocks_to_mem 512 buf lba n (hd_disk v) m a
      end
    else ah_dev d' = v ∧ m' = m;
}.

Section driver.
Context {D : Type} `{AhciDisk D}.
Implicit Types (d : D) (dp : ahci_port) (m : mem).

(** ** The command in memory *)

(** Memory of the driver that a command uses. *)
Definition in_areas dp (a : Z) : Prop :=
  ap_cmd_list dp ≤ a < ap_cmd_list dp + 1024 ∨ ap_cmd_table dp ≤ a < ap_cmd_table dp + 144 ∨ ap_fis_buf dp ≤ a < ap_fis_buf dp + 256.

Definition apart (a n b k : Z) : Prop := a + n ≤ b ∨ b + k ≤ a.

Record areas_ok dp : Prop := {
  ar_list_table : apart (ap_cmd_list dp) 1024 (ap_cmd_table dp) 144;
  ar_list_fis : apart (ap_cmd_list dp) 1024 (ap_fis_buf dp) 256;
  ar_table_fis : apart (ap_cmd_table dp) 144 (ap_fis_buf dp) 256;
}.

(** A byte through the writes of [build_cmd]. *)
Ltac peel :=
  repeat first
    [ rewrite upd_eq
    | rewrite upd_ne by lia
    | rewrite store_le_outside by (cbn; lia)
    | rewrite memset_outside by lia
    | rewrite memset_inside by lia ].

(** The two bit fields of the header. *)
Lemma header_fields h w m :
  let m' := hdr_start h w m in
  0 ≤ w < 2 → load16 m' h mod 32 = 5 ∧ load16 m' h / 64 mod 2 = w ∧ load16 m' (h + 2) = 1.
Proof.
  intros m' Hw. unfold m', hdr_start, hdr_set_prdbc, hdr_set_prdtl, hdr_set_w, hdr_set_cfl, load16, store16. set (x := load_le 2 m h).
  rewrite !(load_store_le_ne 4 2) by (cbn; lia). rewrite (load_store_le_ne 2 2 _ _ h) by (cbn; lia). rewrite !load_store_le_eq.
  change (2 ^ (8 * Z.of_nat 2)) with (2 ^ 16). change (1 mod 2 ^ 16) with 1. set (y := Z.lor _ (Z.land 5 31) mod 2 ^ 16).
  assert (∀ v i, 0 ≤ i < 16 → Z.testbit (v mod 2 ^ 16) i = Z.testbit v i) as Hb by (intros; apply Z.mod_pow2_bits_low; lia).
  split_and!; [| |done].
  - change 32 with (2 ^ 5). rewrite <-(Z.land_ones _ 5) by lia. apply Z.bits_inj'. intros i Hi.
    rewrite Z.land_spec. destruct (Z.lt_ge_cases i 5) as [Hlt|Hge].
    + rewrite Z.ones_spec_low, andb_true_r, Hb, Z.lor_spec, Z.land_spec, Z.shiftl_spec_low, orb_false_r by lia.
      unfold y. rewrite Hb, Z.lor_spec, Z.land_spec by lia.
      assert (i = 0 ∨ i = 1 ∨ i = 2 ∨ i = 3 ∨ i = 4) as Hc by lia.
      by destruct Hc as [-> | [-> | [-> | [-> | ->]]]]; rewrite andb_false_r.
    + rewrite Z.ones_spec_high, andb_false_r by lia. symmetry. apply (Z.bits_above_log2 5); cbn; lia.
  - replace (_ / 64 mod 2) with (Z.b2z (Z.testbit (Z.lor (Z.land y (Z.lnot 0x40)) (Z.shiftl (Z.land w 1) 6) mod 2 ^ 16) 6))
      by (rewrite Z.testbit_spec' by lia; done).
    rewrite Hb, Z.lor_spec, Z.land_spec, Z.shiftl_spec by lia. rewrite andb_false_r. cbn [orb].
    assert (w = 0 ∨ w = 1) as [-> | ->] by lia; done.
Qed.

Lemma hdr_start_outside h w m a : ¬ h ≤ a < h + 8 → hdr_start h w m a = m a.
Proof. intros Ha. unfold hdr_start, hdr_set_prdbc, hdr_set_prdtl, hdr_set_w, hdr_set_cfl, store16. by peel. Qed.

Lemma prd_set_outside ct b n m a : ¬ ct + 128 ≤ a < ct + 144 → prd_set ct b n m a = m a.
Proof. intros Ha. unfold prd_set, CT_PRD. by peel. Qed.

(** The region: its address, and its length in a word that was zero. *)
Lemma prd_set_region ct b n m :
  0 ≤ b < 2 ^ 64 → 0 ≤ n < 2 ^ 22 → load_le 4 m (ct + 140) = 0 →
  phys_pointer (prd_set ct b n m) (ct + 128) = dma_addr b ∧ load_le 4 (prd_set ct b n m) (ct + 140) mod 2 ^ 22 = n.
Proof.
  intros Hb Hn Hz. unfold prd_set, CT_PRD. set (m1 := store_le 4 (store_le 4 m _ _) _ _).
  replace (ct + 128 + 12) with (ct + 140) by lia. split.
  - unfold phys_pointer. rewrite !(load_store_le_ne 4 4 _ (ct + 140)) by (cbn; lia). unfold m1.
    rewrite (load_store_le_ne 4 4 _ (ct + 128 + 4)) by (cbn; lia). rewrite !load_store_le_eq.
    change (2 ^ (8 * Z.of_nat 4)) with (2 ^ 32). by apply words_join, u64_range.
  - rewrite !load_store_le_eq. assert (load_le 4 m1 (ct + 140) = 0) as -> by (unfold m1; rewrite !load_store_le_ne by (cbn; lia); done).
    change (2 ^ (8 * Z.of_nat 4)) with (2 ^ 32). rewrite Z.land_0_l, Z.lor_0_l. change 0x3FFFFF with (Z.ones 22).
    rewrite Z.land_ones by lia. rewrite (Z.mod_small n (2 ^ 22)), (Z.mod_small n (2 ^ 32)) by lia.
    rewrite <-!Z.land_ones by lia. apply Z.bits_inj'. intros i Hi.
    rewrite !Z.land_spec, Z.lor_spec, Z.land_spec, Z.lnot_spec by lia. rewrite Z.pow2_bits_eqb by lia.
    destruct (Z.lt_ge_cases i 22) as [Hlt|Hge].
    + rewrite !Z.ones_spec_low by lia. destruct (Z.eqb_spec 31 i); [lia|]. cbn [negb]. by rewrite !andb_true_r, orb_false_r.
    + rewrite (Z.ones_spec_high 22) by lia. rewrite andb_false_r. symmetry. by apply (testbit_high n 22); lia.
Qed.

(** The command as the drive reads it: the sector address loses all but 24 bits. *)
Lemma fis_bytes ct code lba n m :
  0 ≤ lba < 2 ^ 64 → 1 ≤ n ≤ 127 →
  let m' := fis_lba ct lba n (fis_start ct code (memset ct 0 144 m)) in
  (m' ct = 0x27 ∧ Z.testbit (m' (ct + 1)) 7 = true ∧ m' (ct + 2) = code ∧ m' (ct + 7) = 0x40)
  ∧ m' (ct + 4) + 2 ^ 8 * m' (ct + 5) + 2 ^ 16 * m' (ct + 6) = lba mod 2 ^ 24
  ∧ m' (ct + 12) = n ∧ load_le 4 m' (ct + 140) = 0 ∧ ∀ a, ¬ ct ≤ a < ct + 144 → m' a = m a.
Proof.
  intros Hl Hn m'. unfold m', fis_lba, fis_start, store16.
  assert (∀ k, u8 (Z.land (Z.shiftr lba (8 * k)) 0xFF) = Z.shiftr lba (8 * k) mod 2 ^ 8) as Hbyte.
  { intros k. change 0xFF with (Z.ones 8). rewrite Z.land_ones by lia. apply u8_small. Z.to_euclidean_division_equations; lia. }
  split_and!.
  - by peel.
  - by peel.
  - by peel.
  - by peel.
  - peel. rewrite (Hbyte 1 : u8 (Z.land (Z.shiftr lba 8) 0xFF) = _), (Hbyte 2 : u8 (Z.land (Z.shiftr lba 16) 0xFF) = _).
    rewrite (Hbyte 0 : u8 (Z.land lba 0xFF) = _). rewrite !Z.shiftr_div_pow2 by lia. Z.to_euclidean_division_equations; lia.
  - change 2%nat with (S 1). cbn [store_le]. peel. rewrite u16_small by lia. apply Z.mod_small. lia.
  - rewrite (load_le_ext 4 _ (λ _, 0)); [done|]. intros a Ha. cbn in Ha. by peel.
  - intros a Ha. by peel.
Qed.

Lemma pointer_ext m m' a : (∀ b, a ≤ b < a + 8 → m' b = m b) → phys_pointer m' a = phys_pointer m a.
Proof. intros He. unfold phys_pointer. by rewrite !(load_le_ext 4 m' m) by (intros b Hb; cbn in Hb; apply He; lia). Qed.

(** Memory in the linear map. *)
Definition in_map (b n : Z) : Prop := KERNEL_VIRT_BASE ≤ b ∧ b + n < 2 ^ 64.

Lemma in_map_virt b n : in_map b n → 0 < n → dma_virt (dma_addr b) = b ∧ linear (dma_addr b) n.
Proof.
  intros [H1' H2'] Hn. split; [apply dma_virt_addr; unfold KERNEL_VIRT_BASE in H1'; lia|apply dma_addr_linear; lia].
Qed.

Lemma build_cmd_spec v dp write lba n buf m :
  areas_ok dp → hd_clb v = ap_cmd_list dp → phys_pointer m (ap_cmd_list dp + 8) = dma_addr (ap_cmd_table dp) →
  in_map (ap_cmd_table dp) 144 → 0 ≤ lba < 2 ^ 64 → 1 ≤ n ≤ 127 → in_map buf (n * 512) →
  let m0 := build_cmd dp write lba n buf m in
  dma_command v m0 write (lba mod 2 ^ 24) n buf ∧ phys_pointer m0 (ap_cmd_list dp + 8) = dma_addr (ap_cmd_table dp)
  ∧ ∀ a, ¬ in_areas dp a → m0 a = m a.
Proof.
  intros [Hlt _ _] Hv Hp Htm Hl Hn Hbm m0. unfold apart in Hlt.
  assert (0 ≤ buf < 2 ^ 64) as Hb by (unfold in_map, KERNEL_VIRT_BASE in Hbm; lia).
  destruct (in_map_virt _ _ Htm ltac:(lia)) as [Ect Lct], (in_map_virt _ _ Hbm ltac:(lia)) as [Ebuf Lbuf]. set (ct := ap_cmd_table dp) in *. set (cl := ap_cmd_list dp) in *.
  set (m1 := fis_lba ct lba n (fis_start ct (if write then ATA_CMD_DMA_WRITE else ATA_CMD_DMA_READ) (memset ct 0 144 m))).
  assert (m0 = hdr_start cl (if write then 1 else 0) (prd_set ct buf (u32 (u32 (n * 512) - 1)) m1)) as E0 by done.
  rewrite (u32_small (n * 512)), u32_small in E0 by lia.
  destruct (fis_bytes ct (if write then ATA_CMD_DMA_WRITE else ATA_CMD_DMA_READ) lba n m Hl Hn) as ((F0 & F1 & F2 & F7) & FL & FC & FZ & FO).
  fold m1 in F0, F1, F2, F7, FL, FC, FZ, FO.
  destruct (prd_set_region ct buf (n * 512 - 1) m1 Hb ltac:(lia) FZ) as [R1 R2].
  set (m2 := prd_set ct buf (n * 512 - 1) m1) in *.
  destruct (header_fields cl (if write then 1 else 0) m2 ltac:(by destruct write)) as (G1 & G2 & G3). rewrite <-E0 in G1, G2, G3.
  assert (∀ a, ¬ cl ≤ a < cl + 8 → m0 a = m2 a) as H02 by (intros a Ha; rewrite E0; by apply hdr_start_outside).
  assert (∀ a, ¬ ct ≤ a < ct + 144 → m2 a = m a) as H2m.
  { intros a Ha. unfold m2. rewrite prd_set_outside by lia. by apply FO. }
  assert (phys_pointer m0 (cl + 8) = dma_addr ct) as Hp0.
  { rewrite <-Hp. apply pointer_ext. intros b Hbr. rewrite H02 by lia. apply H2m. lia. }
  assert (table v m0 = ct) as Ht by (unfold table, pointer; by rewrite Hv, Hp0).
  assert (phys_pointer m0 (ct + 128) = dma_addr buf) as Hpb.
  { rewrite <-R1. apply pointer_ext. intros b Hbr. apply H02. lia. }
  assert (∀ k, 0 ≤ k < 128 → m0 (ct + k) = m1 (ct + k)) as Hk.
  { intros k Hk. rewrite H02 by lia. unfold m2. by rewrite prd_set_outside by lia. }
  split_and!; [|exact Hp0|].
  - clearbody m0 m2 m1. apply Build_dma_command; rewrite ?Ht, ?Hv; [exact G1|exact G2|exact G3|..].
    + rewrite <-(Z.add_0_r ct), Hk, Z.add_0_r by lia. exact F0.
    + by rewrite Hk by lia.
    + rewrite Hk, F2 by lia. by destruct write.
    + by rewrite Hk, F7 by lia.
    + rewrite !Hk, F7, FL by lia. change (0x40 mod 16) with 0. lia.
    + rewrite Hk by lia. split; [lia|exact FC].
    + unfold pointer. by rewrite Hpb.
    + rewrite (load_le_ext 4 m0 m2) by (intros b Hbr; cbn in Hbr; apply H02; lia). rewrite R2. lia.
    + by rewrite Hp0, Hpb.
  - intros a Ha. unfold in_areas in Ha. fold cl ct in Ha. rewrite H02, H2m by lia. done.
Qed.

(** ** One command *)

(** What a transfer does to the sectors and to memory. *)
Definition new_disk (write : bool) (buf lba n : Z) (disk : Z → Z → Z) m : Z → Z → Z :=
  if write then mem_to_blocks 512 buf lba n m disk else disk.
Definition new_mem (write : bool) (buf lba n : Z) (disk : Z → Z → Z) m : mem :=
  if write then m else blocks_to_mem 512 buf lba n disk m.

(** Polling: the drive finishes, and the driver sees it before its last round. *)
Lemma ci_poll_spec b n d m write lba cnt buf :
  let v := ah_dev d in
  hd_pending v = true → hd_busy v = b → (S b < n)%nat → dma_command v m write lba cnt buf →
  ∃ t d' m', ci_poll n ah_regs d m = (false, t, d', m') ∧ t ≠ 0
    ∧ ah_dev d' = dev_state false 0 (new_disk write buf lba cnt (hd_disk v) m) v
    ∧ ∀ a, ¬ hd_clb v + 4 ≤ a < hd_clb v + 8 → ¬ hd_fb v ≤ a < hd_fb v + 256 → m' a = new_mem write buf lba cnt (hd_disk v) m a.
Proof.
  revert n d. induction b as [|b IH]; intros n d v Hp Hb Hn Hc; (destruct n as [|n]; [lia|]); cbn [ci_poll];
    pose proof (ah_dma d m) as Hd; cbv zeta in Hd; fold v in Hd; rewrite Hp, Hb in Hd; destruct (dma d m) as [d1 m1].
  - destruct (Hd _ _ _ _ Hc) as [E1 Hm]. clear Hd. pose proof (ah_ci d1) as Hci. destruct (rd32 _ d1) as [ci d2]. destruct Hci as [E2 ->].
    rewrite E1 in E2 |- *. cbn [dev_state hd_pending Z.eqb]. exists (Z.of_nat n), d2, m1. split_and!; [done|lia|exact E2|].
    intros a H1' H2'. rewrite Hm by done. by destruct write.
  - destruct Hd as [E1 ->]. pose proof (ah_ci d1) as Hci. destruct (rd32 _ d1) as [ci d2]. destruct Hci as [E2 ->].
    rewrite E1 in E2 |- *. cbn [dev_state hd_pending Z.eqb].
    pose proof (ah_is d2) as His. destruct (rd32 _ d2) as [is_ d3]. destruct His as [E3 E3'].
    change (Z.shiftl 1 30) with (2 ^ 30). rewrite E3'. cbn [Z.eqb negb].
    rewrite E2 in E3. destruct (IH n d3) as (t & d' & m' & E & Ht & Ed & Hm); [by rewrite E3|by rewrite E3|lia|by rewrite E3; destruct Hc; split|].
    rewrite E3 in Ed, Hm. exists t, d', m'. split_and!; [exact E|exact Ht|exact Ed|exact Hm].
Qed.

(** Driver and drive agree on the memory of the port. *)
Record ready dp d m : Prop := {
  rd_regs : ap_regs dp = ah_regs;
  rd_list : hd_clb (ah_dev d) = ap_cmd_list dp;
  rd_fis : hd_fb (ah_dev d) = ap_fis_buf dp;
  rd_table : phys_pointer m (ap_cmd_list dp + 8) = dma_addr (ap_cmd_table dp);
  rd_map : in_map (ap_cmd_table dp) 144;
  rd_idle : hd_pending (ah_dev d) = false;
  rd_areas : areas_ok dp;
  rd_delay : Z.of_nat ah_delay < 999999;
}.

(** A buffer of [n] bytes in the linear map, apart from the port's memory. *)
Definition buffer_ok dp (b n : Z) : Prop := in_map b n ∧ ∀ a, b ≤ a < b + n → ¬ in_areas dp a.

Lemma blocks_to_mem_outside ls buf lba n disk m a : ¬ buf ≤ a < buf + n * ls → blocks_to_mem ls buf lba n disk m a = m a.
Proof. intros Ha. unfold blocks_to_mem. bool_cases; cbn [andb]; first [reflexivity|exfalso; lia]. Qed.

Lemma issue_spec dp write lba n buf d m :
  ready dp d m → 0 ≤ lba < 2 ^ 64 → 1 ≤ n ≤ 127 → buffer_ok dp buf (n * 512) →
  ∃ d' m', ahci_issue dp write lba n buf d m = (0, d', m') ∧ ready dp d' m'
    ∧ (∀ s j, 0 ≤ j < 512 → hd_disk (ah_dev d') s j = new_disk write buf (lba mod 2 ^ 24) n (hd_disk (ah_dev d)) m s j)
    ∧ ∀ a, ¬ in_areas dp a → m' a = new_mem write buf (lba mod 2 ^ 24) n (hd_disk (ah_dev d)) m a.
Proof.
  intros [R1 R2 R3 R4 RM R5 R6 R7] Hl Hn [Hb0 Hb]. unfold ahci_issue. rewrite R1. unfold wr32.
  change (u32 1) with 1. change (u32 0xFFFFFFFF) with 0xFFFFFFFF.
  set (d1 := mmio_write 4 (ah_regs + P_IS) _ d). assert (ah_dev d1 = ah_dev d) as E1 by apply ah_clear.
  destruct (ah_issue d1) as (k & Hk & E2); [by rewrite E1|]. set (d2 := mmio_write 4 (ah_regs + P_CI) 1 d1) in *. rewrite E1 in E2.
  destruct (build_cmd_spec (ah_dev d2) dp write lba n buf m R6) as (Hc & Hp & Hm0); [by rewrite E2|done|done|done|done|done|].
  set (m0 := build_cmd dp write lba n buf m) in *. clearbody m0.
  assert (∃ N, Z.to_nat 1000000 = N ∧ (S k < N)%nat) as (N & -> & HN) by (eexists; split; [reflexivity|lia]).
  destruct (ci_poll_spec k N d2 m0 write (lba mod 2 ^ 24) n buf) as (t & d3 & m3 & E & Ht & E3 & Hm3);
    [by rewrite E2|by rewrite E2|done|done|].
  rewrite E. rewrite (proj2 (Z.eqb_neq t 0) Ht). cbn match. rewrite E2 in E3, Hm3. cbn [dev_state hd_clb hd_fb hd_disk] in E3, Hm3.
  pose proof (ah_tfd d3) as Htf. destruct (rd32 _ d3) as [tfd d4]. destruct Htf as [E4 E4']; [by rewrite E3|].
  change (Z.lor AHCI_TFD_ERR AHCI_TFD_BSY) with 0x81. rewrite E4'. cbn [Z.eqb negb]. rewrite E3 in E4.
  destruct R6 as [Q1 Q2 Q3] eqn:EQ. clear EQ. unfold apart in Q1, Q2, Q3. rewrite R2, R3 in Hm3.
  assert (∀ a, in_areas dp a → new_mem write buf (lba mod 2 ^ 24) n (hd_disk (ah_dev d)) m0 a = m0 a) as Hnew.
  { intros a Ha. destruct write; [done|]. cbn [new_mem]. apply blocks_to_mem_outside. intros Hin. exact (Hb a Hin Ha). }
  exists d4, m3. split_and!; [done| | |].
  - split; [done|by rewrite E4|by rewrite E4| |done|by rewrite E4|done|done].
    rewrite <-Hp. apply pointer_ext. intros a Ha. rewrite Hm3 by lia. apply Hnew. left. lia.
  - intros s j Hj. rewrite E4. cbn [hd_disk dev_state]. unfold new_disk. destruct write; [|done]. unfold mem_to_blocks.
    destruct (Z.leb_spec (lba mod 2 ^ 24) s), (Z.ltb_spec s (lba mod 2 ^ 24 + n)); cbn [andb]; try reflexivity. apply Hm0, Hb. lia.
  - intros a Ha. rewrite Hm3 by (unfold in_areas in Ha; lia). unfold new_mem. destruct write; [by apply Hm0|].
    unfold blocks_to_mem. by rewrite Hm0.
Qed.

(** ** Transfers *)

Lemma port_buffer_part dp b n b' n' : buffer_ok dp b n → b ≤ b' → b' + n' ≤ b + n → buffer_ok dp b' n'.
Proof. intros (B1 & B2) Hb He. split; [unfold in_map in *; lia|]. intros a Ha. apply B2. lia. Qed.

Lemma new_disk_app write b L n k disk disk1 m m1 s j :
  0 ≤ n → 0 ≤ k → 0 ≤ j < 512 →
  (∀ s j, 0 ≤ j < 512 → disk1 s j = new_disk write b L n disk m s j) →
  (write = true → ∀ a, b ≤ a < b + (n + k) * 512 → m1 a = m a) →
  new_disk write (b + n * 512) (L + n) k disk1 m1 s j = new_disk write b L (n + k) disk m s j.
Proof.
  intros Hn Hk Hj Hd Hm. unfold new_disk in *. destruct write; [|by apply Hd].
  rewrite <-(mem_to_blocks_app 512 b L n k m m1); [|done|done|done|intros a Ha; apply (Hm eq_refl); lia].
  unfold mem_to_blocks at 1 2. by rewrite Hd.
Qed.

(** The loop moves [count] sectors from sector [L] on, which is [lba] without its
    bits from 24 on. *)
Lemma rw_loop fuel write L lba count b dp d m :
  ready dp d m → 0 ≤ count → (Z.to_nat count < fuel)%nat → 0 ≤ lba → lba + count < 2 ^ 64 →
  (count ≠ 0 → lba mod 2 ^ 24 = L) → L + count ≤ 2 ^ 24 → buffer_ok dp b (count * 512) →
  ∃ d' m', ahci_rw_loop fuel dp write lba count b d m = Some (0, d', m') ∧ ready dp d' m'
    ∧ (∀ s j, 0 ≤ j < 512 → hd_disk (ah_dev d') s j = new_disk write b L count (hd_disk (ah_dev d)) m s j)
    ∧ ∀ a, ¬ in_areas dp a → m' a = new_mem write b L count (hd_disk (ah_dev d)) m a.
Proof.
  revert L lba count b d m. induction fuel as [|f IH]; intros L lba count b d m Hr Hc Hf Hl Hlc HL HLc Hb; [lia|]. cbn [ahci_rw_loop].
  destruct (Z.eqb_spec count 0) as [->|Hnz].
  { exists d, m. split_and!; [done|done| |].
    - intros s j Hj. unfold new_disk, mem_to_blocks. destruct write; [|done]. bool_cases; cbn [andb]; first [reflexivity|lia].
    - intros a Ha. unfold new_mem. destruct write; [done|]. by rewrite blocks_to_mem_outside by lia. }
  specialize (HL Hnz).
  assert (∃ n, (if 127 <? count then 127 else count) = n ∧ 1 ≤ n ≤ 127 ∧ n ≤ count) as (n & -> & Hn & Hnc)
    by (destruct (Z.ltb_spec 127 count); eexists; split; [done|lia|done|lia]).
  destruct (issue_spec dp write lba n b d m Hr ltac:(lia) Hn) as (d1 & m1 & E & Hr1 & Hd1 & Hm1); [eapply port_buffer_part; [exact Hb|lia|lia]|].
  rewrite E. cbn [Z.eqb negb]. rewrite HL in Hd1, Hm1. destruct Hb as [[Hb0 Hb1] Hbq] eqn:EHb. clear EHb.
  assert (0 ≤ b) by (unfold KERNEL_VIRT_BASE in Hb0; lia). rewrite !u64_small by lia.
  destruct (IH (L + n) (lba + n) (count - n) (b + n * 512) d1 m1 Hr1) as (d2 & m2 & E2 & Hr2 & Hd2 & Hm2);
    [lia|lia|lia|lia| |lia|eapply port_buffer_part; [exact Hb|lia|lia]|].
  { intros Hne. rewrite <-HL. Z.to_euclidean_division_equations. lia. }
  exists d2, m2. split_and!; [exact E2|exact Hr2| |]; replace count with (n + (count - n)) by lia.
  - intros s j Hj. rewrite Hd2 by done. replace (n + (count - n) - n) with (count - n) by lia. apply new_disk_app; [lia|lia|done|done|].
    intros -> a Ha. rewrite Hm1 by (apply Hbq; lia). done.
  - intros a Ha. rewrite Hm2 by done. unfold new_mem in *. replace (n + (count - n) - n) with (count - n) by lia.
    destruct write; [by apply Hm1|]. rewrite <-(blocks_to_mem_app 512 b L n (count - n)) by lia.
    unfold blocks_to_mem at 1 2. rewrite Hm1 by done. rewrite Hd1 by (apply Z.mod_pos_bound; lia). done.
Qed.

(** ** Properties *)

(** The two functions, for a range of sectors that does not cross a multiple of 2^24. *)
Lemma blk_write_spec lba count b dp d m :
  ready dp d m → 0 ≤ count → 0 ≤ lba → lba + count < 2 ^ 64 → lba mod 2 ^ 24 + count ≤ 2 ^ 24 → buffer_ok dp b (count * 512) →
  ∃ d' m', ahci_blk_write dp lba count b d m = Some (0, d', m') ∧ ready dp d' m'
    ∧ (∀ s j, 0 ≤ j < 512 → hd_disk (ah_dev d') s j = mem_to_blocks 512 b (lba mod 2 ^ 24) count m (hd_disk (ah_dev d)) s j)
    ∧ ∀ a, ¬ in_areas dp a → m' a = m a.
Proof. intros Hr Hc Hl Hlc HL Hb. by apply (rw_loop (S (Z.to_nat count)) true); try lia. Qed.

Lemma blk_read_spec lba count b dp d m :
  ready dp d m → 0 ≤ count → 0 ≤ lba → lba + count < 2 ^ 64 → lba mod 2 ^ 24 + count ≤ 2 ^ 24 → buffer_ok dp b (count * 512) →
  ∃ d' m', ahci_blk_read dp lba count b d m = Some (0, d', m') ∧ ready dp d' m'
    ∧ (∀ s j, 0 ≤ j < 512 → hd_disk (ah_dev d') s j = hd_disk (ah_dev d) s j)
    ∧ ∀ a, ¬ in_areas dp a → m' a = blocks_to_mem 512 b (lba mod 2 ^ 24) count (hd_disk (ah_dev d)) m a.
Proof. intros Hr Hc Hl Hlc HL Hb. by apply (rw_loop (S (Z.to_nat count)) false); try lia. Qed.

(** C14: Disk round trip.  On a drive that executes 28-bit DMA commands, each after
    any delay below the driver's patience, sectors below 2^24 written with
    [ahci_blk_write] are what [ahci_blk_read] brings into another buffer, for any
    number of sectors: header, command and region that the driver builds for every
    127 sectors are those of the transfer.  Buffers and command table lie in the
    kernel's linear map, where the address the driver computes is the physical one
    (memory of the heap, which [port_init] uses, does not), and the command list is
    memory the controller shares.  Other sectors, and memory outside the buffer
    and the port's structures, keep their contents. *)
Theorem ahci_write_read_roundtrip lba count src dst dp d m :
  ready dp d m → 0 ≤ count → 0 ≤ lba → lba + count ≤ 2 ^ 24 →
  buffer_ok dp src (count * 512) → buffer_ok dp dst (count * 512) →
  ∃ d1 m1 d2 m2,
    ahci_blk_write dp lba count src d m = Some (0, d1, m1)
    ∧ ahci_blk_read dp lba count dst d1 m1 = Some (0, d2, m2)
    ∧ ready dp d2 m2
    ∧ (∀ i, 0 ≤ i < count * 512 → m2 (dst + i) = m (src + i))
    ∧ (∀ s j, ¬ lba ≤ s < lba + count → 0 ≤ j < 512 → hd_disk (ah_dev d2) s j = hd_disk (ah_dev d) s j)
    ∧ ∀ a, ¬ in_areas dp a → ¬ dst ≤ a < dst + count * 512 → m2 a = m a.
Proof.
  intros Hr Hc Hl Hlc Hsrc Hdst. destruct (decide (count = 0)) as [->|Hnz].
  { exists d, m, d, m. split_and!; try done. lia. }
  assert (lba mod 2 ^ 24 = lba) as EL by (apply Z.mod_small; lia).
  destruct (blk_write_spec lba count src dp d m Hr) as (d1 & m1 & E1 & Hr1 & Hd1 & Hm1); [lia..|done|].
  destruct (blk_read_spec lba count dst dp d1 m1 Hr1) as (d2 & m2 & E2 & Hr2 & Hd2 & Hm2); [lia..|done|]. rewrite EL in Hd1, Hm2.
  exists d1, m1, d2, m2. split_and!; [exact E1|exact E2|exact Hr2| | |].
  - intros i Hi. rewrite Hm2 by (apply Hdst; lia). pose proof (Z.div_mod i 512 ltac:(lia)) as Ei. pose proof (Z.mod_pos_bound i 512 ltac:(lia)).
    replace (dst + i) with (dst + i / 512 * 512 + i mod 512) by lia. rewrite block_byte by lia. rewrite Hd1 by lia. unfold mem_to_blocks.
    rewrite (proj2 (Z.leb_le _ _)), (proj2 (Z.ltb_lt _ _)) by lia. cbn [andb]. f_equal. lia.
  - intros s j Hs Hj. rewrite Hd2, Hd1 by done. unfold mem_to_blocks. bool_cases; cbn [andb]; first [reflexivity|lia].
  - intros a Hq Ha. rewrite Hm2 by done. rewrite blocks_to_mem_outside by done. by apply Hm1.
Qed.

(** C37: Large drives.  The driver issues commands with 28 bits of sector address but
    puts bits 24 to 47 into bytes that are not part of them.  A write to a sector
    from 2^24 on, with buffer and table in the linear map, reports success, overwrites the sector with the same low 24 bits
    and leaves the requested sector as it was. *)
Theorem ahci_high_sector_misplaced lba b dp d m :
  ready dp d m → 2 ^ 24 ≤ lba < 2 ^ 64 - 1 → buffer_ok dp b 512 →
  ∃ d' m', ahci_blk_write dp lba 1 b d m = Some (0, d', m')
    ∧ ∀ j, 0 ≤ j < 512 →
        hd_disk (ah_dev d') (lba mod 2 ^ 24) j = m (b + j) ∧ hd_disk (ah_dev d') lba j = hd_disk (ah_dev d) lba j.
Proof.
  intros Hr Hl Hb. pose proof (Z.mod_pos_bound lba (2 ^ 24) ltac:(lia)).
  destruct (blk_write_spec lba 1 b dp d m Hr) as (d1 & m1 & E1 & _ & Hd1 & _); [lia..|done|].
  exists d1, m1. split; [exact E1|]. intros j Hj. rewrite !Hd1 by done. unfold mem_to_blocks.
  rewrite (proj2 (Z.leb_le _ _)), (proj2 (Z.ltb_lt _ _)) by lia. rewrite (proj2 (Z.ltb_ge lba _)), andb_false_r by lia. cbn [andb].
  split; [f_equal; lia|reflexivity].
Qed.
End driver.

(** ** A sample port *)

(** Registers from address 0 on, two accesses for a command. *)
#[export] Instance sample_port_mmio : MmioIO ahci_dev := {|
  mmio_read _ a v := (if a =? P_CI then if hd_pending v then 1 else 0 else if a =? P_TFD then 0x50 else 0, v);
  mmio_write _ a w v := if (a =? P_CI) && negb (hd_pending v) then dev_state true 2 (hd_disk v) v else v |}.

Definition sample_execute (v : ahci_dev) (m : mem) : ahci_dev * mem :=
  let ct := table v m in
  let write := m (ct + 2) =? 0xCA in
  let lba := m (ct + 4) + 2 ^ 8 * m (ct + 5) + 2 ^ 16 * m (ct + 6) + 2 ^ 24 * (m (ct + 7) mod 16) in
  let n := m (ct + 12) in
  let buf := pointer m (ct + 128) in
  (dev_state false 0 (if write then mem_to_blocks 512 buf lba n m (hd_disk v) else hd_disk v) v,
   if write then m else blocks_to_mem 512 buf lba n (hd_disk v) m).

#[export] Instance sample_port_dma : DmaIO ahci_dev := {|
  dma v m := if hd_pending v then match hd_busy v with S b => (dev_state true b (hd_disk v) v, m) | O => sample_execute v m end else (v, m) |}.

#[export] Instance sample_sata : AhciDisk ahci_dev.
Proof.
  refine {| ah_regs := 0; ah_delay := 2; ah_dev := λ v, v |}.
  - intros v. by destruct v as [? ? ? [] ?].
  - done.
  - done.
  - done.
  - intros v Hp. exists 2%nat. split; [lia|]. cbn [mmio_write sample_port_mmio]. by rewrite Hp.
  - intros v m. cbn [dma sample_port_dma]. destruct (hd_pending v); [|done]. destruct (hd_busy v); [|done].
    destruct (sample_execute v m) as [v' m'] eqn:E. intros write lba n buf [_ _ _ _ _ Hw _ -> [_ Hn] -> _ _].
    unfold sample_execute in E. rewrite Hw, Hn in E. injection E as <- <-. by destruct write.
Defined.

Definition sample_port : ahci_port :=
  {| ap_num := 0; ap_present := true; ap_atapi := false; ap_model := λ _, 0; ap_sectors := 2 ^ 32; ap_regs := 0;
     ap_cmd_list := KERNEL_VIRT_BASE + 0x10000; ap_cmd_table := KERNEL_VIRT_BASE + 0x20000; ap_fis_buf := KERNEL_VIRT_BASE + 0x30000; ap_self := 0; ap_blkdev := 0 |}.

(** The pointer to the command table, as [port_init] leaves it. *)
Definition sample_mem : mem :=
  let ct := dma_addr (KERNEL_VIRT_BASE + 0x20000) in
  hdr_set_ctba (KERNEL_VIRT_BASE + 0x10000) (u32 (Z.land ct 0xFFFFFFFF)) (u32 (Z.shiftr ct 32)) (λ a, a mod 256).

Definition sample_dev : ahci_dev := {| hd_clb := KERNEL_VIRT_BASE + 0x10000; hd_fb := KERNEL_VIRT_BASE + 0x30000; hd_busy := 0; hd_pending := false; hd_disk := λ _ _, 0 |}.

Lemma sample_port_ready : ready sample_port sample_dev sample_mem.
Proof.
  split; [reflexivity|reflexivity|reflexivity|by vm_compute|by vm_compute|reflexivity| |cbn [ah_delay sample_sata]; lia].
  split; unfold apart; cbn; unfold KERNEL_VIRT_BASE; lia.
Qed.

Lemma ahci_write_read_roundtrip_witness :
  ∃ d1 m1 d2 m2, ahci_blk_write sample_port 1000 200 (KERNEL_VIRT_BASE + 0x40000) sample_dev sample_mem = Some (0, d1, m1)
    ∧ ahci_blk_read sample_port 1000 200 (KERNEL_VIRT_BASE + 0x80000) d1 m1 = Some (0, d2, m2) ∧ m2 (KERNEL_VIRT_BASE + 0x80005) = 5.
Proof.
  destruct (ahci_write_read_roundtrip 1000 200 (KERNEL_VIRT_BASE + 0x40000) (KERNEL_VIRT_BASE + 0x80000) sample_port sample_dev sample_mem)
    as (d1 & m1 & d2 & m2 & E1 & E2 & _ & Hm & _).
  - exact sample_port_ready.
  - lia.
  - lia.
  - lia.
  - unfold buffer_ok, in_map, in_areas. cbn. unfold KERNEL_VIRT_BASE. split; [lia|intros a Ha; lia].
  - unfold buffer_ok, in_map, in_areas. cbn. unfold KERNEL_VIRT_BASE. split; [lia|intros a Ha; lia].
  - exists d1, m1, d2, m2. split_and!; [exact E1|exact E2|]. exact (Hm 5 ltac:(lia)).
Defined.

Lemma ahci_high_sector_misplaced_witness :
  ∃ d' m', ahci_blk_write sample_port 0x1000003 1 (KERNEL_VIRT_BASE + 0x40000) sample_dev sample_mem = Some (0, d', m')
    ∧ hd_disk d' 3 7 = 7 ∧ hd_disk d' 0x1000003 7 = 0.
Proof.
  destruct (ahci_high_sector_misplaced 0x1000003 (KERNEL_VIRT_BASE + 0x40000) sample_port sample_dev sample_mem) as (d1 & m1 & E1 & Hd).
  - exact sample_port_ready.
  - lia.
  - unfold buffer_ok, in_map, in_areas. cbn. unfold KERNEL_VIRT_BASE. split; [lia|intros a Ha; lia].
  - exists d1, m1. split; [exact E1|]. exact (Hd 7 ltac:(lia)).
Defined.
