(* ===== verification/Hda.v ===== *)
(** Model of kernel/drivers/audio/hda.c: reset of the audio controller and the
    speaker, which is all the driver uses.  The driver sleeps through the scheduler,
    so its functions run on the kernel's state.  Messages on the serial line are
    left out.

    Properties: the functions once the scheduler runs. *)
From stdpp Require Import prelude gmap.
From S2P Require Import Prelude FrameAlloc Vmm Heap Sched SchedInv Vfs Ports Syscall Pci.

Definition HDA_VENDOR_ICH6 : Z := 0x8086.
Definition HDA_DEVICE_ICH6 : Z := 0x2668.
Definition HDA_GCAP : Z := 0x00.
Definition HDA_VMIN : Z := 0x02.
Definition HDA_VMAJ : Z := 0x03.
Definition HDA_GCTL : Z := 0x08.
Definition HDA_IMMEDIATE_CMD : Z := 0x60.
Definition HDA_IMMEDIATE_RESP : Z := 0x64.
Definition HDA_IMMEDIATE_STS : Z := 0x68.
Definition HDA_GCTL_CRST : Z := Z.shiftl 1 0.

Section driver.
Context {D : Type} `{PortIO D} `{MmioIO D} {A : Type} `{FrameOps A}.
Implicit Types (d : D) (k : kern A).

Definition hda_read32 (hda_mmio off : Z) d : Z * D := rd32 (hda_mmio + off) d.
Definition hda_write32 (hda_mmio off v : Z) d : D := wr32 (hda_mmio + off) v d.
Definition hda_read16 (hda_mmio off : Z) d : Z * D := rd16 (hda_mmio + off) d.
Definition hda_write16 (hda_mmio off v : Z) d : D := wr16 (hda_mmio + off) v d.
Definition hda_read8 (hda_mmio off : Z) d : Z * D := rd8 (hda_mmio + off) d.
Definition hda_write8 (hda_mmio off v : Z) d : D := wr8 (hda_mmio + off) v d.

(** The tone: channel 2 of the timer, switched to the speaker for a while. *)
Definition pcspeaker_beep (freq_hz duration_ms : Z) d k : option (D * kern A) :=
  if freq_hz =? 0 then Some (d, k)
  else
    let divisor := 1193180 / freq_hz in
    let d := outb 0x43 0xB6 d in
    let d := outb 0x42 (u8 (Z.land divisor 0xFF)) d in
    let d := outb 0x42 (u8 (Z.land (Z.shiftr divisor 8) 0xFF)) d in
    let '(tmp, d) := inb 0x61 d in
    let d := outb 0x61 (u8 (Z.lor tmp 0x03)) d in
    k ← timer_sleep_ms duration_ms k;
    let '(tmp, d) := inb 0x61 d in
    Some (outb 0x61 (u8 (Z.land tmp (Z.lnot 0x03))) d, k).

(** [while (!(hda_read16(IMMEDIATE_STS) & bit) && t--);] *)
Fixpoint ics_wait (n : nat) (hda_mmio bit : Z) d : D :=
  let '(v, d) := hda_read16 hda_mmio HDA_IMMEDIATE_STS d in
  if Z.land v bit =? 0 then match n with O => d | S n => ics_wait n hda_mmio bit d end else d.

Definition hda_icmd (hda_mmio verb : Z) d : Z * D :=
  let d := ics_wait (Z.to_nat 100000) hda_mmio 0x01 d in
  let d := hda_write32 hda_mmio HDA_IMMEDIATE_CMD verb d in
  let d := hda_write16 hda_mmio HDA_IMMEDIATE_STS 0x01 d in
  let d := ics_wait (Z.to_nat 100000) hda_mmio 0x02 d in
  hda_read32 hda_mmio HDA_IMMEDIATE_RESP d.

(** [while (((read(GCTL) & CRST) != 0) == set && t--);] *)
Fixpoint crst_wait (n : nat) (set : bool) (hda_mmio : Z) d : D :=
  let '(v, d) := hda_read32 hda_mmio HDA_GCTL d in
  if eqb (negb (Z.land v HDA_GCTL_CRST =? 0)) set then match n with O => d | S n => crst_wait n set hda_mmio d end else d.

(** The device [hda_init] looks for. *)
Definition hda_find (p : pci D) : option Z :=
  match pci_find_class 0x04 0x03 p with
  | Some i => Some i
  | None => pci_find_device HDA_VENDOR_ICH6 HDA_DEVICE_ICH6 p
  end.

(** From the reset on; the version is only printed. *)
Definition hda_start (hda_mmio : Z) d k : option (bool * D * kern A) :=
  let d := hda_write32 hda_mmio HDA_GCTL 0 d in
  let d := crst_wait (Z.to_nat 1000000) true hda_mmio d in
  k ← timer_sleep_ms 1 k;
  let d := hda_write32 hda_mmio HDA_GCTL HDA_GCTL_CRST d in
  let d := crst_wait (Z.to_nat 1000000) false hda_mmio d in
  k ← timer_sleep_ms 1 k;
  let '(gcap, d) := hda_read16 hda_mmio HDA_GCAP d in
  let '(vmaj, d) := hda_read8 hda_mmio HDA_VMAJ d in
  let '(vmin, d) := hda_read8 hda_mmio HDA_VMIN d in
  '(d, k) ← pcspeaker_beep 440 100 d k;
  Some (true, d, k).

(** The answer comes with [hda_mmio]. *)
Definition hda_init (p : pci D) (hda_mmio : Z) k : option (bool * Z * D * kern A) :=
  match hda_find p with
  | None => Some (false, hda_mmio, pc_dev p, k)
  | Some i =>
      let pdev := pci_devices p i in
      let d := pci_enable_memory_space pdev (pci_enable_bus_master pdev (pc_dev p)) in
      '(bar, v) ← pci_map_bar pdev 0 (hp_vm (k_heap k));
      let k := set_kheap (set_vm (k_heap k) v (hp_mem (k_heap k))) k in
      if bar =? 0 then Some (false, bar, d, k)
      else '(ok, d, k) ← hda_start bar d k; Some (ok, bar, d, k)
  end.

Definition hda_play_beep (freq_hz duration_ms : Z) d k : option (Z * D * kern A) :=
  '(d, k) ← pcspeaker_beep freq_hz duration_ms d k; Some (0, d, k).
End driver.

Section faults.
Context {D : Type} `{PortIO D} `{MmioIO D} {A : Type} `{FrameOps A}.
Implicit Types (d : D) (k : kern A).

(** A task that sleeps takes itself off the run queue, where it is not. *)
Lemma sleep_faults k L ms : sched_inv (k_sched k) L → ms ≠ 0 → timer_sleep_ms ms k = None.
Proof.
  intros Hi Hms. unfold timer_sleep_ms. rewrite (proj2 (Z.eqb_neq ms 0)) by done.
  destruct (inv_cur_task _ _ Hi) as (c & Hc & _). rewrite (proj2 (Z.eqb_neq (current_task _) 0)) by (by eapply task_nonzero).
  cbn [negb]. by rewrite (block_current_faults _ L).
Qed.

(** [hda_init] on a machine with an audio controller whose registers are in memory. *)
Lemma hda_start_faults (p : pci D) k L i phys hda_mmio :
  sched_inv (k_sched k) L → hda_find p = Some i →
  pci_bar_is_mmio (pci_devices p i) 0 = Some true → pci_bar_address (pci_devices p i) 0 = Some phys →
  u64 (KERNEL_VIRT_BASE + phys) ≠ 0 → hda_init p hda_mmio k = None.
Proof.
  intros Hi Hf Hm Ha Hv. unfold hda_init, pci_map_bar. rewrite Hf, Hm. cbn [mbind option_bind negb]. rewrite Ha. cbn [mbind option_bind].
  destruct (vmm_map_range _ _ _ _ _ _) as [v|]; [|done]. cbn [mbind option_bind].
  rewrite (proj2 (Z.eqb_neq _ 0) Hv). unfold hda_start. rewrite (sleep_faults _ L); [done| |done]. by destruct Hi; split.
Qed.

(** A beep unlinks the task the same way, with the speaker on. *)
Theorem hda_play_beep_faults k L freq_hz duration_ms d :
  sched_inv (k_sched k) L → freq_hz ≠ 0 → duration_ms ≠ 0 → hda_play_beep freq_hz duration_ms d k = None.
Proof.
  intros Hi Hfr Hms. unfold hda_play_beep, pcspeaker_beep. rewrite (proj2 (Z.eqb_neq freq_hz 0)) by done.
  destruct (inb 0x61 _) as [tmp d1]. by rewrite (sleep_faults k L).
Qed.
End faults.
