(* ===== verification/Locks.v ===== *)
(** Model of kernel/include/spinlock.h: a lock word that several processors test and
    set, and saving of the interrupt flag.

    A processor inside [spin_lock] is at one of its two loops; a step of the system
    is one access to the lock word by one processor.  Properties: mutual exclusion
    in every reachable state, and that a free lock is taken. *)
From stdpp Require Import prelude.
From S2P Require Import Prelude.

(** ** Operations *)

(** [__sync_lock_test_and_set(&l->locked, 1)] *)
Definition test_and_set (locked : Z) : Z * Z := (locked, 1).

(** Where a processor is: outside, at the outer loop of [spin_lock], at the inner
    one, or past it. *)
Inductive lock_pc := Outside | Outer | Inner | Held.

#[export] Instance lock_pc_eq_dec : EqDecision lock_pc.
Proof. solve_decision. Defined.

(** One round of the outer loop's condition. *)
Definition spin_lock_outer (locked : Z) : lock_pc * Z :=
  let '(old, locked) := test_and_set locked in (if negb (old =? 0) then Inner else Held, locked).

(** One round of [while (l->locked) pause]. *)
Definition spin_lock_inner (locked : Z) : lock_pc := if negb (locked =? 0) then Inner else Outer.

Definition spin_trylock (locked : Z) : Z * Z :=
  let '(old, locked) := test_and_set locked in (if old =? 0 then 1 else 0, locked).

Definition spin_unlock (locked : Z) : Z := 0.

(** The flags register: the value saved, and the register with interrupts off. *)
Definition RFLAGS_IF : Z := 0x200.
Definition irq_save (rflags : Z) : Z * Z := (rflags, Z.ldiff rflags RFLAGS_IF).
Definition irq_restore (flags rflags : Z) : Z := flags.

(** ** Processors that use one lock *)

Record lock_state := { locked : Z; pcs : nat → lock_pc }.

Definition SPINLOCK_INIT : lock_state := {| locked := 0; pcs := λ _, Outside |}.

Definition set_pc (i : nat) (p : lock_pc) (v : Z) (s : lock_state) : lock_state :=
  {| locked := v; pcs := λ j, if decide (j = i) then p else pcs s j |}.

(** Only the holder calls [spin_unlock]. *)
Inductive lock_step (s : lock_state) : lock_state → Prop :=
  | Step_call i : pcs s i = Outside → lock_step s (set_pc i Outer (locked s) s)
  | Step_outer i : pcs s i = Outer → lock_step s (let '(p, v) := spin_lock_outer (locked s) in set_pc i p v s)
  | Step_inner i : pcs s i = Inner → lock_step s (set_pc i (spin_lock_inner (locked s)) (locked s) s)
  | Step_try i : pcs s i = Outside →
      lock_step s (let '(r, v) := spin_trylock (locked s) in set_pc i (if r =? 1 then Held else Outside) v s)
  | Step_unlock i : pcs s i = Held → lock_step s (set_pc i Outside (spin_unlock (locked s)) s).

(** The word says whether some processor, and then only one, is past the loop. *)
Definition lock_inv (s : lock_state) : Prop :=
  (locked s = 0 ∧ ∀ i, pcs s i ≠ Held) ∨ (locked s = 1 ∧ ∃ i, ∀ j, pcs s j = Held ↔ j = i).

Lemma set_pc_eq i p v s : pcs (set_pc i p v s) i = p.
Proof. cbn. by rewrite decide_True. Qed.

Lemma set_pc_ne i j p v s : j ≠ i → pcs (set_pc i p v s) j = pcs s j.
Proof. intros Hj. cbn. by rewrite decide_False. Qed.

(** A processor that did not hold the lock and does not get it changes nothing. *)
Lemma inv_move i p s : lock_inv s → pcs s i ≠ Held → p ≠ Held → lock_inv (set_pc i p (locked s) s).
Proof.
  intros Hs Hi Hp. assert (∀ j, pcs (set_pc i p (locked s) s) j = Held ↔ pcs s j = Held) as Hh.
  { intros j. destruct (decide (j = i)) as [->|]; [rewrite set_pc_eq; tauto|by rewrite set_pc_ne]. }
  destruct Hs as [[H0 Hn]|[H1 [k Hk]]].
  - left. split; [done|]. intros j Hj%Hh. by apply (Hn j).
  - right. split; [done|]. exists k. intros j. by rewrite Hh.
Qed.

(** The processor that finds the word 0 is the only one past the loop. *)
Lemma inv_take i s : lock_inv s → locked s = 0 → lock_inv (set_pc i Held 1 s).
Proof.
  intros [[_ Hn]|[H1 _]] H0; [|lia]. right. split; [done|]. exists i. intros j.
  destruct (decide (j = i)) as [->|Hne]; [by rewrite set_pc_eq|]. rewrite set_pc_ne by done. split; [by intros Hj%Hn|done].
Qed.

Lemma lock_inv_step s s' : lock_inv s → lock_step s s' → lock_inv s'.
Proof.
  intros Hs Hstep. assert (locked s = 0 ∨ locked s = 1) as Hv by (destruct Hs as [[? _]|[? _]]; tauto).
  destruct Hstep as [i Hi|i Hi|i Hi|i Hi|i Hi].
  - apply inv_move; [done|congruence|done].
  - cbn. destruct Hv as [Hv|Hv]; rewrite Hv; cbn [Z.eqb negb]; [by apply inv_take|].
    rewrite <-Hv. apply inv_move; [done|congruence|done].
  - apply inv_move; [done|congruence|]. unfold spin_lock_inner. by destruct (locked s =? 0).
  - cbn. destruct Hv as [Hv|Hv]; rewrite Hv; cbn [Z.eqb Pos.eqb]; [by apply inv_take|].
    rewrite <-Hv. apply inv_move; [done|congruence|done].
  - destruct Hs as [[_ Hn]|[_ [k Hk]]]; [by destruct (Hn i)|]. left. split; [done|]. intros j.
    destruct (decide (j = i)) as [->|Hne]; [by rewrite set_pc_eq|]. rewrite set_pc_ne by done. intros Hj.
    apply Hne. apply Hk in Hj, Hi. congruence.
Qed.

(** C35: Mutual exclusion.  However the accesses of any number of processors
    interleave, at most one of them is past [spin_lock] or a successful
    [spin_trylock], and the lock word is 0 exactly when none is.  When it is 0, a
    processor in the outer loop takes the lock with its next access, one in the inner
    loop with two. *)
Theorem spin_lock_exclusive s :
  rtc lock_step SPINLOCK_INIT s →
  (∀ i j, pcs s i = Held → pcs s j = Held → i = j) ∧ (locked s = 0 ↔ ∀ i, pcs s i ≠ Held)
  ∧ (locked s = 0 → ∀ i,
       (pcs s i = Outer → lock_step s (set_pc i Held 1 s))
       ∧ (pcs s i = Inner → ∃ s1, lock_step s s1 ∧ lock_step s1 (set_pc i Held 1 s1))).
Proof.
  intros Hr. assert (lock_inv s) as Hi.
  { assert (lock_inv SPINLOCK_INIT) as H0 by (by left). revert H0. induction Hr as [|x y z Hxy _ IH]; [done|].
    intros Hx. apply IH. by eapply lock_inv_step. }
  split_and!.
  - intros i j H1 H2. destruct Hi as [[_ Hn]|[_ [k Hk]]]; [by destruct (Hn i)|]. apply Hk in H1, H2. congruence.
  - destruct Hi as [[H0 Hn]|[H1 [k Hk]]]; [done|]. split; [lia|]. intros Hn. destruct (Hn k). by apply Hk.
  - intros H0 i. split.
    + intros Hp. pose proof (Step_outer s i Hp) as Hst. by rewrite H0 in Hst.
    + intros Hp. pose proof (Step_inner s i Hp) as Hst. unfold spin_lock_inner in Hst. rewrite H0 in Hst. cbn [Z.eqb negb] in Hst.
      eexists. split; [exact Hst|]. pose proof (Step_outer _ i (set_pc_eq i Outer 0 s)) as Hst'. exact Hst'.
Qed.

Lemma spin_lock_exclusive_witness : ∃ s, rtc lock_step SPINLOCK_INIT s ∧ pcs s 0%nat = Held ∧ pcs s 1%nat = Inner ∧ locked s ≠ 0.
Proof.
  set (s1 := set_pc 0 Outer 0 SPINLOCK_INIT). set (s2 := set_pc 1 Outer 0 s1). set (s3 := set_pc 0 Held 1 s2). set (s4 := set_pc 1 Inner 1 s3).
  assert (rtc lock_step SPINLOCK_INIT s4) as Hr.
  { apply rtc_l with s1; [by apply (Step_call SPINLOCK_INIT 0)|]. apply rtc_l with s2; [by apply (Step_call s1 1)|].
    apply rtc_l with s3; [by apply (Step_outer s2 0)|]. apply rtc_once. by apply (Step_outer s3 1). }
  exists s4. split_and!; [exact Hr|done|done|]. intros H0. exact (proj1 (proj1 (proj2 (spin_lock_exclusive s4 Hr))) H0 0%nat eq_refl).
Defined.
