(* ===== verification/Entry.v ===== *)
(** Model of the assembly through which the processor enters and leaves C code:
    the interrupt stubs of kernel/arch/x86_64/idt_stubs.asm and the first entry of a
    user task, kernel/arch/x86_64/ring3.asm.

    The processor's part (delivery of an interrupt, IRETQ) is that of its manual.
    Properties: an interrupt leaves the interrupted program as it was; a user task
    starts in its own segments with no register of the kernel. *)
From stdpp Require Import prelude.
From S2P Require Import Prelude CString Vmm Sched Ports Irq Gdt.

(** The general registers, in the order [isr_common] pushes them. *)
Inductive gpr := Rax | Rbx | Rcx | Rdx | Rsi | Rdi | Rbp | R8 | R9 | R10 | R11 | R12 | R13 | R14 | R15.

#[export] Instance gpr_eq_dec : EqDecision gpr.
Proof. solve_decision. Defined.

Definition gprs : list gpr := [Rax; Rbx; Rcx; Rdx; Rsi; Rdi; Rbp; R8; R9; R10; R11; R12; R13; R14; R15].

Record cpu := {
  c_gpr : gpr → Z;
  c_rip : Z;
  c_cs : Z;
  c_rflags : Z;
  c_rsp : Z;
  c_ss : Z;
  c_mem : mem;
}.

(** ** Instructions *)

Definition set_gpr (r : gpr) (v : Z) (c : cpu) : cpu :=
  {| c_gpr := λ r', if decide (r' = r) then v else c_gpr c r'; c_rip := c_rip c; c_cs := c_cs c; c_rflags := c_rflags c;
     c_rsp := c_rsp c; c_ss := c_ss c; c_mem := c_mem c |}.

Definition set_stack (sp : Z) (m : mem) (c : cpu) : cpu :=
  {| c_gpr := c_gpr c; c_rip := c_rip c; c_cs := c_cs c; c_rflags := c_rflags c; c_rsp := sp; c_ss := c_ss c; c_mem := m |}.

Definition push (v : Z) (c : cpu) : cpu :=
  let sp := u64 (c_rsp c - 8) in set_stack sp (store64 (c_mem c) sp v) c.

Definition pop (c : cpu) : Z * cpu := (load64 (c_mem c) (c_rsp c), set_stack (u64 (c_rsp c + 8)) (c_mem c) c).

Definition pop_gpr (c : cpu) (r : gpr) : cpu := let '(v, c) := pop c in set_gpr r v c.

Definition iretq (c : cpu) : cpu :=
  let '(rip, c) := pop c in
  let '(cs, c) := pop c in
  let '(rflags, c) := pop c in
  let '(sp, c) := pop c in
  let '(ss, c) := pop c in
  {| c_gpr := c_gpr c; c_rip := rip; c_cs := cs; c_rflags := rflags; c_rsp := sp; c_ss := ss; c_mem := c_mem c |}.

(** Delivery on the stack at [sp0], with the error code of the exceptions that have one. *)
Definition deliver (err : option Z) (sp0 : Z) (c : cpu) : cpu :=
  foldl (λ c v, push v c) (set_stack sp0 (c_mem c) c)
    ([c_ss c; c_rsp c; c_rflags c; c_cs c; c_rip c] ++ match err with Some e => [e] | None => [] end).

(** ** Interrupt stubs *)

(** The vectors of ISR_ERR; all others are ISR_NOERR. *)
Definition isr_err (vec : Z) : bool := bool_decide (vec ∈ [8; 10; 11; 12; 13; 14; 17; 30]).

Definition isr_stub (vec : Z) (c : cpu) : cpu := push vec (if isr_err vec then c else push 0 c).

Definition save_all (c : cpu) : cpu := foldl (λ c r, push (c_gpr c r) c) c gprs.
Definition restore_all (c : cpu) : cpu := foldl pop_gpr c (reverse gprs).

(** [interrupt_frame_t]: the offset of [vec]. *)
Definition FRAME_VEC : Z := 120.
Definition FRAME_SIZE : Z := 176.

Section stubs.
Context {D H X : Type} `{PortIO D} (run : H → irqs D H * (X * mem) → option (irqs D H * (X * mem))).

(** The dispatcher runs on the memory that holds the frame; [clobber] are the
    registers it leaves. *)
Definition isr_common (clobber : gpr → Z) (c : cpu) (q : irqs D H) (x : X) : option (boot_result (cpu * irqs D H * X)) :=
  let c := save_all c in
  let c := set_gpr Rdi (c_rsp c) c in
  r ← isr_dispatch run (load64 (c_mem c) (u64 (c_gpr c Rdi + FRAME_VEC))) (q, (x, c_mem c));
  match r with
  | Halted => Some Halted
  | Running (q, (x, m)) =>
      let c := {| c_gpr := clobber; c_rip := c_rip c; c_cs := c_cs c; c_rflags := c_rflags c; c_rsp := c_rsp c; c_ss := c_ss c;
                  c_mem := m |} in
      let c := restore_all c in
      let c := set_stack (u64 (c_rsp c + 16)) (c_mem c) c in
      Some (Running (iretq c, q, x))
  end.

(** An interrupt or exception, from the interrupted instruction and back. *)
Definition interrupt (clobber : gpr → Z) (vec : Z) (err : option Z) (sp0 : Z) (c : cpu) (q : irqs D H) (x : X) :=
  isr_common clobber (isr_stub vec (deliver err sp0 c)) q x.
End stubs.

(** ** First entry of a user task *)

Definition SEL_USER_CODE : Z := 0x23.
Definition SEL_USER_DATA : Z := 0x1B.

(** The registers zeroed; rcx and rdx hold entry point and stack. *)
Definition zeroed : list gpr := [Rax; Rbx; Rsi; Rdi; R8; R9; R10; R11; R12; R13; R14; R15; Rbp].

(** The answer comes with the selector of the data segments. *)
Definition ring3_enter_first (t : task) (c : cpu) : cpu * Z :=
  let c := set_gpr Rdx (t_user_stack t) (set_gpr Rcx (t_rip_entry t) c) in
  let c := foldl (λ c r, set_gpr r 0 c) c zeroed in
  let c := push SEL_USER_DATA c in
  let c := push (c_gpr c Rdx) c in
  let c := push 0x202 c in
  let c := push SEL_USER_CODE c in
  let c := push (c_gpr c Rcx) c in
  let c := set_gpr Rax SEL_USER_DATA c in
  (iretq c, SEL_USER_DATA).

(** ** The stack *)

Definition pushes (l : list Z) (c : cpu) : cpu := foldl (λ c v, push v c) c l.

(** Values pushed from [sp0] down, the [i]-th at [sp0 - 8 * (i + 1)]. *)
Definition on_stack (m : mem) (sp0 : Z) (l : list Z) : Prop :=
  ∀ i v, l !! i = Some v → load64 m (sp0 - 8 * (Z.of_nat i + 1)) = v.

Lemma pushes_spec l c :
  8 * Z.of_nat (length l) ≤ c_rsp c < 2 ^ 64 → Forall (λ v, 0 ≤ v < 2 ^ 64) l →
  ∃ m, pushes l c = set_stack (c_rsp c - 8 * Z.of_nat (length l)) m c ∧ on_stack m (c_rsp c) l
    ∧ ∀ a, ¬ c_rsp c - 8 * Z.of_nat (length l) ≤ a < c_rsp c → m a = c_mem c a.
Proof.
  revert c. induction l as [|v l IH]; intros c Hr Hl.
  - exists (c_mem c). split_and!; [|by intros i v|done]. destruct c. cbn. by rewrite Z.sub_0_r.
  - apply Forall_cons in Hl as [Hv Hl]. cbn [pushes foldl length] in *. unfold push at 2.
    rewrite (u64_small (c_rsp c - 8)) by lia. set (c1 := set_stack _ _ c).
    destruct (IH c1) as (m & E & Ho & Hm); [cbn [c1 set_stack c_rsp]; lia|done|].
    cbn [c1 set_stack c_rsp c_mem] in E, Ho, Hm. exists m. split_and!.
    + unfold pushes in E. rewrite E. unfold set_stack. cbn. f_equal. lia.
    + intros [|i] w Hi.
      * injection Hi as <-. rewrite (load64_ext m (store64 (c_mem c) (c_rsp c - 8) v)).
        -- replace (c_rsp c - 8 * (Z.of_nat 0 + 1)) with (c_rsp c - 8) by lia. rewrite load_store64_eq. by apply u64_small.
        -- intros a Ha. apply Hm. lia.
      * replace (c_rsp c - 8 * (Z.of_nat (S i) + 1)) with (c_rsp c - 8 - 8 * (Z.of_nat i + 1)) by lia. by apply Ho.
    + intros a Ha. rewrite Hm by lia. apply (store_le_outside 8). cbn. lia.
Qed.

(** The registers of a saved context, by position. *)
Lemma pops_spec rs (vs : list Z) c :
  length vs = length rs → NoDup rs → 0 ≤ c_rsp c → c_rsp c + 8 * Z.of_nat (length rs) < 2 ^ 64 →
  (∀ i v, vs !! i = Some v → load64 (c_mem c) (c_rsp c + 8 * Z.of_nat i) = v) →
  ∃ g, foldl pop_gpr c rs = {| c_gpr := g; c_rip := c_rip c; c_cs := c_cs c; c_rflags := c_rflags c;
                               c_rsp := c_rsp c + 8 * Z.of_nat (length rs); c_ss := c_ss c; c_mem := c_mem c |}
    ∧ (∀ i r v, rs !! i = Some r → vs !! i = Some v → g r = v) ∧ ∀ r, r ∉ rs → g r = c_gpr c r.
Proof.
  revert vs c. induction rs as [|r rs IH]; intros vs c Hlen Hnd H0 H1 Hv.
  - exists (c_gpr c). split_and!; [|by intros i r v|done]. destruct c. cbn. by rewrite Z.add_0_r.
  - destruct vs as [|v vs]; [done|]. injection Hlen as Hlen. apply NoDup_cons in Hnd as [Hr Hnd]. cbn [foldl length] in *.
    unfold pop_gpr at 2, pop. pose proof (Hv 0%nat v eq_refl) as Hv0. rewrite Z.add_0_r in Hv0. rewrite Hv0.
    rewrite u64_small by lia. set (c1 := set_gpr r v _).
    destruct (IH vs c1) as (g & E & Hg & Hn); [done|done|cbn; lia|cbn; lia| |].
    { intros i w Hi. cbn [c1 set_gpr set_stack c_mem c_rsp]. rewrite <-(Hv (S i) w Hi). f_equal. lia. }
    exists g. split_and!.
    + rewrite E. cbn. f_equal. lia.
    + intros [|i] r' w Hi Hw; [|by apply (Hg i)]. injection Hi as <-. injection Hw as <-. rewrite Hn by done. cbn. by rewrite decide_True.
    + intros r' Hr'. rewrite Hn by set_solver. cbn. rewrite decide_False by set_solver. done.
Qed.

Lemma pushes_app l1 l2 c : pushes (l1 ++ l2) c = pushes l2 (pushes l1 c).
Proof. apply foldl_app. Qed.

Lemma pushes_gpr l c : c_gpr (pushes l c) = c_gpr c.
Proof. revert c. induction l as [|v l IH]; intros c; [done|]. cbn [pushes foldl]. exact (IH (push v c)). Qed.

Lemma save_all_pushes c : save_all c = pushes (c_gpr c <$> gprs) c.
Proof.
  unfold save_all. cut (∀ rs c', c_gpr c' = c_gpr c → foldl (λ c r, push (c_gpr c r) c) c' rs = pushes (c_gpr c <$> rs) c').
  { intros Hc. by apply Hc. }
  induction rs as [|r rs IH]; intros c' Hc; [done|]. cbn [foldl fmap list_fmap pushes]. rewrite Hc. by apply IH.
Qed.

(** ** Properties *)

(** Values fit 64-bit registers. *)
Record cpu_ok (c : cpu) : Prop := {
  ok_gpr : ∀ r, 0 ≤ c_gpr c r < 2 ^ 64;
  ok_rip : 0 ≤ c_rip c < 2 ^ 64;
  ok_cs : 0 ≤ c_cs c < 2 ^ 64;
  ok_rflags : 0 ≤ c_rflags c < 2 ^ 64;
  ok_rsp : 0 ≤ c_rsp c < 2 ^ 64;
  ok_ss : 0 ≤ c_ss c < 2 ^ 64;
}.

(** What is on the stack when the dispatcher runs. *)
Definition frame_values (vec : Z) (err : option Z) (c : cpu) : list Z :=
  [c_ss c; c_rsp c; c_rflags c; c_cs c; c_rip c] ++ match err with Some e => [e] | None => [] end
  ++ (if isr_err vec then [vec] else [0; vec]) ++ (c_gpr c <$> gprs).

Lemma frame_pushed vec err sp0 c :
  save_all (isr_stub vec (deliver err sp0 c)) = pushes (frame_values vec err c) (set_stack sp0 (c_mem c) c).
Proof.
  rewrite save_all_pushes. unfold frame_values. rewrite !app_assoc, (pushes_app _ (c_gpr c <$> gprs)).
  assert (isr_stub vec (deliver err sp0 c) = pushes (([c_ss c; c_rsp c; c_rflags c; c_cs c; c_rip c] ++ match err with Some e => [e] | None => [] end)
            ++ (if isr_err vec then [vec] else [0; vec])) (set_stack sp0 (c_mem c) c)) as ->.
  { rewrite pushes_app. unfold isr_stub, deliver. by destruct (isr_err vec). }
  by rewrite pushes_gpr.
Qed.

Lemma frame_length vec err c :
  length (frame_values vec err c) = (20 + match err with Some _ => 1 | None => 0 end + (if isr_err vec then 1 else 2))%nat.
Proof. unfold frame_values. by destruct err, (isr_err vec). Qed.

(** The end of the frame, from the vector on, is the same for all kinds. *)
Lemma frame_tail vec err c i :
  frame_values vec err c !! (length (frame_values vec err c) - 16 + i)%nat = (vec :: (c_gpr c <$> gprs)) !! i.
Proof. rewrite frame_length. unfold frame_values. by destruct err, (isr_err vec). Qed.

Lemma frame_ok vec err c :
  cpu_ok c → 0 ≤ vec < 256 → (∀ e, err = Some e → 0 ≤ e < 2 ^ 64) → Forall (λ v, 0 ≤ v < 2 ^ 64) (frame_values vec err c).
Proof.
  intros [O1 O2 O3 O4 O5 O6] Hv He. unfold frame_values. rewrite !Forall_app. split_and!.
  - by repeat (apply Forall_cons; split; [assumption|]).
  - destruct err as [e|]; [|done]. apply Forall_cons. split; [by apply He|done].
  - destruct (isr_err vec); repeat (apply Forall_cons; split; [lia|]); done.
  - apply Forall_fmap, Forall_forall. intros r _. apply O1.
Qed.

(** Popping the registers of a frame. *)
Lemma restore_spec vec err c sp0 g m :
  let n := Z.of_nat (length (frame_values vec err c)) in
  8 * n ≤ sp0 < 2 ^ 64 → on_stack m sp0 (frame_values vec err c) →
  let c1 := {| c_gpr := g; c_rip := c_rip c; c_cs := c_cs c; c_rflags := c_rflags c; c_rsp := sp0 - 8 * n; c_ss := c_ss c; c_mem := m |} in
  ∃ g', restore_all c1 = {| c_gpr := g'; c_rip := c_rip c; c_cs := c_cs c; c_rflags := c_rflags c; c_rsp := sp0 - 8 * n + 120;
                            c_ss := c_ss c; c_mem := m |} ∧ ∀ r, g' r = c_gpr c r.
Proof.
  intros n Hn Ho c1. pose proof (frame_length vec err c) as Hlen.
  assert (16 ≤ n) as Hn16 by (unfold n; rewrite Hlen; destruct err, (isr_err vec); lia).
  destruct (pops_spec (reverse gprs) (reverse (c_gpr c <$> gprs)) c1) as (g' & E & Hg & _).
  - by rewrite !length_reverse, length_fmap.
  - apply (bool_decide_unpack (NoDup (reverse gprs))). by vm_compute.
  - cbn [c1 c_rsp]. lia.
  - cbn [c1 c_rsp]. rewrite length_reverse. change (length gprs) with 15%nat. lia.
  - intros i v Hi. cbn [c1 c_rsp c_mem]. assert (i < 15)%nat as Hi15 by (apply lookup_lt_Some in Hi; by rewrite length_reverse, length_fmap in Hi).
    rewrite reverse_lookup in Hi by (by rewrite length_fmap). rewrite length_fmap in Hi. change (length gprs) with 15%nat in Hi.
    specialize (Ho (length (frame_values vec err c) - 16 + S (15 - S i))%nat v).
    rewrite frame_tail in Ho. specialize (Ho Hi). rewrite <-Ho. f_equal. unfold n in *. lia.
  - exists g'. split; [exact E|]. intros r. destruct (list_elem_of_lookup_1 gprs r) as [i Hi]; [apply (bool_decide_unpack (r ∈ gprs)); by destruct r; vm_compute|].
    assert (i < 15)%nat as Hi15 by (by apply lookup_lt_Some in Hi).
    apply (Hg (15 - S i)%nat); (rewrite reverse_lookup; [|rewrite ?length_fmap; change (length gprs) with 15%nat; lia]);
      rewrite ?length_fmap; change (length gprs) with 15%nat; replace (15 - S (15 - S i))%nat with i by lia; [done|].
    by rewrite list_lookup_fmap, Hi.
Qed.

(** IRETQ on a stack with five values at [c_rsp c]. *)
Lemma iretq_spec c a1 a2 a3 a4 a5 :
  0 ≤ c_rsp c → c_rsp c + 40 ≤ 2 ^ 64 →
  load64 (c_mem c) (c_rsp c) = a1 → load64 (c_mem c) (c_rsp c + 8) = a2 → load64 (c_mem c) (c_rsp c + 16) = a3 →
  load64 (c_mem c) (c_rsp c + 24) = a4 → load64 (c_mem c) (c_rsp c + 32) = a5 →
  iretq c = {| c_gpr := c_gpr c; c_rip := a1; c_cs := a2; c_rflags := a3; c_rsp := a4; c_ss := a5; c_mem := c_mem c |}.
Proof.
  intros H0 H1 <- <- <- <- <-. unfold iretq, pop. cbn [set_stack c_mem c_rsp c_gpr].
  rewrite (u64_small (c_rsp c + 8)) by lia. rewrite (u64_small (c_rsp c + 8 + 8)) by lia.
  rewrite (u64_small (c_rsp c + 8 + 8 + 8)) by lia. rewrite (u64_small (c_rsp c + 8 + 8 + 8 + 8)) by lia.
  replace (c_rsp c + 8 + 8) with (c_rsp c + 16) by lia. replace (c_rsp c + 16 + 8) with (c_rsp c + 24) by lia.
  by replace (c_rsp c + 24 + 8) with (c_rsp c + 32) by lia.
Qed.

Section properties.
Context {D H X : Type} `{PortIO D} (run : H → irqs D H * (X * mem) → option (irqs D H * (X * mem))).

(** C26: Interrupts are transparent.  Through stub, dispatcher and return every
    general register comes back, whatever the dispatcher leaves in them, and the
    dispatcher gets the vector in an aligned frame.  Where the stub agrees with the
    processor about the error code, the interrupted program goes on where it was,
    with its flags, stack and segments.  A stub without error code for an exception
    that has one (21, #CP) returns to the error code as an address. *)
Theorem interrupt_transparent clobber vec err sp0 c q x q' x' m' :
  cpu_ok c → 0 ≤ vec < 256 → (∀ e, err = Some e → 0 ≤ e < 2 ^ 64) → (isr_err vec = true → is_Some err) → 256 ≤ sp0 < 2 ^ 64 →
  let s := save_all (isr_stub vec (deliver err sp0 c)) in
  isr_dispatch run vec (q, (x, c_mem s)) = Some (Running (q', (x', m'))) → (∀ a, c_rsp s ≤ a < sp0 → m' a = c_mem s a) →
  ∃ c', interrupt run clobber vec err sp0 c q x = Some (Running (c', q', x')) ∧ c_mem c' = m' ∧ (∀ r, c_gpr c' r = c_gpr c r)
    ∧ (isr_err vec = bool_decide (is_Some err) →
       c_rip c' = c_rip c ∧ c_cs c' = c_cs c ∧ c_rflags c' = c_rflags c ∧ c_rsp c' = c_rsp c ∧ c_ss c' = c_ss c
       ∧ c_rsp s = sp0 - FRAME_SIZE)
    ∧ ∀ e, isr_err vec = false → err = Some e → c_rip c' = e.
Proof.
  intros Hok Hvec He Herr Hsp s Hd Hm. set (l := frame_values vec err c). pose proof (frame_length vec err c) as Hlen. fold l in Hlen.
  assert (Z.of_nat (length l) ≤ 23) as Hl23 by (rewrite Hlen; destruct err, (isr_err vec); lia).
  assert (16 ≤ Z.of_nat (length l)) as Hl16 by (rewrite Hlen; destruct err, (isr_err vec); lia).
  destruct (pushes_spec l (set_stack sp0 (c_mem c) c)) as (m & E & Ho & _); [cbn [set_stack c_rsp]; lia|by apply frame_ok|].
  assert (s = set_stack (sp0 - 8 * Z.of_nat (length l)) m c) as Es by (unfold s; by rewrite frame_pushed; fold l; rewrite E).
  cbn [set_stack c_rsp] in Ho. unfold interrupt, isr_common. fold s. rewrite Es in Hd, Hm |- *.
  cbn [set_gpr set_stack c_rsp c_mem c_gpr c_rip c_cs c_rflags c_ss] in Hd, Hm |- *. rewrite decide_True by done.
  assert (load64 m (u64 (sp0 - 8 * Z.of_nat (length l) + FRAME_VEC)) = vec) as ->.
  { pose proof (frame_tail vec err c 0) as Ht. fold l in Ht. rewrite <-(Ho _ _ Ht). f_equal. unfold FRAME_VEC. rewrite u64_small by lia. lia. }
  rewrite Hd. cbn [mbind option_bind]. cbv zeta.
  assert (on_stack m' sp0 l) as Ho'.
  { intros i v Hi. rewrite <-(Ho i v Hi). apply load64_ext. intros a Ha. apply Hm. apply lookup_lt_Some in Hi. lia. }
  destruct (restore_spec vec err c sp0 clobber m') as (g & Er & Hg); [fold l; lia|exact Ho'|]. fold l in Er. cbv zeta in Er |- *. rewrite Er.
  cbn [set_stack c_rsp c_mem c_gpr c_rip c_cs c_rflags c_ss]. rewrite u64_small by lia.
  set (c1 := set_stack (sp0 - 8 * Z.of_nat (length l) + 120 + 16) m' _).
  assert (c_mem (iretq c1) = m' ∧ c_gpr (iretq c1) = g) as [Em Eg] by (by split).
  exists (iretq c1). split_and!; [done|done|intros r; by rewrite Eg| |].
  - intros Hb. assert (Z.of_nat (length l) = 22) as H22 by (rewrite Hlen; destruct err, (isr_err vec); done).
    assert (∀ i v, l !! i = Some v → load64 m' (sp0 - 8 * (Z.of_nat i + 1)) = v) as Hv by exact Ho'.
    rewrite (iretq_spec c1 (c_rip c) (c_cs c) (c_rflags c) (c_rsp c) (c_ss c)); cbn [c1 set_stack c_rsp c_mem]; rewrite ?H22.
    + split_and!; try done.
    + lia.
    + lia.
    + rewrite <-(Hv 4%nat (c_rip c) eq_refl). f_equal. lia.
    + rewrite <-(Hv 3%nat (c_cs c) eq_refl). f_equal. lia.
    + rewrite <-(Hv 2%nat (c_rflags c) eq_refl). f_equal. lia.
    + rewrite <-(Hv 1%nat (c_rsp c) eq_refl). f_equal. lia.
    + rewrite <-(Hv 0%nat (c_ss c) eq_refl). f_equal. lia.
  - intros e Hn ->. assert (Z.of_nat (length l) = 23) as H23 by (rewrite Hlen, Hn; done).
    transitivity (load64 m' (c_rsp c1)); [done|]. rewrite <-(Ho' 5%nat e); [|done]. f_equal. cbn [c1 set_stack c_rsp]. rewrite H23. lia.
Qed.
End properties.

(** First entry of a user task.  The processor leaves the kernel at the task's entry
    point on its user stack, with interrupts on, in the flat ring 3 segments that
    [gdt_init] made; no register holds a value of the kernel.  Below the kernel's
    stack pointer 40 bytes change. *)
Theorem ring3_entry_correct t c gdt_addr tss_addr g :
  0 ≤ t_rip_entry t < 2 ^ 64 → 0 ≤ t_user_stack t < 2 ^ 64 → 40 ≤ c_rsp c < 2 ^ 64 →
  let '(c', ds) := ring3_enter_first t c in
  let m := gdt_raw (gdt_init gdt_addr tss_addr g) in
  c_rip c' = t_rip_entry t ∧ c_rsp c' = t_user_stack t ∧ Z.testbit (c_rflags c') 9 = true ∧ Z.land (Z.shiftr (c_rflags c') 12) 3 = 0
  ∧ (flat_segment m (c_cs c') true 3 ∧ flat_segment m (c_ss c') false 3 ∧ flat_segment m ds false 3)
  ∧ (∀ r, c_gpr c' r ∈ [0; SEL_USER_DATA; t_rip_entry t; t_user_stack t])
  ∧ ∀ a, ¬ c_rsp c - 40 ≤ a < c_rsp c → c_mem c' a = c_mem c a.
Proof.
  intros Hr Hu Hs. unfold ring3_enter_first. set (c0 := foldl _ _ zeroed).
  set (l := [SEL_USER_DATA; t_user_stack t; 0x202; SEL_USER_CODE; t_rip_entry t]).
  destruct (pushes_spec l c0) as (m & E & Ho & Hm);
    [change (c_rsp c0) with (c_rsp c); change (length l) with 5%nat; lia| |].
  { repeat (apply Forall_cons; split; [unfold SEL_USER_DATA, SEL_USER_CODE; lia|]); done. }
  change (c_rsp c0) with (c_rsp c) in E, Ho, Hm. change (8 * Z.of_nat (length l)) with 40 in E, Hm.
  change (push (c_gpr _ Rcx) _) with (pushes l c0). rewrite E. set (c1 := set_gpr Rax SEL_USER_DATA _).
  rewrite (iretq_spec c1 (t_rip_entry t) SEL_USER_CODE 0x202 (t_user_stack t) SEL_USER_DATA); cbn [c1 set_gpr set_stack c_rsp c_mem].
  - destruct (gdt_init_flat gdt_addr tss_addr g) as (_ & _ & F3 & F4 & _).
    cbn [c_rip c_rsp c_rflags c_cs c_ss c_gpr c_mem]. split_and!; [done|done|done|done|exact F4|exact F3|exact F3| |exact Hm].
    intros r. destruct r; cbn; set_solver.
  - lia.
  - lia.
  - exact (Ho 4%nat _ eq_refl).
  - rewrite <-(Ho 3%nat _ eq_refl). f_equal. lia.
  - rewrite <-(Ho 2%nat _ eq_refl). f_equal. lia.
  - rewrite <-(Ho 1%nat _ eq_refl). f_equal. lia.
  - rewrite <-(Ho 0%nat _ eq_refl). f_equal. lia.
Qed.

(** ** A sample interrupt *)

#[local] Instance quiet_ports : PortIO unit := {| port_in _ _ d := (0, d); port_out _ _ _ d := d |}.

(** A handler for page faults that only counts. *)
Definition sample_irqs : irqs unit nat :=
  {| iq_dev := tt; idt := λ _, {| off_low := 0; gate_cs := 0; gate_ist := 0; gate_attr := 0; off_mid := 0; off_high := 0 |};
     handlers := λ v, if v =? 14 then Some (Isr 1%nat) else None; irq_handlers := λ _, None |}.

Definition sample_run (n : nat) (qs : irqs unit nat * (nat * mem)) : option (irqs unit nat * (nat * mem)) :=
  let '(q, (x, m)) := qs in Some (q, (x + n, m)%nat).

Definition sample_cpu : cpu :=
  {| c_gpr := λ r, if decide (r = Rbx) then 77 else 5; c_rip := 0x400000; c_cs := 0x23; c_rflags := 0x202; c_rsp := 0x7000; c_ss := 0x1B;
     c_mem := λ _, 0 |}.

Lemma interrupt_transparent_witness :
  ∃ c', interrupt sample_run (λ _, 9) 14 (Some 6) 0x9000 sample_cpu sample_irqs 0%nat = Some (Running (c', sample_irqs, 1%nat))
    ∧ c_gpr c' Rbx = 77 ∧ c_rip c' = 0x400000.
Proof.
  destruct (interrupt_transparent sample_run (λ _, 9) 14 (Some 6) 0x9000 sample_cpu sample_irqs 0%nat sample_irqs 1%nat
              (c_mem (save_all (isr_stub 14 (deliver (Some 6) 0x9000 sample_cpu))))) as (c' & E & _ & Hg & Hc & _).
  - split; [intros r; cbn; by destruct (decide (r = Rbx))|..]; by vm_compute.
  - lia.
  - intros e [= <-]. lia.
  - done.
  - lia.
  - reflexivity.
  - done.
  - exists c'. split_and!; [exact E|exact (Hg Rbx)|exact (proj1 (Hc eq_refl))].
Defined.
