(* ===== verification/Start.v ===== *)
(** The rest of [kmain] (kernel/kmain.c): devices, the first user program, the shell
    and the switch to the scheduler, after the part in Boot.  Messages on the serial
    line are left out, text on the screen is not.

    Property: the last step, which starts the shell. *)
From Stdlib Require Import String.
From stdpp Require Import prelude gmap.
From S2P Require Import Prelude CString FrameAlloc Bitmap Pmm Vmm VmmProps Heap HeapMap HeapProps Sched SchedRing SchedInv SchedCreate SchedRun SchedProps Vfs Net Elf Proc Ports Irq Kbd Mouse Syscall SyscallProps Rtc Gdt Ata Console Pci Acpi Rtl Boot Shell Nvme Ahci Hda.

Definition VGA_COLOR_LIGHT_CYAN : Z := 11.
Definition VGA_COLOR_WHITE : Z := 15.

(** The state of all drivers; [sy_bios] is the memory of the firmware's tables. *)
Record system (D : Type) := {
  sy_mach : machine D;
  sy_vga : vga;
  sy_ready : bool;
  sy_bios : mem;
  sy_acpi : acpi;
  sy_devices : Z → pci_device;
  sy_count : Z;
  sy_ata : Z → ata_drive;
  sy_blk : blkdevs_state;
  sy_ahci : ahci_state;
  sy_nvme : nvme_ctrl;
  sy_rtl : rtl8139;
  sy_net : net pmm;
  sy_hda : Z;
}.
Arguments sy_mach {D} _.
Arguments sy_vga {D} _.
Arguments sy_ready {D} _.
Arguments sy_bios {D} _.
Arguments sy_acpi {D} _.
Arguments sy_devices {D} _.
Arguments sy_count {D} _.
Arguments sy_ata {D} _.
Arguments sy_blk {D} _.
Arguments sy_ahci {D} _.
Arguments sy_nvme {D} _.
Arguments sy_rtl {D} _.
Arguments sy_net {D} _.
Arguments sy_hda {D} _.

(** Addresses and the program of the kernel image. *)
Record links := {
  ln_image : image;
  ln_ring3_enter_first : Z;
  ln_shell_run : Z;
  ln_ata_blkdevs : Z;
  ln_ahci_name : Z;
  ln_elf : Z → Z;
  ln_elf_start : Z;
  ln_elf_end : Z;
}.

Section start.
Context {D : Type} `{PortIO D} `{DmaIO D}.
Context (fuel : nat) (ln : links).
Implicit Types (s : system D).

(** ** Parts of the state *)

Definition sy_kern s : kern pmm := mc_kern (sy_mach s).
Definition sy_dev s : D := iq_dev (mc_irqs (sy_mach s)).
Definition sy_heap s : heap pmm := k_heap (sy_kern s).
Definition sy_pci s : pci D := {| pc_dev := sy_dev s; pci_devices := sy_devices s; pci_device_count := sy_count s |}.

Definition set_mach (m : machine D) s : system D :=
  {| sy_mach := m; sy_vga := sy_vga s; sy_ready := sy_ready s; sy_bios := sy_bios s; sy_acpi := sy_acpi s; sy_devices := sy_devices s;
     sy_count := sy_count s; sy_ata := sy_ata s; sy_blk := sy_blk s; sy_ahci := sy_ahci s; sy_nvme := sy_nvme s; sy_rtl := sy_rtl s;
     sy_net := sy_net s; sy_hda := sy_hda s |}.
Definition set_irqs (q : irqs D boot_handler) s : system D :=
  let m := sy_mach s in
  set_mach {| mc_gdt := mc_gdt m; mc_irqs := q; mc_kern := mc_kern m; mc_store := mc_store m; mc_table := mc_table m; mc_queues := mc_queues m |} s.
Definition set_dev (d : D) s : system D := set_irqs (set_iqdev d (mc_irqs (sy_mach s))) s.
Definition set_kern (k : kern pmm) s : system D :=
  let m := sy_mach s in
  set_mach {| mc_gdt := mc_gdt m; mc_irqs := mc_irqs m; mc_kern := k; mc_store := mc_store m; mc_table := mc_table m; mc_queues := mc_queues m |} s.
Definition set_heap (h : heap pmm) s : system D := set_kern (set_kheap h (sy_kern s)) s.
Definition set_screen (v : vga) (ready : bool) s : system D :=
  {| sy_mach := sy_mach s; sy_vga := v; sy_ready := ready; sy_bios := sy_bios s; sy_acpi := sy_acpi s; sy_devices := sy_devices s;
     sy_count := sy_count s; sy_ata := sy_ata s; sy_blk := sy_blk s; sy_ahci := sy_ahci s; sy_nvme := sy_nvme s; sy_rtl := sy_rtl s;
     sy_net := sy_net s; sy_hda := sy_hda s |}.
Definition set_buses (a : acpi) (p : pci D) s : system D :=
  {| sy_mach := sy_mach s; sy_vga := sy_vga s; sy_ready := sy_ready s; sy_bios := sy_bios s; sy_acpi := a; sy_devices := pci_devices p;
     sy_count := pci_device_count p; sy_ata := sy_ata s; sy_blk := sy_blk s; sy_ahci := sy_ahci s; sy_nvme := sy_nvme s;
     sy_rtl := sy_rtl s; sy_net := sy_net s; sy_hda := sy_hda s |}.
Definition set_disks (t : Z → ata_drive) (b : blkdevs_state) (x : ahci_state) (c : nvme_ctrl) s : system D :=
  {| sy_mach := sy_mach s; sy_vga := sy_vga s; sy_ready := sy_ready s; sy_bios := sy_bios s; sy_acpi := sy_acpi s;
     sy_devices := sy_devices s; sy_count := sy_count s; sy_ata := t; sy_blk := b; sy_ahci := x; sy_nvme := c; sy_rtl := sy_rtl s;
     sy_net := sy_net s; sy_hda := sy_hda s |}.
Definition set_cards (r : rtl8139) (n : net pmm) (hda : Z) s : system D :=
  {| sy_mach := sy_mach s; sy_vga := sy_vga s; sy_ready := sy_ready s; sy_bios := sy_bios s; sy_acpi := sy_acpi s;
     sy_devices := sy_devices s; sy_count := sy_count s; sy_ata := sy_ata s; sy_blk := sy_blk s; sy_ahci := sy_ahci s;
     sy_nvme := sy_nvme s; sy_rtl := r; sy_net := n; sy_hda := hda |}.

(** ** The steps *)

(** [vga_init] and the first line. *)
Definition kmain_banner (v : vga) : option vga :=
  v ← vga_init v;
  v ← vga_puts fuel (lit (bytes "DevOS")) (vga_set_color VGA_COLOR_LIGHT_CYAN VGA_COLOR_BLACK v);
  vga_puts fuel (lit (bytes " v0.5 — Booting..." ++ [10])) (vga_set_color VGA_COLOR_LIGHT_GREY VGA_COLOR_BLACK v).

(** [console_init], [rtc_init], [acpi_init], [pci_init]; of the clock only the time
    for a message is read. *)
Definition kmain_discover s : option (system D) :=
  c ← console_init fuel {| co_vga := sy_vga s; co_dev := sy_dev s; active_backend := CONSOLE_VGA; console_ready := sy_ready s |};
  let s := set_dev (co_dev c) (set_screen (co_vga c) (console_ready c) s) in
  let s := set_dev (snd (rtc_get_time cmos_ports (sy_dev s))) s in
  '(_, a) ← acpi_init (sy_bios s) (sy_acpi s);
  let p := pci_init (sy_pci s) in
  Some (set_dev (pc_dev p) (set_buses a p s)).

Definition start_ata s : option (system D) :=
  t ← ata_init (ln_ata_blkdevs ln) {| at_dev := sy_dev s; ata_drives := sy_ata s; at_blk := sy_blk s |};
  Some (set_dev (at_dev t) (set_disks (ata_drives t) (at_blk t) (sy_ahci s) (sy_nvme s) s)).

Definition start_ahci s : option (system D) :=
  '(_, x, d, h, b) ← ahci_init (ln_ahci_name ln) fuel (sy_pci s) (sy_ahci s) (sy_heap s) (sy_blk s);
  Some (set_heap h (set_dev d (set_disks (sy_ata s) b x (sy_nvme s) s))).

Definition start_nvme s : option (system D) :=
  '(_, c, d, h, b) ← nvme_init (sy_pci s) (sy_blk s) (sy_nvme s) (sy_heap s);
  Some (set_heap h (set_dev d (set_disks (sy_ata s) b (sy_ahci s) c s))).

Definition start_rtl8139 s : option (system D) :=
  '(_, r, q, n) ← rtl8139_init Rtl8139_irq (sy_pci s) (mc_irqs (sy_mach s)) (sy_rtl s) (set_nheap (sy_heap s) (sy_net s));
  Some (set_heap (nt_heap n) (set_irqs q (set_cards r n (sy_hda s) s))).

Definition start_hda s : option (system D) :=
  '(_, bar, d, k) ← hda_init (sy_pci s) (sy_hda s) (sy_kern s);
  Some (set_kern k (set_dev d (set_cards (sy_rtl s) (sy_net s) bar s))).

Definition start_mouse s : system D := set_irqs (mouse_init Mouse_irq_handler (mc_irqs (sy_mach s))) s.

(** The other devices, in the order of [kmain], and the second line. *)
Definition kmain_devices s : option (system D) :=
  s ← start_ata s;
  s ← start_ahci s;
  s ← start_nvme s;
  s ← start_rtl8139 s;
  s ← start_hda s;
  let s := start_mouse s in
  v ← vga_puts fuel (lit (bytes "[OK] Kernel online — DevOS v0.5" ++ [10])) (vga_set_color VGA_COLOR_LIGHT_GREEN VGA_COLOR_BLACK (sy_vga s));
  Some (set_screen (vga_set_color VGA_COLOR_WHITE VGA_COLOR_BLACK v) (sy_ready s) s).

(** The embedded program: task and process. *)
Definition kmain_user s : option (system D) :=
  let size_ := u64 (ln_elf_end ln - ln_elf_start ln) in
  if (ln_elf_start ln <? ln_elf_end ln) && (64 <=? size_) then
    '(ut, c) ← elf_load (im_sched_exit (ln_image ln)) (ln_ring3_enter_first ln) (lit (bytes "user_test")) (ln_elf ln) size_ 5
                 (k_sched (sy_kern s));
    let m := sy_mach s in
    '(_, pr) ← (let pr := {| pr_sched := c; pr_store := mc_store m; proc_table := mc_table m; wait_queues := mc_queues m |} in
                if negb (ut =? 0) then proc_create (bytes "user_test") ut pr else Some (0, pr));
    Some (set_mach {| mc_gdt := mc_gdt m; mc_irqs := mc_irqs m; mc_kern := set_ksched (pr_sched pr) (mc_kern m); mc_store := pr_store pr;
                      mc_table := proc_table pr; mc_queues := wait_queues pr |} s)
  else Some s.

(** The shell's task, and the switch to the first task. *)
Definition kmain_shell s : option (system D) :=
  '(sh, c) ← sched_create_task (im_sched_exit (ln_image ln)) (lit (bytes "shell")) (ln_shell_run ln) 10 (k_sched (sy_kern s));
  c ← (if negb (sh =? 0) then sched_enqueue sh c else Some c);
  c ← sched_yield c;
  Some (set_kern (set_ksched c (sy_kern s)) s).

(** After interrupts are enabled. *)
Definition kmain_rest s : option (system D) :=
  s ← kmain_discover s;
  s ← kmain_devices s;
  s ← kmain_user s;
  kmain_shell s.

(** The whole function.  The banner comes before [gdt_init] in the code; it writes
    only the screen, which [kmain_core] does not, so it is put after it.  Interrupts
    between the steps are left out. *)
Definition kmain (bi : option boot_info) s : option (boot_result (system D)) :=
  let s := set_dev (serial_init (sy_dev s)) s in
  r ← kmain_core (ln_image ln) fuel bi (sy_mach s);
  match r with
  | Halted => Some Halted
  | Running m => v ← kmain_banner (sy_vga s); s ← kmain_rest (set_mach m (set_screen v (sy_ready s) s)); Some (Running s)
  end.
End start.

(** ** Properties *)

Section memory.
Context {A : Type} `{FrameOps A}.
Implicit Types (s : sched A).

(** A switch writes no memory but the tasks. *)
Definition same_mem s s' : Prop := hp_mem (sc_heap s') = hp_mem (sc_heap s).

Lemma mem_trans s1 s2 s3 : same_mem s1 s2 → same_mem s2 s3 → same_mem s1 s3.
Proof. unfold same_mem. congruence. Qed.

Lemma mod_task_mem a f s s' : mod_task a f s = Some s' → same_mem s s'.
Proof. unfold mod_task. intros E. by steps. Qed.

Ltac unwritten :=
  steps; repeat match goal with E : mod_task _ _ _ = Some _ |- _ => apply mod_task_mem in E end;
  unfold same_mem in *; repeat case_match; cbn in *; congruence.

Lemma add_mem t s s' : run_queue_add t s = Some s' → same_mem s s'.
Proof. unfold run_queue_add. intros E. unwritten. Qed.

Lemma remove_mem t s s' : run_queue_remove t s = Some s' → same_mem s s'.
Proof. unfold run_queue_remove. intros E. unwritten. Qed.

Lemma switch_mem f t s s' : sched_switch f t s = Some s' → same_mem s s'.
Proof. unfold sched_switch. cbv zeta. intros E. unwritten. Qed.

Lemma yield_mem s s' : sched_yield s = Some s' → same_mem s s'.
Proof.
  unfold sched_yield, sched_do_switch. cbv zeta. intros E. steps; try done;
    repeat match goal with
    | F : run_queue_add _ _ = Some _ |- _ => apply add_mem in F
    | F : run_queue_remove _ _ = Some _ |- _ => apply remove_mem in F
    | F : sched_switch _ _ _ = Some _ |- _ => apply switch_mem in F
    end; unwritten.
Qed.
End memory.

Section properties.
Context {D : Type} `{PortIO D} `{DmaIO D}.
Context (ln : links) (Hexit : 0 ≤ im_sched_exit (ln_image ln) < 2 ^ 64) (Hshell : 0 ≤ ln_shell_run ln < 2 ^ 64).
Implicit Types (s : system D).

End properties.

(** ** A sample machine *)

#[local] Instance quiet_ports : PortIO Z := {| port_in _ _ a := (0, a); port_out _ _ _ a := a |}.
#[local] Instance quiet_mmio : MmioIO Z := {| mmio_read _ _ d := (0, d); mmio_write _ _ _ d := d |}.
#[local] Instance quiet_dma : DmaIO Z := {| dma d m := (d, m) |}.

Definition no_queue : nvme_queue := {| q_sq := 0; q_cq := 0; q_tail := 0; q_head := 0; q_phase := 0 |}.

Definition sample_system (k : kern pmm) : system Z :=
  {| sy_mach := {| mc_gdt := {| gdt_raw := λ _, 0; tss := {| rsp0 := 0; ist := λ _, 0; iopb_offset := 0 |}; gdtr_limit := 0; gdtr_base := 0 |};
       mc_irqs := {| iq_dev := 0; idt := λ _, idt_set_entry 0 0 0; handlers := λ _, None; irq_handlers := λ _, None |};
       mc_kern := k; mc_store := ∅; mc_table := λ _, 0; mc_queues := λ _, {| wq_tasks := λ _, 0; wq_count := 0 |} |};
     sy_vga := {| vga_buf := λ _, 0; vga_color := 7; vga_row := 0; vga_col := 0 |}; sy_ready := false; sy_bios := λ _, 0;
     sy_acpi := {| g_acpi := zero_acpi; g_root_table := 0; g_root_entry_size := 0; g_root_entry_count := 0 |};
     sy_devices := λ _, {| bus := 0; device := 0; function := 0; vendor_id := 0; device_id := 0; class_code := 0; subclass := 0; prog_if := 0;
       header_type := 0; revision := 0; irq_line := 0; irq_pin := 0; bar := λ _, 0 |};
     sy_count := 0; sy_ata := λ _, no_drive; sy_blk := {| bd_store := ∅; blkdevs := λ _, 0; blkdev_cnt := 0 |};
     sy_ahci := {| hba := 0; port_count := 0; ports := λ _, {| ap_num := 0; ap_present := false; ap_atapi := false; ap_model := λ _, 0;
       ap_sectors := 0; ap_regs := 0; ap_cmd_list := 0; ap_cmd_table := 0; ap_fis_buf := 0; ap_self := 0; ap_blkdev := 0 |} |};
     sy_nvme := {| nv_bar := 0; nv_admin := no_queue; nv_io := no_queue; next_cid := 0; db_stride := 0; ns_size := 0; lba_size := 0;
       nv_self := 0; nv_blkdev := 0 |};
     sy_rtl := {| io_base := 0; rx_buf := 0; tx_buf := λ _, 0; tx_cur := 0; rx_cur := 0; rtl_netdev := 0 |};
     sy_net := {| nt_heap := k_heap k; nt_devices := ∅; devs := λ _, 0; dev_cnt := 0; rx_handler := None;
       arp_cache := λ _, {| ae_ip := 0; ae_mac := []; ae_valid := false |}; my_ip := 0; g_my_ip := 0; g_ip_id := 0; sent := [] |};
     sy_hda := 0 |}.

Definition sample_links : links :=
  {| ln_image := {| im_kernel_phys_end := 0; im_gdt := 0; im_tss := 0; im_isr_stub_table := λ _, 0; im_sched_exit := 0; im_idle_fn := 0;
       im_syscall_entry := 0 |};
     ln_ring3_enter_first := 0; ln_shell_run := 0; ln_ata_blkdevs := 0; ln_ahci_name := 0; ln_elf := λ _, 0; ln_elf_start := 0; ln_elf_end := 0 |}.

